(* ===== verification/_CoqProject ===== *)
-Q . S2P
Prelude.v
PyStr.v
PyData.v
Task.v
Budget.v
LoopControl.v
Policy.v
LlmSchemas.v
PyFloat.v
LlmProviders.v
LlmGateway.v
LlmGatewayFacts.v
Runtime.v
Dispatch.v
Obligations.v
Workflow.v
WorkflowFacts.v
ProjectModel.v
ProjectRows.v
ProjectRepo.v
Governance.v
GovernanceFacts.v
Ingress.v
Admission.v
AdmissionFacts.v
OwnerCommands.v
CommStore.v
CommDelivery.v
CommFacts.v
Callbacks.v
AuditTrail.v
Conversation.v
Artifacts.v
ArtifactFacts.v
Tools.v
ToolFacts.v
ReadTools.v
ReadToolFacts.v
LlmDispatch.v
LlmDispatchFacts.v
ProjectSpaces.v
SpaceFacts.v
AgentBase.v
AgentRegistry.v
OfficeFacts.v
Oversight.v
OversightFacts.v
Grammar.v
GrammarFacts.v
Secretary.v
Executive.v
Workforce.v
ExecutiveFacts.v
Team.v
ProjectManager.v
TeamFacts.v
Prompts.v
Advisors.v
DiscordIngress.v
DiscordFacts.v
GovernanceApi.v
ApiFacts.v
QueryApi.v
DiscordBridge.v
DiscordWorker.v
DiscordOrder.v
WorkerFacts.v
OrderFacts.v
RegistryFacts.v
RedisStore.v
CommRepo.v
Startup.v
Admin.v
Release.v
Sandbox.v
