(* ===== verification/Prelude.v ===== *)
(** * OpenQilin: a verification library

    OpenQilin runs commands of an owner and of AI agents as governed tasks: a
    command is stored as a task, a worker takes it through a policy decision and
    the obligations of that decision, and dispatches it to a sandbox, an LLM, a
    communication channel or a specialist agent.  Projects have a lifecycle that
    only certain roles may advance, and a token and currency budget.  This
    library translates that core from the Python sources under
    [src/src/openqilin/] (paths below are relative to it) and proves what it
    guarantees, and where it does not.

    ** How the model reads

    A method that reads and writes state, and may raise, is a computation of
    [Prelude.M S A := S -> outcome A * S]; state written before a [raise] stays
    written, [try] models [except] clauses, and [exn] has one constructor per
    exception class.  A database table is a finite map of rows, [str] is
    [string] of Latin-1 characters, [int] is [Z], [float] is [spec_float]; a
    [NUMERIC(12,6)] or [BIGINT] column has its rounding and its range.  Clocks,
    random identifiers, third-party packages and services are parameters or
    class instances, never constants: theorems hold for all of their answers.

    ** Files

    - [Prelude]: the exception and state monad, [post] (postconditions),
      [tracks] (a relation kept by every run), reflexive transitive closure,
      truthiness; the hint database [tracks] and its tactic [tracks_auto].
    - [PyStr], [PyData]: [strip], [lower], [split], [sorted], [repr]; instants
      with [isoformat]/[fromisoformat] and JSON documents.
    - [Task]: the tasks table ([PostgresTaskRepository]), the transition guard
      ([state/transition_guard.py]) and [services/lifecycle_service.py].
    - [Budget]: [budget_runtime/] and the budget repository; class
      [BudgetRuntimeClient], with the PostgreSQL and simulation clients as
      instances, is the interface the reservation service is proved against;
      [account_of] is the abstract view the PostgreSQL client refines.
    - [LoopControl]: hop and pair-round caps ([task_orchestrator/loop_control.py]).
    - [Policy]: [policy_runtime_integration/] without the obligations: the
      normalizer, the OPA client over any HTTP library, the rego bundle
      translated rule by rule, the in-memory client, the fail-closed guard.
    - [LlmSchemas], [Runtime]: the records of the LLM gateway and of dispatch;
      the classes for clocks, audit, metrics, adapters and sandbox profiles; the
      worker's whole state [world].
    - [Dispatch]: [TaskDispatchService] ([services/task_service.py]) and the
      local sandbox adapter.
    - [Obligations]: the four obligation handlers and their dispatcher.
    - [Workflow], [WorkflowFacts]: the graph nodes and routes, the graph over the
      interface [GraphRuntime] of LangGraph, [process_task] and
      [drain_queued_tasks] of [apps/orchestrator_worker.py].
    - [ProjectModel], [ProjectRows], [ProjectRepo], [Governance],
      [GovernanceFacts]: project lifecycle and templates, the projects table and
      its JSON columns, [PostgresProjectRepository], and
      [control_plane/handlers/governance_handler.py] with the charter files.
    - [Ingress], [Admission], [AdmissionFacts], [OwnerCommands]: the owner-command
      endpoint from the signature of the connector to the stored task:
      [control_plane/identity/], [control_plane/schemas/owner_commands.py],
      [control_plane/idempotency/], [task_orchestrator/admission/],
      [control_plane/api/startup_recovery.py] and
      [control_plane/routers/owner_commands.py].
    - [CommStore], [CommDelivery], [CommFacts]: [communication_gateway/] (ledger,
      delivery store, retries, dead letters, publisher, validators) over the
      interface [AcpClient], and [dispatch/communication_dispatch.py].
    - [Callbacks]: [task_orchestrator/callbacks/] and the outcome notifier.
    - [AuditTrail]: [observability/audit/audit_writer.py] and its repository.
    - [Artifacts], [ArtifactFacts]: governance artifacts
      ([data_access/repositories/artifacts.py], the PostgreSQL repository and
      [data_access/artifact_file_store.py]).
    - [Conversation]: conversation turns and window summaries; class
      [ConversationStore] with the in-memory and PostgreSQL stores.
    - [Tools], [ToolFacts], [ReadTools], [ReadToolFacts]:
      [execution_sandbox/tools/] over the governance, artifact, task,
      communication and conversation components, and [retrieval_runtime/].
    - [PyFloat], [LlmProviders], [LlmGateway], [LlmGatewayFacts]:
      [llm_gateway/]: provider adapters over the interface [HttpClient], class
      [LiteLLMProvider], routing, accounting and the gateway service.
    - [LlmDispatch], [LlmDispatchFacts]: the LLM dispatch adapter
      ([task_orchestrator/dispatch/llm_dispatch.py]), which composes the tools,
      the conversation store and the gateway.
    - [ProjectSpaces], [SpaceFacts]: [project_spaces/]: channel bindings over
      the interfaces [DiscordApi] and [DbFaults].
    - [Grammar], [GrammarFacts]: [control_plane/grammar/] and
      [control_plane/advisory/]: command parser, intent classifier, routers.
    - [AgentBase], [OfficeFacts]: what the agents of [agents/] share; their
      common state is [office] (tasks, projects, artifacts, agent registry and
      the outside world), and [files] describes what a call adds to the
      artifacts.
    - [AgentRegistry]: the agents table.
    - [Secretary], [Executive], [Workforce], [ExecutiveFacts]: secretary, CSO,
      CEO, CWO and the workforce initializer, each calling the others as the
      code does.
    - [Oversight], [OversightFacts]: auditor and administrator.
    - [Team], [ProjectManager], [TeamFacts]: specialist, domain leader and
      project manager, over [Dispatch] through the state [backoffice]; [TeamFacts]
      also has the secretary's theorem.
    - [Prompts], [Advisors]: the agents' prompt texts, and the agents as
      [control_plane/api/dependencies.py] builds them.
    - [DiscordIngress], [DiscordFacts]: the Discord endpoint
      ([control_plane/routers/discord_ingress.py]), which composes [Grammar],
      [ProjectSpaces], the agents and [OwnerCommands].

    - [DiscordBridge], [DiscordWorker], [DiscordOrder], [WorkerFacts],
      [RegistryFacts], [OrderFacts]: the bots ([discord_runtime/],
      [apps/discord_bot_worker.py]) over the interfaces [BotWorld] and
      [BotRegistry]: from a message to a signed payload for [DiscordIngress], and
      the coroutines that deliver several bots' answers in order.

    - [GovernanceApi], [ApiFacts]: the endpoints of
      [control_plane/routers/governance.py] and [owner_discussions.py] over
      [Governance] and [ProjectSpaces]; [QueryApi]: those of [queries.py].

    - [RedisStore], [CommRepo]: the Redis idempotency store and the PostgreSQL
      repositories of messages and dead letters
      ([data_access/repositories/postgres/]), with the transactions of an update.
    - [Startup]: what happens before a process serves: [shared_kernel/doctor.py]
      and [startup_validation.py], [control_plane/api/app.py],
      [build_runtime_services] and the starts of the workers, over the class
      [Infrastructure]; [Admin]: [apps/admin_cli.py] over [AdminWorld].
    - [Release]: [release_readiness/] and [observability/] (gate matrix, artifact
      packaging, dashboards, alert rules, alert emitter).
    - [Sandbox]: [execution_sandbox/profiles/], an instance of the class
      [SandboxProfiles] of [Runtime].

    ** What the theorems show

    - Worker: [dispatched_only_if_allowed], [bundle_dispatch_is_paid] (under the
      shipped bundle a dispatched task has a paid reservation and a permitted
      command), [drain_empties_queue], [obligation_recheck_ignores_decision].
    - Tasks: [task_rows_follow_lifecycle], [update_task_status_guarded].  Dispatch: [dispatch_once],
      [create_specialist_task_raises].  Obligations:
      [obligations_stop_at_first_block].
    - Budget: [ledger_never_overcommitted], [pg_reserve_refines_account],
      [reserve_once_fail_closed], [settled_usage_never_counted].
    - Policy: [opa_client_fail_closed], [in_memory_agrees_with_bundle]; and
      [unhashable_decision_escapes].
    - Loop caps: [loop_caps_exact].
    - Projects: [governance_history_is_sound] over every sequence of handler
      calls; [proposal_vote], [lifecycle_action_exact], [finalize_exact],
      [initialize_exact], [project_row_roundtrip]; and the two departures
      [resume_skips_initialization] and [concurrent_approvals_lose_one].
    - Endpoint: [admitted_is_governed] (what holds of every task the endpoint
      stores), [admit_once], [restart_replays_active], [external_role_from_store],
      and the departures [signature_binds_only_the_hash], [replay_ignores_target],
      [failed_insert_blocks_key], [restart_readmits], [replay_answers_by_status].
    - Communication: [publish_bounded], [publish_fills_ledger],
      [publish_replays], and [error_wedges_delivery], [redispatch_is_rejected];
      callbacks: [callback_exact], [callback_once].
    - Audit and memory: [audit_trail_is_complete], [conversation_windows_sound],
      and [concurrent_appends_skip_a_window].
    - Artifacts: [artifact_history_append_only], [artifact_write_governed],
      [artifact_write_read].
    - Tools: [write_tools_stay_in_scope], [write_tool_is_authorized_and_paid],
      [write_tool_runs_at_most_once], [read_tool_answers_and_changes_nothing],
      [read_tool_reveals_its_project_only]; and the departures
      [recipient_role_acts], [denial_tells_foreign_from_missing],
      [audit_stream_is_empty_in_production].
    - LLM: [gateway_outcome], [gateway_requests_bounded],
      [grounded_answer_cites_evidence], [prompt_guards_precede_effects]; and
      [production_profile_is_unserved_by_gemini], [mutation_guard_is_exact].
    - Spaces: [closed_channel_never_routes], [new_space_is_found], and
      [failed_archive_cannot_retry], [concurrent_transition_unlocks],
      [newer_closed_space_hides_active].
    - Grammar: [command_roundtrip], [command_class_agrees],
      [free_text_never_mutates], [free_text_routing], [topic_routing_elects],
      and [escaped_space_hides_verb], [any_prefixed_word_is_a_command],
      [first_named_class_wins].
    - Agents: [free_text_always_answers], [quarantine_is_permanent],
      [auditor_evidence], [behavioral_violation_reported_once],
      [role_check_is_write_authorization], [allowed_document_is_planned],
      [cso_review_recorded], [ceo_acts_on_evidence],
      [initialization_needs_evidence], [proposal_reviewed_then_decided],
      [secretary_only_advises], [specialist_uses_approved_tools],
      [pm_writes_within_mandate], [pm_dispatches_in_project]; and
      [pause_without_evidence], [cap_check_is_stricter],
      [rebinding_reactivates_workforce], [unavailable_review_is_aligned],
      [refusal_reads_as_approval], [coapprovals_wait_for_each_other],
      [empty_evidence_is_evidence], [decisions_are_writable],
      [violation_filed_under_system], [dispatching_request_fails],
      [result_without_event].
    - Discord: [discord_message_governed] (all that a message may change),
      [discord_command_well_typed], and [unsigned_text_is_classified],
      [long_actor_is_not_answered], [unknown_actor_is_advised].
    - Bots: [forwarded_message_is_legitimate], [unaddressed_text_has_one_responder],
      [bridged_event_is_authentic] (with the request schema's every check),
      [launch_plan_is_sound],
      [response_chunks_bounded], [answers_keep_role_order] (every interleaving);
      and [unaddressed_answer_times_out], [topic_overrides_mention],
      [unsplit_command_is_not_answered], [guidance_needs_everyone].
    - Endpoints: [governance_api_refines_handlers] (any sequence of requests is a
      sequence of handler calls), [lifecycle_action_answers],
      [search_answers_within_scope], and [any_role_is_accepted],
      [unlocked_channel_is_answered_ok].
    - Message repository: [ledger_row_roundtrip], [appended_transition_is_read],
      [message_ledger_append_only]; and [acked_message_reopens],
      [concurrent_appends_lose_one], [late_update_never_expires] (Redis).
    - Processes: [application_starts_fail_closed], [doctor_agrees_with_startup],
      [masked_url_hides_credentials], [drill_downgrades_only_when_allowed],
      [drill_success_is_recorded]; and [worker_starts_without_opa],
      [mask_shows_the_rest], [odd_acceptance_is_uncaught].
    - Release: [gate_matrix_valid_iff], [artifact_bundle_valid_iff],
      [shipped_release_is_valid], [alert_next_owner]; and
      [empty_matrix_is_accepted].  Sandbox: [bind_exact],
      [sandbox_obligation_follows_file].

    ** Bounds and fuel

    The graph runs at most 25 supersteps, LangGraph's documented default
    recursion limit; the graph has no cycle and ends after three, which
    [WorkflowFacts] proves, so the limit is never met.  The publisher's loop has
    [max_attempts - 1] units of fuel; [publish_bounded] shows that more makes no
    difference, since a retry is scheduled only below [max_attempts].  The
    providers' retry loop recurses on the retries that are left.  Splitting a
    response has as much fuel as the text has characters, which
    [response_chunks_bounded] shows to be enough; stripping mentions too, as each
    takes characters away.  Every other definition recurses on its data.

    ** What is not modelled

    The adapters that export spans, logs and metrics only observe.  The routing
    tables of FastAPI, the option parsing and printing of Typer, accessors and
    constructors that only store their arguments, and the defaults of
    [shared_kernel/settings.py] are glue around what is modelled.  The in-memory
    repositories that only tests construct, and the sample runs under [ops/], are
    left out.  Nothing writes through the PostgreSQL message repository:
    [CommRepo] describes it for itself, next to the ledger the worker uses.
    A language model is any function.  The agents' theorems hold for any prompts,
    since no modelled code inspects one; [Advisors] fills in the texts.  Two tasks are
    drained one after the other, as the worker does; interleaved writers appear
    only where a theorem is about them. *)

From stdpp Require Export base gmap strings list pretty.
From Stdlib Require Export ZArith Lia.

#[global] Open Scope string_scope.
#[global] Open Scope list_scope.

(** * Exceptions

    One constructor per Python exception class the modelled code raises or
    catches.  [code] and [message] are the attributes of the same name. *)

Inductive exn : Type :=
  | ProjectLifecycleError (code message : string)
  | GovernanceRepositoryError (code message : string)
  | GovernanceHandlerError (code message : string)
  | ProjectManagerTemplateError (code message : string)
  | InvalidStateTransitionError (current next_state : string)
  | LoopCapBreachError (cap_type : string) (count limit : Z)
      (pair : option (string * string))
  | DispatchTargetError (message : string)
  | SpecialistDispatchAuthError (message : string)
  | EnvelopeValidationError (code message : string)
  | AdmissionIdempotencyError (code message : string)
  | PrincipalResolutionError (code message : string)
  | DiscordGovernanceError (code message : string) (details : list (string * string))
  | ConnectorSecurityError (code message : string)
  | IdentityChannelRepositoryError (code message : string)
  | GrammarParseError (code message : string) (details : list (string * string))
  | A2AValidationError (code message : string)
  | OrderingValidationError (code message : string)
  | RouteResolutionError (code message : string)
  | MessageLedgerError (code message : string)
  | AcpClientError (code message : string) (retryable : bool)
  | BudgetRuntimeClientError (message : string)
  | TransportError (message : string)
  | ProjectArtifactRepositoryError (code message : string)
  | ArtifactFileStoreError (code message : string)
  | LlmGatewayGuardError (code message : string)
  | RoutingProfileError (code message : string)
  | LiteLLMProviderError (code message : string) (retryable : bool)
  | SecretaryPolicyError (code message : string)
  | BudgetConfigurationError (message : string)
  | RetrievalRuntimeError (code message : string) (retryable : bool)
  | DiscordChannelError (message : string)
  | CeoProposalGateError (message : string)
  | CeoCoApprovalError (message : string)
  | CwoCommandError (message : string)
  | CwoApprovalChainError (message : string)
  | PMProjectContextError (message : string)
  | PMWriteNotAllowedError (message : string)
  | AuditorFindingError (message : string)
  | AdministratorError (message : string)
  | AgentRegistryRepositoryError (code message : string)
  | DomainLeaderProjectContextError (message : string)
  | DomainLeaderCommandDeniedError (message : string)
  | ToolNotAuthorizedError (tool_name message : string)
  | DiscordCommandParseError (message : string)
  | DiscordRecipientResolutionError (code message : string)
  | RoleBotRegistryError (code message : string)
  | DatabaseError (message : string)
  | RuntimeError (message : string)
  | ValueError (message : string)
  | OtherError (message : string).

#[export] Instance exn_eq_dec : EqDecision exn.
Proof. solve_decision. Defined.

(** * A state and exception monad

    A Python function that reads and writes the state [S] and returns an [A]
    or raises.  State changes made before a [raise] persist, as in Python. *)

Inductive outcome (A : Type) : Type :=
  | Ret (a : A)
  | Raise (e : exn).
Arguments Ret {A} a.
Arguments Raise {A} e.

Definition M (S A : Type) : Type := S -> outcome A * S.

Section monad.
Context {S : Type}.

Definition ret {A} (a : A) : M S A := fun s => (Ret a, s).

Definition raise {A} (e : exn) : M S A := fun s => (Raise e, s).

Definition bind {A B} (m : M S A) (k : A -> M S B) : M S B := fun s =>
  match m s with
  | (Ret a, s') => k a s'
  | (Raise e, s') => (Raise e, s')
  end.

Definition get : M S S := fun s => (Ret s, s).

Definition gets {A} (f : S -> A) : M S A := fun s => (Ret (f s), s).

Definition modify (f : S -> S) : M S unit := fun s => (Ret tt, f s).

(** [try m handler]: the [except] clauses are the constructors on which
    [handler] answers [Some]; any other exception propagates. *)
Definition try {A} (m : M S A) (handler : exn -> option (M S A)) : M S A := fun s =>
  match m s with
  | (Ret a, s') => (Ret a, s')
  | (Raise e, s') =>
      match handler e with
      | Some h => h s'
      | None => (Raise e, s')
      end
  end.

(** Lift a pure computation that may raise. *)
Definition of_outcome {A} (o : outcome A) : M S A := fun s => (o, s).
End monad.

(** Run a computation on a component of the state. *)
Definition zoom {S T A} (prj : S -> T) (upd : T -> S -> S) (m : M T A) : M S A := fun s =>
  let '(o, t) := m (prj s) in (o, upd t s).

Declare Scope py_scope.
Delimit Scope py_scope with py.
Notation "'let!' x ':=' m 'in' k" := (bind m (fun x => k))
  (at level 10, x pattern, m at level 99, k at level 200) : py_scope.
Notation "m ';!' k" := (bind m (fun _ => k))
  (at level 100, k at level 200, right associativity) : py_scope.
#[global] Open Scope py_scope.

(** Pure computations that may raise compose the same way. *)
Definition obind {A B} (o : outcome A) (k : A -> outcome B) : outcome B :=
  match o with Ret a => k a | Raise e => Raise e end.
Notation "'let?' x ':=' m 'in' k" := (obind m (fun x => k))
  (at level 10, x pattern, m at level 99, k at level 200) : py_scope.

Definition returns {A} (o : outcome A) : Prop := exists a, o = Ret a.

(** ** Postconditions *)

Definition post {S A} (m : M S A) (s : S) (Q : A -> S -> Prop) (X : exn -> S -> Prop) : Prop :=
  match m s with
  | (Ret a, s') => Q a s'
  | (Raise e, s') => X e s'
  end.

Section post.
Context {S : Type}.
Implicit Types s : S.

Lemma post_ret {A} (a : A) s (Q : A -> S -> Prop) X : Q a s -> post (ret a) s Q X.
Proof. done. Qed.

Lemma post_raise {A} e s (Q : A -> S -> Prop) (X : exn -> S -> Prop) :
  X e s -> post (raise e) s Q X.
Proof. done. Qed.

Lemma post_bind {A B} (m : M S A) (k : A -> M S B) s Q X :
  post m s (fun a s' => post (k a) s' Q X) X -> post (bind m k) s Q X.
Proof. unfold post, bind. by destruct (m s) as [[]]. Qed.

Lemma post_mono {A} (m : M S A) s (Q Q' : A -> S -> Prop) (X X' : exn -> S -> Prop) :
  post m s Q X ->
  (forall a s', Q a s' -> Q' a s') -> (forall e s', X e s' -> X' e s') ->
  post m s Q' X'.
Proof. unfold post. destruct (m s) as [[]]; eauto. Qed.

Lemma post_gets {A} (f : S -> A) s (Q : A -> S -> Prop) X : Q (f s) s -> post (gets f) s Q X.
Proof. done. Qed.

Lemma post_modify f s (Q : unit -> S -> Prop) X : Q tt (f s) -> post (modify f) s Q X.
Proof. done. Qed.

Lemma post_of_outcome {A} (o : outcome A) s (Q : A -> S -> Prop) (X : exn -> S -> Prop) :
  match o with Ret a => Q a s | Raise e => X e s end -> post (of_outcome o) s Q X.
Proof. by destruct o. Qed.
End post.

(** ** Relations every run of a computation respects

    [tracks R m]: whatever the outcome, the final state of [m] is related by
    [R] to the initial one.  With [R] a preorder the rules below decompose a
    handler into its calls; an invariant is the special case [inv_rel]. *)

Definition tracks {S A} (R : S -> S -> Prop) (m : M S A) : Prop := forall s, R s (m s).2.

Definition inv_rel {S} (I : S -> Prop) : S -> S -> Prop := fun s s' => I s -> I s'.

#[export] Instance inv_rel_preorder {S} (I : S -> Prop) : PreOrder (inv_rel I).
Proof. split; [by intros s ? | intros a b c H1 H2 H; eauto]. Qed.

Section tracks.
Context {S : Type} (R : S -> S -> Prop) `{!PreOrder R}.

Lemma tracks_ret {A} (a : A) : tracks R (ret a).
Proof. intros s. by simpl. Qed.

Lemma tracks_raise {A} e : tracks R (@raise S A e).
Proof. intros s. by simpl. Qed.

Lemma tracks_get : tracks R get.
Proof. intros s. by simpl. Qed.

Lemma tracks_gets {A} (f : S -> A) : tracks R (gets f).
Proof. intros s. by simpl. Qed.

Lemma tracks_of_outcome {A} (o : outcome A) : tracks R (of_outcome o).
Proof. intros s. by simpl. Qed.

Lemma tracks_modify f : (forall s, R s (f s)) -> tracks R (modify f).
Proof. intros H s. apply H. Qed.

Lemma tracks_bind {A B} (m : M S A) (k : A -> M S B) :
  tracks R m -> (forall a, tracks R (k a)) -> tracks R (bind m k).
Proof.
  intros Hm Hk s. specialize (Hm s). unfold bind.
  destruct (m s) as [[a | e] s']; simpl in *; [| done].
  etransitivity; [exact Hm | apply Hk].
Qed.

(** The continuation may use what the first computation established. *)
Lemma tracks_bind_post {A B} (m : M S A) (k : A -> M S B) :
  tracks R m -> (forall a s s', m s = (Ret a, s') -> tracks R (k a)) -> tracks R (bind m k).
Proof.
  intros Hm Hk s. specialize (Hm s). unfold bind.
  destruct (m s) as [[a | e] s'] eqn:E; simpl in *; [| done].
  etransitivity; [exact Hm | by eapply Hk].
Qed.

Lemma tracks_try {A} (m : M S A) h :
  tracks R m -> (forall e k, h e = Some k -> tracks R k) -> tracks R (try m h).
Proof.
  intros Hm Hh s. specialize (Hm s). unfold try.
  destruct (m s) as [[a | e] s']; simpl in *; [done |].
  destruct (h e) as [k |] eqn:E; simpl; [| done].
  etransitivity; [exact Hm | by eapply Hh].
Qed.
End tracks.

Lemma tracks_zoom {S T A} (RS : S -> S -> Prop) (RT : T -> T -> Prop)
    (prj : S -> T) (upd : T -> S -> S) (m : M T A) :
  (forall s t, RT (prj s) t -> RS s (upd t s)) ->
  tracks RT m -> tracks RS (zoom prj upd m).
Proof.
  intros Hup Hm s. specialize (Hm (prj s)). unfold zoom.
  destruct (m (prj s)) as [o t]; simpl in *; auto.
Qed.

Create HintDb tracks discriminated.
#[export] Hint Resolve tracks_ret tracks_raise tracks_get tracks_gets tracks_of_outcome : tracks.

(** Decompose a [tracks] goal along the structure of the computation. *)
Ltac tracks_step :=
  lazymatch goal with
  | |- tracks _ (bind _ _) => apply tracks_bind; [typeclasses eauto | | intros ?]
  | |- tracks _ (try _ _) => apply tracks_try; [typeclasses eauto | |]
  | |- tracks _ (if _ then _ else _) => case_match
  | |- tracks _ (match _ with _ => _ end) => case_match
  | |- tracks _ _ => solve [eauto 3 with tracks typeclass_instances]
  end.
Ltac tracks_auto := repeat tracks_step.

(** ** Reflexive transitive closure of a step relation *)

Inductive star {A} (R : A -> A -> Prop) : A -> A -> Prop :=
  | star_refl a : star R a a
  | star_step a b c : R a b -> star R b c -> star R a c.

Lemma star_invariant {A} (R : A -> A -> Prop) (I : A -> Prop) a b :
  (forall x y, I x -> R x y -> I y) -> star R a b -> I a -> I b.
Proof. intros Hstep Hstar. induction Hstar; eauto. Qed.

Lemma star_trans {A} (R : A -> A -> Prop) a b c : star R a b -> star R b c -> star R a c.
Proof. induction 1; eauto using star. Qed.

(** * Generic tactics *)

(** Split hypotheses and simplify equations, then try to finish. *)
Ltac crush :=
  repeat (simplify_eq/= || case_match || case_bool_decide || case_decide); try done; eauto.

(** * Truthiness helpers: Python's [x or y] on strings *)

Definition truthy (s : string) : bool := negb (String.eqb s "").

(** [str(x) if x else None]. *)
Definition text_or_none (x : option string) : option string :=
  match x with Some s => if truthy s then Some s else None | None => None end.

Lemma text_or_none_id x : x <> Some "" -> text_or_none x = x.
Proof. destruct x as [s |]; [| done]. cbn. by destruct s. Qed.

Lemma text_or_none_idem x : text_or_none (text_or_none x) = text_or_none x.
Proof. destruct x as [[|] |]; done. Qed.

(** [x or None] and [str(x) if x else None]. *)
Definition or_none (s : string) : option string := if truthy s then Some s else None.

(** [x or y] with [x : str | None]. *)
Definition opt_or (x : option string) (y : string) : string :=
  match x with Some s => if truthy s then s else y | None => y end.

(** Truthiness of a [str | None]. *)
Definition opt_truthy (x : option string) : bool :=
  match x with Some s => truthy s | None => false end.

Lemma truthy_false s : truthy s = false <-> s = "".
Proof.
  unfold truthy. rewrite negb_false_iff. apply String.eqb_eq.
Qed.

Lemma truthy_true s : truthy s = true <-> s <> "".
Proof. rewrite <- truthy_false. by destruct (truthy s). Qed.

(** * Membership in a Python [frozenset] of strings *)

Definition mem (x : string) (l : list string) : bool := existsb (String.eqb x) l.

Lemma mem_In x l : mem x l = true <-> In x l.
Proof.
  unfold mem. rewrite existsb_exists. split.
  - intros (y & Hy & E). apply String.eqb_eq in E. by subst.
  - intros H. exists x. by rewrite String.eqb_refl.
Qed.

Lemma mem_not_In x l : mem x l = false <-> ~ In x l.
Proof. rewrite <- mem_In. by destruct (mem x l). Qed.

(** * Membership in a list, decidably *)

#[export] Instance In_decision {A} `{!EqDecision A} (x : A) (l : list A) : Decision (In x l).
Proof. apply (in_dec (fun a b => decide (a = b))). Defined.

(** * Filters *)

Lemma filter_perm {A} (p : A -> bool) l l' : l ≡ₚ l' -> List.filter p l ≡ₚ List.filter p l'.
Proof.
  induction 1; simpl; repeat (destruct (p _)); eauto using Permutation.
Qed.

Lemma filter_all {A} (f : A -> bool) l : (forall x, In x l -> f x = true) -> List.filter f l = l.
Proof. induction l as [| x l IH]; cbn; [done |]. intros H. rewrite (H x) by auto. f_equal. auto. Qed.

Lemma filter_none {A} (f : A -> bool) l : (forall x, In x l -> f x = false) -> List.filter f l = [].
Proof. induction l as [| x l IH]; cbn; [done |]. intros H. rewrite (H x) by auto. auto. Qed.
