(* ===== verification/PyStr.v ===== *)
(** Python [str] operations, on strings of Latin-1 characters.

    A Rocq [string] is read as the Python string whose code points are the
    byte values, so every operation below is the standard library's on
    U+0000..U+00FF: [str.strip], [str.lower], [str.startswith], [str.split] on
    one character, [str.join], [in], [sorted], [repr]. *)

From Stdlib Require Import Ascii.
From S2P Require Import Prelude.

(** ** Characters *)

(** [str.isspace] on one Latin-1 character. *)
Definition is_space (c : ascii) : bool :=
  let n := nat_of_ascii c in
  (((9 <=? n) && (n <=? 13)) || ((28 <=? n) && (n <=? 32)) || (n =? 133) || (n =? 160))%nat.

(** [str.lower] on one Latin-1 character. *)
Definition lower_char (c : ascii) : ascii :=
  let n := nat_of_ascii c in
  if (((65 <=? n) && (n <=? 90)) || ((192 <=? n) && (n <=? 222) && negb (n =? 215)))%nat
  then ascii_of_nat (n + 32) else c.

Lemma lower_char_idem c : lower_char (lower_char c) = lower_char c.
Proof. by destruct c as [[] [] [] [] [] [] [] []]. Qed.

Lemma is_space_lower c : is_space (lower_char c) = is_space c.
Proof. by destruct c as [[] [] [] [] [] [] [] []]. Qed.

(** ** strip and lower *)

Fixpoint lstrip (s : string) : string :=
  match s with
  | EmptyString => EmptyString
  | String c s' => if is_space c then lstrip s' else s
  end.

Fixpoint rstrip (s : string) : string :=
  match s with
  | EmptyString => EmptyString
  | String c s' =>
      match rstrip s' with
      | EmptyString => if is_space c then EmptyString else String c EmptyString
      | r => String c r
      end
  end.

(** [s.rstrip("/")]. *)
Fixpoint rstrip_slash (s : string) : string :=
  match s with
  | EmptyString => ""
  | String c s' => let r := rstrip_slash s' in if String.eqb r "" && Ascii.eqb c "/" then "" else String c r
  end.

Definition strip (s : string) : string := rstrip (lstrip s).

Fixpoint lower (s : string) : string :=
  match s with
  | EmptyString => EmptyString
  | String c s' => String (lower_char c) (lower s')
  end.

(** [s.upper()], except that U+00B5 and U+00FF, whose upper case is not
    Latin-1, stay: results are only compared with ASCII words. *)
Fixpoint upper (s : string) : string :=
  match s with
  | EmptyString => EmptyString
  | String c s' =>
      let n := nat_of_ascii c in
      if (n =? 223)%nat then String "S" (String "S" (upper s'))
      else if (((97 <=? n) && (n <=? 122)) || ((224 <=? n) && (n <=? 254) && negb (n =? 247)))%nat
      then String (ascii_of_nat (n - 32)) (upper s') else String c (upper s')
  end.

(** The ubiquitous [value.strip().lower()]. *)
Definition norm (s : string) : string := lower (strip s).

(** A string without leading or trailing blanks. *)
Definition lclean (s : string) : Prop :=
  match s with EmptyString => True | String c _ => is_space c = false end.

Lemma lstrip_lclean s : lclean (lstrip s).
Proof. induction s as [| c s IH]; simpl; [done |]. by destruct (is_space c) eqn:E. Qed.

Lemma lstrip_id s : lclean s -> lstrip s = s.
Proof. destruct s as [| c s]; simpl; [done |]. by intros ->. Qed.

Lemma rstrip_lclean s : lclean s -> lclean (rstrip s).
Proof. destruct s as [| c s]; simpl; [done |]. intros Hc. destruct (rstrip s); by rewrite ?Hc. Qed.

Lemma length_lstrip s : (String.length (lstrip s) <= String.length s)%nat.
Proof. induction s as [| c s IH]; simpl; [done |]. destruct (is_space c); simpl; lia. Qed.

Lemma length_rstrip s : (String.length (rstrip s) <= String.length s)%nat.
Proof. induction s as [| c s IH]; simpl; [lia |]. destruct (rstrip s); [destruct (is_space c) |]; simpl in *; lia. Qed.

Lemma rstrip_idem s : rstrip (rstrip s) = rstrip s.
Proof.
  induction s as [| c s IH]; simpl; [done |].
  destruct (rstrip s) as [| d r] eqn:E.
  - destruct (is_space c) eqn:Ec; simpl; by rewrite ?Ec.
  - cbn [rstrip] in IH |- *. by rewrite IH.
Qed.

Lemma strip_idem s : strip (strip s) = strip s.
Proof.
  unfold strip. rewrite (lstrip_id (rstrip _)); [apply rstrip_idem |].
  apply rstrip_lclean, lstrip_lclean.
Qed.

Lemma lower_idem s : lower (lower s) = lower s.
Proof. induction s as [| c s IH]; simpl; [done |]. by rewrite lower_char_idem, IH. Qed.

Lemma lower_lstrip s : lower (lstrip s) = lstrip (lower s).
Proof.
  induction s as [| c s IH]; simpl; [done |].
  rewrite is_space_lower. by destruct (is_space c).
Qed.

Lemma lower_rstrip s : lower (rstrip s) = rstrip (lower s).
Proof.
  induction s as [| c s IH]; simpl; [done |]. rewrite <- IH, is_space_lower.
  destruct (rstrip s); simpl; [| done]. by destruct (is_space c).
Qed.

Lemma lower_strip s : lower (strip s) = strip (lower s).
Proof. unfold strip. by rewrite lower_rstrip, lower_lstrip. Qed.

Lemma norm_idem s : norm (norm s) = norm s.
Proof. unfold norm. by rewrite <- lower_strip, lower_idem, strip_idem. Qed.

Lemma strip_norm s : strip (norm s) = norm s.
Proof. unfold norm. by rewrite <- lower_strip, strip_idem. Qed.

Lemma lower_norm s : lower (norm s) = norm s.
Proof. unfold norm. by rewrite lower_idem. Qed.

(** ** startswith, in, split, join *)

(** [s.startswith(p)]. *)
Definition startswith (s p : string) : bool := String.prefix p s.

(** [needle in hay]. *)
Fixpoint contains (hay needle : string) : bool :=
  startswith hay needle ||
  match hay with EmptyString => false | String _ hay' => contains hay' needle end.

(** [s.split(sep)] for a one-character separator. *)
Fixpoint split_on (sep : ascii) (s : string) : list string :=
  match s with
  | EmptyString => [EmptyString]
  | String c s' =>
      if Ascii.eqb c sep then EmptyString :: split_on sep s'
      else match split_on sep s' with
           | w :: ws => String c w :: ws
           | [] => [String c EmptyString]
           end
  end.

(** [sep.join(l)]. *)
Definition join (sep : string) (l : list string) : string := String.concat sep l.

Lemma startswith_refl_app p s : startswith (p +:+ s) p = true.
Proof.
  unfold startswith. induction p as [| c p IH]; simpl; [by destruct s |].
  destruct (ascii_dec c c); [apply IH | done].
Qed.

Lemma length_str_app a b : String.length (a +:+ b) = (String.length a + String.length b)%nat.
Proof. induction a as [| c a IH]; [done |]. change (S (String.length (a +:+ b)) = S (String.length a) + String.length b)%nat. rewrite IH. done. Qed.

Lemma substring_whole (x : string) n : (String.length x <= n)%nat -> String.substring 0 n x = x.
Proof.
  revert n. induction x as [| c x IH]; intros [| n] H; cbn in *; try done; try lia.
  f_equal. apply IH. lia.
Qed.

(** [s[len(p):]] of a text that starts with [p]. *)
Lemma substring_drop p x n : (String.length x <= n)%nat -> String.substring (String.length p) n (p +:+ x) = x.
Proof. intros H. induction p as [| c p IH]; [by apply substring_whole | exact IH]. Qed.

Lemma split_on_ne sep s : split_on sep s <> [].
Proof. destruct s as [| c s]; simpl; [done |]. destruct (Ascii.eqb c sep); [done |]. by case_match. Qed.

(** ** Ordering and [sorted] *)

(** Code-point lexicographic order, as Python compares [str]. *)
Definition str_leb (a b : string) : bool := String.leb a b.

(** [sorted] of pairs compares the tuples lexicographically. *)
Definition pair_leb (a b : string * string) : bool :=
  if String.eqb a.1 b.1 then str_leb a.2 b.2 else str_leb a.1 b.1.

Section sorted.
Context {A : Type} (leb : A -> A -> bool).

Fixpoint insert_sorted (x : A) (l : list A) : list A :=
  match l with
  | [] => [x]
  | y :: l' => if leb x y then x :: l else y :: insert_sorted x l'
  end.

Definition sorted (l : list A) : list A := foldr insert_sorted [] l.

Lemma insert_sorted_perm x l : insert_sorted x l ≡ₚ x :: l.
Proof.
  induction l as [| y l IH]; simpl; [done |]. destruct (leb x y); [done |].
  rewrite IH. apply Permutation_swap.
Qed.

Lemma sorted_perm l : sorted l ≡ₚ l.
Proof. induction l as [| x l IH]; simpl; [done |]. by rewrite insert_sorted_perm, IH. Qed.
End sorted.

(** [sorted(set(l))] on strings. *)
Fixpoint dedup (l : list string) : list string :=
  match l with
  | [] => []
  | x :: l' => if mem x l' then dedup l' else x :: dedup l'
  end.

Definition sorted_set (l : list string) : list string := sorted str_leb (dedup l).

Lemma dedup_In x l : In x (dedup l) <-> In x l.
Proof.
  induction l as [| y l IH]; simpl; [done |].
  destruct (mem y l) eqn:E; simpl; rewrite IH; [| done].
  split; [by right |]. intros [-> | H]; [by apply mem_In | done].
Qed.

Lemma sorted_set_In x l : In x (sorted_set l) <-> In x l.
Proof.
  unfold sorted_set. rewrite <- (dedup_In x l), <- !list_elem_of_In.
  by rewrite (sorted_perm str_leb (dedup l)).
Qed.

(** ** Dictionaries given as tuples of pairs

    [dict(pairs)]: the last binding of a key wins. *)
Fixpoint dict_get (pairs : list (string * string)) (k : string) : option string :=
  match pairs with
  | [] => None
  | (k', v) :: rest =>
      match dict_get rest k with
      | Some w => Some w
      | None => if String.eqb k' k then Some v else None
      end
  end.

(** [d.get(k, default)]. *)
Definition dict_get_or (pairs : list (string * string)) (k default : string) : string :=
  match dict_get pairs k with Some v => v | None => default end.

(** ** str(int), str(bool) and repr *)

Definition str_int (z : Z) : string := pretty z.

Definition str_bool (b : bool) : string := if b then "True" else "False".

(** [str(b).lower()]. *)
Definition str_bool_lower (b : bool) : string := if b then "true" else "false".

Lemma str_bool_inj_true b : String.eqb (str_bool b) "True" = b.
Proof. by destruct b. Qed.

Lemma str_bool_lower_true b : String.eqb (str_bool_lower b) "true" = b.
Proof. by destruct b. Qed.

Definition hex_digit (n : nat) : ascii :=
  if (n <? 10)%nat then ascii_of_nat (48 + n) else ascii_of_nat (87 + n).

(** One character of [repr(s)], with the surrounding quote [q]. *)
Definition repr_char (q c : ascii) : string :=
  let n := nat_of_ascii c in
  if Ascii.eqb c q || (n =? 92)%nat then String (ascii_of_nat 92) (String c "")
  else if (n =? 9)%nat then String (ascii_of_nat 92) "t"
  else if (n =? 10)%nat then String (ascii_of_nat 92) "n"
  else if (n =? 13)%nat then String (ascii_of_nat 92) "r"
  else if ((n <? 32) || ((127 <=? n) && (n <=? 160)) || (n =? 173))%nat then
    String (ascii_of_nat 92) (String "x"
      (String (hex_digit (n / 16)) (String (hex_digit (n mod 16)) "")))
  else String c "".

Definition quote_sq : ascii := ascii_of_nat 39.
Definition quote_dq : ascii := ascii_of_nat 34.

Fixpoint concat_map_str (f : ascii -> string) (s : string) : string :=
  match s with EmptyString => "" | String c s' => f c +:+ concat_map_str f s' end.

Definition has_char (c : ascii) (s : string) : bool :=
  existsb (Ascii.eqb c) (String.list_ascii_of_string s).

Definition py_repr (s : string) : string :=
  let q := if has_char quote_sq s && negb (has_char quote_dq s) then quote_dq else quote_sq in
  String q (concat_map_str (repr_char q) s +:+ String q "").

Lemma string_app_assoc (a b c : string) : (a +:+ b) +:+ c = a +:+ (b +:+ c).
Proof.
  induction a as [| x a IH]; [done |].
  change (String x ((a +:+ b) +:+ c) = String x (a +:+ (b +:+ c))). by rewrite IH.
Qed.

Lemma string_app_empty_r (a : string) : a +:+ "" = a.
Proof.
  induction a as [| x a IH]; [done |]. change (String x (a +:+ "") = String x a). by rewrite IH.
Qed.

Lemma string_app_inj_l (a b c : string) : a +:+ b = a +:+ c -> b = c.
Proof. induction a as [| x a IH]; cbn; [done |]. intros H. apply IH. by injection H. Qed.

(** ** str.replace and words *)

(** [s.replace(needle, target)] of a needle that is not empty: occurrences are
    replaced from the left; [skip] characters of the last one remain. *)
Fixpoint replace_from (needle target : string) (skip : nat) (s : string) : string :=
  match s with
  | EmptyString => ""
  | String c s' =>
      match skip with
      | S k => replace_from needle target k s'
      | O => if String.prefix needle s
             then target +:+ replace_from needle target (String.length needle - 1) s'
             else String c (replace_from needle target O s')
      end
  end.

Definition str_replace (s needle target : string) : string := replace_from needle target O s.

(** [re]'s [\w] on Latin-1. *)
Definition is_word_char (c : ascii) : bool :=
  let n := nat_of_ascii c in
  ((48 <=? n) && (n <=? 57) || (65 <=? n) && (n <=? 90) || (n =? 95) || (97 <=? n) && (n <=? 122) ||
   (n =? 170) || (n =? 178) || (n =? 179) || (n =? 181) || (n =? 185) || (n =? 186) ||
   (188 <=? n) && (n <=? 190) || (192 <=? n) && (n <=? 214) || (216 <=? n) && (n <=? 246) || (248 <=? n))%nat.

Definition starts_word (s : string) : bool := match s with String c _ => is_word_char c | EmptyString => false end.

(** [s] begins with [w] and the word ends there. *)
Definition word_here (w s : string) : bool :=
  String.prefix w s &&
  negb (starts_word (String.substring (String.length w) (String.length s - String.length w) s)).

(** [re.search(r"\b(w1|..|wn)\b", s)] of words; [prev] says that a word character precedes. *)
Fixpoint search_words (words : list string) (prev : bool) (s : string) : bool :=
  (negb prev && existsb (fun w => word_here w s) words) ||
  match s with
  | EmptyString => false
  | String c s' => search_words words (is_word_char c) s'
  end.

(** ** str(error)

    The text [f"{error}"] interpolates.  Characters outside Latin-1 in message
    literals are written in UTF-8; no modelled code inspects them. *)
Definition exn_str (e : exn) : string :=
  match e with
  | ProjectLifecycleError _ m | GovernanceRepositoryError _ m | GovernanceHandlerError _ m
  | ProjectManagerTemplateError _ m | EnvelopeValidationError _ m
  | AdmissionIdempotencyError _ m | PrincipalResolutionError _ m | DiscordGovernanceError _ m _
  | ConnectorSecurityError _ m | IdentityChannelRepositoryError _ m
  | GrammarParseError _ m _ | A2AValidationError _ m | OrderingValidationError _ m
  | RouteResolutionError _ m | MessageLedgerError _ m | AcpClientError _ m _
  | DispatchTargetError m | SpecialistDispatchAuthError m | BudgetRuntimeClientError m | TransportError m
  | ProjectArtifactRepositoryError _ m | ArtifactFileStoreError _ m | LlmGatewayGuardError _ m
  | RoutingProfileError _ m | LiteLLMProviderError _ m _ | SecretaryPolicyError _ m
  | BudgetConfigurationError m | RetrievalRuntimeError _ m _ | DiscordChannelError m
  | CeoProposalGateError m | CeoCoApprovalError m | CwoCommandError m | CwoApprovalChainError m
  | PMProjectContextError m | PMWriteNotAllowedError m | AuditorFindingError m | AdministratorError m
  | AgentRegistryRepositoryError _ m | DomainLeaderProjectContextError m | DomainLeaderCommandDeniedError m
  | ToolNotAuthorizedError _ m | DiscordCommandParseError m | DiscordRecipientResolutionError _ m
  | RoleBotRegistryError _ m
  | DatabaseError m | RuntimeError m | ValueError m | OtherError m => m
  | InvalidStateTransitionError c n =>
      "illegal task state transition: " +:+ py_repr c +:+ " → " +:+ py_repr n
  | LoopCapBreachError cap count limit agents =>
      "Loop cap breached: " +:+ cap +:+ "=" +:+ str_int count +:+
      " exceeded limit=" +:+ str_int limit +:+
      match agents with
      | Some (a, b) => " pair=(" +:+ py_repr a +:+ ", " +:+ py_repr b +:+ ")"
      | None => ""
      end
  end.
