(* ===== verification/PyData.v ===== *)
(** Python values the persistence layer exchanges with PostgreSQL: aware UTC
    [datetime] values with their ISO-8601 text, and JSON documents.

    [isoformat] prints what [datetime.isoformat()] prints for a UTC value;
    [fromisoformat] reads that format back ([ValueError] on anything else,
    the only texts the repositories store being those [isoformat] wrote). *)

From Stdlib Require Import Ascii SpecFloat.
From S2P Require Import Prelude PyStr.

(** ** datetime *)

Record datetime : Type := mk_datetime {
  dt_year : Z; dt_month : Z; dt_day : Z;
  dt_hour : Z; dt_minute : Z; dt_second : Z; dt_microsecond : Z
}.

#[export] Instance datetime_eq_dec : EqDecision datetime.
Proof. solve_decision. Defined.

(** Field ranges Python's constructor enforces (the day within its month is
    not needed below). *)
Definition valid_datetime (t : datetime) : Prop :=
  (1 <= dt_year t <= 9999 /\ 1 <= dt_month t <= 12 /\ 1 <= dt_day t <= 31 /\
   0 <= dt_hour t <= 23 /\ 0 <= dt_minute t <= 59 /\ 0 <= dt_second t <= 59 /\
   0 <= dt_microsecond t <= 999999)%Z.

(** Lexicographic comparison [a < b], as [datetime.__lt__] does on UTC values. *)
Fixpoint lex_ltb (a b : list Z) : bool :=
  match a, b with
  | x :: a', y :: b' => if Z.eqb x y then lex_ltb a' b' else Z.ltb x y
  | _, _ => false
  end.

Definition dt_key (t : datetime) : list Z :=
  [dt_year t; dt_month t; dt_day t; dt_hour t; dt_minute t; dt_second t; dt_microsecond t].

Definition dt_ltb (a b : datetime) : bool := lex_ltb (dt_key a) (dt_key b).

Lemma lex_ltb_irrefl l : lex_ltb l l = false.
Proof. induction l as [| x l IH]; simpl; [done |]. by rewrite Z.eqb_refl. Qed.

Lemma lex_ltb_nlt_trans a b c :
  length a = length b -> length b = length c ->
  lex_ltb b a = false -> lex_ltb c b = false -> lex_ltb c a = false.
Proof.
  revert b c. induction a as [| x a IH]; intros [| y b] [| z c]; simpl; try done.
  intros [=] [=].
  destruct (Z.eqb_spec y x), (Z.eqb_spec z y), (Z.eqb_spec z x); subst; try lia; eauto.
Qed.

(** "not older than" is transitive. *)
Lemma dt_nlt_trans a b c : dt_ltb b a = false -> dt_ltb c b = false -> dt_ltb c a = false.
Proof. by apply lex_ltb_nlt_trans. Qed.

(** *** ISO-8601 text *)

Definition digit_char (d : Z) : ascii := ascii_of_nat (48 + Z.to_nat d).

Definition digit_val (c : ascii) : option Z :=
  let n := nat_of_ascii c in
  if ((48 <=? n) && (n <=? 57))%nat then Some (Z.of_nat (n - 48)) else None.

(** [f"{n:0wd}"] for [0 <= n < 10^w]. *)
Fixpoint digits (w : nat) (n : Z) : string :=
  match w with
  | O => ""
  | S w' => String (digit_char ((n / 10 ^ Z.of_nat w') mod 10)) (digits w' n)
  end.

Fixpoint read_digits (w : nat) (acc : Z) (s : string) : option (Z * string) :=
  match w with
  | O => Some (acc, s)
  | S w' =>
      match s with
      | String c s' =>
          match digit_val c with
          | Some d => read_digits w' (acc * 10 + d) s'
          | None => None
          end
      | EmptyString => None
      end
  end.

Fixpoint read_lit (lit s : string) : option string :=
  match lit, s with
  | EmptyString, _ => Some s
  | String c lit', String d s' => if Ascii.eqb c d then read_lit lit' s' else None
  | String _ _, EmptyString => None
  end.

Definition isoformat (t : datetime) : string :=
  digits 4 (dt_year t) +:+ "-" +:+ digits 2 (dt_month t) +:+ "-" +:+ digits 2 (dt_day t) +:+ "T" +:+
  digits 2 (dt_hour t) +:+ ":" +:+ digits 2 (dt_minute t) +:+ ":" +:+ digits 2 (dt_second t) +:+
  (if Z.eqb (dt_microsecond t) 0 then "" else "." +:+ digits 6 (dt_microsecond t)) +:+ "+00:00".

Definition fromisoformat (s : string) : option datetime :=
  '(y, s) ← read_digits 4 0 s; s ← read_lit "-" s;
  '(mo, s) ← read_digits 2 0 s; s ← read_lit "-" s;
  '(d, s) ← read_digits 2 0 s; s ← read_lit "T" s;
  '(h, s) ← read_digits 2 0 s; s ← read_lit ":" s;
  '(mi, s) ← read_digits 2 0 s; s ← read_lit ":" s;
  '(se, s) ← read_digits 2 0 s;
  '(us, s) ← (match read_lit "." s with
              | Some s => read_digits 6 0 s
              | None => Some (0%Z, s)
              end);
  s ← read_lit "+00:00" s;
  if String.eqb s "" then Some (mk_datetime y mo d h mi se us) else None.

Lemma digit_val_char d : (0 <= d < 10)%Z -> digit_val (digit_char d) = Some d.
Proof.
  intros H. assert (exists n, d = Z.of_nat n /\ (n < 10)%nat) as (n & -> & Hn).
  { exists (Z.to_nat d). lia. }
  do 10 (destruct n as [| n]; [done |]). lia.
Qed.

Lemma read_digits_spec w n acc rest :
  (0 <= n)%Z ->
  read_digits w acc (digits w n +:+ rest) = Some ((acc * 10 ^ Z.of_nat w + n mod 10 ^ Z.of_nat w)%Z, rest).
Proof.
  intros Hn. revert acc. induction w as [| w IH]; intros acc.
  - cbn [read_digits digits]. change (10 ^ Z.of_nat 0)%Z with 1%Z.
    rewrite Z.mod_1_r. do 2 f_equal. lia.
  - change (digits (S w) n +:+ rest)
      with (String (digit_char ((n / 10 ^ Z.of_nat w) mod 10)) (digits w n +:+ rest)).
    cbn [read_digits]. rewrite digit_val_char by (apply Z.mod_pos_bound; lia).
    rewrite IH. do 2 f_equal.
    rewrite Nat2Z.inj_succ, Z.pow_succ_r by lia.
    rewrite (Z.mul_comm 10 (10 ^ Z.of_nat w)), (Z.rem_mul_r n) by lia. ring.
Qed.

Lemma read_digits_exact w n rest :
  (0 <= n < 10 ^ Z.of_nat w)%Z -> read_digits w 0 (digits w n +:+ rest) = Some (n, rest).
Proof.
  intros H. rewrite read_digits_spec by lia. rewrite Z.mod_small by lia. do 2 f_equal.
Qed.

Lemma read_lit_app lit rest : read_lit lit (lit +:+ rest) = Some rest.
Proof.
  induction lit as [| c lit IH]; [done |].
  change (String c lit +:+ rest) with (String c (lit +:+ rest)).
  cbn [read_lit]. by rewrite Ascii.eqb_refl.
Qed.

(** [datetime.fromisoformat(t.isoformat()) == t]. *)
Lemma isoformat_roundtrip t : valid_datetime t -> fromisoformat (isoformat t) = Some t.
Proof.
  destruct t as [y mo d h mi se us]. unfold valid_datetime, isoformat, fromisoformat; simpl dt_year;
    simpl dt_month; simpl dt_day; simpl dt_hour; simpl dt_minute; simpl dt_second;
    simpl dt_microsecond. intros (Hy & Hmo & Hd & Hh & Hmi & Hse & Hus).
  repeat (rewrite read_digits_exact by (simpl Z.of_nat; lia); cbn [mbind option_bind];
          rewrite read_lit_app; cbn [mbind option_bind]).
  rewrite read_digits_exact by (simpl Z.of_nat; lia). cbn [mbind option_bind].
  destruct (Z.eqb_spec us 0) as [-> | Hne].
  - done.
  - rewrite string_app_assoc, read_lit_app.
    rewrite read_digits_exact by (simpl Z.of_nat; lia). cbn [mbind option_bind].
    done.
Qed.

(** ** JSON documents

    The value of a JSONB column, as [json.loads] of what [json.dumps] wrote;
    numbers are integers or binary64 floats. *)

Inductive json : Type :=
  | JNull
  | JBool (b : bool)
  | JInt (z : Z)
  | JFloat (f : spec_float)
  | JStr (s : string)
  | JArr (l : list json)
  | JObj (o : list (string * json)).

(** The value of a key of a JSON object, [JNull] for [null]; [None] when it is missing. *)
Fixpoint jfield (o : list (string * json)) (k : string) : option json :=
  match o with
  | [] => None
  | (k', v) :: o' => if String.eqb k' k then Some v else jfield o' k
  end.

(** [str(x)] on the JSON values the code applies it to. *)
Definition jstr (j : json) : string :=
  match j with
  | JStr s => s
  | JBool b => str_bool b
  | JInt z => str_int z
  | JNull => "None"
  | _ => ""
  end.

(** A [str | None]. *)
Definition opt_json (x : option string) : json := match x with Some s => JStr s | None => JNull end.

(** [json.dumps(list(pairs))] of a tuple of string pairs. *)
Definition jpairs (l : list (string * string)) : json :=
  JArr (map (fun p => JArr [JStr p.1; JStr p.2]) l).

(** The comprehension that reads such pairs back, keeping two-element items. *)
Definition jpairs_read (j : json) : list (string * string) :=
  match j with
  | JArr l =>
      flat_map (fun item => match item with JArr [a; b] => [(jstr a, jstr b)] | _ => [] end) l
  | _ => []
  end.

Lemma jpairs_roundtrip l : jpairs_read (jpairs l) = l.
Proof. unfold jpairs, jpairs_read. induction l as [| [a b] l IH]; simpl; congruence. Qed.

(** ** JSON values as Python objects

    [repr], [str] and the truth value; [repr] of a float is [str_float]. *)

Section json_values.
Context (str_float : spec_float -> string).

Fixpoint json_repr (j : json) : string :=
  match j with
  | JNull => "None"
  | JBool b => str_bool b
  | JInt z => str_int z
  | JFloat f => str_float f
  | JStr s => py_repr s
  | JArr l => "[" +:+ join ", " (map json_repr l) +:+ "]"
  | JObj o => "{" +:+ join ", " (map (fun kv => py_repr kv.1 +:+ ": " +:+ json_repr kv.2) o) +:+ "}"
  end.

(** [str(value)]. *)
Definition json_str (j : json) : string := match j with JStr s => s | _ => json_repr j end.

Definition json_truthy (j : json) : bool :=
  match j with
  | JNull => false
  | JBool b => b
  | JInt z => negb (Z.eqb z 0)
  | JFloat f => match f with S754_zero _ => false | _ => true end
  | JStr s => truthy s
  | JArr l => match l with [] => false | _ => true end
  | JObj o => match o with [] => false | _ => true end
  end.
End json_values.

(** ** int(text)

    Base ten, surrounding whitespace, a sign and single underscores between
    digits; more than 4300 digits raise. *)

Fixpoint read_int (acc : Z) (after_digit : bool) (s : string) : option (Z * nat) :=
  match s with
  | EmptyString => if after_digit then Some (acc, O) else None
  | String c s' =>
      match digit_val c with
      | Some d => '(z, n) ← read_int (acc * 10 + d) true s'; Some (z, S n)
      | None => if Ascii.eqb c "_" && after_digit then read_int acc false s' else None
      end
  end.

Definition py_int (text : string) : option Z :=
  let unsigned (s : string) : option Z :=
    '(z, n) ← read_int 0 false s; if (4300 <? n)%nat then None else Some z in
  match strip text with
  | String "-" s => Z.opp <$> unsigned s
  | String "+" s => unsigned s
  | s => unsigned s
  end.

(** ** str.splitlines *)

Definition is_line_break (c : ascii) : bool :=
  let n := nat_of_ascii c in
  ((10 <=? n) && (n <=? 13) || (28 <=? n) && (n <=? 30) || (n =? 133))%nat.

Fixpoint splitlines_aux (line : string) (s : string) : list string :=
  match s with
  | EmptyString => if String.eqb line "" then [] else [line]
  | String c s' =>
      if is_line_break c then
        match s' with
        | String d s'' =>
            if (Nat.eqb (nat_of_ascii c) 13 && Nat.eqb (nat_of_ascii d) 10)
            then line :: splitlines_aux "" s'' else line :: splitlines_aux "" s'
        | EmptyString => [line]
        end
      else splitlines_aux (line +:+ String c "") s'
  end.

Definition splitlines (s : string) : list string := splitlines_aux "" s.

Example py_int_examples :
  map py_int ["12"; " -7 "; "+1_000"; "1__0"; ""; "_1"; "x"; "-"] =
  [Some 12; Some (-7); Some 1000; None; None; None; None; None]%Z.
Proof. vm_compute. reflexivity. Qed.
