(* ===== verification/Task.v ===== *)
(** Task records, the task state machine and the task repository.

    Models [data_access/repositories/runtime_state.py],
    [task_orchestrator/state/transition_guard.py],
    [data_access/repositories/postgres/task_repository.py] and
    [task_orchestrator/services/lifecycle_service.py].

    The [tasks] table is a finite map from its primary key to its columns;
    [_task_from_row] is the reading of a row, in which an empty text column
    reads back as [None].  JSON columns hold the value that was dumped. *)

From S2P Require Import Prelude PyStr PyData.

(** ** Records *)

Record TaskRecord : Type := mk_TaskRecord {
  task_id : string;
  request_id : string;
  trace_id : string;
  principal_id : string;
  principal_role : string;
  trust_domain : string;
  connector : string;
  command : string;
  target : string;
  args : list string;
  metadata : list (string * string);
  project_id : option string;
  idempotency_key : string;
  status : string;
  created_at : datetime;
  outcome_source : option string;
  outcome_error_code : option string;
  outcome_message : option string;
  outcome_details : option (list (string * string));
  dispatch_target : option string;
  dispatch_id : option string
}.

Record AdmissionEnvelope : Type := mk_AdmissionEnvelope {
  ae_request_id : string;
  ae_trace_id : string;
  ae_principal_id : string;
  ae_principal_role : string;
  ae_trust_domain : string;
  ae_connector : string;
  ae_command : string;
  ae_target : string;
  ae_args : list string;
  ae_metadata : list (string * string);
  ae_project_id : option string;
  ae_idempotency_key : string
}.

(** ** The transition guard *)

(** [LEGAL_TRANSITIONS.get(current, frozenset())]. *)
Definition LEGAL_TRANSITIONS (current : string) : list string :=
  if String.eqb current "queued" then ["authorized"; "blocked"; "cancelled"; "failed"]
  else if String.eqb current "authorized" then ["dispatched"; "blocked"; "failed"; "cancelled"]
  else if String.eqb current "dispatched" then
    ["running"; "blocked"; "completed"; "failed"; "cancelled"]
  else if String.eqb current "running" then ["completed"; "failed"; "blocked"; "cancelled"]
  else if String.eqb current "blocked" then ["queued"; "dispatched"; "cancelled"; "failed"]
  else [].

Definition assert_legal_transition (current next_state : string) : outcome unit :=
  if mem next_state (LEGAL_TRANSITIONS current) then Ret tt
  else Raise (InvalidStateTransitionError current next_state).

(** ** Repository *)

Abbreviation task_table := (gmap string TaskRecord).

(** [str(row[x]) if row.get(x) else None] for a nullable text column. *)
Definition text_column (x : option string) : option string :=
  match x with Some s => or_none s | None => None end.

Definition _task_from_row (row : TaskRecord) : TaskRecord :=
  {| task_id := task_id row; request_id := request_id row; trace_id := trace_id row;
     principal_id := principal_id row; principal_role := principal_role row;
     trust_domain := trust_domain row; connector := connector row; command := command row;
     target := target row; args := args row; metadata := metadata row;
     project_id := text_column (project_id row);
     idempotency_key := idempotency_key row; status := status row; created_at := created_at row;
     outcome_source := text_column (outcome_source row);
     outcome_error_code := text_column (outcome_error_code row);
     outcome_message := text_column (outcome_message row);
     outcome_details :=
       match outcome_details row with Some (x :: l) => Some (x :: l) | _ => None end;
     dispatch_target := text_column (dispatch_target row);
     dispatch_id := text_column (dispatch_id row) |}.

(** The task [create_task_from_envelope] builds, [uuid] and [now] being what
    [uuid4()] and [datetime.now(tz=UTC)] answered. *)
Definition task_of_envelope (uuid : string) (now : datetime) (e : AdmissionEnvelope) : TaskRecord :=
  {| task_id := uuid; request_id := ae_request_id e; trace_id := ae_trace_id e;
     principal_id := ae_principal_id e; principal_role := ae_principal_role e;
     trust_domain := ae_trust_domain e; connector := ae_connector e; command := ae_command e;
     target := ae_target e; args := ae_args e; metadata := ae_metadata e;
     project_id := ae_project_id e; idempotency_key := ae_idempotency_key e;
     status := "queued"; created_at := now;
     outcome_source := None; outcome_error_code := None; outcome_message := None;
     outcome_details := None; dispatch_target := None; dispatch_id := None |}.

Definition create_task_from_envelope (uuid : string) (now : datetime) (e : AdmissionEnvelope)
    : M task_table TaskRecord :=
  let task := task_of_envelope uuid now e in
  let! tasks := get in
  match tasks !! uuid with
  | Some _ => raise (DatabaseError "duplicate key value violates unique constraint")
  | None => modify (insert uuid task) ;! ret task
  end.

Definition get_task_by_id (tid : string) : M task_table (option TaskRecord) :=
  gets (fun tasks => _task_from_row <$> tasks !! tid).

(** [ORDER BY created_at ASC]. *)
Definition created_leb (a b : TaskRecord) : bool := negb (dt_ltb (created_at b) (created_at a)).

Definition table_rows (tasks : task_table) : list TaskRecord :=
  sorted created_leb (map snd (map_to_list tasks)).

(** [WHERE principal_id = .. AND idempotency_key = .. ORDER BY created_at DESC LIMIT 1]. *)
Definition get_task_by_principal_and_idempotency (pid key : string)
    : M task_table (option TaskRecord) :=
  gets (fun tasks =>
    _task_from_row <$>
      last (List.filter (fun t => String.eqb (principal_id t) pid && String.eqb (idempotency_key t) key)
              (table_rows tasks))).

(** [COALESCE(:x, x)]. *)
Definition coalesce {A} (x old : option A) : option A :=
  match x with Some _ => x | None => old end.

(** The optional columns an update may carry. *)
Record task_outcome : Type := mk_task_outcome {
  o_source : option string;
  o_error_code : option string;
  o_message : option string;
  o_details : option (list (string * string));
  o_target : option string;
  o_dispatch : option string
}.

Definition apply_update (new_status : string) (o : task_outcome) (row : TaskRecord) : TaskRecord :=
  {| task_id := task_id row; request_id := request_id row; trace_id := trace_id row;
     principal_id := principal_id row; principal_role := principal_role row;
     trust_domain := trust_domain row; connector := connector row; command := command row;
     target := target row; args := args row; metadata := metadata row;
     project_id := project_id row; idempotency_key := idempotency_key row;
     status := new_status; created_at := created_at row;
     outcome_source := coalesce (o_source o) (outcome_source row);
     outcome_error_code := coalesce (o_error_code o) (outcome_error_code row);
     outcome_message := coalesce (o_message o) (outcome_message row);
     outcome_details := coalesce (sorted pair_leb <$> o_details o) (outcome_details row);
     dispatch_target := coalesce (o_target o) (dispatch_target row);
     dispatch_id := coalesce (o_dispatch o) (dispatch_id row) |}.

Definition update_task_status (tid new_status : string) (o : task_outcome)
    : M task_table (option TaskRecord) :=
  let! existing := get_task_by_id tid in
  match existing with
  | None => ret None
  | Some t =>
      (if String.eqb (status t) new_status then ret tt
       else of_outcome (assert_legal_transition (status t) new_status)) ;!
      modify (alter (apply_update new_status o) tid) ;!
      get_task_by_id tid
  end.

Definition list_tasks : M task_table (list TaskRecord) :=
  gets (fun tasks => map _task_from_row (table_rows tasks)).

(** ** Lifecycle service *)

Definition mark_dispatched (tid dispatch_target dispatch_id message : string)
    : M task_table (option TaskRecord) :=
  update_task_status tid "dispatched"
    {| o_source := Some ("dispatch_" +:+ dispatch_target); o_error_code := None;
       o_message := Some message; o_details := None;
       o_target := Some dispatch_target; o_dispatch := Some dispatch_id |}.

Definition mark_blocked_dispatch (tid : string) (error_code : option string)
    (message dispatch_target outcome_source : string) : M task_table (option TaskRecord) :=
  update_task_status tid "blocked"
    {| o_source := Some outcome_source; o_error_code := error_code;
       o_message := Some message; o_details := None;
       o_target := Some dispatch_target; o_dispatch := None |}.

Definition mark_failed (tid error_code message outcome_source : string)
    : M task_table (option TaskRecord) :=
  update_task_status tid "failed"
    {| o_source := Some outcome_source; o_error_code := Some error_code;
       o_message := Some message; o_details := None; o_target := None; o_dispatch := None |}.

(** * Properties *)

(** ** The state machine *)

Definition legal_step (a b : string) : Prop := In b (LEGAL_TRANSITIONS a).

#[export] Instance legal_step_dec a b : Decision (legal_step a b).
Proof. unfold legal_step. apply (In_dec String.string_dec). Defined.

Definition legal_path : string -> string -> Prop := star legal_step.

#[export] Instance legal_path_preorder : PreOrder legal_path.
Proof. split; [intros a; constructor | intros a b c; apply star_trans]. Qed.

Definition task_statuses : list string :=
  ["queued"; "authorized"; "dispatched"; "running"; "blocked"; "completed"; "failed"; "cancelled"].

Definition terminal_statuses : list string := ["completed"; "failed"; "cancelled"].

Lemma legal_step_bool a b : legal_step a b <-> mem b (LEGAL_TRANSITIONS a) = true.
Proof. unfold legal_step. by rewrite mem_In. Qed.

Lemma assert_legal_transition_ret a b : assert_legal_transition a b = Ret tt <-> legal_step a b.
Proof. rewrite legal_step_bool. unfold assert_legal_transition. by destruct (mem _ _). Qed.

(** Case analysis on a legal step: one subgoal per edge of the graph. *)
Ltac legal_cases H :=
  unfold legal_step, LEGAL_TRANSITIONS in H;
  repeat match type of H with
  | context [String.eqb ?x ?y] => destruct (String.eqb_spec x y); simplify_eq/=
  end;
  cbn [In] in H; repeat destruct H as [H | H]; simplify_eq/=; try done.

Lemma legal_step_known a b : legal_step a b -> In a task_statuses /\ In b task_statuses.
Proof. intros H. legal_cases H; cbn; tauto. Qed.

Lemma terminal_no_step a b : In a terminal_statuses -> ~ legal_step a b.
Proof. cbn. intros [<- | [<- | [<- | []]]] []. Qed.

Lemma terminal_path a b : In a terminal_statuses -> legal_path a b -> b = a.
Proof.
  intros Ha Hp. destruct Hp as [| a x b Hs]; [done |]. exfalso. by eapply terminal_no_step.
Qed.

Lemma legal_path_known a b : In a task_statuses -> legal_path a b -> In b task_statuses.
Proof.
  intros Ha Hp. revert Ha. induction Hp as [| x y z Hs Hp IH]; [done |]. intros _.
  by apply IH, (legal_step_known x).
Qed.

(** ** What every repository call preserves *)

(** The request half of a record, fixed at admission. *)
Definition same_request (a b : TaskRecord) : Prop :=
  task_id a = task_id b /\ request_id a = request_id b /\ trace_id a = trace_id b /\
  principal_id a = principal_id b /\ principal_role a = principal_role b /\
  trust_domain a = trust_domain b /\ connector a = connector b /\ command a = command b /\
  target a = target b /\ args a = args b /\ metadata a = metadata b /\
  project_id a = project_id b /\ idempotency_key a = idempotency_key b /\
  created_at a = created_at b.

#[export] Instance same_request_preorder : PreOrder same_request.
Proof.
  split; [by intros a; repeat split |].
  intros a b c Hab Hbc. unfold same_request in *. intuition congruence.
Qed.

Definition record_evolves (a b : TaskRecord) : Prop :=
  same_request a b /\ legal_path (status a) (status b).

(** Every row survives, keeps its request and moves along the state machine. *)
Definition tasks_evolve (s s' : task_table) : Prop :=
  forall tid r, s !! tid = Some r -> exists r', s' !! tid = Some r' /\ record_evolves r r'.

#[export] Instance tasks_evolve_preorder : PreOrder tasks_evolve.
Proof.
  split.
  - intros s tid r H. exists r. repeat split; [done |]. by unfold record_evolves.
  - intros a b c H1 H2 tid r H. destruct (H1 _ _ H) as (r1 & E1 & Q1 & P1).
    destruct (H2 _ _ E1) as (r2 & E2 & Q2 & P2). exists r2. split; [done |].
    split; [by transitivity r1 | by transitivity (status r1)].
Qed.

Lemma status_of_row r : status (_task_from_row r) = status r.
Proof. done. Qed.

(** The effect of an update, branch by branch. *)
Lemma update_task_status_spec tid new o (s : task_table) :
  update_task_status tid new o s =
  match s !! tid with
  | None => (Ret None, s)
  | Some r =>
      if String.eqb (status r) new || mem new (LEGAL_TRANSITIONS (status r))
      then (Ret (Some (_task_from_row (apply_update new o r))), <[tid := apply_update new o r]> s)
      else (Raise (InvalidStateTransitionError (status r) new), s)
  end.
Proof.
  unfold update_task_status, get_task_by_id, bind, gets, ret, modify, of_outcome,
    assert_legal_transition.
  destruct (s !! tid) as [r |] eqn:E; simpl; [| done].
  assert (alter (apply_update new o) tid s = <[tid := apply_update new o r]> s) as Halter.
  { apply map_eq. intros k. rewrite lookup_alter, lookup_insert.
    destruct (decide (tid = k)) as [-> |]; [by rewrite E | done]. }
  destruct (String.eqb (status r) new); simpl.
  - by rewrite Halter, lookup_insert_eq.
  - destruct (mem new _); simpl; [by rewrite Halter, lookup_insert_eq | done].
Qed.

Lemma apply_update_evolves r new o :
  (String.eqb (status r) new || mem new (LEGAL_TRANSITIONS (status r))) = true ->
  record_evolves r (apply_update new o r).
Proof.
  intros H. split; [by repeat split |]. simpl. apply orb_true_iff in H as [H | H].
  - apply String.eqb_eq in H. rewrite H. reflexivity.
  - eapply star_step; [by apply legal_step_bool | constructor].
Qed.

Lemma tasks_evolve_insert (s : task_table) tid r r' :
  s !! tid = Some r -> record_evolves r r' -> tasks_evolve s (<[tid := r']> s).
Proof.
  intros E H k x Hx. destruct (decide (tid = k)) as [-> | Hne].
  - exists r'. rewrite lookup_insert_eq. split; [done |]. congruence.
  - exists x. rewrite lookup_insert_ne by done. split; [done |].
    split; [done | constructor].
Qed.

Lemma tracks_update_task_status tid new o : tracks tasks_evolve (update_task_status tid new o).
Proof.
  intros s. rewrite update_task_status_spec. destruct (s !! tid) as [r |] eqn:E; simpl; [| done].
  destruct (_ || _) eqn:Hok; simpl; [| done].
  eapply tasks_evolve_insert; [done |]. by apply apply_update_evolves.
Qed.

Lemma tracks_get_task_by_id tid : tracks tasks_evolve (get_task_by_id tid).
Proof. intros s. by simpl. Qed.

Lemma tracks_create_task uuid now e : tracks tasks_evolve (create_task_from_envelope uuid now e).
Proof.
  intros s. unfold create_task_from_envelope, bind, get, modify, ret, raise.
  destruct (s !! uuid) as [r |] eqn:E; simpl; [done |].
  intros k x Hx. exists x. rewrite lookup_insert_ne by congruence. by split.
Qed.

Lemma tracks_list_tasks : tracks tasks_evolve list_tasks.
Proof. intros s. by simpl. Qed.

Lemma tracks_mark_dispatched a b c d : tracks tasks_evolve (mark_dispatched a b c d).
Proof. apply tracks_update_task_status. Qed.
Lemma tracks_mark_blocked_dispatch a b c d e : tracks tasks_evolve (mark_blocked_dispatch a b c d e).
Proof. apply tracks_update_task_status. Qed.
Lemma tracks_mark_failed a b c d : tracks tasks_evolve (mark_failed a b c d).
Proof. apply tracks_update_task_status. Qed.

#[export] Hint Resolve tracks_update_task_status tracks_get_task_by_id tracks_create_task
  tracks_list_tasks tracks_mark_dispatched tracks_mark_blocked_dispatch tracks_mark_failed : tracks.

(** ** What the orchestrator preserves

    Its updates move a task to one of four statuses, never back to "queued". *)

Definition orchestrator_statuses : list string := ["authorized"; "blocked"; "dispatched"; "failed"].

Definition tasks_advance (s s' : task_table) : Prop :=
  forall tid r, s !! tid = Some r -> exists r', s' !! tid = Some r' /\ record_evolves r r' /\
    (status r' = status r \/ In (status r') orchestrator_statuses).

#[export] Instance tasks_advance_preorder : PreOrder tasks_advance.
Proof.
  split.
  - intros s tid r H. exists r. split; [done |]. by split; [split | left].
  - intros a b c H1 H2 tid r H. destruct (H1 _ _ H) as (r1 & E1 & [Q1 P1] & S1).
    destruct (H2 _ _ E1) as (r2 & E2 & [Q2 P2] & S2). exists r2. split; [done |].
    split; [split; [by transitivity r1 | by transitivity (status r1)] |].
    destruct S2 as [-> | S2]; [done | by right].
Qed.

Lemma tasks_advance_evolve s s' : tasks_advance s s' -> tasks_evolve s s'.
Proof. intros H tid r Hr. destruct (H tid r Hr) as (r' & E & Hev & _). by exists r'. Qed.

Lemma advance_update_task_status tid new o :
  In new orchestrator_statuses -> tracks tasks_advance (update_task_status tid new o).
Proof.
  intros Hnew s. rewrite update_task_status_spec. destruct (s !! tid) as [r |] eqn:E; simpl; [| done].
  destruct (_ || _) eqn:Hok; simpl; [| done]. intros k x Hx.
  destruct (decide (tid = k)) as [-> | Hne].
  - exists (apply_update new o r). rewrite lookup_insert_eq. split; [done |].
    rewrite Hx in E. injection E as ->. split; [by apply apply_update_evolves | by right].
  - exists x. rewrite lookup_insert_ne by done. split; [done |]. by split; [split | left].
Qed.

Lemma advance_create_task uuid now e : tracks tasks_advance (create_task_from_envelope uuid now e).
Proof.
  intros s. unfold create_task_from_envelope, bind, get, modify, ret, raise.
  destruct (s !! uuid) as [r |] eqn:E; simpl; [done |].
  intros k x Hx. exists x. rewrite lookup_insert_ne by congruence. split; [done |].
  by split; [split | left].
Qed.

Lemma advance_get_task_by_id tid : tracks tasks_advance (get_task_by_id tid).
Proof. intros s. by simpl. Qed.

Lemma advance_list_tasks : tracks tasks_advance list_tasks.
Proof. intros s. by simpl. Qed.

#[export] Hint Resolve advance_create_task advance_get_task_by_id advance_list_tasks : tracks.
#[export] Hint Extern 1 (tracks tasks_advance _) =>
  apply advance_update_task_status; vm_compute; tauto : tracks.

(** ** Sequences of repository writes *)

Inductive task_op : Type :=
  | OpCreate (uuid : string) (now : datetime) (e : AdmissionEnvelope)
  | OpUpdate (tid new_status : string) (o : task_outcome).

Definition run_task_op (s : task_table) (op : task_op) : task_table :=
  match op with
  | OpCreate uuid now e => (create_task_from_envelope uuid now e s).2
  | OpUpdate tid st o => (update_task_status tid st o s).2
  end.

Definition run_tasks (ops : list task_op) (s : task_table) : task_table := fold_left run_task_op ops s.

Lemma run_tasks_evolve ops s : tasks_evolve s (run_tasks ops s).
Proof.
  unfold run_tasks. revert s. induction ops as [| op ops IH]; simpl; [done |]. intros s.
  etransitivity; [| apply IH].
  destruct op; simpl; [apply tracks_create_task | apply tracks_update_task_status].
Qed.

Definition sample_row (st : string) : TaskRecord :=
  {| task_id := "t1"; request_id := "r1"; trace_id := "tr1"; principal_id := "owner-1";
     principal_role := "owner"; trust_domain := "external_verified"; connector := "discord";
     command := "llm_summarize"; target := "sandbox"; args := ["x"]; metadata := [];
     project_id := Some "p"; idempotency_key := "idem-0001"; status := st;
     created_at := mk_datetime 2026 3 24 12 0 0 0; outcome_source := None;
     outcome_error_code := None; outcome_message := None; outcome_details := None;
     dispatch_target := None; dispatch_id := None |}.

Definition blocked_table : task_table := {["t1" := sample_row "blocked"]}.

Definition no_outcome : task_outcome := mk_task_outcome None None None None None None.

(** * Theorems *)

(** C14: whatever sequence of creations and status updates the repository
    receives, legal or not, a stored task is never lost, its request (every
    column fixed at admission) never changes, its status only moves along
    [LEGAL_TRANSITIONS], a terminal status is final, and a status of the
    documented set never leaves it. *)
Theorem task_rows_follow_lifecycle ops s tid r :
  s !! tid = Some r ->
  exists r', run_tasks ops s !! tid = Some r' /\ same_request r r' /\
    legal_path (status r) (status r') /\
    (In (status r) terminal_statuses -> status r' = status r) /\
    (In (status r) task_statuses -> In (status r') task_statuses).
Proof.
  intros H. destruct (run_tasks_evolve ops s tid r H) as (r' & E & Hreq & Hpath).
  exists r'. split; [done |]. split; [done |]. split; [done |]. split.
  - intros Ht. by apply terminal_path.
  - intros Hk. by eapply legal_path_known.
Qed.

Lemma task_rows_follow_lifecycle_witness :
  exists r', run_tasks [OpUpdate "t1" "authorized" no_outcome; OpUpdate "t1" "queued" no_outcome;
                        OpUpdate "t1" "failed" no_outcome; OpUpdate "t1" "queued" no_outcome]
               blocked_table !! "t1" = Some r' /\ status r' = "failed" /\
             legal_path "blocked" (status r').
Proof.
  assert (blocked_table !! "t1" = Some (sample_row "blocked")) as H by reflexivity.
  destruct (task_rows_follow_lifecycle
    [OpUpdate "t1" "authorized" no_outcome; OpUpdate "t1" "queued" no_outcome;
     OpUpdate "t1" "failed" no_outcome; OpUpdate "t1" "queued" no_outcome] _ _ _ H)
    as (r' & E & _ & Hp & _).
  exists r'. split; [exact E |]. split; [| exact Hp]. vm_compute in E. by injection E as <-.
Defined.

(** The guard itself: an update answers the updated record exactly when
    the requested status is the current one or a legal successor; otherwise
    it raises and writes nothing; an unknown task is answered with [None].
    Columns the caller leaves out keep their value, including an earlier
    error code. *)
Theorem update_task_status_guarded tid new o s :
  match s !! tid with
  | None => update_task_status tid new o s = (Ret None, s)
  | Some r =>
      if decide (status r = new \/ legal_step (status r) new) then
        exists r', update_task_status tid new o s = (Ret (Some (_task_from_row r')), <[tid := r']> s) /\
          status r' = new /\ same_request r r' /\
          (o_error_code o = None -> outcome_error_code r' = outcome_error_code r)
      else
        update_task_status tid new o s = (Raise (InvalidStateTransitionError (status r) new), s)
  end.
Proof.
  rewrite update_task_status_spec. destruct (s !! tid) as [r |]; [| done].
  destruct (String.eqb_spec (status r) new) as [He | Hne]; simpl.
  - rewrite decide_True by auto. eexists. split; [done |]. repeat split; try done.
    simpl. by intros ->.
  - destruct (mem new (LEGAL_TRANSITIONS (status r))) eqn:E; simpl.
    + rewrite decide_True by (right; by apply legal_step_bool). eexists. split; [done |].
      repeat split; try done. simpl. by intros ->.
    + rewrite decide_False; [done |]. intros [? | H%legal_step_bool]; congruence.
Qed.
