(* ===== verification/Budget.v ===== *)
(** The budget runtime: cost evaluation, the PostgreSQL ledger, the two
    runtime clients behind one interface, and the replay-safe, fail-closed
    reservation service.

    Models [budget_runtime/models.py], [budget_runtime/cost_evaluator.py],
    [data_access/repositories/postgres/budget_repository.py],
    [budget_runtime/client.py] and [budget_runtime/reservation_service.py].

    Money.  [Decimal] amounts are integers counting 1e-9 USD, which represents
    every product [rate * tokens / 1000] exactly (the rates have at most six
    fractional digits).  [NUMERIC(12, 6)] columns hold integers counting
    1e-6 USD; storing rounds half away from zero as PostgreSQL does and fails
    on overflow, and a [BIGINT] column fails outside 64 bits.

    Storage.  A session that cannot reach the database raises; the flag
    [db_up] says whether it can.  The reservation transaction holds the
    allocation row lock ([FOR UPDATE]) to its end, so it runs as one step. *)

From S2P Require Import Prelude PyStr PyData Task.

(** ** Models *)

Definition DEFAULT_BUDGET_PROJECT_ID : string := "project-default".

Record BudgetReservationInput : Type := mk_BudgetReservationInput {
  bi_task_id : string;
  bi_request_id : string;
  bi_trace_id : string;
  bi_principal_id : string;
  bi_project_id : string;
  bi_command : string;
  bi_args : list string;
  bi_estimated_cost_units : Z;
  bi_model_class : string
}.

(** [BudgetDecision] is a [Literal], carried as its string. *)
Record BudgetReservationResult : Type := mk_BudgetReservationResult {
  br_decision : string;
  br_reason_code : string;
  br_reason_message : string;
  br_reservation_id : option string;
  br_remaining_units : option Z;
  br_budget_version : string
}.

(** ** Cost evaluation *)

(** Rates in 1e-9 USD per 1000 tokens. *)
Definition COST_PER_1K_TOKENS (tier : string) : option Z :=
  if String.eqb tier "gemini_flash_free" then Some 0%Z
  else if String.eqb tier "gemini_flash" then Some 35000%Z
  else if String.eqb tier "gemini_pro" then Some 1250000%Z
  else None.

Definition DEFAULT_RATE_PER_1K_TOKENS : Z := 1000000.
Definition DEFAULT_ESTIMATED_INPUT_TOKENS : Z := 500.

(** [_ROUTING_CLASS_TO_COST_TIER.get(model_class, model_class)]. *)
Definition _ROUTING_CLASS_TO_COST_TIER (model_class : string) : string :=
  if String.eqb model_class "interactive_fast" then "gemini_flash"
  else if String.eqb model_class "reasoning_general" then "gemini_pro"
  else if String.eqb model_class "embedding_text" then "gemini_flash"
  else model_class.

Record CostEstimate : Type := mk_CostEstimate {
  usd_estimate : Z;              (* 1e-9 USD *)
  quota_tokens_estimate : Z
}.

Definition rate_for (model_class : string) : Z :=
  match COST_PER_1K_TOKENS (_ROUTING_CLASS_TO_COST_TIER model_class) with
  | Some r => r
  | None => DEFAULT_RATE_PER_1K_TOKENS
  end.

Definition estimate (model_class : string) (estimated_input_tokens : Z) : CostEstimate :=
  let rate := rate_for model_class in
  let quota := (Z.max estimated_input_tokens 1 * 2)%Z in
  {| usd_estimate := if Z.eqb rate 0 then 0%Z else (rate * quota / 1000)%Z;
     quota_tokens_estimate := quota |}.

(** ** Ledger tables *)

Record Allocation : Type := mk_Allocation {
  currency_limit_usd : Z;        (* 1e-6 USD *)
  quota_limit_tokens : Z
}.

Record BudgetReservationRecord : Type := mk_BudgetReservationRecord {
  rv_id : string;
  rv_task_id : string;
  rv_project_id : string;
  rv_reserved_usd : Z;           (* 1e-6 USD *)
  rv_reserved_tokens : Z;
  rv_status : string;
  rv_created_at : datetime;
  rv_settled_at : option datetime
}.

Record BudgetEvent : Type := mk_BudgetEvent {
  ev_id : string;
  ev_task_id : string;
  ev_project_id : string;
  ev_role : string;
  ev_model_class : string;
  ev_actual_tokens : Z;
  ev_actual_cost_usd : Z;        (* 1e-6 USD *)
  ev_created_at : datetime
}.

Record ledger : Type := mk_ledger {
  db_up : bool;
  allocations : gmap string Allocation;
  reservations : list BudgetReservationRecord;
  events : list BudgetEvent
}.

Definition with_reservations (rs : list BudgetReservationRecord) (l : ledger) : ledger :=
  {| db_up := db_up l; allocations := allocations l; reservations := rs; events := events l |}.

Definition with_events (es : list BudgetEvent) (l : ledger) : ledger :=
  {| db_up := db_up l; allocations := allocations l; reservations := reservations l; events := es |}.

Definition with_allocations (al : gmap string Allocation) (l : ledger) : ledger :=
  {| db_up := db_up l; allocations := al; reservations := reservations l; events := events l |}.

(** Opening a session and executing a statement. *)
Definition session : M ledger unit :=
  let! l := get in
  if db_up l then ret tt else raise (DatabaseError "could not connect to server").

(** Storing an amount of 1e-9 USD in a [NUMERIC(12, 6)] column. *)
Definition numeric_12_6 (nano : Z) : outcome Z :=
  let micro := if (0 <=? nano)%Z then ((nano + 500) / 1000)%Z else (- ((- nano + 500) / 1000))%Z in
  if (Z.abs micro <? 10 ^ 12)%Z then Ret micro
  else Raise (DatabaseError "numeric field overflow").

Definition bigint (n : Z) : outcome Z :=
  if ((- 2 ^ 63 <=? n) && (n <? 2 ^ 63))%Z then Ret n
  else Raise (DatabaseError "bigint out of range").

(** [WHERE project_id = :project_id AND status = 'reserved']. *)
Definition active_for (project : string) (r : BudgetReservationRecord) : bool :=
  String.eqb (rv_project_id r) project && String.eqb (rv_status r) "reserved".

(** [COALESCE(SUM(..), 0)]. *)
Fixpoint sumz (l : list Z) : Z := match l with [] => 0 | x :: l' => x + sumz l' end.

Definition spent_tokens (project : string) (rs : list BudgetReservationRecord) : Z :=
  sumz (map rv_reserved_tokens (List.filter (active_for project) rs)).

Definition spent_usd (project : string) (rs : list BudgetReservationRecord) : Z :=
  sumz (map rv_reserved_usd (List.filter (active_for project) rs)).

(** ** Ledger repository *)

Definition get_allocation (project : string) : M ledger (option Allocation) :=
  session ;! gets (fun l => allocations l !! project).

Definition get_spent_tokens (project : string) : M ledger Z :=
  session ;! gets (fun l => spent_tokens project (reservations l)).

Definition find_active_reservation_id (tid : string) : M ledger (option string) :=
  session ;!
  gets (fun l =>
    rv_id <$> List.find (fun r => String.eqb (rv_task_id r) tid && String.eqb (rv_status r) "reserved")
                (reservations l)).

(** Runs inside the caller's session; [uuid] and [now] are its draws. *)
Definition insert_reservation (uuid : string) (now : datetime) (tid project : string)
    (reserved_usd reserved_tokens : Z) : M ledger BudgetReservationRecord :=
  let! usd := of_outcome (numeric_12_6 reserved_usd) in
  let! tokens := of_outcome (bigint reserved_tokens) in
  let record := {| rv_id := uuid; rv_task_id := tid; rv_project_id := project;
                   rv_reserved_usd := usd; rv_reserved_tokens := tokens;
                   rv_status := "reserved"; rv_created_at := now; rv_settled_at := None |} in
  let! l := get in
  if existsb (fun r => String.eqb (rv_id r) uuid) (reservations l)
  then raise (DatabaseError "duplicate key value violates unique constraint")
  else modify (with_reservations (reservations l ++ [record])) ;! ret record.

(** [UPDATE .. SET status = :new, settled_at = :now WHERE id = :id AND status = 'reserved']. *)
Definition close_reservation (new_status : string) (now : datetime) (rid : string)
    (r : BudgetReservationRecord) : BudgetReservationRecord :=
  if String.eqb (rv_id r) rid && String.eqb (rv_status r) "reserved"
  then {| rv_id := rv_id r; rv_task_id := rv_task_id r; rv_project_id := rv_project_id r;
          rv_reserved_usd := rv_reserved_usd r; rv_reserved_tokens := rv_reserved_tokens r;
          rv_status := new_status; rv_created_at := rv_created_at r; rv_settled_at := Some now |}
  else r.

Definition settle_reservation (now : datetime) (rid : string) : M ledger unit :=
  session ;!
  modify (fun l => with_reservations (map (close_reservation "settled" now rid) (reservations l)) l).

Definition release_reservation (now : datetime) (rid : string) : M ledger unit :=
  session ;!
  modify (fun l => with_reservations (map (close_reservation "released" now rid) (reservations l)) l).

Definition insert_event (uuid : string) (now : datetime) (tid project role model_class : string)
    (actual_tokens actual_cost_usd : Z) : M ledger unit :=
  session ;!
  let! tokens := of_outcome (bigint actual_tokens) in
  let! usd := of_outcome (numeric_12_6 actual_cost_usd) in
  let! l := get in
  if existsb (fun e => String.eqb (ev_id e) uuid) (events l)
  then raise (DatabaseError "duplicate key value violates unique constraint")
  else modify (with_events (events l ++
    [{| ev_id := uuid; ev_task_id := tid; ev_project_id := project; ev_role := role;
        ev_model_class := model_class; ev_actual_tokens := tokens;
        ev_actual_cost_usd := usd; ev_created_at := now |}])).

Definition seed_default_allocation : M ledger unit :=
  let! existing := get_allocation DEFAULT_BUDGET_PROJECT_ID in
  match existing with
  | Some _ => ret tt
  | None =>
      session ;!
      modify (fun l => with_allocations
        (<[DEFAULT_BUDGET_PROJECT_ID := {| currency_limit_usd := 10000000; quota_limit_tokens := 500000 |}]>
           (allocations l)) l)
  end.

(** ** PostgreSQL runtime client *)

Definition pg_budget_version : string := "m15-budget-postgres-v1".

(** [BudgetReservationResult(..., budget_version=self._budget_version)]. *)
Definition pg_result (decision code message : string) (rid : option string) (remaining : option Z)
    : BudgetReservationResult :=
  {| br_decision := decision; br_reason_code := code; br_reason_message := message;
     br_reservation_id := rid; br_remaining_units := remaining;
     br_budget_version := pg_budget_version |}.

Definition _normalize_project_id (project : string) : string :=
  let normalized := strip project in
  if truthy normalized then normalized else DEFAULT_BUDGET_PROJECT_ID.

Definition _reserve_for_project (uuid : string) (now : datetime) (payload : BudgetReservationInput)
    (project : string) : M ledger (option BudgetReservationResult) :=
  let cost_estimate := estimate (bi_model_class payload) (Z.max (bi_estimated_cost_units payload) 0) in
  let estimate_tokens := quota_tokens_estimate cost_estimate in
  let estimate_usd := usd_estimate cost_estimate in
  session ;!
  let! l := get in
  match allocations l !! project with
  | None => ret None
  | Some allocation_row =>
      let spent_tokens := spent_tokens project (reservations l) in
      let spent_usd := (1000 * spent_usd project (reservations l))%Z in
      let quota_limit := quota_limit_tokens allocation_row in
      let currency_limit := (1000 * currency_limit_usd allocation_row)%Z in
      if (quota_limit <? spent_tokens + estimate_tokens)%Z then
        ret (Some (pg_result "hard_breach" "budget_quota_hard_breach" "budget quota hard breach"
                     None (Some (Z.max (quota_limit - spent_tokens) 0))))
      else if (currency_limit <? spent_usd + estimate_usd)%Z then
        ret (Some (pg_result "hard_breach" "budget_currency_hard_breach"
                     "budget currency hard breach"
                     None (Some (Z.max (quota_limit - spent_tokens) 0))))
      else
        let! record := insert_reservation uuid now (bi_task_id payload) project
                         estimate_usd estimate_tokens in
        ret (Some (pg_result "allow" "budget_reserved" "budget reserved" (Some (rv_id record))
                     (Some (Z.max (quota_limit - spent_tokens - estimate_tokens) 0))))
  end.

Definition pg_reserve (uuid : string) (now : datetime) (payload : BudgetReservationInput)
    : M ledger BudgetReservationResult :=
  let project_scope := _normalize_project_id (bi_project_id payload) in
  let missing := pg_result "uncertain" "budget_allocation_missing"
        ("missing budget allocation for project_id=" +:+ py_repr project_scope) None None in
  try
    (let! decision := _reserve_for_project uuid now payload project_scope in
     match decision with
     | Some d => ret d
     | None =>
         if negb (String.eqb project_scope DEFAULT_BUDGET_PROJECT_ID) then
           let! fallback_decision :=
             _reserve_for_project uuid now payload DEFAULT_BUDGET_PROJECT_ID in
           match fallback_decision with
           | Some d => ret d
           | None => ret missing
           end
         else ret missing
     end)
    (fun error => Some (ret (pg_result "uncertain" "budget_runtime_unavailable"
        ("budget reservation unavailable: " +:+ exn_str error) None None))).

Definition pg_settle (uuid : string) (now : datetime) (tid : string)
    (actual_tokens actual_cost_usd : Z) (project role model_class : string) : M ledger unit :=
  try
    (let! reservation_id := find_active_reservation_id tid in
     match reservation_id with
     | None => ret tt
     | Some rid =>
         settle_reservation now rid ;!
         insert_event uuid now tid
           (if truthy project then project else DEFAULT_BUDGET_PROJECT_ID) role model_class
           (Z.max actual_tokens 0) actual_cost_usd
     end)
    (fun _ => Some (ret tt)).

Definition pg_release (now : datetime) (tid : string) : M ledger unit :=
  let! reservation_id := find_active_reservation_id tid in
  match reservation_id with
  | None => ret tt
  | Some rid => release_reservation now rid
  end.

(** ** Simulation client

    [AlwaysAllowBudgetRuntimeClient]; its state is [_remaining_units]. *)

Definition sim_budget_version : string := "m1-budget-shell-v1".

Definition sim_result (decision code message : string) (rid : option string) (remaining : option Z)
    : BudgetReservationResult :=
  {| br_decision := decision; br_reason_code := code; br_reason_message := message;
     br_reservation_id := rid; br_remaining_units := remaining;
     br_budget_version := sim_budget_version |}.

Definition sim_reserve (uuid : string) (now : datetime) (payload : BudgetReservationInput)
    : M Z BudgetReservationResult :=
  let! remaining_units := get in
  let command := bi_command payload in
  if String.eqb command "budget_error" then
    raise (BudgetRuntimeClientError "simulated budget runtime failure")
  else if String.eqb command "budget_uncertain" then
    ret (sim_result "uncertain" "budget_uncertain" "budget runtime returned uncertainty" None None)
  else if startswith command "budget_hard_breach" then
    ret (sim_result "hard_breach" "budget_quota_hard_breach" "budget hard breach"
           None (Some remaining_units))
  else if startswith command "budget_deny_" then
    ret (sim_result "deny" "budget_denied" "budget threshold denied request"
           None (Some remaining_units))
  else if (remaining_units <? bi_estimated_cost_units payload)%Z then
    ret (sim_result "deny" "budget_insufficient_capacity" "insufficient remaining budget units"
           None (Some remaining_units))
  else
    let left := (remaining_units - bi_estimated_cost_units payload)%Z in
    modify (fun _ => left) ;!
    ret (sim_result "allow" "budget_reserved" "budget reserved" (Some uuid) (Some left)).

(** ** The client interface

    [BudgetRuntimeClientProtocol.reserve], with what the reservation service
    relies on: an "allow" carries a reservation id, and anything but an
    "allow" leaves the client's books as they were. *)

Class BudgetRuntimeClient (C : Type) : Type := {
  reserve : string -> datetime -> BudgetReservationInput -> M C BudgetReservationResult;
  reserve_allow_id : forall uuid now payload (c : C) r c',
    reserve uuid now payload c = (Ret r, c') -> br_decision r = "allow" ->
    is_Some (br_reservation_id r);
  reserve_refused_unchanged : forall uuid now payload (c : C) o c',
    reserve uuid now payload c = (o, c') ->
    (forall r, o = Ret r -> br_decision r <> "allow") -> c' = c
}.

(** ** Reservation service *)

Record BudgetFailClosedOutcome : Type := mk_BudgetFailClosedOutcome {
  bo_allowed : bool;
  bo_error_code : option string;
  bo_message : string;
  bo_reservation : option BudgetReservationResult
}.

Section service.
Context {C : Type} `{!BudgetRuntimeClient C}.

Record BudgetReservationService : Type := mk_BudgetReservationService {
  brs_client : C;
  brs_task_outcomes : gmap string BudgetFailClosedOutcome
}.

Definition set_client (c : C) (s : BudgetReservationService) : BudgetReservationService :=
  {| brs_client := c; brs_task_outcomes := brs_task_outcomes s |}.

(** [self._task_outcomes[task.task_id] = outcome; return outcome]. *)
Definition remember (tid : string) (o : BudgetFailClosedOutcome)
    : M BudgetReservationService BudgetFailClosedOutcome :=
  modify (fun s => {| brs_client := brs_client s;
                      brs_task_outcomes := <[tid := o]> (brs_task_outcomes s) |}) ;!
  ret o.

Definition reservation_input (task : TaskRecord) : BudgetReservationInput :=
  {| bi_task_id := task_id task; bi_request_id := request_id task;
     bi_trace_id := trace_id task; bi_principal_id := principal_id task;
     bi_project_id := opt_or (project_id task) DEFAULT_BUDGET_PROJECT_ID;
     bi_command := command task; bi_args := args task;
     bi_estimated_cost_units := DEFAULT_ESTIMATED_INPUT_TOKENS;
     bi_model_class := "interactive_fast" |}.

(** The four-way reading of a decision. *)
Definition outcome_of_reservation (r : BudgetReservationResult) : BudgetFailClosedOutcome :=
  if String.eqb (br_decision r) "allow" then
    {| bo_allowed := true; bo_error_code := None; bo_message := br_reason_message r;
       bo_reservation := Some r |}
  else if String.eqb (br_decision r) "deny" then
    {| bo_allowed := false; bo_error_code := Some (br_reason_code r);
       bo_message := br_reason_message r; bo_reservation := Some r |}
  else if String.eqb (br_decision r) "hard_breach" then
    {| bo_allowed := false; bo_error_code := Some (br_reason_code r);
       bo_message := br_reason_message r; bo_reservation := Some r |}
  else
    {| bo_allowed := false; bo_error_code := Some "budget_uncertain_fail_closed";
       bo_message := "budget decision uncertain; fail-closed block applied";
       bo_reservation := Some r |}.

Definition outcome_of_failure (error : exn) : BudgetFailClosedOutcome :=
  {| bo_allowed := false; bo_error_code := Some "budget_runtime_error_fail_closed";
     bo_message := "budget reservation failed: " +:+ exn_str error; bo_reservation := None |}.

Definition reserve_with_fail_closed (uuid : string) (now : datetime) (task : TaskRecord)
    : M BudgetReservationService BudgetFailClosedOutcome :=
  let! existing := gets (fun s => brs_task_outcomes s !! task_id task) in
  match existing with
  | Some o => ret o
  | None =>
      let! o :=
        try (let! reservation := zoom brs_client set_client
                                   (reserve uuid now (reservation_input task)) in
             ret (outcome_of_reservation reservation))
            (fun error => Some (ret (outcome_of_failure error))) in
      remember (task_id task) o
  end.
End service.
Arguments BudgetReservationService : clear implicits.

(** * Lemmas *)

(** ** Sums over the reservation table *)

Lemma sumz_app a b : sumz (a ++ b) = (sumz a + sumz b)%Z.
Proof. induction a as [| x a IH]; simpl; lia. Qed.

Lemma sumz_nonneg l : Forall (fun x => 0 <= x)%Z l -> (0 <= sumz l)%Z.
Proof. induction 1; simpl; lia. Qed.

Definition amounts_nonneg (r : BudgetReservationRecord) : Prop :=
  (0 <= rv_reserved_usd r /\ 0 <= rv_reserved_tokens r)%Z.

(** Closing a reservation deactivates it for every project. *)
Lemma active_close project st now rid r :
  st <> "reserved" ->
  active_for project (close_reservation st now rid r) =
  active_for project r && negb (String.eqb (rv_id r) rid && String.eqb (rv_status r) "reserved").
Proof.
  intros Hst. unfold active_for, close_reservation.
  destruct (String.eqb (rv_id r) rid && String.eqb (rv_status r) "reserved"); simpl;
    [| by rewrite andb_true_r].
  apply String.eqb_neq in Hst. by rewrite Hst, !andb_false_r.
Qed.

Section sums.
Context (f : BudgetReservationRecord -> Z) (project : string).
Abbreviation total rs := (sumz (map f (List.filter (active_for project) rs))).

Lemma total_snoc rs r :
  total (rs ++ [r]) = (total rs + (if active_for project r then f r else 0))%Z.
Proof.
  rewrite List.filter_app, map_app, sumz_app. simpl.
  destruct (active_for project r); simpl; lia.
Qed.

(** Closing reservations can only lower a total of non-negative amounts. *)
Lemma total_close st now rid rs :
  st <> "reserved" -> (forall r, f (close_reservation st now rid r) = f r) ->
  Forall (fun r => 0 <= f r)%Z rs ->
  (total (map (close_reservation st now rid) rs) <= total rs)%Z.
Proof.
  intros Hst Hf. induction 1 as [| r rs Hr Hrs IH]; simpl; [lia |].
  rewrite active_close by done.
  destruct (active_for project r) eqn:Ea; simpl; [| done].
  destruct (negb _); simpl; rewrite ?Hf; lia.
Qed.
End sums.

Lemma close_amounts st now rid r :
  rv_reserved_usd (close_reservation st now rid r) = rv_reserved_usd r /\
  rv_reserved_tokens (close_reservation st now rid r) = rv_reserved_tokens r.
Proof. unfold close_reservation. by case_match. Qed.

(** ** Estimates *)

Lemma rate_nonneg c : (0 <= rate_for c)%Z /\ (rate_for c mod 1000 = 0)%Z.
Proof.
  unfold rate_for, COST_PER_1K_TOKENS, DEFAULT_RATE_PER_1K_TOKENS.
  repeat (case_match; simplify_eq); done.
Qed.

(** The division by 1000 loses nothing: the estimate is the exact product. *)
Lemma estimate_exact c n :
  (1000 * usd_estimate (estimate c n) = rate_for c * quota_tokens_estimate (estimate c n))%Z.
Proof.
  unfold estimate; simpl. destruct (rate_nonneg c) as [_ Hm]. set (q := (Z.max n 1 * 2)%Z).
  destruct (Z.eqb_spec (rate_for c) 0) as [-> | _]; [lia |].
  apply Z.div_exact in Hm; [| lia]. rewrite Hm at 1.
  replace (1000 * (rate_for c / 1000) * q)%Z with ((rate_for c / 1000 * q) * 1000)%Z by lia.
  rewrite Z.div_mul by lia. rewrite Hm at 2. lia.
Qed.

Lemma estimate_bounds c n :
  (0 <= usd_estimate (estimate c n) /\ 2 <= quota_tokens_estimate (estimate c n))%Z.
Proof.
  pose proof (estimate_exact c n). pose proof (proj1 (rate_nonneg c)).
  assert (2 <= quota_tokens_estimate (estimate c n))%Z by (simpl; lia). nia.
Qed.

(** Rounding to the column's scale never carries an admitted amount past a
    limit that is itself a column value. *)
Lemma numeric_12_6_within spent est limit micro :
  (0 <= est)%Z -> (1000 * spent + est <= 1000 * limit)%Z -> numeric_12_6 est = Ret micro ->
  (0 <= micro /\ spent + micro <= limit)%Z.
Proof.
  intros He Hle. unfold numeric_12_6. destruct (Z.leb_spec 0 est); [| lia].
  destruct (_ <? _)%Z; intros [= <-]. Z.to_euclidean_division_equations. lia.
Qed.

(** ** The ledger invariant *)

(** No project has more reserved than it was allocated, in tokens or in
    stored currency, and only allocated projects have reservations. *)
Definition ledger_ok (l : ledger) : Prop :=
  Forall amounts_nonneg (reservations l) /\
  forall project,
    match allocations l !! project with
    | Some a => (spent_tokens project (reservations l) <= quota_limit_tokens a)%Z /\
                (spent_usd project (reservations l) <= currency_limit_usd a)%Z
    | None => List.filter (active_for project) (reservations l) = []
    end.

Abbreviation keeps_ok := (tracks (inv_rel ledger_ok)).

Lemma keeps_session : keeps_ok session.
Proof. unfold session. tracks_auto. Qed.
#[export] Hint Resolve keeps_session : tracks.

(** Inserting an admitted reservation. *)
Lemma ledger_ok_insert l r project a :
  ledger_ok l -> amounts_nonneg r -> allocations l !! project = Some a ->
  rv_project_id r = project ->
  (spent_tokens project (reservations l) + rv_reserved_tokens r <= quota_limit_tokens a)%Z ->
  (spent_usd project (reservations l) + rv_reserved_usd r <= currency_limit_usd a)%Z ->
  ledger_ok (with_reservations (reservations l ++ [r]) l).
Proof.
  intros [Hnn Hlim] Hr Ha Hp Ht Hu. split; [apply Forall_app; auto |]. simpl.
  intros p. specialize (Hlim p). unfold spent_tokens, spent_usd in *.
  rewrite !total_snoc. destruct (decide (p = project)) as [-> | Hne].
  - rewrite Ha in *. destruct Hr. destruct (active_for project r); lia.
  - assert (active_for p r = false) as Hna.
    { unfold active_for. rewrite Hp, String.eqb_sym. apply String.eqb_neq in Hne. by rewrite Hne. }
    rewrite Hna. destruct (allocations l !! p); [lia |].
    rewrite List.filter_app, Hlim. simpl. by rewrite Hna.
Qed.

Lemma filter_close_nil st now rid project rs :
  st <> "reserved" -> List.filter (active_for project) rs = [] ->
  List.filter (active_for project) (map (close_reservation st now rid) rs) = [].
Proof.
  intros Hst. induction rs as [| r rs IH]; simpl; [done |].
  destruct (active_for project r) eqn:Ea; [done |]. intros H.
  rewrite active_close, Ea by done. auto.
Qed.

Lemma ledger_ok_close l st now rid :
  st <> "reserved" -> ledger_ok l ->
  ledger_ok (with_reservations (map (close_reservation st now rid) (reservations l)) l).
Proof.
  intros Hst [Hnn Hlim]. split; simpl.
  - apply Forall_map. eapply Forall_impl; [exact Hnn |]. intros r. unfold amounts_nonneg.
    by destruct (close_amounts st now rid r) as [-> ->].
  - intros p. specialize (Hlim p). destruct (allocations l !! p) as [a |].
    + unfold spent_tokens, spent_usd in *.
      pose proof (total_close rv_reserved_tokens p st now rid (reservations l) Hst
        (fun r => proj2 (close_amounts st now rid r)) (Forall_impl _ _ _ Hnn (fun r H => proj2 H))) as H1.
      pose proof (total_close rv_reserved_usd p st now rid (reservations l) Hst
        (fun r => proj1 (close_amounts st now rid r)) (Forall_impl _ _ _ Hnn (fun r H => proj1 H))) as H2.
      lia.
    + by apply filter_close_nil.
Qed.

Lemma keeps_insert_event uuid now tid p role mc tok usd :
  keeps_ok (insert_event uuid now tid p role mc tok usd).
Proof. unfold insert_event. tracks_auto. apply tracks_modify. intros l1 Hl1. exact Hl1. Qed.

Lemma keeps_close st now rid :
  st <> "reserved" ->
  keeps_ok (session ;! modify (fun l => with_reservations
                       (map (close_reservation st now rid) (reservations l)) l)).
Proof.
  intros Hst. tracks_auto. apply tracks_modify. intros l Hl. by apply ledger_ok_close.
Qed.

Lemma keeps_find_active tid : keeps_ok (find_active_reservation_id tid).
Proof. unfold find_active_reservation_id. tracks_auto. Qed.

Lemma keeps_settle_reservation now rid : keeps_ok (settle_reservation now rid).
Proof. by apply keeps_close. Qed.

Lemma keeps_release_reservation now rid : keeps_ok (release_reservation now rid).
Proof. by apply keeps_close. Qed.

#[export] Hint Resolve keeps_insert_event keeps_find_active keeps_settle_reservation
  keeps_release_reservation : tracks.

(** The reservation transaction as one pure step from ledger to ledger. *)
Definition reserve_step (uuid : string) (now : datetime) (tid project : string) (est : CostEstimate)
    (l : ledger) : outcome (option BudgetReservationResult) * ledger :=
  match allocations l !! project with
  | None => (Ret None, l)
  | Some a =>
      let used := spent_tokens project (reservations l) in
      let breach code msg :=
        (Ret (Some (pg_result "hard_breach" code msg None
                      (Some (Z.max (quota_limit_tokens a - used) 0)))), l) in
      if (quota_limit_tokens a <? used + quota_tokens_estimate est)%Z
      then breach "budget_quota_hard_breach" "budget quota hard breach"
      else if (1000 * currency_limit_usd a <?
               1000 * spent_usd project (reservations l) + usd_estimate est)%Z
      then breach "budget_currency_hard_breach" "budget currency hard breach"
      else
        match insert_reservation uuid now tid project (usd_estimate est)
                (quota_tokens_estimate est) l with
        | (Ret r, l') =>
            (Ret (Some (pg_result "allow" "budget_reserved" "budget reserved" (Some (rv_id r))
                (Some (Z.max (quota_limit_tokens a - used - quota_tokens_estimate est) 0)))), l')
        | (Raise e, l') => (Raise e, l')
        end
  end.

Definition payload_estimate (payload : BudgetReservationInput) : CostEstimate :=
  estimate (bi_model_class payload) (Z.max (bi_estimated_cost_units payload) 0).

Lemma reserve_for_project_step uuid now payload project l :
  _reserve_for_project uuid now payload project l =
  if db_up l then reserve_step uuid now (bi_task_id payload) project (payload_estimate payload) l
  else (Raise (DatabaseError "could not connect to server"), l).
Proof.
  unfold _reserve_for_project, reserve_step, session, bind, get. cbv zeta beta.
  fold (payload_estimate payload). generalize (payload_estimate payload) as est. intros est.
  destruct (db_up l); [| done]. unfold ret at 1. cbv beta iota.
  destruct (allocations l !! project) as [a |]; [| done].
  destruct (_ <? _)%Z; [done |]. by destruct (_ <? _)%Z.
Qed.

(** A successful insertion appends exactly one active reservation. *)
Lemma insert_reservation_inv uuid now tid project usd tok l r l' :
  insert_reservation uuid now tid project usd tok l = (Ret r, l') ->
  l' = with_reservations (reservations l ++ [r]) l /\
  rv_id r = uuid /\ rv_task_id r = tid /\ rv_project_id r = project /\
  rv_status r = "reserved" /\ numeric_12_6 usd = Ret (rv_reserved_usd r) /\
  rv_reserved_tokens r = tok /\ existsb (fun x => String.eqb (rv_id x) uuid) (reservations l) = false.
Proof.
  unfold insert_reservation, bind, of_outcome, get, modify, ret, raise.
  destruct (numeric_12_6 usd) as [micro |] eqn:En; [| done].
  destruct (bigint tok) as [tok' |] eqn:Eb; [| done].
  assert (tok' = tok) as -> by (unfold bigint in Eb; by case_match; simplify_eq).
  destruct (existsb _ _) eqn:Ex; [done |]. intros; simplify_eq/=. done.
Qed.

Lemma insert_reservation_raise uuid now tid project usd tok l e l' :
  insert_reservation uuid now tid project usd tok l = (Raise e, l') -> l' = l.
Proof.
  unfold insert_reservation, bind, of_outcome, get, modify, ret, raise.
  destruct (numeric_12_6 usd); [| congruence]. destruct (bigint tok); [| congruence].
  destruct (existsb _ _); congruence.
Qed.

Lemma keeps_reserve_for_project uuid now payload project :
  keeps_ok (_reserve_for_project uuid now payload project).
Proof.
  intros l Hok. rewrite reserve_for_project_step. destruct (db_up l); [| done].
  unfold reserve_step. destruct (allocations l !! project) as [a |] eqn:Ea; [| done].
  pose proof (estimate_bounds (bi_model_class payload)
    (Z.max (bi_estimated_cost_units payload) 0)) as [Hu Ht]. fold (payload_estimate payload) in Hu, Ht.
  destruct (Z.ltb_spec (quota_limit_tokens a)
    (spent_tokens project (reservations l) + quota_tokens_estimate (payload_estimate payload))%Z); [done |].
  destruct (Z.ltb_spec (1000 * currency_limit_usd a)
    (1000 * spent_usd project (reservations l) + usd_estimate (payload_estimate payload))%Z); [done |].
  destruct (insert_reservation _ _ _ _ _ _ _) as [[r | e] l'] eqn:Ei.
  - apply insert_reservation_inv in Ei as (-> & _ & _ & Hp & _ & Hn & Htok & _).
    destruct (numeric_12_6_within (spent_usd project (reservations l))
      (usd_estimate (payload_estimate payload)) (currency_limit_usd a) (rv_reserved_usd r))
      as [Hm1 Hm2]; [lia | lia | done |].
    cbn [snd]. eapply ledger_ok_insert; eauto; [split |]; lia.
  - apply insert_reservation_raise in Ei as ->. done.
Qed.
#[export] Hint Resolve keeps_reserve_for_project : tracks.

Lemma keeps_pg_reserve uuid now payload : keeps_ok (pg_reserve uuid now payload).
Proof. unfold pg_reserve. tracks_auto. intros; simplify_eq. tracks_auto. Qed.

Lemma keeps_pg_settle uuid now tid tok usd p role mc :
  keeps_ok (pg_settle uuid now tid tok usd p role mc).
Proof. unfold pg_settle. tracks_auto. intros; simplify_eq. tracks_auto. Qed.

Lemma keeps_pg_release now tid : keeps_ok (pg_release now tid).
Proof. unfold pg_release. tracks_auto. Qed.

Lemma keeps_seed : keeps_ok seed_default_allocation.
Proof.
  intros l [Hnn Hlim]. unfold seed_default_allocation, get_allocation, session, bind, gets, get,
    modify, ret, raise. destruct (db_up l) eqn:E; simpl; [| done].
  destruct (allocations l !! DEFAULT_BUDGET_PROJECT_ID) eqn:Ea; simpl; [done |].
  rewrite E. simpl. split; [done |]. intros p. simpl.
  destruct (decide (p = DEFAULT_BUDGET_PROJECT_ID)) as [-> | Hne].
  - rewrite lookup_insert_eq. specialize (Hlim DEFAULT_BUDGET_PROJECT_ID). rewrite Ea in Hlim.
    unfold spent_tokens, spent_usd. rewrite Hlim. simpl. lia.
  - rewrite lookup_insert_ne by done. apply Hlim.
Qed.

(** ** The accounts a ledger stands for

    What a client of the ledger sees of a project: the tokens and the stored
    currency it may still reserve. *)

Definition account_of (l : ledger) (project : string) : option (Z * Z) :=
  (fun a => (quota_limit_tokens a - spent_tokens project (reservations l),
             currency_limit_usd a - spent_usd project (reservations l))%Z) <$> allocations l !! project.

(** The project a reservation is billed to: its own scope when it has an
    allocation, the default project otherwise. *)
Definition billed_project (l : ledger) (payload : BudgetReservationInput) : option string :=
  let scope := _normalize_project_id (bi_project_id payload) in
  match allocations l !! scope, allocations l !! DEFAULT_BUDGET_PROJECT_ID with
  | Some _, _ => Some scope
  | None, Some _ => Some DEFAULT_BUDGET_PROJECT_ID
  | None, None => None
  end.

Definition insertable (uuid : string) (est : CostEstimate) (l : ledger) : Prop :=
  existsb (fun r => String.eqb (rv_id r) uuid) (reservations l) = false /\
  returns (numeric_12_6 (usd_estimate est)) /\ returns (bigint (quota_tokens_estimate est)).

(** What the transaction does to the account of its project. *)
Lemma reserve_step_account uuid now tid project est l q u :
  account_of l project = Some (q, u) ->
  match reserve_step uuid now tid project est l with
  | (Ret (Some r), l') =>
      if String.eqb (br_decision r) "allow" then
        (quota_tokens_estimate est <= q)%Z /\ (usd_estimate est <= 1000 * u)%Z /\
        br_reservation_id r = Some uuid /\
        exists micro, numeric_12_6 (usd_estimate est) = Ret micro /\
        forall p, account_of l' p =
          if decide (p = project) then Some (q - quota_tokens_estimate est, u - micro)%Z
          else account_of l p
      else l' = l /\ ~ ((quota_tokens_estimate est <= q)%Z /\ (usd_estimate est <= 1000 * u)%Z)
  | (Ret None, _) => False
  | (Raise _, l') => l' = l /\ ~ insertable uuid est l
  end.
Proof.
  unfold account_of at 1. destruct (allocations l !! project) as [a |] eqn:Ea; [| done].
  cbn [fmap option_fmap option_map]. intros [= <- <-]. unfold reserve_step. rewrite Ea.
  destruct (Z.ltb_spec (quota_limit_tokens a)
    (spent_tokens project (reservations l) + quota_tokens_estimate est)%Z); [split; [done | lia] |].
  destruct (Z.ltb_spec (1000 * currency_limit_usd a)
    (1000 * spent_usd project (reservations l) + usd_estimate est)%Z); [split; [done | lia] |].
  destruct (insert_reservation _ _ _ _ _ _ _) as [[r | e] l'] eqn:Ei.
  - apply insert_reservation_inv in Ei as (-> & Hid & _ & Hp & Hst & Hn & Htok & _).
    simpl.
    split; [lia |]. split; [lia |]. split; [congruence |]. exists (rv_reserved_usd r). split; [done |].
    intros p. unfold account_of, spent_tokens, spent_usd. simpl. rewrite !total_snoc.
    unfold active_for. rewrite Hp, Hst, String.eqb_refl, andb_true_r.
    destruct (decide (p = project)) as [-> | Hne].
    + rewrite Ea, String.eqb_refl. simpl. do 2 f_equal; lia.
    + destruct (String.eqb_spec project p); [congruence |].
      destruct (allocations l !! p); simpl; [do 2 f_equal; lia | done].
  - pose proof (insert_reservation_raise _ _ _ _ _ _ _ _ _ Ei) as ->. split; [done |].
    intros (Hx & [m Hm] & [b Hb]).
    unfold insert_reservation, bind, of_outcome, get, modify, ret in Ei.
    rewrite Hm, Hb, Hx in Ei. done.
Qed.

(** The client is the transaction on the billed project, and never raises. *)
Lemma pg_reserve_step uuid now payload l :
  pg_reserve uuid now payload l =
  let unavailable e := Ret (pg_result "uncertain" "budget_runtime_unavailable"
                              ("budget reservation unavailable: " +:+ exn_str e) None None) in
  if db_up l then
    match billed_project l payload with
    | None => (Ret (pg_result "uncertain" "budget_allocation_missing"
                 ("missing budget allocation for project_id=" +:+
                  py_repr (_normalize_project_id (bi_project_id payload))) None None), l)
    | Some p =>
        match reserve_step uuid now (bi_task_id payload) p (payload_estimate payload) l with
        | (Ret (Some d), l') => (Ret d, l')
        | (Ret None, l') => (Ret (pg_result "uncertain" "budget_allocation_missing"
                 ("missing budget allocation for project_id=" +:+
                  py_repr (_normalize_project_id (bi_project_id payload))) None None), l')
        | (Raise e, l') => (unavailable e, l')
        end
    end
  else (unavailable (DatabaseError "could not connect to server"), l).
Proof.
  unfold pg_reserve, try, bind, billed_project. cbv zeta.
  rewrite !reserve_for_project_step. destruct (db_up l) eqn:Eup; [| done].
  set (scope := _normalize_project_id (bi_project_id payload)).
  assert (forall p, allocations l !! p = None ->
    reserve_step uuid now (bi_task_id payload) p (payload_estimate payload) l = (Ret None, l)) as Hnone.
  { intros p Hp. unfold reserve_step. by rewrite Hp. }
  destruct (allocations l !! scope) as [a |] eqn:Es.
  - unfold reserve_step. rewrite Es. repeat (destruct (_ <? _)%Z; [done |]).
    by destruct (insert_reservation _ _ _ _ _ _ _) as [[]].
  - rewrite (Hnone scope) by done.
    destruct (String.eqb_spec scope DEFAULT_BUDGET_PROJECT_ID) as [Heq | Hne]; simpl.
    + rewrite <- Heq, Es. done.
    + rewrite reserve_for_project_step, Eup.
      destruct (allocations l !! DEFAULT_BUDGET_PROJECT_ID) as [a |] eqn:Ed.
      * by destruct (reserve_step _ _ _ _ _ _) as [[[]|]].
      * by rewrite (Hnone _ Ed).
Qed.

Lemma billed_account l payload p :
  billed_project l payload = Some p -> exists q u, account_of l p = Some (q, u).
Proof.
  unfold billed_project, account_of. intros H.
  assert (is_Some (allocations l !! p)) as [a ->] by (repeat case_match; naive_solver).
  simpl. eauto.
Qed.

(** Both laws of the interface at once: what an answer says of the ledger. *)
Lemma pg_reserve_answer uuid now payload l :
  exists r l', pg_reserve uuid now payload l = (Ret r, l') /\
    ((br_decision r = "allow" /\ br_reservation_id r = Some uuid) \/
     (br_decision r <> "allow" /\ l' = l)).
Proof.
  rewrite pg_reserve_step. cbv zeta. destruct (db_up l); [| eauto 6].
  destruct (billed_project l payload) as [p |] eqn:Eb; [| eauto 6].
  destruct (billed_account _ _ _ Eb) as (q & u & Ha).
  pose proof (reserve_step_account uuid now (bi_task_id payload) p (payload_estimate payload) l q u Ha) as H.
  destruct (reserve_step _ _ _ _ _ _) as [[[r |] | e] l'].
  - exists r, l'. split; [done |]. destruct (String.eqb_spec (br_decision r) "allow") as [Hd | Hd].
    + left. split; [done | apply H].
    + right. split; [done | apply H].
  - done.
  - destruct H as [-> _]. eauto 6.
Qed.

#[export] Program Instance postgres_client : BudgetRuntimeClient ledger := {
  reserve := pg_reserve
}.
Next Obligation.
  intros uuid now payload c r c' H Hd.
  destruct (pg_reserve_answer uuid now payload c) as (r' & l' & E & Hr).
  rewrite H in E. simplify_eq. destruct Hr as [[_ ->] | []]; [done | congruence].
Qed.
Next Obligation.
  intros uuid now payload c o c' H Hd.
  destruct (pg_reserve_answer uuid now payload c) as (r' & l' & E & Hr).
  rewrite H in E. simplify_eq. destruct Hr as [[Ha _] | []]; [by destruct (Hd r') | done].
Qed.

#[export] Program Instance simulation_client : BudgetRuntimeClient Z := {
  reserve := sim_reserve
}.
Next Obligation.
  intros uuid now payload c r c'. unfold sim_reserve, bind, get, ret, raise, modify.
  intros H Hd. repeat case_match; simplify_eq/=; eauto.
Qed.
Next Obligation.
  intros uuid now payload c o c'. unfold sim_reserve, bind, get, ret, raise, modify.
  intros H Hd. repeat case_match; simplify_eq/=; try done. exfalso. by eapply Hd.
Qed.

(** ** The reservation service *)

Section service_facts.
Context {C : Type} `{!BudgetRuntimeClient C}.

Lemma outcome_allowed_decision r :
  bo_allowed (outcome_of_reservation r) = true <-> br_decision r = "allow".
Proof.
  unfold outcome_of_reservation. destruct (String.eqb_spec (br_decision r) "allow"); [done |].
  split; [| done]. by repeat case_match.
Qed.

Lemma outcome_reservation r : bo_reservation (outcome_of_reservation r) = Some r.
Proof. unfold outcome_of_reservation. by repeat case_match. Qed.

(** One call on a task the service has not seen. *)
Lemma reserve_fresh uuid now task (s : BudgetReservationService C) :
  brs_task_outcomes s !! task_id task = None ->
  exists o c,
    reserve_with_fail_closed uuid now task s =
      (Ret o, {| brs_client := c; brs_task_outcomes := <[task_id task := o]> (brs_task_outcomes s) |}) /\
    (bo_allowed o = true ->
       exists r, bo_reservation o = Some r /\ br_decision r = "allow" /\ is_Some (br_reservation_id r)) /\
    (bo_allowed o = false -> c = brs_client s).
Proof.
  intros Hnone. unfold reserve_with_fail_closed, remember, try, zoom, bind, gets, ret, modify.
  rewrite Hnone.
  destruct (reserve uuid now (reservation_input task) (brs_client s)) as [[r | e] c] eqn:Er.
  - exists (outcome_of_reservation r), c. split; [done |]. split.
    + rewrite outcome_allowed_decision, outcome_reservation. intros Hd. exists r.
      eauto using reserve_allow_id.
    + intros Hd. eapply reserve_refused_unchanged; [exact Er |]. intros r' [= <-] Ha.
      apply outcome_allowed_decision in Ha. congruence.
  - exists (outcome_of_failure e), c. split; [done |]. split; [done |]. intros _.
    by eapply reserve_refused_unchanged; [exact Er |].
Qed.

Lemma reserve_replayed uuid now task (s : BudgetReservationService C) o :
  brs_task_outcomes s !! task_id task = Some o ->
  reserve_with_fail_closed uuid now task s = (Ret o, s).
Proof. intros H. unfold reserve_with_fail_closed, bind, gets, ret. by rewrite H. Qed.
End service_facts.

(** Settlement, step by step: nothing without an active reservation; otherwise
    the reservation is closed, whether or not the usage event can be stored. *)
Definition active_reservation (tid : string) (rs : list BudgetReservationRecord) : option string :=
  rv_id <$> List.find (fun r => String.eqb (rv_task_id r) tid && String.eqb (rv_status r) "reserved") rs.

Lemma pg_settle_step uuid now tid tok usd project role mc l :
  pg_settle uuid now tid tok usd project role mc l =
  (Ret tt,
   if db_up l then
     match active_reservation tid (reservations l) with
     | None => l
     | Some rid =>
         (insert_event uuid now tid (if truthy project then project else DEFAULT_BUDGET_PROJECT_ID)
            role mc (Z.max tok 0) usd
            (with_reservations (map (close_reservation "settled" now rid) (reservations l)) l)).2
     end
   else l).
Proof.
  unfold pg_settle, find_active_reservation_id, settle_reservation, session, try, bind, gets, get,
    modify, ret, raise, active_reservation.
  destruct (db_up l) eqn:Eup; [| done]. destruct (rv_id <$> _) as [rid |]; [| done]. rewrite Eup.
  by destruct (insert_event _ _ _ _ _ _ _ _ _) as [[[] |] ?].
Qed.

Lemma insert_event_step uuid now tid project role mc tok usd l stored :
  db_up l = true -> bigint tok = Ret tok -> numeric_12_6 usd = Ret stored ->
  existsb (fun e => String.eqb (ev_id e) uuid) (events l) = false ->
  insert_event uuid now tid project role mc tok usd l =
  (Ret tt, with_events (events l ++ [mk_BudgetEvent uuid tid project role mc tok stored now]) l).
Proof.
  intros Hup Hb Hn Hx. unfold insert_event, session, bind, get, of_outcome, modify, ret.
  by rewrite Hup, Hb, Hn, Hx.
Qed.

(** ** Repeated reserve-and-settle rounds *)

Section rounds.
Context (project : string) (now : datetime).

Definition round_payload (task : string) : BudgetReservationInput :=
  {| bi_task_id := task; bi_request_id := "r"; bi_trace_id := "t"; bi_principal_id := "owner";
     bi_project_id := project; bi_command := "llm_summarize"; bi_args := [];
     bi_estimated_cost_units := DEFAULT_ESTIMATED_INPUT_TOKENS;
     bi_model_class := "interactive_fast" |}.

(** Task [k] reserves its default estimate, then settles 1000 used tokens. *)
Definition budget_round (k : N) (l : ledger) : string * ledger :=
  let '(o, l1) := pg_reserve (pretty k) now (round_payload (pretty k)) l in
  let '(_, l2) := pg_settle (pretty k) now (pretty k) 1000 35000 project "ceo" "gemini_flash" l1 in
  (match o with Ret r => br_decision r | Raise _ => "raised" end, l2).

Fixpoint budget_rounds (n : nat) (l : ledger) : list string * ledger :=
  match n with
  | O => ([], l)
  | S n' =>
      let '(ds, l1) := budget_rounds n' l in
      let '(d, l2) := budget_round (N.of_nat n') l1 in
      (ds ++ [d], l2)
  end.

(** All reservations so far are settled, with the ids of earlier rounds. *)
Definition settled_upto (n : nat) (l : ledger) : Prop :=
  Forall (fun r => rv_status r = "settled" /\ exists i, (i < n)%nat /\ rv_id r = pretty (N.of_nat i))
    (reservations l) /\
  Forall (fun e => exists i, (i < n)%nat /\ ev_id e = pretty (N.of_nat i)) (events l).

Lemma settled_inactive n l : settled_upto n l -> List.filter (active_for project) (reservations l) = [].
Proof.
  intros [H _]. induction H as [| r rs [Hr _] Hrs IH]; simpl; [done |].
  unfold active_for at 1. by rewrite Hr, andb_false_r.
Qed.

Lemma pretty_fresh {A} (id : A -> string) n (l : list A) :
  Forall (fun x => exists i, (i < n)%nat /\ id x = pretty (N.of_nat i)) l ->
  existsb (fun x => String.eqb (id x) (pretty (N.of_nat n))) l = false.
Proof.
  induction 1 as [| x l (i & Hi & Hx) Hl IH]; simpl; [done |]. rewrite IH, orb_false_r, Hx.
  apply String.eqb_neq. intros Heq. apply (inj pretty) in Heq. lia.
Qed.

Lemma settled_find n l k :
  settled_upto n l ->
  List.find (fun r => String.eqb (rv_task_id r) k && String.eqb (rv_status r) "reserved") (reservations l) = None.
Proof.
  intros [H _]. induction H as [| r rs [Hr _] Hrs IH]; simpl; [done |].
  by rewrite Hr, andb_false_r.
Qed.

Lemma settled_close n l st rid :
  settled_upto n l -> map (close_reservation st now rid) (reservations l) = reservations l.
Proof.
  intros [H _]. induction H as [| r rs [Hr _] Hrs IH]; simpl; [done |].
  unfold close_reservation at 1. by rewrite Hr, andb_false_r, IH.
Qed.

Lemma find_snoc {A} (f : A -> bool) l x : List.find f l = None -> f x = true -> List.find f (l ++ [x]) = Some x.
Proof. intros H Hx. induction l as [| y l IH]; simpl in *; [by rewrite Hx |]. destruct (f y); [done | auto]. Qed.

Lemma budget_round_spec n l a :
  db_up l = true -> project <> "" -> strip project = project ->
  allocations l !! project = Some a -> (1000 <= quota_limit_tokens a)%Z ->
  (35 <= currency_limit_usd a)%Z -> settled_upto n l ->
  exists r e,
    budget_round (N.of_nat n) l =
      ("allow", with_events (events l ++ [e]) (with_reservations (reservations l ++ [r]) l)) /\
    ev_actual_tokens e = 1000%Z /\
    settled_upto (S n) (with_events (events l ++ [e]) (with_reservations (reservations l ++ [r]) l)).
Proof.
  intros Hup Hne Hstrip Ha Hq Hc Hset. unfold budget_round.
  assert (_normalize_project_id project = project) as Hnorm.
  { unfold _normalize_project_id. rewrite Hstrip. by apply truthy_true in Hne as ->. }
  rewrite pg_reserve_step. cbv zeta. rewrite Hup. unfold billed_project.
  change (bi_project_id (round_payload (pretty (N.of_nat n)))) with project. rewrite Hnorm, Ha.
  change (payload_estimate (round_payload (pretty (N.of_nat n)))) with (mk_CostEstimate 35000 1000).
  unfold reserve_step. rewrite Ha. unfold spent_tokens, spent_usd.
  rewrite (settled_inactive n l Hset).
  change (sumz (map rv_reserved_tokens [])) with 0%Z. change (sumz (map rv_reserved_usd [])) with 0%Z.
  cbn [quota_tokens_estimate usd_estimate].
  destruct (Z.ltb_spec (quota_limit_tokens a) (0 + 1000)); [lia |].
  destruct (Z.ltb_spec (1000 * currency_limit_usd a) (1000 * 0 + 35000)); [lia |].
  unfold insert_reservation, bind, of_outcome, get, modify, ret.
  change (numeric_12_6 35000) with (Ret 35%Z). change (bigint 1000) with (Ret 1000%Z). cbv beta iota.
  rewrite (pretty_fresh rv_id n) by (eapply Forall_impl; [exact (proj1 Hset) | by intros x [_ Hx]]).
  rewrite pg_settle_step. cbn [db_up with_reservations reservations]. rewrite Hup.
  unfold active_reservation. erewrite find_snoc;
    [| by eapply settled_find | by simpl; rewrite String.eqb_refl].
  cbn [fmap option_fmap option_map rv_id]. rewrite map_app, (settled_close n l) by done.
  cbn [map]. unfold close_reservation. cbn [rv_id rv_status]. rewrite String.eqb_refl.
  change (String.eqb "reserved" "reserved") with true. cbv beta iota delta [andb].
  erewrite insert_event_step; [| done | done | done |
    cbn [events with_reservations]; apply (pretty_fresh ev_id n); exact (proj2 Hset)].
  apply truthy_true in Hne as ->. eexists _, _. split; [reflexivity |]. split; [done |].
  destruct Hset as [H1 H2]. split; apply Forall_app; (split; [| constructor; [| constructor]]); simpl.
  - eapply Forall_impl; [exact H1 |]. intros x (Hs & i & Hi & Hx). split; [done |].
    exists i. split; [lia | done].
  - split; [done |]. exists n. split; [lia | done].
  - eapply Forall_impl; [exact H2 |]. intros x (i & Hi & Hx). exists i. split; [lia | done].
  - exists n. split; [lia | done].
Qed.
End rounds.

(** * Theorems *)

(** ** Sequences of client calls *)

Inductive budget_op : Type :=
  | OpReserve (uuid : string) (now : datetime) (payload : BudgetReservationInput)
  | OpSettle (uuid : string) (now : datetime) (tid : string) (tokens usd : Z)
      (project role model_class : string)
  | OpRelease (now : datetime) (tid : string)
  | OpSeed
  | OpConnectivity (up : bool).

Definition run_budget_op (l : ledger) (op : budget_op) : ledger :=
  match op with
  | OpReserve uuid now payload => (pg_reserve uuid now payload l).2
  | OpSettle uuid now tid tok usd p role mc => (pg_settle uuid now tid tok usd p role mc l).2
  | OpRelease now tid => (pg_release now tid l).2
  | OpSeed => (seed_default_allocation l).2
  | OpConnectivity up => mk_ledger up (allocations l) (reservations l) (events l)
  end.

Definition run_budget (ops : list budget_op) (l : ledger) : ledger := fold_left run_budget_op ops l.

Lemma run_budget_op_ok l op : ledger_ok l -> ledger_ok (run_budget_op l op).
Proof.
  destruct op; simpl; [apply keeps_pg_reserve | apply keeps_pg_settle | apply keeps_pg_release |
    apply keeps_seed | done].
Qed.

(** C11: however the budget client is driven (reservations, settlements,
    releases, seeding, database outages, in any order and with any inputs), no
    project ever has more tokens or more stored currency reserved than its
    allocation allows, in spite of the rounding of stored amounts. *)
Theorem ledger_never_overcommitted ops l : ledger_ok l -> ledger_ok (run_budget ops l).
Proof.
  unfold run_budget. revert l. induction ops as [| op ops IH]; simpl; [done |].
  intros l Hl. apply IH. by apply run_budget_op_ok.
Qed.

Definition sample_now : datetime := mk_datetime 2026 3 24 12 0 0 0.

Definition seeded_ledger : ledger :=
  mk_ledger true (<["p" := mk_Allocation 70 2000]> ∅) [] [].

Lemma ledger_never_overcommitted_witness :
  ledger_ok seeded_ledger /\
  ledger_ok (run_budget [OpReserve "u1" sample_now (round_payload "p" "t1");
                         OpReserve "u2" sample_now (round_payload "p" "t2");
                         OpReserve "u3" sample_now (round_payload "p" "t3");
                         OpSettle "e1" sample_now "t1" 900 31500 "p" "ceo" "gemini_flash";
                         OpConnectivity false; OpRelease sample_now "t2"] seeded_ledger).
Proof.
  assert (ledger_ok seeded_ledger) as H.
  { split; [constructor |]. intros p. unfold seeded_ledger; simpl.
    rewrite lookup_insert. destruct (decide ("p" = p)); [| by rewrite lookup_empty].
    vm_compute. split; discriminate. }
  split; [exact H | exact (ledger_never_overcommitted _ _ H)].
Defined.

(** C33: the PostgreSQL client refines the account view of the ledger.  A
    reservation always returns; it answers "allow" only for a billed project
    whose account covers the estimate, in which case exactly that account is
    charged and the answer carries the new reservation's id; any other answer
    leaves the ledger untouched, and is given only when the database is down,
    no project is billed, the account is too small or the row cannot be
    inserted. *)
Theorem pg_reserve_refines_account uuid now payload l :
  exists r l', pg_reserve uuid now payload l = (Ret r, l') /\
  let est := payload_estimate payload in
  if String.eqb (br_decision r) "allow" then
    exists p q u micro,
      billed_project l payload = Some p /\ account_of l p = Some (q, u) /\
      (quota_tokens_estimate est <= q)%Z /\ (usd_estimate est <= 1000 * u)%Z /\
      br_reservation_id r = Some uuid /\ numeric_12_6 (usd_estimate est) = Ret micro /\
      forall p', account_of l' p' =
        if decide (p' = p) then Some (q - quota_tokens_estimate est, u - micro)%Z
        else account_of l p'
  else
    l' = l /\
    forall p q u,
      db_up l = true -> billed_project l payload = Some p -> account_of l p = Some (q, u) ->
      insertable uuid est l ->
      ~ ((quota_tokens_estimate est <= q)%Z /\ (usd_estimate est <= 1000 * u)%Z).
Proof.
  rewrite pg_reserve_step. cbv zeta. destruct (db_up l) eqn:Eup; [| eexists _, _; by split].
  destruct (billed_project l payload) as [p |] eqn:Eb; [| eexists _, _; by split].
  destruct (billed_account _ _ _ Eb) as (q & u & Ha).
  pose proof (reserve_step_account uuid now (bi_task_id payload) p (payload_estimate payload) l q u Ha) as H.
  destruct (reserve_step _ _ _ _ _ _) as [[[r |] | e] l']; [| done |].
  - eexists _, _. split; [done |]. destruct (String.eqb (br_decision r) "allow").
    + destruct H as (Hq & Hu & Hid & micro & Hm & Hacc). exists p, q, u, micro. done.
    + destruct H as [-> Hno]. split; [done |]. intros p' q' u' _ [= <-] Ha'. by simplify_eq.
  - destruct H as [-> Hno]. eexists _, _. split; [done |]. cbn [br_decision pg_result String.eqb].
    split; [done |]. intros p' q' u' _ _ _ Hins. by destruct Hno.
Qed.

(** The reservation service is replay-safe and fail-closed over any
    client that keeps the interface: a call always returns, an allowed outcome
    carries a reservation the client allowed under an id, a refused one leaves
    the client's books alone, and a later call for the same task id returns
    the same outcome without reaching the client. *)
Theorem reserve_once_fail_closed {C : Type} `{!BudgetRuntimeClient C} uuid now task
    (s : BudgetReservationService C) :
  brs_task_outcomes s !! task_id task = None ->
  exists o s', reserve_with_fail_closed uuid now task s = (Ret o, s') /\
    (bo_allowed o = true ->
       exists r, bo_reservation o = Some r /\ br_decision r = "allow" /\ is_Some (br_reservation_id r)) /\
    (bo_allowed o = false -> brs_client s' = brs_client s) /\
    forall uuid' now' task', task_id task' = task_id task ->
      reserve_with_fail_closed uuid' now' task' s' = (Ret o, s').
Proof.
  intros Hnone. destruct (reserve_fresh uuid now task s Hnone) as (o & c & E & Hallow & Hdeny).
  eexists _, _. split; [exact E |]. split; [done |]. split; [done |].
  intros uuid' now' task' Hid. apply reserve_replayed. simpl. by rewrite Hid, lookup_insert_eq.
Qed.

Definition sample_task : TaskRecord :=
  {| task_id := "t1"; request_id := "r1"; trace_id := "tr1"; principal_id := "owner-1";
     principal_role := "owner"; trust_domain := "external_verified"; connector := "discord";
     command := "llm_summarize"; target := "sandbox"; args := ["x"]; metadata := [];
     project_id := Some "p"; idempotency_key := "idem-0001"; status := "queued";
     created_at := sample_now; outcome_source := None; outcome_error_code := None;
     outcome_message := None; outcome_details := None; dispatch_target := None;
     dispatch_id := None |}.

Definition sample_service : BudgetReservationService ledger :=
  mk_BudgetReservationService seeded_ledger ∅.

Lemma reserve_once_fail_closed_witness :
  brs_task_outcomes sample_service !! task_id sample_task = None /\
  exists o s', reserve_with_fail_closed "u1" sample_now sample_task sample_service = (Ret o, s') /\
    bo_allowed o = true.
Proof.
  split; [reflexivity |].
  destruct (reserve_once_fail_closed "u1" sample_now sample_task sample_service eq_refl)
    as (o & s' & E & _).
  exists o, s'. split; [exact E |]. vm_compute in E. injection E as <- _. reflexivity.
Defined.

(** Settled usage never counts against an allocation.  On a project with
    room for a single default reservation, any number of consecutive tasks is
    allowed, each one reserving and then settling 1000 used tokens: after [n]
    tasks the recorded usage is [1000 * n] tokens and the account is as full as
    at the start. *)
Theorem settled_usage_never_counted n project now l a :
  db_up l = true -> project <> "" -> strip project = project ->
  allocations l !! project = Some a -> (1000 <= quota_limit_tokens a)%Z ->
  (35 <= currency_limit_usd a)%Z -> reservations l = [] -> events l = [] ->
  let '(decisions, l') := budget_rounds project now n l in
  decisions = repeat "allow" n /\
  sumz (map ev_actual_tokens (events l')) = (1000 * Z.of_nat n)%Z /\
  account_of l' project = account_of l project.
Proof.
  intros Hup Hne Hs Ha Hq Hc Hr He.
  assert (let '(ds, l') := budget_rounds project now n l in
    ds = repeat "allow" n /\ sumz (map ev_actual_tokens (events l')) = (1000 * Z.of_nat n)%Z /\
    db_up l' = true /\ allocations l' = allocations l /\ settled_upto n l') as H.
  { induction n as [| n IH]; cbn [budget_rounds].
    - rewrite He. repeat split; try done; rewrite ?Hr, ?He; constructor.
    - destruct (budget_rounds project now n l) as [ds l1].
      destruct IH as (-> & Hsum & Hup1 & Hal & Hset).
      destruct (budget_round_spec project now n l1 a) as (r & e & -> & Htok & Hset'); try done.
      { by rewrite Hal. }
      split; [| split; [| done]].
      + rewrite <- repeat_cons. done.
      + simpl events. rewrite map_app, sumz_app, Hsum. simpl. rewrite Htok. lia. }
  destruct (budget_rounds project now n l) as [ds l'].
  destruct H as (-> & Hsum & _ & Hal & Hset). split; [done |]. split; [done |].
  unfold account_of, spent_tokens, spent_usd. rewrite Hal, Hr.
  by rewrite (settled_inactive project n l' Hset).
Qed.

Definition one_slot_ledger : ledger :=
  mk_ledger true (<["p" := mk_Allocation 35 1000]> ∅) [] [].

Lemma settled_usage_never_counted_witness :
  let '(decisions, l') := budget_rounds "p" sample_now 5 one_slot_ledger in
  decisions = repeat "allow" 5 /\
  sumz (map ev_actual_tokens (events l')) = (1000 * Z.of_nat 5)%Z /\
  account_of l' "p" = account_of one_slot_ledger "p".
Proof.
  apply (settled_usage_never_counted 5 "p" sample_now one_slot_ledger (mk_Allocation 35 1000));
    first [reflexivity | discriminate].
Defined.
