(* ===== verification/LoopControl.v ===== *)
(** Per-task loop caps.

    Models [task_orchestrator/loop_control.py].  The mutable [LoopState] of one
    task invocation is the state of the monad; both checks store the counter
    before they compare it with the limit, so a breach leaves it incremented. *)

From S2P Require Import Prelude.

Record LoopState : Type := mk_LoopState {
  hop_count : Z;
  pair_rounds : gmap (string * string) Z
}.

Definition fresh_LoopState : LoopState := {| hop_count := 0; pair_rounds := ∅ |}.

Definition check_and_increment_hop (limit : Z) : M LoopState unit :=
  modify (fun l => {| hop_count := hop_count l + 1; pair_rounds := pair_rounds l |}) ;!
  let! loop_state := get in
  if (limit <? hop_count loop_state)%Z
  then raise (LoopCapBreachError "hop_count" (hop_count loop_state) limit None)
  else ret tt.

Definition check_and_increment_pair (sender recipient : string) (limit : Z) : M LoopState unit :=
  let pair := (sender, recipient) in
  let! loop_state := get in
  let current := (default 0 (pair_rounds loop_state !! pair) + 1)%Z in
  modify (fun l => {| hop_count := hop_count l; pair_rounds := <[pair := current]> (pair_rounds l) |}) ;!
  if (limit <? current)%Z
  then raise (LoopCapBreachError "pair_rounds" current limit (Some pair))
  else ret tt.

(** The default arguments. *)
Definition default_hop_limit : Z := 5.
Definition default_pair_limit : Z := 2.

(** * Call sequences *)

Inductive loop_call : Type :=
  | Hop
  | Pair (sender recipient : string).

#[export] Instance loop_call_eq_dec : EqDecision loop_call.
Proof. solve_decision. Defined.

Definition loop_check (c : loop_call) : M LoopState unit :=
  match c with
  | Hop => check_and_increment_hop default_hop_limit
  | Pair s r => check_and_increment_pair s r default_pair_limit
  end.

Definition cap_of (c : loop_call) : Z :=
  match c with Hop => default_hop_limit | Pair _ _ => default_pair_limit end.

Definition breach (c : loop_call) (n : Z) : exn :=
  match c with
  | Hop => LoopCapBreachError "hop_count" n default_hop_limit None
  | Pair s r => LoopCapBreachError "pair_rounds" n default_pair_limit (Some (s, r))
  end.

(** Calls in order, each on the state the previous one left, whatever it answered. *)
Fixpoint loop_trace (calls : list loop_call) (l : LoopState) : list (outcome unit) :=
  match calls with
  | [] => []
  | c :: calls' => let '(o, l') := loop_check c l in o :: loop_trace calls' l'
  end.

(** How often [c] occurs. *)
Definition occurs (c : loop_call) (calls : list loop_call) : Z :=
  Z.of_nat (length (filter (eq c) calls)).

(** The counter a state keeps for [c]. *)
Definition counter (c : loop_call) (l : LoopState) : Z :=
  match c with Hop => hop_count l | Pair s r => default 0%Z (pair_rounds l !! (s, r)) end.

Lemma loop_check_spec c l :
  exists l', loop_check c l =
    (if (cap_of c <? counter c l + 1)%Z then Raise (breach c (counter c l + 1)) else Ret tt, l') /\
    forall d, counter d l' = (counter d l + if decide (d = c) then 1 else 0)%Z.
Proof.
  destruct c as [| s r]; cbn [loop_check cap_of counter breach];
    unfold check_and_increment_hop, check_and_increment_pair, bind, modify, get, ret, raise;
    cbv beta iota zeta.
  - eexists. split; [cbn [hop_count]; by destruct (_ <? _)%Z |].
    intros [| s r]; cbn [counter hop_count pair_rounds]; case_decide; try done; lia.
  - eexists. split; [by destruct (_ <? _)%Z |].
    intros [| s' r']; cbn [counter hop_count pair_rounds].
    + case_decide; [done | lia].
    + case_decide as H.
      * injection H as -> ->. rewrite lookup_insert_eq. done.
      * rewrite lookup_insert_ne by congruence. lia.
Qed.

Lemma occurs_snoc d c calls :
  occurs d (calls ++ [c]) = (occurs d calls + if decide (d = c) then 1 else 0)%Z.
Proof.
  unfold occurs. rewrite filter_app, length_app, filter_cons, filter_nil.
  case_decide; simpl; lia.
Qed.

(** Answers of a call sequence whose prefix [past] was already made. *)
Lemma loop_trace_from past calls l :
  (forall d, counter d l = occurs d past) ->
  forall k c, calls !! k = Some c ->
  loop_trace calls l !! k =
    Some (let n := occurs c (past ++ take (S k) calls) in
          if (cap_of c <? n)%Z then Raise (breach c n) else Ret tt).
Proof.
  revert past l. induction calls as [| c0 calls IH]; intros past l Hl k c Hk; [done |].
  cbn [loop_trace]. destruct (loop_check_spec c0 l) as (l' & -> & Hl').
  destruct k as [| k].
  - injection Hk as ->. cbn [lookup list_lookup take].
    rewrite occurs_snoc, decide_True, <- Hl by done. cbv zeta. by case_match.
  - cbn [lookup list_lookup] in Hk |- *.
    erewrite (IH (past ++ [c0])); [| | exact Hk].
    + by rewrite <- app_assoc.
    + intros d. by rewrite Hl', Hl, occurs_snoc.
Qed.

(** * Theorems *)

(** The loop caps are exact.  In any interleaving of hop and pair checks on
    a fresh [LoopState], a call raises if and only if it is past the fifth hop,
    or past the second round of its own ordered (sender, recipient) pair, and
    then it reports the count reached, its limit and its pair; hops and
    distinct pairs never disturb each other. *)
Theorem loop_caps_exact calls k c :
  calls !! k = Some c ->
  loop_trace calls fresh_LoopState !! k =
    Some (let n := occurs c (take (S k) calls) in
          if (cap_of c <? n)%Z then Raise (breach c n) else Ret tt).
Proof. intros H. by apply (loop_trace_from []); [intros [] |]. Qed.

Lemma loop_caps_exact_witness :
  loop_trace [Pair "project_manager" "specialist"; Hop; Pair "project_manager" "specialist";
              Pair "project_manager" "domain_leader"; Pair "project_manager" "specialist"]
    fresh_LoopState !! 4 =
  Some (Raise (LoopCapBreachError "pair_rounds" 3 2 (Some ("project_manager", "specialist")))).
Proof.
  rewrite (loop_caps_exact _ 4 (Pair "project_manager" "specialist")) by reflexivity.
  reflexivity.
Defined.
