(* ===== verification/Policy.v ===== *)
(** The policy runtime: inputs and decisions, the OPA client, the shipped
    constitution bundle, the in-memory client, and the fail-closed guard.

    Models [policy_runtime_integration/models.py], [normalizer.py],
    [client.py], [fail_closed.py], [rego/policy.rego] and
    [testing/in_memory_client.py].

    A client is any operation on the outside world [E] that answers a decision
    or raises ([PolicyRuntimeClient]); the HTTP library under the OPA client is
    the parameter [http_post]. *)

From Stdlib Require Import Ascii.
From S2P Require Import Prelude PyStr PyData Task.

(** ** Models *)

Record PolicyEvaluationInput : Type := mk_PolicyEvaluationInput {
  pi_task_id : string;
  pi_request_id : string;
  pi_trace_id : string;
  pi_principal_id : string;
  pi_principal_role : string;
  pi_trust_domain : string;
  pi_connector : string;
  pi_action : string;
  pi_target : string;
  pi_recipient_types : list string;
  pi_recipient_ids : list string;
  pi_args : list string;
  pi_project_id : option string
}.

(** [PolicyDecision] is a [Literal] that nothing checks: the OPA client passes on
    whatever JSON value the server gave. *)
Record PolicyEvaluationResult : Type := mk_PolicyEvaluationResult {
  pr_decision : json;
  pr_reason_code : string;
  pr_reason_message : string;
  pr_policy_version : string;
  pr_policy_hash : string;
  pr_rule_ids : list string;
  pr_obligations : list string
}.

(** ** Normalization *)

(** The generator over [raw.split(",")]. *)
Definition csv_tokens_lower (raw : string) : list string :=
  List.filter truthy (map norm (split_on ","%char raw)).

Definition normalize_policy_input (task : TaskRecord) : PolicyEvaluationInput :=
  let recipient_types_raw := dict_get_or (metadata task) "recipient_types" "" in
  let recipient_ids_raw := dict_get_or (metadata task) "recipient_ids" "" in
  {| pi_task_id := task_id task; pi_request_id := request_id task; pi_trace_id := trace_id task;
     pi_principal_id := principal_id task; pi_principal_role := principal_role task;
     pi_trust_domain := trust_domain task; pi_connector := connector task;
     pi_action := command task; pi_target := target task;
     pi_recipient_types := csv_tokens_lower recipient_types_raw;
     pi_recipient_ids := csv_tokens_lower recipient_ids_raw;
     pi_args := args task; pi_project_id := project_id task |}.

(** ** The client interface *)

Class PolicyRuntimeClient (E : Type) : Type := {
  evaluate : PolicyEvaluationInput -> M E PolicyEvaluationResult
}.

(** ** The OPA HTTP client *)

Definition _POLICY_VERSION_FALLBACK : string := "unknown".

Definition jstrs (l : list string) : json := JArr (map JStr l).

Definition _serialize_input (payload : PolicyEvaluationInput) : json :=
  JObj [("task_id", JStr (pi_task_id payload)); ("request_id", JStr (pi_request_id payload));
        ("trace_id", JStr (pi_trace_id payload)); ("principal_id", JStr (pi_principal_id payload));
        ("principal_role", JStr (pi_principal_role payload));
        ("trust_domain", JStr (pi_trust_domain payload)); ("connector", JStr (pi_connector payload));
        ("action", JStr (pi_action payload)); ("target", JStr (pi_target payload));
        ("recipient_types", jstrs (pi_recipient_types payload));
        ("recipient_ids", jstrs (pi_recipient_ids payload)); ("args", jstrs (pi_args payload));
        ("project_id", match pi_project_id payload with Some p => JStr p | None => JNull end)].

(** [raw.get(key, default)] on a text field that is only passed on.  The bundle
    answers text there; a value of another JSON type is carried as its [str]. *)
Definition jtext (o : list (string * json)) (key default : string) : string :=
  match jfield o key with Some v => jstr v | None => default end.

(** [tuple(raw.get(key, []))]. *)
Definition jtuple (o : list (string * json)) (key : string) : outcome (list string) :=
  match jfield o key with
  | None => Ret []
  | Some (JArr l) => Ret (map jstr l)
  | Some (JObj fields) => Ret (map fst fields)
  | Some (JStr s) => Ret (map (fun c => String c "") (String.list_ascii_of_string s))
  | Some _ => Raise (OtherError "object is not iterable")
  end.

Definition _deserialize_result (raw : json) : outcome PolicyEvaluationResult :=
  match raw with
  | JObj o =>
      let? rule_ids := jtuple o "rule_ids" in
      let? obligations := jtuple o "obligations" in
      Ret {| pr_decision := default (JStr "deny") (jfield o "decision");
             pr_reason_code := jtext o "reason_code" "opa_result_parse_error";
             pr_reason_message := jtext o "reason_message" "unexpected OPA response structure";
             pr_policy_version := jtext o "policy_version" _POLICY_VERSION_FALLBACK;
             pr_policy_hash := jtext o "policy_hash" "unknown";
             pr_rule_ids := rule_ids; pr_obligations := obligations |}
  | _ => Raise (OtherError "object has no attribute 'get'")
  end.

Definition _fail_closed_result (reason : string) : PolicyEvaluationResult :=
  {| pr_decision := JStr "deny"; pr_reason_code := "POL-003";
     pr_reason_message := "policy evaluation failed (fail-closed): " +:+ reason;
     pr_policy_version := _POLICY_VERSION_FALLBACK; pr_policy_hash := "unknown";
     pr_rule_ids := ["POL-003"]; pr_obligations := [] |}.

Record http_response : Type := mk_http_response {
  status_code : Z;
  response_json : outcome json      (* what [response.json()] answers or raises *)
}.

(** [body.get("result")]. *)
Definition result_field (body : json) : outcome (option json) :=
  match body with
  | JObj o => Ret (match jfield o "result" with Some JNull => None | r => r end)
  | _ => Raise (OtherError "object has no attribute 'get'")
  end.

Section opa.
Context {E : Type} (http_post : json -> M E http_response).

Definition _query_opa (payload : PolicyEvaluationInput) : M E PolicyEvaluationResult :=
  let opa_input := _serialize_input payload in
  let! response :=
    try (let! r := http_post (JObj [("input", opa_input)]) in ret (inl r))
        (fun exc => Some (ret (inr (_fail_closed_result
           (match exc with
            | TransportError _ => "OPA transport error: " +:+ exn_str exc
            | _ => "OPA call failed: " +:+ exn_str exc
            end))))) in
  match response with
  | inr failed => ret failed
  | inl r =>
      if negb (Z.eqb (status_code r) 200) then
        ret (_fail_closed_result ("OPA returned HTTP " +:+ str_int (status_code r)))
      else
        match obind (response_json r) result_field with
        | Raise exc => ret (_fail_closed_result ("OPA response parse error: " +:+ exn_str exc))
        | Ret None => ret (_fail_closed_result "OPA returned empty result (no matching rule)")
        | Ret (Some result_raw) => of_outcome (_deserialize_result result_raw)
        end
  end.

Definition OPAPolicyRuntimeClient : PolicyRuntimeClient E := {| evaluate := _query_opa |}.
End opa.

(** ** The constitution bundle *)

Definition _known_roles : list string :=
  ["owner"; "secretary"; "administrator"; "auditor"; "ceo"; "cwo"; "cso"; "project_manager";
   "domain_leader"; "specialist"].

Definition bundle_version : string := "v2-bundle-0.1.0".
Definition bundle_hash : string := "rego-openqilin-constitution-v1".

Definition bundle_result (decision code message : string) (rules obligations : list string)
    : PolicyEvaluationResult :=
  {| pr_decision := JStr decision; pr_reason_code := code; pr_reason_message := message;
     pr_policy_version := bundle_version; pr_policy_hash := bundle_hash;
     pr_rule_ids := rules; pr_obligations := obligations |}.

Definition _specialist_target (payload : PolicyEvaluationInput) : bool :=
  String.eqb (pi_target payload) "specialist" ||
  startswith (pi_target payload) "specialist_" ||
  mem "specialist" (pi_recipient_types payload) ||
  existsb (fun r => startswith r "specialist") (pi_recipient_ids payload) ||
  existsb (fun a => String.eqb (lower a) "specialist") (pi_args payload).

Definition _owner_specialist_denied (payload : PolicyEvaluationInput) : bool :=
  String.eqb (pi_principal_role payload) "owner" && _specialist_target payload.

(** The [decide] rule with its [else] chain. *)
Definition decide_rule (payload : PolicyEvaluationInput) : PolicyEvaluationResult :=
  if negb (mem (pi_principal_role payload) _known_roles) then
    bundle_result "deny" "unknown_role" "actor role not recognized by policy runtime" ["POL-004"] []
  else if String.eqb (pi_action payload) "policy_uncertain" ||
          String.eqb (pi_action payload) "policy_error" then
    bundle_result "uncertain" "policy_uncertain" "policy runtime returned uncertainty" ["POL-003"] []
  else if _owner_specialist_denied payload then
    bundle_result "deny" "governance_specialist_direct_command_denied"
      "owner cannot directly command specialist; route through project_manager" ["OIM-005"] []
  else if startswith (pi_action payload) "deny_" then
    bundle_result "deny" "policy_denied" "command denied by policy rule" ["POL-001"] []
  else
    bundle_result "allow_with_obligations" "policy_allowed" "command allowed by policy rule"
      ["AUTH-001"; "AUTH-002"; "POL-001"] ["emit_audit_event"; "reserve_budget"].

(** ** The in-memory client *)

Definition shell_result (decision code message : string) (rules : list string)
    : PolicyEvaluationResult :=
  {| pr_decision := JStr decision; pr_reason_code := code; pr_reason_message := message;
     pr_policy_version := "m1-policy-shell-v1"; pr_policy_hash := "m1-policy-shell-hash-v1";
     pr_rule_ids := rules; pr_obligations := [] |}.

Definition shell_specialist_target (payload : PolicyEvaluationInput) : bool :=
  mem "specialist" (pi_recipient_types payload) ||
  existsb (fun r => startswith r "specialist") (pi_recipient_ids payload) ||
  (startswith (pi_action payload) "msg_" &&
   existsb (fun a => startswith (norm a) "specialist") (pi_args payload)) ||
  String.eqb (norm (pi_target payload)) "specialist" ||
  startswith (norm (pi_target payload)) "specialist_".

Definition in_memory_evaluate (payload : PolicyEvaluationInput) : outcome PolicyEvaluationResult :=
  if String.eqb (pi_action payload) "policy_error" then
    Raise (RuntimeError "simulated policy runtime failure")
  else if negb (mem (pi_principal_role payload) _known_roles) then
    Ret (shell_result "deny" "unknown_role" "actor role not recognized by policy runtime" ["POL-004"])
  else if String.eqb (pi_action payload) "policy_uncertain" then
    Ret (shell_result "uncertain" "policy_uncertain" "policy runtime returned uncertainty" ["POL-003"])
  else if String.eqb (pi_principal_role payload) "owner" && shell_specialist_target payload then
    Ret (shell_result "deny" "governance_specialist_direct_command_denied"
           "owner cannot directly command specialist; route through project_manager" ["OIM-005"])
  else if startswith (pi_action payload) "deny_" then
    Ret (shell_result "deny" "policy_denied" "command denied by policy rule" ["POL-001"])
  else
    Ret (shell_result "allow" "policy_allowed" "command allowed by policy rule" ["POL-001"]).

Definition InMemoryPolicyRuntimeClient {E} : PolicyRuntimeClient E :=
  {| evaluate := fun payload => of_outcome (in_memory_evaluate payload) |}.

(** The bundle, queried without loss. *)
Definition bundle_client {E} : PolicyRuntimeClient E :=
  {| evaluate := fun payload => ret (decide_rule payload) |}.

(** ** The fail-closed guard *)

Record PolicyFailClosedOutcome : Type := mk_PolicyFailClosedOutcome {
  po_allowed : bool;
  po_error_code : option string;
  po_message : string;
  po_policy_result : option PolicyEvaluationResult
}.

Definition unhashable_error : exn := OtherError "TypeError: unhashable type".

(** The reading of a decision the client answered.  Testing whether it is in a
    set hashes it, which raises for a list or an object. *)
Definition outcome_of_decision (result : PolicyEvaluationResult) : outcome PolicyFailClosedOutcome :=
  let uncertain :=
    {| po_allowed := false; po_error_code := Some "policy_uncertain_fail_closed";
       po_message := "policy decision uncertain; fail-closed block applied";
       po_policy_result := Some result |} in
  match pr_decision result with
  | JArr _ | JObj _ => Raise unhashable_error
  | JStr decision =>
      Ret (if mem decision ["allow"; "allow_with_obligations"] then
             {| po_allowed := true; po_error_code := None; po_message := "policy allowed command";
                po_policy_result := Some result |}
           else if String.eqb decision "deny" then
             {| po_allowed := false; po_error_code := Some (pr_reason_code result);
                po_message := pr_reason_message result; po_policy_result := Some result |}
           else uncertain)
  | _ => Ret uncertain
  end.

Definition outcome_of_policy_error (error : exn) : PolicyFailClosedOutcome :=
  {| po_allowed := false; po_error_code := Some "policy_runtime_error_fail_closed";
     po_message := "policy evaluation failed: " +:+ exn_str error; po_policy_result := None |}.

Definition evaluate_with_fail_closed {E} `{!PolicyRuntimeClient E} (payload : PolicyEvaluationInput)
    : M E PolicyFailClosedOutcome :=
  let! answer := try (let! result := evaluate payload in ret (inl result))
                     (fun error => Some (ret (inr (outcome_of_policy_error error)))) in
  match answer with
  | inl result => of_outcome (outcome_of_decision result)
  | inr refused => ret refused
  end.

(** * Lemmas *)

Definition allowing : list json := [JStr "allow"; JStr "allow_with_obligations"].

Lemma outcome_of_decision_allowed r o :
  outcome_of_decision r = Ret o -> po_allowed o = true <-> In (pr_decision r) allowing.
Proof.
  unfold outcome_of_decision, allowing. cbv zeta.
  destruct (pr_decision r) as [| | | | d | |]; try done; intros [= <-]; simpl;
    try (split; [done | intuition discriminate]).
  rewrite orb_false_r. destruct (String.eqb_spec d "allow") as [-> | H1]; [by split; [left |] |].
  destruct (String.eqb_spec d "allow_with_obligations") as [-> | H2]; [by split; [right; left |] |].
  cbn [orb]. split; [by case_match | intros [[=] | [[=] | []]]; congruence].
Qed.

Lemma outcome_of_decision_result r o : outcome_of_decision r = Ret o -> po_policy_result o = Some r.
Proof. unfold outcome_of_decision. cbv zeta. repeat case_match; by intros [= <-]. Qed.

Lemma outcome_of_decision_exn r x :
  outcome_of_decision r = Raise x ->
  x = unhashable_error /\ ((exists l, pr_decision r = JArr l) \/ (exists o, pr_decision r = JObj o)).
Proof. unfold outcome_of_decision. cbv zeta. repeat case_match; intros [= <-]; eauto. Qed.

Lemma fail_closed_step {E} `{!PolicyRuntimeClient E} payload (e : E) :
  evaluate_with_fail_closed payload e =
  match evaluate payload e with
  | (Ret r, e') => (outcome_of_decision r, e')
  | (Raise x, e') => (Ret (outcome_of_policy_error x), e')
  end.
Proof. unfold evaluate_with_fail_closed, try, bind, ret, of_outcome. by destruct (evaluate payload e) as [[] ?]. Qed.

(** An outcome without a result is no permission, and only an unhashable
    decision escapes the guard. *)
Lemma fail_closed_cases {E} `{!PolicyRuntimeClient E} payload (e : E) :
  match evaluate_with_fail_closed payload e with
  | (Ret o, _) => po_policy_result o = None -> po_allowed o = false
  | (Raise x, _) => x = unhashable_error
  end.
Proof.
  rewrite fail_closed_step. destruct (evaluate payload e) as [[r | x] e']; [| done].
  destruct (outcome_of_decision r) as [o | x] eqn:Ho; [by rewrite (outcome_of_decision_result r o Ho) |].
  by apply outcome_of_decision_exn in Ho as [-> _].
Qed.

(** Every decision of the bundle that allows carries its two obligations. *)
Lemma decide_rule_allows payload o :
  outcome_of_decision (decide_rule payload) = Ret o -> po_allowed o = true ->
  pr_decision (decide_rule payload) = JStr "allow_with_obligations" /\
  pr_obligations (decide_rule payload) = ["emit_audit_event"; "reserve_budget"] /\
  In (pi_principal_role payload) _known_roles /\
  _owner_specialist_denied payload = false /\
  startswith (pi_action payload) "deny_" = false.
Proof.
  unfold decide_rule. destruct (mem _ _) eqn:Er; [| by intros [= <-]]. cbn [negb].
  destruct (_ || _); [by intros [= <-] |]. destruct (_owner_specialist_denied payload); [by intros [= <-] |].
  destruct (startswith _ _); [by intros [= <-] |]. intros _ _. repeat split. by apply mem_In.
Qed.

(** * Theorems *)

Section opa_facts.
Context {E : Type} (http_post : json -> M E http_response).

(** C34: the OPA client under the guard is fail-closed for every behaviour of
    the HTTP library and of the server.  The guard allows only if the server
    answered HTTP 200 with a JSON object whose ["result"] is an object with an
    allowing ["decision"] and iterable rule ids and obligations; anything else
    (transport error, other status, unparsable or empty body, another decision) is
    refused, in an answer.  The one exception that escapes the guard is the type
    error of an answer, otherwise sound, whose decision is a list or an object. *)
Theorem opa_client_fail_closed payload e :
  let answered e' raw :=
    exists r body,
      http_post (JObj [("input", _serialize_input payload)]) e = (Ret r, e') /\
      status_code r = 200%Z /\ response_json r = Ret (JObj body) /\
      jfield body "result" = Some (JObj raw) /\ returns (jtuple raw "rule_ids") /\ returns (jtuple raw "obligations") in
  match evaluate_with_fail_closed (E := E) (PolicyRuntimeClient0 := OPAPolicyRuntimeClient http_post) payload e with
  | (Ret o, e') =>
      po_allowed o = true ->
      exists raw, answered e' raw /\
        In (jfield raw "decision") [Some (JStr "allow"); Some (JStr "allow_with_obligations")]
  | (Raise x, e') =>
      x = unhashable_error /\
      exists raw, answered e' raw /\
        ((exists l, jfield raw "decision" = Some (JArr l)) \/ (exists d, jfield raw "decision" = Some (JObj d)))
  end.
Proof.
  cbv zeta. rewrite fail_closed_step. cbn [evaluate OPAPolicyRuntimeClient].
  unfold _query_opa, bind, try, ret, of_outcome. cbv zeta.
  destruct (http_post _ e) as [[r | x] e'] eqn:Ehttp; [| by destruct x].
  destruct (Z.eqb_spec (status_code r) 200) as [Hs | _]; cbn [negb]; [| done].
  destruct (response_json r) as [body | x] eqn:Ejson; cbn [obind]; [| done].
  destruct body as [| | | | | | body]; cbn [result_field]; try done.
  destruct (jfield body "result") as [raw |] eqn:Eres; [| done].
  destruct raw as [| | | | | | raw]; cbn [_deserialize_result]; try done.
  destruct (jtuple raw "rule_ids") as [rules | x] eqn:Er; cbn [obind]; [| done].
  destruct (jtuple raw "obligations") as [obs | x] eqn:Eo; cbn [obind]; [| done].
  match goal with |- context [outcome_of_decision ?result] =>
    pose proof (outcome_of_decision_allowed result) as Hallowed; pose proof (outcome_of_decision_exn result) as Hexn;
    destruct (outcome_of_decision result) as [o | x] end; cbn [pr_decision] in Hallowed, Hexn.
  - intros Ha. apply (Hallowed o eq_refl) in Ha. exists raw.
    split; [exists r, body; rewrite Er, Eo; unfold returns; by split_and!; eauto |].
    destruct (jfield raw "decision") as [d |]; simpl in Ha; [| by intuition discriminate].
    destruct Ha as [<- | [<- | []]]; [by left | by right; left].
  - destruct (Hexn x eq_refl) as [-> Hd]. split; [done |]. exists raw.
    split; [exists r, body; rewrite Er, Eo; unfold returns; by split_and!; eauto |].
    destruct (jfield raw "decision") as [d |]; simpl in Hd; [| by destruct Hd as [[? [=]] | [? [=]]]].
    destruct Hd as [[l ->] | [d' ->]]; [left | right]; by eexists.
Qed.

(** A server that answers [["deny"]] makes the guard raise. *)
Example unhashable_decision_escapes :
  let post (_ : json) : M unit http_response :=
    ret (mk_http_response 200 (Ret (JObj [("result", JObj [("decision", JArr [JStr "deny"])])]))) in
  evaluate_with_fail_closed (PolicyRuntimeClient0 := OPAPolicyRuntimeClient post)
    (mk_PolicyEvaluationInput "t1" "r1" "tr1" "owner-1" "owner" "external_verified" "discord" "msg_notify" "sandbox"
       [] [] [] None) tt = (Raise unhashable_error, tt).
Proof. reflexivity. Qed.
End opa_facts.

(** C39: the in-memory client used by the tests decides as the shipped bundle
    does.  Where the two readings of "addressed to a specialist" coincide for
    an owner, the guard allows under one exactly when it allows under the
    other, and a refusal the in-memory client answers carries the bundle's
    error code, message and rule. *)
Theorem in_memory_agrees_with_bundle payload :
  (pi_principal_role payload = "owner" -> shell_specialist_target payload = _specialist_target payload) ->
  exists bundle, outcome_of_decision (decide_rule payload) = Ret bundle /\
    match in_memory_evaluate payload with
    | Raise _ => po_allowed bundle = false
    | Ret r =>
        exists o, outcome_of_decision r = Ret o /\ po_allowed o = po_allowed bundle /\
          (po_allowed bundle = false ->
           po_error_code o = po_error_code bundle /\ po_message o = po_message bundle /\
           pr_rule_ids r = pr_rule_ids (decide_rule payload))
    end.
Proof.
  intros Htarget. unfold in_memory_evaluate, decide_rule, _owner_specialist_denied.
  assert (forall r r' b o, outcome_of_decision r' = Ret b -> outcome_of_decision r = Ret o ->
    po_allowed o = po_allowed b /\ (po_allowed b = false -> po_error_code o = po_error_code b /\
      po_message o = po_message b /\ pr_rule_ids r = pr_rule_ids r') ->
    exists bundle, outcome_of_decision r' = Ret bundle /\ exists o, outcome_of_decision r = Ret o /\
      po_allowed o = po_allowed bundle /\ (po_allowed bundle = false -> po_error_code o = po_error_code bundle /\
        po_message o = po_message bundle /\ pr_rule_ids r = pr_rule_ids r')) as Hagree by (intros r r' b o; eauto).
  destruct (String.eqb_spec (pi_action payload) "policy_error") as [-> | Hne].
  { rewrite orb_true_r. destruct (negb _); by eexists. }
  rewrite orb_false_r. destruct (negb _); [by eapply Hagree |].
  destruct (String.eqb (pi_action payload) "policy_uncertain"); [by eapply Hagree |].
  destruct (String.eqb_spec (pi_principal_role payload) "owner") as [Ho | _]; cbn [andb].
  - rewrite Htarget by done. destruct (_specialist_target payload); [by eapply Hagree |].
    destruct (startswith _ _); by eapply Hagree.
  - destruct (startswith _ _); by eapply Hagree.
Qed.

Definition sample_policy_input : PolicyEvaluationInput :=
  mk_PolicyEvaluationInput "t1" "r1" "tr1" "owner-1" "owner" "external_verified" "discord"
    "msg_notify" "specialist" [] [] ["hello"] None.

Lemma in_memory_agrees_with_bundle_witness :
  exists r o bundle, in_memory_evaluate sample_policy_input = Ret r /\ outcome_of_decision r = Ret o /\
    outcome_of_decision (decide_rule sample_policy_input) = Ret bundle /\
    po_error_code o = Some "governance_specialist_direct_command_denied" /\ po_allowed o = po_allowed bundle.
Proof.
  assert (pi_principal_role sample_policy_input = "owner" ->
    shell_specialist_target sample_policy_input = _specialist_target sample_policy_input) as Ht by reflexivity.
  destruct (in_memory_agrees_with_bundle sample_policy_input Ht) as (bundle & Hb & o & Ho & Ha & _).
  eexists _, o, bundle. split; [reflexivity |]. split; [exact Ho |]. split; [exact Hb |]. split; [| exact Ha].
  injection Ho as <-. reflexivity.
Defined.
