(* ===== verification/LlmSchemas.v ===== *)
(** The request and response schemas of the LLM gateway.

    Models [llm_gateway/schemas/requests.py] and [responses.py].  Python floats
    are IEEE 754 binary64 values ([spec_float]). *)

From Stdlib Require Export SpecFloat.
From S2P Require Import Prelude.

Abbreviation pyfloat := spec_float.

Record LlmBudgetContext : Type := mk_LlmBudgetContext {
  currency_cap_usd : option pyfloat;
  quota_request_cap : option Z;
  quota_token_cap : option Z;
  allocation_mode : string;
  project_share_ratio : option pyfloat;
  effective_budget_window : option string
}.

Record LlmPolicyContext : Type := mk_LlmPolicyContext {
  lp_policy_version : string;
  lp_policy_hash : string;
  lp_rule_ids : list string
}.

Record LlmGatewayRequest : Type := mk_LlmGatewayRequest {
  lq_request_id : string;
  lq_trace_id : string;
  lq_project_id : string;
  lq_agent_id : string;
  lq_task_id : option string;
  lq_skill_id : option string;
  lq_model_class : string;
  lq_routing_profile : string;
  lq_messages_or_prompt : string;
  lq_max_tokens : Z;
  lq_temperature : pyfloat;
  lq_budget_context : LlmBudgetContext;
  lq_policy_context : LlmPolicyContext
}.

Record LlmUsage : Type := mk_LlmUsage {
  input_tokens : Z;
  output_tokens : Z;
  total_tokens : Z;
  request_units : Z
}.

Record LlmCost : Type := mk_LlmCost {
  estimated_cost_usd : pyfloat;
  actual_cost_usd : option pyfloat;
  cost_source : string
}.

Record LlmBudgetUsage : Type := mk_LlmBudgetUsage {
  currency_delta_usd : pyfloat;
  bu_request_units : Z;
  token_units : Z
}.

Record LlmBudgetContextEffective : Type := mk_LlmBudgetContextEffective {
  be_allocation_mode : string;
  be_project_share_ratio : option pyfloat;
  effective_budget : string
}.

Record LlmGatewayResponse : Type := mk_LlmGatewayResponse {
  lr_request_id : string;
  lr_trace_id : string;
  lr_decision : string;
  lr_model_selected : option string;
  lr_usage : option LlmUsage;
  lr_cost : option LlmCost;
  lr_budget_usage : option LlmBudgetUsage;
  lr_budget_context_effective : option LlmBudgetContextEffective;
  lr_quota_limit_source : string;
  lr_latency_ms : Z;
  lr_policy_context : LlmPolicyContext;
  lr_route_metadata : list (string * string);
  lr_error_code : option string;
  lr_error_message : option string;
  lr_retryable : bool;
  lr_generated_text : option string
}.
