(* ===== verification/PyFloat.v ===== *)
(** Python floats: binary64 arithmetic on [spec_float], [float(int)], [max], and
    [round(x, n)], which rounds the exact value half to even in decimal and then
    to the nearest float. *)

From Stdlib Require Import Ascii SpecFloat.
From S2P Require Import Prelude PyStr PyData LlmSchemas.

Definition f_add : pyfloat -> pyfloat -> pyfloat := SFadd 53 1024.
Definition f_sub : pyfloat -> pyfloat -> pyfloat := SFsub 53 1024.
Definition f_mul : pyfloat -> pyfloat -> pyfloat := SFmul 53 1024.
Definition f_div : pyfloat -> pyfloat -> pyfloat := SFdiv 53 1024.
Definition f_ltb : pyfloat -> pyfloat -> bool := SFltb.
Definition f_leb : pyfloat -> pyfloat -> bool := SFleb.

(** The float nearest to an integer, an infinity beyond their range; the code's
    integer literals. *)
Definition f_of_Z (z : Z) : pyfloat := binary_normalize 53 1024 z 0 false.

Definition overflow_error : exn := OtherError "int too large to convert to float".

(** [float(z)], and the conversion of [z] in [z * x]: beyond the range of floats
    it raises [OverflowError]. *)
Definition float_of_int (z : Z) : outcome pyfloat :=
  match f_of_Z z with S754_infinity _ => Raise overflow_error | f => Ret f end.

Lemma float_of_int_exn z x : float_of_int z = Raise x -> x = overflow_error.
Proof. unfold float_of_int. destruct (f_of_Z z); congruence. Qed.

(** Powers of two overflow from the 1024th on. *)
Lemma float_of_power n x : float_of_int (2 ^ Z.of_nat n) = Raise x -> x = overflow_error /\ (1024 <= n)%nat.
Proof.
  intros H. split; [by eapply float_of_int_exn |]. destruct (Nat.le_gt_cases 1024 n) as [Hn | Hn]; [done | exfalso].
  assert (forallb (fun k => match float_of_int (2 ^ Z.of_nat k) with Ret _ => true | Raise _ => false end) (seq 0 1024)
    = true) as Hall by (vm_compute; reflexivity).
  rewrite forallb_forall in Hall. specialize (Hall n). rewrite H in Hall. discriminate Hall. apply in_seq. lia.
Qed.

(** The float nearest to [p / q], negated when [neg]. *)
Definition f_of_ratio (neg : bool) (p q : positive) : pyfloat :=
  let '(m, e, l) := SFdiv_core_binary 53 1024 (Zpos p) 0 (Zpos q) 0 in
  match m with
  | Zpos _ | Z0 => binary_round_aux 53 1024 neg m e l
  | Zneg _ => S754_zero neg
  end.

(** [n / d] rounded half to even. *)
Definition div_half_even (n d : Z) : Z :=
  let q := (n / d)%Z in
  let r := (n mod d)%Z in
  if (2 * r <? d)%Z then q
  else if (d <? 2 * r)%Z then (q + 1)%Z
  else if Z.even q then q else (q + 1)%Z.

(** [round(x, digits)]. *)
Definition f_round (digits : Z) (x : pyfloat) : pyfloat :=
  match x with
  | S754_finite s m e =>
      let scale := (10 ^ digits)%Z in
      let n := if (0 <=? e)%Z then (Zpos m * 2 ^ e * scale)%Z
               else div_half_even (Zpos m * scale) (2 ^ (- e)) in
      match n with
      | Zpos p => f_of_ratio s p (Z.to_pos scale)
      | _ => S754_zero s
      end
  | _ => x
  end.

(** [max(a, b)]: the first unless the second is greater. *)
Definition f_max (a b : pyfloat) : pyfloat := if f_ltb a b then b else a.

Definition f_zero : pyfloat := S754_zero false.

(** A decimal literal [p / 10 ^ k]. *)
Definition f_lit (p : positive) (k : Z) : pyfloat := f_of_ratio false p (Z.to_pos (10 ^ k)).

Example f_lit_examples :
  f_add (f_lit 1 1) (f_lit 2 1) = S754_finite false 5404319552844596 (-54) /\
  f_lit 3 1 = S754_finite false 5404319552844595 (-54) /\
  f_of_Z 3 = S754_finite false 6755399441055744 (-51).
Proof. vm_compute. done. Qed.

(** [round(2.675, 2) == 2.67], [round(0.125, 2) == 0.12], [round(-0.0000001, 6) == -0.0]. *)
Example f_round_examples :
  f_round 2 (f_lit 2675 3) = f_lit 267 2 /\ f_round 2 (f_lit 125 3) = f_lit 12 2 /\
  f_round 2 (f_lit 375 3) = f_lit 38 2 /\
  f_round 6 (SFopp (f_lit 1 7)) = S754_zero true /\ f_round 6 (f_lit 1 1) = f_lit 1 1.
Proof. vm_compute. done. Qed.

Definition f_min (a b : pyfloat) : pyfloat := if f_ltb b a then b else a.

(** [int(x)] truncates; it raises on infinities and NaN. *)
Definition f_trunc (x : pyfloat) : option Z :=
  match x with
  | S754_zero _ => Some 0%Z
  | S754_finite s m e =>
      let n := if (0 <=? e)%Z then (Zpos m * 2 ^ e)%Z else (Zpos m / 2 ^ (- e))%Z in
      Some (if s then (- n)%Z else n)
  | _ => None
  end.

(** ** float(text)

    Digits with single underscores between them, a point, an exponent; [inf],
    [infinity] and [nan] in any case. *)

Fixpoint read_digit_run (acc : Z) (count : Z) (after_digit : bool) (s : string) : option (Z * Z * string) :=
  match s with
  | EmptyString => if after_digit || Z.eqb count 0 then Some (acc, count, "") else None
  | String c s' =>
      match digit_val c with
      | Some d => read_digit_run (acc * 10 + d) (count + 1) true s'
      | None =>
          if Ascii.eqb c "_" && after_digit then read_digit_run acc count false s'
          else if after_digit || Z.eqb count 0 then Some (acc, count, s) else None
      end
  end.

(** [m * 10 ^ e], negated when [neg]. *)
Definition f_decimal (neg : bool) (m e : Z) : pyfloat :=
  match m with
  | Zpos p =>
      if (0 <=? e)%Z then f_of_ratio neg (Z.to_pos (Zpos p * 10 ^ e)) 1 else f_of_ratio neg p (Z.to_pos (10 ^ (- e)))
  | _ => S754_zero neg
  end.

Definition read_exponent (s : string) : option Z :=
  let '(neg, s) := match s with
                   | String "-" s' => (true, s')
                   | String "+" s' => (false, s')
                   | _ => (false, s)
                   end in
  '(e, n, rest) ← read_digit_run 0 0 false s;
  if Z.eqb n 0 || negb (String.eqb rest "") then None else Some (if neg then (- e)%Z else e).

Definition read_unsigned_float (neg : bool) (s : string) : option pyfloat :=
  if mem (lower s) ["inf"; "infinity"] then Some (S754_infinity neg)
  else if String.eqb (lower s) "nan" then Some S754_nan
  else
    '(whole, n, rest) ← read_digit_run 0 0 false s;
    '(m, k, n, rest) ← (match rest with
                        | String "." rest' =>
                            '(frac, k, rest'') ← read_digit_run whole 0 false rest';
                            Some (frac, k, (n + k)%Z, rest'')
                        | _ => Some (whole, 0%Z, n, rest)
                        end);
    if Z.eqb n 0 then None
    else match rest with
         | EmptyString => Some (f_decimal neg m (- k))
         | String c rest' =>
             if Ascii.eqb c "e" || Ascii.eqb c "E" then e ← read_exponent rest'; Some (f_decimal neg m (e - k)) else None
         end.

Definition py_float (text : string) : option pyfloat :=
  match strip text with
  | String "-" s => read_unsigned_float true s
  | String "+" s => read_unsigned_float false s
  | s => read_unsigned_float false s
  end.

Example py_float_examples :
  map py_float ["1.5"; " 2 "; "1e3"; "-.5"; "5."; "1_0.0"; ""; "."; "1e"; "x"; "nan"; "1__0"; "1e-1"] =
  [Some (f_lit 15 1); Some (f_of_Z 2); Some (f_of_Z 1000); Some (SFopp (f_lit 5 1)); Some (f_of_Z 5);
   Some (f_of_Z 10); None; None; None; None; Some S754_nan; None; Some (f_lit 1 1)].
Proof. vm_compute. done. Qed.
