(* ===== verification/LlmProviders.v ===== *)
(** Model providers: the provider contract and its adapters.

    Models [llm_gateway/providers/base.py], [litellm_adapter.py],
    [gemini_flash_adapter.py], [deepseek_adapter.py] and
    [llm_gateway/embedding_service.py].

    The HTTP client and [sleep] are the interface [HttpClient], whose measure
    counts the requests sent; a response carries its status, its
    [Retry-After] header and its body as [response.json()] would answer. *)

From Stdlib Require Import Ascii.
From S2P Require Import Prelude PyStr PyData LlmSchemas PyFloat.

(** * The contract *)

Record LiteLLMProviderRequest : Type := mk_LiteLLMProviderRequest {
  lp_request_id : string;
  lp_trace_id : string;
  lp_model_alias : string;
  lp_prompt : string;
  lp_max_tokens : Z;
  lp_temperature : pyfloat
}.

Record LiteLLMProviderResult : Type := mk_LiteLLMProviderResult {
  ls_model_identifier : string;
  ls_content : string;
  ls_input_tokens : Z;
  ls_output_tokens : Z;
  ls_provider_cost_usd : option pyfloat;
  ls_quota_limit_source : string
}.

Class LiteLLMProvider (E : Type) : Type := {
  provider_complete : LiteLLMProviderRequest -> M E LiteLLMProviderResult
}.

(** * The local adapter *)

(** [str.endswith]. *)
Definition endswith (s suffix : string) : bool :=
  let n := String.length suffix in
  (n <=? String.length s)%nat && String.eqb (String.substring (String.length s - n) n s) suffix.

(** [len(text.split())]: the words between runs of whitespace. *)
Fixpoint count_words (in_word : bool) (s : string) : Z :=
  match s with
  | EmptyString => if in_word then 1 else 0
  | String c s' =>
      if is_space c then (if in_word then 1 else 0) + count_words false s' else count_words true s'
  end.

Definition local_complete {E} (request : LiteLLMProviderRequest) : M E LiteLLMProviderResult :=
  let prompt := lp_prompt request in
  if contains prompt "llm_hard_fail" then
    raise (LiteLLMProviderError "llm_provider_rejected" "provider rejected llm request" false)
  else if contains prompt "llm_runtime_error" then
    raise (LiteLLMProviderError "llm_provider_unavailable" "provider unavailable" true)
  else if contains prompt "llm_fallback_once" && endswith (lp_model_alias request) "_primary" then
    raise (LiteLLMProviderError "llm_provider_primary_failed" "primary route failed; fallback required" true)
  else
    ret (mk_LiteLLMProviderResult ("gemini/" +:+ lp_model_alias request)
           ("simulated completion for " +:+ lp_model_alias request)
           (Z.max 1 (count_words false prompt * 4)) (Z.max 1 (Z.min (lp_max_tokens request) 48)) None
           "policy_guardrail").

(** * HTTP *)

Record http_response : Type := mk_http_response {
  hr_status_code : Z;
  hr_retry_after : option string;
  hr_body : outcome json
}.

(** [post] raises [TransportError] for an [httpx.RequestError]. *)
Class HttpClient (E : Type) : Type := {
  http_post : string -> list (string * string) -> json -> M E http_response;
  sleep : pyfloat -> E -> E;
  posts : E -> nat;
  posts_post : forall url headers body e, posts (http_post url headers body e).2 = S (posts e);
  posts_sleep : forall seconds e, posts (sleep seconds e) = posts e
}.

Definition bad_response (code message : string) : exn := LiteLLMProviderError code message false.

(** Fields of a JSON body; [body.get] needs an object. *)
Definition as_object (j : option json) (e : exn) : outcome (list (string * json)) :=
  match j with Some (JObj o) => Ret o | _ => Raise e end.

Definition first_item (j : option json) (e : exn) : outcome json :=
  match j with Some (JArr (x :: _)) => Ret x | _ => Raise e end.

Definition nonblank_text (j : option json) (e : exn) : outcome string :=
  match j with Some (JStr s) => if truthy (strip s) then Ret (strip s) else Raise e | _ => Raise e end.

(** [isinstance(value, int)] holds of booleans too. *)
Definition _as_nonnegative_int (value : option json) : option Z :=
  match value with
  | Some (JInt z) => if (z <? 0)%Z then None else Some z
  | Some (JBool b) => Some (if b then 1 else 0)%Z
  | _ => None
  end.

Definition body_object (body : json) : outcome (list (string * json)) :=
  match body with JObj o => Ret o | _ => Raise (OtherError "object has no attribute 'get'") end.

(** The retry loop both adapters have: [delay] is the pause after an attempt,
    [left] the retries that remain. *)
Section retry.
Context {E : Type} `{!HttpClient E}.
Context (name : string) (delay : option http_response -> nat -> outcome pyfloat) (send : M E http_response).

Fixpoint post_with_retries (attempt left : nat) : M E http_response :=
  let retry_or (response : option http_response) (error : exn) : M E http_response :=
    match left with
    | O => raise error
    | S left' =>
        let! seconds := of_outcome (delay response attempt) in
        modify (sleep seconds) ;! post_with_retries (S attempt) left'
    end in
  let! sent := try (let! r := send in ret (Ret r))
    (fun e => match e with TransportError m => Some (ret (Raise (TransportError m))) | _ => None end) in
  match sent with
  | Raise e =>
      retry_or None (LiteLLMProviderError "llm_provider_unavailable" (name +:+ " request failed: " +:+ exn_str e) true)
  | Ret r =>
      let status := str_int (hr_status_code r) in
      if (hr_status_code r =? 429)%Z || (500 <=? hr_status_code r)%Z then
        retry_or (Some r)
          (LiteLLMProviderError "llm_provider_unavailable" (name +:+ " transient failure: http " +:+ status) true)
      else if (400 <=? hr_status_code r)%Z then
        raise (LiteLLMProviderError "llm_provider_rejected" (name +:+ " rejected request: http " +:+ status) false)
      else ret r
  end.
End retry.

Definition response_body (name : string) (r : http_response) : outcome json :=
  match hr_body r with
  | Ret body => Ret body
  | Raise (ValueError m) =>
      Raise (bad_response "llm_provider_invalid_response" (name +:+ " response is not valid json: " +:+ m))
  | Raise e => Raise e
  end.

(** * Gemini *)

Record GeminiFlashProviderConfig : Type := mk_GeminiFlashProviderConfig {
  gm_api_key : option string;
  gm_base_url : string;
  gm_model_alias_map : list (string * string);
  gm_max_retries : nat;
  gm_retry_base_delay_seconds : pyfloat;
  gm_retry_max_delay_seconds : pyfloat
}.

(** [GeminiFlashFreeAdapter.from_settings]. *)
Definition gemini_config_from_settings (api_key : option string) (base_url primary_model fallback_model : string)
    (max_retries : Z) (base_delay max_delay : pyfloat) : GeminiFlashProviderConfig :=
  mk_GeminiFlashProviderConfig api_key (rstrip_slash base_url)
    [("google_gemini_free_primary", primary_model); ("google_gemini_free_fallback", fallback_model)]
    (Z.to_nat (Z.max 0 max_retries)) (f_max f_zero base_delay) (f_max f_zero max_delay).

Module Gemini.
Section gemini.
Context (str_float : pyfloat -> string) (config : GeminiFlashProviderConfig).

Definition _extract_text_content (body : list (string * json)) : outcome string :=
  let bad m := bad_response "llm_provider_invalid_response" m in
  let? first := first_item (jfield body "candidates") (bad "gemini response missing candidates") in
  let? candidate := as_object (Some first) (bad "gemini candidate payload is invalid") in
  let? content := as_object (jfield candidate "content") (bad "gemini candidate content payload is invalid") in
  let? part := first_item (jfield content "parts") (bad "gemini candidate parts are missing") in
  let? part := as_object (Some part) (bad "gemini first part payload is invalid") in
  nonblank_text (jfield part "text") (bad "gemini response text is missing").

Definition _extract_usage (body : list (string * json)) : outcome (Z * Z) :=
  let bad m := bad_response "llm_provider_usage_unavailable" m in
  let? usage := as_object (jfield body "usageMetadata") (bad "gemini usage metadata missing") in
  match _as_nonnegative_int (jfield usage "promptTokenCount"),
        _as_nonnegative_int (jfield usage "candidatesTokenCount") with
  | Some i, Some o => Ret (i, o)
  | _, _ => Raise (bad "gemini usage metadata incomplete")
  end.

Definition _parse_retry_after_seconds (response : option http_response) : option pyfloat :=
  r ← response; value ← hr_retry_after r; seconds ← py_float value;
  if f_ltb seconds f_zero then None else Some seconds.

Definition _compute_retry_delay_seconds (response : option http_response) (attempt : nat) : outcome pyfloat :=
  match _parse_retry_after_seconds response with
  | Some d => Ret (f_min (f_max f_zero d) (gm_retry_max_delay_seconds config))
  | None =>
      let? factor := float_of_int (2 ^ Z.of_nat attempt) in
      Ret (f_min (f_max f_zero (f_mul (gm_retry_base_delay_seconds config) factor)) (gm_retry_max_delay_seconds config))
  end.

(** The result of a response body, after [response.json()]. *)
Definition result_of_body (model_id : string) (body : list (string * json)) : outcome LiteLLMProviderResult :=
  let? content := _extract_text_content body in
  let? (input, output) := _extract_usage body in
  let version := match jfield body "modelVersion" with
                 | Some v => if json_truthy v then json_str str_float v else model_id
                 | None => model_id
                 end in
  Ret (mk_LiteLLMProviderResult ("gemini/" +:+ version) content input output None "provider_config").

Definition complete {E} `{!HttpClient E} (request : LiteLLMProviderRequest) : M E LiteLLMProviderResult :=
  match jfield (map (fun kv => (kv.1, JStr kv.2)) (gm_model_alias_map config)) (lp_model_alias request) with
  | Some (JStr model_id) =>
      let api_key := strip (default "" (gm_api_key config)) in
      if negb (truthy api_key) then
        raise (bad_response "llm_provider_misconfigured" "gemini api key is missing")
      else
        let payload := JObj [("contents", JArr [JObj [("parts", JArr [JObj [("text", JStr (lp_prompt request))]])]]);
                             ("generationConfig", JObj [("temperature", JFloat (lp_temperature request));
                                                        ("maxOutputTokens", JInt (lp_max_tokens request))])] in
        let endpoint := gm_base_url config +:+ "/models/" +:+ model_id +:+ ":generateContent" in
        let! response := post_with_retries "gemini" _compute_retry_delay_seconds
          (http_post endpoint [("key", api_key)] payload) 0 (gm_max_retries config) in
        let! json_body := of_outcome (response_body "gemini" response) in
        let! body := of_outcome (body_object json_body) in
        of_outcome (result_of_body model_id body)
  | _ => raise (bad_response "llm_model_alias_unmapped" ("unmapped gemini alias: " +:+ lp_model_alias request))
  end.
End gemini.
End Gemini.

(** * DeepSeek *)

Record DeepSeekProviderConfig : Type := mk_DeepSeekProviderConfig {
  ds_api_key : option string;
  ds_base_url : string;
  ds_model : string;
  ds_max_retries : nat;
  ds_retry_base_delay_seconds : pyfloat;
  ds_retry_max_delay_seconds : pyfloat
}.

Module DeepSeek.
Section deepseek.
Context (config : DeepSeekProviderConfig).

Definition _extract_text_content (body : list (string * json)) : outcome string :=
  let bad m := bad_response "llm_provider_invalid_response" m in
  let? first := first_item (jfield body "choices") (bad "deepseek response missing choices") in
  let? choice := as_object (Some first) (bad "deepseek choice payload is invalid") in
  let? message := as_object (jfield choice "message") (bad "deepseek message payload is invalid") in
  nonblank_text (jfield message "content") (bad "deepseek response text is missing").

Definition _extract_usage (body : list (string * json)) : outcome (Z * Z) :=
  let bad m := bad_response "llm_provider_invalid_response" m in
  let? usage := as_object (jfield body "usage") (bad "deepseek usage payload is missing") in
  match _as_nonnegative_int (jfield usage "prompt_tokens"), _as_nonnegative_int (jfield usage "completion_tokens") with
  | Some i, Some o => Ret (i, o)
  | _, _ => Raise (bad "deepseek usage payload is incomplete")
  end.

Definition _compute_retry_delay_seconds (response : option http_response) (attempt : nat) : outcome pyfloat :=
  let? factor := float_of_int (2 ^ Z.of_nat attempt) in
  Ret (f_min (f_max f_zero (f_mul (ds_retry_base_delay_seconds config) factor)) (ds_retry_max_delay_seconds config)).

(** The result of a response body, after [response.json()]. *)
Definition result_of_body (body : list (string * json)) : outcome LiteLLMProviderResult :=
  let? content := _extract_text_content body in
  let? (input, output) := _extract_usage body in
  Ret (mk_LiteLLMProviderResult ("deepseek/" +:+ ds_model config) content input output None "provider_config").

Definition complete {E} `{!HttpClient E} (request : LiteLLMProviderRequest) : M E LiteLLMProviderResult :=
  let api_key := strip (default "" (ds_api_key config)) in
  if negb (truthy api_key) then
    raise (bad_response "llm_provider_misconfigured" "deepseek api key is missing")
  else
    let payload := JObj [("model", JStr (ds_model config));
                         ("messages", JArr [JObj [("role", JStr "user"); ("content", JStr (lp_prompt request))]]);
                         ("max_tokens", JInt (lp_max_tokens request)); ("temperature", JFloat (lp_temperature request))] in
    let! response := post_with_retries "deepseek" _compute_retry_delay_seconds
      (http_post (ds_base_url config +:+ "/chat/completions") [("Authorization", "Bearer " +:+ api_key)] payload)
      0 (ds_max_retries config) in
    let! json_body := of_outcome (response_body "deepseek" response) in
    let! body := of_outcome (body_object json_body) in
    of_outcome (result_of_body body).
End deepseek.
End DeepSeek.

(** * Embeddings *)

Definition json_float (j : json) : outcome pyfloat :=
  match j with
  | JFloat f => Ret f
  | JInt z => float_of_int z
  | JBool b => Ret (f_of_Z (if b then 1 else 0))
  | JStr s => match py_float s with Some f => Ret f | None => Raise (ValueError "could not convert string to float") end
  | _ => Raise (OtherError "float() argument must be a string or a real number")
  end.

Fixpoint omapM {A B} (f : A -> outcome B) (l : list A) : outcome (list B) :=
  match l with
  | [] => Ret []
  | x :: l' => let? y := f x in let? ys := omapM f l' in Ret (y :: ys)
  end.

Record GeminiEmbeddingService : Type := mk_GeminiEmbeddingService {
  em_api_key : string;
  em_base_url : string;
  em_model : string
}.

Definition embed {E} `{!HttpClient E} (service : GeminiEmbeddingService) (text : string) : M E (option (list pyfloat)) :=
  if negb (truthy (strip text)) then ret None
  else
    let url := em_base_url service +:+ "/models/" +:+ em_model service +:+ ":embedContent?key=" +:+ em_api_key service in
    let body := JObj [("model", JStr ("models/" +:+ em_model service));
                      ("content", JObj [("parts", JArr [JObj [("text", JStr (String.substring 0 2048 text))]])])] in
    try
      (let! response := http_post url [] body in
       if negb (hr_status_code response =? 200)%Z then ret None
       else
         let! data := of_outcome (hr_body response) in
         let! data := of_outcome (body_object data) in
         let! embedding := of_outcome (body_object (default (JObj []) (jfield data "embedding"))) in
         match jfield embedding "values" with
         | Some (JArr values) =>
             if negb (length values =? 768)%nat then ret None
             else let! vector := of_outcome (omapM json_float values) in ret (Some vector)
         | _ => ret None
         end)
      (fun _ => Some (ret None)).


(** * Facts *)

Definition provider_exn (x : exn) : Prop := exists code m retryable, x = LiteLLMProviderError code m retryable.

(** [httpx.RequestError], and [ValueError] of [response.json()]: what the
    adapters turn into provider errors. *)
Definition request_error (x : exn) : Prop := exists m, x = TransportError m.
Definition value_error (x : exn) : Prop := exists m, x = ValueError m.

(** ** The retry loop *)

Section retry_facts.
Context {E : Type} `{!HttpClient E}.
Context (name : string) (delay : option http_response -> nat -> outcome pyfloat) (send : M E http_response).
Hypothesis send_posts : forall e, posts (send e).2 = S (posts e).
Hypothesis delay_exn : forall response attempt x,
  delay response attempt = Raise x -> x = overflow_error /\ (1024 <= attempt)%nat.

#[local] Abbreviation loop := (post_with_retries name delay send).

(** How one run of the loop with [retries] retries may end. *)
Definition loop_end (retries : nat) (answers : outcome http_response -> Prop) (o : outcome http_response) : Prop :=
  match o with
  | Ret r => (hr_status_code r < 400)%Z /\ answers (Ret r)
  | Raise x => provider_exn x \/ (~ request_error x /\ answers (Raise x)) \/ (x = overflow_error /\ (1024 < retries)%nat)
  end.

Lemma loop_end_mono retries (P Q : outcome http_response -> Prop) o :
  (forall a, P a -> Q a) -> loop_end retries P o -> loop_end retries Q o.
Proof. intros H. destruct o; simpl; intuition eauto. Qed.

(** Another round, or the error when no retry is left. *)
Definition retry_or (attempt left : nat) (response : option http_response) (error : exn) : M E http_response :=
  match left with
  | O => raise error
  | S left' =>
      let! seconds := of_outcome (delay response attempt) in
      modify (sleep seconds) ;! loop (S attempt) left'
  end.

Lemma loop_answered attempt left e r e1 : send e = (Ret r, e1) ->
  let status := str_int (hr_status_code r) in
  loop attempt left e =
    if (hr_status_code r =? 429)%Z || (500 <=? hr_status_code r)%Z then
      retry_or attempt left (Some r)
        (LiteLLMProviderError "llm_provider_unavailable" (name +:+ " transient failure: http " +:+ status) true) e1
    else if (400 <=? hr_status_code r)%Z then
      (Raise (LiteLLMProviderError "llm_provider_rejected" (name +:+ " rejected request: http " +:+ status) false), e1)
    else (Ret r, e1).
Proof.
  intros Hs. destruct left; cbn [post_with_retries]; unfold bind at 1, try, bind at 1; rewrite Hs; cbn;
    (destruct (_ || _); [done |]); by destruct (400 <=? _)%Z.
Qed.

Lemma loop_request_error attempt left e m e1 : send e = (Raise (TransportError m), e1) ->
  loop attempt left e = retry_or attempt left None
    (LiteLLMProviderError "llm_provider_unavailable" (name +:+ " request failed: " +:+ exn_str (TransportError m)) true) e1.
Proof. intros Hs. destruct left; cbn [post_with_retries]; unfold bind at 1, try, bind at 1; by rewrite Hs. Qed.

Lemma loop_foreign attempt left e x e1 : send e = (Raise x, e1) -> ~ request_error x -> loop attempt left e = (Raise x, e1).
Proof.
  intros Hs Hn. destruct left; cbn [post_with_retries]; unfold bind at 1, try, bind at 1; rewrite Hs;
    (destruct x; try done; destruct Hn; by eexists).
Qed.

(** How a round that started at [e] ends: the loop is over, or goes round again. *)
Definition round_end (attempt left : nat) (e : E) (run : outcome http_response * E) : Prop :=
  (exists o, run = (o, (send e).2) /\ loop_end (attempt + left) (eq (send e).1) o) \/
  (exists left' seconds, left = S left' /\ run = loop (S attempt) left' (sleep seconds (send e).2)).

Lemma retry_or_round attempt left response error e :
  provider_exn error -> round_end attempt left e (retry_or attempt left response error (send e).2).
Proof.
  intros Herror. destruct left as [| left']; cbn [retry_or].
  - left. exists (Raise error). split; [done | by left].
  - unfold bind at 1, of_outcome. destruct (delay response attempt) as [seconds | x] eqn:Ed.
    + right. by exists left', seconds.
    + left. exists (Raise x). apply delay_exn in Ed as [-> Ha]. split; [done |]. right; right. split; [done | lia].
Qed.

Lemma retry_round attempt left e : round_end attempt left e (loop attempt left e).
Proof.
  destruct (send e) as [[r | x] e1] eqn:Hs.
  - rewrite (loop_answered attempt left e r e1 Hs). replace e1 with (send e).2 by by rewrite Hs.
    destruct (_ || _); [apply retry_or_round; by eexists _, _, _ |]. left. rewrite Hs.
    destruct (400 <=? _)%Z eqn:E2; (eexists; split; [reflexivity |]); [left; by eexists _, _, _ |].
    apply Z.leb_gt in E2. by split.
  - assert (request_error x \/ ~ request_error x) as [[m ->] | Hn].
    { destruct x; first [by right; intros [] | by left; eexists]. }
    + rewrite (loop_request_error attempt left e m e1 Hs). replace e1 with (send e).2 by by rewrite Hs.
      apply retry_or_round. by eexists _, _, _.
    + rewrite (loop_foreign attempt left e x e1 Hs Hn). left. rewrite Hs. exists (Raise x). split; [done |]. right; by left.
Qed.

(** The loop ends, after at most [left + 1] requests. *)
Lemma retry_bounded attempt left e :
  let '(o, e') := loop attempt left e in
  (S (posts e) <= posts e' <= posts e + S left)%nat /\ loop_end (attempt + left) (fun a => exists e0, (send e0).1 = a) o.
Proof.
  revert attempt e. induction left as [| left IH]; intros attempt e.
  - destruct (retry_round attempt 0 e) as [(o & -> & Ho) | (left' & _ & [=] & _)].
    rewrite send_posts. split; [lia |]. eapply loop_end_mono; [| exact Ho]. intros a <-. by exists e.
  - destruct (retry_round attempt (S left) e) as [(o & -> & Ho) | (left' & seconds & [= <-] & ->)].
    + rewrite send_posts. split; [lia |]. eapply loop_end_mono; [| exact Ho]. intros a <-. by exists e.
    + specialize (IH (S attempt) (sleep seconds (send e).2)). destruct (loop _ _ _) as [o e'].
      rewrite posts_sleep, send_posts in IH. destruct IH as [H1 H2]. split; [lia |].
      by replace (attempt + S left)%nat with (S attempt + left)%nat by lia.
Qed.
End retry_facts.

(** ** Parsing *)

(** Pure parsing that fails with provider errors only, and of results in [P]. *)
Definition parses {A} (P : A -> Prop) (o : outcome A) : Prop :=
  match o with Ret a => P a | Raise x => provider_exn x end.

Lemma parses_bind {A B} (o : outcome A) (k : A -> outcome B) (P : A -> Prop) (Q : B -> Prop) :
  parses P o -> (forall a, P a -> parses Q (k a)) -> parses Q (obind o k).
Proof. destruct o; cbn; auto. Qed.

Lemma parses_object j code m : parses (fun _ => True) (as_object j (bad_response code m)).
Proof. destruct j as [[] |]; cbn; try done; by eexists _, _, _. Qed.

Lemma parses_first j code m : parses (fun _ => True) (first_item j (bad_response code m)).
Proof. destruct j as [[| | | | | [] |] |]; cbn; try done; by eexists _, _, _. Qed.

Lemma parses_text j code m :
  parses (fun t => truthy t = true /\ strip t = t) (nonblank_text j (bad_response code m)).
Proof.
  destruct j as [[| | | | s | |] |]; cbn; try (by eexists _, _, _).
  destruct (truthy (strip s)) eqn:Ht; cbn; [split; [done | apply strip_idem] | by eexists _, _, _].
Qed.

Lemma nonnegative_int j z : _as_nonnegative_int j = Some z -> (0 <= z)%Z.
Proof. destruct j as [[| [] | n | | | |] |]; cbn; intros; simplify_eq; try lia. case_match; simplify_eq; lia. Qed.

Lemma gemini_text body : parses (fun t => truthy t = true /\ strip t = t) (Gemini._extract_text_content body).
Proof.
  unfold Gemini._extract_text_content. cbv zeta.
  repeat (eapply parses_bind; [first [apply parses_first | apply parses_object] | intros ? _]). apply parses_text.
Qed.

Lemma gemini_usage body : parses (fun io => 0 <= io.1 /\ 0 <= io.2)%Z (Gemini._extract_usage body).
Proof.
  unfold Gemini._extract_usage. cbv zeta. eapply parses_bind; [apply parses_object | intros usage _].
  destruct (_as_nonnegative_int _) as [i |] eqn:Hi; [| by eexists _, _, _].
  destruct (_as_nonnegative_int (jfield usage "candidatesTokenCount")) as [o |] eqn:Ho; [| by eexists _, _, _].
  split; by eapply nonnegative_int.
Qed.

Lemma deepseek_text body : parses (fun t => truthy t = true /\ strip t = t) (DeepSeek._extract_text_content body).
Proof.
  unfold DeepSeek._extract_text_content. cbv zeta.
  repeat (eapply parses_bind; [first [apply parses_first | apply parses_object] | intros ? _]). apply parses_text.
Qed.

Lemma deepseek_usage body : parses (fun io => 0 <= io.1 /\ 0 <= io.2)%Z (DeepSeek._extract_usage body).
Proof.
  unfold DeepSeek._extract_usage. cbv zeta. eapply parses_bind; [apply parses_object | intros usage _].
  destruct (_as_nonnegative_int _) as [i |] eqn:Hi; [| by eexists _, _, _].
  destruct (_as_nonnegative_int (jfield usage "completion_tokens")) as [o |] eqn:Ho; [| by eexists _, _, _].
  split; by eapply nonnegative_int.
Qed.

(** What either adapter makes of a response: a usable result, a provider error,
    or the failures that escape it: a body that is no object, and whatever the
    HTTP library raises beside its request errors. *)
Definition usable (r : LiteLLMProviderResult) : Prop :=
  truthy (ls_content r) = true /\ strip (ls_content r) = ls_content r /\
  (0 <= ls_input_tokens r)%Z /\ (0 <= ls_output_tokens r)%Z /\ ls_quota_limit_source r = "provider_config".

Section adapters.
Context {E : Type} `{!HttpClient E} (str_float : pyfloat -> string).

Definition escapes (retries : nat) (x : exn) : Prop :=
  (x = overflow_error /\ (1024 < retries)%nat) \/
  (exists url headers body (e : E), (http_post url headers body e).1 = Raise x /\ ~ request_error x) \/
  (exists url headers body (e : E) r, (http_post url headers body e).1 = Ret r /\
     ((hr_body r = Raise x /\ ~ value_error x) \/
      (exists j, hr_body r = Ret j /\ (forall o, j <> JObj o) /\ x = OtherError "object has no attribute 'get'"))).

Definition sent_at_most (e : E) (run : outcome LiteLLMProviderResult * E) (retries : nat) : Prop :=
  (posts e <= posts run.2 <= posts e + S retries)%nat /\
  match run.1 with Ret r => usable r | Raise x => provider_exn x \/ escapes retries x end.

(** The body of a response that was not refused. *)
Lemma body_exn name url headers payload e0 r retries (parse : list (string * json) -> outcome LiteLLMProviderResult) :
  (http_post url headers payload e0).1 = Ret r -> (forall body, parses usable (parse body)) ->
  match obind (obind (response_body name r) body_object) parse with
  | Ret result => usable result
  | Raise x => provider_exn x \/ escapes retries x
  end.
Proof.
  intros Hsent Hparse. unfold response_body. destruct (hr_body r) as [j | x] eqn:Hbody.
  - destruct j; cbn [obind body_object];
      try (right; right; right; eexists _, _, _, e0, r; split; [exact Hsent |]; right; eexists; split; [done |]; by split).
    specialize (Hparse o). destruct (parse o); [done | by left].
  - assert (value_error x \/ ~ value_error x) as [[m ->] | Hn].
    { destruct x; first [by right; intros [] | by left; eexists]. }
    + cbn. left. by eexists _, _, _.
    + assert (escapes retries x) as Hesc.
      { right; right. exists url, headers, payload, e0, r. split; [done |]. left. by split. }
      destruct x; cbn; try (by right). destruct Hn. by eexists.
Qed.

(** The shared shape: send with retries, then parse the body. *)
Lemma adapter_run name delay url headers payload retries
    (parse : list (string * json) -> outcome LiteLLMProviderResult) e :
  (forall response attempt x, delay response attempt = Raise x -> x = overflow_error /\ (1024 <= attempt)%nat) ->
  (forall body, parses usable (parse body)) ->
  sent_at_most e
    ((let! response := post_with_retries name delay (http_post url headers payload) 0 retries in
      let! json_body := of_outcome (response_body name response) in
      let! body := of_outcome (body_object json_body) in
      of_outcome (parse body)) e) retries.
Proof.
  intros Hdelay Hparse. unfold sent_at_most.
  pose proof (retry_bounded name delay (http_post url headers payload) (posts_post url headers payload) Hdelay 0 retries e) as H.
  unfold bind, of_outcome.
  destruct (post_with_retries _ _ _ _ _ e) as [[r | x] e']; destruct H as [Hn Hx]; cbn [loop_end] in Hx.
  - destruct Hx as [_ [e0 Hsent]].
    pose proof (body_exn name url headers payload e0 r retries parse Hsent Hparse) as Hb.
    destruct (response_body name r) as [j | x]; cbn [obind] in Hb; [| cbn; split; [lia | done]].
    destruct (body_object j) as [o | x]; cbn [obind] in Hb; cbn; (split; [lia | done]).
  - cbn. split; [lia |]. destruct Hx as [Hx | [[Hx [e0 He0]] | Hx]]; [by left | right; right; left | right; by left].
    by exists url, headers, payload, e0.
Qed.

Lemma gemini_result model_id body : parses usable (Gemini.result_of_body str_float model_id body).
Proof.
  unfold Gemini.result_of_body. eapply parses_bind; [apply gemini_text | intros t [Ht1 Ht2]].
  eapply parses_bind; [apply gemini_usage | intros [i o] [Hi Ho]]. by split_and!.
Qed.

Lemma deepseek_result config body : parses usable (DeepSeek.result_of_body config body).
Proof.
  unfold DeepSeek.result_of_body. eapply parses_bind; [apply deepseek_text | intros t [Ht1 Ht2]].
  eapply parses_bind; [apply deepseek_usage | intros [i o] [Hi Ho]]. by split_and!.
Qed.

Lemma gemini_run config request e :
  sent_at_most e (Gemini.complete str_float config request e) (gm_max_retries config).
Proof.
  unfold Gemini.complete. cbv zeta.
  assert (forall code m, sent_at_most e (@raise E LiteLLMProviderResult (bad_response code m) e) (gm_max_retries config)) as Hraise.
  { intros code m. split; [cbn; lia | left; by eexists _, _, _]. }
  destruct (jfield _ _) as [[| | | | model_id | |] |]; try apply Hraise.
  destruct (negb _); [apply Hraise |]. apply adapter_run; [| apply gemini_result]. intros response attempt x.
  unfold Gemini._compute_retry_delay_seconds. destruct (Gemini._parse_retry_after_seconds response); [done |].
  destruct (float_of_int _) eqn:Ef; [done |]. intros [= <-]. by eapply float_of_power.
Qed.

Lemma deepseek_run config request e :
  sent_at_most e (DeepSeek.complete config request e) (ds_max_retries config).
Proof.
  unfold DeepSeek.complete. cbv zeta. destruct (negb _).
  - split; [cbn; lia | left; by eexists _, _, _].
  - apply adapter_run; [| apply deepseek_result]. intros response attempt x.
    unfold DeepSeek._compute_retry_delay_seconds. destruct (float_of_int _) eqn:Ef; [done |]. intros [= <-].
    by eapply float_of_power.
Qed.
End adapters.
