(* ===== verification/LlmGateway.v ===== *)
(** The LLM gateway: request guard, routing profiles, cost and usage, and the
    fallback loop over a provider.

    Models [llm_gateway/policy/request_guard.py], [routing/profile_resolver.py],
    [routing/model_selector.py], [accounting/cost_estimator.py],
    [accounting/usage_recorder.py] and [service.py].  [perf_counter] is the
    interface [Stopwatch]. *)

From S2P Require Import Prelude PyStr PyData LlmSchemas PyFloat LlmProviders.

Class Stopwatch (E : Type) : Type := { perf_counter : E -> pyfloat * E }.

(** * The request guard *)

Definition require (ok : bool) (code message : string) : outcome unit :=
  if ok then Ret tt else Raise (LlmGatewayGuardError code message).

Definition validate_llm_request (request : LlmGatewayRequest) : outcome unit :=
  let given s := truthy (strip s) in
  let? _ := require (given (lq_request_id request)) "llm_missing_request_id" "request_id is required" in
  let? _ := require (given (lq_trace_id request)) "llm_missing_trace_id" "trace_id is required" in
  let? _ := require (given (lq_project_id request)) "llm_missing_project_id" "project_id is required" in
  let? _ := require (0 <? lq_max_tokens request)%Z "llm_invalid_max_tokens" "max_tokens must be positive" in
  let? _ := require (f_leb f_zero (lq_temperature request) && f_leb (lq_temperature request) (f_of_Z 2))
              "llm_invalid_temperature" "temperature must be within [0, 2]" in
  let? _ := require (given (lq_messages_or_prompt request)) "llm_missing_prompt" "messages_or_prompt is required" in
  let? _ := require (given (lp_policy_version (lq_policy_context request)))
              "llm_missing_policy_version" "policy version is required" in
  require (given (lp_policy_hash (lq_policy_context request)))
    "llm_missing_policy_hash" "policy hash is required".

(** * Routing *)

Record RoutingProfile : Type := mk_RoutingProfile {
  rp_profile_id : string;
  rp_status : string;
  rp_model_class_map : list (string * list string);
  rp_max_fallback_hops : Z
}.

Definition profile_map (aliases : list string) (embedding : string) : list (string * list string) :=
  [("interactive_fast", aliases); ("reasoning_general", aliases); ("embedding_text", [embedding])].

Definition _ROUTING_PROFILES : list RoutingProfile :=
  [mk_RoutingProfile "dev_gemini_free" "active"
     (profile_map ["google_gemini_free_primary"; "google_gemini_free_fallback"] "google_gemini_free_primary") 1;
   mk_RoutingProfile "dev_deepseek" "active"
     (profile_map ["deepseek_chat_primary"; "deepseek_chat_fallback"] "deepseek_chat_primary") 1;
   mk_RoutingProfile "prod_controlled" "active"
     (profile_map ["google_gemini_controlled_primary"] "google_gemini_controlled_primary") 1].

Definition resolve_routing_profile (profile_id : string) : outcome RoutingProfile :=
  match List.find (fun p => String.eqb (rp_profile_id p) profile_id) _ROUTING_PROFILES with
  | None => Raise (RoutingProfileError "llm_unknown_routing_profile" ("unknown routing profile: " +:+ profile_id))
  | Some p =>
      if negb (String.eqb (rp_status p) "active") then
        Raise (RoutingProfileError "llm_inactive_routing_profile" ("inactive routing profile: " +:+ profile_id))
      else Ret p
  end.

Definition select_model_aliases (profile : RoutingProfile) (model_class : string) : outcome (list string) :=
  match List.find (fun kv => String.eqb kv.1 model_class) (rp_model_class_map profile) with
  | Some (_, x :: l) => Ret (x :: l)
  | _ => Raise (RoutingProfileError "llm_model_class_unmapped"
                  ("model class not mapped in profile: " +:+ model_class))
  end.

(** * Usage and cost *)

Definition estimate_cost (model_alias : string) (usage_total_tokens : Z) (provider_cost_usd : option pyfloat)
    : outcome LlmCost :=
  match provider_cost_usd with
  | Some c => let rounded := f_round 6 (f_max f_zero c) in Ret (mk_LlmCost rounded (Some rounded) "provider_reported")
  | None =>
      if startswith model_alias "google_gemini_free_" then Ret (mk_LlmCost f_zero (Some f_zero) "none")
      else
        let? tokens := float_of_int (Z.max 0 usage_total_tokens) in
        Ret (mk_LlmCost (f_round 6 (f_mul tokens (f_lit 2 6))) None "catalog_estimated")
  end.

Definition normalize_usage (result : LiteLLMProviderResult) : LlmUsage :=
  let input := Z.max 0 (ls_input_tokens result) in
  let output := Z.max 0 (ls_output_tokens result) in
  mk_LlmUsage input output (input + output) 1.

Definition derive_budget_usage (usage : LlmUsage) (currency_delta_usd : pyfloat) : LlmBudgetUsage :=
  mk_LlmBudgetUsage (f_max f_zero (f_round 6 currency_delta_usd)) (request_units usage) (total_tokens usage).

Definition _normalize_quota_limit_source (value : string) : string :=
  if mem value ["policy_guardrail"; "provider_config"; "provider_signal"] then value else "policy_guardrail".

(** * The service *)

Section service.
Context {E : Type} `{!Stopwatch E} `{!LiteLLMProvider E}.

Definition now_counter : M E pyfloat := fun e => let '(t, e') := perf_counter e in (Ret t, e').

(** [max(0, int((perf_counter() - started_at) * 1000))]. *)
Definition _elapsed_ms (started_at : pyfloat) : M E Z :=
  let! t := now_counter in
  match f_trunc (f_mul (f_sub t started_at) (f_of_Z 1000)) with
  | Some ms => ret (Z.max 0 ms)
  | None => raise (OtherError "cannot convert float to integer")
  end.

Definition budget_context_of (request : LlmGatewayRequest) : LlmBudgetContextEffective :=
  let b := lq_budget_context request in
  mk_LlmBudgetContextEffective (allocation_mode b) (project_share_ratio b)
    (opt_or (effective_budget_window b) "window-unspecified").

(** A denied response. *)
Definition denied_response (request : LlmGatewayRequest) (model : option string) (source : string)
    (metadata : list (string * string)) (code message : string) (retryable : bool) (latency : Z)
    : LlmGatewayResponse :=
  mk_LlmGatewayResponse (lq_request_id request) (lq_trace_id request) "denied" model None None None
    (Some (budget_context_of request)) source latency (lq_policy_context request) metadata (Some code)
    (Some message) retryable None.

(** The cost of a provider's result. *)
Definition cost_of (alias : string) (result : LiteLLMProviderResult) : outcome LlmCost :=
  estimate_cost alias (total_tokens (normalize_usage result)) (ls_provider_cost_usd result).

Definition served_response (request : LlmGatewayRequest) (index : Z) (alias : string)
    (result : LiteLLMProviderResult) (cost : LlmCost) (latency : Z) : LlmGatewayResponse :=
  let usage := normalize_usage result in
  let delta := match actual_cost_usd cost with Some c => c | None => estimated_cost_usd cost end in
  mk_LlmGatewayResponse (lq_request_id request) (lq_trace_id request)
    (if (index =? 0)%Z then "served" else "fallback_served") (Some (ls_model_identifier result)) (Some usage)
    (Some cost) (Some (derive_budget_usage usage delta)) (Some (budget_context_of request))
    (_normalize_quota_limit_source (ls_quota_limit_source result)) latency (lq_policy_context request)
    [("routing_profile", lq_routing_profile request); ("fallback_hops", str_int index);
     ("route_reason", if (index =? 0)%Z then "primary" else "fallback")]
    None None false (Some (ls_content result)).

Definition provider_request (request : LlmGatewayRequest) (alias : string) : LiteLLMProviderRequest :=
  mk_LiteLLMProviderRequest (lq_request_id request) (lq_trace_id request) alias (lq_messages_or_prompt request)
    (lq_max_tokens request) (lq_temperature request).

(** The [for] loop over the aliases from [index] on. *)
Fixpoint try_routes (request : LlmGatewayRequest) (started_at : pyfloat) (fallback_limit index : Z)
    (aliases : list string) : M E LlmGatewayResponse :=
  let exhausted : M E LlmGatewayResponse :=
    let! latency := _elapsed_ms started_at in
    ret (denied_response request None "provider_signal" [("routing_profile", lq_routing_profile request)]
           "llm_route_exhausted" "all configured llm routes exhausted" false latency) in
  match aliases with
  | [] => exhausted
  | alias :: rest =>
      if (fallback_limit <? index)%Z then exhausted
      else
        let! answer := try (let! r := provider_complete (provider_request request alias) in ret (Ret r))
          (fun e => match e with
                    | LiteLLMProviderError code message retryable =>
                        Some (ret (Raise (LiteLLMProviderError code message retryable)))
                    | _ => None
                    end) in
        match answer with
        | Raise (LiteLLMProviderError code message retryable) =>
            if (index <? fallback_limit)%Z && retryable
            then try_routes request started_at fallback_limit (index + 1) rest
            else
              let! latency := _elapsed_ms started_at in
              ret (denied_response request (Some alias) "provider_signal"
                     [("routing_profile", lq_routing_profile request); ("fallback_hops", str_int index);
                      ("route_reason", "provider_failure_terminal")] code message retryable latency)
        | Raise e => raise e
        | Ret result =>
            let! cost := of_outcome (cost_of alias result) in
            let! latency := _elapsed_ms started_at in
            ret (served_response request index alias result cost latency)
        end
  end.

(** The aliases and the hop limit of a request that passes the guard. *)
Definition route_of (request : LlmGatewayRequest) : outcome (list string * Z) :=
  let? _ := validate_llm_request request in
  let? profile := resolve_routing_profile (lq_routing_profile request) in
  let? aliases := select_model_aliases profile (lq_model_class request) in
  Ret (aliases, Z.min (Z.of_nat (length aliases) - 1) (rp_max_fallback_hops profile)).

Definition complete (request : LlmGatewayRequest) : M E LlmGatewayResponse :=
  let! started_at := now_counter in
  match route_of request with
  | Ret (aliases, fallback_limit) => try_routes request started_at fallback_limit 0 aliases
  | Raise e =>
      match e with
      | LlmGatewayGuardError code message | RoutingProfileError code message =>
          let! latency := _elapsed_ms started_at in
          ret (denied_response request None "policy_guardrail" [("routing_profile", lq_routing_profile request)]
                 code message false latency)
      | _ => raise e
      end
  end.
End service.
