(* ===== verification/LlmGatewayFacts.v ===== *)
(** What the gateway guarantees: guarded requests, a bounded fallback over
    retryable failures, faithful accounting, and a bounded number of HTTP
    requests over the real adapters. *)

From S2P Require Import Prelude PyStr PyData LlmSchemas PyFloat LlmProviders LlmGateway.

(** ** Routes *)

Lemma resolve_in id p : resolve_routing_profile id = Ret p -> In p _ROUTING_PROFILES /\ rp_profile_id p = id.
Proof.
  unfold resolve_routing_profile. destruct (List.find _ _) as [q |] eqn:Hf; [| done].
  destruct (negb _); [done |]. intros [= <-]. apply find_some in Hf as [Hin Hid%String.eqb_eq]. done.
Qed.

Lemma select_nonempty p c aliases : select_model_aliases p c = Ret aliases -> aliases <> [].
Proof. unfold select_model_aliases. destruct (List.find _ _) as [[k [| x l]] |]; [done | intros [= <-]; done | done]. Qed.

(** Every routable request has at least one alias and at most one fallback. *)
Lemma route_bounds request aliases limit :
  route_of request = Ret (aliases, limit) ->
  (0 <= limit <= 1)%Z /\ (limit < Z.of_nat (length aliases))%Z.
Proof.
  unfold route_of, obind. destruct (validate_llm_request request); [| done].
  destruct (resolve_routing_profile _) as [p |] eqn:Hp; [| done].
  destruct (select_model_aliases p _) as [l |] eqn:Hl; [| done]. intros [= <- <-].
  apply select_nonempty in Hl. apply resolve_in in Hp as [Hin _].
  assert (rp_max_fallback_hops p = 1%Z) as -> by (repeat destruct Hin as [<- | Hin]; done).
  destruct l; [done |]. cbn [length]. lia.
Qed.

Lemma route_exn request x :
  route_of request = Raise x ->
  exists code message, x = LlmGatewayGuardError code message \/ x = RoutingProfileError code message.
Proof.
  assert (forall ok code message, match require ok code message with
    | Ret _ => True | Raise e => e = LlmGatewayGuardError code message end) as Hreq by (by intros []).
  unfold route_of, validate_llm_request. cbv zeta. unfold obind.
  repeat match goal with |- context [require ?b ?c ?m] =>
    pose proof (Hreq b c m); destruct (require b c m); [| intros [= <-]; eauto] end.
  destruct (resolve_routing_profile _) as [p | e] eqn:Hp.
  - unfold select_model_aliases. destruct (List.find _ _) as [[k [| y l]] |]; intros [= <-]; eauto.
  - unfold resolve_routing_profile in Hp. intros [= <-]. destruct (List.find _ _); [destruct (negb _) |]; simplify_eq; eauto.
Qed.

(** * The gateway over any provider *)

Section gateway.
Context {E : Type} `{!Stopwatch E} `{!LiteLLMProvider E}.

(** The aliases of [before] failed, retryably, one after the other. *)
Inductive failed_routes (request : LlmGatewayRequest) : list string -> E -> E -> Prop :=
  | failed_none e : failed_routes request [] e e
  | failed_route alias before code message e e1 e2 :
      provider_complete (provider_request request alias) e = (Raise (LiteLLMProviderError code message true), e1) ->
      failed_routes request before e1 e2 -> failed_routes request (alias :: before) e e2.

(** The outcome of the routes [aliases], tried from number [index]. *)
Definition routed (request : LlmGatewayRequest) (limit index : Z) (aliases : list string) (e : E)
    (run : outcome LlmGatewayResponse * E) : Prop :=
  exists before alias after e1 e2,
    aliases = before ++ alias :: after /\ (index + Z.of_nat (length before) <= limit)%Z /\
    failed_routes request before e e1 /\
    let i := (index + Z.of_nat (length before))%Z in
    match provider_complete (provider_request request alias) e1 with
    | (Ret result, e3) => e2 = e3 /\
        match cost_of alias result with
        | Ret cost =>
            match run with
            | (Ret r, e') => e' = (perf_counter e2).2 /\
                exists latency, (0 <= latency)%Z /\ r = served_response request i alias result cost latency
            | (Raise x, e') => x = OtherError "cannot convert float to integer"
            end
        | Raise x => x = overflow_error /\ run = (Raise x, e2)
        end
    | (Raise (LiteLLMProviderError code message retryable), e3) => e2 = e3 /\
        (i = limit \/ retryable = false) /\
        match run with
        | (Ret r, e') => e' = (perf_counter e2).2 /\ lr_decision r = "denied" /\ lr_error_code r = Some code /\
            lr_retryable r = retryable /\ lr_budget_usage r = None /\ lr_generated_text r = None
        | (Raise x, e') => x = OtherError "cannot convert float to integer"
        end
    | (Raise x, e3) => run = (Raise x, e3)
    end.

Lemma cost_exn alias result x : cost_of alias result = Raise x -> x = overflow_error.
Proof.
  unfold cost_of, estimate_cost. destruct (ls_provider_cost_usd result); [done |].
  destruct (startswith _ _); [done |]. destruct (float_of_int _) eqn:Ef; [done |]. intros [= <-].
  by eapply float_of_int_exn.
Qed.

Lemma elapsed_run t e :
  match _elapsed_ms t e with
  | (Ret ms, e') => (0 <= ms)%Z /\ e' = (perf_counter e).2
  | (Raise x, e') => x = OtherError "cannot convert float to integer"
  end.
Proof.
  unfold _elapsed_ms, bind, now_counter. destruct (perf_counter e) as [t' e']. cbn.
  destruct (f_trunc _); [| done]. split; [lia | done].
Qed.

Lemma routes_run request t limit index aliases e :
  (index <= limit)%Z -> (limit - index < Z.of_nat (length aliases))%Z ->
  routed request limit index aliases e (try_routes request t limit index aliases e).
Proof.
  revert index e. induction aliases as [| alias rest IH]; intros index e Hle Hlen; [cbn in Hlen; lia |].
  cbn [try_routes length] in *. destruct (Z.ltb_spec limit index); [lia |].
  destruct (provider_complete (provider_request request alias) e) as [[result | x] e2] eqn:Hp.
  - exists [], alias, rest, e, e2. split; [done |]. split; [cbn; lia |]. split; [constructor |]. cbv zeta. rewrite Hp.
    split; [done |]. rewrite Z.add_0_r. unfold bind, try, of_outcome. rewrite Hp. cbn.
    destruct (cost_of alias result) as [cost | x] eqn:Hcost; [| by split; [eapply cost_exn |]].
    pose proof (elapsed_run t e2) as He. destruct (_elapsed_ms t e2) as [[ms | x] e']; cbn; [| done].
    destruct He. split; [done |]. by exists ms.
  - assert ((forall code message, x = LiteLLMProviderError code message true -> index = limit) \/
      exists code message, x = LiteLLMProviderError code message true /\ (index < limit)%Z) as [Hstop | (code & message & -> & Hlt)].
    { destruct (decide (index = limit)); [by left |]. destruct x; try (by left; intros; simplify_eq).
      destruct retryable; [right; eexists _, _; split; [done | lia] | left; intros; simplify_eq]. }
    + exists [], alias, rest, e, e2. split; [done |]. split; [cbn; lia |]. split; [constructor |]. cbv zeta. rewrite Hp.
      rewrite Z.add_0_r. unfold bind, try. rewrite Hp. destruct x; try done. cbn. split; [done |].
      assert (index = limit \/ retryable = false) as Hend.
      { destruct retryable; [left; by eapply Hstop | by right]. }
      split; [done |]. assert ((index <? limit)%Z && retryable = false) as ->.
      { destruct Hend as [-> | ->]; [by rewrite Z.ltb_irrefl | apply andb_false_r]. }
      pose proof (elapsed_run t e2) as He. destruct (_elapsed_ms t e2) as [[ms | x] e']; cbn; [| done].
      destruct He. by split_and!.
    + destruct (IH (index + 1)%Z e2) as (before & a & after & e3 & e4 & -> & Hb & Hf & Hrun); [lia .. |].
      exists (alias :: before), a, after, e3, e4. split; [done |]. split; [cbn; lia |].
      split; [by econstructor |]. cbv zeta in *. cbn [length] in *.
      replace (index + Z.of_nat (S (length before)))%Z with (index + 1 + Z.of_nat (length before))%Z by lia.
      assert (try_routes request t limit (index + 1) (before ++ a :: after) e2 =
        (let! answer := try (let! r := provider_complete (provider_request request alias) in ret (Ret r))
          (fun e => match e with
                    | LiteLLMProviderError code message retryable =>
                        Some (ret (Raise (LiteLLMProviderError code message retryable)))
                    | _ => None
                    end) in
        match answer with
        | Raise (LiteLLMProviderError code message retryable) =>
            if (index <? limit)%Z && retryable
            then try_routes request t limit (index + 1) (before ++ a :: after)
            else
              let! latency := _elapsed_ms t in
              ret (denied_response request (Some alias) "provider_signal"
                     [("routing_profile", lq_routing_profile request); ("fallback_hops", str_int index);
                      ("route_reason", "provider_failure_terminal")] code message retryable latency)
        | Raise e => raise e
        | Ret result =>
            let! cost := of_outcome (cost_of alias result) in
            let! latency := _elapsed_ms t in
            ret (served_response request index alias result cost latency)
        end) e) as <-; [| done].
      unfold bind at 1, try, bind at 1. rewrite Hp. cbn. assert ((index <? limit)%Z = true) as -> by (apply Z.ltb_lt; lia). done.
Qed.
End gateway.

(** * Over the HTTP adapters *)

Section over_http.
Context {E : Type} `{!Stopwatch E} `{!HttpClient E} `{!LiteLLMProvider E}.
Context (n : nat).
Hypothesis clock_sends_nothing : forall e : E, posts (perf_counter e).2 = posts e.
Hypothesis provider_bounded : forall request (e : E),
  (posts e <= posts (provider_complete request e).2 <= posts e + n)%nat.

(** [m] sends at most [k] requests. *)
Definition sends {A} (k : nat) (m : M E A) : Prop := forall e, (posts e <= posts (m e).2 <= posts e + k)%nat.

Lemma sends_weaken {A} j k (m : M E A) : sends j m -> (j <= k)%nat -> sends k m.
Proof. intros H Hle e. specialize (H e). lia. Qed.

Lemma sends_none {A} (o : outcome A) : sends 0 (of_outcome o).
Proof. intros e. cbn. lia. Qed.

Lemma sends_bind {A B} j k (m : M E A) (f : A -> M E B) :
  sends j m -> (forall a, sends k (f a)) -> sends (j + k) (bind m f).
Proof.
  intros Hm Hf e. specialize (Hm e). unfold bind. destruct (m e) as [[a | x] e']; cbn in *; [| lia].
  specialize (Hf a e'). lia.
Qed.

Lemma sends_try {A} k (m : M E A) h :
  sends k m -> (forall x f, h x = Some f -> sends 0 f) -> sends k (try m h).
Proof.
  intros Hm Hh e. specialize (Hm e). unfold try. destruct (m e) as [[a | x] e']; cbn in *; [done |].
  destruct (h x) as [f |] eqn:Hf; [| done]. specialize (Hh x f Hf e'). lia.
Qed.

Lemma sends_elapsed t : sends 0 (_elapsed_ms (E := E) t).
Proof.
  unfold _elapsed_ms. change 0%nat with (0 + 0)%nat. apply sends_bind.
  - intros e. unfold now_counter. pose proof (clock_sends_nothing e). destruct (perf_counter e). cbn in *. lia.
  - intros t'. destruct (f_trunc _); [apply (sends_none (Ret _)) | apply (sends_none (Raise _))].
Qed.

Lemma sends_answer t (k : Z -> LlmGatewayResponse) : sends 0 (let! latency := _elapsed_ms t in ret (k latency)).
Proof. change 0%nat with (0 + 0)%nat. apply sends_bind; [apply sends_elapsed | intros ms; apply (sends_none (Ret _))]. Qed.

Lemma sends_served t alias result (k : LlmCost -> Z -> LlmGatewayResponse) :
  sends 0 (let! cost := of_outcome (cost_of alias result) in let! latency := _elapsed_ms t in ret (k cost latency)).
Proof. change 0%nat with (0 + 0)%nat. apply sends_bind; [apply sends_none | intros cost; apply sends_answer]. Qed.

Lemma sends_routes request t limit index aliases :
  (index <= limit)%Z -> sends (n * Z.to_nat (limit - index + 1)) (try_routes request t limit index aliases).
Proof.
  revert index. induction aliases as [| alias rest IH]; intros index Hle; cbn [try_routes].
  - eapply sends_weaken; [apply sends_answer | apply Nat.le_0_l].
  - destruct (Z.ltb_spec limit index); [lia |].
    apply sends_weaken with (n + n * Z.to_nat (limit - index))%nat; [| nia].
    apply sends_bind.
    + apply sends_try.
      * replace n with (n + 0)%nat by lia. apply sends_bind; [intros e; apply provider_bounded | intros r; apply (sends_none (Ret _))].
      * intros x f Hx. destruct x; simplify_eq. apply (sends_none (Ret _)).
    + intros [result | x]; [eapply sends_weaken; [apply sends_served | apply Nat.le_0_l] |].
      destruct x; try (eapply sends_weaken; [apply (sends_none (Raise _)) | apply Nat.le_0_l]).
      destruct (_ && _) eqn:Hmore; [| eapply sends_weaken; [apply sends_answer | apply Nat.le_0_l]].
      apply andb_true_iff in Hmore as [Hlt%Z.ltb_lt _]. replace (limit - index)%Z with (limit - (index + 1) + 1)%Z by lia.
      apply IH. lia.
Qed.

Lemma sends_complete request : sends (2 * n) (complete request).
Proof.
  unfold complete. replace (2 * n)%nat with (0 + 2 * n)%nat by lia. apply sends_bind.
  - intros e. unfold now_counter. pose proof (clock_sends_nothing e). destruct (perf_counter e). cbn in *. lia.
  - intros t. destruct (route_of request) as [[aliases limit] | x] eqn:Hr.
    + apply route_bounds in Hr as [Hl _]. eapply sends_weaken; [apply sends_routes; lia | nia].
    + apply route_exn in Hr as (code & message & [-> | ->]); (eapply sends_weaken; [apply sends_answer | apply Nat.le_0_l]).
Qed.
End over_http.

(** The two HTTP adapters as providers. *)
Definition gemini_provider {E} `{!HttpClient E} (str_float : pyfloat -> string) (config : GeminiFlashProviderConfig)
    : LiteLLMProvider E := {| provider_complete := Gemini.complete str_float config |}.
Definition deepseek_provider {E} `{!HttpClient E} (config : DeepSeekProviderConfig) : LiteLLMProvider E :=
  {| provider_complete := DeepSeek.complete config |}.

(** * Theorems *)

Section theorems.
Context {E : Type} `{!Stopwatch E}.

(** C21: what a completion answers, on every branch.  A request the guard or the
    routing refuses is denied without calling the provider.  Otherwise the
    provider is called with the aliases of the profile in order, at most one
    fallback, each call but the last having failed retryably: a result is served
    (as "served" only on the first alias) with its content and the usage and
    cost derived from it, and a failure that is final is denied with the
    provider's code and no budget usage.  Only the provider's other exceptions,
    a number of tokens beyond the range of floats and a clock that is no number
    escape. *)
Theorem gateway_outcome `{!LiteLLMProvider E} request (e : E) :
  let e0 := (perf_counter e).2 in
  match route_of request with
  | Ret (aliases, limit) => (0 <= limit <= 1)%Z /\ routed request limit 0 aliases e0 (complete request e)
  | Raise x =>
      exists code message, (x = LlmGatewayGuardError code message \/ x = RoutingProfileError code message) /\
        match complete request e with
        | (Ret r, e') => e' = (perf_counter e0).2 /\ lr_decision r = "denied" /\ lr_error_code r = Some code /\
            lr_quota_limit_source r = "policy_guardrail" /\ lr_budget_usage r = None /\ lr_generated_text r = None
        | (Raise y, _) => y = OtherError "cannot convert float to integer"
        end
  end.
Proof.
  cbv zeta. destruct (perf_counter e) as [t e0] eqn:Hclock. cbn [snd].
  assert (complete request e =
    (match route_of request with
     | Ret (aliases, fallback_limit) => try_routes request t fallback_limit 0 aliases
     | Raise (LlmGatewayGuardError code message) | Raise (RoutingProfileError code message) =>
         let! latency := _elapsed_ms t in
         ret (denied_response request None "policy_guardrail" [("routing_profile", lq_routing_profile request)]
                code message false latency)
     | Raise x => raise x
     end) e0) as ->.
  { unfold complete, bind at 1, now_counter. rewrite Hclock.
    destruct (route_of request) as [[] | []]; done. }
  destruct (route_of request) as [[aliases limit] | x] eqn:Hr.
  - destruct (route_bounds _ _ _ Hr) as [Hl Hlen]. split; [done |].
    apply (routes_run request t limit 0 aliases e0); lia.
  - destruct (route_exn _ _ Hr) as (code & message & Hx). exists code, message. split; [done |].
    destruct Hx as [-> | ->]; unfold bind; pose proof (elapsed_run t e0) as He;
      (destruct (_elapsed_ms t e0) as [[ms | y] e']; cbn; [destruct He; by split_and! | done]).
Qed.

(** C38: a completion over the shipped adapters terminates with a bounded number
    of HTTP requests: two routes of one request and its retries each.  Whatever
    the service answers, the adapter gives a non-blank text with non-negative
    token counts or a provider error; every request error of the HTTP library and
    every value error of its JSON parser becomes a provider error.  What escapes
    is another exception of the two, the attribute error of a body that is no
    object, and the overflow of the pause when more than 1024 retries are set. *)
Theorem gateway_requests_bounded `{!HttpClient E} str_float gemini deepseek request (e : E) :
  (forall e : E, posts (perf_counter e).2 = posts e) ->
  (posts (complete (LiteLLMProvider0 := gemini_provider str_float gemini) request e).2 <=
     posts e + 2 * S (gm_max_retries gemini))%nat /\
  (posts (complete (LiteLLMProvider0 := deepseek_provider deepseek) request e).2 <=
     posts e + 2 * S (ds_max_retries deepseek))%nat /\
  (forall call, (match (Gemini.complete str_float gemini call e).1 with
                 | Ret r => usable r
                 | Raise x => provider_exn x \/ escapes (E := E) (gm_max_retries gemini) x
                 end) /\
                (match (DeepSeek.complete deepseek call e).1 with
                 | Ret r => usable r
                 | Raise x => provider_exn x \/ escapes (E := E) (ds_max_retries deepseek) x
                 end)).
Proof.
  intros Hclock. split; [| split].
  - apply sends_complete; [done |]. intros call e'. apply gemini_run.
  - apply sends_complete; [done |]. intros call e'. apply deepseek_run.
  - intros call. split; [apply gemini_run | apply deepseek_run].
Qed.
End theorems.

(** * Witnesses *)

(** A world that counts requests; the service answers with status 503. *)
#[local] Instance busy_service : HttpClient nat.
Proof.
  refine {| http_post := fun _ _ _ n => (Ret (mk_http_response 503 None (Ret JNull)), S n);
            sleep := fun _ n => n; posts := fun n => n |}; done.
Defined.
#[local] Instance frozen_clock : Stopwatch nat := { perf_counter := fun n => (f_zero, n) }.

Definition sample_config : GeminiFlashProviderConfig :=
  gemini_config_from_settings (Some "key") "https://models.example/" "gemini-2.0-flash" "gemini-1.5-flash" 2
    (f_of_Z 1) (f_of_Z 8).
Definition sample_deepseek : DeepSeekProviderConfig :=
  mk_DeepSeekProviderConfig None "https://deepseek.example" "deepseek-chat" 2 (f_of_Z 1) (f_of_Z 8).

Definition gateway_request (profile : string) : LlmGatewayRequest :=
  mk_LlmGatewayRequest "r-1" "tr-1" "p1" "owner-1" (Some "t-1") None "interactive_fast" profile "hello" 128
    (f_lit 2 1) (mk_LlmBudgetContext None None None "hybrid" None None) (mk_LlmPolicyContext "v1" "hash" []).

Lemma gateway_requests_bounded_witness :
  (complete (LiteLLMProvider0 := gemini_provider (fun _ => "") sample_config) (gateway_request "dev_gemini_free") 0%nat).2
    = 6%nat /\
  (posts (complete (LiteLLMProvider0 := gemini_provider (fun _ => "") sample_config)
            (gateway_request "dev_gemini_free") 0%nat).2 <= 6)%nat.
Proof.
  split; [vm_compute; reflexivity |].
  refine (proj1 (gateway_requests_bounded (fun _ => "") sample_config sample_deepseek
    (gateway_request "dev_gemini_free") 0%nat _)).
  intros n. reflexivity.
Defined.

(** The production profile names an alias the Gemini adapter does not map: every
    request of it is denied. *)
Lemma production_profile_is_unserved_by_gemini :
  let r := (complete (LiteLLMProvider0 := gemini_provider (fun _ => "") sample_config) (gateway_request "prod_controlled") 0%nat).1 in
  match r with
  | Ret r => lr_decision r = "denied" /\ lr_error_code r = Some "llm_model_alias_unmapped"
  | Raise _ => False
  end.
Proof. split; vm_compute; reflexivity. Qed.
