(* ===== verification/Runtime.v ===== *)
(** The runtime a worker runs in: the requests and receipts of the dispatch
    boundary, the interfaces to the services the orchestrator calls, and the
    state all of it shares.

    Models the data of [task_orchestrator/dispatch/sandbox_dispatch.py],
    [dispatch/llm_dispatch.py], [dispatch/communication_dispatch.py],
    [agents/specialist/models.py], [services/task_service.py] and the
    [WorkflowServices] container of [workflow/state_models.py].

    [E] is the state of the services outside the orchestrator (policy server,
    audit store, agents, clocks), [C] the budget client, which the LLM adapter
    shares.  No service writes the [tasks] table. *)

From S2P Require Import Prelude PyStr PyData Task Budget LoopControl Policy LlmSchemas.

(** ** Dispatch requests and receipts *)

Record SandboxDispatchRequest : Type := mk_SandboxDispatchRequest {
  sq_task_id : string;
  sq_trace_id : string;
  sq_command : string;
  sq_args : list string
}.

Record SandboxDispatchReceipt : Type := mk_SandboxDispatchReceipt {
  sr_accepted : bool;
  sr_dispatch_id : option string;
  sr_error_code : option string;
  sr_message : string
}.

Record LlmDispatchRequest : Type := mk_LlmDispatchRequest {
  dq_task_id : string;
  dq_request_id : string;
  dq_trace_id : string;
  dq_principal_id : string;
  dq_principal_role : string;
  dq_project_id : option string;
  dq_command : string;
  dq_args : list string;
  dq_recipient_role : option string;
  dq_recipient_id : option string;
  dq_policy_version : string;
  dq_policy_hash : string;
  dq_rule_ids : list string;
  dq_conversation_guild_id : option string;
  dq_conversation_channel_id : option string;
  dq_conversation_thread_id : option string;
  dq_context_sources : list string
}.

Record LlmDispatchReceipt : Type := mk_LlmDispatchReceipt {
  dr_accepted : bool;
  dr_dispatch_id : option string;
  dr_error_code : option string;
  dr_message : string;
  dr_gateway_response : option LlmGatewayResponse;
  dr_recipient_role : option string;
  dr_recipient_id : option string;
  dr_grounding_source_ids : list string
}.

Record CommunicationDispatchRequest : Type := mk_CommunicationDispatchRequest {
  cq_task_id : string;
  cq_trace_id : string;
  cq_principal_id : string;
  cq_connector : string;
  cq_command : string;
  cq_target : string;
  cq_args : list string;
  cq_idempotency_key : string;
  cq_project_id : option string;
  cq_created_at : datetime;
  cq_metadata : list (string * string)
}.

Record CommunicationDispatchReceipt : Type := mk_CommunicationDispatchReceipt {
  cr_accepted : bool;
  cr_dispatch_id : option string;
  cr_error_code : option string;
  cr_message : string;
  cr_route_key : option string;
  cr_retryable : bool;
  cr_dead_letter_id : option string
}.

Record SpecialistRequest : Type := mk_SpecialistRequest {
  tq_task_id : string;
  tq_project_id : string;
  tq_task_description : string;
  tq_approved_tools : list string;
  tq_dispatch_source_role : string;
  tq_trace_id : string
}.

Record SpecialistResponse : Type := mk_SpecialistResponse {
  tr_execution_status : string;
  tr_output_text : string;
  tr_artifact_id : option string;
  tr_blocker : option string;
  tr_trace_id : string
}.

(** ** Dispatch outcomes *)

Record TaskDispatchLlmMetadata : Type := mk_TaskDispatchLlmMetadata {
  lm_decision : string;
  lm_model_selected : string;
  lm_routing_profile : string;
  lm_quota_limit_source : string;
  lm_input_tokens : Z;
  lm_output_tokens : Z;
  lm_total_tokens : Z;
  lm_request_units : Z;
  lm_estimated_cost_usd : pyfloat;
  lm_actual_cost_usd : option pyfloat;
  lm_cost_source : string;
  lm_currency_delta_usd : pyfloat;
  lm_quota_token_units : Z;
  lm_generated_text : option string;
  lm_recipient_role : string;
  lm_recipient_id : option string;
  lm_grounding_source_ids : list string
}.

Record TaskDispatchOutcome : Type := mk_TaskDispatchOutcome {
  do_accepted : bool;
  do_target : string;
  do_dispatch_id : option string;
  do_error_code : option string;
  do_message : string;
  do_replayed : bool;
  do_source : string;
  do_retryable : bool;
  do_dead_letter_id : option string;
  do_llm_metadata : option TaskDispatchLlmMetadata
}.

(** ** Interfaces to the services *)

(** The keyword arguments of [write_event]. *)
Record audit_event : Type := mk_audit_event {
  ae_event_type : string;
  ae_outcome : string;
  ae_event_trace_id : string;
  ae_event_request_id : option string;
  ae_event_task_id : option string;
  ae_event_principal_id : option string;
  ae_event_principal_role : option string;
  ae_source : string;
  ae_reason_code : option string;
  ae_message : string;
  ae_policy_version : option string;
  ae_policy_hash : option string;
  ae_rule_ids : list string;
  ae_payload : json;
  ae_attributes : json
}.

(** [uuid4()] and [datetime.now(tz=UTC)] always answer. *)
Class Oracle (E : Type) : Type := {
  uuid4 : E -> string * E;
  utcnow : E -> datetime * E
}.

(** Whether the database refuses the next statement. *)
Class DbFaults (E : Type) : Type := { db_fault : E -> option exn * E }.

(** The audit writer may raise: its database write is fail-hard. *)
Class AuditWriter (E : Type) : Type := {
  write_event : audit_event -> M E unit
}.

Class MetricRecorder (E : Type) : Type := {
  increment_counter : string -> list (string * string) -> E -> E
}.

(** The dispatch adapters; the specialist agent may be left unconfigured. *)
Class DispatchAdapters (E C : Type) : Type := {
  sandbox_dispatch : SandboxDispatchRequest -> M E SandboxDispatchReceipt;
  llm_dispatch : LlmDispatchRequest -> M (E * C) LlmDispatchReceipt;
  communication_dispatch : CommunicationDispatchRequest -> M E CommunicationDispatchReceipt;
  specialist_agent : option (SpecialistRequest -> M E SpecialistResponse)
}.

(** Whether [<profile_dir>/<name>.json] exists: [None] when it does, the text of
    [SandboxProfileNotFoundError] when it does not. *)
Class SandboxProfiles (E : Type) : Type := {
  bind_profile : string -> string -> E -> option string
}.

(** ** Shared state *)

Section world.
Context {E C : Type}.

Record world : Type := mk_world {
  w_ext : E;
  w_tasks : task_table;
  w_budget : BudgetReservationService C;
  w_loop : LoopState;
  w_dispatch : gmap string TaskDispatchOutcome      (* [TaskDispatchService._task_outcomes] *)
}.

Definition set_ext (e : E) (w : world) : world :=
  mk_world e (w_tasks w) (w_budget w) (w_loop w) (w_dispatch w).
Definition set_tasks (t : task_table) (w : world) : world :=
  mk_world (w_ext w) t (w_budget w) (w_loop w) (w_dispatch w).
Definition set_budget (b : BudgetReservationService C) (w : world) : world :=
  mk_world (w_ext w) (w_tasks w) b (w_loop w) (w_dispatch w).
Definition set_loop (l : LoopState) (w : world) : world :=
  mk_world (w_ext w) (w_tasks w) (w_budget w) l (w_dispatch w).
Definition set_dispatch (d : gmap string TaskDispatchOutcome) (w : world) : world :=
  mk_world (w_ext w) (w_tasks w) (w_budget w) (w_loop w) d.

Definition on_ext {A} (m : M E A) : M world A := zoom w_ext set_ext m.
Definition on_tasks {A} (m : M task_table A) : M world A := zoom w_tasks set_tasks m.
Definition on_budget {A} (m : M (BudgetReservationService C) A) : M world A :=
  zoom w_budget set_budget m.
Definition on_loop {A} (m : M LoopState A) : M world A := zoom w_loop set_loop m.

(** The outside world together with the budget client. *)
Definition on_ext_client {A} (m : M (E * C) A) : M world A :=
  zoom (fun w => (w_ext w, brs_client (w_budget w)))
       (fun ec w => set_budget (set_client ec.2 (w_budget w)) (set_ext ec.1 w)) m.

(** A draw of the outside world, which cannot raise. *)
Definition draw {A} (f : E -> A * E) : M world A := fun w =>
  let '(a, e) := f (w_ext w) in (Ret a, set_ext e w).

(** ** What every handler preserves *)

Definition world_evolves (w w' : world) : Prop := tasks_advance (w_tasks w) (w_tasks w').

#[export] Instance world_evolves_preorder : PreOrder world_evolves.
Proof.
  split; unfold world_evolves; [by intros w | intros a b c H1 H2]. by etransitivity.
Qed.

Lemma tracks_on_ext {A} (m : M E A) : tracks world_evolves (on_ext m).
Proof. intros w. unfold world_evolves, on_ext, zoom. by destruct (m (w_ext w)). Qed.

Lemma tracks_on_budget {A} (m : M (BudgetReservationService C) A) : tracks world_evolves (on_budget m).
Proof. intros w. unfold world_evolves, on_budget, zoom. by destruct (m (w_budget w)). Qed.

Lemma tracks_on_loop {A} (m : M LoopState A) : tracks world_evolves (on_loop m).
Proof. intros w. unfold world_evolves, on_loop, zoom. by destruct (m (w_loop w)). Qed.

Lemma tracks_on_ext_client {A} (m : M (E * C) A) : tracks world_evolves (on_ext_client m).
Proof. intros w. unfold world_evolves, on_ext_client, zoom. by destruct (m _). Qed.

Lemma tracks_draw {A} (f : E -> A * E) : tracks world_evolves (draw f).
Proof. intros w. unfold world_evolves, draw. by destruct (f (w_ext w)). Qed.

Lemma tracks_on_tasks {A} (m : M task_table A) :
  tracks tasks_advance m -> tracks world_evolves (on_tasks m).
Proof. intros H. by apply (tracks_zoom world_evolves tasks_advance). Qed.

Lemma tracks_set_dispatch f : tracks world_evolves (modify (fun w => set_dispatch (f w) w)).
Proof. intros w. unfold world_evolves. by simpl. Qed.
End world.
Arguments world : clear implicits.

#[export] Hint Resolve tracks_on_ext tracks_on_budget tracks_on_loop tracks_on_ext_client
  tracks_draw tracks_set_dispatch : tracks.
#[export] Hint Extern 2 (tracks world_evolves (on_tasks _)) =>
  apply tracks_on_tasks; solve [eauto 3 with tracks] : tracks.
