(* ===== verification/Dispatch.v ===== *)
(** Task dispatch: target selection, the local sandbox adapter and the
    dispatch service.

    Models [task_orchestrator/dispatch/target_selector.py],
    [dispatch/sandbox_dispatch.py] and the [TaskDispatchService] of
    [task_orchestrator/services/task_service.py] with its helpers. *)

From Stdlib Require Import Ascii.
From S2P Require Import Prelude PyStr PyData Task Budget LoopControl Policy LlmSchemas Runtime.

(** ** Target selection *)

(** [DispatchTarget] is a [Literal], carried as its string. *)
Definition select_dispatch_target (task : TaskRecord) : string :=
  if String.eqb (target task) "specialist" then "specialist"
  else if startswith (command task) "llm_" then "llm"
  else if startswith (command task) "tool_" then "llm"
  else if startswith (command task) "msg_" then "communication"
  else "sandbox".

(** ** The local sandbox adapter *)

Definition sandbox_refused (code message : string) : SandboxDispatchReceipt :=
  {| sr_accepted := false; sr_dispatch_id := None; sr_error_code := Some code; sr_message := message |}.

Definition local_sandbox_dispatch {E} `{!Oracle E} (payload : SandboxDispatchRequest)
    : M E SandboxDispatchReceipt :=
  if String.eqb (sq_command payload) "dispatch_timeout" then
    ret (sandbox_refused "execution_dispatch_timeout" "dispatch timed out at sandbox adapter boundary")
  else if String.eqb (sq_command payload) "dispatch_reject" then
    ret (sandbox_refused "execution_dispatch_failed" "sandbox adapter rejected dispatch request")
  else fun e =>
    let '(uuid, e') := uuid4 e in
    (Ret {| sr_accepted := true; sr_dispatch_id := Some uuid; sr_error_code := None;
            sr_message := "sandbox adapter accepted dispatch request" |}, e').

(** ** Reading task metadata *)

(** [tuple(item.strip() for item in value.split(",") if item.strip())]. *)
Definition csv_tokens (value : string) : list string :=
  List.filter truthy (map strip (split_on ","%char value)).

Definition _split_csv_values (value : option string) : list string :=
  match value with Some v => csv_tokens v | None => [] end.

(** [(metadata.get(k) or "").strip() or None]. *)
Definition stripped_field (md : list (string * string)) (k : string) : option string :=
  or_none (strip (dict_get_or md k "")).

Definition _extract_primary_recipient (task : TaskRecord) : option string * option string :=
  let md := metadata task in
  let primary_role := or_none (norm (dict_get_or md "primary_recipient_role" "")) in
  let primary_id := stripped_field md "primary_recipient_id" in
  match primary_role, primary_id with
  | None, None =>
      (hd_error (_split_csv_values (dict_get md "recipient_types")),
       hd_error (_split_csv_values (dict_get md "recipient_ids")))
  | _, _ => (primary_role, primary_id)
  end.

Definition _extract_discord_conversation_scope (task : TaskRecord)
    : option string * option string * option string :=
  let md := metadata task in
  (stripped_field md "discord_guild_id", stripped_field md "discord_channel_id",
   stripped_field md "discord_thread_id").

Definition _extract_llm_metadata (response : option LlmGatewayResponse)
    (recipient_role recipient_id : option string) (grounding_source_ids : list string)
    : option TaskDispatchLlmMetadata :=
  response ← response;
  usage ← lr_usage response;
  cost ← lr_cost response;
  budget_usage ← lr_budget_usage response;
  Some {| lm_decision := lr_decision response;
          lm_model_selected := opt_or (lr_model_selected response) "model-unspecified";
          lm_routing_profile :=
            dict_get_or (lr_route_metadata response) "routing_profile" "profile-unspecified";
          lm_quota_limit_source := lr_quota_limit_source response;
          lm_input_tokens := input_tokens usage; lm_output_tokens := output_tokens usage;
          lm_total_tokens := total_tokens usage; lm_request_units := request_units usage;
          lm_estimated_cost_usd := estimated_cost_usd cost;
          lm_actual_cost_usd := actual_cost_usd cost; lm_cost_source := cost_source cost;
          lm_currency_delta_usd := currency_delta_usd budget_usage;
          lm_quota_token_units := token_units budget_usage;
          lm_generated_text := lr_generated_text response;
          lm_recipient_role := opt_or (Some (norm (opt_or recipient_role ""))) "runtime_agent";
          lm_recipient_id := or_none (strip (opt_or recipient_id ""));
          lm_grounding_source_ids := grounding_source_ids |}.

(** ** The dispatch service *)

Section service.
Context {E C : Type} `{!Oracle E} `{!DispatchAdapters E C}.

Abbreviation W := (world E C).

(** [self._task_outcomes[task.task_id] = outcome; return outcome]. *)
Definition remember_outcome (tid : string) (o : TaskDispatchOutcome) : M W TaskDispatchOutcome :=
  modify (fun w => set_dispatch (<[tid := o]> (w_dispatch w)) w) ;! ret o.

(** An outcome that is not a replay. *)
Definition dispatch_outcome (accepted : bool) (tgt : string) (did code : option string)
    (message source : string) (retryable : bool) (dead_letter : option string)
    (llm : option TaskDispatchLlmMetadata) : TaskDispatchOutcome :=
  {| do_accepted := accepted; do_target := tgt; do_dispatch_id := did; do_error_code := code;
     do_message := message; do_replayed := false; do_source := source;
     do_retryable := retryable; do_dead_letter_id := dead_letter; do_llm_metadata := llm |}.

Definition mark_replayed (o : TaskDispatchOutcome) : TaskDispatchOutcome :=
  {| do_accepted := do_accepted o; do_target := do_target o; do_dispatch_id := do_dispatch_id o;
     do_error_code := do_error_code o; do_message := do_message o; do_replayed := true;
     do_source := do_source o; do_retryable := do_retryable o;
     do_dead_letter_id := do_dead_letter_id o; do_llm_metadata := do_llm_metadata o |}.

(** The [except Exception] of an adapter call: block the task and answer. *)
Definition adapter_failed (task : TaskRecord) (tgt code message source : string)
    : M W TaskDispatchOutcome :=
  on_tasks (mark_blocked_dispatch (task_id task) (Some code) message tgt source) ;!
  remember_outcome (task_id task)
    (dispatch_outcome false tgt None (Some code) message source false None None).

(** [receipt.dispatch_id or f"<prefix>-{uuid4()}"]. *)
Definition dispatch_id_or (did : option string) (prefix : string) : M W string :=
  match did with
  | Some d => if truthy d then ret d else let! u := draw uuid4 in ret (prefix +:+ u)
  | None => let! u := draw uuid4 in ret (prefix +:+ u)
  end.

(** An adapter call: its receipt, or [None] when it raised. *)
Definition attempt {A} (m : M W A) : M W (option A) :=
  try (let! a := m in ret (Some a)) (fun _ => Some (ret None)).

Definition dispatch_sandbox (task : TaskRecord) : M W TaskDispatchOutcome :=
  let tid := task_id task in
  let! receipt := attempt (on_ext (sandbox_dispatch (DispatchAdapters := DispatchAdapters0)
        (mk_SandboxDispatchRequest tid (trace_id task) (command task) (args task)))) in
  match receipt with
  | None =>
      adapter_failed task "sandbox" "execution_dispatch_adapter_error"
        "sandbox adapter execution failed" "dispatch_sandbox_adapter"
  | Some receipt =>
      if sr_accepted receipt then
        let! did := dispatch_id_or (sr_dispatch_id receipt) "sandbox-" in
        on_tasks (mark_dispatched tid "sandbox" did (sr_message receipt)) ;!
        remember_outcome tid (dispatch_outcome true "sandbox" (Some did) None (sr_message receipt)
          "dispatch_sandbox_adapter" false None None)
      else
        on_tasks (mark_blocked_dispatch tid (sr_error_code receipt) (sr_message receipt) "sandbox"
          "dispatch_sandbox_adapter") ;!
        remember_outcome tid (dispatch_outcome false "sandbox" None (sr_error_code receipt)
          (sr_message receipt) "dispatch_sandbox_adapter" false None None)
  end.

Definition llm_request (task : TaskRecord) (policy_version policy_hash : string)
    (rule_ids : list string) : LlmDispatchRequest :=
  let '(recipient_role, recipient_id) := _extract_primary_recipient task in
  let '(guild, channel, thread) := _extract_discord_conversation_scope task in
  {| dq_task_id := task_id task; dq_request_id := request_id task; dq_trace_id := trace_id task;
     dq_principal_id := principal_id task; dq_principal_role := principal_role task;
     dq_project_id := project_id task; dq_command := command task; dq_args := args task;
     dq_recipient_role := recipient_role; dq_recipient_id := recipient_id;
     dq_policy_version := policy_version; dq_policy_hash := policy_hash; dq_rule_ids := rule_ids;
     dq_conversation_guild_id := guild; dq_conversation_channel_id := channel;
     dq_conversation_thread_id := thread; dq_context_sources := [] |}.

Definition dispatch_llm (task : TaskRecord) (policy_version policy_hash : string)
    (rule_ids : list string) : M W TaskDispatchOutcome :=
  let tid := task_id task in
  let! llm_receipt := attempt (on_ext_client (llm_dispatch
        (llm_request task policy_version policy_hash rule_ids))) in
  match llm_receipt with
  | None =>
      adapter_failed task "llm" "llm_gateway_runtime_error"
        "llm gateway dispatch failed" "dispatch_llm_gateway"
  | Some receipt =>
      let llm := _extract_llm_metadata (dr_gateway_response receipt) (dr_recipient_role receipt)
                   (dr_recipient_id receipt) (dr_grounding_source_ids receipt) in
      if dr_accepted receipt then
        let! did := dispatch_id_or (dr_dispatch_id receipt) "llm-" in
        on_tasks (mark_dispatched tid "llm" did (dr_message receipt)) ;!
        remember_outcome tid (dispatch_outcome true "llm" (Some did) None (dr_message receipt)
          "dispatch_llm_gateway" false None llm)
      else
        on_tasks (mark_blocked_dispatch tid (dr_error_code receipt) (dr_message receipt) "llm"
          "dispatch_llm_gateway") ;!
        remember_outcome tid (dispatch_outcome false "llm" None (dr_error_code receipt)
          (dr_message receipt) "dispatch_llm_gateway"
          (match dr_gateway_response receipt with Some r => lr_retryable r | None => false end)
          None llm)
  end.

Definition communication_request (task : TaskRecord) : CommunicationDispatchRequest :=
  {| cq_task_id := task_id task; cq_trace_id := trace_id task; cq_principal_id := principal_id task;
     cq_connector := connector task; cq_command := command task; cq_target := target task;
     cq_args := args task; cq_idempotency_key := idempotency_key task;
     cq_project_id := project_id task; cq_created_at := created_at task;
     cq_metadata := metadata task |}.

Definition dispatch_communication (task : TaskRecord) : M W TaskDispatchOutcome :=
  let tid := task_id task in
  let! communication_receipt := attempt (on_ext (communication_dispatch
        (DispatchAdapters := DispatchAdapters0) (communication_request task))) in
  match communication_receipt with
  | None =>
      adapter_failed task "communication" "communication_dispatch_adapter_error"
        "communication adapter execution failed" "dispatch_communication_gateway"
  | Some receipt =>
      if cr_accepted receipt then
        let! did := dispatch_id_or (cr_dispatch_id receipt) "communication-" in
        on_tasks (mark_dispatched tid "communication" did (cr_message receipt)) ;!
        remember_outcome tid (dispatch_outcome true "communication" (Some did) None
          (cr_message receipt) "dispatch_communication_gateway" false (cr_dead_letter_id receipt) None)
      else
        let code := opt_or (cr_error_code receipt) "communication_dispatch_failed" in
        on_tasks (mark_blocked_dispatch tid (Some code) (cr_message receipt) "communication"
          "dispatch_communication_gateway") ;!
        remember_outcome tid (dispatch_outcome false "communication" None (Some code)
          (cr_message receipt) "dispatch_communication_gateway" (cr_retryable receipt)
          (cr_dead_letter_id receipt) None)
  end.

Definition specialist_request (task : TaskRecord) : SpecialistRequest :=
  {| tq_task_id := task_id task; tq_project_id := opt_or (project_id task) "system";
     tq_task_description := command task;
     tq_approved_tools := csv_tokens (dict_get_or (metadata task) "approved_tools" "");
     tq_dispatch_source_role := dict_get_or (metadata task) "dispatch_source" "unknown";
     tq_trace_id := trace_id task |}.

(** [looped] says whether the caller passed a loop state. *)
Definition dispatch_specialist (task : TaskRecord) (looped : bool) : M W TaskDispatchOutcome :=
  let tid := task_id task in
  match specialist_agent (E := E) (C := C) with
  | None =>
      on_tasks (mark_failed tid "specialist_agent_not_configured"
        "specialist dispatch requires specialist_agent to be configured" "task_dispatch_service") ;!
      raise (DispatchTargetError "specialist dispatch requires specialist_agent to be configured")
  | Some handle =>
      let dispatch_source_role := dict_get_or (metadata task) "dispatch_source" "unknown" in
      (if looped && String.eqb dispatch_source_role "project_manager"
       then on_loop (check_and_increment_pair "project_manager" "specialist" default_pair_limit)
       else ret tt) ;!
      let! response :=
        try (let! r := on_ext (handle (specialist_request task)) in ret (inl r))
            (fun exc => match exc with
                        | SpecialistDispatchAuthError message => Some (ret (inr message))
                        | _ => None
                        end) in
      match response with
      | inr message =>
          on_tasks (mark_failed tid "specialist_dispatch_auth_denied" message "task_dispatch_service") ;!
          remember_outcome tid (dispatch_outcome false "specialist" None
            (Some "specialist_dispatch_auth_denied") message "specialist_agent" false None None)
      | inl r =>
          if String.eqb (tr_execution_status r) "completed" then
            let! did := dispatch_id_or (tr_artifact_id r) "specialist-" in
            on_tasks (mark_dispatched tid "specialist" did "specialist task execution completed") ;!
            remember_outcome tid (dispatch_outcome true "specialist" (Some did) None
              "specialist task execution completed" "specialist_agent" false None None)
          else
            let code := opt_or (tr_blocker r) "specialist_task_blocked" in
            on_tasks (mark_blocked_dispatch tid (Some code) (tr_output_text r) "specialist"
              "specialist_agent") ;!
            remember_outcome tid (dispatch_outcome false "specialist" None (Some code)
              (tr_output_text r) "specialist_agent" false None None)
      end
  end.

Definition dispatch_unknown (task : TaskRecord) (tgt : string) : M W TaskDispatchOutcome :=
  let message := "unknown dispatch target: " +:+ py_repr tgt in
  on_tasks (mark_failed (task_id task) "dispatch_target_unknown" message "task_dispatch_service") ;!
  raise (DispatchTargetError message).

Definition dispatch_admitted_task (task : TaskRecord) (policy_version policy_hash : string)
    (rule_ids : list string) (looped : bool) : M W TaskDispatchOutcome :=
  let! existing := gets (fun w => w_dispatch w !! task_id task) in
  match existing with
  | Some o => ret (mark_replayed o)
  | None =>
      let tgt := select_dispatch_target task in
      if String.eqb tgt "sandbox" then dispatch_sandbox task
      else if String.eqb tgt "llm" then dispatch_llm task policy_version policy_hash rule_ids
      else if String.eqb tgt "communication" then dispatch_communication task
      else if String.eqb tgt "specialist" then dispatch_specialist task looped
      else dispatch_unknown task tgt
  end.

(** ** Specialist subtasks *)

Definition specialist_envelope (rid tid project trace : string) : AdmissionEnvelope :=
  {| ae_request_id := rid; ae_trace_id := trace; ae_principal_id := "project_manager";
     ae_principal_role := "project_manager"; ae_trust_domain := "project";
     ae_connector := "internal"; ae_command := "execute_specialist_task";
     ae_target := "specialist"; ae_args := [tid];
     ae_metadata := [("dispatch_source", "project_manager"); ("source_task_id", tid);
                     ("target_role", "specialist")];
     ae_project_id := Some project;
     ae_idempotency_key := "pm-specialist-" +:+ project +:+ "-" +:+ tid +:+ "-" +:+ trace |}.

Definition create_specialist_task (tid project trace : string) : M W string :=
  let! rid := draw uuid4 in
  let envelope := specialist_envelope rid tid project trace in
  let! uuid := draw uuid4 in
  let! now := draw utcnow in
  let! created_task := on_tasks (create_task_from_envelope uuid now envelope) in
  let! outcome := dispatch_admitted_task created_task "v2" "project-manager-v1"
                    ["AUTH-001"; "AUTH-002"; "ORCH-001"; "ORCH-002"] false in
  ret (opt_or (do_dispatch_id outcome) (task_id created_task)).
End service.

(** * Lemmas *)

(** A task row with a given status. *)
Definition has_status {E C} (tid : string) (sts : list string) (w : world E C) : Prop :=
  exists r, w_tasks w !! tid = Some r /\ In (status r) sts.

Section facts.
Context {E C : Type} `{!Oracle E} `{!DispatchAdapters E C}.
Abbreviation W := (world E C).

(** Steps that leave the task table and the dispatch outcomes alone. *)
Definition same_books (w w' : W) : Prop := w_tasks w' = w_tasks w /\ w_dispatch w' = w_dispatch w.

#[export] Instance same_books_preorder : PreOrder same_books.
Proof. split; [done |]. intros a b c [H1 H2] [H3 H4]. split; congruence. Qed.

Lemma books_on_ext {A} (m : M E A) : tracks same_books (on_ext m).
Proof. intros w. unfold same_books, on_ext, zoom. by destruct (m (w_ext w)). Qed.
Lemma books_on_ext_client {A} (m : M (E * C) A) : tracks same_books (on_ext_client m).
Proof. intros w. unfold same_books, on_ext_client, zoom. by destruct (m _). Qed.
Lemma books_on_budget {A} (m : M (BudgetReservationService C) A) : tracks same_books (on_budget m).
Proof. intros w. unfold same_books, on_budget, zoom. by destruct (m _). Qed.
Lemma books_on_loop {A} (m : M LoopState A) : tracks same_books (on_loop m).
Proof. intros w. unfold same_books, on_loop, zoom. by destruct (m _). Qed.
Lemma books_draw {A} (f : E -> A * E) : tracks same_books (draw f).
Proof. intros w. unfold same_books, draw. by destruct (f (w_ext w)). Qed.

Lemma post_tracks {S A} (R : S -> S -> Prop) (m : M S A) s :
  tracks R m -> post m s (fun _ => R s) (fun _ => R s).
Proof. intros H. specialize (H s). unfold post. by destruct (m s) as [[] ?]. Qed.

(** Run a step that keeps the books, then continue from the same books. *)
Lemma post_books_bind {A B} (m : M W A) (k : A -> M W B) w Q X :
  tracks same_books m ->
  (forall e w', same_books w w' -> X e w') ->
  (forall a w', same_books w w' -> post (k a) w' Q X) ->
  post (bind m k) w Q X.
Proof.
  intros Hm HX Hk. apply post_bind. eapply post_mono; [by apply (post_tracks same_books) | |];
    cbv beta; eauto.
Qed.

Lemma books_attempt {A} (m : M W A) : tracks same_books m -> tracks same_books (attempt m).
Proof.
  intros H. apply tracks_try; [typeclasses eauto | | intros ? ? [= <-]; by apply tracks_ret, _].
  apply tracks_bind; [typeclasses eauto | done | intros ?; by apply tracks_ret, _].
Qed.

Lemma attempt_no_raise {A} (m : M W A) w e w' : attempt m w <> (Raise e, w').
Proof. unfold attempt, try, bind, ret. by destruct (m w) as [[] ?]. Qed.

Lemma post_attempt_bind {A B} (m : M W A) (k : option A -> M W B) w Q X :
  tracks same_books m ->
  (forall a w', same_books w w' -> post (k a) w' Q X) ->
  post (bind (attempt m) k) w Q X.
Proof.
  intros Hm Hk. apply post_bind. unfold post. pose proof (books_attempt m Hm w) as Hb.
  destruct (attempt m w) as [[a | e] w'] eqn:Ea; [by apply Hk | by apply attempt_no_raise in Ea].
Qed.

Lemma books_dispatch_id_or did prefix : tracks same_books (dispatch_id_or did prefix).
Proof.
  unfold dispatch_id_or. destruct did as [d |]; [destruct (truthy d) |];
    repeat first [apply books_draw | apply tracks_ret, _
                 | apply tracks_bind; [typeclasses eauto | | intros ?]].
Qed.

Lemma dispatch_id_or_no_raise did prefix (w : W) e w' : dispatch_id_or did prefix w <> (Raise e, w').
Proof.
  unfold dispatch_id_or, bind, ret, draw.
  destruct did as [d |]; [destruct (truthy d); [done |] |]; by destruct (uuid4 (w_ext w)).
Qed.

Lemma post_dispatch_id_bind {B} did prefix (k : string -> M W B) w Q X :
  (forall a w', same_books w w' -> post (k a) w' Q X) ->
  post (bind (dispatch_id_or did prefix) k) w Q X.
Proof.
  intros Hk. apply post_bind. unfold post.
  pose proof (books_dispatch_id_or did prefix w) as Hb.
  destruct (dispatch_id_or did prefix w) as [[a | e] w'] eqn:Ea;
    [by apply Hk | by apply dispatch_id_or_no_raise in Ea].
Qed.

Lemma has_status_books tid sts (w w' : W) : same_books w w' -> has_status tid sts w -> has_status tid sts w'.
Proof. intros [Ht _] H. unfold has_status. by rewrite Ht. Qed.

(** A legal update of a task that exists. *)
Lemma post_update_bind {B} tid cur new o (k : option TaskRecord -> M W B) w Q X :
  has_status tid [cur] w -> legal_step cur new ->
  (forall a w', has_status tid [new] w' -> w_dispatch w' = w_dispatch w -> post (k a) w' Q X) ->
  post (bind (on_tasks (update_task_status tid new o)) k) w Q X.
Proof.
  intros (r & Hr & [-> | []]) Hl Hk. apply post_bind. unfold post, on_tasks, zoom.
  rewrite update_task_status_spec, Hr. apply legal_step_bool in Hl. rewrite Hl, orb_true_r.
  apply Hk; [| done]. exists (apply_update new o r). cbn [w_tasks set_tasks].
  rewrite lookup_insert_eq. split; [done | by left].
Qed.

(** What one fresh dispatch of task [tid] from [w] leaves when it answers [o]. *)
Definition dispatched_as (tid : string) (w : W) (o : TaskDispatchOutcome) (w' : W) : Prop :=
  w_dispatch w' = <[tid := o]> (w_dispatch w) /\ do_replayed o = false /\
  (if do_accepted o then has_status tid ["dispatched"] w' else has_status tid ["blocked"; "failed"] w').

(** ... and when it raises. *)
Definition dispatch_raised (tid : string) (w : W) (x : exn) (w' : W) : Prop :=
  w_dispatch w' = w_dispatch w /\ has_status tid ["authorized"; "failed"] w'.

Lemma has_status_mono tid sts sts' (w : W) :
  (forall s, In s sts -> In s sts') -> has_status tid sts w -> has_status tid sts' w.
Proof. intros H (r & Hr & Hs). exists r. auto. Qed.

Lemma post_remember tid o w0 (w : W) X :
  w_dispatch w = w_dispatch w0 -> do_replayed o = false ->
  (if do_accepted o then has_status tid ["dispatched"] w else has_status tid ["blocked"; "failed"] w) ->
  post (remember_outcome tid o) w (dispatched_as tid w0) X.
Proof.
  intros Hd Hr Hs. unfold remember_outcome, post, bind, modify, ret. split; [by cbn; rewrite Hd |].
  split; [done |]. by destruct (do_accepted o).
Qed.

(** The end of every branch: one legal update from "authorized", then remember. *)
Lemma post_mark_remember tid new out o w0 (w : W) X :
  same_books w0 w -> has_status tid ["authorized"] w0 ->
  legal_step "authorized" new -> do_replayed o = false ->
  (if do_accepted o then new = "dispatched" else In new ["blocked"; "failed"]) ->
  post (on_tasks (update_task_status tid new out) ;! remember_outcome tid o) w (dispatched_as tid w0) X.
Proof.
  intros Hb Hs Hl Hr Hn. eapply post_update_bind; [by eapply has_status_books | done |].
  intros _ w' Hs' Hd. apply post_remember; [by rewrite Hd; apply Hb | done |].
  destruct (do_accepted o); [by subst |].
  eapply has_status_mono; [| exact Hs']. intros s [<- | []]. exact Hn.
Qed.

Ltac legal := vm_compute; tauto.
Ltac finish_branch := apply post_mark_remember; [done | done | legal | done | vm_compute; tauto].

Lemma dispatch_sandbox_post task w :
  has_status (task_id task) ["authorized"] w ->
  post (dispatch_sandbox task) w (dispatched_as (task_id task) w) (dispatch_raised (task_id task) w).
Proof.
  intros Hs. unfold dispatch_sandbox, adapter_failed. cbv zeta.
  apply post_attempt_bind; [apply books_on_ext |]. intros [r |] w1 Hb1; [| finish_branch].
  destruct (sr_accepted r); [| finish_branch].
  apply post_dispatch_id_bind. intros did w2 Hb2. apply post_mark_remember; [by etransitivity | done | legal | done | done].
Qed.

Lemma dispatch_llm_post task pv ph rules w :
  has_status (task_id task) ["authorized"] w ->
  post (dispatch_llm task pv ph rules) w (dispatched_as (task_id task) w) (dispatch_raised (task_id task) w).
Proof.
  intros Hs. unfold dispatch_llm, adapter_failed. cbv zeta.
  apply post_attempt_bind; [apply books_on_ext_client |]. intros [r |] w1 Hb1; [| finish_branch].
  destruct (dr_accepted r); [| finish_branch].
  apply post_dispatch_id_bind. intros did w2 Hb2. apply post_mark_remember; [by etransitivity | done | legal | done | done].
Qed.

Lemma dispatch_communication_post task w :
  has_status (task_id task) ["authorized"] w ->
  post (dispatch_communication task) w (dispatched_as (task_id task) w) (dispatch_raised (task_id task) w).
Proof.
  intros Hs. unfold dispatch_communication, adapter_failed. cbv zeta.
  apply post_attempt_bind; [apply books_on_ext |]. intros [r |] w1 Hb1; [| finish_branch].
  destruct (cr_accepted r); [| finish_branch].
  apply post_dispatch_id_bind. intros did w2 Hb2. apply post_mark_remember; [by etransitivity | done | legal | done | done].
Qed.

Lemma raised_books tid (w w' : W) x :
  has_status tid ["authorized"] w -> same_books w w' -> dispatch_raised tid w x w'.
Proof.
  intros Hs Hb. split; [apply Hb |]. eapply has_status_mono; [| by eapply has_status_books].
  intros s [<- | []]. by left.
Qed.

(** Failing the task and raising. *)
Lemma post_mark_failed_raise tid out x w :
  has_status tid ["authorized"] w ->
  post (on_tasks (update_task_status tid "failed" out) ;! raise x) w (dispatched_as tid w)
    (dispatch_raised tid w).
Proof.
  intros Hs. eapply post_update_bind; [done | legal |]. intros _ w' Hs' Hd. apply post_raise.
  split; [done |]. eapply has_status_mono; [| exact Hs']. intros s [<- | []]. by right; left.
Qed.

Lemma dispatch_specialist_post task looped w :
  has_status (task_id task) ["authorized"] w ->
  post (dispatch_specialist task looped) w (dispatched_as (task_id task) w) (dispatch_raised (task_id task) w).
Proof.
  intros Hs. unfold dispatch_specialist. cbv zeta.
  destruct (specialist_agent (E := E) (C := C)) as [handle |]; [| by apply post_mark_failed_raise].
  apply post_books_bind.
  { destruct (_ && _); [apply books_on_loop | by apply tracks_ret, _]. }
  { intros e w1 Hb. by apply raised_books. }
  intros _ w1 Hb1. apply post_books_bind.
  { apply tracks_try; [typeclasses eauto | |].
    - apply tracks_bind; [typeclasses eauto | apply books_on_ext | intros ?; by apply tracks_ret, _].
    - intros e k He. destruct e; simplify_eq; by apply tracks_ret, _. }
  { intros e w2 Hb2. apply raised_books; [done | by etransitivity]. }
  intros r w2 Hb2. assert (same_books w w2) as Hb by (by etransitivity).
  destruct r as [r | message]; [| finish_branch].
  destruct (String.eqb _ "completed"); [| finish_branch].
  apply post_dispatch_id_bind. intros did w3 Hb3.
  apply post_mark_remember; [by etransitivity | done | legal | done | done].
Qed.

Lemma dispatch_admitted_task_post task pv ph rules looped w :
  has_status (task_id task) ["authorized"] w -> w_dispatch w !! task_id task = None ->
  post (dispatch_admitted_task task pv ph rules looped) w
    (dispatched_as (task_id task) w) (dispatch_raised (task_id task) w).
Proof.
  intros Hs Hn. unfold dispatch_admitted_task. apply post_bind, post_gets. rewrite Hn. cbv zeta.
  destruct (String.eqb _ "sandbox"); [by apply dispatch_sandbox_post |].
  destruct (String.eqb _ "llm"); [by apply dispatch_llm_post |].
  destruct (String.eqb _ "communication"); [by apply dispatch_communication_post |].
  destruct (String.eqb _ "specialist"); [by apply dispatch_specialist_post |].
  by apply post_mark_failed_raise.
Qed.

Lemma dispatch_replayed task pv ph rules looped (w : W) o :
  w_dispatch w !! task_id task = Some o ->
  dispatch_admitted_task task pv ph rules looped w = (Ret (mark_replayed o), w).
Proof. intros H. unfold dispatch_admitted_task, bind, gets, ret. by rewrite H. Qed.

(** Every dispatch moves tasks along the state machine only. *)
Lemma tracks_attempt {A} (m : M W A) : tracks world_evolves m -> tracks world_evolves (attempt m).
Proof.
  intros H. apply tracks_try; [typeclasses eauto | | intros ? ? [= <-]; by apply tracks_ret, _].
  apply tracks_bind; [typeclasses eauto | done | intros ?; by apply tracks_ret, _].
Qed.

Lemma tracks_remember_outcome tid o : tracks world_evolves (remember_outcome tid o : M W _).
Proof. unfold remember_outcome. tracks_auto. Qed.

Lemma tracks_dispatch_id_or did prefix : tracks world_evolves (dispatch_id_or did prefix : M W string).
Proof. unfold dispatch_id_or. tracks_auto. Qed.

#[local] Hint Resolve tracks_attempt tracks_remember_outcome tracks_dispatch_id_or : tracks.

Lemma tracks_dispatch_admitted_task task pv ph rules looped :
  tracks world_evolves (dispatch_admitted_task task pv ph rules looped : M W _).
Proof.
  unfold dispatch_admitted_task, dispatch_sandbox, dispatch_llm, dispatch_communication,
    dispatch_specialist, dispatch_unknown, adapter_failed.
  tracks_auto. all: intros; destruct e; simplify_eq; tracks_auto.
Qed.
End facts.

#[export] Hint Resolve tracks_attempt tracks_remember_outcome tracks_dispatch_id_or
  tracks_dispatch_admitted_task : tracks.

(** * Theorems *)

(** C32: dispatching an authorized task that was not dispatched before, through
    any adapters: if it answers, the task's row is "dispatched" when the
    outcome is accepted and "blocked" or "failed" otherwise, and every later
    dispatch of that task id replays the same outcome, marked as a replay,
    without calling an adapter or changing anything; if it raises, nothing is
    remembered and the row is still "authorized" or is "failed".  Either way
    every task has moved along the state machine only. *)
Theorem dispatch_once {E C : Type} `{!Oracle E} `{!DispatchAdapters E C}
    task pv ph rules looped (w : world E C) :
  has_status (task_id task) ["authorized"] w -> w_dispatch w !! task_id task = None ->
  let '(o, w') := dispatch_admitted_task task pv ph rules looped w in
  tasks_evolve (w_tasks w) (w_tasks w') /\
  match o with
  | Ret o =>
      do_replayed o = false /\
      has_status (task_id task) (if do_accepted o then ["dispatched"] else ["blocked"; "failed"]) w' /\
      forall again pv' ph' rules' looped', task_id again = task_id task ->
        dispatch_admitted_task again pv' ph' rules' looped' w' = (Ret (mark_replayed o), w')
  | Raise _ => w_dispatch w' = w_dispatch w /\ has_status (task_id task) ["authorized"; "failed"] w'
  end.
Proof.
  intros Hs Hn. pose proof (dispatch_admitted_task_post task pv ph rules looped w Hs Hn) as H.
  pose proof (tracks_dispatch_admitted_task (E := E) (C := C) task pv ph rules looped w) as Hev.
  unfold post in H. destruct (dispatch_admitted_task task pv ph rules looped w) as [[o | x] w'];
    (split; [by apply tasks_advance_evolve |]); [| exact H].
  destruct H as (Hd & Hr & Hst). split; [done |]. split; [by destruct (do_accepted o) |].
  intros again pv' ph' rules' looped' Hid. apply dispatch_replayed. by rewrite Hid, Hd, lookup_insert_eq.
Qed.

(** A small outside world for evaluations: a clock that counts draws. *)
#[export] Instance tick_oracle : Oracle N := {
  uuid4 := fun e => ("uuid-" +:+ pretty e, (e + 1)%N);
  utcnow := fun e => (mk_datetime 2026 3 24 12 0 0 0, (e + 1)%N)
}.

Definition done_response (req : SpecialistRequest) : SpecialistResponse :=
  mk_SpecialistResponse "completed" "done" (Some "artifact-1") None (tq_trace_id req).

#[export] Instance tick_adapters {C} : DispatchAdapters N C := {
  sandbox_dispatch := local_sandbox_dispatch;
  llm_dispatch := fun _ => raise (RuntimeError "no gateway");
  communication_dispatch := fun _ =>
    ret (mk_CommunicationDispatchReceipt false None None "rejected" None true None);
  specialist_agent := Some (fun req => ret (done_response req))
}.

Definition tick_world (st : string) : world N Z :=
  {| w_ext := 0%N; w_tasks := {["t1" := sample_row st]};
     w_budget := {| brs_client := 0%Z; brs_task_outcomes := ∅ |};
     w_loop := fresh_LoopState; w_dispatch := ∅ |}.

Lemma tick_world_status st : has_status "t1" [st] (tick_world st).
Proof. exists (sample_row st). split; [reflexivity | by left]. Qed.

Lemma dispatch_once_witness :
  let '(o, w') := dispatch_admitted_task (sample_row "authorized") "v" "h" [] true
                    (tick_world "authorized") in
  exists o', o = Ret o' /\ do_accepted o' = false /\ do_source o' = "dispatch_llm_gateway" /\
    has_status "t1" ["blocked"; "failed"] w'.
Proof.
  pose proof (dispatch_once (sample_row "authorized") "v" "h" [] true (tick_world "authorized")
    (tick_world_status "authorized") eq_refl) as H.
  change (task_id (sample_row "authorized")) with "t1" in H.
  destruct (dispatch_admitted_task (sample_row "authorized") "v" "h" [] true
    (tick_world "authorized")) as [o w'] eqn:Eo.
  assert (o = (dispatch_admitted_task (sample_row "authorized") "v" "h" [] true
    (tick_world "authorized")).1) as Ho by (by rewrite Eo).
  vm_compute in Ho. subst o. destruct H as (_ & _ & Hs & _).
  eexists. split; [reflexivity |]. split; [reflexivity |]. split; [reflexivity | exact Hs].
Defined.

(** A specialist subtask can never be created successfully.  The task
    [create_specialist_task] creates is "queued", and the dispatch it makes at
    once skips the authorization step, so when the specialist completes the
    work, marking the task dispatched is an illegal transition: the call
    raises, the work having been done, and leaves the subtask queued, to be
    executed again by the worker. *)
Theorem create_specialist_task_raises {E C : Type} `{!Oracle E} `{!DispatchAdapters E C}
    handle tid project trace (w : world E C) :
  specialist_agent (E := E) (C := C) = Some handle ->
  (forall req e, exists r e', handle req e = (Ret r, e') /\ tr_execution_status r = "completed") ->
  let created := (uuid4 (uuid4 (w_ext w)).2).1 in
  w_tasks w !! created = None -> w_dispatch w !! created = None ->
  exists w' r,
    create_specialist_task tid project trace w =
      (Raise (InvalidStateTransitionError "queued" "dispatched"), w') /\
    w_tasks w' !! created = Some r /\ status r = "queued" /\ w_dispatch w' !! created = None.
Proof.
  cbv zeta. intros Ha Hc Hn Hd. unfold create_specialist_task, bind, draw.
  destruct (uuid4 (w_ext w)) as [rid e1]. cbn [snd] in Hn, Hd |- *. cbn [w_ext set_ext].
  destruct (uuid4 e1) as [uuid e2]. cbn [fst] in Hn, Hd |- *. cbn [w_ext set_ext].
  destruct (utcnow e2) as [now e3]. unfold on_tasks, zoom, create_task_from_envelope, bind, get, modify, ret.
  cbn [w_tasks set_ext]. rewrite Hn. cbv zeta.
  set (task := task_of_envelope uuid now _). set (w1 := set_tasks _ _).
  unfold dispatch_admitted_task, bind, gets. cbn [w_dispatch set_tasks set_ext w1].
  change (task_id task) with uuid. rewrite Hd.
  change (select_dispatch_target task) with "specialist". cbv zeta.
  change (String.eqb "specialist" "sandbox") with false.
  change (String.eqb "specialist" "llm") with false.
  change (String.eqb "specialist" "communication") with false.
  change (String.eqb "specialist" "specialist") with true. cbv iota.
  unfold dispatch_specialist. rewrite Ha. cbn [andb]. unfold bind, try, ret, on_ext, zoom.
  destruct (Hc (specialist_request task) (w_ext w1)) as (r & e4 & -> & ->). cbv zeta.
  change (String.eqb "completed" "completed") with true. cbv iota.
  pose proof (books_dispatch_id_or (C := C) (tr_artifact_id r) "specialist-" (set_ext e4 w1)) as [Ht Hds].
  destruct (dispatch_id_or (tr_artifact_id r) "specialist-" (set_ext e4 w1)) as [[did | x] w2] eqn:Ei;
    [| by apply dispatch_id_or_no_raise in Ei].
  cbn [snd] in Ht, Hds. unfold on_tasks, zoom, mark_dispatched.
  rewrite update_task_status_spec, Ht. cbn [w_tasks set_ext set_tasks w1].
  change (task_id task) with uuid. rewrite lookup_insert_eq. cbn [status task task_of_envelope].
  change (String.eqb "queued" "dispatched" || mem "dispatched" (LEGAL_TRANSITIONS "queued")) with false.
  eexists _, task. split; [reflexivity |]. cbn [w_tasks w_dispatch set_tasks].
  rewrite Hds. cbn [w_dispatch set_tasks set_ext w1]. by rewrite lookup_insert_eq.
Qed.

Lemma create_specialist_task_raises_witness :
  exists w' r,
    create_specialist_task "t1" "p" "tr" (tick_world "dispatched") =
      (Raise (InvalidStateTransitionError "queued" "dispatched"), w') /\
    w_tasks w' !! "uuid-1" = Some r /\ status r = "queued" /\ w_dispatch w' !! "uuid-1" = None.
Proof.
  assert ((uuid4 (uuid4 (w_ext (tick_world "dispatched"))).2).1 = "uuid-1") as <- by (vm_compute; reflexivity).
  apply (create_specialist_task_raises (C := Z) (fun req => ret (done_response req))
    "t1" "p" "tr" (tick_world "dispatched")).
  - reflexivity.
  - intros req e. by exists (done_response req), e.
  - reflexivity.
  - reflexivity.
Defined.
