(* ===== verification/Obligations.v ===== *)
(** Policy obligations.

    Models [policy_runtime_integration/obligations.py] and the [bind] of
    [execution_sandbox/profiles/enforcement.py]: the handlers of the four known
    obligations, and the dispatcher that applies them in canonical order and
    stops at the first blocking failure. *)

From S2P Require Import Prelude PyStr PyData Task Budget LoopControl Policy Runtime.

Definition _OBLIGATION_ORDER : list string :=
  ["emit_audit_event"; "require_owner_approval"; "reserve_budget"; "enforce_sandbox_profile"].

(** The services of the context are those of the runtime. *)
Record ObligationContext : Type := mk_ObligationContext {
  oc_trace_id : string;
  oc_task_id : string;
  oc_request_id : string;
  oc_principal_id : string;
  oc_principal_role : string;
  oc_action : string;
  oc_target : string;
  oc_project_id : option string;
  oc_policy_version : string;
  oc_policy_hash : string;
  oc_rule_ids : list string;
  oc_task_record : TaskRecord
}.

Record ObligationOutcome : Type := mk_ObligationOutcome {
  ob_obligation : string;
  ob_satisfied : bool;
  ob_blocking : bool;
  ob_reason : string
}.

Record ObligationApplicationResult : Type := mk_ObligationApplicationResult {
  oa_all_satisfied : bool;
  oa_outcomes : list ObligationOutcome;
  oa_blocking_obligation : option string
}.

Section obligations.
Context {E C : Type} `{!Oracle E} `{!AuditWriter E} `{!SandboxProfiles E} `{!BudgetRuntimeClient C}.

Abbreviation W := (world E C).

Definition _handle_emit_audit_event (context : ObligationContext) : M W ObligationOutcome :=
  try
    (on_ext (write_event
       {| ae_event_type := "obligation.emit_audit_event"; ae_outcome := "applied";
          ae_event_trace_id := oc_trace_id context;
          ae_event_request_id := Some (oc_request_id context);
          ae_event_task_id := Some (oc_task_id context);
          ae_event_principal_id := Some (oc_principal_id context);
          ae_event_principal_role := Some (oc_principal_role context);
          ae_source := "obligation_dispatcher"; ae_reason_code := Some "obligation_applied";
          ae_message := "emit_audit_event obligation satisfied: immutable audit record written";
          ae_policy_version := Some (oc_policy_version context);
          ae_policy_hash := Some (oc_policy_hash context);
          ae_rule_ids := oc_rule_ids context; ae_payload := JNull;
          ae_attributes := JObj [("obligation", JStr "emit_audit_event");
                                 ("action", JStr (oc_action context));
                                 ("target", JStr (oc_target context));
                                 ("project_id", JStr (opt_or (oc_project_id context) ""))] |}) ;!
     ret (mk_ObligationOutcome "emit_audit_event" true false "immutable audit record emitted"))
    (fun exc => Some (ret (mk_ObligationOutcome "emit_audit_event" false false
       ("audit write failed (non-blocking in M12): " +:+ exn_str exc)))).

Definition _handle_require_owner_approval (context : ObligationContext) : M W ObligationOutcome :=
  on_tasks (update_task_status (oc_task_id context) "blocked"
    {| o_source := Some "obligation_dispatcher"; o_error_code := Some "approval_required";
       o_message := Some "require_owner_approval obligation: task blocked pending explicit owner approval";
       o_details := Some [("obligation", "require_owner_approval");
                          ("principal_id", oc_principal_id context);
                          ("action", oc_action context); ("target", oc_target context)];
       o_target := None; o_dispatch := None |}) ;!
  ret (mk_ObligationOutcome "require_owner_approval" false true "task blocked pending owner approval").

(** The id the reason line shows. *)
Definition reservation_label (o : BudgetFailClosedOutcome) : string :=
  match bo_reservation o with
  | Some r => match br_reservation_id r with Some i => i | None => "None" end
  | None => "unknown"
  end.

Definition _handle_reserve_budget (context : ObligationContext) : M W ObligationOutcome :=
  try
    (let! uuid := draw uuid4 in
     let! now := draw utcnow in
     let! outcome := on_budget (reserve_with_fail_closed uuid now (oc_task_record context)) in
     ret (if bo_allowed outcome then
            mk_ObligationOutcome "reserve_budget" true false
              ("budget reserved: " +:+ reservation_label outcome)
          else
            mk_ObligationOutcome "reserve_budget" false true
              ("budget failed — fail-closed: " +:+ bo_message outcome)))
    (fun exc => Some (ret (mk_ObligationOutcome "reserve_budget" false true
       ("budget reservation failed — fail-closed: " +:+ exn_str exc)))).

Definition _handle_enforce_sandbox_profile (context : ObligationContext) : M W ObligationOutcome :=
  let! missing := gets (fun w => bind_profile (oc_target context) "default" (w_ext w)) in
  match missing with
  | Some exc => ret (mk_ObligationOutcome "enforce_sandbox_profile" false false exc)
  | None =>
      ret (mk_ObligationOutcome "enforce_sandbox_profile" true false
        ("seccomp profile 'default' bound for target '" +:+ oc_target context +:+
         "' (M13-WP6 hook; BPF application deferred to post-MVP-v2)"))
  end.

Definition _dispatch_obligation (obligation : string) (context : ObligationContext)
    : M W ObligationOutcome :=
  if String.eqb obligation "emit_audit_event" then _handle_emit_audit_event context
  else if String.eqb obligation "require_owner_approval" then _handle_require_owner_approval context
  else if String.eqb obligation "reserve_budget" then _handle_reserve_budget context
  else if String.eqb obligation "enforce_sandbox_profile" then _handle_enforce_sandbox_profile context
  else ret (mk_ObligationOutcome obligation false true
              ("unknown obligation '" +:+ obligation +:+ "' — fail-closed")).

(** Known obligations in canonical order, then the others as given. *)
Definition ordered_obligations (obligations : list string) : list string :=
  List.filter (fun o => mem o obligations) _OBLIGATION_ORDER ++
  List.filter (fun o => negb (mem o _OBLIGATION_ORDER)) obligations.

(** The [for] loop with its [break]. *)
Fixpoint apply_ordered (ordered : list string) (context : ObligationContext)
    : M W (list ObligationOutcome * option string) :=
  match ordered with
  | [] => ret ([], None)
  | obligation :: rest =>
      let! outcome := _dispatch_obligation obligation context in
      if negb (ob_satisfied outcome) && ob_blocking outcome then ret ([outcome], Some obligation)
      else
        let! (outcomes, blocking) := apply_ordered rest context in
        ret (outcome :: outcomes, blocking)
  end.

Definition apply_obligations (obligations : list string) (context : ObligationContext)
    : M W ObligationApplicationResult :=
  let! (outcomes, blocking_obligation) := apply_ordered (ordered_obligations obligations) context in
  ret {| oa_all_satisfied := forallb ob_satisfied outcomes; oa_outcomes := outcomes;
         oa_blocking_obligation := blocking_obligation |}.

(** * Lemmas *)

(** The obligations a handler can satisfy. *)
Definition grantable : list string :=
  ["emit_audit_event"; "reserve_budget"; "enforce_sandbox_profile"].

(** What one handler answers, by the obligation's name. *)
Definition handler_answer (obligation : string) (o : ObligationOutcome) : Prop :=
  ob_obligation o = obligation /\
  (ob_satisfied o = true -> In obligation grantable) /\
  (In obligation ["emit_audit_event"; "enforce_sandbox_profile"] -> ob_blocking o = false) /\
  (~ In obligation ["emit_audit_event"; "enforce_sandbox_profile"] ->
     ob_blocking o = negb (ob_satisfied o)).

Ltac handler_done :=
  split; [done |]; split; [intros; cbn in *; try done; tauto |];
  split; [intros; cbn in *; try done; by naive_solver | intros; cbn in *; try done; exfalso; tauto].

(** The budget service never raises (see [Budget]). *)
Lemma reserve_no_raise uuid now task (s : BudgetReservationService C) e s' :
  reserve_with_fail_closed uuid now task s <> (Raise e, s').
Proof.
  destruct (brs_task_outcomes s !! task_id task) as [o |] eqn:Eo.
  - by rewrite (reserve_replayed _ _ _ _ o Eo).
  - destruct (reserve_fresh uuid now task s Eo) as (o & c & -> & _). done.
Qed.

Lemma dispatch_obligation_answer obligation context (w : W) :
  match _dispatch_obligation obligation context w with
  | (Ret o, _) => handler_answer obligation o
  | (Raise _, _) => obligation = "require_owner_approval"
  end.
Proof.
  unfold _dispatch_obligation.
  destruct (String.eqb_spec obligation "emit_audit_event") as [-> | H1].
  { unfold _handle_emit_audit_event, try, bind, ret, on_ext, zoom.
    destruct (write_event _ _) as [[] ?]; handler_done. }
  destruct (String.eqb_spec obligation "require_owner_approval") as [-> | H2].
  { unfold _handle_require_owner_approval, bind, ret, on_tasks, zoom.
    destruct (update_task_status _ _ _ _) as [[] ?]; [handler_done | done]. }
  destruct (String.eqb_spec obligation "reserve_budget") as [-> | H3].
  { unfold _handle_reserve_budget, try, bind, ret, draw, on_budget, zoom.
    destruct (uuid4 _) as [u e1], (utcnow _) as [n e2].
    destruct (reserve_with_fail_closed _ _ _ _) as [[o | x] ?]; [destruct (bo_allowed o) |]; handler_done. }
  destruct (String.eqb_spec obligation "enforce_sandbox_profile") as [-> | H4].
  { unfold _handle_enforce_sandbox_profile, bind, gets, ret.
    destruct (bind_profile _ _ _); handler_done. }
  unfold ret. split; [done |]. split; [done |].
  split; [cbn [In] | done]. naive_solver.
Qed.

(** The outcomes answer a prefix of the ordered obligations; a blocking one is
    the last answered. *)
Lemma apply_ordered_answer ordered context (w : W) :
  match apply_ordered ordered context w with
  | (Ret (outcomes, blocking), _) =>
      Forall2 handler_answer (take (length outcomes) ordered) outcomes /\
      match blocking with
      | None => length outcomes = length ordered /\ Forall (fun o => ob_satisfied o || negb (ob_blocking o)) outcomes
      | Some b => exists past o, outcomes = past ++ [o] /\ ordered !! length past = Some b /\
                    ob_satisfied o = false /\ ob_blocking o = true /\
                    Forall (fun o => ob_satisfied o || negb (ob_blocking o)) past
      end
  | (Raise _, _) => In "require_owner_approval" ordered
  end.
Proof.
  revert w. induction ordered as [| ob rest IH]; intros w.
  { split; [constructor | by split; [| constructor]]. }
  cbn [apply_ordered]. unfold bind. pose proof (dispatch_obligation_answer ob context w) as Ho.
  destruct (_dispatch_obligation ob context w) as [[o | x] w1]; [| by left].
  destruct (negb (ob_satisfied o) && ob_blocking o) eqn:Eb.
  - cbn [ret]. split; [constructor; [done | constructor] |].
    apply andb_true_iff in Eb as [E1 E2]. apply negb_true_iff in E1. by exists [], o.
  - specialize (IH w1). destruct (apply_ordered rest context w1) as [[[os b] | x] w2]; [| by right].
    destruct IH as [Hf Hb]. cbn [ret]. split; [by constructor |].
    assert (ob_satisfied o || negb (ob_blocking o)) as Hgood.
    { destruct (ob_satisfied o), (ob_blocking o); simpl in *; done. }
    destruct b as [b |].
    + destruct Hb as (past & o' & -> & Hl & Hs & Hbl & Hp). exists (o :: past), o'.
      repeat split; try done. by constructor.
    + destruct Hb as [Hl Hp]. split; [simpl; by rewrite Hl | by constructor].
Qed.

Lemma tracks_dispatch_obligation obligation context :
  tracks world_evolves (_dispatch_obligation obligation context : M W _).
Proof.
  unfold _dispatch_obligation, _handle_emit_audit_event, _handle_require_owner_approval,
    _handle_reserve_budget, _handle_enforce_sandbox_profile.
  tracks_auto. all: intros ? ? [= <-]; tracks_auto.
Qed.

Lemma tracks_apply_ordered ordered context :
  tracks world_evolves (apply_ordered ordered context : M W _).
Proof.
  induction ordered as [| ob rest IH]; cbn [apply_ordered]; [by apply tracks_ret, _ |].
  apply tracks_bind; [typeclasses eauto | apply tracks_dispatch_obligation | intros o].
  destruct (_ && _); [by apply tracks_ret, _ |].
  apply tracks_bind; [typeclasses eauto | done | intros [os b]; by apply tracks_ret, _].
Qed.

Lemma tracks_apply_obligations obligations context :
  tracks world_evolves (apply_obligations obligations context : M W _).
Proof.
  apply tracks_bind; [typeclasses eauto | apply tracks_apply_ordered |].
  intros [os b]. by apply tracks_ret, _.
Qed.
End obligations.

#[export] Hint Resolve tracks_apply_obligations : tracks.

Lemma ordered_obligations_In o obligations :
  In o (ordered_obligations obligations) <-> In o obligations.
Proof.
  unfold ordered_obligations. rewrite in_app_iff, !filter_In, !mem_In, negb_true_iff.
  destruct (mem o _OBLIGATION_ORDER) eqn:Em; [apply mem_In in Em; tauto |].
  apply mem_not_In in Em. tauto.
Qed.

Lemma handler_answers_names ordered outcomes :
  Forall2 handler_answer ordered outcomes -> map ob_obligation outcomes = ordered.
Proof. induction 1 as [| ob o obs os H Hs IH]; simpl; [done |]. by rewrite IH, (proj1 H). Qed.

Lemma handler_answers_in ordered outcomes ob :
  Forall2 handler_answer ordered outcomes -> In ob ordered ->
  exists o, In o outcomes /\ handler_answer ob o.
Proof.
  induction 1 as [| ob' o obs os H Hs IH]; [done |]. intros [<- | Hin]; [exists o; by split; [left |] |].
  destruct (IH Hin) as (o' & Ho' & Ha). exists o'. by split; [right |].
Qed.

Lemma not_grantable_blocks ob o :
  handler_answer ob o -> ~ In ob grantable -> ob_satisfied o = false /\ ob_blocking o = true.
Proof.
  intros (_ & Hs & _ & Hb) Hn. assert (ob_satisfied o = false) as Hf.
  { destruct (ob_satisfied o); [by destruct Hn; apply Hs | done]. }
  split; [done |]. rewrite Hb, Hf; [done |]. intros H. apply Hn. cbn in *. tauto.
Qed.

(** * Theorems *)

(** Obligations are applied in the canonical order, each at most up to the
    first blocking failure.  The outcomes name a prefix of the ordered
    obligations; when nothing blocked all of them were applied and only the
    audit record and the sandbox profile may be unsatisfied; when something
    blocked it is the last outcome, unsatisfied.  A decision that carries an
    unknown obligation, or owner approval, is never let through: it blocks or
    the status update raises. *)
Theorem obligations_stop_at_first_block {E C : Type} `{!Oracle E} `{!AuditWriter E}
    `{!SandboxProfiles E} `{!BudgetRuntimeClient C} obligations context (w : world E C) :
  match (apply_obligations obligations context w).1 with
  | Raise _ => In "require_owner_approval" obligations
  | Ret r =>
      map ob_obligation (oa_outcomes r) =
        take (length (oa_outcomes r)) (ordered_obligations obligations) /\
      match oa_blocking_obligation r with
      | None =>
          length (oa_outcomes r) = length (ordered_obligations obligations) /\
          (forall o, In o (oa_outcomes r) -> ob_satisfied o = false ->
             In (ob_obligation o) ["emit_audit_event"; "enforce_sandbox_profile"]) /\
          (forall ob, In ob obligations -> In ob grantable)
      | Some b =>
          In b obligations /\ oa_all_satisfied r = false /\
          exists past o, oa_outcomes r = past ++ [o] /\ ob_obligation o = b /\ ob_satisfied o = false
      end
  end.
Proof.
  unfold apply_obligations, bind.
  pose proof (apply_ordered_answer (ordered_obligations obligations) context w) as H.
  destruct (apply_ordered _ context w) as [[[os b] | x] w']; cbn [fst ret];
    [| by apply ordered_obligations_In].
  destruct H as [Hf Hb]. cbn [oa_outcomes oa_blocking_obligation oa_all_satisfied].
  split; [by apply handler_answers_names |]. destruct b as [b |].
  - destruct Hb as (past & o & -> & Hl & Hs & Hbl & Hp). split; [| split].
    + apply ordered_obligations_In, list_elem_of_In. by eapply list_elem_of_lookup_2.
    + rewrite forallb_app. cbn [forallb]. by rewrite Hs, andb_false_r.
    + exists past, o. split; [done |]. split; [| done].
      rewrite length_app in Hf. cbn [length] in Hf. rewrite Nat.add_1_r in Hf.
      erewrite take_S_r in Hf by exact Hl. apply Forall2_app_inv in Hf as [_ Hf];
        [| apply lookup_lt_Some in Hl; rewrite length_take; lia].
      inversion Hf as [| ? ? ? ? Ha]; subst. apply Ha.
  - destruct Hb as [Hlen Hgood]. split; [done |]. rewrite Hlen, firstn_all in Hf.
    rewrite List.Forall_forall in Hgood. split.
    + intros o Ho Hs. apply handler_answers_names in Hf as Hn.
      assert (exists ob, handler_answer ob o) as (ob & Hname & _ & _ & Hb).
      { apply list_elem_of_In, list_elem_of_lookup_1 in Ho as [i Hi].
        destruct (Forall2_lookup_r _ _ _ _ _ Hf Hi) as (ob & _ & Ha). by exists ob. }
      subst ob. destruct (decide (In (ob_obligation o) ["emit_audit_event"; "enforce_sandbox_profile"]))
        as [Hin | Hout]; [done |]. specialize (Hb Hout). specialize (Hgood o Ho).
      by rewrite Hb, Hs in Hgood.
    + intros ob Hin. apply ordered_obligations_In in Hin.
      destruct (handler_answers_in _ _ _ Hf Hin) as (o & Ho & Ha).
      destruct (decide (In ob grantable)) as [Hg | Hg]; [done |].
      destruct (not_grantable_blocks _ _ Ha Hg) as [H1 H2]. specialize (Hgood o Ho).
      by rewrite H1, H2 in Hgood.
Qed.
