(* ===== verification/Workflow.v ===== *)
(** The task orchestration graph and the worker that drains the queue.

    Models [task_orchestrator/workflow/nodes.py], [workflow/state_models.py],
    [workflow/graph.py], [state/state_machine.py] and [drain_queued_tasks] of
    [apps/orchestrator_worker.py].

    LangGraph is the parameter [GraphRuntime]: its documented behaviour is to
    run the node at the head, merge the update it returns, follow the edge, and
    stop at ["__end__"], with a default recursion limit of 25 steps.  The
    [LoopState] object of a run is the one its nodes mutate, so it lives in the
    shared state.  Spans only observe; they are left out. *)

From S2P Require Import Prelude PyStr PyData Task Budget LoopControl Policy LlmSchemas Runtime.
From S2P Require Import Dispatch Obligations.

(** ** State *)

Record TaskState : Type := mk_TaskState {
  ts_task_id : string;
  ts_project_id : option string;
  ts_principal_role : string;
  ts_command : string;
  ts_policy_decision : option string;
  ts_policy_version : string;
  ts_policy_hash : string;
  ts_rule_ids : list string;
  ts_obligation_satisfied : bool;
  ts_blocking_obligation : option string;
  ts_dispatch_accepted : bool;
  ts_dispatch_target : option string;
  ts_dispatch_id : option string;
  ts_dispatch_error_code : option string;
  ts_llm_execution : option json;
  ts_final_state : string
}.

(** The dictionaries the nodes return, merged into a state. *)
Definition policy_update (decision version hash : string) (rules : list string) (final : string)
    (s : TaskState) : TaskState :=
  {| ts_task_id := ts_task_id s; ts_project_id := ts_project_id s;
     ts_principal_role := ts_principal_role s; ts_command := ts_command s;
     ts_policy_decision := Some decision; ts_policy_version := version; ts_policy_hash := hash;
     ts_rule_ids := rules; ts_obligation_satisfied := ts_obligation_satisfied s;
     ts_blocking_obligation := ts_blocking_obligation s;
     ts_dispatch_accepted := ts_dispatch_accepted s; ts_dispatch_target := ts_dispatch_target s;
     ts_dispatch_id := ts_dispatch_id s; ts_dispatch_error_code := ts_dispatch_error_code s;
     ts_llm_execution := ts_llm_execution s; ts_final_state := final |}.

(** [final] is [None] when the node leaves ["final_state"] out. *)
Definition obligation_update (satisfied : bool) (blocking final : option string) (s : TaskState)
    : TaskState :=
  {| ts_task_id := ts_task_id s; ts_project_id := ts_project_id s;
     ts_principal_role := ts_principal_role s; ts_command := ts_command s;
     ts_policy_decision := ts_policy_decision s; ts_policy_version := ts_policy_version s;
     ts_policy_hash := ts_policy_hash s; ts_rule_ids := ts_rule_ids s;
     ts_obligation_satisfied := satisfied; ts_blocking_obligation := blocking;
     ts_dispatch_accepted := ts_dispatch_accepted s; ts_dispatch_target := ts_dispatch_target s;
     ts_dispatch_id := ts_dispatch_id s; ts_dispatch_error_code := ts_dispatch_error_code s;
     ts_llm_execution := ts_llm_execution s;
     ts_final_state := default (ts_final_state s) final |}.

Definition dispatch_update (accepted : bool) (tgt did code : option string) (llm : option json)
    (final : string) (s : TaskState) : TaskState :=
  {| ts_task_id := ts_task_id s; ts_project_id := ts_project_id s;
     ts_principal_role := ts_principal_role s; ts_command := ts_command s;
     ts_policy_decision := ts_policy_decision s; ts_policy_version := ts_policy_version s;
     ts_policy_hash := ts_policy_hash s; ts_rule_ids := ts_rule_ids s;
     ts_obligation_satisfied := ts_obligation_satisfied s;
     ts_blocking_obligation := ts_blocking_obligation s;
     ts_dispatch_accepted := accepted; ts_dispatch_target := tgt; ts_dispatch_id := did;
     ts_dispatch_error_code := code; ts_llm_execution := llm; ts_final_state := final |}.

(** ** Routing *)

Definition _TERMINAL : list string := ["blocked"; "failed"].

Definition route_after_policy (state : TaskState) : string :=
  if mem (ts_final_state state) _TERMINAL then "__end__" else "obligation_check_node".

Definition route_after_obligation (state : TaskState) : string :=
  if negb (ts_obligation_satisfied state) then "__end__"
  else if mem (ts_final_state state) _TERMINAL then "__end__"
  else "dispatch_node".

Definition jopt (x : option string) : json := match x with Some s => JStr s | None => JNull end.

(** The ["llm_execution"] dictionary. *)
Definition llm_execution_of (meta : TaskDispatchLlmMetadata) : json :=
  JObj [("decision", JStr (lm_decision meta)); ("model_selected", JStr (lm_model_selected meta));
        ("routing_profile", JStr (lm_routing_profile meta));
        ("quota_limit_source", JStr (lm_quota_limit_source meta));
        ("usage", JObj [("input_tokens", JInt (lm_input_tokens meta));
                        ("output_tokens", JInt (lm_output_tokens meta));
                        ("total_tokens", JInt (lm_total_tokens meta));
                        ("request_units", JInt (lm_request_units meta))]);
        ("cost", JObj [("estimated_cost_usd", JFloat (lm_estimated_cost_usd meta));
                       ("actual_cost_usd", match lm_actual_cost_usd meta with
                                           | Some f => JFloat f | None => JNull end);
                       ("cost_source", JStr (lm_cost_source meta))]);
        ("budget_usage", JObj [("currency_delta_usd", JFloat (lm_currency_delta_usd meta));
                               ("quota_token_units", JInt (lm_quota_token_units meta))]);
        ("generated_text", jopt (lm_generated_text meta));
        ("recipient_role", JStr (lm_recipient_role meta));
        ("recipient_id", jopt (lm_recipient_id meta));
        ("grounding_sources", jstrs (lm_grounding_source_ids meta))].

(** ** Nodes *)

Section nodes.
Context {E C : Type} `{!Oracle E} `{!AuditWriter E} `{!MetricRecorder E} `{!SandboxProfiles E}
  `{!PolicyRuntimeClient E} `{!BudgetRuntimeClient C} `{!DispatchAdapters E C}.

Abbreviation W := (world E C).

Definition _normalize_policy_input (tid : string) : M W PolicyEvaluationInput :=
  let! task := on_tasks (get_task_by_id tid) in
  match task with
  | None => raise (RuntimeError ("task " +:+ py_repr tid +:+ " not found in runtime_state_repo"))
  | Some t => ret (normalize_policy_input t)
  end.

Definition _emit_stage_audit (t : TaskRecord) (stage decision source : string)
    (reason_code : option string) (message version hash : string) (rules : list string) : M W unit :=
  on_ext (write_event
    {| ae_event_type := stage +:+ ".decision"; ae_outcome := decision;
       ae_event_trace_id := trace_id t; ae_event_request_id := Some (request_id t);
       ae_event_task_id := Some (task_id t); ae_event_principal_id := Some (principal_id t);
       ae_event_principal_role := Some (principal_role t); ae_source := source;
       ae_reason_code := reason_code; ae_message := message;
       ae_policy_version := Some version; ae_policy_hash := Some hash; ae_rule_ids := rules;
       ae_payload := JObj [("stage", JStr stage); ("decision", JStr decision);
                           ("source", JStr source); ("reason_code", jopt reason_code)];
       ae_attributes := JObj [("policy_version", JStr version); ("policy_hash", JStr hash);
                              ("rule_ids", JStr (join "," rules))] |}).

Definition _emit_outcome_audit (t : TaskRecord) (out : string) (error_code : option string)
    (message source version hash : string) (rules : list string) (attributes : json) : M W unit :=
  modify (fun w => set_ext (increment_counter "owner_command_admission_outcomes_total"
                              [("outcome", out); ("source", source)] (w_ext w)) w) ;!
  on_ext (write_event
    {| ae_event_type := "owner_command." +:+ out; ae_outcome := out;
       ae_event_trace_id := trace_id t; ae_event_request_id := Some (request_id t);
       ae_event_task_id := Some (task_id t); ae_event_principal_id := Some (principal_id t);
       ae_event_principal_role := Some (principal_role t); ae_source := source;
       ae_reason_code := error_code; ae_message := message;
       ae_policy_version := Some version; ae_policy_hash := Some hash; ae_rule_ids := rules;
       ae_payload := JObj [("outcome", JStr out); ("source", JStr source);
                           ("error_code", jopt error_code); ("message", JStr message);
                           ("request_id", JStr (request_id t)); ("task_id", JStr (task_id t))];
       ae_attributes := attributes |}).

(** The fields a node reads off an evaluation, with their fallbacks.  A decision
    that is no text blocks the task; it is carried as its [str], which the task's
    row keeps. *)
Definition decision_of (o : PolicyFailClosedOutcome) : string :=
  match po_policy_result o with Some r => jstr (pr_decision r) | None => "error" end.
Definition version_of (o : PolicyFailClosedOutcome) : string :=
  match po_policy_result o with Some r => pr_policy_version r | None => "policy-version-unknown" end.
Definition hash_of (o : PolicyFailClosedOutcome) : string :=
  match po_policy_result o with Some r => pr_policy_hash r | None => "policy-hash-unknown" end.
Definition rules_of (o : PolicyFailClosedOutcome) : list string :=
  match po_policy_result o with Some r => pr_rule_ids r | None => [] end.
Definition reason_of (o : PolicyFailClosedOutcome) : option string :=
  match po_policy_result o with Some r => Some (pr_reason_code r) | None => po_error_code o end.

Definition policy_details (decision version hash : string) (rules : list string)
    : list (string * string) :=
  [("decision", decision); ("policy_version", version); ("policy_hash", hash);
   ("rule_ids", join "," rules)].

Definition policy_evaluation_node (state : TaskState) : M W (TaskState -> TaskState) :=
  on_loop (check_and_increment_hop default_hop_limit) ;!
  let tid := ts_task_id state in
  let! task := on_tasks (get_task_by_id tid) in
  match task with
  | None =>
      ret (policy_update "error" "policy-version-unknown" "policy-hash-unknown" [] "failed")
  | Some t =>
      let! policy_input := _normalize_policy_input tid in
      let! policy_outcome := on_ext (evaluate_with_fail_closed policy_input) in
      let decision := decision_of policy_outcome in
      let version := version_of policy_outcome in
      let hash := hash_of policy_outcome in
      let rules := rules_of policy_outcome in
      let code := opt_or (po_error_code policy_outcome) "policy_blocked" in
      _emit_stage_audit t "policy" decision "policy_runtime" (reason_of policy_outcome)
        (po_message policy_outcome) version hash rules ;!
      if negb (po_allowed policy_outcome) then
        on_tasks (update_task_status tid "blocked"
          {| o_source := Some "policy_runtime"; o_error_code := Some code;
             o_message := Some (po_message policy_outcome);
             o_details := Some (policy_details decision version hash rules ++
                                [("source", "policy_evaluation_node")]);
             o_target := None; o_dispatch := None |}) ;!
        _emit_outcome_audit t "denied" (Some code) (po_message policy_outcome) "policy_runtime"
          version hash rules
          (JObj (map (fun p => (p.1, JStr p.2)) (policy_details decision version hash rules))) ;!
        ret (policy_update decision version hash rules "blocked")
      else
        on_tasks (update_task_status tid "authorized"
          {| o_source := Some "policy_runtime"; o_error_code := None;
             o_message := Some "policy authorized command";
             o_details := Some (policy_details decision version hash rules);
             o_target := None; o_dispatch := None |}) ;!
        ret (policy_update decision version hash rules "authorized")
  end.

Definition obligation_context (t : TaskRecord) (tid version hash : string) (rules : list string)
    : ObligationContext :=
  {| oc_trace_id := trace_id t; oc_task_id := tid; oc_request_id := request_id t;
     oc_principal_id := principal_id t; oc_principal_role := principal_role t;
     oc_action := command t; oc_target := target t; oc_project_id := project_id t;
     oc_policy_version := version; oc_policy_hash := hash; oc_rule_ids := rules;
     oc_task_record := t |}.

Definition obligation_check_node (state : TaskState) : M W (TaskState -> TaskState) :=
  on_loop (check_and_increment_hop default_hop_limit) ;!
  let tid := ts_task_id state in
  let! task := on_tasks (get_task_by_id tid) in
  match task with
  | None => ret (obligation_update false (Some "task_not_found") (Some "failed"))
  | Some t =>
      let decision := opt_or (ts_policy_decision state) "allow" in
      let version := ts_policy_version state in
      let hash := ts_policy_hash state in
      let rules := ts_rule_ids state in
      if negb (String.eqb decision "allow_with_obligations") then
        ret (obligation_update true None None)
      else
        let! policy_input := _normalize_policy_input tid in
        let! policy_outcome := on_ext (evaluate_with_fail_closed policy_input) in
        match po_policy_result policy_outcome with
        | None => ret (obligation_update false (Some "policy_result_missing") (Some "blocked"))
        | Some result =>
            let! obligation_result :=
              apply_obligations (pr_obligations result) (obligation_context t tid version hash rules) in
            match oa_blocking_obligation obligation_result with
            | Some b =>
                if negb (oa_all_satisfied obligation_result) && truthy b then
                  on_tasks (update_task_status tid "blocked"
                    {| o_source := Some "obligation_dispatcher"; o_error_code := Some b;
                       o_message := Some ("obligation '" +:+ b +:+ "' blocked task");
                       o_details := Some [("blocking_obligation", b); ("policy_version", version);
                                          ("policy_hash", hash); ("rule_ids", join "," rules)];
                       o_target := None; o_dispatch := None |}) ;!
                  ret (obligation_update false (Some b) (Some "blocked"))
                else ret (obligation_update true None None)
            | None => ret (obligation_update true None None)
            end
        end
  end.

Definition dispatch_node (state : TaskState) : M W (TaskState -> TaskState) :=
  on_loop (check_and_increment_hop default_hop_limit) ;!
  let tid := ts_task_id state in
  let! task := on_tasks (get_task_by_id tid) in
  match task with
  | None => ret (dispatch_update false None None (Some "task_not_found") None "failed")
  | Some t =>
      let version := ts_policy_version state in
      let hash := ts_policy_hash state in
      let rules := ts_rule_ids state in
      let! o := dispatch_admitted_task t version hash rules true in
      let llm := llm_execution_of <$> do_llm_metadata o in
      if negb (do_accepted o) then
        _emit_outcome_audit t "denied"
          (Some (opt_or (do_error_code o) "execution_dispatch_failed")) (do_message o) (do_source o)
          version hash rules (JObj [("dispatch_target", JStr (do_target o))]) ;!
        ret (dispatch_update false (Some (do_target o)) (do_dispatch_id o) (do_error_code o) llm "blocked")
      else
        _emit_outcome_audit t "accepted" None (do_message o) ("dispatch_" +:+ do_target o)
          version hash rules
          (JObj [("dispatch_target", JStr (do_target o));
                 ("dispatch_id", JStr (opt_or (do_dispatch_id o) "dispatch-id-missing"));
                 ("replayed", JStr (str_bool_lower (do_replayed o)))]) ;!
        ret (dispatch_update true (Some (do_target o))
               (Some (opt_or (do_dispatch_id o) ("dispatch-" +:+ tid))) None llm "dispatched")
  end.

(** ** The graph *)

Record StateGraph : Type := mk_StateGraph {
  g_entry : string;
  g_node : string -> option (TaskState -> M W (TaskState -> TaskState));
  g_edge : string -> TaskState -> string
}.

Definition build_task_graph : StateGraph :=
  {| g_entry := "policy_evaluation_node";
     g_node n :=
       if String.eqb n "policy_evaluation_node" then Some policy_evaluation_node
       else if String.eqb n "obligation_check_node" then Some obligation_check_node
       else if String.eqb n "dispatch_node" then Some dispatch_node
       else None;
     g_edge n :=
       if String.eqb n "policy_evaluation_node" then route_after_policy
       else if String.eqb n "obligation_check_node" then route_after_obligation
       else fun _ => "__end__" |}.

(** The documented execution of a compiled graph, [fuel] steps at most. *)
Fixpoint graph_loop (fuel : nat) (g : StateGraph) (n : string) (s : TaskState) : M W TaskState :=
  if String.eqb n "__end__" then ret s
  else match fuel, g_node g n with
       | S fuel', Some node =>
           let! update := node s in
           let s' := update s in
           graph_loop fuel' g (g_edge g n s') s'
       | O, Some _ => raise (OtherError "GraphRecursionError")
       | _, None => raise (ValueError "unknown node")
       end.

Class GraphRuntime : Type := {
  invoke : StateGraph -> TaskState -> M W TaskState;
  invoke_loop : forall g s w, invoke g s w = graph_loop 25 g (g_entry g) s w
}.

#[export] Instance langgraph : GraphRuntime := { invoke_loop := fun g s w => eq_refl }.

(** ** The worker *)

Context `{!GraphRuntime}.

Definition initial_state (task : TaskRecord) : TaskState :=
  {| ts_task_id := task_id task; ts_project_id := project_id task;
     ts_principal_role := principal_role task; ts_command := command task;
     ts_policy_decision := None; ts_policy_version := ""; ts_policy_hash := "";
     ts_rule_ids := []; ts_obligation_satisfied := false; ts_blocking_obligation := None;
     ts_dispatch_accepted := false; ts_dispatch_target := None; ts_dispatch_id := None;
     ts_dispatch_error_code := None; ts_llm_execution := None; ts_final_state := "queued" |}.

(** [{"cap_type": .., "count": .., "limit": .., "pair": ..}]. *)
Definition breach_payload (cap : string) (count limit : Z) (pair : option (string * string)) : json :=
  JObj [("cap_type", JStr cap); ("count", JInt count); ("limit", JInt limit);
        ("pair", match pair with Some (a, b) => jstrs [a; b] | None => JNull end)].

(** The details column keeps the same dictionary with its values as text. *)
Definition breach_details (cap : string) (count limit : Z) (pair : option (string * string))
    : list (string * string) :=
  [("cap_type", cap); ("count", str_int count); ("limit", str_int limit);
   ("pair", match pair with
            | Some (a, b) => "[" +:+ py_repr a +:+ ", " +:+ py_repr b +:+ "]"
            | None => "None"
            end)].

Definition on_loop_cap_breach (task : TaskRecord) (cap : string) (count limit : Z)
    (pair : option (string * string)) : M W unit :=
  let message := exn_str (LoopCapBreachError cap count limit pair) in
  on_tasks (update_task_status (task_id task) "blocked"
    {| o_source := Some "loop_control"; o_error_code := Some "loop_cap_breach";
       o_message := Some message; o_details := Some (breach_details cap count limit pair);
       o_target := None; o_dispatch := None |}) ;!
  on_ext (write_event
    {| ae_event_type := "loop_cap.breach"; ae_outcome := "blocked";
       ae_event_trace_id := trace_id task; ae_event_request_id := Some (request_id task);
       ae_event_task_id := Some (task_id task); ae_event_principal_id := Some (principal_id task);
       ae_event_principal_role := Some (principal_role task); ae_source := "loop_control";
       ae_reason_code := Some "loop_cap_breach"; ae_message := message;
       ae_policy_version := None; ae_policy_hash := None; ae_rule_ids := [];
       ae_payload := breach_payload cap count limit pair; ae_attributes := JNull |}) ;!
  modify (fun w => set_ext (increment_counter "loop_cap_breach_total" [("cap_type", cap)] (w_ext w)) w).

Definition on_task_error (task : TaskRecord) : M W unit :=
  on_tasks (update_task_status (task_id task) "failed"
    {| o_source := Some "orchestrator_worker"; o_error_code := Some "worker_unhandled_exception";
       o_message := Some "unhandled exception during task graph invocation";
       o_details := None; o_target := None; o_dispatch := None |}) ;! ret tt.

(** One iteration of the loop, with a fresh [LoopState]. *)
Definition process_task (task : TaskRecord) : M W unit :=
  modify (set_loop fresh_LoopState) ;!
  try (invoke build_task_graph (initial_state task) ;! ret tt)
      (fun exc => match exc with
                  | LoopCapBreachError cap count limit agents =>
                      Some (on_loop_cap_breach task cap count limit agents)
                  | _ => Some (on_task_error task)
                  end).

Fixpoint process_tasks (queued : list TaskRecord) : M W unit :=
  match queued with
  | [] => ret tt
  | task :: rest => process_task task ;! process_tasks rest
  end.

Definition drain_queued_tasks : M W Z :=
  let! tasks := on_tasks list_tasks in
  let queued := List.filter (fun t => String.eqb (status t) "queued") tasks in
  process_tasks queued ;!
  ret (Z.of_nat (length queued)).
End nodes.
Arguments StateGraph : clear implicits.
Arguments GraphRuntime : clear implicits.

(** * Lemmas *)

(** A relation every computation of the runtime respects, if each basic step does. *)
Lemma tracks_metric {E C} `{!MetricRecorder E} name labels :
  tracks world_evolves
    (modify (fun w : world E C => set_ext (increment_counter name labels (w_ext w)) w)).
Proof. intros w. unfold world_evolves. by simpl. Qed.
#[export] Hint Resolve tracks_metric : tracks.

Section evolution.
Context {E C : Type} `{!Oracle E} `{!AuditWriter E} `{!MetricRecorder E} `{!SandboxProfiles E}
  `{!PolicyRuntimeClient E} `{!BudgetRuntimeClient C} `{!DispatchAdapters E C}.

Abbreviation W := (world E C).

Lemma tracks_normalize tid : tracks world_evolves (_normalize_policy_input tid : M W _).
Proof. unfold _normalize_policy_input. tracks_auto. Qed.
Lemma tracks_stage_audit t a b c d e f g h : tracks world_evolves (_emit_stage_audit t a b c d e f g h : M W _).
Proof. unfold _emit_stage_audit. tracks_auto. Qed.
Lemma tracks_outcome_audit t a b c d e f g h : tracks world_evolves (_emit_outcome_audit t a b c d e f g h : M W _).
Proof. unfold _emit_outcome_audit. tracks_auto. Qed.
#[local] Hint Resolve tracks_normalize tracks_stage_audit tracks_outcome_audit : tracks.

Lemma tracks_policy_node s : tracks world_evolves (policy_evaluation_node s : M W _).
Proof. unfold policy_evaluation_node. tracks_auto. Qed.
Lemma tracks_obligation_node s : tracks world_evolves (obligation_check_node s : M W _).
Proof. unfold obligation_check_node. tracks_auto. Qed.
Lemma tracks_dispatch_node s : tracks world_evolves (dispatch_node s : M W _).
Proof. unfold dispatch_node. tracks_auto. Qed.
#[local] Hint Resolve tracks_policy_node tracks_obligation_node tracks_dispatch_node : tracks.

Lemma tracks_graph_loop fuel n s : tracks world_evolves (graph_loop fuel build_task_graph n s : M W _).
Proof.
  revert n s. induction fuel as [| fuel IH]; intros n s; cbn [graph_loop build_task_graph g_node g_edge].
  - tracks_auto.
  - repeat case_match; simplify_eq; tracks_auto; apply IH.
Qed.

Context `{!GraphRuntime E C}.

Lemma tracks_invoke s : tracks world_evolves (invoke build_task_graph s : M W _).
Proof. intros w. rewrite invoke_loop. apply tracks_graph_loop. Qed.
#[local] Hint Resolve tracks_invoke : tracks.

Lemma tracks_process_task task : tracks world_evolves (process_task task : M W _).
Proof.
  unfold process_task. apply tracks_bind; [typeclasses eauto | | intros _].
  { intros w. unfold world_evolves. by simpl. }
  apply tracks_try; [typeclasses eauto | tracks_auto |].
  intros e k He. unfold on_loop_cap_breach, on_task_error in He.
  destruct e; injection He as <-; tracks_auto.
Qed.

Lemma tracks_process_tasks ts : tracks world_evolves (process_tasks ts : M W _).
Proof.
  induction ts as [| t ts IH]; cbn [process_tasks]; [by apply tracks_ret, _ |].
  apply tracks_bind; [typeclasses eauto | apply tracks_process_task | done].
Qed.
End evolution.

#[export] Hint Resolve tracks_normalize tracks_stage_audit tracks_outcome_audit tracks_policy_node
  tracks_obligation_node tracks_dispatch_node tracks_invoke tracks_process_task
  tracks_process_tasks : tracks.
