(* ===== verification/WorkflowFacts.v ===== *)
(** What the orchestration graph and the worker guarantee.

    Stepping lemmas for the nodes of [Workflow], the graph as straight-line
    code, and the theorems: the policy gate, the obligations gate under the
    shipped bundle, the second policy evaluation, and the worker's progress. *)

From S2P Require Import Prelude PyStr PyData Task Budget LoopControl Policy LlmSchemas Runtime.
From S2P Require Import Dispatch Obligations Workflow.

(** ** Stepping through a node *)

Section steps.
Context {E C : Type}.
Abbreviation W := (world E C).

Lemma set_tasks_id (w : W) : set_tasks (w_tasks w) w = w.
Proof. by destruct w. Qed.

Lemma post_hop_bind {B} (k : unit -> M W B) w Q X :
  (forall l, X (LoopCapBreachError "hop_count" (hop_count l) default_hop_limit None) (set_loop l w)) ->
  (forall l, post (k tt) (set_loop l w) Q X) ->
  post (bind (on_loop (check_and_increment_hop default_hop_limit)) k) w Q X.
Proof.
  intros HX Hk. apply post_bind. unfold post, on_loop, zoom.
  unfold check_and_increment_hop, bind, modify, get, ret, raise.
  set (l := mk_LoopState _ _). destruct (_ <? _)%Z; [apply HX | apply Hk].
Qed.

Lemma post_get_bind {B} tid r (k : option TaskRecord -> M W B) w Q X :
  w_tasks w !! tid = Some r -> post (k (Some (_task_from_row r))) w Q X ->
  post (bind (on_tasks (get_task_by_id tid)) k) w Q X.
Proof.
  intros Hr Hk. apply post_bind. unfold post, on_tasks, zoom, get_task_by_id, gets.
  rewrite Hr, set_tasks_id. exact Hk.
Qed.

Lemma post_normalize_bind {B} tid r (k : PolicyEvaluationInput -> M W B) w Q X :
  w_tasks w !! tid = Some r -> post (k (normalize_policy_input (_task_from_row r))) w Q X ->
  post (bind (_normalize_policy_input tid) k) w Q X.
Proof.
  intros Hr Hk. apply post_bind. unfold _normalize_policy_input.
  eapply post_get_bind; [exact Hr |]. by apply post_ret.
Qed.

(** A call of the outside world: nothing else changes. *)
Lemma post_ext_bind {A B} (m : M E A) (k : A -> M W B) w Q X :
  (forall x e, m (w_ext w) = (Raise x, e) -> X x (set_ext e w)) ->
  (forall a e, m (w_ext w) = (Ret a, e) -> post (k a) (set_ext e w) Q X) ->
  post (bind (on_ext m) k) w Q X.
Proof.
  intros HX Hk. apply post_bind. unfold post, on_ext, zoom.
  destruct (m (w_ext w)) as [[a | x] e]; [by apply Hk | by apply HX].
Qed.

Lemma post_metric_bind {B} `{!MetricRecorder E} name labels (k : unit -> M W B) w Q X :
  (forall e, post (k tt) (set_ext e w) Q X) ->
  post (bind (modify (fun w : W => set_ext (increment_counter name labels (w_ext w)) w)) k) w Q X.
Proof. intros Hk. apply post_bind, post_modify, Hk. Qed.

Lemma post_row_update_bind {B} tid r new o (k : option TaskRecord -> M W B) w Q X :
  w_tasks w !! tid = Some r -> legal_step (status r) new ->
  post (k (Some (_task_from_row (apply_update new o r))))
    (set_tasks (<[tid := apply_update new o r]> (w_tasks w)) w) Q X ->
  post (bind (on_tasks (update_task_status tid new o)) k) w Q X.
Proof.
  intros Hr Hl Hk. apply post_bind. unfold post, on_tasks, zoom.
  rewrite update_task_status_spec, Hr. apply legal_step_bool in Hl. by rewrite Hl, orb_true_r.
Qed.
End steps.

Ltac legal := vm_compute; tauto.

Section nodes_post.
Context {E C : Type} `{!Oracle E} `{!AuditWriter E} `{!MetricRecorder E} `{!SandboxProfiles E}
  `{!PolicyRuntimeClient E} `{!BudgetRuntimeClient C} `{!DispatchAdapters E C}.
Abbreviation W := (world E C).

(** The outcome audit is a metric and one call of the outside world. *)
Lemma post_outcome_audit_bind {B} t a b c d e f g h (k : unit -> M W B) w Q X :
  (forall x e, X x (set_ext e w)) -> (forall e, post (k tt) (set_ext e w) Q X) ->
  post (bind (_emit_outcome_audit t a b c d e f g h) k) w Q X.
Proof.
  intros HX Hk. apply post_bind. unfold _emit_outcome_audit.
  apply post_metric_bind. intros e1. unfold post, on_ext, zoom.
  destruct (write_event _ _) as [[[] | x] e2]; [apply Hk | apply HX].
Qed.

(** The policy node on a queued task. *)
Lemma policy_node_post s (w : W) r :
  w_tasks w !! ts_task_id s = Some r -> status r = "queued" ->
  post (policy_evaluation_node s) w
    (fun upd w' => exists o e',
       evaluate_with_fail_closed (normalize_policy_input (_task_from_row r)) (w_ext w) = (Ret o, e') /\
       w_budget w' = w_budget w /\ w_dispatch w' = w_dispatch w /\
       if po_allowed o then
         upd = policy_update (decision_of o) (version_of o) (hash_of o) (rules_of o) "authorized" /\
         exists out, w_tasks w' !! ts_task_id s = Some (apply_update "authorized" out r)
       else
         upd = policy_update (decision_of o) (version_of o) (hash_of o) (rules_of o) "blocked" /\
         has_status (ts_task_id s) ["blocked"] w')
    (fun _ w' => has_status (ts_task_id s) ["queued"; "blocked"] w').
Proof.
  intros Hr Hq. assert (forall w' : W, w_tasks w' = w_tasks w -> has_status (ts_task_id s) ["queued"; "blocked"] w') as HX.
  { intros w' Ht. exists r. rewrite Ht. split; [done | by left]. }
  unfold policy_evaluation_node. apply post_hop_bind; [by intros; apply HX |]. intros l. cbv zeta.
  eapply post_get_bind; [exact Hr |]. eapply post_normalize_bind; [exact Hr |].
  apply post_ext_bind; cbn [w_ext set_loop]; [by intros; apply HX |]. intros o e1 Eo.
  apply post_ext_bind; [by intros; apply HX |]. intros _ e2 _.
  destruct (po_allowed o) eqn:Ea; cbn [negb].
  - eapply post_row_update_bind; [exact Hr | rewrite Hq; legal |]. apply post_ret.
    exists o, e1. rewrite Ea. split_and!; try done. eexists. cbn [w_tasks set_tasks]. by rewrite lookup_insert_eq.
  - eapply post_row_update_bind; [exact Hr | rewrite Hq; legal |].
    apply post_outcome_audit_bind.
    { intros x e. eexists. cbn [w_tasks set_ext set_tasks]. rewrite lookup_insert_eq.
      split; [done | by right; left]. }
    intros e. apply post_ret. exists o, e1. rewrite Ea. split_and!; try done.
    eexists. cbn [w_tasks set_ext set_tasks]. rewrite lookup_insert_eq. split; [done | by left].
Qed.
End nodes_post.

(** ** The graph as straight-line code *)

Section graph.
Context {E C : Type} `{!Oracle E} `{!AuditWriter E} `{!MetricRecorder E} `{!SandboxProfiles E}
  `{!PolicyRuntimeClient E} `{!BudgetRuntimeClient C} `{!DispatchAdapters E C} `{!GraphRuntime E C}.
Abbreviation W := (world E C).

Definition goes_on (route : string) : bool := negb (String.eqb route "__end__").

Lemma graph_loop_node fuel (g : StateGraph E C) n node s w :
  String.eqb n "__end__" = false -> g_node g n = Some node ->
  graph_loop (S fuel) g n s w =
  (let! update := node s in
   let s' := update s in graph_loop fuel g (g_edge g n s') s') w.
Proof. intros Hn Hg. cbn [graph_loop]. by rewrite Hn, Hg. Qed.

Lemma invoke_straight s (w : W) :
  invoke build_task_graph s w =
  (let! u1 := policy_evaluation_node s in
   let s1 := u1 s in
   if goes_on (route_after_policy s1) then
     let! u2 := obligation_check_node s1 in
     let s2 := u2 s1 in
     if goes_on (route_after_obligation s2) then
       let! u3 := dispatch_node s2 in ret (u3 s2)
     else ret s2
   else ret s1) w.
Proof.
  rewrite invoke_loop. cbn [build_task_graph g_entry].
  rewrite (graph_loop_node 24 _ "policy_evaluation_node" policy_evaluation_node) by done.
  unfold bind, goes_on.
  destruct (policy_evaluation_node s w) as [[u1 | x] w1]; [| done]. cbv zeta.
  change (g_edge build_task_graph "policy_evaluation_node") with route_after_policy.
  unfold route_after_policy. destruct (mem (ts_final_state (u1 s)) _TERMINAL); [done |].
  change (negb (String.eqb "obligation_check_node" "__end__")) with true. cbv iota.
  rewrite (graph_loop_node 23 _ "obligation_check_node" obligation_check_node) by done.
  unfold bind.
  destruct (obligation_check_node (u1 s) w1) as [[u2 | x] w2]; [| done]. cbv zeta.
  change (g_edge build_task_graph "obligation_check_node") with route_after_obligation.
  unfold route_after_obligation. destruct (negb (ts_obligation_satisfied _)); [done |].
  destruct (mem _ _TERMINAL); [done |].
  change (negb (String.eqb "dispatch_node" "__end__")) with true. cbv iota.
  rewrite (graph_loop_node 22 _ "dispatch_node" dispatch_node) by done.
  unfold bind. by destruct (dispatch_node _ w2) as [[u3 | x] w3].
Qed.
End graph.

(** ** The worker's handlers *)

Section worker.
Context {E C : Type} `{!Oracle E} `{!AuditWriter E} `{!MetricRecorder E} `{!SandboxProfiles E}
  `{!PolicyRuntimeClient E} `{!BudgetRuntimeClient C} `{!DispatchAdapters E C} `{!GraphRuntime E C}.
Abbreviation W := (world E C).

(** An update that parks a task never leaves it dispatched. *)
Lemma park_not_dispatched {A} tid new o (k : M W A) w :
  In new ["blocked"; "failed"] -> tracks same_books k ->
  ~ has_status tid ["dispatched"] (bind (on_tasks (update_task_status tid new o)) (fun _ => k) w).2.
Proof.
  intros Hnew Hk. unfold bind, on_tasks, zoom. rewrite update_task_status_spec.
  destruct (w_tasks w !! tid) as [r |] eqn:Hr.
  2: { specialize (Hk (set_tasks (w_tasks w) w)). rewrite set_tasks_id in *.
       intros (r & Hr' & _). rewrite (proj1 Hk), Hr in Hr'. done. }
  destruct (String.eqb (status r) new || mem new (LEGAL_TRANSITIONS (status r))) eqn:Hl; cbn [snd].
  - specialize (Hk (set_tasks (<[tid := apply_update new o r]> (w_tasks w)) w)).
    intros (r' & Hr' & [Hs | []]). rewrite (proj1 Hk) in Hr'. cbn [w_tasks set_tasks] in Hr'.
    rewrite lookup_insert_eq in Hr'. injection Hr' as <-. cbn [apply_update status] in Hs. subst new.
    by destruct Hnew as [? | [? | []]].
  - rewrite set_tasks_id. intros (r' & Hr' & [Hs | []]). rewrite Hr in Hr'. injection Hr' as <-.
    rewrite <- Hs in Hl. by destruct Hnew as [<- | [<- | []]].
Qed.

Lemma books_metric name labels :
  tracks same_books (modify (fun w : W => set_ext (increment_counter name labels (w_ext w)) w)).
Proof. done. Qed.

(** A task the worker leaves dispatched went through the graph without an exception. *)
Lemma process_task_dispatched task (w : W) o w' :
  process_task task w = (o, w') -> has_status (task_id task) ["dispatched"] w' ->
  exists s, invoke build_task_graph (initial_state task) (set_loop fresh_LoopState w) = (Ret s, w').
Proof.
  unfold process_task, try. unfold bind at 1. unfold modify.
  unfold bind at 1. destruct (invoke _ _ _) as [[s | x] w1] eqn:Ei; cbn [ret].
  { intros [= <- <-] _. by exists s. }
  intros Hp Hs. exfalso.
  assert (forall k, (k = on_task_error task \/
            exists a b c d, k = on_loop_cap_breach task a b c d) ->
          ~ has_status (task_id task) ["dispatched"] (k w1).2) as Hk.
  { intros k [-> | (a & b & c & d & ->)]; apply park_not_dispatched; try (cbn; tauto).
    - by apply tracks_ret, _.
    - apply tracks_bind; [typeclasses eauto | apply books_on_ext | intros ?; apply books_metric]. }
  assert (exists k, k w1 = (o, w') /\ (k = on_task_error task \/
            exists a b c d, k = on_loop_cap_breach task a b c d)) as (k & Ek & Hor).
  { destruct x; eexists; (split; [exact Hp |]); first [by left | right; by eauto]. }
  apply (Hk k Hor). by rewrite Ek.
Qed.
End worker.

(** ** The gates *)

Section gate.
Context {E C : Type} `{!Oracle E} `{!AuditWriter E} `{!MetricRecorder E} `{!SandboxProfiles E}
  `{!PolicyRuntimeClient E} `{!BudgetRuntimeClient C} `{!DispatchAdapters E C} `{!GraphRuntime E C}.
Abbreviation W := (world E C).

Lemma has_status_disjoint tid sts sts' (w : W) :
  has_status tid sts w -> has_status tid sts' w -> exists s, In s sts /\ In s sts'.
Proof. intros (r & Hr & H1) (r' & Hr' & H2). rewrite Hr in Hr'. injection Hr' as <-. eauto. Qed.

Lemma not_dispatched tid sts (w : W) :
  has_status tid sts w -> ~ In "dispatched" sts -> ~ has_status tid ["dispatched"] w.
Proof.
  intros H Hn H'. destruct (has_status_disjoint _ _ _ _ H H') as (s & Hs & [<- | []]). done.
Qed.

(** A queued task the graph dispatched was allowed by the policy node, and the
    run went on from there. *)
Lemma invoke_dispatched task r (w : W) s w' :
  w_tasks w !! task_id task = Some r -> status r = "queued" ->
  invoke build_task_graph (initial_state task) w = (Ret s, w') ->
  has_status (task_id task) ["dispatched"] w' ->
  exists o e' w1 s1 out,
    evaluate_with_fail_closed (normalize_policy_input (_task_from_row r)) (w_ext w) = (Ret o, e') /\
    po_allowed o = true /\
    s1 = policy_update (decision_of o) (version_of o) (hash_of o) (rules_of o) "authorized"
           (initial_state task) /\
    w_tasks w1 !! task_id task = Some (apply_update "authorized" out r) /\
    w_budget w1 = w_budget w /\ w_dispatch w1 = w_dispatch w /\
    (let! u2 := obligation_check_node s1 in
     let s2 := u2 s1 in
     if goes_on (route_after_obligation s2) then let! u3 := dispatch_node s2 in ret (u3 s2)
     else ret s2) w1 = (Ret s, w').
Proof.
  intros Hr Hq Hi Hs. rewrite invoke_straight in Hi. unfold bind at 1 in Hi.
  pose proof (policy_node_post (initial_state task) w r Hr Hq) as Hp. unfold post in Hp.
  destruct (policy_evaluation_node (initial_state task) w) as [[u1 | x] w1]; [| done].
  destruct Hp as (o & e' & Ho & Hb & Hd & H). destruct (po_allowed o) eqn:Ea.
  - destruct H as (-> & out & Hrow). exists o, e', w1. eexists _, out. split_and!; [done | done | reflexivity | done | done | done |]. exact Hi.
  - destruct H as (-> & Hblocked). cbv zeta in Hi.
    unfold route_after_policy in Hi. cbn [policy_update ts_final_state] in Hi.
    change (goes_on _) with false in Hi at 1. cbv iota in Hi. injection Hi as <- <-.
    exfalso. eapply not_dispatched; [exact Hblocked | | exact Hs]. by intros [? | []].
Qed.
End gate.

(** ** The obligations of the bundle *)

(** A reservation for [tid] the budget service allowed. *)
Definition budget_reserved {E C} (tid : string) (w : world E C) : Prop :=
  exists o, brs_task_outcomes (w_budget w) !! tid = Some o /\ bo_allowed o = true.

Section bundle.
Context {E C : Type} `{!Oracle E} `{!AuditWriter E} `{!SandboxProfiles E} `{!BudgetRuntimeClient C}.
Abbreviation W := (world E C).

Lemma reserve_remembers uuid now task (s : BudgetReservationService C) :
  exists o s', reserve_with_fail_closed uuid now task s = (Ret o, s') /\
    brs_task_outcomes s' !! task_id task = Some o.
Proof.
  destruct (brs_task_outcomes s !! task_id task) as [o |] eqn:Eo.
  - exists o, s. by rewrite (reserve_replayed _ _ _ _ o Eo).
  - destruct (reserve_fresh uuid now task s Eo) as (o & c & -> & _). exists o. eexists.
    split; [reflexivity |]. cbn [brs_task_outcomes]. by rewrite lookup_insert_eq.
Qed.

(** Applying the bundle's two obligations answers, leaves the books alone, and
    either blocks on the budget or has the reservation recorded. *)
Lemma bundle_obligations context (w : W) :
  exists r w', apply_obligations ["emit_audit_event"; "reserve_budget"] context w = (Ret r, w') /\
    same_books w w' /\
    match oa_blocking_obligation r with
    | Some b => b = "reserve_budget" /\ oa_all_satisfied r = false
    | None => budget_reserved (task_id (oc_task_record context)) w'
    end.
Proof.
  unfold apply_obligations. change (ordered_obligations _) with ["emit_audit_event"; "reserve_budget"].
  unfold apply_ordered. unfold bind at 1 2.
  unfold _dispatch_obligation at 1. cbn [String.eqb Ascii.eqb Bool.eqb].
  destruct (_handle_emit_audit_event context w) as [[o1 | x1] w1] eqn:E1.
  2: { unfold _handle_emit_audit_event, try, bind, ret, on_ext, zoom in E1.
       by destruct (write_event _ _) as [[] ?]. }
  assert (same_books w w1 /\ negb (ob_satisfied o1) && ob_blocking o1 = false) as [Hb1 Hg1].
  { unfold _handle_emit_audit_event, try, bind, ret, on_ext, zoom in E1.
    destruct (write_event _ _) as [[] e1]; injection E1 as <- <-; done. }
  rewrite Hg1. unfold bind at 1 2. unfold _dispatch_obligation. cbn [String.eqb Ascii.eqb Bool.eqb].
  unfold _handle_reserve_budget, try, bind, draw, on_budget, zoom.
  destruct (uuid4 (w_ext w1)) as [u e2]. cbn [w_ext set_ext]. destruct (utcnow e2) as [n e3].
  cbn [w_budget set_ext].
  destruct (reserve_remembers u n (oc_task_record context) (w_budget w1)) as (o & s' & -> & Hrec).
  cbv beta iota. unfold ret. cbv beta iota.
  destruct (bo_allowed o) eqn:Ea; cbn [negb ob_satisfied ob_blocking andb];
    (eexists _, _; split; [reflexivity |]; split; [destruct Hb1 as [H1 H2]; by split |]);
    cbn [oa_blocking_obligation oa_all_satisfied forallb ob_satisfied].
  - by exists o.
  - split; [done |]. by rewrite andb_false_r.
Qed.
End bundle.

Section bundle_run.
Context {E C : Type} `{!Oracle E} `{!AuditWriter E} `{!MetricRecorder E} `{!SandboxProfiles E}
  `{!BudgetRuntimeClient C} `{!DispatchAdapters E C}.
Abbreviation W := (world E C).

(** Budget outcomes are remembered by the obligation handler only. *)
Definition same_reservations (w w' : W) : Prop :=
  brs_task_outcomes (w_budget w') = brs_task_outcomes (w_budget w).

#[local] Instance same_reservations_preorder : PreOrder same_reservations.
Proof. split; [done |]. intros a b c H1 H2. unfold same_reservations. congruence. Qed.

Lemma reservations_on_ext {A} (m : M E A) : tracks same_reservations (on_ext m).
Proof. intros w. unfold same_reservations, on_ext, zoom. by destruct (m _). Qed.
Lemma reservations_on_tasks {A} (m : M task_table A) : tracks same_reservations (on_tasks m).
Proof. intros w. unfold same_reservations, on_tasks, zoom. by destruct (m _). Qed.
Lemma reservations_on_loop {A} (m : M LoopState A) : tracks same_reservations (on_loop m).
Proof. intros w. unfold same_reservations, on_loop, zoom. by destruct (m _). Qed.
Lemma reservations_on_ext_client {A} (m : M (E * C) A) : tracks same_reservations (on_ext_client m).
Proof. intros w. unfold same_reservations, on_ext_client, zoom. by destruct (m _). Qed.
Lemma reservations_draw {A} (f : E -> A * E) : tracks same_reservations (draw f).
Proof. intros w. unfold same_reservations, draw. by destruct (f _). Qed.
Lemma reservations_modify (f : W -> W) :
  (forall w, w_budget (f w) = w_budget w) -> tracks same_reservations (modify f).
Proof. intros H w. unfold same_reservations. cbn. by rewrite H. Qed.

#[local] Hint Resolve reservations_on_ext reservations_on_tasks reservations_on_loop
  reservations_on_ext_client reservations_draw : tracks.
#[local] Hint Extern 2 (tracks same_reservations (modify _)) => apply reservations_modify; done : tracks.

Lemma reservations_dispatch_node s : tracks same_reservations (dispatch_node s : M W _).
Proof.
  unfold dispatch_node, dispatch_admitted_task, dispatch_sandbox, dispatch_llm,
    dispatch_communication, dispatch_specialist, dispatch_unknown, adapter_failed, attempt,
    remember_outcome, dispatch_id_or, _emit_outcome_audit.
  tracks_auto. all: intros e k He; try destruct e; simplify_eq; tracks_auto.
Qed.

#[local] Existing Instance bundle_client.

Lemma obligation_node_bundle_post s (w : W) row :
  w_tasks w !! ts_task_id s = Some row -> status row = "authorized" ->
  ts_policy_decision s = Some "allow_with_obligations" ->
  pr_obligations (decide_rule (normalize_policy_input (_task_from_row row))) =
    ["emit_audit_event"; "reserve_budget"] ->
  post (obligation_check_node s) w
    (fun upd w' =>
       upd = obligation_update true None None /\ budget_reserved (task_id row) w' \/
       upd = obligation_update false (Some "reserve_budget") (Some "blocked") /\
       has_status (ts_task_id s) ["blocked"] w')
    (fun _ _ => True).
Proof.
  intros Hr Ha Hd Hob. unfold obligation_check_node. apply post_hop_bind; [done |]. intros l. cbv zeta.
  eapply post_get_bind; [exact Hr |]. rewrite Hd.
  change (String.eqb (opt_or (Some "allow_with_obligations") "allow") _) with true.
  change (negb true) with false. cbv iota.
  eapply post_normalize_bind; [exact Hr |].
  apply post_ext_bind; rewrite fail_closed_step; cbn [evaluate bundle_client ret]; [done |].
  intros o e [= Ho <-]. rewrite (outcome_of_decision_result _ _ Ho), Hob.
  apply post_bind. unfold post at 1.
  match goal with |- context [apply_obligations _ ?c ?w0] =>
    destruct (bundle_obligations c w0) as (r & w1 & -> & Hb & Hres)
  end.
  destruct (oa_blocking_obligation r) as [b |]; [| by left].
  destruct Hres as [-> ->]. change (negb false && truthy "reserve_budget") with true. cbv iota.
  eapply post_row_update_bind; [rewrite (proj1 Hb); exact Hr | rewrite Ha; legal |].
  apply post_ret. right. split; [done |]. eexists. cbn [w_tasks set_tasks].
  rewrite lookup_insert_eq. split; [done | by left].
Qed.
End bundle_run.

(** ** No loop-cap breach of its own making *)

Definition not_breach (e : exn) : Prop :=
  match e with LoopCapBreachError _ _ _ _ => False | _ => True end.

(** The services do not raise loop-cap breaches; the orchestrator alone does. *)
Class CalmServices (E C : Type) `{!AuditWriter E} `{!DispatchAdapters E C} : Prop := {
  audit_calm : forall ev (e : E) x e', write_event ev e = (Raise x, e') -> not_breach x;
  specialist_calm : forall handle req (e : E) x e',
    specialist_agent (E := E) (C := C) = Some handle -> handle req e = (Raise x, e') -> not_breach x
}.

Section calm.
Context {E C : Type} `{!Oracle E} `{!AuditWriter E} `{!MetricRecorder E} `{!SandboxProfiles E}
  `{!PolicyRuntimeClient E} `{!BudgetRuntimeClient C} `{!DispatchAdapters E C} `{!CalmServices E C}.
Abbreviation W := (world E C).

(** A computation that keeps the loop state and raises no breach. *)
Definition calm {A} (m : M W A) : Prop := forall w,
  w_loop (m w).2 = w_loop w /\ match (m w).1 with Raise e => not_breach e | Ret _ => True end.

Lemma calm_ret {A} (a : A) : calm (ret a).
Proof. done. Qed.
Lemma calm_raise {A} e : not_breach e -> calm (@raise W A e).
Proof. done. Qed.
Lemma calm_bind {A B} (m : M W A) (k : A -> M W B) : calm m -> (forall a, calm (k a)) -> calm (bind m k).
Proof.
  intros Hm Hk w. destruct (Hm w) as [H1 H2]. unfold bind.
  destruct (m w) as [[a | e] w1]; [| done]. destruct (Hk a w1) as [H3 H4]. split; [| done].
  rewrite H3. exact H1.
Qed.
Lemma calm_try {A} (m : M W A) h : calm m -> (forall e k, h e = Some k -> calm k) -> calm (try m h).
Proof.
  intros Hm Hk w. destruct (Hm w) as [H1 H2]. unfold try.
  destruct (m w) as [[a | e] w1]; [done |]. destruct (h e) as [k |] eqn:Eh; [| done].
  destruct (Hk e k Eh w1) as [H3 H4]. split; [| done]. rewrite H3. exact H1.
Qed.
Lemma calm_on_ext {A} (m : M E A) :
  (forall e x e', m e = (Raise x, e') -> not_breach x) -> calm (on_ext m).
Proof.
  intros H w. unfold on_ext, zoom. destruct (m (w_ext w)) as [[a | x] e'] eqn:Em; split; try done.
  by eapply H.
Qed.
Lemma calm_write_event ev : calm (on_ext (write_event ev)).
Proof. apply calm_on_ext. apply audit_calm. Qed.
Lemma calm_update tid new o : calm (on_tasks (update_task_status tid new o)).
Proof.
  intros w. unfold on_tasks, zoom. rewrite update_task_status_spec.
  destruct (w_tasks w !! tid); [destruct (_ || _) |]; by split.
Qed.
Lemma calm_get tid : calm (on_tasks (get_task_by_id tid)).
Proof. done. Qed.
Lemma calm_draw {A} (f : E -> A * E) : calm (draw f).
Proof. intros w. unfold draw. by destruct (f _). Qed.
Lemma calm_gets {A} (f : W -> A) : calm (gets f).
Proof. done. Qed.
Lemma calm_modify f : (forall w, w_loop (f w) = w_loop w) -> calm (modify f).
Proof. intros H w. by split; [apply H |]. Qed.
Lemma calm_fail_closed p : calm (on_ext (evaluate_with_fail_closed p)).
Proof.
  apply calm_on_ext. intros e x e' H. pose proof (fail_closed_cases p e) as Hc. rewrite H in Hc. by subst.
Qed.
Lemma calm_attempt {A} (m : M W A) :
  (forall w, w_loop (m w).2 = w_loop w) -> calm (attempt m).
Proof.
  intros H w. unfold attempt, try, bind, ret. specialize (H w).
  destruct (m w) as [[a | e] w1]; done.
Qed.
Lemma calm_reserve uuid now t : calm (on_budget (reserve_with_fail_closed uuid now t)).
Proof.
  intros w. unfold on_budget, zoom. destruct (reserve_remembers uuid now t (w_budget w)) as (o & s' & -> & _).
  done.
Qed.
Lemma loop_on_ext {A} (m : M E A) (w : W) : w_loop (on_ext m w).2 = w_loop w.
Proof. unfold on_ext, zoom. by destruct (m _). Qed.
Lemma loop_on_ext_client {A} (m : M (E * C) A) (w : W) : w_loop (on_ext_client m w).2 = w_loop w.
Proof. unfold on_ext_client, zoom. by destruct (m _). Qed.

#[local] Hint Resolve calm_ret calm_write_event calm_update calm_get calm_draw calm_gets
  calm_fail_closed calm_reserve : tracks.
#[local] Hint Extern 2 (calm (modify _)) => apply calm_modify; done : tracks.
#[local] Hint Extern 2 (calm (raise _)) => apply calm_raise; done : tracks.
#[local] Hint Extern 2 (calm (attempt _)) =>
  apply calm_attempt; intros; first [apply loop_on_ext | apply loop_on_ext_client] : tracks.

Ltac calm_step :=
  lazymatch goal with
  | |- calm (bind _ _) => apply calm_bind; [| intros ?]
  | |- calm (try _ _) => apply calm_try; [| intros ? ? [= <-]]
  | |- calm (if _ then _ else _) => case_match
  | |- calm (match _ with _ => _ end) => case_match
  | |- calm _ => solve [eauto 3 with tracks]
  end.
Ltac calm_auto := repeat calm_step.

Lemma calm_normalize tid : calm (_normalize_policy_input tid).
Proof. unfold _normalize_policy_input. calm_auto. Qed.
Lemma calm_stage_audit t a b c d e f g h : calm (_emit_stage_audit t a b c d e f g h).
Proof. apply calm_write_event. Qed.
Lemma calm_outcome_audit t a b c d e f g h : calm (_emit_outcome_audit t a b c d e f g h).
Proof. unfold _emit_outcome_audit. calm_auto. Qed.
#[local] Hint Resolve calm_normalize calm_stage_audit calm_outcome_audit : tracks.

Lemma calm_apply_ordered ordered context : calm (apply_ordered ordered context).
Proof.
  induction ordered as [| ob rest IH]; cbn [apply_ordered]; [apply calm_ret |].
  apply calm_bind.
  - unfold _dispatch_obligation, _handle_emit_audit_event, _handle_require_owner_approval,
      _handle_reserve_budget, _handle_enforce_sandbox_profile. calm_auto.
  - intros o. destruct (_ && _); [apply calm_ret |].
    apply calm_bind; [exact IH | intros [os b]; apply calm_ret].
Qed.

Lemma calm_apply_obligations obs context : calm (apply_obligations obs context).
Proof. apply calm_bind; [apply calm_apply_ordered | intros [os b]; apply calm_ret]. Qed.
#[local] Hint Resolve calm_apply_obligations : tracks.

(** Dispatching with no pair round spent raises no breach. *)
Lemma dispatch_no_breach task pv ph rules (w : W) :
  pair_rounds (w_loop w) = ∅ ->
  post (dispatch_admitted_task task pv ph rules true) w (fun _ _ => True) (fun e _ => not_breach e).
Proof.
  intros Hp. assert (forall A (m : M W A) w', calm m -> post m w' (fun _ _ => True) (fun e _ => not_breach e)) as Hcalm.
  { intros A m w' Hm. destruct (Hm w') as [_ H]. unfold post. by destruct (m w') as [[] ?]. }
  unfold dispatch_admitted_task. apply post_bind, post_gets.
  destruct (w_dispatch w !! task_id task) as [o |]; [by apply post_ret |]. cbv zeta.
  destruct (String.eqb _ "sandbox").
  { apply Hcalm. unfold dispatch_sandbox, adapter_failed, dispatch_id_or, remember_outcome, mark_dispatched,
      mark_blocked_dispatch. calm_auto. }
  destruct (String.eqb _ "llm").
  { apply Hcalm. unfold dispatch_llm, adapter_failed, dispatch_id_or, remember_outcome, mark_dispatched,
      mark_blocked_dispatch. calm_auto. }
  destruct (String.eqb _ "communication").
  { apply Hcalm. unfold dispatch_communication, adapter_failed, dispatch_id_or, remember_outcome,
      mark_dispatched, mark_blocked_dispatch. calm_auto. }
  destruct (String.eqb _ "specialist").
  2: { apply Hcalm. unfold dispatch_unknown, mark_failed. calm_auto. }
  unfold dispatch_specialist.
  destruct (specialist_agent (E := E) (C := C)) as [handle |] eqn:Ea.
  2: { apply Hcalm. unfold mark_failed. calm_auto. }
  cbv zeta. apply post_bind. set (rest := bind (try _ _) _).
  assert (calm rest) as Hrest.
  { subst rest. apply calm_bind.
    - apply calm_try.
      + apply calm_bind; [| intros ?; apply calm_ret]. apply calm_on_ext. intros e x e' Hx.
        by eapply specialist_calm.
      + intros e k He. destruct e; simplify_eq; apply calm_ret.
    - intros r. unfold dispatch_id_or, remember_outcome, mark_dispatched, mark_blocked_dispatch,
        mark_failed. calm_auto. }
  destruct (_ && _); [| apply post_ret; by apply Hcalm].
  unfold post at 1, on_loop, zoom, check_and_increment_pair, bind, get, modify, ret.
  rewrite Hp, lookup_empty. change (default_pair_limit <? default 0 None + 1)%Z with false. cbv iota.
  by apply Hcalm.
Qed.

(** One node: a hop, then a calm rest. *)
Lemma hop_calm_post {A} (m : M W A) (w : W) :
  (hop_count (w_loop w) < default_hop_limit)%Z -> calm m ->
  post (on_loop (check_and_increment_hop default_hop_limit) ;! m) w
    (fun _ w' => w_loop w' = mk_LoopState (hop_count (w_loop w) + 1) (pair_rounds (w_loop w)))
    (fun e _ => not_breach e).
Proof.
  intros Hh Hm. apply post_bind. unfold post, on_loop, zoom, check_and_increment_hop, bind, modify, get, ret.
  cbn [hop_count]. destruct (Z.ltb_spec default_hop_limit (hop_count (w_loop w) + 1)); [lia |].
  match goal with |- context [m ?w1] => destruct (Hm w1) as [H1 H2]; destruct (m w1) as [[a | e] w2] end.
  - cbn [snd] in H1. by rewrite H1.
  - exact H2.
Qed.

Context `{!GraphRuntime E C}.

Lemma invoke_no_breach s (w : W) :
  w_loop w = fresh_LoopState ->
  post (invoke build_task_graph s) w (fun _ _ => True) (fun e _ => not_breach e).
Proof.
  intros Hl. unfold post. rewrite invoke_straight.
  match goal with |- match ?m w with _ => _ end => change (post m w (fun _ _ => True) (fun e _ => not_breach e)) end.
  apply post_bind. eapply post_mono; [unfold policy_evaluation_node; apply hop_calm_post | | done].
  { by rewrite Hl. } { calm_auto. }
  cbv beta zeta. rewrite Hl. intros u1 w1 Hl1. destruct (goes_on _); [| by apply post_ret].
  apply post_bind. eapply post_mono; [unfold obligation_check_node; apply hop_calm_post | | done].
  { by rewrite Hl1. } { calm_auto. }
  cbv beta zeta. rewrite Hl1. intros u2 w2 Hl2. destruct (goes_on _); [| by apply post_ret].
  apply post_bind. unfold dispatch_node. apply post_bind.
  unfold post at 1, on_loop, zoom, check_and_increment_hop, modify, get, ret. unfold bind at 1 2.
  rewrite Hl2. cbv beta iota.
  change (default_hop_limit <? hop_count _)%Z with false. cbv iota.
  apply post_bind. unfold post at 1, on_tasks, zoom, get_task_by_id, gets.
  destruct (_ <$> _) as [t |]; [| by apply post_ret, post_ret].
  apply post_bind. eapply post_mono; [by apply dispatch_no_breach | | done].
  intros o w3 _. unfold post at 1. cbv zeta.
  match goal with |- match ?m w3 with _ => _ end => assert (calm m) as Hc by calm_auto; destruct (Hc w3) as [_ H];
    destruct (m w3) as [[u3 | x] w4] end; [by apply post_ret | exact H].
Qed.
End calm.

(** ** Draining *)

Section drain.
Context {E C : Type} `{!Oracle E} `{!AuditWriter E} `{!MetricRecorder E} `{!SandboxProfiles E}
  `{!PolicyRuntimeClient E} `{!BudgetRuntimeClient C} `{!DispatchAdapters E C} `{!CalmServices E C}
  `{!GraphRuntime E C}.
Abbreviation W := (world E C).

(** The statuses a task can have between two runs of the worker on it. *)
Definition live (tid : string) (w : W) : Prop := has_status tid ("queued" :: orchestrator_statuses) w.

Lemma has_status_advance tid (w w' : W) :
  has_status tid orchestrator_statuses w -> world_evolves w w' ->
  has_status tid orchestrator_statuses w'.
Proof.
  intros (r & Hr & Hs) Hev. destruct (Hev _ _ Hr) as (r' & Hr' & _ & Hst). exists r'.
  split; [done |]. by destruct Hst as [-> | ?].
Qed.

Lemma live_advance tid (w w' : W) : live tid w -> world_evolves w w' -> live tid w'.
Proof.
  intros (r & Hr & Hs) Hev. destruct (Hev _ _ Hr) as (r' & Hr' & _ & Hst). exists r'.
  split; [done |]. destruct Hst as [-> | ?]; [done | by right].
Qed.

(** A run that answers has taken the task off the queue. *)
Lemma invoke_leaves_queue task (w : W) s w' :
  live (task_id task) w -> invoke build_task_graph (initial_state task) w = (Ret s, w') ->
  has_status (task_id task) orchestrator_statuses w'.
Proof.
  intros (r & Hr & [Hq | Hin]) Hi.
  2: { eapply has_status_advance; [by exists r |].
       pose proof (tracks_invoke (initial_state task) w) as H. by rewrite Hi in H. }
  rewrite invoke_straight in Hi. unfold bind at 1 in Hi.
  pose proof (policy_node_post (initial_state task) w r Hr (eq_sym Hq)) as Hp. unfold post in Hp.
  destruct (policy_evaluation_node (initial_state task) w) as [[u1 | x] w1]; [| done].
  assert (has_status (task_id task) orchestrator_statuses w1) as H1.
  { destruct Hp as (o & e' & _ & _ & _ & H). destruct (po_allowed o).
    - destruct H as (_ & out & Hrow). eexists. split; [exact Hrow | by left].
    - destruct H as (_ & r1 & Hr1 & Hs1). exists r1. split; [done |].
      destruct Hs1 as [<- | []]. by right; left. }
  cbv zeta in Hi. destruct (goes_on _); [| by injection Hi as _ <-].
  eapply has_status_advance; [exact H1 |].
  match type of Hi with ?m w1 = _ => assert (tracks world_evolves m) as Ht end.
  { apply tracks_bind; [typeclasses eauto | apply tracks_obligation_node | intros u2].
    cbv zeta. destruct (goes_on _); [| by apply tracks_ret, _].
    apply tracks_bind; [typeclasses eauto | apply tracks_dispatch_node | intros u3; by apply tracks_ret, _]. }
  specialize (Ht w1). by rewrite Hi in Ht.
Qed.

(** Failing a live task cannot raise. *)
Lemma on_task_error_post task (w : W) :
  live (task_id task) w ->
  exists w', on_task_error task w = (Ret tt, w') /\ has_status (task_id task) orchestrator_statuses w'.
Proof.
  intros (r & Hr & Hs). unfold on_task_error, bind, on_tasks, zoom.
  rewrite update_task_status_spec, Hr.
  assert (String.eqb (status r) "failed" || mem "failed" (LEGAL_TRANSITIONS (status r)) = true) as ->.
  { destruct Hs as [<- | [<- | [<- | [<- | [<- | []]]]]]; reflexivity. }
  eexists. split; [reflexivity |]. eexists. cbn [w_tasks set_tasks]. rewrite lookup_insert_eq.
  split; [reflexivity |]. cbn. tauto.
Qed.

Lemma process_task_post task (w : W) :
  live (task_id task) w ->
  exists w', process_task task w = (Ret tt, w') /\ has_status (task_id task) orchestrator_statuses w'.
Proof.
  intros Hl. unfold process_task, try, bind, modify, ret.
  pose proof (invoke_no_breach (initial_state task) (set_loop fresh_LoopState w) eq_refl) as Hn.
  pose proof (tracks_invoke (initial_state task) (set_loop fresh_LoopState w)) as Ht.
  unfold post in Hn.
  destruct (invoke build_task_graph (initial_state task) (set_loop fresh_LoopState w)) as [[s | x] w1] eqn:Ei.
  - exists w1. split; [done |]. by eapply invoke_leaves_queue; [| exact Ei].
  - assert (live (task_id task) w1) as Hl1 by (by apply (live_advance _ (set_loop fresh_LoopState w))).
    destruct (on_task_error_post task w1 Hl1) as (w' & He & Hs). exists w'.
    destruct x; try done; by rewrite He.
Qed.

Lemma process_tasks_post ts (w : W) :
  (forall t, In t ts -> live (task_id t) w) ->
  exists w', process_tasks ts w = (Ret tt, w') /\
    (forall t, In t ts -> has_status (task_id t) orchestrator_statuses w').
Proof.
  revert w. induction ts as [| t ts IH]; intros w Hl; [by exists w |].
  destruct (process_task_post t w) as (w1 & E1 & H1); [apply Hl; by left |].
  assert (world_evolves w w1) as Hev.
  { pose proof (tracks_process_task t w) as H. by rewrite E1 in H. }
  destruct (IH w1) as (w2 & E2 & H2).
  { intros t' Ht'. eapply live_advance; [apply Hl; by right | done]. }
  exists w2. cbn [process_tasks]. unfold bind. rewrite E1, E2. split; [done |].
  intros t' [<- | Ht']; [| by apply H2]. eapply has_status_advance; [exact H1 |].
  pose proof (tracks_process_tasks ts w1) as H. by rewrite E2 in H.
Qed.

(** The rows the worker fetches. *)
Definition queued_rows (tasks : task_table) : list TaskRecord :=
  List.filter (fun t => String.eqb (status t) "queued") (map _task_from_row (table_rows tasks)).

Lemma table_rows_In (tasks : task_table) r : In r (table_rows tasks) <-> exists k, tasks !! k = Some r.
Proof.
  unfold table_rows. rewrite <- list_elem_of_In, (sorted_perm created_leb).
  rewrite list_elem_of_In, in_map_iff. split.
  - intros ([k r'] & <- & H). exists k. by apply elem_of_map_to_list, list_elem_of_In.
  - intros [k H]. exists (k, r). split; [done |]. by apply list_elem_of_In, elem_of_map_to_list.
Qed.
End drain.

(** ** A small runtime for evaluations *)

#[export] Instance tick_audit : AuditWriter N := { write_event := fun _ => ret tt }.
#[export] Instance tick_metrics : MetricRecorder N := { increment_counter := fun _ _ e => e }.
#[export] Instance tick_profiles : SandboxProfiles N := { bind_profile := fun _ _ _ => None }.

#[export] Instance tick_calm : CalmServices N Z.
Proof. split; [done |]. intros handle req e x e' [= <-] H. done. Qed.

(** A policy server whose second answer revokes its first. *)
Definition revoking_client : PolicyRuntimeClient N :=
  {| evaluate := fun _ e =>
       (Ret (if N.even e
             then bundle_result "allow_with_obligations" "policy_allowed" "allowed" [] ["reserve_budget"]
             else bundle_result "deny" "policy_denied" "denied" [] []), (e + 1)%N) |}.

Definition report_row (st : string) : TaskRecord :=
  {| task_id := "t1"; request_id := "r1"; trace_id := "tr1"; principal_id := "ceo-1";
     principal_role := "ceo"; trust_domain := "internal"; connector := "internal";
     command := "report"; target := "sandbox"; args := []; metadata := [];
     project_id := Some "p"; idempotency_key := "idem-0001"; status := st;
     created_at := mk_datetime 2026 3 24 12 0 0 0; outcome_source := None;
     outcome_error_code := None; outcome_message := None; outcome_details := None;
     dispatch_target := None; dispatch_id := None |}.

Definition report_world (st : string) : world N Z :=
  {| w_ext := 0%N; w_tasks := {["t1" := report_row st]};
     w_budget := {| brs_client := 10000%Z; brs_task_outcomes := ∅ |};
     w_loop := fresh_LoopState; w_dispatch := ∅ |}.

Definition authorized_state : TaskState :=
  policy_update "allow_with_obligations" "v" "h" [] "authorized" (initial_state (report_row "queued")).

(** * Theorems *)

(** C2: the policy gate is fail-closed.  Whatever the policy server, the
    adapters, the audit store and the budget client do, a queued task that the
    worker leaves "dispatched" was evaluated by the policy client, which
    answered "allow" or "allow_with_obligations"; an exception, an uncertain or
    unknown decision, or a denial never lead to a dispatch. *)
Theorem dispatched_only_if_allowed {E C : Type} `{!Oracle E} `{!AuditWriter E} `{!MetricRecorder E}
    `{!SandboxProfiles E} `{!PolicyRuntimeClient E} `{!BudgetRuntimeClient C}
    `{!DispatchAdapters E C} `{!GraphRuntime E C} task r (w : world E C) o w' :
  w_tasks w !! task_id task = Some r -> status r = "queued" ->
  process_task task w = (o, w') -> has_status (task_id task) ["dispatched"] w' ->
  exists result e', evaluate (normalize_policy_input (_task_from_row r)) (w_ext w) = (Ret result, e') /\
    In (pr_decision result) [JStr "allow"; JStr "allow_with_obligations"].
Proof.
  intros Hr Hq Hp Hs. destruct (process_task_dispatched _ _ _ _ Hp Hs) as [s Hi].
  destruct (invoke_dispatched task r (set_loop fresh_LoopState w) _ _ Hr Hq Hi Hs) as (po & e' & _ & _ & _ & Ho & Ha & _).
  rewrite fail_closed_step in Ho. cbn [w_ext set_loop] in Ho.
  destruct (evaluate _ (w_ext w)) as [[result | x] e1].
  - injection Ho as Ho <-. exists result, e1. split; [done |].
    by apply (outcome_of_decision_allowed result po Ho).
  - injection Ho as <- <-. done.
Qed.

Lemma dispatched_only_if_allowed_witness :
  exists result e',
    evaluate (PolicyRuntimeClient := revoking_client)
      (normalize_policy_input (_task_from_row (report_row "queued"))) 0%N = (Ret result, e') /\
    In (pr_decision result) [JStr "allow"; JStr "allow_with_obligations"].
Proof.
  set (run := process_task (PolicyRuntimeClient0 := revoking_client) (report_row "queued")
                (report_world "queued")).
  assert (has_status "t1" ["dispatched"] run.2) as Hs.
  { eexists. split; [vm_compute; reflexivity | vm_compute; tauto]. }
  exact (dispatched_only_if_allowed (PolicyRuntimeClient0 := revoking_client) (report_row "queued")
    (report_row "queued") (report_world "queued") run.1 run.2 eq_refl eq_refl
    (surjective_pairing run) Hs).
Defined.

(** C1: under the shipped policy bundle, a dispatch is always paid for and
    within the constitution.  A queued task the worker leaves "dispatched" has
    an allowed budget reservation on record, its principal has a known role,
    it is no command of the owner to a specialist, and its command is not
    denied by prefix, whatever the adapters, the audit store and the budget
    client do. *)
Theorem bundle_dispatch_is_paid {E C : Type} `{!Oracle E} `{!AuditWriter E} `{!MetricRecorder E}
    `{!SandboxProfiles E} `{!BudgetRuntimeClient C} `{!DispatchAdapters E C}
    `{HG : !GraphRuntime E C} r (w : world E C) o w' :
  let task := _task_from_row r in
  w_tasks w !! task_id r = Some r -> status r = "queued" ->
  process_task (PolicyRuntimeClient0 := bundle_client) task w = (o, w') ->
  has_status (task_id r) ["dispatched"] w' ->
  budget_reserved (task_id r) w' /\ In (principal_role r) _known_roles /\
  _owner_specialist_denied (normalize_policy_input task) = false /\
  startswith (command r) "deny_" = false.
Proof.
  cbv zeta. intros Hr Hq Hp Hs.
  destruct (process_task_dispatched (PolicyRuntimeClient0 := bundle_client) _ _ _ _ Hp Hs) as [s Hi].
  destruct (invoke_dispatched (PolicyRuntimeClient0 := bundle_client) (_task_from_row r) r
              (set_loop fresh_LoopState w) _ _ Hr Hq Hi Hs)
    as (po & e' & w1 & s1 & out & Ho & Ha & Hs1 & Hrow & _ & _ & Hrest).
  rewrite fail_closed_step in Ho. cbn [evaluate bundle_client ret w_ext set_loop] in Ho.
  injection Ho as Ho <-. destruct (decide_rule_allows _ _ Ho Ha) as (Hdec & Hob & Hrole & Hspec & Hdeny).
  split_and!; try done. unfold bind at 1 in Hrest.
  pose proof (obligation_node_bundle_post s1 w1 (apply_update "authorized" out r)) as Hn.
  unfold post in Hn. subst s1. specialize (Hn Hrow eq_refl).
  cbn [ts_policy_decision policy_update] in Hn. unfold decision_of in Hn at 1.
  rewrite (outcome_of_decision_result _ _ Ho), Hdec in Hn. specialize (Hn eq_refl Hob).
  destruct (obligation_check_node _ w1) as [[u2 | x] w2]; [| done].
  destruct Hn as [[-> Hres] | [-> Hbl]]; cbv zeta in Hrest.
  - unfold route_after_obligation in Hrest. cbn [obligation_update ts_obligation_satisfied negb
      ts_final_state policy_update] in Hrest.
    change (goes_on _) with true in Hrest at 1. cbv iota in Hrest.
    unfold bind in Hrest.
    match type of Hrest with context [dispatch_node ?st w2] =>
      pose proof (reservations_dispatch_node st w2) as Hk;
      destruct (dispatch_node st w2) as [[u3 | x] w3]; [| done]
    end.
    injection Hrest as _ <-. destruct Hres as (ro & Hro & Hal). exists ro. split; [| done].
    unfold same_reservations in Hk. cbn [snd] in Hk. by rewrite Hk.
  - change (goes_on _) with false in Hrest at 1. cbv iota in Hrest. injection Hrest as _ <-.
    exfalso. eapply not_dispatched; [exact Hbl | | exact Hs]. by intros [? | []].
Qed.

Lemma bundle_dispatch_is_paid_witness :
  budget_reserved "t1" (process_task (PolicyRuntimeClient0 := bundle_client)
    (_task_from_row (report_row "queued")) (report_world "queued")).2.
Proof.
  set (run := process_task (PolicyRuntimeClient0 := bundle_client)
                (_task_from_row (report_row "queued")) (report_world "queued")).
  assert (has_status "t1" ["dispatched"] run.2) as Hs.
  { eexists. split; [vm_compute; reflexivity | vm_compute; tauto]. }
  exact (proj1 (bundle_dispatch_is_paid (report_row "queued") (report_world "queued") run.1 run.2
    eq_refl eq_refl (surjective_pairing run) Hs)).
Defined.

(** C3: the worker makes progress.  If neither the audit store nor the
    specialist raises a loop-cap breach of its own, draining the queue always
    returns the number of tasks that were queued, whatever else the services
    raise and however tasks are dispatched; every task that was queued is
    afterwards authorized, blocked, dispatched or failed, and no task is lost
    or moves outside the state machine. *)
Theorem drain_empties_queue {E C : Type} `{!Oracle E} `{!AuditWriter E} `{!MetricRecorder E}
    `{!SandboxProfiles E} `{!PolicyRuntimeClient E} `{!BudgetRuntimeClient C}
    `{!DispatchAdapters E C} `{!GraphRuntime E C} (w : world E C) :
  CalmServices E C -> (forall k r, w_tasks w !! k = Some r -> task_id r = k) ->
  exists w', drain_queued_tasks w = (Ret (Z.of_nat (length (queued_rows (w_tasks w)))), w') /\
    tasks_evolve (w_tasks w) (w_tasks w') /\
    forall k r, w_tasks w !! k = Some r -> status r = "queued" -> has_status k orchestrator_statuses w'.
Proof.
  intros Hcalm Hkey. unfold drain_queued_tasks. unfold bind at 1. unfold on_tasks, zoom, list_tasks, gets.
  rewrite set_tasks_id. cbv zeta. fold (queued_rows (w_tasks w)).
  assert (forall t, In t (queued_rows (w_tasks w)) -> live (task_id t) w) as Hl.
  { intros t Ht. apply filter_In in Ht as [Ht Hq]. apply in_map_iff in Ht as (r & <- & Hr).
    apply table_rows_In in Hr as [k Hr]. apply String.eqb_eq in Hq. exists r.
    split; [| by left]. cbn [_task_from_row task_id]. by rewrite (Hkey k r Hr). }
  destruct (process_tasks_post _ w Hl) as (w' & E' & H'). exists w'. unfold bind. rewrite E'.
  split; [done |]. split.
  - apply tasks_advance_evolve. pose proof (tracks_process_tasks (queued_rows (w_tasks w)) w) as H.
    by rewrite E' in H.
  - intros k r Hr Hq. rewrite <- (Hkey k r Hr). apply (H' (_task_from_row r)).
    apply filter_In. split; [| by apply String.eqb_eq]. apply in_map. apply table_rows_In. by exists k.
Qed.

Lemma drain_empties_queue_witness :
  exists w', drain_queued_tasks (PolicyRuntimeClient0 := bundle_client) (report_world "queued") =
      (Ret 1%Z, w') /\ has_status "t1" orchestrator_statuses w'.
Proof.
  assert (forall k r, w_tasks (report_world "queued") !! k = Some r -> task_id r = k) as Hk.
  { intros k r H. cbn [w_tasks report_world] in H. apply lookup_singleton_Some in H as [<- <-]. reflexivity. }
  destruct (drain_empties_queue (PolicyRuntimeClient0 := bundle_client) (report_world "queued") tick_calm Hk)
    as (w' & E & _ & H).
  exists w'. split; [exact E |]. exact (H "t1" (report_row "queued") eq_refl eq_refl).
Defined.

(** The obligations node asks the policy client again and uses only the
    obligations of the second answer.  When the second answer carries none,
    even as a denial, the node reports the obligations satisfied, without a
    reservation or an audit record, and the graph goes on to dispatch. *)
Theorem obligation_recheck_ignores_decision {E C : Type} `{!Oracle E} `{!AuditWriter E}
    `{!MetricRecorder E} `{!SandboxProfiles E} `{!PolicyRuntimeClient E} `{!BudgetRuntimeClient C}
    `{!DispatchAdapters E C} s row result e' (w : world E C) :
  w_tasks w !! ts_task_id s = Some row -> (hop_count (w_loop w) < default_hop_limit)%Z ->
  ts_policy_decision s = Some "allow_with_obligations" -> ts_final_state s = "authorized" ->
  evaluate (normalize_policy_input (_task_from_row row)) (w_ext w) = (Ret result, e') ->
  (forall x, outcome_of_decision result <> Raise x) -> pr_obligations result = [] ->
  exists update w', obligation_check_node s w = (Ret update, w') /\
    ts_obligation_satisfied (update s) = true /\
    g_edge (build_task_graph (E := E) (C := C)) "obligation_check_node" (update s) = "dispatch_node" /\
    w_budget w' = w_budget w /\ w_ext w' = e'.
Proof.
  intros Hr Hh Hd Hf He Hhash Hob. unfold obligation_check_node.
  unfold bind at 1, on_loop, zoom at 1, check_and_increment_hop, bind at 1, modify, bind at 1, get.
  cbv beta iota zeta. cbn [hop_count]. destruct (Z.ltb_spec default_hop_limit (hop_count (w_loop w) + 1)); [lia |].
  unfold ret at 1. cbv beta iota.
  unfold bind at 1, on_tasks, zoom at 1, get_task_by_id, gets. cbn [w_tasks set_loop]. rewrite Hr.
  cbn [fmap option_fmap option_map]. rewrite Hd.
  change (String.eqb (opt_or (Some "allow_with_obligations") "allow") _) with true.
  change (negb true) with false. cbv iota.
  unfold bind at 1, _normalize_policy_input, bind at 1, on_tasks, zoom at 1, get_task_by_id, gets.
  cbn [w_tasks set_loop set_tasks]. rewrite Hr. cbn [fmap option_fmap option_map]. unfold ret at 1.
  unfold bind at 1, on_ext, zoom. rewrite fail_closed_step. cbn [w_ext set_loop set_tasks]. rewrite He.
  destruct (outcome_of_decision result) as [o | x] eqn:Ho; [| by destruct (Hhash x)].
  rewrite (outcome_of_decision_result _ _ Ho), Hob.
  eexists (obligation_update true None None), _. split; [reflexivity |].
  split; [done |]. split; [| done].
  change (g_edge build_task_graph "obligation_check_node") with route_after_obligation.
  unfold route_after_obligation. cbn [obligation_update ts_obligation_satisfied ts_final_state negb default].
  by rewrite Hf.
Qed.

Lemma obligation_recheck_ignores_decision_witness :
  exists update w',
    obligation_check_node (PolicyRuntimeClient0 := revoking_client) authorized_state
      (set_ext 1%N (report_world "authorized")) = (Ret update, w') /\
    ts_obligation_satisfied (update authorized_state) = true.
Proof.
  assert (N.even (w_ext (set_ext 1%N (report_world "authorized"))) = false) as He by reflexivity.
  destruct (obligation_recheck_ignores_decision (PolicyRuntimeClient0 := revoking_client)
    authorized_state (report_row "authorized") (bundle_result "deny" "policy_denied" "denied" [] [])
    2%N (set_ext 1%N (report_world "authorized")) eq_refl eq_refl eq_refl eq_refl eq_refl
    ltac:(discriminate) eq_refl)
    as (update & w' & E & Hsat & _).
  exists update, w'. split; [exact E | exact Hsat].
Defined.
