(* ===== verification/ProjectModel.v ===== *)
(** Governance data: the project lifecycle, the project-manager template check
    and the records of a project.

    Models [control_plane/governance/project_lifecycle.py],
    [control_plane/governance/project_manager_template.py] and
    [data_access/repositories/governance.py]. *)

From S2P Require Import Prelude PyStr PyData LlmSchemas.

(** ** Lifecycle *)

Inductive ProjectStatus : Type :=
  | Proposed | Approved | Active | Paused | Completed | Terminated | Archived.

#[export] Instance ProjectStatus_eq_dec : EqDecision ProjectStatus.
Proof. solve_decision. Defined.

Definition all_statuses : list ProjectStatus :=
  [Proposed; Approved; Active; Paused; Completed; Terminated; Archived].

Definition status_str (s : ProjectStatus) : string :=
  match s with
  | Proposed => "proposed" | Approved => "approved" | Active => "active" | Paused => "paused"
  | Completed => "completed" | Terminated => "terminated" | Archived => "archived"
  end.

Definition _ALLOWED_TRANSITIONS (current : ProjectStatus) : list ProjectStatus :=
  match current with
  | Proposed => [Proposed; Approved]
  | Approved => [Active]
  | Active => [Paused; Completed; Terminated]
  | Paused => [Active; Terminated]
  | Completed => [Archived]
  | Terminated => [Archived]
  | Archived => []
  end.

Definition status_of_str (normalized : string) : option ProjectStatus :=
  List.find (fun s => String.eqb (status_str s) normalized) all_statuses.

Definition parse_project_status (value : string) : outcome ProjectStatus :=
  match status_of_str (norm value) with
  | Some s => Ret s
  | None => Raise (ProjectLifecycleError "project_invalid_status"
                     ("invalid project status: " +:+ value))
  end.

Definition allowed_project_status_transitions (current_status : string) : outcome (list string) :=
  let? current := parse_project_status current_status in
  Ret (sorted str_leb (map status_str (_ALLOWED_TRANSITIONS current))).

Definition assert_project_transition (current_status next_status : string) : outcome ProjectStatus :=
  let? current := parse_project_status current_status in
  let? next_value := parse_project_status next_status in
  if bool_decide (In next_value (_ALLOWED_TRANSITIONS current)) then Ret next_value
  else Raise (ProjectLifecycleError "project_invalid_transition"
                ("invalid project transition: " +:+ status_str current +:+ " -> " +:+
                 status_str next_value)).

Definition is_terminal_project_status (st : string) : outcome bool :=
  let? s := parse_project_status st in Ret (bool_decide (In s [Archived])).

(** ** The project-manager template *)

Definition MANDATORY_PROJECT_MANAGER_OPERATIONS : list string :=
  ["milestone_planning"; "task_decomposition"; "task_assignment"; "progress_reporting"].

Definition _OPERATION_TOKEN_RULES : list (string * list string) :=
  [("milestone_planning", ["milestone"; "plan"]);
   ("task_decomposition", ["decompos"; "task"]);
   ("task_assignment", ["assign"; "task"]);
   ("progress_reporting", ["progress"; "report"])].

Definition missing_operations (normalized_prompt : string) : list string :=
  map fst (List.filter (fun rule => negb (forallb (contains normalized_prompt) (snd rule)))
             _OPERATION_TOKEN_RULES).

Definition validate_project_manager_template (system_prompt : string) : outcome (list string) :=
  let normalized_prompt := norm system_prompt in
  if negb (truthy normalized_prompt) then
    Raise (ProjectManagerTemplateError "project_manager_template_invalid"
             "project manager template prompt must not be blank")
  else
    match missing_operations normalized_prompt with
    | [] => Ret MANDATORY_PROJECT_MANAGER_OPERATIONS
    | missing =>
        Raise (ProjectManagerTemplateError "project_manager_template_missing_operations"
                 ("project manager template missing mandatory operations: " +:+ join ", " missing))
    end.

(** ** Records *)

Record ProjectStatusTransitionRecord : Type := mk_Transition {
  tn_project_id : string;
  from_status : string;
  to_status : string;
  reason_code : string;
  tn_actor_role : string;
  tn_trace_id : string;
  tn_timestamp : datetime;
  tn_metadata : list (string * string)
}.

Record ProposalMessageRecord : Type := mk_ProposalMessage {
  message_id : string;
  pm_project_id : string;
  pm_actor_id : string;
  pm_actor_role : string;
  content : string;
  pm_trace_id : string;
  pm_timestamp : datetime
}.

(** [ProposalApprovalRecord] and [CompletionApprovalRecord] have the same fields. *)
Record ApprovalRecord : Type := mk_Approval {
  approval_id : string;
  ap_project_id : string;
  ap_actor_id : string;
  ap_actor_role : string;
  ap_trace_id : string;
  ap_timestamp : datetime
}.

Record CompletionReportRecord : Type := mk_CompletionReport {
  report_id : string;
  cp_project_id : string;
  cp_actor_id : string;
  cp_actor_role : string;
  summary : string;
  metric_results : list (string * string);
  cp_trace_id : string;
  completion_report_storage_uri : option string;
  completion_report_content_hash : option string;
  cp_timestamp : datetime
}.

Record ProjectInitializationSnapshot : Type := mk_Initialization {
  is_objective : string;
  budget_currency_total : pyfloat;
  budget_quota_total : pyfloat;
  metric_plan : list (string * string);
  workforce_plan : list (string * string);
  is_actor_id : string;
  is_actor_role : string;
  is_trace_id : string;
  charter_storage_uri : option string;
  charter_content_hash : option string;
  scope_statement_storage_uri : option string;
  scope_statement_content_hash : option string;
  budget_plan_storage_uri : option string;
  budget_plan_content_hash : option string;
  metric_plan_storage_uri : option string;
  metric_plan_content_hash : option string;
  workforce_plan_storage_uri : option string;
  workforce_plan_content_hash : option string;
  execution_plan_storage_uri : option string;
  execution_plan_content_hash : option string;
  initialized_at : datetime
}.

Record WorkforceBindingRecord : Type := mk_WorkforceBinding {
  binding_id : string;
  wb_project_id : string;
  wb_role : string;
  template_id : string;
  llm_routing_profile : string;
  system_prompt_hash : string;
  mandatory_operations : list string;
  binding_status : string;
  wb_actor_id : string;
  wb_actor_role : string;
  wb_trace_id : string;
  wb_created_at : datetime
}.

Record ProjectRecord : Type := mk_Project {
  p_id : string;
  p_name : string;
  p_objective : string;
  p_status : ProjectStatus;
  p_created_at : datetime;
  p_updated_at : datetime;
  p_metadata : list (string * string);
  p_transitions : list ProjectStatusTransitionRecord;
  p_proposal_messages : list ProposalMessageRecord;
  p_proposal_approvals : list ApprovalRecord;
  p_completion_report : option CompletionReportRecord;
  p_completion_approvals : list ApprovalRecord;
  p_completion_owner_notified_at : option datetime;
  p_completion_owner_notification_trace_id : option string;
  p_initialization : option ProjectInitializationSnapshot;
  p_workforce_bindings : list WorkforceBindingRecord
}.

(** ** Lemmas *)

Lemma status_of_str_str s : status_of_str (status_str s) = Some s.
Proof. by destruct s. Qed.

Lemma status_of_str_inv x s : status_of_str x = Some s -> status_str s = x.
Proof. intros H. apply find_some in H as [_ H]. by apply String.eqb_eq. Qed.

Lemma parse_status_str s : parse_project_status (status_str s) = Ret s.
Proof. unfold parse_project_status. by destruct s. Qed.

Lemma assert_transition_str a b :
  assert_project_transition (status_str a) (status_str b) =
  if bool_decide (In b (_ALLOWED_TRANSITIONS a)) then Ret b
  else Raise (ProjectLifecycleError "project_invalid_transition"
                ("invalid project transition: " +:+ status_str a +:+ " -> " +:+ status_str b)).
Proof. unfold assert_project_transition. by rewrite !parse_status_str. Qed.

Lemma assert_transition_ret a next b :
  assert_project_transition (status_str a) next = Ret b -> In b (_ALLOWED_TRANSITIONS a).
Proof.
  unfold assert_project_transition. rewrite parse_status_str. cbn [obind].
  destruct (parse_project_status next) as [c |]; cbn [obind]; [| done].
  case_bool_decide; [| done]. by intros [= <-].
Qed.

Lemma missing_operations_nil prompt :
  missing_operations prompt = [] <->
  forall op tokens, In (op, tokens) _OPERATION_TOKEN_RULES -> forallb (contains prompt) tokens = true.
Proof.
  unfold missing_operations. split.
  - intros H op tokens Hin. apply map_eq_nil in H.
    destruct (forallb (contains prompt) tokens) eqn:E; [done |]. exfalso.
    assert (In (op, tokens) []) as []. rewrite <- H. apply filter_In. split; [done |]. cbn. by rewrite E.
  - intros H. destruct (List.filter _ _) as [| [op tokens] l] eqn:E; [done |]. exfalso.
    assert (In (op, tokens) ((op, tokens) :: l)) as Hin by (by left). rewrite <- E in Hin.
    apply filter_In in Hin as [Hin Hn]. cbn in Hn. by rewrite (H op tokens Hin) in Hn.
Qed.
