(* ===== verification/ProjectRows.v ===== *)
(** The projects table: how a project aggregate is stored as one row of JSON
    documents, and how it is read back.

    Models the serialization half of
    [data_access/repositories/postgres/project_repository.py].  A JSONB column
    holds the document that was dumped; a [TIMESTAMPTZ] column the instant.  A
    stored document without its timestamp, which the code never writes, is an
    error here. *)

From S2P Require Import Prelude PyStr PyData LlmSchemas ProjectModel.

(** ** Reading JSON objects *)

(** [str(d[key])]. *)
Definition jreq (o : list (string * json)) (key : string) : outcome string :=
  match jfield o key with
  | Some v => Ret (jstr v)
  | None => Raise (OtherError ("KeyError: " +:+ py_repr key))
  end.

(** [bool(value)]. *)
Definition jtruthy (j : json) : bool :=
  match j with
  | JNull => false
  | JBool b => b
  | JInt z => negb (Z.eqb z 0)
  | JFloat (S754_zero _) => false
  | JFloat _ => true
  | JStr s => truthy s
  | JArr l => match l with [] => false | _ => true end
  | JObj o => match o with [] => false | _ => true end
  end.

(** [str(d[key]) if d.get(key) else None]. *)
Definition jopt_text (o : list (string * json)) (key : string) : option string :=
  match jfield o key with
  | Some v => if jtruthy v then Some (jstr v) else None
  | None => None
  end.

(** The pairs of [d.get(key) or []]. *)
Definition jpairs_field (o : list (string * json)) (key : string) : list (string * string) :=
  match jfield o key with Some v => jpairs_read v | None => [] end.

(** [float(d.get(key, 0.0))] on the numbers the code stores. *)
Definition jfloat_field (o : list (string * json)) (key : string) : outcome pyfloat :=
  match jfield o key with
  | None => Ret (S754_zero false)
  | Some (JFloat f) => Ret f
  | Some _ => Raise (OtherError "float() argument")
  end.

Definition _dt_to_iso (dt : datetime) : json := JStr (isoformat dt).

Definition _dt_from_iso (o : list (string * json)) (key : string) : outcome datetime :=
  match jfield o key with
  | Some (JStr s) =>
      match fromisoformat s with
      | Some t => Ret t
      | None => Raise (ValueError ("Invalid isoformat string: " +:+ py_repr s))
      end
  | _ => Raise (ValueError "missing timestamp")
  end.

Definition jopt_str (x : option string) : json := match x with Some s => JStr s | None => JNull end.

(** ** Records as documents *)

Definition _transition_to_dict (t : ProjectStatusTransitionRecord) : json :=
  JObj [("project_id", JStr (tn_project_id t)); ("from_status", JStr (from_status t));
        ("to_status", JStr (to_status t)); ("reason_code", JStr (reason_code t));
        ("actor_role", JStr (tn_actor_role t)); ("trace_id", JStr (tn_trace_id t));
        ("timestamp", _dt_to_iso (tn_timestamp t)); ("metadata", jpairs (tn_metadata t))].

Definition _transition_from_dict (d : list (string * json)) : outcome ProjectStatusTransitionRecord :=
  let? pid := jreq d "project_id" in
  let? a := jreq d "from_status" in
  let? b := jreq d "to_status" in
  let? reason := jreq d "reason_code" in
  let? role := jreq d "actor_role" in
  let? trace := jreq d "trace_id" in
  let? at_ := _dt_from_iso d "timestamp" in
  Ret (mk_Transition pid a b reason role trace at_ (jpairs_field d "metadata")).

Definition _proposal_message_to_dict (m : ProposalMessageRecord) : json :=
  JObj [("message_id", JStr (message_id m)); ("project_id", JStr (pm_project_id m));
        ("actor_id", JStr (pm_actor_id m)); ("actor_role", JStr (pm_actor_role m));
        ("content", JStr (content m)); ("trace_id", JStr (pm_trace_id m));
        ("timestamp", _dt_to_iso (pm_timestamp m))].

Definition _proposal_message_from_dict (d : list (string * json)) : outcome ProposalMessageRecord :=
  let? mid := jreq d "message_id" in
  let? pid := jreq d "project_id" in
  let? actor := jreq d "actor_id" in
  let? role := jreq d "actor_role" in
  let? text := jreq d "content" in
  let? trace := jreq d "trace_id" in
  let? at_ := _dt_from_iso d "timestamp" in
  Ret (mk_ProposalMessage mid pid actor role text trace at_).

(** Proposal and completion approvals have the same document. *)
Definition _approval_to_dict (a : ApprovalRecord) : json :=
  JObj [("approval_id", JStr (approval_id a)); ("project_id", JStr (ap_project_id a));
        ("actor_id", JStr (ap_actor_id a)); ("actor_role", JStr (ap_actor_role a));
        ("trace_id", JStr (ap_trace_id a)); ("timestamp", _dt_to_iso (ap_timestamp a))].

Definition _approval_from_dict (d : list (string * json)) : outcome ApprovalRecord :=
  let? aid := jreq d "approval_id" in
  let? pid := jreq d "project_id" in
  let? actor := jreq d "actor_id" in
  let? role := jreq d "actor_role" in
  let? trace := jreq d "trace_id" in
  let? at_ := _dt_from_iso d "timestamp" in
  Ret (mk_Approval aid pid actor role trace at_).

Definition _completion_report_to_dict (r : CompletionReportRecord) : list (string * json) :=
  [("report_id", JStr (report_id r)); ("project_id", JStr (cp_project_id r));
   ("actor_id", JStr (cp_actor_id r)); ("actor_role", JStr (cp_actor_role r));
   ("summary", JStr (summary r)); ("metric_results", jpairs (metric_results r));
   ("trace_id", JStr (cp_trace_id r));
   ("completion_report_storage_uri", jopt_str (completion_report_storage_uri r));
   ("completion_report_content_hash", jopt_str (completion_report_content_hash r));
   ("timestamp", _dt_to_iso (cp_timestamp r))].

Definition _completion_report_from_dict (d : list (string * json)) : outcome CompletionReportRecord :=
  let? rid := jreq d "report_id" in
  let? pid := jreq d "project_id" in
  let? actor := jreq d "actor_id" in
  let? role := jreq d "actor_role" in
  let? text := jreq d "summary" in
  let? trace := jreq d "trace_id" in
  let? at_ := _dt_from_iso d "timestamp" in
  Ret (mk_CompletionReport rid pid actor role text (jpairs_field d "metric_results") trace
         (jopt_text d "completion_report_storage_uri")
         (jopt_text d "completion_report_content_hash") at_).

Definition _initialization_to_dict (s : ProjectInitializationSnapshot) : list (string * json) :=
  [("objective", JStr (is_objective s));
   ("budget_currency_total", JFloat (budget_currency_total s));
   ("budget_quota_total", JFloat (budget_quota_total s));
   ("metric_plan", jpairs (metric_plan s)); ("workforce_plan", jpairs (workforce_plan s));
   ("actor_id", JStr (is_actor_id s)); ("actor_role", JStr (is_actor_role s));
   ("trace_id", JStr (is_trace_id s));
   ("charter_storage_uri", jopt_str (charter_storage_uri s));
   ("charter_content_hash", jopt_str (charter_content_hash s));
   ("scope_statement_storage_uri", jopt_str (scope_statement_storage_uri s));
   ("scope_statement_content_hash", jopt_str (scope_statement_content_hash s));
   ("budget_plan_storage_uri", jopt_str (budget_plan_storage_uri s));
   ("budget_plan_content_hash", jopt_str (budget_plan_content_hash s));
   ("metric_plan_storage_uri", jopt_str (metric_plan_storage_uri s));
   ("metric_plan_content_hash", jopt_str (metric_plan_content_hash s));
   ("workforce_plan_storage_uri", jopt_str (workforce_plan_storage_uri s));
   ("workforce_plan_content_hash", jopt_str (workforce_plan_content_hash s));
   ("execution_plan_storage_uri", jopt_str (execution_plan_storage_uri s));
   ("execution_plan_content_hash", jopt_str (execution_plan_content_hash s));
   ("initialized_at", _dt_to_iso (initialized_at s))].

Definition _initialization_from_dict (d : list (string * json)) : outcome ProjectInitializationSnapshot :=
  let? objective := jreq d "objective" in
  let? currency := jfloat_field d "budget_currency_total" in
  let? quota := jfloat_field d "budget_quota_total" in
  let? actor := jreq d "actor_id" in
  let? role := jreq d "actor_role" in
  let? trace := jreq d "trace_id" in
  let? at_ := _dt_from_iso d "initialized_at" in
  Ret (mk_Initialization objective currency quota (jpairs_field d "metric_plan")
         (jpairs_field d "workforce_plan") actor role trace
         (jopt_text d "charter_storage_uri") (jopt_text d "charter_content_hash")
         (jopt_text d "scope_statement_storage_uri") (jopt_text d "scope_statement_content_hash")
         (jopt_text d "budget_plan_storage_uri") (jopt_text d "budget_plan_content_hash")
         (jopt_text d "metric_plan_storage_uri") (jopt_text d "metric_plan_content_hash")
         (jopt_text d "workforce_plan_storage_uri") (jopt_text d "workforce_plan_content_hash")
         (jopt_text d "execution_plan_storage_uri") (jopt_text d "execution_plan_content_hash") at_).

Definition _workforce_binding_to_dict (b : WorkforceBindingRecord) : json :=
  JObj [("binding_id", JStr (binding_id b)); ("project_id", JStr (wb_project_id b));
        ("role", JStr (wb_role b)); ("template_id", JStr (template_id b));
        ("llm_routing_profile", JStr (llm_routing_profile b));
        ("system_prompt_hash", JStr (system_prompt_hash b));
        ("mandatory_operations", JArr (map JStr (mandatory_operations b)));
        ("binding_status", JStr (binding_status b)); ("actor_id", JStr (wb_actor_id b));
        ("actor_role", JStr (wb_actor_role b)); ("trace_id", JStr (wb_trace_id b));
        ("created_at", _dt_to_iso (wb_created_at b))].

Definition _workforce_binding_from_dict (d : list (string * json)) : outcome WorkforceBindingRecord :=
  let? bid := jreq d "binding_id" in
  let? pid := jreq d "project_id" in
  let? role := jreq d "role" in
  let? template := jreq d "template_id" in
  let? profile := jreq d "llm_routing_profile" in
  let? hash := jreq d "system_prompt_hash" in
  let? st := jreq d "binding_status" in
  let? actor := jreq d "actor_id" in
  let? arole := jreq d "actor_role" in
  let? trace := jreq d "trace_id" in
  let? at_ := _dt_from_iso d "created_at" in
  Ret (mk_WorkforceBinding bid pid role template profile hash
         (match jfield d "mandatory_operations" with Some (JArr l) => map jstr l | _ => [] end)
         st actor arole trace at_).

(** ** Rows *)

Record project_row : Type := mk_project_row {
  row_project_id : string;
  row_name : string;
  row_objective : string;
  row_status : string;
  row_metadata : json;
  row_transitions : json;
  row_proposal_messages : json;
  row_proposal_approvals : json;
  row_completion_report : option json;
  row_completion_approvals : json;
  row_completion_owner_notified_at : option datetime;
  row_completion_owner_notification_trace_id : option string;
  row_initialization : option json;
  row_workforce_bindings : json;
  row_created_at : datetime;
  row_updated_at : datetime
}.

Definition _project_to_row (p : ProjectRecord) : project_row :=
  {| row_project_id := p_id p; row_name := p_name p; row_objective := p_objective p;
     row_status := status_str (p_status p); row_metadata := jpairs (p_metadata p);
     row_transitions := JArr (map _transition_to_dict (p_transitions p));
     row_proposal_messages := JArr (map _proposal_message_to_dict (p_proposal_messages p));
     row_proposal_approvals := JArr (map _approval_to_dict (p_proposal_approvals p));
     row_completion_report := (fun r => JObj (_completion_report_to_dict r)) <$> p_completion_report p;
     row_completion_approvals := JArr (map _approval_to_dict (p_completion_approvals p));
     row_completion_owner_notified_at := p_completion_owner_notified_at p;
     row_completion_owner_notification_trace_id := p_completion_owner_notification_trace_id p;
     row_initialization := (fun s => JObj (_initialization_to_dict s)) <$> p_initialization p;
     row_workforce_bindings := JArr (map _workforce_binding_to_dict (p_workforce_bindings p));
     row_created_at := p_created_at p; row_updated_at := p_updated_at p |}.

(** [tuple(from_dict(d) for d in raw)] on a list of objects; an item that is
    not an object raises. *)
Fixpoint read_items {A} (from_dict : list (string * json) -> outcome A) (l : list json) : outcome (list A) :=
  match l with
  | [] => Ret []
  | JObj d :: l' =>
      let? x := from_dict d in
      let? xs := read_items from_dict l' in
      Ret (x :: xs)
  | _ :: _ => Raise (OtherError "TypeError: not an object")
  end.

Definition read_list {A} (from_dict : list (string * json) -> outcome A) (raw : json) : outcome (list A) :=
  match raw with JArr l => read_items from_dict l | _ => Ret [] end.

Definition read_opt {A} (from_dict : list (string * json) -> outcome A) (raw : option json)
    : outcome (option A) :=
  match raw with
  | Some (JObj d) => let? x := from_dict d in Ret (Some x)
  | _ => Ret None
  end.

Definition _project_from_row (row : project_row) : outcome ProjectRecord :=
  let? st := parse_project_status (row_status row) in
  let? transitions := read_list _transition_from_dict (row_transitions row) in
  let? messages := read_list _proposal_message_from_dict (row_proposal_messages row) in
  let? approvals := read_list _approval_from_dict (row_proposal_approvals row) in
  let? report := read_opt _completion_report_from_dict (row_completion_report row) in
  let? completion := read_list _approval_from_dict (row_completion_approvals row) in
  let? init := read_opt _initialization_from_dict (row_initialization row) in
  let? bindings := read_list _workforce_binding_from_dict (row_workforce_bindings row) in
  Ret {| p_id := row_project_id row; p_name := row_name row; p_objective := row_objective row;
         p_status := st; p_created_at := row_created_at row; p_updated_at := row_updated_at row;
         p_metadata := jpairs_read (row_metadata row);
         p_transitions := transitions; p_proposal_messages := messages;
         p_proposal_approvals := approvals; p_completion_report := report;
         p_completion_approvals := completion;
         p_completion_owner_notified_at := row_completion_owner_notified_at row;
         p_completion_owner_notification_trace_id :=
           match row_completion_owner_notification_trace_id row with
           | Some s => or_none s | None => None end;
         p_initialization := init; p_workforce_bindings := bindings |}.

(** * Lemmas *)

(** What reading back collapses: an empty optional text becomes [None]. *)
Definition text_view (x : option string) : option string :=
  match x with Some s => or_none s | None => None end.

Definition report_view (r : CompletionReportRecord) : CompletionReportRecord :=
  mk_CompletionReport (report_id r) (cp_project_id r) (cp_actor_id r) (cp_actor_role r) (summary r)
    (metric_results r) (cp_trace_id r) (text_view (completion_report_storage_uri r))
    (text_view (completion_report_content_hash r)) (cp_timestamp r).

Definition initialization_view (s : ProjectInitializationSnapshot) : ProjectInitializationSnapshot :=
  mk_Initialization (is_objective s) (budget_currency_total s) (budget_quota_total s) (metric_plan s)
    (workforce_plan s) (is_actor_id s) (is_actor_role s) (is_trace_id s)
    (text_view (charter_storage_uri s)) (text_view (charter_content_hash s))
    (text_view (scope_statement_storage_uri s)) (text_view (scope_statement_content_hash s))
    (text_view (budget_plan_storage_uri s)) (text_view (budget_plan_content_hash s))
    (text_view (metric_plan_storage_uri s)) (text_view (metric_plan_content_hash s))
    (text_view (workforce_plan_storage_uri s)) (text_view (workforce_plan_content_hash s))
    (text_view (execution_plan_storage_uri s)) (text_view (execution_plan_content_hash s))
    (initialized_at s).

Definition project_view (p : ProjectRecord) : ProjectRecord :=
  {| p_id := p_id p; p_name := p_name p; p_objective := p_objective p; p_status := p_status p;
     p_created_at := p_created_at p; p_updated_at := p_updated_at p; p_metadata := p_metadata p;
     p_transitions := p_transitions p; p_proposal_messages := p_proposal_messages p;
     p_proposal_approvals := p_proposal_approvals p;
     p_completion_report := report_view <$> p_completion_report p;
     p_completion_approvals := p_completion_approvals p;
     p_completion_owner_notified_at := p_completion_owner_notified_at p;
     p_completion_owner_notification_trace_id := text_view (p_completion_owner_notification_trace_id p);
     p_initialization := initialization_view <$> p_initialization p;
     p_workforce_bindings := p_workforce_bindings p |}.

(** Every instant inside the documents is one Python can represent. *)
Definition valid_times (p : ProjectRecord) : Prop :=
  Forall (fun t => valid_datetime (tn_timestamp t)) (p_transitions p) /\
  Forall (fun m => valid_datetime (pm_timestamp m)) (p_proposal_messages p) /\
  Forall (fun a => valid_datetime (ap_timestamp a)) (p_proposal_approvals p) /\
  (forall r, p_completion_report p = Some r -> valid_datetime (cp_timestamp r)) /\
  Forall (fun a => valid_datetime (ap_timestamp a)) (p_completion_approvals p) /\
  (forall s, p_initialization p = Some s -> valid_datetime (initialized_at s)) /\
  Forall (fun b => valid_datetime (wb_created_at b)) (p_workforce_bindings p).

Lemma text_view_idem x : text_view (text_view x) = text_view x.
Proof. destruct x as [s |]; [| done]. unfold text_view, or_none. destruct (truthy s) eqn:E; [by rewrite E | done]. Qed.

Lemma project_view_idem p : project_view (project_view p) = project_view p.
Proof.
  unfold project_view. cbn. f_equal; [| apply text_view_idem |].
  - destruct (p_completion_report p) as [r |]; [| done]. cbn. unfold report_view. cbn. by rewrite !text_view_idem.
  - destruct (p_initialization p) as [s |]; [| done]. cbn. unfold initialization_view. cbn.
    by rewrite !text_view_idem.
Qed.

Lemma jopt_text_spec o key x : jfield o key = Some (jopt_str x) -> jopt_text o key = text_view x.
Proof.
  intros H. unfold jopt_text. rewrite H. destruct x as [s |]; [| done]. cbn. unfold or_none.
  by destruct (truthy s).
Qed.

Lemma dt_from_iso_spec o key t :
  jfield o key = Some (_dt_to_iso t) -> valid_datetime t -> _dt_from_iso o key = Ret t.
Proof. intros H Hv. unfold _dt_from_iso. rewrite H. cbn [_dt_to_iso]. by rewrite isoformat_roundtrip. Qed.

Lemma read_items_map {A} (to_dict : A -> json) from_dict (P : A -> Prop) l :
  (forall x, P x -> exists d, to_dict x = JObj d /\ from_dict d = Ret x) -> Forall P l ->
  read_items from_dict (map to_dict l) = Ret l.
Proof.
  intros H. induction 1 as [| x l Hx Hl IH]; cbn [map read_items]; [done |].
  destruct (H x Hx) as (d & -> & Hd). by rewrite Hd, IH.
Qed.

Lemma transition_roundtrip t :
  valid_datetime (tn_timestamp t) ->
  exists d, _transition_to_dict t = JObj d /\ _transition_from_dict d = Ret t.
Proof.
  intros Hv. unfold _transition_from_dict. eexists. split; [reflexivity |].
  rewrite (dt_from_iso_spec _ "timestamp" (tn_timestamp t)) by done. unfold jpairs_field.
  cbn -[jpairs_read jpairs]. rewrite jpairs_roundtrip. by destruct t.
Qed.

Lemma message_roundtrip m :
  valid_datetime (pm_timestamp m) ->
  exists d, _proposal_message_to_dict m = JObj d /\ _proposal_message_from_dict d = Ret m.
Proof.
  intros Hv. unfold _proposal_message_from_dict. eexists. split; [reflexivity |].
  rewrite (dt_from_iso_spec _ "timestamp" (pm_timestamp m)) by done. by destruct m.
Qed.

Lemma approval_roundtrip a :
  valid_datetime (ap_timestamp a) ->
  exists d, _approval_to_dict a = JObj d /\ _approval_from_dict d = Ret a.
Proof.
  intros Hv. unfold _approval_from_dict. eexists. split; [reflexivity |].
  rewrite (dt_from_iso_spec _ "timestamp" (ap_timestamp a)) by done. by destruct a.
Qed.

Lemma binding_roundtrip b :
  valid_datetime (wb_created_at b) ->
  exists d, _workforce_binding_to_dict b = JObj d /\ _workforce_binding_from_dict d = Ret b.
Proof.
  intros Hv. unfold _workforce_binding_from_dict. eexists. split; [reflexivity |].
  rewrite (dt_from_iso_spec _ "created_at" (wb_created_at b)) by done.
  cbn -[map]. rewrite map_map. cbn. rewrite map_id. by destruct b.
Qed.

Lemma report_roundtrip r :
  valid_datetime (cp_timestamp r) ->
  _completion_report_from_dict (_completion_report_to_dict r) = Ret (report_view r).
Proof.
  intros Hv. unfold _completion_report_from_dict.
  rewrite (dt_from_iso_spec _ "timestamp" (cp_timestamp r)) by done. unfold jpairs_field.
  rewrite (jopt_text_spec _ _ (completion_report_storage_uri r)) by done.
  rewrite (jopt_text_spec _ _ (completion_report_content_hash r)) by done.
  cbn -[jpairs_read jpairs text_view]. by rewrite jpairs_roundtrip.
Qed.

Lemma initialization_roundtrip s :
  valid_datetime (initialized_at s) ->
  _initialization_from_dict (_initialization_to_dict s) = Ret (initialization_view s).
Proof.
  intros Hv. unfold _initialization_from_dict.
  rewrite (dt_from_iso_spec _ "initialized_at" (initialized_at s)) by done. unfold jpairs_field.
  rewrite (jopt_text_spec _ _ (charter_storage_uri s)), (jopt_text_spec _ _ (charter_content_hash s)),
    (jopt_text_spec _ _ (scope_statement_storage_uri s)), (jopt_text_spec _ _ (scope_statement_content_hash s)),
    (jopt_text_spec _ _ (budget_plan_storage_uri s)), (jopt_text_spec _ _ (budget_plan_content_hash s)),
    (jopt_text_spec _ _ (metric_plan_storage_uri s)), (jopt_text_spec _ _ (metric_plan_content_hash s)),
    (jopt_text_spec _ _ (workforce_plan_storage_uri s)), (jopt_text_spec _ _ (workforce_plan_content_hash s)),
    (jopt_text_spec _ _ (execution_plan_storage_uri s)), (jopt_text_spec _ _ (execution_plan_content_hash s)) by done.
  cbn -[jpairs_read jpairs text_view]. by rewrite !jpairs_roundtrip.
Qed.

Lemma project_row_read p : valid_times p -> _project_from_row (_project_to_row p) = Ret (project_view p).
Proof.
  intros (H1 & H2 & H3 & H4 & H5 & H6 & H7). unfold _project_from_row, _project_to_row.
  cbn [row_status row_transitions row_proposal_messages row_proposal_approvals row_completion_report
    row_completion_approvals row_initialization row_workforce_bindings].
  rewrite parse_status_str. cbn [obind read_list].
  rewrite (read_items_map _ _ _ _ transition_roundtrip H1). cbn [obind].
  rewrite (read_items_map _ _ _ _ message_roundtrip H2). cbn [obind].
  rewrite (read_items_map _ _ _ _ approval_roundtrip H3). cbn [obind].
  assert (read_opt _completion_report_from_dict
    ((fun r => JObj (_completion_report_to_dict r)) <$> p_completion_report p) =
    Ret (report_view <$> p_completion_report p)) as ->.
  { destruct (p_completion_report p) as [r |]; [| done]. cbn -[_completion_report_from_dict _completion_report_to_dict].
    by rewrite report_roundtrip by auto. }
  cbn [obind]. rewrite (read_items_map _ _ _ _ approval_roundtrip H5). cbn [obind].
  assert (read_opt _initialization_from_dict
    ((fun s => JObj (_initialization_to_dict s)) <$> p_initialization p) =
    Ret (initialization_view <$> p_initialization p)) as ->.
  { destruct (p_initialization p) as [s |]; [| done]. cbn -[_initialization_from_dict _initialization_to_dict].
    by rewrite initialization_roundtrip by auto. }
  cbn [obind]. rewrite (read_items_map _ _ _ _ binding_roundtrip H7). cbn [obind].
  cbn -[jpairs_read jpairs]. by rewrite jpairs_roundtrip.
Qed.

Lemma valid_times_view p : valid_times p -> valid_times (project_view p).
Proof.
  intros (H1 & H2 & H3 & H4 & H5 & H6 & H7). unfold valid_times, project_view. cbn.
  split_and!; try done.
  - intros r Hr. destruct (p_completion_report p) as [r0 |]; [| done]. injection Hr as <-.
    exact (H4 r0 eq_refl).
  - intros s Hs. destruct (p_initialization p) as [s0 |]; [| done]. injection Hs as <-.
    exact (H6 s0 eq_refl).
Qed.

(** The optional texts of a project. *)
Definition optional_texts (p : ProjectRecord) : list (option string) :=
  p_completion_owner_notification_trace_id p ::
  match p_completion_report p with
  | Some r => [completion_report_storage_uri r; completion_report_content_hash r]
  | None => []
  end ++
  match p_initialization p with
  | Some s =>
      [charter_storage_uri s; charter_content_hash s; scope_statement_storage_uri s;
       scope_statement_content_hash s; budget_plan_storage_uri s; budget_plan_content_hash s;
       metric_plan_storage_uri s; metric_plan_content_hash s; workforce_plan_storage_uri s;
       workforce_plan_content_hash s; execution_plan_storage_uri s; execution_plan_content_hash s]
  | None => []
  end.

Lemma text_view_id x : x <> Some "" -> text_view x = x.
Proof.
  destruct x as [s |]; [| done]. intros H. unfold text_view, or_none.
  assert (truthy s = true) as -> by (apply truthy_true; congruence). done.
Qed.

Lemma project_view_id p : Forall (fun x => x <> Some "") (optional_texts p) -> project_view p = p.
Proof.
  destruct p as [? ? ? ? ? ? ? ? ? ? rep ? ? ? ini ?]. unfold optional_texts, project_view. cbn.
  rewrite Forall_cons, Forall_app. intros (Hn & Hr & Hi). rewrite text_view_id by done. f_equal.
  - destruct rep as [r |]; [| done]. cbn. f_equal. destruct r. unfold report_view. cbn in *.
    rewrite !Forall_cons in Hr. destruct Hr as (? & ? & _). by rewrite !text_view_id.
  - destruct ini as [s |]; [| done]. cbn. f_equal. destruct s. unfold initialization_view. cbn in *.
    rewrite !Forall_cons in Hi. destruct_and! Hi. by rewrite !text_view_id.
Qed.

(** * Theorems *)

(** C35: a project survives storage.  Reading back the row of a project whose
    instants are representable answers a project that is stored and read
    unchanged from then on, and it is the project itself when no optional text
    (storage URI, content hash, notification trace id) is the empty string. *)
Theorem project_row_roundtrip p :
  valid_times p ->
  exists q, _project_from_row (_project_to_row p) = Ret q /\
    _project_from_row (_project_to_row q) = Ret q /\
    (Forall (fun x => x <> Some "") (optional_texts p) -> q = p).
Proof.
  intros Hv. exists (project_view p). split; [by apply project_row_read |]. split.
  - rewrite project_row_read by (by apply valid_times_view). by rewrite project_view_idem.
  - apply project_view_id.
Qed.

Definition sample_instant : datetime := mk_datetime 2026 3 24 12 0 0 250.

Definition sample_report : CompletionReportRecord :=
  mk_CompletionReport "rep-1" "p1" "pm-1" "project_manager" "done" [("kpi", "ok")] "tr" None
    (Some "abc") sample_instant.

Definition sample_project (st : ProjectStatus) : ProjectRecord :=
  {| p_id := "p1"; p_name := "Alpha"; p_objective := "ship"; p_status := st;
     p_created_at := sample_instant; p_updated_at := sample_instant; p_metadata := [("k", "v")];
     p_transitions := [mk_Transition "p1" "proposed" "approved" "r" "ceo" "tr" sample_instant []];
     p_proposal_messages := []; p_proposal_approvals :=
       [mk_Approval "a1" "p1" "owner-1" "owner" "tr" sample_instant];
     p_completion_report := Some sample_report; p_completion_approvals := [];
     p_completion_owner_notified_at := None; p_completion_owner_notification_trace_id := None;
     p_initialization := None; p_workforce_bindings := [] |}.

Lemma sample_instant_valid : valid_datetime sample_instant.
Proof. unfold valid_datetime, sample_instant; cbn; lia. Qed.

Lemma sample_project_valid st : valid_times (sample_project st).
Proof.
  unfold valid_times, sample_project. cbn.
  split_and!; try (repeat constructor; apply sample_instant_valid); try done.
  intros r [= <-]. apply sample_instant_valid.
Qed.

Lemma project_row_roundtrip_witness :
  _project_from_row (_project_to_row (sample_project Active)) = Ret (sample_project Active).
Proof.
  destruct (project_row_roundtrip (sample_project Active) (sample_project_valid Active))
    as (q & Hq & _ & Hid).
  rewrite Hq. rewrite Hid; [reflexivity |]. cbn. repeat constructor; discriminate.
Defined.
