(* ===== verification/ProjectRepo.v ===== *)
(** The project repository: lifecycle operations on the projects table.

    Models the class [PostgresProjectRepository] of
    [data_access/repositories/postgres/project_repository.py].  Every write
    loads the project, checks its guards in Python, and replaces the whole row;
    the part after the load is a definition of its own ([.._of]), because
    another writer may commit between the two.

    [uuid] and [now] are what [uuid4()] and [datetime.now(tz=UTC)] answered. *)

From S2P Require Import Prelude PyStr PyData LlmSchemas ProjectModel ProjectRows.

Abbreviation projects := (gmap string project_row).

(** ** Reading *)

Definition get_project (pid : string) : M projects (option ProjectRecord) :=
  let! row := gets (fun t => t !! pid) in
  match row with
  | None => ret None
  | Some r => let! p := of_outcome (_project_from_row r) in ret (Some p)
  end.

(** [ORDER BY created_at ASC, project_id ASC]. *)
Definition row_leb (a b : project_row) : bool :=
  dt_ltb (row_created_at a) (row_created_at b) ||
  (negb (dt_ltb (row_created_at b) (row_created_at a)) && str_leb (row_project_id a) (row_project_id b)).

Fixpoint read_rows (rows : list project_row) : outcome (list ProjectRecord) :=
  match rows with
  | [] => Ret []
  | r :: rows' =>
      let? p := _project_from_row r in
      let? ps := read_rows rows' in
      Ret (p :: ps)
  end.

Definition list_projects : M projects (list ProjectRecord) :=
  let! rows := gets (fun t => sorted row_leb (map snd (map_to_list t))) in
  of_outcome (read_rows rows).

Definition _upsert_project (p : ProjectRecord) : M projects unit :=
  modify (insert (p_id p) (_project_to_row p)).

(** ** [dataclasses.replace] on a project *)

Definition replace_status (st : ProjectStatus) (now : datetime)
    (transition : ProjectStatusTransitionRecord) (p : ProjectRecord) : ProjectRecord :=
  {| p_id := p_id p; p_name := p_name p; p_objective := p_objective p; p_status := st;
     p_created_at := p_created_at p; p_updated_at := now; p_metadata := p_metadata p;
     p_transitions := p_transitions p ++ [transition];
     p_proposal_messages := p_proposal_messages p; p_proposal_approvals := p_proposal_approvals p;
     p_completion_report := p_completion_report p; p_completion_approvals := p_completion_approvals p;
     p_completion_owner_notified_at := p_completion_owner_notified_at p;
     p_completion_owner_notification_trace_id := p_completion_owner_notification_trace_id p;
     p_initialization := p_initialization p; p_workforce_bindings := p_workforce_bindings p |}.

Definition replace_collections (now : datetime) (messages : list ProposalMessageRecord)
    (approvals completion : list ApprovalRecord) (bindings : list WorkforceBindingRecord)
    (p : ProjectRecord) : ProjectRecord :=
  {| p_id := p_id p; p_name := p_name p; p_objective := p_objective p; p_status := p_status p;
     p_created_at := p_created_at p; p_updated_at := now; p_metadata := p_metadata p;
     p_transitions := p_transitions p; p_proposal_messages := messages;
     p_proposal_approvals := approvals; p_completion_report := p_completion_report p;
     p_completion_approvals := completion;
     p_completion_owner_notified_at := p_completion_owner_notified_at p;
     p_completion_owner_notification_trace_id := p_completion_owner_notification_trace_id p;
     p_initialization := p_initialization p; p_workforce_bindings := bindings |}.

Definition replace_completion (now : datetime) (report : option CompletionReportRecord)
    (notified : option datetime) (trace : option string) (init : option ProjectInitializationSnapshot)
    (p : ProjectRecord) : ProjectRecord :=
  {| p_id := p_id p; p_name := p_name p; p_objective := p_objective p; p_status := p_status p;
     p_created_at := p_created_at p; p_updated_at := now; p_metadata := p_metadata p;
     p_transitions := p_transitions p; p_proposal_messages := p_proposal_messages p;
     p_proposal_approvals := p_proposal_approvals p; p_completion_report := report;
     p_completion_approvals := p_completion_approvals p;
     p_completion_owner_notified_at := notified;
     p_completion_owner_notification_trace_id := trace;
     p_initialization := init; p_workforce_bindings := p_workforce_bindings p |}.

(** ** Guards *)

Definition approval_roles (l : list ApprovalRecord) : list string := map ap_actor_role l.

Definition has_roles (required : list string) (l : list ApprovalRecord) : bool :=
  forallb (fun r => mem r (approval_roles l)) required.

Definition _has_triad_approvals (p : ProjectRecord) : bool :=
  has_roles ["owner"; "ceo"; "cwo"] (p_proposal_approvals p).

Definition _has_completion_approvals (p : ProjectRecord) : bool :=
  has_roles ["ceo"; "cwo"] (p_completion_approvals p).

Definition _assert_completion_transition_allowed (p : ProjectRecord) (actor_role : string) : outcome unit :=
  let normalized_role := norm actor_role in
  if negb (mem normalized_role ["ceo"; "cwo"]) then
    Raise (GovernanceRepositoryError "governance_project_completion_role_forbidden"
             "completion finalization is limited to ceo or cwo")
  else
    match p_completion_report p with
    | None => Raise (GovernanceRepositoryError "governance_project_completion_report_missing"
                       "project completion report is required before completion transition")
    | Some _ =>
        match List.filter (fun r => negb (mem r (approval_roles (p_completion_approvals p)))) ["ceo"; "cwo"] with
        | _ :: _ as missing_roles =>
            Raise (GovernanceRepositoryError "governance_project_completion_approval_missing"
                     ("project completion approvals are missing for roles: " +:+ join "," missing_roles))
        | [] =>
            match p_completion_owner_notified_at p with
            | None =>
                Raise (GovernanceRepositoryError "governance_project_completion_owner_notification_missing"
                         "owner notification must be recorded before completion transition")
            | Some _ => Ret tt
            end
        end
    end.

(** [except ProjectLifecycleError as error: raise GovernanceRepositoryError(..)]. *)
Definition lift_lifecycle {A} (o : outcome A) : outcome A :=
  match o with
  | Raise (ProjectLifecycleError code message) => Raise (GovernanceRepositoryError code message)
  | _ => o
  end.

(** ** Writing *)

Definition with_project {A} (pid : string) (k : ProjectRecord -> M projects A) : M projects A :=
  let! project := get_project pid in
  match project with
  | None => raise (GovernanceRepositoryError "governance_project_missing" ("project not found: " +:+ pid))
  | Some p => k p
  end.

Definition create_project (uuid : string) (now : datetime) (name objective : string)
    (pid : option string) (st : string) (md : option (list (string * string))) : M projects ProjectRecord :=
  let! normalized_status := of_outcome (parse_project_status st) in
  if bool_decide (normalized_status <> Proposed) then
    raise (GovernanceRepositoryError "governance_project_invalid_create_state"
             "project creation state must be proposed")
  else
    let candidate_id := opt_or pid uuid in
    let! existing := get_project candidate_id in
    match existing with
    | Some _ => raise (GovernanceRepositoryError "governance_project_exists"
                         ("project already exists: " +:+ candidate_id))
    | None =>
        let p := {| p_id := candidate_id; p_name := strip name; p_objective := strip objective;
                    p_status := normalized_status; p_created_at := now; p_updated_at := now;
                    p_metadata := default [] (sorted pair_leb <$> md);
                    p_transitions := []; p_proposal_messages := []; p_proposal_approvals := [];
                    p_completion_report := None; p_completion_approvals := [];
                    p_completion_owner_notified_at := None;
                    p_completion_owner_notification_trace_id := None;
                    p_initialization := None; p_workforce_bindings := [] |} in
        _upsert_project p ;! ret p
    end.

Definition transition_of (now : datetime) (next_status reason actor_role trace : string)
    (md : option (list (string * string))) (p : ProjectRecord) : M projects ProjectRecord :=
  let! normalized_next :=
    of_outcome (lift_lifecycle (assert_project_transition (status_str (p_status p)) next_status)) in
  (if bool_decide (normalized_next = Completed)
   then of_outcome (_assert_completion_transition_allowed p actor_role) else ret tt) ;!
  let transition := mk_Transition (p_id p) (status_str (p_status p)) (status_str normalized_next)
        (strip reason) (strip actor_role) (strip trace) now (default [] (sorted pair_leb <$> md)) in
  let updated := replace_status normalized_next now transition p in
  _upsert_project updated ;! ret updated.

Definition transition_project_status (now : datetime) (pid next_status reason actor_role trace : string)
    (md : option (list (string * string))) : M projects ProjectRecord :=
  with_project pid (transition_of now next_status reason actor_role trace md).

Definition proposal_message_of (uuid : string) (now : datetime) (pid actor role text trace : string)
    (p : ProjectRecord) : M projects ProposalMessageRecord :=
  if bool_decide (p_status p <> Proposed) then
    raise (GovernanceRepositoryError "governance_project_not_proposed"
             "proposal discussions are only allowed while project status is proposed")
  else
    let message := mk_ProposalMessage uuid pid (strip actor) (strip role) (strip text) (strip trace) now in
    _upsert_project (replace_collections now (p_proposal_messages p ++ [message])
                       (p_proposal_approvals p) (p_completion_approvals p) (p_workforce_bindings p) p) ;!
    ret message.

Definition add_proposal_message (uuid : string) (now : datetime) (pid actor role text trace : string)
    : M projects ProposalMessageRecord :=
  with_project pid (proposal_message_of uuid now pid actor role text trace).

(** [next((a for a in approvals if a.actor_role == role), None)]. *)
Definition find_approval (role : string) (l : list ApprovalRecord) : option ApprovalRecord :=
  List.find (fun a => String.eqb (ap_actor_role a) role) l.

(** [later] is the clock of the promotion that may follow. *)
Definition proposal_approval_of (uuid : string) (now later : datetime) (pid actor role trace : string)
    (p : ProjectRecord) : M projects (ProjectRecord * bool) :=
  let normalized_role := strip role in
  if bool_decide (p_status p <> Proposed) then
    raise (GovernanceRepositoryError "governance_project_not_proposed"
             "proposal approvals are only allowed while project status is proposed")
  else
    match find_approval normalized_role (p_proposal_approvals p) with
    | Some existing =>
        if String.eqb (ap_actor_id existing) (strip actor) then ret (p, false)
        else raise (GovernanceRepositoryError "governance_approval_role_conflict"
                      ("proposal role already approved by another actor: " +:+ normalized_role))
    | None =>
        let approval := mk_Approval uuid pid (strip actor) normalized_role (strip trace) now in
        let updated := replace_collections now (p_proposal_messages p)
              (p_proposal_approvals p ++ [approval]) (p_completion_approvals p)
              (p_workforce_bindings p) p in
        _upsert_project updated ;!
        if _has_triad_approvals updated then
          let! promoted := transition_project_status later pid "approved" "proposal_triad_approved"
                             normalized_role trace None in
          ret (promoted, true)
        else ret (updated, true)
    end.

Definition record_proposal_approval (uuid : string) (now later : datetime) (pid actor role trace : string)
    : M projects (ProjectRecord * bool) :=
  with_project pid (proposal_approval_of uuid now later pid actor role trace).

Definition completion_report_of (uuid : string) (now : datetime) (pid actor role text : string)
    (metrics : option (list (string * string))) (trace : string) (p : ProjectRecord)
    : M projects CompletionReportRecord :=
  if bool_decide (p_status p <> Active) then
    raise (GovernanceRepositoryError "governance_project_not_active"
             "completion report requires active project status")
  else
    let normalized_actor_role := norm role in
    if negb (String.eqb normalized_actor_role "project_manager") then
      raise (GovernanceRepositoryError "governance_project_completion_report_role_forbidden"
               "completion report submission is limited to project_manager")
    else
      match p_completion_report p with
      | Some _ => raise (GovernanceRepositoryError "governance_project_completion_report_exists"
                           "completion report already exists for project")
      | None =>
          let report := mk_CompletionReport uuid pid (strip actor) normalized_actor_role (strip text)
                (default [] (sorted pair_leb <$> metrics)) (strip trace) None None now in
          _upsert_project (replace_completion now (Some report) (p_completion_owner_notified_at p)
                             (p_completion_owner_notification_trace_id p) (p_initialization p) p) ;!
          ret report
      end.

Definition submit_completion_report (uuid : string) (now : datetime) (pid actor role text : string)
    (metrics : option (list (string * string))) (trace : string) : M projects CompletionReportRecord :=
  with_project pid (completion_report_of uuid now pid actor role text metrics trace).

Definition completion_approval_of (uuid : string) (now : datetime) (pid actor role trace : string)
    (p : ProjectRecord) : M projects (ProjectRecord * bool) :=
  let normalized_role := norm role in
  if bool_decide (p_status p <> Active) then
    raise (GovernanceRepositoryError "governance_project_not_active"
             "completion approvals require active project status")
  else
    match p_completion_report p with
    | None => raise (GovernanceRepositoryError "governance_project_completion_report_missing"
                       "completion report must be submitted before approval")
    | Some _ =>
        match find_approval normalized_role (p_completion_approvals p) with
        | Some existing =>
            if String.eqb (ap_actor_id existing) (strip actor) then ret (p, false)
            else raise (GovernanceRepositoryError "governance_approval_role_conflict"
                          ("completion role already approved by another actor: " +:+ normalized_role))
        | None =>
            let approval := mk_Approval uuid pid (strip actor) normalized_role (strip trace) now in
            let updated := replace_collections now (p_proposal_messages p) (p_proposal_approvals p)
                  (p_completion_approvals p ++ [approval]) (p_workforce_bindings p) p in
            _upsert_project updated ;!
            if _has_completion_approvals updated then ret (updated, true) else ret (updated, true)
        end
    end.

Definition record_completion_approval (uuid : string) (now : datetime) (pid actor role trace : string)
    : M projects (ProjectRecord * bool) :=
  with_project pid (completion_approval_of uuid now pid actor role trace).

Definition owner_notified_of (now : datetime) (trace : string) (p : ProjectRecord) : M projects ProjectRecord :=
  let updated := replace_completion now (p_completion_report p) (Some now) (Some (strip trace))
                   (p_initialization p) p in
  _upsert_project updated ;! ret updated.

Definition record_completion_owner_notified (now : datetime) (pid trace : string) : M projects ProjectRecord :=
  with_project pid (owner_notified_of now trace).

Definition initialization_of (now : datetime) (snapshot : ProjectInitializationSnapshot)
    (p : ProjectRecord) : M projects ProjectRecord :=
  let! normalized_next :=
    of_outcome (lift_lifecycle (assert_project_transition (status_str (p_status p)) "active")) in
  let transition := mk_Transition (p_id p) (status_str (p_status p)) (status_str normalized_next)
        "cwo_initialization" (is_actor_role snapshot) (is_trace_id snapshot) now [] in
  let updated := replace_status normalized_next now transition
        (replace_completion now (p_completion_report p) (p_completion_owner_notified_at p)
           (p_completion_owner_notification_trace_id p) (Some snapshot) p) in
  _upsert_project updated ;! ret updated.

Definition record_initialization (now : datetime) (pid : string)
    (snapshot : ProjectInitializationSnapshot) : M projects ProjectRecord :=
  with_project pid (initialization_of now snapshot).

Definition workforce_of (now : datetime) (binding : WorkforceBindingRecord) (p : ProjectRecord)
    : M projects ProjectRecord :=
  let updated := replace_collections now (p_proposal_messages p) (p_proposal_approvals p)
        (p_completion_approvals p) (p_workforce_bindings p ++ [binding]) p in
  _upsert_project updated ;! ret updated.

Definition bind_workforce (now : datetime) (pid : string) (binding : WorkforceBindingRecord)
    : M projects ProjectRecord :=
  with_project pid (workforce_of now binding).

(** * Invariant *)

(** A list of transitions is a path of the lifecycle. *)
Fixpoint chain (cur : ProjectStatus) (l : list ProjectStatusTransitionRecord) : option ProjectStatus :=
  match l with
  | [] => Some cur
  | t :: l' =>
      match status_of_str (to_status t) with
      | Some next =>
          if String.eqb (from_status t) (status_str cur) && bool_decide (In next (_ALLOWED_TRANSITIONS cur))
          then chain next l' else None
      | None => None
      end
  end.

Definition was_completed (p : ProjectRecord) : Prop := In "completed" (map to_status (p_transitions p)).

Record project_ok (p : ProjectRecord) : Prop := {
  ok_path : chain Proposed (p_transitions p) = Some (p_status p);
  ok_proposal_roles : NoDup (approval_roles (p_proposal_approvals p));
  ok_completion_roles : NoDup (approval_roles (p_completion_approvals p));
  ok_triad : p_status p <> Proposed -> _has_triad_approvals p = true;
  ok_completed : was_completed p ->
    is_Some (p_completion_report p) /\ _has_completion_approvals p = true /\
    is_Some (p_completion_owner_notified_at p)
}.

(** What later writes keep: identity is fixed and histories only grow. *)
Record project_evolves (p q : ProjectRecord) : Prop := {
  ev_id : p_id q = p_id p;
  ev_name : p_name q = p_name p;
  ev_objective : p_objective q = p_objective p;
  ev_created : p_created_at q = p_created_at p;
  ev_metadata : p_metadata q = p_metadata p;
  ev_transitions : p_transitions p `prefix_of` p_transitions q;
  ev_messages : p_proposal_messages p `prefix_of` p_proposal_messages q;
  ev_approvals : p_proposal_approvals p `prefix_of` p_proposal_approvals q;
  ev_completion : p_completion_approvals p `prefix_of` p_completion_approvals q;
  ev_bindings : p_workforce_bindings p `prefix_of` p_workforce_bindings q;
  ev_report : forall r, p_completion_report p = Some r -> p_completion_report q = Some r
}.

#[export] Instance project_evolves_preorder : PreOrder project_evolves.
Proof.
  split; [by intros p; split |]. intros a b c [] []. split; try congruence; try (by etransitivity).
  auto.
Qed.

(** [p] is what the repository reads at [pid]. *)
Definition reads (t : projects) (pid : string) (p : ProjectRecord) : Prop :=
  exists row, t !! pid = Some row /\ _project_from_row row = Ret p.

Definition good (t : projects) : Prop :=
  forall k row, t !! k = Some row ->
    exists p, row = _project_to_row p /\ p_id p = k /\ valid_times p /\ project_ok p.

Definition table_evolves (t t' : projects) : Prop :=
  forall k p, reads t k p -> exists q, reads t' k q /\ project_evolves p q.

(** From a good table, a good table with longer histories. *)
Definition sound_step (t t' : projects) : Prop := good t -> good t' /\ table_evolves t t'.

#[export] Instance sound_step_preorder : PreOrder sound_step.
Proof.
  split.
  - intros t Ht. split; [done |]. intros k p Hp. by exists p.
  - intros a b c H1 H2 Ha. destruct (H1 Ha) as [Hb E1]. destruct (H2 Hb) as [Hc E2].
    split; [done |]. intros k p Hp. destruct (E1 k p Hp) as (q & Hq & Hpq).
    destruct (E2 k q Hq) as (r & Hr & Hqr). exists r. split; [done | by etransitivity].
Qed.

Lemma project_ok_view p : project_ok p -> project_ok (project_view p).
Proof.
  intros []. split; try done. intros H. destruct (ok_completed0 H) as (Hr & ? & ?).
  split_and!; try done. cbn. by destruct (p_completion_report p), Hr.
Qed.

(** Everything known of a loaded project. *)
Lemma reads_good t pid p :
  good t -> reads t pid p ->
  p_id p = pid /\ valid_times p /\ project_ok p /\ project_view p = p.
Proof.
  intros Ht (row & Hrow & Hread). destruct (Ht _ _ Hrow) as (p0 & -> & Hid & Hv & Hok).
  rewrite project_row_read in Hread by done. injection Hread as <-.
  split; [done |]. split; [by apply valid_times_view |].
  split; [by apply project_ok_view | apply project_view_idem].
Qed.

Lemma reads_fun t pid p q : reads t pid p -> reads t pid q -> p = q.
Proof. intros (r & Hr & Hp) (r' & Hr' & Hq). rewrite Hr in Hr'. injection Hr' as <-. congruence. Qed.

Lemma evolves_view p q : project_evolves p q -> project_view p = p -> project_evolves p (project_view q).
Proof.
  intros [] Hp. split; try done. intros r Hr. cbn. rewrite (ev_report0 r Hr). cbn. f_equal.
  rewrite <- Hp in Hr. cbn in Hr. destruct (p_completion_report p) as [r0 |]; [| done].
  injection Hr as <-. unfold report_view. cbn. by rewrite !text_view_idem.
Qed.

Lemma reads_insert t p : valid_times p -> reads (<[p_id p := _project_to_row p]> t) (p_id p) (project_view p).
Proof.
  intros Hv. exists (_project_to_row p). rewrite lookup_insert_eq. split; [done |]. by apply project_row_read.
Qed.

(** Replacing a loaded project by a sound successor. *)
Lemma upsert_sound t p q :
  reads t (p_id p) p -> valid_times q -> project_ok q -> project_evolves p q ->
  sound_step t (<[p_id q := _project_to_row q]> t).
Proof.
  intros Hread Hv Hok Hev Ht. destruct (reads_good _ _ _ Ht Hread) as (_ & _ & _ & Hview).
  pose proof (ev_id _ _ Hev) as Hid. split.
  - intros k row. destruct (decide (p_id q = k)) as [<- | Hne].
    + rewrite lookup_insert_eq. intros [= <-]. by exists q.
    + rewrite lookup_insert_ne by done. apply Ht.
  - intros k x Hx. destruct (decide (p_id q = k)) as [<- | Hne].
    + exists (project_view q). split; [by apply reads_insert |].
      rewrite Hid in Hx. rewrite (reads_fun _ _ _ _ Hx Hread). by apply evolves_view.
    + exists x. destruct Hx as (row & Hrow & Hx). split; [| done]. exists row.
      by rewrite lookup_insert_ne.
Qed.

(** A new project. *)
Lemma insert_sound t p :
  t !! p_id p = None -> valid_times p -> project_ok p ->
  sound_step t (<[p_id p := _project_to_row p]> t).
Proof.
  intros Hn Hv Hok Ht. split.
  - intros k row. destruct (decide (p_id p = k)) as [<- | Hne].
    + rewrite lookup_insert_eq. intros [= <-]. by exists p.
    + rewrite lookup_insert_ne by done. apply Ht.
  - intros k x (row & Hrow & Hx). exists x. split; [| done]. exists row.
    rewrite lookup_insert_ne by congruence. done.
Qed.

Lemma sound_get_project pid : tracks sound_step (get_project pid).
Proof.
  intros t. unfold get_project, bind, gets, of_outcome, ret. destruct (t !! pid); [| done].
  by destruct (_project_from_row _).
Qed.

(** A write is sound if its continuation is, on every project it can load. *)
Lemma sound_with_project {A} pid (k : ProjectRecord -> M projects A) :
  (forall t p, good t -> reads t pid p -> sound_step t (k p t).2) ->
  tracks sound_step (with_project pid k).
Proof.
  intros Hk t Ht. revert Ht. change (sound_step t (with_project pid k t).2).
  unfold with_project, get_project, bind, gets, of_outcome, ret, raise.
  destruct (t !! pid) as [row |] eqn:Hrow; [| done].
  destruct (_project_from_row row) as [p | x] eqn:Hp; [| done].
  intros Ht. apply (Hk t p); [done | by exists row | done].
Qed.

Lemma run_upsert {A} q (k : M projects A) t :
  (_upsert_project q ;! k) t = k (<[p_id q := _project_to_row q]> t).
Proof. done. Qed.

(** ** Local facts of the guards *)

Lemma chain_snoc cur l st t next :
  chain cur l = Some st -> from_status t = status_str st -> to_status t = status_str next ->
  In next (_ALLOWED_TRANSITIONS st) -> chain cur (l ++ [t]) = Some next.
Proof.
  intros Hc Hf Ht Hin. revert cur Hc. induction l as [| u l IH]; intros cur; cbn [chain app].
  - intros [= ->]. rewrite Ht, status_of_str_str, Hf, String.eqb_refl. cbn [andb].
    by rewrite bool_decide_true.
  - destruct (status_of_str (to_status u)); [| done]. destruct (_ && _); [apply IH | done].
Qed.

Lemma was_completed_snoc p st now t :
  was_completed (replace_status st now t p) <-> was_completed p \/ to_status t = "completed".
Proof.
  unfold was_completed. cbn [p_transitions replace_status]. rewrite map_app, in_app_iff. cbn. tauto.
Qed.

Lemma find_approval_none role l : find_approval role l = None -> ~ In role (approval_roles l).
Proof.
  intros H Hin. apply in_map_iff in Hin as (a & Ha & Hin).
  pose proof (List.find_none _ _ H a Hin) as Hf. cbn in Hf. rewrite Ha, String.eqb_refl in Hf. done.
Qed.

Lemma roles_snoc_nodup l a :
  NoDup (approval_roles l) -> find_approval (ap_actor_role a) l = None ->
  NoDup (approval_roles (l ++ [a])).
Proof.
  intros Hn Hf. unfold approval_roles. rewrite map_app. apply NoDup_app. split; [done |]. split.
  - intros x Hx [-> | []%elem_of_nil]%elem_of_cons. apply (find_approval_none _ _ Hf).
    by apply list_elem_of_In.
  - apply NoDup_singleton.
Qed.

Lemma has_roles_prefix required l l' :
  l `prefix_of` l' -> has_roles required l = true -> has_roles required l' = true.
Proof.
  intros [k ->]. unfold has_roles, approval_roles. rewrite !forallb_forall. intros H x Hx.
  apply mem_In. rewrite map_app, in_app_iff. left. by apply mem_In, H.
Qed.

Lemma completion_allowed_ret p role :
  _assert_completion_transition_allowed p role = Ret tt ->
  is_Some (p_completion_report p) /\ _has_completion_approvals p = true /\
  is_Some (p_completion_owner_notified_at p) /\ In (norm role) ["ceo"; "cwo"].
Proof.
  unfold _assert_completion_transition_allowed. destruct (mem (norm role) _) eqn:Er; [| done]. cbn [negb].
  destruct (p_completion_report p); [| done]. cbn [List.filter].
  unfold _has_completion_approvals, has_roles. cbn [forallb].
  destruct (mem "ceo" _), (mem "cwo" _); cbn [negb]; try done.
  destruct (p_completion_owner_notified_at p); [| done]. intros _.
  split_and!; try done. by apply mem_In.
Qed.

(** ** Every operation is sound *)

Ltac evolves_tac := split; try done; try (by eexists); cbn; try (by apply prefix_app_r); auto.

Lemma replace_status_ok p st now t :
  valid_times p -> project_ok p -> valid_datetime now ->
  In st (_ALLOWED_TRANSITIONS (p_status p)) ->
  tn_timestamp t = now -> from_status t = status_str (p_status p) -> to_status t = status_str st ->
  (st = Approved -> _has_triad_approvals p = true) ->
  (st = Completed -> is_Some (p_completion_report p) /\ _has_completion_approvals p = true /\
     is_Some (p_completion_owner_notified_at p)) ->
  valid_times (replace_status st now t p) /\ project_ok (replace_status st now t p).
Proof.
  intros (V1 & V2 & V3 & V4 & V5 & V6 & V7) [O1 O2 O3 O4 O5] Hnow Hin Ht Hf Hto Htri Hcomp. split.
  - unfold valid_times. cbn. split_and!; try done. apply Forall_app. split; [done |].
    constructor; [by rewrite Ht | constructor].
  - split; try done.
    + cbn. by eapply chain_snoc.
    + intros Hne. cbn in Hne |- *. destruct (decide (p_status p = Proposed)) as [Hp | Hp]; [| by apply O4].
      rewrite Hp in Hin. destruct Hin as [<- | [<- | []]]; [done | by apply Htri].
    + rewrite was_completed_snoc. intros [H | H]; [by apply O5 |]. apply Hcomp.
      rewrite Hto in H. by destruct st.
Qed.

Lemma sound_transition_of now next reason role trace md t p :
  good t -> reads t (p_id p) p -> valid_datetime now ->
  (parse_project_status next = Ret Approved -> _has_triad_approvals p = true) ->
  sound_step t (transition_of now next reason role trace md p t).2.
Proof.
  intros Ht Hread Hnow Htri. destruct (reads_good _ _ _ Ht Hread) as (_ & Hv & Hok & _).
  unfold transition_of, bind at 1, of_outcome.
  destruct (lift_lifecycle _) as [st | x] eqn:El; [| done].
  assert (assert_project_transition (status_str (p_status p)) next = Ret st) as Ha.
  { unfold lift_lifecycle in El. destruct (assert_project_transition _ _) as [s | []]; simplify_eq; done. }
  pose proof (assert_transition_ret _ _ _ Ha) as Hin.
  assert (st = Approved -> _has_triad_approvals p = true) as Htri'.
  { intros ->. apply Htri. unfold assert_project_transition in Ha. rewrite parse_status_str in Ha.
    cbn [obind] in Ha. destruct (parse_project_status next); cbn [obind] in Ha; [| done].
    case_bool_decide; [| done]. by injection Ha as ->. }
  unfold bind at 1. set (guard := (if bool_decide (st = Completed) then _ else _ : M projects unit) t).
  assert ((guard = (Ret tt, t) /\ (st = Completed -> is_Some (p_completion_report p) /\
            _has_completion_approvals p = true /\ is_Some (p_completion_owner_notified_at p))) \/
          exists x, guard = (Raise x, t)) as [[-> Hcomp] | [x ->]]; [| | done].
  { subst guard. case_bool_decide as Hc; unfold ret.
    - destruct (_assert_completion_transition_allowed p role) as [[] | x] eqn:Eg; [left | by right; exists x].
      split; [done |]. intros _. apply completion_allowed_ret in Eg. by destruct_and! Eg.
    - left. done. }
  cbv zeta. rewrite run_upsert. unfold ret. cbn [snd].
  destruct (replace_status_ok p st now (mk_Transition (p_id p) (status_str (p_status p)) (status_str st)
    (strip reason) (strip role) (strip trace) now (default [] (sorted pair_leb <$> md)))
    Hv Hok Hnow Hin eq_refl eq_refl eq_refl Htri' Hcomp) as [Hv' Hok'].
  apply upsert_sound with p; try done. evolves_tac.
Qed.

Lemma sound_transition now pid next reason role trace md :
  valid_datetime now -> parse_project_status next <> Ret Approved ->
  tracks sound_step (transition_project_status now pid next reason role trace md).
Proof.
  intros Hnow Hnext. apply sound_with_project. intros t p Ht Hread.
  destruct (reads_good _ _ _ Ht Hread) as (<- & _). by apply sound_transition_of.
Qed.

Lemma sound_create uuid now name objective pid st md :
  valid_datetime now -> tracks sound_step (create_project uuid now name objective pid st md).
Proof.
  intros Hnow t. unfold create_project, bind at 1, of_outcome.
  destruct (parse_project_status st) as [s |]; [| done].
  case_bool_decide as Hs; [done |]. subst s. cbv zeta.
  unfold bind at 1, get_project, bind at 1, gets. destruct (t !! opt_or pid uuid) as [row |] eqn:Hrow.
  { unfold bind, of_outcome, ret. by destruct (_project_from_row row). }
  unfold ret at 1. cbv beta iota. rewrite run_upsert. cbn [snd ret].
  apply insert_sound; [done | | ].
  - unfold valid_times. cbn. split_and!; try done; constructor.
  - split; cbn; try done; try apply NoDup_nil_2; intros [].
Qed.

(** Updates that keep status, transitions and completion state. *)
Lemma sound_collections t p now messages approvals completion bindings :
  good t -> reads t (p_id p) p ->
  p_proposal_messages p `prefix_of` messages -> p_proposal_approvals p `prefix_of` approvals ->
  p_completion_approvals p `prefix_of` completion -> p_workforce_bindings p `prefix_of` bindings ->
  Forall (fun m => valid_datetime (pm_timestamp m)) messages ->
  Forall (fun a => valid_datetime (ap_timestamp a)) approvals ->
  Forall (fun a => valid_datetime (ap_timestamp a)) completion ->
  Forall (fun b => valid_datetime (wb_created_at b)) bindings ->
  NoDup (approval_roles approvals) -> NoDup (approval_roles completion) ->
  let q := replace_collections now messages approvals completion bindings p in
  sound_step t (<[p_id q := _project_to_row q]> t).
Proof.
  intros Ht Hread P1 P2 P3 P4 V1 V2 V3 V4 N1 N2 q.
  destruct (reads_good _ _ _ Ht Hread) as (_ & Hv & [O1 O2 O3 O4 O5] & _).
  apply upsert_sound with p; [done | | |].
  - destruct Hv as (? & ? & ? & ? & ? & ? & ?). by unfold valid_times, q; cbn; split_and!.
  - split; try done.
    + intros H. eapply has_roles_prefix; [exact P2 | by apply O4].
    + intros H. destruct (O5 H) as (? & ? & ?). split_and!; try done.
      by eapply has_roles_prefix.
  - by split.
Qed.

(** Updates of the completion report, the notification and the initialization. *)
Lemma sound_completion t p now report notified trace init :
  good t -> reads t (p_id p) p ->
  (forall r, p_completion_report p = Some r -> report = Some r) ->
  (is_Some (p_completion_owner_notified_at p) -> is_Some notified) ->
  (forall r, report = Some r -> valid_datetime (cp_timestamp r)) ->
  (forall s, init = Some s -> valid_datetime (initialized_at s)) ->
  let q := replace_completion now report notified trace init p in
  valid_times q /\ project_ok q /\ project_evolves p q.
Proof.
  intros Ht Hread Hrep Hnot Vr Vi q.
  destruct (reads_good _ _ _ Ht Hread) as (_ & Hv & [O1 O2 O3 O4 O5] & _). split_and!.
  - destruct Hv as (? & ? & ? & ? & ? & ? & ?). by unfold valid_times, q; cbn; split_and!.
  - split; try done. intros H. destruct (O5 H) as ([r Hr] & ? & ?). split_and!; [| done | by apply Hnot].
    exists r. cbn. by apply Hrep.
  - by split.
Qed.

Lemma valid_snoc {A} (f : A -> datetime) l x :
  Forall (fun a => valid_datetime (f a)) l -> valid_datetime (f x) ->
  Forall (fun a => valid_datetime (f a)) (l ++ [x]).
Proof. intros. apply Forall_app. split; [done |]. by constructor. Qed.

Lemma sound_message uuid now pid actor role text trace :
  valid_datetime now -> tracks sound_step (add_proposal_message uuid now pid actor role text trace).
Proof.
  intros Hnow. apply sound_with_project. intros t p Ht Hread.
  destruct (reads_good _ _ _ Ht Hread) as (<- & (? & ? & ? & ? & ? & ? & ?) & [] & _).
  unfold proposal_message_of. case_bool_decide; [done |]. cbv zeta. rewrite run_upsert.
  apply sound_collections; try done; [by apply prefix_app_r | by apply valid_snoc].
Qed.

Lemma sound_proposal_approval uuid now later pid actor role trace :
  valid_datetime now -> valid_datetime later ->
  tracks sound_step (record_proposal_approval uuid now later pid actor role trace).
Proof.
  intros Hnow Hlater. apply sound_with_project. intros t p Ht Hread.
  destruct (reads_good _ _ _ Ht Hread) as (<- & Hv & Hok & _).
  unfold proposal_approval_of. cbv zeta. case_bool_decide; [done |].
  destruct (find_approval (strip role) (p_proposal_approvals p)) as [a |] eqn:Ef.
  { by destruct (String.eqb _ _). }
  rewrite run_upsert. set (q := replace_collections _ _ _ _ _ p).
  assert (sound_step t (<[p_id q := _project_to_row q]> t)) as Hstep.
  { destruct Hv as (? & ? & ? & ? & ? & ? & ?), Hok. apply sound_collections; try done.
    - by apply prefix_app_r.
    - by apply valid_snoc.
    - by apply roles_snoc_nodup. }
  destruct (_has_triad_approvals q) eqn:Etri; [| exact Hstep].
  etransitivity; [exact Hstep |]. destruct (Hstep Ht) as [Hgood _].
  assert (reads (<[p_id q := _project_to_row q]> t) (p_id q) (project_view q)) as Hq.
  { apply reads_insert. destruct Hv as (? & ? & ? & ? & ? & ? & ?).
    unfold valid_times, q; cbn; split_and!; try done. by apply valid_snoc. }
  unfold bind, transition_project_status, with_project, get_project, bind, gets, of_outcome.
  destruct Hq as (row & Hrow & Hrd). change (p_id q) with (p_id p) in Hrow |- *. rewrite Hrow, Hrd.
  unfold ret at 1. cbv beta iota.
  assert (sound_step (<[p_id p := _project_to_row q]> t)
    (transition_of later "approved" "proposal_triad_approved" (strip role) trace None (project_view q)
       (<[p_id p := _project_to_row q]> t)).2) as Hlast.
  { apply sound_transition_of; [exact Hgood | by exists row | done | done]. }
  by destruct (transition_of later _ _ _ _ _ _ _) as [[] ?].
Qed.

Lemma sound_report uuid now pid actor role text metrics trace :
  valid_datetime now -> tracks sound_step (submit_completion_report uuid now pid actor role text metrics trace).
Proof.
  intros Hnow. apply sound_with_project. intros t p Ht Hread.
  destruct (reads_good _ _ _ Ht Hread) as (<- & Hv & Hok & _).
  unfold completion_report_of. cbv zeta. case_bool_decide; [done |].
  destruct (negb _); [done |]. destruct (p_completion_report p) as [r |] eqn:Er; [done |].
  rewrite run_upsert. set (q := replace_completion _ _ _ _ _ p).
  destruct (sound_completion t p now (Some (mk_CompletionReport uuid (p_id p) (strip actor) (norm role)
      (strip text) (default [] (sorted pair_leb <$> metrics)) (strip trace) None None now))
      (p_completion_owner_notified_at p) (p_completion_owner_notification_trace_id p)
      (p_initialization p)) as (H1 & H2 & H3); try done.
  - by rewrite Er.
  - by intros r [= <-].
  - destruct Hv as (_ & _ & _ & _ & _ & Hv & _). exact Hv.
  - by apply upsert_sound with p.
Qed.

Lemma sound_completion_approval uuid now pid actor role trace :
  valid_datetime now -> tracks sound_step (record_completion_approval uuid now pid actor role trace).
Proof.
  intros Hnow. apply sound_with_project. intros t p Ht Hread.
  destruct (reads_good _ _ _ Ht Hread) as (<- & (? & ? & ? & ? & ? & ? & ?) & [] & _).
  unfold completion_approval_of. cbv zeta. case_bool_decide; [done |].
  destruct (p_completion_report p); [| done].
  destruct (find_approval _ _) as [a |] eqn:Ef; [by destruct (String.eqb _ _) |].
  rewrite run_upsert.
  assert (forall (b : bool) (x : ProjectRecord * bool) s, (if b then ret x else ret x : M projects _) s = (Ret x, s)) as ->.
  { by intros []. }
  apply sound_collections; try done; [by apply prefix_app_r | by apply valid_snoc | by apply roles_snoc_nodup].
Qed.

Lemma sound_notified now pid trace :
  valid_datetime now -> tracks sound_step (record_completion_owner_notified now pid trace).
Proof.
  intros Hnow. apply sound_with_project. intros t p Ht Hread.
  destruct (reads_good _ _ _ Ht Hread) as (<- & (_ & _ & _ & V4 & _ & V6 & _) & _ & _).
  unfold owner_notified_of. cbv zeta. rewrite run_upsert.
  destruct (sound_completion t p now (p_completion_report p) (Some now) (Some (strip trace))
    (p_initialization p)) as (H1 & H2 & H3); try done. by apply upsert_sound with p.
Qed.

Lemma sound_initialization now pid snapshot :
  valid_datetime now -> valid_datetime (initialized_at snapshot) ->
  tracks sound_step (record_initialization now pid snapshot).
Proof.
  intros Hnow Hinit. apply sound_with_project. intros t p Ht Hread.
  destruct (reads_good _ _ _ Ht Hread) as (<- & (_ & _ & _ & V4 & _ & _ & _) & _ & _).
  unfold initialization_of, bind at 1, of_outcome.
  destruct (lift_lifecycle _) as [st | x] eqn:El; [| done].
  assert (assert_project_transition (status_str (p_status p)) "active" = Ret st) as Ha.
  { unfold lift_lifecycle in El. destruct (assert_project_transition _ _) as [s | []]; simplify_eq; done. }
  pose proof (assert_transition_ret _ _ _ Ha) as Hin. cbv zeta. rewrite run_upsert.
  destruct (sound_completion t p now (p_completion_report p) (p_completion_owner_notified_at p)
    (p_completion_owner_notification_trace_id p) (Some snapshot)) as (H1 & H2 & H3); try done.
  { by intros s [= <-]. }
  set (q := replace_completion _ _ _ _ _ p) in *.
  assert (st = Active) as ->.
  { change "active" with (status_str Active) in Ha. rewrite assert_transition_str in Ha.
    case_bool_decide; [| done]. by injection Ha as <-. }
  destruct (replace_status_ok q Active now (mk_Transition (p_id p) (status_str (p_status p))
    (status_str Active) "cwo_initialization" (is_actor_role snapshot) (is_trace_id snapshot) now [])
    H1 H2 Hnow Hin eq_refl eq_refl eq_refl) as [Hv' Hok']; try done.
  apply upsert_sound with p; try done. etransitivity; [exact H3 |]. evolves_tac.
Qed.

Lemma sound_workforce now pid binding :
  valid_datetime (wb_created_at binding) -> tracks sound_step (bind_workforce now pid binding).
Proof.
  intros Hb. apply sound_with_project. intros t p Ht Hread.
  destruct (reads_good _ _ _ Ht Hread) as (<- & (? & ? & ? & ? & ? & ? & ?) & [] & _).
  unfold workforce_of. cbv zeta. rewrite run_upsert.
  apply sound_collections; try done; [by apply prefix_app_r | by apply valid_snoc].
Qed.
