(* ===== verification/Governance.v ===== *)
(** Governance handlers: who may do what to a project.

    Models [control_plane/handlers/governance_handler.py] over the repository
    of [ProjectRepo].  The state is the projects table and the files the
    handlers write, a path holding the JSON document dumped to it.  The text
    [json.dumps] makes of a document only enters a hash, so it is the parameter
    [json_text]; [sha256] and the configured root directory are parameters. *)

From Stdlib Require Import Ascii.
From S2P Require Import Prelude PyStr PyData LlmSchemas ProjectModel ProjectRows ProjectRepo.

Record governance : Type := mk_governance {
  g_projects : projects;
  g_files : gmap string json
}.

Definition on_projects {A} (m : M projects A) : M governance A :=
  zoom g_projects (fun t g => mk_governance t (g_files g)) m.

Definition write_file (path : string) (doc : json) : M governance unit :=
  modify (fun g => mk_governance (g_projects g) (<[path := doc]> (g_files g))).

Definition _TRIAD_ROLES : list string := ["owner"; "ceo"; "cwo"].

(** [except GovernanceRepositoryError as error: raise GovernanceHandlerError(..)]. *)
Definition as_handler {A} (m : M governance A) : M governance A :=
  try m (fun error => match error with
                      | GovernanceRepositoryError code message =>
                          Some (raise (GovernanceHandlerError code message))
                      | _ => None
                      end).

(** ** Outcomes *)

Record ProposalApprovalOutcome : Type := mk_ProposalApprovalOutcome {
  pa_project : ProjectRecord;
  pa_approval_recorded : bool;
  pa_approval_roles : list string
}.

Record ProjectCompletionReportOutcome : Type := mk_ProjectCompletionReportOutcome {
  pc_project : ProjectRecord;
  pc_report : CompletionReportRecord
}.

Record ProjectCompletionApprovalOutcome : Type := mk_ProjectCompletionApprovalOutcome {
  ca_project : ProjectRecord;
  ca_approval_recorded : bool;
  ca_approval_roles : list string;
  ca_owner_notified : bool
}.

Record ProjectLifecycleTransitionOutcome : Type := mk_ProjectLifecycleTransitionOutcome {
  lt_project : ProjectRecord;
  lt_previous_status : ProjectStatus;
  lt_reason_code : string
}.

Record WorkforceBindingOutcome : Type := mk_WorkforceBindingOutcome {
  wo_project : ProjectRecord;
  wo_role : string;
  wo_binding_status : string;
  wo_template_id : string;
  wo_llm_routing_profile : string;
  wo_system_prompt_hash : string;
  wo_mandatory_operations : list string
}.

(** ** Proposal stage *)

Definition submit_proposal_message (uuid : string) (now : datetime) (pid actor role text trace : string)
    : M governance ProposalMessageRecord :=
  let normalized_role := norm role in
  if negb (mem normalized_role _TRIAD_ROLES) then
    raise (GovernanceHandlerError "governance_role_forbidden"
             "proposal discussions are limited to owner, ceo, and cwo")
  else as_handler (on_projects (add_proposal_message uuid now pid actor normalized_role text trace)).

(** [d.setdefault(k, v)] on a dictionary in insertion order. *)
Definition setdefault (d : list (string * string)) (k v : string) : list (string * string) :=
  match dict_get d k with Some _ => d | None => d ++ [(k, v)] end.

Definition create_project_proposal (uuid : string) (now : datetime) (actor role trace name objective : string)
    (pid : option string) (md : option (list (string * string))) : M governance ProjectRecord :=
  let normalized_role := norm role in
  if negb (mem normalized_role _TRIAD_ROLES) then
    raise (GovernanceHandlerError "governance_project_create_role_forbidden"
             "project creation is limited to owner, ceo, and cwo")
  else
    let merged := setdefault (default [] md) "created_by_actor_id" (strip actor) in
    let merged := setdefault merged "created_by_actor_role" normalized_role in
    let merged := setdefault merged "created_trace_id" (strip trace) in
    as_handler (on_projects (create_project uuid now name objective pid "proposed" (Some merged))).

Definition approve_project_proposal (uuid : string) (now later : datetime) (pid actor role trace : string)
    : M governance ProposalApprovalOutcome :=
  let normalized_role := norm role in
  if negb (mem normalized_role _TRIAD_ROLES) then
    raise (GovernanceHandlerError "governance_approval_role_forbidden"
             "proposal approval is limited to owner, ceo, and cwo")
  else
    let! (project, approval_recorded) :=
      as_handler (on_projects (record_proposal_approval uuid now later pid actor normalized_role trace)) in
    ret (mk_ProposalApprovalOutcome project approval_recorded
           (sorted_set (approval_roles (p_proposal_approvals project)))).

(** The last approval recorded for a role. *)
Definition latest_approval_for_role (project : ProjectRecord) (role : string) : option ApprovalRecord :=
  find_approval role (rev (p_proposal_approvals project)).

(** ** Initialization *)

(** [pathlib.PosixPath]: a root and its parts; an absolute operand of [/]
    replaces what is to its left. *)
Definition path_root (s : string) : string :=
  if startswith s "///" then "/" else if startswith s "//" then "//"
  else if startswith s "/" then "/" else "".

Definition path_parts (s : string) : list string :=
  List.filter (fun part => truthy part && negb (String.eqb part ".")) (split_on "/"%char s).

Definition parse_path (s : string) : string * list string := (path_root s, path_parts s).

Definition path_join (base : string * list string) (s : string) : string * list string :=
  if truthy (path_root s) then parse_path s else (base.1, base.2 ++ path_parts s).

Definition path_str (path : string * list string) : string :=
  if truthy path.1 || negb (bool_decide (path.2 = [])) then path.1 +:+ join "/" path.2 else ".".

Section initialization.
Context (system_root_path : string) (json_text : json -> string) (sha256 : string -> string).

(** [get_settings().system_root_path / "governance" / "projects" / project_id / "charter.json"]. *)
Definition charter_path (pid : string) : string :=
  path_str (foldl path_join (parse_path system_root_path)
              ["governance"; "projects"; pid; "charter.json"]).

Definition charter_data (now : datetime) (pid actor role trace objective : string)
    (currency quota : pyfloat) (metric workforce : list (string * string)) : json :=
  JObj [("project_id", JStr pid); ("objective", JStr objective);
        ("budget_currency_total", JFloat currency); ("budget_quota_total", JFloat quota);
        ("metric_plan", JObj (map (fun p => (p.1, JStr p.2)) metric));
        ("workforce_plan", JObj (map (fun p => (p.1, JStr p.2)) workforce));
        ("actor_id", JStr actor); ("actor_role", JStr role); ("trace_id", JStr trace);
        ("initialized_at", JStr (isoformat now))].

(** [now] is read before the file is written, [later] by the repository. *)
Definition initialize_project_by_cwo (now later : datetime) (pid actor role trace objective : string)
    (currency quota : pyfloat) (metric workforce : option (list (string * string)))
    : M governance ProjectRecord :=
  let normalized_role := norm role in
  if negb (String.eqb normalized_role "cwo") then
    raise (GovernanceHandlerError "governance_role_forbidden" "project initialization is limited to cwo")
  else
    let metric_plan_pairs := default [] metric in
    let workforce_plan_pairs := default [] workforce in
    let doc := charter_data now pid actor normalized_role trace objective currency quota
                 metric_plan_pairs workforce_plan_pairs in
    let charter_content_hash := sha256 (json_text doc) in
    write_file (charter_path pid) doc ;!
    let snapshot := mk_Initialization objective currency quota metric_plan_pairs workforce_plan_pairs
          actor normalized_role trace (Some (charter_path pid)) (Some charter_content_hash)
          None None None None None None None None None None now in
    as_handler (on_projects (record_initialization later pid snapshot)).

(** ** Workforce *)

Definition bind_workforce_template_by_cwo (uuid : string) (now later : datetime)
    (pid actor actor_role trace role template profile system_prompt : string)
    : M governance WorkforceBindingOutcome :=
  let normalized_actor_role := norm actor_role in
  if negb (String.eqb normalized_actor_role "cwo") then
    raise (GovernanceHandlerError "governance_role_forbidden" "workforce template binding is limited to cwo")
  else
    let normalized_role := norm role in
    let! operations :=
      if String.eqb normalized_role "project_manager" then
        match validate_project_manager_template system_prompt with
        | Ret ops => ret (sorted str_leb ops)
        | Raise (ProjectManagerTemplateError code message) =>
            raise (GovernanceHandlerError ("governance_" +:+ code) message)
        | Raise e => raise e
        end
      else ret [] in
    let hash := sha256 system_prompt in
    let st := if String.eqb normalized_role "domain_leader" then "declared_disabled" else "active" in
    let record := mk_WorkforceBinding uuid pid normalized_role template profile hash operations st
          actor normalized_actor_role trace now in
    let! project := as_handler (on_projects (bind_workforce later pid record)) in
    ret (mk_WorkforceBindingOutcome project normalized_role st template profile hash operations).
End initialization.

(** ** Completion *)

Definition submit_completion_report_by_project_manager (uuid : string) (now : datetime)
    (pid actor role trace text : string) (metrics : option (list (string * string)))
    : M governance ProjectCompletionReportOutcome :=
  let normalized_role := norm role in
  if negb (String.eqb normalized_role "project_manager") then
    raise (GovernanceHandlerError "governance_project_completion_report_role_forbidden"
             "completion report submission is limited to project_manager")
  else
    let! report := as_handler (on_projects
          (submit_completion_report uuid now pid actor normalized_role text metrics trace)) in
    let! project := on_projects (get_project pid) in
    match project with
    | None => raise (GovernanceHandlerError "governance_project_missing" ("project not found: " +:+ pid))
    | Some p => ret (mk_ProjectCompletionReportOutcome p report)
    end.

Definition record_completion_approval_by_c_suite (uuid : string) (now : datetime)
    (pid actor role trace : string) : M governance ProjectCompletionApprovalOutcome :=
  let normalized_role := norm role in
  if negb (mem normalized_role ["ceo"; "cwo"]) then
    raise (GovernanceHandlerError "governance_project_completion_approval_role_forbidden"
             "completion approval is limited to ceo or cwo")
  else
    let! (project, approval_recorded) :=
      as_handler (on_projects (record_completion_approval uuid now pid actor normalized_role trace)) in
    ret (mk_ProjectCompletionApprovalOutcome project approval_recorded
           (sorted_set (approval_roles (p_completion_approvals project)))
           (bool_decide (is_Some (p_completion_owner_notified_at project)))).

Definition finalize_project_completion_by_c_suite (now later : datetime)
    (pid role trace reason : string) : M governance ProjectRecord :=
  let normalized_role := norm role in
  if negb (mem normalized_role ["ceo"; "cwo"]) then
    raise (GovernanceHandlerError "governance_project_completion_finalize_role_forbidden"
             "completion finalization is limited to ceo or cwo")
  else
    as_handler (on_projects
      (let! existing := get_project pid in
       match existing with
       | None => raise (GovernanceRepositoryError "governance_project_missing"
                          ("project not found: " +:+ pid))
       | Some p =>
           match p_completion_owner_notified_at p with
           | None => record_completion_owner_notified now pid trace ;! ret tt
           | Some _ => ret tt
           end ;!
           transition_project_status later pid "completed" reason normalized_role trace None
       end)).

(** ** Lifecycle actions *)

Definition _transition_project_lifecycle (now : datetime) (pid role trace reason next_status : string)
    (allowed_actor_roles : list string) (action_name : string)
    : M governance ProjectLifecycleTransitionOutcome :=
  let normalized_role := norm role in
  if negb (mem normalized_role allowed_actor_roles) then
    raise (GovernanceHandlerError "governance_project_lifecycle_role_forbidden"
             (action_name +:+ " is limited to roles: " +:+
              join "," (sorted str_leb allowed_actor_roles)))
  else
    let! project := on_projects (get_project pid) in
    match project with
    | None => raise (GovernanceHandlerError "governance_project_missing" ("project not found: " +:+ pid))
    | Some p =>
        let! updated := as_handler (on_projects
              (transition_project_status now pid next_status reason normalized_role trace None)) in
        ret (mk_ProjectLifecycleTransitionOutcome updated (p_status p) reason)
    end.

Definition pause_project_by_governance (now : datetime) (pid role trace reason : string) :=
  _transition_project_lifecycle now pid role trace reason "paused" ["project_manager"; "cwo"; "ceo"]
    "project pause".

Definition resume_project_by_governance (now : datetime) (pid role trace reason : string) :=
  _transition_project_lifecycle now pid role trace reason "active" ["project_manager"; "cwo"; "ceo"]
    "project resume".

Definition terminate_project_by_governance (now : datetime) (pid role trace reason : string) :=
  _transition_project_lifecycle now pid role trace reason "terminated" ["cwo"; "ceo"]
    "project termination".

Definition archive_project_by_governance (now : datetime) (pid role trace reason : string) :=
  _transition_project_lifecycle now pid role trace reason "archived" ["cwo"; "ceo"]
    "project archive".

(** * Lemmas *)

Definition gov_step (g g' : governance) : Prop := sound_step (g_projects g) (g_projects g').

#[export] Instance gov_step_preorder : PreOrder gov_step.
Proof. split; unfold gov_step; [by intros g | intros a b c H1 H2; by etransitivity]. Qed.

Lemma gov_on_projects {A} (m : M projects A) : tracks sound_step m -> tracks gov_step (on_projects m).
Proof. intros H. apply (tracks_zoom gov_step sound_step); [by intros g t | done]. Qed.

Lemma gov_write_file path doc : tracks gov_step (write_file path doc).
Proof. intros g. unfold gov_step. by simpl. Qed.

Lemma gov_as_handler {A} (m : M governance A) : tracks gov_step m -> tracks gov_step (as_handler m).
Proof.
  intros H. apply tracks_try; [typeclasses eauto | done |].
  intros e k He. destruct e; simplify_eq; apply tracks_raise; typeclasses eauto.
Qed.

#[export] Hint Resolve gov_as_handler gov_on_projects gov_write_file sound_get_project sound_create
  sound_message sound_proposal_approval sound_report sound_completion_approval sound_notified
  sound_initialization sound_workforce : tracks.

Ltac gov_auto := repeat first [tracks_step | apply gov_as_handler | apply gov_on_projects].

Lemma gov_lifecycle now pid role trace reason next roles action :
  valid_datetime now -> parse_project_status next <> Ret Approved ->
  tracks gov_step (_transition_project_lifecycle now pid role trace reason next roles action).
Proof.
  intros Hnow Hnext. unfold _transition_project_lifecycle. cbv zeta. case_match; [tracks_auto |].
  apply tracks_bind; [typeclasses eauto | apply gov_on_projects, sound_get_project | intros [p |]].
  - apply tracks_bind; [typeclasses eauto | | intros q; tracks_auto].
    apply gov_as_handler, gov_on_projects. by apply sound_transition.
  - tracks_auto.
Qed.

(** ** Sequences of governance calls *)

Inductive gov_call : Type :=
  | CallCreate (uuid : string) (now : datetime) (actor role trace name objective : string)
      (pid : option string) (md : option (list (string * string)))
  | CallMessage (uuid : string) (now : datetime) (pid actor role text trace : string)
  | CallApprove (uuid : string) (now later : datetime) (pid actor role trace : string)
  | CallInitialize (now later : datetime) (pid actor role trace objective : string)
      (currency quota : pyfloat) (metric workforce : option (list (string * string)))
  | CallBind (uuid : string) (now later : datetime)
      (pid actor actor_role trace role template profile system_prompt : string)
  | CallReport (uuid : string) (now : datetime) (pid actor role trace text : string)
      (metrics : option (list (string * string)))
  | CallCompletionApproval (uuid : string) (now : datetime) (pid actor role trace : string)
  | CallFinalize (now later : datetime) (pid role trace reason : string)
  | CallPause (now : datetime) (pid role trace reason : string)
  | CallResume (now : datetime) (pid role trace reason : string)
  | CallTerminate (now : datetime) (pid role trace reason : string)
  | CallArchive (now : datetime) (pid role trace reason : string).

(** The clock readings of a call are instants Python can represent. *)
Definition call_clock (c : gov_call) : list datetime :=
  match c with
  | CallCreate _ now _ _ _ _ _ _ _ | CallMessage _ now _ _ _ _ _ | CallReport _ now _ _ _ _ _ _
  | CallCompletionApproval _ now _ _ _ _ | CallPause now _ _ _ _ | CallResume now _ _ _ _
  | CallTerminate now _ _ _ _ | CallArchive now _ _ _ _ => [now]
  | CallApprove _ now later _ _ _ _ | CallInitialize now later _ _ _ _ _ _ _ _ _
  | CallBind _ now later _ _ _ _ _ _ _ _ | CallFinalize now later _ _ _ _ => [now; later]
  end.

Section calls.
Context (root : string) (json_text : json -> string) (sha256 : string -> string).

Definition run_gov_call (c : gov_call) (g : governance) : governance :=
  match c with
  | CallCreate u n a r t nm o p md => (create_project_proposal u n a r t nm o p md g).2
  | CallMessage u n p a r x t => (submit_proposal_message u n p a r x t g).2
  | CallApprove u n l p a r t => (approve_project_proposal u n l p a r t g).2
  | CallInitialize n l p a r t o c q m w =>
      (initialize_project_by_cwo root json_text sha256 n l p a r t o c q m w g).2
  | CallBind u n l p a ar t r tm pf sp => (bind_workforce_template_by_cwo sha256 u n l p a ar t r tm pf sp g).2
  | CallReport u n p a r t x m => (submit_completion_report_by_project_manager u n p a r t x m g).2
  | CallCompletionApproval u n p a r t => (record_completion_approval_by_c_suite u n p a r t g).2
  | CallFinalize n l p r t x => (finalize_project_completion_by_c_suite n l p r t x g).2
  | CallPause n p r t x => (pause_project_by_governance n p r t x g).2
  | CallResume n p r t x => (resume_project_by_governance n p r t x g).2
  | CallTerminate n p r t x => (terminate_project_by_governance n p r t x g).2
  | CallArchive n p r t x => (archive_project_by_governance n p r t x g).2
  end.

Lemma tracks_run {A} (m : M governance A) g : tracks gov_step m -> gov_step g (m g).2.
Proof. intros H. apply H. Qed.

Lemma run_gov_call_sound c g : Forall valid_datetime (call_clock c) -> gov_step g (run_gov_call c g).
Proof.
  destruct c; cbn [call_clock run_gov_call]; rewrite ?Forall_cons; intros Hclock; destruct_and? Hclock;
    apply tracks_run.
  - unfold create_project_proposal. cbv zeta. gov_auto.
  - unfold submit_proposal_message. cbv zeta. gov_auto.
  - unfold approve_project_proposal. cbv zeta. gov_auto.
  - unfold initialize_project_by_cwo. cbv zeta. gov_auto.
  - unfold bind_workforce_template_by_cwo. cbv zeta. gov_auto.
  - unfold submit_completion_report_by_project_manager. cbv zeta. gov_auto.
  - unfold record_completion_approval_by_c_suite. cbv zeta. gov_auto.
  - unfold finalize_project_completion_by_c_suite. cbv zeta. gov_auto. by apply sound_transition.
  - by apply gov_lifecycle.
  - by apply gov_lifecycle.
  - by apply gov_lifecycle.
  - by apply gov_lifecycle.
Qed.

Definition run_gov (calls : list gov_call) (g : governance) : governance :=
  fold_left (fun g c => run_gov_call c g) calls g.

Lemma run_gov_sound calls g :
  Forall (fun c => Forall valid_datetime (call_clock c)) calls -> gov_step g (run_gov calls g).
Proof.
  intros H. revert g. unfold run_gov. induction H as [| c calls Hc Hcs IH]; intros g; [done |].
  cbn [fold_left]. etransitivity; [by apply run_gov_call_sound | apply IH].
Qed.
End calls.
