(* ===== verification/GovernanceFacts.v ===== *)
(** What the governance handlers guarantee, and what they do not.

    The history theorem follows from the soundness of each repository write;
    the others run one handler on a project the repository can read. *)

From S2P Require Import Prelude PyStr PyData LlmSchemas ProjectModel ProjectRows ProjectRepo Governance.

(** * Running handlers on a readable project *)

Lemma run_get_project t pid p : reads t pid p -> get_project pid t = (Ret (Some p), t).
Proof.
  intros (row & Hrow & Hread). unfold get_project, bind, gets, of_outcome. by rewrite Hrow, Hread.
Qed.

Lemma run_with_project {A} t pid p (k : ProjectRecord -> M projects A) :
  reads t pid p -> with_project pid k t = k p t.
Proof. intros Hp. unfold with_project, bind. by rewrite (run_get_project _ _ _ Hp). Qed.

Lemma run_on_projects {A} (m : M projects A) g :
  on_projects m g = ((m (g_projects g)).1, mk_governance (m (g_projects g)).2 (g_files g)).
Proof. unfold on_projects, zoom. by destruct (m (g_projects g)). Qed.

Lemma governance_eta g : mk_governance (g_projects g) (g_files g) = g.
Proof. by destruct g. Qed.

(** The exceptions of the handler wrapper are all converted. *)
Lemma run_as_handler {A} (m : M governance A) g :
  as_handler m g =
  match m g with
  | (Raise (GovernanceRepositoryError code message), g') => (Raise (GovernanceHandlerError code message), g')
  | r => r
  end.
Proof. unfold as_handler, try. by destruct (m g) as [[| []] g']. Qed.

(** A transition to anything but [completed] on a readable project. *)
Lemma run_transition t pid p now next reason role trace :
  reads t pid p -> next <> Completed ->
  transition_project_status now pid (status_str next) reason role trace None t =
  if bool_decide (In next (_ALLOWED_TRANSITIONS (p_status p))) then
    let q := replace_status next now
               (mk_Transition (p_id p) (status_str (p_status p)) (status_str next)
                  (strip reason) (strip role) (strip trace) now []) p in
    (Ret q, <[p_id p := _project_to_row q]> t)
  else
    (Raise (GovernanceRepositoryError "project_invalid_transition"
              ("invalid project transition: " +:+ status_str (p_status p) +:+ " -> " +:+ status_str next)), t).
Proof.
  intros Hp Hnext. unfold transition_project_status. rewrite (run_with_project _ _ _ _ Hp).
  unfold transition_of, bind at 1, of_outcome. rewrite assert_transition_str.
  case_bool_decide; cbn [lift_lifecycle]; [| done]. unfold bind at 1. by rewrite bool_decide_false.
Qed.

Lemma replace_status_reads t p st now tr :
  valid_times p -> valid_datetime (tn_timestamp tr) ->
  let q := replace_status st now tr p in
  reads (<[p_id p := _project_to_row q]> t) (p_id p) (project_view q).
Proof.
  intros (V1 & V2 & V3 & V4 & V5 & V6 & V7) Ht q. apply (reads_insert t q).
  unfold valid_times, q. cbn. split_and!; try done. apply Forall_app. split; [done |]. by constructor.
Qed.

Definition empty_governance : governance := mk_governance ∅ ∅.

Lemma empty_good : good (g_projects empty_governance).
Proof. intros k row H. cbn in H. rewrite lookup_empty in H. done. Qed.

(** * Lifecycle actions *)

Inductive lifecycle_action : Type := Pause | Resume | Terminate | Archive.

Definition run_action (a : lifecycle_action) :=
  match a with
  | Pause => pause_project_by_governance
  | Resume => resume_project_by_governance
  | Terminate => terminate_project_by_governance
  | Archive => archive_project_by_governance
  end.

Definition action_target (a : lifecycle_action) : ProjectStatus :=
  match a with Pause => Paused | Resume => Active | Terminate => Terminated | Archive => Archived end.

Definition action_roles (a : lifecycle_action) : list string :=
  match a with
  | Pause | Resume => ["project_manager"; "cwo"; "ceo"]
  | Terminate | Archive => ["cwo"; "ceo"]
  end.

Lemma run_lifecycle now pid role trace reason next roles action g p :
  reads (g_projects g) pid p -> next <> Completed ->
  _transition_project_lifecycle now pid role trace reason (status_str next) roles action g =
  if negb (mem (norm role) roles) then
    (Raise (GovernanceHandlerError "governance_project_lifecycle_role_forbidden"
              (action +:+ " is limited to roles: " +:+ join "," (sorted str_leb roles))), g)
  else if bool_decide (In next (_ALLOWED_TRANSITIONS (p_status p))) then
    let q := replace_status next now
               (mk_Transition (p_id p) (status_str (p_status p)) (status_str next)
                  (strip reason) (strip (norm role)) (strip trace) now []) p in
    (Ret (mk_ProjectLifecycleTransitionOutcome q (p_status p) reason),
     mk_governance (<[p_id p := _project_to_row q]> (g_projects g)) (g_files g))
  else
    (Raise (GovernanceHandlerError "project_invalid_transition"
              ("invalid project transition: " +:+ status_str (p_status p) +:+ " -> " +:+ status_str next)), g).
Proof.
  intros Hp Hnext. unfold _transition_project_lifecycle. cbv zeta.
  destruct (mem (norm role) roles); cbn [negb]; [| done].
  unfold bind at 1. rewrite run_on_projects, (run_get_project _ _ _ Hp). cbn [fst snd].
  rewrite governance_eta. unfold bind. rewrite run_as_handler, run_on_projects.
  rewrite (run_transition _ _ _ _ _ _ _ _ Hp Hnext). case_bool_decide; cbn [fst snd ret]; [done |].
  by rewrite governance_eta.
Qed.

(** Pause, resume, terminate and archive do exactly what their role matrix
    and the lifecycle table say.  A call by a role of the matrix on a project
    whose status allows the target stores the project with the new status and
    one more transition naming the actor's role, and nothing else changed; any
    other call raises a handler error and leaves projects and files as they were. *)
Theorem lifecycle_action_exact action now pid role trace reason g p :
  reads (g_projects g) pid p ->
  run_action action now pid role trace reason g =
  if negb (mem (norm role) (action_roles action)) then
    (Raise (GovernanceHandlerError "governance_project_lifecycle_role_forbidden"
       (match action with Pause => "project pause" | Resume => "project resume"
        | Terminate => "project termination" | Archive => "project archive" end +:+
        " is limited to roles: " +:+ join "," (sorted str_leb (action_roles action)))), g)
  else if bool_decide (In (action_target action) (_ALLOWED_TRANSITIONS (p_status p))) then
    let q := replace_status (action_target action) now
               (mk_Transition (p_id p) (status_str (p_status p)) (status_str (action_target action))
                  (strip reason) (strip (norm role)) (strip trace) now []) p in
    (Ret (mk_ProjectLifecycleTransitionOutcome q (p_status p) reason),
     mk_governance (<[p_id p := _project_to_row q]> (g_projects g)) (g_files g))
  else
    (Raise (GovernanceHandlerError "project_invalid_transition"
       ("invalid project transition: " +:+ status_str (p_status p) +:+ " -> " +:+
        status_str (action_target action))), g).
Proof.
  intros Hp. destruct action; cbn [run_action action_target action_roles].
  - by apply (run_lifecycle now pid role trace reason Paused).
  - by apply (run_lifecycle now pid role trace reason Active).
  - by apply (run_lifecycle now pid role trace reason Terminated).
  - by apply (run_lifecycle now pid role trace reason Archived).
Qed.

Definition sample_governance (st : ProjectStatus) : governance :=
  mk_governance {["p1" := _project_to_row (sample_project st)]} ∅.

Lemma sample_reads st : reads (g_projects (sample_governance st)) "p1" (sample_project st).
Proof.
  exists (_project_to_row (sample_project st)). split; [apply lookup_singleton_eq |].
  rewrite project_row_read by apply sample_project_valid. done.
Qed.

Lemma lifecycle_action_exact_witness :
  (run_action Terminate sample_instant "p1" " CEO " "tr" "why" (sample_governance Active)).1 =
    Ret (mk_ProjectLifecycleTransitionOutcome
           (replace_status Terminated sample_instant
              (mk_Transition "p1" "active" "terminated" "why" "ceo" "tr" sample_instant [])
              (sample_project Active)) Active "why") /\
  run_action Archive sample_instant "p1" "ceo" "tr" "why" (sample_governance Active) =
    (Raise (GovernanceHandlerError "project_invalid_transition"
              "invalid project transition: active -> archived"), sample_governance Active).
Proof.
  split.
  - rewrite (lifecycle_action_exact Terminate _ _ _ _ _ _ _ (sample_reads Active)). reflexivity.
  - rewrite (lifecycle_action_exact Archive _ _ _ _ _ _ _ (sample_reads Active)). reflexivity.
Defined.

(** Resuming activates a project that was never initialized.  On a readable
    project that is approved, a project manager's resume call succeeds and the
    stored project is active without any initialization of its own, although
    activating an approved project is what the initialization by the cwo is for. *)
Theorem resume_skips_initialization now pid trace reason g p :
  good (g_projects g) -> reads (g_projects g) pid p -> p_status p = Approved -> valid_datetime now ->
  let r := resume_project_by_governance now pid "project_manager" trace reason g in
  returns r.1 /\
  exists q, reads (g_projects r.2) pid q /\ p_status q = Active /\ p_initialization q = p_initialization p.
Proof.
  intros Hg Hp Hst Hnow r.
  pose proof (run_lifecycle now pid "project_manager" trace reason Active
             ["project_manager"; "cwo"; "ceo"] "project resume" g p Hp ltac:(done)) as Hr.
  subst r. change (resume_project_by_governance now pid "project_manager" trace reason g) with
    (_transition_project_lifecycle now pid "project_manager" trace reason (status_str Active)
       ["project_manager"; "cwo"; "ceo"] "project resume" g).
  rewrite Hr, Hst. cbn [status_str].
  change (negb (mem (norm "project_manager") ["project_manager"; "cwo"; "ceo"])) with false.
  cbn [_ALLOWED_TRANSITIONS]. rewrite bool_decide_true by (by left). cbv iota zeta. cbn [fst snd g_projects].
  split; [by eexists |].
  destruct (reads_good _ _ _ Hg Hp) as (Hid & Hv & _ & Hview).
  eexists. split; [| split].
  - subst pid. apply replace_status_reads; [done | exact Hnow].
  - done.
  - exact (f_equal p_initialization Hview).
Qed.

(** ** A project taken through its life *)

Definition call_open : list gov_call :=
  [CallCreate "u0" sample_instant "owner-1" "owner" "t0" "Alpha" "ship" (Some "p1") None;
   CallApprove "u1" sample_instant sample_instant "p1" "owner-1" "owner" "t1";
   CallApprove "u2" sample_instant sample_instant "p1" "ceo-1" "CEO" "t2";
   CallApprove "u3" sample_instant sample_instant "p1" "cwo-1" " cwo " "t3"].

Definition call_work : list gov_call :=
  [CallInitialize sample_instant sample_instant "p1" "cwo-1" "cwo" "t4" "ship it" (S754_zero false) (S754_zero false) None None;
   CallReport "u4" sample_instant "p1" "pm-1" "project_manager" "t5" "done" None].

Definition run_sample (calls : list gov_call) : governance :=
  run_gov "/srv/openqilin" (fun _ => "doc") (fun s => s) calls empty_governance.

Definition read_sample (g : governance) : ProjectRecord :=
  match (get_project "p1" (g_projects g)).1 with Ret (Some p) => p | _ => sample_project Proposed end.

Lemma call_open_clocks : Forall (fun c => Forall valid_datetime (call_clock c)) call_open.
Proof. repeat constructor; apply sample_instant_valid. Qed.

Lemma call_work_clocks : Forall (fun c => Forall valid_datetime (call_clock c)) call_work.
Proof. repeat constructor; apply sample_instant_valid. Qed.

Lemma run_sample_good calls :
  Forall (fun c => Forall valid_datetime (call_clock c)) calls -> good (g_projects (run_sample calls)).
Proof. intros H. apply (run_gov_sound _ _ _ _ empty_governance H), empty_good. Qed.

Lemma reads_get_project t pid p : get_project pid t = (Ret (Some p), t) -> reads t pid p.
Proof.
  unfold get_project, bind, gets, of_outcome, reads. destruct (t !! pid) as [row |]; [| done].
  destruct (_project_from_row row) as [q |] eqn:Hq; [| done]. intros [= <-]. by exists row.
Qed.

Definition opened : governance := run_sample call_open.
Definition working : governance := run_sample (call_open ++ call_work).

Lemma opened_reads : reads (g_projects opened) "p1" (read_sample opened).
Proof. apply reads_get_project. vm_compute. reflexivity. Qed.

Lemma working_reads : reads (g_projects working) "p1" (read_sample working).
Proof. apply reads_get_project. vm_compute. reflexivity. Qed.

Lemma opened_good : good (g_projects opened).
Proof. apply run_sample_good, call_open_clocks. Qed.

Lemma working_good : good (g_projects working).
Proof. apply run_sample_good, Forall_app. split; [apply call_open_clocks | apply call_work_clocks]. Qed.

Lemma resume_skips_initialization_witness :
  exists q, reads (g_projects (resume_project_by_governance sample_instant "p1" "project_manager" "t" "why"
                     opened).2) "p1" q /\ p_status q = Active /\ p_initialization q = None.
Proof.
  destruct (resume_skips_initialization sample_instant "p1" "t" "why" opened (read_sample opened)
    opened_good opened_reads ltac:(vm_compute; reflexivity) sample_instant_valid) as (_ & q & Hq & Hs & Hi).
  exists q. split; [exact Hq |]. split; [exact Hs |]. rewrite Hi. vm_compute. reflexivity.
Defined.

(** * Histories *)

(** C12: governance keeps a sound history of every project.  Start from an empty
    table and make any sequence of handler calls, in any order, with any
    arguments, and then any further sequence.  Every stored project can be read;
    its recorded transitions are a path of the lifecycle from proposed to its
    status; no role approves twice; past the proposal it has the approvals of
    owner, ceo and cwo; if it was ever completed it has a completion report, the
    approvals of ceo and cwo and a recorded owner notification; and the further
    calls only extend its histories and never change its identity. *)
Theorem governance_history_is_sound root json_text sha256 calls further :
  Forall (fun c => Forall valid_datetime (call_clock c)) (calls ++ further) ->
  let g := run_gov root json_text sha256 calls empty_governance in
  let g' := run_gov root json_text sha256 further g in
  forall pid, is_Some (g_projects g !! pid) ->
  exists p q, reads (g_projects g) pid p /\ reads (g_projects g') pid q /\
    p_id p = pid /\ project_ok p /\ project_ok q /\ project_evolves p q.
Proof.
  intros [H1 H2]%Forall_app g g' pid [row Hrow].
  pose proof (run_gov_sound root json_text sha256 calls empty_governance H1 empty_good) as [Hg _].
  pose proof (run_gov_sound root json_text sha256 further g H2 Hg) as [Hg' Hev].
  destruct (Hg _ _ Hrow) as (p & -> & Hid & Hv & _).
  assert (reads (g_projects g) pid (project_view p)) as Hp.
  { eexists. split; [exact Hrow | by apply project_row_read]. }
  destruct (Hev _ _ Hp) as (q & Hq & Hpq). exists (project_view p), q.
  destruct (reads_good _ _ _ Hg Hp) as (? & _ & ? & _).
  destruct (reads_good _ _ _ Hg' Hq) as (_ & _ & ? & _). done.
Qed.

Lemma governance_history_is_sound_witness :
  exists p q, reads (g_projects opened) "p1" p /\ p_id p = "p1" /\ project_ok q /\ project_evolves p q.
Proof.
  destruct (governance_history_is_sound "/srv/openqilin" (fun _ => "doc") (fun s => s) call_open call_work
    ltac:(apply Forall_app; split; [apply call_open_clocks | apply call_work_clocks]) "p1"
    ltac:(vm_compute; eexists; reflexivity)) as (p & q & Hp & _ & Hid & _ & Hok & Hev).
  exists p, q. split; [exact Hp |]. split; [exact Hid |]. split; [exact Hok | exact Hev].
Defined.

(** * Completion *)

Lemma run_owner_notified t pid p now trace :
  reads t pid p ->
  record_completion_owner_notified now pid trace t =
  let q := replace_completion now (p_completion_report p) (Some now) (Some (strip trace)) (p_initialization p) p in
  (Ret q, <[p_id p := _project_to_row q]> t).
Proof. intros Hp. unfold record_completion_owner_notified. by rewrite (run_with_project _ _ _ _ Hp). Qed.

Definition completable (p : ProjectRecord) : Prop :=
  p_status p = Active /\ is_Some (p_completion_report p) /\ _has_completion_approvals p = true.

(** The guard of the completion transition, once the owner is notified. *)
Lemma completion_guard p role :
  is_Some (p_completion_owner_notified_at p) -> In role ["ceo"; "cwo"] ->
  match _assert_completion_transition_allowed p role with
  | Ret _ => is_Some (p_completion_report p) /\ _has_completion_approvals p = true
  | Raise e => (exists code message, e = GovernanceRepositoryError code message) /\
      ~ (is_Some (p_completion_report p) /\ _has_completion_approvals p = true)
  end.
Proof.
  intros [t Ht] Hrole. unfold _assert_completion_transition_allowed. rewrite Ht.
  assert (mem (norm role) ["ceo"; "cwo"] = true) as ->.
  { apply mem_In. by destruct Hrole as [<- | [<- | []]]; [left | right; left]. }
  cbn [negb]. destruct (p_completion_report p) as [r |].
  2: { split; [by do 2 eexists |]. intros [[? ?] _]. done. }
  cbn [List.filter]. unfold _has_completion_approvals, has_roles. cbn [forallb].
  destruct (mem "ceo" _), (mem "cwo" _); cbn [negb andb]; try (split; [by do 2 eexists | by intros []]).
  by split.
Qed.

(** Completing a readable project whose owner has been notified. *)
Lemma run_complete t p now reason role trace :
  good t -> reads t (p_id p) p -> valid_datetime now -> is_Some (p_completion_owner_notified_at p) ->
  In role ["ceo"; "cwo"] ->
  let r := transition_project_status now (p_id p) "completed" reason role trace None t in
  (completable p /\ exists q, r.1 = Ret q /\ p_status q = Completed /\ reads r.2 (p_id p) (project_view q) /\
     p_completion_owner_notified_at q = p_completion_owner_notified_at p) \/
  (~ completable p /\ r.2 = t /\ exists code message, r.1 = Raise (GovernanceRepositoryError code message)).
Proof.
  intros Hg Hp Hnow Hn Hrole r. destruct (reads_good _ _ _ Hg Hp) as (_ & Hv & _ & _).
  assert (r = transition_of now "completed" reason role trace None p t) as ->.
  { unfold r, transition_project_status. by apply run_with_project. }
  unfold transition_of, bind at 1 4, of_outcome. change "completed" with (status_str Completed).
  rewrite assert_transition_str. case_bool_decide as Hin; cbn [lift_lifecycle].
  2: { right. split; [| by split; [| do 2 eexists]]. intros (Hs & _). apply Hin. rewrite Hs. cbn. tauto. }
  assert (p_status p = Active) as Hs by (destruct (p_status p); cbn in Hin; intuition discriminate).
  rewrite bool_decide_true by done. unfold bind at 1 3.
  pose proof (completion_guard p role Hn Hrole) as Hguard.
  destruct (_assert_completion_transition_allowed p role) as [[] | e].
  - left. split; [by split |]. cbv zeta. rewrite !run_upsert. cbn [fst snd ret].
    eexists. split; [done |]. split; [done |]. split; [| done].
    by apply (replace_status_reads t p Completed now).
  - right. destruct Hguard as [(code & message & ->) Hno]. cbn [fst snd].
    split; [| split; [done | by do 2 eexists]]. intros (_ & H). by apply Hno.
Qed.

Lemma run_finalize now later pid role trace reason g p :
  reads (g_projects g) pid p -> mem (norm role) ["ceo"; "cwo"] = true ->
  let t := g_projects g in
  let t' := match p_completion_owner_notified_at p with
            | None => (record_completion_owner_notified now pid trace t).2
            | Some _ => t
            end in
  let r := transition_project_status later pid "completed" reason (norm role) trace None t' in
  finalize_project_completion_by_c_suite now later pid role trace reason g =
  (match r.1 with
   | Raise (GovernanceRepositoryError code message) => Raise (GovernanceHandlerError code message)
   | o => o
   end, mk_governance r.2 (g_files g)).
Proof.
  intros Hp Hrole. cbv zeta. unfold finalize_project_completion_by_c_suite. cbv zeta. rewrite Hrole. cbn [negb].
  rewrite run_as_handler, run_on_projects.
  set (t' := match p_completion_owner_notified_at p with Some _ => _ | None => _ end).
  match goal with |- context [(?m (g_projects g)).1] =>
    assert (m (g_projects g) = transition_project_status later pid "completed" reason (norm role) trace None t')
      as -> end.
  { unfold bind at 1. rewrite (run_get_project _ _ _ Hp). subst t'.
    destruct (p_completion_owner_notified_at p); [done |].
    unfold bind. by rewrite (run_owner_notified _ _ _ now trace Hp). }
  by destruct (transition_project_status _ _ _ _ _ _ _ _) as [[| []] ?].
Qed.

(** The table after the notification step of a finalization. *)
Lemma notified_table t pid p now trace :
  good t -> reads t pid p -> valid_datetime now ->
  let t' := match p_completion_owner_notified_at p with
            | None => (record_completion_owner_notified now pid trace t).2
            | Some _ => t
            end in
  good t' /\ exists q, reads t' pid q /\ p_id q = pid /\ p_status q = p_status p /\
    is_Some (p_completion_owner_notified_at q) /\ (completable q <-> completable p).
Proof.
  intros Hg Hp Hnow t'. destruct (reads_good _ _ _ Hg Hp) as (<- & Hv & _ & _). subst t'.
  destruct (p_completion_owner_notified_at p) eqn:Hn.
  - split; [done |]. exists p. rewrite Hn. split_and!; [done..|].  by split.
  - split; [exact (proj1 (sound_notified now (p_id p) trace Hnow t Hg)) |].
    rewrite (run_owner_notified _ _ _ now trace Hp). cbn [snd].
    eexists. split; [apply (reads_insert t (replace_completion _ _ _ _ _ p)) |].
    + destruct Hv as (? & ? & ? & ? & ? & ? & ?). by unfold valid_times; cbn; split_and!.
    + split; [done |]. split; [done |]. split; [by eexists |].
      unfold completable. cbn. by rewrite fmap_is_Some.
Qed.

(** Completion is finalized exactly when it may be.  For a ceo or cwo and a
    readable project, the call succeeds with the project stored as completed if
    the project is active and has a completion report and the completion
    approvals of ceo and cwo; otherwise it raises a handler error and the stored
    status is as before.  In both cases the owner notification is recorded on
    the stored project, also when the call is refused. *)
Theorem finalize_exact now later pid role trace reason g p :
  good (g_projects g) -> reads (g_projects g) pid p -> valid_datetime now -> valid_datetime later ->
  In (norm role) ["ceo"; "cwo"] ->
  let r := finalize_project_completion_by_c_suite now later pid role trace reason g in
  exists q, reads (g_projects r.2) pid q /\ is_Some (p_completion_owner_notified_at q) /\
    ((completable p /\ returns r.1 /\ p_status q = Completed) \/
     (~ completable p /\ p_status q = p_status p /\
      exists code message, r.1 = Raise (GovernanceHandlerError code message))).
Proof.
  intros Hg Hp Hnow Hlater Hrole r. subst r.
  rewrite (run_finalize now later pid role trace reason g p Hp) by by apply mem_In. cbn [fst snd g_projects].
  destruct (notified_table _ _ _ now trace Hg Hp Hnow) as (Hg' & p' & Hp' & Hid & Hst & Hn & Hc).
  set (t' := match p_completion_owner_notified_at p with Some _ => _ | None => _ end) in *. subst pid.
  destruct (run_complete t' p' later reason (norm role) trace Hg' Hp' Hlater Hn Hrole)
    as [(Hok & q & -> & Hq & Hread & Hnq) | (Hno & -> & code & message & ->)].
  - exists (project_view q). split; [done |]. split; [by rewrite <- Hnq in Hn |].
    left. split; [by apply Hc |]. split; [by eexists | done].
  - exists p'. split; [done |]. split; [done |]. right. rewrite <- Hc.
    split; [done |]. split; [done |]. by do 2 eexists.
Qed.

Lemma finalize_exact_witness :
  exists q,
    reads (g_projects (finalize_project_completion_by_c_suite sample_instant sample_instant "p1" "ceo" "t" "why"
                         working).2) "p1" q /\
    p_status q = Active /\ is_Some (p_completion_owner_notified_at q).
Proof.
  destruct (finalize_exact sample_instant sample_instant "p1" "ceo" "t" "why" working (read_sample working)
    working_good working_reads sample_instant_valid sample_instant_valid ltac:(by left))
    as (q & Hq & Hn & [((_ & _ & Happ) & _) | (_ & Hs & _)]).
  - vm_compute in Happ. discriminate.
  - exists q. split; [exact Hq |]. split; [rewrite Hs; vm_compute; reflexivity | exact Hn].
Defined.

(** * Two writers *)

(** The repository loses updates.  Two completion approvals for one active
    project that load it before either commits both report that they were
    recorded; in the table after both commits only the later one is left. *)
Theorem concurrent_approvals_lose_one u1 u2 now1 now2 pid a1 a2 tr1 tr2 t p :
  good t -> reads t pid p -> valid_datetime now1 -> valid_datetime now2 ->
  p_status p = Active -> is_Some (p_completion_report p) -> p_completion_approvals p = [] ->
  let first := completion_approval_of u1 now1 pid a1 "ceo" tr1 p t in
  let second := completion_approval_of u2 now2 pid a2 "cwo" tr2 p first.2 in
  (exists q1 q2, first.1 = Ret (q1, true) /\ second.1 = Ret (q2, true)) /\
  exists q, reads second.2 pid q /\ approval_roles (p_completion_approvals q) = ["cwo"].
Proof.
  intros Hg Hp H1 H2 Hs [rep Hrep] Hnone first second. subst first second.
  destruct (reads_good _ _ _ Hg Hp) as (<- & (? & ? & ? & ? & ? & ? & ?) & _ & _).
  unfold completion_approval_of. cbv zeta. rewrite Hs, Hrep, Hnone, !bool_decide_false by naive_solver.
  cbn [find_approval List.find]. rewrite !run_upsert.
  assert (forall (b : bool) (x : ProjectRecord * bool) s,
    (if b then ret x else ret x : M projects _) s = (Ret x, s)) as Hret by by intros [].
  rewrite !Hret. cbn [fst snd]. split; [by do 2 eexists |].
  eexists. split; [apply (reads_insert _ (replace_collections _ _ _ _ _ p)) | done].
  unfold valid_times. cbn. split_and!; try done. constructor; [exact H2 | done].
Qed.

Lemma concurrent_approvals_lose_one_witness :
  exists q, reads (completion_approval_of "u2" sample_instant "p1" "cwo-1" "cwo" "t"
      (read_sample working) (completion_approval_of "u1" sample_instant "p1" "ceo-1" "ceo" "t"
         (read_sample working) (g_projects working)).2).2 "p1" q /\
    approval_roles (p_completion_approvals q) = ["cwo"].
Proof.
  exact (proj2 (concurrent_approvals_lose_one "u1" "u2" sample_instant sample_instant "p1" "ceo-1" "cwo-1"
    "t" "t" (g_projects working) (read_sample working) working_good working_reads
    sample_instant_valid sample_instant_valid ltac:(vm_compute; reflexivity)
    ltac:(vm_compute; eexists; reflexivity) ltac:(vm_compute; reflexivity))).
Defined.

(** * Initialization *)

(** A successful or refused initialization of a readable project, in the table. *)
Lemma run_initialization t pid p later snapshot :
  reads t pid p ->
  record_initialization later pid snapshot t =
  if bool_decide (In (p_status p) [Approved; Paused]) then
    let q := replace_status Active later
      (mk_Transition (p_id p) (status_str (p_status p)) "active" "cwo_initialization"
         (is_actor_role snapshot) (is_trace_id snapshot) later [])
      (replace_completion later (p_completion_report p) (p_completion_owner_notified_at p)
         (p_completion_owner_notification_trace_id p) (Some snapshot) p) in
    (Ret q, <[p_id p := _project_to_row q]> t)
  else
    (Raise (GovernanceRepositoryError "project_invalid_transition"
              ("invalid project transition: " +:+ status_str (p_status p) +:+ " -> active")), t).
Proof.
  intros Hp. unfold record_initialization. rewrite (run_with_project _ _ _ _ Hp).
  unfold initialization_of, bind at 1, of_outcome. change "active" with (status_str Active).
  rewrite assert_transition_str. by destruct (p_status p).
Qed.

(** Initialization writes the charter file before it checks anything.  The
    cwo's call on a readable project always leaves the new charter document in
    the project's charter file.  If the project is approved or paused it becomes
    active, and the stored initialization carries the hash of that document.
    Otherwise the call raises, the projects table is unchanged, and the file no
    longer belongs to the stored initialization. *)
Theorem initialize_exact root json_text sha256 now later pid actor role trace objective c q m w g p :
  good (g_projects g) -> reads (g_projects g) pid p -> valid_datetime now -> valid_datetime later ->
  norm role = "cwo" ->
  let doc := charter_data now pid actor "cwo" trace objective c q (default [] m) (default [] w) in
  let r := initialize_project_by_cwo root json_text sha256 now later pid actor role trace objective c q m w g in
  g_files r.2 = <[charter_path root pid := doc]> (g_files g) /\
  if bool_decide (In (p_status p) [Approved; Paused]) then
    returns r.1 /\
    exists p' s, reads (g_projects r.2) pid p' /\ p_status p' = Active /\ p_initialization p' = Some s /\
      charter_storage_uri s = text_view (Some (charter_path root pid)) /\
      charter_content_hash s = text_view (Some (sha256 (json_text doc)))
  else
    g_projects r.2 = g_projects g /\
    r.1 = Raise (GovernanceHandlerError "project_invalid_transition"
                   ("invalid project transition: " +:+ status_str (p_status p) +:+ " -> active")).
Proof.
  intros Hg Hp Hnow Hlater Hrole doc r. destruct (reads_good _ _ _ Hg Hp) as (<- & Hv & _ & _). subst r.
  unfold initialize_project_by_cwo. cbv zeta. rewrite Hrole. cbn [String.eqb negb Ascii.eqb Bool.eqb].
  match goal with |- context [bind (write_file ?path ?d) ?k] =>
    change (bind (write_file path d) k g) with (k tt (mk_governance (g_projects g) (<[path := d]> (g_files g))))
  end. cbv beta.
  rewrite run_as_handler, run_on_projects. cbn [g_projects g_files].
  rewrite (run_initialization _ _ _ _ _ Hp). case_bool_decide; cbn [fst snd g_files g_projects];
    (split; [done |]); [| by split].
  split; [by eexists |]. match goal with |- context [_project_to_row ?x] => set (q' := x) end.
  exists (project_view q'). eexists. split; [apply (reads_insert _ q') |].
  - destruct Hv as (? & ? & ? & ? & ? & ? & ?). unfold valid_times. cbn. split_and!; try done.
    + apply Forall_app. split; [done |]. by constructor.
    + by intros s [= <-].
  - done.
Qed.

Lemma initialize_exact_witness :
  let r := initialize_project_by_cwo "/srv/openqilin" (fun _ => "doc2") (fun s => s) sample_instant sample_instant
             "p1" "cwo-1" "CWO" "t" "something else" (S754_zero false) (S754_zero false) None None working in
  g_projects r.2 = g_projects working /\
  g_files r.2 !! "/srv/openqilin/governance/projects/p1/charter.json" <>
  g_files working !! "/srv/openqilin/governance/projects/p1/charter.json".
Proof.
  destruct (initialize_exact "/srv/openqilin" (fun _ => "doc2") (fun s => s) sample_instant sample_instant
    "p1" "cwo-1" "CWO" "t" "something else" (S754_zero false) (S754_zero false) None None working
    (read_sample working) working_good working_reads sample_instant_valid sample_instant_valid
    ltac:(vm_compute; reflexivity)) as [Hf Hp].
  rewrite bool_decide_false in Hp by (vm_compute; intuition discriminate). destruct Hp as [Hp _].
  split; [exact Hp |]. rewrite Hf. vm_compute. discriminate.
Defined.

(** * Proposal approval *)

(** What one approval makes of a proposed project. *)
Definition approved_by (uuid : string) (now later : datetime) (actor role trace : string) (p : ProjectRecord)
    : ProjectRecord :=
  let approval := mk_Approval uuid (p_id p) (strip actor) role (strip trace) now in
  replace_collections now (p_proposal_messages p) (p_proposal_approvals p ++ [approval])
    (p_completion_approvals p) (p_workforce_bindings p) p.

Lemma approved_by_valid uuid now later actor role trace p :
  valid_times p -> valid_datetime now -> valid_times (approved_by uuid now later actor role trace p).
Proof.
  intros (? & ? & ? & ? & ? & ? & ?) Hnow. unfold valid_times, approved_by. cbn. split_and!; try done.
  by apply valid_snoc.
Qed.

Lemma run_approve uuid now later pid actor role trace g :
  In (norm role) _TRIAD_ROLES ->
  approve_project_proposal uuid now later pid actor role trace g =
  let r := record_proposal_approval uuid now later pid actor (norm role) trace (g_projects g) in
  (match r.1 with
   | Ret (project, approval_recorded) =>
       Ret (mk_ProposalApprovalOutcome project approval_recorded
              (sorted_set (approval_roles (p_proposal_approvals project))))
   | Raise (GovernanceRepositoryError code message) => Raise (GovernanceHandlerError code message)
   | Raise e => Raise e
   end, mk_governance r.2 (g_files g)).
Proof.
  intros Hrole. unfold approve_project_proposal. cbv zeta. rewrite (proj2 (mem_In _ _) Hrole). cbn [negb].
  unfold bind. rewrite run_as_handler, run_on_projects.
  by destruct (record_proposal_approval _ _ _ _ _ _ _ _) as [[[] | []] t'].
Qed.

(** Proposal approval is one vote per role and promotes on the third.  On a
    readable proposed project, a call by owner, ceo or cwo for a role that has not
    voted stores the vote after the earlier ones, and the stored project is
    approved when all three roles have voted and still proposed otherwise; a role
    that voted through the same actor changes nothing; through another actor it is
    refused.  On a project past its proposal every call is refused. *)
Theorem proposal_vote uuid now later pid actor role trace g p :
  good (g_projects g) -> reads (g_projects g) pid p -> valid_datetime now -> valid_datetime later ->
  In (norm role) _TRIAD_ROLES ->
  let r := approve_project_proposal uuid now later pid actor role trace g in
  if bool_decide (p_status p <> Proposed) then
    r = (Raise (GovernanceHandlerError "governance_project_not_proposed"
                  "proposal approvals are only allowed while project status is proposed"), g)
  else
    match find_approval (norm role) (p_proposal_approvals p) with
    | Some a =>
        if String.eqb (ap_actor_id a) (strip actor) then
          r = (Ret (mk_ProposalApprovalOutcome p false
                      (sorted_set (approval_roles (p_proposal_approvals p)))), g)
        else r = (Raise (GovernanceHandlerError "governance_approval_role_conflict"
                    ("proposal role already approved by another actor: " +:+ norm role)), g)
    | None =>
        exists o q, r.1 = Ret o /\ pa_approval_recorded o = true /\ g_files r.2 = g_files g /\
          reads (g_projects r.2) pid q /\
          approval_roles (p_proposal_approvals q) = approval_roles (p_proposal_approvals p) ++ [norm role] /\
          p_status q = (if has_roles _TRIAD_ROLES (p_proposal_approvals q) then Approved else Proposed)
    end.
Proof.
  intros Hg Hp Hnow Hlater Hrole r. destruct (reads_good _ _ _ Hg Hp) as (<- & Hv & _ & _). subst r.
  rewrite (run_approve _ _ _ _ _ _ _ _ Hrole). cbv zeta.
  unfold record_proposal_approval. rewrite (run_with_project _ _ _ _ Hp).
  unfold proposal_approval_of. cbv zeta. rewrite strip_norm.
  case_bool_decide as Hst; cbn [fst snd raise]; [by rewrite governance_eta |].
  destruct (find_approval _ _) as [a |] eqn:Hf.
  { destruct (String.eqb _ _); cbn [fst snd ret raise]; by rewrite governance_eta. }
  rewrite !run_upsert. fold (approved_by uuid now later actor (norm role) trace p).
  set (q := approved_by uuid now later actor (norm role) trace p).
  assert (valid_times q) as Hq by by apply approved_by_valid.
  assert (p_status p = Proposed) as Hprop by (destruct (decide (p_status p = Proposed)); tauto).
  pose proof (reads_insert (g_projects g) q Hq) as Hread. change (p_id q) with (p_id p) in Hread |- *.
  set (t' := <[p_id p := _project_to_row q]> (g_projects g)) in *.
  change (_has_triad_approvals q) with (has_roles _TRIAD_ROLES (p_proposal_approvals q)).
  destruct (has_roles _TRIAD_ROLES (p_proposal_approvals q)) eqn:Htriad.
  - unfold bind. change "approved" with (status_str Approved).
    rewrite (run_transition _ _ _ later Approved _ _ _ Hread) by done.
    change (p_status (project_view q)) with (p_status p). rewrite Hprop.
    rewrite bool_decide_true by (cbn; tauto). cbv zeta. cbn [fst snd ret].
    match goal with |- context [_project_to_row ?x] => set (q' := x) end.
    eexists _, (project_view q'). do 3 (split; [done |]). cbn [g_projects snd].
    split; [apply (replace_status_reads t' (project_view q) Approved later) |].
    + by apply valid_times_view.
    + done.
    + split; [unfold approval_roles; cbn; by rewrite map_app |].
      change (p_proposal_approvals (project_view q')) with (p_proposal_approvals q). by rewrite Htriad.
  - cbn [fst snd ret]. eexists _, (project_view q). do 3 (split; [done |]). split; [exact Hread |].
    split; [unfold approval_roles; cbn; by rewrite map_app |].
    change (p_proposal_approvals (project_view q)) with (p_proposal_approvals q). by rewrite Htriad.
Qed.

Definition voting : governance := run_sample (take 3 call_open).

Lemma voting_good : good (g_projects voting).
Proof. apply run_sample_good, Forall_take, call_open_clocks. Qed.

Lemma voting_reads : reads (g_projects voting) "p1" (read_sample voting).
Proof. apply reads_get_project. vm_compute. reflexivity. Qed.

Lemma proposal_vote_witness :
  exists q,
    reads (g_projects (approve_project_proposal "u3" sample_instant sample_instant "p1" "cwo-1" "cwo" "t"
                         voting).2) "p1" q /\ p_status q = Approved.
Proof.
  pose proof (proposal_vote "u3" sample_instant sample_instant "p1" "cwo-1" "cwo" "t" voting
    (read_sample voting) voting_good voting_reads sample_instant_valid sample_instant_valid
    ltac:(cbn; tauto)) as H.
  cbv zeta in H. rewrite bool_decide_false in H by (vm_compute; tauto).
  replace (find_approval (norm "cwo") (p_proposal_approvals (read_sample voting))) with (@None ApprovalRecord)
    in H by (vm_compute; reflexivity).
  destruct H as (o & q & _ & _ & _ & Hq & Hroles & Hst).
  exists q. split; [exact Hq |]. rewrite Hst. unfold has_roles. rewrite Hroles. vm_compute. reflexivity.
Defined.
