(* ===== verification/Ingress.v ===== *)
(** Ingress: who sends an owner command, and from where.

    Models [control_plane/schemas/owner_commands.py],
    [control_plane/identity/connector_security.py],
    [control_plane/identity/principal_resolver.py],
    [data_access/repositories/postgres/identity_repository.py] and
    [control_plane/identity/discord_governance.py].

    The HMAC and the configured secret are parameters.  The pydantic models are
    records together with the check their field constraints make. *)

From Stdlib Require Import Ascii.
From S2P Require Import Prelude PyStr PyData ProjectModel ProjectRows ProjectRepo.

(** * Request schemas *)

Record OwnerCommandSender : Type := mk_OwnerCommandSender {
  os_actor_id : string;
  os_actor_role : string
}.

Record OwnerCommandRecipient : Type := mk_OwnerCommandRecipient {
  recipient_id : string;
  recipient_type : string
}.

Record OwnerCommandDiscordContext : Type := mk_OwnerCommandDiscordContext {
  guild_id : string;
  channel_id : string;
  channel_type : string;
  chat_class : string;
  bot_role : option string;
  bot_id : option string;
  bot_user_id : option string
}.

Record OwnerCommandConnectorMetadata : Type := mk_OwnerCommandConnectorMetadata {
  oc_channel : string;
  external_message_id : string;
  oc_actor_external_id : string;
  oc_idempotency_key : string;
  raw_payload_hash : string;
  discord_context : option OwnerCommandDiscordContext
}.

Record OwnerCommandResolution : Type := mk_OwnerCommandResolution {
  rs_action : string;
  rs_target : string;
  rs_payload : list (string * json)
}.

Record OwnerCommandRequest : Type := mk_OwnerCommandRequest {
  oq_message_id : string;
  oq_trace_id : string;
  oq_sender : OwnerCommandSender;
  oq_recipients : list OwnerCommandRecipient;
  oq_message_type : string;
  oq_priority : string;
  oq_timestamp : datetime;
  oq_content : string;
  oq_project_id : option string;
  oq_connector : OwnerCommandConnectorMetadata;
  oq_command : OwnerCommandResolution
}.

(** [Field(min_length=lo, max_length=hi)]. *)
Definition len_ok (lo hi : nat) (s : string) : bool :=
  (Nat.leb lo (String.length s) && Nat.leb (String.length s) hi).

Definition opt_len_ok (lo hi : nat) (s : option string) : bool :=
  match s with Some x => len_ok lo hi x | None => true end.

Definition discord_context_ok (c : OwnerCommandDiscordContext) : bool :=
  len_ok 1 128 (guild_id c) && len_ok 1 128 (channel_id c) &&
  mem (channel_type c) ["dm"; "group"; "text"; "thread"] &&
  mem (chat_class c) ["direct"; "leadership_council"; "governance"; "executive"; "project"] &&
  opt_len_ok 1 64 (bot_role c) && opt_len_ok 1 128 (bot_id c) && opt_len_ok 1 128 (bot_user_id c).

Definition connector_metadata_ok (c : OwnerCommandConnectorMetadata) : bool :=
  mem (oc_channel c) ["discord"; "internal"] &&
  len_ok 1 256 (external_message_id c) && len_ok 1 256 (oc_actor_external_id c) &&
  len_ok 8 128 (oc_idempotency_key c) && len_ok 64 128 (raw_payload_hash c) &&
  match discord_context c with
  | Some d => String.eqb (oc_channel c) "discord" && discord_context_ok d
  | None => negb (String.eqb (oc_channel c) "discord")
  end.

Definition owner_command_request_ok (q : OwnerCommandRequest) : bool :=
  len_ok 1 256 (oq_message_id q) && len_ok 1 128 (oq_trace_id q) &&
  len_ok 1 128 (os_actor_id (oq_sender q)) && len_ok 1 64 (os_actor_role (oq_sender q)) &&
  Nat.leb 1 (length (oq_recipients q)) && Nat.leb (length (oq_recipients q)) 32 &&
  forallb (fun r => len_ok 1 128 (recipient_id r) && len_ok 1 64 (recipient_type r)) (oq_recipients q) &&
  String.eqb (oq_message_type q) "command" &&
  mem (oq_priority q) ["low"; "normal"; "high"; "critical"] &&
  len_ok 1 4000 (oq_content q) && opt_len_ok 1 128 (oq_project_id q) &&
  connector_metadata_ok (oq_connector q) &&
  len_ok 1 128 (rs_action (oq_command q)) && len_ok 1 128 (rs_target (oq_command q)).

(** * Connector security *)

Record ConnectorAuthContext : Type := mk_ConnectorAuthContext {
  ca_channel : string;
  ca_actor_external_id : string;
  ca_idempotency_key : string;
  ca_raw_payload_hash : string
}.

Fixpoint drop_chars (n : nat) (s : string) : string :=
  match n, s with
  | S n', String _ s' => drop_chars n' s'
  | _, _ => s
  end.

(** After the test, [split("=", 1)[1]] is what follows ["sha256="]. *)
Definition _normalize_signature (signature : string) : string :=
  let normalized := strip signature in
  if startswith normalized "sha256=" then strip (drop_chars 7 normalized) else normalized.

Fixpoint is_ascii (s : string) : bool :=
  match s with
  | EmptyString => true
  | String c s' => Nat.ltb (nat_of_ascii c) 128 && is_ascii s'
  end.

(** [hmac.compare_digest] on [str] refuses characters outside ASCII. *)
Definition compare_digest (a b : string) : outcome bool :=
  if is_ascii a && is_ascii b then Ret (String.eqb a b)
  else Raise (OtherError "TypeError: comparing strings with non-ASCII characters is not supported").

(** A header that is given must equal the payload's field. *)
Definition check_header (header : option string) (value code message : string) : outcome unit :=
  match header with
  | Some h => if String.eqb (strip h) value then Ret tt else Raise (ConnectorSecurityError code message)
  | None => Ret tt
  end.

Section connector.
Context (hmac_sha256_hex : string -> string -> string) (connector_shared_secret : string).

Definition sign_payload_hash (payload_hash secret : string) : string := hmac_sha256_hex secret payload_hash.

Definition validate_connector_auth (header_channel header_actor header_key header_signature : option string)
    (channel actor key payload_hash : string) : outcome ConnectorAuthContext :=
  match header_signature with
  | Some signature =>
      if negb (truthy (strip signature)) then
        Raise (ConnectorSecurityError "connector_signature_missing"
                 "missing required header: x-openqilin-signature")
      else
        let? _ := check_header header_channel channel "connector_channel_mismatch"
                    "connector channel header does not match payload connector channel" in
        let? _ := check_header header_actor actor "connector_actor_mismatch"
                    "connector actor header does not match payload actor_external_id" in
        let? _ := check_header header_key key "idempotency_key_mismatch"
                    "idempotency key header does not match payload connector metadata" in
        let expected := sign_payload_hash payload_hash connector_shared_secret in
        let? same := compare_digest (_normalize_signature signature) expected in
        if negb same then
          Raise (ConnectorSecurityError "connector_signature_invalid" "connector signature validation failed")
        else Ret (mk_ConnectorAuthContext channel actor key payload_hash)
  | None => Raise (ConnectorSecurityError "connector_signature_missing"
                     "missing required header: x-openqilin-signature")
  end.
End connector.

(** * Identity and channel mappings *)

Record IdentityChannelMappingRecord : Type := mk_IdentityChannelMappingRecord {
  im_mapping_id : string;
  im_connector : string;
  im_actor_external_id : string;
  im_guild_id : string;
  im_channel_id : string;
  im_channel_type : string;
  im_status : string;
  im_created_at : datetime;
  im_updated_at : datetime;
  im_principal_role : string
}.

(** The columns of the unique constraint. *)
Abbreviation mapping_key := (string * string * string * string * string)%type.

Abbreviation identity_table := (gmap mapping_key IdentityChannelMappingRecord).

Definition _normalize_key (con actor guild channel ctype : string) : outcome mapping_key :=
  let key := (norm con, strip actor, strip guild, strip channel, norm ctype) in
  if forallb truthy [norm con; strip actor; strip guild; strip channel; norm ctype] then Ret key
  else Raise (IdentityChannelRepositoryError "identity_channel_mapping_invalid"
                "connector identity/channel mapping key fields must be non-empty").

Definition _mapping_from_row (row : IdentityChannelMappingRecord) : IdentityChannelMappingRecord :=
  mk_IdentityChannelMappingRecord (im_mapping_id row) (im_connector row) (im_actor_external_id row)
    (im_guild_id row) (im_channel_id row) (im_channel_type row) (norm (im_status row))
    (im_created_at row) (im_updated_at row) (im_principal_role row).

Definition get_mapping (con actor guild channel ctype : string)
    : M identity_table (option IdentityChannelMappingRecord) :=
  let! key := of_outcome (_normalize_key con actor guild channel ctype) in
  gets (fun t => _mapping_from_row <$> t !! key).

(** [INSERT .. ON CONFLICT DO NOTHING], then a second read. *)
Definition claim_mapping (uuid : string) (now : datetime)
    (con actor guild channel ctype principal_role : string) : M identity_table IdentityChannelMappingRecord :=
  let! (((((k0, k1), k2), k3), k4) as key) := of_outcome (_normalize_key con actor guild channel ctype) in
  let! existing := get_mapping k0 k1 k2 k3 k4 in
  match existing with
  | Some record => ret record
  | None =>
      let record := mk_IdentityChannelMappingRecord uuid k0 k1 k2 k3 k4 "pending" now now principal_role in
      modify (fun t => match t !! key with Some _ => t | None => <[key := record]> t end) ;!
      let! result := get_mapping k0 k1 k2 k3 k4 in
      ret (default record result)
  end.

Definition set_mapping_status (now : datetime) (con actor guild channel ctype new_status : string)
    : M identity_table IdentityChannelMappingRecord :=
  let! (((((k0, k1), k2), k3), k4) as key) := of_outcome (_normalize_key con actor guild channel ctype) in
  let! existing := get_mapping k0 k1 k2 k3 k4 in
  match existing with
  | None => raise (IdentityChannelRepositoryError "identity_channel_mapping_missing"
                     "identity channel mapping not found for status update")
  | Some _ =>
      modify (alter (fun r => mk_IdentityChannelMappingRecord (im_mapping_id r) (im_connector r)
                (im_actor_external_id r) (im_guild_id r) (im_channel_id r) (im_channel_type r)
                new_status (im_created_at r) now (im_principal_role r)) key) ;!
      let! result := get_mapping k0 k1 k2 k3 k4 in
      match result with
      | None => raise (IdentityChannelRepositoryError "identity_channel_mapping_missing"
                         "identity channel mapping record not found after update")
      | Some r => ret r
      end
  end.

(** [ORDER BY created_at ASC]. *)
Definition list_mappings : M identity_table (list IdentityChannelMappingRecord) :=
  gets (fun t => map _mapping_from_row
                   (sorted (fun a b => negb (dt_ltb (im_created_at b) (im_created_at a)))
                      (map snd (map_to_list t)))).

(** [ORDER BY updated_at DESC LIMIT 1] among the verified mappings of the actor. *)
Definition get_by_connector_actor (con actor : string) (t : identity_table)
    : option IdentityChannelMappingRecord :=
  _mapping_from_row <$>
    head (sorted (fun a b => negb (dt_ltb (im_updated_at a) (im_updated_at b)))
            (List.filter (fun r => String.eqb (im_connector r) (norm con) &&
                                   String.eqb (im_actor_external_id r) (strip actor) &&
                                   String.eqb (im_status r) "verified")
               (map snd (map_to_list t)))).

(** * Principals *)

Record Principal : Type := mk_Principal {
  pl_principal_id : string;
  pl_connector : string;
  pl_principal_role : string;
  pl_trust_domain : string
}.

(** What [resolve_principal] is handed: nothing, a repository with a session
    factory, or one kept in memory, of which only the lookup is used. *)
Inductive identity_repo : Type :=
  | NoIdentityRepo
  | PersistentRepo (t : identity_table)
  | InMemoryRepo (lookup : string -> string -> option IdentityChannelMappingRecord).

Definition _optional_header (headers : list (string * string)) (name : string) : option string :=
  match dict_get headers name with Some value => or_none (strip value) | None => None end.

(** [x or y] where a present value is never empty. *)
Definition first_header (headers : list (string * string)) (names : list string) : option string :=
  foldr (fun name rest => match _optional_header headers name with Some v => Some v | None => rest end)
    None names.

(** [mapping.principal_role or "owner"]. *)
Definition role_or_owner (role : string) : string := if truthy role then role else "owner".

Definition header_role (headers : list (string * string)) : string :=
  default "owner" (_optional_header headers "x-openqilin-actor-role").

Definition resolve_principal (headers : list (string * string)) (repo : identity_repo) : outcome Principal :=
  match first_header headers ["x-external-channel"; "x-openqilin-connector"] with
  | None => Raise (PrincipalResolutionError "principal_missing_header"
                     "missing required header: x-external-channel")
  | Some con =>
      if negb (mem con ["discord"; "internal"]) then
        Raise (PrincipalResolutionError "principal_invalid_connector" ("unsupported connector: " +:+ con))
      else
        match first_header headers
                ["x-openqilin-actor-external-id"; "x-external-actor-id"; "x-openqilin-user-id"] with
        | None => Raise (PrincipalResolutionError "principal_missing_header"
                    "missing required header: x-openqilin-actor-external-id (or x-external-actor-id)")
        | Some actor =>
            let? role :=
              if String.eqb con "internal" then Ret (header_role headers)
              else match repo with
                   | PersistentRepo t =>
                       match get_by_connector_actor con actor t with
                       | Some mapping =>
                           if String.eqb (im_status mapping) "verified"
                           then Ret (role_or_owner (im_principal_role mapping))
                           else Raise (PrincipalResolutionError "principal_identity_unverified"
                                         "actor identity is not verified; access denied")
                       | None => Raise (PrincipalResolutionError "principal_identity_unverified"
                                          "actor identity is not verified; access denied")
                       end
                   | InMemoryRepo lookup =>
                       match lookup con actor with
                       | Some mapping => Ret (role_or_owner (im_principal_role mapping))
                       | None => Ret (header_role headers)
                       end
                   | NoIdentityRepo => Ret (header_role headers)
                   end in
            Ret (mk_Principal actor con role
                   (if String.eqb con "internal" then "internal" else "external_verified"))
        end
  end.

(** * Discord governance *)

Definition _PENDING_ROLE_FLAGS : list string := ["cso"; "domain_leader"].

Definition _MEMBERSHIP_BY_CHAT_CLASS (cls : string) : option (list string) :=
  if String.eqb cls "direct" then
    Some ["owner"; "administrator"; "auditor"; "ceo"; "cwo"; "cso"; "secretary"; "project_manager"]
  else if String.eqb cls "leadership_council" then
    Some ["owner"; "administrator"; "auditor"; "ceo"; "cwo"; "secretary"]
  else if String.eqb cls "governance" then Some ["owner"; "administrator"; "auditor"; "secretary"]
  else if String.eqb cls "executive" then Some ["owner"; "ceo"; "cwo"; "secretary"]
  else if String.eqb cls "project" then Some ["owner"; "ceo"; "cwo"; "project_manager"]
  else None.

Definition _KNOWN_ROLE_SET : list string :=
  ["owner"; "administrator"; "auditor"; "ceo"; "cwo"; "project_manager"; "domain_leader"; "specialist";
   "secretary"; "cso"].

Record DiscordGovernanceDecision : Type := mk_DiscordGovernanceDecision {
  dg_mapping : IdentityChannelMappingRecord;
  dg_chat_class : string;
  dg_project_status : option string
}.

(** The loop over the recipients' roles. *)
Fixpoint check_recipients (cls : string) (allowed : list string) (roles : list string) : outcome unit :=
  match roles with
  | [] => Ret tt
  | role :: roles' =>
      if String.eqb role "specialist" then check_recipients cls allowed roles'
      else if mem role _PENDING_ROLE_FLAGS then
        Raise (DiscordGovernanceError "governance_chat_role_pending_activation"
                 ("recipient role is pending activation in MVP: " +:+ role)
                 [("chat_class", cls); ("recipient_role", role)])
      else if mem role _KNOWN_ROLE_SET && negb (mem role allowed) then
        Raise (DiscordGovernanceError "governance_chat_recipient_forbidden"
                 ("recipient role is not allowed for chat_class " +:+ cls)
                 [("chat_class", cls); ("recipient_role", role)])
      else check_recipients cls allowed roles'
  end.

(** The checks of a project channel, on the project's status. *)
Definition check_project_channel (pid action role : string) (st : ProjectStatus) : outcome unit :=
  let project_status := status_str st in
  if String.eqb project_status "archived" then
    Raise (DiscordGovernanceError "governance_project_channel_archived"
             "project channel is archived and locked"
             [("project_id", pid); ("project_status", project_status)])
  else if mem project_status ["completed"; "terminated"] && negb (startswith action "query_") then
    Raise (DiscordGovernanceError "governance_project_channel_read_only"
             "project channel is read-only in completed/terminated state"
             [("project_id", pid); ("project_status", project_status)])
  else
    let allowed_senders := if String.eqb project_status "proposed" then ["owner"; "ceo"; "cwo"]
                           else ["owner"; "ceo"; "cwo"; "project_manager"] in
    if negb (mem role allowed_senders) then
      Raise (DiscordGovernanceError "governance_project_channel_sender_forbidden"
               "sender role is not allowed for project status"
               [("project_id", pid); ("project_status", project_status); ("sender_role", role)])
    else Ret tt.

(** The checks after the mapping is claimed. *)
Definition check_chat (q : OwnerCommandRequest) (principal_role : string)
    (context : OwnerCommandDiscordContext) (mapping : IdentityChannelMappingRecord)
    : M projects DiscordGovernanceDecision :=
  let cls := chat_class context in
  if String.eqb (im_status mapping) "revoked" then
    raise (DiscordGovernanceError "connector_identity_channel_revoked"
             "connector actor/channel mapping is revoked"
             [("guild_id", guild_id context); ("channel_id", channel_id context);
              ("channel_type", channel_type context)])
  else
    match _MEMBERSHIP_BY_CHAT_CLASS cls with
    | None => raise (DiscordGovernanceError "governance_chat_class_unknown"
                       ("unknown chat_class: " +:+ py_repr cls) [("chat_class", cls)])
    | Some allowed_members =>
        let role := norm principal_role in
        if negb (mem role allowed_members) then
          raise (DiscordGovernanceError "governance_chat_sender_forbidden"
                   ("sender role is not allowed for chat_class " +:+ cls)
                   [("chat_class", cls); ("sender_role", role)])
        else
          of_outcome (check_recipients cls allowed_members
                        (map (fun r => norm (recipient_type r)) (oq_recipients q))) ;!
          if negb (String.eqb cls "project") then ret (mk_DiscordGovernanceDecision mapping cls None)
          else
            match oq_project_id q with
            | None => raise (DiscordGovernanceError "governance_project_channel_missing_project_id"
                               "project chat class requires project_id" [("chat_class", cls)])
            | Some pid =>
                let! project := get_project pid in
                match project with
                | None => ret (mk_DiscordGovernanceDecision mapping cls None)
                | Some p =>
                    of_outcome (check_project_channel pid (rs_action (oq_command q)) role (p_status p)) ;!
                    ret (mk_DiscordGovernanceDecision mapping cls (Some (status_str (p_status p))))
                end
            end
    end.

Definition on_fst {A B X} (m : M A X) : M (A * B) X := zoom fst (fun a s => (a, s.2)) m.
Definition on_snd {A B X} (m : M B X) : M (A * B) X := zoom snd (fun b s => (s.1, b)) m.

Definition validate_discord_governance (uuid : string) (now : datetime) (q : OwnerCommandRequest)
    (principal_role : string) : M (identity_table * projects) (option DiscordGovernanceDecision) :=
  let con := oq_connector q in
  if negb (String.eqb (oc_channel con) "discord") then ret None
  else
    match discord_context con with
    | None => raise (DiscordGovernanceError "connector_discord_context_missing"
                       "discord connector requires context metadata" [])
    | Some context =>
        let! mapping := on_fst (claim_mapping uuid now (oc_channel con) (oc_actor_external_id con)
                                  (guild_id context) (channel_id context) (channel_type context) "owner") in
        let! decision := on_snd (check_chat q principal_role context mapping) in
        ret (Some decision)
    end.

(** * Lemmas *)

(** What an accepted signature says: it is the HMAC of the payload hash. *)
Lemma connector_auth_ret hmac secret hch hact hkey hsig channel actor key payload_hash c :
  validate_connector_auth hmac secret hch hact hkey hsig channel actor key payload_hash = Ret c ->
  exists signature, hsig = Some signature /\ truthy (strip signature) = true /\
    compare_digest (_normalize_signature signature) (hmac secret payload_hash) = Ret true /\
    check_header hch channel "connector_channel_mismatch"
      "connector channel header does not match payload connector channel" = Ret tt /\
    check_header hact actor "connector_actor_mismatch"
      "connector actor header does not match payload actor_external_id" = Ret tt.
Proof.
  unfold validate_connector_auth, sign_payload_hash. destruct hsig as [signature |]; [| done].
  destruct (truthy (strip signature)) eqn:Ht; [| done]. cbn [negb].
  destruct (check_header hch _ _ _) as [[] |] eqn:H1; [| done]. cbn [obind].
  destruct (check_header hact _ _ _) as [[] |] eqn:H2; [| done]. cbn [obind].
  destruct (check_header hkey _ _ _) as [[] |]; [| done]. cbn [obind].
  destruct (compare_digest _ _) as [[] |] eqn:Hc; [| done | done]. intros _. by exists signature.
Qed.

(** The chat rules an accepted Discord command respects. *)
Lemma check_chat_ret q role context mapping t d t' :
  check_chat q role context mapping t = (Ret d, t') ->
  t' = t /\ im_status mapping <> "revoked" /\
  exists members, _MEMBERSHIP_BY_CHAT_CLASS (chat_class context) = Some members /\ In (norm role) members.
Proof.
  unfold check_chat. destruct (String.eqb_spec (im_status mapping) "revoked"); [done |].
  destruct (_MEMBERSHIP_BY_CHAT_CLASS _) as [members |] eqn:Hm; [| done].
  destruct (mem (norm role) members) eqn:Hr; [| done]. cbn [negb]. unfold bind at 1, of_outcome.
  destruct (check_recipients _ _ _); [| done]. intros H.
  assert (t' = t) as ->.
  { revert H. unfold get_project, bind, gets, of_outcome, ret, raise.
    destruct (negb _); [congruence |]. destruct (oq_project_id q) as [pid |]; [| done].
    destruct (t !! pid) as [row |]; [| congruence]. destruct (_project_from_row row); [| done].
    destruct (check_project_channel _ _ _ _); [congruence | done]. }
  split; [done |]. split; [done |]. exists members. split; [done |]. by apply mem_In.
Qed.

(** The role of an external principal, from the store. *)
Lemma external_role_from_headers headers t p :
  resolve_principal headers (PersistentRepo t) = Ret p -> pl_connector p <> "internal" ->
  exists mapping, get_by_connector_actor (pl_connector p) (pl_principal_id p) t = Some mapping /\
    im_status mapping = "verified" /\ pl_principal_role p = role_or_owner (im_principal_role mapping).
Proof.
  unfold resolve_principal. destruct (first_header headers ["x-external-channel"; _]) as [con |]; [| done].
  destruct (mem con _); [| done]. cbn [negb].
  destruct (first_header headers ["x-openqilin-actor-external-id"; _; _]) as [actor |]; [| done].
  destruct (String.eqb_spec con "internal") as [-> | Hne].
  { cbn [obind]. intros [= <-]. done. }
  destruct (get_by_connector_actor con actor t) as [mapping |] eqn:Hm; [| done].
  destruct (String.eqb_spec (im_status mapping) "verified") as [Hv |]; [| done].
  cbn [obind]. intros [= <-] _. by exists mapping.
Qed.

(** * Theorems *)

(** A connector signature binds the payload hash and nothing else.  A
    signature accepted with one set of connector fields is accepted with every
    other channel, actor and idempotency key that claims the same payload hash;
    the command is not looked at, and the hash is the sender's own claim. *)
Theorem signature_binds_only_the_hash hmac secret hch hact hkey signature channel actor key payload_hash :
  returns (validate_connector_auth hmac secret hch hact hkey (Some signature) channel actor key payload_hash) ->
  forall channel' actor' key',
    strip channel' = channel' -> strip actor' = actor' -> strip key' = key' ->
    validate_connector_auth hmac secret (Some channel') (Some actor') (Some key') (Some signature)
      channel' actor' key' payload_hash = Ret (mk_ConnectorAuthContext channel' actor' key' payload_hash).
Proof.
  intros [c Hc] channel' actor' key' H1 H2 H3.
  destruct (connector_auth_ret _ _ _ _ _ _ _ _ _ _ _ Hc) as (? & [= <-] & Ht & Hsame & _).
  unfold validate_connector_auth, check_header, sign_payload_hash.
  rewrite Ht, H1, H2, H3, !String.eqb_refl, Hsame. done.
Qed.

Lemma signature_binds_only_the_hash_witness :
  validate_connector_auth (fun secret text => secret +:+ text) "k" (Some "internal") (Some "root")
    (Some "other-key") (Some "sha256=kh") "internal" "root" "other-key" "h" =
  Ret (mk_ConnectorAuthContext "internal" "root" "other-key" "h").
Proof.
  apply (signature_binds_only_the_hash (fun secret text => secret +:+ text) "k" None None None "sha256=kh"
           "discord" "user-1" "key-0001" "h");
    [eexists; reflexivity | reflexivity | reflexivity | reflexivity].
Defined.

(** No header chooses an external principal's role.  With the persistent
    store, two requests that resolve, agree on the channel and actor headers and
    are not from the internal connector resolve to the same principal, whatever
    roles their other headers claim; its role is that of a verified mapping in
    the store, or owner when that is empty. *)
Theorem external_role_from_store headers headers' t p p' :
  resolve_principal headers (PersistentRepo t) = Ret p ->
  resolve_principal headers' (PersistentRepo t) = Ret p' ->
  pl_connector p = pl_connector p' -> pl_principal_id p = pl_principal_id p' ->
  pl_connector p <> "internal" ->
  pl_principal_role p = pl_principal_role p' /\
  exists mapping, get_by_connector_actor (pl_connector p) (pl_principal_id p) t = Some mapping /\
    im_status mapping = "verified" /\ pl_principal_role p = role_or_owner (im_principal_role mapping).
Proof.
  intros Hp Hp' E1 E2 Hne. destruct (external_role_from_headers _ _ _ Hp Hne) as (m & Hm & Hv & Hr).
  rewrite E1 in Hne. destruct (external_role_from_headers _ _ _ Hp' Hne) as (m' & Hm' & _ & Hr').
  rewrite E1, E2, Hm' in Hm. injection Hm as <-. split; [congruence |]. exists m'. by rewrite E1, E2.
Qed.

Definition sample_mapping (role : string) : IdentityChannelMappingRecord :=
  mk_IdentityChannelMappingRecord "m-1" "discord" "user-1" "g" "c" "text" "verified"
    (mk_datetime 2026 3 24 12 0 0 0) (mk_datetime 2026 3 24 12 0 0 0) role.

Definition sample_identities (role : string) : identity_table :=
  {[("discord", "user-1", "g", "c", "text") := sample_mapping role]}.

Lemma external_role_from_store_witness :
  exists p p', resolve_principal [("x-external-channel", "discord"); ("x-external-actor-id", "user-1");
                               ("x-openqilin-actor-role", "owner")]
              (PersistentRepo (sample_identities "auditor")) = Ret p /\
    resolve_principal [("x-external-channel", "discord"); ("x-external-actor-id", "user-1")]
              (PersistentRepo (sample_identities "auditor")) = Ret p' /\
    pl_principal_role p = pl_principal_role p' /\ pl_principal_role p = "auditor".
Proof.
  exists (mk_Principal "user-1" "discord" "auditor" "external_verified"),
    (mk_Principal "user-1" "discord" "auditor" "external_verified").
  split; [vm_compute; reflexivity |]. split; [vm_compute; reflexivity |].
  split; [| reflexivity].
  apply (external_role_from_store
    [("x-external-channel", "discord"); ("x-external-actor-id", "user-1"); ("x-openqilin-actor-role", "owner")]
    [("x-external-channel", "discord"); ("x-external-actor-id", "user-1")]
    (sample_identities "auditor")); [vm_compute; reflexivity | vm_compute; reflexivity
    | reflexivity | reflexivity | discriminate].
Defined.
