(* ===== verification/Admission.v ===== *)
(** Admission: from a validated owner command to a queued task, once.

    Models [task_orchestrator/admission/envelope_validator.py],
    [control_plane/idempotency/ingress_dedupe.py],
    [task_orchestrator/admission/idempotency.py],
    [task_orchestrator/admission/service.py], and the recovery of claims at
    startup ([control_plane/api/startup_recovery.py] and the recovery loop of
    [control_plane/api/dependencies.py]).

    [json.dumps] and SHA-256 are parameters: what matters is which fields they
    are applied to.  [str_float] is Python's [str] of a float. *)

From S2P Require Import Prelude PyStr PyData LlmSchemas Task Ingress.

(** * The envelope *)

Section envelope.
Context (str_float : pyfloat -> string).

(** [repr(x)] and [str(x)] of a JSON value. *)
Fixpoint json_repr (j : json) : string :=
  match j with
  | JNull => "None"
  | JBool b => str_bool b
  | JInt z => str_int z
  | JFloat f => str_float f
  | JStr s => py_repr s
  | JArr l => "[" +:+ join ", " (map json_repr l) +:+ "]"
  | JObj o => "{" +:+ join ", " (map (fun p => py_repr p.1 +:+ ": " +:+ json_repr p.2) o) +:+ "}"
  end.

Definition json_str (j : json) : string := match j with JStr s => s | _ => json_repr j end.

(** [sorted(_KNOWN_ROLE_SET, key=len, reverse=True)]. *)
Definition roles_by_length : list string :=
  ["project_manager"; "administrator"; "domain_leader"; "specialist"; "secretary"; "auditor"; "owner";
   "ceo"; "cwo"; "cso"].

Definition _infer_role_from_recipient_id (rid : string) : option string :=
  let normalized_id := norm rid in
  if negb (truthy normalized_id) then None
  else List.find (fun role => String.eqb normalized_id role || startswith normalized_id (role +:+ "_"))
         roles_by_length.

(** The loop that compares a recipient's id with its type. *)
Fixpoint check_recipient_roles (recipients : list OwnerCommandRecipient) : outcome unit :=
  match recipients with
  | [] => Ret tt
  | r :: recipients' =>
      let normalized_type := norm (recipient_type r) in
      let normalized_id := norm (recipient_id r) in
      if negb (truthy normalized_type) || negb (truthy normalized_id) then check_recipient_roles recipients'
      else
        match _infer_role_from_recipient_id normalized_id with
        | Some inferred_role =>
            if mem normalized_type _KNOWN_ROLE_SET && negb (String.eqb inferred_role normalized_type) then
              Raise (EnvelopeValidationError "envelope_recipient_role_mismatch"
                       ("recipient_id role prefix does not match recipient_type (" +:+ normalized_id +:+
                        " vs " +:+ normalized_type +:+ ")"))
            else check_recipient_roles recipients'
        | None => check_recipient_roles recipients'
        end
  end.

Definition envelope_args (payload : list (string * json)) : outcome (list string) :=
  match jfield payload "args" with
  | None => Ret []
  | Some (JArr raw_args) =>
      let normalized_args := map (fun arg => strip (json_str arg)) raw_args in
      if existsb (fun arg => negb (truthy arg)) normalized_args then
        Raise (EnvelopeValidationError "envelope_invalid_args" "args must not contain blank values")
      else Ret normalized_args
  | Some _ => Raise (EnvelopeValidationError "envelope_invalid_args"
                       "command payload args must be a list of strings")
  end.

Definition envelope_metadata (q : OwnerCommandRequest) : list (string * string) :=
  let recipients := oq_recipients q in
  let types := sorted_set (List.filter truthy (map (fun r => norm (recipient_type r)) recipients)) in
  let ids := sorted_set (List.filter truthy (map (fun r => strip (recipient_id r)) recipients)) in
  let '(primary_role, primary_id) :=
    match recipients with
    | r :: _ => (norm (recipient_type r), strip (recipient_id r))
    | [] => ("", "")
    end in
  let '(guild, channel, thread) :=
    match discord_context (oq_connector q) with
    | Some d => (strip (guild_id d), strip (channel_id d),
                 if String.eqb (channel_type d) "thread" then strip (channel_id d) else "")
    | None => ("", "", "")
    end in
  sorted pair_leb
    [("message_id", oq_message_id q); ("message_type", oq_message_type q); ("priority", oq_priority q);
     ("sender_role", os_actor_role (oq_sender q));
     ("external_message_id", external_message_id (oq_connector q));
     ("raw_payload_hash", raw_payload_hash (oq_connector q));
     ("recipient_types", join "," types); ("recipient_ids", join "," ids);
     ("primary_recipient_role", primary_role); ("primary_recipient_id", primary_id);
     ("discord_guild_id", guild); ("discord_channel_id", channel); ("discord_thread_id", thread)].

(** The checks; [uuid4()] is drawn after them, for the request identifier. *)
Definition validate_owner_command_envelope (q : OwnerCommandRequest) (principal : Principal)
    (trace_id_override : option string) : outcome (string -> AdmissionEnvelope) :=
  let normalized_command := strip (rs_action (oq_command q)) in
  if negb (truthy normalized_command) then
    Raise (EnvelopeValidationError "envelope_invalid_command" "command must not be blank")
  else
    let normalized_target := strip (rs_target (oq_command q)) in
    if negb (truthy normalized_target) then
      Raise (EnvelopeValidationError "envelope_invalid_target" "command target must not be blank")
    else
      let? normalized_args := envelope_args (rs_payload (oq_command q)) in
      if negb (String.eqb (strip (os_actor_id (oq_sender q))) (pl_principal_id principal)) then
        Raise (EnvelopeValidationError "envelope_sender_mismatch"
                 "sender actor_id does not match resolved principal")
      else
        let normalized_trace_id := strip (opt_or trace_id_override (oq_trace_id q)) in
        if negb (truthy normalized_trace_id) then
          Raise (EnvelopeValidationError "envelope_invalid_trace_id" "trace identifier must not be blank")
        else
          let? _ := check_recipient_roles (oq_recipients q) in
          Ret (fun uuid =>
            {| ae_request_id := uuid; ae_trace_id := normalized_trace_id;
               ae_principal_id := pl_principal_id principal;
               ae_principal_role := pl_principal_role principal;
               ae_trust_domain := pl_trust_domain principal; ae_connector := pl_connector principal;
               ae_command := normalized_command; ae_target := normalized_target;
               ae_args := normalized_args; ae_metadata := envelope_metadata q;
               ae_project_id := oq_project_id q;
               ae_idempotency_key := oc_idempotency_key (oq_connector q) |}).
End envelope.

(** * Claims *)

Record IngressDedupeRecord : Type := mk_IngressDedupeRecord {
  dr_principal_id : string;
  dr_idempotency_key : string;
  dr_payload_hash : string;
  dr_task_id : option string
}.

Abbreviation dedupe_store := (gmap (string * string) IngressDedupeRecord).

Definition claim (pid key payload_hash : string) : M dedupe_store (string * IngressDedupeRecord) :=
  let! existing := gets (fun claims => claims !! (pid, key)) in
  match existing with
  | None =>
      let record := mk_IngressDedupeRecord pid key payload_hash None in
      modify (insert (pid, key) record) ;! ret ("new", record)
  | Some existing =>
      if String.eqb (dr_payload_hash existing) payload_hash then ret ("replay", existing)
      else ret ("conflict", existing)
  end.

Definition bind_task_id (pid key tid : string) : M dedupe_store unit :=
  modify (alter (fun existing => mk_IngressDedupeRecord (dr_principal_id existing)
            (dr_idempotency_key existing) (dr_payload_hash existing) (Some tid)) (pid, key)).

(** * The coordinator and the service *)

Record admission : Type := mk_admission {
  ad_claims : dedupe_store;
  ad_tasks : task_table
}.

Definition on_claims {A} (m : M dedupe_store A) : M admission A :=
  zoom ad_claims (fun c s => mk_admission c (ad_tasks s)) m.
Definition on_table {A} (m : M task_table A) : M admission A :=
  zoom ad_tasks (fun t s => mk_admission (ad_claims s) t) m.

Record AdmissionResult : Type := mk_AdmissionResult {
  ar_task : TaskRecord;
  ar_replayed : bool
}.

Section admission.
Context (json_text : json -> string) (sha256 : string -> string).

Definition payload_document (pid con cmd : string) (arguments : list string)
    (md : list (string * string)) (key : string) : json :=
  JObj [("principal_id", JStr pid); ("connector", JStr con); ("command", JStr cmd);
        ("args", JArr (map JStr arguments)); ("metadata", jpairs md); ("idempotency_key", JStr key)].

Definition _payload_hash (e : AdmissionEnvelope) : string :=
  sha256 (json_text (payload_document (ae_principal_id e) (ae_connector e) (ae_command e) (ae_args e)
                       (ae_metadata e) (ae_idempotency_key e))).

Definition payload_hash_for_task (t : TaskRecord) : string :=
  sha256 (json_text (payload_document (principal_id t) (connector t) (command t) (args t)
                       (metadata t) (idempotency_key t))).

Definition resolve (uuid : string) (now : datetime) (e : AdmissionEnvelope) : M admission AdmissionResult :=
  let pid := ae_principal_id e in
  let key := ae_idempotency_key e in
  let! (claim_status, claimed) := on_claims (claim pid key (_payload_hash e)) in
  if String.eqb claim_status "conflict" then
    raise (AdmissionIdempotencyError "idempotency_key_reused_with_different_payload"
             ("idempotency key cannot be reused with a different payload for principal " +:+ pid))
  else if String.eqb claim_status "replay" then
    let! task := on_table (get_task_by_principal_and_idempotency pid key) in
    let! task :=
      match task, dr_task_id claimed with
      | None, Some tid => on_table (get_task_by_id tid)
      | _, _ => ret task
      end in
    match task with
    | None => raise (AdmissionIdempotencyError "idempotency_state_missing"
                       "existing idempotency claim has no recoverable task state")
    | Some t => ret (mk_AdmissionResult t true)
    end
  else
    let! task := on_table (create_task_from_envelope uuid now e) in
    on_claims (bind_task_id pid key (task_id task)) ;!
    ret (mk_AdmissionResult task false).

Definition admit_owner_command (uuid : string) (now : datetime) (e : AdmissionEnvelope)
    : M admission AdmissionResult := resolve uuid now e.

(** ** Startup recovery *)

Definition _ACTIVE_STATUSES : list string := ["queued"; "dispatched"; "running"; "blocked"].

Fixpoint reclaim (tasks : list TaskRecord) (reconstructed : Z) : M dedupe_store Z :=
  match tasks with
  | [] => ret reconstructed
  | t :: tasks' =>
      if mem (status t) _ACTIVE_STATUSES then
        let! (st, _) := claim (principal_id t) (idempotency_key t) (payload_hash_for_task t) in
        bind_task_id (principal_id t) (idempotency_key t) (task_id t) ;!
        reclaim tasks' (if String.eqb st "new" then reconstructed + 1 else reconstructed)%Z
      else reclaim tasks' reconstructed
  end.

(** A new process: an empty claim store, then the recovery loop. *)
Definition restart : M admission Z :=
  modify (fun s => mk_admission ∅ (ad_tasks s)) ;!
  let! tasks := on_table list_tasks in
  on_claims (reclaim tasks 0).
End admission.
