(* ===== verification/AdmissionFacts.v ===== *)
(** Admission is idempotent while the process lives, and what happens when not.

    [claims_ok] ties the process's claims to the tasks table; every admission
    and every status update preserves it.  The theorems about restarts start
    from an arbitrary tasks table. *)

From S2P Require Import Prelude PyStr PyData LlmSchemas Task Ingress Admission.

(** * The rows of one principal and key *)

Definition matches (pid key : string) (t : TaskRecord) : bool :=
  String.eqb (principal_id t) pid && String.eqb (idempotency_key t) key.

Lemma matches_iff pid key t : matches pid key t = true <-> principal_id t = pid /\ idempotency_key t = key.
Proof. unfold matches. rewrite andb_true_iff, !String.eqb_eq. done. Qed.

Lemma matching_rows pid key (s : task_table) t :
  In t (List.filter (matches pid key) (table_rows s)) <->
  exists tid, s !! tid = Some t /\ matches pid key t = true.
Proof.
  rewrite filter_In. unfold table_rows. rewrite <- !list_elem_of_In, sorted_perm, !list_elem_of_In, in_map_iff.
  split.
  - intros [([k x] & <- & Hin) Hm]. exists k. split; [| done].
    by apply elem_of_map_to_list, list_elem_of_In.
  - intros (tid & Hs & Hm). split; [| done]. exists (tid, t). split; [done |].
    by apply list_elem_of_In, elem_of_map_to_list.
Qed.

Lemma last_In {A} (l : list A) x : last l = Some x -> In x l.
Proof. intros H. apply list_elem_of_In. by apply last_Some_elem_of. Qed.

(** The lookup when one row matches, and when none does. *)
Lemma lookup_unique pid key (s : task_table) tid r :
  s !! tid = Some r -> matches pid key r = true ->
  (forall tid' r', s !! tid' = Some r' -> matches pid key r' = true -> r' = r) ->
  get_task_by_principal_and_idempotency pid key s = (Ret (Some (_task_from_row r)), s).
Proof.
  intros Hs Hm Hu. unfold get_task_by_principal_and_idempotency, gets. do 2 f_equal.
  change (fun t => String.eqb (principal_id t) pid && String.eqb (idempotency_key t) key) with (matches pid key).
  destruct (last (List.filter (matches pid key) (table_rows s))) as [x |] eqn:Hl.
  - apply last_In, matching_rows in Hl as (tid' & Hx & Hmx). by rewrite (Hu _ _ Hx Hmx).
  - apply last_None in Hl. exfalso. assert (In r []) as []. rewrite <- Hl.
    apply matching_rows. by exists tid.
Qed.

Lemma lookup_none pid key (s : task_table) :
  (forall tid r, s !! tid = Some r -> matches pid key r = false) ->
  get_task_by_principal_and_idempotency pid key s = (Ret None, s).
Proof.
  intros Hn. unfold get_task_by_principal_and_idempotency, gets. do 2 f_equal.
  change (fun t => String.eqb (principal_id t) pid && String.eqb (idempotency_key t) key) with (matches pid key).
  destruct (last _) as [x |] eqn:Hl; [| done].
  apply last_In, matching_rows in Hl as (tid & Hx & Hm). by rewrite (Hn _ _ Hx) in Hm.
Qed.

Section facts.
Context (json_text : json -> string) (sha256 : string -> string).

#[local] Abbreviation hash := (_payload_hash json_text sha256).
#[local] Abbreviation hash_of_task := (payload_hash_for_task json_text sha256).
#[local] Abbreviation admit_cmd := (admit_owner_command json_text sha256).

(** The hash of a stored task is the hash of its envelope. *)
Lemma hash_of_envelope uuid now e : hash_of_task (task_of_envelope uuid now e) = hash e.
Proof. done. Qed.

Lemma hash_same_request a b : same_request a b -> hash_of_task a = hash_of_task b.
Proof.
  intros (_ & _ & _ & H1 & _ & _ & H2 & H3 & _ & H4 & H5 & _ & H6 & _).
  unfold payload_hash_for_task. congruence.
Qed.

Lemma matches_same_request pid key a b : same_request a b -> matches pid key a = matches pid key b.
Proof.
  intros (_ & _ & _ & H1 & _ & _ & _ & _ & _ & _ & _ & _ & H6 & _). unfold matches. by rewrite H1, H6.
Qed.

(** * The invariant *)

Record claims_ok (s : admission) : Prop := {
  ok_row : forall tid r, ad_tasks s !! tid = Some r ->
    task_id r = tid /\
    ad_claims s !! (principal_id r, idempotency_key r) =
      Some (mk_IngressDedupeRecord (principal_id r) (idempotency_key r) (hash_of_task r) (Some tid));
  ok_claim : forall pid key c tid, ad_claims s !! (pid, key) = Some c -> dr_task_id c = Some tid ->
    exists r, ad_tasks s !! tid = Some r /\ matches pid key r = true
}.

Lemma claims_ok_unique s pid key tid r tid' r' :
  claims_ok s -> ad_tasks s !! tid = Some r -> ad_tasks s !! tid' = Some r' ->
  matches pid key r = true -> matches pid key r' = true -> r' = r /\ tid' = tid.
Proof.
  intros [H _] Hr Hr' [<- <-]%matches_iff [E1 E2]%matches_iff.
  destruct (H _ _ Hr) as [_ Hc], (H _ _ Hr') as [_ Hc']. rewrite E1, E2, Hc in Hc'.
  injection Hc' as _ ->. split; congruence.
Qed.

Lemma claims_ok_fresh s pid key : claims_ok s -> ad_claims s !! (pid, key) = None ->
  forall tid r, ad_tasks s !! tid = Some r -> matches pid key r = false.
Proof.
  intros [H _] Hn tid r Hr. destruct (matches pid key r) eqn:Hm; [| done].
  apply matches_iff in Hm as [<- <-]. destruct (H _ _ Hr) as [_ Hc]. congruence.
Qed.

(** ** One admission, by the state of its claim *)

Lemma admit_new uuid now e s :
  ad_claims s !! (ae_principal_id e, ae_idempotency_key e) = None ->
  admit_cmd uuid now e s =
  let c tid := mk_IngressDedupeRecord (ae_principal_id e) (ae_idempotency_key e) (hash e) tid in
  let claims tid := <[(ae_principal_id e, ae_idempotency_key e) := c tid]> (ad_claims s) in
  match ad_tasks s !! uuid with
  | Some _ => (Raise (DatabaseError "duplicate key value violates unique constraint"),
               mk_admission (claims None) (ad_tasks s))
  | None => (Ret (mk_AdmissionResult (task_of_envelope uuid now e) false),
             mk_admission (claims (Some uuid)) (<[uuid := task_of_envelope uuid now e]> (ad_tasks s)))
  end.
Proof.
  intros Hn. unfold admit_owner_command, resolve. cbv zeta.
  unfold on_claims, on_table, zoom, claim, create_task_from_envelope, bind_task_id, bind, gets, get, modify,
    ret, raise. rewrite Hn. cbn [fst snd ad_claims ad_tasks String.eqb Ascii.eqb Bool.eqb].
  destruct (ad_tasks s !! uuid); cbn [ad_claims ad_tasks task_id]; [done |].
  do 2 f_equal. apply map_eq. intros k. destruct (decide ((ae_principal_id e, ae_idempotency_key e) = k)) as [<- | Hk].
  - by rewrite lookup_alter_eq, !lookup_insert_eq.
  - by rewrite lookup_alter_ne, !lookup_insert_ne by done.
Qed.

Lemma admit_conflict uuid now e s c :
  ad_claims s !! (ae_principal_id e, ae_idempotency_key e) = Some c -> dr_payload_hash c <> hash e ->
  admit_cmd uuid now e s =
  (Raise (AdmissionIdempotencyError "idempotency_key_reused_with_different_payload"
     ("idempotency key cannot be reused with a different payload for principal " +:+ ae_principal_id e)), s).
Proof.
  intros Hc Hne. unfold admit_owner_command, resolve. cbv zeta.
  unfold on_claims, zoom, claim, bind, gets, ret, raise. rewrite Hc.
  destruct (String.eqb_spec (dr_payload_hash c) (hash e)); [done |]. cbn. by destruct s.
Qed.

(** A replay, given what the two lookups find. *)
Lemma admit_replay uuid now e s c :
  ad_claims s !! (ae_principal_id e, ae_idempotency_key e) = Some c -> dr_payload_hash c = hash e ->
  admit_cmd uuid now e s =
  match (get_task_by_principal_and_idempotency (ae_principal_id e) (ae_idempotency_key e) (ad_tasks s)).1,
        dr_task_id c with
  | Ret (Some t), _ => (Ret (mk_AdmissionResult t true), s)
  | Ret None, Some tid =>
      match ad_tasks s !! tid with
      | Some r => (Ret (mk_AdmissionResult (_task_from_row r) true), s)
      | None => (Raise (AdmissionIdempotencyError "idempotency_state_missing"
                          "existing idempotency claim has no recoverable task state"), s)
      end
  | Ret None, None => (Raise (AdmissionIdempotencyError "idempotency_state_missing"
                          "existing idempotency claim has no recoverable task state"), s)
  | Raise x, _ => (Raise x, s)
  end.
Proof.
  intros Hc He. unfold admit_owner_command, resolve. cbv zeta.
  unfold on_claims, on_table, zoom, claim, get_task_by_id, get_task_by_principal_and_idempotency,
    bind, gets, ret, raise. rewrite Hc, He, String.eqb_refl.
  cbn [fst snd ad_claims ad_tasks String.eqb Ascii.eqb Bool.eqb].
  destruct s as [cl ts]. cbn [ad_claims ad_tasks].
  destruct (last _); cbn [fmap option_fmap option_map]; [done |].
  destruct (dr_task_id c) as [tid |]; [| done]. cbn [ad_tasks]. by destruct (ts !! tid).
Qed.

(** * Histories of one process *)

(** Admissions, and status updates of the worker and of callbacks. *)
Inductive admission_step (s : admission) : admission -> Prop :=
  | step_admit uuid now e : admission_step s (admit_cmd uuid now e s).2
  | step_update tid st o : admission_step s (on_table (update_task_status tid st o) s).2.

Lemma claims_ok_admit uuid now e s : claims_ok s -> claims_ok (admit_cmd uuid now e s).2.
Proof.
  intros Hok. destruct (ad_claims s !! (ae_principal_id e, ae_idempotency_key e)) as [c |] eqn:Hc.
  { destruct (decide (dr_payload_hash c = hash e)) as [He | He].
    - rewrite (admit_replay _ _ _ _ _ Hc He). repeat case_match; done.
    - by rewrite (admit_conflict _ _ _ _ _ Hc He). }
  pose proof (claims_ok_fresh _ _ _ Hok Hc) as Hfresh. destruct Hok as [Hrow Hclaim].
  rewrite (admit_new _ _ _ _ Hc). cbv zeta.
  assert (forall tid r, ad_tasks s !! tid = Some r ->
    (ae_principal_id e, ae_idempotency_key e) <> (principal_id r, idempotency_key r)) as Hother.
  { intros tid r Hr [= H1 H2]. pose proof (Hfresh _ _ Hr) as Hf. unfold matches in Hf.
    by rewrite H1, H2, !String.eqb_refl in Hf. }
  destruct (ad_tasks s !! uuid) as [x |] eqn:Hu; cbn [snd].
  - split; cbn [ad_tasks ad_claims].
    + intros tid r Hr. destruct (Hrow _ _ Hr) as [Hid Hr']. split; [done |].
      by rewrite lookup_insert_ne by (by eapply Hother).
    + intros pid key c tid. destruct (decide ((ae_principal_id e, ae_idempotency_key e) = (pid, key))) as [<- |].
      * rewrite lookup_insert_eq. by intros [= <-].
      * rewrite lookup_insert_ne by done. apply Hclaim.
  - split; cbn [ad_tasks ad_claims].
    + intros tid r. destruct (decide (uuid = tid)) as [<- | Hne].
      * rewrite lookup_insert_eq. intros [= <-]. split; [done |]. by rewrite lookup_insert_eq.
      * rewrite lookup_insert_ne by done. intros Hr. destruct (Hrow _ _ Hr) as [Hid Hr']. split; [done |].
        by rewrite lookup_insert_ne by (by eapply Hother).
    + intros pid key c tid. destruct (decide ((ae_principal_id e, ae_idempotency_key e) = (pid, key))) as [Heq |].
      * rewrite Heq, lookup_insert_eq. intros [= <-] [= <-]. injection Heq as <- <-.
        eexists. rewrite lookup_insert_eq. split; [done |]. by apply matches_iff.
      * rewrite lookup_insert_ne by done. intros Hc' Ht. destruct (Hclaim _ _ _ _ Hc' Ht) as (r & Hr & Hm).
        exists r. rewrite lookup_insert_ne by congruence. done.
Qed.

Lemma claims_ok_update tid st o s : claims_ok s -> claims_ok (on_table (update_task_status tid st o) s).2.
Proof.
  intros [Hrow Hclaim]. unfold on_table, zoom. rewrite update_task_status_spec.
  destruct (ad_tasks s !! tid) as [r |] eqn:Hr; [| done].
  destruct (_ || _); cbn [snd]; [| done]. split; cbn [ad_tasks ad_claims].
  - intros k x. destruct (decide (tid = k)) as [<- | Hne].
    + rewrite lookup_insert_eq. intros [= <-]. apply (Hrow _ _ Hr).
    + rewrite lookup_insert_ne by done. apply Hrow.
  - intros pid key c k Hc Hk. destruct (Hclaim _ _ _ _ Hc Hk) as (x & Hx & Hm).
    destruct (decide (tid = k)) as [<- | Hne].
    + rewrite lookup_insert_eq. eexists. split; [done |]. rewrite Hr in Hx. by injection Hx as ->.
    + rewrite lookup_insert_ne by done. by exists x.
Qed.

Lemma claims_ok_star s s' : star admission_step s s' -> claims_ok s -> claims_ok s'.
Proof.
  apply star_invariant. intros x y Hx []; [by apply claims_ok_admit | by apply claims_ok_update].
Qed.

Definition fresh_process : admission := mk_admission ∅ ∅.

Lemma claims_ok_start : claims_ok fresh_process.
Proof.
  split; cbn.
  - intros tid r H. rewrite lookup_empty in H. done.
  - intros pid key c tid H. rewrite lookup_empty in H. done.
Qed.

(** The row a claim is bound to stays, with its request. *)
Definition admitted (tid : string) (r : TaskRecord) (s : admission) : Prop :=
  exists r', ad_tasks s !! tid = Some r' /\ same_request r r'.

Lemma admitted_step tid r s s' : admitted tid r s -> admission_step s s' -> admitted tid r s'.
Proof.
  intros (r' & Hr & Hs) [uuid now e | k st o].
  - exists r'. split; [| done].
    destruct (ad_claims s !! (ae_principal_id e, ae_idempotency_key e)) as [c |] eqn:Hc.
    { destruct (decide (dr_payload_hash c = hash e)) as [He | He].
      - rewrite (admit_replay _ _ _ _ _ Hc He). repeat case_match; done.
      - by rewrite (admit_conflict _ _ _ _ _ Hc He). }
    rewrite (admit_new _ _ _ _ Hc). cbv zeta. destruct (ad_tasks s !! uuid) as [x |] eqn:Hu; [done |].
    cbn. by rewrite lookup_insert_ne by congruence.
  - unfold on_table, zoom. pose proof (tracks_update_task_status k st o (ad_tasks s) tid r' Hr) as (x & Hx & Hev).
    exists x. destruct (update_task_status k st o (ad_tasks s)). split; [done |].
    etransitivity; [exact Hs | apply Hev].
Qed.

(** Asking again, once the row is there. *)
Lemma admit_again uuid now e s tid r :
  claims_ok s -> admitted tid r s -> principal_id r = ae_principal_id e ->
  idempotency_key r = ae_idempotency_key e -> hash_of_task r = hash e ->
  exists t, admit_cmd uuid now e s = (Ret (mk_AdmissionResult t true), s) /\
    task_id t = tid /\ target t = target r /\ project_id t = text_column (project_id r).
Proof.
  intros Hok (r' & Hr & Hs) Hp Hk Hh. pose proof (hash_same_request _ _ Hs) as Hh'.
  destruct (ok_row _ Hok _ _ Hr) as [Hid Hc].
  assert (principal_id r' = ae_principal_id e /\ idempotency_key r' = ae_idempotency_key e) as [E1 E2].
  { destruct Hs as (_ & _ & _ & H1 & _ & _ & _ & _ & _ & _ & _ & _ & H2 & _). split; congruence. }
  assert (matches (ae_principal_id e) (ae_idempotency_key e) r' = true) as Hm by by apply matches_iff.
  rewrite E1, E2 in Hc. exists (_task_from_row r').
  rewrite (admit_replay _ _ _ _ _ Hc) by (cbn; congruence).
  rewrite (lookup_unique _ _ _ _ _ Hr Hm).
  - destruct Hs as (H0 & _ & _ & _ & _ & _ & _ & _ & H8 & _ & _ & H11 & _).
    split; [done |]. cbn. split_and!; congruence.
  - intros tid' x Hx Hmx. by apply (claims_ok_unique _ _ _ _ _ _ _ Hok Hr Hx Hm Hmx).
Qed.

(** A successful admission leaves its row behind. *)
Lemma admit_admitted uuid now e s res s' :
  claims_ok s -> admit_cmd uuid now e s = (Ret res, s') ->
  exists r, admitted (task_id (ar_task res)) r s' /\ principal_id r = ae_principal_id e /\
    idempotency_key r = ae_idempotency_key e /\ hash_of_task r = hash e /\
    target r = target (ar_task res) /\ text_column (project_id r) = text_column (project_id (ar_task res)).
Proof.
  intros Hok Hadm. destruct (ad_claims s !! (ae_principal_id e, ae_idempotency_key e)) as [c |] eqn:Hc.
  - destruct (decide (dr_payload_hash c = hash e)) as [He | He].
    2: { by rewrite (admit_conflict _ _ _ _ _ Hc He) in Hadm. }
    destruct (dr_task_id c) as [tid |] eqn:Ht.
    + destruct (ok_claim _ Hok _ _ _ _ Hc Ht) as (r & Hr & Hm).
      destruct (ok_row _ Hok _ _ Hr) as [Hid Hrc].
      pose proof (proj1 (matches_iff _ _ _) Hm) as [E1 E2]. rewrite E1, E2, Hc in Hrc. injection Hrc as ->.
      rewrite (admit_replay _ _ _ _ _ Hc He), (lookup_unique _ _ _ _ _ Hr Hm) in Hadm.
      * injection Hadm as <- <-. exists r. cbn [ar_task]. change (task_id (_task_from_row r)) with (task_id r). rewrite Hid.
        split; [by exists r |]. split_and!; try done. cbn. by destruct (project_id r) as [[] |].
      * intros tid' x Hx Hmx. by apply (claims_ok_unique _ _ _ _ _ _ _ Hok Hr Hx Hm Hmx).
    + rewrite (admit_replay _ _ _ _ _ Hc He), Ht, lookup_none in Hadm; [done |].
      intros tid r Hr. destruct (matches _ _ r) eqn:Hm; [| done].
      destruct (ok_row _ Hok _ _ Hr) as [_ Hrc]. apply matches_iff in Hm as [E1 E2].
      rewrite E1, E2, Hc in Hrc. injection Hrc as ->. done.
  - rewrite (admit_new _ _ _ _ Hc) in Hadm. cbv zeta in Hadm.
    destruct (ad_tasks s !! uuid); [done |]. injection Hadm as <- <-.
    exists (task_of_envelope uuid now e). split; [| done]. eexists. cbn. by rewrite lookup_insert_eq.
Qed.

(** ** Recovery *)

(** The claim recovery leaves for one principal and key, when at most one row
    has them. *)
Lemma reclaim_claim (pid key tid h : string) (tasks : list TaskRecord) (n : Z) (claims : dedupe_store) :
  let c := mk_IngressDedupeRecord pid key h (Some tid) in
  (forall t, In t tasks -> mem (status t) _ACTIVE_STATUSES = true -> matches pid key t = true ->
     task_id t = tid /\ hash_of_task t = h) ->
  (claims !! (pid, key) = None \/ claims !! (pid, key) = Some c) ->
  (claims !! (pid, key) = Some c \/
   exists t, In t tasks /\ mem (status t) _ACTIVE_STATUSES = true /\ matches pid key t = true) ->
  (reclaim json_text sha256 tasks n claims).2 !! (pid, key) = Some c.
Proof.
  intros c. revert n claims. induction tasks as [| t tasks IH]; intros n claims Hall Hc Hex.
  { cbn. destruct Hex as [? | (t & [] & _)]. done. }
  cbn [reclaim]. destruct (mem (status t) _ACTIVE_STATUSES) eqn:Hact.
  2: { apply IH; [intros x Hx; apply Hall; by right | done |].
       destruct Hex as [? | (x & [<- | Hx] & ? & ?)]; [by left | congruence | right; by exists x]. }
  unfold claim, bind_task_id, bind, gets, modify, ret.
  set (k := (principal_id t, idempotency_key t)).
  assert (forall (d : dedupe_store), d !! k <> None ->
    (matches pid key t = true -> d !! (pid, key) = Some c \/
       (forall x, d !! (pid, key) = Some x -> dr_principal_id x = pid /\ dr_idempotency_key x = key /\
          dr_payload_hash x = h)) ->
    (matches pid key t = false -> d !! (pid, key) = claims !! (pid, key)) ->
    forall m, (reclaim json_text sha256 tasks m
       (alter (fun x => mk_IngressDedupeRecord (dr_principal_id x) (dr_idempotency_key x)
          (dr_payload_hash x) (Some (task_id t))) k d)).2 !! (pid, key) = Some c) as Hnext.
  { intros d Hk Hyes Hno m. destruct (matches pid key t) eqn:Hm.
    - destruct (Hall t (or_introl eq_refl) Hact Hm) as [Hid _].
      assert (k = (pid, key)) as Hkk by (apply matches_iff in Hm as [<- <-]; done).
      assert (alter (fun x => mk_IngressDedupeRecord (dr_principal_id x) (dr_idempotency_key x)
          (dr_payload_hash x) (Some (task_id t))) k d !! (pid, key) = Some c) as Hd.
      { rewrite Hkk, lookup_alter_eq. rewrite Hkk in Hk. destruct (d !! (pid, key)) as [x |]; [| done].
        cbn. subst c. rewrite Hid. destruct (Hyes eq_refl) as [[= ->] | Hx]; [done |].
        by destruct (Hx _ eq_refl) as (-> & -> & ->). }
      apply IH; [intros x Hx; apply Hall; by right | by right | by left].
    - assert (k <> (pid, key)) as Hkk.
      { intros [= E1 E2]. unfold matches in Hm. by rewrite E1, E2, !String.eqb_refl in Hm. }
      apply IH; [intros x Hx; apply Hall; by right | |]; rewrite lookup_alter_ne, Hno by done; [done |].
      destruct Hex as [? | (x & [-> | Hx] & ? & ?)]; [by left | congruence | right; by exists x]. }
  destruct (claims !! k) as [x |] eqn:Hk.
  - destruct (String.eqb (dr_payload_hash x) _); apply Hnext; try congruence; try done;
      intros Hm; apply matches_iff in Hm as [<- <-]; left; subst k; destruct Hc as [Hc | Hc]; congruence.
  - apply Hnext.
    + by rewrite lookup_insert_eq.
    + intros Hm. destruct (Hall t (or_introl eq_refl) Hact Hm) as [_ Hh].
      apply matches_iff in Hm as [<- <-]. right. subst k. rewrite lookup_insert_eq. by intros y [= <-].
    + intros Hm. rewrite lookup_insert_ne; [done |]. intros [= E1 E2]. unfold matches in Hm.
      by rewrite E1, E2, !String.eqb_refl in Hm.
Qed.

(** Without an active task, no claim is recovered. *)
Lemma reclaim_none (pid key : string) (tasks : list TaskRecord) (n : Z) (claims : dedupe_store) :
  (forall t, In t tasks -> mem (status t) _ACTIVE_STATUSES = true -> matches pid key t = false) ->
  (reclaim json_text sha256 tasks n claims).2 !! (pid, key) = claims !! (pid, key).
Proof.
  revert n claims. induction tasks as [| t tasks IH]; intros n claims Hall; [done |].
  assert (forall x, In x tasks -> mem (status x) _ACTIVE_STATUSES = true -> matches pid key x = false)
    as Hall' by (intros x Hx; apply Hall; by right).
  cbn [reclaim]. destruct (mem (status t) _ACTIVE_STATUSES) eqn:Hact; [| by apply IH].
  assert ((principal_id t, idempotency_key t) <> (pid, key)) as Hne.
  { intros [= E1 E2]. pose proof (Hall t (or_introl eq_refl) Hact) as Hm. unfold matches in Hm.
    by rewrite E1, E2, !String.eqb_refl in Hm. }
  unfold claim, bind_task_id, bind, gets, modify, ret.
  destruct (claims !! (principal_id t, idempotency_key t)) as [x |].
  - destruct (String.eqb (dr_payload_hash x) _); rewrite (IH _ _ Hall'), lookup_alter_ne by done; done.
  - rewrite (IH _ _ Hall'), lookup_alter_ne, lookup_insert_ne by done. done.
Qed.

Lemma run_restart s :
  (restart json_text sha256 s).2 =
  mk_admission (reclaim json_text sha256 (map _task_from_row (table_rows (ad_tasks s))) 0 ∅).2 (ad_tasks s).
Proof.
  unfold restart, bind, modify, on_table, on_claims, zoom, list_tasks, gets. cbn [ad_tasks ad_claims].
  by destruct (reclaim _ _ _ _ _).
Qed.

Lemma list_of_row (s : task_table) tid r : s !! tid = Some r ->
  In (_task_from_row r) (map _task_from_row (table_rows s)).
Proof.
  intros Hr. apply in_map. unfold table_rows. rewrite <- list_elem_of_In, sorted_perm, list_elem_of_In.
  apply (in_map snd _ (tid, r)). by apply list_elem_of_In, elem_of_map_to_list.
Qed.

(** Every active task's key is claimed, whatever other rows share it. *)
Lemma reclaim_covers (pid key : string) (tasks : list TaskRecord) (n : Z) (claims : dedupe_store) :
  (is_Some (claims !! (pid, key)) \/
   exists t, In t tasks /\ mem (status t) _ACTIVE_STATUSES = true /\ matches pid key t = true) ->
  is_Some ((reclaim json_text sha256 tasks n claims).2 !! (pid, key)).
Proof.
  revert n claims. induction tasks as [| t tasks IH]; intros n claims Hex.
  { by destruct Hex as [? | (t & [] & _)]. }
  cbn [reclaim]. destruct (mem (status t) _ACTIVE_STATUSES) eqn:Hact.
  2: { apply IH. destruct Hex as [? | (x & [<- | Hx] & ? & ?)]; [by left | congruence | right; by exists x]. }
  unfold claim, bind_task_id, bind, gets, modify, ret. set (k := (principal_id t, idempotency_key t)).
  assert (Hnext : forall (d : dedupe_store) f m, is_Some (d !! k) ->
            (is_Some (claims !! (pid, key)) -> is_Some (d !! (pid, key))) ->
            is_Some ((reclaim json_text sha256 tasks m (alter f k d)).2 !! (pid, key))).
  { intros d f m Hk Hd. apply IH. rewrite lookup_alter_is_Some.
    destruct Hex as [Hc | (x & [<- | Hx] & ? & Hm)]; [left; auto | left | right; by exists x].
    apply matches_iff in Hm as [<- <-]. exact Hk. }
  destruct (claims !! k) as [x |] eqn:Hk.
  - destruct (String.eqb _ _); (apply Hnext; [by rewrite Hk | done]).
  - apply Hnext; [by rewrite lookup_insert_eq |]. intros Hc.
    destruct (decide (k = (pid, key))) as [-> | Hne]; [by rewrite lookup_insert_eq | by rewrite lookup_insert_ne].
Qed.

Lemma restart_covers s tid r :
  ad_tasks s !! tid = Some r -> mem (status r) _ACTIVE_STATUSES = true ->
  is_Some (ad_claims (restart json_text sha256 s).2 !! (principal_id r, idempotency_key r)).
Proof.
  intros Hr Hact. rewrite run_restart. apply reclaim_covers. right. exists (_task_from_row r).
  split; [by eapply list_of_row |]. split; [done |]. by apply matches_iff.
Qed.

Lemma row_of_list (s : task_table) t :
  In t (map _task_from_row (table_rows s)) -> exists tid r, s !! tid = Some r /\ t = _task_from_row r.
Proof.
  intros (r & <- & Hr)%in_map_iff. unfold table_rows in Hr.
  rewrite <- list_elem_of_In, sorted_perm, list_elem_of_In, in_map_iff in Hr.
  destruct Hr as ([k x] & <- & Hin). exists k, x. split; [| done].
  by apply elem_of_map_to_list, list_elem_of_In.
Qed.

(** * Theorems *)

(** C10: admission is idempotent while the process lives.  From an empty start,
    after any admissions and status updates, once a command has been admitted,
    and after any further admissions and updates, the same principal, key and
    payload is answered with the task of the first admission, marked replayed,
    and changes nothing; and no two stored tasks share a principal and a key. *)
Theorem admit_once uuid now e s res s1 s2 :
  star admission_step fresh_process s -> admit_cmd uuid now e s = (Ret res, s1) -> star admission_step s1 s2 ->
  (forall uuid' now' e', ae_principal_id e' = ae_principal_id e ->
     ae_idempotency_key e' = ae_idempotency_key e -> hash e' = hash e ->
     exists t, admit_cmd uuid' now' e' s2 = (Ret (mk_AdmissionResult t true), s2) /\
       task_id t = task_id (ar_task res)) /\
  (forall tid r tid' r', ad_tasks s2 !! tid = Some r -> ad_tasks s2 !! tid' = Some r' ->
     principal_id r = principal_id r' -> idempotency_key r = idempotency_key r' -> tid = tid').
Proof.
  intros H0 Hadm H12. pose proof (claims_ok_star _ _ H0 claims_ok_start) as Hok.
  destruct (admit_admitted _ _ _ _ _ _ Hok Hadm) as (r & Hr & Hp & Hk & Hh & _).
  pose proof (claims_ok_admit uuid now e _ Hok) as Hok1. rewrite Hadm in Hok1. cbn [snd] in Hok1.
  pose proof (claims_ok_star _ _ H12 Hok1) as Hok2. split.
  - intros uuid' now' e' E1 E2 E3. assert (admitted (task_id (ar_task res)) r s2) as Hr2.
    { revert Hr. apply (star_invariant admission_step (admitted (task_id (ar_task res)) r)); [| done].
      intros x y. apply admitted_step. }
    destruct (admit_again uuid' now' e' _ _ _ Hok2 Hr2) as (t & -> & Ht & _); try congruence. by exists t.
  - intros tid x tid' x' Hx Hx' E1 E2. symmetry.
    apply (claims_ok_unique _ (principal_id x) (idempotency_key x) _ _ _ _ Hok2 Hx Hx');
      by apply matches_iff.
Qed.

(** The idempotency hash leaves out the target and the project.  A second
    command under an admitted key that differs from the first in target and
    project only is not refused as a conflict: it is answered with the first
    command's task, for the first command's target and project. *)
Theorem replay_ignores_target uuid now e s res s1 other_target other_project uuid' now' :
  star admission_step fresh_process s -> admit_cmd uuid now e s = (Ret res, s1) ->
  let e' := {| ae_request_id := ae_request_id e; ae_trace_id := ae_trace_id e;
               ae_principal_id := ae_principal_id e; ae_principal_role := ae_principal_role e;
               ae_trust_domain := ae_trust_domain e; ae_connector := ae_connector e;
               ae_command := ae_command e; ae_target := other_target; ae_args := ae_args e;
               ae_metadata := ae_metadata e; ae_project_id := other_project;
               ae_idempotency_key := ae_idempotency_key e |} in
  exists t, admit_cmd uuid' now' e' s1 = (Ret (mk_AdmissionResult t true), s1) /\
    task_id t = task_id (ar_task res) /\ target t = target (ar_task res) /\
    project_id t = text_column (project_id (ar_task res)).
Proof.
  intros H0 Hadm e'. pose proof (claims_ok_star _ _ H0 claims_ok_start) as Hok.
  destruct (admit_admitted _ _ _ _ _ _ Hok Hadm) as (r & Hr & Hp & Hk & Hh & Htgt & Hproj).
  pose proof (claims_ok_admit uuid now e _ Hok) as Hok1. rewrite Hadm in Hok1. cbn [snd] in Hok1.
  destruct (admit_again uuid' now' e' _ _ _ Hok1 Hr Hp Hk Hh) as (t & Ht & Hid & Ht' & Hp').
  exists t. split; [exact Ht |]. split; [done |]. split; congruence.
Qed.

(** A claim whose task could not be stored blocks its key.  When storing the
    task fails, every later admission of the same command by the same principal
    and key is refused for missing state, whatever is admitted and updated in
    between. *)
Theorem failed_insert_blocks_key uuid now e s message s1 s2 :
  star admission_step fresh_process s -> admit_cmd uuid now e s = (Raise (DatabaseError message), s1) ->
  star admission_step s1 s2 ->
  forall uuid' now' e', ae_principal_id e' = ae_principal_id e ->
    ae_idempotency_key e' = ae_idempotency_key e -> hash e' = hash e ->
    admit_cmd uuid' now' e' s2 =
      (Raise (AdmissionIdempotencyError "idempotency_state_missing"
                "existing idempotency claim has no recoverable task state"), s2).
Proof.
  intros H0 Hadm H12 uuid' now' e' E1 E2 E3.
  pose proof (claims_ok_star _ _ H0 claims_ok_start) as Hok.
  set (k := (ae_principal_id e, ae_idempotency_key e)).
  set (c := mk_IngressDedupeRecord (ae_principal_id e) (ae_idempotency_key e) (hash e) None).
  assert (ad_claims s1 !! k = Some c) as Hc1.
  { destruct (ad_claims s !! k) as [x |] eqn:Hc.
    - destruct (decide (dr_payload_hash x = hash e)) as [He | He].
      + rewrite (admit_replay _ _ _ _ _ Hc He) in Hadm. repeat case_match; done.
      + by rewrite (admit_conflict _ _ _ _ _ Hc He) in Hadm.
    - rewrite (admit_new _ _ _ _ Hc) in Hadm. cbv zeta in Hadm.
      destruct (ad_tasks s !! uuid); [| done]. injection Hadm as _ <-. cbn. by rewrite lookup_insert_eq. }
  pose proof (claims_ok_admit uuid now e _ Hok) as Hok1. rewrite Hadm in Hok1. cbn [snd] in Hok1.
  assert (claims_ok s2 /\ ad_claims s2 !! k = Some c) as [Hok2 Hc2].
  { apply (star_invariant admission_step (fun x => claims_ok x /\ ad_claims x !! k = Some c) s1 s2);
      [| done | done].
    intros x y [Hx Hxc] Hstep. split; [destruct Hstep; [by apply claims_ok_admit | by apply claims_ok_update] |].
    destruct Hstep as [u n f | tid st o].
    - destruct (ad_claims x !! (ae_principal_id f, ae_idempotency_key f)) as [d |] eqn:Hd.
      + destruct (decide (dr_payload_hash d = hash f)) as [He | He].
        * rewrite (admit_replay _ _ _ _ _ Hd He). repeat case_match; done.
        * by rewrite (admit_conflict _ _ _ _ _ Hd He).
      + rewrite (admit_new _ _ _ _ Hd). cbv zeta.
        by destruct (ad_tasks x !! u); cbn; rewrite lookup_insert_ne by congruence.
    - unfold on_table, zoom. by destruct (update_task_status _ _ _ _). }
  unfold k in Hc2. rewrite <- E1, <- E2 in Hc2.
  rewrite (admit_replay _ _ _ _ _ Hc2) by (subst c; cbn; congruence).
  rewrite lookup_none; [done |]. intros tid r Hr. destruct (matches _ _ r) eqn:Hm; [| done].
  destruct (ok_row _ Hok2 _ _ Hr) as [_ Hrc]. apply matches_iff in Hm as [M1 M2].
  rewrite M1, M2, Hc2 in Hrc. done.
Qed.

(** Recovery restores the claim of every task in flight that it counts as
    active.  Take any tasks table in which the row stored for a command is the
    only one of its principal and key and is queued, dispatched, running or
    blocked.  After a restart the same command is answered with that task. *)
Theorem restart_replays_active uuid now e s tid r :
  ad_tasks s !! tid = Some r -> same_request (task_of_envelope tid now e) r ->
  In (status r) _ACTIVE_STATUSES ->
  (forall tid' r', ad_tasks s !! tid' = Some r' -> principal_id r' = ae_principal_id e ->
     idempotency_key r' = ae_idempotency_key e -> tid' = tid) ->
  forall now', let s' := (restart json_text sha256 s).2 in
  admit_cmd uuid now' e s' = (Ret (mk_AdmissionResult (_task_from_row r) true), s').
Proof.
  intros Hr Hreq Hact Hu now' s'. subst s'. rewrite run_restart.
  assert (matches (ae_principal_id e) (ae_idempotency_key e) r = true) as Hm.
  { rewrite <- (matches_same_request _ _ _ _ Hreq). by apply matches_iff. }
  assert (forall tid' r', ad_tasks s !! tid' = Some r' ->
    matches (ae_principal_id e) (ae_idempotency_key e) r' = true -> r' = r) as Hrow.
  { intros tid' r' Hr' [E1 E2]%matches_iff. rewrite (Hu _ _ Hr' E1 E2), Hr in Hr'. by injection Hr'. }
  assert (hash_of_task r = hash e) as Hh by by rewrite <- (hash_same_request _ _ Hreq).
  assert (task_id r = tid) as Hid by by destruct Hreq as [<- _].
  set (claims := (reclaim _ _ _ _ _).2).
  assert (claims !! (ae_principal_id e, ae_idempotency_key e) =
    Some (mk_IngressDedupeRecord (ae_principal_id e) (ae_idempotency_key e) (hash e) (Some tid))) as Hc.
  { apply reclaim_claim.
    - intros t Ht _ Hmt. apply row_of_list in Ht as (k & x & Hx & ->).
      rewrite (Hrow _ _ Hx Hmt). split; [exact Hid | exact Hh].
    - left. apply lookup_empty.
    - right. exists (_task_from_row r). split; [by eapply list_of_row |]. split; [by apply mem_In | done]. }
  rewrite (admit_replay _ _ _ (mk_admission claims (ad_tasks s)) _ Hc eq_refl). cbn [ad_tasks].
  by rewrite (lookup_unique _ _ _ _ _ Hr Hm Hrow).
Qed.

(** Recovery forgets every other task.  If no row of a command's principal
    and key is queued, dispatched, running or blocked, then after a restart the
    same command is admitted as new and a second task is stored for it; that
    includes a task that was authorized and about to be dispatched, and one that
    completed. *)
Theorem restart_readmits uuid now e s tid r :
  ad_tasks s !! tid = Some r -> same_request (task_of_envelope tid now e) r ->
  (forall tid' r', ad_tasks s !! tid' = Some r' -> principal_id r' = ae_principal_id e ->
     idempotency_key r' = ae_idempotency_key e -> ~ In (status r') _ACTIVE_STATUSES) ->
  ad_tasks s !! uuid = None ->
  forall now', let s' := (restart json_text sha256 s).2 in
  (admit_cmd uuid now' e s').1 = Ret (mk_AdmissionResult (task_of_envelope uuid now' e) false) /\
  uuid <> tid /\ ad_tasks (admit_cmd uuid now' e s').2 !! tid = Some r /\
  ad_tasks (admit_cmd uuid now' e s').2 !! uuid = Some (task_of_envelope uuid now' e).
Proof.
  intros Hr Hreq Hno Huuid now' s'. subst s'. rewrite run_restart.
  set (claims := (reclaim _ _ _ _ _).2).
  assert (claims !! (ae_principal_id e, ae_idempotency_key e) = None) as Hc.
  { unfold claims. rewrite reclaim_none; [apply lookup_empty |].
    intros t Ht Hact. apply row_of_list in Ht as (k & x & Hx & ->).
    destruct (matches _ _ (_task_from_row x)) eqn:Hm; [| done]. exfalso.
    apply matches_iff in Hm as [E1 E2]. apply (Hno _ _ Hx E1 E2). by apply mem_In. }
  rewrite (admit_new _ _ _ (mk_admission claims (ad_tasks s)) Hc). cbv zeta. cbn [ad_tasks]. rewrite Huuid.
  cbn [fst snd ad_tasks]. assert (uuid <> tid) as Hne by congruence.
  rewrite lookup_insert_eq, lookup_insert_ne by done. done.
Qed.
End facts.

(** * Witnesses *)

Definition sample_envelope : AdmissionEnvelope :=
  {| ae_request_id := "req-1"; ae_trace_id := "tr-1"; ae_principal_id := "owner-1";
     ae_principal_role := "owner"; ae_trust_domain := "external_verified"; ae_connector := "discord";
     ae_command := "run_task"; ae_target := "sandbox"; ae_args := ["a"]; ae_metadata := [("k", "v")];
     ae_project_id := Some "p1"; ae_idempotency_key := "key-00001" |}.

Definition sample_now : datetime := mk_datetime 2026 3 24 12 0 0 0.

#[local] Abbreviation sample_admit :=
  (admit_owner_command (fun _ => "doc") (fun s => s) "t-1" sample_now sample_envelope).

Lemma admit_once_witness :
  exists t, admit_owner_command (fun _ => "doc") (fun s => s) "t-2" sample_now sample_envelope
              (sample_admit fresh_process).2 = (Ret (mk_AdmissionResult t true), (sample_admit fresh_process).2) /\
    task_id t = "t-1".
Proof.
  destruct (admit_once (fun _ => "doc") (fun s => s) "t-1" sample_now sample_envelope fresh_process
    (mk_AdmissionResult (task_of_envelope "t-1" sample_now sample_envelope) false)
    (sample_admit fresh_process).2 (sample_admit fresh_process).2 (star_refl _ _)
    ltac:(vm_compute; reflexivity) (star_refl _ _)) as [H _].
  destruct (H "t-2" sample_now sample_envelope eq_refl eq_refl eq_refl) as (t & Ht & Hid).
  exists t. split; [exact Ht | exact Hid].
Defined.

Lemma replay_ignores_target_witness :
  exists t, (admit_owner_command (fun _ => "doc") (fun s => s) "t-2" sample_now
               {| ae_request_id := "req-1"; ae_trace_id := "tr-1"; ae_principal_id := "owner-1";
                  ae_principal_role := "owner"; ae_trust_domain := "external_verified";
                  ae_connector := "discord"; ae_command := "run_task"; ae_target := "llm"; ae_args := ["a"];
                  ae_metadata := [("k", "v")]; ae_project_id := Some "p2"; ae_idempotency_key := "key-00001" |}
               (sample_admit fresh_process).2).1 = Ret (mk_AdmissionResult t true) /\
    target t = "sandbox" /\ project_id t = Some "p1".
Proof.
  destruct (replay_ignores_target (fun _ => "doc") (fun s => s) "t-1" sample_now sample_envelope fresh_process
    (mk_AdmissionResult (task_of_envelope "t-1" sample_now sample_envelope) false)
    (sample_admit fresh_process).2 "llm" (Some "p2") "t-2" sample_now (star_refl _ _)
    ltac:(vm_compute; reflexivity)) as (t & Ht & _ & Htgt & Hp).
  exists t. split; [exact (f_equal fst Ht) |]. split; [exact Htgt | exact Hp].
Defined.

(** A process whose next identifier is already taken. *)
Definition other_envelope : AdmissionEnvelope :=
  {| ae_request_id := "req-0"; ae_trace_id := "tr-0"; ae_principal_id := "owner-1";
     ae_principal_role := "owner"; ae_trust_domain := "external_verified"; ae_connector := "discord";
     ae_command := "run_task"; ae_target := "sandbox"; ae_args := []; ae_metadata := [];
     ae_project_id := None; ae_idempotency_key := "key-00000" |}.

Definition taken_process : admission :=
  (admit_owner_command (fun _ => "doc") (fun s => s) "t-1" sample_now other_envelope fresh_process).2.

Lemma failed_insert_blocks_key_witness :
  (admit_owner_command (fun _ => "doc") (fun s => s) "t-2" sample_now sample_envelope
     (sample_admit taken_process).2).1 =
  Raise (AdmissionIdempotencyError "idempotency_state_missing"
           "existing idempotency claim has no recoverable task state").
Proof.
  exact (f_equal fst (failed_insert_blocks_key (fun _ => "doc") (fun s => s) "t-1" sample_now sample_envelope
    taken_process "duplicate key value violates unique constraint" (sample_admit taken_process).2
    (sample_admit taken_process).2
    (star_step _ _ _ _ (step_admit (fun _ => "doc") (fun s => s) fresh_process "t-1" sample_now other_envelope)
       (star_refl _ _))
    ltac:(vm_compute; reflexivity) (star_refl _ _) "t-2" sample_now sample_envelope eq_refl eq_refl eq_refl)).
Defined.

(** A table with the sample task in a given status, after a crash. *)
Definition crashed (st : string) : admission :=
  mk_admission ∅ {["t-1" := apply_update st (mk_task_outcome None None None None None None)
                              (task_of_envelope "t-1" sample_now sample_envelope)]}.

Lemma restart_replays_active_witness :
  (admit_owner_command (fun _ => "doc") (fun s => s) "t-2" sample_now sample_envelope
     (restart (fun _ => "doc") (fun s => s) (crashed "dispatched")).2).1 =
  Ret (mk_AdmissionResult (_task_from_row (apply_update "dispatched" (mk_task_outcome None None None None None None)
         (task_of_envelope "t-1" sample_now sample_envelope))) true).
Proof.
  refine (f_equal fst (restart_replays_active (fun _ => "doc") (fun s => s) "t-2" sample_now sample_envelope
    (crashed "dispatched") "t-1" (apply_update "dispatched" (mk_task_outcome None None None None None None)
       (task_of_envelope "t-1" sample_now sample_envelope)) _ _ _ _ sample_now)).
  - reflexivity.
  - repeat split.
  - cbn. tauto.
  - intros tid' r' H _ _. unfold crashed in H. cbn [ad_tasks] in H. apply lookup_singleton_Some in H as [H _]. symmetry. exact H.
Defined.

Lemma restart_readmits_witness :
  ad_tasks (admit_owner_command (fun _ => "doc") (fun s => s) "t-2" sample_now sample_envelope
     (restart (fun _ => "doc") (fun s => s) (crashed "authorized")).2).2 !! "t-2" =
  Some (task_of_envelope "t-2" sample_now sample_envelope).
Proof.
  apply (restart_readmits (fun _ => "doc") (fun s => s) "t-2" sample_now sample_envelope
    (crashed "authorized") "t-1" (apply_update "authorized" (mk_task_outcome None None None None None None)
       (task_of_envelope "t-1" sample_now sample_envelope))).
  - reflexivity.
  - repeat split.
  - intros tid' r' H _ _. unfold crashed in H. cbn [ad_tasks] in H. apply lookup_singleton_Some in H as [_ <-]. cbn. intuition discriminate.
  - reflexivity.
Defined.
