(* ===== verification/OwnerCommands.v ===== *)
(** The owner-command endpoint: POST /v1/owner/commands.

    Models [control_plane/routers/owner_commands.py]: the checks of the headers,
    the connector signature, the principal, the envelope and the Discord chat
    rules, then admission, with the audit event and the counter of each outcome,
    and the reconstruction of a response from a task already processed.

    The request has passed the pydantic schema ([owner_command_request_ok]).
    Spans are left out.  An exception the handler does not catch propagates.
    The identifiers and clock readings a call may need are drawn before it; one
    that turns out not to be needed has no effect. *)

From S2P Require Import Prelude PyStr PyData LlmSchemas Task Budget LoopControl Policy Runtime Dispatch ProjectModel ProjectRepo Ingress Admission AdmissionFacts.

(** * Responses *)

Record OwnerCommandAcceptedData : Type := mk_OwnerCommandAcceptedData {
  ad_task_id : string;
  ad_admission_state : string;
  ad_replayed : bool;
  ad_request_id : string;
  ad_principal_id : string;
  ad_connector : string;
  ad_command : string;
  ad_accepted_args : list string;
  ad_dispatch_target : option string;
  ad_dispatch_id : option string;
  ad_llm_execution : option (list (string * json))
}.

Record OwnerCommandError : Type := mk_OwnerCommandError {
  er_code : string;
  er_class : string;
  er_message : string;
  er_retryable : bool;
  er_source_component : string;
  er_trace_id : string;
  er_details : list (string * string)
}.

Record OwnerCommandResponse : Type := mk_OwnerCommandResponse {
  rp_http_status : Z;
  rp_status : string;
  rp_trace_id : string;
  rp_policy_version : option string;
  rp_policy_hash : option string;
  rp_rule_ids : list string;
  rp_data : option OwnerCommandAcceptedData;
  rp_error : option OwnerCommandError
}.

(** [_error_response] with no policy fields, as every caller leaves them. *)
Definition _error_response (status_code : Z) (trace code error_class message component : string)
    (details : list (string * string)) : OwnerCommandResponse :=
  mk_OwnerCommandResponse status_code "error" trace None None [] None
    (Some (mk_OwnerCommandError code error_class message false component trace details)).

Definition _denied_response (status_code : Z) (trace code error_class message component : string)
    (details : list (string * string)) (version hash : option string) (rules : list string)
    : OwnerCommandResponse :=
  mk_OwnerCommandResponse status_code "denied" trace version hash rules None
    (Some (mk_OwnerCommandError code error_class message false component trace details)).

Definition _parse_rule_ids (raw : option string) : list string := _split_csv_values raw.

(** [details.setdefault(k, v)], [details[k] = v]. *)
Definition dict_default (d : list (string * string)) (k v : string) : list (string * string) :=
  match dict_get d k with Some _ => d | None => d ++ [(k, v)] end.

Definition dict_set (d : list (string * string)) (k v : string) : list (string * string) :=
  match dict_get d k with
  | Some _ => map (fun p => if String.eqb p.1 k then (k, v) else p) d
  | None => d ++ [(k, v)]
  end.

Definition _replayed_response (t : TaskRecord) : OwnerCommandResponse :=
  let details := default [] (outcome_details t) in
  let version := dict_get details "policy_version" in
  let hash := dict_get details "policy_hash" in
  let rules := _parse_rule_ids (dict_get details "rule_ids") in
  if String.eqb (status t) "dispatched" then
    mk_OwnerCommandResponse 202 "accepted" (trace_id t) version hash rules
      (Some (mk_OwnerCommandAcceptedData (task_id t) "dispatched" true (request_id t) (principal_id t)
               (connector t) (command t) (args t)
               (Some (opt_or (dispatch_target t) (select_dispatch_target t)))
               (Some (opt_or (dispatch_id t) "dispatch-id-missing")) None)) None
  else
    let source := opt_or (outcome_source t) "governance" in
    let details := dict_default (dict_default details "source" source) "task_id" (task_id t) in
    let details := dict_set details "replayed" "true" in
    let details := match dispatch_target t with
                   | Some tgt => dict_default details "dispatch_target" tgt | None => details end in
    let details := match outcome_error_code t with
                   | Some code => dict_default details "reason_code" code | None => details end in
    _denied_response 403 (trace_id t) (opt_or (outcome_error_code t) "governance_blocked")
      "authorization_error"
      (opt_or (outcome_message t) "task replay resolved to prior denied outcome") source details
      version hash rules.

(** * The endpoint's state *)

Section endpoint.
Context {E : Type} `{!Oracle E} `{!AuditWriter E} `{!MetricRecorder E}.
Context (hmac_sha256_hex : string -> string -> string) (connector_shared_secret : string).
Context (str_float : pyfloat -> string) (json_text : json -> string) (sha256 : string -> string).

Record control_plane : Type := mk_control_plane {
  cp_ext : E;
  cp_identity : identity_table;
  cp_projects : projects;
  cp_admission : admission
}.

Definition on_outside {A} (m : M E A) : M control_plane A :=
  zoom cp_ext (fun e s => mk_control_plane e (cp_identity s) (cp_projects s) (cp_admission s)) m.
Definition on_identity {A} (m : M (identity_table * projects) A) : M control_plane A :=
  zoom (fun s => (cp_identity s, cp_projects s))
       (fun ip s => mk_control_plane (cp_ext s) ip.1 ip.2 (cp_admission s)) m.
Definition on_admission {A} (m : M admission A) : M control_plane A :=
  zoom cp_admission (fun a s => mk_control_plane (cp_ext s) (cp_identity s) (cp_projects s) a) m.

Definition draw_outside {A} (f : E -> A * E) : M control_plane A :=
  on_outside (fun e => let '(a, e') := f e in (Ret a, e')).

Definition json_opt (x : option string) : json := match x with Some s => JStr s | None => JNull end.

Definition _emit_outcome_observability (trace : string) (rid tid pid role : option string)
    (source result : string) (error_code : option string) (message : string) (attributes : json)
    : M control_plane unit :=
  on_outside (modify (increment_counter "owner_command_admission_outcomes_total"
                        [("outcome", result); ("source", source)])) ;!
  on_outside (write_event
    {| ae_event_type := "owner_command." +:+ result; ae_outcome := result;
       ae_event_trace_id := (if truthy trace then trace else "missing-trace-id");
       ae_event_request_id := rid; ae_event_task_id := tid; ae_event_principal_id := pid;
       ae_event_principal_role := role; ae_source := source; ae_reason_code := error_code;
       ae_message := message; ae_policy_version := None; ae_policy_hash := None; ae_rule_ids := [];
       ae_payload := JObj [("outcome", JStr result); ("source", JStr source);
                           ("error_code", json_opt error_code); ("message", JStr message);
                           ("request_id", json_opt rid); ("task_id", json_opt tid)];
       ae_attributes := attributes |}).

Definition _emit_replay_observability (t : TaskRecord) (result source message : string) : M control_plane unit :=
  on_outside (modify (increment_counter "owner_command_replays_total"
                        [("outcome", result); ("source", source)])) ;!
  let details := default [] (outcome_details t) in
  let doc := JObj [("replayed", JStr "true"); ("status", JStr (status t));
                   ("dispatch_target", JStr (opt_or (dispatch_target t) "unknown"))] in
  on_outside (write_event
    {| ae_event_type := "owner_command.replayed"; ae_outcome := result;
       ae_event_trace_id := trace_id t; ae_event_request_id := Some (request_id t);
       ae_event_task_id := Some (task_id t); ae_event_principal_id := Some (principal_id t);
       ae_event_principal_role := Some (principal_role t); ae_source := source;
       ae_reason_code := outcome_error_code t; ae_message := message;
       ae_policy_version := dict_get details "policy_version";
       ae_policy_hash := dict_get details "policy_hash";
       ae_rule_ids := _parse_rule_ids (dict_get details "rule_ids");
       ae_payload := doc; ae_attributes := doc |}).

(** Run a computation and hand its outcome to an [except] clause or an [else]. *)
Definition attempt {S A} (m : M S A) : M S (outcome A) := fun s => let '(o, s') := m s in (Ret o, s').

(** A refusal: audit and counter, then the response. *)
Definition refuse (trace : string) (rid pid role : option string) (source code message : string)
    (attributes : json) (response : OwnerCommandResponse) : M control_plane OwnerCommandResponse :=
  _emit_outcome_observability trace rid None pid role source "denied" (Some code) message attributes ;!
  ret response.

(** The request headers the endpoint reads. *)
Record ingress_headers : Type := mk_ingress_headers {
  x_openqilin_trace_id : option string;
  x_external_channel : option string;
  x_external_actor_id : option string;
  x_openqilin_actor_role : option string;
  x_idempotency_key : option string;
  x_openqilin_signature : option string
}.

Definition missing_header (trace code name : string) : OwnerCommandResponse :=
  _error_response 400 trace code "validation_error" ("missing required header: " +:+ name) "api"
    [("source", "headers"); ("required_header", name)].

(** [x is None or not x.strip()]. *)
Definition blank (x : option string) : bool := negb (opt_truthy (strip <$> x)).

(** After admission: a replay of a task past authorization is answered from it. *)
Definition admitted_response (trace : string) (result : AdmissionResult) : M control_plane OwnerCommandResponse :=
  let t := ar_task result in
  if ar_replayed result && negb (mem (status t) ["queued"; "authorized"]) then
    let replay_outcome := if String.eqb (status t) "dispatched" then "accepted" else "denied" in
    _emit_replay_observability t replay_outcome (opt_or (outcome_source t) "governance")
      (opt_or (outcome_message t) "replayed owner command resolved from prior task outcome") ;!
    ret (_replayed_response t)
  else
    ret (mk_OwnerCommandResponse 202 "accepted" (trace_id t) None None []
           (Some (mk_OwnerCommandAcceptedData (task_id t) "queued" (ar_replayed result) (request_id t)
                    (principal_id t) (connector t) (command t) (args t) None None None)) None).

(** Admission of a validated envelope. *)
Definition admit_envelope (trace : string) (principal : Principal) (envelope : string -> AdmissionEnvelope)
    (uuid : string) : M control_plane OwnerCommandResponse :=
  let e := envelope uuid in
  let! tid := draw_outside uuid4 in
  let! now := draw_outside utcnow in
  let! result := attempt (on_admission (admit_owner_command json_text sha256 tid now e)) in
  match result with
  | Raise (AdmissionIdempotencyError code message) =>
      refuse trace (Some uuid) (Some (pl_principal_id principal)) (Some (pl_principal_role principal))
        "idempotency" code message JNull
        (_error_response 409 trace code "validation_error" message "task_orchestrator"
           [("source", "idempotency")])
  | Raise e => raise e
  | Ret result => admitted_response trace result
  end.

(** The Discord chat rules, then admission. *)
Definition govern_envelope (trace : string) (q : OwnerCommandRequest) (principal : Principal)
    (envelope : string -> AdmissionEnvelope) (rid : string) : M control_plane OwnerCommandResponse :=
  let! uuid := draw_outside uuid4 in
  let! now := draw_outside utcnow in
  let! decision := attempt (on_identity
        (validate_discord_governance uuid now q (pl_principal_role principal))) in
  match decision with
  | Raise (DiscordGovernanceError code message details) =>
      let denial_details := dict_default details "source" "discord_governance" in
      let component := if String.eqb code "governance_specialist_direct_command_denied"
                       then "policy_engine" else "governance" in
      refuse trace None (Some (pl_principal_id principal)) (Some (pl_principal_role principal))
        "discord_governance" code message (JObj (map (fun p => (p.1, JStr p.2)) denial_details))
        (_denied_response 403 trace code "authorization_error" message component denial_details None None [])
  | Raise e => raise e
  | Ret _ => admit_envelope trace principal envelope rid
  end.

(** Principal and envelope of an authentic request. *)
Definition resolve_and_validate (trace : string) (h : ingress_headers) (channel actor : string)
    (q : OwnerCommandRequest) : M control_plane OwnerCommandResponse :=
  let headers := [("x-external-channel", channel); ("x-openqilin-actor-external-id", actor)] ++
        (if opt_truthy (x_openqilin_actor_role h)
         then [("x-openqilin-actor-role", default "" (x_openqilin_actor_role h))] else []) in
  let! identities := gets cp_identity in
  match resolve_principal headers (PersistentRepo identities) with
  | Raise (PrincipalResolutionError code message) =>
      refuse trace None None (Some (os_actor_role (oq_sender q))) "identity" code message JNull
        (_error_response 400 trace code "authorization_error" message "api" [("source", "identity")])
  | Raise e => raise e
  | Ret principal =>
      match validate_owner_command_envelope str_float q principal (Some trace) with
      | Raise (EnvelopeValidationError code message) =>
          refuse trace None (Some (pl_principal_id principal)) (Some (pl_principal_role principal))
            "payload" code message JNull
            (_error_response 400 trace code "validation_error" message "api" [("source", "payload")])
      | Raise e => raise e
      | Ret envelope =>
          let! rid := draw_outside uuid4 in
          govern_envelope trace q principal envelope rid
      end
  end.

Definition submit_owner_command (q : OwnerCommandRequest) (h : ingress_headers)
    : M control_plane OwnerCommandResponse :=
  let payload_trace_id := strip (oq_trace_id q) in
  let! trace := if truthy payload_trace_id then ret payload_trace_id
                else if opt_truthy (x_openqilin_trace_id h)
                then ret (strip (default "" (x_openqilin_trace_id h)))
                else draw_outside uuid4 in
  if blank (x_external_channel h) then
    ret (missing_header trace "connector_missing_header" "X-External-Channel")
  else if blank (x_external_actor_id h) then
    ret (missing_header trace "connector_missing_header" "X-External-Actor-Id")
  else if blank (x_idempotency_key h) then
    ret (missing_header trace "idempotency_missing_header" "X-Idempotency-Key")
  else
    let con := oq_connector q in
    match validate_connector_auth hmac_sha256_hex connector_shared_secret
            (x_external_channel h) (x_external_actor_id h) (x_idempotency_key h) (x_openqilin_signature h)
            (oc_channel con) (oc_actor_external_id con) (oc_idempotency_key con) (raw_payload_hash con) with
    | Raise (ConnectorSecurityError code message) =>
        refuse trace None None (Some (os_actor_role (oq_sender q))) "connector_security" code message JNull
          (_error_response 400 trace code "authorization_error" message "api"
             [("source", "connector_security")])
    | Raise e => raise e
    | Ret _ =>
        resolve_and_validate trace h (default "" (x_external_channel h))
          (default "" (x_external_actor_id h)) q
    end.

(** * Lemmas *)

(** The admission half of the state is left alone. *)
Definition keeps_admission (s s' : control_plane) : Prop :=
  cp_admission s' = cp_admission s /\ cp_identity s' = cp_identity s.

#[local] Instance keeps_admission_preorder : PreOrder keeps_admission.
Proof. split; [by intros s | intros a b c [H1 H2] [H3 H4]; split; congruence]. Qed.

Lemma keeps_outside {A} (m : M E A) : tracks keeps_admission (on_outside m).
Proof. intros s. unfold on_outside, zoom. by destruct (m (cp_ext s)). Qed.

Lemma keeps_refuse trace rid pid role source code message attributes response :
  tracks keeps_admission (refuse trace rid pid role source code message attributes response).
Proof.
  unfold refuse, _emit_outcome_observability.
  repeat first [tracks_step | apply keeps_outside].
Qed.

Lemma keeps_replay t result source message :
  tracks keeps_admission (_emit_replay_observability t result source message).
Proof. unfold _emit_replay_observability. cbv zeta. repeat first [tracks_step | apply keeps_outside]. Qed.

Lemma keeps_admitted trace result : tracks keeps_admission (admitted_response trace result).
Proof.
  unfold admitted_response. cbv zeta. case_match; [| apply tracks_ret; typeclasses eauto].
  apply tracks_bind; [typeclasses eauto | apply keeps_replay | intros _; apply tracks_ret; typeclasses eauto].
Qed.

(** The tasks table is unchanged, or one queued task satisfying [P] was added. *)
Definition admits (P : AdmissionEnvelope -> Prop) (s s' : control_plane) : Prop :=
  ad_tasks (cp_admission s') = ad_tasks (cp_admission s) \/
  exists tid now e, P e /\ ad_tasks (cp_admission s) !! tid = None /\
    ad_tasks (cp_admission s') = <[tid := task_of_envelope tid now e]> (ad_tasks (cp_admission s)).

Lemma admits_keeps P s s' : keeps_admission s s' -> admits P s s'.
Proof. intros [H _]. left. by rewrite H. Qed.

Lemma admits_weaken (P Q : AdmissionEnvelope -> Prop) s s' :
  (forall e, P e -> Q e) -> admits P s s' -> admits Q s s'.
Proof. intros H [? | (tid & now & e & HP & ? & ?)]; [by left | right]. exists tid, now, e. auto. Qed.

Lemma admits_after P s s1 s' :
  ad_tasks (cp_admission s1) = ad_tasks (cp_admission s) -> admits P s1 s' -> admits P s s'.
Proof. intros H. unfold admits. by rewrite H. Qed.

Lemma admits_then P s s1 s' :
  admits P s s1 -> ad_tasks (cp_admission s') = ad_tasks (cp_admission s1) -> admits P s s'.
Proof. intros H E'. unfold admits. by rewrite E'. Qed.

(** One admission adds at most its own task. *)
Lemma admit_tasks tid now e (a : admission) :
  ad_tasks (admit_owner_command json_text sha256 tid now e a).2 = ad_tasks a \/
  ad_tasks a !! tid = None /\
  ad_tasks (admit_owner_command json_text sha256 tid now e a).2 =
    <[tid := task_of_envelope tid now e]> (ad_tasks a).
Proof.
  destruct (ad_claims a !! (ae_principal_id e, ae_idempotency_key e)) as [c |] eqn:Hc.
  - left. destruct (decide (dr_payload_hash c = _payload_hash json_text sha256 e)) as [He | He].
    + rewrite (admit_replay _ _ _ _ _ _ _ Hc He). repeat case_match; done.
    + by rewrite (admit_conflict _ _ _ _ _ _ _ Hc He).
  - rewrite (admit_new _ _ _ _ _ _ Hc). cbv zeta. destruct (ad_tasks a !! tid); [by left | by right].
Qed.

Lemma admits_admit_envelope trace principal envelope uuid s :
  admits (fun e => e = envelope uuid) s (admit_envelope trace principal envelope uuid s).2.
Proof.
  unfold admit_envelope. cbv zeta. unfold bind at 1 2 3, draw_outside, on_outside, zoom.
  cbn [cp_ext cp_admission cp_identity cp_projects]. destruct (uuid4 (cp_ext s)) as [tid e1].
  cbn [cp_ext cp_admission cp_identity cp_projects]. destruct (utcnow e1) as [now e2].
  cbn [cp_ext cp_admission cp_identity cp_projects]. unfold attempt, on_admission, zoom.
  cbn [cp_ext cp_admission cp_identity cp_projects].
  pose proof (admit_tasks tid now (envelope uuid) (cp_admission s)) as Ht.
  destruct (admit_owner_command json_text sha256 tid now (envelope uuid) (cp_admission s)) as [o a']. cbn [snd] in Ht.
  set (s1 := mk_control_plane _ _ _ a').
  apply (admits_then _ s s1).
  - destruct Ht as [Ht | [Hn Ht]]; [by left | right]. exists tid, now, (envelope uuid). done.
  - destruct o as [result | x].
    + f_equal. apply (keeps_admitted trace result s1).
    + destruct x; cbn; try done. f_equal. apply keeps_refuse.
Qed.

(** What the Discord rules ask of the sender, when they let a command pass. *)
Definition chat_allows (q : OwnerCommandRequest) (role : string) : Prop :=
  oc_channel (oq_connector q) = "discord" ->
  exists context members, discord_context (oq_connector q) = Some context /\
    _MEMBERSHIP_BY_CHAT_CLASS (chat_class context) = Some members /\ In (norm role) members.

Lemma governance_ret uuid now q role ip d ip' :
  validate_discord_governance uuid now q role ip = (Ret d, ip') -> chat_allows q role.
Proof.
  unfold validate_discord_governance. cbv zeta. intros H Hd. rewrite Hd in H. cbn [String.eqb negb Ascii.eqb Bool.eqb] in H.
  destruct (discord_context (oq_connector q)) as [context |]; [| done].
  unfold bind at 1 in H. destruct (on_fst _ ip) as [[mapping | x] ip1]; [| done].
  unfold bind in H. unfold on_snd, zoom in H.
  destruct (check_chat q role context mapping ip1.2) as [[dec | x] t'] eqn:Hc; [| done].
  apply check_chat_ret in Hc as (_ & _ & members & Hm & Hin). by exists context, members.
Qed.

Lemma admits_govern trace q principal envelope rid s :
  admits (fun e => e = envelope rid /\ chat_allows q (pl_principal_role principal)) s
    (govern_envelope trace q principal envelope rid s).2.
Proof.
  unfold govern_envelope. unfold bind at 1 2 3, draw_outside, on_outside, zoom.
  cbn [cp_ext cp_admission cp_identity cp_projects]. destruct (uuid4 (cp_ext s)) as [uuid e1].
  cbn [cp_ext cp_admission cp_identity cp_projects]. destruct (utcnow e1) as [now e2].
  cbn [cp_ext cp_admission cp_identity cp_projects]. unfold attempt, on_identity, zoom.
  cbn [cp_ext cp_admission cp_identity cp_projects].
  destruct (validate_discord_governance uuid now q (pl_principal_role principal) (cp_identity s, cp_projects s))
    as [[d | x] ip'] eqn:Hd.
  - apply governance_ret in Hd. set (s1 := mk_control_plane _ _ _ _).
    apply (admits_after _ s s1); [done |].
    eapply admits_weaken; [| apply admits_admit_envelope]. intros e ->. by split.
  - set (s1 := mk_control_plane _ _ _ _). apply (admits_after _ s s1); [done |].
    destruct x; try (by left). apply admits_keeps, keeps_refuse.
Qed.

(** The envelope's fields that matter here. *)
Lemma envelope_ret q principal trace f uuid :
  validate_owner_command_envelope str_float q principal trace = Ret f ->
  ae_principal_id (f uuid) = pl_principal_id principal /\
  ae_principal_role (f uuid) = pl_principal_role principal /\
  ae_connector (f uuid) = pl_connector principal /\
  ae_command (f uuid) = strip (rs_action (oq_command q)) /\
  ae_target (f uuid) = strip (rs_target (oq_command q)) /\ ae_project_id (f uuid) = oq_project_id q /\
  strip (os_actor_id (oq_sender q)) = pl_principal_id principal.
Proof.
  unfold validate_owner_command_envelope. cbv zeta. destruct (negb _); [done |]. destruct (negb _); [done |].
  destruct (envelope_args _ _) as [l | x]; [| done]. cbn [obind].
  destruct (String.eqb_spec (strip (os_actor_id (oq_sender q))) (pl_principal_id principal)); [| done].
  cbn [negb]. destruct (negb _); [done |]. destruct (check_recipient_roles _); [| done].
  cbn [obind]. by intros [= <-].
Qed.

Definition principal_headers (h : ingress_headers) (channel actor : string) : list (string * string) :=
  [("x-external-channel", channel); ("x-openqilin-actor-external-id", actor)] ++
  (if opt_truthy (x_openqilin_actor_role h)
   then [("x-openqilin-actor-role", default "" (x_openqilin_actor_role h))] else []).

Lemma admits_resolve trace h channel actor q s :
  admits (fun e => exists principal,
      resolve_principal (principal_headers h channel actor) (PersistentRepo (cp_identity s)) = Ret principal /\
      ae_principal_id e = pl_principal_id principal /\ ae_principal_role e = pl_principal_role principal /\
      ae_connector e = pl_connector principal /\ ae_command e = strip (rs_action (oq_command q)) /\
      ae_target e = strip (rs_target (oq_command q)) /\ ae_project_id e = oq_project_id q /\
      chat_allows q (pl_principal_role principal)) s
    (resolve_and_validate trace h channel actor q s).2.
Proof.
  unfold resolve_and_validate. fold (principal_headers h channel actor). cbv zeta. unfold bind at 1, gets.
  destruct (resolve_principal _ _) as [principal | x] eqn:Hp.
  2: { destruct x; try (by left). apply admits_keeps, keeps_refuse. }
  destruct (validate_owner_command_envelope _ _ _ _) as [envelope | x] eqn:He.
  2: { destruct x; try (by left). apply admits_keeps, keeps_refuse. }
  unfold bind, draw_outside, on_outside, zoom. destruct (uuid4 (cp_ext s)) as [rid e1].
  set (s1 := mk_control_plane _ _ _ _). apply (admits_after _ s s1); [done |].
  eapply admits_weaken; [| apply admits_govern]. intros e [-> Hchat].
  destruct (envelope_ret _ _ _ _ rid He) as (H1 & H2 & H3 & H4 & H5 & H6 & _). exists principal. done.
Qed.

Lemma resolve_headers h channel actor repo p :
  resolve_principal (principal_headers h channel actor) repo = Ret p ->
  pl_connector p = strip channel /\ pl_principal_id p = strip actor.
Proof.
  unfold resolve_principal.
  assert (first_header (principal_headers h channel actor) ["x-external-channel"; "x-openqilin-connector"] =
          or_none (strip channel)) as ->.
  { unfold first_header, _optional_header, principal_headers.
    destruct (opt_truthy _); cbn; unfold or_none; by destruct (truthy (strip channel)). }
  assert (first_header (principal_headers h channel actor)
            ["x-openqilin-actor-external-id"; "x-external-actor-id"; "x-openqilin-user-id"] =
          or_none (strip actor)) as ->.
  { unfold first_header, _optional_header, principal_headers.
    destruct (opt_truthy _); cbn; unfold or_none; by destruct (truthy (strip actor)). }
  unfold or_none. destruct (truthy (strip channel)); [| done]. destruct (mem _ _); [| done]. cbn [negb].
  destruct (truthy (strip actor)); [| done].
  match goal with |- obind ?o _ = _ -> _ => destruct o; [| done] end. cbn [obind]. by intros [= <-].
Qed.

Lemma check_header_ret h value code message : check_header (Some h) value code message = Ret tt -> strip h = value.
Proof. unfold check_header. by destruct (String.eqb_spec (strip h) value). Qed.

(** The signature header is the HMAC of the claimed payload hash. *)
Definition signed (signature : option string) (payload_hash : string) : Prop :=
  exists header, signature = Some header /\
    compare_digest (_normalize_signature header) (hmac_sha256_hex connector_shared_secret payload_hash) = Ret true.

(** What holds of every envelope the endpoint admits. *)
Record governed (q : OwnerCommandRequest) (h : ingress_headers) (identities : identity_table) (e : AdmissionEnvelope) : Prop := {
  gv_principal : ae_principal_id e = oc_actor_external_id (oq_connector q);
  gv_connector : ae_connector e = oc_channel (oq_connector q);
  gv_command : ae_command e = strip (rs_action (oq_command q));
  gv_target : ae_target e = strip (rs_target (oq_command q));
  gv_project : ae_project_id e = oq_project_id q;
  gv_signed : signed (x_openqilin_signature h) (raw_payload_hash (oq_connector q));
  gv_mapping : oc_channel (oq_connector q) <> "internal" ->
    exists mapping, get_by_connector_actor (oc_channel (oq_connector q)) (oc_actor_external_id (oq_connector q)) identities =
      Some mapping /\ im_status mapping = "verified" /\ ae_principal_role e = role_or_owner (im_principal_role mapping);
  gv_chat : chat_allows q (ae_principal_role e)
}.

Lemma submit_admits q h s : admits (governed q h (cp_identity s)) s (submit_owner_command q h s).2.
Proof.
  unfold submit_owner_command. cbv zeta. unfold bind at 1.
  match goal with |- admits _ _ ((let (_, _) := ?m s in _).2) =>
    assert (exists trace e1, m s = (Ret trace,
      mk_control_plane e1 (cp_identity s) (cp_projects s) (cp_admission s))) as (trace & e1 & Htrace) end.
  { destruct (truthy _); [eexists _, (cp_ext s); by destruct s |].
    destruct (opt_truthy _); [eexists _, (cp_ext s); by destruct s |].
    unfold draw_outside, on_outside, zoom. destruct (uuid4 (cp_ext s)). by do 2 eexists. }
  rewrite Htrace. set (s1 := mk_control_plane _ _ _ _). apply (admits_after _ s s1); [done |].
  destruct (x_external_channel h) as [channel |] eqn:Hch; [| by left].
  destruct (blank (Some channel)); [by left |].
  destruct (x_external_actor_id h) as [actor |] eqn:Hact; [| by left].
  destruct (blank (Some actor)); [by left |]. destruct (blank (x_idempotency_key h)); [by left |].
  destruct (validate_connector_auth _ _ _ _ _ _ _ _ _ _) as [c | x] eqn:Hauth.
  2: { destruct x; try (by left). apply admits_keeps, keeps_refuse. }
  apply connector_auth_ret in Hauth as (signature & Hsig & _ & Hcmp & H1%check_header_ret & H2%check_header_ret).
  eapply admits_weaken; [| apply admits_resolve].
  intros e (p & Hp & E1 & E2 & E3 & E4 & E5 & E6 & Hchat).
  change (resolve_principal (principal_headers h channel actor) (PersistentRepo (cp_identity s)) = Ret p) in Hp.
  destruct (resolve_headers _ _ _ _ _ Hp) as [F1 F2].
  assert (oc_channel (oq_connector q) <> "internal" ->
    exists mapping, get_by_connector_actor (oc_channel (oq_connector q)) (oc_actor_external_id (oq_connector q))
      (cp_identity s) = Some mapping /\ im_status mapping = "verified" /\
      pl_principal_role p = role_or_owner (im_principal_role mapping)) as Hmap.
  { intros Hne. destruct (external_role_from_headers _ _ _ Hp) as (m & Hm & Hv & Hr); [congruence |].
    exists m. rewrite <- H1, <- H2, <- F1, <- F2. done. }
  split; try congruence; [by exists signature | by rewrite E2 | by rewrite E2].
Qed.

(** * Theorems *)

(** An accepted answer has passed the signature check. *)
Lemma submit_accepts q h s :
  post (submit_owner_command q h) s
    (fun r _ => rp_status r = "accepted" -> signed (x_openqilin_signature h) (raw_payload_hash (oq_connector q)))
    (fun _ _ => True).
Proof.
  unfold submit_owner_command. cbv zeta. apply post_bind.
  match goal with |- post ?m s _ _ => apply (post_mono m s (fun _ _ => True) _ (fun _ _ => True)) end;
    [unfold post; by repeat case_match | intros trace s1 _ | done].
  do 3 (match goal with |- context [if ?b then _ else _] => destruct b; [by apply post_ret |] end).
  destruct (validate_connector_auth _ _ _ _ _ _ _ _ _ _) as [c | x] eqn:Hauth.
  - apply connector_auth_ret in Hauth as (header & Hsig & _ & Hcmp & _).
    unfold post. case_match. case_match; [| done]. intros _. by exists header.
  - destruct x; try done. unfold refuse. apply post_bind.
    unfold post. case_match. case_match; done.
Qed.

(** C4: only an authentic, verified and governed command becomes a task.
    Whatever the endpoint answers or raises, the tasks table is unchanged or has
    exactly one new row, queued under a fresh identifier.  In the second case the
    signature header is the HMAC of the claimed payload hash under the shared
    secret; the task carries the payload's actor, connector, command and target;
    if the connector is not internal, the identity store held a verified mapping
    of that actor and the task's role is the mapping's; and if it is Discord, the
    role may speak in the chat class of the message. *)
Theorem admitted_is_governed q h s :
  let con := oq_connector q in
  admits (fun e =>
      ae_principal_id e = oc_actor_external_id con /\ ae_connector e = oc_channel con /\
      ae_command e = strip (rs_action (oq_command q)) /\ ae_target e = strip (rs_target (oq_command q)) /\
      (exists signature, x_openqilin_signature h = Some signature /\
         compare_digest (_normalize_signature signature)
           (hmac_sha256_hex connector_shared_secret (raw_payload_hash con)) = Ret true) /\
      (oc_channel con <> "internal" ->
       exists mapping, get_by_connector_actor (oc_channel con) (oc_actor_external_id con) (cp_identity s) = Some mapping /\
         im_status mapping = "verified" /\ ae_principal_role e = role_or_owner (im_principal_role mapping)) /\
      chat_allows q (ae_principal_role e))
    s (submit_owner_command q h s).2.
Proof.
  cbv zeta. eapply admits_weaken; [| apply submit_admits]. intros e [].
  destruct gv_signed0 as (signature & Hs & Hc). split_and!; try done. by exists signature.
Qed.

(** The answer to a repeated command follows the stored task's status.  A
    replay is accepted when the task is queued, authorized or dispatched, and
    answered 403 denied with the task's error otherwise, also when the task is
    running or has completed. *)
Theorem replay_answers_by_status trace t s r s' :
  admitted_response trace (mk_AdmissionResult t true) s = (Ret r, s') ->
  (In (status t) ["queued"; "authorized"; "dispatched"] /\ rp_http_status r = 202%Z /\ rp_status r = "accepted") \/
  (~ In (status t) ["queued"; "authorized"; "dispatched"] /\ rp_http_status r = 403%Z /\ rp_status r = "denied" /\
   rp_data r = None).
Proof.
  unfold admitted_response. cbn [ar_task ar_replayed andb].
  destruct (mem (status t) ["queued"; "authorized"]) eqn:Hm; cbn [negb].
  - intros [= <- _]. left. split; [| done]. apply mem_In in Hm. cbn in Hm |- *. tauto.
  - apply mem_not_In in Hm. unfold bind. destruct (_emit_replay_observability _ _ _ _ s) as [[[] | x] s1]; [| done].
    intros [= <- _]. unfold _replayed_response. cbv zeta.
    destruct (String.eqb_spec (status t) "dispatched") as [Hd | Hd].
    + left. rewrite Hd. split; [cbn; tauto | done].
    + right. split; [| done].
      intros [H | [H | [H | []]]]; [apply Hm; by left | apply Hm; right; by left | by apply Hd].
Qed.
End endpoint.

(** * Witnesses *)

#[local] Instance quiet_audit : AuditWriter N := { write_event := fun _ => ret tt }.
#[local] Instance quiet_metrics : MetricRecorder N := { increment_counter := fun _ _ e => e }.
#[local] Instance count_oracle : Oracle N := {
  uuid4 := fun n => ("id-" +:+ pretty n, N.succ n);
  utcnow := fun n => (sample_now, N.succ n)
}.

Definition sample_request : OwnerCommandRequest :=
  {| oq_message_id := "msg-1"; oq_trace_id := "tr-1";
     oq_sender := mk_OwnerCommandSender "user-1" "owner";
     oq_recipients := [mk_OwnerCommandRecipient "ceo" "ceo"]; oq_message_type := "command";
     oq_priority := "normal"; oq_timestamp := sample_now; oq_content := "go"; oq_project_id := None;
     oq_connector := mk_OwnerCommandConnectorMetadata "discord" "ext-1" "user-1" "key-00001"
       "0123456789012345678901234567890123456789012345678901234567890123"
       (Some (mk_OwnerCommandDiscordContext "g" "c" "text" "executive" None None None));
     oq_command := mk_OwnerCommandResolution "run_task" "sandbox" [] |}.

Definition sample_headers : ingress_headers :=
  mk_ingress_headers None (Some "discord") (Some "user-1") (Some "owner") (Some "key-00001")
    (Some "sha256=s0123456789012345678901234567890123456789012345678901234567890123").

Definition sample_plane : control_plane (E:=N) :=
  mk_control_plane 0%N (sample_identities "ceo") ∅ fresh_process.

#[local] Abbreviation sample_submit :=
  (submit_owner_command (E:=N) (fun secret text => secret +:+ text) "s" (fun _ => "") (fun _ => "doc") (fun s => s)
     sample_request sample_headers sample_plane).

(** The endpoint does admit: the sample request is well formed, and stores a
    task with the stored role, not the one the header claims. *)
Example sample_is_admitted :
  owner_command_request_ok sample_request = true /\
  match sample_submit.1 with Ret r => rp_http_status r = 202%Z | Raise _ => False end /\
  map principal_role (map snd (map_to_list (ad_tasks (cp_admission sample_submit.2)))) = ["ceo"].
Proof. vm_compute. split_and!; reflexivity. Qed.

Definition completed_row : TaskRecord :=
  apply_update "completed" (mk_task_outcome None None None None None None)
    (task_of_envelope "t-1" sample_now sample_envelope).

Lemma replay_answers_by_status_witness :
  admitted_response (E:=N) "tr" (mk_AdmissionResult completed_row true) sample_plane =
    (Ret (_replayed_response completed_row), sample_plane) /\
  rp_http_status (_replayed_response completed_row) = 403%Z.
Proof.
  assert (admitted_response (E:=N) "tr" (mk_AdmissionResult completed_row true) sample_plane =
    (Ret (_replayed_response completed_row), sample_plane)) as H by reflexivity.
  split; [exact H |].
  destruct (replay_answers_by_status (fun _ _ => "") "" (fun s => s) "tr" completed_row sample_plane _ _ H)
    as [[Hin _] | (_ & Hr & _)]; [| exact Hr].
  cbn in Hin. intuition discriminate.
Defined.
