(* ===== verification/CommStore.v ===== *)
(** The communication gateway's stores and policies.

    Models [communication_gateway/storage/message_ledger.py],
    [communication_gateway/storage/idempotency_store.py],
    [communication_gateway/delivery/retry_scheduler.py],
    [communication_gateway/delivery/dlq_writer.py],
    [communication_gateway/validators/], [communication_gateway/transport/] and
    the records of [data_access/repositories/communication.py].

    The ACP transport is an interface, [AcpClient]; [local_acp_send] is the
    deterministic client of the repository.  [E] is the outside world. *)

From S2P Require Import Prelude PyStr PyData LlmSchemas Task Budget LoopControl Policy Runtime.

(** * Records *)

Record CommunicationStateTransition : Type := mk_CommunicationStateTransition {
  ct_state : string;
  ct_changed_at : datetime;
  ct_reason_code : string;
  ct_message : string;
  ct_retryable : option bool
}.

Record CommunicationMessageRecord : Type := mk_CommunicationMessageRecord {
  cm_ledger_id : string;
  cm_task_id : string;
  cm_trace_id : string;
  cm_message_id : string;
  cm_external_message_id : string;
  cm_connector : string;
  cm_command : string;
  cm_target : string;
  cm_route_key : string;
  cm_endpoint : string;
  cm_attempt : Z;
  cm_state : string;
  cm_dispatch_id : option string;
  cm_delivery_id : option string;
  cm_retryable : option bool;
  cm_error_code : option string;
  cm_error_message : option string;
  cm_transitions : list CommunicationStateTransition;
  cm_created_at : datetime;
  cm_updated_at : datetime
}.

Record CommunicationDeadLetterRecord : Type := mk_CommunicationDeadLetterRecord {
  dl_dead_letter_id : string;
  dl_task_id : string;
  dl_trace_id : string;
  dl_principal_id : string;
  dl_idempotency_key : string;
  dl_message_id : string;
  dl_external_message_id : string;
  dl_connector : string;
  dl_command : string;
  dl_target : string;
  dl_route_key : string;
  dl_endpoint : string;
  dl_error_code : string;
  dl_error_message : string;
  dl_attempts : Z;
  dl_ledger_id : option string;
  dl_created_at : datetime
}.

Record CacheIdempotencyRecord : Type := mk_CacheIdempotencyRecord {
  ci_namespace : string;
  ci_key : string;
  ci_payload_hash : string;
  ci_status : string;
  ci_attempt_count : Z;
  ci_result : option (list (string * string));
  ci_created_at : datetime;
  ci_updated_at : datetime
}.

Record PublishRequest : Type := mk_PublishRequest {
  pb_task_id : string;
  pb_trace_id : string;
  pb_principal_id : string;
  pb_idempotency_key : string;
  pb_message_id : string;
  pb_external_message_id : string;
  pb_connector : string;
  pb_command : string;
  pb_target : string;
  pb_args : list string;
  pb_project_id : option string;
  pb_route_key : string;
  pb_endpoint : string
}.

Record AcpSendReceipt : Type := mk_AcpSendReceipt {
  as_dispatch_id : string;
  as_delivery_id : string;
  as_status : string;
  as_code : string;
  as_message : string;
  as_retryable : bool
}.

Record AcpSendRequest : Type := mk_AcpSendRequest {
  aq_task_id : string;
  aq_trace_id : string;
  aq_message_id : string;
  aq_external_message_id : string;
  aq_connector : string;
  aq_command : string;
  aq_target : string;
  aq_args : list string;
  aq_route_key : string;
  aq_endpoint : string
}.

Class AcpClient (E : Type) : Type := {
  acp_send : AcpSendRequest -> M E AcpSendReceipt
}.

(** * The gateway's state *)

Record gateway (E : Type) : Type := mk_gateway {
  gw_ext : E;
  gw_ledger : gmap string CommunicationMessageRecord;
  gw_by_task : gmap string (list string);
  gw_store : gmap string CacheIdempotencyRecord;
  gw_dead_letters : list CommunicationDeadLetterRecord
}.
Arguments mk_gateway {E}.
Arguments gw_ext {E}.
Arguments gw_ledger {E}.
Arguments gw_by_task {E}.
Arguments gw_store {E}.
Arguments gw_dead_letters {E}.

Section stores.
Context {E : Type} `{!Oracle E} `{!AuditWriter E} `{!MetricRecorder E}.

Definition on_world {A} (m : M E A) : M (gateway E) A :=
  zoom gw_ext (fun e g => mk_gateway e (gw_ledger g) (gw_by_task g) (gw_store g) (gw_dead_letters g)) m.
Definition set_ledger (l : gmap string CommunicationMessageRecord) (g : gateway E) : gateway E :=
  mk_gateway (gw_ext g) l (gw_by_task g) (gw_store g) (gw_dead_letters g).
Definition set_store (s : gmap string CacheIdempotencyRecord) (g : gateway E) : gateway E :=
  mk_gateway (gw_ext g) (gw_ledger g) (gw_by_task g) s (gw_dead_letters g).

Definition set_by_task (b : gmap string (list string)) (g : gateway E) : gateway E :=
  mk_gateway (gw_ext g) (gw_ledger g) b (gw_store g) (gw_dead_letters g).

Definition new_uuid : M (gateway E) string := on_world (fun e => let '(u, e') := uuid4 e in (Ret u, e')).
Definition clock : M (gateway E) datetime := on_world (fun e => let '(t, e') := utcnow e in (Ret t, e')).

(** ** Message ledger *)

Definition ledger_transitions (state : string) : list string :=
  if String.eqb state "prepared" then ["sent"; "nacked"]
  else if String.eqb state "sent" then ["acked"; "nacked"]
  else [].

Definition assert_ledger_transition (current next_state : string) : outcome unit :=
  if mem next_state (ledger_transitions current) then Ret tt
  else Raise (MessageLedgerError "message_ledger_invalid_transition"
                ("invalid message ledger transition: " +:+ current +:+ " -> " +:+ next_state)).

Definition _require_record (lid : string) : M (gateway E) CommunicationMessageRecord :=
  let! found := gets (fun g => gw_ledger g !! lid) in
  match found with
  | Some record => ret record
  | None => raise (MessageLedgerError "message_ledger_missing_record" "message ledger record not found")
  end.

Definition begin_dispatch (p : PublishRequest) (attempt : Z) : M (gateway E) CommunicationMessageRecord :=
  let! lid := new_uuid in
  let! now := clock in
  let record := mk_CommunicationMessageRecord lid (pb_task_id p) (pb_trace_id p) (pb_message_id p)
        (pb_external_message_id p) (pb_connector p) (pb_command p) (pb_target p) (pb_route_key p)
        (pb_endpoint p) attempt "prepared" None None None None None
        [mk_CommunicationStateTransition "prepared" now "dispatch_started" "dispatch pipeline started" None]
        now now in
  modify (fun g => set_ledger (<[lid := record]> (gw_ledger g)) g) ;!
  modify (fun g => set_by_task (<[pb_task_id p := default [] (gw_by_task g !! pb_task_id p) ++ [lid]]>
                                  (gw_by_task g)) g) ;!
  ret record.

Definition list_records_for_task (task : string) (g : gateway E) : list CommunicationMessageRecord :=
  omap (fun lid => gw_ledger g !! lid) (default [] (gw_by_task g !! task)).

(** [replace(record, state=.., transitions=record.transitions + (t,), ..)]. *)
Definition advance_record (r : CommunicationMessageRecord) (t : CommunicationStateTransition)
    (dispatch delivery : option string) (retryable : option bool) (code message : option string)
    : CommunicationMessageRecord :=
  mk_CommunicationMessageRecord (cm_ledger_id r) (cm_task_id r) (cm_trace_id r) (cm_message_id r)
    (cm_external_message_id r) (cm_connector r) (cm_command r) (cm_target r) (cm_route_key r)
    (cm_endpoint r) (cm_attempt r) (ct_state t) dispatch delivery retryable code message
    (cm_transitions r ++ [t]) (cm_created_at r) (ct_changed_at t).

Definition store_record (lid : string) (r : CommunicationMessageRecord)
    : M (gateway E) CommunicationMessageRecord :=
  modify (fun g => set_ledger (<[lid := r]> (gw_ledger g)) g) ;! ret r.

Definition mark_sent (lid dispatch delivery : string) : M (gateway E) CommunicationMessageRecord :=
  let! r := _require_record lid in
  of_outcome (assert_ledger_transition (cm_state r) "sent") ;!
  let! now := clock in
  store_record lid (advance_record r
    (mk_CommunicationStateTransition "sent" now "acp_accepted" "ACP send accepted" None)
    (Some dispatch) (Some delivery) (cm_retryable r) (cm_error_code r) (cm_error_message r)).

Definition mark_acked (lid code message : string) : M (gateway E) CommunicationMessageRecord :=
  let! r := _require_record lid in
  of_outcome (assert_ledger_transition (cm_state r) "acked") ;!
  let! now := clock in
  store_record lid (advance_record r (mk_CommunicationStateTransition "acked" now code message (Some false))
    (cm_dispatch_id r) (cm_delivery_id r) (Some false) (cm_error_code r) (cm_error_message r)).

Definition mark_nacked (lid code message : string) (retryable : bool)
    : M (gateway E) CommunicationMessageRecord :=
  let! r := _require_record lid in
  of_outcome (assert_ledger_transition (cm_state r) "nacked") ;!
  let! now := clock in
  store_record lid (advance_record r
    (mk_CommunicationStateTransition "nacked" now code message (Some retryable))
    (cm_dispatch_id r) (cm_delivery_id r) (Some retryable) (Some code) (Some message)).

(** ** Ack handling *)

Record AckHandlingResult : Type := mk_AckHandlingResult {
  ah_accepted : bool;
  ah_dispatch_id : option string;
  ah_error_code : option string;
  ah_message : string;
  ah_retryable : bool
}.

Definition handle_ack (lid : string) (receipt : AcpSendReceipt) : M (gateway E) AckHandlingResult :=
  if String.eqb (as_status receipt) "ack" then
    mark_acked lid (as_code receipt) (as_message receipt) ;!
    ret (mk_AckHandlingResult true (Some (as_dispatch_id receipt)) None (as_message receipt) false)
  else
    mark_nacked lid (as_code receipt) (as_message receipt) (as_retryable receipt) ;!
    ret (mk_AckHandlingResult false None (Some (as_code receipt)) (as_message receipt) (as_retryable receipt)).

(** ** Retry scheduling *)

Record RetryScheduleDecision : Type := mk_RetryScheduleDecision {
  rd_retry : bool;
  rd_next_attempt : Z;
  rd_backoff_seconds : Z;
  rd_reason_code : string;
  rd_message : string
}.

Definition backoff_seconds_for_attempt (base_backoff max_backoff attempt : Z) : Z :=
  if (attempt <=? 1)%Z then 0 else Z.min (base_backoff * 2 ^ (attempt - 2)) max_backoff.

Definition schedule_next (max_attempts base_backoff max_backoff attempt : Z) (error_code : string)
    (retryable : bool) : RetryScheduleDecision :=
  if negb retryable then
    mk_RetryScheduleDecision false attempt 0 "communication_retry_not_allowed"
      ("retry disabled for non-retryable error: " +:+ error_code)
  else if (max_attempts <=? attempt)%Z then
    mk_RetryScheduleDecision false attempt 0 "communication_retry_exhausted"
      ("retry exhausted after " +:+ str_int attempt +:+ " attempts")
  else
    let next_attempt := (attempt + 1)%Z in
    mk_RetryScheduleDecision true next_attempt
      (backoff_seconds_for_attempt base_backoff max_backoff next_attempt) "communication_retry_scheduled"
      ("retry scheduled for attempt " +:+ str_int next_attempt).

(** ** Idempotency store *)

Definition delivery_namespace : string := "communication_delivery".

Definition store_key (key : string) : string := delivery_namespace +:+ ":" +:+ key.

Definition build_delivery_key (p : PublishRequest) : string :=
  join ":" [pb_connector p; pb_principal_id p; opt_or (pb_project_id p) "project-unspecified";
            pb_idempotency_key p; pb_message_id p; pb_external_message_id p].

Definition delivery_claim (key payload_hash : string) : M (gateway E) (string * CacheIdempotencyRecord) :=
  let! existing := gets (fun g => gw_store g !! store_key key) in
  match existing with
  | None =>
      let! created := clock in
      let! updated := clock in
      let record := mk_CacheIdempotencyRecord delivery_namespace key payload_hash "in_progress" 0 None
            created updated in
      modify (fun g => set_store (<[store_key key := record]> (gw_store g)) g) ;! ret ("new", record)
  | Some r =>
      if String.eqb (ci_status r) "in_progress" then ret ("in_progress", r)
      else if negb (String.eqb (ci_payload_hash r) payload_hash) then ret ("conflict", r)
      else ret ("replay", r)
  end.

Definition increment_attempt (key : string) : M (gateway E) unit :=
  let! existing := gets (fun g => gw_store g !! store_key key) in
  match existing with
  | None => ret tt
  | Some r =>
      let! now := clock in
      modify (fun g => set_store (<[store_key key := mk_CacheIdempotencyRecord (ci_namespace r) (ci_key r)
                (ci_payload_hash r) (ci_status r) (ci_attempt_count r + 1) (ci_result r)
                (ci_created_at r) now]> (gw_store g)) g)
  end.

Definition delivery_complete (key : string) (result : list (string * string)) : M (gateway E) unit :=
  let! existing := gets (fun g => gw_store g !! store_key key) in
  match existing with
  | None => ret tt
  | Some r =>
      let! now := clock in
      modify (fun g => set_store (<[store_key key := mk_CacheIdempotencyRecord (ci_namespace r) (ci_key r)
                (ci_payload_hash r) "completed" (ci_attempt_count r) (Some result)
                (ci_created_at r) now]> (gw_store g)) g)
  end.

(** ** Dead letters *)

Definition write_dead_letter (p : PublishRequest) (error_code error_message : string) (attempts : Z)
    (lid : option string) : M (gateway E) CommunicationDeadLetterRecord :=
  let! did := new_uuid in
  let! now := clock in
  let record := mk_CommunicationDeadLetterRecord did (pb_task_id p) (pb_trace_id p) (pb_principal_id p)
        (pb_idempotency_key p) (pb_message_id p) (pb_external_message_id p) (pb_connector p)
        (pb_command p) (pb_target p) (pb_route_key p) (pb_endpoint p) error_code error_message attempts
        lid now in
  modify (fun g => mk_gateway (gw_ext g) (gw_ledger g) (gw_by_task g) (gw_store g) (gw_dead_letters g ++ [record])) ;!
  on_world (modify (increment_counter "communication_dead_letter_total"
                      [("connector", pb_connector p); ("reason_code", error_code)])) ;!
  on_world (write_event
    {| ae_event_type := "communication.dead_letter"; ae_outcome := "dead_lettered";
       ae_event_trace_id := pb_trace_id p; ae_event_request_id := None;
       ae_event_task_id := Some (pb_task_id p); ae_event_principal_id := Some (pb_principal_id p);
       ae_event_principal_role := Some "owner"; ae_source := "communication_gateway_dlq";
       ae_reason_code := Some error_code; ae_message := error_message;
       ae_policy_version := None; ae_policy_hash := None; ae_rule_ids := [];
       ae_payload := JObj [("dead_letter_id", JStr did); ("attempts", JInt attempts);
                           ("ledger_id", match lid with Some l => JStr l | None => JNull end);
                           ("connector", JStr (pb_connector p)); ("route_key", JStr (pb_route_key p))];
       ae_attributes := JObj [("dead_letter_id", JStr did); ("connector", JStr (pb_connector p));
                              ("command", JStr (pb_command p)); ("target", JStr (pb_target p));
                              ("attempts", JInt attempts)] |}) ;!
  ret record.
End stores.
