(* ===== verification/CommDelivery.v ===== *)
(** Communication delivery: validation, publication with retries, and the
    dispatch adapter.

    Models [communication_gateway/validators/],
    [communication_gateway/transport/], [communication_gateway/delivery/publisher.py]
    and [task_orchestrator/dispatch/communication_dispatch.py].

    The publisher's [while True] runs on fuel; [schedule_next] allows a retry
    only below [max_attempts], so that many attempts are enough, and
    [publish_bounded] shows that the fuel never runs out. *)

From S2P Require Import Prelude PyStr PyData LlmSchemas Task Budget LoopControl Policy Runtime CommStore.

(** * Envelopes, routes and ordering *)

Record A2AEnvelope : Type := mk_A2AEnvelope {
  en_schema_version : string;
  en_message_id : string;
  en_external_message_id : string;
  en_trace_id : string;
  en_principal_id : string;
  en_connector : string;
  en_command : string;
  en_target : string;
  en_args : list string;
  en_idempotency_key : string;
  en_project_id : option string;
  en_created_at : datetime
}.

(** Each check with the error it raises, in the order of the code. *)
Definition a2a_checks (e : A2AEnvelope) : list (bool * (string * string)) :=
  [(String.eqb (en_schema_version e) "a2a.v1", ("a2a_schema_unsupported", "unsupported A2A schema version"));
   (truthy (en_message_id e), ("a2a_missing_message_id", "missing message_id in A2A envelope"));
   (truthy (en_external_message_id e),
    ("a2a_missing_external_message_id", "missing external_message_id in A2A envelope"));
   (truthy (en_trace_id e), ("a2a_missing_trace_id", "missing trace_id in A2A envelope"));
   (truthy (en_principal_id e), ("a2a_missing_principal", "missing principal in A2A envelope"));
   (mem (en_connector e) ["discord"; "internal"],
    ("a2a_connector_unsupported", "unsupported connector channel"));
   (startswith (en_command e) "msg_",
    ("a2a_invalid_command_type", "communication dispatch requires msg_* command"));
   (truthy (en_target e), ("a2a_missing_target", "missing communication target"));
   (truthy (en_idempotency_key e), ("a2a_missing_idempotency_key", "missing idempotency_key in A2A envelope"));
   (match en_args e with [] => false | _ => true end,
    ("a2a_missing_recipient_args", "communication command requires at least one recipient argument"));
   (forallb truthy (en_args e),
    ("a2a_invalid_args", "communication command args must not contain blank values"))].

Fixpoint run_checks (checks : list (bool * (string * string))) : outcome unit :=
  match checks with
  | [] => Ret tt
  | (ok, (code, message)) :: checks' =>
      if ok then run_checks checks' else Raise (A2AValidationError code message)
  end.

Definition validate_a2a_envelope (e : A2AEnvelope) : outcome unit := run_checks (a2a_checks e).

Definition build_a2a_envelope (message external trace principal con cmd tgt : string) (arguments : list string)
    (key : string) (project : option string) (created : datetime) : outcome A2AEnvelope :=
  let envelope := mk_A2AEnvelope "a2a.v1" (strip message) (strip external) (strip trace) (strip principal)
        (strip con) (strip cmd) (strip tgt) (map strip arguments) (strip key) project created in
  let? _ := validate_a2a_envelope envelope in
  Ret envelope.

Definition metadata_value (md : list (string * string)) (key : string) : outcome string :=
  let value := strip (dict_get_or md key "") in
  if truthy value then Ret value
  else Raise (A2AValidationError ("a2a_missing_" +:+ key) ("missing " +:+ key +:+ " in dispatch metadata")).

(** [resolve_acp_route]: the route key and the endpoint. *)
Definition resolve_acp_route (e : A2AEnvelope) : outcome (string * string) :=
  if String.eqb (en_connector e) "discord" then
    Ret ("discord_direct_message", "acp://discord/" +:+ en_target e)
  else if String.eqb (en_connector e) "internal" then
    Ret ("internal_bus_message", "acp://internal/" +:+ en_target e)
  else Raise (RouteResolutionError "acp_route_unmapped_connector" "no ACP route mapping for connector").

Record ordering : Type := mk_ordering {
  latest_seen_at_by_stream : gmap string datetime;
  message_ids_by_stream : gmap string (gset string)
}.

Definition _stream_key (e : A2AEnvelope) : string :=
  join ":" [en_connector e; en_principal_id e; opt_or (en_project_id e) "project-unspecified"; en_target e].

Definition validate_ordering (e : A2AEnvelope) : M ordering unit :=
  let key := _stream_key e in
  let! o := get in
  let seen := default ∅ (message_ids_by_stream o !! key) in
  if bool_decide (en_message_id e ∈ seen) then
    raise (OrderingValidationError "a2a_duplicate_message_id"
             "duplicate message_id detected in communication stream")
  else
    let late := match latest_seen_at_by_stream o !! key with
                | Some latest => dt_ltb (en_created_at e) latest
                | None => false
                end in
    if late then
      raise (OrderingValidationError "a2a_out_of_order_delivery"
               "message timestamp is older than latest stream message")
    else
      modify (fun o => mk_ordering (<[key := en_created_at e]> (latest_seen_at_by_stream o))
                         (<[key := {[en_message_id e]} ∪ seen]> (message_ids_by_stream o))).

(** * The publisher *)

Record PublishReceipt : Type := mk_PublishReceipt {
  pr_accepted : bool;
  pr_dispatch_id : option string;
  pr_error_code : option string;
  pr_message : string;
  pr_retryable : bool;
  pr_route_key : string;
  pr_ledger_id : option string;
  pr_dead_letter_id : option string
}.

(** [{k: str(v)}] as the store keeps it. *)
Definition _receipt_result_payload (r : PublishReceipt) (attempts : Z) : list (string * string) :=
  [("accepted", str_bool (pr_accepted r)); ("dispatch_id", opt_or (pr_dispatch_id r) "");
   ("error_code", opt_or (pr_error_code r) ""); ("message", pr_message r);
   ("retryable", str_bool_lower (pr_retryable r)); ("route_key", pr_route_key r);
   ("ledger_id", opt_or (pr_ledger_id r) ""); ("dead_letter_id", opt_or (pr_dead_letter_id r) "");
   ("attempts", str_int attempts)].

Definition _cached_result_to_receipt (result : option (list (string * string))) (fallback_route_key : string)
    : PublishReceipt :=
  let mapped := default [] result in
  let text k := match dict_get mapped k with Some s => or_none s | None => None end in
  mk_PublishReceipt (match dict_get mapped "accepted" with Some s => String.eqb s "True" | None => false end)
    (text "dispatch_id") (text "error_code")
    (dict_get_or mapped "message" "communication delivery replay resolved")
    (match dict_get mapped "retryable" with Some s => String.eqb s "true" | None => false end)
    (dict_get_or mapped "route_key" fallback_route_key) (text "ledger_id") (text "dead_letter_id").

Section publisher.
Context {E : Type} `{!Oracle E} `{!AuditWriter E} `{!MetricRecorder E} `{!AcpClient E}.
Context (max_attempts base_backoff max_backoff : Z).
Context (json_text : json -> string) (sha256 : string -> string).

Definition fingerprint_payload (p : PublishRequest) : string :=
  sha256 (json_text (JObj
    [("task_id", JStr (pb_task_id p)); ("trace_id", JStr (pb_trace_id p));
     ("principal_id", JStr (pb_principal_id p)); ("idempotency_key", JStr (pb_idempotency_key p));
     ("message_id", JStr (pb_message_id p)); ("external_message_id", JStr (pb_external_message_id p));
     ("connector", JStr (pb_connector p)); ("command", JStr (pb_command p)); ("target", JStr (pb_target p));
     ("args", JArr (map JStr (pb_args p)));
     ("project_id", match pb_project_id p with Some x => JStr x | None => JNull end);
     ("route_key", JStr (pb_route_key p)); ("endpoint", JStr (pb_endpoint p))])).

Definition send_request (p : PublishRequest) : AcpSendRequest :=
  mk_AcpSendRequest (pb_task_id p) (pb_trace_id p) (pb_message_id p) (pb_external_message_id p)
    (pb_connector p) (pb_command p) (pb_target p) (pb_args p) (pb_route_key p) (pb_endpoint p).

(** [except AcpClientError] around the send alone; an [else] for its result. *)
Definition try_send (p : PublishRequest) : M (gateway E) (outcome AcpSendReceipt) := fun g =>
  match on_world (acp_send (send_request p)) g with
  | (Ret receipt, g') => (Ret (Ret receipt), g')
  | (Raise (AcpClientError code message retryable), g') =>
      (Ret (Raise (AcpClientError code message retryable)), g')
  | (Raise e, g') => (Raise e, g')
  end.

(** One attempt: ledger, send, ack or nack. *)
Definition attempt_delivery (p : PublishRequest) (attempt : Z) : M (gateway E) PublishReceipt :=
  let! record := begin_dispatch p attempt in
  let! sent := try_send p in
  match sent with
  | Ret receipt =>
      let! r := mark_sent (cm_ledger_id record) (as_dispatch_id receipt) (as_delivery_id receipt) in
      let! handled := handle_ack (cm_ledger_id record) receipt in
      ret (mk_PublishReceipt (ah_accepted handled) (ah_dispatch_id handled) (ah_error_code handled)
             (ah_message handled) (ah_retryable handled) (cm_route_key r) (Some (cm_ledger_id r)) None)
  | Raise (AcpClientError code message retryable) =>
      let! failed := mark_nacked (cm_ledger_id record) code message retryable in
      ret (mk_PublishReceipt false None (cm_error_code failed)
             (opt_or (cm_error_message failed) message) (default false (cm_retryable failed))
             (cm_route_key failed) (Some (cm_ledger_id failed)) None)
  | Raise e => raise e
  end.

(** What follows an attempt that is not retried. *)
Definition settle_failure (p : PublishRequest) (attempt : Z) (receipt : PublishReceipt)
    (decision : RetryScheduleDecision) : M (gateway E) PublishReceipt :=
  if String.eqb (rd_reason_code decision) "communication_retry_exhausted" then
    let message := rd_message decision +:+ "; last_error=" +:+ opt_or (pr_error_code receipt) "unknown" in
    let! dead_letter := write_dead_letter p "communication_retry_exhausted" message attempt
                          (pr_ledger_id receipt) in
    ret (mk_PublishReceipt false None (Some "communication_retry_exhausted")
           (message +:+ "; dead_letter_id=" +:+ dl_dead_letter_id dead_letter) false
           (pr_route_key receipt) (pr_ledger_id receipt) (Some (dl_dead_letter_id dead_letter)))
  else ret receipt.

Fixpoint publish_loop (fuel : nat) (p : PublishRequest) (key : string) (attempt : Z)
    : M (gateway E) PublishReceipt :=
  increment_attempt key ;!
  let! receipt := attempt_delivery p attempt in
  if pr_accepted receipt then
    delivery_complete key (_receipt_result_payload receipt attempt) ;! ret receipt
  else
    let decision := schedule_next max_attempts base_backoff max_backoff attempt
          (opt_or (pr_error_code receipt) "communication_delivery_failed") (pr_retryable receipt) in
    if rd_retry decision then
      match fuel with
      | S fuel' => publish_loop fuel' p key (rd_next_attempt decision)
      | O => raise (OtherError "out of fuel")
      end
    else
      let! terminal := settle_failure p attempt receipt decision in
      delivery_complete key (_receipt_result_payload terminal attempt) ;! ret terminal.

Definition refused (p : PublishRequest) (code message : string) (retryable : bool) : PublishReceipt :=
  mk_PublishReceipt false None (Some code) message retryable (pb_route_key p) None None.

Definition publish (p : PublishRequest) : M (gateway E) PublishReceipt :=
  let delivery_key := build_delivery_key p in
  let! (claim_status, claimed) := delivery_claim delivery_key (fingerprint_payload p) in
  if String.eqb claim_status "conflict" then
    ret (refused p "communication_idempotency_conflict"
           "communication idempotency key reused with different payload" false)
  else if String.eqb claim_status "replay" then
    ret (_cached_result_to_receipt (ci_result claimed) (pb_route_key p))
  else if String.eqb claim_status "in_progress" then
    ret (refused p "communication_idempotency_in_progress" "communication delivery already in progress" true)
  else publish_loop (Z.to_nat (max_attempts - 1)) p delivery_key 1.

(** * The dispatch adapter *)

Record communication : Type := mk_communication {
  co_ordering : ordering;
  co_gateway : gateway E
}.

Definition on_ordering {A} (m : M ordering A) : M communication A :=
  zoom co_ordering (fun o c => mk_communication o (co_gateway c)) m.
Definition on_gateway {A} (m : M (gateway E) A) : M communication A :=
  zoom co_gateway (fun g c => mk_communication (co_ordering c) g) m.

Definition envelope_of_request (q : CommunicationDispatchRequest) : outcome A2AEnvelope :=
  let? message := metadata_value (cq_metadata q) "message_id" in
  let? external := metadata_value (cq_metadata q) "external_message_id" in
  build_a2a_envelope message external (cq_trace_id q) (cq_principal_id q) (cq_connector q) (cq_command q)
    (cq_target q) (cq_args q) (cq_idempotency_key q) (cq_project_id q) (cq_created_at q).

Definition validated_route (q : CommunicationDispatchRequest) : M ordering (A2AEnvelope * (string * string)) :=
  let! envelope := of_outcome (envelope_of_request q) in
  validate_ordering envelope ;!
  let! route := of_outcome (resolve_acp_route envelope) in
  ret (envelope, route).

Definition publish_request (q : CommunicationDispatchRequest) (e : A2AEnvelope) (route : string * string)
    : PublishRequest :=
  mk_PublishRequest (cq_task_id q) (cq_trace_id q) (cq_principal_id q) (cq_idempotency_key q)
    (en_message_id e) (en_external_message_id e) (en_connector e) (en_command e) (en_target e) (en_args e)
    (en_project_id e) route.1 route.2.

Definition rejected (code message : string) : CommunicationDispatchReceipt :=
  mk_CommunicationDispatchReceipt false None (Some code) message None false None.

Definition receipt_of_publish (r : PublishReceipt) : CommunicationDispatchReceipt :=
  if pr_accepted r then
    mk_CommunicationDispatchReceipt true (pr_dispatch_id r) None (pr_message r) (Some (pr_route_key r)) false
      (pr_dead_letter_id r)
  else
    mk_CommunicationDispatchReceipt false None (pr_error_code r) (pr_message r) (Some (pr_route_key r))
      (pr_retryable r) (pr_dead_letter_id r).

Definition local_communication_dispatch (q : CommunicationDispatchRequest)
    : M communication CommunicationDispatchReceipt := fun c =>
  match on_ordering (validated_route q) c with
  | (Raise (A2AValidationError code message), c') | (Raise (OrderingValidationError code message), c')
  | (Raise (RouteResolutionError code message), c') => (Ret (rejected code message), c')
  | (Raise e, c') => (Raise e, c')
  | (Ret (envelope, route), c') =>
      (let! r := on_gateway (publish (publish_request q envelope route)) in ret (receipt_of_publish r)) c'
  end.
End publisher.

(** * The local ACP client *)

(** [LocalAcpClient] keeps its attempt counters beside the outside world. *)
Definition local_acp_send {E : Type} `{!Oracle E} (q : AcpSendRequest) : M (E * gmap string Z) AcpSendReceipt :=
  let key := aq_command q +:+ ":" +:+ aq_message_id q +:+ ":" +:+ aq_external_message_id q in
  let! previous := gets (fun s => default 0%Z (s.2 !! key)) in
  let attempt := (previous + 1)%Z in
  modify (fun s => (s.1, <[key := attempt]> s.2)) ;!
  let unavailable := AcpClientError "acp_transport_unavailable" "ACP transport unavailable during send" true in
  if String.eqb (aq_command q) "msg_transport_error" then raise unavailable
  else if String.eqb (aq_command q) "msg_transport_retry_then_ack" && Z.eqb attempt 1 then raise unavailable
  else
    let! u1 := (fun s => let '(u, e) := uuid4 s.1 in (Ret u, (e, s.2))) in
    let! u2 := (fun s => let '(u, e) := uuid4 s.1 in (Ret u, (e, s.2))) in
    let receipt := mk_AcpSendReceipt ("acp-" +:+ u1) ("delivery-" +:+ u2) in
    let retryable_nack := receipt "nack" "acp_delivery_nack_retryable" "ACP transport returned retryable nack" true in
    ret (if String.eqb (aq_command q) "msg_dispatch_retry_then_ack" && Z.eqb attempt 1 then retryable_nack
         else if String.eqb (aq_command q) "msg_dispatch_reject" then
           receipt "nack" "acp_contract_rejected" "ACP contract rejected communication payload" false
         else if String.eqb (aq_command q) "msg_dispatch_retryable_nack" then retryable_nack
         else if String.eqb (aq_command q) "msg_dispatch_nack" then
           receipt "nack" "acp_delivery_nack" "ACP transport returned nack" false
         else receipt "ack" "acp_delivery_acked"
                ("ACP delivery acknowledged via " +:+ aq_route_key q) false).
