(* ===== verification/CommFacts.v ===== *)
(** What communication delivery guarantees: bounded attempts, one result per
    delivery key, and what a repeated dispatch meets. *)

From S2P Require Import Prelude PyStr PyData LlmSchemas Task Budget LoopControl Policy Runtime CommStore CommDelivery.

Section facts.
Context {E : Type} `{!Oracle E} `{!AuditWriter E} `{!MetricRecorder E} `{!AcpClient E}.
Context (max_attempts base_backoff max_backoff : Z).
Context (json_text : json -> string) (sha256 : string -> string).

#[local] Abbreviation publish_with := (publish max_attempts base_backoff max_backoff json_text sha256).
#[local] Abbreviation loop := (publish_loop max_attempts base_backoff max_backoff).

(** * What an attempt leaves alone *)

Definition keeps_books (g g' : gateway E) : Prop :=
  gw_store g' = gw_store g /\ gw_dead_letters g' = gw_dead_letters g.

#[local] Instance keeps_books_preorder : PreOrder keeps_books.
Proof. split; [by intros g | intros a b c [] []; split; congruence]. Qed.

Lemma keeps_on_world {A} (m : M E A) : tracks keeps_books (on_world m).
Proof. intros g. unfold on_world, zoom. by destruct (m (gw_ext g)). Qed.

Lemma keeps_set_ledger f : tracks keeps_books (modify (fun g : gateway E => set_ledger (f g) g)).
Proof. intros g. done. Qed.

Lemma keeps_set_by_task f : tracks keeps_books (modify (fun g : gateway E => set_by_task (f g) g)).
Proof. intros g. done. Qed.

Ltac keeps_auto :=
  repeat first [tracks_step | apply keeps_on_world | apply keeps_set_ledger | apply keeps_set_by_task
               | apply tracks_gets | apply tracks_of_outcome].

Lemma keeps_require lid : tracks keeps_books (_require_record lid).
Proof. unfold _require_record. keeps_auto. Qed.
#[local] Hint Resolve keeps_on_world keeps_set_ledger keeps_require : tracks.

Lemma keeps_store_record lid r : tracks keeps_books (store_record (E:=E) lid r).
Proof. unfold store_record. keeps_auto. Qed.
#[local] Hint Resolve keeps_store_record : tracks.

Lemma keeps_begin p n : tracks keeps_books (begin_dispatch p n).
Proof. unfold begin_dispatch, new_uuid, clock. cbv zeta. keeps_auto. Qed.
#[local] Hint Resolve keeps_begin : tracks.

Lemma keeps_sent lid d v : tracks keeps_books (mark_sent lid d v).
Proof. unfold mark_sent, clock. keeps_auto. Qed.
#[local] Hint Resolve keeps_sent : tracks.

Lemma keeps_acked lid c m : tracks keeps_books (mark_acked lid c m).
Proof. unfold mark_acked, clock. keeps_auto. Qed.
#[local] Hint Resolve keeps_acked : tracks.

Lemma keeps_nacked lid c m b : tracks keeps_books (mark_nacked lid c m b).
Proof. unfold mark_nacked, clock. keeps_auto. Qed.
#[local] Hint Resolve keeps_nacked : tracks.

Lemma keeps_ack lid r : tracks keeps_books (handle_ack lid r).
Proof. unfold handle_ack. keeps_auto. Qed.
#[local] Hint Resolve keeps_ack : tracks.

Lemma keeps_try_send p : tracks keeps_books (try_send p).
Proof.
  intros g. unfold try_send. pose proof (keeps_on_world (acp_send (send_request p)) g) as H.
  destruct (on_world _ g) as [[r | []] g']; exact H.
Qed.
#[local] Hint Resolve keeps_try_send : tracks.

Lemma keeps_attempt p n : tracks keeps_books (attempt_delivery p n).
Proof.
  unfold attempt_delivery.
  keeps_auto.
Qed.

(** A dead letter adds itself and nothing else. *)
Lemma dead_letter_spec p code message n lid g :
  gw_store (write_dead_letter p code message n lid g).2 = gw_store g /\
  exists d, dl_error_code d = code /\ dl_attempts d = n /\ dl_task_id d = pb_task_id p /\
    gw_dead_letters (write_dead_letter p code message n lid g).2 = gw_dead_letters g ++ [d] /\
    forall r, (write_dead_letter p code message n lid g).1 = Ret r -> r = d.
Proof.
  unfold write_dead_letter, new_uuid, clock, on_world, zoom, bind, modify, ret.
  destruct (uuid4 (gw_ext g)) as [u e1]. cbn [gw_ext gw_ledger gw_by_task gw_store gw_dead_letters fst snd].
  destruct (utcnow e1) as [t e2]. cbn [gw_ext gw_ledger gw_by_task gw_store gw_dead_letters fst snd].
  destruct (write_event _ _) as [[[] | x] e3]; cbn [gw_ext gw_ledger gw_by_task gw_store gw_dead_letters fst snd];
    (split; [done |]); eexists; (split; [| split; [| split; [| split; [reflexivity |]]]]); try done;
    by intros r [= <-].
Qed.

(** ** The record of a key *)

Definition has_record (key : string) (st : string) (h : string) (n : Z) (g : gateway E) : Prop :=
  exists r, gw_store g !! store_key key = Some r /\ ci_status r = st /\ ci_payload_hash r = h /\
    ci_attempt_count r = n.

Lemma increment_spec key st h n g :
  has_record key st h n g ->
  exists g', increment_attempt key g = (Ret tt, g') /\ has_record key st h (n + 1) g' /\
    gw_dead_letters g' = gw_dead_letters g.
Proof.
  intros (r & Hr & Hs & Hh & Hn). unfold increment_attempt, bind, gets. rewrite Hr.
  unfold clock, on_world, zoom, modify. destruct (utcnow (gw_ext g)) as [t e].
  eexists. split; [done |]. split; [| done]. eexists. cbn. rewrite lookup_insert_eq.
  split; [done |]. cbn. split_and!; congruence.
Qed.

Lemma complete_spec key st h n g result :
  has_record key st h n g ->
  exists g', delivery_complete key result g = (Ret tt, g') /\
    (exists r, gw_store g' !! store_key key = Some r /\ ci_status r = "completed" /\ ci_payload_hash r = h /\
       ci_attempt_count r = n /\ ci_result r = Some result) /\
    gw_dead_letters g' = gw_dead_letters g.
Proof.
  intros (r & Hr & Hs & Hh & Hn). unfold delivery_complete, bind, gets. rewrite Hr.
  unfold clock, on_world, zoom, modify. destruct (utcnow (gw_ext g)) as [t e].
  eexists. split; [done |]. split; [| done]. eexists. cbn. rewrite lookup_insert_eq. done.
Qed.

Lemma has_record_keeps key st h n g g' : keeps_books g g' -> has_record key st h n g -> has_record key st h n g'.
Proof. intros [Hs _] (r & Hr & H). exists r. by rewrite Hs. Qed.

(** ** The loop *)

Lemma schedule_cases attempt code retryable :
  let d := schedule_next max_attempts base_backoff max_backoff attempt code retryable in
  (rd_retry d = true /\ rd_next_attempt d = (attempt + 1)%Z /\ (attempt < max_attempts)%Z /\ retryable = true) \/
  (rd_retry d = false /\ rd_reason_code d = "communication_retry_not_allowed" /\ retryable = false) \/
  (rd_retry d = false /\ rd_reason_code d = "communication_retry_exhausted" /\ (max_attempts <= attempt)%Z /\
   retryable = true).
Proof.
  cbv zeta. unfold schedule_next. destruct retryable; cbn [negb]; [| right; by left].
  destruct (Z.leb_spec max_attempts attempt); [right; by right | left]. cbn. split_and!; [done.. | lia | done].
Qed.

(** How a delivery ends, as its receipt, attempts and dead letters say. *)
Definition delivery_end (p : PublishRequest) (g g' : gateway E) (n : Z) (r : PublishReceipt) : Prop :=
  (gw_dead_letters g' = gw_dead_letters g /\ (pr_accepted r = true \/ pr_retryable r = false)) \/
  (n = Z.max 1 max_attempts /\ pr_accepted r = false /\ pr_error_code r = Some "communication_retry_exhausted" /\
   exists d, gw_dead_letters g' = gw_dead_letters g ++ [d] /\ dl_attempts d = n /\
     dl_task_id d = pb_task_id p /\ pr_dead_letter_id r = Some (dl_dead_letter_id d)).

Lemma settle_spec p attempt r d g :
  pr_accepted r = false ->
  (rd_reason_code d = "communication_retry_not_allowed" /\ pr_retryable r = false) \/
  (rd_reason_code d = "communication_retry_exhausted" /\ attempt = Z.max 1 max_attempts) ->
  gw_store (settle_failure p attempt r d g).2 = gw_store g /\
  forall x, (settle_failure p attempt r d g).1 = Ret x ->
    delivery_end p g (settle_failure p attempt r d g).2 attempt x.
Proof.
  intros Hacc Hd. unfold settle_failure. destruct Hd as [[Hc Hr] | [Hc Hn]]; rewrite Hc.
  - cbn [String.eqb Ascii.eqb Bool.eqb]. split; [done |]. intros x [= <-]. left. split; [done | by right].
  - cbn [String.eqb Ascii.eqb Bool.eqb]. set (message := _ +:+ _).
    destruct (dead_letter_spec p "communication_retry_exhausted" message attempt (pr_ledger_id r) g)
      as (Hs & dead & H1 & H2 & H3 & H4 & H5). unfold bind.
    destruct (write_dead_letter _ _ _ _ _ g) as [[w | x] g']; cbn [fst snd] in *; (split; [done |]); [| done].
    intros x [= <-]. rewrite (H5 w eq_refl) in *. right. split; [done |]. split; [done |]. split; [done |].
    by exists dead.
Qed.

Lemma loop_spec fuel p key h attempt g :
  (Z.to_nat (max_attempts - attempt) <= fuel)%nat -> (1 <= attempt <= Z.max 1 max_attempts)%Z ->
  has_record key "in_progress" h (attempt - 1) g ->
  match loop fuel p key attempt g with
  | (Ret r, g') =>
      exists n rec, (1 <= n <= Z.max 1 max_attempts)%Z /\ delivery_end p g g' n r /\
        gw_store g' !! store_key key = Some rec /\ ci_status rec = "completed" /\ ci_payload_hash rec = h /\
        ci_attempt_count rec = n /\ ci_result rec = Some (_receipt_result_payload r n)
  | (Raise _, g') => exists n, has_record key "in_progress" h n g'
  end.
Proof.
  revert attempt g. induction fuel as [| fuel IH]; intros attempt g Hfuel Hatt Hrec.
  all: cbn [publish_loop]; unfold bind at 1.
  all: destruct (increment_spec _ _ _ _ _ Hrec) as (g1 & -> & Hrec1 & Hd1).
  all: replace (attempt - 1 + 1)%Z with attempt in Hrec1 by lia.
  all: unfold bind at 1; pose proof (keeps_attempt p attempt g1) as Hk.
  all: destruct (attempt_delivery p attempt g1) as [[r | x] g2]; cbn [snd] in Hk;
    [| exists attempt; by apply (has_record_keeps _ _ _ _ _ _ Hk)].
  all: pose proof (has_record_keeps _ _ _ _ _ _ Hk Hrec1) as Hrec2; destruct Hk as [_ Hd2].
  all: destruct (pr_accepted r) eqn:Hacc.
  1, 3: unfold bind; destruct (complete_spec key _ _ _ _ (_receipt_result_payload r attempt) Hrec2)
      as (g3 & -> & (rec & ? & ? & ? & ? & ?) & Hd3);
    exists attempt, rec; split; [done |]; split; [left; split; [congruence | by left] | done].
  all: cbv zeta; destruct (schedule_cases attempt (opt_or (pr_error_code r) "communication_delivery_failed")
    (pr_retryable r)) as [(Hr & Hn & Hlt & _) | Hstop].
  1: exfalso; lia.
  2: { rewrite Hr, Hn. specialize (IH (attempt + 1)%Z g2).
       assert (delivery_end_mono : forall g' n x, delivery_end p g2 g' n x -> delivery_end p g g' n x).
       { unfold delivery_end. rewrite Hd2, Hd1. auto. }
       destruct (loop fuel p key (attempt + 1) g2) as [[x | x] g'].
       - destruct IH as (n & rec & ? & ? & ?); [lia | lia | by replace (attempt + 1 - 1)%Z with attempt by lia |].
         exists n, rec. auto.
       - apply IH; [lia | lia | by replace (attempt + 1 - 1)%Z with attempt by lia]. }
  all: set (d := schedule_next _ _ _ _ _ _) in *.
  all: assert (rd_retry d = false) as -> by (destruct Hstop as [(? & _) | (? & _)]; done).
  all: destruct (settle_spec p attempt r d g2 Hacc) as [Hs Hend];
    [destruct Hstop as [(_ & ? & ?) | (_ & ? & ? & _)]; [by left | right; split; [done | lia]] |].
  all: unfold bind; destruct (settle_failure p attempt r d g2) as [[x | x] g3]; cbn [fst snd] in *;
    [| exists attempt; destruct Hrec2 as (rec & ? & ?); exists rec; by rewrite Hs].
  all: assert (has_record key "in_progress" h attempt g3) as Hrec3
    by (destruct Hrec2 as (rec & ? & ?); exists rec; by rewrite Hs).
  all: destruct (complete_spec key _ _ _ _ (_receipt_result_payload x attempt) Hrec3)
      as (g4 & -> & (rec & ? & ? & ? & ? & ?) & Hd4).
  all: exists attempt, rec; split; [done |]; split; [| done].
  all: specialize (Hend x eq_refl); unfold delivery_end in *; rewrite Hd4, <- Hd1, <- Hd2; exact Hend.
Qed.

(** Enough fuel is enough. *)
Lemma loop_fuel fuel extra p key attempt g :
  (Z.to_nat (max_attempts - attempt) <= fuel)%nat ->
  loop (fuel + extra) p key attempt g = loop fuel p key attempt g.
Proof.
  revert attempt g. induction fuel as [| fuel IH]; intros attempt g Hfuel.
  - destruct extra as [| extra]; [done |]. cbn [Nat.add publish_loop]. unfold bind.
    destruct (increment_attempt key g) as [[[] | x] g1]; [| done].
    destruct (attempt_delivery p attempt g1) as [[r | x] g2]; [| done].
    destruct (pr_accepted r); [done |]. cbv zeta.
    destruct (schedule_cases attempt (opt_or (pr_error_code r) "communication_delivery_failed")
      (pr_retryable r)) as [(_ & _ & ? & _) | [(-> & _) | (-> & _)]]; [lia | done | done].
  - cbn [Nat.add publish_loop]. unfold bind.
    destruct (increment_attempt key g) as [[[] | x] g1]; [| done].
    destruct (attempt_delivery p attempt g1) as [[r | x] g2]; [| done].
    destruct (pr_accepted r); [done |]. cbv zeta.
    destruct (schedule_cases attempt (opt_or (pr_error_code r) "communication_delivery_failed")
      (pr_retryable r)) as [(-> & -> & ? & _) | [(-> & _) | (-> & _)]]; [| done | done].
    apply IH. lia.
Qed.

(** ** The ledger *)

(** What one attempt adds to the ledger. *)
Definition attempt_record (p : PublishRequest) (attempt : Z) (x : string * CommunicationMessageRecord) : Prop :=
  cm_ledger_id x.2 = x.1 /\ cm_attempt x.2 = attempt /\ cm_task_id x.2 = pb_task_id p /\
  cm_message_id x.2 = pb_message_id p /\
  ((cm_state x.2 = "nacked" /\ map ct_state (cm_transitions x.2) = ["prepared"; "nacked"]) \/
   (cm_state x.2 = "nacked" /\ map ct_state (cm_transitions x.2) = ["prepared"; "sent"; "nacked"]) \/
   (cm_state x.2 = "acked" /\ map ct_state (cm_transitions x.2) = ["prepared"; "sent"; "acked"])).

(** The ledger and its index by task after the records of [l] were filed. *)
Definition filed (p : PublishRequest) (l : list (string * CommunicationMessageRecord)) (g g' : gateway E) : Prop :=
  gw_ledger g' = foldl (fun m x => <[x.1 := x.2]> m) (gw_ledger g) l /\
  default [] (gw_by_task g' !! pb_task_id p) = default [] (gw_by_task g !! pb_task_id p) ++ l.*1 /\
  forall task, task <> pb_task_id p -> gw_by_task g' !! task = gw_by_task g !! task.

Lemma filed_nil p g g' : gw_ledger g' = gw_ledger g -> gw_by_task g' = gw_by_task g -> filed p [] g g'.
Proof. intros H1 H2. unfold filed. rewrite H1, H2. cbn. by rewrite app_nil_r. Qed.

Lemma filed_app p l l' g g' g'' : filed p l g g' -> filed p l' g' g'' -> filed p (l ++ l') g g''.
Proof.
  intros (H1 & H2 & H3) (K1 & K2 & K3). split; [by rewrite foldl_app, <- H1 |]. split.
  - by rewrite K2, H2, fmap_app, app_assoc.
  - intros task Hne. by rewrite K3, H3.
Qed.

Lemma filed_same p l g0 g g' g1 :
  filed p l g g' -> gw_ledger g = gw_ledger g0 -> gw_by_task g = gw_by_task g0 ->
  gw_ledger g1 = gw_ledger g' -> gw_by_task g1 = gw_by_task g' -> filed p l g0 g1.
Proof. unfold filed. intros H H1 H2 H3 H4. by rewrite H3, H4, <- H1, <- H2. Qed.

(** A ledger record moved on to [state]. *)
Definition moved (lid state : string) (r0 r : CommunicationMessageRecord) (g g' : gateway E) : Prop :=
  (cm_ledger_id r = cm_ledger_id r0 /\ cm_attempt r = cm_attempt r0 /\ cm_task_id r = cm_task_id r0 /\
   cm_message_id r = cm_message_id r0) /\
  cm_state r = state /\ map ct_state (cm_transitions r) = map ct_state (cm_transitions r0) ++ [state] /\
  gw_ledger g' = <[lid := r]> (gw_ledger g) /\ gw_by_task g' = gw_by_task g.

(** The three marks on a record they may apply to. *)
Ltac mark_auto Hr Hs :=
  unfold mark_sent, mark_acked, mark_nacked, _require_record, bind, gets, of_outcome, ret;
  rewrite Hr; cbv beta iota; rewrite Hs;
  unfold assert_ledger_transition; cbn [ledger_transitions String.eqb Ascii.eqb Bool.eqb mem existsb orb];
  unfold clock, on_world, zoom;
  match goal with |- context [utcnow ?e] => destruct (utcnow e) end;
  unfold store_record, bind, modify, ret; eexists _, _; split; [reflexivity |];
  split_and!; [cbn; rewrite ?map_app; reflexivity..].

Lemma mark_sent_spec lid d v r0 g :
  gw_ledger g !! lid = Some r0 -> cm_state r0 = "prepared" ->
  exists r g', mark_sent lid d v g = (Ret r, g') /\ moved lid "sent" r0 r g g'.
Proof. intros Hr Hs. mark_auto Hr Hs. Qed.

Lemma mark_acked_spec lid c m r0 g :
  gw_ledger g !! lid = Some r0 -> cm_state r0 = "sent" ->
  exists r g', mark_acked lid c m g = (Ret r, g') /\ moved lid "acked" r0 r g g'.
Proof. intros Hr Hs. mark_auto Hr Hs. Qed.

Lemma mark_nacked_spec lid c m b r0 g :
  gw_ledger g !! lid = Some r0 -> cm_state r0 = "prepared" \/ cm_state r0 = "sent" ->
  exists r g', mark_nacked lid c m b g = (Ret r, g') /\ moved lid "nacked" r0 r g g'.
Proof. intros Hr [Hs | Hs]; mark_auto Hr Hs. Qed.

Lemma begin_dispatch_spec p n g :
  exists r g', begin_dispatch p n g = (Ret r, g') /\ filed p [(cm_ledger_id r, r)] g g' /\
    cm_attempt r = n /\ cm_task_id r = pb_task_id p /\ cm_message_id r = pb_message_id p /\
    cm_state r = "prepared" /\ map ct_state (cm_transitions r) = ["prepared"].
Proof.
  unfold begin_dispatch, new_uuid, clock, on_world, zoom, bind, modify, ret.
  destruct (uuid4 (gw_ext g)) as [u e1]. cbn [gw_ext]. destruct (utcnow e1) as [t e2].
  eexists _, _. split; [reflexivity |]. split; [| done]. split; [done |]. cbn. split; [by rewrite lookup_insert_eq |].
  intros task Hne. by rewrite lookup_insert_ne by congruence.
Qed.

(** Moving the record just filed files the moved record instead. *)
Lemma filed_moved p lid st r0 r g g1 g2 g3 :
  filed p [(lid, r0)] g g1 -> gw_ledger g2 = gw_ledger g1 -> gw_by_task g2 = gw_by_task g1 ->
  moved lid st r0 r g2 g3 -> filed p [(lid, r)] g g3.
Proof.
  intros (H1 & H2 & H3) Hl Hb (_ & _ & _ & K1 & K2). unfold filed. rewrite K1, K2, Hl, Hb, H1.
  cbn in *. by rewrite insert_insert_eq.
Qed.

Lemma filed_lookup p lid r0 g g1 : filed p [(lid, r0)] g g1 -> gw_ledger g1 !! lid = Some r0.
Proof. intros (-> & _). cbn. by rewrite lookup_insert_eq. Qed.

Lemma ledger_on_world {A} (m : M E A) g :
  gw_ledger (on_world m g).2 = gw_ledger g /\ gw_by_task (on_world m g).2 = gw_by_task g.
Proof. unfold on_world, zoom. by destruct (m (gw_ext g)). Qed.

Lemma try_send_cases p g :
  exists g', gw_ledger g' = gw_ledger g /\ gw_by_task g' = gw_by_task g /\
    ((exists a, try_send p g = (Ret (Ret a), g')) \/
     (exists c m b, try_send p g = (Ret (Raise (AcpClientError c m b)), g')) \/
     (exists x, try_send p g = (Raise x, g'))).
Proof.
  exists (on_world (acp_send (send_request p)) g).2.
  destruct (ledger_on_world (acp_send (send_request p)) g) as [-> ->]. split; [done |]. split; [done |].
  unfold try_send. destruct (on_world _ g) as [[a | x] g']; [left; by eexists |].
  destruct x; first [right; left; by eexists _, _, _ | right; right; by eexists].
Qed.

Lemma attempt_files p n g r g' :
  attempt_delivery p n g = (Ret r, g') ->
  exists x, attempt_record p n x /\ filed p [x] g g' /\ pr_ledger_id r = Some x.1 /\
    (pr_accepted r = true <-> cm_state x.2 = "acked").
Proof.
  unfold attempt_delivery, bind.
  destruct (begin_dispatch_spec p n g) as (r0 & g1 & -> & Hf & Hn & Ht & Hm & Hs & Htr).
  destruct (try_send_cases p g1) as (g2 & Hl & Hb & [[a ->] | [(c & m & b & ->) | [x ->]]]); [| | done].
  all: assert (gw_ledger g2 !! cm_ledger_id r0 = Some r0) as Hr0 by (rewrite Hl; by eapply filed_lookup).
  - destruct (mark_sent_spec (cm_ledger_id r0) (as_dispatch_id a) (as_delivery_id a) r0 g2 Hr0 Hs)
      as (r1 & g3 & -> & Hmv). pose proof (filed_moved _ _ _ _ _ _ _ _ _ Hf Hl Hb Hmv) as Hf1.
    destruct Hmv as ((I1 & I2 & I3 & I4) & Hs1 & Htr1 & _). pose proof (filed_lookup _ _ _ _ _ Hf1) as Hr1.
    unfold handle_ack, bind. destruct (String.eqb (as_status a) "ack").
    + destruct (mark_acked_spec (cm_ledger_id r0) (as_code a) (as_message a) r1 g3 Hr1 Hs1)
        as (r2 & g4 & -> & Hmv).
      pose proof (filed_moved _ _ _ _ _ _ _ _ _ Hf1 eq_refl eq_refl Hmv) as Hf2.
      destruct Hmv as ((J1 & J2 & J3 & J4) & Hs2 & Htr2 & _). intros [= <- <-]. exists (cm_ledger_id r0, r2).
      split; [| by split; [| cbn; rewrite I1]]. rewrite Htr1, Htr in Htr2. unfold attempt_record; cbn.
      split_and!; [congruence.. | right; by right].
    + destruct (mark_nacked_spec (cm_ledger_id r0) (as_code a) (as_message a) (as_retryable a) r1 g3 Hr1
        (or_intror Hs1)) as (r2 & g4 & -> & Hmv).
      pose proof (filed_moved _ _ _ _ _ _ _ _ _ Hf1 eq_refl eq_refl Hmv) as Hf2.
      destruct Hmv as ((J1 & J2 & J3 & J4) & Hs2 & Htr2 & _). intros [= <- <-]. exists (cm_ledger_id r0, r2).
      split; [| split; [done | cbn; rewrite I1, Hs2; by split; [| split]]].
      rewrite Htr1, Htr in Htr2. unfold attempt_record; cbn. split_and!; [congruence.. | right; by left].
  - destruct (mark_nacked_spec (cm_ledger_id r0) c m b r0 g2 Hr0 (or_introl Hs)) as (r1 & g3 & -> & Hmv).
    pose proof (filed_moved _ _ _ _ _ _ _ _ _ Hf Hl Hb Hmv) as Hf1.
    destruct Hmv as ((I1 & I2 & I3 & I4) & Hs1 & Htr1 & _). intros [= <- <-]. exists (cm_ledger_id r0, r1).
    split; [| split; [done | cbn; rewrite I1, Hs1; by split; [| split]]].
    rewrite Htr in Htr1. unfold attempt_record; cbn. split_and!; [congruence.. | by left].
Qed.

(** ** Publication *)

#[local] Abbreviation fingerprint := (fingerprint_payload json_text sha256).

Lemma publish_new p g :
  gw_store g !! store_key (build_delivery_key p) = None ->
  exists g1, publish_with p g = loop (Z.to_nat (max_attempts - 1)) p (build_delivery_key p) 1 g1 /\
    has_record (build_delivery_key p) "in_progress" (fingerprint p) 0 g1 /\
    gw_dead_letters g1 = gw_dead_letters g.
Proof.
  intros Hn. unfold publish. cbv zeta. unfold bind at 1, delivery_claim, bind at 1, gets. rewrite Hn.
  unfold clock, on_world, zoom, bind, modify, ret. destruct (utcnow (gw_ext g)) as [t1 e1].
  cbn [gw_ext gw_ledger gw_by_task gw_store gw_dead_letters]. destruct (utcnow e1) as [t2 e2].
  cbn [gw_ext gw_ledger gw_by_task gw_store gw_dead_letters String.eqb Ascii.eqb Bool.eqb].
  eexists. split; [reflexivity |]. split; [| done]. eexists. cbn. rewrite lookup_insert_eq. done.
Qed.

(** A publication that meets a record. *)
Lemma publish_known p g rec :
  gw_store g !! store_key (build_delivery_key p) = Some rec ->
  publish_with p g =
  (Ret (if String.eqb (ci_status rec) "in_progress" then
          refused p "communication_idempotency_in_progress" "communication delivery already in progress" true
        else if negb (String.eqb (ci_payload_hash rec) (fingerprint p)) then
          refused p "communication_idempotency_conflict"
            "communication idempotency key reused with different payload" false
        else _cached_result_to_receipt (ci_result rec) (pb_route_key p)), g).
Proof.
  intros Hr. unfold publish. cbv zeta. unfold bind at 1, delivery_claim, bind at 1, gets. rewrite Hr.
  destruct (String.eqb (ci_status rec) "in_progress"); [done |]. by destruct (negb _).
Qed.

Lemma publish_ends p g :
  gw_store g !! store_key (build_delivery_key p) = None ->
  match publish_with p g with
  | (Ret r, g') =>
      exists n rec, (1 <= n <= Z.max 1 max_attempts)%Z /\ delivery_end p g g' n r /\
        gw_store g' !! store_key (build_delivery_key p) = Some rec /\ ci_status rec = "completed" /\
        ci_payload_hash rec = fingerprint p /\ ci_attempt_count rec = n /\
        ci_result rec = Some (_receipt_result_payload r n)
  | (Raise _, g') => exists n, has_record (build_delivery_key p) "in_progress" (fingerprint p) n g'
  end.
Proof.
  intros Hn. destruct (publish_new p g Hn) as (g1 & -> & Hrec & Hd).
  pose proof (loop_spec (Z.to_nat (max_attempts - 1)) p (build_delivery_key p) (fingerprint p) 1 g1
    ltac:(lia) ltac:(lia) Hrec) as H.
  destruct (loop _ p _ 1 g1) as [[r | x] g']; [| exact H].
  destruct H as (n & rec & Hn1 & Hend & H). exists n, rec. split; [done |]. split; [| done].
  unfold delivery_end in *. by rewrite <- Hd.
Qed.

(** The records of a whole delivery: one per attempt, every one but the last
    negatively acknowledged, the last one acknowledged when accepted. *)
Definition delivery_records (p : PublishRequest) (attempt : Z) (accepted : bool)
    (l : list (string * CommunicationMessageRecord)) : Prop :=
  (forall i x, l !! i = Some x -> attempt_record p (attempt + Z.of_nat i) x) /\
  exists init x, l = init ++ [x] /\ Forall (fun y => cm_state y.2 = "nacked") init /\
    cm_state x.2 = (if accepted then "acked" else "nacked").

Lemma delivery_records_one p n r x :
  attempt_record p n x -> (pr_accepted r = true <-> cm_state x.2 = "acked") ->
  delivery_records p n (pr_accepted r) [x].
Proof.
  intros Hx Hacc. split.
  - intros [| i] y; cbn; [intros [= <-]; by rewrite Z.add_0_r | done].
  - exists [], x. split; [done |]. split; [done |]. destruct (pr_accepted r); [by apply Hacc |].
    destruct Hx as (_ & _ & _ & _ & [[? _] | [[? _] | [? _]]]); [done | done |].
    by destruct Hacc as [_ Hacc]; specialize (Hacc ltac:(done)).
Qed.

Lemma delivery_records_cons p n b x l :
  attempt_record p n x -> cm_state x.2 = "nacked" -> delivery_records p (n + 1) b l ->
  delivery_records p n b (x :: l).
Proof.
  intros Hx Hn [Hl (init & y & -> & Hi & Hy)]. split.
  - intros [| i] z; cbn; [intros [= <-]; by rewrite Z.add_0_r |].
    intros Hz. specialize (Hl i z Hz). by replace (n + Z.of_nat (S i))%Z with (n + 1 + Z.of_nat i)%Z by lia.
  - exists (x :: init), y. split; [done |]. split; [by constructor | done].
Qed.

Lemma not_accepted_nacked p n x :
  attempt_record p n x -> (false = true <-> cm_state x.2 = "acked") -> cm_state x.2 = "nacked".
Proof.
  intros (_ & _ & _ & _ & [[? _] | [[? _] | [? _]]]) [_ Hacc]; [done | done |].
  discriminate (Hacc ltac:(done)).
Qed.

Definition same_ledger (g g' : gateway E) : Prop :=
  gw_ledger g' = gw_ledger g /\ gw_by_task g' = gw_by_task g.

Lemma same_ledger_increment key g : same_ledger g (increment_attempt key g).2.
Proof.
  unfold increment_attempt, bind, gets, clock, on_world, zoom, modify, ret.
  destruct (gw_store g !! store_key key); [| done]. by destruct (utcnow (gw_ext g)).
Qed.

Lemma same_ledger_complete key result g : same_ledger g (delivery_complete key result g).2.
Proof.
  unfold delivery_complete, bind, gets, clock, on_world, zoom, modify, ret.
  destruct (gw_store g !! store_key key); [| done]. by destruct (utcnow (gw_ext g)).
Qed.

Lemma same_ledger_settle p n r d g : same_ledger g (settle_failure p n r d g).2.
Proof.
  unfold settle_failure. destruct (String.eqb _ _); [| done]. set (message := _ +:+ _).
  unfold write_dead_letter, new_uuid, clock, on_world, zoom, bind, modify, ret.
  destruct (uuid4 (gw_ext g)) as [u e1]. cbn [gw_ext gw_ledger gw_by_task gw_store gw_dead_letters fst snd].
  destruct (utcnow e1) as [t e2]. cbn [gw_ext gw_ledger gw_by_task gw_store gw_dead_letters fst snd].
  by destruct (write_event _ _) as [[[] | x] e3].
Qed.

Lemma settle_keeps_refusal p n r d g x g' :
  settle_failure p n r d g = (Ret x, g') -> pr_accepted r = false -> pr_accepted x = false.
Proof.
  unfold settle_failure. destruct (String.eqb _ _); [| by intros [= <- _]]. set (message := _ +:+ _).
  unfold bind. destruct (write_dead_letter _ _ _ _ _ g) as [[w | y] g1]; [| done]. by intros [= <- _].
Qed.

Lemma loop_files fuel p key attempt g r g' :
  loop fuel p key attempt g = (Ret r, g') ->
  exists l, delivery_records p attempt (pr_accepted r) l /\ filed p l g g'.
Proof.
  revert attempt g. induction fuel as [| fuel IH]; intros attempt g.
  all: cbn [publish_loop]; unfold bind at 1; pose proof (same_ledger_increment key g) as [H1 H2].
  all: destruct (increment_attempt key g) as [[[] | y] g1]; [| done]; cbn [snd] in *.
  all: unfold bind at 1; destruct (attempt_delivery p attempt g1) as [[r1 | y] g2] eqn:Hatt; [| done].
  all: destruct (attempt_files _ _ _ _ _ Hatt) as (x & Hx & Hf & _ & Hacc).
  all: apply (filed_same p _ g _ _ g2) in Hf; [| done..].
  all: pose proof (delivery_records_one _ _ _ _ Hx Hacc) as Hone.
  all: destruct (pr_accepted r1) eqn:Hb.
  1, 3: unfold bind; pose proof (same_ledger_complete key (_receipt_result_payload r1 attempt) g2) as [K1 K2];
    destruct (delivery_complete _ _ g2) as [[[] | y] g3]; [| done]; intros [= <- <-]; cbn [snd] in *;
    exists [x]; rewrite Hb; split; [done | by apply (filed_same p _ g g g2)].
  all: cbv zeta; set (d := schedule_next _ _ _ _ _ _); destruct (rd_retry d) eqn:Hr; [try done |].
  2: { assert (rd_next_attempt d = attempt + 1)%Z as ->.
       { subst d. destruct (schedule_cases attempt (opt_or (pr_error_code r1) "communication_delivery_failed")
           (pr_retryable r1)) as [(_ & ? & _) | [(Hn & _) | (Hn & _)]]; [done | congruence..]. }
       intros Hloop. destruct (IH _ _ Hloop) as (l & Hl & Hfl). exists (x :: l). split.
       - apply delivery_records_cons; [done | by eapply not_accepted_nacked | done].
       - by apply (filed_app p [x] l g g2). }
  all: unfold bind at 1; pose proof (same_ledger_settle p attempt r1 d g2) as [K1 K2].
  all: destruct (settle_failure p attempt r1 d g2) as [[z | y] g3] eqn:Hset; [| done]; cbn [snd] in *.
  all: pose proof (same_ledger_complete key (_receipt_result_payload z attempt) g3) as [J1 J2].
  all: unfold bind; destruct (delivery_complete _ _ g3) as [[[] | y] g4]; [| done]; intros [= <- <-]; cbn [snd] in *.
  all: exists [x]; rewrite (settle_keeps_refusal _ _ _ _ _ _ _ Hset Hb); split; [done |].
  all: apply (filed_same p _ g g g2); [done | done | done | congruence..].
Qed.

Lemma publish_new_ledger p g :
  gw_store g !! store_key (build_delivery_key p) = None ->
  exists g1, publish_with p g = loop (Z.to_nat (max_attempts - 1)) p (build_delivery_key p) 1 g1 /\
    same_ledger g g1.
Proof.
  intros Hn. unfold publish. cbv zeta. unfold bind at 1, delivery_claim, bind at 1, gets. rewrite Hn.
  unfold clock, on_world, zoom, bind, modify, ret. destruct (utcnow (gw_ext g)) as [t1 e1].
  cbn [gw_ext gw_ledger gw_by_task gw_store gw_dead_letters]. destruct (utcnow e1) as [t2 e2].
  cbn [gw_ext gw_ledger gw_by_task gw_store gw_dead_letters String.eqb Ascii.eqb Bool.eqb].
  eexists. split; [reflexivity | done].
Qed.

(** * Theorems *)

(** The message ledger tells the story of a delivery.  A first publication
    that returns files exactly one ledger record per attempt, numbered from 1 in
    order and listed under the task.  Each record went from prepared to nacked,
    or through sent to acked or nacked; every attempt but the last was nacked,
    and the last one was acked exactly when the receipt says accepted.  No other
    task's list changes. *)
Theorem publish_fills_ledger p g r g' :
  gw_store g !! store_key (build_delivery_key p) = None -> publish_with p g = (Ret r, g') ->
  exists l, delivery_records p 1 (pr_accepted r) l /\ filed p l g g'.
Proof.
  intros Hn. destruct (publish_new_ledger p g Hn) as (g1 & -> & H1 & H2). intros Hr.
  destruct (loop_files _ _ _ _ _ _ _ Hr) as (l & Hl & Hf). exists l. split; [done |].
  by apply (filed_same p _ g g1 g').
Qed.

(** C40: a delivery makes a bounded number of attempts and ends in one way.  For
    every ACP client, audit store and clock, a first publication that returns has
    made between one and [max_attempts] attempts, and as many are counted on its
    completed record.  It leaves no dead letter and is accepted or refused as not
    retryable, or it used up all attempts and left exactly one dead letter, whose
    identifier and count the receipt and the letter carry.  The loop needs no
    more fuel than the attempts. *)
Theorem publish_bounded p g :
  gw_store g !! store_key (build_delivery_key p) = None ->
  (exists g1, forall extra,
     publish_with p g = loop (Z.to_nat (max_attempts - 1) + extra) p (build_delivery_key p) 1 g1) /\
  forall r g', publish_with p g = (Ret r, g') ->
    exists n rec, (1 <= n <= Z.max 1 max_attempts)%Z /\ delivery_end p g g' n r /\
      gw_store g' !! store_key (build_delivery_key p) = Some rec /\ ci_status rec = "completed" /\
      ci_attempt_count rec = n.
Proof.
  intros Hn. split.
  - destruct (publish_new p g Hn) as (g1 & Hp & _). exists g1. intros extra.
    rewrite Hp. symmetry. by apply loop_fuel.
  - intros r g' Hr. pose proof (publish_ends p g Hn) as H. rewrite Hr in H.
    destruct H as (n & rec & ? & ? & ? & ? & _ & ? & _). by exists n, rec.
Qed.

(** A finished delivery is remembered.  After a first publication that
    returned, publishing the same payload again answers the same receipt, up to
    identifiers that were empty strings, without sending, and publishing another
    payload under the same delivery key is refused as a conflict; neither changes
    anything. *)
Theorem publish_replays p g r g1 :
  gw_store g !! store_key (build_delivery_key p) = None -> publish_with p g = (Ret r, g1) ->
  publish_with p g1 =
    (Ret (mk_PublishReceipt (pr_accepted r) (text_column (pr_dispatch_id r)) (text_column (pr_error_code r))
            (pr_message r) (pr_retryable r) (pr_route_key r) (text_column (pr_ledger_id r))
            (text_column (pr_dead_letter_id r))), g1) /\
  forall q, build_delivery_key q = build_delivery_key p -> fingerprint q <> fingerprint p ->
    publish_with q g1 =
      (Ret (refused q "communication_idempotency_conflict"
              "communication idempotency key reused with different payload" false), g1).
Proof.
  intros Hn Hr. pose proof (publish_ends p g Hn) as H. rewrite Hr in H.
  destruct H as (n & rec & _ & _ & Hrec & Hst & Hh & _ & Hres). split.
  - rewrite (publish_known p g1 rec Hrec), Hst, Hh, String.eqb_refl, Hres.
    cbn [String.eqb Ascii.eqb Bool.eqb negb]. do 2 f_equal.
    unfold _cached_result_to_receipt, _receipt_result_payload. cbn.
    rewrite str_bool_inj_true, str_bool_lower_true. f_equal.
    all: match goal with |- or_none (opt_or ?x "") = text_column ?x => destruct x as [[] |]; reflexivity end.
  - intros q Hk Hf. rewrite <- Hk in Hrec. rewrite (publish_known q g1 rec Hrec), Hst.
    cbn [String.eqb Ascii.eqb Bool.eqb]. rewrite (proj2 (String.eqb_neq _ _)) by congruence. done.
Qed.

(** An unexpected error wedges the delivery key.  If a first publication
    raises (the ACP client raised something other than [AcpClientError], or the
    audit write of a dead letter failed), every later publication under that key
    is refused as already in progress, and reported as retryable. *)
Theorem error_wedges_delivery p g e g1 :
  gw_store g !! store_key (build_delivery_key p) = None -> publish_with p g = (Raise e, g1) ->
  forall q, build_delivery_key q = build_delivery_key p ->
    publish_with q g1 =
      (Ret (refused q "communication_idempotency_in_progress" "communication delivery already in progress"
              true), g1).
Proof.
  intros Hn Hr q Hk. pose proof (publish_ends p g Hn) as H. rewrite Hr in H.
  destruct H as (n & rec & Hrec & Hst & _). rewrite <- Hk in Hrec.
  by rewrite (publish_known q g1 rec Hrec), Hst.
Qed.

(** A repeated dispatch never reaches the delivery store.  Once the adapter
    has validated a request, dispatching the same request again is rejected as a
    duplicate message that may not be retried, whatever the first dispatch
    answered, also when it answered that the delivery may be retried. *)
Theorem redispatch_is_rejected q c c' x :
  on_ordering (E:=E) (validated_route q) c = (Ret x, c') ->
  let dispatch := local_communication_dispatch max_attempts base_backoff max_backoff json_text sha256 in
  let c1 := (dispatch q c).2 in
  dispatch q c1 =
    (Ret (rejected "a2a_duplicate_message_id" "duplicate message_id detected in communication stream"), c1).
Proof.
  intros Hv dispatch c1.
  assert (exists e, envelope_of_request q = Ret e /\
    en_message_id e ∈ default (∅ : gset string) (message_ids_by_stream (co_ordering c') !! _stream_key e))
    as (e & He & Hin).
  { revert Hv. unfold on_ordering, zoom, validated_route, bind, of_outcome.
    destruct (envelope_of_request q) as [e | y]; [| done].
    unfold validate_ordering, bind, get, modify. case_bool_decide; [done |]. cbv zeta.
    destruct (match _ with Some _ => _ | None => false end); [done |].
    destruct (resolve_acp_route e); [| done]. cbn [ret]. intros [= _ <-]. exists e. split; [done |].
    cbn. rewrite lookup_insert_eq. cbn. set_solver. }
  assert (co_ordering c1 = co_ordering c') as Hc.
  { subst c1 dispatch. unfold local_communication_dispatch. rewrite Hv. destruct x as [env route].
    unfold bind, on_gateway, zoom, ret. by destruct (publish _ _ _ _ _ _ _) as [[] ?]. }
  subst dispatch. unfold local_communication_dispatch at 1.
  assert (on_ordering (E:=E) (validated_route q) c1 =
    (Raise (OrderingValidationError "a2a_duplicate_message_id"
       "duplicate message_id detected in communication stream"), c1)) as ->; [| done].
  unfold on_ordering, zoom, validated_route, bind, of_outcome. rewrite He.
  unfold validate_ordering, bind, get. rewrite Hc, bool_decide_true by done. unfold raise.
  rewrite <- Hc. by destruct c1.
Qed.
End facts.

(** * Witnesses *)

#[local] Abbreviation local_world := (N * gmap string Z)%type.

#[local] Instance local_oracle : Oracle local_world := {
  uuid4 := fun e => ("u" +:+ pretty e.1, (N.succ e.1, e.2));
  utcnow := fun e => (mk_datetime 2026 3 24 12 0 0 0, e)
}.
#[local] Instance local_audit : AuditWriter local_world := { write_event := fun _ => ret tt }.
#[local] Instance local_metrics : MetricRecorder local_world := { increment_counter := fun _ _ e => e }.
#[local] Instance tick_oracle_N : Oracle N := {
  uuid4 := fun n => ("u" +:+ pretty n, N.succ n);
  utcnow := fun n => (mk_datetime 2026 3 24 12 0 0 0, n)
}.
#[local] Instance local_acp : AcpClient local_world := { acp_send := local_acp_send }.

Definition sample_gateway : gateway local_world := mk_gateway (0%N, ∅) ∅ ∅ ∅ [].

Definition sample_publish (cmd : string) : PublishRequest :=
  mk_PublishRequest "t-1" "tr-1" "owner-1" "key-00001" "m-1" "x-1" "internal" cmd "ceo" ["ceo"] None
    "internal_bus_message" "acp://internal/ceo".

#[local] Abbreviation sample_run cmd :=
  (publish 3 2 30 (fun _ => "doc") (fun s => s) (sample_publish cmd) sample_gateway).

Lemma publish_bounded_witness :
  exists n, (1 <= n <= 3)%Z /\
    match (sample_run "msg_dispatch_retryable_nack").1 with
    | Ret r => delivery_end 3 (sample_publish "msg_dispatch_retryable_nack") sample_gateway
                 (sample_run "msg_dispatch_retryable_nack").2 n r
    | Raise _ => False
    end.
Proof.
  destruct (publish_bounded 3 2 30 (fun _ => "doc") (fun s => s) (sample_publish "msg_dispatch_retryable_nack")
    sample_gateway (lookup_empty _)) as [_ H].
  destruct (sample_run "msg_dispatch_retryable_nack") as [[r | x] g'] eqn:Hr.
  - destruct (H r g' eq_refl) as (n & _ & Hn & Hend & _). exists n. split; [exact Hn | exact Hend].
  - exfalso. assert (match (sample_run "msg_dispatch_retryable_nack").1 with Ret _ => true | Raise _ => false end = true)
      as Hok by (vm_compute; reflexivity). rewrite Hr in Hok. discriminate Hok.
Defined.

Lemma publish_replays_witness :
  match (sample_run "msg_notify").1 with
  | Ret r => pr_accepted r = true /\
      (publish 3 2 30 (fun _ => "doc") (fun s => s) (sample_publish "msg_notify") (sample_run "msg_notify").2).1 =
      Ret (mk_PublishReceipt (pr_accepted r) (text_column (pr_dispatch_id r)) (text_column (pr_error_code r))
            (pr_message r) (pr_retryable r) (pr_route_key r) (text_column (pr_ledger_id r))
            (text_column (pr_dead_letter_id r)))
  | Raise _ => False
  end.
Proof.
  assert (match (sample_run "msg_notify").1 with Ret r => pr_accepted r | Raise _ => false end = true)
    as Hok by (vm_compute; reflexivity).
  destruct (sample_run "msg_notify") as [[r | x] g'] eqn:Hr; cbn [fst snd] in *; [| discriminate Hok].
  split; [exact Hok |].
  exact (f_equal fst (proj1 (publish_replays 3 2 30 (fun _ => "doc") (fun s => s) (sample_publish "msg_notify")
    sample_gateway r g' (lookup_empty _) Hr))).
Defined.

Lemma publish_fills_ledger_witness :
  match (sample_run "msg_dispatch_retry_then_ack") with
  | (Ret r, g') => pr_accepted r = true /\
      exists l, delivery_records (sample_publish "msg_dispatch_retry_then_ack") 1 (pr_accepted r) l /\
        filed (sample_publish "msg_dispatch_retry_then_ack") l sample_gateway g'
  | _ => False
  end.
Proof.
  assert (match (sample_run "msg_dispatch_retry_then_ack").1 with Ret r => pr_accepted r | Raise _ => false end = true)
    as Hok by (vm_compute; reflexivity).
  destruct (sample_run "msg_dispatch_retry_then_ack") as [[r | x] g'] eqn:Hr; cbn [fst] in Hok;
    [| discriminate Hok].
  split; [exact Hok |].
  exact (publish_fills_ledger 3 2 30 (fun _ => "doc") (fun s => s) (sample_publish "msg_dispatch_retry_then_ack")
    sample_gateway r g' (lookup_empty _) Hr).
Defined.

(** An ACP client whose transport fails with an error of its own. *)
Definition broken_acp : AcpClient local_world := {| acp_send := fun _ => raise (OtherError "connection reset") |}.

#[local] Abbreviation broken_run :=
  (publish (AcpClient0 := broken_acp) 3 2 30 (fun _ => "doc") (fun s => s) (sample_publish "msg_notify")
     sample_gateway).

Lemma error_wedges_delivery_witness :
  match broken_run with
  | (Raise _, g1) =>
      publish (AcpClient0 := broken_acp) 3 2 30 (fun _ => "doc") (fun s => s) (sample_publish "msg_notify") g1 =
      (Ret (refused (sample_publish "msg_notify") "communication_idempotency_in_progress"
              "communication delivery already in progress" true), g1)
  | (Ret _, _) => False
  end.
Proof.
  assert (match broken_run.1 with Ret _ => false | Raise _ => true end = true) as Hok by (vm_compute; reflexivity).
  destruct broken_run as [[r | x] g1] eqn:Hr; cbn [fst] in Hok; [discriminate Hok |].
  exact (error_wedges_delivery (AcpClient0 := broken_acp) 3 2 30 (fun _ => "doc") (fun s => s)
    (sample_publish "msg_notify") sample_gateway x g1 (lookup_empty _) Hr (sample_publish "msg_notify") eq_refl).
Defined.

Definition sample_dispatch_request : CommunicationDispatchRequest :=
  mk_CommunicationDispatchRequest "t-1" "tr-1" "owner-1" "internal" "msg_notify" "ceo" ["ceo"] "key-00001" None
    (mk_datetime 2026 3 24 12 0 0 0) [("message_id", "m-1"); ("external_message_id", "x-1")].

Definition sample_communication : communication (E := local_world) :=
  mk_communication (mk_ordering ∅ ∅) sample_gateway.

Lemma redispatch_is_rejected_witness :
  let dispatch := local_communication_dispatch 3 2 30 (fun _ => "doc") (fun s => s) sample_dispatch_request in
  (dispatch (dispatch sample_communication).2).1 =
  Ret (rejected "a2a_duplicate_message_id" "duplicate message_id detected in communication stream").
Proof.
  intros dispatch.
  assert (match (on_ordering (E := local_world) (validated_route sample_dispatch_request) sample_communication).1
          with Ret _ => true | Raise _ => false end = true) as Hok by (vm_compute; reflexivity).
  destruct (on_ordering (E := local_world) (validated_route sample_dispatch_request) sample_communication)
    as [[x | e] c'] eqn:Hv; cbn [fst] in Hok; [| discriminate Hok].
  exact (f_equal fst (redispatch_is_rejected 3 2 30 (fun _ => "doc") (fun s => s) sample_dispatch_request
    sample_communication c' x Hv)).
Defined.
