(* ===== verification/Callbacks.v ===== *)
(** Callbacks on delivery outcomes.

    Models [task_orchestrator/callbacks/delivery_events.py],
    [task_orchestrator/callbacks/sandbox_events.py] and
    [communication_gateway/callbacks/outcome_notifier.py]: the set of processed
    callback identifiers, the task update of an event, and the notifier that
    names callbacks.  [E] is the outside world. *)

From S2P Require Import Prelude PyStr PyData LlmSchemas Task Budget LoopControl Policy Runtime.

Definition IMMUTABLE_TASK_STATUSES : list string := ["completed"; "failed"; "cancelled"].

Record DeliveryCallbackEvent : Type := mk_DeliveryCallbackEvent {
  ev_callback_id : string;
  ev_task_id : string;
  ev_trace_id : string;
  ev_dispatch_target : string;
  ev_delivery_outcome : string;
  ev_message : string;
  ev_reason_code : option string;
  ev_dispatch_id : option string;
  ev_dead_letter_id : option string
}.

Record DeliveryCallbackResult : Type := mk_DeliveryCallbackResult {
  dc_applied : bool;
  dc_replayed : bool;
  dc_task_status : string;
  dc_message : string;
  dc_reason_code : option string
}.

Record CommunicationOutcomeNotification : Type := mk_CommunicationOutcomeNotification {
  no_task_id : string;
  no_trace_id : string;
  no_dispatch_target : string;
  no_delivery_outcome : string;
  no_message : string;
  no_callback_id : option string;
  no_reason_code : option string;
  no_dispatch_id : option string;
  no_dead_letter_id : option string
}.

Record SandboxCallbackEvent : Type := mk_SandboxCallbackEvent {
  sx_callback_id : string;
  sx_task_id : string;
  sx_trace_id : string;
  sx_outcome : string;
  sx_message : string;
  sx_reason_code : option string
}.

Record SandboxCallbackResult : Type := mk_SandboxCallbackResult {
  sr_applied : bool;
  sr_replayed : bool;
  sr_message : string
}.

Record callbacks (E : Type) : Type := mk_callbacks {
  cb_ext : E;
  cb_tasks : task_table;
  cb_processed : gset string
}.
Arguments mk_callbacks {E}.
Arguments cb_ext {E}.
Arguments cb_tasks {E}.
Arguments cb_processed {E}.

Section processor.
Context {E : Type} `{!Oracle E} `{!AuditWriter E} `{!MetricRecorder E}.

Definition cb_world {A} (m : M E A) : M (callbacks E) A :=
  zoom cb_ext (fun e c => mk_callbacks e (cb_tasks c) (cb_processed c)) m.
Definition cb_store {A} (m : M task_table A) : M (callbacks E) A :=
  zoom cb_tasks (fun t c => mk_callbacks (cb_ext c) t (cb_processed c)) m.

Definition mark_processed (callback_id : string) : M (callbacks E) unit :=
  modify (fun c => mk_callbacks (cb_ext c) (cb_tasks c) ({[callback_id]} ∪ cb_processed c)).

Definition count_callback (outcome_label replayed_label : string) : M (callbacks E) unit :=
  cb_world (modify (increment_counter "communication_callback_events_total"
    [("outcome", outcome_label); ("replayed", replayed_label)])).

Definition callback_details (task : TaskRecord) (e : DeliveryCallbackEvent) : list (string * string) :=
  [("callback_id", ev_callback_id e); ("delivery_outcome", ev_delivery_outcome e);
   ("dispatch_target", ev_dispatch_target e);
   ("dispatch_id", opt_or (ev_dispatch_id e) (opt_or (dispatch_id task) ""));
   ("dead_letter_id", opt_or (ev_dead_letter_id e) "");
   ("reason_code", opt_or (ev_reason_code e) ""); ("replayed", "false")].

(** The status and the columns of [_apply_task_update]; [x or y] of two
    optional strings. *)
Definition callback_update (task : TaskRecord) (e : DeliveryCallbackEvent) : string * task_outcome :=
  let details := Some (callback_details task e) in
  if String.eqb (ev_delivery_outcome e) "delivered" then
    ("dispatched",
     mk_task_outcome (Some "callback_communication_delivery") None (Some (ev_message e)) details
       (Some (ev_dispatch_target e))
       (match text_column (ev_dispatch_id e) with Some d => Some d | None => dispatch_id task end))
  else if String.eqb (ev_delivery_outcome e) "dead_lettered" then
    ("blocked",
     mk_task_outcome (Some "callback_communication_dead_letter")
       (Some (opt_or (ev_reason_code e) "communication_dead_lettered")) (Some (ev_message e)) details
       (Some (ev_dispatch_target e)) None)
  else
    ("blocked",
     mk_task_outcome (Some "callback_communication_nack")
       (Some (opt_or (ev_reason_code e) "communication_callback_nack")) (Some (ev_message e)) details
       (Some (ev_dispatch_target e)) None).

Definition _apply_task_update (task : TaskRecord) (e : DeliveryCallbackEvent) : M (callbacks E) TaskRecord :=
  let '(new_status, o) := callback_update task e in
  let! updated := cb_store (update_task_status (task_id task) new_status o) in
  match updated with
  | Some t => ret t
  | None => raise (RuntimeError ("callback update failed for task " +:+ task_id task))
  end.

Definition ignored_event (task : TaskRecord) (e : DeliveryCallbackEvent) : audit_event :=
  let fields := JObj [("callback_id", JStr (ev_callback_id e));
                      ("delivery_outcome", JStr (ev_delivery_outcome e));
                      ("current_status", JStr (status task))] in
  {| ae_event_type := "communication.callback.ignored_terminal"; ae_outcome := "ignored_terminal";
     ae_event_trace_id := ev_trace_id e; ae_event_request_id := Some (request_id task);
     ae_event_task_id := Some (task_id task); ae_event_principal_id := Some (principal_id task);
     ae_event_principal_role := Some (principal_role task); ae_source := "communication_callback";
     ae_reason_code := Some "callback_task_terminal_immutable";
     ae_message := "callback ignored because task is already terminal";
     ae_policy_version := None; ae_policy_hash := None; ae_rule_ids := [];
     ae_payload := fields; ae_attributes := fields |}.

Definition applied_event (task updated : TaskRecord) (e : DeliveryCallbackEvent) : audit_event :=
  {| ae_event_type := "communication.callback." +:+ ev_delivery_outcome e;
     ae_outcome := ev_delivery_outcome e;
     ae_event_trace_id := ev_trace_id e; ae_event_request_id := Some (request_id updated);
     ae_event_task_id := Some (task_id updated); ae_event_principal_id := Some (principal_id updated);
     ae_event_principal_role := Some (principal_role updated); ae_source := "communication_callback";
     ae_reason_code := ev_reason_code e; ae_message := ev_message e;
     ae_policy_version := None; ae_policy_hash := None; ae_rule_ids := [];
     ae_payload := JObj (map (fun kv => (kv.1, JStr kv.2)) (callback_details task e));
     ae_attributes := JObj [("callback_id", JStr (ev_callback_id e));
                            ("delivery_outcome", JStr (ev_delivery_outcome e));
                            ("dead_letter_id", JStr (opt_or (ev_dead_letter_id e) ""))] |}.

Definition process (e : DeliveryCallbackEvent) : M (callbacks E) DeliveryCallbackResult :=
  let! processed := gets cb_processed in
  if bool_decide (ev_callback_id e ∈ processed) then
    count_callback (ev_delivery_outcome e) "true" ;!
    ret (mk_DeliveryCallbackResult false true "unchanged" "callback event already processed" (ev_reason_code e))
  else
    let! found := cb_store (get_task_by_id (ev_task_id e)) in
    match found with
    | None =>
        count_callback "missing_task" "false" ;!
        ret (mk_DeliveryCallbackResult false false "missing" "callback task not found"
               (Some "callback_task_not_found"))
    | Some task =>
        if mem (status task) IMMUTABLE_TASK_STATUSES then
          mark_processed (ev_callback_id e) ;!
          count_callback (ev_delivery_outcome e) "false" ;!
          cb_world (write_event (ignored_event task e)) ;!
          ret (mk_DeliveryCallbackResult false false (status task)
                 "callback ignored for terminal task state" (Some "callback_task_terminal_immutable"))
        else
          let! updated := _apply_task_update task e in
          mark_processed (ev_callback_id e) ;!
          count_callback (ev_delivery_outcome e) "false" ;!
          cb_world (write_event (applied_event task updated e)) ;!
          ret (mk_DeliveryCallbackResult true false (status updated) (ev_message e) (ev_reason_code e))
    end.

(** ** The notifier *)

Definition _deterministic_callback_id (n : CommunicationOutcomeNotification) : M (callbacks E) string :=
  let prefix := "cb:" +:+ no_task_id n +:+ ":" +:+ no_delivery_outcome n +:+ ":" in
  let suffix := opt_or (no_dead_letter_id n) (opt_or (no_dispatch_id n) (opt_or (no_reason_code n) "")) in
  if truthy suffix then ret (prefix +:+ suffix)
  else
    let! u := cb_world (fun e => let '(u, e') := uuid4 e in (Ret u, e')) in
    ret (prefix +:+ u).

Definition notify_delivery_outcome (n : CommunicationOutcomeNotification)
    : M (callbacks E) DeliveryCallbackResult :=
  let! callback_id :=
    match text_column (no_callback_id n) with
    | Some c => ret c
    | None => _deterministic_callback_id n
    end in
  process (mk_DeliveryCallbackEvent callback_id (no_task_id n) (no_trace_id n) (no_dispatch_target n)
             (no_delivery_outcome n) (no_message n) (no_reason_code n) (no_dispatch_id n)
             (no_dead_letter_id n)).
End processor.

(** ** Sandbox callbacks *)

Definition sandbox_process (e : SandboxCallbackEvent) : M (gset string) SandboxCallbackResult :=
  let! processed := get in
  if bool_decide (sx_callback_id e ∈ processed) then
    ret (mk_SandboxCallbackResult false true "sandbox callback already processed")
  else
    modify (fun s => {[sx_callback_id e]} ∪ s) ;!
    ret (mk_SandboxCallbackResult true false (sx_message e)).

(** * Properties *)

Section facts.
Context {E : Type} `{!Oracle E} `{!AuditWriter E} `{!MetricRecorder E}.
Implicit Types (c : callbacks E) (e : DeliveryCallbackEvent).

(** The statuses in which an event of this outcome can be applied. *)
Definition callback_allowed (delivery_outcome current : string) : bool :=
  mem current (if String.eqb delivery_outcome "delivered" then ["authorized"; "dispatched"; "blocked"]
               else ["queued"; "authorized"; "dispatched"; "running"; "blocked"]).

Lemma callback_allowed_legal task e current :
  callback_allowed (ev_delivery_outcome e) current =
  (let st := (callback_update task e).1 in String.eqb current st || mem st (LEGAL_TRANSITIONS current)).
Proof.
  unfold callback_allowed, callback_update, LEGAL_TRANSITIONS.
  destruct (String.eqb (ev_delivery_outcome e) "delivered");
    [| destruct (String.eqb (ev_delivery_outcome e) "dead_lettered")].
  all: unfold mem; cbn [fst existsb].
  all: repeat match goal with |- context [String.eqb ?y ?x] => is_var y; destruct (String.eqb_spec y x) end.
  all: subst; done.
Qed.

Lemma tasks_cb_world {A} (m : M E A) c :
  cb_tasks (cb_world m c).2 = cb_tasks c /\ cb_processed (cb_world m c).2 = cb_processed c.
Proof. unfold cb_world, zoom. by destruct (m (cb_ext c)). Qed.

(** Counting and auditing answer or raise; they touch neither tasks nor identifiers. *)
Lemma report_spec outcome_label replayed_label event (result : DeliveryCallbackResult) c :
  let run := (count_callback outcome_label replayed_label ;! cb_world (write_event event) ;! ret result) c in
  cb_tasks run.2 = cb_tasks c /\ cb_processed run.2 = cb_processed c /\
  forall r, run.1 = Ret r -> r = result.
Proof.
  cbv zeta. unfold count_callback, cb_world, zoom, bind, modify, ret. cbn.
  destruct (write_event _ _) as [[[] | x] w]; cbn; split_and!; try done. by intros r [= <-].
Qed.

Lemma process_replay e c :
  ev_callback_id e ∈ cb_processed c ->
  exists c', process e c =
    (Ret (mk_DeliveryCallbackResult false true "unchanged" "callback event already processed"
            (ev_reason_code e)), c') /\
    cb_tasks c' = cb_tasks c /\ cb_processed c' = cb_processed c.
Proof.
  intros Hin. unfold process, bind, gets. rewrite bool_decide_true by done.
  unfold count_callback, cb_world, zoom, modify, ret. by eexists.
Qed.

(** The state after an event was recorded as processed. *)
Definition recorded e (tasks : task_table) c : callbacks E :=
  mk_callbacks (cb_ext c) tasks ({[ev_callback_id e]} ∪ cb_processed c).

Lemma process_terminal_eq e c row :
  ev_callback_id e ∉ cb_processed c -> cb_tasks c !! ev_task_id e = Some row ->
  mem (status row) IMMUTABLE_TASK_STATUSES = true ->
  process e c =
  (count_callback (ev_delivery_outcome e) "false" ;!
   cb_world (write_event (ignored_event (_task_from_row row) e)) ;!
   ret (mk_DeliveryCallbackResult false false (status row) "callback ignored for terminal task state"
          (Some "callback_task_terminal_immutable"))) (recorded e (cb_tasks c) c).
Proof.
  intros Hin Hrow Hterm. unfold process, bind at 1, gets. rewrite bool_decide_false by done.
  unfold bind at 1, cb_store, zoom, get_task_by_id, gets. rewrite Hrow. cbn [fmap option_fmap option_map].
  change (status (_task_from_row row)) with (status row). rewrite Hterm. done.
Qed.

Lemma process_live_eq e c row :
  ev_callback_id e ∉ cb_processed c -> cb_tasks c !! ev_task_id e = Some row -> task_id row = ev_task_id e ->
  mem (status row) IMMUTABLE_TASK_STATUSES = false ->
  let '(st, o) := callback_update (_task_from_row row) e in
  process e c =
  if callback_allowed (ev_delivery_outcome e) (status row) then
    (count_callback (ev_delivery_outcome e) "false" ;!
     cb_world (write_event (applied_event (_task_from_row row) (_task_from_row (apply_update st o row)) e)) ;!
     ret (mk_DeliveryCallbackResult true false st (ev_message e) (ev_reason_code e)))
      (recorded e (<[ev_task_id e := apply_update st o row]> (cb_tasks c)) c)
  else (Raise (InvalidStateTransitionError (status row) st), c).
Proof.
  intros Hin Hrow Hid Hlive. rewrite (callback_allowed_legal (_task_from_row row)). cbv zeta.
  set (task := _task_from_row row). destruct (callback_update task e) as [st o] eqn:Hu. cbn [fst].
  unfold process, bind at 1, gets. rewrite bool_decide_false by done.
  unfold bind at 1, cb_store at 1, zoom, get_task_by_id, gets. rewrite Hrow. cbn [fmap option_fmap option_map].
  change (_task_from_row row) with task. change (status task) with (status row). rewrite Hlive.
  unfold _apply_task_update. rewrite Hu. change (task_id task) with (task_id row). rewrite Hid.
  unfold bind at 1, bind at 1, cb_store, zoom. cbn [cb_tasks cb_ext cb_processed].
  rewrite update_task_status_spec, Hrow. destruct (_ || _); [done | by destruct c].
Qed.

(** The effect of an event on a task, branch by branch. *)
Definition callback_effect e row c : Prop :=
  let '(st, o) := callback_update (_task_from_row row) e in
  if mem (status row) IMMUTABLE_TASK_STATUSES then
    cb_tasks (process e c).2 = cb_tasks c /\
    cb_processed (process e c).2 = {[ev_callback_id e]} ∪ cb_processed c /\
    forall r, (process e c).1 = Ret r ->
      r = mk_DeliveryCallbackResult false false (status row) "callback ignored for terminal task state"
            (Some "callback_task_terminal_immutable")
  else if callback_allowed (ev_delivery_outcome e) (status row) then
    cb_tasks (process e c).2 = <[ev_task_id e := apply_update st o row]> (cb_tasks c) /\
    cb_processed (process e c).2 = {[ev_callback_id e]} ∪ cb_processed c /\
    forall r, (process e c).1 = Ret r ->
      r = mk_DeliveryCallbackResult true false st (ev_message e) (ev_reason_code e)
  else process e c = (Raise (InvalidStateTransitionError (status row) st), c).

Lemma process_effect e c row :
  ev_callback_id e ∉ cb_processed c -> cb_tasks c !! ev_task_id e = Some row -> task_id row = ev_task_id e ->
  callback_effect e row c.
Proof.
  intros Hin Hrow Hid. unfold callback_effect.
  pose proof (process_live_eq e c row Hin Hrow Hid) as Hlive.
  destruct (callback_update (_task_from_row row) e) as [st o].
  destruct (mem (status row) IMMUTABLE_TASK_STATUSES) eqn:Hm.
  - rewrite (process_terminal_eq e c row Hin Hrow Hm). exact (report_spec _ _ _ _ (recorded e (cb_tasks c) c)).
  - rewrite (Hlive eq_refl). destruct (callback_allowed _ _); [| done].
    exact (report_spec _ _ _ _ (recorded e (<[ev_task_id e := apply_update st o row]> (cb_tasks c)) c)).
Qed.

(** What a delivery callback does to its task.  A task that is completed,
    failed or cancelled is never changed.  A live task moves to dispatched on a
    delivery, which needs a task that is authorized, dispatched or blocked, and to
    blocked on a refusal or a dead letter, from every live status.  A delivery
    reported on a queued or running task raises, changes nothing and leaves the
    callback unprocessed, so that it raises again while the task stays there. *)
Theorem callback_exact e c row :
  ev_callback_id e ∉ cb_processed c -> cb_tasks c !! ev_task_id e = Some row -> task_id row = ev_task_id e ->
  callback_effect e row c.
Proof. apply process_effect. Qed.

(** A callback takes effect at most once.  Once the callback identifier of an
    event on a known task was recorded, which happens whether the task was updated
    or was already terminal, also when the audit write raised, every later event
    that carries this identifier is answered as a replay and changes no task,
    whatever its task and outcome. *)
Theorem callback_once e c row :
  ev_callback_id e ∉ cb_processed c -> cb_tasks c !! ev_task_id e = Some row -> task_id row = ev_task_id e ->
  (mem (status row) IMMUTABLE_TASK_STATUSES || callback_allowed (ev_delivery_outcome e) (status row)) = true ->
  forall e' c', ev_callback_id e' = ev_callback_id e -> cb_processed (process e c).2 ⊆ cb_processed c' ->
    exists c'', process e' c' =
      (Ret (mk_DeliveryCallbackResult false true "unchanged" "callback event already processed"
              (ev_reason_code e')), c'') /\
      cb_tasks c'' = cb_tasks c' /\ cb_processed c'' = cb_processed c'.
Proof.
  intros Hin Hrow Hid Hok e' c' He Hsub. pose proof (process_effect e c row Hin Hrow Hid) as H.
  apply process_replay, Hsub. unfold callback_effect in H.
  destruct (callback_update (_task_from_row row) e) as [st o].
  destruct (mem (status row) IMMUTABLE_TASK_STATUSES).
  - destruct H as (_ & -> & _). rewrite He. set_solver.
  - cbn [orb] in Hok. rewrite Hok in H. destruct H as (_ & -> & _). rewrite He. set_solver.
Qed.

(** A delivery after a refusal keeps the refusal's error code.  On a task that
    can be dispatched, a refusal callback followed by a delivery callback with
    another identifier ends in a dispatched task whose outcome source and message
    are the delivery's while its error code is still the refusal's. *)
Lemma delivered_keeps_error_code e1 e2 c row :
  cb_tasks c !! ev_task_id e1 = Some row -> task_id row = ev_task_id e1 -> ev_task_id e2 = ev_task_id e1 ->
  ev_callback_id e1 ∉ cb_processed c -> ev_callback_id e2 ∉ cb_processed c ->
  ev_callback_id e1 <> ev_callback_id e2 ->
  ev_delivery_outcome e1 = "nacked" -> ev_delivery_outcome e2 = "delivered" ->
  callback_allowed "nacked" (status row) = true ->
  exists row', cb_tasks (process e2 (process e1 c).2).2 !! ev_task_id e1 = Some row' /\
    status row' = "dispatched" /\ outcome_source row' = Some "callback_communication_delivery" /\
    outcome_message row' = Some (ev_message e2) /\
    outcome_error_code row' = Some (opt_or (ev_reason_code e1) "communication_callback_nack").
Proof.
  intros Hrow Hid Ht H1 H2 Hne Ho1 Ho2 Hallow.
  pose proof (process_effect e1 c row H1 Hrow Hid) as P1.
  assert (mem (status row) IMMUTABLE_TASK_STATUSES = false) as Hm.
  { apply mem_In in Hallow. cbn in Hallow. by destruct Hallow as [<- | [<- | [<- | [<- | [<- | []]]]]]. }
  unfold callback_effect in P1. rewrite Hm, Ho1, Hallow in P1. unfold callback_update in P1. rewrite Ho1 in P1.
  cbn [String.eqb Ascii.eqb Bool.eqb] in P1. destruct P1 as (T1 & S1 & _).
  destruct (process e1 c) as [a c1]. cbn [snd] in *.
  assert (ev_callback_id e2 ∉ cb_processed c1) as H2' by (rewrite S1; set_solver).
  pose proof (fun row' Hr Hi => process_effect e2 c1 row' H2' Hr Hi) as P2. unfold callback_effect in P2.
  rewrite T1, Ht, lookup_insert_eq in P2. specialize (P2 _ eq_refl Hid). cbn [status apply_update] in P2.
  unfold callback_update in P2. rewrite Ho2 in P2. cbn [String.eqb Ascii.eqb Bool.eqb] in P2.
  change (mem "blocked" IMMUTABLE_TASK_STATUSES) with false in P2.
  change (callback_allowed "delivered" "blocked") with true in P2. destruct P2 as (-> & _).
  rewrite lookup_insert_eq. eexists. done.
Qed.
End facts.

(** * Witnesses *)

#[local] Instance count_oracle : Oracle N := {
  uuid4 := fun n => ("u" +:+ pretty n, N.succ n);
  utcnow := fun n => (mk_datetime 2026 3 24 12 0 0 0, n)
}.
#[local] Instance quiet_audit : AuditWriter N := { write_event := fun _ => ret tt }.
#[local] Instance quiet_metrics : MetricRecorder N := { increment_counter := fun _ _ n => n }.

Definition callback_task (st : string) : TaskRecord :=
  mk_TaskRecord "t-1" "r-1" "tr-1" "owner-1" "owner" "internal" "internal" "msg_notify" "ceo" ["ceo"] [] None
    "key-00001" st (mk_datetime 2026 3 24 12 0 0 0) None None None None (Some "communication") (Some "acp-1").

Definition callback_state (st : string) : callbacks N := mk_callbacks 0%N {["t-1" := callback_task st]} ∅.

Definition callback_event (id outcome_name : string) : DeliveryCallbackEvent :=
  mk_DeliveryCallbackEvent id "t-1" "tr-1" "communication" outcome_name "reported" (Some "acp_delivery_nack") None
    None.

Lemma callback_state_row st : cb_tasks (callback_state st) !! "t-1" = Some (callback_task st).
Proof. apply lookup_singleton_eq. Qed.

Lemma callback_exact_witness :
  callback_effect (callback_event "cb-1" "delivered") (callback_task "running") (callback_state "running") /\
  process (callback_event "cb-1" "delivered") (callback_state "running") =
    (Raise (InvalidStateTransitionError "running" "dispatched"), callback_state "running").
Proof.
  pose proof (callback_exact (callback_event "cb-1" "delivered") (callback_state "running")
    (callback_task "running") (not_elem_of_empty _) (callback_state_row _) eq_refl) as H.
  split; [exact H | exact H].
Defined.

Lemma callback_once_witness :
  (process (callback_event "cb-1" "delivered")
     (process (callback_event "cb-1" "nacked") (callback_state "dispatched")).2).1 =
  Ret (mk_DeliveryCallbackResult false true "unchanged" "callback event already processed"
         (Some "acp_delivery_nack")).
Proof.
  destruct (callback_once (callback_event "cb-1" "nacked") (callback_state "dispatched")
    (callback_task "dispatched") (not_elem_of_empty _) (callback_state_row _) eq_refl eq_refl
    (callback_event "cb-1" "delivered")
    (process (callback_event "cb-1" "nacked") (callback_state "dispatched")).2 eq_refl (reflexivity _))
    as (c'' & H & _).
  exact (f_equal fst H).
Defined.

Lemma callback_error_code_example :
  exists row', cb_tasks (process (callback_event "cb-2" "delivered")
      (process (callback_event "cb-1" "nacked") (callback_state "dispatched")).2).2 !! "t-1" = Some row' /\
    status row' = "dispatched" /\ outcome_error_code row' = Some "acp_delivery_nack".
Proof.
  destruct (delivered_keeps_error_code (callback_event "cb-1" "nacked") (callback_event "cb-2" "delivered")
    (callback_state "dispatched") (callback_task "dispatched") (callback_state_row _) eq_refl eq_refl
    (not_elem_of_empty _) (not_elem_of_empty _) ltac:(discriminate) eq_refl eq_refl eq_refl)
    as (row' & H1 & H2 & _ & _ & H3).
  exists row'. split; [exact H1 | split; [exact H2 | exact H3]].
Defined.
