(* ===== verification/AuditTrail.v ===== *)
(** The audit trail: the durable writer and the table behind it.

    Models [observability/audit/audit_writer.py],
    [data_access/repositories/postgres/audit_event_repository.py], the
    [InMemoryAuditWriter] of [observability/testing/stubs.py] and
    [normalize_attributes] of [observability/tracing/spans.py].

    The [audit_events] table has [event_id] as primary key; whether the database
    accepts a statement is the parameter [db_fault], whether the OpenTelemetry
    logger does is [otel_fault].  [repr] of a float is [str_float]. *)

From Stdlib Require Import Ascii.
From S2P Require Import Prelude PyStr PyData LlmSchemas Task Budget LoopControl Policy Runtime.

Record AuditEvent : Type := mk_AuditEvent {
  av_event_id : string;
  av_event_type : string;
  av_timestamp : datetime;
  av_outcome : string;
  av_trace_id : string;
  av_actor_id : string;
  av_actor_role : string;
  av_policy_version : string;
  av_policy_hash : string;
  av_rule_ids : list string;
  av_payload : list (string * string);
  av_request_id : option string;
  av_task_id : option string;
  av_principal_id : option string;
  av_source : string;
  av_reason_code : option string;
  av_message : string;
  av_attributes : list (string * string);
  av_created_at : datetime
}.

Record AuditEventRecord : Type := mk_AuditEventRecord {
  ar_event_id : string;
  ar_event_type : string;
  ar_trace_id : string;
  ar_task_id : option string;
  ar_principal_id : option string;
  ar_principal_role : option string;
  ar_action : option string;
  ar_target : option string;
  ar_decision : option string;
  ar_rule_ids : list string;
  ar_payload : list (string * json);
  ar_created_at : datetime
}.

(** The row: [rule_ids] and [payload] are JSONB. *)
Record audit_row : Type := mk_audit_row {
  aw_event_id : string;
  aw_event_type : string;
  aw_trace_id : string;
  aw_task_id : option string;
  aw_principal_id : option string;
  aw_principal_role : option string;
  aw_action : option string;
  aw_target : option string;
  aw_decision : option string;
  aw_rule_ids : json;
  aw_payload : json;
  aw_created_at : datetime
}.

(** The record handed to the OpenTelemetry logger. *)
Record otel_log_record : Type := mk_otel_log_record {
  ol_hex_trace : bool;
  ol_body : string;
  ol_attributes : list (string * string)
}.

(** The writer with its clock, the table in insertion order and the log. *)
Record audit_store (E : Type) : Type := mk_audit_store {
  at_ext : E;
  at_rows : list audit_row;
  at_log : list otel_log_record
}.
Arguments mk_audit_store {E}.
Arguments at_ext {E}.
Arguments at_rows {E}.
Arguments at_log {E}.

Definition record_to_row (r : AuditEventRecord) : audit_row :=
  mk_audit_row (ar_event_id r) (ar_event_type r) (ar_trace_id r) (ar_task_id r) (ar_principal_id r)
    (ar_principal_role r) (ar_action r) (ar_target r) (ar_decision r)
    (JArr (map JStr (ar_rule_ids r))) (JObj (ar_payload r)) (ar_created_at r).

Definition nonblank (x : option string) : bool := match x with Some s => truthy s | None => false end.

Section audit.
Context (str_float : spec_float -> string).

Definition normalize_attributes (attributes : option (list (string * json))) : list (string * string) :=
  match attributes with
  | None | Some [] => []
  | Some l => sorted pair_leb (map (fun kv => (kv.1, json_str str_float kv.2)) l)
  end.

Definition _event_from_row (row : audit_row) : AuditEventRecord :=
  mk_AuditEventRecord (aw_event_id row) (aw_event_type row) (aw_trace_id row)
    (text_or_none (aw_task_id row)) (text_or_none (aw_principal_id row)) (text_or_none (aw_principal_role row))
    (text_or_none (aw_action row)) (text_or_none (aw_target row)) (text_or_none (aw_decision row))
    (match aw_rule_ids row with JArr l => map (json_str str_float) l | _ => [] end)
    (match aw_payload row with JObj o => o | _ => [] end)
    (aw_created_at row).

Context {E : Type} `{!Oracle E}.
Context (db_fault : audit_row -> option exn) (otel_fault : otel_log_record -> option exn).

#[local] Abbreviation A := (audit_store E).

Definition at_on_ext {B} (f : E -> B * E) : M A B := fun s =>
  let '(x, e) := f (at_ext s) in (Ret x, mk_audit_store e (at_rows s) (at_log s)).

Definition insert_event (row : audit_row) : M A unit := fun s =>
  match db_fault row with
  | Some x => (Raise x, s)
  | None =>
      if existsb (fun r => String.eqb (aw_event_id r) (aw_event_id row)) (at_rows s)
      then (Raise (DatabaseError "duplicate key value violates unique constraint"), s)
      else (Ret tt, mk_audit_store (at_ext s) (at_rows s ++ [row]) (at_log s))
  end.

(** [PostgresAuditEventRepository.write_event]. *)
Definition repository_write_event (event_type trace : string) (task principal role action target decision : option string)
    (rule_ids : list string) (payload : option (list (string * json))) : M A AuditEventRecord :=
  let! event_id := at_on_ext uuid4 in
  let! now := at_on_ext utcnow in
  let record := mk_AuditEventRecord event_id event_type trace task principal role action target decision rule_ids
                  (default [] payload) now in
  insert_event (record_to_row record) ;! ret record.

Definition list_events_for_trace (trace : string) : M A (list AuditEventRecord) :=
  gets (fun s => map _event_from_row
    (sorted (fun a b => negb (dt_ltb (aw_created_at b) (aw_created_at a)))
       (List.filter (fun r => String.eqb (aw_trace_id r) trace) (at_rows s)))).

(** [int(value.replace("-", ""), 16)] parses. *)
Definition hex_val (c : ascii) : bool :=
  let n := nat_of_ascii c in
  ((48 <=? n) && (n <=? 57) || (65 <=? n) && (n <=? 70) || (97 <=? n) && (n <=? 102))%nat.

Fixpoint hex_digits (after_digit : bool) (s : string) : bool :=
  match s with
  | EmptyString => after_digit
  | String c s' =>
      if hex_val c then hex_digits true s' else (Ascii.eqb c "_" && after_digit) && hex_digits false s'
  end.

Definition remove_dashes (s : string) : string := join "" (split_on "-"%char s).

Definition _is_hex_trace_id (value : string) : bool :=
  let signless (s : string) : string :=
    match s with String "+" s' => s' | _ => s end in
  let unprefixed (s : string) : string :=
    match s with
    | String "0" (String c s') =>
        if Ascii.eqb c "x" || Ascii.eqb c "X" then
          match s' with String "_" s'' => s'' | _ => s' end
        else s
    | _ => s
    end in
  hex_digits false (unprefixed (signless (strip (remove_dashes value)))).

Definition _emit_otel_log_record (event_id event_type trace outcome : string) (principal role task : option string)
    (rule_ids : list string) (message : string) : M A unit := fun s =>
  let record := mk_otel_log_record (_is_hex_trace_id trace) message
    [("audit.event_id", event_id); ("audit.event_type", event_type); ("audit.outcome", outcome);
     ("audit.trace_id", trace); ("audit.principal_id", default "" principal);
     ("audit.principal_role", default "" role); ("audit.task_id", default "" task);
     ("audit.rule_ids", join "," rule_ids)] in
  match otel_fault record with
  | Some x => (Raise x, s)
  | None => (Ret tt, mk_audit_store (at_ext s) (at_rows s) (at_log s ++ [record]))
  end.

(** The payload: the caller's when non-empty, or the default one, whose
    identifiers are written by [text]. *)
Definition event_payload (text : option string -> json) (ev : audit_event) : list (string * json) :=
  match ae_payload ev with
  | JObj (kv :: o) => kv :: o
  | _ =>
      [("outcome", JStr (ae_outcome ev)); ("source", JStr (ae_source ev)); ("message", JStr (ae_message ev));
       ("request_id", text (ae_event_request_id ev)); ("task_id", text (ae_event_task_id ev));
       ("reason_code", text (ae_reason_code ev))]
  end.


Definition unknown (x : option string) (text : string) : string := default text (text_or_none x).

Definition audit_event_of (ev : audit_event) (event_id : string) (now : datetime) (payload : list (string * json))
    : AuditEvent :=
  mk_AuditEvent event_id (ae_event_type ev) now (ae_outcome ev) (ae_event_trace_id ev)
    (unknown (ae_event_principal_id ev) "unknown-actor") (unknown (ae_event_principal_role ev) "unknown-role")
    (unknown (ae_policy_version ev) "policy-version-unknown") (unknown (ae_policy_hash ev) "policy-hash-unknown")
    (sorted str_leb (ae_rule_ids ev)) (normalize_attributes (Some payload))
    (ae_event_request_id ev) (ae_event_task_id ev) (ae_event_principal_id ev) (ae_source ev) (ae_reason_code ev)
    (ae_message ev)
    (normalize_attributes (match ae_attributes ev with JObj o => Some o | _ => None end)) now.

(** [OTelAuditWriter.write_event]. *)
Definition otel_write_event (ev : audit_event) : M A AuditEvent :=
  let! timestamp := at_on_ext utcnow in
  let rule_ids := sorted str_leb (ae_rule_ids ev) in
  let payload := event_payload (fun x => opt_json (text_or_none x)) ev in
  let! pg_record := repository_write_event (ae_event_type ev) (ae_event_trace_id ev) (ae_event_task_id ev)
    (ae_event_principal_id ev) (ae_event_principal_role ev) (Some (ae_source ev)) None (Some (ae_outcome ev))
    rule_ids (Some payload) in
  try (_emit_otel_log_record (ar_event_id pg_record) (ae_event_type ev) (ae_event_trace_id ev) (ae_outcome ev)
         (ae_event_principal_id ev) (ae_event_principal_role ev) (ae_event_task_id ev) rule_ids (ae_message ev))
    (fun _ => Some (ret tt)) ;!
  ret (audit_event_of ev (ar_event_id pg_record) timestamp payload).

(** The writer as the rest of the system uses it. *)
#[export] Instance otel_writer : AuditWriter A := {
  write_event := fun ev => otel_write_event ev ;! ret tt
}.

(** [InMemoryAuditWriter.write_event] over its list. *)
Definition memory_write_event (ev : audit_event) : M (E * list AuditEvent) AuditEvent := fun s =>
  let '(now, e1) := utcnow s.1 in
  let '(event_id, e2) := uuid4 e1 in
  let event := audit_event_of ev event_id now (event_payload opt_json ev) in
  (Ret event, (e2, s.2 ++ [event])).
End audit.

(** * Facts *)

Section facts.
Context (str_float : spec_float -> string) {E : Type} `{!Oracle E}.
Context (db_fault : audit_row -> option exn) (otel_fault : otel_log_record -> option exn).

#[local] Abbreviation A := (audit_store E).
#[local] Abbreviation write := (otel_write_event str_float db_fault otel_fault).

(** The row that backs an event. *)
Definition backs (event : AuditEvent) (row : audit_row) : Prop :=
  aw_event_id row = av_event_id event /\ aw_event_type row = av_event_type event /\
  aw_trace_id row = av_trace_id event /\ aw_task_id row = av_task_id event /\
  aw_principal_id row = av_principal_id event /\ aw_action row = Some (av_source event) /\
  aw_decision row = Some (av_outcome event) /\ aw_rule_ids row = JArr (map JStr (av_rule_ids event)) /\
  exists payload, aw_payload row = JObj payload /\
    av_payload event = normalize_attributes str_float (Some payload).

Definition ids (s : A) : list string := map aw_event_id (at_rows s).

Lemma existsb_id id (rows : list audit_row) :
  existsb (fun r => String.eqb (aw_event_id r) id) rows = false -> ~ In id (map aw_event_id rows).
Proof.
  intros H Hin. apply in_map_iff in Hin as (r & <- & Hr). apply not_true_iff_false in H. apply H.
  apply existsb_exists. exists r. by rewrite String.eqb_refl.
Qed.

Lemma otel_write_cases ev s :
  match write ev s with
  | (Ret event, s') =>
      exists row, backs event row /\ at_rows s' = at_rows s ++ [row] /\ ~ In (aw_event_id row) (ids s) /\
        (at_log s' = at_log s \/ exists l, at_log s' = at_log s ++ [l])
  | (Raise _, s') => at_rows s' = at_rows s /\ at_log s' = at_log s
  end.
Proof.
  unfold otel_write_event, repository_write_event, bind, at_on_ext, insert_event. cbv zeta.
  destruct (utcnow (at_ext s)) as [timestamp e1]. cbn [at_ext at_rows at_log].
  destruct (uuid4 e1) as [event_id e2]. cbn [at_ext at_rows at_log].
  destruct (utcnow e2) as [now e3]. cbn [at_ext at_rows at_log].
  set (row := record_to_row _). destruct (db_fault row); [done |].
  destruct (existsb _ (at_rows s)) eqn:Hid; [done |]. apply existsb_id in Hid.
  unfold ret, try, _emit_otel_log_record. cbv beta zeta. cbn [at_ext at_rows at_log].
  destruct (otel_fault _); cbn [at_rows at_log]; exists row; (split; [by repeat (split; [done |]); eexists |]).
  - split; [done |]. split; [done |]. by left.
  - split; [done |]. split; [done |]. right. by eexists.
Qed.

(** A run of calls, each of which may raise; the events that were returned. *)
Fixpoint write_all (evs : list audit_event) (s : A) : list AuditEvent * A :=
  match evs with
  | [] => ([], s)
  | ev :: evs' =>
      let '(o, s') := write ev s in
      let '(events, s'') := write_all evs' s' in
      (match o with Ret event => event :: events | Raise _ => events end, s'')
  end.

(** * Theorems *)

(** C36: the audit trail is append-only and complete.  Over any sequence of
    audit writes, whatever the database and the telemetry exporter refuse: no
    row is changed or lost, each event a caller was given is backed by its own
    row, in order, a call that raised left no row, and event identifiers stay
    unique. *)
Theorem audit_trail_is_complete evs s events s' :
  NoDup (ids s) -> write_all evs s = (events, s') ->
  exists rows, at_rows s' = at_rows s ++ rows /\ Forall2 backs events rows /\ NoDup (ids s').
Proof.
  revert s events. induction evs as [| ev evs IH]; intros s events Hnd; cbn [write_all].
  - intros [= <- <-]. exists []. rewrite app_nil_r. split; [done |]. by split; [constructor |].
  - pose proof (otel_write_cases ev s) as Hw. destruct (write ev s) as [[event | x] s1].
    + destruct (write_all evs s1) as [evts s2] eqn:Hrest. intros [= <- <-].
      destruct Hw as (row & Hb & Hrows & Hfresh & _).
      destruct (IH s1 evts) as (rows & Hr & Hf & Hnd'); [| done |].
      * unfold ids. rewrite Hrows, map_app. cbn [map]. apply NoDup_app. split; [done |].
        split; [| apply NoDup_singleton]. intros x Hx Hin%list_elem_of_singleton. subst.
        by apply Hfresh, list_elem_of_In.
      * exists (row :: rows). rewrite Hr, Hrows, <- app_assoc. split; [done |]. split; [by constructor | done].
    + destruct Hw as [Hrows _]. destruct (write_all evs s1) as [evts s2] eqn:Hrest. intros [= <- <-].
      destruct (IH s1 evts) as (rows & Hr & Hf & Hnd'); [by unfold ids; rewrite Hrows | done |].
      exists rows. by rewrite Hr, Hrows.
Qed.

(** Reading a row back gives the record that was written, when its optional
    fields are not the empty string. *)
Definition no_blank (r : AuditEventRecord) : Prop :=
  ar_task_id r <> Some "" /\ ar_principal_id r <> Some "" /\ ar_principal_role r <> Some "" /\
  ar_action r <> Some "" /\ ar_target r <> Some "" /\ ar_decision r <> Some "".

Lemma audit_row_roundtrip r : no_blank r -> _event_from_row str_float (record_to_row r) = r.
Proof.
  intros (H1 & H2 & H3 & H4 & H5 & H6). unfold _event_from_row, record_to_row. cbn.
  rewrite !text_or_none_id by done. destruct r; cbn. f_equal. by rewrite map_map, map_id.
Qed.
End facts.

(** * Witness *)

#[local] Instance count_oracle : Oracle N := {
  uuid4 := fun n => ("u" +:+ pretty n, N.succ n);
  utcnow := fun n => (mk_datetime 2026 3 24 12 0 0 0, n)
}.

Definition sample_event (outcome : string) : audit_event :=
  {| ae_event_type := "owner_command"; ae_outcome := outcome; ae_event_trace_id := "ab-12";
     ae_event_request_id := None; ae_event_task_id := Some "t-1"; ae_event_principal_id := Some "owner";
     ae_event_principal_role := None; ae_source := "ingress"; ae_reason_code := None; ae_message := "m";
     ae_policy_version := None; ae_policy_hash := None; ae_rule_ids := ["b"; "a"]; ae_payload := JNull;
     ae_attributes := JNull |}.

(** The database refuses the second event, the exporter every one. *)
Definition sample_refusal (r : audit_row) : option exn :=
  if bool_decide (aw_decision r = Some "refused") then Some (DatabaseError "down") else None.

Lemma audit_trail_is_complete_witness :
  let run := write_all (fun _ => "") sample_refusal (fun _ => Some (OtherError "no exporter"))
    [sample_event "accepted"; sample_event "refused"; sample_event "failed"] (mk_audit_store 0%N [] []) in
  map av_outcome run.1 = ["accepted"; "failed"] /\
  exists rows, at_rows run.2 = rows /\ Forall2 (backs (fun _ => "")) run.1 rows.
Proof.
  split; [vm_compute; reflexivity |].
  destruct (audit_trail_is_complete (fun _ => "") sample_refusal (fun _ => Some (OtherError "no exporter"))
    [sample_event "accepted"; sample_event "refused"; sample_event "failed"] (mk_audit_store 0%N [] []) _ _
    (NoDup_nil_2) (surjective_pairing _)) as (rows & Hrows & Hf & _).
  exists rows. split; [exact Hrows | exact Hf].
Defined.
