(* ===== verification/Conversation.v ===== *)
(** Conversation memory: the stores behind a channel's history.

    Models [ConversationTurn], [ConversationWindowSummary],
    [ConversationStoreProtocol] and [LocalConversationStore] of
    [task_orchestrator/dispatch/llm_dispatch.py], and
    [data_access/repositories/postgres/conversation_store.py].

    The protocol is the class [ConversationStore]; both stores are instances.
    [ORDER BY created_at] leaves the order of equal times open: the ordering is
    the parameter [by_time], which permutes its rows into increasing times.  The
    pgvector similarity is [similarity].  A statement fails when the outside
    world says so ([DbFaults]). *)

From S2P Require Import Prelude PyStr PyData LlmSchemas Task Budget LoopControl Policy Runtime.

Record ConversationTurn : Type := mk_ConversationTurn {
  cv_role : string;
  cv_content : string
}.

Record ConversationWindowSummary : Type := mk_ConversationWindowSummary {
  ws_window_index : Z;
  ws_summary_text : string;
  ws_scope : option string
}.

(** [ConversationStoreProtocol]. *)
Class ConversationStore (CS : Type) : Type := {
  list_turns : string -> M CS (list ConversationTurn);
  append_turns : string -> string -> string -> option string -> M CS unit;
  list_windows : string -> M CS (list ConversationWindowSummary);
  fetch_window : string -> Z -> M CS (list ConversationTurn);
  find_relevant_windows : string -> list pyfloat -> pyfloat -> nat -> M CS (list ConversationWindowSummary);
  fetch_channel_summary : string -> M CS (option ConversationWindowSummary)
}.

Definition scope_or_default (scope : string) : string :=
  let s := strip scope in if truthy s then s else "default-scope".

(** * The local store

    [max_turns] is the constructor's argument, raised to 2; the state is
    [_turns_by_scope]. *)

Abbreviation turns_by_scope := (gmap string (list ConversationTurn)).

(** [turns[-n:]]. *)
Definition last_n {A} (n : nat) (l : list A) : list A := drop (length l - n) l.

Section local_store.
Context (max_turns : nat).

Definition local_max_turns : nat := Nat.max 2 max_turns.

Definition local_list_turns (scope : string) : M turns_by_scope (list ConversationTurn) :=
  gets (fun t => default [] (t !! scope)).

Definition local_append_turns (scope user_prompt assistant_reply : string) (agent_id : option string)
    : M turns_by_scope unit :=
  let key := scope_or_default scope in
  modify (fun t =>
    let turns := default [] (t !! key) ++
      [mk_ConversationTurn "user" (strip user_prompt); mk_ConversationTurn "assistant" (strip assistant_reply)] in
    <[key := if (local_max_turns <? length turns)%nat then last_n local_max_turns turns else turns]> t).

#[export] Instance LocalConversationStore : ConversationStore turns_by_scope := {
  list_turns := local_list_turns;
  append_turns := local_append_turns;
  list_windows := fun _ => ret [];
  fetch_window := fun _ _ => ret [];
  find_relevant_windows := fun _ _ _ _ => ret [];
  fetch_channel_summary := fun _ => ret None
}.
End local_store.

(** * The PostgreSQL store *)

(** A row of [conversation_messages]. *)
Record message_row : Type := mk_message_row {
  mr_id : string;
  mr_conversation_id : string;
  mr_role : string;
  mr_content : string;
  mr_agent_id : option string;
  mr_created_at : datetime;
  mr_window_index : option Z
}.

(** A row of [conversation_windows]; the primary key is scope and index. *)
Record window_row : Type := mk_window_row {
  wr_summary_text : string;
  wr_turn_start : Z;
  wr_turn_end : Z;
  wr_created_at : datetime;
  wr_summary_embedding : option (list pyfloat)
}.

(** The tables, and the embedding threads that were started. *)
Record conversations (E : Type) : Type := mk_conversations {
  cn_ext : E;
  cn_messages : list message_row;
  cn_windows : gmap (string * Z) window_row;
  cn_pending : list (string * Z * string)
}.
Arguments mk_conversations {E}.
Arguments cn_ext {E}.
Arguments cn_messages {E}.
Arguments cn_windows {E}.
Arguments cn_pending {E}.

Definition turn_of (m : message_row) : ConversationTurn := mk_ConversationTurn (mr_role m) (mr_content m).
Definition set_window (k : Z) (m : message_row) : message_row :=
  mk_message_row (mr_id m) (mr_conversation_id m) (mr_role m) (mr_content m) (mr_agent_id m) (mr_created_at m) (Some k).

Definition in_scope (scope : string) (m : message_row) : bool := String.eqb (mr_conversation_id m) scope.
Definition untagged (m : message_row) : bool := bool_decide (mr_window_index m = None).
Definition in_window (k : Z) (m : message_row) : bool := bool_decide (mr_window_index m = Some k).

Section postgres_store.
Context {E : Type} `{!Oracle E} `{!DbFaults E}.
Context (by_time : list message_row -> list message_row).
Context (similarity : list pyfloat -> list pyfloat -> pyfloat).
Context (embed : option (string -> E -> option (list pyfloat) * E)).
Context (summarize_fn : option (string -> Z -> list ConversationTurn -> M E string)).
Context (max_turns window_size : Z).

#[local] Abbreviation S := (conversations E).

Definition pg_max_turns : nat := Z.to_nat (Z.max 2 max_turns).
Definition pg_window_size : Z := Z.max 4 window_size.

Definition cn_on_ext {A} (m : M E A) : M S A :=
  zoom cn_ext (fun e s => mk_conversations e (cn_messages s) (cn_windows s) (cn_pending s)) m.
Definition cn_now : M S datetime := cn_on_ext (fun e => let '(t, e') := utcnow e in (Ret t, e')).
Definition cn_uuid : M S string := cn_on_ext (fun e => let '(u, e') := uuid4 e in (Ret u, e')).
Definition set_messages (f : list message_row -> list message_row) : M S unit :=
  modify (fun s => mk_conversations (cn_ext s) (f (cn_messages s)) (cn_windows s) (cn_pending s)).
Definition set_windows (f : gmap (string * Z) window_row -> gmap (string * Z) window_row) : M S unit :=
  modify (fun s => mk_conversations (cn_ext s) (cn_messages s) (f (cn_windows s)) (cn_pending s)).

(** A statement: the work, unless the database refuses. *)
Definition statement {A} (m : M S A) : M S A :=
  let! fault := cn_on_ext (fun e => let '(f, e') := db_fault e in (Ret f, e')) in
  match fault with Some x => raise x | None => m end.

(** [try: .. except Exception: return default]. *)
Definition or_default {A} (m : M S A) (a : A) : M S A := try m (fun _ => Some (ret a)).

Definition scope_messages (scope : string) (s : S) : list message_row :=
  List.filter (in_scope scope) (cn_messages s).

Definition pg_list_turns (scope : string) : M S (list ConversationTurn) :=
  let scope := scope_or_default scope in
  statement (gets (fun s => map turn_of (last_n pg_max_turns (by_time (scope_messages scope s))))).

Definition window_le (a b : Z * window_row) : bool := (a.1 <=? b.1)%Z.

Definition scope_windows (scope : string) (s : S) : list (Z * window_row) :=
  sorted window_le
    (omap (fun kw : string * Z * window_row =>
             if String.eqb kw.1.1 scope then Some (kw.1.2, kw.2) else None) (map_to_list (cn_windows s))).

Definition pg_list_windows (scope : string) : M S (list ConversationWindowSummary) :=
  let scope := scope_or_default scope in
  statement (gets (fun s =>
    map (fun w => mk_ConversationWindowSummary w.1 (wr_summary_text w.2) None) (take 10 (scope_windows scope s)))).

Definition pg_fetch_window (scope : string) (k : Z) : M S (list ConversationTurn) :=
  let scope := scope_or_default scope in
  statement (gets (fun s => map turn_of (by_time (List.filter (in_window k) (scope_messages scope s))))).

Definition pg_find_relevant_windows (scope : string) (query : list pyfloat) (threshold : pyfloat) (limit : nat)
    : M S (list ConversationWindowSummary) :=
  let scope := scope_or_default scope in
  or_default (statement (gets (fun s =>
    let scored := omap (fun w : Z * window_row =>
      match wr_summary_embedding w.2 with
      | Some v => let sim := similarity v query in if SFleb threshold sim then Some (sim, w) else None
      | None => None
      end) (scope_windows scope s) in
    map (fun w => mk_ConversationWindowSummary w.2.1 (wr_summary_text w.2.2) None)
      (take limit (sorted (fun a b => SFleb b.1 a.1) scored))))) [].

Definition pg_fetch_channel_summary (target : string) : M S (option ConversationWindowSummary) :=
  let scope := scope_or_default target in
  or_default (statement (gets (fun s =>
    match last (scope_windows scope s) with
    | Some w => Some (mk_ConversationWindowSummary w.1 (wr_summary_text w.2) (Some scope))
    | None => None
    end))) None.

Definition clear (scope : string) : M S unit :=
  let scope := scope_or_default scope in
  statement (statement (
    set_windows (fun w => filter (fun kw => kw.1.1 <> scope) w) ;!
    set_messages (List.filter (fun m => negb (in_scope scope m))))).

(** The [UPDATE] of [_close_window]: the oldest untagged rows of the scope. *)
Definition tag_rows (scope : string) (k : Z) (rows : list message_row) : list message_row :=
  let chosen := take (Z.to_nat pg_window_size)
    (by_time (List.filter (fun m => in_scope scope m && untagged m) rows)) in
  map (fun m => if in_scope scope m && untagged m && bool_decide (In (mr_id m) (map mr_id chosen))
                then set_window k m else m) rows.

(** The summary half of [_close_window]. *)
Definition summarize_window (summarize : string -> Z -> list ConversationTurn -> M E string) (scope : string)
    (k : Z) : M S unit :=
  let turn_start := (k * pg_window_size)%Z in
  let! turns := pg_fetch_window scope k in
  match turns with
  | [] => ret tt
  | _ =>
      let! summary := cn_on_ext (summarize scope k turns) in
      if negb (truthy (strip summary)) then ret tt
      else
        let! now := cn_now in
        statement (set_windows (fun w =>
          match w !! (scope, k) with
          | Some _ => w
          | None => <[(scope, k) := mk_window_row (strip summary) turn_start (turn_start + pg_window_size - 1) now None]> w
          end)) ;!
        match embed with
        | None => ret tt
        | Some _ => modify (fun s => mk_conversations (cn_ext s) (cn_messages s) (cn_windows s)
                                       (cn_pending s ++ [(scope, k, summary)]))
        end
  end.

Definition _close_window (scope : string) (k : Z) : M S unit :=
  let! tagged := or_default (statement (set_messages (tag_rows scope k)) ;! ret true) false in
  if negb tagged then ret tt
  else match summarize_fn with
       | None => ret tt
       | Some summarize => or_default (summarize_window summarize scope k) tt
       end.

(** [INSERT] into a table whose primary key is the identifier. *)
Definition insert_messages (new : list message_row) : M S unit := fun s =>
  if bool_decide (NoDup (map mr_id (cn_messages s ++ new)))
  then (Ret tt, mk_conversations (cn_ext s) (cn_messages s ++ new) (cn_windows s) (cn_pending s))
  else (Raise (DatabaseError "duplicate key value violates unique constraint"), s).

(** [append_turns], as its two transactions: the insert, and the count with the
    closing of a filled window. *)
Definition append_insert (scope user_prompt assistant_reply : string) (agent_id : option string) : M S unit :=
  let! now := cn_now in
  let! id1 := cn_uuid in
  let! id2 := cn_uuid in
  statement (insert_messages
    [mk_message_row id1 scope "user" (strip user_prompt) agent_id now None;
     mk_message_row id2 scope "assistant" (strip assistant_reply) agent_id now None]).

Definition append_close (scope : string) : M S unit :=
  let! total := statement (gets (fun s => Z.of_nat (length (scope_messages scope s)))) in
  if ((0 <? total) && (total mod pg_window_size =? 0))%Z
  then _close_window scope (total / pg_window_size - 1)
  else ret tt.

Definition pg_append_turns (scope user_prompt assistant_reply : string) (agent_id : option string) : M S unit :=
  let scope := scope_or_default scope in
  append_insert scope user_prompt assistant_reply agent_id ;! append_close scope.

(** One embedding thread. *)
Definition _embed_and_store_window (scope : string) (k : Z) (summary : string) : M S unit :=
  match embed with
  | None => ret tt
  | Some f =>
      or_default
        (let! v := cn_on_ext (fun e => let '(v, e') := f summary e in (Ret v, e')) in
         match v with
         | None => ret tt
         | Some v =>
             statement (set_windows (alter (fun w =>
               mk_window_row (wr_summary_text w) (wr_turn_start w) (wr_turn_end w) (wr_created_at w) (Some v))
               (scope, k)))
         end) tt
  end.

#[export] Instance PostgresConversationStore : ConversationStore S := {
  list_turns := pg_list_turns;
  append_turns := pg_append_turns;
  list_windows := pg_list_windows;
  fetch_window := pg_fetch_window;
  find_relevant_windows := pg_find_relevant_windows;
  fetch_channel_summary := pg_fetch_channel_summary
}.
End postgres_store.

(** * Facts *)

(** ** The local store is bounded *)

Definition bounded (n : nat) (t : turns_by_scope) : Prop := map_Forall (fun _ l => (length l <= n)%nat) t.

Lemma length_last_n {A} n (l : list A) : length (last_n n l) = Nat.min n (length l).
Proof. unfold last_n. rewrite length_drop. lia. Qed.

Lemma local_append_bounded n scope user reply agent :
  tracks (inv_rel (bounded (local_max_turns n))) (local_append_turns n scope user reply agent).
Proof.
  intros t Ht. unfold local_append_turns. cbn [modify snd]. intros k l Hl.
  destruct (decide (k = scope_or_default scope)) as [-> | Hne].
  - cbv zeta in Hl. rewrite lookup_insert_eq in Hl. injection Hl as <-.
    case_match eqn:E; [rewrite length_last_n; lia |]. apply Nat.ltb_ge in E. exact E.
  - cbv zeta in Hl. rewrite lookup_insert_ne in Hl by done. by apply (Ht k).
Qed.

(** What was appended comes last. *)
Lemma local_append_last n scope user reply agent t :
  scope_or_default scope = scope ->
  exists l, (local_list_turns scope (local_append_turns n scope user reply agent t).2).1 =
    Ret (l ++ [mk_ConversationTurn "user" (strip user); mk_ConversationTurn "assistant" (strip reply)]).
Proof.
  intros Hs. unfold local_list_turns, local_append_turns, gets. cbn [modify snd fst]. rewrite Hs. cbv zeta.
  rewrite lookup_insert_eq. cbn [default from_option].
  set (old := default [] (t !! scope)). set (two := [_; _]). case_match; [| by exists old].
  unfold last_n. rewrite drop_app_le; [by eexists |]. rewrite length_app. unfold local_max_turns. cbn. lia.
Qed.

(** ** Windows of the PostgreSQL store *)

Section windows.
Context {E : Type} `{!Oracle E} `{!DbFaults E}.
Context (by_time : list message_row -> list message_row).
Context (summarize_fn : option (string -> Z -> list ConversationTurn -> M E string)).
Context (embed : option (string -> E -> option (list pyfloat) * E)) (window_size : Z).

#[local] Abbreviation S := (conversations E).
#[local] Abbreviation ws := (pg_window_size window_size).
#[local] Abbreviation tag := (tag_rows by_time window_size).

Definition count_in (scope : string) (rows : list message_row) : Z :=
  Z.of_nat (length (List.filter (in_scope scope) rows)).
Definition members (scope : string) (k : Z) (rows : list message_row) : list message_row :=
  List.filter (fun m => in_scope scope m && in_window k m) rows.

(** Identifiers are unique, a scope's windows are numbered below the number of
    windows its messages fill, and no window has more messages than its size. *)
Definition windows_ok (rows : list message_row) : Prop :=
  NoDup (map mr_id rows) /\
  forall scope k, (members scope k rows <> [] -> 0 <= k < count_in scope rows / ws)%Z /\
    (Z.of_nat (length (members scope k rows)) <= ws)%Z.

Definition row_evolves (a b : message_row) : Prop :=
  b = a \/ (mr_window_index a = None /\ exists k, b = set_window k a).

Definition rows_evolve (rows rows' : list message_row) : Prop :=
  exists kept tail, rows' = kept ++ tail /\ Forall2 row_evolves rows kept.

#[local] Instance row_evolves_preorder : PreOrder row_evolves.
Proof.
  split; [by left |]. intros a b c [-> | [Ha [k ->]]] [-> | [Hb [j ->]]]; try (by left); try (right; eauto; fail).
Qed.

#[local] Instance rows_evolve_preorder : PreOrder rows_evolve.
Proof.
  split.
  - intros l. exists l, []. rewrite app_nil_r. split; [done |]. induction l; by constructor.
  - intros a b c (k1 & t1 & -> & H1) (k2 & t2 & -> & H2).
    apply Forall2_app_inv_l in H2 as (x & y & Hx & _ & ->). exists x, (y ++ t2). split; [by rewrite app_assoc |].
    revert x Hx. induction H1 as [| a' b' l l' Hab Hl IH]; intros x Hx; inversion Hx; subst; constructor; [| by apply IH].
    by etransitivity.
Qed.

Definition messages_step (s s' : S) : Prop :=
  windows_ok (cn_messages s) -> windows_ok (cn_messages s') /\ rows_evolve (cn_messages s) (cn_messages s').

#[local] Instance messages_step_preorder : PreOrder messages_step.
Proof.
  split; [by intros s Hs |]. intros a b c H1 H2 Ha. destruct (H1 Ha) as [Hb E1]. destruct (H2 Hb) as [Hc E2].
  split; [done | by etransitivity].
Qed.

Lemma ws_pos : (4 <= ws)%Z.
Proof. unfold pg_window_size. lia. Qed.

(** ** Tagging a window *)

Lemma filter_length_le {A} (f : A -> bool) l : (length (List.filter f l) <= length l)%nat.
Proof. induction l as [| x l IH]; cbn; [lia |]. destruct (f x); cbn; lia. Qed.

Lemma filter_app_length {A} (f : A -> bool) l l' :
  length (List.filter f (l ++ l')) = (length (List.filter f l) + length (List.filter f l'))%nat.
Proof. by rewrite List.filter_app, length_app. Qed.

Lemma filter_ids_NoDup (f : message_row -> bool) rows :
  NoDup (map mr_id rows) -> NoDup (map mr_id (List.filter f rows)).
Proof.
  induction rows as [| m rows IH]; cbn; [done |]. intros [Hn Hd]%NoDup_cons.
  destruct (f m); cbn; [| by apply IH]. constructor; [| by apply IH].
  intros Hin. apply Hn. apply list_elem_of_In, in_map_iff in Hin as (x & <- & Hx).
  apply filter_In in Hx as [Hx _]. by apply list_elem_of_In, in_map.
Qed.

Lemma tag_map scope k rows : exists g : message_row -> bool,
  tag scope k rows = map (fun m => if g m then set_window k m else m) rows /\
  (forall m, g m = true -> in_scope scope m = true /\ mr_window_index m = None) /\
  (NoDup (map mr_id rows) -> (Z.of_nat (length (List.filter g rows)) <= ws)%Z).
Proof.
  unfold tag_rows. set (chosen := take _ _).
  exists (fun m => in_scope scope m && untagged m && bool_decide (In (mr_id m) (map mr_id chosen))).
  split; [done |]. split.
  - intros m [[H1 H2]%andb_true_iff _]%andb_true_iff. split; [done |]. by apply bool_decide_eq_true in H2.
  - intros Hnd. set (g := fun m => _).
    assert (length (List.filter g rows) <= length chosen)%nat as Hle.
    { rewrite <- (length_map mr_id (List.filter g rows)), <- (length_map mr_id chosen).
      apply NoDup_incl_length.
      - by apply NoDup_ListNoDup, filter_ids_NoDup.
      - intros x Hx. apply in_map_iff in Hx as (m & <- & Hm). apply filter_In in Hm as [_ Hm].
        apply andb_true_iff in Hm as [_ Hm]. by apply bool_decide_eq_true in Hm. }
    subst chosen. rewrite length_take in Hle. pose proof ws_pos. lia.
Qed.

Lemma tag_ids (g : message_row -> bool) k rows :
  map mr_id (map (fun m => if g m then set_window k m else m) rows) = map mr_id rows.
Proof. rewrite map_map. apply map_ext. intros m. by destruct (g m). Qed.

Lemma tag_members (g : message_row -> bool) scope k rows :
  (forall m, g m = true -> in_scope scope m = true /\ mr_window_index m = None) ->
  members scope k rows = [] ->
  let rows' := map (fun m => if g m then set_window k m else m) rows in
  length (members scope k rows') = length (List.filter g rows) /\
  (forall scope' j, (scope', j) <> (scope, k) -> length (members scope' j rows') = length (members scope' j rows)) /\
  (forall scope', count_in scope' rows' = count_in scope' rows).
Proof.
  intros Hg Hnone. cbv zeta. split; [| split].
  - revert Hnone. unfold members. induction rows as [| m rows IH]; [done |]. cbn [List.filter map].
    destruct (in_scope scope m && in_window k m) eqn:Em; [done |]. intros Hnone. specialize (IH Hnone).
    destruct (g m) eqn:Egm.
    + destruct (Hg m Egm) as [Hs _]. unfold in_scope, in_window in *. cbn [set_window mr_conversation_id mr_window_index].
      rewrite Hs, bool_decide_true by done. cbn. by rewrite IH.
    + by rewrite Em.
  - intros scope' j Hne. unfold members. induction rows as [| m rows IH]; [done |]. cbn [List.filter map].
    assert (members scope k rows = []) as Hnone'.
    { unfold members in *. cbn [List.filter] in Hnone. by destruct (in_scope scope m && in_window k m). }
    specialize (IH Hnone'). destruct (g m) eqn:Egm.
    + destruct (Hg m Egm) as [Hs Hw]. apply String.eqb_eq in Hs. unfold in_scope, in_window in *.
      cbn [set_window mr_conversation_id mr_window_index]. rewrite Hw.
      rewrite (bool_decide_false (None = Some j)) by done. rewrite andb_false_r.
      assert ((mr_conversation_id m =? scope') && bool_decide (Some k = Some j) = false) as ->; [| done].
      apply andb_false_iff. destruct (decide (scope = scope')) as [<- | Hs'].
      * right. apply bool_decide_false. congruence.
      * left. apply String.eqb_neq. congruence.
    + destruct (in_scope scope' m && in_window j m); cbn [length]; by rewrite IH.
  - intros scope'. unfold count_in. f_equal. induction rows as [| m rows IH]; [done |]. cbn [List.filter map].
    assert (members scope k rows = []) as Hnone'.
    { unfold members in *. cbn [List.filter] in Hnone. by destruct (in_scope scope m && in_window k m). }
    specialize (IH Hnone').
    replace (in_scope scope' (if g m then set_window k m else m)) with (in_scope scope' m) by (by destruct (g m)).
    destruct (in_scope scope' m); cbn [length]; by rewrite IH.
Qed.

Lemma length_zero_nil {A} (l : list A) : l <> [] <-> length l <> O.
Proof. by destruct l. Qed.

(** Closing the window a scope has just filled. *)
Lemma tag_ok scope rows :
  windows_ok rows -> let k := (count_in scope rows / ws - 1)%Z in
  members scope k rows = [] -> (0 < count_in scope rows)%Z -> (count_in scope rows mod ws = 0)%Z ->
  windows_ok (tag scope k rows).
Proof.
  intros [Hnd Hw] k Hnone Hpos Hmod. destruct (tag_map scope k rows) as (g & -> & Hg & Hle).
  destruct (tag_members g scope k rows Hg Hnone) as (H1 & H2 & H3).
  split; [by rewrite tag_ids |]. intros scope' j. rewrite H3, length_zero_nil.
  destruct (decide ((scope', j) = (scope, k))) as [[= -> ->] | Hne].
  - rewrite H1. split; [intros _ | by apply Hle]. pose proof ws_pos.
    assert (count_in scope rows = ws * (count_in scope rows / ws))%Z by (apply Z.div_exact; lia). nia.
  - rewrite H2 by done. rewrite <- length_zero_nil. apply Hw.
Qed.

Lemma tag_evolves scope k rows : rows_evolve rows (tag scope k rows).
Proof.
  destruct (tag_map scope k rows) as (g & -> & Hg & _). eexists _, []. rewrite app_nil_r. split; [done |].
  induction rows as [| m rows IH]; cbn; constructor; [| done].
  destruct (g m) eqn:E1; [right | by left]. destruct (Hg m E1) as [_ ?]. split; [done | by eexists].
Qed.

(** ** One append *)

Definition same_messages (s s' : S) : Prop := cn_messages s' = cn_messages s.
#[local] Instance same_messages_preorder : PreOrder same_messages.
Proof. split; unfold same_messages; [done | by intros a b c -> ->]. Qed.

Lemma same_on_ext {A} (m : M E A) : tracks same_messages (cn_on_ext m).
Proof. intros s. unfold cn_on_ext, zoom. by destruct (m (cn_ext s)). Qed.
Lemma same_windows f : tracks same_messages (set_windows (E := E) f).
Proof. done. Qed.
#[local] Hint Resolve same_on_ext same_windows : tracks.

Lemma same_statement {A} (m : M S A) : tracks same_messages m -> tracks same_messages (statement m).
Proof. intros H. unfold statement. tracks_auto. Qed.

Lemma same_or_default {A} (m : M S A) a : tracks same_messages m -> tracks same_messages (or_default m a).
Proof. intros H. apply tracks_try; [typeclasses eauto | done |]. intros e k [= <-]. tracks_auto. Qed.

Lemma same_summarize f scope k : tracks same_messages (summarize_window by_time embed window_size f scope k).
Proof.
  unfold summarize_window, pg_fetch_window, cn_now. cbv zeta.
  apply tracks_bind; [typeclasses eauto | apply same_statement; tracks_auto |]. intros [| t l]; [tracks_auto |].
  apply tracks_bind; [typeclasses eauto | tracks_auto |]. intros summary. destruct (negb _); [tracks_auto |].
  apply tracks_bind; [typeclasses eauto | tracks_auto |]. intros now.
  apply tracks_bind; [typeclasses eauto | apply same_statement; tracks_auto |]. intros [].
  destruct embed; [by intros s | tracks_auto].
Qed.

Lemma tag_run f s : exists e,
  or_default (statement (set_messages f) ;! ret true) false s =
    (Ret true, mk_conversations e (f (cn_messages s)) (cn_windows s) (cn_pending s)) \/
  or_default (statement (set_messages f) ;! ret true) false s =
    (Ret false, mk_conversations e (cn_messages s) (cn_windows s) (cn_pending s)).
Proof.
  unfold or_default, try, statement, bind, cn_on_ext, zoom. cbv beta.
  destruct (db_fault (cn_ext s)) as [[x |] e]; exists e; [by right | by left].
Qed.

(** A closed window is tagged or, when the database refuses, left alone. *)
Lemma close_messages scope k s :
  let s' := (_close_window by_time embed summarize_fn window_size scope k s).2 in
  cn_messages s' = cn_messages s \/ cn_messages s' = tag scope k (cn_messages s).
Proof.
  cbv zeta. destruct (_close_window _ _ _ _ _ _ s) as [o s'] eqn:Hr. unfold _close_window, bind at 1 in Hr.
  assert (tracks same_messages (match summarize_fn with
    | None => ret tt
    | Some summarize => or_default (summarize_window by_time embed window_size summarize scope k) tt
    end)) as Hsum.
  { destruct summarize_fn; [apply same_or_default, same_summarize | tracks_auto]. }
  destruct (tag_run (tag scope k) s) as [e [Ht | Ht]]; rewrite Ht in Hr; cbn [negb] in Hr.
  - right. change s' with (o, s').2. rewrite <- Hr. etransitivity; [exact (Hsum _) | done].
  - left. by injection Hr as _ <-.
Qed.

Lemma insert_messages_cases scope user reply agent s :
  match append_insert scope user reply agent s with
  | (Ret _, s') => exists a b, cn_messages s' = cn_messages s ++ [a; b] /\ NoDup (map mr_id (cn_messages s')) /\
      mr_conversation_id a = scope /\ mr_conversation_id b = scope /\
      mr_window_index a = None /\ mr_window_index b = None
  | (Raise _, s') => cn_messages s' = cn_messages s
  end.
Proof.
  unfold append_insert, statement, bind, cn_now, cn_uuid, cn_on_ext, zoom. cbv beta.
  destruct (utcnow (cn_ext s)) as [now e1]. cbn [cn_ext]. destruct (uuid4 e1) as [i1 e2]. cbn [cn_ext].
  destruct (uuid4 e2) as [i2 e3]. cbn [cn_ext]. destruct (db_fault e3) as [[x |] e]; [done |].
  unfold insert_messages. cbn [cn_messages]. case_bool_decide as Hnd; [| done]. by eexists _, _.
Qed.

Lemma append_ok scope (rows : list message_row) a b :
  windows_ok rows -> NoDup (map mr_id (rows ++ [a; b])) ->
  mr_conversation_id a = scope -> mr_conversation_id b = scope ->
  mr_window_index a = None -> mr_window_index b = None ->
  let rows' := rows ++ [a; b] in
  windows_ok rows' /\ count_in scope rows' = (count_in scope rows + 2)%Z /\
  (forall k, members scope k rows' = members scope k rows).
Proof.
  intros [_ Hw] Hnd Ha Hb Hia Hib. cbv zeta.
  assert (forall scope' k, members scope' k (rows ++ [a; b]) = members scope' k rows) as Hm.
  { intros scope' k. unfold members. rewrite List.filter_app. cbn [List.filter]. unfold in_window.
    rewrite Hia, Hib, (bool_decide_false (None = Some k)), !andb_false_r by done. by rewrite app_nil_r. }
  assert (forall scope', (count_in scope' rows <= count_in scope' (rows ++ [a; b]))%Z) as Hc.
  { intros scope'. unfold count_in. rewrite filter_app_length. lia. }
  split; [split; [done |] | split; [| done]].
  - intros scope' k. rewrite Hm. destruct (Hw scope' k) as [H1 H2]. split; [| done]. intros Hne.
    specialize (H1 Hne). pose proof ws_pos. specialize (Hc scope').
    assert (count_in scope' rows / ws <= count_in scope' (rows ++ [a; b]) / ws)%Z by (apply Z.div_le_mono; lia). lia.
  - unfold count_in. rewrite filter_app_length. cbn [List.filter]. unfold in_scope.
    rewrite Ha, Hb, String.eqb_refl. cbn. lia.
Qed.

Lemma run_bind_insert key user reply agent s :
  (append_insert key user reply agent ;! append_close by_time embed summarize_fn window_size key) s =
  match append_insert key user reply agent s with
  | (Ret _, s1) => append_close by_time embed summarize_fn window_size key s1
  | (Raise x, s1) => (Raise x, s1)
  end.
Proof. unfold bind at 1. by destruct (append_insert _ _ _ _ s) as [[]]. Qed.

(** Counting, and closing the window when the count fills one. *)
Lemma close_cases key s :
  let s' := (append_close by_time embed summarize_fn window_size key s).2 in
  let n := count_in key (cn_messages s) in
  cn_messages s' = cn_messages s \/
  (let k := (n / ws - 1)%Z in
   (0 < n)%Z /\ (n mod ws = 0)%Z /\ cn_messages s' = tag key k (cn_messages s)).
Proof.
  cbv zeta. destruct (append_close _ _ _ _ _ s) as [o s'] eqn:Hr. cbn [snd].
  unfold append_close, statement, bind, cn_on_ext, zoom, gets in Hr. cbv beta in Hr.
  destruct (db_fault (cn_ext s)) as [[x |] e]; [left; by injection Hr as _ <- |].
  change (Z.of_nat (length (scope_messages key (mk_conversations e (cn_messages s) (cn_windows s) (cn_pending s)))))
    with (count_in key (cn_messages s)) in Hr.
  destruct ((0 <? _) && _)%Z eqn:Hfull; [| left; by injection Hr as _ <-].
  apply andb_true_iff in Hfull as [Hpos%Z.ltb_lt Hmod%Z.eqb_eq].
  pose proof (close_messages key (count_in key (cn_messages s) / ws - 1)
    (mk_conversations e (cn_messages s) (cn_windows s) (cn_pending s))) as Hclose.
  cbv zeta in Hclose. rewrite Hr in Hclose. cbn [snd cn_messages] in Hclose.
  destruct Hclose as [H | H]; [by left | by right].
Qed.

Lemma append_step scope user reply agent :
  tracks messages_step (pg_append_turns by_time embed summarize_fn window_size scope user reply agent).
Proof.
  intros s Hok. unfold pg_append_turns. cbv zeta. set (key := scope_or_default scope).
  pose proof (insert_messages_cases key user reply agent s) as Hins.
  rewrite (run_bind_insert key user reply agent s).
  destruct (append_insert key user reply agent s) as [[[] | x] s1]; cbn [snd];
    [| rewrite Hins; split; [done | reflexivity]].
  destruct Hins as (a & b & Hrows & Hnd & Ha & Hb & Hia & Hib). rewrite Hrows in Hnd.
  destruct (append_ok key _ a b Hok Hnd Ha Hb Hia Hib) as (Hok1 & Hcount & Hmem). rewrite <- Hrows in Hok1, Hcount, Hmem.
  assert (rows_evolve (cn_messages s) (cn_messages s1)) as Hev.
  { rewrite Hrows. exists (cn_messages s), [a; b]. split; [done |]. generalize (cn_messages s). intros l. induction l; by repeat constructor. }
  enough (cn_messages (append_close by_time embed summarize_fn window_size key s1).2 = cn_messages s1 \/
    (let k := (count_in key (cn_messages s1) / ws - 1)%Z in
     (0 < count_in key (cn_messages s1))%Z /\ (count_in key (cn_messages s1) mod ws = 0)%Z /\
     cn_messages (append_close by_time embed summarize_fn window_size key s1).2 = tag key k (cn_messages s1)))
    as [-> | (Hpos & Hmod & ->)]; [done | | apply close_cases].
  split; [| etransitivity; [exact Hev | apply tag_evolves]]. apply tag_ok; try done.
  destruct (members key _ (cn_messages s1)) as [| m l] eqn:Hm; [done |]. exfalso.
  rewrite Hmem in Hm. destruct Hok as [_ Hw]. destruct (Hw key (count_in key (cn_messages s1) / ws - 1)%Z) as [Hbound _].
  rewrite Hm in Hbound. specialize (Hbound ltac:(done)). rewrite Hcount in *. pose proof ws_pos.
  set (c := count_in key (cn_messages s)) in *.
  assert (c + 2 = ws * ((c + 2) / ws))%Z by (apply Z.div_exact; lia).
  assert (c / ws < (c + 2) / ws)%Z by (apply Z.div_lt_upper_bound; lia). lia.
Qed.

Inductive append_call : S -> S -> Prop :=
  | append_called scope user reply agent s :
      append_call s (pg_append_turns by_time embed summarize_fn window_size scope user reply agent s).2.

(** C37: closed windows are disjoint and bounded.  After any sequence of appends
    to any channels, whichever statements the database refuses and whatever the
    summarizer does, from a table in order: every message is kept with its text,
    a message that belongs to a window stays in it, no window holds more than
    [window_size] messages, and window numbers stay below the number of windows
    that the channel's messages fill. *)
Theorem conversation_windows_sound s s' :
  windows_ok (cn_messages s) -> star append_call s s' ->
  windows_ok (cn_messages s') /\ rows_evolve (cn_messages s) (cn_messages s').
Proof.
  intros Hok Hstar. revert Hok. change (messages_step s s').
  induction Hstar as [s | a b c Hab Hbc IH]; [reflexivity |].
  destruct Hab. etransitivity; [apply append_step | exact IH].
Qed.
End windows.

(** * Witnesses *)

#[local] Instance count_oracle : Oracle N := {
  uuid4 := fun n => ("u" +:+ pretty n, N.succ n);
  utcnow := fun n => (mk_datetime 2026 3 24 12 0 0 0, n)
}.
#[local] Instance no_faults : DbFaults N := { db_fault := fun n => (None, n) }.

Definition empty_conversations : conversations N := mk_conversations 0%N [] ∅ [].

#[local] Abbreviation sample_append n :=
  (pg_append_turns (E := N) (fun l => l) None None 4 "guild::g::channel::c" ("question " +:+ pretty n) "answer" None).

Lemma conversation_windows_sound_witness :
  let s' := (sample_append 2%N (sample_append 1%N empty_conversations).2).2 in
  map mr_window_index (cn_messages s') = [Some 0; Some 0; Some 0; Some 0]%Z /\ windows_ok 4 (cn_messages s').
Proof.
  split; [vm_compute; reflexivity |].
  refine (proj1 (conversation_windows_sound (E := N) (fun l => l) None None 4 empty_conversations _ _
    (star_step _ _ _ _ (append_called _ _ _ _ "guild::g::channel::c" ("question " +:+ pretty 1%N) "answer" None _)
    (star_step _ _ _ _ (append_called _ _ _ _ "guild::g::channel::c" ("question " +:+ pretty 2%N) "answer" None _)
      (star_refl _ _))))).
  split; [constructor |]. intros scope k. split; [done |]. cbn. unfold pg_window_size. lia.
Defined.

(** The insert and the count are two transactions: when two appends of the same
    channel both insert before either counts, the window they fill is not
    closed, and its messages are later filed under the next window's number. *)
Lemma concurrent_appends_skip_a_window :
  let scope := "guild::g::channel::c" in
  let insert n s := (append_insert (E := N) scope ("question " +:+ pretty n) "answer" None s).2 in
  let close s := (append_close (E := N) (fun l => l) None None 4 scope s).2 in
  let s1 := close (insert 1%N empty_conversations) in
  let s2 := close (close (insert 3%N (insert 2%N s1))) in
  let s3 := close (insert 4%N s2) in
  map mr_window_index (cn_messages s2) = repeat None 6 /\
  map mr_window_index (cn_messages s3) = repeat (Some 1%Z) 4 ++ repeat None 4.
Proof. split; vm_compute; reflexivity. Qed.
