(* ===== verification/Artifacts.v ===== *)
(** Project artifacts: governed documents with revisions.

    Models [data_access/repositories/artifacts.py],
    [data_access/artifact_file_store.py] and
    [data_access/repositories/postgres/governance_artifact_repository.py].

    The [artifacts] table is a finite map over its unique key (project, type,
    revision); [COUNT] is the size of a filtered map and [ORDER BY] a sort.
    How the operating system resolves a path and which paths it fails to write
    or read are parameters, as are SHA-256 and the configured system root. *)

From Stdlib Require Import Ascii.
From S2P Require Import Prelude PyStr PyData LlmSchemas ProjectModel ProjectRows ProjectRepo Governance.

(** * Policy and records *)

Definition _MVP_ARTIFACT_TYPE_CAPS : list (string * Z) :=
  [("project_charter", 1); ("scope_statement", 1); ("budget_plan", 1); ("success_metrics", 1);
   ("workforce_plan", 1); ("execution_plan", 1); ("decision_log", 4); ("risk_register", 3);
   ("progress_report", 6); ("completion_report", 1); ("cso_review", 12); ("ceo_proposal_decision", 12);
   ("ceo_coapproval", 8); ("cwo_coapproval", 8); ("auditor_finding", 32); ("auditor_enforcement", 32);
   ("auditor_owner_escalation", 32); ("auditor_ceo_notification", 32); ("auditor_owner_alert", 32);
   ("administrator_retention", 32); ("administrator_containment", 32);
   ("administrator_owner_notification", 32); ("administrator_ceo_notification", 32);
   ("administrator_owner_alert", 32)]%Z.

Definition _APPEND_ONLY_ARTIFACT_TYPES : list string := ["decision_log"; "progress_report"; "completion_report"].

Definition _GOVERNANCE_EVENT_ARTIFACT_TYPES : list string :=
  ["cso_review"; "ceo_proposal_decision"; "ceo_coapproval"; "cwo_coapproval"; "auditor_finding";
   "auditor_enforcement"; "auditor_owner_escalation"; "auditor_ceo_notification"; "auditor_owner_alert";
   "administrator_retention"; "administrator_containment"; "administrator_owner_notification";
   "administrator_ceo_notification"; "administrator_owner_alert"].

Definition _PROJECT_WRITABLE_STATES : list string := ["proposed"; "approved"; "active"; "paused"].

Definition _PROJECT_MANAGER_FORBIDDEN_WRITE_TYPES : list string := ["project_charter"; "workforce_plan"].

Record ProjectDocumentPolicy : Type := mk_ProjectDocumentPolicy {
  allowed_type_caps : list (string * Z);
  total_active_document_cap : Z
}.

Definition mvp_defaults : ProjectDocumentPolicy := mk_ProjectDocumentPolicy _MVP_ARTIFACT_TYPE_CAPS 20.

Fixpoint caps_get (caps : list (string * Z)) (k : string) : option Z :=
  match caps with
  | [] => None
  | (k', v) :: caps' => if String.eqb k' k then Some v else caps_get caps' k
  end.

Definition cap_for_type (policy : ProjectDocumentPolicy) (artifact_type : string) : outcome Z :=
  match caps_get (allowed_type_caps policy) artifact_type with
  | Some cap => Ret cap
  | None => Raise (ProjectArtifactRepositoryError "artifact_type_not_allowed"
                     ("artifact_type is not allowed by policy: " +:+ artifact_type))
  end.

Record ProjectArtifactPointer : Type := mk_ProjectArtifactPointer {
  pt_project_id : string;
  pt_artifact_type : string;
  pt_revision_no : Z;
  pt_storage_uri : string;
  pt_content_hash : string;
  pt_created_at : datetime;
  pt_byte_size : Z
}.

Record ProjectArtifactDocument : Type := mk_ProjectArtifactDocument {
  ad_pointer : ProjectArtifactPointer;
  ad_content : string
}.

Record ProjectArtifactWriteContext : Type := mk_ProjectArtifactWriteContext {
  wc_actor_role : string;
  wc_project_status : string;
  wc_approval_roles : list string
}.

(** A row of the [artifacts] table; its key is part of the pointer. *)
Record ArtifactRow : Type := mk_ArtifactRow {
  aw_artifact_id : string;
  aw_document : ProjectArtifactDocument
}.

Abbreviation artifact_key := (string * string * Z)%type.

Record artifact_store : Type := mk_artifact_store {
  as_rows : gmap artifact_key ArtifactRow;
  as_files : gmap string string
}.

(** * Formats *)

Definition is_ascii_alnum (c : ascii) : bool :=
  let n := nat_of_ascii c in
  (((48 <=? n) && (n <=? 57)) || ((65 <=? n) && (n <=? 90)) || ((97 <=? n) && (n <=? 122)))%nat.

Definition is_ascii_lower (c : ascii) : bool :=
  let n := nat_of_ascii c in ((97 <=? n) && (n <=? 122))%nat.

Definition is_digit (c : ascii) : bool := let n := nat_of_ascii c in ((48 <=? n) && (n <=? 57))%nat.

Definition char_in (l : string) (c : ascii) : bool := has_char c l.

Definition all_chars (p : ascii -> bool) (s : string) : bool := forallb p (String.list_ascii_of_string s).

(** [^[A-Za-z0-9][A-Za-z0-9_.-]{0,127}$] on a stripped string, which has no
    final newline for [$] to skip. *)
Definition project_id_pattern (s : string) : bool :=
  match s with
  | EmptyString => false
  | String c s' =>
      is_ascii_alnum c && all_chars (fun d => is_ascii_alnum d || char_in "_.-" d) s' &&
      (String.length s' <=? 127)%nat
  end.

(** [^[a-z][a-z0-9_]{0,63}$]. *)
Definition artifact_type_pattern (s : string) : bool :=
  match s with
  | EmptyString => false
  | String c s' =>
      is_ascii_lower c && all_chars (fun d => is_ascii_lower d || is_digit d || char_in "_" d) s' &&
      (String.length s' <=? 63)%nat
  end.

Definition _validate_project_id (project_id : string) : outcome string :=
  let normalized := strip project_id in
  if project_id_pattern normalized then Ret normalized
  else Raise (ProjectArtifactRepositoryError "artifact_project_id_invalid"
                ("project_id format invalid: " +:+ py_repr project_id)).

Definition _validate_artifact_type (artifact_type : string) : outcome string :=
  let normalized := norm artifact_type in
  if artifact_type_pattern normalized then Ret normalized
  else Raise (ProjectArtifactRepositoryError "artifact_type_invalid"
                ("artifact_type format invalid: " +:+ py_repr artifact_type)).

(** [f"{n:03d}"]. *)
Definition pad3 (n : Z) : string := if ((0 <=? n) && (n <? 1000))%Z then digits 3 n else str_int n.

(** [len(s.encode("utf-8"))] of a Latin-1 string. *)
Definition utf8_length (s : string) : Z :=
  foldr (fun c n => ((if (nat_of_ascii c <? 128)%nat then 1 else 2) + n)%Z) 0%Z (String.list_ascii_of_string s).

(** * Authorization *)

Definition _assert_write_authorization (artifact_type : string) (c : ProjectArtifactWriteContext) : outcome unit :=
  let actor_role := norm (wc_actor_role c) in
  let project_status := norm (wc_project_status c) in
  if negb (mem project_status _PROJECT_WRITABLE_STATES) then
    Raise (ProjectArtifactRepositoryError "artifact_project_not_writable"
             ("project status does not allow artifact writes: " +:+ project_status))
  else if String.eqb actor_role "project_manager" then
    if mem artifact_type _PROJECT_MANAGER_FORBIDDEN_WRITE_TYPES then
      Raise (ProjectArtifactRepositoryError "artifact_write_forbidden"
               ("project_manager cannot write artifact type: " +:+ artifact_type))
    else Ret tt
  else if mem actor_role ["owner"; "ceo"; "cwo"; "auditor"; "administrator"] then Ret tt
  else Raise (ProjectArtifactRepositoryError "artifact_write_role_forbidden"
                ("actor role cannot write artifacts: " +:+ actor_role)).

Definition _assert_total_cap (total_count cap : Z) : outcome unit :=
  if (cap <=? total_count)%Z then
    Raise (ProjectArtifactRepositoryError "artifact_project_document_cap_exceeded"
             ("project total active-document cap exceeded: (" +:+ str_int total_count +:+ "/" +:+
              str_int cap +:+ ")"))
  else Ret tt.

(** * Queries *)

Section rows.
Implicit Types rows : gmap artifact_key ArtifactRow.

(** [SELECT COUNT( * ) .. WHERE project_id AND artifact_type]. *)
Definition type_count (pid atype : string) rows : Z :=
  Z.of_nat (size (filter (fun kv : artifact_key * ArtifactRow => kv.1.1 = (pid, atype)) rows)).

Definition total_count (pid : string) rows : Z :=
  Z.of_nat (size (filter (fun kv : artifact_key * ArtifactRow => kv.1.1.1 = pid) rows)).

Definition row_revision (r : ArtifactRow) : Z := pt_revision_no (ad_pointer (aw_document r)).

Definition revision_leb (a b : ArtifactRow) : bool := (row_revision a <=? row_revision b)%Z.

Definition rows_of (pid atype : string) rows : list ArtifactRow :=
  map snd (map_to_list (filter (fun kv : artifact_key * ArtifactRow => kv.1.1 = (pid, atype)) rows)).

(** [ORDER BY revision_no DESC LIMIT 1]. *)
Definition latest_row (pid atype : string) rows : option ArtifactRow :=
  head (sorted (fun a b => revision_leb b a) (rows_of pid atype rows)).
End rows.

Definition get_latest_pointer (pid atype : string) : M artifact_store (option ProjectArtifactPointer) :=
  let! p := of_outcome (_validate_project_id pid) in
  let! t := of_outcome (_validate_artifact_type atype) in
  gets (fun s => (fun r => ad_pointer (aw_document r)) <$> latest_row p t (as_rows s)).

Definition read_latest_artifact (pid atype : string) : M artifact_store (option ProjectArtifactDocument) :=
  let! p := of_outcome (_validate_project_id pid) in
  let! t := of_outcome (_validate_artifact_type atype) in
  gets (fun s => aw_document <$> latest_row p t (as_rows s)).

Definition list_artifact_documents (pid atype : string) : M artifact_store (list ProjectArtifactDocument) :=
  let! p := of_outcome (_validate_project_id pid) in
  let! t := of_outcome (_validate_artifact_type atype) in
  gets (fun s => map aw_document (sorted revision_leb (rows_of p t (as_rows s)))).

Definition list_pointers (pid atype : string) : M artifact_store (list ProjectArtifactPointer) :=
  let! p := of_outcome (_validate_project_id pid) in
  let! t := of_outcome (_validate_artifact_type atype) in
  gets (fun s => map (fun r => ad_pointer (aw_document r)) (sorted revision_leb (rows_of p t (as_rows s)))).

(** [ORDER BY created_at ASC, project_id ASC, revision_no ASC]. *)
Definition by_type_leb (a b : ArtifactRow) : bool :=
  let p := ad_pointer (aw_document a) in
  let q := ad_pointer (aw_document b) in
  if dt_ltb (pt_created_at p) (pt_created_at q) then true
  else if dt_ltb (pt_created_at q) (pt_created_at p) then false
  else if String.eqb (pt_project_id p) (pt_project_id q) then revision_leb a b
  else str_leb (pt_project_id p) (pt_project_id q).

Definition list_artifact_documents_by_type (atype : string) : M artifact_store (list ProjectArtifactDocument) :=
  let! t := of_outcome (_validate_artifact_type atype) in
  gets (fun s => map aw_document (sorted by_type_leb
    (map snd (map_to_list (filter (fun kv : artifact_key * ArtifactRow => kv.1.1.2 = t) (as_rows s)))))).

(** * The file store *)

Section files.
Context (system_root : string).
Context (resolve_path : string * list string -> string * list string).
Context (write_fault read_fault : string -> option string).
Context (sha256 : string -> string).

Definition projects_root : string * list string := path_join (parse_path system_root) "projects".

Definition _canonical_path (pid atype : string) (version_no : Z) : string * list string :=
  path_join (path_join projects_root pid) (atype +:+ "-v" +:+ pad3 version_no +:+ ".md").

Fixpoint is_prefix_of (a b : list string) : bool :=
  match a, b with
  | [], _ => true
  | x :: a', y :: b' => String.eqb x y && is_prefix_of a' b'
  | _ :: _, [] => false
  end.

(** [resolved.relative_to(root)] raises unless the root's parts come first. *)
Definition within_root (path : string * list string) : bool :=
  let r := resolve_path path in
  let root := resolve_path projects_root in
  String.eqb r.1 root.1 && is_prefix_of root.2 r.2.

Definition _assert_within_projects_root (path : string * list string) : outcome unit :=
  if within_root path then Ret tt
  else Raise (ArtifactFileStoreError "artifact_file_store_path_traversal"
                ("path escapes projects root: " +:+ path_str (resolve_path path))).

Definition file_key (path : string * list string) : string := path_str (resolve_path path).

Definition file_store_write (pid atype : string) (version_no : Z) (text : string)
    : M artifact_store (string * string) :=
  let path := _canonical_path pid atype version_no in
  of_outcome (_assert_within_projects_root path) ;!
  match write_fault (path_str path) with
  | Some reason => raise (ArtifactFileStoreError "artifact_file_store_write_error" reason)
  | None =>
      modify (fun s => mk_artifact_store (as_rows s) (<[file_key path := text]> (as_files s))) ;!
      ret ("file://" +:+ file_key path, sha256 text)
  end.

Definition file_store_read (storage_uri : string) : M artifact_store string :=
  if negb (startswith storage_uri "file://") then
    raise (ArtifactFileStoreError "artifact_file_store_scheme_invalid"
             ("storage_uri must start with file://, got: " +:+ py_repr storage_uri))
  else
    let path := parse_path (String.substring 7 (String.length storage_uri) storage_uri) in
    of_outcome (_assert_within_projects_root path) ;!
    let! found := gets (fun s => as_files s !! file_key path) in
    match found with
    | None => raise (ArtifactFileStoreError "artifact_file_store_not_found"
                       ("artifact file not found: " +:+ path_str path))
    | Some text =>
        match read_fault (path_str path) with
        | Some reason => raise (ArtifactFileStoreError "artifact_file_store_read_error" reason)
        | None => ret text
        end
    end.

(** * Writing a revision *)

Context (policy : ProjectDocumentPolicy) (has_file_store : bool).

(** The checks of [write_project_artifact]; [counts] is what the two queries
    answered.  The result is the revision number. *)
Definition check_revision (atype : string) (per_type_cap current total : Z) : outcome Z :=
  let? _ :=
    if mem atype _APPEND_ONLY_ARTIFACT_TYPES && (per_type_cap <=? current)%Z then
      Raise (ProjectArtifactRepositoryError "artifact_type_cap_exceeded"
               ("artifact_type active-document cap exceeded: " +:+ atype +:+ " (" +:+ str_int current +:+
                "/" +:+ str_int per_type_cap +:+ ")"))
    else Ret tt in
  let? _ :=
    if Z.eqb current 0 && negb (mem atype _GOVERNANCE_EVENT_ARTIFACT_TYPES) then
      _assert_total_cap total (total_active_document_cap policy)
    else Ret tt in
  Ret (current + 1)%Z.

Definition plan_revision (pid atype : string) (context : option ProjectArtifactWriteContext)
    : M artifact_store (string * string * Z) :=
  match context with
  | None => raise (ProjectArtifactRepositoryError "artifact_write_context_missing"
                     "artifact write context is required for governed writes")
  | Some c =>
      let! p := of_outcome (_validate_project_id pid) in
      let! t := of_outcome (_validate_artifact_type atype) in
      of_outcome (_assert_write_authorization t c) ;!
      let! cap := of_outcome (cap_for_type policy t) in
      let! rows := gets as_rows in
      let! revision := of_outcome (check_revision t cap (type_count p t rows) (total_count p rows)) in
      ret (p, t, revision)
  end.

Definition int4 (z : Z) : bool := ((-2147483648 <=? z) && (z <=? 2147483647))%Z.

(** [INSERT .. ON CONFLICT DO UPDATE]: a row of the key keeps its identifier,
    location and creation time. *)
Definition insert_artifact (uuid : string) (d : ProjectArtifactDocument) : M artifact_store unit :=
  let p := ad_pointer d in
  let key := (pt_project_id p, pt_artifact_type p, pt_revision_no p) in
  if negb (int4 (pt_revision_no p) && int4 (pt_byte_size p)) then
    raise (DatabaseError "integer out of range")
  else
    let merge old :=
      mk_ArtifactRow (aw_artifact_id old)
        (mk_ProjectArtifactDocument
           (let q := ad_pointer (aw_document old) in
            mk_ProjectArtifactPointer (pt_project_id q) (pt_artifact_type q) (pt_revision_no q)
              (pt_storage_uri q) (pt_content_hash p) (pt_created_at q) (pt_byte_size p))
           (ad_content d)) in
    modify (fun s => mk_artifact_store
      (<[key := match as_rows s !! key with Some old => merge old | None => mk_ArtifactRow uuid d end]> (as_rows s))
      (as_files s)).

Definition store_revision (uuid : string) (now : datetime) (pid atype : string) (revision : Z) (text : string)
    : M artifact_store ProjectArtifactPointer :=
  let! (uri, hash) :=
    if has_file_store then file_store_write pid atype revision text
    else ret ("db://artifacts/" +:+ pid +:+ "/" +:+ atype +:+ "/v" +:+ pad3 revision, sha256 text) in
  let pointer := mk_ProjectArtifactPointer pid atype revision uri hash now (utf8_length text) in
  insert_artifact uuid (mk_ProjectArtifactDocument pointer text) ;! ret pointer.

Definition write_project_artifact (uuid : string) (now : datetime) (pid atype text : string)
    (context : option ProjectArtifactWriteContext) : M artifact_store ProjectArtifactPointer :=
  let! (p, t, revision) := plan_revision pid atype context in
  store_revision uuid now p t revision text.
End files.
