(* ===== verification/ArtifactFacts.v ===== *)
(** What the artifact repository guarantees: revisions are numbered without
    gaps and never rewritten, writes are authorized and capped, and what was
    written is read back. *)

From S2P Require Import Prelude PyStr PyData LlmSchemas ProjectModel ProjectRows ProjectRepo Governance Artifacts.

(** * The first element of a sort *)

Section head_of_sort.
Context {A : Type} (leb : A -> A -> bool).
Hypothesis leb_total : forall a b, leb a b = true \/ leb b a = true.
Hypothesis leb_trans : forall a b c, leb a b = true -> leb b c = true -> leb a c = true.

Lemma insert_sorted_head x l :
  head (insert_sorted leb x l) =
  Some (match head l with Some y => if leb x y then x else y | None => x end).
Proof. destruct l as [| y l]; [done |]. cbn. by destruct (leb x y). Qed.

Lemma sorted_head_least l y : head (sorted leb l) = Some y -> forall z, In z l -> leb y z = true.
Proof.
  revert y. induction l as [| x l IH]; intros y; [done |]. cbn [sorted foldr].
  rewrite insert_sorted_head. intros [= <-] z Hz. change (foldr (insert_sorted leb) [] l) with (sorted leb l) in *.
  assert (leb x x = true) as Hrefl by (destruct (leb_total x x); done).
  destruct (head (sorted leb l)) as [w |] eqn:Hw.
  - specialize (IH w eq_refl). destruct (leb x w) eqn:Hxw; destruct Hz as [<- | Hz]; eauto.
    destruct (leb_total w x); congruence.
  - destruct Hz as [<- | Hz]; [done |]. destruct l as [| v l]; [done |]. exfalso.
    cbn [sorted foldr] in Hw. by rewrite insert_sorted_head in Hw.
Qed.

Lemma sorted_head_In l y : head (sorted leb l) = Some y -> In y l.
Proof.
  intros H. rewrite <- list_elem_of_In, <- (sorted_perm leb l), list_elem_of_In.
  destruct (sorted leb l); [done |]. injection H as <-. by left.
Qed.
End head_of_sort.

(** ** Dropping a prefix *)

Lemma substring_after (p x : string) :
  String.substring (String.length p) (String.length (p +:+ x)) (p +:+ x) = x.
Proof. apply substring_drop. rewrite length_str_app. lia. Qed.

(** * The table *)

Abbreviation artifact_rows := (gmap artifact_key ArtifactRow).

Definition contiguous (rows : artifact_rows) : Prop :=
  forall p t k, is_Some (rows !! (p, t, k)) <-> (1 <= k <= type_count p t rows)%Z.

Definition rows_match (rows : artifact_rows) : Prop :=
  forall p t k r, rows !! (p, t, k) = Some r ->
    let q := ad_pointer (aw_document r) in
    pt_project_id q = p /\ pt_artifact_type q = t /\ pt_revision_no q = k.

Definition table_ok (rows : artifact_rows) : Prop := contiguous rows /\ rows_match rows.

Lemma table_ok_empty : table_ok ∅.
Proof.
  split; [| by intros p t k r]. intros p t k. unfold type_count. rewrite map_filter_empty, map_size_empty.
  rewrite lookup_empty. split; [by intros [] | lia].
Qed.

Lemma type_count_insert (p t : string) (k : Z) (r : ArtifactRow) (rows : artifact_rows) (p' t' : string) :
  rows !! (p, t, k) = None ->
  type_count p' t' (<[(p, t, k) := r]> rows) =
  (type_count p' t' rows + if decide ((p, t) = (p', t')) then 1 else 0)%Z.
Proof.
  intros Hn. unfold type_count. destruct (decide _) as [[= <- <-] | Hne].
  - rewrite map_filter_insert_True by done. rewrite map_size_insert_None; [lia |].
    apply map_lookup_filter_None. by left.
  - rewrite map_filter_insert_False by done. rewrite delete_id by done. lia.
Qed.

Lemma table_ok_insert (p t : string) (r : ArtifactRow) (rows : artifact_rows) :
  table_ok rows -> let k := (type_count p t rows + 1)%Z in
  pt_project_id (ad_pointer (aw_document r)) = p -> pt_artifact_type (ad_pointer (aw_document r)) = t ->
  pt_revision_no (ad_pointer (aw_document r)) = k ->
  rows !! (p, t, k) = None /\ table_ok (<[(p, t, k) := r]> rows).
Proof.
  intros [Hc Hm] k Hp Ht Hk.
  assert (rows !! (p, t, k) = None) as Hn.
  { destruct (rows !! (p, t, k)) eqn:E; [| done]. assert (is_Some (rows !! (p, t, k))) as Hs by by eexists.
    apply Hc in Hs. lia. }
  split; [done |]. split.
  - intros p' t' j. rewrite type_count_insert by done.
    destruct (decide ((p, t, k) = (p', t', j))) as [[= <- <- <-] | Hne].
    + rewrite lookup_insert_eq, decide_True by done. split; [| by eexists]. intros _.
      assert (0 <= type_count p t rows)%Z by (unfold type_count; lia). lia.
    + rewrite lookup_insert_ne by done. rewrite (Hc p' t' j). destruct (decide _) as [[= <- <-] | ?]; [| lia].
      assert (j <> k) by congruence. lia.
  - intros p' t' j r'. destruct (decide ((p, t, k) = (p', t', j))) as [[= <- <- <-] | Hne].
    + rewrite lookup_insert_eq. by intros [= <-].
    + rewrite lookup_insert_ne by done. apply Hm.
Qed.

(** The latest row is the one with the highest revision. *)
Lemma latest_row_spec (p t : string) (rows : artifact_rows) :
  table_ok rows -> latest_row p t rows = rows !! (p, t, type_count p t rows).
Proof.
  intros [Hc Hm]. unfold latest_row.
  assert (forall r, In r (rows_of p t rows) <-> exists k, rows !! (p, t, k) = Some r) as Hin.
  { intros r. unfold rows_of. rewrite in_map_iff. split.
    - intros ([[[p' t'] k] r'] & <- & Hkr). apply list_elem_of_In, elem_of_map_to_list in Hkr.
      apply map_lookup_filter_Some in Hkr as [Hkr [= -> ->]]. by exists k.
    - intros [k Hk]. exists ((p, t, k), r). split; [done |].
      apply list_elem_of_In, elem_of_map_to_list, map_lookup_filter_Some. done. }
  destruct (head _) as [y |] eqn:Hh.
  - pose proof (proj1 (Hin y) (sorted_head_In _ _ _ Hh)) as [k Hk].
    assert (is_Some (rows !! (p, t, k))) as Hb by by eexists. apply Hc in Hb.
    assert (is_Some (rows !! (p, t, type_count p t rows))) as [z Hz] by (apply Hc; lia).
    assert (revision_leb z y = true) as Hle.
    { refine (sorted_head_least (fun a b => revision_leb b a) _ _ _ _ Hh z _).
      - intros a b. unfold revision_leb. rewrite !Z.leb_le. lia.
      - intros a b c. unfold revision_leb. rewrite !Z.leb_le. lia.
      - apply Hin. by eexists. }
    destruct (Hm _ _ _ _ Hk) as (_ & _ & Hky). destruct (Hm _ _ _ _ Hz) as (_ & _ & Hkz).
    unfold revision_leb, row_revision in Hle. rewrite Hky, Hkz, Z.leb_le in Hle.
    assert (k = type_count p t rows) as -> by lia. congruence.
  - destruct (rows !! (p, t, type_count p t rows)) as [z |] eqn:Hz; [exfalso | done].
    assert (In z (rows_of p t rows)) as Hz' by (apply Hin; by eexists).
    rewrite <- list_elem_of_In, <- (sorted_perm (fun a b => revision_leb b a)), list_elem_of_In in Hz'.
    by destruct (sorted _ _).
Qed.

Section facts.
Context (system_root : string).
Context (resolve_path : string * list string -> string * list string).
Context (write_fault read_fault : string -> option string).
Context (sha256 : string -> string).
Context (policy : ProjectDocumentPolicy) (has_file_store : bool).

#[local] Abbreviation write :=
  (write_project_artifact system_root resolve_path write_fault sha256 policy has_file_store).
#[local] Abbreviation store :=
  (store_revision system_root resolve_path write_fault sha256 has_file_store).

(** ** One write *)

(** What a planned write has established. *)
Definition plan_ok (pid atype : string) (context : option ProjectArtifactWriteContext) (rows : artifact_rows)
    (p t : string) (revision : Z) : Prop :=
  p = strip pid /\ project_id_pattern p = true /\ t = norm atype /\ artifact_type_pattern t = true /\
  (exists c cap, context = Some c /\ _assert_write_authorization t c = Ret tt /\ cap_for_type policy t = Ret cap /\
     (In t _APPEND_ONLY_ARTIFACT_TYPES -> (type_count p t rows < cap)%Z)) /\
  (type_count p t rows = 0%Z -> ~ In t _GOVERNANCE_EVENT_ARTIFACT_TYPES ->
   (total_count p rows < total_active_document_cap policy)%Z) /\
  revision = (type_count p t rows + 1)%Z.

Lemma check_revision_ret t cap current total revision :
  check_revision policy t cap current total = Ret revision ->
  (In t _APPEND_ONLY_ARTIFACT_TYPES -> (current < cap)%Z) /\
  (current = 0%Z -> ~ In t _GOVERNANCE_EVENT_ARTIFACT_TYPES -> (total < total_active_document_cap policy)%Z) /\
  revision = (current + 1)%Z.
Proof.
  unfold check_revision, obind, _assert_total_cap.
  destruct (mem t _APPEND_ONLY_ARTIFACT_TYPES && (cap <=? current)%Z) eqn:E1; [done |].
  intros H. split; [| split].
  - intros Hin%mem_In. rewrite Hin in E1. apply Z.leb_gt in E1. lia.
  - intros -> Hev%mem_not_In. rewrite Hev in H. cbn [Z.eqb andb negb] in H.
    destruct (Z.leb_spec (total_active_document_cap policy) total); [done | lia].
  - destruct (if _ && _ then _ else _); congruence.
Qed.

Lemma plan_revision_pure pid atype context s : (plan_revision policy pid atype context s).2 = s.
Proof.
  unfold plan_revision. destruct context as [c |]; [| done]. unfold bind, of_outcome, gets, ret.
  destruct (_validate_project_id pid); [| done]. destruct (_validate_artifact_type atype); [| done].
  destruct (_assert_write_authorization _ _); [| done]. destruct (cap_for_type _ _); [| done].
  by destruct (check_revision _ _ _ _ _).
Qed.

Lemma plan_revision_ret pid atype context s p t revision :
  (plan_revision policy pid atype context s).1 = Ret (p, t, revision) ->
  plan_ok pid atype context (as_rows s) p t revision.
Proof.
  unfold plan_revision. destruct context as [c |]; [| done]. unfold bind, of_outcome, gets, ret.
  unfold _validate_project_id. cbv zeta. destruct (project_id_pattern (strip pid)) eqn:Hp; [| done].
  unfold _validate_artifact_type. cbv zeta. destruct (artifact_type_pattern (norm atype)) eqn:Ht; [| done].
  destruct (_assert_write_authorization (norm atype) c) as [[] |] eqn:Ha; [| done].
  destruct (cap_for_type policy (norm atype)) as [cap |] eqn:Hcap; [| done].
  destruct (check_revision _ _ _ _ _) as [n |] eqn:Hr; [| done]. cbn. intros [= <- <- <-].
  destruct (check_revision_ret _ _ _ _ _ Hr) as (H1 & H2 & H3).
  unfold plan_ok. split_and!; try done. by exists c, cap.
Qed.

(** The document a write stores. *)
Definition stored_document (now : datetime) (p t text : string) (revision : Z) (uri : string)
    : ProjectArtifactDocument :=
  mk_ProjectArtifactDocument
    (mk_ProjectArtifactPointer p t revision uri (sha256 text) now (utf8_length text)) text.

Lemma store_rows uuid now p t revision text s :
  as_rows s !! (p, t, revision) = None ->
  match store uuid now p t revision text s with
  | (Ret ptr, s') =>
      exists uri, ptr = ad_pointer (stored_document now p t text revision uri) /\
        as_rows s' = <[(p, t, revision) := mk_ArtifactRow uuid (stored_document now p t text revision uri)]> (as_rows s) /\
        (has_file_store = true ->
         let path := _canonical_path system_root p t revision in
         within_root system_root resolve_path path = true /\
         uri = "file://" +:+ file_key resolve_path path /\
         as_files s' = <[file_key resolve_path path := text]> (as_files s))
  | (Raise _, s') => as_rows s' = as_rows s
  end.
Proof.
  intros Hn. unfold store_revision, bind at 1.
  set (located := if has_file_store then _ else _).
  assert (match located s with
          | (Ret (uri, hash), s') => hash = sha256 text /\ as_rows s' = as_rows s /\
              (has_file_store = true ->
               let path := _canonical_path system_root p t revision in
               within_root system_root resolve_path path = true /\
               uri = "file://" +:+ file_key resolve_path path /\
               as_files s' = <[file_key resolve_path path := text]> (as_files s))
          | (Raise _, s') => as_rows s' = as_rows s
          end) as Hloc.
  { subst located. destruct has_file_store; [| done]. unfold file_store_write. cbv zeta.
    unfold bind, of_outcome, _assert_within_projects_root.
    destruct (within_root _ _ _) eqn:Hw; [| done]. by destruct (write_fault _). }
  destruct (located s) as [[[uri hash] | e] s1]; [| done]. destruct Hloc as (-> & Hrows & Hfile).
  cbv zeta. unfold bind, insert_artifact. cbv zeta. destruct (negb _); [by rewrite <- Hrows |].
  unfold modify, ret. cbn [ad_pointer pt_project_id pt_artifact_type pt_revision_no].
  exists uri. split; [done |]. cbn [as_rows as_files]. rewrite Hrows, Hn. done.
Qed.

Lemma write_cases uuid now pid atype text context s :
  table_ok (as_rows s) ->
  match write uuid now pid atype text context s with
  | (Ret ptr, s') =>
      exists p t revision uri, plan_ok pid atype context (as_rows s) p t revision /\
        let d := stored_document now p t text revision uri in
        ptr = ad_pointer d /\ as_rows s !! (p, t, revision) = None /\
        as_rows s' = <[(p, t, revision) := mk_ArtifactRow uuid d]> (as_rows s) /\
        table_ok (as_rows s') /\
        (has_file_store = true ->
         let path := _canonical_path system_root p t revision in
         within_root system_root resolve_path path = true /\
         uri = "file://" +:+ file_key resolve_path path /\
         as_files s' = <[file_key resolve_path path := text]> (as_files s))
  | (Raise _, s') => as_rows s' = as_rows s
  end.
Proof.
  intros Hok. unfold write_project_artifact, bind at 1.
  pose proof (plan_revision_pure pid atype context s) as Hpure.
  destruct (plan_revision policy pid atype context s) as [[[[p t] revision] | e] s1] eqn:Hplan;
    cbn [snd] in Hpure; subst s1; [| done].
  pose proof (plan_revision_ret pid atype context s p t revision ltac:(by rewrite Hplan)) as Hp.
  assert (forall uri, as_rows s !! (p, t, revision) = None /\
    table_ok (<[(p, t, revision) := mk_ArtifactRow uuid (stored_document now p t text revision uri)]> (as_rows s)))
    as Hins.
  { intros uri. destruct Hp as (_ & _ & _ & _ & _ & _ & ->). by apply table_ok_insert. }
  pose proof (store_rows uuid now p t revision text s (proj1 (Hins ""))) as Hs.
  destruct (store uuid now p t revision text s) as [[ptr | e] s']; [| done].
  destruct Hs as (uri & -> & Hrows & Hfile). exists p, t, revision, uri. rewrite Hrows.
  split_and!; [apply Hp .. | done | apply (Hins uri) | done | apply (Hins uri) | exact Hfile].
Qed.

(** ** Sequences of writes *)

Inductive artifact_step : artifact_store -> artifact_store -> Prop :=
  | artifact_written uuid now pid atype text context s :
      artifact_step s (write uuid now pid atype text context s).2.

(** Append-only types stay within their caps. *)
Definition within_caps (rows : artifact_rows) : Prop :=
  forall p t cap, In t _APPEND_ONLY_ARTIFACT_TYPES -> cap_for_type policy t = Ret cap ->
    (type_count p t rows <= cap)%Z.

Lemma write_keeps uuid now pid atype text context s :
  table_ok (as_rows s) ->
  let s' := (write uuid now pid atype text context s).2 in
  table_ok (as_rows s') /\ as_rows s ⊆ as_rows s' /\ (within_caps (as_rows s) -> within_caps (as_rows s')).
Proof.
  intros Hok. pose proof (write_cases uuid now pid atype text context s Hok) as H. cbv zeta.
  destruct (write uuid now pid atype text context s) as [[ptr | e] s']; cbn [snd]; [| by rewrite H].
  destruct H as (p & t & revision & uri & Hp & _ & Hn & Hrows & Hok' & _).
  split; [done |]. rewrite Hrows. split; [by apply insert_subseteq |].
  intros Hcaps p' t' cap' Hin Hcap. rewrite type_count_insert by done.
  specialize (Hcaps p' t' cap' Hin Hcap). destruct (decide _) as [[= <- <-] | ?]; [| lia].
  destruct Hp as (_ & _ & _ & _ & (c & cap & _ & _ & Hc & Hlt) & _). rewrite Hcap in Hc. injection Hc as ->.
  specialize (Hlt Hin). lia.
Qed.

(** * Theorems *)

(** C20: artifact revisions are an append-only history.  After any sequence of
    writes, successful or not, by any callers, every row that was there is still
    there unchanged, the revisions of each project and type are exactly 1, 2, ..
    up to their number, and decision logs, progress reports and completion
    reports stay within the caps of the policy. *)
Theorem artifact_history_append_only s s' :
  table_ok (as_rows s) -> within_caps (as_rows s) -> star artifact_step s s' ->
  table_ok (as_rows s') /\ as_rows s ⊆ as_rows s' /\ within_caps (as_rows s').
Proof.
  intros Hok Hcaps Hstar. induction Hstar as [s | a b c Hab Hbc IH]; [done |].
  destruct Hab as [uuid now pid atype text context a].
  destruct (write_keeps uuid now pid atype text context a Hok) as (H1 & H2 & H3).
  destruct (IH H1 (H3 Hcaps)) as (K1 & K2 & K3). split; [done |]. split; [by etransitivity | done].
Qed.

(** Only governed writes are stored.  A write that returns had a context
    whose role may write this type (the project manager neither the charter nor
    the workforce plan, nobody outside the five governing roles and the project
    manager) on a project that is proposed, approved, active or paused, for a
    type the policy lists and a well-formed project identifier; it adds exactly
    one row, the next revision.  A write that raises leaves the table alone. *)
Theorem artifact_write_governed uuid now pid atype text context s :
  table_ok (as_rows s) ->
  match write uuid now pid atype text context s with
  | (Ret ptr, s') =>
      exists c p t row, context = Some c /\ p = strip pid /\ t = norm atype /\
        project_id_pattern p = true /\ is_Some (caps_get (allowed_type_caps policy) t) /\
        In (norm (wc_project_status c)) _PROJECT_WRITABLE_STATES /\
        In (norm (wc_actor_role c)) ["project_manager"; "owner"; "ceo"; "cwo"; "auditor"; "administrator"] /\
        (norm (wc_actor_role c) = "project_manager" -> t <> "project_charter" /\ t <> "workforce_plan") /\
        pt_revision_no ptr = (type_count p t (as_rows s) + 1)%Z /\
        as_rows s !! (p, t, pt_revision_no ptr) = None /\
        as_rows s' = <[(p, t, pt_revision_no ptr) := row]> (as_rows s) /\
        ad_pointer (aw_document row) = ptr /\ ad_content (aw_document row) = text
  | (Raise _, s') => as_rows s' = as_rows s
  end.
Proof.
  intros Hok. pose proof (write_cases uuid now pid atype text context s Hok) as H.
  destruct (write uuid now pid atype text context s) as [[ptr | e] s']; [| done].
  destruct H as (p & t & revision & uri & Hp & -> & Hn & Hrows & _).
  destruct Hp as (-> & Hpat & -> & _ & (c & cap & -> & Ha & Hcap & _) & _ & Hrev).
  exists c, (strip pid), (norm atype), (mk_ArtifactRow uuid (stored_document now (strip pid) (norm atype) text revision uri)).
  unfold _assert_write_authorization in Ha. cbv zeta in Ha.
  destruct (mem (norm (wc_project_status c)) _PROJECT_WRITABLE_STATES) eqn:Hst; [| done]. cbn [negb] in Ha.
  apply mem_In in Hst. unfold cap_for_type in Hcap.
  destruct (caps_get _ (norm atype)) as [x |]; [| done].
  destruct (String.eqb_spec (norm (wc_actor_role c)) "project_manager") as [Hr | Hr].
  - destruct (mem (norm atype) _PROJECT_MANAGER_FORBIDDEN_WRITE_TYPES) eqn:Hf; [done |].
    apply mem_not_In in Hf. split_and!; try done; [rewrite Hr; by left |].
    intros _. split; intros E; apply Hf; rewrite E; cbn; tauto.
  - destruct (mem (norm (wc_actor_role c)) ["owner"; "ceo"; "cwo"; "auditor"; "administrator"]) eqn:Hm; [| done].
    apply mem_In in Hm. split_and!; try done. by right.
Qed.

(** What was written is read back.  After a write that returns, reading the
    latest artifact of the project and type answers the written text with the
    returned pointer, and the list of pointers ends in one more element; with
    the file store, reading the returned location answers the text too, when
    resolving a path twice resolves it once and its text parses back. *)
Theorem artifact_write_read uuid now pid atype text context s ptr s' :
  table_ok (as_rows s) -> write uuid now pid atype text context s = (Ret ptr, s') ->
  read_latest_artifact pid atype s' = (Ret (Some (mk_ProjectArtifactDocument ptr text)), s') /\
  get_latest_pointer pid atype s' = (Ret (Some ptr), s') /\
  (let path := resolve_path
         (_canonical_path system_root (pt_project_id ptr) (pt_artifact_type ptr) (pt_revision_no ptr)) in
   has_file_store = true -> resolve_path (parse_path (path_str path)) = path ->
   read_fault (path_str (parse_path (path_str path))) = None ->
   file_store_read system_root resolve_path read_fault (pt_storage_uri ptr) s' = (Ret text, s')).
Proof.
  intros Hok Hw. pose proof (write_cases uuid now pid atype text context s Hok) as H. rewrite Hw in H.
  destruct H as (p & t & revision & uri & Hp & -> & Hn & Hrows & Hok' & Hfile).
  assert (latest_row p t (as_rows s') =
          Some (mk_ArtifactRow uuid (stored_document now p t text revision uri))) as Hlatest.
  { rewrite latest_row_spec by done. rewrite Hrows, type_count_insert, decide_True by done.
    destruct Hp as (_ & _ & _ & _ & _ & _ & <-). by rewrite lookup_insert_eq. }
  destruct Hp as (-> & Hpat & -> & Htp & _).
  unfold read_latest_artifact, get_latest_pointer, _validate_project_id, _validate_artifact_type. cbv zeta.
  rewrite Hpat, Htp. unfold bind, of_outcome, gets. rewrite Hlatest. split; [done |]. split; [done |].
  cbn [pt_project_id pt_artifact_type pt_revision_no ad_pointer stored_document].
  set (path := _canonical_path _ _ _ _) in *. cbv zeta.
  intros Hfs Hres Hread. destruct (Hfile Hfs) as (Hin & -> & Hfiles). unfold file_store_read. cbn [pt_storage_uri ad_pointer stored_document].
  rewrite startswith_refl_app. cbn [negb].
  rewrite (substring_after "file://"). unfold file_key at 1, bind, of_outcome, _assert_within_projects_root, gets.
  assert (within_root system_root resolve_path (parse_path (path_str (resolve_path path))) = true) as ->.
  { unfold within_root in *. rewrite Hres. exact Hin. }
  unfold file_key. rewrite Hres, Hfiles. unfold file_key. rewrite lookup_insert_eq, Hread. done.
Qed.
End facts.

(** * Witnesses *)

Definition sample_context : option ProjectArtifactWriteContext :=
  Some (mk_ProjectArtifactWriteContext "project_manager" "active" []).

Definition sample_now : datetime := mk_datetime 2026 3 24 12 0 0 0.

#[local] Abbreviation sample_write has_files :=
  (write_project_artifact "/var/openqilin" (fun p => p) (fun _ => None) (fun s => s) mvp_defaults has_files
     "a-1" sample_now "project-1" "decision_log" "adopt the plan" sample_context).

Lemma artifact_history_append_only_witness :
  let s' := (sample_write true (mk_artifact_store ∅ ∅)).2 in
  type_count "project-1" "decision_log" (as_rows s') = 1%Z /\ table_ok (as_rows s').
Proof.
  split; [vm_compute; reflexivity |].
  refine (proj1 (artifact_history_append_only "/var/openqilin" (fun p => p) (fun _ => None) (fun s => s)
    mvp_defaults true (mk_artifact_store ∅ ∅) _ table_ok_empty _ (star_step _ _ _ _ _ (star_refl _ _)))).
  - intros p t cap _ Hcap. cbn [as_rows]. unfold type_count. rewrite map_filter_empty, map_size_empty.
    unfold cap_for_type in Hcap. cbn [caps_get allowed_type_caps mvp_defaults _MVP_ARTIFACT_TYPE_CAPS] in Hcap.
    repeat match type of Hcap with context [String.eqb ?x ?y] => destruct (String.eqb x y) end;
      first [discriminate Hcap | injection Hcap as <-; discriminate].
  - apply artifact_written.
Defined.

Lemma artifact_write_governed_witness :
  match sample_write false (mk_artifact_store ∅ ∅) with
  | (Ret ptr, s') =>
      exists row, as_rows s' = <[("project-1", "decision_log", 1%Z) := row]> ∅ /\
        ad_content (aw_document row) = "adopt the plan"
  | _ => False
  end.
Proof.
  pose proof (artifact_write_governed "/var/openqilin" (fun p => p) (fun _ => None) (fun _ => None) (fun s => s) mvp_defaults false
    "a-1" sample_now "project-1" "decision_log" "adopt the plan" sample_context (mk_artifact_store ∅ ∅)
    table_ok_empty) as H.
  assert (match (sample_write false (mk_artifact_store ∅ ∅)).1 with Ret p => pt_revision_no p | _ => 0%Z end = 1%Z)
    as Hok by (vm_compute; reflexivity).
  destruct (sample_write false (mk_artifact_store ∅ ∅)) as [[ptr | e] s']; cbn [fst] in Hok; [| discriminate Hok].
  destruct H as (c & p & t & row & _ & -> & -> & _ & _ & _ & _ & _ & _ & _ & Hrows & _ & Htext).
  exists row. rewrite Hok in Hrows. split; [exact Hrows | exact Htext].
Defined.

Lemma artifact_write_read_witness :
  match sample_write true (mk_artifact_store ∅ ∅) with
  | (Ret ptr, s') =>
      read_latest_artifact "project-1" "decision_log" s' =
        (Ret (Some (mk_ProjectArtifactDocument ptr "adopt the plan")), s') /\
      file_store_read "/var/openqilin" (fun p => p) (fun _ => None) (pt_storage_uri ptr) s' =
        (Ret "adopt the plan", s')
  | _ => False
  end.
Proof.
  assert (match (sample_write true (mk_artifact_store ∅ ∅)).1 with
          | Ret p => String.eqb (pt_project_id p) "project-1" && String.eqb (pt_artifact_type p) "decision_log" &&
                     Z.eqb (pt_revision_no p) 1
          | _ => false end = true) as Hok by (vm_compute; reflexivity).
  destruct (sample_write true (mk_artifact_store ∅ ∅)) as [[ptr | e] s'] eqn:Hw; cbn [fst] in Hok;
    [| discriminate Hok].
  apply andb_prop in Hok as [[Hp Ht]%andb_prop Hr].
  apply String.eqb_eq in Hp, Ht. apply Z.eqb_eq in Hr.
  destruct (artifact_write_read "/var/openqilin" (fun p => p) (fun _ => None) (fun _ => None) (fun s => s)
    mvp_defaults true "a-1" sample_now "project-1" "decision_log" "adopt the plan" sample_context
    (mk_artifact_store ∅ ∅) ptr s' table_ok_empty Hw) as (H1 & _ & H2).
  split; [exact H1 |]. rewrite Hp, Ht, Hr in H2. exact (H2 eq_refl eq_refl eq_refl).
Defined.
