(* ===== verification/Tools.v ===== *)
(** Governed tools: contracts, access policy, command parsing and write tools.

    Models [execution_sandbox/tools/contracts.py], [access_policy.py],
    [invocation_adapter.py], [registry_resolver.py], [skill_binding_resolver.py]
    and [write_tools.py].  A write tool runs over the projects of [Governance],
    the artifacts of [Artifacts] and a budget client.

    [json.dumps(.., sort_keys=True)] and [json.loads] are the parameters
    [json_text] and [json_loads]; [repr] of a float is [str_float]. *)

From Stdlib Require Import Ascii.
From S2P Require Import Prelude PyStr PyData LlmSchemas Task Budget LoopControl Policy Runtime.
From S2P Require Import ProjectModel ProjectRows ProjectRepo Governance Artifacts.

(** * Contracts *)

Record ToolCallContext : Type := mk_ToolCallContext {
  tc_task_id : string;
  tc_request_id : string;
  tc_trace_id : string;
  tc_principal_id : string;
  tc_principal_role : string;
  tc_recipient_role : string;
  tc_recipient_id : option string;
  tc_project_id : option string
}.

Record ToolSourceDescriptor : Type := mk_ToolSourceDescriptor {
  sd_source_id : string;
  sd_source_kind : string;
  sd_version : option string;
  sd_updated_at : option string
}.

Record ToolResult : Type := mk_ToolResult {
  tl_decision : string;
  tl_tool_name : string;
  tl_tool_call_id : string;
  tl_trace_id : string;
  tl_request_id : string;
  tl_data : option (list (string * json));
  tl_sources : list ToolSourceDescriptor;
  tl_error_code : option string;
  tl_message : string
}.

(** * Access policy *)

Definition common_read_tools : list string :=
  ["get_project_lifecycle_state"; "get_project_milestone_status"; "get_project_task_board";
   "search_project_docs"; "get_project_doc_latest"; "get_conversation_window"].

(** [_READ_ALLOWLIST_BY_ROLE.get(role, frozenset())]. *)
Definition _READ_ALLOWLIST_BY_ROLE (role : string) : list string :=
  if mem role ["owner"; "auditor"] then
    common_read_tools ++ ["get_project_budget_snapshot"; "get_completion_gate_status";
      "get_project_workforce_snapshot"; "get_audit_event_stream"; "get_dispatch_denial_evidence"]
  else if mem role ["ceo"; "cwo"] then
    common_read_tools ++ ["get_project_budget_snapshot"; "get_completion_gate_status";
      "get_project_workforce_snapshot"; "get_dispatch_denial_evidence"]
  else if String.eqb role "administrator" then
    common_read_tools ++ ["get_audit_event_stream"; "get_dispatch_denial_evidence"]
  else if String.eqb role "project_manager" then
    common_read_tools ++ ["get_completion_gate_status"; "get_project_workforce_snapshot"]
  else [].

Definition _WRITE_ALLOWLIST_BY_ROLE (role : string) : list string :=
  if mem role ["ceo"; "cwo"; "project_manager"] then
    ["transition_project_lifecycle"; "append_decision_log"; "append_progress_report"; "upsert_project_artifact"]
  else [].

Definition is_read_tool_allowed (role tool_name : string) : bool :=
  mem (norm tool_name) (_READ_ALLOWLIST_BY_ROLE (norm role)).

Definition is_write_tool_allowed (role tool_name : string) : bool :=
  mem (norm tool_name) (_WRITE_ALLOWLIST_BY_ROLE (norm role)).

(** * Skill bindings *)

Record ToolSkillBinding : Type := mk_ToolSkillBinding {
  tool_first_factual : bool;
  citation_required : bool;
  mutation_via_tools_only : bool
}.

Definition resolve_tool_skill_binding (role : string) : ToolSkillBinding :=
  if mem (norm role) ["ceo"; "cwo"; "project_manager"; "auditor"; "administrator"; "owner"]
  then mk_ToolSkillBinding true true true
  else mk_ToolSkillBinding false false true.

(** * Arguments *)

Abbreviation tool_arguments := (list (string * json)).

Section arguments.
Context (str_float : spec_float -> string).
#[local] Abbreviation json_str := (json_str str_float).

(** [str(arguments.get(key) or default)]. *)
Definition argument_text (arguments : tool_arguments) (key default_text : string) : string :=
  match jfield arguments key with
  | Some v => if json_truthy v then json_str v else default_text
  | None => default_text
  end.

(** * Command arguments *)

Context (json_loads : string -> option json).

Definition parse_tool_command_args (args : list string) : option (string * tool_arguments) :=
  match args with
  | [] => None
  | first :: rest =>
      let raw_first := strip first in
      if startswith raw_first "{" then
        match json_loads raw_first with
        | Some (JObj payload) =>
            let tool_name := norm (argument_text payload "tool" "") in
            let raw_arguments :=
              match jfield payload "arguments" with
              | Some v => if json_truthy v then v else JObj []
              | None => JObj []
              end in
            if negb (truthy tool_name) then None
            else match raw_arguments with JObj o => Some (tool_name, o) | _ => None end
        | _ => None
        end
      else
        let tool_name := lower raw_first in
        match rest with
        | [] => Some (tool_name, [])
        | second :: _ =>
            let raw_second := strip second in
            if negb (truthy raw_second) then Some (tool_name, [])
            else if startswith raw_second "{" then
              match json_loads raw_second with
              | None => None
              | Some (JObj payload) => Some (tool_name, payload)
              | Some _ => Some (tool_name, [("value", JStr raw_second)])
              end
            else Some (tool_name, [("value", JStr raw_second)])
        end
  end.

(** [ToolServiceRegistry] with its services as computations over [S]. *)
Record ToolServiceRegistry (S : Type) : Type := mk_ToolServiceRegistry {
  read_tools : option (string -> tool_arguments -> ToolCallContext -> M S ToolResult);
  write_tools : option (string -> tool_arguments -> ToolCallContext -> M S ToolResult)
}.
Arguments read_tools {S}.
Arguments write_tools {S}.

Definition invoke_tool_command {S} (command : string) (args : list string) (context : ToolCallContext)
    (registry : ToolServiceRegistry S) : M S (option ToolResult) :=
  let call (service : option (string -> tool_arguments -> ToolCallContext -> M S ToolResult)) tool_name arguments :=
    match service with
    | None => ret None
    | Some f => let! result := f tool_name arguments context in ret (Some result)
    end in
  match parse_tool_command_args args with
  | None => ret None
  | Some (tool_name, arguments) =>
      if String.eqb command "tool_read" then call (read_tools registry) tool_name arguments
      else if String.eqb command "tool_write" then call (write_tools registry) tool_name arguments
      else ret None
  end.

Definition _normalize_roles (value : option json) : list string :=
  match value with
  | Some (JStr s) => map norm (List.filter (fun item => truthy (strip item)) (split_on ","%char s))
  | Some (JArr l) => map (fun item => norm (json_str item)) (List.filter (fun item => truthy (strip (json_str item))) l)
  | _ => []
  end.
End arguments.
Arguments mk_ToolServiceRegistry {S}.
Arguments read_tools {S}.
Arguments write_tools {S}.

(** * Write tools *)

Definition _WRITE_TOOL_COST_UNITS (tool_name : string) : Z :=
  if String.eqb tool_name "transition_project_lifecycle" then 40
  else if String.eqb tool_name "append_decision_log" then 15
  else if String.eqb tool_name "append_progress_report" then 20
  else 25.

(** The service with the repositories it shares with the rest of the runtime. *)
Record write_runtime (E C : Type) : Type := mk_write_runtime {
  wt_ext : E;
  wt_governance : governance;
  wt_artifacts : artifact_store;
  wt_budget : option C;
  wt_results : gmap string ToolResult
}.
Arguments mk_write_runtime {E C}.
Arguments wt_ext {E C}.
Arguments wt_governance {E C}.
Arguments wt_artifacts {E C}.
Arguments wt_budget {E C}.
Arguments wt_results {E C}.

Section write_tools.
Context {E C : Type} `{!Oracle E} `{!AuditWriter E} `{!BudgetRuntimeClient C}.
Context (str_float : spec_float -> string) (json_text : json -> string).
Context (sha256 : string -> string).
Context (system_root : string) (resolve_path : string * list string -> string * list string).
Context (write_fault : string -> option string) (policy : ProjectDocumentPolicy) (has_file_store : bool).

#[local] Abbreviation W := (write_runtime E C).
#[local] Abbreviation text_of := (argument_text str_float).

Definition wt_on_ext {A} (m : M E A) : M W A :=
  zoom wt_ext (fun e w => mk_write_runtime e (wt_governance w) (wt_artifacts w) (wt_budget w) (wt_results w)) m.
Definition wt_on_governance {A} (m : M governance A) : M W A :=
  zoom wt_governance (fun g w => mk_write_runtime (wt_ext w) g (wt_artifacts w) (wt_budget w) (wt_results w)) m.
Definition wt_on_artifacts {A} (m : M artifact_store A) : M W A :=
  zoom wt_artifacts (fun a w => mk_write_runtime (wt_ext w) (wt_governance w) a (wt_budget w) (wt_results w)) m.
Definition wt_remember (key : string) (result : ToolResult) : M W unit :=
  modify (fun w => mk_write_runtime (wt_ext w) (wt_governance w) (wt_artifacts w) (wt_budget w)
                     (<[key := result]> (wt_results w))).

Definition wt_uuid : M W string := wt_on_ext (fun e => let '(u, e') := uuid4 e in (Ret u, e')).
Definition wt_now : M W datetime := wt_on_ext (fun e => let '(t, e') := utcnow e in (Ret t, e')).

Definition tool_ok (tool_name : string) (context : ToolCallContext) (data : list (string * json))
    (sources : list ToolSourceDescriptor) : M W ToolResult :=
  let! u := wt_uuid in
  ret (mk_ToolResult "ok" tool_name ("tool-" +:+ u) (tc_trace_id context) (tc_request_id context) (Some data)
         sources None "ok").

Definition tool_deny (tool_name : string) (context : ToolCallContext) (code message : string) : M W ToolResult :=
  let! u := wt_uuid in
  ret (mk_ToolResult "denied" tool_name ("tool-" +:+ u) (tc_trace_id context) (tc_request_id context) None []
         (Some code) message).

Definition _audit_write_attempt (result : ToolResult) (context : ToolCallContext) : M W unit :=
  wt_on_ext (write_event
    {| ae_event_type := "tool.write." +:+ tl_tool_name result; ae_outcome := tl_decision result;
       ae_event_trace_id := tc_trace_id context; ae_event_request_id := Some (tc_request_id context);
       ae_event_task_id := Some (tc_task_id context); ae_event_principal_id := Some (tc_principal_id context);
       ae_event_principal_role := Some (tc_principal_role context); ae_source := "tool_orchestration";
       ae_reason_code := tl_error_code result; ae_message := tl_message result;
       ae_policy_version := None; ae_policy_hash := None; ae_rule_ids := [];
       ae_payload := JObj [("tool_name", JStr (tl_tool_name result)); ("decision", JStr (tl_decision result));
                           ("data", JStr (String.substring 0 4000 (json_text (JObj (default [] (tl_data result))))));
                           ("source_count", JInt (Z.of_nat (length (tl_sources result))))];
       ae_attributes := JObj [("tool_name", JStr (tl_tool_name result));
                              ("decision", JStr (tl_decision result))] |}).

Definition _idempotency_key (request_id tool_name : string) (arguments : tool_arguments) : string :=
  request_id +:+ "::" +:+ tool_name +:+ "::" +:+ sha256 (json_text (JObj arguments)).

(** [_resolve_project]: the requested identifier and the project, or a denial. *)
Definition _resolve_project (arguments : tool_arguments) (context : ToolCallContext)
    : M W (string * (ProjectRecord + ToolResult)) :=
  let tool := text_of arguments "tool_name" "tool" in
  let named := strip (text_of arguments "project_id" "") in
  let requested := if truthy named then named else default "" (tc_project_id context) in
  if negb (truthy requested) then
    let! r := tool_deny tool context "tool_project_scope_required" "project_id is required" in
    ret ("", inr r)
  else if bool_decide (is_Some (tc_project_id context) /\ tc_project_id context <> Some requested) then
    let! r := tool_deny tool context "tool_project_scope_mismatch"
                "requested project_id differs from command scope" in
    ret (requested, inr r)
  else
    let! found := wt_on_governance (on_projects (get_project requested)) in
    match found with
    | None =>
        let! r := tool_deny tool context "tool_project_missing" ("project not found: " +:+ requested) in
        ret (requested, inr r)
    | Some p => ret (requested, inl p)
    end.

Definition project_source (p : ProjectRecord) : ToolSourceDescriptor :=
  mk_ToolSourceDescriptor ("project:" +:+ p_id p) "project_record"
    (Some ("status:" +:+ status_str (p_status p))) (Some (isoformat (p_updated_at p))).

(** The governance action of a requested status; [None] when unsupported. *)
Definition lifecycle_action (now later : datetime) (next_status pid role trace reason : string)
    : option (M governance ProjectRecord) :=
  let simple (m : M governance ProjectLifecycleTransitionOutcome) :=
    Some (let! o := m in ret (lt_project o)) in
  if String.eqb next_status "paused" then simple (pause_project_by_governance now pid role trace reason)
  else if String.eqb next_status "active" then simple (resume_project_by_governance now pid role trace reason)
  else if String.eqb next_status "terminated" then simple (terminate_project_by_governance now pid role trace reason)
  else if String.eqb next_status "archived" then simple (archive_project_by_governance now pid role trace reason)
  else if String.eqb next_status "completed" then
    Some (finalize_project_completion_by_c_suite now later pid role trace reason)
  else None.

Definition _tool_transition_project_lifecycle (arguments : tool_arguments) (context : ToolCallContext)
    : M W ToolResult :=
  let tool := "transition_project_lifecycle" in
  let! (pid, resolved) := _resolve_project arguments context in
  match resolved with
  | inr denial => ret denial
  | inl project =>
      let next_status := norm (text_of arguments "next_status" "") in
      if negb (truthy next_status) then
        tool_deny tool context "tool_next_status_missing" "next_status is required"
      else
        let stripped := strip (text_of arguments "reason_code" "tool_mutation") in
        let reason := if truthy stripped then stripped else "tool_mutation" in
        let! now := wt_now in
        let! later := wt_now in
        match lifecycle_action now later next_status pid (tc_recipient_role context) (tc_trace_id context) reason with
        | None => tool_deny tool context "tool_next_status_invalid" ("unsupported next_status: " +:+ next_status)
        | Some action =>
            let! done := try (let! p := wt_on_governance action in ret (Ret p))
              (fun e => match e with
                        | GovernanceHandlerError code message => Some (ret (Raise (GovernanceHandlerError code message)))
                        | _ => None
                        end) in
            match done with
            | Raise (GovernanceHandlerError code message) => tool_deny tool context code message
            | Raise e => raise e
            | Ret p =>
                tool_ok tool context
                  [("project_id", JStr (p_id p)); ("previous_status", JStr (status_str (p_status project)));
                   ("current_status", JStr (status_str (p_status p))); ("reason_code", JStr reason)]
                  [project_source p]
            end
        end
  end.

Definition _write_project_artifact (tool artifact_type : string) (arguments : tool_arguments)
    (context : ToolCallContext) : M W ToolResult :=
  let! (pid, resolved) := _resolve_project arguments context in
  match resolved with
  | inr denial => ret denial
  | inl project =>
      let text := strip (text_of arguments "content" "") in
      if negb (truthy text) then tool_deny tool context "tool_content_missing" "content is required"
      else
        let roles := _normalize_roles str_float (jfield arguments "approval_roles") in
        let! uuid := wt_uuid in
        let! now := wt_now in
        let! written := try
          (let! p := wt_on_artifacts (write_project_artifact system_root resolve_path write_fault sha256 policy
                       has_file_store uuid now pid artifact_type text
                       (Some (mk_ProjectArtifactWriteContext (tc_recipient_role context)
                                (status_str (p_status project)) roles))) in
           ret (Ret p))
          (fun e => match e with
                    | ProjectArtifactRepositoryError code message =>
                        Some (ret (Raise (ProjectArtifactRepositoryError code message)))
                    | _ => None
                    end) in
        match written with
        | Raise (ProjectArtifactRepositoryError code message) => tool_deny tool context code message
        | Raise e => raise e
        | Ret p =>
            tool_ok tool context
              [("project_id", JStr (pt_project_id p)); ("artifact_type", JStr (pt_artifact_type p));
               ("revision_no", JInt (pt_revision_no p)); ("storage_uri", JStr (pt_storage_uri p));
               ("content_hash", JStr (pt_content_hash p)); ("byte_size", JInt (pt_byte_size p))]
              [mk_ToolSourceDescriptor ("artifact:" +:+ pt_artifact_type p) "artifact"
                 (Some ("v" +:+ str_int (pt_revision_no p))) (Some (isoformat (pt_created_at p)))]
        end
  end.

Definition _tool_upsert_project_artifact (arguments : tool_arguments) (context : ToolCallContext) : M W ToolResult :=
  let artifact_type := norm (text_of arguments "artifact_type" "") in
  if negb (truthy artifact_type) then
    tool_deny "upsert_project_artifact" context "tool_artifact_type_missing" "artifact_type is required"
  else _write_project_artifact "upsert_project_artifact" artifact_type arguments context.

(** [getattr(self, f"_tool_{name}", None)]. *)
Definition write_handler (tool_name : string) : option (tool_arguments -> ToolCallContext -> M W ToolResult) :=
  if String.eqb tool_name "transition_project_lifecycle" then Some _tool_transition_project_lifecycle
  else if String.eqb tool_name "append_decision_log" then
    Some (_write_project_artifact "append_decision_log" "decision_log")
  else if String.eqb tool_name "append_progress_report" then
    Some (_write_project_artifact "append_progress_report" "progress_report")
  else if String.eqb tool_name "upsert_project_artifact" then Some _tool_upsert_project_artifact
  else None.

Definition tool_reservation (tool_name : string) (arguments : tool_arguments) (context : ToolCallContext)
    : BudgetReservationInput :=
  let named := strip (text_of arguments "project_id" "") in
  {| bi_task_id := tc_task_id context; bi_request_id := tc_request_id context;
     bi_trace_id := tc_trace_id context; bi_principal_id := tc_principal_id context;
     bi_project_id := opt_or (tc_project_id context) (if truthy named then named else DEFAULT_BUDGET_PROJECT_ID);
     bi_command := "tool_write:" +:+ tool_name; bi_args := [json_text (JObj arguments)];
     bi_estimated_cost_units := _WRITE_TOOL_COST_UNITS tool_name; bi_model_class := "interactive_fast" |}.

Definition wt_reserve (payload : BudgetReservationInput) : M W BudgetReservationResult :=
  let! uuid := wt_uuid in
  let! now := wt_now in
  fun w =>
    match wt_budget w with
    | None => (Raise (BudgetConfigurationError "budget_runtime_client is required for governed write tools"), w)
    | Some c =>
        let '(o, c') := reserve uuid now payload c in
        (o, mk_write_runtime (wt_ext w) (wt_governance w) (wt_artifacts w) (Some c') (wt_results w))
    end.

Definition _reserve_budget_if_configured (tool_name : string) (arguments : tool_arguments)
    (context : ToolCallContext) : M W (option ToolResult) :=
  let! reservation := wt_reserve (tool_reservation tool_name arguments context) in
  if String.eqb (br_decision reservation) "allow" then ret None
  else if mem (br_decision reservation) ["deny"; "hard_breach"] then
    let! r := tool_deny tool_name context (br_reason_code reservation) (br_reason_message reservation) in
    ret (Some r)
  else
    let! r := tool_deny tool_name context "budget_uncertain_fail_closed"
                "budget decision uncertain; write tool denied fail-closed" in
    ret (Some r).

(** A remembered result, marked as replayed. *)
Definition replayed_result (r : ToolResult) : ToolResult :=
  mk_ToolResult (tl_decision r) (tl_tool_name r) (tl_tool_call_id r) (tl_trace_id r) (tl_request_id r)
    (Some (List.filter (fun kv => negb (String.eqb kv.1 "replayed")) (default [] (tl_data r)) ++
           [("replayed", JBool true)]))
    (tl_sources r) (tl_error_code r) (tl_message r).

(** [except Exception] around the handler. *)
Definition run_handler (tool_name : string) (arguments : tool_arguments) (context : ToolCallContext)
    (handler : tool_arguments -> ToolCallContext -> M W ToolResult) : M W ToolResult :=
  try (handler arguments context)
    (fun e => Some (tool_deny tool_name context "tool_runtime_error" ("tool execution failed: " +:+ exn_str e))).

Definition audited (result : ToolResult) (context : ToolCallContext) : M W ToolResult :=
  _audit_write_attempt result context ;! ret result.

Definition audited_and_kept (key : string) (result : ToolResult) (context : ToolCallContext) : M W ToolResult :=
  _audit_write_attempt result context ;! wt_remember key result ;! ret result.

Definition execute_write_tool (tool_name : string) (arguments : tool_arguments) (context : ToolCallContext)
    (key : string) : M W ToolResult :=
  let! refused := _reserve_budget_if_configured tool_name arguments context in
  match refused with
  | Some r => audited_and_kept key r context
  | None =>
      let! result := match write_handler tool_name with
                     | None => tool_deny tool_name context "tool_unknown" "unknown write tool"
                     | Some handler => run_handler tool_name arguments context handler
                     end in
      audited_and_kept key result context
  end.

Definition call_write_tool (tool_name : string) (arguments : tool_arguments) (context : ToolCallContext)
    : M W ToolResult :=
  let normalized_tool := norm tool_name in
  if negb (truthy normalized_tool) then
    let! r := tool_deny tool_name context "tool_name_missing" "tool_name is required" in audited r context
  else if existsb (contains normalized_tool) ["raw"; "sql"; "db_"] then
    let! r := tool_deny normalized_tool context "tool_raw_db_mutation_denied"
                "raw or direct DB mutation tools are forbidden; use intent-level tools" in audited r context
  else if negb (is_write_tool_allowed (tc_principal_role context) normalized_tool) then
    let! r := tool_deny normalized_tool context "tool_access_denied"
                "write tool is not allowed for recipient role" in audited r context
  else
    let key := _idempotency_key (tc_request_id context) normalized_tool arguments in
    let! known := gets (fun w => wt_results w !! key) in
    match known with
    | Some r => audited (replayed_result r) context
    | None => execute_write_tool normalized_tool arguments context key
    end.
End write_tools.
