(* ===== verification/ToolFacts.v ===== *)
(** What write tools guarantee: who may change what, within which project, at
    most once per request, and always within the governance of projects and
    artifacts. *)

From S2P Require Import Prelude PyStr PyData LlmSchemas Task Budget LoopControl Policy Runtime.
From S2P Require Import ProjectModel ProjectRows ProjectRepo Governance GovernanceFacts Artifacts ArtifactFacts Tools.

(** * Changes confined to one project

    [within scope q]: a call with this project scope may touch project [q]. *)

Definition within (scope : option string) (q : string) : Prop :=
  match scope with Some p => q = p | None => True end.

Definition projects_step (scope : option string) (t t' : projects) : Prop :=
  good t -> good t' /\ table_evolves t t' /\ forall q, ~ within scope q -> t' !! q = t !! q.

#[export] Instance projects_step_preorder scope : PreOrder (projects_step scope).
Proof.
  split.
  - intros t Ht. split; [done |]. split; [intros k p Hp; by exists p | done].
  - intros a b c H1 H2 Ha. destruct (H1 Ha) as (Hb & E1 & F1). destruct (H2 Hb) as (Hc & E2 & F2).
    split; [done |]. split.
    + intros k p Hp. destruct (E1 k p Hp) as (q & Hq & Hpq). destruct (E2 k q Hq) as (r & Hr & Hqr).
      exists r. split; [done | by etransitivity].
    + intros q Hq. by rewrite F2, F1.
Qed.

Lemma projects_step_sound scope (t t' : projects) :
  sound_step t t' -> (good t -> forall q, ~ within scope q -> t' !! q = t !! q) -> projects_step scope t t'.
Proof. intros H1 H2 Ht. destruct (H1 Ht). auto. Qed.

Lemma step_get_project scope pid : tracks (projects_step scope) (get_project pid).
Proof.
  intros t. unfold get_project, bind, gets, of_outcome, ret. destruct (t !! pid); [| done].
  by destruct (_project_from_row _).
Qed.

(** A write that replaces the row it loaded. *)
Lemma step_with_project {A} scope pid (k : ProjectRecord -> M projects A) :
  within scope pid -> tracks sound_step (with_project pid k) ->
  (forall p t r, k p t = r -> r.2 = t \/ exists q, p_id q = p_id p /\ r.2 = <[p_id q := _project_to_row q]> t) ->
  tracks (projects_step scope) (with_project pid k).
Proof.
  intros Hs Hsound Hk t. apply projects_step_sound; [apply Hsound |]. intros Ht q Hq.
  assert (q <> pid) as Hne by (intros ->; done).
  unfold with_project, get_project, bind, gets, of_outcome, ret, raise.
  destruct (t !! pid) as [row |] eqn:Hrow; [| done].
  destruct (_project_from_row row) as [p | x] eqn:Hp; [| done].
  assert (reads t pid p) as Hread by (by exists row). destruct (reads_good _ _ _ Ht Hread) as (<- & _).
  destruct (Hk p t _ eq_refl) as [-> | (r & Hr & ->)]; [done |]. rewrite Hr. by rewrite lookup_insert_ne by done.
Qed.

Lemma step_transition scope now pid next reason role trace md :
  valid_datetime now -> within scope pid -> parse_project_status next <> Ret Approved ->
  tracks (projects_step scope) (transition_project_status now pid next reason role trace md).
Proof.
  intros Hnow Hs Hnext. apply step_with_project; [done | by apply sound_transition |]. intros p t r.
  unfold transition_of, bind at 1, of_outcome. destruct (lift_lifecycle _) as [st | x]; [| intros <-; by left].
  unfold bind at 1. set (guard := (if bool_decide (st = Completed) then _ else _ : M projects unit) t).
  assert (guard.2 = t) as Hg by (subst guard; by case_bool_decide).
  destruct guard as [[[] | x] t']; cbn [snd] in Hg; subst t'; [| intros <-; by left].
  cbv zeta. rewrite run_upsert. intros <-. right. eexists. split; [| reflexivity]. done.
Qed.

Lemma step_notified scope now pid trace :
  valid_datetime now -> within scope pid ->
  tracks (projects_step scope) (record_completion_owner_notified now pid trace).
Proof.
  intros Hnow Hs. apply step_with_project; [done | by apply sound_notified |]. intros p t r.
  unfold owner_notified_of. cbv zeta. rewrite run_upsert. intros <-. right. eexists. split; [| reflexivity]. done.
Qed.

#[local] Hint Resolve step_get_project step_transition step_notified : tracks.

Definition governance_step (scope : option string) (g g' : governance) : Prop :=
  projects_step scope (g_projects g) (g_projects g').

#[export] Instance governance_step_preorder scope : PreOrder (governance_step scope).
Proof. split; unfold governance_step; [by intros g | intros a b c H1 H2; by etransitivity]. Qed.

Lemma step_on_projects {A} scope (m : M projects A) :
  tracks (projects_step scope) m -> tracks (governance_step scope) (on_projects m).
Proof. intros H. by apply (tracks_zoom (governance_step scope) (projects_step scope)). Qed.

Lemma step_as_handler {A} scope (m : M governance A) :
  tracks (governance_step scope) m -> tracks (governance_step scope) (as_handler m).
Proof.
  intros H. apply tracks_try; [typeclasses eauto | done |].
  intros e k He. destruct e; simplify_eq; apply tracks_raise; typeclasses eauto.
Qed.

Ltac scoped_auto :=
  repeat first [tracks_step | apply step_as_handler | apply step_on_projects
               | apply step_transition | apply step_notified].

Lemma step_lifecycle scope now pid role trace reason next roles action :
  valid_datetime now -> within scope pid -> parse_project_status next <> Ret Approved ->
  tracks (governance_step scope) (_transition_project_lifecycle now pid role trace reason next roles action).
Proof. intros Hnow Hs Hnext. unfold _transition_project_lifecycle. cbv zeta. by scoped_auto. Qed.

Lemma step_action scope now later next pid role trace reason action :
  valid_datetime now -> valid_datetime later -> within scope pid ->
  lifecycle_action now later next pid role trace reason = Some action ->
  tracks (governance_step scope) action.
Proof.
  intros Hnow Hlater Hs. unfold lifecycle_action. cbv zeta.
  assert (forall (m : M governance ProjectLifecycleTransitionOutcome), tracks (governance_step scope) m ->
    tracks (governance_step scope) (let! o := m in ret (lt_project o))) as Hsimple.
  { intros m Hm. apply tracks_bind; [typeclasses eauto | done | intros o; tracks_auto]. }
  repeat (case_match; [intros [= <-]; first [apply Hsimple; by apply step_lifecycle | idtac] |]); try done.
  unfold finalize_project_completion_by_c_suite. cbv zeta. by scoped_auto.
Qed.

(** ** Artifacts *)

Definition artifacts_step (scope : option string) (s s' : artifact_store) : Prop :=
  table_ok (as_rows s) ->
  table_ok (as_rows s') /\ as_rows s ⊆ as_rows s' /\
  forall p t k, ~ within (strip <$> scope) p -> as_rows s' !! (p, t, k) = as_rows s !! (p, t, k).

#[export] Instance artifacts_step_preorder scope : PreOrder (artifacts_step scope).
Proof.
  split; [by intros s Hs |]. intros a b c H1 H2 Ha. destruct (H1 Ha) as (Hb & E1 & F1).
  destruct (H2 Hb) as (Hc & E2 & F2). split; [done |]. split; [by etransitivity |].
  intros p t k Hp. by rewrite F2, F1.
Qed.

Section tool_facts.
Context {E C : Type} `{!Oracle E} `{!AuditWriter E} `{!BudgetRuntimeClient C}.
Context (str_float : spec_float -> string) (json_text : json -> string).
Context (sha256 : string -> string).
Context (system_root : string) (resolve_path : string * list string -> string * list string).
Context (write_fault : string -> option string) (policy : ProjectDocumentPolicy) (has_file_store : bool).

#[local] Abbreviation W := (write_runtime E C).
#[local] Abbreviation call :=
  (call_write_tool (E := E) (C := C) str_float json_text sha256 system_root resolve_path write_fault policy
     has_file_store).
#[local] Abbreviation execute :=
  (execute_write_tool (E := E) (C := C) str_float json_text sha256 system_root resolve_path write_fault policy
     has_file_store).
#[local] Abbreviation handler_of :=
  (write_handler (E := E) (C := C) str_float sha256 system_root resolve_path write_fault policy has_file_store).
#[local] Abbreviation reservation_of := (tool_reservation str_float json_text).

Lemma step_write_artifact scope uuid now pid atype text context :
  within scope pid ->
  tracks (artifacts_step scope)
    (write_project_artifact system_root resolve_path write_fault sha256 policy has_file_store uuid now pid atype
       text context).
Proof.
  intros Hs s Hok.
  pose proof (write_cases system_root resolve_path write_fault sha256 policy has_file_store uuid now pid atype
    text context s Hok) as H.
  destruct (write_project_artifact _ _ _ _ _ _ _ _ _ _ _ _ s) as [[ptr | e] s']; cbn [snd]; [| by rewrite H].
  destruct H as (p & t & revision & uri & (Hp & _) & _ & Hn & Hrows & Hok' & _).
  split; [done |]. rewrite Hrows. split; [by apply insert_subseteq |].
  intros p' t' k Hout. rewrite lookup_insert_ne; [done |]. intros [= E1 _ _]. apply Hout.
  rewrite <- E1, Hp. destruct scope as [q |]; cbn in *; [by rewrite Hs | done].
Qed.

(** ** Relations the handlers keep

    [R] holds across a handler when it holds across each call the handler
    makes; the clock reads valid instants. *)

Hypothesis clock_valid : forall e : E, valid_datetime (utcnow e).1.

Lemma now_valid w now w' : wt_now (E := E) (C := C) w = (Ret now, w') -> valid_datetime now.
Proof.
  unfold wt_now, wt_on_ext, zoom. pose proof (clock_valid (wt_ext w)) as Hv.
  destruct (utcnow (wt_ext w)) as [t e]. by intros [= <- _].
Qed.

(** A resolved project is within the scope of the call. *)
Lemma resolve_within arguments context w pid p w' :
  _resolve_project (E := E) (C := C) str_float arguments context w = (Ret (pid, inl p), w') ->
  within (tc_project_id context) pid.
Proof.
  unfold _resolve_project. cbv zeta. set (requested := if truthy _ then _ else _).
  assert (forall tool code message q, (let! d := tool_deny (E := E) (C := C) tool context code message in
    ret (q, inr d)) w = (Ret (pid, inl p), w') -> False) as Hdeny.
  { intros tool code message q. unfold bind at 1. by destruct (tool_deny _ _ _ _ w) as [[]]. }
  case_match; [by intros ?%Hdeny |]. case_bool_decide as Hscope; [by intros ?%Hdeny |].
  unfold bind at 1. destruct (wt_on_governance _ w) as [[[r |] | x] w1]; [| | done].
  - intros [= <- <- <-]. unfold within. destruct (tc_project_id context) as [q |]; [| done].
    destruct (decide (requested = q)) as [-> | Hne]; [done |]. exfalso. apply Hscope. split; [by eexists | congruence].
  - unfold bind. by destruct (tool_deny _ _ _ _ w1) as [[]].
Qed.

Section handlers.
Context (R : W -> W -> Prop) `{!PreOrder R} (context : ToolCallContext).
#[local] Abbreviation scope := (tc_project_id context).
Hypothesis R_ext : forall w e, R w (mk_write_runtime e (wt_governance w) (wt_artifacts w) (wt_budget w) (wt_results w)).
Hypothesis R_get : forall pid, tracks R (wt_on_governance (E := E) (C := C) (on_projects (get_project pid))).
Hypothesis R_action : forall now later next pid role trace reason action,
  valid_datetime now -> valid_datetime later -> within scope pid ->
  lifecycle_action now later next pid role trace reason = Some action ->
  tracks R (wt_on_governance (E := E) (C := C) action).
Hypothesis R_write : forall uuid now pid atype text c, within scope pid ->
  tracks R (wt_on_artifacts (E := E) (C := C) (write_project_artifact system_root resolve_path write_fault sha256
    policy has_file_store uuid now pid atype text c)).

Lemma R_on_ext {A} (m : M E A) : tracks R (wt_on_ext (C := C) m).
Proof. intros w. unfold wt_on_ext, zoom. destruct (m (wt_ext w)). apply R_ext. Qed.

Lemma R_uuid : tracks R (wt_uuid (E := E) (C := C)). Proof. apply R_on_ext. Qed.
Lemma R_now : tracks R (wt_now (E := E) (C := C)). Proof. apply R_on_ext. Qed.
#[local] Hint Resolve R_uuid R_now R_get : tracks.

Lemma R_deny tool code message : tracks R (tool_deny (E := E) (C := C) tool context code message).
Proof. unfold tool_deny. tracks_auto. Qed.
Lemma R_ok tool data sources : tracks R (tool_ok (E := E) (C := C) tool context data sources).
Proof. unfold tool_ok. tracks_auto. Qed.
Lemma R_audit r : tracks R (_audit_write_attempt (E := E) (C := C) json_text r context).
Proof. apply R_on_ext. Qed.
#[local] Hint Resolve R_deny R_ok R_audit : tracks.

Lemma R_resolve arguments : tracks R (_resolve_project (E := E) (C := C) str_float arguments context).
Proof.
  unfold _resolve_project. cbv zeta. set (requested := if truthy _ then _ else _). clearbody requested.
  destruct (negb (truthy requested)); [tracks_auto |]. case_bool_decide; tracks_auto.
Qed.

(** The handlers of a resolved project, or the denial of [_resolve_project]. *)
Lemma R_resolved arguments (k : string -> ProjectRecord -> M W ToolResult) :
  (forall pid p, within scope pid -> tracks R (k pid p)) ->
  tracks R (let! (pid, resolved) := _resolve_project str_float arguments context in
            match resolved with inr denial => ret denial | inl p => k pid p end).
Proof.
  intros Hk. apply tracks_bind_post; [typeclasses eauto | apply R_resolve |].
  intros [pid [p | d]] w w' E1; [| tracks_auto]. apply Hk. by eapply resolve_within.
Qed.

Lemma R_transition arguments :
  tracks R (_tool_transition_project_lifecycle (E := E) (C := C) str_float arguments context).
Proof.
  unfold _tool_transition_project_lifecycle. cbv zeta. apply R_resolved. intros pid p Hs.
  destruct (negb _); [tracks_auto |].
  apply tracks_bind_post; [typeclasses eauto | tracks_auto |]. intros now w1 w1' Hnow%now_valid.
  apply tracks_bind_post; [typeclasses eauto | tracks_auto |]. intros later w2 w2' Hlater%now_valid.
  destruct (lifecycle_action _ _ _ _ _ _ _) as [action |] eqn:Ha; [| tracks_auto].
  pose proof (R_action _ _ _ _ _ _ _ _ Hnow Hlater Hs Ha).
  apply tracks_bind; [typeclasses eauto | | intros [q | e]; [tracks_auto | case_match; tracks_auto]].
  apply tracks_try; [typeclasses eauto | tracks_auto |]. intros e k He. case_match; simplify_eq; tracks_auto.
Qed.

Lemma R_write_artifact tool atype arguments :
  tracks R (_write_project_artifact (E := E) (C := C) str_float sha256 system_root resolve_path write_fault policy
    has_file_store tool atype arguments context).
Proof.
  unfold _write_project_artifact. cbv zeta. apply R_resolved. intros pid p Hs.
  destruct (negb _); [tracks_auto |].
  apply tracks_bind; [typeclasses eauto | tracks_auto | intros uuid].
  apply tracks_bind; [typeclasses eauto | tracks_auto | intros now].
  apply tracks_bind; [typeclasses eauto | | intros [q | e]; [tracks_auto | case_match; tracks_auto]].
  apply tracks_try; [typeclasses eauto | |].
  - apply tracks_bind; [typeclasses eauto | by apply R_write | intros q; tracks_auto].
  - intros e k He. case_match; simplify_eq; tracks_auto.
Qed.

Lemma R_handler name handler arguments : handler_of name = Some handler -> tracks R (handler arguments context).
Proof.
  unfold write_handler. repeat case_match; intros [= <-]; try apply R_transition; try apply R_write_artifact.
  unfold _tool_upsert_project_artifact. cbv zeta. destruct (negb _); [apply R_deny | apply R_write_artifact].
Qed.

Lemma R_run name handler arguments :
  handler_of name = Some handler ->
  tracks R (run_handler (E := E) (C := C) name arguments context handler).
Proof.
  intros Hh. apply tracks_try; [typeclasses eauto | by eapply R_handler |]. intros e k [= <-]. apply R_deny.
Qed.

Lemma R_result name arguments :
  tracks R (match handler_of name with
            | None => tool_deny name context "tool_unknown" "unknown write tool"
            | Some handler => run_handler name arguments context handler
            end).
Proof. destruct (handler_of name) eqn:Hh; [by apply R_run | apply R_deny]. Qed.

Lemma R_audited r : tracks R (audited (E := E) (C := C) json_text r context).
Proof. unfold audited. tracks_auto. Qed.

(** With the budget free to move too, and remembered results. *)
Hypothesis R_budget : forall w b, R w (mk_write_runtime (wt_ext w) (wt_governance w) (wt_artifacts w) b (wt_results w)).

Lemma R_reserve name arguments :
  tracks R (_reserve_budget_if_configured (E := E) (C := C) str_float json_text name arguments context).
Proof.
  pose proof R_uuid. pose proof R_now. pose proof R_deny.
  unfold _reserve_budget_if_configured, wt_reserve. apply tracks_bind; [typeclasses eauto | | intros r; tracks_auto].
  apply tracks_bind; [typeclasses eauto | done | intros uuid].
  apply tracks_bind; [typeclasses eauto | done | intros now w]. destruct (wt_budget w) as [c |]; [| done].
  destruct (reserve uuid now _ c). apply R_budget.
Qed.

Hypothesis R_remember : forall key r, tracks R (wt_remember (E := E) (C := C) key r).

Lemma R_kept key r : tracks R (audited_and_kept (E := E) (C := C) json_text key r context).
Proof. unfold audited_and_kept. pose proof R_audit. pose proof R_remember. tracks_auto. Qed.

Lemma R_call name arguments : tracks R (call name arguments context).
Proof.
  pose proof R_deny. pose proof R_audited. pose proof R_kept. pose proof R_reserve. pose proof R_result.
  unfold call_write_tool, execute_write_tool. cbv zeta.
  destruct (negb _); [tracks_auto |]. destruct (existsb _ _); [tracks_auto |]. destruct (negb _); [tracks_auto |].
  apply tracks_bind; [typeclasses eauto | tracks_auto |]. intros [r |]; [done |].
  apply tracks_bind; [typeclasses eauto | done |]. intros [r |]; [done |].
  apply tracks_bind; [typeclasses eauto | done |]. done.
Qed.
End handlers.

(** ** The stores *)

Definition runtime_step (scope : option string) (w w' : W) : Prop :=
  governance_step scope (wt_governance w) (wt_governance w') /\
  artifacts_step scope (wt_artifacts w) (wt_artifacts w').

#[local] Instance runtime_step_preorder scope : PreOrder (runtime_step scope).
Proof. split; unfold runtime_step; [by intros w | intros a b c [] []; split; by etransitivity]. Qed.

Lemma step_on_governance {A} scope (m : M governance A) :
  tracks (governance_step scope) m -> tracks (runtime_step scope) (wt_on_governance (E := E) (C := C) m).
Proof. intros H. apply (tracks_zoom (runtime_step scope) (governance_step scope)); [by intros w g | done]. Qed.

Lemma step_on_artifacts {A} scope (m : M artifact_store A) :
  tracks (artifacts_step scope) m -> tracks (runtime_step scope) (wt_on_artifacts (E := E) (C := C) m).
Proof. intros H. apply (tracks_zoom (runtime_step scope) (artifacts_step scope)); [by intros w g | done]. Qed.

Lemma step_call name arguments context :
  tracks (runtime_step (tc_project_id context)) (call name arguments context).
Proof.
  apply R_call; try typeclasses eauto; try done.
  - intros pid. apply step_on_governance, step_on_projects, step_get_project.
  - intros now later next pid role trace reason action Hnow Hlater Hs Ha.
    exact (step_on_governance _ _ (step_action _ _ _ _ _ _ _ _ _ Hnow Hlater Hs Ha)).
  - intros. by apply step_on_artifacts, step_write_artifact.
Qed.

(** ** Calls that leave the stores alone *)

Definition same_stores (w w' : W) : Prop :=
  wt_governance w' = wt_governance w /\ wt_artifacts w' = wt_artifacts w.
#[local] Instance same_stores_preorder : PreOrder same_stores.
Proof. split; unfold same_stores; [done | intros a b c [-> ->] [-> ->]; done]. Qed.

(** [_reserve_budget_if_configured] lets the tool run only on an allowed
    reservation. *)
Lemma reserve_allowed name arguments context w w' :
  _reserve_budget_if_configured (E := E) (C := C) str_float json_text name arguments context w = (Ret None, w') ->
  exists c uuid now r c', wt_budget w = Some c /\
    reserve uuid now (reservation_of name arguments context) c = (Ret r, c') /\ br_decision r = "allow".
Proof.
  unfold _reserve_budget_if_configured, wt_reserve, bind, wt_uuid, wt_now, wt_on_ext, zoom.
  destruct (uuid4 _) as [uuid e]. destruct (utcnow _) as [now e']. cbn [wt_budget].
  destruct (wt_budget w) as [c |]; [| done]. destruct (reserve uuid now _ c) as [[r | x] c'] eqn:Hr; [| done].
  destruct (String.eqb_spec (br_decision r) "allow"); [intros _; by exists c, uuid, now, r, c' |].
  destruct (mem _ _); unfold tool_deny, wt_uuid, wt_on_ext, zoom, bind; cbn [wt_ext]; by destruct (uuid4 _).
Qed.

Lemma allowed_names role name :
  is_write_tool_allowed role name = true ->
  truthy (norm name) = true /\ existsb (contains (norm name)) ["raw"; "sql"; "db_"] = false.
Proof.
  unfold is_write_tool_allowed, _WRITE_ALLOWLIST_BY_ROLE. rewrite mem_In.
  destruct (mem _ _); [| done]. intros H. repeat (destruct H as [<- | H]; [by vm_compute |]). done.
Qed.

Lemma call_allowed name arguments context w :
  is_write_tool_allowed (tc_principal_role context) (norm name) = true ->
  let key := _idempotency_key json_text sha256 (tc_request_id context) (norm name) arguments in
  call name arguments context w =
  match wt_results w !! key with
  | Some r => audited json_text (replayed_result r) context w
  | None => execute (norm name) arguments context key w
  end.
Proof.
  intros Hallowed. cbv zeta. unfold call_write_tool. cbv zeta.
  assert (norm (norm name) = norm name) as Hnn by apply norm_idem.
  destruct (allowed_names _ _ Hallowed) as [H1 H2]. rewrite Hnn in H1, H2.
  rewrite H1, H2, Hallowed. cbn [negb]. unfold bind at 1, gets. by destruct (wt_results w !! _).
Qed.

Lemma call_refused name arguments context w :
  is_write_tool_allowed (tc_principal_role context) (norm name) = false ->
  exists tool code message, call name arguments context w =
    (let! r := tool_deny tool context code message in audited json_text r context) w.
Proof.
  intros Hrefused. unfold call_write_tool. cbv zeta. destruct (negb (truthy _)); [by eexists _, _, _ |].
  destruct (existsb _ _); [by eexists _, _, _ |]. rewrite Hrefused. by eexists _, _, _.
Qed.

(** A refusal changes neither the stores nor the budget nor the memory. *)
Definition unchanged (w w' : W) : Prop :=
  wt_governance w' = wt_governance w /\ wt_artifacts w' = wt_artifacts w /\
  wt_budget w' = wt_budget w /\ wt_results w' = wt_results w.
#[local] Instance unchanged_preorder : PreOrder unchanged.
Proof. split; unfold unchanged; [done | intros a b c (-> & -> & -> & ->) (-> & -> & -> & ->); done]. Qed.

Lemma audited_unchanged r context : tracks unchanged (audited (E := E) (C := C) json_text r context).
Proof. by apply R_audited; [typeclasses eauto |]. Qed.

Lemma audited_answer r context w :
  let o := (audited (E := E) (C := C) json_text r context w).1 in o = Ret r \/ exists x, o = Raise x.
Proof.
  cbv zeta. unfold audited, bind, _audit_write_attempt, wt_on_ext, zoom. cbv beta.
  destruct (write_event _ (wt_ext w)) as [[[] | x] e]; cbn; [by left | right; by eexists].
Qed.

Lemma refused_unchanged name arguments context w :
  is_write_tool_allowed (tc_principal_role context) (norm name) = false ->
  unchanged w (call name arguments context w).2.
Proof.
  intros (tool & code & message & ->)%(call_refused name arguments context w). revert w.
  apply tracks_bind; [typeclasses eauto | by apply (R_deny unchanged context) | intros r; apply audited_unchanged].
Qed.

Lemma call_changes name arguments context w :
  let w' := (call name arguments context w).2 in
  same_stores w w' \/
  (is_write_tool_allowed (tc_principal_role context) (norm name) = true /\
   wt_results w !! _idempotency_key json_text sha256 (tc_request_id context) (norm name) arguments = None /\
   exists c uuid now r c', wt_budget w = Some c /\
     reserve uuid now (reservation_of (norm name) arguments context) c = (Ret r, c') /\ br_decision r = "allow").
Proof.
  assert (forall w e, same_stores w (mk_write_runtime e (wt_governance w) (wt_artifacts w) (wt_budget w) (wt_results w)))
    as Hext by done.
  cbv zeta. destruct (is_write_tool_allowed _ _) eqn:Hallowed.
  2: { left. pose proof (refused_unchanged name arguments context w Hallowed) as H. by destruct_and! H. }
  rewrite call_allowed by done. cbv zeta. destruct (wt_results w !! _) as [r |] eqn:Hkey.
  { left. pose proof (audited_unchanged (replayed_result r) context w) as H. by destruct_and! H. }
  unfold execute_write_tool, bind at 1.
  pose proof (R_reserve same_stores context Hext ltac:(done) (norm name) arguments w) as Hres.
  destruct (_reserve_budget_if_configured _ _ _ _ _ w) as [[[r |] | x] w1] eqn:Hreserve; [left | right | by left].
  - etransitivity; [exact Hres |]. apply (R_kept same_stores context Hext); by intros ? ? ?.
  - split; [done |]. split; [done |]. by eapply reserve_allowed.
Qed.

(** ** Remembered results *)

Definition same_results (w w' : W) : Prop := wt_results w' = wt_results w.
#[local] Instance same_results_preorder : PreOrder same_results.
Proof. split; unfold same_results; [done | intros a b c -> ->; done]. Qed.

Lemma same_results_zooms {A B} (m : M governance A) (n : M artifact_store B) :
  tracks same_results (wt_on_governance (E := E) (C := C) m) /\
  tracks same_results (wt_on_artifacts (E := E) (C := C) n).
Proof.
  unfold wt_on_governance, wt_on_artifacts, zoom. split; intros w.
  - by destruct (m (wt_governance w)).
  - by destruct (n (wt_artifacts w)).
Qed.

Lemma kept_results key r context w :
  match audited_and_kept (E := E) (C := C) json_text key r context w with
  | (Ret r', w') => r' = r /\ wt_results w' = <[key := r]> (wt_results w)
  | (Raise _, w') => wt_results w' = wt_results w
  end.
Proof.
  unfold audited_and_kept, bind, _audit_write_attempt, wt_on_ext, zoom. cbv beta.
  by destruct (write_event _ (wt_ext w)) as [[[] | x] e].
Qed.

Lemma execute_results name arguments context key w :
  match execute name arguments context key w with
  | (Ret r, w') => wt_results w' = <[key := r]> (wt_results w)
  | (Raise _, w') => wt_results w' = wt_results w
  end.
Proof.
  assert (forall w e, same_results w (mk_write_runtime e (wt_governance w) (wt_artifacts w) (wt_budget w) (wt_results w)))
    as Hext by done.
  assert (forall r w1, wt_results w1 = wt_results w ->
    match audited_and_kept (E := E) (C := C) json_text key r context w1 with
    | (Ret r', w') => wt_results w' = <[key := r']> (wt_results w)
    | (Raise _, w') => wt_results w' = wt_results w
    end) as Hkept.
  { intros r w1 <-. pose proof (kept_results key r context w1) as H.
    destruct (audited_and_kept _ _ _ _ w1) as [[] ]; [by destruct H as [-> ->] | done]. }
  unfold execute_write_tool, bind at 1.
  pose proof (R_reserve same_results context Hext ltac:(done) name arguments w) as H1.
  destruct (_reserve_budget_if_configured _ _ _ _ _ w) as [[[r |] | x] w1]; cbn [snd] in H1; [by apply Hkept | | done].
  assert (tracks same_results
    (match handler_of name with
     | None => tool_deny name context "tool_unknown" "unknown write tool"
     | Some handler => run_handler name arguments context handler
     end)) as H2.
  { apply R_result; try typeclasses eauto; try done; intros.
    - exact (proj1 (same_results_zooms _ (@ret artifact_store unit tt))).
    - exact (proj1 (same_results_zooms _ (@ret artifact_store unit tt))).
    - exact (proj2 (same_results_zooms (@ret governance unit tt) _)). }
  unfold bind at 1. specialize (H2 w1).
  match type of H2 with same_results _ (?m _).2 => destruct (m w1) as [[r | x] w2]; cbn [snd] in H2 end.
  - apply Hkept. by rewrite H2.
  - by rewrite H2.
Qed.

Lemma replayed_again r : replayed_result (replayed_result r) = replayed_result r.
Proof.
  unfold replayed_result. cbn. f_equal. f_equal. f_equal.
  rewrite List.filter_app. cbn. rewrite app_nil_r.
  induction (default [] (tl_data r)) as [| kv l IH]; [done |]. cbn.
  destruct (negb (String.eqb kv.1 "replayed")) eqn:Hkv; cbn; [by rewrite Hkv, IH | done].
Qed.

(** Results are only added. *)
Lemma call_results name arguments context w :
  wt_results w ⊆ wt_results (call name arguments context w).2.
Proof.
  destruct (is_write_tool_allowed (tc_principal_role context) (norm name)) eqn:Hallowed.
  2: { destruct (refused_unchanged name arguments context w Hallowed) as (_ & _ & _ & ->). done. }
  rewrite call_allowed by done. cbv zeta. destruct (wt_results w !! _) as [r |] eqn:Hkey.
  { destruct (audited_unchanged (replayed_result r) context w) as (_ & _ & _ & ->). done. }
  pose proof (execute_results (norm name) arguments context
    (_idempotency_key json_text sha256 (tc_request_id context) (norm name) arguments) w) as H.
  destruct (execute _ _ _ _ w) as [[r | x] w']; cbn [snd]; rewrite H; [by apply insert_subseteq | done].
Qed.

Inductive write_call : W -> W -> Prop :=
  | write_called name arguments context w : write_call w (call name arguments context w).2.

Inductive scoped_call (scope : option string) : W -> W -> Prop :=
  | scoped_called name arguments context w :
      tc_project_id context = scope -> scoped_call scope w (call name arguments context w).2.

(** * Theorems *)

(** C16: write tools act within the command's project and within the governance
    of projects and artifacts.  Whatever tools, arguments and roles a sequence
    of calls with the same project scope has, whatever it answers or raises:
    good project and artifact tables stay good, the governance histories of
    every project are only extended and no artifact revision is lost or
    rewritten; and when the commands are scoped to a project, every other
    project's record and artifacts are untouched. *)
Theorem write_tools_stay_in_scope scope w w' :
  good (g_projects (wt_governance w)) -> table_ok (as_rows (wt_artifacts w)) ->
  star (scoped_call scope) w w' ->
  let t := g_projects (wt_governance w) in let t' := g_projects (wt_governance w') in
  let rows := as_rows (wt_artifacts w) in let rows' := as_rows (wt_artifacts w') in
  good t' /\ table_evolves t t' /\ table_ok rows' /\ rows ⊆ rows' /\
  (forall p, scope = Some p ->
    (forall q, q <> p -> t' !! q = t !! q) /\
    (forall q a k, q <> strip p -> rows' !! (q, a, k) = rows !! (q, a, k))).
Proof.
  intros Hgood Hok Hstar. cbv zeta.
  assert (runtime_step scope w w') as [Hg Ha].
  { clear Hgood Hok. induction Hstar as [w | a b c Hab Hbc IH]; [reflexivity |].
    destruct Hab as [name arguments context a <-]. etransitivity; [apply step_call | exact IH]. }
  destruct (Hg Hgood) as (G1 & G2 & G3). destruct (Ha Hok) as (A1 & A2 & A3). split_and!; try done.
  intros p ->. cbn [within option_map fmap option_fmap] in *. split; intros; by auto.
Qed.

(** C17: a write tool changes something only when it is allowed and paid.  If a
    call leaves a project or an artifact different, the principal's role has the
    tool on its allowlist, this request had not been answered before, and the
    budget client answered allow to the reservation of this tool's cost for the
    call's task and project. *)
Theorem write_tool_is_authorized_and_paid name arguments context w w' o :
  call name arguments context w = (o, w') ->
  wt_governance w' <> wt_governance w \/ wt_artifacts w' <> wt_artifacts w ->
  In (norm name) (_WRITE_ALLOWLIST_BY_ROLE (norm (tc_principal_role context))) /\
  In (norm (tc_principal_role context)) ["ceo"; "cwo"; "project_manager"] /\
  wt_results w !! _idempotency_key json_text sha256 (tc_request_id context) (norm name) arguments = None /\
  exists c uuid now r c', wt_budget w = Some c /\
    reserve uuid now (reservation_of (norm name) arguments context) c = (Ret r, c') /\ br_decision r = "allow".
Proof.
  intros Hcall Hne. pose proof (call_changes name arguments context w) as H. rewrite Hcall in H. cbn [snd] in H.
  destruct H as [[? ?] | (Ha & Hk & Hr)]; [tauto |]. split; [| split; [| by split]].
  - unfold is_write_tool_allowed in Ha. rewrite norm_idem in Ha. by apply mem_In in Ha.
  - unfold is_write_tool_allowed, _WRITE_ALLOWLIST_BY_ROLE in Ha.
    destruct (mem (norm (tc_principal_role context)) _) eqn:Hm; [by apply mem_In in Hm | done].
Qed.

(** A request is executed at most once.  Once an allowed call has answered,
    then after any further calls, a call of the same request with the same tool
    and arguments changes no project, no artifact, no budget and no memory; and
    if the principal may use the tool, it answers the first result marked as
    replayed, or raises because its audit event could not be written. *)
Theorem write_tool_runs_at_most_once name arguments context name' context' w r w1 w2 :
  call name arguments context w = (Ret r, w1) ->
  is_write_tool_allowed (tc_principal_role context) (norm name) = true ->
  star write_call w1 w2 ->
  norm name' = norm name -> tc_request_id context' = tc_request_id context ->
  unchanged w2 (call name' arguments context' w2).2 /\
  (is_write_tool_allowed (tc_principal_role context') (norm name') = true ->
   (call name' arguments context' w2).1 = Ret (replayed_result r) \/
   exists x, (call name' arguments context' w2).1 = Raise x).
Proof.
  intros Hcall Hallowed Hstar Hname Hreq.
  set (key := _idempotency_key json_text sha256 (tc_request_id context) (norm name) arguments).
  assert (exists r0, wt_results w1 !! key = Some r0 /\ replayed_result r0 = replayed_result r) as (r0 & Hr0 & Hrep).
  { rewrite call_allowed in Hcall by done. cbv zeta in Hcall. fold key in Hcall.
    destruct (wt_results w !! key) as [r0 |] eqn:Hkey.
    - exists r0. pose proof (audited_unchanged (replayed_result r0) context w) as (_ & _ & _ & Hu).
      pose proof (audited_answer (replayed_result r0) context w) as Ho. rewrite Hcall in Hu, Ho. cbn in Hu, Ho.
      rewrite Hu. split; [done |]. destruct Ho as [[= ->] | [x Hx]]; [by rewrite replayed_again | done].
    - exists r. pose proof (execute_results (norm name) arguments context key w) as H. rewrite Hcall in H.
      by rewrite H, lookup_insert_eq. }
  assert (wt_results w2 !! key = Some r0) as Hkey.
  { clear Hcall. revert Hr0. induction Hstar as [a | a b c Hab Hbc IH]; [done |]. intros Hr0. apply IH.
    destruct Hab as [n ar cx a].
    exact (lookup_weaken _ _ _ _ Hr0 (call_results n ar cx a)). }
  destruct (is_write_tool_allowed (tc_principal_role context') (norm name')) eqn:Hallowed'.
  2: { split; [by apply refused_unchanged | done]. }
  rewrite call_allowed by done. cbv zeta. rewrite Hname, Hreq. fold key. rewrite Hkey, Hrep.
  split; [apply audited_unchanged | intros _; apply audited_answer].
Qed.
End tool_facts.

(** * Witnesses *)

#[local] Instance count_oracle : Oracle N := {
  uuid4 := fun n => ("u" +:+ pretty n, N.succ n);
  utcnow := fun n => (mk_datetime 2026 3 24 12 0 0 0, n)
}.
#[local] Instance quiet_audit : AuditWriter N := { write_event := fun _ => ret tt }.

Definition sample_projects : projects :=
  (create_project "u0" (mk_datetime 2026 3 24 12 0 0 0) "Atlas" "map the coast" (Some "p1") "proposed" None ∅).2.

Definition sample_runtime : write_runtime N Z :=
  mk_write_runtime 0%N (mk_governance sample_projects ∅) (mk_artifact_store ∅ ∅) (Some 100%Z) ∅.

Definition sample_call (role : string) : ToolCallContext :=
  mk_ToolCallContext "t-1" "r-1" "tr-1" "ceo-1" role role None (Some "p1").

#[local] Abbreviation sample_write :=
  (call_write_tool (E := N) (C := Z) (fun _ => "") (fun _ => "{}") (fun s => s) "/var/openqilin" (fun p => p)
     (fun _ => None) mvp_defaults true "append_decision_log" [("content", JStr "adopt the plan")]).

Lemma count_clock : forall e : N, valid_datetime (utcnow e).1.
Proof. done. Qed.

Lemma sample_good : good sample_projects.
Proof. apply sound_create; [done |]. intros k row Hr. by rewrite lookup_empty in Hr. Qed.

Lemma write_tools_stay_in_scope_witness :
  let w' := (sample_write (sample_call "ceo") sample_runtime).2 in
  size (as_rows (wt_artifacts w')) = 1%nat /\ table_ok (as_rows (wt_artifacts w')) /\
  forall q, q <> "p1" -> g_projects (wt_governance w') !! q = sample_projects !! q.
Proof.
  split; [vm_compute; reflexivity |].
  destruct (write_tools_stay_in_scope (E := N) (C := Z) (fun _ => "") (fun _ => "{}") (fun s => s) "/var/openqilin"
    (fun p => p) (fun _ => None) mvp_defaults true count_clock (Some "p1") sample_runtime _
    sample_good table_ok_empty
    (star_step _ _ _ _ (scoped_called _ _ _ _ _ _ _ _ _ "append_decision_log" [("content", JStr "adopt the plan")]
       (sample_call "ceo") sample_runtime eq_refl) (star_refl _ _))) as (_ & _ & Hok & _ & Hscope).
  split; [exact Hok |]. exact (proj1 (Hscope "p1" eq_refl)).
Defined.

Lemma write_tool_is_authorized_and_paid_witness :
  as_rows (wt_artifacts (sample_write (sample_call "ceo") sample_runtime).2) <> ∅ /\
  In "append_decision_log" (_WRITE_ALLOWLIST_BY_ROLE "ceo").
Proof.
  assert (as_rows (wt_artifacts (sample_write (sample_call "ceo") sample_runtime).2) <> ∅) as Hne.
  { intros H%(f_equal size). vm_compute in H. discriminate H. }
  split; [exact Hne |].
  refine (proj1 (write_tool_is_authorized_and_paid (E := N) (C := Z) (fun _ => "") (fun _ => "{}") (fun s => s)
    "/var/openqilin" (fun p => p) (fun _ => None) mvp_defaults true "append_decision_log"
    [("content", JStr "adopt the plan")] (sample_call "ceo") sample_runtime _ _ (surjective_pairing _) _)).
  right. intros H. apply Hne. rewrite H. reflexivity.
Defined.

Lemma write_tool_runs_at_most_once_witness :
  let w1 := (sample_write (sample_call "ceo") sample_runtime).2 in
  size (as_rows (wt_artifacts w1)) = 1%nat /\
  wt_artifacts (sample_write (sample_call "cwo") w1).2 = wt_artifacts w1 /\
  (exists r, (sample_write (sample_call "cwo") w1).1 = Ret r /\ tl_decision r = "ok").
Proof.
  destruct (sample_write (sample_call "ceo") sample_runtime) as [o w1] eqn:Hcall.
  assert (exists r, o = Ret r) as [r ->].
  { change o with (o, w1).1. rewrite <- Hcall. vm_compute. eexists. reflexivity. }
  assert (is_write_tool_allowed (tc_principal_role (sample_call "ceo")) (norm "append_decision_log") = true) as Hallowed
    by (vm_compute; reflexivity).
  pose proof (write_tool_runs_at_most_once (E := N) (C := Z) (fun _ => "") (fun _ => "{}") (fun s => s) "/var/openqilin"
    (fun p => p) (fun _ => None) mvp_defaults true count_clock "append_decision_log"
    [("content", JStr "adopt the plan")] (sample_call "ceo") "append_decision_log" (sample_call "cwo") sample_runtime r w1 w1)
    as Hu.
  specialize (Hu Hcall Hallowed (star_refl _ w1) eq_refl eq_refl).
  destruct Hu as [(_ & Hu & _) _].
  cbv zeta. cbn [snd]. split; [| split; [exact Hu |]].
  - change w1 with (Ret r, w1).2. rewrite <- Hcall. vm_compute. reflexivity.
  - change w1 with (Ret r, w1).2. rewrite <- Hcall. vm_compute. eexists. split; reflexivity.
Defined.

(** The principal's role is checked, the recipient's role acts: a project
    manager, whose own role may not terminate a project, terminates it through a
    command addressed to the CEO. *)
Definition active_project : projects :=
  match sample_projects !! "p1" with
  | Some row =>
      match _project_from_row row with
      | Ret p => <["p1" := _project_to_row (replace_status Active (mk_datetime 2026 3 24 12 0 0 0)
                   (mk_Transition "p1" "approved" "active" "r" "ceo" "t" (mk_datetime 2026 3 24 12 0 0 0) []) p)]> ∅
      | _ => ∅
      end
  | None => ∅
  end.

Lemma recipient_role_acts :
  let terminate context := call_write_tool (E := N) (C := Z) (fun _ => "") (fun _ => "{}") (fun s => s) "/var/openqilin"
    (fun p => p) (fun _ => None) mvp_defaults true "transition_project_lifecycle" [("next_status", JStr "terminated")]
    context (mk_write_runtime 0%N (mk_governance active_project ∅) (mk_artifact_store ∅ ∅) (Some 100%Z) ∅) in
  let answer context := match (terminate context).1 with Ret r => tl_decision r | Raise _ => "" end in
  let by_manager recipient :=
    mk_ToolCallContext "t-1" "r-1" "tr-1" "pm-1" "project_manager" recipient None (Some "p1") in
  answer (by_manager "project_manager") = "denied" /\ answer (by_manager "ceo") = "ok".
Proof. split; vm_compute; reflexivity. Qed.
