(* ===== verification/ReadTools.v ===== *)
(** Governed read tools and the retrieval boundary behind one of them.

    Models [execution_sandbox/tools/read_tools.py],
    [retrieval_runtime/models.py], [retrieval_runtime/service.py] and
    [data_access/read_models/artifact_search.py].

    A read tool reads the projects, artifacts, tasks, audit events, dead letters
    and conversations of the runtime; the search model is the parameter
    [search], of which the shipped one is [local_search]. *)

From Stdlib Require Import Ascii.
From S2P Require Import Prelude PyStr PyData LlmSchemas PyFloat Task Budget LoopControl Policy Runtime.
From S2P Require Import ProjectModel ProjectRows ProjectRepo Governance CommStore Artifacts Tools AuditTrail Conversation.

(** * Retrieval *)

Record RetrievalQueryRequest : Type := mk_RetrievalQueryRequest {
  rq_project_id : string;
  rq_query : string;
  rq_limit : Z;
  rq_artifact_type : option string
}.

Record RetrievalArtifactHit : Type := mk_RetrievalArtifactHit {
  rh_project_id : string;
  rh_artifact_id : string;
  rh_artifact_type : string;
  rh_title : string;
  rh_snippet : string;
  rh_source_ref : string;
  rh_score : pyfloat
}.

Record RetrievalQueryResult : Type := mk_RetrievalQueryResult {
  rr_decision : string;
  rr_hits : list RetrievalArtifactHit;
  rr_error_code : option string;
  rr_message : string;
  rr_retryable : bool
}.

(** [LocalArtifactSearchReadModel.search]. *)
Definition local_search (request : RetrievalQueryRequest) : outcome (list RetrievalArtifactHit) :=
  if String.eqb (rq_query request) "retrieval_error"
  then Raise (RetrievalRuntimeError "retrieval_runtime_error_fail_closed" "simulated retrieval backend error" true)
  else Ret [].

Definition search_project_artifacts (search : RetrievalQueryRequest -> outcome (list RetrievalArtifactHit))
    (request : RetrievalQueryRequest) : RetrievalQueryResult :=
  if negb (truthy (rq_project_id request)) then
    mk_RetrievalQueryResult "denied" [] (Some "retrieval_scope_invalid")
      "project scope is required for retrieval query" false
  else
    match search request with
    | Ret hits => mk_RetrievalQueryResult "ok" hits None "retrieval query completed" false
    | Raise (RetrievalRuntimeError _ _ _) =>
        mk_RetrievalQueryResult "denied" [] (Some "retrieval_runtime_error_fail_closed")
          "retrieval runtime unavailable; query denied fail-closed" true
    | Raise _ =>
        mk_RetrievalQueryResult "denied" [] (Some "retrieval_runtime_unexpected_fail_closed")
          "unexpected retrieval runtime failure; query denied fail-closed" false
    end.

(** * The service *)

(** What the tools read.  [rt_audit] is [Some] when the writer is the in-memory
    one; the dead letters and the conversation store may be left out. *)
Record read_runtime (E CS : Type) : Type := mk_read_runtime {
  rt_ext : E;
  rt_projects : projects;
  rt_artifacts : artifact_store;
  rt_tasks : task_table;
  rt_audit : option (list AuditEvent);
  rt_dead_letters : option (list CommunicationDeadLetterRecord);
  rt_conversations : option CS
}.
Arguments mk_read_runtime {E CS}.
Arguments rt_ext {E CS}.
Arguments rt_projects {E CS}.
Arguments rt_artifacts {E CS}.
Arguments rt_tasks {E CS}.
Arguments rt_audit {E CS}.
Arguments rt_dead_letters {E CS}.
Arguments rt_conversations {E CS}.

(** [text[:n]]. *)
Definition prefix_of (n : nat) (text : string) : string := String.substring 0 n text.

(** [text.replace(a, b)] of one character by another. *)
Definition replace_char (a b : Ascii.ascii) (text : string) : string :=
  concat_map_str (fun c => String (if Ascii.eqb c a then b else c) "") text.

(** [{value.strip() for value in text.split(",") if value.strip()}]. *)
Definition comma_set (text : string) : list string :=
  List.filter truthy (map strip (split_on ","%char text)).

Definition newer_task (a b : TaskRecord) : bool :=
  if dt_ltb (created_at b) (created_at a) then true
  else if dt_ltb (created_at a) (created_at b) then false
  else str_leb (task_id b) (task_id a).

Definition newer_event (a b : AuditEvent) : bool := negb (dt_ltb (av_timestamp a) (av_timestamp b)).

Section read_tools.
Context {E CS : Type} `{!Oracle E} `{!ConversationStore CS}.
Context (str_float : spec_float -> string) (json_text : json -> string).
Context (search : RetrievalQueryRequest -> outcome (list RetrievalArtifactHit)).

#[local] Abbreviation R := (read_runtime E CS).
#[local] Abbreviation text_of := (argument_text str_float).

(** [_normalize_int]. *)
Definition _normalize_int (value : option json) (default_value minimum maximum : Z) : Z :=
  let parsed := default default_value (j ← value; py_int (json_str str_float j)) in
  if (parsed <? minimum)%Z then minimum else if (maximum <? parsed)%Z then maximum else parsed.

Definition rt_uuid : M R string := fun s =>
  let '(u, e) := uuid4 (rt_ext s) in
  (Ret u, mk_read_runtime e (rt_projects s) (rt_artifacts s) (rt_tasks s) (rt_audit s) (rt_dead_letters s)
            (rt_conversations s)).
Definition rt_on_projects {A} (m : M projects A) : M R A :=
  zoom rt_projects (fun p s => mk_read_runtime (rt_ext s) p (rt_artifacts s) (rt_tasks s) (rt_audit s)
                                 (rt_dead_letters s) (rt_conversations s)) m.
Definition rt_on_artifacts {A} (m : M artifact_store A) : M R A :=
  zoom rt_artifacts (fun a s => mk_read_runtime (rt_ext s) (rt_projects s) a (rt_tasks s) (rt_audit s)
                                 (rt_dead_letters s) (rt_conversations s)) m.
Definition rt_on_tasks {A} (m : M task_table A) : M R A :=
  zoom rt_tasks (fun t s => mk_read_runtime (rt_ext s) (rt_projects s) (rt_artifacts s) t (rt_audit s)
                              (rt_dead_letters s) (rt_conversations s)) m.
Definition rt_on_conversations {A} (store : CS) (m : M CS A) : M R A := fun s =>
  let '(o, store') := m store in
  (o, mk_read_runtime (rt_ext s) (rt_projects s) (rt_artifacts s) (rt_tasks s) (rt_audit s) (rt_dead_letters s)
        (Some store')).

Definition _ok (tool_name : string) (context : ToolCallContext) (data : list (string * json))
    (sources : list ToolSourceDescriptor) : M R ToolResult :=
  let! u := rt_uuid in
  ret (mk_ToolResult "ok" tool_name ("tool-" +:+ u) (tc_trace_id context) (tc_request_id context) (Some data)
         sources None "ok").

Definition _deny (tool_name : string) (context : ToolCallContext) (code message : string) : M R ToolResult :=
  let! u := rt_uuid in
  ret (mk_ToolResult "denied" tool_name ("tool-" +:+ u) (tc_trace_id context) (tc_request_id context) None []
         (Some code) message).

(** [_resolve_project_scope]: the project identifier, or the denial; the rest of
    a tool is the continuation. *)
Definition _resolve_project_scope (arguments : tool_arguments) (context : ToolCallContext)
    (k : string -> M R ToolResult) : M R ToolResult :=
  let tool := text_of arguments "tool_name" "tool" in
  let named := strip (text_of arguments "project_id" "") in
  let requested := if truthy named then named else default "" (tc_project_id context) in
  if negb (truthy requested) then
    _deny tool context "tool_project_scope_required" "project_id is required"
  else if bool_decide (is_Some (tc_project_id context) /\ tc_project_id context <> Some requested) then
    _deny tool context "tool_project_scope_mismatch" "requested project_id differs from command scope"
  else k requested.

Definition _resolve_project (arguments : tool_arguments) (context : ToolCallContext)
    (k : ProjectRecord -> M R ToolResult) : M R ToolResult :=
  _resolve_project_scope arguments context (fun project_id =>
    let! found := rt_on_projects (get_project project_id) in
    match found with
    | None => _deny (text_of arguments "tool_name" "tool") context "tool_project_missing"
                ("project not found: " +:+ project_id)
    | Some p => k p
    end).

Definition _tool_get_project_lifecycle_state (arguments : tool_arguments) (context : ToolCallContext)
    : M R ToolResult :=
  _resolve_project arguments context (fun p =>
    let! next_states := of_outcome (allowed_project_status_transitions (status_str (p_status p))) in
    _ok "get_project_lifecycle_state" context
      [("project_id", JStr (p_id p)); ("status", JStr (status_str (p_status p)));
       ("next_transitions", JArr (map JStr next_states)); ("updated_at", JStr (isoformat (p_updated_at p)))]
      [project_source p]).

Definition _tool_get_project_budget_snapshot (arguments : tool_arguments) (context : ToolCallContext)
    : M R ToolResult :=
  _resolve_project arguments context (fun p =>
    let currency_total := match p_initialization p with Some i => budget_currency_total i | None => f_zero end in
    let quota_total := match p_initialization p with Some i => budget_quota_total i | None => f_zero end in
    let amount x := JFloat (f_round 6 x) in
    _ok "get_project_budget_snapshot" context
      [("project_id", JStr (p_id p));
       ("currency_total", amount currency_total); ("currency_used", amount f_zero);
       ("currency_remaining", amount (f_max f_zero (f_sub currency_total f_zero)));
       ("quota_total", amount quota_total); ("quota_used", amount f_zero);
       ("quota_remaining", amount (f_max f_zero (f_sub quota_total f_zero)));
       ("usage_source", JStr "runtime_budget_usage_not_persisted");
       ("baseline_initialized", JBool (bool_decide (is_Some (p_initialization p))))]
      [mk_ToolSourceDescriptor ("project:" +:+ p_id p) "budget" (Some "initialization_snapshot")
         (Some (isoformat (p_updated_at p)))]).

(** The lines of a plan that look like list items. *)
Definition milestone_lines (content : string) : list string :=
  take 12 (List.filter (fun line => existsb (startswith line) ["-"; "*"; "1."; "2."; "3."; "4."; "5."])
             (map strip (splitlines content))).

Definition document_source (d : ProjectArtifactDocument) : ToolSourceDescriptor :=
  let p := ad_pointer d in
  mk_ToolSourceDescriptor ("artifact:" +:+ pt_artifact_type p) "artifact"
    (Some ("v" +:+ str_int (pt_revision_no p))) (Some (isoformat (pt_created_at p))).

Definition revision_of (d : option ProjectArtifactDocument) : json :=
  match d with Some d => JInt (pt_revision_no (ad_pointer d)) | None => JNull end.

Definition _tool_get_project_milestone_status (arguments : tool_arguments) (context : ToolCallContext)
    : M R ToolResult :=
  _resolve_project arguments context (fun p =>
    let! execution_plan := rt_on_artifacts (read_latest_artifact (p_id p) "execution_plan") in
    let! progress_report := rt_on_artifacts (read_latest_artifact (p_id p) "progress_report") in
    let lines := match execution_plan with Some d => milestone_lines (ad_content d) | None => [] end in
    _ok "get_project_milestone_status" context
      [("project_id", JStr (p_id p)); ("milestones_total", JInt (Z.of_nat (length lines)));
       ("completion_percent", JInt (match lines with [] => 0 | _ => 20 end));
       ("blocked_milestones", JArr []); ("due_date_risk_flags", JArr []);
       ("latest_execution_plan_revision", revision_of execution_plan);
       ("latest_progress_report_revision", revision_of progress_report)]
      (project_source p ::
       match execution_plan with Some d => [document_source d] | None => [] end ++
       match progress_report with Some d => [document_source d] | None => [] end)).

Definition task_entry (t : TaskRecord) : json :=
  JObj [("task_id", JStr (task_id t)); ("status", JStr (status t)); ("command", JStr (command t));
        ("target", JStr (target t)); ("dispatch_target", opt_json (dispatch_target t));
        ("outcome_error_code", opt_json (outcome_error_code t));
        ("created_at", JStr (isoformat (created_at t)))].

Definition board_tasks (project_id : string) (status_filter : list string) (tasks : list TaskRecord)
    : list TaskRecord :=
  List.filter (fun t => bool_decide (Task.project_id t = Some project_id) &&
                        (match status_filter with [] => true | _ => mem (status t) status_filter end)) tasks.

Definition _tool_get_project_task_board (arguments : tool_arguments) (context : ToolCallContext)
    : M R ToolResult :=
  _resolve_project_scope arguments context (fun project_id =>
    let limit := _normalize_int (jfield arguments "limit") 20 1 100 in
    let status_filter := comma_set (norm (text_of arguments "status_filter" "")) in
    let! all := rt_on_tasks list_tasks in
    let tasks := board_tasks project_id status_filter all in
    let top := take (Z.to_nat limit) (sorted newer_task tasks) in
    _ok "get_project_task_board" context
      [("project_id", JStr project_id); ("result_count", JInt (Z.of_nat (length top)));
       ("tasks", JArr (map task_entry top))]
      [mk_ToolSourceDescriptor ("runtime:tasks:" +:+ project_id) "task"
         (Some ("count:" +:+ str_int (Z.of_nat (length tasks)))) ((fun t => isoformat (created_at t)) <$> head top)]).

Definition hit_entry (h : RetrievalArtifactHit) : json :=
  JObj [("artifact_id", JStr (rh_artifact_id h)); ("artifact_type", JStr (rh_artifact_type h));
        ("title", JStr (rh_title h)); ("snippet", JStr (rh_snippet h)); ("source_ref", JStr (rh_source_ref h));
        ("score", JFloat (rh_score h))].

Definition _tool_search_project_docs (arguments : tool_arguments) (context : ToolCallContext) : M R ToolResult :=
  _resolve_project_scope arguments context (fun project_id =>
    let query := strip (text_of arguments "query" "") in
    if negb (truthy query) then _deny "search_project_docs" context "tool_query_missing" "query is required"
    else
      let limit := _normalize_int (jfield arguments "limit") 5 1 20 in
      let named := norm (text_of arguments "artifact_type" "") in
      let retrieval := search_project_artifacts search
        (mk_RetrievalQueryRequest project_id query limit (if truthy named then Some named else None)) in
      if negb (String.eqb (rr_decision retrieval) "ok") then
        _deny "search_project_docs" context (opt_or (rr_error_code retrieval) "retrieval_query_denied")
          (rr_message retrieval)
      else
        _ok "search_project_docs" context
          [("project_id", JStr project_id); ("query", JStr query);
           ("result_count", JInt (Z.of_nat (length (rr_hits retrieval))));
           ("hits", JArr (map hit_entry (rr_hits retrieval)))]
          (map (fun h => mk_ToolSourceDescriptor ("artifact:" +:+ rh_artifact_id h) "artifact"
                           (Some ("score:" +:+ str_float (rh_score h))) None) (rr_hits retrieval))).

Definition _tool_get_project_doc_latest (arguments : tool_arguments) (context : ToolCallContext)
    : M R ToolResult :=
  _resolve_project_scope arguments context (fun project_id =>
    let tool := "get_project_doc_latest" in
    let artifact_type := norm (text_of arguments "artifact_type" "") in
    if negb (truthy artifact_type) then
      _deny tool context "tool_artifact_type_missing" "artifact_type is required"
    else
      let! read := try (let! d := rt_on_artifacts (read_latest_artifact project_id artifact_type) in ret (Ret d))
        (fun e => match e with
                  | ProjectArtifactRepositoryError code message =>
                      Some (ret (Raise (ProjectArtifactRepositoryError code message)))
                  | _ => None
                  end) in
      match read with
      | Raise (ProjectArtifactRepositoryError code message) => _deny tool context code message
      | Raise e => raise e
      | Ret None => _deny tool context "tool_artifact_missing" "artifact not found"
      | Ret (Some d) =>
          let p := ad_pointer d in
          let excerpt := replace_char "010"%char " "%char (strip (ad_content d)) in
          _ok tool context
            [("project_id", JStr project_id); ("artifact_type", JStr artifact_type);
             ("revision_no", JInt (pt_revision_no p)); ("storage_uri", JStr (pt_storage_uri p));
             ("content_hash", JStr (pt_content_hash p)); ("excerpt", JStr (prefix_of 500 excerpt))]
            [mk_ToolSourceDescriptor ("artifact:" +:+ artifact_type) "artifact"
               (Some ("v" +:+ str_int (pt_revision_no p))) (Some (isoformat (pt_created_at p)))]
      end).

Definition required_completion_roles : list string := ["ceo"; "cwo"].

Definition _tool_get_completion_gate_status (arguments : tool_arguments) (context : ToolCallContext)
    : M R ToolResult :=
  _resolve_project arguments context (fun p =>
    let report_present := bool_decide (is_Some (p_completion_report p)) in
    let approval_roles := sorted_set (map ap_actor_role (p_completion_approvals p)) in
    let missing_roles := sorted str_leb (List.filter (fun r => negb (mem r approval_roles)) required_completion_roles) in
    let owner_notified := bool_decide (is_Some (p_completion_owner_notified_at p)) in
    _ok "get_completion_gate_status" context
      [("project_id", JStr (p_id p)); ("report_present", JBool report_present);
       ("approval_roles", JArr (map JStr approval_roles));
       ("missing_approval_roles", JArr (map JStr missing_roles)); ("owner_notified", JBool owner_notified);
       ("ready_for_completion_transition",
        JBool (report_present && (match missing_roles with [] => true | _ => false end) && owner_notified))]
      [project_source p]).

Definition binding_entry (b : WorkforceBindingRecord) : json :=
  JObj [("role", JStr (wb_role b)); ("template_id", JStr (template_id b));
        ("binding_status", JStr (binding_status b)); ("llm_routing_profile", JStr (llm_routing_profile b));
        ("mandatory_operations", JArr (map JStr (mandatory_operations b)));
        ("created_at", JStr (isoformat (wb_created_at b)))].

Definition _tool_get_project_workforce_snapshot (arguments : tool_arguments) (context : ToolCallContext)
    : M R ToolResult :=
  _resolve_project arguments context (fun p =>
    let bindings := p_workforce_bindings p in
    let count := Z.of_nat (length bindings) in
    _ok "get_project_workforce_snapshot" context
      [("project_id", JStr (p_id p)); ("binding_count", JInt count); ("bindings", JArr (map binding_entry bindings))]
      [mk_ToolSourceDescriptor ("project:" +:+ p_id p) "project_record"
         (Some ("workforce_bindings:" +:+ str_int count)) (Some (isoformat (p_updated_at p)))]).

Definition event_entry (e : AuditEvent) : json :=
  JObj [("event_id", JStr (av_event_id e)); ("event_type", JStr (av_event_type e)); ("outcome", JStr (av_outcome e));
        ("task_id", opt_json (av_task_id e)); ("trace_id", JStr (av_trace_id e));
        ("actor_role", JStr (av_actor_role e)); ("source", JStr (av_source e));
        ("reason_code", opt_json (av_reason_code e)); ("message", JStr (av_message e));
        ("timestamp", JStr (isoformat (av_timestamp e)))].

Definition project_events (task_ids event_types : list string) (events : list AuditEvent) : list AuditEvent :=
  List.filter (fun e => (match av_task_id e with Some t => mem t task_ids | None => false end) &&
                        (match event_types with [] => true | _ => mem (av_event_type e) event_types end)) events.

Definition _tool_get_audit_event_stream (arguments : tool_arguments) (context : ToolCallContext)
    : M R ToolResult :=
  _resolve_project_scope arguments context (fun project_id =>
    let! all := rt_on_tasks list_tasks in
    let task_ids := map task_id (board_tasks project_id [] all) in
    let limit := _normalize_int (jfield arguments "limit") 20 1 100 in
    let event_types := comma_set (norm (text_of arguments "event_types" "")) in
    let! all_audit_events := gets (fun s => default [] (rt_audit s)) in
    let matched := sorted newer_event (project_events task_ids event_types all_audit_events) in
    let top := take (Z.to_nat limit) matched in
    _ok "get_audit_event_stream" context
      [("project_id", JStr project_id); ("result_count", JInt (Z.of_nat (length top)));
       ("events", JArr (map event_entry top))]
      [mk_ToolSourceDescriptor ("audit:project:" +:+ project_id) "audit"
         (Some ("count:" +:+ str_int (Z.of_nat (length matched)))) ((fun e => isoformat (av_timestamp e)) <$> head top)]).

Definition dead_letter_entry (r : CommunicationDeadLetterRecord) : json :=
  JObj [("dead_letter_id", JStr (dl_dead_letter_id r)); ("error_code", JStr (dl_error_code r));
        ("error_message", JStr (dl_error_message r)); ("attempts", JInt (dl_attempts r));
        ("created_at", JStr (isoformat (dl_created_at r)))].

Definition _tool_get_dispatch_denial_evidence (arguments : tool_arguments) (context : ToolCallContext)
    : M R ToolResult :=
  let tool := "get_dispatch_denial_evidence" in
  let raw_task_id := strip (text_of arguments "task_id" "") in
  if negb (truthy raw_task_id) then _deny tool context "tool_task_id_missing" "task_id is required"
  else
    let! found := rt_on_tasks (get_task_by_id raw_task_id) in
    match found with
    | None => _deny tool context "tool_task_missing" "task not found"
    | Some t =>
        if bool_decide (is_Some (tc_project_id context) /\ Task.project_id t <> tc_project_id context) then
          _deny tool context "tool_project_scope_mismatch" "task is outside project scope"
        else if negb (String.eqb (status t) "blocked") then
          _deny tool context "tool_task_not_denied" "task is not a denied/blocked dispatch"
        else
          let! dead_letters := gets (fun s =>
            List.filter (fun r => String.eqb (dl_task_id r) (task_id t)) (default [] (rt_dead_letters s))) in
          _ok tool context
            [("task_id", JStr (task_id t)); ("status", JStr (status t));
             ("project_id", opt_json (Task.project_id t)); ("dispatch_target", opt_json (dispatch_target t));
             ("outcome_source", opt_json (outcome_source t)); ("error_code", opt_json (outcome_error_code t));
             ("message", opt_json (outcome_message t)); ("dead_letters", JArr (map dead_letter_entry dead_letters))]
            (mk_ToolSourceDescriptor ("task:" +:+ task_id t) "task" (Some ("status:" +:+ status t))
               (Some (isoformat (created_at t))) ::
             map (fun r => mk_ToolSourceDescriptor ("dead_letter:" +:+ dl_dead_letter_id r) "runtime"
                             (Some ("attempts:" +:+ str_int (dl_attempts r))) (Some (isoformat (dl_created_at r))))
               dead_letters)
    end.

Definition turn_entry (t : ConversationTurn) : json :=
  JObj [("role", JStr (cv_role t)); ("content", JStr (cv_content t))].

Definition _tool_get_conversation_window (arguments : tool_arguments) (context : ToolCallContext)
    : M R ToolResult :=
  let tool := "get_conversation_window" in
  let! store := gets rt_conversations in
  match store with
  | None => _deny tool context "tool_conversation_store_missing" "conversation store is not available"
  | Some store =>
      match py_int (match jfield arguments "window_index" with Some v => json_str str_float v | None => "None" end) with
      | None => _deny tool context "tool_window_index_invalid" "window_index must be an integer"
      | Some k =>
          if (k <? 0)%Z then _deny tool context "tool_window_index_invalid" "window_index must be >= 0"
          else
            let raw_scope := strip (text_of arguments "scope" "") in
            if negb (truthy raw_scope) then
              _deny tool context "tool_scope_missing" "scope is required (e.g. 'guild::G::channel::C')"
            else
              let! turns := rt_on_conversations store (fetch_window raw_scope k) in
              match turns with
              | [] => _deny tool context "tool_window_not_found"
                        ("no turns found for window_index=" +:+ str_int k +:+ " in scope")
              | _ =>
                  _ok tool context
                    [("scope", JStr raw_scope); ("window_index", JInt k);
                     ("turn_count", JInt (Z.of_nat (length turns))); ("turns", JArr (map turn_entry turns))]
                    [mk_ToolSourceDescriptor ("conversation:" +:+ raw_scope +:+ ":window:" +:+ str_int k)
                       "conversation_window" (Some ("window:" +:+ str_int k)) None]
              end
      end
  end.

(** [getattr(self, f"_tool_{name}", None)]. *)
Definition read_handler (tool_name : string) : option (tool_arguments -> ToolCallContext -> M R ToolResult) :=
  if String.eqb tool_name "get_project_lifecycle_state" then Some _tool_get_project_lifecycle_state
  else if String.eqb tool_name "get_project_budget_snapshot" then Some _tool_get_project_budget_snapshot
  else if String.eqb tool_name "get_project_milestone_status" then Some _tool_get_project_milestone_status
  else if String.eqb tool_name "get_project_task_board" then Some _tool_get_project_task_board
  else if String.eqb tool_name "search_project_docs" then Some _tool_search_project_docs
  else if String.eqb tool_name "get_project_doc_latest" then Some _tool_get_project_doc_latest
  else if String.eqb tool_name "get_completion_gate_status" then Some _tool_get_completion_gate_status
  else if String.eqb tool_name "get_project_workforce_snapshot" then Some _tool_get_project_workforce_snapshot
  else if String.eqb tool_name "get_audit_event_stream" then Some _tool_get_audit_event_stream
  else if String.eqb tool_name "get_dispatch_denial_evidence" then Some _tool_get_dispatch_denial_evidence
  else if String.eqb tool_name "get_conversation_window" then Some _tool_get_conversation_window
  else None.

(** [call_tool]. *)
Definition call_read_tool (tool_name : string) (arguments : tool_arguments) (context : ToolCallContext)
    : M R ToolResult :=
  let normalized_tool := norm tool_name in
  if negb (truthy normalized_tool) then
    _deny tool_name context "tool_name_missing" "tool_name is required"
  else if negb (is_read_tool_allowed (tc_recipient_role context) normalized_tool) then
    _deny normalized_tool context "tool_access_denied" "read tool is not allowed for recipient role"
  else
    match read_handler normalized_tool with
    | None => _deny normalized_tool context "tool_unknown" "unknown read tool"
    | Some handler =>
        try (handler arguments context)
          (fun e => Some (_deny normalized_tool context "tool_runtime_error" ("tool execution failed: " +:+ exn_str e)))
    end.

(** [summarize_for_grounding]. *)
Definition summarize_for_grounding (result : ToolResult) : string :=
  prefix_of 1200 (json_text (JObj
    [("tool_name", JStr (tl_tool_name result)); ("decision", JStr (tl_decision result));
     ("data", match tl_data result with Some d => JObj d | None => JNull end);
     ("sources", JArr (map (fun s => JObj [("source_id", JStr (sd_source_id s)); ("source_kind", JStr (sd_source_kind s));
                                          ("version", opt_json (sd_version s)); ("updated_at", opt_json (sd_updated_at s))])
                         (tl_sources result)))])).
End read_tools.
