(* ===== verification/ReadToolFacts.v ===== *)
(** What read tools guarantee: they always answer, change nothing, and within a
    project's scope reveal nothing about other projects. *)

From S2P Require Import Prelude PyStr PyData LlmSchemas PyFloat Task Budget LoopControl Policy Runtime.
From S2P Require Import ProjectModel ProjectRows ProjectRepo Governance CommStore Artifacts Tools AuditTrail Conversation ReadTools.

Section facts.
Context {E CS : Type} `{!Oracle E} `{!ConversationStore CS}.
Context (str_float : spec_float -> string) (json_text : json -> string).
Context (search : RetrievalQueryRequest -> outcome (list RetrievalArtifactHit)).

#[local] Abbreviation R := (read_runtime E CS).
#[local] Abbreviation call := (call_read_tool (E := E) (CS := CS) str_float search).
#[local] Abbreviation handler_of := (read_handler (E := E) (CS := CS) str_float search).

(** * Read-only *)

(** Everything but the identifier source and the conversation store, whose
    reads are the store's own. *)
Definition same_data (s s' : R) : Prop :=
  rt_projects s' = rt_projects s /\ rt_artifacts s' = rt_artifacts s /\ rt_tasks s' = rt_tasks s /\
  rt_audit s' = rt_audit s /\ rt_dead_letters s' = rt_dead_letters s.

#[local] Instance same_data_preorder : PreOrder same_data.
Proof.
  split; unfold same_data; [done |].
  intros a b c (-> & -> & -> & -> & ->) (-> & -> & -> & -> & ->). done.
Qed.

Lemma same_uuid : tracks same_data (rt_uuid (E := E) (CS := CS)).
Proof. intros s. unfold rt_uuid. by destruct (uuid4 (rt_ext s)). Qed.

Lemma same_projects {A} (m : M projects A) : (forall t, (m t).2 = t) -> tracks same_data (rt_on_projects (E := E) (CS := CS) m).
Proof. intros H s. unfold rt_on_projects, zoom. specialize (H (rt_projects s)). destruct (m _). by cbn in *; subst. Qed.
Lemma same_artifacts {A} (m : M artifact_store A) :
  (forall t, (m t).2 = t) -> tracks same_data (rt_on_artifacts (E := E) (CS := CS) m).
Proof. intros H s. unfold rt_on_artifacts, zoom. specialize (H (rt_artifacts s)). destruct (m _). by cbn in *; subst. Qed.
Lemma same_tasks {A} (m : M task_table A) : (forall t, (m t).2 = t) -> tracks same_data (rt_on_tasks (E := E) (CS := CS) m).
Proof. intros H s. unfold rt_on_tasks, zoom. specialize (H (rt_tasks s)). destruct (m _). by cbn in *; subst. Qed.
Lemma same_conversations {A} store (m : M CS A) : tracks same_data (rt_on_conversations (E := E) store m).
Proof. intros s. unfold rt_on_conversations. by destruct (m store). Qed.

Lemma get_project_pure pid t : (get_project pid t).2 = t.
Proof.
  unfold get_project, bind, gets, of_outcome, ret. destruct (t !! pid); [| done]. by destruct (_project_from_row _).
Qed.
Lemma read_latest_pure pid atype t : (read_latest_artifact pid atype t).2 = t.
Proof.
  unfold read_latest_artifact, bind, gets, of_outcome. destruct (_validate_project_id pid); [| done].
  by destruct (_validate_artifact_type atype).
Qed.

Lemma same_get_project pid : tracks same_data (rt_on_projects (E := E) (CS := CS) (get_project pid)).
Proof. apply same_projects. intros t. apply get_project_pure. Qed.
Lemma same_read pid atype : tracks same_data (rt_on_artifacts (E := E) (CS := CS) (read_latest_artifact pid atype)).
Proof. apply same_artifacts. intros t. apply read_latest_pure. Qed.
Lemma same_list : tracks same_data (rt_on_tasks (E := E) (CS := CS) list_tasks).
Proof. by apply same_tasks. Qed.
Lemma same_get_task tid : tracks same_data (rt_on_tasks (E := E) (CS := CS) (get_task_by_id tid)).
Proof. by apply same_tasks. Qed.
#[local] Hint Resolve same_uuid same_get_project same_read same_list same_get_task same_conversations : tracks.

Lemma same_ok tool context data sources : tracks same_data (_ok (E := E) (CS := CS) tool context data sources).
Proof. unfold _ok. tracks_auto. Qed.
Lemma same_deny tool context code message : tracks same_data (_deny (E := E) (CS := CS) tool context code message).
Proof. unfold _deny. tracks_auto. Qed.
#[local] Hint Resolve same_ok same_deny : tracks.

Lemma same_scope arguments context k :
  (forall p, tracks same_data (k p)) ->
  tracks same_data (_resolve_project_scope (E := E) (CS := CS) str_float arguments context k).
Proof.
  intros Hk. unfold _resolve_project_scope. cbv zeta. set (requested := if truthy _ then _ else _). clearbody requested.
  destruct (negb _); [tracks_auto |]. case_bool_decide; [tracks_auto | apply Hk].
Qed.

Lemma same_resolve arguments context k :
  (forall p, tracks same_data (k p)) ->
  tracks same_data (_resolve_project (E := E) (CS := CS) str_float arguments context k).
Proof.
  intros Hk. apply same_scope. intros pid. apply tracks_bind; [typeclasses eauto | tracks_auto |].
  intros [p |]; [apply Hk | tracks_auto].
Qed.

Lemma same_handler name handler arguments context :
  handler_of name = Some handler -> tracks same_data (handler arguments context).
Proof.
  unfold read_handler. repeat case_match; intros [= <-]; try done;
    first [apply same_resolve; intros p; tracks_auto | apply same_scope; intros p; cbv zeta; tracks_auto | idtac].
  - intros e k He. case_match; simplify_eq; tracks_auto.
  - unfold _tool_get_dispatch_denial_evidence. cbv zeta. tracks_auto.
  - unfold _tool_get_conversation_window. cbv zeta. tracks_auto.
Qed.

Lemma deny_answers tool context code message s :
  exists r, (_deny (E := E) (CS := CS) tool context code message s).1 = Ret r /\
    tl_decision r = "denied" /\ tl_error_code r = Some code.
Proof. unfold _deny, bind, rt_uuid. destruct (uuid4 (rt_ext s)). by eexists. Qed.

Lemma run_bind {A B} (m : M R A) (k : A -> M R B) s :
  bind m k s = match m s with (Ret a, s') => k a s' | (Raise e, s') => (Raise e, s') end.
Proof. done. Qed.

(** * One project's data

    [agree p s s']: the two runtimes hold the same of project [p]. *)

Definition project_tasks (p : string) (s : R) : list TaskRecord :=
  board_tasks p [] (map _task_from_row (table_rows (rt_tasks s))).

Definition agree (p : string) (s s' : R) : Prop :=
  rt_ext s = rt_ext s' /\ rt_conversations s = rt_conversations s' /\
  rt_projects s !! p = rt_projects s' !! p /\
  (forall t k, as_rows (rt_artifacts s) !! (strip p, t, k) = as_rows (rt_artifacts s') !! (strip p, t, k)) /\
  project_tasks p s = project_tasks p s' /\
  (forall tid row, rt_tasks s !! tid = Some row -> text_column (Task.project_id row) = Some p ->
     rt_tasks s' !! tid = Some row /\
     List.filter (fun r => String.eqb (dl_task_id r) (task_id row)) (default [] (rt_dead_letters s)) =
     List.filter (fun r => String.eqb (dl_task_id r) (task_id row)) (default [] (rt_dead_letters s'))) /\
  project_events (map task_id (project_tasks p s)) [] (default [] (rt_audit s)) =
  project_events (map task_id (project_tasks p s')) [] (default [] (rt_audit s')).

(** The project read under [p] is [p]. *)
Definition keyed (p : string) (s : R) : Prop := forall q, reads (rt_projects s) p q -> p_id q = p.

Section one_project.
Context (p : string).

(** Two computations with the same answer on agreeing runtimes. *)
Definition rel {A} (m m' : M R A) : Prop :=
  forall s s', agree p s s' -> keyed p s ->
    (m s).1 = (m' s').1 /\ agree p (m s).2 (m' s').2 /\ keyed p (m s).2.

Lemma rel_ret {A} (a : A) : rel (ret a) (ret a).
Proof. done. Qed.
Lemma rel_raise {A} e : rel (@raise R A e) (raise e).
Proof. done. Qed.
Lemma rel_of_outcome {A} (o : outcome A) : rel (of_outcome o) (of_outcome o).
Proof. done. Qed.

Lemma rel_bind {A B} (m m' : M R A) (k k' : A -> M R B) :
  rel m m' -> (forall a, rel (k a) (k' a)) -> rel (bind m k) (bind m' k').
Proof.
  intros Hm Hk s s' Ha Hkey. destruct (Hm s s' Ha Hkey) as (H1 & H2 & H3). unfold bind.
  destruct (m s) as [[a | e] s1]; destruct (m' s') as [[a' | e'] s1']; cbn in *; try discriminate H1.
  - injection H1 as <-. by apply Hk.
  - injection H1 as <-. by split.
Qed.

Lemma rel_try {A} (m m' : M R A) h h' :
  rel m m' -> (forall e, match h e, h' e with Some k, Some k' => rel k k' | None, None => True | _, _ => False end) ->
  rel (try m h) (try m' h').
Proof.
  intros Hm Hh s s' Ha Hkey. destruct (Hm s s' Ha Hkey) as (H1 & H2 & H3). unfold try.
  destruct (m s) as [[a | e] s1]; destruct (m' s') as [[a' | e'] s1']; cbn in *; try discriminate H1; [done |].
  injection H1 as <-. specialize (Hh e). destruct (h e), (h' e); try done. by apply Hh.
Qed.

Lemma rel_uuid : rel rt_uuid rt_uuid.
Proof.
  intros s s' (He & Ha). unfold rt_uuid. rewrite <- He. destruct (uuid4 (rt_ext s)) as [u e]. intros Hkey.
  split; [done |]. split; [by split | done].
Qed.

Lemma rel_ok tool context data sources :
  rel (_ok (E := E) (CS := CS) tool context data sources) (_ok tool context data sources).
Proof. apply rel_bind; [apply rel_uuid | intros u; apply rel_ret]. Qed.
Lemma rel_deny tool context code message :
  rel (_deny (E := E) (CS := CS) tool context code message) (_deny tool context code message).
Proof. apply rel_bind; [apply rel_uuid | intros u; apply rel_ret]. Qed.

(** A read that depends on the project's data only. *)
Lemma rel_reads {A B} (m : M R A) (k k' : A -> M R B) :
  (forall s, (m s).2 = s) ->
  (forall s s', agree p s s' -> keyed p s ->
     match (m s).1, (m s').1 with
     | Ret a, Ret a' => rel (k a) (k' a')
     | Raise e, Raise e' => e = e'
     | _, _ => False
     end) ->
  rel (bind m k) (bind m k').
Proof.
  intros Hpure Hk s s' Ha Hkey. specialize (Hk s s' Ha Hkey). pose proof (Hpure s) as P1. pose proof (Hpure s') as P2.
  unfold bind. destruct (m s) as [[a | e] s1]; destruct (m s') as [[a' | e'] s1']; cbn in *; subst; try done.
  by apply Hk.
Qed.

Lemma rel_get_project {B} (k : option ProjectRecord -> M R B) :
  (forall r, (forall q, r = Some q -> p_id q = p) -> rel (k r) (k r)) ->
  rel (bind (rt_on_projects (get_project p)) k) (bind (rt_on_projects (get_project p)) k).
Proof.
  intros Hk. apply rel_reads.
  - intros s. unfold rt_on_projects, zoom. pose proof (get_project_pure p (rt_projects s)).
    destruct (get_project _ _). cbn in *. subst. by destruct s.
  - intros s s' Ha Hkey. destruct Ha as (_ & _ & Hp & _). unfold rt_on_projects, zoom, get_project, bind, gets, of_outcome, ret.
    rewrite <- Hp. destruct (rt_projects s !! p) as [row |] eqn:Hrow; cbn; [| by apply Hk].
    destruct (_project_from_row row) as [q | e] eqn:Hq; cbn; [| done]. apply Hk. intros q' [= <-].
    apply Hkey. by exists row.
Qed.

Lemma latest_row_agree (t : string) (rows rows' : gmap artifact_key ArtifactRow) :
  (forall u k, rows !! (strip p, u, k) = rows' !! (strip p, u, k)) ->
  latest_row (strip p) t rows = latest_row (strip p) t rows'.
Proof.
  intros H. unfold latest_row, rows_of.
  assert (filter (fun kv : string * string * Z * ArtifactRow => kv.1.1 = (strip p, t)) rows =
          filter (fun kv => kv.1.1 = (strip p, t)) rows') as Hf; [| by rewrite Hf].
  apply map_eq. intros [[p' t'] k]. destruct (decide ((p', t') = (strip p, t))) as [[= -> ->] | Hne].
  - rewrite !map_lookup_filter. rewrite (H t k). done.
  - rewrite !map_lookup_filter_None_2; [done | |]; right; intros x Hx [=]; congruence.
Qed.

Lemma rel_read_latest atype :
  rel (rt_on_artifacts (read_latest_artifact p atype)) (rt_on_artifacts (read_latest_artifact p atype)).
Proof.
  intros s s' Ha Hkey. pose proof (read_latest_pure p atype (rt_artifacts s)) as P1.
  pose proof (read_latest_pure p atype (rt_artifacts s')) as P2.
  assert ((read_latest_artifact p atype (rt_artifacts s)).1 = (read_latest_artifact p atype (rt_artifacts s')).1) as Heq.
  { destruct Ha as (_ & _ & _ & Hrows & _). unfold read_latest_artifact, bind, of_outcome, gets, _validate_project_id. cbv zeta.
    destruct (project_id_pattern (strip p)); [| done]. destruct (_validate_artifact_type atype); [| done].
    cbn. by rewrite (latest_row_agree _ _ _ Hrows). }
  unfold rt_on_artifacts, zoom. destruct (read_latest_artifact p atype (rt_artifacts s)) as [o a].
  destruct (read_latest_artifact p atype (rt_artifacts s')) as [o' a']. cbn in *. subst. by destruct s, s'.
Qed.

Lemma rel_list_tasks {B} (k : list TaskRecord -> M R B) :
  (forall l l', board_tasks p [] l = board_tasks p [] l' -> rel (k l) (k l')) ->
  rel (bind (rt_on_tasks list_tasks) k) (bind (rt_on_tasks list_tasks) k).
Proof.
  intros Hk. apply rel_reads; [by intros [] |]. intros s s' (_ & _ & _ & _ & Ht & _) _. cbn. by apply Hk.
Qed.

Context (context : ToolCallContext).
Hypothesis scoped : tc_project_id context = Some p.

Lemma rel_scope arguments (k : string -> M R ToolResult) :
  rel (k p) (k p) ->
  rel (_resolve_project_scope str_float arguments context k) (_resolve_project_scope str_float arguments context k).
Proof.
  intros Hk. unfold _resolve_project_scope. cbv zeta. rewrite scoped. set (requested := if truthy _ then _ else _).
  destruct (negb _); [apply rel_deny |]. case_bool_decide as Hm; [apply rel_deny |].
  assert (requested = p) as ->; [| done]. destruct (decide (requested = p)) as [| Hne]; [done |].
  exfalso. apply Hm. split; [by eexists | congruence].
Qed.

Lemma rel_resolve arguments (k : ProjectRecord -> M R ToolResult) :
  (forall q, p_id q = p -> rel (k q) (k q)) ->
  rel (_resolve_project str_float arguments context k) (_resolve_project str_float arguments context k).
Proof.
  intros Hk. apply rel_scope. apply rel_get_project. intros [q |] Hq; [by apply Hk, Hq | apply rel_deny].
Qed.

Lemma board_filter status_filter l l' :
  board_tasks p [] l = board_tasks p [] l' -> board_tasks p status_filter l = board_tasks p status_filter l'.
Proof.
  assert (forall l, board_tasks p status_filter l =
    List.filter (fun t => match status_filter with [] => true | _ => mem (status t) status_filter end)
      (board_tasks p [] l)) as Hf; [| intros H; by rewrite !Hf, H].
  clear. intros l. unfold board_tasks. induction l as [| t l IH]; [done |]. cbn [List.filter].
  rewrite andb_true_r. destruct (bool_decide _); cbn [andb List.filter]; [| done].
  destruct (match status_filter with [] => true | _ => _ end); by rewrite IH.
Qed.

Lemma events_filter ids types (l : list AuditEvent) :
  project_events ids types l =
  List.filter (fun e => match types with [] => true | _ => mem (av_event_type e) types end) (project_events ids [] l).
Proof.
  unfold project_events. induction l as [| e l IH]; [done |]. cbn [List.filter].
  rewrite andb_true_r. destruct (match av_task_id e with Some t => _ | None => _ end); cbn [andb List.filter]; [| done].
  destruct (match types with [] => true | _ => _ end); by rewrite IH.
Qed.

(** The audit events of the project's tasks, in one read. *)
Lemma rel_events arguments s s' :
  agree p s s' -> keyed p s ->
  (_tool_get_audit_event_stream str_float arguments context s).1 =
  (_tool_get_audit_event_stream str_float arguments context s').1.
Proof.
  intros Ha Hkey. unfold _tool_get_audit_event_stream.
  assert (forall k k' : string -> M R ToolResult, (k p s).1 = (k' p s').1 ->
    (_resolve_project_scope str_float arguments context k s).1 =
    (_resolve_project_scope str_float arguments context k' s').1) as Hscope.
  { intros k k' Hk. unfold _resolve_project_scope. cbv zeta. rewrite scoped. set (requested := if truthy _ then _ else _).
    destruct (negb _); [by apply rel_deny |]. case_bool_decide as Hm; [by apply rel_deny |].
    assert (requested = p) as ->; [| done]. destruct (decide (requested = p)) as [| Hne]; [done |].
    exfalso. apply Hm. split; [by eexists | congruence]. }
  apply Hscope. clear Hscope. cbv zeta. rewrite !run_bind.
  pose proof Ha as (_ & _ & _ & _ & Ht & _ & Hevents). cbn [rt_on_tasks zoom list_tasks gets].
  destruct s as [e1 p1 a1 t1 u1 d1 c1], s' as [e2 p2 a2 t2 u2 d2 c2]. unfold project_tasks in *. cbn [rt_tasks rt_audit] in *.
  rewrite !run_bind. unfold gets. cbn [rt_audit fst snd]. rewrite Ht in *.
  rewrite !(events_filter _ (comma_set _)). rewrite Hevents. by apply rel_ok.
Qed.

Lemma rel_window arguments :
  rel (_tool_get_conversation_window (E := E) (CS := CS) str_float arguments context)
    (_tool_get_conversation_window str_float arguments context).
Proof.
  unfold _tool_get_conversation_window. cbv zeta.
  apply rel_reads; [done |]. intros s s' Ha Hkey. cbn. destruct Ha as (_ & Hconv & _). rewrite <- Hconv.
  destruct (rt_conversations s) as [store |]; [| apply rel_deny].
  destruct (py_int _) as [k |]; [| apply rel_deny]. destruct (k <? 0)%Z; [apply rel_deny |].
  destruct (negb _); [apply rel_deny |]. apply rel_bind.
  - clear. intros s s' (He & Hc & Ha) Hkey. unfold rt_on_conversations. destruct (fetch_window _ _ store) as [o st].
    split; [done |]. split; [by split | done].
  - intros [| t l]; [apply rel_deny | apply rel_ok].
Qed.

Lemma rel_handler name handler arguments :
  handler_of name = Some handler -> name <> "get_dispatch_denial_evidence" -> name <> "get_audit_event_stream" ->
  rel (handler arguments context) (handler arguments context).
Proof.
  unfold read_handler. intros Hh Hn1 Hn2. revert Hh.
  repeat (let H := fresh "Hname" in case_match eqn:H; [apply String.eqb_eq in H | clear H]; [intros [= <-] |]);
    try done.
  - apply rel_resolve. intros q Hq. apply rel_bind; [apply rel_of_outcome | intros l; apply rel_ok].
  - apply rel_resolve. intros q Hq. apply rel_ok.
  - apply rel_resolve. intros q Hq. rewrite Hq. apply rel_bind; [apply rel_read_latest | intros d].
    apply rel_bind; [apply rel_read_latest | intros d']. apply rel_ok.
  - apply rel_scope. cbv zeta. apply rel_list_tasks. intros l l' Hl. rewrite (board_filter _ _ _ Hl). apply rel_ok.
  - apply rel_scope. cbv zeta. destruct (negb _); [apply rel_deny |]. destruct (negb _); [apply rel_deny | apply rel_ok].
  - apply rel_scope. cbv zeta. destruct (negb _); [apply rel_deny |]. apply rel_bind.
    + apply rel_try; [apply rel_bind; [apply rel_read_latest | intros d; apply rel_ret] |].
      intros e. by destruct e.
    + intros [[d |] | e]; [apply rel_ok | apply rel_deny |]. destruct e; first [apply rel_raise | apply rel_deny].
  - apply rel_resolve. intros q Hq. apply rel_ok.
  - apply rel_resolve. intros q Hq. apply rel_ok.
  - apply rel_window.
Qed.

(** Denial evidence of a task of the project. *)
Lemma denial_same arguments s s' r s1 :
  agree p s s' ->
  _tool_get_dispatch_denial_evidence str_float arguments context s = (Ret r, s1) -> tl_decision r = "ok" ->
  (_tool_get_dispatch_denial_evidence str_float arguments context s').1 = Ret r.
Proof.
  intros (He & _ & _ & _ & _ & Ht & _). unfold _tool_get_dispatch_denial_evidence. cbv zeta.
  assert (forall tool code message s, _deny (E := E) (CS := CS) tool context code message s = (Ret r, s1) ->
    tl_decision r = "ok" -> False) as Hdeny.
  { intros tool code message s0 H Hok. destruct (deny_answers tool context code message s0) as (r' & Hr & Hd & _).
    rewrite H in Hr. injection Hr as <-. congruence. }
  destruct (negb _); [intros H Hok; by destruct (Hdeny _ _ _ _ H Hok) |].
  rewrite !run_bind. unfold rt_on_tasks, zoom, get_task_by_id, gets. set (tid := strip _). cbn [fst snd].
  destruct (rt_tasks s !! tid) as [row |] eqn:Hrow; cbn [fmap option_fmap option_map];
    [| intros H Hok; by destruct (Hdeny _ _ _ _ H Hok)].
  rewrite scoped. case_bool_decide as Hs; [intros H Hok; by destruct (Hdeny _ _ _ _ H Hok) |].
  assert (text_column (Task.project_id row) = Some p) as Hp.
  { destruct (decide (text_column (Task.project_id row) = Some p)) as [| Hne]; [done |].
    exfalso. apply Hs. split; [by eexists | done]. }
  destruct (Ht tid row Hrow Hp) as [Hrow' Hdl]. rewrite Hrow'. cbn [fmap option_fmap option_map].
  rewrite bool_decide_false by (intros [_ H]; by apply H).
  destruct (negb _); [intros H Hok; by destruct (Hdeny _ _ _ _ H Hok) |].
  rewrite !run_bind. unfold gets. cbn [fst snd rt_dead_letters _task_from_row task_id] in *.
  rewrite <- Hdl. unfold _ok, bind, rt_uuid. cbn [rt_ext]. rewrite <- He. destruct (uuid4 (rt_ext s)).
  intros [= <- _] _. done.
Qed.

Lemma handler_same name handler arguments s s' r s1 :
  handler_of name = Some handler -> agree p s s' -> keyed p s ->
  handler arguments context s = (Ret r, s1) -> tl_decision r = "ok" ->
  (handler arguments context s').1 = Ret r.
Proof.
  intros Hh Ha Hkey Hrun Hok.
  destruct (decide (name = "get_dispatch_denial_evidence")) as [-> | H1].
  { cbn in Hh. injection Hh as <-. by eapply denial_same. }
  destruct (decide (name = "get_audit_event_stream")) as [-> | H2].
  { cbn in Hh. injection Hh as <-. by rewrite <- (rel_events arguments s s' Ha Hkey), Hrun. }
  destruct (rel_handler name handler arguments Hh H1 H2 s s' Ha Hkey) as [<- _]. by rewrite Hrun.
Qed.
End one_project.

(** * Decisions *)

Definition decided (r : ToolResult) : Prop := tl_decision r = "ok" \/ tl_decision r = "denied".
Definition answers (m : M R ToolResult) : Prop := forall s, match (m s).1 with Ret r => decided r | Raise _ => True end.

Lemma answers_bind {A} (m : M R A) k : (forall a, answers (k a)) -> answers (bind m k).
Proof. intros Hk s. rewrite run_bind. destruct (m s) as [[a | e] s']; [apply Hk | done]. Qed.
Lemma answers_ok tool context data sources : answers (_ok (E := E) (CS := CS) tool context data sources).
Proof. apply answers_bind. intros u s. by left. Qed.
Lemma answers_deny tool context code message : answers (_deny (E := E) (CS := CS) tool context code message).
Proof. apply answers_bind. intros u s. by right. Qed.
Lemma answers_raise e : answers (raise e).
Proof. done. Qed.

Lemma answers_scope arguments context k :
  (forall p, answers (k p)) -> answers (_resolve_project_scope (E := E) (CS := CS) str_float arguments context k).
Proof.
  intros Hk. unfold _resolve_project_scope. cbv zeta. set (requested := if truthy _ then _ else _). clearbody requested.
  destruct (negb _); [apply answers_deny |]. case_bool_decide; [apply answers_deny | apply Hk].
Qed.

Create HintDb answers discriminated.
#[local] Hint Resolve answers_ok answers_deny answers_raise : answers.

Ltac answers_auto :=
  repeat first [solve [eauto with answers] | apply answers_scope; intros ? | apply answers_bind; intros ? | case_match].

Lemma answers_handler name handler arguments context :
  handler_of name = Some handler -> answers (handler arguments context).
Proof.
  unfold read_handler. repeat case_match; intros [= <-]; try done.
  - unfold _tool_get_project_lifecycle_state, _resolve_project. answers_auto.
  - unfold _tool_get_project_budget_snapshot, _resolve_project. answers_auto.
  - unfold _tool_get_project_milestone_status, _resolve_project. answers_auto.
  - unfold _tool_get_project_task_board. answers_auto.
  - unfold _tool_search_project_docs. answers_auto.
  - unfold _tool_get_project_doc_latest. answers_auto.
  - unfold _tool_get_completion_gate_status, _resolve_project. answers_auto.
  - unfold _tool_get_project_workforce_snapshot, _resolve_project. answers_auto.
  - unfold _tool_get_audit_event_stream. answers_auto.
  - unfold _tool_get_dispatch_denial_evidence. cbv zeta. answers_auto.
  - unfold _tool_get_conversation_window. cbv zeta. answers_auto.
Qed.

(** * Theorems *)

(** The two branches of a call: a denial, or an allowed tool whose exceptions
    become denials. *)
Lemma call_cases name arguments context :
  (exists tool code message, call name arguments context = _deny tool context code message) \/
  (is_read_tool_allowed (tc_recipient_role context) (norm name) = true /\
   exists handler, handler_of (norm name) = Some handler /\
     call name arguments context =
       try (handler arguments context)
         (fun e => Some (_deny (norm name) context "tool_runtime_error" ("tool execution failed: " +:+ exn_str e)))).
Proof.
  unfold call_read_tool. cbv zeta. destruct (negb (truthy _)); [left; by eexists _, _, _ |].
  destruct (is_read_tool_allowed _ _) eqn:Ha; cbn [negb]; [| left; by eexists _, _, _].
  destruct (handler_of (norm name)) as [handler |]; [right | left; by eexists _, _, _].
  split; [done |]. by exists handler.
Qed.

(** A read tool always answers and changes nothing.  Whatever its name, its
    arguments, the caller and the exceptions of the repositories, a call returns
    a result, ok or denied, leaves projects, artifacts, tasks, audit events and
    dead letters as they were, and is ok only when the recipient's role has the
    tool on its allowlist. *)
Theorem read_tool_answers_and_changes_nothing name arguments context s :
  exists r, (call name arguments context s).1 = Ret r /\
    (tl_decision r = "denied" \/
     tl_decision r = "ok" /\ In (norm name) (_READ_ALLOWLIST_BY_ROLE (norm (tc_recipient_role context)))) /\
    same_data s (call name arguments context s).2.
Proof.
  destruct (call_cases name arguments context) as [(tool & code & message & ->) | (Ha & handler & Hh & ->)].
  - destruct (deny_answers tool context code message s) as (r & Hr & Hd & Hc). exists r. split; [done |].
    split; [by left | apply same_deny].
  - assert (In (norm name) (_READ_ALLOWLIST_BY_ROLE (norm (tc_recipient_role context)))) as Hin.
    { unfold is_read_tool_allowed in Ha. rewrite norm_idem in Ha. by apply mem_In. }
    assert (tracks same_data (try (handler arguments context)
         (fun e => Some (_deny (norm name) context "tool_runtime_error" ("tool execution failed: " +:+ exn_str e))))) as Ht.
    { apply tracks_try; [typeclasses eauto | by eapply same_handler |]. intros e k [= <-]. apply same_deny. }
    specialize (Ht s). pose proof (answers_handler _ _ arguments context Hh s) as Hans.
    unfold try in *. destruct (handler arguments context s) as [[r | e] s1]; cbn [fst snd] in *.
    + exists r. split; [done |]. split; [| done]. destruct Hans; [by right | by left].
    + destruct (deny_answers (norm name) context "tool_runtime_error" ("tool execution failed: " +:+ exn_str e) s1)
        as (r & Hr & Hd & Hc). exists r. split; [done |]. split; [by left | done].
Qed.

(** C19: within a project's scope, read tools reveal nothing of other projects.
    When a command is scoped to project [p], a tool that answers ok answers the
    same on any other state of the system that holds the same of [p]: its
    record, artifacts, tasks, their audit events and dead letters, and the
    conversations. *)
Theorem read_tool_reveals_its_project_only p name arguments context s s' r s1 :
  tc_project_id context = Some p -> agree p s s' -> keyed p s ->
  call name arguments context s = (Ret r, s1) -> tl_decision r = "ok" ->
  (call name arguments context s').1 = Ret r.
Proof.
  intros Hscope Ha Hkey. destruct (call_cases name arguments context) as [(tool & code & message & ->) | (_ & handler & Hh & ->)].
  - intros Hrun Hok. destruct (deny_answers tool context code message s) as (r' & Hr & Hd & _).
    rewrite Hrun in Hr. injection Hr as <-. congruence.
  - unfold try. destruct (handler arguments context s) as [[r0 | e] s0] eqn:Hrun; cbn.
    + intros [= <- <-] Hok. pose proof (handler_same p context Hscope _ _ _ _ _ _ _ Hh Ha Hkey Hrun Hok) as H.
      destruct (handler arguments context s') as [o s0']. cbn in H. by subst o.
    + intros Hden Hok. destruct (deny_answers (norm name) context "tool_runtime_error"
        ("tool execution failed: " +:+ exn_str e) s0) as (r' & Hr & Hd & _).
      rewrite Hden in Hr. injection Hr as <-. congruence.
Qed.
End facts.

(** * Witnesses *)

#[local] Instance count_oracle : Oracle N := {
  uuid4 := fun n => ("u" +:+ pretty n, N.succ n);
  utcnow := fun n => (mk_datetime 2026 3 24 12 0 0 0, n)
}.

Definition blocked_task (tid project : string) : TaskRecord :=
  {| task_id := tid; request_id := "r"; trace_id := "tr"; principal_id := "owner"; principal_role := "owner";
     trust_domain := "internal"; connector := "internal"; command := "msg_notify"; target := "ceo"; args := [];
     metadata := []; project_id := Some project; idempotency_key := "key-00001"; status := "blocked";
     created_at := mk_datetime 2026 3 24 12 0 0 0; outcome_source := Some "policy";
     outcome_error_code := Some "policy_denied"; outcome_message := None; outcome_details := None;
     dispatch_target := None; dispatch_id := None |}.

Definition sample_state (tasks : task_table) : read_runtime N (gmap string (list ConversationTurn)) :=
  mk_read_runtime 0%N ∅ (mk_artifact_store ∅ ∅) tasks None None None.

Definition auditor_call : ToolCallContext :=
  mk_ToolCallContext "t-0" "r-1" "tr-1" "owner-1" "owner" "auditor" None (Some "p1").

#[local] Instance memory : ConversationStore (gmap string (list ConversationTurn)) := LocalConversationStore 40.

#[local] Abbreviation sample_read := (call_read_tool (fun _ => "") local_search).

(** The other project's task is invisible, and changes nothing. *)
Lemma read_tool_reveals_its_project_only_witness :
  let s := sample_state {["t1" := blocked_task "t1" "p1"]} in
  let s' := sample_state (<["t2" := blocked_task "t2" "p2"]> {["t1" := blocked_task "t1" "p1"]}) in
  let answer := (sample_read "get_dispatch_denial_evidence" [("task_id", JStr "t1")] auditor_call s).1 in
  (exists r, answer = Ret r /\ tl_decision r = "ok") /\
  (sample_read "get_dispatch_denial_evidence" [("task_id", JStr "t1")] auditor_call s').1 = answer.
Proof.
  set (s := sample_state _). set (s' := sample_state _). cbv zeta.
  destruct (sample_read "get_dispatch_denial_evidence" [("task_id", JStr "t1")] auditor_call s) as [o s1] eqn:Hrun.
  assert (exists r, o = Ret r /\ tl_decision r = "ok") as (r & -> & Hok).
  { change o with (o, s1).1. rewrite <- Hrun. vm_compute. eexists. split; reflexivity. }
  split; [exists r; split; [reflexivity | exact Hok] |].
  refine (read_tool_reveals_its_project_only (fun _ => "") local_search "p1" "get_dispatch_denial_evidence"
    [("task_id", JStr "t1")] auditor_call s s' r s1 eq_refl _ _ Hrun Hok).
  - split_and!; try reflexivity.
    intros tid row Hrow _. subst s s'. cbn [sample_state rt_tasks] in *.
    apply lookup_singleton_Some in Hrow as [<- <-]. by split; [rewrite lookup_insert_ne by discriminate; apply lookup_singleton_eq |].
  - intros q (row & Hrow & _). discriminate Hrow.
Defined.

(** A task of another project and a missing task are refused differently, so a
    command scoped to [p1] learns that [t2] exists. *)
Lemma denial_tells_foreign_from_missing :
  let s := sample_state {["t2" := blocked_task "t2" "p2"]} in
  let code tid := match (sample_read "get_dispatch_denial_evidence" [("task_id", JStr tid)] auditor_call s).1 with
                  | Ret r => tl_error_code r | Raise _ => None end in
  code "t2" = Some "tool_project_scope_mismatch" /\ code "t3" = Some "tool_task_missing".
Proof. split; vm_compute; reflexivity. Qed.

(** With the production audit writer the event stream is empty whatever the
    audit table holds, and the answer is still ok. *)
Lemma audit_stream_is_empty_in_production :
  let s := sample_state {["t1" := blocked_task "t1" "p1"]} in
  match (sample_read "get_audit_event_stream" [] auditor_call s).1 with
  | Ret r => tl_decision r = "ok" /\ jfield (default [] (tl_data r)) "result_count" = Some (JInt 0)
  | Raise _ => False
  end.
Proof. split; vm_compute; reflexivity. Qed.
