(* ===== verification/ProjectSpaces.v ===== *)
(** Project spaces: the Discord channels bound to projects.

    Models [project_spaces/models.py], [binding_repository.py],
    [binding_service.py], [routing_resolver.py] and [discord_automator.py].

    The Discord REST API is the class [DiscordApi].  A [SELECT] without
    [ORDER BY] answers its rows in an order of the database's choice, the
    parameter [scan]; [names] is the column [projects.name] that
    [find_by_channel_name] joins. *)

From Stdlib Require Import Ascii.
From S2P Require Import Prelude PyStr PyData Task Policy Runtime LlmProviders.

(** * Models *)

Inductive BindingState : Type := PROPOSED | PENDING_APPROVAL | ACTIVE | ARCHIVED | LOCKED.

#[export] Instance BindingState_eq_dec : EqDecision BindingState.
Proof. solve_decision. Defined.

Definition all_binding_states : list BindingState := [PROPOSED; PENDING_APPROVAL; ACTIVE; ARCHIVED; LOCKED].

(** [state.value]. *)
Definition binding_state_str (s : BindingState) : string :=
  match s with
  | PROPOSED => "proposed" | PENDING_APPROVAL => "pending_approval" | ACTIVE => "active"
  | ARCHIVED => "archived" | LOCKED => "locked"
  end.

(** [BindingState(value)]. *)
Definition binding_state_of (value : string) : outcome BindingState :=
  match List.find (fun s => String.eqb (binding_state_str s) value) all_binding_states with
  | Some s => Ret s
  | None => Raise (ValueError (py_repr value +:+ " is not a valid BindingState"))
  end.

Record ProjectSpaceBinding : Type := mk_ProjectSpaceBinding {
  sb_id : string;
  sb_project_id : string;
  sb_guild_id : string;
  sb_channel_id : string;
  sb_binding_state : BindingState;
  sb_default_recipient : string;
  sb_created_at : datetime;
  sb_updated_at : datetime
}.

Record RoutingContext : Type := mk_RoutingContext {
  rc_project_id : string;
  rc_default_recipient : string;
  rc_binding_state : BindingState
}.

(** * Channel names *)

Definition is_slug_char (c : ascii) : bool :=
  let n := nat_of_ascii c in ((97 <=? n) && (n <=? 122) || (48 <=? n) && (n <=? 57))%nat.

(** [re.sub(r"[^a-z0-9]+", "-", s)]; [in_run] says that the run's hyphen is written. *)
Fixpoint hyphenate (in_run : bool) (s : string) : string :=
  match s with
  | EmptyString => ""
  | String c s' =>
      if is_slug_char c then String c (hyphenate false s')
      else if in_run then hyphenate true s' else String "-" (hyphenate true s')
  end.

(** [strip("-")]. *)
Fixpoint lstrip_hyphens (s : string) : string :=
  match s with String "-" s' => lstrip_hyphens s' | _ => s end.

Fixpoint rstrip_hyphens (s : string) : string :=
  match s with
  | EmptyString => ""
  | String c s' =>
      let r := rstrip_hyphens s' in if String.eqb r "" && Ascii.eqb c "-" then "" else String c r
  end.

Definition strip_hyphens (s : string) : string := rstrip_hyphens (lstrip_hyphens s).

(** [_slugify] of the automator. *)
Definition _slugify (name : string) : string := String.substring 0 90 (strip_hyphens (hyphenate false (lower name))).

(** [_slugify_channel_name] of the service. *)
Definition _slugify_channel_name (name : string) : string :=
  String.substring 0 100 ("project-" +:+ strip_hyphens (hyphenate false (lower name))).

(** The name that [find_by_channel_name] expects a project's channel to have:
    its loop over double hyphens finds none after the substitution. *)
Definition inferred_channel_name (project_name : string) : string :=
  String.substring 0 100 ("project-" +:+ strip_hyphens (hyphenate false (norm project_name))).

(** * The table *)

Record binding_row : Type := mk_binding_row {
  bw_id : string;
  bw_project_id : string;
  bw_guild_id : string;
  bw_channel_id : string;
  bw_binding_state : string;
  bw_default_recipient : string;
  bw_created_at : datetime;
  bw_updated_at : datetime
}.

Record spaces (E : Type) : Type := mk_spaces { sp_ext : E; sp_rows : list binding_row }.
Arguments mk_spaces {E}.
Arguments sp_ext {E}.
Arguments sp_rows {E}.

Definition row_of_binding (b : ProjectSpaceBinding) : binding_row :=
  mk_binding_row (sb_id b) (sb_project_id b) (sb_guild_id b) (sb_channel_id b) (binding_state_str (sb_binding_state b))
    (sb_default_recipient b) (sb_created_at b) (sb_updated_at b).

Definition _binding_from_row (r : binding_row) : outcome ProjectSpaceBinding :=
  let? state := binding_state_of (bw_binding_state r) in
  Ret (mk_ProjectSpaceBinding (bw_id r) (bw_project_id r) (bw_guild_id r) (bw_channel_id r) state
         (bw_default_recipient r) (bw_created_at r) (bw_updated_at r)).

Definition with_state (state : BindingState) (now : datetime) (r : binding_row) : binding_row :=
  mk_binding_row (bw_id r) (bw_project_id r) (bw_guild_id r) (bw_channel_id r) (binding_state_str state)
    (bw_default_recipient r) (bw_created_at r) now.

(** [_TRANSITIONS[event_type]]. *)
Definition _TRANSITIONS (event_type : string) (state : BindingState) : option BindingState :=
  if String.eqb event_type "approve" then match state with PROPOSED => Some PENDING_APPROVAL | _ => None end
  else if String.eqb event_type "activate" then
    match state with PENDING_APPROVAL | PROPOSED => Some ACTIVE | _ => None end
  else if String.eqb event_type "archive" then match state with ACTIVE => Some ARCHIVED | _ => None end
  else if String.eqb event_type "lock" then match state with ACTIVE | ARCHIVED => Some LOCKED | _ => None end
  else None.

(** * Discord *)

(** A request to the REST API: method, URL, headers and JSON body. *)
Class DiscordApi (E : Type) : Type := {
  discord_send : string -> string -> list (string * string) -> json -> M E http_response
}.

Definition _DISCORD_API_BASE : string := "https://discord.com/api/v10".

Section automator.
Context {E : Type} `{!DiscordApi E}.
Context (bot_token : string).

Definition bot_headers : list (string * string) :=
  [("Authorization", "Bot " +:+ bot_token); ("Content-Type", "application/json")].

Definition create_channel (guild_id channel_name : string) : M E string :=
  let! response := discord_send "POST" (_DISCORD_API_BASE +:+ "/guilds/" +:+ guild_id +:+ "/channels") bot_headers
                     (JObj [("name", JStr channel_name); ("type", JInt 0)]) in
  if negb (bool_decide (hr_status_code response ∈ [200; 201]%Z)) then
    raise (DiscordChannelError ("Discord API returned " +:+ str_int (hr_status_code response) +:+
             " creating channel '" +:+ channel_name +:+ "' in guild " +:+ guild_id))
  else
    let! body := of_outcome (hr_body response) in
    match body with
    | JObj o =>
        match jfield o "id" with
        | Some (JStr channel_id) => ret channel_id
        | _ => raise (OtherError "'id'")
        end
    | _ => raise (OtherError "the response is not an object")
    end.

Definition rename_channel (channel_id new_name : string) : M E unit :=
  let! response := discord_send "PATCH" (_DISCORD_API_BASE +:+ "/channels/" +:+ channel_id) bot_headers
                     (JObj [("name", JStr new_name)]) in
  if negb (bool_decide (hr_status_code response ∈ [200; 201]%Z)) then
    raise (DiscordChannelError ("Discord API returned " +:+ str_int (hr_status_code response) +:+
             " renaming channel " +:+ channel_id))
  else ret tt.

Definition archive_channel (channel_id project_name : string) : M E unit :=
  rename_channel channel_id ("done-" +:+ _slugify project_name).

Definition lock_channel (channel_id project_name guild_id : string) : M E unit :=
  rename_channel channel_id ("closed-" +:+ _slugify project_name) ;!
  let! response := discord_send "PUT"
                     (_DISCORD_API_BASE +:+ "/channels/" +:+ channel_id +:+ "/permissions/" +:+ guild_id) bot_headers
                     (JObj [("type", JInt 0); ("allow", JStr "0"); ("deny", JStr "2048")]) in
  if negb (bool_decide (hr_status_code response ∈ [200; 201; 204]%Z)) then
    raise (DiscordChannelError ("Discord API returned " +:+ str_int (hr_status_code response) +:+
             " setting permissions on channel " +:+ channel_id))
  else ret tt.
End automator.

(** * Repository *)

Section bindings.
Context {E : Type} `{!Oracle E} `{!DbFaults E} `{!DiscordApi E}.
Context (scan : list binding_row -> list binding_row) (names : string -> option string) (bot_token : string).

#[local] Abbreviation P := (spaces E).

Definition sp_on_ext {A} (m : M E A) : M P A := zoom sp_ext (fun e s => mk_spaces e (sp_rows s)) m.
Definition sp_now : M P datetime := sp_on_ext (fun e => let '(t, e') := utcnow e in (Ret t, e')).
Definition sp_uuid : M P string := sp_on_ext (fun e => let '(u, e') := uuid4 e in (Ret u, e')).

(** A statement: the work, unless the database refuses. *)
Definition sp_statement {A} (m : M P A) : M P A :=
  let! fault := sp_on_ext (fun e => let '(f, e') := db_fault e in (Ret f, e')) in
  match fault with Some x => raise x | None => m end.

(** The primary key and the unique index on guild and channel. *)
Definition conflicts (b r : binding_row) : bool :=
  String.eqb (bw_id b) (bw_id r) ||
  (String.eqb (bw_guild_id b) (bw_guild_id r) && String.eqb (bw_channel_id b) (bw_channel_id r)).

Definition insert_binding (binding : ProjectSpaceBinding) : M P ProjectSpaceBinding :=
  let row := row_of_binding binding in
  sp_statement (fun s =>
    if existsb (conflicts row) (sp_rows s)
    then (Raise (DatabaseError "duplicate key value violates unique constraint"), s)
    else (Ret tt, mk_spaces (sp_ext s) (sp_rows s ++ [row]))) ;!
  ret binding.

(** [.mappings().first()], converted. *)
Definition first_binding (rows : list binding_row) : outcome (option ProjectSpaceBinding) :=
  match rows with
  | [] => Ret None
  | r :: _ => let? b := _binding_from_row r in Ret (Some b)
  end.

Definition in_channel (guild_id channel_id : string) (r : binding_row) : bool :=
  String.eqb (bw_guild_id r) guild_id && String.eqb (bw_channel_id r) channel_id.

Definition select (p : binding_row -> bool) : M P (list binding_row) :=
  sp_statement (gets (fun s => scan (List.filter p (sp_rows s)))).

Definition find_by_channel (guild_id channel_id : string) : M P (option ProjectSpaceBinding) :=
  let! rows := select (in_channel guild_id channel_id) in of_outcome (first_binding rows).

Definition find_by_project_id (project_id : string) : M P (option ProjectSpaceBinding) :=
  let! rows := select (fun r => String.eqb (bw_project_id r) project_id) in of_outcome (first_binding rows).

(** [ORDER BY updated_at DESC]. *)
Definition newer_binding (a b : binding_row) : bool := negb (dt_ltb (bw_updated_at a) (bw_updated_at b)).

Definition find_by_channel_name (guild_id channel_name : string) : M P (option ProjectSpaceBinding) :=
  let normalized_channel_name := norm channel_name in
  if negb (truthy normalized_channel_name) then ret None
  else
    let! rows := select (fun r => String.eqb (bw_guild_id r) guild_id && bool_decide (is_Some (names (bw_project_id r)))) in
    of_outcome (first_binding
      (List.filter (fun r => String.eqb (inferred_channel_name (default "" (names (bw_project_id r)))) normalized_channel_name)
         (sorted newer_binding rows))).

Definition update_state (binding_id : string) (state : BindingState) : M P ProjectSpaceBinding :=
  let! now := sp_now in
  sp_statement (modify (fun s => mk_spaces (sp_ext s)
    (map (fun r => if String.eqb (bw_id r) binding_id then with_state state now r else r) (sp_rows s)))) ;!
  let! rows := select (fun r => String.eqb (bw_id r) binding_id) in
  let! found := of_outcome (first_binding rows) in
  match found with
  | None => raise (ValueError ("Binding not found after update: " +:+ binding_id))
  | Some b => ret b
  end.

Definition build_project_space_binding (project_id guild_id channel_id default_recipient : string)
    (state : BindingState) : M P ProjectSpaceBinding :=
  let! now := sp_now in
  let! id := sp_uuid in
  ret (mk_ProjectSpaceBinding id project_id guild_id channel_id state default_recipient now now).

(** * Service *)

Definition create_and_bind (project_id guild_id project_name default_recipient : string) : M P ProjectSpaceBinding :=
  let! channel_id := sp_on_ext (create_channel bot_token guild_id (_slugify_channel_name project_name)) in
  let! binding := build_project_space_binding project_id guild_id channel_id default_recipient ACTIVE in
  insert_binding binding.

(** What [transition] decides before it writes: the binding and its next state. *)
Definition plan_transition (project_id event_type : string) : M P (ProjectSpaceBinding * BindingState) :=
  let! found := find_by_project_id project_id in
  match found with
  | None => raise (ValueError ("No binding found for project_id=" +:+ py_repr project_id))
  | Some binding =>
      match _TRANSITIONS event_type (sb_binding_state binding) with
      | None =>
          raise (ValueError ("Illegal transition for project_id=" +:+ py_repr project_id +:+ ": " +:+
                   py_repr (binding_state_str (sb_binding_state binding)) +:+ " --[" +:+ event_type +:+
                   "]--> (no target)"))
      | Some target_state => ret (binding, target_state)
      end
  end.

(** The rest of [transition]: the row, then the channel. *)
Definition apply_transition (project_name : string) (binding : ProjectSpaceBinding) (target_state : BindingState)
    : M P ProjectSpaceBinding :=
  let! updated := update_state (sb_id binding) target_state in
  (match target_state with
   | ARCHIVED => sp_on_ext (archive_channel bot_token (sb_channel_id binding) project_name)
   | LOCKED => sp_on_ext (lock_channel bot_token (sb_channel_id binding) project_name (sb_guild_id binding))
   | _ => ret tt
   end) ;!
  ret updated.

Definition transition (project_id event_type project_name : string) : M P ProjectSpaceBinding :=
  let! (binding, target_state) := plan_transition project_id event_type in
  apply_transition project_name binding target_state.

Definition get_binding_by_name (channel_name guild_id : string) : M P (option ProjectSpaceBinding) :=
  let! found := find_by_channel_name guild_id channel_name in
  ret (match found with
       | Some b => if bool_decide (sb_binding_state b = ACTIVE) then Some b else None
       | None => None
       end).

(** * Routing *)

Definition resolve (guild_id channel_id : string) : M P (option RoutingContext) :=
  let! found := find_by_channel guild_id channel_id in
  ret (match found with
       | Some b =>
           if bool_decide (sb_binding_state b = ACTIVE)
           then Some (mk_RoutingContext (sb_project_id b) (sb_default_recipient b) (sb_binding_state b))
           else None
       | None => None
       end).
End bindings.
