(* ===== verification/SpaceFacts.v ===== *)
(** Facts about project spaces: the table over any calls, routing, and the
    lookup of a channel by its name.

    The steps are whole calls of the service, one after the other;
    [concurrent_transition_unlocks] shows what a call between the two halves of
    [transition] can do. *)

From Stdlib Require Import Ascii.
From S2P Require Import Prelude PyStr PyData Task Policy Runtime LlmProviders ProjectSpaces.

(** * Channel names *)

Lemma lstrip_hyphenate b s : lstrip_hyphens (hyphenate b s) = lstrip_hyphens (hyphenate true s).
Proof. destruct s as [| c s], b; simpl; try done; by destruct (is_slug_char c). Qed.

Lemma space_not_slug c : is_space c = true -> is_slug_char c = false.
Proof. by destruct c as [[] [] [] [] [] [] [] []]. Qed.

Lemma strip_hyphenate_lstrip s :
  strip_hyphens (hyphenate false (lstrip s)) = strip_hyphens (hyphenate false s).
Proof.
  unfold strip_hyphens. f_equal. rewrite !(lstrip_hyphenate false).
  induction s as [| c s IH]; [done |]. simpl.
  destruct (is_space c) eqn:Hc; [| done]. rewrite IH. by rewrite (space_not_slug c Hc).
Qed.

Lemma rstrip_hyphenate b s : rstrip_hyphens (hyphenate b (rstrip s)) = rstrip_hyphens (hyphenate b s).
Proof.
  revert b. induction s as [| c s IH]; intros b; [done |]. simpl.
  destruct (rstrip s) as [| c' t] eqn:Hr.
  - simpl in IH. destruct (is_space c) eqn:Hs; simpl.
    + rewrite (space_not_slug c Hs). destruct b; simpl; by rewrite <- IH.
    + destruct (is_slug_char c), b; simpl; by rewrite <- ?IH.
  - change (rstrip_hyphens (hyphenate b (String c (String c' t))) =
            rstrip_hyphens (hyphenate b (String c s))).
    clear Hr. generalize dependent (String c' t). intros u IH. cbn [hyphenate]. destruct (is_slug_char c), b; cbn [rstrip_hyphens]; by rewrite ?IH.
Qed.

(** Stripping the hyphens on both sides commutes. *)
Lemma rstrip_lstrip_hyphens s : rstrip_hyphens (lstrip_hyphens s) = lstrip_hyphens (rstrip_hyphens s).
Proof.
  induction s as [| c s IH]; [done |].
  destruct (Ascii.eqb c "-") eqn:Hc.
  - apply Ascii.eqb_eq in Hc as ->. simpl. rewrite IH.
    destruct (rstrip_hyphens s) as [| c' s'] eqn:Hr; done.
  - assert (Hl : forall t, lstrip_hyphens (String c t) = String c t).
    { intros t. by destruct c as [[] [] [] [] [] [] [] []]. }
    rewrite Hl. simpl. by rewrite Hc, andb_false_r, Hl.
Qed.

(** The name given to a new channel is the name the lookup infers. *)
Lemma inferred_name_agrees name : inferred_channel_name name = _slugify_channel_name name.
Proof.
  unfold inferred_channel_name, _slugify_channel_name, norm. do 2 f_equal.
  unfold strip. rewrite lower_rstrip, lower_lstrip.
  set (t := lower name). unfold strip_hyphens at 1. rewrite rstrip_lstrip_hyphens, rstrip_hyphenate,
    <- rstrip_lstrip_hyphens. apply strip_hyphenate_lstrip.
Qed.

(** * States *)

Lemma binding_state_of_str s : binding_state_of (binding_state_str s) = Ret s.
Proof. by destruct s. Qed.

Definition state_step (a b : BindingState) : Prop := exists event, _TRANSITIONS event a = Some b.

Definition closed (a : BindingState) : Prop := a = ARCHIVED \/ a = LOCKED.

Lemma transition_cases event a b :
  _TRANSITIONS event a = Some b ->
  (a = PROPOSED /\ (b = PENDING_APPROVAL \/ b = ACTIVE)) \/ (a = PENDING_APPROVAL /\ b = ACTIVE) \/
  (a = ACTIVE /\ closed b) \/ (a = ARCHIVED /\ b = LOCKED).
Proof. unfold _TRANSITIONS, closed. intros H. repeat case_match; simplify_eq; naive_solver. Qed.

Lemma closed_stays a b : star state_step a b -> closed a -> closed b.
Proof.
  apply star_invariant. intros x y Hx [event Ht%transition_cases]. unfold closed in *.
  destruct Ht as [[-> _] | [[-> _] | [[-> _] | [_ ->]]]]; destruct Hx; (done || by right).
Qed.

(** * The table *)

Definition channel_key (r : binding_row) : string * string := (bw_guild_id r, bw_channel_id r).

Definition keys_ok (rows : list binding_row) : Prop := NoDup (map bw_id rows) /\ NoDup (map channel_key rows).

(** What may become of a row: it keeps its identity and follows the states. *)
Record row_evolves (r r' : binding_row) : Prop := {
  re_id : bw_id r' = bw_id r;
  re_project : bw_project_id r' = bw_project_id r;
  re_channel : channel_key r' = channel_key r;
  re_state : forall a, binding_state_of (bw_binding_state r) = Ret a ->
               exists b, binding_state_of (bw_binding_state r') = Ret b /\ star state_step a b
}.

#[export] Instance row_evolves_preorder : PreOrder row_evolves.
Proof.
  split.
  - intros r. split; eauto using star.
  - intros a b c [] []. split; [congruence.. |]. intros x Hx.
    destruct (re_state0 x Hx) as (y & Hy & Hxy). destruct (re_state1 y Hy) as (z & Hz & Hyz).
    eauto using star_trans.
Qed.

Definition table_evolves (rows rows' : list binding_row) : Prop :=
  exists old new, rows' = old ++ new /\ Forall2 row_evolves rows old.

#[export] Instance table_evolves_preorder : PreOrder table_evolves.
Proof.
  split.
  - intros rows. exists rows, []. split; [by rewrite app_nil_r | reflexivity].
  - intros a b c (old & new & -> & H1) (old' & new' & -> & H2).
    apply Forall2_app_inv_l in H2 as (o1 & o2 & Ho1 & Ho2 & ->).
    exists o1, (o2 ++ new'). split; [by rewrite <- app_assoc |]. by transitivity old.
Qed.

Lemma table_evolves_In rows rows' r :
  table_evolves rows rows' -> In r rows -> exists r', In r' rows' /\ row_evolves r r'.
Proof.
  intros (old & new & -> & HF) Hr. apply list_elem_of_In in Hr.
  apply list_elem_of_lookup in Hr as [i Hi]. destruct (Forall2_lookup_l _ _ _ _ _ HF Hi) as (r' & Hr' & He).
  exists r'. split; [| done]. apply in_or_app. left. apply list_elem_of_In. by eapply list_elem_of_lookup_2.
Qed.

Lemma NoDup_map_In {A B} (f : A -> B) l x y : NoDup (map f l) -> In x l -> In y l -> f x = f y -> x = y.
Proof.
  intros Hnd Hx Hy Hf. apply list_elem_of_In, list_elem_of_lookup in Hx as [i Hi].
  apply list_elem_of_In, list_elem_of_lookup in Hy as [j Hj].
  assert (i = j) as ->; [| congruence].
  apply (NoDup_lookup (map f l) i j (f x) Hnd); rewrite list_lookup_fmap; [by rewrite Hi | by rewrite Hj, Hf].
Qed.

(** * Calls *)

Section calls.
Context {E : Type} `{!Oracle E} `{!DbFaults E} `{!DiscordApi E}.
Context (scan : list binding_row -> list binding_row) (names : string -> option string) (bot_token : string).
Context (scan_perm : forall rows, scan rows ≡ₚ rows).

#[local] Abbreviation P := (spaces E).

Definition same_rows (s s' : P) : Prop := sp_rows s' = sp_rows s.

#[local] Instance same_rows_preorder : PreOrder same_rows.
Proof. split; unfold same_rows; [done | congruence]. Qed.

Lemma same_rows_ext {A} (m : M E A) : tracks same_rows (sp_on_ext m).
Proof. intros s. unfold sp_on_ext, zoom. by destruct (m (sp_ext s)). Qed.

#[local] Hint Resolve same_rows_ext : tracks.

Lemma ext_post {A} (m : M E A) s : post (sp_on_ext m) s (fun _ => same_rows s) (fun _ => same_rows s).
Proof. pose proof (same_rows_ext m s) as H. unfold post. by destruct (sp_on_ext m s) as [[]]. Qed.

Lemma same_rows_select p : tracks same_rows (select scan p).
Proof. unfold select, sp_statement. tracks_auto. Qed.

#[local] Hint Resolve same_rows_select : tracks.

(** A [SELECT] answers some order of the matching rows, or the database refuses. *)
Lemma select_post p s :
  post (select scan p) s (fun rows s' => same_rows s s' /\ rows ≡ₚ List.filter p (sp_rows s)) (fun _ s' => same_rows s s').
Proof.
  unfold select, sp_statement. apply post_bind. eapply post_mono; [apply ext_post | | done].
  intros [x |] s1 Hs; [done |]. apply post_gets. split; [done |]. rewrite scan_perm. by rewrite Hs.
Qed.

Lemma first_binding_Some rows b :
  first_binding rows = Ret (Some b) ->
  exists r, In r rows /\ row_of_binding b = r /\ binding_state_of (bw_binding_state r) = Ret (sb_binding_state b).
Proof.
  destruct rows as [| r rows]; simpl; [done |]. unfold _binding_from_row.
  destruct (binding_state_of (bw_binding_state r)) as [st | x] eqn:Hst; simpl; [| done].
  intros [= <-]. exists r. split; [by left |]. simpl. split; [| done].
  unfold row_of_binding; simpl. destruct r as [? ? ? ? state ? ? ?]; simpl in *. f_equal.
  unfold binding_state_of in Hst. destruct (List.find _ _) as [st' |] eqn:Hf; simplify_eq.
  apply List.find_some in Hf as [_ Hf]. by apply String.eqb_eq.
Qed.

(** A find answers the binding of a row that matches. *)
Lemma find_post p s :
  post (let! rows := select scan p in of_outcome (first_binding rows)) s
    (fun found s' => same_rows s s' /\ forall b, found = Some b ->
       In (row_of_binding b) (sp_rows s) /\ p (row_of_binding b) = true)
    (fun _ s' => same_rows s s').
Proof.
  apply post_bind. eapply post_mono; [apply (select_post p) | | done].
  intros rows s1 [Hs Hperm]. apply post_of_outcome.
  destruct (first_binding rows) as [found | x] eqn:Hf; [| done]. split; [done |]. intros b ->.
  apply first_binding_Some in Hf as (r & Hr & -> & _).
  assert (In r (List.filter p (sp_rows s))) as Hin.
  { apply list_elem_of_In. rewrite <- Hperm. by apply list_elem_of_In. }
  by apply List.filter_In in Hin.
Qed.

(** ** The relation every call keeps *)

Definition evolves (s s' : P) : Prop :=
  keys_ok (sp_rows s) -> keys_ok (sp_rows s') /\ table_evolves (sp_rows s) (sp_rows s').

#[local] Instance evolves_preorder : PreOrder evolves.
Proof.
  split.
  - intros s H. by split.
  - intros a b c H1 H2 Ha. destruct (H1 Ha) as [Hb Hab]. destruct (H2 Hb) as [Hc Hbc].
    split; [done | by etransitivity].
Qed.

Lemma same_rows_evolves {A} (m : M P A) : tracks same_rows m -> tracks evolves m.
Proof. intros H s Hok. rewrite (H s). by split. Qed.

#[local] Hint Extern 2 (tracks evolves (sp_on_ext _)) => apply same_rows_evolves, same_rows_ext : tracks.
#[local] Hint Extern 2 (tracks evolves (select _ _)) => apply same_rows_evolves, same_rows_select : tracks.

Lemma keys_ok_snoc rows r : keys_ok rows -> existsb (conflicts r) rows = false -> keys_ok (rows ++ [r]).
Proof.
  intros [Hid Hch] Hno.
  assert (Hn : forall x, In x rows -> bw_id x <> bw_id r /\ channel_key x <> channel_key r).
  { intros x Hx. destruct (conflicts r x) eqn:Hc.
    - assert (existsb (conflicts r) rows = true) as Ht by (apply existsb_exists; eauto). congruence.
    - unfold conflicts in Hc. apply orb_false_iff in Hc as [H1 H2]. apply String.eqb_neq in H1.
      split; [congruence |]. unfold channel_key. intros [= Hg Hc']. rewrite Hg, Hc', !String.eqb_refl in H2. done. }
  unfold keys_ok. rewrite !map_app. simpl.
  split; apply NoDup_app; (split; [done | split; [| apply NoDup_singleton]]);
    intros x (y & -> & Hy)%list_elem_of_fmap Heq%list_elem_of_singleton; apply list_elem_of_In, Hn in Hy;
    destruct Hy; contradiction.
Qed.

Lemma insert_evolves b : tracks evolves (insert_binding b).
Proof.
  unfold insert_binding, sp_statement. tracks_auto.
  intros s Hok. destruct (existsb _ _) eqn:He; simpl; [by split |].
  split; [by apply keys_ok_snoc |]. exists (sp_rows s), [row_of_binding b]. by split.
Qed.

Lemma create_evolves project guild name recipient :
  tracks evolves (create_and_bind bot_token project guild name recipient).
Proof.
  unfold create_and_bind, build_project_space_binding, sp_now, sp_uuid.
  pose proof insert_evolves. tracks_auto.
Qed.

(** A write of a state that the row's state steps to. *)
Lemma update_evolves r state now s :
  In r (sp_rows s) -> (exists a, binding_state_of (bw_binding_state r) = Ret a /\ state_step a state) ->
  evolves s (mk_spaces (sp_ext s)
    (map (fun x => if String.eqb (bw_id x) (bw_id r) then with_state state now x else x) (sp_rows s))).
Proof.
  intros Hr (a & Ha & Hstep) [Hid Hch]. simpl.
  set (f := fun x => if String.eqb (bw_id x) (bw_id r) then with_state state now x else x).
  assert (Hf : forall x, bw_id (f x) = bw_id x /\ channel_key (f x) = channel_key x).
  { intros x. unfold f. by destruct (String.eqb _ _). }
  split.
  - split; rewrite map_map; erewrite map_ext; [exact Hid | apply Hf | exact Hch | apply Hf].
  - exists (map f (sp_rows s)), []. split; [by rewrite app_nil_r |].
    apply Forall2_fmap_r, Forall_Forall2_diag, Forall_forall. intros x Hx%list_elem_of_In.
    change (row_evolves x (f x)). unfold f. destruct (String.eqb (bw_id x) (bw_id r)) eqn:He; [| reflexivity].
    apply String.eqb_eq in He. assert (x = r) as -> by exact (NoDup_map_In bw_id _ x r Hid Hx Hr He).
    split; try done. simpl. intros a' Ha'. rewrite Ha in Ha'. simplify_eq.
    exists state. rewrite binding_state_of_str. eauto using star.
Qed.
(** ** Transitions *)

Lemma plan_transition_post project event s :
  post (plan_transition scan project event) s
    (fun bt s' => same_rows s s' /\ In (row_of_binding bt.1) (sp_rows s) /\ state_step (sb_binding_state bt.1) bt.2)
    (fun _ s' => same_rows s s').
Proof.
  unfold plan_transition, find_by_project_id. apply post_bind.
  eapply post_mono; [apply (find_post (fun r => String.eqb (bw_project_id r) project)) | | done].
  intros [b |] s1 [Hs Hb]; [| done]. destruct (_TRANSITIONS event (sb_binding_state b)) as [t |] eqn:Ht; [| done].
  apply post_ret. split; [done |]. split; [by apply Hb | by exists event].
Qed.

(** Every run ends in a state related to [s]. *)
Lemma post_evolves {A} (m : M P A) s s1 :
  evolves s s1 -> tracks evolves m -> post m s1 (fun _ => evolves s) (fun _ => evolves s).
Proof.
  intros H Hm. specialize (Hm s1). unfold post. destruct (m s1) as [[a | x] s2]; simpl in Hm; by transitivity s1.
Qed.

Lemma apply_transition_post name b state s :
  In (row_of_binding b) (sp_rows s) -> state_step (sb_binding_state b) state ->
  post (apply_transition scan bot_token name b state) s (fun _ => evolves s) (fun _ => evolves s).
Proof.
  intros Hb Hstep. unfold apply_transition, update_state, sp_statement. apply post_bind, post_bind.
  eapply post_mono; [apply ext_post | | intros ? s1 H Hok; rewrite H; by split].
  intros now s1 H1. apply post_bind, post_bind.
  eapply post_mono; [apply ext_post | | intros ? s2 H2 Hok; rewrite H2, H1; by split].
  intros fault s2 H2.
  assert (Hs2 : evolves s s2) by (intros Hok; rewrite H2, H1; by split).
  destruct fault as [x |]; [done |]. apply post_modify.
  set (s3 := mk_spaces _ _). assert (Hs3 : evolves s s3).
  { transitivity s2; [done |]. apply (update_evolves (row_of_binding b)).
    - rewrite H2, H1. done.
    - exists (sb_binding_state b). split; [apply binding_state_of_str | done]. }
  eapply post_mono; [apply (post_evolves (let! rows := select scan _ in _) s s3 Hs3) | | done].
  { tracks_auto. }
  intros updated s4 H4. apply post_bind.
  eapply post_mono; [apply (post_evolves _ s s4 H4); tracks_auto | done | done].
Qed.

Lemma transition_evolves project event name : tracks evolves (transition scan bot_token project event name).
Proof.
  intros s. assert (Hp : post (transition scan bot_token project event name) s (fun _ => evolves s) (fun _ => evolves s)).
  { unfold transition. apply post_bind. eapply post_mono; [apply plan_transition_post | |].
    - intros [b t] s1 (Hs & Hb & Hstep). simpl in *.
      assert (Hev : forall A (a : A) s2, evolves s1 s2 -> evolves s s2).
      { intros _ _ s2. unfold evolves. by rewrite Hs. }
      eapply post_mono; [apply apply_transition_post; [by rewrite Hs | done] | apply Hev | apply Hev].
    - intros ? s1 H Hok. rewrite H. by split. }
  unfold post in Hp. by destruct (transition _ _ _ _ _ s) as [[]].
Qed.

(** ** A new space *)

Lemma create_post project guild name recipient s :
  post (create_and_bind bot_token project guild name recipient) s
    (fun b s' => sp_rows s' = sp_rows s ++ [row_of_binding b] /\ existsb (conflicts (row_of_binding b)) (sp_rows s) = false /\
       sb_project_id b = project /\ sb_guild_id b = guild /\ sb_default_recipient b = recipient /\
       sb_binding_state b = ACTIVE)
    (fun _ s' => same_rows s s').
Proof.
  unfold create_and_bind, build_project_space_binding, insert_binding, sp_statement.
  apply post_bind. eapply post_mono; [apply ext_post | | done]. intros channel s1 H1.
  apply post_bind, post_bind. eapply post_mono; [apply ext_post | | intros; congruence]. intros now s2 H2.
  apply post_bind. eapply post_mono; [apply ext_post | | intros; congruence]. intros id s3 H3.
  apply post_ret, post_bind, post_bind. eapply post_mono; [apply ext_post | | intros; congruence]. intros [x |] s4 H4.
  { unfold same_rows in *. congruence. }
  assert (sp_rows s4 = sp_rows s) as Hs by (unfold same_rows in *; congruence).
  unfold post. rewrite Hs. destruct (existsb _ _) eqn:He; [done |]. by simpl.
Qed.

Lemma select_run p s :
  select scan p s =
    (match (db_fault (sp_ext s)).1 with Some x => Raise x | None => Ret (scan (List.filter p (sp_rows s))) end,
     mk_spaces (db_fault (sp_ext s)).2 (sp_rows s)).
Proof.
  unfold select, sp_statement, sp_on_ext, zoom, bind, gets. by destruct (db_fault (sp_ext s)) as [[x |] e].
Qed.

Lemma filter_last {A} (p : A -> bool) l r :
  (forall x, In x l -> p x = false) -> p r = true -> List.filter p (l ++ [r]) = [r].
Proof.
  intros Hl Hr. rewrite List.filter_app. simpl. rewrite Hr.
  induction l as [| x l IH]; [done |]. simpl. rewrite (Hl x (or_introl eq_refl)). apply IH.
  intros y Hy. apply Hl. by right.
Qed.

Lemma first_binding_of b : first_binding [row_of_binding b] = Ret (Some b).
Proof. simpl. unfold _binding_from_row. simpl. rewrite binding_state_of_str. by destruct b. Qed.

(** ** Any sequence of calls *)

Inductive space_call : P -> P -> Prop :=
  | call_create project guild name recipient s :
      space_call s (create_and_bind bot_token project guild name recipient s).2
  | call_transition project event name s :
      space_call s (transition scan bot_token project event name s).2
  | call_resolve guild channel s : space_call s (resolve scan guild channel s).2
  | call_lookup guild name s : space_call s (get_binding_by_name scan names name guild s).2.

Lemma resolve_same_rows guild channel : tracks same_rows (resolve scan guild channel).
Proof. unfold resolve, find_by_channel. tracks_auto. Qed.

Lemma lookup_same_rows name guild : tracks same_rows (get_binding_by_name scan names name guild).
Proof. unfold get_binding_by_name, find_by_channel_name. tracks_auto. Qed.

Lemma calls_evolve s s' : star space_call s s' -> evolves s s'.
Proof.
  induction 1 as [s | a b c Hab _ IH]; [reflexivity |]. transitivity b; [| done].
  destruct Hab; [apply create_evolves | apply transition_evolves
                | apply (same_rows_evolves _ (resolve_same_rows _ _)) | apply (same_rows_evolves _ (lookup_same_rows _ _))].
Qed.

(** What a resolution answers. *)
Lemma resolve_post guild channel s :
  post (resolve scan guild channel) s
    (fun found s' => same_rows s s' /\ forall ctx, found = Some ctx -> exists b,
       In (row_of_binding b) (sp_rows s) /\ channel_key (row_of_binding b) = (guild, channel) /\
       sb_binding_state b = ACTIVE /\
       ctx = mk_RoutingContext (sb_project_id b) (sb_default_recipient b) ACTIVE)
    (fun _ s' => same_rows s s').
Proof.
  unfold resolve, find_by_channel. apply post_bind.
  eapply post_mono; [apply (find_post (in_channel guild channel)) | | done].
  intros found s1 [Hs Hb]. apply post_ret. split; [done |].
  destruct found as [b |]; [| done]. case_bool_decide as Ha; [| done]. intros ctx [= <-].
  destruct (Hb b eq_refl) as [Hin Hk]. exists b. rewrite Ha. split; [done |]. split; [| done].
  unfold in_channel in Hk. apply andb_prop in Hk as [Hg Hc].
  apply String.eqb_eq in Hg, Hc. unfold channel_key. by rewrite Hg, Hc.
Qed.

(** The project that a channel routes to. *)
Definition channel_project (rows : list binding_row) (guild channel : string) : option string :=
  r ← List.find (in_channel guild channel) rows;
  if String.eqb (bw_binding_state r) "active" then Some (bw_project_id r) else None.

Lemma in_channel_key guild channel r : in_channel guild channel r = true <-> channel_key r = (guild, channel).
Proof.
  unfold in_channel, channel_key. rewrite andb_true_iff, !String.eqb_eq. split; [by intros [-> ->] | by intros [= -> ->]].
Qed.

Lemma filter_channel rows guild channel :
  NoDup (map channel_key rows) ->
  List.filter (in_channel guild channel) rows =
    match List.find (in_channel guild channel) rows with Some r => [r] | None => [] end.
Proof.
  induction rows as [| r rows IH]; simpl; [done |]. intros [Hr Hnd]%NoDup_cons.
  destruct (in_channel guild channel r) eqn:Hc; [| by apply IH]. f_equal. rewrite IH by done.
  destruct (List.find _ rows) as [r' |] eqn:Hf; [| done]. apply List.find_some in Hf as [Hin Hc'].
  apply in_channel_key in Hc, Hc'. destruct Hr. apply list_elem_of_In, in_map_iff. exists r'. by rewrite Hc.
Qed.

(** With unique channels, the answer does not depend on the order of a [SELECT]. *)
Lemma resolve_exact guild channel s :
  NoDup (map channel_key (sp_rows s)) ->
  post (resolve scan guild channel) s
    (fun found s' => same_rows s s' /\ rc_project_id <$> found = channel_project (sp_rows s) guild channel)
    (fun _ s' => same_rows s s').
Proof.
  intros Hnd. unfold resolve, find_by_channel, channel_project. apply post_bind, post_bind.
  eapply post_mono; [apply select_post | | done]. intros rows s1 [Hs Hperm].
  rewrite (filter_channel _ _ _ Hnd) in Hperm. destruct (List.find _ _) as [r |]; simpl.
  - apply Permutation_sym, Permutation_length_1_inv in Hperm as ->. apply post_of_outcome.
    destruct (first_binding [r]) as [[b |] | x] eqn:Hb; [| by simpl in Hb; destruct (_binding_from_row r) | done].
    apply first_binding_Some in Hb as (? & [<- | []] & Hrow & _). apply post_ret. split; [done |]. rewrite <- Hrow. simpl.
    by destruct (sb_binding_state b).
  - apply Permutation_sym, Permutation_nil in Hperm as ->. by apply post_ret.
Qed.

(** C31: a closed project channel never routes again.  From a table whose
    identifiers and channels are unique, once the binding of a channel is
    archived or locked, then after any calls of the service, whatever Discord
    and the database answer, resolving the channel gives no routing context:
    it answers none, or the database refuses. *)
Theorem closed_channel_never_routes r state s s' :
  keys_ok (sp_rows s) -> In r (sp_rows s) ->
  binding_state_of (bw_binding_state r) = Ret state -> closed state ->
  star space_call s s' ->
  forall ctx, (resolve scan (bw_guild_id r) (bw_channel_id r) s').1 <> Ret (Some ctx).
Proof.
  intros Hok Hr Hst Hclosed Hcalls ctx Hres.
  destruct (calls_evolve s s' Hcalls Hok) as [[_ Hch] Hev].
  destruct (table_evolves_In _ _ _ Hev Hr) as (r' & Hr' & He).
  destruct (re_state _ _ He _ Hst) as (state' & Hst' & Hreach).
  pose proof (resolve_post (bw_guild_id r) (bw_channel_id r) s') as Hp. unfold post in Hp.
  destruct (resolve scan _ _ s') as [[found | x] s1]; simpl in Hres; simplify_eq.
  destruct Hp as [_ Hp]. destruct (Hp ctx eq_refl) as (b & Hb & Hkey & Ha & _).
  assert (row_of_binding b = r') as <-.
  { eapply (NoDup_map_In channel_key); eauto. rewrite Hkey. by rewrite (re_channel _ _ He). }
  simpl in Hst'. rewrite Ha, (binding_state_of_str ACTIVE) in Hst'. simplify_eq.
  destruct (closed_stays _ _ Hreach Hclosed); done.
Qed.
(** A new project space is found.  After [create_and_bind] returns a
    binding, its channel resolves to the project and its recipient; and the
    channel's name, in any spelling that lowers and strips to the one given to
    Discord, finds the binding when no other project bound in the guild has a
    name with the same slug.  Only a refusal of the database is the exception. *)
Theorem new_space_is_found project guild name recipient channel_name s b s1 :
  create_and_bind bot_token project guild name recipient s = (Ret b, s1) ->
  names project = Some name -> norm channel_name = _slugify_channel_name name ->
  (forall r n, In r (sp_rows s) -> bw_guild_id r = guild -> names (bw_project_id r) = Some n ->
     _slugify_channel_name n <> _slugify_channel_name name) ->
  (resolve scan guild (sb_channel_id b) s1).1 =
    match (db_fault (sp_ext s1)).1 with
    | Some x => Raise x
    | None => Ret (Some (mk_RoutingContext project recipient ACTIVE))
    end /\
  (get_binding_by_name scan names channel_name guild s1).1 =
    match (db_fault (sp_ext s1)).1 with Some x => Raise x | None => Ret (Some b) end.
Proof.
  intros Hrun Hname Hchannel Hother.
  pose proof (create_post project guild name recipient s) as Hp. unfold post in Hp. rewrite Hrun in Hp.
  destruct Hp as (Hrows & Hno & <- & <- & <- & Hactive). split.
  - unfold resolve, find_by_channel, bind. rewrite select_run, Hrows, filter_last.
    + rewrite (proj1 (Permutation_singleton_r _ _) (scan_perm [row_of_binding b])).
      destruct (db_fault (sp_ext s1)).1; [done |]. cbn [of_outcome]. rewrite first_binding_of.
      cbn. rewrite Hactive. done.
    + intros x Hx. destruct (in_channel _ _ x) eqn:Hc; [| done]. exfalso.
      assert (existsb (conflicts (row_of_binding b)) (sp_rows s) = true); [| congruence].
      apply existsb_exists. exists x. split; [done |]. unfold conflicts, in_channel in *. simpl.
      apply andb_prop in Hc as [Hg Hch]. rewrite String.eqb_sym in Hg, Hch.
      rewrite Hg, Hch. apply orb_true_r.
    + unfold in_channel. simpl. by rewrite !String.eqb_refl.
  - unfold get_binding_by_name, find_by_channel_name, bind. rewrite Hchannel.
    assert (truthy (_slugify_channel_name name) = true) as -> by done. cbn [negb].
    rewrite select_run. destruct (db_fault (sp_ext s1)).1; [done |]. cbn [of_outcome].
    set (q := fun r => String.eqb (inferred_channel_name (default "" (names (bw_project_id r)))) (_slugify_channel_name name)).
    assert (List.filter q (sorted newer_binding (scan (List.filter (fun r => String.eqb (bw_guild_id r) (sb_guild_id b) &&
              bool_decide (is_Some (names (bw_project_id r)))) (sp_rows s1)))) = [row_of_binding b]) as ->.
    { apply Permutation_singleton_r. rewrite (filter_perm q _ _ (sorted_perm newer_binding _)).
      rewrite (filter_perm q _ _ (scan_perm _)), Hrows, List.filter_app. simpl.
      rewrite String.eqb_refl, Hname, bool_decide_true by eauto. cbn [andb].
      rewrite filter_last; [done | |].
      - intros x [Hx Hc]%List.filter_In. apply andb_prop in Hc as [Hg Hn].
        apply String.eqb_eq in Hg. apply bool_decide_eq_true in Hn as [n Hn].
        unfold q. rewrite Hn, inferred_name_agrees. apply String.eqb_neq. by apply (Hother x n).
      - unfold q. change (bw_project_id (row_of_binding b)) with (sb_project_id b).
        rewrite Hname, inferred_name_agrees. apply String.eqb_refl. }
    rewrite first_binding_of. cbn. by rewrite Hactive.
Qed.
End calls.

(** * Examples

    A world that counts its answers; [true] makes Discord refuse. *)

#[local] Instance demo_oracle : Oracle (nat * bool) := {|
  uuid4 := fun e : nat * bool => ("id-" +:+ pretty e.1, (S e.1, e.2));
  utcnow := fun e : nat * bool => (mk_datetime 2026 1 1 0 0 (Z.of_nat e.1) 0, (S e.1, e.2))
|}.

#[local] Instance demo_database : DbFaults (nat * bool) := {| db_fault := fun e : nat * bool => (None, e) |}.

#[local] Instance demo_discord : DiscordApi (nat * bool) := {|
  discord_send := fun _ _ _ _ (e : nat * bool) =>
    (Ret (mk_http_response (if e.2 then 500 else 200)%Z None
            (Ret (JObj [("id", JStr ("channel-" +:+ pretty e.1))]))), (S e.1, e.2))
|}.

Definition demo_row (id project channel : string) (state : BindingState) (second : Z) : binding_row :=
  mk_binding_row id project "guild" channel (binding_state_str state) "project_manager"
    (mk_datetime 2026 1 1 0 0 0 0) (mk_datetime 2026 1 1 0 0 second 0).

Definition demo_names (project : string) : option string :=
  if String.eqb project "p1" then Some "Apollo One" else if String.eqb project "p2" then Some "apollo one!" else None.

Definition demo_space (refuse : bool) : spaces (nat * bool) :=
  mk_spaces (0%nat, refuse) [demo_row "b1" "p1" "c1" ACTIVE 1].

Lemma closed_channel_never_routes_witness :
  exists s', star (space_call (fun rows => rows) demo_names "token")
               (mk_spaces (0%nat, false) [demo_row "b1" "p1" "c1" ARCHIVED 1]) s' /\
    forall ctx, (resolve (fun rows => rows) "guild" "c1" s').1 <> Ret (Some ctx).
Proof.
  set (r := demo_row "b1" "p1" "c1" ARCHIVED 1).
  exists (transition (fun rows => rows) "token" "p1" "lock" "Apollo One" (mk_spaces (0%nat, false) [r])).2.
  assert (Hstar : star (space_call (fun rows => rows) demo_names "token") (mk_spaces (0%nat, false) [r])
                    (transition (fun rows => rows) "token" "p1" "lock" "Apollo One" (mk_spaces (0%nat, false) [r])).2).
  { eapply star_step; [apply call_transition | apply star_refl]. }
  split; [exact Hstar |]. intros ctx.
  apply (closed_channel_never_routes (fun rows => rows) demo_names "token" (fun rows => reflexivity rows)
           r ARCHIVED (mk_spaces (0%nat, false) [r])); [| by left | reflexivity | by left | exact Hstar].
  split; apply NoDup_singleton.
Defined.

Lemma new_space_is_found_witness :
  exists b s1, create_and_bind "token" "p1" "guild" "Apollo One" "project_manager" (mk_spaces (0%nat, false) []) = (Ret b, s1) /\
    (resolve (fun rows => rows) "guild" (sb_channel_id b) s1).1 =
      Ret (Some (mk_RoutingContext "p1" "project_manager" ACTIVE)) /\
    (get_binding_by_name (fun rows => rows) demo_names " Project-Apollo-One" "guild" s1).1 = Ret (Some b).
Proof.
  eexists _, _. split; [vm_compute; reflexivity |].
  match goal with |- context [resolve _ _ (sb_channel_id ?b) ?s1] =>
    destruct (new_space_is_found (fun rows => rows) demo_names "token" (fun rows => reflexivity rows)
      "p1" "guild" "Apollo One" "project_manager" " Project-Apollo-One" (mk_spaces (0%nat, false) []) b s1) as [H1 H2]
  end; [vm_compute; reflexivity | reflexivity | vm_compute; reflexivity | intros r n [] |].
  split; [exact H1 | exact H2].
Defined.

(** The row is committed before Discord is asked: when Discord refuses, the
    channel keeps its name, and asking again is an illegal transition. *)
Lemma failed_archive_cannot_retry :
  let first := transition (fun rows => rows) "token" "p1" "archive" "Apollo One" (demo_space true) in
  (exists m, first.1 = Raise (DiscordChannelError m)) /\
  (exists m, (transition (fun rows => rows) "token" "p1" "archive" "Apollo One" first.2).1 = Raise (ValueError m)).
Proof. split; eexists; vm_compute; reflexivity. Qed.

(** A lock that runs between the two halves of an archival is undone by it. *)
Lemma concurrent_transition_unlocks :
  let scan := fun rows => rows in
  exists b t s1, plan_transition scan "p1" "archive" (demo_space false) = (Ret (b, t), s1) /\
    let s2 := (transition scan "token" "p1" "lock" "Apollo One" s1).2 in
    map bw_binding_state (sp_rows s2) = ["locked"] /\
    map bw_binding_state (sp_rows (apply_transition scan "token" "Apollo One" b t s2).2) = ["archived"].
Proof. eexists _, _, _. split; [vm_compute; reflexivity |]. vm_compute. done. Qed.

(** Only the newest binding of a slug is considered: a closed one hides an
    active one of the same slug, although messages of its channel are routed. *)
Lemma newer_closed_space_hides_active :
  let s := mk_spaces (0%nat, false) [demo_row "b1" "p1" "c1" ACTIVE 1; demo_row "b2" "p2" "c2" ARCHIVED 2] in
  (get_binding_by_name (fun rows => rows) demo_names "project-apollo-one" "guild" s).1 = Ret None /\
  (resolve (fun rows => rows) "guild" "c1" s).1 = Ret (Some (mk_RoutingContext "p1" "project_manager" ACTIVE)).
Proof. vm_compute. done. Qed.
