(* ===== verification/AgentBase.v ===== *)
(** What the agents of [agents/] share.

    Models [agents/shared/free_text_advisory.py], the [handle_free_text] that
    every executive and oversight agent repeats, and the helpers their modules
    copy: [_optional_str], [_load_record_payload], [_complete_llm].

    The office is the state agents work on: tasks, projects, governance
    artifacts, the agent registry and the outside world.  Prompt texts are data
    that no modelled code inspects, so a prompt is a parameter of its arguments. *)

From S2P Require Import Prelude PyStr PyData LlmSchemas PyFloat Task Budget LoopControl Policy Runtime.
From S2P Require Import ProjectModel ProjectRows ProjectRepo Artifacts Conversation.

(** * Values *)

(** [_optional_str]. *)
Definition _optional_str (str_float : spec_float -> string) (value : option json) : option string :=
  match value with
  | None | Some JNull => None
  | Some v => or_none (strip (json_str str_float v))
  end.

(** [_normalize_optional_text]. *)
Definition _normalize_optional_text (value : option string) : option string := s ← value; or_none (strip s).

(** [payload.get(k) == s]. *)
Definition field_is (o : list (string * json)) (k s : string) : bool :=
  match jfield o k with Some (JStr x) => String.eqb x s | _ => false end.

(** The JSON library: [dumps(x)], [dumps(x, sort_keys=True)],
    [dumps(x, ensure_ascii=False)] and [loads]. *)
Record json_codec : Type := mk_json_codec {
  dumps : json -> string;
  dumps_sorted : json -> string;
  dumps_unicode : json -> string;
  loads : string -> option json
}.

(** [_load_record_payload] and [_load_payload]. *)
Definition _load_record_payload (codec : json_codec) (text : string) : list (string * json) :=
  match loads codec text with Some (JObj o) => o | _ => [] end.

(** [", ".join(f"{key}={value}" for key, value in sorted(context.items()))]. *)
Definition _context_summary (str_float : spec_float -> string) (context : list (string * json)) : string :=
  match context with
  | [] => "none"
  | _ => join ", " (map (fun kv => kv.1 +:+ "=" +:+ json_str str_float kv.2)
           (sorted (fun a b => str_leb a.1 b.1) context))
  end.

(** The first line that is not blank, shortened. *)
Definition first_line (text : string) : string :=
  String.substring 0 160
    (match List.filter truthy (map strip (splitlines text)) with [] => "empty" | l :: _ => l end).

(** * The office *)

Record AgentRecord : Type := mk_AgentRecord {
  ag_agent_id : string;
  ag_role : string;
  ag_agent_type : string;
  ag_status : string;
  ag_created_at : datetime;
  ag_updated_at : datetime
}.

Record office (E : Type) : Type := mk_office {
  of_ext : E;
  of_tasks : task_table;
  of_projects : projects;
  of_artifacts : artifact_store;
  of_agents : list AgentRecord
}.
Arguments mk_office {E}.
Arguments of_ext {E}.
Arguments of_tasks {E}.
Arguments of_projects {E}.
Arguments of_artifacts {E}.
Arguments of_agents {E}.

(** How the artifact repository is configured. *)
Record artifact_config : Type := mk_artifact_config {
  ac_system_root : string;
  ac_resolve_path : string * list string -> string * list string;
  ac_write_fault : string -> option string;
  ac_sha256 : string -> string;
  ac_policy : ProjectDocumentPolicy;
  ac_file_store : bool
}.

Section office.
Context {E : Type}.
#[local] Abbreviation O := (office E).

Definition of_on_ext {A} (m : M E A) : M O A :=
  zoom of_ext (fun e s => mk_office e (of_tasks s) (of_projects s) (of_artifacts s) (of_agents s)) m.
Definition of_on_tasks {A} (m : M task_table A) : M O A :=
  zoom of_tasks (fun t s => mk_office (of_ext s) t (of_projects s) (of_artifacts s) (of_agents s)) m.
Definition of_on_projects {A} (m : M projects A) : M O A :=
  zoom of_projects (fun p s => mk_office (of_ext s) (of_tasks s) p (of_artifacts s) (of_agents s)) m.
Definition of_on_artifacts {A} (m : M artifact_store A) : M O A :=
  zoom of_artifacts (fun a s => mk_office (of_ext s) (of_tasks s) (of_projects s) a (of_agents s)) m.
Definition of_on_agents {A} (m : M (list AgentRecord) A) : M O A :=
  zoom of_agents (fun l s => mk_office (of_ext s) (of_tasks s) (of_projects s) (of_artifacts s) l) m.

Context `{!Oracle E}.

Definition of_uuid : M O string := of_on_ext (fun e => let '(u, e') := uuid4 e in (Ret u, e')).
Definition of_now : M O datetime := of_on_ext (fun e => let '(t, e') := utcnow e in (Ret t, e')).

(** [governance_repo.write_project_artifact(..)]. *)
Definition write_artifact (cfg : artifact_config) (project_id artifact_type text : string)
    (context : ProjectArtifactWriteContext) : M O ProjectArtifactPointer :=
  let! u := of_uuid in
  let! now := of_now in
  of_on_artifacts (write_project_artifact (ac_system_root cfg) (ac_resolve_path cfg) (ac_write_fault cfg)
    (ac_sha256 cfg) (ac_policy cfg) (ac_file_store cfg) u now project_id artifact_type text (Some context)).
End office.

(** * The language model *)

(** [response.decision in {"served", "fallback_served"} and response.generated_text]. *)
Definition served_text (response : LlmGatewayResponse) : option string :=
  match lr_generated_text response with
  | Some text =>
      if mem (lr_decision response) ["served"; "fallback_served"] && truthy text then Some (strip text) else None
  | None => None
  end.

(** What distinguishes one agent's requests from another's. *)
Record llm_profile : Type := mk_llm_profile {
  lf_agent_id : string;
  lf_budget : LlmBudgetContext;
  lf_policy : LlmPolicyContext
}.

Definition absolute_budget (cap : Z) : LlmBudgetContext :=
  mk_LlmBudgetContext None None (Some cap) "absolute" None None.

Section gateway.
Context {E : Type} `{!Oracle E}.
Context (gateway : LlmGatewayRequest -> M E LlmGatewayResponse).

Definition new_id : M E string := fun e => let '(u, e') := uuid4 e in (Ret u, e').

(** [_complete_llm], [_complete_prompt] and [_call_llm]: a request, or the fallback. *)
Definition _complete_llm (profile : llm_profile) (skill : string) (max_tokens : Z) (temperature : pyfloat)
    (project_id : option string) (trace_id prompt fallback : string) : M E string :=
  let! id := new_id in
  let! response := gateway (mk_LlmGatewayRequest id trace_id (opt_or project_id "system") (lf_agent_id profile) None
    (Some skill) "interactive_fast" "dev_gemini_free" prompt max_tokens temperature (lf_budget profile)
    (lf_policy profile)) in
  ret (default fallback (served_text response)).
End gateway.

(** * Free text *)

Record FreeTextAdvisoryRequest : Type := mk_FreeTextAdvisoryRequest {
  ft_text : string;
  ft_scope : string;
  ft_guild_id : string;
  ft_channel_id : string;
  ft_addressed_agent : option string
}.

Record FreeTextAdvisoryResponse : Type := mk_FreeTextAdvisoryResponse { fr_advisory_text : string }.

(** An agent's constants: its requests, its prompt and its fallback, and the
    purpose under which its calls are counted. *)
Record advisory_profile : Type := mk_advisory_profile {
  ap_llm : llm_profile;
  ap_system_prompt : string;
  ap_fallback : string;
  ap_purpose : string
}.

Section free_text.
Context {E : Type} `{!Oracle E} `{!ConversationStore E} `{!MetricRecorder E}.
Context (gateway : option (LlmGatewayRequest -> M E LlmGatewayResponse)) (has_store has_metrics : bool).
Context (default_routing_profile : string).

Definition history_block (turns : list ConversationTurn) : string :=
  let newline := String (Ascii.ascii_of_nat 10) "" in
  match turns with
  | [] => ""
  | _ => "Conversation so far:" +:+ newline +:+
         join newline (map (fun t => cv_role t +:+ ": " +:+ cv_content t) turns) +:+ newline +:+ newline
  end.

Definition free_text_prompt (system_prompt : string) (turns : list ConversationTurn) (text : string) : string :=
  let newline := String (Ascii.ascii_of_nat 10) "" in
  system_prompt +:+ newline +:+ newline +:+ history_block turns +:+ "Owner message:" +:+ newline +:+ text.

Definition free_text_request (profile : advisory_profile) (request_id trace_id prompt : string) : LlmGatewayRequest :=
  mk_LlmGatewayRequest request_id trace_id "system" (lf_agent_id (ap_llm profile)) None (Some "free_text_advisory")
    "interactive_fast" default_routing_profile prompt 256 (f_lit 3 1) (lf_budget (ap_llm profile))
    (lf_policy (ap_llm profile)).

Definition handle_free_text (profile : advisory_profile) (request : FreeTextAdvisoryRequest)
    : M E FreeTextAdvisoryResponse :=
  let! turns := if has_store then try (list_turns (ft_scope request)) (fun _ => Some (ret [])) else ret [] in
  let prompt := free_text_prompt (ap_system_prompt profile) turns (ft_text request) in
  let! advisory_text :=
    match gateway with
    | None => ret (ap_fallback profile)
    | Some complete =>
        try (let! request_id := new_id in
             let! trace_id := new_id in
             let! response := complete (free_text_request profile request_id trace_id prompt) in
             ret (default (ap_fallback profile) (served_text response)))
          (fun _ => Some (ret (ap_fallback profile)))
    end in
  (match gateway with
   | Some _ => if has_metrics then modify (increment_counter "llm_calls_total" [("purpose", ap_purpose profile)]) else ret tt
   | None => ret tt
   end) ;!
  (if has_store then
     try (append_turns (ft_scope request) (ft_text request) advisory_text (Some (lf_agent_id (ap_llm profile))))
       (fun _ => Some (ret tt))
   else ret tt) ;!
  ret (mk_FreeTextAdvisoryResponse advisory_text).
End free_text.
