(* ===== verification/AgentRegistry.v ===== *)
(** The agent registry.

    Models [data_access/repositories/agent_registry.py] and
    [data_access/repositories/postgres/agent_registry_repository.py]: the
    [agents] table with its primary key [agent_id] and its unique index on
    [role], bootstrap, lookups, workforce binding and quarantine. *)

From S2P Require Import Prelude PyStr PyData Task Runtime AgentBase.

Definition _INSTITUTIONAL_ROLES : list string := ["administrator"; "auditor"; "ceo"; "cwo"; "cso"; "secretary"].
Definition _ADVISORY_ONLY_ROLES : list string := ["secretary"].

Abbreviation agents := (list AgentRecord).

Definition role_leb (a b : AgentRecord) : bool := str_leb (ag_role a) (ag_role b).

Definition get_agent_by_role (role : string) : M agents (option AgentRecord) :=
  gets (fun l => List.find (fun a => String.eqb (ag_role a) (norm role)) l).

Definition list_agents (agent_type : option string) : M agents (list AgentRecord) :=
  gets (fun l => sorted role_leb
    (match agent_type with
     | None => l
     | Some t => List.filter (fun a => String.eqb (ag_agent_type a) (norm t)) l
     end)).

(** A row whose role is free: the primary key may still be taken. *)
Definition insert_agent (a : AgentRecord) : M agents unit := fun l =>
  if existsb (fun b => String.eqb (ag_agent_id b) (ag_agent_id a)) l
  then (Raise (DatabaseError "duplicate key value violates unique constraint"), l)
  else (Ret tt, l ++ [a]).

Definition core_agent (role : string) (now : datetime) : AgentRecord :=
  mk_AgentRecord (role +:+ "_core") role "institutional" "active" now now.

(** One turn of the loop of [bootstrap_institutional_agents]. *)
Definition ensure_institutional (now : datetime) (role : string) : M agents unit :=
  let! existing := get_agent_by_role role in
  match existing with
  | Some a =>
      if mem role _ADVISORY_ONLY_ROLES && negb (String.eqb (ag_agent_type a) "institutional") then
        raise (AgentRegistryRepositoryError "agent_registry_advisory_only_violation"
          ("Role '" +:+ role +:+ "' must be registered with advisory-only capability " +:+
           "(agent_type='institutional'). Found agent_type='" +:+ ag_agent_type a +:+
           "'. Secretary cannot be granted command or mutation capabilities."))
      else ret tt
  | None => insert_agent (core_agent role now)
  end.

Fixpoint ensure_all (now : datetime) (roles : list string) : M agents unit :=
  match roles with
  | [] => ret tt
  | role :: rest => ensure_institutional now role ;! ensure_all now rest
  end.

Definition bootstrap_institutional_agents (now : datetime) : M agents (list AgentRecord) :=
  ensure_all now _INSTITUTIONAL_ROLES ;! list_agents (Some "institutional").

(** The role of a project's workforce. *)
Definition workforce_role (project_id : string) : string := "cwo:" +:+ norm project_id.

Definition workforce_agent (sha256 : string -> string) (project_id template llm_profile package : string)
    (now : datetime) : AgentRecord :=
  let nul := String (Ascii.ascii_of_nat 0) "" in
  let binding_hash := sha256 (template +:+ nul +:+ llm_profile +:+ nul +:+ package) in
  mk_AgentRecord ("cwo_workforce_" +:+ norm project_id +:+ "_" +:+ String.substring 0 12 binding_hash)
    (workforce_role project_id) "project_workforce" "active" now now.

(** [ON CONFLICT (role) DO UPDATE]: the creation time is kept. *)
Definition bind_project_workforce (sha256 : string -> string) (project_id template llm_profile package : string)
    (now : datetime) : M agents AgentRecord :=
  let a := workforce_agent sha256 project_id template llm_profile package now in
  (fun l =>
     if existsb (fun b => String.eqb (ag_role b) (ag_role a)) l then
       if existsb (fun b => String.eqb (ag_agent_id b) (ag_agent_id a) && negb (String.eqb (ag_role b) (ag_role a))) l
       then (Raise (DatabaseError "duplicate key value violates unique constraint"), l)
       else
         (Ret tt, map (fun b => if String.eqb (ag_role b) (ag_role a)
                                then mk_AgentRecord (ag_agent_id a) (ag_role b) (ag_agent_type a) (ag_status a)
                                       (ag_created_at b) (ag_updated_at a)
                                else b) l)
     else insert_agent a l) ;!
  ret a.

Definition deactivate (now : datetime) (a : AgentRecord) : AgentRecord :=
  mk_AgentRecord (ag_agent_id a) (ag_role a) (ag_agent_type a) "inactive" (ag_created_at a) now.

Definition quarantine_agent (agent_id : string) (now : datetime) : M agents AgentRecord :=
  let normalized_agent_id := strip agent_id in
  if negb (truthy normalized_agent_id) then
    raise (AgentRegistryRepositoryError "agent_registry_quarantine_invalid_id" "agent_id must not be blank for quarantine")
  else
    let! row := gets (List.find (fun a => String.eqb (ag_agent_id a) normalized_agent_id)) in
    match row with
    | None =>
        raise (AgentRegistryRepositoryError "agent_registry_not_found"
                 ("agent not found for quarantine: " +:+ normalized_agent_id))
    | Some a =>
        modify (map (fun b => if String.eqb (ag_agent_id b) normalized_agent_id then deactivate now b else b)) ;!
        ret (deactivate now a)
    end.

(** * The table over any calls *)

Definition registry_ok (l : agents) : Prop := NoDup (map ag_agent_id l) /\ NoDup (map ag_role l).

(** A role that no project's workforce has. *)
Definition institutional_role (role : string) : Prop := String.prefix "cwo:" role = false.

(** What a call may do to a row outside the workforce roles. *)
Definition agent_evolves (a b : AgentRecord) : Prop :=
  ag_role b = ag_role a /\
  (institutional_role (ag_role a) ->
     ag_agent_id b = ag_agent_id a /\ ag_agent_type b = ag_agent_type a /\ ag_created_at b = ag_created_at a /\
     (ag_status b = ag_status a \/ ag_status b = "inactive")).

#[export] Instance agent_evolves_preorder : PreOrder agent_evolves.
Proof.
  split; [intros a; unfold agent_evolves; naive_solver |].
  intros a b c [Hr H1] [Hr' H2]. split; [congruence |]. intros Hi.
  destruct (H1 Hi) as (? & ? & ? & Hs). rewrite Hr in H2. destruct (H2 Hi) as (? & ? & ? & Hs').
  repeat split; try congruence. destruct Hs' as [-> | ->]; auto.
Qed.

Definition agents_step (l l' : agents) : Prop :=
  registry_ok l -> registry_ok l' /\ exists old new, l' = old ++ new /\ Forall2 agent_evolves l old.

#[export] Instance agents_step_preorder : PreOrder agents_step.
Proof.
  split.
  - intros l H. split; [done |]. exists l, []. split; [by rewrite app_nil_r | reflexivity].
  - intros a b c H1 H2 Ha. destruct (H1 Ha) as (Hb & old & new & -> & HF).
    destruct (H2 Hb) as (Hc & old' & new' & -> & HF'). split; [done |].
    apply Forall2_app_inv_l in HF' as (o1 & o2 & Ho1 & Ho2 & ->).
    exists o1, (o2 ++ new'). split; [by rewrite <- app_assoc |]. by transitivity old.
Qed.

Lemma insert_agent_step a :
  tracks agents_step (fun l => if existsb (fun b => String.eqb (ag_role b) (ag_role a)) l then (Ret tt, l) else insert_agent a l).
Proof.
  intros l. destruct (existsb _ l) eqn:Hrole; simpl; [reflexivity |].
  unfold insert_agent. destruct (existsb (fun b => String.eqb (ag_agent_id b) _) l) eqn:Hid; simpl; [reflexivity |].
  intros [Hids Hroles]. split; [| exists l, [a]; split; [done | reflexivity]].
  assert (Hout : forall (f : AgentRecord -> string), existsb (fun b => String.eqb (f b) (f a)) l = false ->
                   NoDup (map f l) -> NoDup (map f (l ++ [a]))).
  { intros f Hf Hnd. rewrite map_app. apply NoDup_app. split; [done |]. split; [| apply NoDup_singleton].
    intros x (b & -> & Hb)%list_elem_of_fmap Hx%list_elem_of_singleton.
    assert (existsb (fun b => String.eqb (f b) (f a)) l = true); [| congruence].
    apply existsb_exists. exists b. split; [by apply list_elem_of_In | by apply String.eqb_eq]. }
  split; by apply Hout.
Qed.

Lemma ensure_step now role : norm role = role -> tracks agents_step (ensure_institutional now role).
Proof.
  intros Hn l. pose proof (insert_agent_step (core_agent role now) l) as Hi.
  unfold ensure_institutional, get_agent_by_role, bind, gets. rewrite Hn.
  destruct (List.find _ l) as [a |] eqn:Hf.
  - destruct (_ && _); reflexivity.
  - simpl in Hi. destruct (existsb (fun b => String.eqb (ag_role b) role) l) eqn:He; [| exact Hi].
    apply existsb_exists in He as (b & Hb & Hr). pose proof (List.find_none _ _ Hf b Hb). simpl in *. congruence.
Qed.

Lemma bootstrap_step now : tracks agents_step (bootstrap_institutional_agents now).
Proof.
  assert (H : forall roles, Forall (fun r => norm r = r) roles -> tracks agents_step (ensure_all now roles)).
  { induction 1; simpl; [tracks_auto |]. apply tracks_bind; [typeclasses eauto | by apply ensure_step | done]. }
  unfold bootstrap_institutional_agents. apply tracks_bind; [typeclasses eauto | | intros _; unfold list_agents; tracks_auto].
  apply H. repeat constructor.
Qed.

(** A rewrite of some rows that keeps the keys apart. *)
Lemma map_step (f : AgentRecord -> AgentRecord) l :
  (registry_ok l -> NoDup (map ag_agent_id (map f l))) ->
  (forall a, In a l -> agent_evolves a (f a)) ->
  agents_step l (map f l).
Proof.
  intros Hids Hf Hok. split.
  - split; [by apply Hids |]. rewrite map_map. destruct Hok as [_ Hroles].
    erewrite map_ext_in; [exact Hroles |]. intros a Ha. apply (Hf a Ha).
  - exists (map f l), []. split; [by rewrite app_nil_r |].
    apply Forall2_fmap_r, Forall_Forall2_diag, Forall_forall. intros a Ha%list_elem_of_In. by apply Hf.
Qed.

Lemma bind_step sha256 project template profile package now :
  tracks agents_step (bind_project_workforce sha256 project template profile package now).
Proof.
  unfold bind_project_workforce. cbv zeta.
  assert (Hrole_a : ag_role (workforce_agent sha256 project template profile package now) = workforce_role project) by done.
  generalize dependent (workforce_agent sha256 project template profile package now). intros a Hrole_a.
  apply tracks_bind; [typeclasses eauto | | intros _; apply tracks_ret; typeclasses eauto].
  intros l. destruct (existsb _ l) eqn:Hrole.
  2:{ pose proof (insert_agent_step a l) as Hi. cbv beta in Hi. by rewrite Hrole in Hi. }
  destruct (existsb (fun b => _ && _) l) eqn:Hid; simpl; [reflexivity |].
  match goal with |- agents_step _ (map ?g _) => set (f := g) end.
  apply (map_step f).
  - intros [Hids Hroles]. assert (Hother : forall b, In b l -> ag_role b <> ag_role a -> ag_agent_id b <> ag_agent_id a).
    { intros b Hb Hr Heq. assert (existsb (fun b => String.eqb (ag_agent_id b) (ag_agent_id a) &&
        negb (String.eqb (ag_role b) (ag_role a))) l = true); [| congruence].
      apply existsb_exists. exists b. split; [done |]. apply String.eqb_neq in Hr. rewrite Hr.
      by apply andb_true_intro, conj; [apply String.eqb_eq |]. }
    clear Hrole Hid. induction l as [| b l IH]; [constructor |]. simpl in *.
    apply NoDup_cons in Hids as [Hb Hids]. apply NoDup_cons in Hroles as [Hbr Hroles].
    apply NoDup_cons. split.
    + intros (c' & Heq & (c & -> & Hc)%list_elem_of_fmap)%list_elem_of_fmap. unfold f in Heq.
      assert (ag_role b <> ag_role c) as Hbc.
      { intros Hr. apply Hbr. rewrite Hr. by apply list_elem_of_fmap_2. }
      apply list_elem_of_In in Hc as Hc'.
      destruct (String.eqb (ag_role b) (ag_role a)) eqn:E1, (String.eqb (ag_role c) (ag_role a)) eqn:E2; simpl in Heq.
      * apply String.eqb_eq in E1, E2. congruence.
      * apply String.eqb_neq in E2. apply (Hother c (or_intror Hc') E2). symmetry. exact Heq.
      * apply String.eqb_neq in E1. apply (Hother b (or_introl eq_refl) E1). exact Heq.
      * apply Hb. rewrite Heq. by apply list_elem_of_fmap_2.
    + apply IH; [done | done |]. intros c Hc. apply Hother. by right.
  - intros b _. unfold f. destruct (String.eqb (ag_role b) (ag_role a)) eqn:E; [| reflexivity].
    apply String.eqb_eq in E. split; [done |]. unfold institutional_role. rewrite E, Hrole_a. unfold workforce_role.
    by rewrite (startswith_refl_app "cwo:" (norm project) : String.prefix _ _ = true).
Qed.

Lemma quarantine_step id now : tracks agents_step (quarantine_agent id now).
Proof.
  unfold quarantine_agent. tracks_auto. intros l. simpl. apply map_step.
  - intros [Hids _]. rewrite map_map. erewrite map_ext; [exact Hids |]. intros b. by destruct (String.eqb _ _).
  - intros b _. destruct (String.eqb _ _); [| reflexivity]. split; [done |]. intros _. simpl. auto.
Qed.

(** Any calls, with whatever arguments and clocks. *)
Inductive registry_call : agents -> agents -> Prop :=
  | call_bootstrap now l : registry_call l (bootstrap_institutional_agents now l).2
  | call_bind sha256 project template profile package now l :
      registry_call l (bind_project_workforce sha256 project template profile package now l).2
  | call_quarantine id now l : registry_call l (quarantine_agent id now l).2.

Lemma registry_calls_step l l' : star registry_call l l' -> agents_step l l'.
Proof.
  induction 1 as [l | a b c Hab _ IH]; [reflexivity |]. transitivity b; [| done].
  destruct Hab; [apply bootstrap_step | apply bind_step | apply quarantine_step].
Qed.

(** A quarantined institutional agent stays quarantined.  From a registry
    with unique identifiers and roles, once an agent whose role is no project's
    workforce was quarantined, then after any bootstraps, workforce bindings and
    quarantines, with any outcomes, it is still registered under its identifier
    and role, inactive; and identifiers and roles are still unique. *)
Theorem quarantine_is_permanent id now l a l1 l2 :
  registry_ok l -> quarantine_agent id now l = (Ret a, l1) -> institutional_role (ag_role a) ->
  star registry_call l1 l2 ->
  registry_ok l2 /\
  exists b, In b l2 /\ ag_agent_id b = strip id /\ ag_role b = ag_role a /\ ag_status b = "inactive".
Proof.
  intros Hok Hrun Hrole Hcalls.
  assert (Hok1 : registry_ok l1).
  { pose proof (quarantine_step id now l Hok) as [H _]. by rewrite Hrun in H. }
  destruct (registry_calls_step _ _ Hcalls Hok1) as (Hok2 & old & new & -> & HF). split; [done |].
  unfold quarantine_agent in Hrun. destruct (negb _); [done |]. unfold bind, gets, modify in Hrun. simpl in Hrun.
  destruct (List.find _ l) as [c |] eqn:Hf; [| done]. simpl in Hrun. injection Hrun as <- <-.
  apply List.find_some in Hf as [Hc He].
  assert (deactivate now c ∈ map (fun b => if String.eqb (ag_agent_id b) (strip id) then deactivate now b else b) l) as Hin.
  { apply list_elem_of_fmap. exists c. rewrite He. split; [done | by apply list_elem_of_In]. }
  apply list_elem_of_lookup in Hin as [i Hi]. destruct (Forall2_lookup_l _ _ _ _ _ HF Hi) as (b & Hb & Hr & Hev).
  exists b. split; [apply in_or_app; left; apply list_elem_of_In; by eapply list_elem_of_lookup_2 |].
  destruct (Hev Hrole) as (Hid & _ & _ & Hs). simpl in *. apply String.eqb_eq in He.
  split; [congruence |]. split; [done |]. by destruct Hs.
Qed.

(** After a bootstrap every institutional role is registered. *)
Lemma bootstrap_complete now l result l' :
  bootstrap_institutional_agents now l = (Ret result, l') ->
  forall role, In role _INSTITUTIONAL_ROLES -> exists a, In a l' /\ ag_role a = role.
Proof.
  unfold bootstrap_institutional_agents, bind. intros Hrun.
  assert (Hall : forall roles l l1, ensure_all now roles l = (Ret tt, l1) -> Forall (fun r => norm r = r) roles ->
            (forall a, In a l -> In a l1) /\ forall role, In role roles -> exists a, In a l1 /\ ag_role a = role).
  { clear. induction roles as [| role roles IH]; intros l l1 H Hn; simpl in H; [by injection H as <- |].
    inversion Hn as [| ? ? Hr Hn']; subst. unfold bind in H.
    destruct (ensure_institutional now role l) as [[[] | x] l2] eqn:He; [| done].
    destruct (IH l2 l1 H Hn') as [Hsub Hroles].
    assert ((forall a, In a l -> In a l2) /\ exists a, In a l2 /\ ag_role a = role) as [Hs (a & Ha & Har)].
    { unfold ensure_institutional, get_agent_by_role, bind, gets in He. rewrite Hr in He.
      destruct (List.find _ l) as [a |] eqn:Hf.
      - apply List.find_some in Hf as [Ha Har]. apply String.eqb_eq in Har.
        destruct (_ && _); [done |]. injection He as <-. eauto.
      - unfold insert_agent in He. destruct (existsb _ l); [done |]. injection He as <-.
        split; [intros b Hb; apply in_or_app; by left |].
        exists (core_agent role now). split; [apply in_or_app; right; by left | done]. }
    split; [auto |]. intros r [<- | Hin]; [eauto | by apply Hroles]. }
  destruct (ensure_all now _INSTITUTIONAL_ROLES l) as [[[] | x] l1] eqn:He; [| done].
  apply Hall in He as [_ He]; [| repeat constructor]. unfold list_agents, gets in Hrun. injection Hrun as _ <-. exact He.
Qed.

(** Binding a project's workforce again makes a quarantined one active. *)
Lemma rebinding_reactivates_workforce :
  let now := mk_datetime 2026 1 1 0 0 0 0 in
  let bind_it := bind_project_workforce (fun s => s) "p1" "t" "m" "s" now in
  exists a l1 l2, bind_it [] = (Ret a, l1) /\ (quarantine_agent (ag_agent_id a) now l1).2 = l2 /\
    map ag_status l2 = ["inactive"] /\ map ag_status (bind_it l2).2 = ["active"].
Proof. eexists _, _, _. split; [reflexivity |]. split; [reflexivity |]. vm_compute. done. Qed.

Lemma quarantine_is_permanent_witness :
  let now := mk_datetime 2026 1 1 0 0 0 0 in
  let l := (bootstrap_institutional_agents now []).2 in
  exists l2, star registry_call (quarantine_agent " ceo_core " now l).2 l2 /\
    exists b, In b l2 /\ ag_agent_id b = strip " ceo_core " /\ ag_status b = "inactive".
Proof.
  intros now l. set (l1 := (quarantine_agent " ceo_core " now l).2).
  exists (bootstrap_institutional_agents now l1).2.
  assert (Hcalls : star registry_call l1 (bootstrap_institutional_agents now l1).2).
  { eapply star_step; [apply call_bootstrap | apply star_refl]. }
  split; [exact Hcalls |].
  destruct (quarantine_is_permanent " ceo_core " now l (deactivate now (core_agent "ceo" now)) l1
    (bootstrap_institutional_agents now l1).2) as [_ (b & Hb & Hid & _ & Hs)];
    [| reflexivity | reflexivity | exact Hcalls | exists b; split; [exact Hb | split; [exact Hid | exact Hs]]].
  split; apply (bool_decide_unpack _); vm_compute; exact I.
Defined.
