(* ===== verification/OfficeFacts.v ===== *)
(** What the agents' calls do to the office: the records they file.

    [filed l rows rows']: the table grew by one new revision per entry of [l],
    in order; nothing else changed. *)

From S2P Require Import Prelude PyStr PyData LlmSchemas PyFloat Task Budget LoopControl Policy Runtime.
From S2P Require Import ProjectModel ProjectRows ProjectRepo Artifacts ArtifactFacts Conversation AgentBase.

(** * Filed records *)

Record filing : Type := mk_filing { fl_project : string; fl_type : string; fl_text : string }.

#[export] Instance filing_eq_dec : EqDecision filing.
Proof. solve_decision. Defined.

(** One more revision. *)
Definition filed_one (f : filing) (rows rows' : artifact_rows) : Prop :=
  let k := (type_count (fl_project f) (fl_type f) rows + 1)%Z in
  exists r, rows !! (fl_project f, fl_type f, k) = None /\
    rows' = <[(fl_project f, fl_type f, k) := r]> rows /\ ad_content (aw_document r) = fl_text f /\
    pt_project_id (ad_pointer (aw_document r)) = fl_project f.

Inductive filed : list filing -> artifact_rows -> artifact_rows -> Prop :=
  | filed_nil rows : filed [] rows rows
  | filed_cons f l a b c : filed_one f a b -> filed l b c -> filed (f :: l) a c.

Lemma records_filed_app l l' a b c : filed l a b -> filed l' b c -> filed (l ++ l') a c.
Proof. induction 1; simpl; eauto using filed. Qed.

Lemma filed_single f a b : filed_one f a b -> filed [f] a b.
Proof. eauto using filed. Qed.

Lemma filed_subseteq l a b : filed l a b -> a ⊆ b.
Proof.
  induction 1 as [| f l a b c (r & Hn & -> & _) _ IH]; [done |].
  etransitivity; [by apply insert_subseteq | exact IH].
Qed.

Definition files_as (p t : string) (f : filing) : bool := String.eqb (fl_project f) p && String.eqb (fl_type f) t.

Lemma filed_count l a b p t :
  filed l a b -> type_count p t b = (type_count p t a + Z.of_nat (length (List.filter (files_as p t) l)))%Z.
Proof.
  induction 1 as [| f l a b c (r & Hn & -> & _) _ IH]; [simpl; lia |].
  rewrite IH, type_count_insert by done. simpl. unfold files_as at 2.
  destruct (decide _) as [[= -> ->] | Hne].
  - rewrite !String.eqb_refl. simpl. lia.
  - destruct (String.eqb (fl_project f) p) eqn:E1, (String.eqb (fl_type f) t) eqn:E2; simpl; try lia.
    apply String.eqb_eq in E1, E2. congruence.
Qed.

(** Every record of the new table is an old one or one that was filed. *)
Lemma records_filed_lookup l a b p t k r :
  filed l a b -> b !! (p, t, k) = Some r ->
  a !! (p, t, k) = Some r \/ (In (mk_filing p t (ad_content (aw_document r))) l /\ pt_project_id (ad_pointer (aw_document r)) = p).
Proof.
  induction 1 as [| f l a b c (x & Hn & -> & Ht & Hp) _ IH]; [by left |]. intros Hr.
  destruct (IH Hr) as [Ha | [Hin Hpid]]; [| right; split; [by right | done]].
  apply lookup_insert_Some in Ha as [[[= <- <- <-] ->] | [_ Ha]]; [| by left].
  right. split; [| done]. left. destruct f; simpl in *. by rewrite Ht.
Qed.

(** A filed record is in the table. *)
Lemma filed_In l a b f :
  filed l a b -> In f l -> exists k r, b !! (fl_project f, fl_type f, k) = Some r /\ ad_content (aw_document r) = fl_text f /\
    pt_project_id (ad_pointer (aw_document r)) = fl_project f.
Proof.
  induction 1 as [| g l a b c (x & Hn & -> & Ht & Hp) Hf IH]; [done |]. intros [-> | Hin]; [| by apply IH].
  eexists _, x. split; [| done]. eapply lookup_weaken; [| by eapply filed_subseteq]. apply lookup_insert_eq.
Qed.

(** ** Documents of a type *)

Lemma rows_of_In (p t : string) (rows : artifact_rows) (d : ProjectArtifactDocument) :
  In d (map aw_document (sorted revision_leb (rows_of p t rows))) <->
  exists (k : Z) (r : ArtifactRow), rows !! (p, t, k) = Some r /\ d = aw_document r.
Proof.
  rewrite in_map_iff. split.
  - intros (r & <- & Hr). apply list_elem_of_In in Hr. rewrite sorted_perm in Hr. unfold rows_of in Hr.
    apply list_elem_of_fmap in Hr as ([[[p' t'] k] r'] & -> & Hr). apply elem_of_map_to_list in Hr.
    apply map_lookup_filter_Some in Hr as [Hr [= -> ->]]. eauto.
  - intros (k & r & Hr & ->). exists r. split; [done |]. apply list_elem_of_In. rewrite sorted_perm.
    apply list_elem_of_fmap. exists ((p, t, k), r). split; [done |]. apply elem_of_map_to_list.
    by apply map_lookup_filter_Some.
Qed.

Lemma rows_by_type_In (t : string) (rows : artifact_rows) (d : ProjectArtifactDocument) :
  In d (map aw_document (sorted by_type_leb
    (map snd (map_to_list (filter (fun kv : artifact_key * ArtifactRow => kv.1.1.2 = t) rows))))) <->
  exists (p : string) (k : Z) (r : ArtifactRow), rows !! (p, t, k) = Some r /\ d = aw_document r.
Proof.
  rewrite in_map_iff. split.
  - intros (r & <- & Hr). apply list_elem_of_In in Hr. rewrite sorted_perm in Hr.
    apply list_elem_of_fmap in Hr as ([[[p' t'] k] r'] & -> & Hr). apply elem_of_map_to_list in Hr.
    apply map_lookup_filter_Some in Hr as [Hr Ht]. simpl in Ht. subst. eauto.
  - intros (p & k & r & Hr & ->). exists r. split; [done |]. apply list_elem_of_In. rewrite sorted_perm.
    apply list_elem_of_fmap. exists ((p, t, k), r). split; [done |]. apply elem_of_map_to_list.
    by apply map_lookup_filter_Some.
Qed.

(** * The office *)

Section office.
Context {E : Type} `{!Oracle E}.
#[local] Abbreviation O := (office E).

Definition rows_in (s : O) : artifact_rows := as_rows (of_artifacts s).

(** Everything but the outside world is kept. *)
Record same_office (s s' : O) : Prop := {
  so_tasks : of_tasks s' = of_tasks s;
  so_projects : of_projects s' = of_projects s;
  so_rows : rows_in s' = rows_in s;
  so_agents : of_agents s' = of_agents s
}.

#[export] Instance same_office_preorder : PreOrder same_office.
Proof. split; [by intros s | intros a b c [] []; split; congruence]. Qed.

(** Records [l] were filed, and nothing else happened. *)
Record filed_in (l : list filing) (s s' : O) : Prop := {
  fi_tasks : of_tasks s' = of_tasks s;
  fi_projects : of_projects s' = of_projects s;
  fi_agents : of_agents s' = of_agents s;
  fi_rows : filed l (rows_in s) (rows_in s');
  fi_ok : table_ok (rows_in s')
}.

Lemma filed_in_nil s s' : table_ok (rows_in s) -> same_office s s' -> filed_in [] s s'.
Proof. intros Hok [Ht Hp Hr Ha]. split; rewrite ?Hr; try done. constructor. Qed.

Lemma filed_in_app l l' a b c : filed_in l a b -> filed_in l' b c -> filed_in (l ++ l') a c.
Proof. intros [] []. split; try congruence; eauto using records_filed_app. Qed.

Lemma ext_office {A} (m : M E A) : tracks same_office (of_on_ext m).
Proof. intros s. unfold of_on_ext, zoom. by destruct (m (of_ext s)). Qed.

Lemma ext_office_post {A} (m : M E A) s : post (of_on_ext m) s (fun _ => same_office s) (fun _ => same_office s).
Proof. pose proof (ext_office m s) as H. unfold post. by destruct (of_on_ext m s) as [[]]. Qed.

(** A query of the artifact repository. *)
Definition pure_query {S A} (m : M S A) : Prop := forall s, (m s).2 = s.

Lemma artifact_query {A} (m : M artifact_store A) : pure_query m -> tracks same_office (of_on_artifacts m).
Proof.
  intros H s. unfold of_on_artifacts, zoom. specialize (H (of_artifacts s)).
  destruct (m (of_artifacts s)) as [o t]; simpl in *. by subst.
Qed.

Lemma project_query {A} (m : M projects A) : pure_query m -> tracks same_office (of_on_projects m).
Proof.
  intros H s. unfold of_on_projects, zoom. specialize (H (of_projects s)).
  destruct (m (of_projects s)) as [o t]; simpl in *. by subst.
Qed.

Lemma project_read_pure p : pure_query (get_project p).
Proof.
  intros s. unfold get_project, bind, gets, of_outcome, ret. cbn. destruct (s !! p); [| done].
  by destruct (_project_from_row _).
Qed.

Lemma quiet_try {A} (m : M O A) h :
  tracks same_office m -> (forall e k, h e = Some k -> tracks same_office k) -> tracks same_office (try m h).
Proof. apply tracks_try, _. Qed.

(** Queries of documents: they change nothing and give the rows' documents. *)
Definition row_of (s : O) (p t : string) (d : ProjectArtifactDocument) : Prop :=
  exists (k : Z) (r : ArtifactRow), rows_in s !! (p, t, k) = Some r /\ d = aw_document r.

Lemma documents_post p t (s : O) :
  _validate_artifact_type t = Ret t ->
  post (of_on_artifacts (list_artifact_documents p t)) s
    (fun l s' => s' = s /\ forall d, In d l <-> row_of s (strip p) t d) (fun _ s' => s' = s).
Proof.
  intros Ht. unfold of_on_artifacts, zoom, list_artifact_documents, post, bind, of_outcome. rewrite Ht.
  unfold _validate_project_id. cbv zeta. destruct (project_id_pattern (strip p)); [| by destruct s].
  unfold gets. split; [by destruct s |]. intros d. apply rows_of_In.
Qed.

Lemma documents_by_type_post t (s : O) :
  _validate_artifact_type t = Ret t ->
  post (of_on_artifacts (list_artifact_documents_by_type t)) s
    (fun l s' => s' = s /\ forall d, In d l <-> exists p, row_of s p t d) (fun _ _ => False).
Proof.
  intros Ht. unfold of_on_artifacts, zoom, list_artifact_documents_by_type, post, bind, of_outcome. rewrite Ht.
  unfold gets. split; [by destruct s |]. intros d. apply rows_by_type_In.
Qed.

Lemma latest_row_Some (p t : string) (rows : artifact_rows) (d : ProjectArtifactDocument) :
  aw_document <$> latest_row p t rows = Some d -> exists (k : Z) (r : ArtifactRow), rows !! (p, t, k) = Some r /\ d = aw_document r.
Proof.
  unfold latest_row. intros H. destruct (head _) as [r |] eqn:Eh; [| done]. injection H as <-.
  apply sorted_head_In, list_elem_of_In in Eh. unfold rows_of in Eh.
  apply list_elem_of_fmap in Eh as ([[[p' t'] k] r'] & -> & Hr). apply elem_of_map_to_list in Hr.
  apply map_lookup_filter_Some in Hr as [Hr [= -> ->]]. eauto.
Qed.

Lemma read_latest_post p t (s : O) :
  _validate_artifact_type t = Ret t ->
  post (of_on_artifacts (read_latest_artifact p t)) s
    (fun o s' => s' = s /\ forall d, o = Some d -> row_of s (strip p) t d) (fun _ s' => s' = s).
Proof.
  intros Ht. unfold of_on_artifacts, zoom, read_latest_artifact, post, bind, of_outcome. rewrite Ht.
  unfold _validate_project_id. cbv zeta. destruct (project_id_pattern (strip p)); [| by destruct s].
  unfold gets. split; [by destruct s |]. intros d. apply latest_row_Some.
Qed.

(** One write: a record is filed after the authorization, or nothing is. *)
Lemma write_artifact_post cfg pid atype text context s :
  table_ok (rows_in s) ->
  post (write_artifact cfg pid atype text context) s
    (fun ptr s' => filed_in [mk_filing (strip pid) (norm atype) text] s s' /\
       project_id_pattern (strip pid) = true /\ _assert_write_authorization (norm atype) context = Ret tt)
    (fun _ s' => same_office s s').
Proof.
  intros Hok. unfold write_artifact, of_uuid, of_now.
  apply post_bind. eapply post_mono; [apply ext_office_post | | done]. intros u s1 H1.
  apply post_bind. eapply post_mono; [apply ext_office_post | | intros x s2 H2; by transitivity s1]. intros now s2 H2.
  assert (H12 : same_office s s2) by (by transitivity s1). clear H1 H2 s1. destruct H12 as [Ht Hp Hr Ha].
  unfold of_on_artifacts, zoom, post.
  pose proof (write_cases (ac_system_root cfg) (ac_resolve_path cfg) (ac_write_fault cfg) (ac_sha256 cfg)
    (ac_policy cfg) (ac_file_store cfg) u now pid atype text (Some context) (of_artifacts s2)) as Hw.
  unfold rows_in in *. rewrite Hr in Hw. specialize (Hw Hok).
  destruct (write_project_artifact _ _ _ _ _ _ u now pid atype text (Some context) (of_artifacts s2)) as [[ptr | x] a];
    [| split; unfold rows_in; simpl; congruence].
  destruct Hw as (p & t & revision & uri & Hplan & Hptr & Hn & Hrows & Hok' & _).
  unfold plan_ok in Hplan. destruct Hplan as (-> & Hpat & -> & _ & (c & cap & [= <-] & Hauth & _) & _ & Hrev).
  split; [| done]. split; try done. unfold rows_in. simpl. rewrite Hrows. apply filed_single.
  exists (mk_ArtifactRow u (stored_document (ac_sha256 cfg) now (strip pid) (norm atype) text revision uri)).
  simpl. by rewrite <- Hrev.
Qed.

(** ** Computations that file given records

    [files p ts m]: run from any sound table, [m] files records of the types
    [ts], in order, for the project [p], and touches nothing else; if it raises
    it filed a prefix of them. *)

Definition scoped (p : option string) (l : list filing) : Prop := forall f, In f l -> p = Some (fl_project f).

Lemma scoped_app p l l' : scoped p l -> scoped p l' -> scoped p (l ++ l').
Proof. intros H H' f [?|?]%in_app_iff; auto. Qed.

Definition files {A} (p : option string) (ts : list string) (m : M O A) : Prop :=
  forall s, table_ok (rows_in s) ->
  post m s
    (fun _ s' => exists l, map fl_type l = ts /\ scoped p l /\ filed_in l s s')
    (fun _ s' => exists l, map fl_type l `prefix_of` ts /\ scoped p l /\ filed_in l s s').

Lemma files_ret {A} p (a : A) : files p [] (ret a).
Proof. intros s Hok. exists []. split; [done |]. split; [by intros f [] |]. by apply filed_in_nil. Qed.

Lemma files_raise {A} p ts e : files p ts (@raise O A e).
Proof.
  intros s Hok. exists []. split; [apply prefix_nil |]. split; [by intros f [] |]. by apply filed_in_nil.
Qed.

Lemma files_bind {A B} p ts ts' (m : M O A) (k : A -> M O B) :
  files p ts m -> (forall a, files p ts' (k a)) -> files p (ts ++ ts') (bind m k).
Proof.
  intros Hm Hk s Hok. apply post_bind. eapply post_mono; [by apply Hm | |].
  - intros a s1 (l & <- & Hl & H). eapply post_mono; [apply Hk, H | |].
    + intros b s2 (l' & <- & Hl' & H'). exists (l ++ l'). rewrite map_app.
      split; [done |]. split; [by apply scoped_app | by eapply filed_in_app].
    + intros e s2 (l' & Hp & Hl' & H'). exists (l ++ l'). rewrite map_app.
      split; [by apply prefix_app |]. split; [by apply scoped_app | by eapply filed_in_app].
  - intros e s1 (l & Hp & Hl & H). exists l. split; [by apply prefix_app_r |]. done.
Qed.

Lemma files_last {A B} p ts (m : M O A) (k : A -> M O B) :
  files p ts m -> (forall a, files p [] (k a)) -> files p ts (bind m k).
Proof. intros Hm Hk. rewrite <- (app_nil_r ts). by apply files_bind. Qed.

(** A computation that leaves the office alone. *)
Lemma files_quiet {A} p (m : M O A) : tracks same_office m -> files p [] m.
Proof.
  intros H s Hok. specialize (H s). unfold post. destruct (m s) as [[a | e] s']; simpl in H; exists [];
    (split; [done |]; split; [by intros f [] | by apply filed_in_nil]).
Qed.

Lemma files_quiet_bind {A B} p ts (m : M O A) (k : A -> M O B) :
  tracks same_office m -> (forall a, files p ts (k a)) -> files p ts (bind m k).
Proof. intros H Hk. change ts with ([] ++ ts). apply files_bind; [by apply files_quiet | done]. Qed.

Lemma files_write cfg p t text context :
  strip p = p -> norm t = t -> files (Some p) [t] (write_artifact cfg p t text context).
Proof.
  intros Hp Ht s Hok. eapply post_mono; [by apply write_artifact_post | |].
  - intros ptr s' (H & _). rewrite Hp, Ht in H. exists [mk_filing p t text].
    split; [done |]. split; [| done]. by intros f [<- | []].
  - intros e s' H. exists []. split; [apply prefix_nil |]. split; [by intros f [] |]. by apply filed_in_nil.
Qed.
End office.

(** * Free text *)

Section free_text.
Context {E : Type} `{!Oracle E} `{!ConversationStore E} `{!MetricRecorder E}.
Context (gateway : option (LlmGatewayRequest -> M E LlmGatewayResponse)) (has_store has_metrics : bool).
Context (default_routing_profile : string).

Lemma try_returns {S A} (m : M S A) (a : A) s :
  exists b s', try m (fun _ => Some (ret a)) s = (Ret b, s').
Proof. unfold try. destruct (m s) as [[b | e] s']; by do 2 eexists. Qed.

(** An advisory request is always answered.  Whatever the language model
    and the conversation store do, failures included, an agent's free-text
    handler returns a text: its own fallback, or the stripped text of a response
    the gateway served to this agent's request with the owner's message at the end
    of the prompt. *)
Theorem free_text_always_answers (profile : advisory_profile) (request : FreeTextAdvisoryRequest) (e : E) :
  exists text e', handle_free_text gateway has_store has_metrics default_routing_profile profile request e =
      (Ret (mk_FreeTextAdvisoryResponse text), e') /\
    (text = ap_fallback profile \/
     exists complete request_id trace_id turns response e1,
       gateway = Some complete /\
       (complete (free_text_request default_routing_profile profile request_id trace_id
          (free_text_prompt (ap_system_prompt profile) turns (ft_text request))) e1).1 = Ret response /\
       served_text response = Some text).
Proof.
  unfold handle_free_text.
  set (history := if has_store then _ else _). assert (exists turns e1, history e = (Ret turns, e1)) as (turns & e1 & Hh).
  { subst history. destruct has_store; [apply try_returns | by do 2 eexists]. }
  unfold bind at 1. rewrite Hh. clear Hh history. cbv zeta.
  set (answer := match gateway with Some _ => _ | None => _ end).
  assert (exists text e2, answer e1 = (Ret text, e2) /\ (text = ap_fallback profile \/
     exists complete request_id trace_id response e3, gateway = Some complete /\
       (complete (free_text_request default_routing_profile profile request_id trace_id
          (free_text_prompt (ap_system_prompt profile) turns (ft_text request))) e3).1 = Ret response /\
       served_text response = Some text)) as (text & e2 & Ha & Htext).
  { subst answer. destruct gateway as [complete |]; [| do 2 eexists; split; [done | by left]].
    unfold try, bind, new_id. destruct (uuid4 e1) as [rid ea]. destruct (uuid4 ea) as [tid eb].
    destruct (complete _ eb) as [[response | x] ec] eqn:Ec; simpl; do 2 eexists; (split; [done |]); [| by left].
    destruct (served_text response) as [t |] eqn:Et; simpl; [right | by left].
    exists complete, rid, tid, response, eb. by rewrite Ec. }
  clearbody answer. unfold bind at 1. rewrite Ha.
  set (count := match gateway with Some _ => _ | None => _ end). assert (exists e3, count e2 = (Ret tt, e3)) as (e3 & Hc).
  { subst count. destruct gateway; [| by eexists]. destruct has_metrics; by eexists. }
  unfold bind at 1. rewrite Hc. set (store := if has_store then _ else _). assert (exists u e4, store e3 = (Ret u, e4)) as (u & e4 & Hs).
  { subst store. destruct has_store; [apply try_returns | by do 2 eexists]. }
  unfold bind. rewrite Hs. do 2 eexists. split; [done |]. destruct Htext as [-> | (c & rid & tid & r & ex & H)]; [by left |].
  right. by exists c, rid, tid, turns, r, ex.
Qed.
End free_text.

(** A blank answer replaces the fallback by an empty text. *)
Lemma blank_answer_served response :
  lr_decision response = "served" -> lr_generated_text response = Some "  " -> served_text response = Some "".
Proof. intros H1 H2. unfold served_text. by rewrite H1, H2. Qed.

(** ** Normalized texts *)

Lemma normalize_optional_clean x s : _normalize_optional_text x = Some s -> strip s = s /\ truthy s = true.
Proof.
  destruct x as [x |]; simpl; [| done]. unfold or_none. destruct (truthy (strip x)) eqn:E; [| done].
  intros [= <-]. by rewrite strip_idem.
Qed.

Lemma normalize_optional_idem x : _normalize_optional_text (_normalize_optional_text x) = _normalize_optional_text x.
Proof.
  destruct (_normalize_optional_text x) as [s |] eqn:E; [| done].
  apply normalize_optional_clean in E as [E1 E2]. simpl. unfold or_none. by rewrite E1, E2.
Qed.
