(* ===== verification/Oversight.v ===== *)
(** The oversight agents: auditor and administrator.

    Models [agents/auditor/] (enforcement service and agent) and
    [agents/administrator/] (document policy, retention and agent), over the
    task table, the artifact repository, the agent registry and the audit
    writer. *)

From S2P Require Import Prelude PyStr PyData LlmSchemas PyFloat Task Budget LoopControl Policy Runtime.
From S2P Require Import ProjectModel ProjectRows ProjectRepo Artifacts Conversation AgentBase AgentRegistry.

(** * Auditor *)

Record AuditorRequest : Type := mk_AuditorRequest {
  ur_event_type : string;
  ur_task_id : option string;
  ur_project_id : option string;
  ur_severity : string;
  ur_rule_ids : list string;
  ur_rationale : string;
  ur_source_agent_role : option string;
  ur_trace_id : string
}.

Record AuditorResponse : Type := mk_AuditorResponse {
  us_action_taken : option string;
  us_finding_id : option string;
  us_advisory_text : string;
  us_trace_id : string
}.

Definition _AUDITOR_WRITE_CONTEXT : ProjectArtifactWriteContext := mk_ProjectArtifactWriteContext "auditor" "active" [].

Definition _normalize_severity (value : string) : string :=
  if mem (norm value) ["low"; "medium"; "high"; "critical"] then norm value else "high".

Definition jlist (l : list string) : json := JArr (map JStr l).

Section auditor.
Context {E : Type} `{!Oracle E} `{!AuditWriter E}.
Context (cfg : artifact_config) (codec : json_codec).
#[local] Abbreviation O := (office E).

Definition _utc_now_iso : M O string := let! now := of_now in ret (isoformat now).

(** [_require_project_scope] of the enforcement service. *)
Definition _require_project_scope (project_id : option string) (trace_id operation : string) : outcome string :=
  match _normalize_optional_text project_id with
  | Some p => Ret p
  | None => Raise (AuditorFindingError (operation +:+ " requires project_id for durable auditor evidence (trace_id=" +:+
                                        trace_id +:+ ")"))
  end.

(** A record of the auditor: its fields, stamped with the time, sorted and written. *)
Definition auditor_artifact (project_id artifact_type : string) (payload : list (string * json))
    : M O ProjectArtifactPointer :=
  let! created_at := _utc_now_iso in
  write_artifact cfg project_id artifact_type (dumps_sorted codec (JObj (payload ++ [("created_at", JStr created_at)])))
    _AUDITOR_WRITE_CONTEXT.

(** The fields of the records of [pause_task]. *)
Definition pause_payload (event_type task_id project_id severity : string) (rule_ids : list string)
    (reason trace_id next_owner : string) : list (string * json) :=
  [("event_type", JStr event_type); ("author_role", JStr "auditor"); ("task_id", JStr task_id);
   ("project_id", JStr project_id); ("severity", JStr severity); ("rule_ids", jlist rule_ids);
   ("rationale", JStr reason); ("trace_id", JStr trace_id); ("incident_type", JStr "task_pause");
   ("current_owner_role", JStr "auditor"); ("next_owner_role", JStr next_owner);
   ("path_reference", JStr ("auditor->" +:+ next_owner))].

Definition pause_event (task_id project_id severity : string) (rule_ids : list string) (reason trace_id : string)
    : audit_event :=
  {| ae_event_type := "auditor_enforcement"; ae_outcome := "blocked"; ae_event_trace_id := trace_id;
     ae_event_request_id := None; ae_event_task_id := Some task_id; ae_event_principal_id := Some "auditor";
     ae_event_principal_role := Some "auditor"; ae_source := "auditor"; ae_reason_code := Some "auditor_pause";
     ae_message := reason; ae_policy_version := Some "v2"; ae_policy_hash := Some "auditor-v1"; ae_rule_ids := rule_ids;
     ae_payload := JObj [("project_id", JStr project_id); ("severity", JStr severity); ("incident_type", JStr "task_pause");
                         ("current_owner_role", JStr "auditor"); ("next_owner_role", JStr "owner");
                         ("path_reference", JStr "auditor->owner")];
     ae_attributes := JObj [("auditor.project_id", JStr project_id); ("auditor.severity", JStr severity)] |}.

Definition pause_task (task_id : string) (project_id : option string) (reason severity : string)
    (rule_ids : list string) (trace_id : string) : M O string :=
  let! blocked := of_on_tasks (mark_blocked_dispatch task_id (Some "auditor_enforcement") reason "auditor"
                                 "auditor_enforcement") in
  match blocked with
  | None => raise (AuditorFindingError ("auditor pause failed: task not found: " +:+ task_id))
  | Some _ =>
      let! project := of_outcome (_require_project_scope project_id trace_id "pause_task") in
      let severity := _normalize_severity severity in
      let! finding := auditor_artifact project "auditor_enforcement"
        (pause_payload "auditor_enforcement" task_id project severity rule_ids reason trace_id "owner") in
      of_on_ext (write_event (pause_event task_id project severity rule_ids reason trace_id)) ;!
      let! _ := auditor_artifact project "auditor_ceo_notification"
        (pause_payload "auditor_ceo_notification" task_id project severity rule_ids reason trace_id "ceo") in
      (if String.eqb severity "critical" then
         let! _ := auditor_artifact project "auditor_owner_alert"
           (pause_payload "auditor_owner_alert" task_id project "critical" rule_ids reason trace_id "owner") in ret tt
       else ret tt) ;!
      ret (pt_storage_uri finding)
  end.

Definition escalate_to_owner (project_id : option string) (rule_ids : list string)
    (rationale severity trace_id : string) : M O string :=
  let! project := of_outcome (_require_project_scope project_id trace_id "escalate_to_owner") in
  let! pointer := auditor_artifact project "auditor_owner_escalation"
    [("event_type", JStr "auditor_owner_escalation"); ("author_role", JStr "auditor"); ("project_id", JStr project);
     ("severity", JStr (_normalize_severity severity)); ("rule_ids", jlist rule_ids); ("rationale", JStr rationale);
     ("trace_id", JStr trace_id); ("incident_type", JStr "governance_escalation");
     ("current_owner_role", JStr "auditor"); ("next_owner_role", JStr "owner");
     ("path_reference", JStr "auditor->owner")] in
  ret (pt_storage_uri pointer).

Definition finding_payload (project finding_type : string) (rule_ids : list string) (rationale trace_id : string)
    (task_id source_agent_role severity : option string) : list (string * json) :=
  [("event_type", JStr "auditor_finding"); ("author_role", JStr "auditor"); ("project_id", JStr project);
   ("finding_type", JStr finding_type); ("severity", JStr (_normalize_severity (opt_or severity "medium")));
   ("task_id", opt_json task_id); ("source_agent_role", opt_json (_normalize_optional_text source_agent_role));
   ("rule_ids", jlist rule_ids); ("rationale", JStr rationale); ("trace_id", JStr trace_id)].

Definition record_finding (project_id : option string) (finding_type : string) (rule_ids : list string)
    (rationale trace_id : string) (task_id source_agent_role severity : option string) : M O string :=
  let! project := of_outcome (_require_project_scope project_id trace_id "record_finding") in
  let! pointer := auditor_artifact project "auditor_finding"
    (finding_payload project finding_type rule_ids rationale trace_id task_id source_agent_role severity) in
  ret (pt_storage_uri pointer).

(** ** The agent *)

(** [_write_notification_artifact] of the agent, whose record has no time. *)
Definition _write_notification_artifact (request : AuditorRequest) (incident_type : string)
    (more : list (string * json)) : M O unit :=
  match _normalize_optional_text (ur_project_id request) with
  | None => raise (ValueError ("auditor notification requires project_id for durable scope (trace_id=" +:+
                               ur_trace_id request +:+ ")"))
  | Some project =>
      let! _ := write_artifact cfg project "auditor_ceo_notification"
        (dumps_sorted codec (JObj (
          [("event_type", JStr "auditor_ceo_notification"); ("author_role", JStr "auditor");
           ("task_id", opt_json (ur_task_id request)); ("project_id", JStr project);
           ("severity", JStr (ur_severity request)); ("rule_ids", jlist (ur_rule_ids request));
           ("rationale", JStr (ur_rationale request)); ("trace_id", JStr (ur_trace_id request));
           ("incident_type", JStr incident_type); ("current_owner_role", JStr "auditor");
           ("next_owner_role", JStr "ceo"); ("path_reference", JStr "auditor->ceo")] ++ more)))
        _AUDITOR_WRITE_CONTEXT in
      ret tt
  end.

(** The finding of a request, and its escalation. *)
Definition finding_of (request : AuditorRequest) (finding_type rationale : string) : M O string :=
  record_finding (ur_project_id request) finding_type (ur_rule_ids request) rationale (ur_trace_id request)
    (ur_task_id request) (ur_source_agent_role request) (Some (ur_severity request)).

Definition escalation_of (request : AuditorRequest) : M O string :=
  escalate_to_owner (ur_project_id request) (ur_rule_ids request) (ur_rationale request) (ur_severity request)
    (ur_trace_id request).

Definition respond (request : AuditorRequest) (action : string) (finding : option string) (text : string)
    : AuditorResponse :=
  mk_AuditorResponse (Some action) finding text (ur_trace_id request).

Definition _handle_budget_breach (request : AuditorRequest) : M O AuditorResponse :=
  match ur_task_id request with
  | Some task_id =>
      let! finding := pause_task task_id (ur_project_id request) (ur_rationale request) (ur_severity request)
                        (ur_rule_ids request) (ur_trace_id request) in
      let! _ := escalation_of request in
      ret (respond request "task_paused" (Some finding)
        "Oversight summary: hard budget breach recorded, task paused, and owner escalation issued.")
  | None =>
      let! _ := escalation_of request in
      let! finding := finding_of request "budget_breach" (ur_rationale request) in
      ret (respond request "owner_escalated" (Some finding)
        "Oversight summary: hard budget breach recorded and owner escalation issued.")
  end.

Definition _handle_governance_violation (request : AuditorRequest) : M O AuditorResponse :=
  let! finding := finding_of request "governance_violation" (ur_rationale request) in
  let! _ := escalation_of request in
  (if mem (ur_severity request) ["high"; "critical"]
   then _write_notification_artifact request "governance_violation" [] else ret tt) ;!
  ret (respond request "owner_escalated" (Some finding)
    "Oversight summary: governance violation recorded and owner escalation issued.").

(** The comparisons of [_finding_already_exists]. *)
Definition matching_finding (project_id : option string) (task_id role : string) (d : ProjectArtifactDocument) : bool :=
  (match project_id with Some p => String.eqb (pt_project_id (ad_pointer d)) p | None => true end) &&
  (let payload := _load_record_payload codec (ad_content d) in
   field_is payload "task_id" task_id && field_is payload "source_agent_role" role &&
   field_is payload "finding_type" "behavioral_violation").

Definition _finding_already_exists (project_id task_id source_agent_role : option string) : M O bool :=
  match task_id, source_agent_role with
  | Some t, Some role =>
      let! documents := of_on_artifacts (list_artifact_documents_by_type "auditor_finding") in
      ret (existsb (matching_finding project_id t role) documents)
  | _, _ => ret false
  end.

Definition _handle_behavioral_violation (request : AuditorRequest) : M O AuditorResponse :=
  let! known := _finding_already_exists (ur_project_id request) (ur_task_id request) (ur_source_agent_role request) in
  if known : bool then
    ret (respond request "no_action" None
      "Oversight summary: matching behavioral finding already exists without new evidence; duplicate escalation suppressed.")
  else
    let! finding := finding_of request "behavioral_violation" (ur_rationale request) in
    let! _ := escalation_of request in
    _write_notification_artifact request "behavioral_violation"
      [("source_agent_role", opt_json (ur_source_agent_role request))] ;!
    ret (respond request "owner_escalated" (Some finding)
      "Oversight summary: behavioral violation recorded, bypass routing applied, and owner escalation issued.").

Definition _handle_document_violation (request : AuditorRequest) : M O AuditorResponse :=
  let! finding := finding_of request "document_violation" (ur_rationale request) in
  let! _ := escalation_of request in
  ret (respond request "owner_escalated" (Some finding)
    "Oversight summary: document-policy violation recorded and owner escalation issued.").

Definition _handle_query (request : AuditorRequest) : AuditorResponse :=
  let rules := join ", " (ur_rule_ids request) in
  respond request "no_action" None
    ("Oversight summary: compliance query reviewed without new writes. Severity=" +:+ ur_severity request +:+
     "; rules=" +:+ (if truthy rules then rules else "none") +:+ ".").

Definition _normalize_auditor_request (request : AuditorRequest) : M O AuditorRequest :=
  let! trace_id := match _normalize_optional_text (Some (ur_trace_id request)) with
                   | Some t => ret t
                   | None => of_uuid
                   end in
  let rationale := strip (ur_rationale request) in
  ret (mk_AuditorRequest (norm (ur_event_type request)) (_normalize_optional_text (ur_task_id request))
         (_normalize_optional_text (ur_project_id request)) (_normalize_severity (ur_severity request))
         (sorted_set (map strip (List.filter truthy (ur_rule_ids request))))
         (if truthy rationale then rationale else "No rationale provided.")
         (_normalize_optional_text (ur_source_agent_role request)) trace_id).

(** [handle] of a normalized request. *)
Definition dispatch_event (request : AuditorRequest) : M O AuditorResponse :=
  let event_type := ur_event_type request in
  if String.eqb event_type "budget_breach" then _handle_budget_breach request
  else if String.eqb event_type "governance_violation" then _handle_governance_violation request
  else if String.eqb event_type "behavioral_violation" then _handle_behavioral_violation request
  else if String.eqb event_type "document_violation" then _handle_document_violation request
  else if String.eqb event_type "query" then ret (_handle_query request)
  else
    let named := if truthy event_type then event_type else "unspecified" in
    let! finding := finding_of request ("unknown_event_type:" +:+ named)
      (strip ("Unsupported auditor event type received: " +:+ named +:+ ". " +:+ ur_rationale request)) in
    ret (respond request "finding_recorded" (Some finding)
      ("Oversight finding recorded for an unsupported event type. Observed event_type=" +:+ named +:+ ".")).

Definition auditor_handle (request : AuditorRequest) : M O AuditorResponse :=
  let! normalized := _normalize_auditor_request request in dispatch_event normalized.

Definition auditor_profile (system_prompt : string) : advisory_profile :=
  mk_advisory_profile
    (mk_llm_profile "auditor" (absolute_budget 256) (mk_LlmPolicyContext "v2" "auditor-advisory-v1" ["GOV-001"; "AUD-001"]))
    system_prompt
    ("I'm the Auditor agent. I handle governance oversight, compliance monitoring, and escalation records. " +:+
     "Use `/oq ask auditor <topic>` to direct a query to me.")
    "auditor_response".
End auditor.

(** * Administrator *)

Record AdministratorRequest : Type := mk_AdministratorRequest {
  mq_action : string;
  mq_project_id : option string;
  mq_agent_id : option string;
  mq_artifact_type : option string;
  mq_reason : string;
  mq_severity : string;
  mq_rule_ids : list string;
  mq_trace_id : string
}.

Record AdministratorResponse : Type := mk_AdministratorResponse {
  ms_action_taken : string;
  ms_audit_record_id : option string;
  ms_oversight_text : string;
  ms_trace_id : string
}.

Record CapCheckResult : Type := mk_CapCheckResult {
  cc_allowed : bool;
  cc_denial_code : option string;
  cc_denial_reason : option string
}.

Record HashIntegrityResult : Type := mk_HashIntegrityResult {
  hi_integrity_ok : bool;
  hi_denial_reason : option string
}.

Definition _ADMINISTRATOR_WRITE_CONTEXT : ProjectArtifactWriteContext :=
  mk_ProjectArtifactWriteContext "administrator" "active" [].

Section administrator.
Context {E : Type} `{!Oracle E} `{!AuditWriter E}.
Context (cfg : artifact_config) (codec : json_codec) (read_fault : string -> option string).
#[local] Abbreviation O := (office E).

(** An event of the administrator. *)
Definition administrator_event (event_type outcome trace_id reason_code message : string) (rule_ids : list string)
    (payload : list (string * json)) : audit_event :=
  {| ae_event_type := event_type; ae_outcome := outcome; ae_event_trace_id := trace_id;
     ae_event_request_id := None; ae_event_task_id := None; ae_event_principal_id := Some "administrator";
     ae_event_principal_role := Some "administrator"; ae_source := "administrator"; ae_reason_code := Some reason_code;
     ae_message := message; ae_policy_version := Some "v2"; ae_policy_hash := Some "administrator-v1";
     ae_rule_ids := rule_ids; ae_payload := JObj payload; ae_attributes := JNull |}.

(** [trace_id or self._trace_id_factory()]. *)
Definition effective_trace_id (trace_id : string) : M O string := if truthy trace_id then ret trace_id else of_uuid.

(** ** Document policy *)

Definition check_artifact_cap (project_id artifact_type : string) : M O CapCheckResult :=
  let project := strip project_id in
  let type := norm artifact_type in
  let policy := ac_policy cfg in
  try
    (let! per_type_cap := of_outcome (cap_for_type policy type) in
     let! pointers := of_on_artifacts (list_pointers project type) in
     let current_count := Z.of_nat (length pointers) in
     if (per_type_cap <=? current_count)%Z then
       ret (mk_CapCheckResult false (Some "artifact_type_cap_exceeded")
              (Some ("artifact_type active-document cap exceeded: " +:+ type +:+ " (" +:+ str_int current_count +:+
                     "/" +:+ str_int per_type_cap +:+ ")")))
     else if negb (mem type _GOVERNANCE_EVENT_ARTIFACT_TYPES) then
       let! rows := of_on_artifacts (gets as_rows) in
       let total := total_count project rows in
       if (total_active_document_cap policy <=? total)%Z then
         ret (mk_CapCheckResult false (Some "artifact_project_document_cap_exceeded")
                (Some ("project total active-document cap exceeded: (" +:+ str_int total +:+ "/" +:+
                       str_int (total_active_document_cap policy) +:+ ")")))
       else ret (mk_CapCheckResult true None None)
     else ret (mk_CapCheckResult true None None))
    (fun e => Some (ret (match e with
       | ProjectArtifactRepositoryError code message => mk_CapCheckResult false (Some code) (Some message)
       | e => mk_CapCheckResult false (Some "artifact_cap_check_failed") (Some (exn_str e))
       end))).

Definition check_role_permission (actor_role artifact_type project_status : string) : bool :=
  let role := norm actor_role in
  let type := norm artifact_type in
  if negb (mem (norm project_status) ["proposed"; "approved"; "active"; "paused"]) then false
  else if String.eqb role "project_manager" && mem type ["project_charter"; "workforce_plan"] then false
  else if mem role ["owner"; "ceo"; "cwo"; "auditor"; "administrator"] then true
  else String.eqb role "project_manager".

Definition hash_failure (trace_id reason_code message : string) (payload : list (string * json)) (reason : string)
    : M O HashIntegrityResult :=
  of_on_ext (write_event (administrator_event "hash_integrity_failure" "denied" trace_id reason_code message
    ["STR-007"; "STR-010"] payload)) ;!
  ret (mk_HashIntegrityResult false (Some reason)).

Definition check_hash_integrity (stored_hash provided_hash : option string) (trace_id : string)
    : M O HashIntegrityResult :=
  let! trace := effective_trace_id trace_id in
  match provided_hash, stored_hash with
  | Some provided, Some stored =>
      if negb (String.eqb provided stored) then
        hash_failure trace "hash_integrity_failure" "content_hash mismatch"
          [("stored_hash", JStr stored); ("provided_hash", JStr provided)]
          ("content_hash mismatch: stored=" +:+ py_repr stored +:+ ", provided=" +:+ py_repr provided)
      else ret (mk_HashIntegrityResult true None)
  | _, _ => ret (mk_HashIntegrityResult true None)
  end.

Definition verify_storage_uri_hash (storage_uri db_content_hash trace_id : string) : M O HashIntegrityResult :=
  if negb (ac_file_store cfg) then ret (mk_HashIntegrityResult true None)
  else
    let! trace := effective_trace_id trace_id in
    let! read := try (let! text := of_on_artifacts (file_store_read (ac_system_root cfg) (ac_resolve_path cfg) read_fault
                                                      storage_uri) in ret (inl text))
                   (fun e => match e with
                             | ArtifactFileStoreError code message => Some (ret (inr (code, message)))
                             | _ => None
                             end) in
    match read with
    | inr (code, message) =>
        hash_failure trace "artifact_file_store_read_error" message
          [("storage_uri", JStr storage_uri); ("db_content_hash", JStr db_content_hash); ("error", JStr code)]
          ("file read error: " +:+ message)
    | inl text =>
        let file_hash := ac_sha256 cfg text in
        if negb (String.eqb file_hash db_content_hash) then
          hash_failure trace "hash_integrity_failure" "content_hash mismatch"
            [("storage_uri", JStr storage_uri); ("db_content_hash", JStr db_content_hash); ("file_hash", JStr file_hash)]
            ("content_hash mismatch: db=" +:+ py_repr db_content_hash +:+ ", file=" +:+ py_repr file_hash)
        else ret (mk_HashIntegrityResult true None)
    end.

(** ** Retention *)

Definition _require_project_id (project_id operation : string) : outcome string :=
  if truthy (strip project_id) then Ret (strip project_id)
  else Raise (AdministratorError (operation +:+ " requires project_id")).

(** A stamped record of the administrator. *)
Definition _write_governance_artifact (project_id artifact_type : string) (payload : list (string * json))
    : M O ProjectArtifactPointer :=
  let! created_at := _utc_now_iso in
  write_artifact cfg project_id artifact_type (dumps_sorted codec (JObj (payload ++ [("created_at", JStr created_at)])))
    _ADMINISTRATOR_WRITE_CONTEXT.

(** The record of a retention, then its audit event. *)
Definition retention_record (project action reason_code message trace : string) (rule_ids : list string) : M O string :=
  let! pointer := _write_governance_artifact project "administrator_retention"
    [("event_type", JStr "administrator_retention"); ("action", JStr action); ("project_id", JStr project);
     ("rule_ids", jlist rule_ids); ("trace_id", JStr trace)] in
  of_on_ext (write_event (administrator_event "administrator_retention" "archived" trace reason_code message rule_ids
    [("project_id", JStr project); ("action", JStr action)])) ;!
  ret (pt_storage_uri pointer).

Definition enforce_completed_project (project_id trace_id : string) : M O string :=
  let! project := of_outcome (_require_project_id project_id "enforce_completed_project") in
  let! trace := effective_trace_id trace_id in
  retention_record project "completed_project_archived" "retention_completed" "completed project archived" trace ["STR-001"].

Definition enforce_terminated_project (project_id trace_id : string) : M O string :=
  let! project := of_outcome (_require_project_id project_id "enforce_terminated_project") in
  let! trace := effective_trace_id trace_id in
  let! _ := enforce_completed_project project trace in
  retention_record project "terminated_project_archived" "retention_terminated" "terminated project archived" trace
    ["STR-001"; "STR-002"].

(** ** The agent *)

Definition _require_text (value : option string) (message : string) : outcome string :=
  match _normalize_optional_text value with Some s => Ret s | None => Raise (AdministratorError message) end.

Definition _handle_check_artifact_cap (request : AdministratorRequest) : M O AdministratorResponse :=
  let! project := of_outcome (_require_text (mq_project_id request) "check_artifact_cap requires project_id") in
  let! type := of_outcome (_require_text (mq_artifact_type request) "check_artifact_cap requires artifact_type") in
  let! result := check_artifact_cap project type in
  if cc_allowed result then
    ret (mk_AdministratorResponse "cap_allowed" None "Artifact cap check passed." (mq_trace_id request))
  else
    ret (mk_AdministratorResponse "cap_denied" None (opt_or (cc_denial_reason result) "Cap denied.") (mq_trace_id request)).

Definition _handle_enforce_retention (request : AdministratorRequest) : M O AdministratorResponse :=
  let! project := of_outcome (_require_text (mq_project_id request) "enforce_retention requires project_id") in
  let! record := if contains (lower (mq_reason request)) "terminat"
                 then enforce_terminated_project project (mq_trace_id request)
                 else enforce_completed_project project (mq_trace_id request) in
  ret (mk_AdministratorResponse "retention_enforced" (Some record) "Retention enforced." (mq_trace_id request)).

Definition quarantine_payload (event_type agent_id : string) (request : AdministratorRequest) (severity : string)
    (more : list (string * json)) : list (string * json) :=
  [("event_type", JStr event_type); ("action", JStr "agent_quarantined"); ("agent_id", JStr agent_id);
   ("reason", JStr (mq_reason request)); ("severity", JStr severity); ("trace_id", JStr (mq_trace_id request))] ++ more.

Definition _handle_quarantine_agent (request : AdministratorRequest) : M O AdministratorResponse :=
  let! agent_id := of_outcome (_require_text (mq_agent_id request) "quarantine_agent requires agent_id") in
  let project := opt_or (mq_project_id request) "system" in
  let severity := mq_severity request in
  let! now := of_now in
  let! _ := try (of_on_agents (quarantine_agent agent_id now))
              (fun e => match e with
                        | AgentRegistryRepositoryError _ message => Some (raise (AdministratorError message))
                        | _ => None
                        end) in
  let! containment := _write_governance_artifact project "administrator_containment"
    (quarantine_payload "administrator_containment" agent_id request severity [("rule_ids", jlist ["AUTH-001"; "GOV-001"])]) in
  let! _ := _write_governance_artifact project "administrator_owner_notification"
    (quarantine_payload "administrator_owner_notification" agent_id request severity [("next_owner_role", JStr "owner")]) in
  let! _ := _write_governance_artifact project "administrator_ceo_notification"
    (quarantine_payload "administrator_ceo_notification" agent_id request severity [("next_owner_role", JStr "ceo")]) in
  (if String.eqb severity "critical" then
     let! _ := _write_governance_artifact project "administrator_owner_alert"
       (quarantine_payload "administrator_owner_alert" agent_id request "critical" [("next_owner_role", JStr "owner")]) in
     ret tt
   else ret tt) ;!
  of_on_ext (write_event (administrator_event "administrator_containment" "quarantined" (mq_trace_id request)
    "administrator_quarantine" "agent quarantined" ["AUTH-001"; "GOV-001"]
    [("project_id", JStr project); ("agent_id", JStr agent_id); ("severity", JStr severity);
     ("reason", JStr (mq_reason request))])) ;!
  ret (mk_AdministratorResponse "agent_quarantined" (Some (pt_storage_uri containment))
         "Agent quarantined. Owner and CEO notified." (mq_trace_id request)).

Definition _normalize_administrator_request (request : AdministratorRequest) : M O AdministratorRequest :=
  let! trace_id := effective_trace_id (strip (mq_trace_id request)) in
  ret (mk_AdministratorRequest (norm (mq_action request)) (_normalize_optional_text (mq_project_id request))
         (_normalize_optional_text (mq_agent_id request)) (lower <$> _normalize_optional_text (mq_artifact_type request))
         (strip (mq_reason request)) (_normalize_severity (mq_severity request)) (mq_rule_ids request) trace_id).

Definition administrator_handle (request : AdministratorRequest) : M O AdministratorResponse :=
  let! request := _normalize_administrator_request request in
  let action := mq_action request in
  if String.eqb action "check_artifact_cap" then _handle_check_artifact_cap request
  else if String.eqb action "enforce_retention" then _handle_enforce_retention request
  else if String.eqb action "quarantine_agent" then _handle_quarantine_agent request
  else if String.eqb action "query" then
    ret (mk_AdministratorResponse "no_action" None "Oversight query acknowledged. No enforcement action taken."
           (mq_trace_id request))
  else
    ret (mk_AdministratorResponse "no_action" None
           ("Unsupported administrator action: " +:+ py_repr action +:+ ".") (mq_trace_id request)).

Definition administrator_profile (system_prompt : string) : advisory_profile :=
  mk_advisory_profile
    (mk_llm_profile "administrator" (absolute_budget 256)
       (mk_LlmPolicyContext "v2" "administrator-advisory-v1" ["AUTH-001"; "GOV-001"]))
    system_prompt
    ("I'm the Administrator agent. I handle infrastructure policy enforcement, containment actions, and registry controls. " +:+
     "Use `/oq ask administrator <topic>` to direct a query to me.")
    "administrator_response".
End administrator.
