(* ===== verification/OversightFacts.v ===== *)
(** Theorems about the oversight agents. *)

From S2P Require Import Prelude PyStr PyData LlmSchemas PyFloat Task Budget LoopControl Policy Runtime.
From S2P Require Import ProjectModel ProjectRows ProjectRepo Artifacts ArtifactFacts Conversation AgentBase.
From S2P Require Import AgentRegistry Oversight OfficeFacts.

Lemma normalize_severity_idem x : _normalize_severity (_normalize_severity x) = _normalize_severity x.
Proof.
  unfold _normalize_severity at 2 3. destruct (mem (norm x) ["low"; "medium"; "high"; "critical"]) eqn:E; [| done].
  unfold _normalize_severity. by rewrite norm_idem, E.
Qed.

(** * Auditor *)

(** The records an event leaves, in order. *)
Definition evidence (event severity : string) (task : option string) (known : bool) : list string :=
  if String.eqb event "budget_breach" then
    match task with
    | Some _ => ["auditor_enforcement"; "auditor_ceo_notification"] ++
                (if String.eqb severity "critical" then ["auditor_owner_alert"] else []) ++ ["auditor_owner_escalation"]
    | None => ["auditor_owner_escalation"; "auditor_finding"]
    end
  else if String.eqb event "governance_violation" then
    ["auditor_finding"; "auditor_owner_escalation"] ++
    (if mem severity ["high"; "critical"] then ["auditor_ceo_notification"] else [])
  else if String.eqb event "behavioral_violation" then
    if known then [] else ["auditor_finding"; "auditor_owner_escalation"; "auditor_ceo_notification"]
  else if String.eqb event "document_violation" then ["auditor_finding"; "auditor_owner_escalation"]
  else if String.eqb event "query" then []
  else ["auditor_finding"].

(** The task an event blocks. *)
Definition paused_task (event : string) (task : option string) : option string :=
  if String.eqb event "budget_breach" then task else None.

Definition blocks (target : option string) (a b : task_table) : Prop :=
  match target with
  | None => b = a
  | Some t => exists r r', a !! t = Some r /\ b = <[t := r']> a /\ record_evolves r r' /\ status r' = "blocked"
  end.

Section auditor.
Context {E : Type} `{!Oracle E} `{!AuditWriter E}.
Context (cfg : artifact_config) (codec : json_codec).
#[local] Abbreviation O := (office E).

Lemma mark_blocked_post t code reason target source (s : O) :
  post (of_on_tasks (mark_blocked_dispatch t code reason target source)) s
    (fun o s' => rows_in s' = rows_in s /\ of_projects s' = of_projects s /\ of_agents s' = of_agents s /\
                 (is_Some o -> blocks (Some t) (of_tasks s) (of_tasks s')) /\ (o = None -> of_tasks s' = of_tasks s))
    (fun _ s' => same_office s s').
Proof.
  unfold post, of_on_tasks, zoom, mark_blocked_dispatch. rewrite update_task_status_spec.
  destruct (of_tasks s !! t) as [r |] eqn:Er; [destruct (_ || _) eqn:Eok |]; simpl.
  - split_and!; try done. intros _. eexists r, _. split_and!; [done | done | by apply apply_update_evolves | done].
  - done.
  - by split_and!; try done; intros [].
Qed.

Lemma files_artifact p t payload :
  strip p = p -> norm t = t -> files (Some p) [t] (auditor_artifact (E:=E) cfg codec p t payload).
Proof.
  intros Hp Ht. unfold auditor_artifact, _utc_now_iso, of_now.
  apply files_quiet_bind; [tracks_auto; apply ext_office | intros now]. by apply files_write.
Qed.

(** Records of a project that the operation requires. *)
Lemma files_scope {A} p trace operation ts (k : string -> M O A) :
  _normalize_optional_text p = p -> (forall q, p = Some q -> strip q = q -> files p ts (k q)) ->
  files p ts (bind (of_outcome (_require_project_scope p trace operation)) k).
Proof.
  intros Hp Hk. unfold _require_project_scope. rewrite Hp. destruct p as [q |].
  - change (bind _ k) with (k q). apply Hk; [done |]. by eapply normalize_optional_clean.
  - apply files_raise.
Qed.

Lemma files_escalation p rules rationale severity trace :
  _normalize_optional_text p = p ->
  files p ["auditor_owner_escalation"] (escalate_to_owner (E:=E) cfg codec p rules rationale severity trace).
Proof.
  intros Hp. apply files_scope; [done |]. intros q -> Hq.
  apply files_last; [by apply files_artifact | intros; apply files_ret].
Qed.

Lemma files_finding p type rules rationale trace task role severity :
  _normalize_optional_text p = p ->
  files p ["auditor_finding"] (record_finding (E:=E) cfg codec p type rules rationale trace task role severity).
Proof.
  intros Hp. apply files_scope; [done |]. intros q -> Hq.
  apply files_last; [by apply files_artifact | intros; apply files_ret].
Qed.

Lemma files_notification r incident more :
  _normalize_optional_text (ur_project_id r) = ur_project_id r ->
  files (ur_project_id r) ["auditor_ceo_notification"] (_write_notification_artifact (E:=E) cfg codec r incident more).
Proof.
  intros Hp. unfold _write_notification_artifact. rewrite Hp. destruct (ur_project_id r) as [q |] eqn:Eq.
  - apply files_last; [| intros; apply files_ret].
    apply files_write; [| done]. by eapply normalize_optional_clean.
  - apply files_raise.
Qed.

(** What an event does: its task is blocked, then its records are filed. *)
Record audited (p target : option string) (l : list filing) (s s' : O) : Prop := {
  au_tasks : blocks target (of_tasks s) (of_tasks s');
  au_projects : of_projects s' = of_projects s;
  au_agents : of_agents s' = of_agents s;
  au_rows : filed l (rows_in s) (rows_in s');
  au_scope : scoped p l
}.

Definition audits (p target : option string) (ts : list string) (m : M O AuditorResponse) (s : O) : Prop :=
  post m s
    (fun _ s' => exists l, map fl_type l = ts /\ audited p target l s s')
    (fun _ s' => exists l, map fl_type l `prefix_of` ts /\ (audited p target l s s' \/ (l = [] /\ audited p None l s s'))).

Lemma audits_files p ts m s : table_ok (rows_in s) -> files p ts m -> audits p None ts m s.
Proof.
  intros Hok H. eapply post_mono; [by apply H | |]; intros ? s' (l & Ht & Hs & []); exists l;
    [split; [done |] | split; [done | left]]; by split.
Qed.

(** What follows the blocking of a task. *)
Definition pause_records (r : AuditorRequest) (t : string) : list string :=
  ["auditor_enforcement"; "auditor_ceo_notification"] ++
  (if String.eqb (ur_severity r) "critical" then ["auditor_owner_alert"] else []).

Lemma pause_post r t (s : O) :
  table_ok (rows_in s) -> _normalize_optional_text (ur_project_id r) = ur_project_id r ->
  _normalize_severity (ur_severity r) = ur_severity r ->
  post (pause_task cfg codec t (ur_project_id r) (ur_rationale r) (ur_severity r) (ur_rule_ids r) (ur_trace_id r)) s
    (fun _ s' => table_ok (rows_in s') /\ exists l, map fl_type l = pause_records r t /\
       audited (ur_project_id r) (Some t) l s s')
    (fun _ s' => exists l, map fl_type l `prefix_of` pause_records r t /\
       (audited (ur_project_id r) (Some t) l s s' \/ (l = [] /\ audited (ur_project_id r) None l s s'))).
Proof.
  intros Hok Hp Hsev. unfold pause_task. apply post_bind. eapply post_mono; [apply mark_blocked_post | |].
  2: { intros e s' [H1 H2 H3 H4]. exists []. split; [apply prefix_nil |]. right. split; [done |]. split; try done.
       - rewrite H3. constructor.
       - by intros f []. }
  intros [x |] s1 (Hr & Hpr & Ha & Hb & Hn).
  2: { apply post_raise. exists []. split; [apply prefix_nil |]. right. split; [done |]. split; try done.
       - by apply Hn.
       - rewrite Hr. constructor.
       - by intros f []. }
  specialize (Hb ltac:(by eexists)). rewrite Hsev. cbv zeta.
  match goal with |- post ?m _ _ _ => assert (files (ur_project_id r) (pause_records r t) m) as Hf end.
  { apply files_scope; [done |]. intros q -> Hq. unfold pause_records.
    apply (files_bind _ ["auditor_enforcement"]); [by apply files_artifact | intros finding].
    apply files_quiet_bind; [apply ext_office | intros _].
    apply (files_bind _ ["auditor_ceo_notification"]); [by apply files_artifact | intros _].
    apply files_last; [| intros; apply files_ret].
    case_match; [| apply files_ret].
    apply files_last; [by apply files_artifact | intros; apply files_ret]. }
  rewrite <- Hr in Hok. eapply post_mono; [apply Hf, Hok | |].
  - intros _ s2 (l & Ht & Hs & [F1 F2 F3 F4 F5]). split; [done |]. exists l. split; [done |].
    rewrite Hr in F4. split; try congruence; done.
  - intros _ s2 (l & Ht & Hs & [F1 F2 F3 F4 F5]). exists l. split; [done |]. left.
    rewrite Hr in F4. split; try congruence; done.
Qed.

Lemma budget_breach_audits r (s : O) :
  table_ok (rows_in s) -> _normalize_optional_text (ur_project_id r) = ur_project_id r ->
  _normalize_severity (ur_severity r) = ur_severity r ->
  audits (ur_project_id r) (ur_task_id r) (evidence "budget_breach" (ur_severity r) (ur_task_id r) false)
    (_handle_budget_breach cfg codec r) s.
Proof.
  intros Hok Hp Hsev. unfold _handle_budget_breach. destruct (ur_task_id r) as [t |] eqn:Et.
  - change (evidence _ _ _ _) with (pause_records r t ++ ["auditor_owner_escalation"]). unfold audits.
    apply post_bind. eapply post_mono; [by apply pause_post | |].
    + intros finding s1 (Hok1 & l & Hl & [Ht Hpr Ha Hr Hs]).
      apply post_bind. eapply post_mono; [by apply files_escalation | |].
      * intros _ s2 (l' & Hl' & Hs' & [F1 F2 F3 F4 F5]). apply post_ret. exists (l ++ l'). rewrite map_app, Hl, Hl'.
        split; [done |]. split; [by rewrite F1 | congruence | congruence | by eapply records_filed_app | by apply scoped_app].
      * intros e s2 (l' & Hl' & Hs' & [F1 F2 F3 F4 F5]). exists (l ++ l'). rewrite map_app, Hl.
        split; [by apply prefix_app |]. left.
        split; [by rewrite F1 | congruence | congruence | by eapply records_filed_app | by apply scoped_app].
    + intros e s1 (l & Hl & H). exists l. split; [by apply prefix_app_r | done].
  - apply audits_files; [done |].
    apply (files_bind _ ["auditor_owner_escalation"] ["auditor_finding"]); [by apply files_escalation | intros _].
    apply files_last; [by apply files_finding | intros; apply files_ret].
Qed.

Lemma governance_files r :
  _normalize_optional_text (ur_project_id r) = ur_project_id r ->
  files (ur_project_id r) (evidence "governance_violation" (ur_severity r) (ur_task_id r) false)
    (_handle_governance_violation (E:=E) cfg codec r).
Proof.
  intros Hp. unfold _handle_governance_violation.
  apply (files_bind _ ["auditor_finding"]); [by apply files_finding | intros finding].
  apply (files_bind _ ["auditor_owner_escalation"]); [by apply files_escalation | intros _].
  apply files_last; [| intros; apply files_ret].
  case_match; [by apply files_notification | apply files_ret].
Qed.

Lemma known_pure p t role (s : O) : (_finding_already_exists codec p t role s).2 = s.
Proof.
  unfold _finding_already_exists. destruct t, role; try done. unfold bind at 1, of_on_artifacts, zoom.
  unfold list_artifact_documents_by_type. vm_compute (_validate_artifact_type _). by destruct s.
Qed.

Lemma known_ret p t role (s : O) : exists b, (_finding_already_exists codec p t role s).1 = Ret b.
Proof.
  unfold _finding_already_exists. by destruct t, role; eexists.
Qed.

Lemma behavioral_audits r (s : O) known :
  table_ok (rows_in s) -> _normalize_optional_text (ur_project_id r) = ur_project_id r ->
  (_finding_already_exists codec (ur_project_id r) (ur_task_id r) (ur_source_agent_role r) s).1 = Ret known ->
  audits (ur_project_id r) None (evidence "behavioral_violation" (ur_severity r) (ur_task_id r) known)
    (_handle_behavioral_violation cfg codec r) s.
Proof.
  intros Hok Hp Hk. unfold audits, _handle_behavioral_violation, post, bind at 1.
  pose proof (known_pure (ur_project_id r) (ur_task_id r) (ur_source_agent_role r) s) as Hs.
  destruct (_finding_already_exists _ _ _ _ s) as [o s1]. simpl in Hk, Hs. subst o s1.
  match goal with |- match (if _ then ?a else ?b) s with _ => _ end => assert (files (ur_project_id r)
    (evidence "behavioral_violation" (ur_severity r) (ur_task_id r) known) (if known then a else b)) as Hf end.
  { destruct known; [apply files_ret |].
    apply (files_bind _ ["auditor_finding"] ["auditor_owner_escalation"; "auditor_ceo_notification"]);
      [by apply files_finding | intros finding].
    apply (files_bind _ ["auditor_owner_escalation"] ["auditor_ceo_notification"]); [by apply files_escalation | intros _].
    apply files_last; [by apply files_notification | intros; apply files_ret]. }
  exact (audits_files _ _ _ s Hok Hf).
Qed.

Lemma normalize_request_post r (s : O) :
  post (_normalize_auditor_request r) s
    (fun q s' => same_office s s' /\ ur_event_type q = norm (ur_event_type r) /\
       ur_task_id q = _normalize_optional_text (ur_task_id r) /\
       ur_project_id q = _normalize_optional_text (ur_project_id r) /\
       ur_severity q = _normalize_severity (ur_severity r) /\
       ur_source_agent_role q = _normalize_optional_text (ur_source_agent_role r))
    (fun _ s' => same_office s s').
Proof.
  unfold _normalize_auditor_request. apply post_bind. apply (post_mono _ _ (fun _ s' => same_office s s') _ (fun _ s' => same_office s s')); [| | done].
  - destruct (_normalize_optional_text (Some (ur_trace_id r))); [by apply post_ret | apply ext_office_post].
  - intros trace s1 H1. by apply post_ret.
Qed.

Lemma known_rows p t role (s s' : O) :
  rows_in s' = rows_in s -> (_finding_already_exists codec p t role s').1 = (_finding_already_exists codec p t role s).1.
Proof.
  intros H. unfold _finding_already_exists. destruct t, role; try done. simpl. unfold rows_in in H. by rewrite H.
Qed.

Lemma dispatch_audits q (s : O) known :
  table_ok (rows_in s) -> _normalize_optional_text (ur_project_id q) = ur_project_id q ->
  _normalize_severity (ur_severity q) = ur_severity q ->
  (_finding_already_exists codec (ur_project_id q) (ur_task_id q) (ur_source_agent_role q) s).1 = Ret known ->
  audits (ur_project_id q) (paused_task (ur_event_type q) (ur_task_id q))
    (evidence (ur_event_type q) (ur_severity q) (ur_task_id q) known) (dispatch_event cfg codec q) s.
Proof.
  intros Hok Hp Hsev Hk. unfold dispatch_event, paused_task. cbv zeta.
  destruct (String.eqb_spec (ur_event_type q) "budget_breach") as [-> | N1]; [by apply budget_breach_audits |].
  destruct (String.eqb_spec (ur_event_type q) "governance_violation") as [-> | N2].
  { apply audits_files; [done |]. by apply governance_files. }
  destruct (String.eqb_spec (ur_event_type q) "behavioral_violation") as [-> | N3]; [by apply behavioral_audits |].
  apply String.eqb_neq in N1, N2, N3. unfold evidence. rewrite N1, N2, N3.
  apply audits_files; [done |]. repeat case_match; try apply files_ret.
  - apply (files_bind _ ["auditor_finding"]); [by apply files_finding | intros].
    apply files_last; [by apply files_escalation | intros; apply files_ret].
  - apply files_last; [by apply files_finding | intros; apply files_ret].
  - apply files_last; [by apply files_finding | intros; apply files_ret].
Qed.

(** An event leaves exactly its evidence.  Handling an event files, in
    order, one governance record per entry of [evidence]: for a budget breach
    the pause record, the note to the CEO, at critical severity the owner's
    alert, and the escalation; for a governance violation the finding, the
    escalation and at high severity the note; for a behavioral violation not yet
    reported the finding, the escalation and the note; for an event of unknown
    type the finding; for a query nothing.  All of them belong to the event's
    project.  Only a budget breach that names a task blocks that task, and no
    other task, project or agent changes.  When the auditor fails, what it filed
    is a prefix of that evidence. *)
Theorem auditor_evidence r (s : O) known :
  let event := norm (ur_event_type r) in
  let severity := _normalize_severity (ur_severity r) in
  let task := _normalize_optional_text (ur_task_id r) in
  let project := _normalize_optional_text (ur_project_id r) in
  table_ok (rows_in s) ->
  (_finding_already_exists codec project task (_normalize_optional_text (ur_source_agent_role r)) s).1 = Ret known ->
  audits project (paused_task event task) (evidence event severity task known) (auditor_handle cfg codec r) s.
Proof.
  intros event severity task project Hok Hk. unfold audits, auditor_handle. apply post_bind.
  eapply post_mono; [apply normalize_request_post | |].
  - intros q s1 ([Ht Hpr Hr Ha] & Eev & Et & Ep & Esev & Erole).
    assert (audits project (paused_task event task) (evidence event severity task known) (dispatch_event cfg codec q) s1) as H.
    { unfold event, severity, task, project. rewrite <- Eev, <- Et, <- Ep, <- Esev. apply dispatch_audits.
      - by rewrite Hr.
      - by rewrite Ep, normalize_optional_idem.
      - by rewrite Esev, normalize_severity_idem.
      - rewrite Ep, Et, Erole. by rewrite (known_rows _ _ _ s s1) by done. }
    eapply post_mono; [exact H | |].
    + intros _ s2 (l & Hl & [F1 F2 F3 F4 F5]). exists l. split; [done |].
      split; [by rewrite <- Ht | congruence | congruence | by rewrite <- Hr | done].
    + intros _ s2 (l & Hl & [[F1 F2 F3 F4 F5] | (-> & [F1 F2 F3 F4 F5])]); eexists; (split; [exact Hl |]); [left | right; split; [done |]];
        (split; [by rewrite <- Ht | congruence | congruence | by rewrite <- Hr | done]).
  - intros _ s1 [Ht Hpr Hr Ha]. exists []. split; [apply prefix_nil |]. right. split; [done |].
    split; try done; [rewrite Hr; constructor | by intros f []].
Qed.

(** A critical budget breach without a project: the task is blocked, and then
    the missing project is noticed. *)
Lemma pause_without_evidence r t (s : O) rec :
  of_tasks s !! t = Some rec -> status rec = "dispatched" -> ur_project_id r = None ->
  exists e s', pause_task cfg codec t (ur_project_id r) (ur_rationale r) (ur_severity r) (ur_rule_ids r) (ur_trace_id r) s =
    (Raise (AuditorFindingError e), s') /\
    (exists rec', of_tasks s' !! t = Some rec' /\ status rec' = "blocked") /\ rows_in s' = rows_in s.
Proof.
  intros Hrec Hst Hp. unfold pause_task, of_on_tasks, zoom, bind at 1, mark_blocked_dispatch.
  rewrite update_task_status_spec, Hrec, Hst, Hp. simpl. do 2 eexists. split; [done |]. split; [| done].
  eexists. simpl. rewrite lookup_insert_eq. done.
Qed.

(** ** One report *)

(** A stored finding parses back with the fields by which it is recognised. *)
Definition reads_back (task role : string) : Prop :=
  forall project rules rationale trace severity now,
    let o := _load_record_payload codec (dumps_sorted codec (JObj (finding_payload project "behavioral_violation"
               rules rationale trace (Some task) (Some role) severity ++ [("created_at", JStr now)]))) in
    field_is o "task_id" task = true /\ field_is o "source_agent_role" role = true /\
    field_is o "finding_type" "behavioral_violation" = true.

Lemma known_spec p t role (s : O) :
  (_finding_already_exists codec p (Some t) (Some role) s).1 = Ret true <->
  exists (q : string) (k : Z) (row : ArtifactRow), rows_in s !! (q, "auditor_finding", k) = Some row /\
    matching_finding codec p t role (aw_document row) = true.
Proof.
  pose proof (rows_by_type_In "auditor_finding" (rows_in s)) as Hin.
  set (l := map aw_document _) in Hin.
  assert ((_finding_already_exists codec p (Some t) (Some role) s).1 = Ret (existsb (matching_finding codec p t role) l))
    as -> by done.
  transitivity (existsb (matching_finding codec p t role) l = true); [split; congruence |].
  rewrite existsb_exists. split.
  - intros (d & Hd & Hm). apply Hin in Hd as (q & k & row & Hrow & ->). by exists q, k, row.
  - intros (q & k & row & Hrow & Hm). exists (aw_document row). split; [| done]. apply Hin. by exists q, k, row.
Qed.

Lemma known_mono p t role (s s' : O) :
  rows_in s ⊆ rows_in s' -> (_finding_already_exists codec p (Some t) (Some role) s).1 = Ret true ->
  (_finding_already_exists codec p (Some t) (Some role) s').1 = Ret true.
Proof.
  intros Hsub. rewrite !known_spec. intros (q & k & row & Hrow & Hm). exists q, k, row.
  split; [| done]. by eapply lookup_weaken.
Qed.

(** The finding that was filed will be recognised. *)
Lemma finding_known p t role rules rationale trace severity (s : O) :
  table_ok (rows_in s) -> reads_back t role -> _normalize_optional_text p = p ->
  post (record_finding cfg codec p "behavioral_violation" rules rationale trace (Some t) (Some role) severity) s
    (fun _ s' => table_ok (rows_in s') /\ (_finding_already_exists codec p (Some t) (Some role) s').1 = Ret true)
    (fun _ _ => True).
Proof.
  intros Hok Hread Hp. unfold record_finding, _require_project_scope. rewrite Hp.
  destruct p as [q |]; [| done]. apply normalize_optional_clean in Hp as [Hq _].
  apply post_bind, post_of_outcome, post_bind. unfold auditor_artifact, _utc_now_iso, of_now.
  apply post_bind, post_bind. eapply post_mono; [apply ext_office_post | | done].
  intros now s1 [_ _ Hr _]. apply post_ret. eapply post_mono; [apply write_artifact_post; by rewrite Hr | | done].
  intros ptr s2 ([_ _ _ Hf Hok2] & _). apply post_ret. split; [done |]. rewrite Hq in Hf.
  destruct (filed_In _ _ _ _ Hf (or_introl eq_refl)) as (k & row & Hrow & Htext & Hpid).
  apply known_spec. exists q, k, row. split; [exact Hrow |]. unfold matching_finding. cbn [fl_project fl_text] in Htext, Hpid.
  rewrite Hpid, Htext, String.eqb_refl. cbv zeta.
  destruct (Hread q rules rationale trace severity (isoformat now)) as (-> & -> & ->). done.
Qed.

(** A handled behavioral violation is known afterwards. *)
Lemma behavioral_known q t role (s : O) :
  table_ok (rows_in s) -> reads_back t role -> _normalize_optional_text (ur_project_id q) = ur_project_id q ->
  ur_task_id q = Some t -> ur_source_agent_role q = Some role ->
  post (_handle_behavioral_violation cfg codec q) s
    (fun _ s' => (_finding_already_exists codec (ur_project_id q) (Some t) (Some role) s').1 = Ret true) (fun _ _ => True).
Proof.
  intros Hok Hread Hp Ht Hrole. unfold _handle_behavioral_violation. rewrite Ht, Hrole. apply post_bind.
  destruct (known_ret (ur_project_id q) (Some t) (Some role) s) as [known Hk].
  pose proof (known_pure (ur_project_id q) (Some t) (Some role) s) as Hs.
  unfold post at 1. destruct (_finding_already_exists codec (ur_project_id q) (Some t) (Some role) s) as [o s0] eqn:Ef.
  simpl in Hk, Hs. subst o s0. destruct known; [apply post_ret; by rewrite Ef |].
  apply post_bind. unfold finding_of. rewrite Ht, Hrole. eapply post_mono; [by apply finding_known | | done].
  intros finding s1 [Hok1 Hk1]. cbv beta.
  match goal with |- post ?m _ _ _ => assert (files (ur_project_id q)
    ["auditor_owner_escalation"; "auditor_ceo_notification"] m) as Hf end.
  { apply (files_bind _ ["auditor_owner_escalation"] ["auditor_ceo_notification"]); [by apply files_escalation | intros _].
    apply files_last; [by apply files_notification | intros; apply files_ret]. }
  eapply post_mono; [apply Hf, Hok1 | | done]. intros _ s2 (l & _ & _ & []).
  eapply known_mono; [by eapply filed_subseteq | done].
Qed.

(** A behavioral violation is reported once.  After the auditor has handled
    a behavioral violation of a task by an agent's role, any later request about
    the same project, task and role, whatever its rationale, severity, rules or
    trace, is answered "no_action" and changes nothing, however many records have
    been filed meanwhile. *)
Theorem behavioral_violation_reported_once r r' t role (s s1 s2 : O) response :
  table_ok (rows_in s) -> reads_back t role ->
  norm (ur_event_type r) = "behavioral_violation" -> norm (ur_event_type r') = "behavioral_violation" ->
  _normalize_optional_text (ur_task_id r) = Some t -> _normalize_optional_text (ur_task_id r') = Some t ->
  _normalize_optional_text (ur_source_agent_role r) = Some role ->
  _normalize_optional_text (ur_source_agent_role r') = Some role ->
  _normalize_optional_text (ur_project_id r) = _normalize_optional_text (ur_project_id r') ->
  auditor_handle cfg codec r s = (Ret response, s1) -> rows_in s1 ⊆ rows_in s2 ->
  post (auditor_handle cfg codec r') s2
    (fun response' s3 => us_action_taken response' = Some "no_action" /\ same_office s2 s3) (fun _ s3 => same_office s2 s3).
Proof.
  intros Hok Hread He He' Ht Ht' Hrole Hrole' Hp Hrun Hsub.
  assert (post (auditor_handle cfg codec r) s
    (fun _ s' => (_finding_already_exists codec (_normalize_optional_text (ur_project_id r)) (Some t) (Some role) s').1 = Ret true)
    (fun _ _ => True)) as Hk.
  { unfold auditor_handle. apply post_bind. eapply post_mono; [apply normalize_request_post | | done].
    intros q s0 ([_ _ Hr _] & Eev & Et & Ep & _ & Er). unfold dispatch_event. rewrite Eev, He. cbv zeta. simpl (String.eqb _ _).
    cbv iota. rewrite <- Ep. apply behavioral_known; rewrite ?Ep, ?Et, ?Er, ?Hr; try done. apply normalize_optional_idem. }
  unfold post in Hk. rewrite Hrun in Hk. rewrite Hp in Hk. pose proof (known_mono _ _ _ _ _ Hsub Hk) as Hk2.
  unfold auditor_handle. apply post_bind. eapply post_mono; [apply normalize_request_post | | done].
  intros q s3 (Hsame & Eev & Et & Ep & _ & Er). unfold dispatch_event. rewrite Eev, He'. cbv zeta. simpl (String.eqb _ _).
  cbv iota. unfold _handle_behavioral_violation. rewrite Et, Er, Ep, Ht', Hrole'. apply post_bind.
  rewrite <- (known_rows _ _ _ s2 s3) in Hk2 by apply Hsame.
  pose proof (known_pure (_normalize_optional_text (ur_project_id r')) (Some t) (Some role) s3) as Hs.
  unfold post at 1. destruct (_finding_already_exists _ _ _ _ s3) as [o s4]. simpl in Hk2, Hs. subst o s4.
  by apply post_ret.
Qed.
End auditor.

(** * Administrator *)

Section administrator.
Context {E : Type} `{!Oracle E} `{!AuditWriter E}.
Context (cfg : artifact_config) (codec : json_codec).
#[local] Abbreviation O := (office E).

(** The administrator's role check is the repository's.  For every role,
    status and artifact type, [check_role_permission] answers as the
    authorization of the write path does. *)
Theorem role_check_is_write_authorization role type project_status evidence :
  check_role_permission role type project_status = true <->
  _assert_write_authorization (norm type) (mk_ProjectArtifactWriteContext role project_status evidence) = Ret tt.
Proof.
  unfold check_role_permission, _assert_write_authorization. cbn [wc_actor_role wc_project_status].
  change _PROJECT_WRITABLE_STATES with ["proposed"; "approved"; "active"; "paused"].
  destruct (mem (norm project_status) _); [| done]. cbn [negb].
  destruct (String.eqb_spec (norm role) "project_manager") as [-> | Hne].
  - change (mem (norm type) _PROJECT_MANAGER_FORBIDDEN_WRITE_TYPES) with (mem (norm type) ["project_charter"; "workforce_plan"]).
    by destruct (mem (norm type) _).
  - cbn [andb]. by destruct (mem (norm role) _).
Qed.

(** The number of pointers is the count. *)
Lemma length_pointers (p t : string) (rows : artifact_rows) :
  Z.of_nat (length (map (fun r => ad_pointer (aw_document r)) (sorted revision_leb (rows_of p t rows)))) = type_count p t rows.
Proof.
  rewrite length_map, sorted_perm. unfold rows_of, type_count. by rewrite length_map, <- length_map_to_list.
Qed.

(** What the cap check allows, the repository stores.  When
    [check_artifact_cap] allows a document, a write of it by an authorized actor
    is given a revision: no cap and no name is refused. *)
Theorem allowed_document_is_planned pid type context (s : O) result s' :
  check_artifact_cap (E:=E) cfg pid type s = (Ret result, s') -> cc_allowed result = true ->
  _assert_write_authorization (norm type) context = Ret tt ->
  s' = s /\ exists k, (plan_revision (ac_policy cfg) pid type (Some context) (of_artifacts s)).1 = Ret (strip pid, norm type, k) /\
    k = (type_count (strip pid) (norm type) (rows_in s) + 1)%Z.
Proof.
  destruct s as [ext tk pr ar ag]. unfold check_artifact_cap, try, bind at 1, of_outcome. cbv zeta.
  destruct (cap_for_type (ac_policy cfg) (norm type)) as [cap | e] eqn:Hcap.
  2: { intros [= <- <-] Hok. destruct e; discriminate Hok. }
  unfold bind at 1, of_on_artifacts, zoom, list_pointers, bind at 1 2, of_outcome.
  unfold _validate_project_id at 1. cbv zeta. rewrite strip_idem.
  destruct (project_id_pattern (strip pid)) eqn:Hpat; [| intros [= <- <-]; discriminate].
  unfold _validate_artifact_type at 1. cbv zeta. rewrite norm_idem.
  destruct (artifact_type_pattern (norm type)) eqn:Htype; [| intros [= <- <-]; discriminate].
  unfold gets at 1, rows_in. cbn [of_ext of_tasks of_projects of_artifacts of_agents]. cbv beta iota. rewrite length_pointers.
  destruct (Z.leb_spec cap (type_count (strip pid) (norm type) (as_rows ar))) as [? | Hlt]; [intros [= <- <-]; discriminate |].
  intros Hrun Hok Hauth.
  assert (s' = mk_office ext tk pr ar ag /\ (mem (norm type) _GOVERNANCE_EVENT_ARTIFACT_TYPES = false ->
    (total_count (strip pid) (as_rows ar) < total_active_document_cap (ac_policy cfg))%Z)) as [-> Htotal].
  { revert Hrun. destruct (mem (norm type) _GOVERNANCE_EVENT_ARTIFACT_TYPES); simpl.
    - by intros [= <- <-].
    - unfold bind, of_on_artifacts, zoom, gets. simpl.
      destruct (Z.leb_spec (total_active_document_cap (ac_policy cfg)) (total_count (strip pid) (as_rows ar)));
        by intros [= <- <-]. }
  split; [done |]. eexists. split; [| reflexivity]. unfold plan_revision.
  unfold bind, of_outcome, gets, ret, _validate_project_id, _validate_artifact_type. cbv zeta.
  rewrite Hpat, Htype, Hauth, Hcap. unfold check_revision, obind, _assert_total_cap.
  rewrite (proj2 (Z.leb_gt _ _) Hlt), andb_false_r.
  clear Hrun. destruct (mem (norm type) _GOVERNANCE_EVENT_ARTIFACT_TYPES); [by rewrite andb_false_r |].
  rewrite (proj2 (Z.leb_gt _ _) (Htotal eq_refl)). by destruct (_ && _).
Qed.
End administrator.

(** * Witnesses *)

#[local] Instance count_oracle : Oracle N := {
  uuid4 := fun n => (str_int (Z.of_N n), (n + 1)%N);
  utcnow := fun n => (mk_datetime 2026 1 1 0 0 0 (Z.of_N n), (n + 1)%N)
}.
#[local] Instance quiet_audit : AuditWriter N := { write_event := fun _ => ret tt }.

Definition demo_config : artifact_config :=
  mk_artifact_config "/var/openqilin" (fun p => p) (fun _ => None) (fun s => s) mvp_defaults false.

(** A codec that knows one finding. *)
Definition demo_codec : json_codec :=
  mk_json_codec (fun _ => "{}") (fun _ => "{}") (fun _ => "{}")
    (fun _ => Some (JObj [("finding_type", JStr "behavioral_violation"); ("source_agent_role", JStr "project_manager");
                          ("task_id", JStr "t-1")])).

Definition demo_office : office N := mk_office 0%N ∅ ∅ (mk_artifact_store ∅ ∅) [].

Definition demo_event (event : string) : AuditorRequest :=
  mk_AuditorRequest event (Some "t-1") (Some "project-1") "critical" ["GOV-001"] "observed" (Some "project_manager") "tr-1".


Lemma auditor_evidence_witness :
  exists l, map fl_type l = ["auditor_finding"; "auditor_owner_escalation"; "auditor_ceo_notification"] /\
    audited (Some "project-1") None l demo_office
      (auditor_handle demo_config demo_codec (demo_event "governance_violation") demo_office).2.
Proof.
  pose proof (auditor_evidence demo_config demo_codec (demo_event "governance_violation") demo_office false
    table_ok_empty eq_refl) as H.
  unfold audits, post in H.
  assert (exists x, (auditor_handle demo_config demo_codec (demo_event "governance_violation") demo_office).1 = Ret x)
    as [x Hx] by (vm_compute; eexists; reflexivity).
  destruct (auditor_handle _ _ _ demo_office) as [o s']. cbn [fst] in Hx. subst o. exact H.
Defined.

Lemma behavioral_violation_reported_once_witness :
  let '(o, s1) := auditor_handle demo_config demo_codec (demo_event "behavioral_violation") demo_office in
  match (auditor_handle demo_config demo_codec (demo_event " Behavioral_Violation ") s1).1 with
  | Ret response => us_action_taken response = Some "no_action"
  | Raise _ => False
  end.
Proof.
  assert (exists x, (auditor_handle demo_config demo_codec (demo_event "behavioral_violation") demo_office).1 = Ret x)
    as [x Hx] by (vm_compute; eexists; reflexivity).
  destruct (auditor_handle _ _ _ demo_office) as [o s1] eqn:E1. cbn [fst] in Hx. subst o.
  pose proof (behavioral_violation_reported_once demo_config demo_codec (demo_event "behavioral_violation")
    (demo_event " Behavioral_Violation ") "t-1" "project_manager" demo_office s1 s1 x table_ok_empty) as H.
  unfold post in H. clear - H E1.
  assert (exists y, (auditor_handle demo_config demo_codec (demo_event " Behavioral_Violation ")
    (auditor_handle demo_config demo_codec (demo_event "behavioral_violation") demo_office).2).1 = Ret y)
    as [y Hy] by (vm_compute; eexists; reflexivity).
  rewrite E1 in Hy. cbn [snd] in Hy.
  destruct (auditor_handle _ _ (demo_event " Behavioral_Violation ") s1) as [o s3]. cbn [fst] in *. subst o.
  refine (proj1 (H _ eq_refl eq_refl eq_refl eq_refl eq_refl eq_refl eq_refl E1 (reflexivity _))).
  intros p rules rationale trace severity now. split; [| split]; reflexivity.
Defined.

Lemma allowed_document_is_planned_witness :
  exists k, (plan_revision mvp_defaults " project-1" "Project_Charter" (Some (mk_ProjectArtifactWriteContext "cwo" "active" []))
    (mk_artifact_store ∅ ∅)).1 = Ret ("project-1", "project_charter", k).
Proof.
  assert ((check_artifact_cap demo_config " project-1" "Project_Charter" demo_office).1 =
    Ret (mk_CapCheckResult true None None)) as Hc by (vm_compute; reflexivity).
  destruct (check_artifact_cap demo_config " project-1" "Project_Charter" demo_office) as [o s'] eqn:E1.
  cbn [fst] in Hc. subst o.
  destruct (allowed_document_is_planned demo_config " project-1" "Project_Charter"
    (mk_ProjectArtifactWriteContext "cwo" "active" []) demo_office _ s' E1 eq_refl eq_refl) as [_ (k & Hk & _)].
  exists k. exact Hk.
Defined.

(** The check is stricter than the repository: a second revision of a document
    whose type is not append-only is denied by the check and accepted by the
    repository. *)
Lemma cap_check_is_stricter :
  let store := (write_project_artifact "/var/openqilin" (fun p => p) (fun _ => None) (fun s => s) mvp_defaults false "a-1"
    (mk_datetime 2026 1 1 0 0 0 0) "project-1" "project_charter" "text"
    (Some (mk_ProjectArtifactWriteContext "cwo" "active" [])) (mk_artifact_store ∅ ∅)).2 in
  (match check_artifact_cap demo_config "project-1" "project_charter" (mk_office 0%N ∅ ∅ store []) with
   | (Ret result, _) => cc_denial_code result | _ => None end) = Some "artifact_type_cap_exceeded" /\
  (plan_revision mvp_defaults "project-1" "project_charter" (Some (mk_ProjectArtifactWriteContext "cwo" "active" [])) store).1 =
    Ret ("project-1", "project_charter", 2%Z).
Proof. vm_compute. done. Qed.
