(* ===== verification/Grammar.v ===== *)
(** The grammar of owner messages and advisory routing.

    Models [control_plane/grammar/] (models, command parser, intent classifier,
    free-text router) and [control_plane/advisory/] (topic router, channel
    availability, bot registry reader), with the part of [shlex.split] and
    [str.split] they use. *)

From Stdlib Require Import Ascii.
From S2P Require Import Prelude PyStr PyData PyFloat LlmSchemas Runtime.

(** * Data *)

Inductive IntentClass : Type := DISCUSSION | QUERY | MUTATION | ADMIN.

#[export] Instance IntentClass_eq_dec : EqDecision IntentClass.
Proof. solve_decision. Defined.

Definition all_intents : list IntentClass := [DISCUSSION; QUERY; MUTATION; ADMIN].

Definition intent_str (i : IntentClass) : string :=
  match i with DISCUSSION => "discussion" | QUERY => "query" | MUTATION => "mutation" | ADMIN => "admin" end.

Record ChatContext : Type := mk_ChatContext {
  cx_chat_class : string;
  cx_channel_id : string;
  cx_project_id : option string
}.

Record CommandEnvelope : Type := mk_CommandEnvelope {
  ce_verb : string;
  ce_target : option string;
  ce_args : list string;
  ce_raw_input : string
}.

Record RoutingHint : Type := mk_RoutingHint {
  rh_target_role : string;
  rh_project_id : option string;
  rh_confidence : pyfloat
}.

(** * Splitting *)

(** [s.split()]. *)
Fixpoint py_split_aux (word : string) (s : string) : list string :=
  let emit := if truthy word then [word] else [] in
  match s with
  | EmptyString => emit
  | String c s' => if is_space c then emit ++ py_split_aux "" s' else py_split_aux (word +:+ String c "") s'
  end.

Definition py_split (s : string) : list string := py_split_aux "" s.

(** The states of the standard library's lexer, in POSIX mode, splitting on
    whitespace and without comments.  An escape remembers the quote it is in. *)
Inductive shlex_state : Type :=
  | Outside
  | InWord
  | InQuote (q : ascii)
  | InEscape (quote : option ascii).

Definition shlex_space (c : ascii) : bool :=
  let n := nat_of_ascii c in ((n =? 32) || (n =? 9) || (n =? 13) || (n =? 10))%nat.

Definition backslash : ascii := ascii_of_nat 92.

Definition is_quote (c : ascii) : bool := Ascii.eqb c quote_sq || Ascii.eqb c quote_dq.

(** A token ends: nothing is emitted for an empty one that was not quoted. *)
Definition emit_token (token : string) (quoted : bool) : list string := if quoted || truthy token then [token] else [].

Definition push (token : string) (c : ascii) : string := token +:+ String c "".

(** [shlex.split], from a state with a partial token. *)
Fixpoint shlex (st : shlex_state) (token : string) (quoted : bool) (s : string) : outcome (list string) :=
  match s with
  | EmptyString =>
      match st with
      | Outside => Ret []
      | InWord => Ret (emit_token token quoted)
      | InQuote _ => Raise (ValueError "No closing quotation")
      | InEscape _ => Raise (ValueError "No escaped character")
      end
  | String c s' =>
      match st with
      | Outside =>
          if shlex_space c then shlex Outside "" false s'
          else if Ascii.eqb c backslash then shlex (InEscape None) "" false s'
          else if is_quote c then shlex (InQuote c) "" false s'
          else shlex InWord (String c "") false s'
      | InWord =>
          if shlex_space c then let? l := shlex Outside "" false s' in Ret (emit_token token quoted ++ l)
          else if is_quote c then shlex (InQuote c) token quoted s'
          else if Ascii.eqb c backslash then shlex (InEscape None) token quoted s'
          else shlex InWord (push token c) quoted s'
      | InQuote q =>
          if Ascii.eqb c q then shlex InWord token true s'
          else if Ascii.eqb c backslash && Ascii.eqb q quote_dq then shlex (InEscape (Some q)) token true s'
          else shlex (InQuote q) (push token c) true s'
      | InEscape quote =>
          let token := match quote with
                       | Some q => if negb (Ascii.eqb c backslash) && negb (Ascii.eqb c q) then push token backslash else token
                       | None => token
                       end in
          shlex (match quote with Some q => InQuote q | None => InWord end) (push token c) quoted s'
      end
  end.

Definition shlex_split (s : string) : outcome (list string) := shlex Outside "" false s.

(** * The command parser *)

Definition _COMMAND_PREFIX : string := "/oq".

Definition _KNOWN_VERBS : list string :=
  ["project"; "ask"; "status"; "escalate"; "approve"; "deny"; "doctor"; "discord"; "governance"].

Definition preview (s : string) : string := String.substring 0 256 s.

Definition known_verbs_text : string := "[" +:+ join ", " (map py_repr (sorted str_leb _KNOWN_VERBS)) +:+ "]".

Definition parse (raw_input : string) : outcome CommandEnvelope :=
  let stripped := strip raw_input in
  let details := [("raw_input", preview raw_input)] in
  if negb (startswith stripped _COMMAND_PREFIX) then
    Raise (GrammarParseError "GRAM-005" ("input is not a compact command (must start with " +:+ py_repr _COMMAND_PREFIX +:+ ")")
             details)
  else
    match shlex_split stripped with
    | Raise e => Raise (GrammarParseError "GRAM-005" ("malformed command syntax: " +:+ exn_str e) details)
    | Ret (_ :: verb :: remainder) =>
        let verb := lower verb in
        if negb (mem verb _KNOWN_VERBS) then
          Raise (GrammarParseError "GRAM-005"
                   ("unrecognized verb " +:+ py_repr verb +:+ "; supported: " +:+ known_verbs_text)
                   [("verb", verb); ("raw_input", preview raw_input)])
        else
          Ret (mk_CommandEnvelope verb (head remainder) (tail remainder) raw_input)
    | Ret _ =>
        Raise (GrammarParseError "GRAM-005" "compact command requires a verb: /oq <verb> [target] [args]" details)
    end.

(** * The intent classifier *)

Definition _MUTATION_VERBS : list string := ["project"; "escalate"; "approve"; "deny"].
Definition _QUERY_VERBS : list string := ["ask"; "status"].
Definition _ADMIN_VERBS : list string := ["doctor"; "discord"; "governance"].

Definition _classify_command_intent (message : string) : IntentClass :=
  match py_split message with
  | _ :: verb :: _ =>
      let verb := lower verb in
      if mem verb _MUTATION_VERBS then MUTATION
      else if mem verb _QUERY_VERBS then QUERY
      else if mem verb _ADMIN_VERBS then ADMIN
      else MUTATION
  | _ => ADMIN
  end.

Definition _parse_intent_token (raw : string) : IntentClass :=
  default DISCUSSION (List.find (fun i => contains raw (intent_str i)) all_intents).

(** [time.monotonic()]. *)
Class MonotonicClock (E : Type) : Type := { monotonic : E -> pyfloat * E }.

Definition intent_cache : Type := gmap (string * string) (IntentClass * pyfloat).

Record classifier_state (E : Type) : Type := mk_classifier_state { cl_ext : E; cl_cache : intent_cache }.
Arguments mk_classifier_state {E}.
Arguments cl_ext {E}.
Arguments cl_cache {E}.

Section classifier.
Context {E : Type} `{!Oracle E} `{!MonotonicClock E} `{!MetricRecorder E}.
Context (gateway : LlmGatewayRequest -> M E LlmGatewayResponse) (has_metrics : bool).
#[local] Abbreviation C := (classifier_state E).

Definition cl_on_ext {A} (m : M E A) : M C A := zoom cl_ext (fun e s => mk_classifier_state e (cl_cache s)) m.

Definition _CACHE_TTL : pyfloat := f_of_Z 60.

Definition classification_prompt (message : string) : string :=
  let nl := String (ascii_of_nat 10) "" in
  "Classify the following owner message into exactly one intent class:" +:+ nl +:+
  "- discussion: open-ended conversation, planning, reasoning, exploration" +:+ nl +:+
  "- query: read-only information or status request" +:+ nl +:+
  "- mutation: explicit governed state change" +:+ nl +:+
  "- admin: operator-level system action" +:+ nl +:+ nl +:+
  "Respond with only one word (discussion, query, mutation, or admin). No punctuation." +:+ nl +:+ nl +:+
  "Message:" +:+ nl +:+ message +:+ nl.

Definition classification_request (id message : string) (context : ChatContext) : LlmGatewayRequest :=
  mk_LlmGatewayRequest id ("grammar-classify-" +:+ cx_channel_id context) (opt_or (cx_project_id context) "system")
    "grammar_intent_classifier" None (Some "intent_classification") "interactive_fast" "dev_gemini_free"
    (classification_prompt (String.substring 0 1000 message)) 16 f_zero
    (mk_LlmBudgetContext None None (Some 16%Z) "absolute" None None)
    (mk_LlmPolicyContext "v2" "grammar-classifier-v1" ["GRAM-003"]).

(** A cached class that is still fresh at [now]. *)
Definition fresh_class (key : string * string) (now : pyfloat) (cache : intent_cache) : option IntentClass :=
  '(result, ts) ← cache !! key; if f_ltb (f_sub now ts) _CACHE_TTL then Some result else None.

Definition _classify_free_text (message : string) (context : ChatContext) : M C IntentClass :=
  let key := (String.substring 0 1000 message, cx_channel_id context) in
  let! now := cl_on_ext (fun e => let '(t, e') := monotonic e in (Ret t, e')) in
  let! cached := gets (fun s => fresh_class key now (cl_cache s)) in
  match cached with
  | Some result => ret result
  | None =>
      let! id := cl_on_ext (fun e => let '(u, e') := uuid4 e in (Ret u, e')) in
      let! response := cl_on_ext (gateway (classification_request id message context)) in
      if negb (mem (lr_decision response) ["served"; "fallback_served"]) then ret DISCUSSION
      else
        let intent := _parse_intent_token (norm (opt_or (lr_generated_text response) "")) in
        if bool_decide (intent = MUTATION) then
          raise (GrammarParseError "GRAM-004"
            ("free-text input cannot be dispatched as a governed mutation. " +:+
             "Use explicit command syntax: /oq <verb> [target] [args]")
            [("detected_intent", "mutation"); ("input_preview", preview message)])
        else
          modify (fun s => mk_classifier_state (cl_ext s) (<[key := (intent, now)]> (cl_cache s))) ;!
          (if has_metrics then
             cl_on_ext (modify (increment_counter "llm_calls_total" [("purpose", "intent_classification")]))
           else ret tt) ;!
          ret intent
  end.

Definition classify (message : string) (context : ChatContext) : M C IntentClass :=
  let stripped := strip message in
  if startswith stripped _COMMAND_PREFIX then ret (_classify_command_intent stripped)
  else _classify_free_text stripped context.
End classifier.

(** * The free-text router *)

Definition _INSTITUTIONAL_CLASSES : list string := ["leadership_council"; "governance"; "executive"].
Definition _CSO_ROUTING_CLASSES : list string := ["leadership_council"; "executive"].
Definition _GOVERNED_INTENTS : list IntentClass := [MUTATION; ADMIN].

Definition intent_in (i : IntentClass) (l : list IntentClass) : bool := existsb (fun x => bool_decide (x = i)) l.

Definition resolve_free_text (intent : IntentClass) (context : ChatContext) : RoutingHint :=
  let class := cx_chat_class context in
  let project := cx_project_id context in
  if String.eqb class "project" then mk_RoutingHint "project_manager" project (f_lit 9 1)
  else if mem class _INSTITUTIONAL_CLASSES && (mem class _CSO_ROUTING_CLASSES && intent_in intent _GOVERNED_INTENTS) then
    mk_RoutingHint "cso" project (f_lit 9 1)
  else if mem class _INSTITUTIONAL_CLASSES && intent_in intent [DISCUSSION; QUERY] then
    mk_RoutingHint "secretary" project (f_lit 9 1)
  else mk_RoutingHint "secretary" project (f_lit 7 1).

(** * Advisory routing *)

(** The keywords of a role are a set; they are listed in the order of the source. *)
Definition TOPIC_ROUTING_TABLE : list (string * list string) :=
  [("auditor",
    ["budget"; "spend"; "spending"; "compliance"; "violation"; "audit"; "trail"; "financial"; "expenditure"; "cost";
     "overrun"; "breach"; "governance breach"; "expense"; "invoice"; "payment"; "transaction"; "penalty"]);
   ("cso",
    ["strategic"; "strategy"; "portfolio"; "alignment"; "cross-project"; "opportunity"; "conflict"; "risk"; "roadmap";
     "review"; "evaluate"; "priority"; "prioritize"; "strategic review"; "cross-project risk"]);
   ("project_manager",
    ["task"; "assignment"; "blocked"; "milestone"; "progress"; "execution plan"; "sprint"; "backlog"; "status";
     "deadline"; "schedule"; "report"; "timeline"; "deliverable"; "velocity"; "issue"]);
   ("cwo",
    ["charter"; "workforce"; "initialization"; "specialist"; "workforce plan"; "role binding"; "agent activation";
     "activate"; "deactivate"; "onboard"; "onboarding"; "team"; "headcount"]);
   ("ceo",
    ["approve"; "directive"; "executive"; "authorize"; "escalation"; "final decision"; "approval"; "decision"; "decide";
     "veto"; "agreement"; "endorse"]);
   ("administrator",
    ["infrastructure"; "infra"; "document policy"; "retention"; "quarantine"; "integrity"; "hash"; "system health";
     "health check"; "policy enforcement"; "agent health"])].

Record RoutingDecision : Type := mk_RoutingDecision {
  rd_agent_role : string;
  rd_confidence : string;
  rd_matched_keywords : list string
}.

Definition matched_keywords (text : string) (keywords : list string) : list string :=
  List.filter (fun k => contains (lower text) k) keywords.

(** The roles with a match, and the keywords that matched. *)
Definition topic_matches (text : string) : list (string * list string) :=
  List.filter (fun m => negb (Nat.eqb (length m.2) 0))
    (map (fun row => (row.1, matched_keywords text row.2)) TOPIC_ROUTING_TABLE).

Definition max_matches (matches : list (string * list string)) : nat :=
  foldr (fun m n => Nat.max (length m.2) n) O matches.

Definition classify_topic (text : string) : option RoutingDecision :=
  match topic_matches text with
  | [] => None
  | [m] => Some (mk_RoutingDecision m.1 "high" m.2)
  | matches =>
      match List.filter (fun m => Nat.eqb (length m.2) (max_matches matches)) matches with
      | [m] => Some (mk_RoutingDecision m.1 "high" m.2)
      | _ => None
      end
  end.

Definition CHANNEL_RESTRICTED_ROLES : list string := ["auditor"; "administrator"].

Definition is_role_available_in_channel (role : string) (is_project_channel : bool) : bool :=
  negb (is_project_channel && mem role CHANNEL_RESTRICTED_ROLES).

(** The Redis hash of the bots. *)
Class BotRegistry (E : Type) : Type := {
  redis_hget : string -> string -> M E (option string);
  redis_hgetall : string -> M E (list (string * string))
}.

Section bots.
Context {E : Type} `{!BotRegistry E}.

Definition BOT_REGISTRY_REDIS_KEY : string := "openqilin:bot_discord_ids".

Definition get_mention (role : string) : M E (option string) :=
  try (let! user_id := redis_hget BOT_REGISTRY_REDIS_KEY role in
       ret ((fun u => "<@" +:+ u +:+ ">") <$> user_id))
    (fun _ => Some (ret None)).

Definition get_all_bots : M E (list (string * string)) :=
  try (redis_hgetall BOT_REGISTRY_REDIS_KEY) (fun _ => Some (ret [])).
End bots.
