(* ===== verification/GrammarFacts.v ===== *)
(** Theorems about the grammar of owner messages. *)

From Stdlib Require Import Ascii.
From S2P Require Import Prelude PyStr PyData PyFloat LlmSchemas Runtime Grammar.

(** * Commands *)

(** [shlex.quote] of any text, always quoting. *)
Definition quote_char (c : ascii) : string :=
  if Ascii.eqb c quote_sq then String quote_sq (String quote_dq (String quote_sq (String quote_dq (String quote_sq ""))))
  else String c "".

Definition shell_quote (s : string) : string := String quote_sq (concat_map_str quote_char s +:+ String quote_sq "").

(** A compact command line. *)
Definition quoted_words (words : list string) : string := foldr (fun w rest => " " +:+ (shell_quote w +:+ rest)) "" words.

Definition command_line (verb : string) (words : list string) : string := "/oq " +:+ (verb +:+ quoted_words words).

Lemma app_cons c a b : String c a +:+ b = String c (a +:+ b).
Proof. done. Qed.

Lemma push_app token c s : push token c +:+ s = token +:+ String c s.
Proof. unfold push. by rewrite string_app_assoc. Qed.

Lemma shlex_quote_step token b c s :
  c <> quote_sq -> shlex (InQuote quote_sq) token b (String c s) = shlex (InQuote quote_sq) (push token c) true s.
Proof.
  intros Hne. apply Ascii.eqb_neq in Hne. cbn [shlex]. rewrite Hne.
  change (Ascii.eqb quote_sq quote_dq) with false. by rewrite andb_false_r.
Qed.

Lemma shlex_in_quote w token b rest :
  shlex (InQuote quote_sq) token b (concat_map_str quote_char w +:+ String quote_sq rest) =
  shlex InWord (token +:+ w) true rest.
Proof.
  revert token b. induction w as [| c w IH]; intros token b.
  - cbn [concat_map_str String.append]. by rewrite string_app_empty_r.
  - cbn [concat_map_str]. rewrite string_app_assoc, <- (push_app token c w). unfold quote_char at 1.
    destruct (Ascii.eqb_spec c quote_sq) as [-> | Hne].
    + etransitivity; [| apply (IH (push token quote_sq) true)]. reflexivity.
    + rewrite app_cons, shlex_quote_step by done. apply IH.
Qed.

Lemma shlex_quoted w rest : shlex Outside "" false (shell_quote w +:+ rest) = shlex InWord w true rest.
Proof.
  unfold shell_quote. rewrite app_cons, string_app_assoc, app_cons.
  change (shlex Outside "" false (String quote_sq ?s)) with (shlex (InQuote quote_sq) "" false s).
  apply (shlex_in_quote w "").
Qed.

Lemma shlex_words w words : shlex InWord w true (quoted_words words) = Ret (w :: words).
Proof.
  revert w. induction words as [| v words IH]; intros w; [done |].
  cbn [quoted_words foldr]. fold (quoted_words words).
  change (obind (shlex Outside "" false (shell_quote v +:+ quoted_words words))
    (fun l => Ret (emit_token w true ++ l)) = Ret (w :: v :: words)).
  by rewrite shlex_quoted, IH.
Qed.

(** ** Plain words *)

Definition plain_char (c : ascii) : bool := negb (is_space c) && negb (is_quote c) && negb (Ascii.eqb c backslash).

Fixpoint plain (s : string) : bool :=
  match s with EmptyString => true | String c s' => plain_char c && plain s' end.

Lemma shlex_space_space c : shlex_space c = true -> is_space c = true.
Proof. by destruct c as [[] [] [] [] [] [] [] []]. Qed.

Lemma plain_char_spec c :
  plain_char c = true ->
  is_space c = false /\ shlex_space c = false /\ is_quote c = false /\ Ascii.eqb c backslash = false.
Proof.
  unfold plain_char. rewrite !andb_true_iff, !negb_true_iff. intros [[H1 H2] H3]. split_and!; try done.
  destruct (shlex_space c) eqn:E; [| done]. apply shlex_space_space in E. congruence.
Qed.

Lemma shlex_plain w token rest :
  plain w = true -> shlex InWord token false (w +:+ rest) = shlex InWord (token +:+ w) false rest.
Proof.
  revert token. induction w as [| c w IH]; intros token; [by rewrite string_app_empty_r |].
  cbn [plain]. intros [Hc Hw]%andb_true_iff. apply plain_char_spec in Hc as (_ & H1 & H2 & H3).
  rewrite app_cons. cbn [shlex]. rewrite H1, H2, H3. rewrite IH by done. by rewrite push_app.
Qed.

(** The line of a known verb: its first two words. *)
Lemma shlex_command verb rest :
  plain verb = true -> truthy verb = true ->
  shlex_split ("/oq " +:+ (verb +:+ rest)) =
  let? l := shlex InWord verb false rest in Ret ("/oq" :: l).
Proof.
  intros Hp Ht. destruct verb as [| c verb]; [done |].
  change (obind (shlex Outside "" false (String c verb +:+ rest)) (fun l => Ret ("/oq" :: l)) =
          obind (shlex InWord (String c verb) false rest) (fun l => Ret ("/oq" :: l))).
  f_equal. cbn [plain] in Hp. apply andb_true_iff in Hp as [Hc Hw]. apply plain_char_spec in Hc as (_ & H1 & H2 & H3).
  rewrite app_cons. cbn [shlex]. rewrite H1, H2, H3. by apply (shlex_plain verb (String c "")).
Qed.

Lemma known_verb_plain verb : In verb _KNOWN_VERBS -> plain verb = true /\ truthy verb = true /\ lower verb = verb.
Proof. cbn. intros H. repeat destruct H as [<- | H]; by vm_compute. Qed.

(** ** Ends of a line *)

Lemma rstrip_ends s c : is_space c = false -> rstrip (s +:+ String c "") = s +:+ String c "".
Proof.
  intros Hc. induction s as [| d s IH]; [simpl; by rewrite Hc |].
  rewrite app_cons. cbn [rstrip]. rewrite IH. by destruct s.
Qed.

Lemma quoted_words_end w words : exists s, quoted_words (w :: words) = s +:+ String quote_sq "".
Proof.
  revert w. induction words as [| v words IH]; intros w.
  - exists (" " +:+ String quote_sq (concat_map_str quote_char w)). cbn. unfold shell_quote. cbn.
    by rewrite !string_app_empty_r.
  - destruct (IH v) as [s Hs]. exists (" " +:+ (shell_quote w +:+ s)).
    change (quoted_words (w :: v :: words)) with (" " +:+ (shell_quote w +:+ quoted_words (v :: words))).
    rewrite Hs. by rewrite !string_app_assoc.
Qed.

Lemma strip_ends a s c : is_space a = false -> is_space c = false -> strip (String a (s +:+ String c "")) = String a (s +:+ String c "").
Proof.
  intros Ha Hc. unfold strip. cbn [lstrip]. rewrite Ha. by apply (rstrip_ends (String a s)).
Qed.

Lemma strip_command_line verb words :
  In verb _KNOWN_VERBS -> strip (command_line verb words) = command_line verb words.
Proof.
  intros Hv. unfold command_line. destruct words as [| w words].
  - cbn in Hv. repeat destruct Hv as [<- | Hv]; by vm_compute.
  - destruct (quoted_words_end w words) as [s Hs]. rewrite Hs, <- !string_app_assoc.
    by apply (strip_ends "/" ("oq " +:+ verb +:+ s) quote_sq).
Qed.

(** C28: every command can be written and is read back.  The line
    [/oq verb 'word' ..] of a known verb, with any words whatever quoted as
    [shlex.quote] does, is parsed to that verb, the first word as the target and
    the others as arguments, in order and unchanged. *)
Theorem command_roundtrip verb words :
  In verb _KNOWN_VERBS ->
  parse (command_line verb words) =
  Ret (mk_CommandEnvelope verb (head words) (tail words) (command_line verb words)).
Proof.
  intros Hv. destruct (known_verb_plain verb Hv) as (Hp & Ht & Hl). unfold parse.
  rewrite strip_command_line by done. cbv zeta.
  assert (startswith (command_line verb words) _COMMAND_PREFIX = true) as -> by done. cbn [negb].
  unfold command_line at 1. rewrite shlex_command by done.
  assert (shlex InWord verb false (quoted_words words) = Ret (verb :: words)) as ->.
  { destruct words as [| w words]; [simpl; unfold emit_token; by rewrite Ht |].
    change (obind (shlex Outside "" false (shell_quote w +:+ quoted_words words))
      (fun l => Ret (emit_token verb false ++ l)) = Ret (verb :: w :: words)).
    rewrite shlex_quoted, shlex_words. cbn [obind]. unfold emit_token. by rewrite Ht. }
  cbn [obind]. rewrite Hl. by rewrite (proj2 (mem_In _ _) Hv).
Qed.

(** * The classifier and the parser *)

Lemma py_split_plain w token rest :
  plain w = true -> py_split_aux token (w +:+ String " " rest) =
  (if truthy (token +:+ w) then [token +:+ w] else []) ++ py_split_aux "" rest.
Proof.
  revert token. induction w as [| c w IH]; intros token; [by rewrite string_app_empty_r |].
  cbn [plain]. intros [Hc Hw]%andb_true_iff. apply plain_char_spec in Hc as (H & _ & _ & _).
  rewrite app_cons. cbn [py_split_aux]. rewrite H, IH by done. fold (push token c). by rewrite push_app.
Qed.

(** Classifier and parser agree on a command whose verb is written plainly:
    when [/oq verb ..] is parsed, its class is that of the parsed verb. *)
Theorem command_class_agrees verb rest envelope :
  plain verb = true -> truthy verb = true -> strip ("/oq " +:+ (verb +:+ String " " rest)) = "/oq " +:+ (verb +:+ String " " rest) ->
  parse ("/oq " +:+ (verb +:+ String " " rest)) = Ret envelope ->
  ce_verb envelope = lower verb /\
  _classify_command_intent ("/oq " +:+ (verb +:+ String " " rest)) =
    (if mem (ce_verb envelope) _MUTATION_VERBS then MUTATION
     else if mem (ce_verb envelope) _QUERY_VERBS then QUERY else ADMIN).
Proof.
  intros Hp Ht Hs. unfold parse. rewrite Hs. cbv zeta.
  assert (startswith ("/oq " +:+ (verb +:+ String " " rest)) _COMMAND_PREFIX = true) as -> by done. cbn [negb].
  rewrite shlex_command by done.
  change (shlex InWord verb false (String " " rest)) with
    (obind (shlex Outside "" false rest) (fun l => Ret (emit_token verb false ++ l))).
  unfold emit_token. rewrite Ht. destruct (shlex Outside "" false rest) as [l | e]; [| done]. cbn [obind orb app].
  destruct (mem (lower verb) _KNOWN_VERBS) eqn:Hk; [| done]. cbn [negb]. intros [= <-]. cbn [ce_verb]. split; [done |].
  unfold _classify_command_intent. change (py_split ("/oq " +:+ (verb +:+ String " " rest))) with
    ("/oq" :: py_split_aux "" (verb +:+ String " " rest)).
  rewrite py_split_plain by done. change ("" +:+ verb) with verb. rewrite Ht. cbn [app]. cbv zeta.
  destruct (mem (lower verb) _MUTATION_VERBS) eqn:E1; [done |].
  destruct (mem (lower verb) _QUERY_VERBS) eqn:E2; [done |].
  destruct (mem (lower verb) _ADMIN_VERBS) eqn:E3; [done |].
  apply mem_In in Hk. apply mem_not_In in E1, E2, E3. exfalso.
  cbn in Hk, E1, E2, E3. tauto.
Qed.

(** With an escaped space they differ: the classifier reads a query where the
    parser reads an approval; and the parser does not look at the first word. *)
Lemma escaped_space_hides_verb :
  let line := "/oq" +:+ String backslash " ask approve project-1" in
  _classify_command_intent line = QUERY /\
  (let? c := parse line in Ret (ce_verb c)) = Ret "approve".
Proof. split; reflexivity. Qed.

Lemma any_prefixed_word_is_a_command :
  (let? c := parse "/oqueue approve project-1" in Ret (ce_verb c, ce_target c)) = Ret ("approve", Some "project-1").
Proof. reflexivity. Qed.

Section classifier.
Context {E : Type} `{!Oracle E} `{!MonotonicClock E} `{!MetricRecorder E}.
Context (gateway : LlmGatewayRequest -> M E LlmGatewayResponse) (has_metrics : bool).
#[local] Abbreviation C := (classifier_state E).

(** No mutation was ever remembered. *)
Definition cache_ok (s : C) : Prop := forall k i t, cl_cache s !! k = Some (i, t) -> i <> MUTATION.

Lemma cl_ext_post {A} (m : M E A) s :
  post (cl_on_ext m) s (fun _ s' => cl_cache s' = cl_cache s) (fun _ s' => cl_cache s' = cl_cache s).
Proof. unfold post, cl_on_ext, zoom. by destruct (m (cl_ext s)) as [[]]. Qed.

(** A classification keeps the cache free of mutations, and of free text gives none. *)
Lemma classify_post message context (s : C) :
  cache_ok s ->
  post (classify gateway has_metrics message context) s
    (fun i s' => (startswith (strip message) _COMMAND_PREFIX = false -> i <> MUTATION) /\ cache_ok s') (fun _ s' => cache_ok s').
Proof.
  intros Hok. unfold classify. destruct (startswith _ _); [by apply post_ret |].
  apply (post_mono _ _ (fun i s' => i <> MUTATION /\ cache_ok s') _ (fun _ s' => cache_ok s')); [| by intros ? ? [] | done].
  unfold _classify_free_text. cbv zeta.
  assert (forall a b : C, cl_cache b = cl_cache a -> cache_ok a -> cache_ok b) as Hkeep.
  { intros a b Hab Ha k i t. rewrite Hab. apply Ha. }
  apply post_bind. eapply post_mono; [apply cl_ext_post | | intros ? ? Hx; exact (Hkeep _ _ Hx Hok)]. intros now s1 H1.
  apply Hkeep in H1; [| done]. clear Hok s. apply post_bind, post_gets.
  destruct (fresh_class _ now (cl_cache s1)) as [i |] eqn:Ec.
  { apply post_ret. split; [| done]. unfold fresh_class in Ec.
    destruct (cl_cache s1 !! _) as [[j t] |] eqn:El; simpl in Ec; [| done].
    destruct (f_ltb _ _); [| done]. injection Ec as <-. by eapply H1. }
  apply post_bind. eapply post_mono; [apply cl_ext_post | | intros ? ? Hx; exact (Hkeep _ _ Hx H1)]. intros id s2 H2.
  apply Hkeep in H2; [| done]. apply post_bind. eapply post_mono; [apply cl_ext_post | | intros ? ? Hx; exact (Hkeep _ _ Hx H2)].
  intros response s3 H3. apply Hkeep in H3; [| done]. clear - H3 Hkeep. destruct (negb _); [by apply post_ret |]. cbv zeta.
  case_bool_decide as Hm; [by apply post_raise |].
  apply post_bind, post_modify. apply post_bind.
  set (s4 := mk_classifier_state _ _). assert (cache_ok s4) as H4.
  { intros k i t. unfold s4. cbn [cl_cache]. intros [[_ [= <- <-]] | [_ Hl]]%lookup_insert_Some; [done | by eapply H3]. }
  clearbody s4. destruct has_metrics; [| by apply post_ret, post_ret].
  eapply post_mono; [apply cl_ext_post | | intros ? ? Hx; exact (Hkeep _ _ Hx H4)].
  intros u s5 H5. apply post_ret. split; [done | exact (Hkeep _ _ H5 H4)].
Qed.

(** Free text never is a mutation.  Classifying a message that is not a
    command gives a class other than MUTATION or raises, and keeps the cache free
    of mutations, so that a mutation is not remembered and each such message is
    refused again; when the model answers, an answer read as a mutation raises
    GRAM-004. *)
Theorem free_text_never_mutates message context (s : C) :
  startswith (strip message) _COMMAND_PREFIX = false -> cache_ok s ->
  post (classify gateway has_metrics message context) s
    (fun i s' => i <> MUTATION /\ cache_ok s') (fun _ s' => cache_ok s').
Proof.
  intros Hfree Hok. eapply post_mono; [by apply classify_post | | done]. intros i s' [Hi Hs]. auto.
Qed.
End classifier.

(** * Routing *)

(** The strategist is reached only by governed intents.  Free text of a
    project channel goes to the project manager; elsewhere it goes to the CSO
    exactly when the intent is a mutation or an administration in an executive or
    leadership channel, and to the secretary otherwise; with
    [free_text_never_mutates], only by ADMIN. *)
Theorem free_text_routing intent context :
  let role := rh_target_role (resolve_free_text intent context) in
  (role = "project_manager" <-> cx_chat_class context = "project") /\
  (role = "cso" <-> In (cx_chat_class context) ["leadership_council"; "executive"] /\ (intent = MUTATION \/ intent = ADMIN)) /\
  In role ["project_manager"; "cso"; "secretary"] /\
  rh_project_id (resolve_free_text intent context) = cx_project_id context.
Proof.
  unfold resolve_free_text. destruct (String.eqb_spec (cx_chat_class context) "project") as [-> | Hne].
  { cbn. split_and!; try done; [| tauto]. split; [done |]. by intros [[H | [H | []]] _]. }
  destruct (mem (cx_chat_class context) _CSO_ROUTING_CLASSES) eqn:Ecso.
  - assert (mem (cx_chat_class context) _INSTITUTIONAL_CLASSES = true) as ->.
    { apply mem_In. apply mem_In in Ecso. cbn in *. tauto. }
    apply mem_In in Ecso. destruct intent; cbn; split_and!; intuition (discriminate || done).
  - apply mem_not_In in Ecso. cbn [andb]. rewrite andb_false_r.
    assert (forall b c, rh_target_role (if b : bool then mk_RoutingHint "secretary" (cx_project_id context) c
      else mk_RoutingHint "secretary" (cx_project_id context) (f_lit 7 1)) = "secretary" /\
      rh_project_id (if b : bool then mk_RoutingHint "secretary" (cx_project_id context) c
      else mk_RoutingHint "secretary" (cx_project_id context) (f_lit 7 1)) = cx_project_id context) as H by (by intros []).
    destruct (H (mem (cx_chat_class context) _INSTITUTIONAL_CLASSES && intent_in intent [DISCUSSION; QUERY]) (f_lit 9 1)) as [-> ->].
    split_and!; [by split | | by right; right; left | done]. split; [done |]. by intros [? _].
Qed.

(** ** Topics *)

Lemma max_matches_ge m ms : In m ms -> (length m.2 <= max_matches ms)%nat.
Proof. induction ms as [| x ms IH]; [done |]. intros [-> | H]; simpl; [lia |]. specialize (IH H). lia. Qed.

Lemma max_matches_le ms n : (forall m, In m ms -> (length m.2 <= n)%nat) -> (max_matches ms <= n)%nat.
Proof.
  induction ms as [| x ms IH]; intros H; simpl; [lia |].
  pose proof (H x (or_introl eq_refl)). specialize (IH (fun m Hm => H m (or_intror Hm))). simpl in *. lia.
Qed.

Lemma filter_singleton {A} (f : A -> bool) (l : list A) (x : A) :
  NoDup l -> (List.filter f l = [x] <-> In x l /\ f x = true /\ forall y, In y l -> f y = true -> y = x).
Proof.
  intros Hnd. split.
  - intros H. assert (forall y, In y [x] <-> In y l /\ f y = true) as Hin by (intros y; rewrite <- H; apply filter_In).
    split_and!; [apply Hin; by left | apply Hin; by left |].
    intros y Hy Hf. by destruct (proj2 (Hin y) (conj Hy Hf)) as [<- | []].
  - induction Hnd as [| y l Hy Hnd IH]; [by intros [[] _] |]. intros ([-> | Hx] & Hf & Hu); simpl.
    + rewrite Hf. f_equal. assert (forall z, In z (List.filter f l) -> False) as Hno.
      { intros z [Hz Hfz]%filter_In. apply Hy. rewrite <- (Hu z (or_intror Hz) Hfz). by apply list_elem_of_In. }
      destruct (List.filter f l) as [| z r]; [done |]. by destruct (Hno z (or_introl eq_refl)).
    + destruct (f y) eqn:Ey; [| apply IH; split_and!; try done; intros z Hz; apply Hu; by right].
      exfalso. apply Hy, list_elem_of_In. by rewrite (Hu y (or_introl eq_refl) Ey).
Qed.

(** The selection of the source, without its special case of one match. *)
Lemma topic_winner text :
  classify_topic text =
  match List.filter (fun m => Nat.eqb (length m.2) (max_matches (topic_matches text))) (topic_matches text) with
  | [m] => Some (mk_RoutingDecision m.1 "high" m.2)
  | _ => None
  end.
Proof.
  unfold classify_topic. destruct (topic_matches text) as [| m [| m' ms]]; [done | | done].
  cbn [List.filter max_matches foldr]. by rewrite Nat.max_0_r, Nat.eqb_refl.
Qed.

Lemma topic_matches_In text role matched :
  In (role, matched) (topic_matches text) <->
  exists keywords, In (role, keywords) TOPIC_ROUTING_TABLE /\ matched = matched_keywords text keywords /\ matched <> [].
Proof.
  unfold topic_matches. rewrite filter_In, in_map_iff. cbn [fst snd]. split.
  - intros ([[r k] [[= <- <-] H]] & Hl). exists k. split_and!; try done. intros E. by rewrite E in Hl.
  - intros (k & H & -> & Hne). split; [by exists (role, k) |]. by destruct (matched_keywords text k).
Qed.

Lemma table_keys : NoDup (map fst TOPIC_ROUTING_TABLE).
Proof. apply (bool_decide_unpack _). vm_compute. exact I. Qed.

Lemma topic_matches_NoDup text : NoDup (map fst (topic_matches text)).
Proof.
  unfold topic_matches. pose proof table_keys as H. revert H. generalize TOPIC_ROUTING_TABLE.
  induction l as [| [r k] l IH]; [done |]. cbn [map fst List.filter]. intros [Hr H]%NoDup_cons.
  destruct (negb _); [| by apply IH]. cbn [map fst]. constructor; [| by apply IH].
  intros ([r' m] & Heq & [Hin _]%list_elem_of_In%filter_In)%list_elem_of_fmap. cbn in Heq. subst r'.
  apply in_map_iff in Hin as ([r' k'] & [= <- _] & Hin). apply Hr, list_elem_of_In, in_map_iff. by exists (r', k').
Qed.

Lemma keyed_unique {A B} (l : list (A * B)) (a b : A * B) :
  NoDup (map fst l) -> In a l -> In b l -> a.1 = b.1 -> a = b.
Proof.
  induction l as [| x l IH]; [done |]. cbn [map]. intros [Hx H]%NoDup_cons Ha Hb E.
  assert (forall y, In y l -> y.1 <> x.1) as Hno.
  { intros y Hy Hyx. apply Hx. rewrite <- Hyx. by apply list_elem_of_In, in_map. }
  destruct Ha as [-> | Ha], Hb as [-> | Hb]; [done | | | by apply IH].
  - by destruct (Hno _ Hb).
  - by destruct (Hno _ Ha).
Qed.

(** Topic routing elects the one role with the most keywords.  A message is
    routed to a role exactly when some keyword of the role occurs in it,
    case-insensitively, and every other role has strictly fewer; a tie or no match
    routes nowhere. *)
Theorem topic_routing_elects text decision :
  classify_topic text = Some decision <->
  exists role keywords,
    decision = mk_RoutingDecision role "high" (matched_keywords text keywords) /\
    In (role, keywords) TOPIC_ROUTING_TABLE /\ matched_keywords text keywords <> [] /\
    forall role' keywords', In (role', keywords') TOPIC_ROUTING_TABLE -> role' <> role ->
      (length (matched_keywords text keywords') < length (matched_keywords text keywords))%nat.
Proof.
  rewrite topic_winner. set (ms := topic_matches text).
  assert (NoDup ms) as Hnd by (eapply NoDup_fmap_1, topic_matches_NoDup).
  assert (forall role keywords, In (role, keywords) TOPIC_ROUTING_TABLE -> matched_keywords text keywords <> [] ->
    In (role, matched_keywords text keywords) ms) as Hms by (intros; apply topic_matches_In; eauto).
  split.
  - destruct (List.filter _ ms) as [| [role matched] [| m' l]] eqn:Ef; try done. intros [= <-].
    apply filter_singleton in Ef as (Hin & Hmax & Hu); [| done]. apply Nat.eqb_eq in Hmax. cbn [snd] in Hmax.
    pose proof Hin as Hin'. apply topic_matches_In in Hin' as (k & Hk & -> & Hne). exists role, k. split_and!; try done.
    intros role' k' Hk' Hr. destruct (decide (matched_keywords text k' = [])) as [-> |  Hne'].
    { destruct (matched_keywords text k); [done | simpl; lia]. }
    specialize (Hms role' k' Hk' Hne'). pose proof (max_matches_ge _ _ Hms) as Hge. cbn [snd] in Hge.
    destruct (Nat.eq_dec (length (matched_keywords text k')) (max_matches ms)) as [E | ?]; [| fold ms in Hmax; lia].
    exfalso. apply Hr. specialize (Hu _ Hms (proj2 (Nat.eqb_eq _ _) E)). congruence.
  - intros (role & k & -> & Hk & Hne & Hlt). pose proof (Hms role k Hk Hne) as Hin.
    assert (forall role' m', In (role', m') ms -> role' <> role -> (length m' < length (matched_keywords text k))%nat) as Hless.
    { intros role' m' (k' & Hk' & -> & _)%topic_matches_In Hr. by eapply Hlt. }
    assert (forall m', In (role, m') ms -> m' = matched_keywords text k) as Huniq.
    { intros m' (k' & Hk' & -> & _)%topic_matches_In. f_equal.
      assert ((role, k') = (role, k)) as [= ->]; [| done].
      by apply (keyed_unique TOPIC_ROUTING_TABLE); [apply table_keys | | |]. }
    assert (max_matches ms = length (matched_keywords text k)) as Hmax.
    { apply Nat.le_antisymm; [| apply (max_matches_ge _ _ Hin)]. apply max_matches_le. intros [r m] Hm. cbn [snd].
      destruct (String.eqb_spec r role) as [-> | Hr]; [by rewrite (Huniq m Hm) | apply Nat.lt_le_incl; by eapply Hless]. }
    rewrite (proj2 (filter_singleton _ ms (role, matched_keywords text k) Hnd)); [done |].
    split_and!; [done | by apply Nat.eqb_eq |]. intros [r m] Hm E%Nat.eqb_eq. cbn [snd] in E.
    destruct (String.eqb_spec r role) as [-> | Hr]; [by rewrite (Huniq m Hm) |].
    specialize (Hless r m Hm Hr). lia.
Qed.

(** ** Witnesses *)

Lemma command_roundtrip_witness :
  parse (command_line "ask" ["it's fine"; "two words"]) =
  Ret (mk_CommandEnvelope "ask" (Some "it's fine") ["two words"] (command_line "ask" ["it's fine"; "two words"])).
Proof. apply (command_roundtrip "ask" ["it's fine"; "two words"]). cbn. tauto. Defined.

Lemma command_class_agrees_witness :
  _classify_command_intent ("/oq " +:+ ("Approve" +:+ String " " "project-1")) = MUTATION.
Proof.
  destruct (command_class_agrees "Approve" "project-1"
    (mk_CommandEnvelope "approve" (Some "project-1") [] "/oq Approve project-1")) as [_ ->]; reflexivity.
Defined.

#[local] Instance tick_oracle : Oracle N := {
  uuid4 := fun n => (str_int (Z.of_N n), (n + 1)%N);
  utcnow := fun n => (mk_datetime 2026 1 1 0 0 0 0, n)
}.
#[local] Instance tick_clock : MonotonicClock N := { monotonic := fun n => (f_of_Z (Z.of_N n), (n + 1)%N) }.
#[local] Instance no_metrics : MetricRecorder N := { increment_counter := fun _ _ n => n }.

(** A model that answers every question with the same text. *)
Definition says {S} (text : string) : LlmGatewayRequest -> M S LlmGatewayResponse := fun q =>
  ret (mk_LlmGatewayResponse (lq_request_id q) (lq_trace_id q) "served" None None None None None "none" 0%Z
         (lq_policy_context q) [] None None false (Some text)).

Lemma free_text_never_mutates_witness :
  let context := mk_ChatContext "direct" "channel-1" None in
  post (classify (says " Mutation.") true "delete the project" context) (mk_classifier_state 0%N ∅)
    (fun i s' => i <> MUTATION /\ cache_ok s') (fun _ s' => cache_ok s').
Proof.
  intros context. apply (free_text_never_mutates (says " Mutation.") true "delete the project" context
    (mk_classifier_state 0%N ∅)); [reflexivity |]. intros k i t H. discriminate H.
Defined.

(** The answers as they are read. *)
Lemma mutation_is_refused :
  (classify (says " Mutation.") true "delete the project" (mk_ChatContext "direct" "channel-1" None)
     (mk_classifier_state 0%N ∅)).1 =
  Raise (GrammarParseError "GRAM-004" ("free-text input cannot be dispatched as a governed mutation. " +:+
    "Use explicit command syntax: /oq <verb> [target] [args]")
    [("detected_intent", "mutation"); ("input_preview", "delete the project")]).
Proof. reflexivity. Qed.

Lemma first_named_class_wins : _parse_intent_token "mutation, not a discussion" = DISCUSSION.
Proof. reflexivity. Qed.
