(* ===== verification/Secretary.v ===== *)
(** The secretary, and its read-only view of projects and tasks.

    Models [agents/secretary/data_access.py] and [agents/secretary/agent.py]. *)

From S2P Require Import Prelude PyStr PyData LlmSchemas PyFloat Task Budget LoopControl Policy Runtime.
From S2P Require Import ProjectModel ProjectRows ProjectRepo Artifacts Conversation AgentBase Grammar.

(** * Data access *)

Record ProjectSnapshot : Type := mk_ProjectSnapshot {
  ps_project_id : string;
  ps_status : string;
  ps_title : option string;
  ps_active_task_count : Z;
  ps_blocked_task_count : Z
}.

Record TaskRuntimeContext : Type := mk_TaskRuntimeContext {
  tr_task_id : string;
  tr_status : string;
  tr_principal_id : string;
  tr_trace_id : string;
  tr_error_code : option string
}.

Record DashboardSummary : Type := mk_DashboardSummary {
  ds_total_project_count : Z;
  ds_active_task_count : Z;
  ds_blocked_task_count : Z;
  ds_failed_task_count : Z
}.

Definition count_tasks (f : TaskRecord -> bool) (tasks : list TaskRecord) : Z := Z.of_nat (length (List.filter f tasks)).

Definition is_active (t : TaskRecord) : bool := mem (status t) ["queued"; "running"; "dispatched"].

Section data_access.
Context {E : Type}.
#[local] Abbreviation O := (office E).

(** A project record has no [title]. *)
Definition get_project_snapshot (project_id : string) : M O (option ProjectSnapshot) :=
  try
    (let! project := of_on_projects (get_project project_id) in
     match project with
     | None => ret None
     | Some p =>
         let! tasks := of_on_tasks list_tasks in
         let project_tasks := List.filter (fun t => bool_decide (Task.project_id t = Some project_id)) tasks in
         ret (Some (mk_ProjectSnapshot project_id (status_str (p_status p)) None (count_tasks is_active project_tasks)
                      (count_tasks (fun t => String.eqb (status t) "blocked") project_tasks)))
     end)
    (fun _ => Some (ret None)).

Definition get_task_runtime_context (tid : string) : M O (option TaskRuntimeContext) :=
  try
    (let! task := of_on_tasks (get_task_by_id tid) in
     ret ((fun t => mk_TaskRuntimeContext (task_id t) (status t) (principal_id t) (trace_id t) (outcome_error_code t)) <$> task))
    (fun _ => Some (ret None)).

Definition get_dashboard_summary : M O DashboardSummary :=
  try
    (let! tasks := of_on_tasks list_tasks in
     let projects := dedup (List.filter truthy (omap Task.project_id tasks)) in
     ret (mk_DashboardSummary (Z.of_nat (length projects)) (count_tasks is_active tasks)
            (count_tasks (fun t => String.eqb (status t) "blocked") tasks)
            (count_tasks (fun t => String.eqb (status t) "failed") tasks)))
    (fun _ => Some (ret (mk_DashboardSummary 0 0 0 0))).
End data_access.

(** * The agent *)

Record SecretaryRequest : Type := mk_SecretaryRequest {
  sq_message : string;
  sq_intent : IntentClass;
  sq_context : ChatContext;
  sq_trace_id : string;
  sq_channel_id : string;
  sq_guild_id : string;
  sq_actor_id : string;
  sq_addressed_agent : string
}.

Record SecretaryResponse : Type := mk_SecretaryResponse {
  sr_advisory_text : string;
  sr_intent_confirmed : IntentClass;
  sr_routing_suggestion : option string;
  sr_trace_id : string;
  sr_policy_version : string;
  sr_policy_hash : string;
  sr_rule_ids : list string
}.

Definition _DENIED_INTENTS : list IntentClass := [MUTATION; ADMIN].

Definition _build_routing_suggestion (request : SecretaryRequest) : option string :=
  if bool_decide (sq_intent request = QUERY) then
    if String.eqb (cx_chat_class (sq_context request)) "governance" then Some "Try: /oq ask auditor <topic>"
    else if String.eqb (cx_chat_class (sq_context request)) "executive" then
      Some "Try: /oq ask ceo <topic> or /oq ask cwo <topic>"
    else Some "Try: /oq status <project> or /oq ask <agent> <question>"
  else None.

(** The prompts of [secretary/prompts.py]. *)
Record secretary_prompts : Type := mk_secretary_prompts {
  sp_system : string;
  sp_query : string -> string -> string;
  sp_disambiguation : string -> string -> string
}.

Section agent.
Context {E : Type} `{!Oracle E} `{!ConversationStore E} `{!MetricRecorder E}.
Context (gateway : LlmGatewayRequest -> M E LlmGatewayResponse) (prompts : secretary_prompts).
Context (has_data_access has_store has_metrics : bool).
#[local] Abbreviation O := (office E).
#[local] Abbreviation nl := (String (Ascii.ascii_of_nat 10) "").

Definition secretary_llm : llm_profile :=
  mk_llm_profile "secretary" (absolute_budget 256) (mk_LlmPolicyContext "v2" "secretary-advisory-v1" ["advisory_only"]).

Definition secretary_fallback : string :=
  "I received your message. For specific actions, use `/oq <verb> [target] [args]`. " +:+
  "For project questions, try `/oq ask project_manager <project> <question>`.".

Definition snapshot_text (s : ProjectSnapshot) : string :=
  nl +:+ "Project context: " +:+ ps_project_id s +:+ " status=" +:+ ps_status s +:+ " active_tasks=" +:+
  str_int (ps_active_task_count s) +:+ " blocked_tasks=" +:+ str_int (ps_blocked_task_count s).

Definition addressed_text (agent : string) : string :=
  "The user's message was directed at the " +:+ agent +:+ " agent, but you are Secretary — do NOT roleplay as or speak as the " +:+
  agent +:+ ". As Secretary, briefly explain what the " +:+ agent +:+ " handles and how the user can reach them (e.g. `/oq ask " +:+
  agent +:+ " <topic>`).".

Definition secretary_prompt (request : SecretaryRequest) (snapshot : option ProjectSnapshot) : string :=
  let template := if bool_decide (sq_intent request = QUERY) then sp_query prompts else sp_disambiguation prompts in
  let prompt := template (cx_chat_class (sq_context request)) (String.substring 0 500 (sq_message request)) in
  let prompt := if truthy (sq_addressed_agent request)
                then addressed_text (sq_addressed_agent request) +:+ nl +:+ nl +:+ prompt else prompt in
  match snapshot with Some s => prompt +:+ snapshot_text s | None => prompt end.

(** The scope of the channel, when turns are kept. *)
Definition secretary_scope (request : SecretaryRequest) : option string :=
  if has_store && truthy (sq_channel_id request) then
    Some ("guild::" +:+ opt_or (Some (strip (sq_guild_id request))) "guild-unspecified" +:+ "::channel::" +:+
          opt_or (Some (strip (sq_channel_id request))) "channel-unspecified")
  else None.

Definition secretary_history (turns : list ConversationTurn) (prompt : string) : string :=
  match turns with
  | [] => sp_system prompts +:+ nl +:+ nl +:+ prompt
  | _ =>
      sp_system prompts +:+ nl +:+ nl +:+ "Conversation so far:" +:+ nl +:+
      join nl (map (fun t => (if String.eqb (cv_role t) "user" then "User" else "Secretary") +:+ ": " +:+ cv_content t) turns) +:+
      nl +:+ nl +:+ prompt
  end.

Definition secretary_advisory (request : SecretaryRequest) : M O string :=
  let project_id := cx_project_id (sq_context request) in
  let! snapshot := match project_id with
                   | Some p => if has_data_access && truthy p then get_project_snapshot p else ret None
                   | None => ret None
                   end in
  let scope := secretary_scope request in
  let! turns := match scope with Some s => of_on_ext (list_turns s) | None => ret [] end in
  let! result := of_on_ext (_complete_llm gateway secretary_llm "advisory_response" 256 (f_lit 3 1) project_id
    (sq_trace_id request) (secretary_history turns (secretary_prompt request snapshot)) secretary_fallback) in
  (if has_metrics then of_on_ext (modify (increment_counter "llm_calls_total" [("purpose", "secretary_response")]))
   else ret tt) ;!
  match scope with
  | Some s => of_on_ext (append_turns s (sq_message request) result None)
  | None => ret tt
  end ;!
  ret result.

Definition secretary_handle (request : SecretaryRequest) : M O SecretaryResponse :=
  if intent_in (sq_intent request) _DENIED_INTENTS then
    raise (SecretaryPolicyError "secretary_advisory_policy_denied"
      ("Secretary advisory policy denies " +:+ intent_str (sq_intent request) +:+
       " intent. Use explicit command syntax for governed actions."))
  else
    let! advisory_text := secretary_advisory request in
    ret (mk_SecretaryResponse advisory_text (sq_intent request) (_build_routing_suggestion request) (sq_trace_id request)
           "v2" "secretary-advisory-v1" ["AUTH-004"; "AUTH-005"]).
End agent.
