(* ===== verification/Executive.v ===== *)
(** The executive agents: strategist (CSO) and chief executive (CEO).

    Models [agents/cso/agent.py], [agents/ceo/agent.py] and
    [agents/ceo/decision_writer.py].  The prompts are parameters. *)

From Stdlib Require Import Ascii.
From S2P Require Import Prelude PyStr PyData LlmSchemas PyFloat Task Budget LoopControl Policy Runtime.
From S2P Require Import ProjectModel ProjectRows ProjectRepo Artifacts Conversation AgentBase Grammar.

(** [any(keyword in text for keyword in keywords)]. *)
Definition any_keyword (text : string) (keywords : list string) : bool := existsb (contains text) keywords.

(** [text.replace(a, b)] for each pair, in order. *)
Definition replace_all (pairs : list (string * string)) (text : string) : string :=
  foldl (fun t p => str_replace t p.1 p.2) text pairs.

(** [dict(base, **more)]. *)
Fixpoint jset (o : list (string * json)) (k : string) (v : json) : list (string * json) :=
  match o with
  | [] => [(k, v)]
  | (k', v') :: o' => if String.eqb k' k then (k, v) :: o' else (k', v') :: jset o' k v
  end.

Definition jupdate (o more : list (string * json)) : list (string * json) := foldl (fun acc kv => jset acc kv.1 kv.2) o more.

(** * CSO *)

Record CSORequest : Type := mk_CSORequest {
  cq_message : string;
  cq_intent : IntentClass;
  cq_context : ChatContext;
  cq_trace_id : string;
  cq_proposal_id : option string;
  cq_portfolio_context : option string
}.

Record CSOConflictFlag : Type := mk_CSOConflictFlag {
  cf_flag_type : string;
  cf_reason : string;
  cf_escalate_to : option string
}.

Record CSOResponse : Type := mk_CSOResponse {
  cr_advisory_text : string;
  cr_intent_confirmed : IntentClass;
  cr_trace_id : string;
  cr_strategic_note : option string;
  cr_conflict_flag : option CSOConflictFlag
}.

Definition _STRATEGIC_CONFLICT_KEYWORDS : list string := ["strategic conflict"; "escalation to ceo"; "conflicts with"].
Definition _NEEDS_REVISION_KEYWORDS : list string := ["needs revision"; "addressable"; "recommend revising"].

Definition _parse_conflict_flag (advisory_text : string) : option CSOConflictFlag :=
  if any_keyword (lower advisory_text) _STRATEGIC_CONFLICT_KEYWORDS then
    Some (mk_CSOConflictFlag "strategic_conflict" (String.substring 0 200 advisory_text) (Some "ceo"))
  else if any_keyword (lower advisory_text) _NEEDS_REVISION_KEYWORDS then
    Some (mk_CSOConflictFlag "needs_revision" (String.substring 0 200 advisory_text) None)
  else None.

Definition _classify_outcome (conflict_flag : option CSOConflictFlag) : string :=
  match conflict_flag with
  | None => "Aligned"
  | Some f => if String.eqb (cf_flag_type f) "strategic_conflict" then "Strategic Conflict" else "Needs Revision"
  end.

Definition _build_strategic_note (request : CSORequest) (conflict_flag : option CSOConflictFlag) : option string :=
  let flagged t := match conflict_flag with Some f => String.eqb (cf_flag_type f) t | None => false end in
  if flagged "strategic_conflict" then
    Some "Strategic conflict detected. Escalation to CEO required before proposal advances."
  else if flagged "needs_revision" then
    Some "Proposal needs revision. Address CSO recommendations before advancing."
  else if intent_in (cq_intent request) [MUTATION; ADMIN] then
    Some "Governed actions require explicit command syntax: /oq <verb> [target] [args]"
  else None.

Definition _CSO_REVIEW_WRITE_CONTEXT : ProjectArtifactWriteContext := mk_ProjectArtifactWriteContext "ceo" "active" [].

Definition cso_fallback : string :=
  "Strategic review unavailable. For portfolio or proposal questions, " +:+
  "provide proposal context or use `/oq ask cso <topic>`.".

Definition cso_llm : llm_profile :=
  mk_llm_profile "cso" (absolute_budget 512) (mk_LlmPolicyContext "v2" "cso-strategic-advisory-v1" ["GATE-006"; "STR-001"]).

Section cso.
Context {E : Type} `{!Oracle E}.
Context (gateway : LlmGatewayRequest -> M E LlmGatewayResponse).
Context (cfg : artifact_config) (codec : json_codec).
Context (cso_review_prompt : string -> string -> string -> string) (cso_advisory_prompt : string -> string -> string).
#[local] Abbreviation O := (office E).

(** Project records have no title. *)
Definition _read_portfolio_context (project_id : option string) : M O string :=
  let! part :=
    match project_id with
    | Some p =>
        if truthy p then
          try (let! project := of_on_projects (get_project p) in
               ret ((fun r => "Project " +:+ p +:+ ": status=" +:+ status_str (p_status r) +:+ ", title=unknown") <$> project))
            (fun _ => Some (ret None))
        else ret None
    | None => ret None
    end in
  ret (default "No portfolio context available." part).

Definition _generate_advisory (request : CSORequest) (portfolio_context : string) : M E string :=
  let message := String.substring 0 500 (cq_message request) in
  let prompt := if opt_truthy (cq_proposal_id request)
                then cso_review_prompt (opt_or (cq_proposal_id request) "") message portfolio_context
                else cso_advisory_prompt (cx_chat_class (cq_context request)) message in
  _complete_llm gateway cso_llm "strategic_advisory" 512 (f_lit 2 1) (cx_project_id (cq_context request))
    (cq_trace_id request) prompt cso_fallback.

(** The record of a review. *)
Definition review_payload (proposal_id review_outcome advisory_text trace_id created_at : string) : json :=
  JObj [("event_type", JStr "cso_review_outcome"); ("proposal_id", JStr proposal_id);
        ("review_outcome", JStr review_outcome); ("cso_advisory_text", JStr advisory_text);
        ("trace_id", JStr trace_id); ("created_at", JStr created_at)].

(** A failure of the write is logged only. *)
Definition _write_governance_record (proposal_id project_id review_outcome advisory_text trace_id : string) : M O unit :=
  let! now := of_now in
  try (let! _ := write_artifact cfg project_id "cso_review"
         (dumps_unicode codec (review_payload proposal_id review_outcome advisory_text trace_id (isoformat now)))
         _CSO_REVIEW_WRITE_CONTEXT in ret tt)
    (fun _ => Some (ret tt)).

Definition gate006_note : string :=
  "GATE-006 error: CSO review record could not be persisted — " +:+
  "proposal_id is present but project_id is absent. " +:+
  "This proposal MUST NOT advance to CEO+CWO review until " +:+
  "project context is provided and a GATE-006 record is on file.".

Definition cso_handle (request : CSORequest) : M O CSOResponse :=
  let project_id := cx_project_id (cq_context request) in
  let! portfolio_context := match cq_portfolio_context request with
                            | Some t => if truthy t then ret t else _read_portfolio_context project_id
                            | None => _read_portfolio_context project_id
                            end in
  let! advisory_text := of_on_ext (_generate_advisory request portfolio_context) in
  let conflict_flag := _parse_conflict_flag advisory_text in
  let strategic_note := _build_strategic_note request conflict_flag in
  let! strategic_note :=
    if opt_truthy (cq_proposal_id request) then
      if opt_truthy project_id then
        _write_governance_record (opt_or (cq_proposal_id request) "") (opt_or project_id "")
          (_classify_outcome conflict_flag) advisory_text (cq_trace_id request) ;!
        ret strategic_note
      else ret (Some gate006_note)
    else ret strategic_note in
  ret (mk_CSOResponse advisory_text (cq_intent request) (cq_trace_id request) strategic_note conflict_flag).
End cso.

(** * CEO *)

Record CeoRequest : Type := mk_CeoRequest {
  eq_message : string;
  eq_intent : string;
  eq_context : list (string * json);
  eq_proposal_id : option string;
  eq_cso_review_outcome : option string;
  eq_trace_id : string
}.

Record CeoResponse : Type := mk_CeoResponse {
  er_decision : option string;
  er_advisory_text : string;
  er_routing_hint : option string;
  er_trace_id : string
}.

Definition _ADVISORY_MARKERS : list string :=
  ["i suggest"; "you might consider"; "consider "; "i recommend"; "recommend "; "you may want to"].
Definition ceo_workforce_keywords : list string :=
  ["workforce"; "hiring"; "hire"; "staff"; "staffing"; "headcount"; "recruit"; "specialist assignment"].
Definition ceo_strategy_keywords : list string :=
  ["strategy"; "strategic"; "portfolio"; "roadmap"; "prioritization"; "priority"; "cross-project"].
Definition ceo_owner_keywords : list string :=
  ["structural exception"; "constitutional exception"; "constitution"; "structural"; "owner decision"; "owner override"].
Definition ceo_project_keywords : list string :=
  ["project execution"; "milestone"; "deliverable"; "task execution"; "execution blocker"].

Definition _parse_proposal_decision (text : string) : string :=
  let lowered := lower (strip text) in
  if search_words ["needs_revision"; "needs revision"; "needs-revision"; "needsrevision"] false lowered then "needs_revision"
  else if search_words ["deny"; "denied"] false lowered then "denied"
  else if search_words ["approve"; "approved"] false lowered then "approved"
  else "needs_revision".

Definition ceo_replacements : list (string * string) :=
  [("I suggest", "Proceed"); ("I recommend", "Proceed"); ("You might consider", "Proceed"); ("Consider ", "Execute ");
   ("consider ", "execute ")].

Definition _ensure_executive_language (prefix text : string) : string :=
  let stripped := strip text in
  let lowered := foldl (fun t marker => str_replace t marker "") (lower stripped) _ADVISORY_MARKERS in
  let normalized := replace_all ceo_replacements stripped in
  if any_keyword (lower stripped) _ADVISORY_MARKERS then prefix +:+ ": " +:+ normalized
  else if existsb (startswith lowered) ["decision:"; "directive:"; "route:"; "approval:"] then stripped
  else prefix +:+ ": " +:+ normalized.

Definition _CEO_PROPOSAL_WRITE_CONTEXT : ProjectArtifactWriteContext := mk_ProjectArtifactWriteContext "ceo" "proposed" [].
Definition _CEO_COAPPROVAL_WRITE_CONTEXT : ProjectArtifactWriteContext := mk_ProjectArtifactWriteContext "ceo" "active" [].

Definition ceo_llm : llm_profile :=
  mk_llm_profile "ceo" (absolute_budget 512)
    (mk_LlmPolicyContext "v2" "ceo-v1" ["AUTH-001"; "AUTH-002"; "GOV-001"; "ORCH-001"; "ORCH-005"]).

(** The prompts of [ceo/prompts.py]. *)
Record ceo_prompts : Type := mk_ceo_prompts {
  ep_system : string;
  ep_directive : CeoRequest -> string -> string;
  ep_proposal : CeoRequest -> string -> string -> Z -> string -> string;
  ep_controlled_doc : string -> string -> string -> string
}.

Section ceo.
Context {E : Type} `{!Oracle E}.
Context (gateway : LlmGatewayRequest -> M E LlmGatewayResponse).
Context (cfg : artifact_config) (codec : json_codec) (str_float : spec_float -> string) (prompts : ceo_prompts).
#[local] Abbreviation O := (office E).
#[local] Abbreviation nl := (String (ascii_of_nat 10) "").

Definition context_text (context : list (string * json)) (k : string) : option string :=
  _optional_str str_float (jfield context k).

Definition _coerce_bool (value : option json) : bool :=
  match value with
  | Some (JBool b) => b
  | None | Some JNull => false
  | Some v => mem (norm (json_str str_float v)) ["1"; "true"; "yes"; "y"; "on"]
  end.

(** The text that the routing of a request looks into. *)
Definition routing_text (message : string) (context : list (string * json)) : string :=
  lower (join " " [message; _context_summary str_float context; opt_or (context_text context "topic") ""]).

Definition _classify_routing_hint (request : CeoRequest) : option string :=
  let message := routing_text (eq_message request) (eq_context request) in
  if any_keyword message ceo_owner_keywords then Some "owner"
  else if any_keyword message ceo_workforce_keywords then Some "cwo"
  else if any_keyword message ceo_strategy_keywords then Some "cso"
  else if any_keyword message ceo_project_keywords then Some "project_manager"
  else None.

Definition ceo_complete (project_id : option string) (trace_id prompt fallback : string) : M O string :=
  of_on_ext (_complete_llm gateway ceo_llm "executive_decision" 512 (f_lit 2 1) project_id trace_id
    (ep_system prompts +:+ nl +:+ nl +:+ prompt) fallback).

Definition _FALLBACK_DIRECTIVE : string :=
  "Decision: hold execution at the current governance boundary until the required context and " +:+
  "executive owner are confirmed.".
Definition _FALLBACK_PROPOSAL_REVIEW : string :=
  "Decision: needs_revision. Resolve the strategic and governance defects before resubmission.".
Definition _FALLBACK_COAPPROVAL : string :=
  "Decision: CEO co-approval recorded. Proceed only within governed change-control boundaries.".

(** ** Decision records *)

Definition require_decision_scope (project_id : option string) (proposal_id : string) : outcome string :=
  match project_id with
  | Some p => if truthy (strip p) then Ret (strip p)
              else Raise (ValueError ("CEO decision record requires project_id for proposal " +:+ proposal_id))
  | None => Raise (ValueError ("CEO decision record requires project_id for proposal " +:+ proposal_id))
  end.

Definition decision_payload (proposal_id decision rationale : string) (cso_review_outcome : option string)
    (revision_cycle_count : Z) (override_flag : bool) (trace_id created_at : string) : json :=
  JObj [("event_type", JStr "ceo_proposal_decision"); ("proposal_id", JStr proposal_id); ("decision", JStr decision);
        ("rationale", JStr rationale); ("cso_review_outcome", opt_json cso_review_outcome);
        ("revision_cycle_count", JInt revision_cycle_count); ("override_flag", JBool override_flag);
        ("trace_id", JStr trace_id); ("created_at", JStr created_at)].

Definition write_proposal_decision (proposal_id : string) (project_id : option string) (decision rationale : string)
    (cso_review_outcome : option string) (revision_cycle_count : Z) (override_flag : bool) (trace_id : string) : M O unit :=
  let! project := of_outcome (require_decision_scope project_id proposal_id) in
  let! now := of_now in
  let! _ := write_artifact cfg project "ceo_proposal_decision"
    (dumps codec (decision_payload proposal_id decision rationale cso_review_outcome revision_cycle_count override_flag
       trace_id (isoformat now))) _CEO_PROPOSAL_WRITE_CONTEXT in
  ret tt.

Definition write_coapproval_record (project_id approval_type : string) (artifact_type : option string) (trace_id : string)
    : M O unit :=
  let! now := of_now in
  let! _ := write_artifact cfg project_id "ceo_coapproval"
    (dumps codec (JObj [("event_type", JStr "ceo_coapproval"); ("approval_type", JStr approval_type);
       ("artifact_type", opt_json artifact_type); ("trace_id", JStr trace_id); ("created_at", JStr (isoformat now))]))
    _CEO_COAPPROVAL_WRITE_CONTEXT in
  ret tt.

(** ** Evidence *)

Definition payload_of (d : ProjectArtifactDocument) : list (string * json) := _load_record_payload codec (ad_content d).

(** [event_type in {None, kind}]. *)
Definition event_is_or_absent (payload : list (string * json)) (kind : string) : bool :=
  match context_text payload "event_type" with None => true | Some e => String.eqb e kind end.

Definition cso_record_matches (proposal_id : string) (d : ProjectArtifactDocument) : bool :=
  field_is (payload_of d) "proposal_id" proposal_id && event_is_or_absent (payload_of d) "cso_review_outcome".

Definition _verify_cso_review_record (proposal_id : string) : M O (option (list (string * json))) :=
  let! records := of_on_artifacts (list_artifact_documents_by_type "cso_review") in
  ret (payload_of <$> List.find (cso_record_matches proposal_id) (rev records)).

Definition counts_as (proposal_id field value : string) (d : ProjectArtifactDocument) : bool :=
  field_is (payload_of d) "proposal_id" proposal_id && field_is (payload_of d) field value.

Definition _read_revision_cycle_count (proposal_id : string) : M O Z :=
  let! reviews := of_on_artifacts (list_artifact_documents_by_type "cso_review") in
  let! decisions := of_on_artifacts (list_artifact_documents_by_type "ceo_proposal_decision") in
  ret (Z.of_nat (length (List.filter (counts_as proposal_id "review_outcome" "Strategic Conflict") reviews) +
                 length (List.filter (counts_as proposal_id "decision" "needs_revision") decisions))).

(** A co-approval record of a type, latest first. *)
Definition has_coapproval (project_id artifact_type approval_type : string) : M O bool :=
  let! documents := of_on_artifacts (list_artifact_documents project_id artifact_type) in
  ret (existsb (fun d => field_is (payload_of d) "approval_type" approval_type) (rev documents)).

Definition _verify_cwo_coapproval (project_id approval_type : string) : M O bool :=
  has_coapproval project_id "cwo_coapproval" approval_type.

(** ** Handlers *)

Definition directive_response (request : CeoRequest) (text : string) (hint : option string) : CeoResponse :=
  mk_CeoResponse None text hint (eq_trace_id request).

Definition ceo_directive (request : CeoRequest) : M O string :=
  ceo_complete (context_text (eq_context request) "project_id") (eq_trace_id request)
    (ep_directive prompts request (_context_summary str_float (eq_context request))) _FALLBACK_DIRECTIVE.

Definition _handle_directive (request : CeoRequest) : M O CeoResponse :=
  match _classify_routing_hint request with
  | Some "owner" => ret (directive_response request
      ("Directive: structural or constitutional exception detected. Escalate to " +:+ "owner for decision authority.")
      (Some "owner"))
  | Some "cwo" => ret (directive_response request
      ("Directive: workforce lifecycle matter detected. Route to CWO for execution " +:+ "authority and governed handling.")
      (Some "cwo"))
  | Some "cso" => ret (directive_response request
      ("Directive: strategy question detected. Route to CSO for strategic review and " +:+ "portfolio analysis.") (Some "cso"))
  | Some "project_manager" => ret (directive_response request
      ("Directive: project execution concern detected. Route to Project Manager for " +:+ "operational handling.")
      (Some "project_manager"))
  | _ =>
      let! directive := ceo_directive request in
      ret (directive_response request (_ensure_executive_language "Decision" directive) None)
  end.

Definition _handle_proposal_review (request : CeoRequest) : M O CeoResponse :=
  match eq_proposal_id request with
  | None => raise (CeoProposalGateError "GATE-005 denied: proposal_id is required for CEO review")
  | Some proposal_id =>
  if negb (truthy (strip proposal_id)) then
    raise (CeoProposalGateError "GATE-005 denied: proposal_id is required for CEO review")
  else
    let! cso_record := _verify_cso_review_record (strip proposal_id) in
    match cso_record with
    | None => raise (CeoProposalGateError "GATE-005 denied: no CSO review record")
    | Some record =>
        let! revision_cycle_count := _read_revision_cycle_count (strip proposal_id) in
        let override_flag := _coerce_bool (jfield (eq_context request) "override_flag") in
        let cso_review_outcome := if opt_truthy (eq_cso_review_outcome request) then eq_cso_review_outcome request
                                  else context_text record "review_outcome" in
        if bool_decide (cso_review_outcome = Some "Strategic Conflict") && (3 <=? revision_cycle_count)%Z && negb override_flag
        then raise (CeoProposalGateError "GATE-003 denied: Strategic Conflict exceeded three unresolved revision cycles")
        else
          let project_id := context_text (eq_context request) "project_id" in
          let scope := opt_or (context_text (eq_context request) "project_scope")
                         (opt_or (context_text (eq_context request) "scope") "unspecified") in
          let! llm_text := ceo_complete project_id (eq_trace_id request)
            (ep_proposal prompts request (opt_or cso_review_outcome "unknown")
               (opt_or (context_text record "cso_advisory_text") "No CSO advisory text recorded.") revision_cycle_count scope)
            _FALLBACK_PROPOSAL_REVIEW in
          let decision := _parse_proposal_decision llm_text in
          let rationale := strip llm_text in
          write_proposal_decision proposal_id project_id decision rationale cso_review_outcome revision_cycle_count
            override_flag (eq_trace_id request) ;!
          ret (mk_CeoResponse (Some decision) (_ensure_executive_language "Decision" rationale) None (eq_trace_id request))
    end
  end.

Definition _handle_executive_mutation (request : CeoRequest) : M O CeoResponse :=
  match _classify_routing_hint request with
  | Some _ => _handle_directive request
  | None =>
      let! mutation_text := ceo_directive request in
      ret (directive_response request (_ensure_executive_language "Directive" mutation_text) None)
  end.

Definition ceo_coapproval (request : CeoRequest) : M O CeoResponse :=
  match context_text (eq_context request) "project_id" with
  | None => raise (CeoCoApprovalError "ORCH-005 denied: project_id is required for CEO co-approval")
  | Some project_id =>
      let approval_type := opt_or (context_text (eq_context request) "approval_type") "controlled_doc_edit" in
      let artifact_type := context_text (eq_context request) "artifact_type" in
      let! confirmed := _verify_cwo_coapproval project_id approval_type in
      if negb confirmed then
        raise (CeoCoApprovalError "ORCH-005 denied: missing CWO co-approval evidence for the requested action")
      else
        let! narrative := ceo_complete (Some project_id) (eq_trace_id request)
          (ep_controlled_doc prompts project_id approval_type (opt_or artifact_type "none")) _FALLBACK_COAPPROVAL in
        write_coapproval_record project_id approval_type artifact_type (eq_trace_id request) ;!
        ret (mk_CeoResponse (Some "approved") (_ensure_executive_language "Decision" narrative) None (eq_trace_id request))
  end.

Definition ceo_handle (request : CeoRequest) : M O CeoResponse :=
  let intent := upper (strip (eq_intent request)) in
  if mem intent ["DISCUSSION"; "QUERY"] then _handle_directive request
  else if String.eqb intent "MUTATION" then
    if opt_truthy (eq_proposal_id request) then _handle_proposal_review request else _handle_executive_mutation request
  else if String.eqb intent "ADMIN" then ceo_coapproval request
  else raise (ValueError ("Unsupported CEO intent: " +:+ py_repr (eq_intent request))).
End ceo.
