(* ===== verification/Workforce.v ===== *)
(** The workforce agent (CWO) and the workforce initializer.

    Models [agents/cwo/agent.py] and [agents/cwo/workforce_initializer.py]; the
    agent calls the strategist and the chief executive of [Executive]. *)

From Stdlib Require Import Ascii.
From S2P Require Import Prelude PyStr PyData LlmSchemas PyFloat Task Budget LoopControl Policy Runtime.
From S2P Require Import ProjectModel ProjectRows ProjectRepo Artifacts Conversation AgentBase AgentRegistry.
From S2P Require Import Grammar Secretary Executive.

Record CwoRequest : Type := mk_CwoRequest {
  wq_message : string;
  wq_intent : string;
  wq_project_id : option string;
  wq_context : list (string * json);
  wq_trace_id : string
}.

Record CwoResponse : Type := mk_CwoResponse {
  wr_action_taken : option string;
  wr_advisory_text : string;
  wr_workforce_status : option string;
  wr_trace_id : string
}.

Definition cwo_strategy_keywords : list string :=
  ["strategy"; "strategic"; "domain dispute"; "portfolio conflict"; "cross-project"].
Definition cwo_execution_keywords : list string :=
  ["execution risk"; "delivery blocker"; "milestone blocker"; "project execution"; "implementation risk"].
Definition cwo_budget_keywords : list string :=
  ["budget blocker"; "budget risk"; "budget overrun"; "policy blocker"; "funding blocker"].

Definition _route_text (route : string) : string :=
  if String.eqb route "cso" then "Command: route the domain strategy dispute to CSO for strategic review."
  else if String.eqb route "project_manager" then
    "Command: route the project execution risk to Project Manager for operational handling."
  else "Command: route the budget or policy blocker to CEO for executive action.".

(** [re.sub(r"\bi approve\b", target, text, flags=IGNORECASE)]. *)
Fixpoint sub_words (word target : string) (skip : nat) (prev : bool) (s : string) : string :=
  match s with
  | EmptyString => ""
  | String c s' =>
      match skip with
      | S k => sub_words word target k (is_word_char c) s'
      | O => if negb prev && word_here word (lower s)
             then target +:+ sub_words word target (String.length word - 1) (is_word_char c) s'
             else String c (sub_words word target O (is_word_char c) s')
      end
  end.

Definition cwo_replacements : list (string * string) :=
  [("I suggest", "Execute"); ("I recommend", "Execute"); ("You might consider", "Execute"); ("Consider ", "Execute ");
   ("consider ", "execute ")].

Definition _ensure_command_language (prefix text : string) : string :=
  let stripped := strip text in
  let lowered := lower stripped in
  let normalized := sub_words "i approve" "CEO approval is recorded" O false (replace_all cwo_replacements stripped) in
  if any_keyword lowered _ADVISORY_MARKERS then prefix +:+ ": " +:+ normalized
  else if existsb (startswith lowered) ["status:"; "command:"; "route:"; "directive:"] then normalized
  else prefix +:+ ": " +:+ normalized.

Definition _infer_workforce_status (snapshot : option ProjectSnapshot) (workforce_plan : string) : option string :=
  if negb (String.eqb workforce_plan "none") then Some "initialized"
  else
    match snapshot with
    | None => None
    | Some s =>
        if mem (strip (ps_status s)) ["proposed"; "approved"] then Some "pending_approval"
        else if mem (strip (ps_status s)) ["blocked"; "paused"] then Some "blocked"
        else None
    end.

Definition _CWO_APPROVED_WRITE_CONTEXT : ProjectArtifactWriteContext := mk_ProjectArtifactWriteContext "cwo" "approved" [].

Definition cwo_llm : llm_profile :=
  mk_llm_profile "cwo" (absolute_budget 512)
    (mk_LlmPolicyContext "v2" "cwo-v1" ["AUTH-001"; "AUTH-002"; "AUTH-003"; "ORCH-001"; "ORCH-002"]).

(** The prompts of [cwo/prompts.py]. *)
Record cwo_prompts : Type := mk_cwo_prompts {
  wp_system : string;
  wp_status : CwoRequest -> option ProjectSnapshot -> string -> string -> string;
  wp_draft : string -> string -> string -> string;
  wp_initialized : string -> string -> string -> string
}.

Section cwo.
Context {E : Type} `{!Oracle E}.
Context (gateway : LlmGatewayRequest -> M E LlmGatewayResponse).
Context (cfg : artifact_config) (codec : json_codec) (str_float : spec_float -> string).
Context (cso_review_prompt : string -> string -> string -> string) (cso_advisory_prompt : string -> string -> string).
Context (ceo_texts : ceo_prompts) (prompts : cwo_prompts).
#[local] Abbreviation O := (office E).
#[local] Abbreviation nl := (String (ascii_of_nat 10) "").
#[local] Abbreviation text context k := (context_text str_float context k).
#[local] Abbreviation payload d := (payload_of codec d).

(** ** The initializer *)

Definition _has_cso_review (project_id : string) : M O bool :=
  let! documents := of_on_artifacts (list_artifact_documents project_id "cso_review") in
  ret (existsb (fun d => event_is_or_absent str_float (payload d) "cso_review_outcome") documents).

Definition _has_ceo_approval (project_id : string) : M O bool :=
  let! documents := of_on_artifacts (list_artifact_documents project_id "ceo_proposal_decision") in
  ret (existsb (fun d => field_is (payload d) "decision" "approved") documents).

Definition _has_owner_coapproval (project_id : string) : M O bool :=
  let! documents := of_on_artifacts (list_artifact_documents project_id "decision_log") in
  ret (existsb (fun d => bool_decide (text (payload d) "event_type" = Some "owner_coapproval")) documents).

(** The absence of the owner's co-approval is logged only. *)
Definition _verify_approval_chain (project_id : string) : M O unit :=
  let! reviewed := _has_cso_review project_id in
  let! approved := _has_ceo_approval project_id in
  let missing := (if reviewed then [] else ["cso_review_outcome"]) ++ (if approved then [] else ["ceo_proposal_decision=approved"]) in
  match missing with
  | [] => let! _ := _has_owner_coapproval project_id in ret tt
  | _ => raise (CwoApprovalChainError ("Workforce initialization denied: missing approval evidence: " +:+ join ", " missing))
  end.

(** The repository has both methods, so the pointer decides when no document is read. *)
Definition _project_charter_absent (project_id : string) : M O bool :=
  let! document := of_on_artifacts (read_latest_artifact project_id "project_charter") in
  match document with
  | Some _ => ret false
  | None =>
      let! pointer := of_on_artifacts (get_latest_pointer project_id "project_charter") in
      ret (match pointer with None => true | Some _ => false end)
  end.

Definition workforce_payload (artifact_type project_id template llm_profile system_prompt_package trace_id created_at : string)
    : json :=
  JObj [("artifact_type", JStr artifact_type); ("author_role", JStr "cwo"); ("project_id", JStr project_id);
        ("template", JStr template); ("llm_profile", JStr llm_profile);
        ("system_prompt_package", JStr system_prompt_package); ("trace_id", JStr trace_id); ("created_at", JStr created_at)].

Definition write_workforce (artifact_type project_id template llm_profile system_prompt_package trace_id : string) : M O unit :=
  let! now := of_now in
  let! _ := write_artifact cfg project_id artifact_type
    (dumps_sorted codec (workforce_payload artifact_type project_id template llm_profile system_prompt_package trace_id
       (isoformat now))) _CWO_APPROVED_WRITE_CONTEXT in
  ret tt.

Definition initialize (project_id template llm_profile system_prompt_package trace_id : string) : M O unit :=
  _verify_approval_chain project_id ;!
  write_workforce "workforce_plan" project_id template llm_profile system_prompt_package trace_id ;!
  let! now := of_now in
  let! _ := of_on_agents (bind_project_workforce (ac_sha256 cfg) project_id template llm_profile system_prompt_package now) in
  let! absent := _project_charter_absent project_id in
  if absent : bool then write_workforce "project_charter" project_id template llm_profile system_prompt_package trace_id
  else ret tt.

(** ** The agent *)

Definition cwo_complete (project_id : option string) (trace_id prompt fallback : string) : M O string :=
  of_on_ext (_complete_llm gateway cwo_llm "workforce_command" 512 (f_lit 2 1) project_id trace_id
    (wp_system prompts +:+ nl +:+ nl +:+ prompt) fallback).

Definition _FALLBACK_STATUS : string :=
  "Status: workforce posture is not ready for mutation. Refresh governed records and route " +:+
  "unresolved blockers to the correct executive owner.".
Definition _FALLBACK_PROPOSAL : string :=
  "Command: draft the workforce package, submit it for CSO review, and hold activation until " +:+
  "CEO and owner approvals are recorded.".
Definition _FALLBACK_INITIALIZATION : string :=
  "Command: workforce initialization recorded. Bind the approved template package and hold " +:+
  "execution to the governed project scope.".

Definition require_cwo_project (project_id : option string) (action : string) : outcome string :=
  match _normalize_optional_text project_id with
  | Some p => Ret p
  | None => Raise (CwoCommandError ("CWO " +:+ action +:+ " requires a non-empty project_id"))
  end.

Definition _required_context (context : list (string * json)) (key : string) : outcome string :=
  match text context key with
  | Some v => Ret v
  | None => Raise (CwoCommandError ("CWO command requires context[" +:+ py_repr key +:+ "]"))
  end.

Definition _classify_routing_target (request : CwoRequest) : option string :=
  let message := routing_text str_float (wq_message request) (wq_context request) in
  if any_keyword message cwo_strategy_keywords then Some "cso"
  else if any_keyword message cwo_execution_keywords then Some "project_manager"
  else if any_keyword message cwo_budget_keywords then Some "ceo"
  else None.

Definition _artifact_summary (project_id : option string) (artifact_type : string) : M O string :=
  match project_id with
  | None => ret "none"
  | Some p =>
      let! document := of_on_artifacts (read_latest_artifact p artifact_type) in
      ret (match document with None => "none" | Some d => first_line (ad_content d) end)
  end.

Definition _render_context_value (value : option json) : string :=
  match value with
  | None | Some JNull => ""
  | Some (JArr l) => dumps_sorted codec (JArr l)
  | Some (JObj o) => dumps_sorted codec (JObj o)
  | Some v => json_str str_float v
  end.

Definition _handle_status (request : CwoRequest) : M O CwoResponse :=
  match _classify_routing_target request with
  | Some route => ret (mk_CwoResponse (Some "routed") (_route_text route) (Some "blocked") (wq_trace_id request))
  | None =>
      let! snapshot := match wq_project_id request with
                       | Some p => if truthy p then get_project_snapshot p else ret None
                       | None => ret None
                       end in
      let! workforce_plan := _artifact_summary (wq_project_id request) "workforce_plan" in
      let! project_charter := _artifact_summary (wq_project_id request) "project_charter" in
      let! status_text := cwo_complete (wq_project_id request) (wq_trace_id request)
        (wp_status prompts request snapshot workforce_plan project_charter) _FALLBACK_STATUS in
      ret (mk_CwoResponse None (_ensure_command_language "Status" status_text)
             (_infer_workforce_status snapshot workforce_plan) (wq_trace_id request))
  end.

Definition review_of_proposal (proposal_id : string) (d : ProjectArtifactDocument) : bool :=
  field_is (payload d) "proposal_id" proposal_id && event_is_or_absent str_float (payload d) "cso_review_outcome".

Definition _read_cso_review_outcome (project_id proposal_id : string) : M O (option string) :=
  let! documents := of_on_artifacts (list_artifact_documents project_id "cso_review") in
  ret (d ← List.find (review_of_proposal proposal_id) (rev documents); text (payload d) "review_outcome").

Definition _handle_proposal_flow (request : CwoRequest) : M O CwoResponse :=
  let! project_id := of_outcome (require_cwo_project (wq_project_id request) "proposal submission") in
  let context := wq_context request in
  let trace_id := wq_trace_id request in
  let proposal_id := opt_or (text context "proposal_id") (project_id +:+ "-" +:+ trace_id) in
  let project_scope := opt_or (text context "project_scope") (wq_message request) in
  let rendered := _render_context_value (jfield context "budget_context") in
  let budget_context := if truthy rendered then rendered else "unknown" in
  let! proposal_draft := cwo_complete (Some project_id) trace_id
    (wp_draft prompts project_id (String.substring 0 1500 project_scope) (String.substring 0 1000 budget_context))
    _FALLBACK_PROPOSAL in
  let! cso_response := cso_handle gateway cfg codec cso_review_prompt cso_advisory_prompt
    (mk_CSORequest proposal_draft MUTATION (mk_ChatContext "institutional" "cwo" (Some project_id)) trace_id
       (Some proposal_id) (text context "portfolio_context")) in
  let! outcome := _read_cso_review_outcome project_id proposal_id in
  match outcome with
  | None => raise (CwoCommandError "GATE-006 denied: CSO review outcome record must exist before CEO review")
  | Some outcome =>
      let! ceo_response := ceo_handle gateway cfg codec str_float ceo_texts
        (mk_CeoRequest proposal_draft "MUTATION"
           (jupdate context [("project_id", JStr project_id); ("project_scope", JStr project_scope);
                             ("cso_advisory_text", JStr (cr_advisory_text cso_response))])
           (Some proposal_id) (Some outcome) trace_id) in
      if bool_decide (er_decision ceo_response = Some "approved") then
        ret (mk_CwoResponse (Some "proposal_submitted")
          (_ensure_command_language "Status"
             ("Workforce proposal submitted. CEO approved the package. Await owner " +:+
              "co-approval before initialization. " +:+ er_advisory_text ceo_response))
          (Some "pending_owner_approval") trace_id)
      else
        ret (mk_CwoResponse None
          (_ensure_command_language "Status"
             ("Workforce proposal blocked. Hold initialization until the CEO decision path " +:+
              "is resolved. " +:+ er_advisory_text ceo_response))
          (Some "blocked") trace_id)
  end.

Definition _write_cwo_coapproval (project_id approval_type : string) (artifact_type : option string)
    (trace_id project_state : string) : M O unit :=
  let! now := of_now in
  let! _ := write_artifact cfg project_id "cwo_coapproval"
    (dumps_sorted codec (JObj [("event_type", JStr "cwo_coapproval"); ("approval_type", JStr approval_type);
       ("artifact_type", opt_json artifact_type); ("trace_id", JStr trace_id); ("author_role", JStr "cwo");
       ("created_at", JStr (isoformat now))]))
    (mk_ProjectArtifactWriteContext "cwo" project_state []) in
  ret tt.

Definition _handle_initialization (request : CwoRequest) : M O CwoResponse :=
  let! project_id := of_outcome (require_cwo_project (wq_project_id request) "workforce initialization") in
  let context := wq_context request in
  let trace_id := wq_trace_id request in
  let! report := of_on_artifacts (read_latest_artifact project_id "completion_report") in
  match report with
  | None =>
      raise (CwoCommandError ("Workforce initialization denied: PM completion_report is required before " +:+
                              "CWO workforce-readiness authorization"))
  | Some _ =>
      let! template := of_outcome (_required_context context "template") in
      let! llm_profile := of_outcome (_required_context context "llm_profile") in
      let! system_prompt_package := of_outcome (_required_context context "system_prompt_package") in
      initialize project_id template llm_profile system_prompt_package trace_id ;!
      _write_cwo_coapproval project_id (opt_or (text context "approval_type") "project_completion")
        (text context "artifact_type") trace_id (opt_or (text context "project_state") "active") ;!
      let! completion_text := cwo_complete (Some project_id) trace_id (wp_initialized prompts project_id template llm_profile)
        _FALLBACK_INITIALIZATION in
      ret (mk_CwoResponse (Some "workforce_initialized") (_ensure_command_language "Command" completion_text)
             (Some "initialized") trace_id)
  end.

Definition _has_ceo_coapproval (project_id approval_type : string) : M O bool :=
  has_coapproval codec project_id "ceo_coapproval" approval_type.

Definition cwo_coapproval (request : CwoRequest) : M O CwoResponse :=
  let! project_id := of_outcome (require_cwo_project (wq_project_id request) "coapproval") in
  let context := wq_context request in
  let approval_type := opt_or (text context "approval_type") "controlled_doc_edit" in
  let! confirmed := _has_ceo_coapproval project_id approval_type in
  if negb confirmed then
    raise (CwoCommandError "ORCH-005 denied: CEO co-approval evidence is required before CWO co-approval")
  else
    _write_cwo_coapproval project_id approval_type (text context "artifact_type") (wq_trace_id request)
      (opt_or (text context "project_state") "active") ;!
    ret (mk_CwoResponse (Some "coapproval_recorded")
           "Command: workforce readiness authorized within the controlled change scope." None (wq_trace_id request)).

Definition cwo_handle (request : CwoRequest) : M O CwoResponse :=
  let intent := upper (strip (wq_intent request)) in
  let action := text (wq_context request) "action" in
  if mem intent ["DISCUSSION"; "QUERY"] then _handle_status request
  else if String.eqb intent "MUTATION" && bool_decide (action = Some "submit_proposal") then _handle_proposal_flow request
  else if String.eqb intent "MUTATION" && bool_decide (action = Some "initialize_workforce") then _handle_initialization request
  else if String.eqb intent "ADMIN" then cwo_coapproval request
  else raise (CwoCommandError ("Unsupported CWO command action: " +:+ py_repr (wq_intent request) +:+ " / " +:+
                               match action with Some a => py_repr a | None => "None" end)).
End cwo.
