(* ===== verification/ExecutiveFacts.v ===== *)
(** Theorems about the executive and workforce agents. *)

From S2P Require Import Prelude PyStr PyData LlmSchemas PyFloat Task Budget LoopControl Policy Runtime.
From S2P Require Import ProjectModel ProjectRows ProjectRepo Artifacts ArtifactFacts Conversation AgentBase AgentRegistry.
From S2P Require Import Grammar GrammarFacts Secretary Executive Workforce OfficeFacts.

(** * CSO *)

Section cso.
Context {E : Type} `{!Oracle E}.
Context (gateway : LlmGatewayRequest -> M E LlmGatewayResponse).
Context (cfg : artifact_config) (codec : json_codec).
Context (cso_review_prompt : string -> string -> string -> string) (cso_advisory_prompt : string -> string -> string).
#[local] Abbreviation O := (office E).
#[local] Abbreviation handle := (cso_handle gateway cfg codec cso_review_prompt cso_advisory_prompt).

Lemma portfolio_quiet p : tracks same_office (_read_portfolio_context (E:=E) p).
Proof.
  unfold _read_portfolio_context. apply tracks_bind; [typeclasses eauto | | intros; apply tracks_ret; typeclasses eauto].
  destruct p as [p |]; [| apply tracks_ret; typeclasses eauto]. destruct (truthy p); [| apply tracks_ret; typeclasses eauto].
  apply quiet_try; [| intros e k [= <-]; apply tracks_ret; typeclasses eauto].
  apply tracks_bind; [typeclasses eauto | apply project_query, project_read_pure | intros; apply tracks_ret; typeclasses eauto].
Qed.

Lemma quiet_post {A} (m : M O A) s : tracks same_office m -> post m s (fun _ => same_office s) (fun _ => same_office s).
Proof. intros H. specialize (H s). unfold post. by destruct (m s) as [[]]. Qed.

(** The text of the record a response was given with. *)
Definition review_text (request : CSORequest) (response : CSOResponse) (text : string) : Prop :=
  exists now, text = dumps_unicode codec (review_payload (opt_or (cq_proposal_id request) "")
    (_classify_outcome (_parse_conflict_flag (cr_advisory_text response))) (cr_advisory_text response) (cq_trace_id request) now).

(** The records of a review. *)
Definition review_filed (request : CSORequest) (response : CSOResponse) (l : list filing) : Prop :=
  if opt_truthy (cq_proposal_id request) && opt_truthy (cx_project_id (cq_context request)) then
    l = [] \/ exists text, review_text request response text /\
      l = [mk_filing (strip (opt_or (cx_project_id (cq_context request)) "")) "cso_review" text]
  else l = [].

Lemma record_post proposal project outcome text trace (s : O) :
  table_ok (rows_in s) ->
  post (_write_governance_record cfg codec proposal project outcome text trace) s
    (fun _ s' => exists l, filed_in l s s' /\ (l = [] \/ exists now,
       l = [mk_filing (strip project) "cso_review" (dumps_unicode codec (review_payload proposal outcome text trace now))]))
    (fun _ _ => False).
Proof.
  intros Hok. unfold _write_governance_record, of_now. apply post_bind.
  assert (exists now e', of_on_ext (fun e => let '(t, e') := utcnow e in (Ret t, e')) s =
    (Ret now, mk_office e' (of_tasks s) (of_projects s) (of_artifacts s) (of_agents s))) as (now & e' & Hnow).
  { unfold of_on_ext, zoom. destruct (utcnow (of_ext s)) as [t e']. by exists t, e'. }
  unfold post at 1. rewrite Hnow. set (s1 := mk_office e' _ _ _ _).
  assert (same_office s s1) as H1 by done. clearbody s1. clear Hnow e'.
  assert (table_ok (rows_in s1)) as Hok1 by (by rewrite (so_rows _ _ H1)).
  match goal with |- post (try ?m _) _ _ _ => assert (post m s1
    (fun _ s' => filed_in [mk_filing (strip project) "cso_review"
       (dumps_unicode codec (review_payload proposal outcome text trace (isoformat now)))] s1 s')
    (fun _ s' => same_office s1 s')) as Hw end.
  { apply post_bind. eapply post_mono; [by apply write_artifact_post | | done]. intros ptr s2 (H & _). exact H. }
  unfold post, try in *. destruct (bind _ _ s1) as [[u | e] s2].
  - eexists. split; [| right; exists (isoformat now); reflexivity]. change [?x] with ([] ++ [x]).
    eapply filed_in_app; [by apply filed_in_nil | exact Hw].
  - exists []. split; [apply filed_in_nil; [done | by transitivity s1] | by left].
Qed.

Lemma review_recorded request (s : O) :
  table_ok (rows_in s) ->
  post (handle request) s
    (fun response s' => exists l, filed_in l s s' /\ review_filed request response l /\
       cr_conflict_flag response = _parse_conflict_flag (cr_advisory_text response) /\
       (opt_truthy (cq_proposal_id request) = true -> opt_truthy (cx_project_id (cq_context request)) = false ->
        cr_strategic_note response = Some gate006_note))
    (fun _ s' => same_office s s').
Proof.
  intros Hok. unfold cso_handle. apply post_bind.
  set (context := match cq_portfolio_context request with Some _ => _ | None => _ end).
  assert (tracks same_office context) as Hc.
  { subst context. destruct (cq_portfolio_context request) as [t |]; [| apply portfolio_quiet].
    destruct (truthy t); [apply tracks_ret; typeclasses eauto | apply portfolio_quiet]. }
  clearbody context. eapply post_mono; [apply quiet_post, Hc | | done]. intros portfolio s1 H1.
  apply post_bind. eapply post_mono; [apply ext_office_post | | intros x s2 H2; by transitivity s1].
  intros text s2 H2. assert (same_office s s2) as H12 by (by transitivity s1). clear H1 H2 s1 Hc context. cbv zeta.
  assert (table_ok (rows_in s2)) as Hok2 by (by rewrite (so_rows _ _ H12)).
  unfold review_filed, review_text. destruct (opt_truthy (cq_proposal_id request)) eqn:Ep; cbn [andb];
    [destruct (opt_truthy (cx_project_id (cq_context request))) eqn:Eq |].
  - apply post_bind, post_bind. eapply post_mono; [by apply record_post | | done].
    intros u s3 (l & Hl & Hrec). apply post_ret, post_ret. exists l. cbn [cr_advisory_text cr_conflict_flag cr_strategic_note].
    split; [| split; [| done]].
    + change l with ([] ++ l). eapply filed_in_app; [by apply filed_in_nil | exact Hl].
    + destruct Hrec as [-> | (now & ->)]; [by left | right]. eexists. split; [by exists now | done].
  - apply post_bind, post_ret, post_ret. exists []. split; [by apply filed_in_nil | done].
  - apply post_bind, post_ret, post_ret. exists []. split; [by apply filed_in_nil | done].
Qed.

Lemma cso_review_post request (s : O) :
  table_ok (rows_in s) ->
  post (handle request) s (fun response s' => exists l, filed_in l s s' /\ review_filed request response l)
    (fun _ s' => same_office s s').
Proof.
  intros Hok. eapply post_mono; [by apply review_recorded | | done]. intros response s' (l & H & Hl & _). by exists l.
Qed.

(** The strategic review of a proposal is recorded as it was given.  The
    strategist's answer is flagged by its own text; for a proposal of a project it
    files one review record, whose outcome is the class of that text, or nothing when
    the write failed, which it does not report; for a proposal without a project it
    files nothing and says so; for a question it files nothing.  Nothing else
    changes, and a failure of the model leaves the office as it was. *)
Theorem cso_review_recorded request (s : O) :
  table_ok (rows_in s) ->
  post (handle request) s
    (fun response s' => exists l, filed_in l s s' /\ review_filed request response l /\
       cr_conflict_flag response = _parse_conflict_flag (cr_advisory_text response) /\
       (opt_truthy (cq_proposal_id request) = true -> opt_truthy (cx_project_id (cq_context request)) = false ->
        cr_strategic_note response = Some gate006_note))
    (fun _ s' => same_office s s').
Proof. apply review_recorded. Qed.
End cso.

(** When the model does not answer, the strategist's fallback counts as a
    favourable review. *)
Lemma unavailable_review_is_aligned : _classify_outcome (_parse_conflict_flag cso_fallback) = "Aligned".
Proof. reflexivity. Qed.

(** Words of a refusal are read as an approval. *)
Lemma refusal_reads_as_approval :
  _parse_proposal_decision "Decision: I cannot approve this proposal in its current form." = "approved".
Proof. reflexivity. Qed.

(** * CEO *)

Section ceo.
Context {E : Type} `{!Oracle E}.
Context (gateway : LlmGatewayRequest -> M E LlmGatewayResponse).
Context (cfg : artifact_config) (codec : json_codec) (str_float : spec_float -> string) (prompts : ceo_prompts).
#[local] Abbreviation O := (office E).
#[local] Abbreviation handle := (ceo_handle gateway cfg codec str_float prompts).
#[local] Abbreviation matches := (cso_record_matches codec str_float).

(** A review of the proposal is on file, in whatever project. *)
Definition reviewed (s : O) (proposal_id : string) : Prop :=
  exists project d, row_of s project "cso_review" d /\ matches proposal_id d = true.

(** A co-approval of the type is on file for the project. *)
Definition coapproved (s : O) (project_id artifact_type approval_type : string) : Prop :=
  exists d, row_of s (strip project_id) artifact_type d /\ field_is (payload_of codec d) "approval_type" approval_type = true.

Lemma same_row_of (s s' : O) p t d : same_office s s' -> row_of s' p t d -> row_of s p t d.
Proof. intros [_ _ Hr _] (k & r & H & ->). rewrite Hr in H. by exists k, r. Qed.

Lemma verify_review_post proposal_id (s : O) :
  post (_verify_cso_review_record codec str_float proposal_id) s
    (fun o s' => s' = s /\ (is_Some o <-> reviewed s proposal_id)) (fun _ _ => False).
Proof.
  unfold _verify_cso_review_record. apply post_bind. eapply post_mono; [by apply documents_by_type_post | | done].
  intros l s' [-> Hl]. apply post_ret. split; [done |]. rewrite fmap_is_Some.
  destruct (List.find _ _) as [d |] eqn:Ef.
  - apply find_some in Ef as [Hin Hm]. split; [| by eexists]. intros _.
    apply in_rev, Hl in Hin as [p Hrow]. by exists p, d.
  - split; [by intros [] |]. intros (p & d & Hrow & Hm). exfalso.
    assert (In d (rev l)) as Hin by (rewrite <- in_rev; apply Hl; by exists p).
    pose proof (find_none _ _ Ef d Hin) as Hn. congruence.
Qed.

Lemma coapproval_post project_id artifact_type approval_type (s : O) :
  _validate_artifact_type artifact_type = Ret artifact_type ->
  post (has_coapproval codec project_id artifact_type approval_type) s
    (fun b s' => s' = s /\ (b = true <-> coapproved s project_id artifact_type approval_type)) (fun _ s' => s' = s).
Proof.
  intros Ht. unfold has_coapproval. apply post_bind. eapply post_mono; [by apply documents_post | | done].
  intros l s' [-> Hl]. apply post_ret. split; [done |]. rewrite existsb_exists. split.
  - intros (d & Hin & Hm). apply in_rev, Hl in Hin. by exists d.
  - intros (d & Hrow & Hm). exists d. split; [| done]. rewrite <- in_rev. by apply Hl.
Qed.

Lemma cycle_count_post proposal_id (s : O) :
  post (_read_revision_cycle_count codec proposal_id) s (fun n s' => s' = s /\ (0 <= n)%Z) (fun _ _ => False).
Proof.
  unfold _read_revision_cycle_count. apply post_bind. eapply post_mono; [by apply documents_by_type_post | | done].
  intros l s1 [-> _]. apply post_bind. eapply post_mono; [by apply documents_by_type_post | | done].
  intros l' s2 [-> _]. apply post_ret. split; [done | lia].
Qed.

(** The outcome that the gate looks at: the request's, else the record's. *)
Definition effective_outcome (request : CeoRequest) (record : list (string * json)) : option string :=
  if opt_truthy (eq_cso_review_outcome request) then eq_cso_review_outcome request
  else context_text str_float record "review_outcome".

(** A decision on a proposal: what it rests on and leaves. *)
Inductive decides (s : O) (request : CeoRequest) : CeoResponse -> list filing -> Prop :=
  | decides_proposal response proposal_id record project decision count text :
      eq_proposal_id request = Some proposal_id -> truthy (strip proposal_id) = true ->
      reviewed s (strip proposal_id) ->
      context_text str_float (eq_context request) "project_id" = Some project ->
      er_decision response = Some decision -> In decision ["approved"; "denied"; "needs_revision"] ->
      (_read_revision_cycle_count codec (strip proposal_id) s).1 = Ret count ->
      (_verify_cso_review_record codec str_float (strip proposal_id) s).1 = Ret (Some record) ->
      ((3 <= count)%Z -> effective_outcome request record = Some "Strategic Conflict" ->
       _coerce_bool str_float (jfield (eq_context request) "override_flag") = true) ->
      decides s request response [mk_filing project "ceo_proposal_decision" text].

(** What an answer of the chief executive rests on and leaves. *)
Inductive ceo_act (s : O) (request : CeoRequest) : CeoResponse -> list filing -> Prop :=
  | act_advice response : er_decision response = None -> ceo_act s request response []
  | act_decision response l : decides s request response l -> ceo_act s request response l
  | act_coapproval response project text :
      context_text str_float (eq_context request) "project_id" = Some project ->
      coapproved s project "cwo_coapproval"
        (opt_or (context_text str_float (eq_context request) "approval_type") "controlled_doc_edit") ->
      er_decision response = Some "approved" ->
      ceo_act s request response [mk_filing project "ceo_coapproval" text].

Definition acts (s : O) (request : CeoRequest) (m : M O CeoResponse) (s1 : O) : Prop :=
  post m s1 (fun response s' => exists l, filed_in l s s' /\ ceo_act s request response l)
    (fun _ s' => filed_in [] s s').

Lemma records_filed_same l (s s1 s2 : O) : table_ok (rows_in s) -> same_office s s1 -> filed_in l s1 s2 -> filed_in l s s2.
Proof. intros Hok H1 H2. change l with ([] ++ l). eapply filed_in_app; [by apply filed_in_nil | done]. Qed.

(** Advice: the model is asked and nothing is filed. *)
Lemma acts_advice s request (s1 : O) project trace prompt fallback (k : string -> CeoResponse) :
  table_ok (rows_in s) -> same_office s s1 -> (forall t, er_decision (k t) = None) ->
  acts s request (let! t := ceo_complete gateway prompts project trace prompt fallback in ret (k t)) s1.
Proof.
  intros Hok H1 Hk. apply post_bind. eapply post_mono; [apply ext_office_post | |].
  - intros t s2 H2. apply post_ret. exists []. split; [apply filed_in_nil; [done | by transitivity s1] | by apply act_advice].
  - intros e s2 H2. apply filed_in_nil; [done | by transitivity s1].
Qed.

Lemma acts_directive s request : table_ok (rows_in s) -> acts s request (_handle_directive gateway str_float prompts request) s.
Proof.
  intros Hok. unfold _handle_directive. unfold _classify_routing_hint. cbv zeta.
  repeat match goal with |- acts _ _ (match (if ?b then _ else _) with Some _ => _ | None => _ end) _ => destruct b end;
    cbv iota beta; try (apply acts_advice; [done | reflexivity | done]);
    (apply post_ret; exists []; split; [by apply filed_in_nil | by apply act_advice]).
Qed.

Lemma project_text_clean o k p : context_text str_float o k = Some p -> strip p = p /\ truthy p = true.
Proof.
  unfold context_text, _optional_str. destruct (jfield o k) as [v |]; [| done].
  assert (forall t, or_none (strip t) = Some p -> strip p = p /\ truthy p = true) as H.
  { intros t. unfold or_none. destruct (truthy (strip t)) eqn:Et; [| done]. intros [= <-]. by rewrite strip_idem. }
  destruct v; try apply H. done.
Qed.

Lemma decision_known text : In (_parse_proposal_decision text) ["approved"; "denied"; "needs_revision"].
Proof. unfold _parse_proposal_decision. cbv zeta. repeat case_match; cbn; tauto. Qed.

Lemma stamped_write_post project type text context (s : O) :
  table_ok (rows_in s) -> strip project = project -> norm type = type ->
  post (let! now := of_now in let! _ := write_artifact cfg project type (text now) context in ret tt) s
    (fun _ s' => exists t, filed_in [mk_filing project type t] s s') (fun _ s' => same_office s s').
Proof.
  intros Hok Hp Ht. unfold of_now. apply post_bind. eapply post_mono; [apply ext_office_post | | done].
  intros now s1 H1. apply post_bind. eapply post_mono; [apply write_artifact_post; by rewrite (so_rows _ _ H1) | |].
  - intros ptr s2 (H & _). rewrite Hp, Ht in H. apply post_ret. exists (text now). exact (records_filed_same _ _ _ _ Hok H1 H).
  - intros e s2 H2. by transitivity s1.
Qed.

Lemma proposal_decides s request :
  table_ok (rows_in s) ->
  post (_handle_proposal_review gateway cfg codec str_float prompts request) s
    (fun response s' => exists l, filed_in l s s' /\ decides s request response l) (fun _ s' => filed_in [] s s').
Proof.
  intros Hok. unfold _handle_proposal_review. destruct (eq_proposal_id request) as [pid |] eqn:Ep; [| by apply post_raise, filed_in_nil].
  destruct (truthy (strip pid)) eqn:Et; [| by apply post_raise, filed_in_nil]. cbn [negb].
  apply post_bind. pose proof (verify_review_post (strip pid) s) as Hv. unfold post at 1. unfold post in Hv.
  destruct (_verify_cso_review_record codec str_float (strip pid) s) as [[o | e] s1] eqn:Ev; [| done].
  destruct Hv as [-> Hrev].
  destruct o as [record |]; [| by apply post_raise, filed_in_nil]. apply post_bind.
  pose proof (cycle_count_post (strip pid) s) as Hcount. unfold post at 1. unfold post in Hcount.
  destruct (_read_revision_cycle_count codec (strip pid) s) as [[count | e] s1] eqn:Ec; [| done]. destruct Hcount as [-> _].
  cbv zeta. fold (effective_outcome request record).
  destruct (bool_decide (effective_outcome request record = Some "Strategic Conflict") && (3 <=? count)%Z && negb _) eqn:Egate;
    [by apply post_raise, filed_in_nil |].
  apply post_bind. eapply post_mono; [apply ext_office_post | | intros; by apply filed_in_nil]. intros text s2 H2.
  apply post_bind. unfold write_proposal_decision. apply post_bind. unfold require_decision_scope.
  destruct (context_text str_float (eq_context request) "project_id") as [project |] eqn:Eproj;
    [| apply post_of_outcome; by apply filed_in_nil].
  pose proof (project_text_clean _ _ _ Eproj) as [Hs Hp]. rewrite Hs, Hp. apply post_of_outcome.
  eapply post_mono; [apply stamped_write_post; [by rewrite (so_rows _ _ H2) | done | reflexivity] | |].
  - intros _ s3 (t & H3). apply post_ret. exists [mk_filing project "ceo_proposal_decision" t].
    split; [exact (records_filed_same _ _ _ _ Hok H2 H3) |]. apply (decides_proposal s request _ pid record project (_parse_proposal_decision text) count t);
      [done | done | by apply Hrev | done | done | apply decision_known | by rewrite Ec | by rewrite Ev |].
    intros Hge Hoc. apply Z.leb_le in Hge. revert Egate. rewrite Hge, bool_decide_true by done.
    by destruct (_coerce_bool _ _).
  - intros e s3 H3. apply filed_in_nil; [done | by transitivity s2].
Qed.

Lemma acts_proposal s request : table_ok (rows_in s) -> acts s request (_handle_proposal_review gateway cfg codec str_float prompts request) s.
Proof.
  intros Hok. eapply post_mono; [by apply proposal_decides | | done].
  intros response s' (l & H & Hd). exists l. split; [done | by apply act_decision].
Qed.

Lemma acts_coapproval s request : table_ok (rows_in s) -> acts s request (ceo_coapproval gateway cfg codec str_float prompts request) s.
Proof.
  intros Hok. unfold ceo_coapproval.
  destruct (context_text str_float (eq_context request) "project_id") as [project |] eqn:Ep; [| by apply post_raise, filed_in_nil].
  pose proof (project_text_clean _ _ _ Ep) as [Hs _]. cbv zeta.
  apply post_bind. unfold _verify_cwo_coapproval.
  eapply post_mono; [by apply coapproval_post | | intros e s1 ->; by apply filed_in_nil]. intros b s1 [-> Hb].
  destruct b; cbn [negb]; [| by apply post_raise, filed_in_nil].
  apply post_bind. eapply post_mono; [apply ext_office_post | | intros; by apply filed_in_nil]. intros text s2 H2.
  apply post_bind. unfold write_coapproval_record.
  eapply post_mono; [apply stamped_write_post; [by rewrite (so_rows _ _ H2) | done | reflexivity] | |].
  - intros _ s3 (t & H3). apply post_ret. exists [mk_filing project "ceo_coapproval" t].
    split; [exact (records_filed_same _ _ _ _ Hok H2 H3) |]. apply act_coapproval; [done | by apply Hb | done].
  - intros e s3 H3. apply filed_in_nil; [done | by transitivity s2].
Qed.

(** C23: the chief executive decides on evidence.  Whatever the request, the
    answer is either advice, with no decision and no record; or a decision on a
    proposal, of which a strategic review is on file, with exactly one decision
    record filed in the request's project: after three or more revision cycles only
    when the effective outcome is no strategic conflict or the override flag is set; or a co-approval, for which the workforce
    officer's co-approval of the same type is on file in that project, with exactly
    one record.  A refused or failed request files nothing. *)
Theorem ceo_acts_on_evidence request (s : O) :
  table_ok (rows_in s) ->
  post (handle request) s
    (fun response s' => exists l, filed_in l s s' /\ ceo_act s request response l)
    (fun _ s' => filed_in [] s s').
Proof.
  intros Hok. unfold ceo_handle. cbv zeta.
  destruct (mem _ _); [by apply acts_directive |].
  destruct (String.eqb _ "MUTATION").
  { destruct (opt_truthy _); [by apply acts_proposal |]. unfold _handle_executive_mutation.
    destruct (_classify_routing_hint _ _); [by apply acts_directive |]. by apply acts_advice. }
  destruct (String.eqb _ "ADMIN"); [by apply acts_coapproval |]. by apply post_raise, filed_in_nil.
Qed.
End ceo.

(** * CWO *)

Section cwo.
Context {E : Type} `{!Oracle E}.
Context (gateway : LlmGatewayRequest -> M E LlmGatewayResponse).
Context (cfg : artifact_config) (codec : json_codec) (str_float : spec_float -> string).
Context (cso_review_prompt : string -> string -> string -> string) (cso_advisory_prompt : string -> string -> string).
Context (ceo_texts : ceo_prompts) (prompts : cwo_prompts).
#[local] Abbreviation O := (office E).
#[local] Abbreviation handle :=
  (cwo_handle gateway cfg codec str_float cso_review_prompt cso_advisory_prompt ceo_texts prompts).

(** The evidence an initialization needs. *)
Definition approval_chain (s : O) (project_id : string) : Prop :=
  (exists d, row_of s (strip project_id) "cso_review" d /\
     event_is_or_absent str_float (payload_of codec d) "cso_review_outcome" = true) /\
  (exists d, row_of s (strip project_id) "ceo_proposal_decision" d /\ field_is (payload_of codec d) "decision" "approved" = true).

(** A project's workforce is registered: its agent is active, and the entries of
    every other role are as they were. *)
Definition workforce_bound (p : string) (l l' : list AgentRecord) : Prop :=
  (exists a, In a l' /\ ag_role a = workforce_role p /\ ag_status a = "active") /\
  let others := List.filter (fun a => negb (String.eqb (ag_role a) (workforce_role p))) in others l' = others l.

(** How far an initialization of [p] got: it filed [l], all in [p], and
    registered the workforce or not; tasks and projects are as they were. *)
Record reached (p : string) (s : O) (l : list filing) (bound : bool) (s' : O) : Prop := {
  re_tasks : of_tasks s' = of_tasks s;
  re_projects : of_projects s' = of_projects s;
  re_rows : filed l (rows_in s) (rows_in s');
  re_ok : table_ok (rows_in s');
  re_scope : scoped (Some p) l;
  re_agents : if bound then workforce_bound p (of_agents s) (of_agents s') else of_agents s' = of_agents s
}.

Lemma reached_start p s : table_ok (rows_in s) -> reached p s [] false s.
Proof. intros Hok. split; try done; [constructor | by intros f []]. Qed.

Lemma reached_filed p s l b s1 l' s2 :
  reached p s l b s1 -> scoped (Some p) l' -> filed_in l' s1 s2 -> reached p s (l ++ l') b s2.
Proof.
  intros [] Hs []. split; try congruence; [by eapply records_filed_app | by apply scoped_app |].
  rewrite fi_agents. done.
Qed.

(** A step that files records. *)
Lemma reached_files {A} p s l b s1 ts (m : M O A) :
  files (Some p) ts m -> reached p s l b s1 ->
  post m s1 (fun _ s2 => exists l', map fl_type l' = ts /\ reached p s (l ++ l') b s2)
    (fun _ s2 => exists l', map fl_type l' `prefix_of` ts /\ reached p s (l ++ l') b s2).
Proof.
  intros Hm H. eapply post_mono; [by apply Hm, H | |]; intros ? s2 (l' & Ht & Hs & Hf); exists l';
    (split; [done | by eapply reached_filed]).
Qed.

Lemma reached_quiet {A} p s l b s1 (m : M O A) :
  tracks same_office m -> reached p s l b s1 -> post m s1 (fun _ s2 => reached p s l b s2) (fun _ s2 => reached p s l b s2).
Proof.
  intros Hm H. eapply post_mono; [eapply (reached_files p s l b s1 []); [by apply files_quiet | done] | |].
  - intros _ s2 (l' & Ht & H2). destruct l'; [| done]. by rewrite app_nil_r in H2.
  - intros _ s2 (l' & Ht & H2). apply prefix_nil_inv in Ht. destruct l'; [| done]. by rewrite app_nil_r in H2.
Qed.

(** ** The initializer *)

Lemma bind_agents p t m k now (l : list AgentRecord) :
  post (bind_project_workforce (ac_sha256 cfg) p t m k now) l (fun _ l' => workforce_bound p l l') (fun _ l' => l' = l).
Proof.
  unfold bind_project_workforce, post, bind, workforce_bound. cbv zeta.
  set (a := workforce_agent _ _ _ _ _ _). change (workforce_role p) with (ag_role a).
  destruct (existsb (fun b => String.eqb (ag_role b) (ag_role a)) l) eqn:Er.
  - match goal with |- context [if existsb ?f l then _ else _] => destruct (existsb f l) end; [done |]. split.
    + apply existsb_exists in Er as (b & Hb & Heq).
      eexists. split; [apply in_map_iff; exists b; split; [reflexivity | done] |]. rewrite Heq. by apply String.eqb_eq in Heq.
    + clear Er. induction l as [| b l IH]; [done |]. cbn [map List.filter].
      destruct (String.eqb (ag_role b) (ag_role a)) eqn:Eb; cbn [ag_role]; rewrite Eb; cbn [negb]; [exact IH | by f_equal].
  - unfold insert_agent. match goal with |- context [if existsb ?f l then _ else _] => destruct (existsb f l) end; [done |].
    split; [exists a; split; [apply in_or_app; right; by left | done] |].
    rewrite List.filter_app. cbn [List.filter]. rewrite String.eqb_refl. cbn [negb]. apply app_nil_r.
Qed.

Lemma reached_bound p s l s1 t m k now :
  reached p s l false s1 ->
  post (of_on_agents (bind_project_workforce (ac_sha256 cfg) p t m k now)) s1
    (fun _ s2 => reached p s l true s2) (fun _ s2 => reached p s l false s2).
Proof.
  intros H. pose proof (bind_agents p t m k now (of_agents s1)) as Hb. rewrite (re_agents _ _ _ _ _ H) in Hb.
  unfold post, of_on_agents, zoom in *. rewrite (re_agents _ _ _ _ _ H).
  destruct (bind_project_workforce _ _ _ _ _ _ _) as [[a | x] l']; destruct H; by split.
Qed.

Lemma files_record type p (text : datetime -> string) context :
  strip p = p -> norm type = type ->
  files (Some p) [type] (let! now := of_now in let! _ := write_artifact (E:=E) cfg p type (text now) context in ret tt).
Proof.
  intros Hp Ht. apply files_quiet_bind; [apply ext_office | intros now].
  apply files_last; [by apply files_write | intros; apply files_ret].
Qed.

Lemma post_bind_iff {A B} (m : M O A) (k : A -> M O B) s Q X :
  post (bind m k) s Q X <-> post m s (fun a s' => post (k a) s' Q X) X.
Proof. unfold post, bind. by destruct (m s) as [[]]. Qed.

Lemma exists_doc_post p t (f : ProjectArtifactDocument -> bool) (s : O) :
  _validate_artifact_type t = Ret t ->
  post (let! documents := of_on_artifacts (list_artifact_documents p t) in ret (existsb f documents)) s
    (fun b s' => s' = s /\ (b = true <-> exists d, row_of s (strip p) t d /\ f d = true)) (fun _ s' => s' = s).
Proof.
  intros Ht. apply post_bind. eapply post_mono; [by apply documents_post | | done].
  intros l s' [-> Hl]. apply post_ret. split; [done |]. rewrite existsb_exists. split.
  - intros (d & Hin & Hf). exists d. by rewrite <- Hl.
  - intros (d & Hrow & Hf). exists d. by rewrite Hl.
Qed.

Lemma chain_post p (s : O) :
  post (_verify_approval_chain codec str_float p) s (fun _ s' => s' = s /\ approval_chain s p) (fun _ s' => s' = s).
Proof.
  unfold _verify_approval_chain. apply post_bind. unfold _has_cso_review.
  eapply post_mono; [by apply exists_doc_post | | done]. intros reviewed s1 [-> Hr].
  apply post_bind. unfold _has_ceo_approval. eapply post_mono; [by apply exists_doc_post | | done]. intros ok s1 [-> Ha].
  cbv zeta. destruct reviewed, ok; cbn [app]; try by apply post_raise.
  apply post_bind. unfold _has_owner_coapproval. eapply post_mono; [by apply exists_doc_post | | done].
  intros owner s1 [-> _]. apply post_ret. split; [done |]. by split; [apply Hr | apply Ha].
Qed.

(** Whether the project has a charter. *)
Definition chartered (s : O) (p : string) : Prop := exists d, row_of s (strip p) "project_charter" d.

Lemma latest_row_None (p t : string) (rows : artifact_rows) :
  latest_row p t rows = None <-> forall k, rows !! (p, t, k) = None.
Proof.
  unfold latest_row. split.
  - intros Hh k. destruct (rows !! (p, t, k)) as [r |] eqn:Hr; [| done]. exfalso.
    assert (In r (sorted (fun a b => revision_leb b a) (rows_of p t rows))) as Hin.
    { apply list_elem_of_In. rewrite sorted_perm. apply list_elem_of_fmap. exists ((p, t, k), r). split; [done |].
      apply elem_of_map_to_list. by apply map_lookup_filter_Some. }
    by destruct (sorted _ _).
  - intros Hn. destruct (head _) as [r |] eqn:Eh; [| done]. exfalso.
    assert (aw_document <$> latest_row p t rows = Some (aw_document r)) as (k & r' & Hr & _)%latest_row_Some
      by (unfold latest_row; by rewrite Eh).
    by rewrite Hn in Hr.
Qed.

Lemma charter_post p (s : O) :
  post (_project_charter_absent p) s (fun b s' => s' = s /\ (b = true <-> ~ chartered s p)) (fun _ s' => s' = s).
Proof.
  unfold _project_charter_absent, post, of_on_artifacts, zoom, read_latest_artifact, get_latest_pointer, bind, of_outcome.
  unfold _validate_project_id. cbv zeta. destruct (project_id_pattern (strip p)); [| by destruct s].
  change (_validate_artifact_type "project_charter") with (@Ret string "project_charter"). cbv iota beta. unfold gets.
  destruct (latest_row _ _ _) as [r |] eqn:El; cbn.
  - split; [by destruct s |]. split; [done |]. intros []. exists (aw_document r).
    apply latest_row_Some. unfold rows_in. by rewrite El.
  - rewrite El. cbn. split; [by destruct s |]. split; [| done]. intros _ (d & k & r & Hr & _).
    apply latest_row_None with (k := k) in El. unfold rows_in in Hr. congruence.
Qed.

(** Records of another type do not change whether there is a charter. *)
Lemma reached_chartered p s l b s1 :
  reached p s l b s1 -> ~ In "project_charter" (map fl_type l) -> chartered s1 p <-> chartered s p.
Proof.
  intros [_ _ Hf _ _ _] Hn. split; intros (d & k & r & Hr & ->); exists (aw_document r), k, r; (split; [| done]).
  - destruct (records_filed_lookup _ _ _ _ _ _ _ Hf Hr) as [Ha | [Hin _]]; [done |].
    destruct Hn. by apply (in_map fl_type) in Hin.
  - eapply lookup_weaken; [exact Hr | by eapply filed_subseteq].
Qed.

(** The types of an initialization's records, in order: the charter only when
    there was none. *)
Definition initialization_types (s : O) (p : string) (ts : list string) : Prop :=
  (chartered s p /\ ts = ["workforce_plan"; "cwo_coapproval"]) \/
  (~ chartered s p /\ ts = ["workforce_plan"; "project_charter"; "cwo_coapproval"]).

(** An initialization that stopped: it had filed the first of these records, and
    registered the workforce, if at all, after the plan. *)
Definition stopped (s : O) (p : string) (s' : O) : Prop :=
  exists l b, reached p s l b s' /\ (b = true -> In "workforce_plan" (map fl_type l)) /\
    (map fl_type l `prefix_of` ["workforce_plan"] \/
     exists ts, initialization_types s p ts /\ map fl_type l `prefix_of` ts).

Lemma stopped_plan p s l' b s' :
  map fl_type l' `prefix_of` ["workforce_plan"] -> (b = true -> l' <> []) -> reached p s l' b s' -> stopped s p s'.
Proof.
  intros Ht Hb H. exists l', b. split; [done |]. split; [| by left]. intros Hb'. specialize (Hb Hb').
  destruct l' as [| f l']; [done |]. apply prefix_cons_inv_1 in Ht. left. exact Ht.
Qed.

Lemma stopped_types p s l b s' ts :
  reached p s l b s' -> initialization_types s p ts -> map fl_type l `prefix_of` ts -> In "workforce_plan" (map fl_type l) ->
  stopped s p s'.
Proof. intros H Hts Hl Hp. exists l, b. split; [done |]. split; [done |]. right. by exists ts. Qed.

(** What follows the verification of the chain. *)
Definition initialize_rest (p t m k trace : string) : M O unit :=
  write_workforce cfg codec "workforce_plan" p t m k trace ;!
  let! now := of_now in
  let! _ := of_on_agents (bind_project_workforce (ac_sha256 cfg) p t m k now) in
  let! absent := _project_charter_absent p in
  if absent : bool then write_workforce cfg codec "project_charter" p t m k trace else ret tt.

Lemma initialize_rest_post p t m k trace (s : O) :
  table_ok (rows_in s) -> strip p = p ->
  post (initialize_rest p t m k trace) s
    (fun _ s' => exists l, reached p s l true s' /\ initialization_types s p (map fl_type l ++ ["cwo_coapproval"]))
    (fun _ s' => stopped s p s').
Proof.
  intros Hok Hp. unfold initialize_rest. apply post_bind.
  eapply post_mono; [eapply reached_files; [by apply files_record | by apply reached_start] | |].
  2: { intros _ s1 (l & Ht & H). by eapply stopped_plan; [exact Ht | | exact H]. }
  intros _ s1 (l & Ht & H1). cbn [app] in H1.
  assert (forall b s', reached p s l b s' -> stopped s p s') as Hplan.
  { intros b s' H. eapply stopped_plan; [by rewrite Ht | by intros _ -> | exact H]. }
  apply post_bind. eapply post_mono; [eapply reached_quiet; [apply ext_office | exact H1] | | intros e s2; apply Hplan]. intros now s2 H2.
  apply post_bind. eapply post_mono; [apply reached_bound, H2 | | intros e s3; apply Hplan]. intros agent s3 H3. cbv beta in H3.
  apply post_bind. eapply post_mono; [apply charter_post | | intros e s4 ->; exact (Hplan _ _ H3)]. intros absent s4 [-> Habsent].
  rewrite (reached_chartered _ _ _ _ _ H3) in Habsent by (rewrite Ht; simpl; intuition discriminate).
  assert (forall ts, initialization_types s p ("workforce_plan" :: ts ++ ["cwo_coapproval"]) -> forall l' b s',
    map fl_type l' `prefix_of` ts -> reached p s (l ++ l') b s' -> stopped s p s') as Hstop.
  { intros ts Hts l' b s' Hl' H. eapply stopped_types; [exact H | exact Hts | |]; rewrite map_app, Ht.
    - apply prefix_cons. by apply prefix_app_r.
    - by left. }
  destruct absent.
  - assert (initialization_types s p ["workforce_plan"; "project_charter"; "cwo_coapproval"]) as Hts
      by (right; split; [by apply Habsent | done]).
    eapply post_mono; [eapply reached_files; [by apply files_record | exact H3] | |].
    + intros _ s5 (l' & Ht' & H5). exists (l ++ l'). by rewrite map_app, Ht, Ht'.
    + intros _ s5 (l' & Ht' & H5). by eapply (Hstop ["project_charter"]).
  - apply post_ret. exists l. rewrite Ht. split; [done |]. left. split; [| done].
    destruct (latest_row (strip p) "project_charter" (rows_in s)) as [r |] eqn:El.
    + exists (aw_document r). apply latest_row_Some. by rewrite El.
    + exfalso. assert (false = true) as [=]. apply Habsent. intros (d & k' & r & Hr & _).
      apply latest_row_None with (k := k') in El. congruence.
Qed.

(** What an initialization does once the chain is verified. *)
Definition initialization_rest (request : CwoRequest) (p template profile package : string) : M O CwoResponse :=
  initialize_rest p template profile package (wq_trace_id request) ;!
  _write_cwo_coapproval cfg codec p
    (opt_or (context_text str_float (wq_context request) "approval_type") "project_completion")
    (context_text str_float (wq_context request) "artifact_type") (wq_trace_id request)
    (opt_or (context_text str_float (wq_context request) "project_state") "active") ;!
  let! text := cwo_complete gateway prompts (Some p) (wq_trace_id request) (wp_initialized prompts p template profile)
    _FALLBACK_INITIALIZATION in
  ret (mk_CwoResponse (Some "workforce_initialized") (_ensure_command_language "Command" text) (Some "initialized")
         (wq_trace_id request)).

Lemma initialization_rest_post request p template profile package (s : O) :
  table_ok (rows_in s) -> strip p = p ->
  post (initialization_rest request p template profile package) s
    (fun response s' => wr_action_taken response = Some "workforce_initialized" /\
       exists l, initialization_types s p (map fl_type l) /\ reached p s l true s')
    (fun _ s' => stopped s p s').
Proof.
  intros Hok Hp. unfold initialization_rest. apply post_bind.
  eapply post_mono; [by apply initialize_rest_post | | done]. intros _ s1 (l & H1 & Hts).
  assert (In "workforce_plan" (map fl_type l)) as Hplan.
  { destruct Hts as [[_ Ht] | [_ Ht]]; destruct l; simpl in Ht; injection Ht as Ht; rewrite ?Ht; simpl; auto; discriminate. }
  apply post_bind. eapply post_mono; [eapply reached_files; [by apply files_record | exact H1] | |].
  2: { intros _ s2 (l' & Ht & H2). eapply stopped_types; [exact H2 | exact Hts | |]; rewrite map_app.
       - by apply prefix_app. - apply in_or_app. by left. }
  intros _ s2 (l' & Ht & H2). assert (initialization_types s p (map fl_type (l ++ l'))) as Hall by by rewrite map_app, Ht.
  apply post_bind. eapply post_mono; [eapply reached_quiet; [apply ext_office | exact H2] | |].
  - intros text s3 H3. apply post_ret. split; [done |]. by exists (l ++ l').
  - intros e s3 H3. eapply stopped_types; [exact H3 | exact Hall | done |]. rewrite map_app. apply in_or_app. by left.
Qed.

(** The evidence without which a project's workforce is not initialized. *)
Definition initialization_evidence (s : O) (p : string) : Prop :=
  (exists d, row_of s (strip p) "completion_report" d) /\ approval_chain s p.

(** C22: a workforce is initialized only on evidence.  An initialization that
    succeeds found, in its project, the project manager's completion report, a
    strategic review and a decision record that says approved.  It then filed, in
    order and all in that project, the workforce plan, the project charter exactly
    when there was none, and the workforce officer's co-approval; and it made the
    project's workforce agent active and left every other entry of the registry.
    When it is refused nothing is filed and the registry is as it was; when it
    fails later, on the same evidence, it filed the first of these records, and the
    registry is as it was unless the plan was filed, and then at most this workforce
    was registered.  Tasks and projects never change. *)
Theorem initialization_needs_evidence request (s : O) :
  upper (strip (wq_intent request)) = "MUTATION" ->
  context_text str_float (wq_context request) "action" = Some "initialize_workforce" ->
  table_ok (rows_in s) ->
  post (handle request) s
    (fun response s' => wr_action_taken response = Some "workforce_initialized" /\
       exists p l, _normalize_optional_text (wq_project_id request) = Some p /\ initialization_evidence s p /\
         initialization_types s p (map fl_type l) /\ reached p s l true s')
    (fun _ s' => s' = s \/
       exists p, _normalize_optional_text (wq_project_id request) = Some p /\ initialization_evidence s p /\ stopped s p s').
Proof.
  intros Hi Ha Hok. unfold cwo_handle. rewrite Hi, Ha. cbv zeta. change (mem "MUTATION" ["DISCUSSION"; "QUERY"]) with false.
  rewrite bool_decide_false, bool_decide_true by done. change (String.eqb "MUTATION" "MUTATION") with true. cbv iota. cbn [andb].
  unfold _handle_initialization, require_cwo_project. apply post_bind.
  destruct (_normalize_optional_text (wq_project_id request)) as [p |] eqn:Ep; apply post_of_outcome; [| by left].
  pose proof (normalize_optional_clean _ _ Ep) as [Hp _]. cbv zeta.
  apply post_bind. eapply post_mono; [by apply read_latest_post | | by intros e s1 ->; left]. intros o s1 [-> Hdoc].
  destruct o as [d |]; [| by apply post_raise; left].
  assert (exists d, row_of s (strip p) "completion_report" d) as Hreport by (exists d; by apply Hdoc).
  do 3 (apply post_bind, post_of_outcome; unfold _required_context at 1;
        match goal with |- context [context_text ?f ?c ?k] => destruct (context_text f c k) as [?v |] end; [| by left]).
  assert (forall B (k : unit -> M O B) Q X, post (_verify_approval_chain codec str_float p) s
    (fun _ s' => post (initialize_rest p v v0 v1 (wq_trace_id request)) s' (fun a s'' => post (k a) s'' Q X) X) X ->
    post (bind (initialize cfg codec str_float p v v0 v1 (wq_trace_id request)) k) s Q X) as Hsplit.
  { intros B k Q X H. apply post_bind. unfold initialize. by apply post_bind. }
  apply Hsplit. eapply post_mono; [apply chain_post | | by intros e s1 ->; left]. intros u s1 [-> Hchain].
  pose proof (initialization_rest_post request p v v0 v1 s Hok Hp) as Hall.
  unfold initialization_rest in Hall. apply post_bind_iff in Hall.
  assert (forall (e : exn) (s' : O), stopped s p s' -> s' = s \/
    exists p', Some p = Some p' /\ initialization_evidence s p' /\ stopped s p' s') as Hfail.
  { intros _ s' H. right. by exists p. }
  eapply post_mono; [exact Hall | | intros e s'; exact (Hfail e s')]. intros a s1 Ha1. cbv beta.
  eapply post_mono; [exact Ha1 | | intros e s'; exact (Hfail e s')].
  intros response s' (Haction & l & Ht & H). split; [done |]. exists p, l. by split_and!.
Qed.

(** ** Proposals *)

Lemma jfield_jset o k v k' : jfield (jset o k v) k' = if String.eqb k k' then Some v else jfield o k'.
Proof.
  induction o as [| [k0 v0] o IH]; cbn [jset jfield].
  - by destruct (String.eqb k k').
  - destruct (String.eqb_spec k0 k) as [-> | Hne]; cbn [jfield].
    + by destruct (String.eqb k k').
    + rewrite IH. destruct (String.eqb_spec k0 k') as [-> | ?]; [| done].
      by rewrite (proj2 (String.eqb_neq k k') (not_eq_sym Hne)).
Qed.

Lemma truthy_app a b : truthy a = true -> truthy (a +:+ b) = true.
Proof. by destruct a. Qed.

(** A review of the proposal is on file in the project. *)
Definition reviewed_in (s : O) (p proposal_id : string) : Prop :=
  exists d, row_of s p "cso_review" d /\ review_of_proposal codec str_float proposal_id d = true.

Lemma review_outcome_post p pid (s : O) :
  strip p = p ->
  post (_read_cso_review_outcome codec str_float p pid) s
    (fun o s' => s' = s /\ (is_Some o -> reviewed_in s p pid)) (fun _ s' => s' = s).
Proof.
  intros Hp. unfold _read_cso_review_outcome. apply post_bind. eapply post_mono; [by apply documents_post | | done].
  intros l s' [-> Hl]. apply post_ret. split; [done |]. destruct (List.find _ _) as [d |] eqn:Ef; [| by intros []].
  intros _. apply find_some in Ef as [Hin Hm]. apply in_rev, Hl in Hin. rewrite Hp in Hin. by exists d.
Qed.

Lemma row_of_mono l (s s' : O) p t d : filed_in l s s' -> row_of s p t d -> row_of s' p t d.
Proof.
  intros H (k & r & Hr & ->). exists k, r. split; [| done]. eapply lookup_weaken; [exact Hr |].
  by eapply filed_subseteq, fi_rows.
Qed.

(** A submitted proposal is reviewed, then decided.  A submission that is
    answered has left, in its project, a strategic review of that proposal on file,
    recorded now or before, and then exactly one decision record of the chief
    executive; it is reported as submitted or as blocked.  A submission that fails
    has filed at most the review. *)
Theorem proposal_reviewed_then_decided request (s : O) :
  upper (strip (wq_intent request)) = "MUTATION" ->
  context_text str_float (wq_context request) "action" = Some "submit_proposal" ->
  table_ok (rows_in s) ->
  post (handle request) s
    (fun response s' => exists p l, _normalize_optional_text (wq_project_id request) = Some p /\ filed_in l s s' /\
       scoped (Some p) l /\ In (map fl_type l) [["ceo_proposal_decision"]; ["cso_review"; "ceo_proposal_decision"]] /\
       reviewed_in s' p (opt_or (context_text str_float (wq_context request) "proposal_id") (p +:+ "-" +:+ wq_trace_id request)) /\
       (wr_action_taken response = Some "proposal_submitted" \/
        (wr_action_taken response = None /\ wr_workforce_status response = Some "blocked")))
    (fun _ s' => exists l, filed_in l s s' /\ map fl_type l `prefix_of` ["cso_review"]).
Proof.
  intros Hi Ha Hok. unfold cwo_handle. rewrite Hi, Ha. cbv zeta. change (mem "MUTATION" ["DISCUSSION"; "QUERY"]) with false.
  rewrite bool_decide_true by done. change (String.eqb "MUTATION" "MUTATION") with true. cbv iota. cbn [andb].
  assert (forall s', same_office s s' -> exists l, filed_in l s s' /\ map fl_type l `prefix_of` ["cso_review"]) as Hnone.
  { intros s' H. exists []. split; [by apply filed_in_nil | apply prefix_nil]. }
  unfold _handle_proposal_flow, require_cwo_project. apply post_bind.
  destruct (_normalize_optional_text (wq_project_id request)) as [p |] eqn:Ep; apply post_of_outcome; [| by apply Hnone].
  pose proof (normalize_optional_clean _ _ Ep) as [Hp Htp]. cbv zeta. remember (opt_or (context_text str_float (wq_context request) "proposal_id") (p +:+ "-" +:+ wq_trace_id request)) as pid eqn:Hpid_def.
  assert (truthy pid = true) as Hpid.
  { rewrite Hpid_def. unfold opt_or. destruct (context_text _ _ "proposal_id") as [x |]; [| by apply truthy_app].
    destruct (truthy x) eqn:Ex; [done | by apply truthy_app]. }
  apply post_bind. eapply post_mono; [apply ext_office_post | | intros; by apply Hnone]. intros draft s1 H1.
  assert (table_ok (rows_in s1)) as Hok1 by (by rewrite (so_rows _ _ H1)).
  apply post_bind. eapply post_mono; [by apply cso_review_post | |].
  2: { intros e s2 H2. apply Hnone. by transitivity s1. }
  intros cso s2 (l1 & H2 & Hl1). cbn [cq_proposal_id cq_context cx_project_id opt_truthy opt_or] in Hl1.
  assert (filed_in l1 s s2) as H02 by exact (records_filed_same _ _ _ _ Hok H1 H2). clear H1 H2 Hok1 s1.
  assert (scoped (Some p) l1 /\ In (map fl_type l1) [[]; ["cso_review"]]) as [Hs1 Ht1].
  { unfold review_filed in Hl1. cbn [cq_proposal_id cq_context cx_project_id opt_truthy opt_or] in Hl1.
    rewrite Hpid, Htp in Hl1. cbn [andb] in Hl1. rewrite Hp in Hl1.
    destruct Hl1 as [-> | (x & _ & ->)]; [split; [by intros f [] | by left] |].
    split; [by intros f [<- | []] | by right; left]. }
  assert (exists l, filed_in l s s2 /\ map fl_type l `prefix_of` ["cso_review"]) as Hreview.
  { exists l1. split; [done |]. destruct Ht1 as [<- | [<- | []]]; [apply prefix_nil | done]. }
  apply post_bind. eapply post_mono; [by apply review_outcome_post | | by intros e s3 ->]. intros o s3 [-> Ho].
  destruct o as [outcome |]; [| by apply post_raise]. specialize (Ho ltac:(by eexists)).
  set (context := jupdate _ _).
  assert (context_text str_float context "project_id" = Some p) as Hcontext.
  { subst context. unfold jupdate. cbn [foldl fst snd]. unfold context_text. rewrite !jfield_jset.
    change (or_none (strip p) = Some p). unfold or_none. by rewrite Hp, Htp. }
  clearbody context. apply post_bind. unfold ceo_handle. cbn [eq_intent eq_proposal_id opt_truthy].
  change (upper (strip "MUTATION")) with "MUTATION". cbv zeta. change (mem "MUTATION" ["DISCUSSION"; "QUERY"]) with false.
  change (String.eqb "MUTATION" "MUTATION") with true. cbv iota. rewrite Hpid.
  eapply post_mono; [apply proposal_decides, H02 | |].
  - intros ceo s3 (l2 & H3 & Hd). destruct Hd as [ceo pid' record project decision count x Epid Hx Hrev Eproj Hdec _ _ _ _].
    cbn [eq_context] in Eproj. rewrite Hcontext in Eproj. injection Eproj as <-.
    assert (forall response, (wr_action_taken response = Some "proposal_submitted" \/
      (wr_action_taken response = None /\ wr_workforce_status response = Some "blocked")) ->
      exists p0 l, Some p = Some p0 /\ filed_in l s s3 /\ scoped (Some p0) l /\
        In (map fl_type l) [["ceo_proposal_decision"]; ["cso_review"; "ceo_proposal_decision"]] /\
        reviewed_in s3 p0 (opt_or (context_text str_float (wq_context request) "proposal_id") (p0 +:+ "-" +:+ wq_trace_id request)) /\
        (wr_action_taken response = Some "proposal_submitted" \/
          (wr_action_taken response = None /\ wr_workforce_status response = Some "blocked"))) as Hfinish.
    { intros response Hresponse. exists p, (l1 ++ [mk_filing p "ceo_proposal_decision" x]).
      split; [done |]. split; [by eapply filed_in_app |].
      split; [apply scoped_app; [done | by intros f [<- | []]] |].
      rewrite map_app. split; [destruct Ht1 as [<- | [<- | []]]; cbn; tauto |]. split; [rewrite <- Hpid_def | done].
      destruct Ho as (d & Hrow & Hm). exists d. split; [by eapply row_of_mono | done]. }
    destruct (bool_decide _); apply post_ret; apply Hfinish; cbn; tauto.
  - intros e s3 H3. destruct Hreview as (l & Hl & Ht). exists l. split; [| done].
    rewrite <- (app_nil_r l). by eapply filed_in_app.
Qed.

(** Neither officer can begin a co-approval: each asks for the other's record. *)
Lemma coapprovals_wait_for_each_other p type (ceo_request : CeoRequest) (cwo_request : CwoRequest) (s : O) :
  context_text str_float (eq_context ceo_request) "project_id" = Some p ->
  _normalize_optional_text (wq_project_id cwo_request) = Some p ->
  opt_or (context_text str_float (eq_context ceo_request) "approval_type") "controlled_doc_edit" = type ->
  opt_or (context_text str_float (wq_context cwo_request) "approval_type") "controlled_doc_edit" = type ->
  ~ coapproved codec s p "cwo_coapproval" type -> ~ coapproved codec s p "ceo_coapproval" type ->
  post (ceo_coapproval gateway cfg codec str_float ceo_texts ceo_request) s (fun _ _ => False) (fun _ s' => s' = s) /\
  post (cwo_coapproval cfg codec str_float cwo_request) s (fun _ _ => False) (fun _ s' => s' = s).
Proof.
  intros Hc Hw Htc Htw Hno Hno'. split.
  - unfold ceo_coapproval. rewrite Hc. cbv zeta. rewrite Htc. apply post_bind. unfold _verify_cwo_coapproval.
    eapply post_mono; [by apply coapproval_post | | done]. intros b s1 [-> Hb].
    destruct b; [by destruct Hno; apply Hb | by apply post_raise].
  - unfold cwo_coapproval, require_cwo_project. rewrite Hw. apply post_bind, post_of_outcome. cbv zeta. rewrite Htw.
    apply post_bind. unfold _has_ceo_coapproval. eapply post_mono; [by apply coapproval_post | | done]. intros b s1 [-> Hb].
    destruct b; [by destruct Hno'; apply Hb | by apply post_raise].
Qed.
End cwo.

(** * Witnesses *)

#[local] Instance tick_oracle : Oracle N := {
  uuid4 := fun n => (str_int (Z.of_N n), (n + 1)%N);
  utcnow := fun n => (mk_datetime 2026 1 1 0 0 0 (Z.of_N n), (n + 1)%N)
}.

Definition demo_config : artifact_config :=
  mk_artifact_config "/var/openqilin" (fun p => p) (fun _ => None) (fun s => s) mvp_defaults false.

(** A codec that reads every record as an approved, aligned proposal "p-1". *)
Definition demo_codec : json_codec :=
  mk_json_codec (fun _ => "{}") (fun _ => "{}") (fun _ => "{}")
    (fun _ => Some (JObj [("proposal_id", JStr "p-1"); ("review_outcome", JStr "Aligned"); ("decision", JStr "approved");
                          ("approval_type", JStr "controlled_doc_edit")])).

Definition no_float : spec_float -> string := fun _ => "0.0".
Definition demo_ceo_prompts : ceo_prompts :=
  mk_ceo_prompts "" (fun _ _ => "") (fun _ _ _ _ _ => "") (fun _ _ _ => "").
Definition demo_cwo_prompts : cwo_prompts := mk_cwo_prompts "" (fun _ _ _ _ => "") (fun _ _ _ => "") (fun _ _ _ => "").

Definition demo_office (rows : artifact_rows) : office N := mk_office 0%N ∅ ∅ (mk_artifact_store rows ∅) [].

(** A table with one document of each type, written one after the other. *)
Definition demo_rows (types : list string) : artifact_rows :=
  as_rows (foldl (fun st type => (write_project_artifact "/var/openqilin" (fun p => p) (fun _ => None) (fun s => s) mvp_defaults
    false "a" (mk_datetime 2026 1 1 0 0 0 0) "project-1" type "{}" (Some (mk_ProjectArtifactWriteContext "ceo" "active" [])) st).2)
    (mk_artifact_store ∅ ∅) types).

Lemma demo_rows_ok types : table_ok (demo_rows types).
Proof.
  unfold demo_rows. assert (forall st, table_ok (as_rows st) -> table_ok (as_rows (foldl (fun st type =>
    (write_project_artifact "/var/openqilin" (fun p => p) (fun _ => None) (fun s => s) mvp_defaults false "a"
      (mk_datetime 2026 1 1 0 0 0 0) "project-1" type "{}" (Some (mk_ProjectArtifactWriteContext "ceo" "active" [])) st).2)
    st types))) as H; [| apply H, table_ok_empty].
  induction types as [| t types IH]; [done |]. intros st Hst. cbn [foldl]. apply IH. by apply write_keeps.
Qed.

Definition demo_review : CSORequest :=
  mk_CSORequest "draft" MUTATION (mk_ChatContext "institutional" "cwo" (Some "project-1")) "tr-1" (Some "p-1") None.

Lemma cso_review_recorded_witness :
  exists l response, review_filed demo_codec demo_review response l /\
    filed_in l (demo_office ∅) (cso_handle (says "Needs revision.") demo_config demo_codec (fun _ _ _ => "") (fun _ _ => "")
      demo_review (demo_office ∅)).2.
Proof.
  pose proof (cso_review_recorded (says "Needs revision.") demo_config demo_codec (fun _ _ _ => "") (fun _ _ => "")
    demo_review (demo_office ∅) table_ok_empty) as H.
  assert (exists x, (cso_handle (says "Needs revision.") demo_config demo_codec (fun _ _ _ => "") (fun _ _ => "")
    demo_review (demo_office ∅)).1 = Ret x) as [x Hx] by (vm_compute; eexists; reflexivity).
  unfold post in H. destruct (cso_handle _ _ _ _ _ _ _) as [o s']. cbn [fst] in Hx. subst o.
  destruct H as (l & Hl & Hr & _). exists l, x. split; [exact Hr | exact Hl].
Defined.

Definition demo_proposal : CeoRequest :=
  mk_CeoRequest "draft" "mutation" [("project_id", JStr "project-1")] (Some "p-1") None "tr-1".

Lemma ceo_acts_on_evidence_witness :
  exists l response, ceo_act demo_codec no_float (demo_office (demo_rows ["cso_review"])) demo_proposal response l /\
    er_decision response = Some "approved".
Proof.
  pose proof (ceo_acts_on_evidence (says "Approved.") demo_config demo_codec no_float demo_ceo_prompts demo_proposal
    (demo_office (demo_rows ["cso_review"])) (demo_rows_ok ["cso_review"])) as H.
  assert (exists x, (ceo_handle (says "Approved.") demo_config demo_codec no_float demo_ceo_prompts demo_proposal
    (demo_office (demo_rows ["cso_review"]))).1 = Ret x /\ er_decision x = Some "approved") as (x & Hx & Hd)
    by (vm_compute; eexists; split; reflexivity).
  unfold post in H. destruct (ceo_handle _ _ _ _ _ _ _) as [o s']. cbn [fst] in Hx. subst o.
  destruct H as (l & _ & Hact). exists l, x. split; [exact Hact | exact Hd].
Defined.

Definition demo_submission : CwoRequest :=
  mk_CwoRequest "a project" "MUTATION" (Some "project-1")
    [("action", JStr "submit_proposal"); ("proposal_id", JStr "p-1")] "tr-1".

Lemma proposal_reviewed_then_decided_witness :
  exists p l s', filed_in l (demo_office ∅) s' /\ scoped (Some p) l /\ reviewed_in demo_codec no_float s' p "p-1".
Proof.
  pose proof (proposal_reviewed_then_decided (says "Approved.") demo_config demo_codec no_float (fun _ _ _ => "")
    (fun _ _ => "") demo_ceo_prompts demo_cwo_prompts demo_submission (demo_office ∅) eq_refl eq_refl table_ok_empty) as H.
  assert (exists x, (cwo_handle (says "Approved.") demo_config demo_codec no_float (fun _ _ _ => "") (fun _ _ => "")
    demo_ceo_prompts demo_cwo_prompts demo_submission (demo_office ∅)).1 = Ret x) as [x Hx] by (vm_compute; eexists; reflexivity).
  unfold post in H. destruct (cwo_handle _ _ _ _ _ _ _ _ _ _) as [o s']. cbn [fst] in Hx. subst o.
  destruct H as (p & l & _ & Hl & Hs & _ & Hr & _). exists p, l, s'. split; [exact Hl | split; [exact Hs | exact Hr]].
Defined.

Definition demo_initialization : CwoRequest :=
  mk_CwoRequest "go" " mutation " (Some "project-1")
    [("action", JStr "initialize_workforce"); ("template", JStr "t"); ("llm_profile", JStr "m");
     ("system_prompt_package", JStr "s")] "tr-1".

Lemma initialization_needs_evidence_witness :
  let rows := demo_rows ["completion_report"; "cso_review"; "ceo_proposal_decision"] in
  exists p l (s' : office N), initialization_evidence demo_codec no_float (demo_office rows) p /\
    initialization_types (demo_office rows) p (map fl_type l) /\ reached p (demo_office rows) l true s'.
Proof.
  intros rows.
  pose proof (initialization_needs_evidence (says "Done.") demo_config demo_codec no_float (fun _ _ _ => "")
    (fun _ _ => "") demo_ceo_prompts demo_cwo_prompts demo_initialization (demo_office rows) eq_refl eq_refl
    (demo_rows_ok ["completion_report"; "cso_review"; "ceo_proposal_decision"])) as H.
  assert (exists x, (cwo_handle (says "Done.") demo_config demo_codec no_float (fun _ _ _ => "") (fun _ _ => "")
    demo_ceo_prompts demo_cwo_prompts demo_initialization (demo_office rows)).1 = Ret x) as [x Hx]
    by (vm_compute; eexists; reflexivity).
  unfold post in H. destruct (cwo_handle _ _ _ _ _ _ _ _ _ _) as [o s']. cbn [fst] in Hx. subst o.
  destruct H as (_ & p & l & _ & He & Ht & Hr). exists p, l, s'. split; [exact He | split; [exact Ht | exact Hr]].
Defined.
