(* ===== verification/Team.v ===== *)
(** The project team: specialist, domain leader and project manager.

    Models [agents/specialist/], [agents/domain_leader/] and
    [agents/project_manager/] with its artifact writer, the in-process results
    repository of [data_access/repositories/task_execution_results.py], and
    [TaskDispatchService.escalate_to_domain_leader].  The project manager dispatches
    through the modelled task service ([Dispatch.create_specialist_task]). *)

From Stdlib Require Import Ascii.
From S2P Require Import Prelude PyStr PyData LlmSchemas PyFloat Task Budget LoopControl Policy Runtime Dispatch.
From S2P Require Import ProjectModel ProjectRows ProjectRepo Artifacts Conversation AgentBase Grammar Secretary Executive.

(** * Task results *)

Record TaskExecutionResult : Type := mk_TaskExecutionResult {
  xr_result_id : string;
  xr_task_id : string;
  xr_specialist_agent_id : string;
  xr_output_text : string;
  xr_tools_used : list string;
  xr_execution_status : string;
  xr_trace_id : string;
  xr_created_at : datetime
}.

(** [TaskExecutionResultsRepository]. *)
Class TaskResults (E : Type) : Type := {
  write_result : TaskExecutionResult -> M E TaskExecutionResult;
  get_results_for_task : string -> M E (list TaskExecutionResult)
}.

(** [InProcessTaskExecutionResultsRepository]. *)
#[export] Instance InProcessResults : TaskResults (list TaskExecutionResult) := {
  write_result := fun result => modify (fun l => l ++ [result]) ;! ret result;
  get_results_for_task := fun tid => gets (List.filter (fun r => String.eqb (xr_task_id r) tid))
}.

(** * Specialist *)

(** What follows the first [marker]: [text[text.find(marker) + len(marker):]]. *)
Fixpoint after_marker (marker s : string) : option string :=
  if startswith s marker then Some (String.substring (String.length marker) (String.length s - String.length marker) s)
  else match s with EmptyString => None | String _ s' => after_marker marker s' end.

(** What precedes the first ["]"], or everything. *)
Fixpoint until_bracket (s : string) : string :=
  match s with
  | EmptyString => ""
  | String c s' => if Ascii.eqb c "]" then "" else String c (until_bracket s')
  end.

Definition _check_clarification_needed (request : SpecialistRequest) : option string :=
  (fun rest => strip (until_bracket rest)) <$> after_marker "[clarification_needed:" (tq_task_description request).

Definition _extract_tools_requested (request : SpecialistRequest) : list string :=
  match after_marker "[tools:" (tq_task_description request) with
  | None => []
  | Some rest => List.filter truthy (map strip (split_on "," (strip (until_bracket rest))))
  end.

(** [SpecialistTaskExecutor.execute]. *)
Definition execute (task_description : string) (approved_tools tools_requested : list string) : outcome string :=
  match List.find (fun tool => negb (mem tool approved_tools)) tools_requested with
  | Some tool => Raise (ToolNotAuthorizedError tool ("tool not authorized: " +:+ py_repr tool))
  | None => Ret ("Task executed: " +:+ String.substring 0 200 task_description)
  end.

Section specialist.
Context {E : Type} `{!Oracle E} `{!AuditWriter E} `{!TaskResults E}.

Definition fresh : M E string := fun e => let '(u, e') := uuid4 e in (Ret u, e').
Definition clock : M E datetime := fun e => let '(t, e') := utcnow e in (Ret t, e').

Definition specialist_event (event_type outcome trace_id task_id reason_code message : string)
    (payload : list (string * json)) : audit_event :=
  {| ae_event_type := event_type; ae_outcome := outcome; ae_event_trace_id := trace_id;
     ae_event_request_id := None; ae_event_task_id := Some task_id; ae_event_principal_id := Some "specialist";
     ae_event_principal_role := Some "specialist"; ae_source := "specialist"; ae_reason_code := Some reason_code;
     ae_message := message; ae_policy_version := Some "v2"; ae_policy_hash := Some "specialist-v1";
     ae_rule_ids := ["AUTH-001"; "ORCH-006"]; ae_payload := JObj payload; ae_attributes := JNull |}.

Definition specialist_handle (request : SpecialistRequest) : M E SpecialistResponse :=
  if negb (String.eqb (norm (tq_dispatch_source_role request)) "project_manager") then
    raise (SpecialistDispatchAuthError
      ("Specialist can only be dispatched by project_manager; " +:+
       "received dispatch_source_role=" +:+ py_repr (tq_dispatch_source_role request)))
  else
    let task_id := strip (tq_task_id request) in
    if negb (truthy task_id) then raise (SpecialistDispatchAuthError "Specialist requires a non-empty task_id")
    else
      match _check_clarification_needed request with
      | Some question =>
          ret (mk_SpecialistResponse "clarification_needed"
                 "Task paused — clarification required before execution." None
                 (Some ("clarification_needed: " +:+ question)) (tq_trace_id request))
      | None =>
          let tools_requested := _extract_tools_requested request in
          match execute (tq_task_description request) (tq_approved_tools request) tools_requested with
          | Raise (ToolNotAuthorizedError tool message) =>
              ret (mk_SpecialistResponse "blocked" ("Task blocked: " +:+ message) None
                     (Some ("tool_not_authorized: " +:+ tool)) (tq_trace_id request))
          | Raise e => raise e
          | Ret output_text =>
              let! result_id := fresh in
              let! now := clock in
              let! result := write_result (mk_TaskExecutionResult result_id task_id "specialist" output_text tools_requested
                "completed" (tq_trace_id request) now) in
              write_event (specialist_event "specialist_task_completed" "completed" (tq_trace_id request) task_id
                "task_executed" ("task execution completed for task_id=" +:+ task_id)
                [("task_id", JStr task_id); ("project_id", JStr (tq_project_id request))]) ;!
              ret (mk_SpecialistResponse "completed" output_text (Some (xr_result_id result)) None (tq_trace_id request))
          end
      end.

(** The violation is recorded under the project "system". *)
Definition report_behavioral_violation (cfg : artifact_config) (codec : json_codec)
    (task_id project_id description trace_id : string) : M (office E) string :=
  let! effective_trace_id := if truthy trace_id then ret trace_id else of_uuid in
  let incident := [("incident_type", JStr "behavioral_violation"); ("current_owner_role", JStr "specialist");
                   ("next_owner_role", JStr "project_manager");
                   ("path_reference", JStr "specialist -> project_manager -> auditor -> owner")] in
  of_on_ext (write_event (specialist_event "behavioral_violation" "escalated" effective_trace_id task_id
    "behavioral_violation" description (incident ++ [("task_id", JStr task_id); ("project_id", JStr project_id)]))) ;!
  let! pointer := write_artifact cfg "system" "auditor_finding"
    (dumps_sorted codec (JObj ([("event_type", JStr "behavioral_violation"); ("severity", JStr "high")] ++ incident ++
       [("rule_ids", JArr [JStr "AUTH-001"; JStr "ORCH-006"]); ("task_id", JStr task_id); ("project_id", JStr project_id);
        ("description", JStr description); ("trace_id", JStr effective_trace_id)])))
    (mk_ProjectArtifactWriteContext "auditor" "active" []) in
  ret (pt_storage_uri pointer).
End specialist.

(** * Domain leader *)

Record DomainLeaderRequest : Type := mk_DomainLeaderRequest {
  dq_project_id : string;
  dq_message : string;
  dq_requesting_agent : string;
  dq_trace_id : string;
  dq_task_id : option string
}.

Record DomainLeaderResponse : Type := mk_DomainLeaderResponse {
  dr_advisory_text : string;
  dr_domain_outcome : string;
  dr_trace_id : string;
  dr_escalate_to : option string;
  dr_rework_recommendations : option string
}.

Record SpecialistReviewRequest : Type := mk_SpecialistReviewRequest {
  vq_task_id : string;
  vq_project_id : string;
  vq_specialist_output : string;
  vq_trace_id : string
}.

Record SpecialistReviewOutcome : Type := mk_SpecialistReviewOutcome {
  vo_outcome : string;
  vo_trace_id : string;
  vo_rework_recommendations : option string
}.

Definition _parse_domain_outcome (text : string) : string * option string * option string :=
  if contains (upper text) "ESCALATE_TO_PM" || contains (upper text) "ESCALATE TO PM" then
    ("domain_risk_escalation", Some "project_manager", None)
  else if contains (upper text) "NEEDS_REWORK" || contains (upper text) "NEEDS REWORK" then ("needs_rework", None, Some text)
  else ("resolved", None, None).

Definition _parse_review_outcome (text : string) : string * option string :=
  if contains (upper text) "NEEDS_REWORK" || contains (upper text) "NEEDS REWORK" then ("needs_rework", Some text)
  else ("allow", None).

Definition leader_fallback : string :=
  "Domain assessment pending. Please resubmit with additional context " +:+ "or escalate to Project Manager for CWO review.".

Definition leader_llm : llm_profile :=
  mk_llm_profile "domain_leader" (absolute_budget 512)
    (mk_LlmPolicyContext "v2" "domain-leader-v1" ["DL-001"; "DL-002"; "DL-003"]).

(** The prompts of [domain_leader/prompts.py], with the system prompt. *)
Record leader_prompts : Type := mk_leader_prompts {
  lp_escalation : DomainLeaderRequest -> string;
  lp_review : SpecialistReviewRequest -> string;
  lp_clarification : string -> string -> string -> string -> string
}.

Section domain_leader.
Context {E : Type} `{!Oracle E}.
Context (gateway : LlmGatewayRequest -> M E LlmGatewayResponse) (prompts : leader_prompts).

Definition _require_project_context (project_id : string) : outcome unit :=
  if truthy project_id then Ret tt
  else Raise (DomainLeaderProjectContextError "DomainLeader requires project_id — rejected without project context").

Definition leader_call (project_id trace_id skill_id prompt : string) : M E string :=
  _complete_llm gateway leader_llm skill_id 512 (f_lit 3 1) (Some project_id) trace_id prompt leader_fallback.

Definition handle_escalation (request : DomainLeaderRequest) : M E DomainLeaderResponse :=
  of_outcome (_require_project_context (dq_project_id request)) ;!
  let! text := leader_call (dq_project_id request) (dq_trace_id request) "escalation_advisory" (lp_escalation prompts request) in
  let '(outcome, escalate_to, rework) := _parse_domain_outcome text in
  ret (mk_DomainLeaderResponse text outcome (dq_trace_id request) escalate_to rework).

Definition review_specialist_output (request : SpecialistReviewRequest) : M E SpecialistReviewOutcome :=
  of_outcome (_require_project_context (vq_project_id request)) ;!
  let! text := leader_call (vq_project_id request) (vq_trace_id request) "specialist_review" (lp_review prompts request) in
  let '(outcome, rework) := _parse_review_outcome text in
  ret (mk_SpecialistReviewOutcome outcome (vq_trace_id request) rework).

Definition handle_clarification_request (specialist_id question task_id project_id trace_id : string)
    : M E DomainLeaderResponse :=
  of_outcome (_require_project_context project_id) ;!
  let! text := leader_call project_id trace_id "specialist_clarification"
    (lp_clarification prompts project_id specialist_id task_id (String.substring 0 1000 question)) in
  ret (mk_DomainLeaderResponse text "resolved" trace_id None None).

Definition dispatch_command (specialist_id : string) : outcome unit :=
  Raise (DomainLeaderCommandDeniedError
    ("DomainLeader cannot issue commands directly to specialist '" +:+ specialist_id +:+ "'. " +:+
     "All specialist interactions must route through ProjectManager.")).

(** [EscalationHandler.escalate]. *)
Definition escalate (project_id message trace_id : string) (task_id : option string) (requesting_agent : string)
    : M E DomainLeaderResponse :=
  handle_escalation (mk_DomainLeaderRequest project_id message requesting_agent trace_id task_id).

(** What the project manager says of an outcome. *)
Definition escalation_text (domain_outcome : string) : string :=
  if String.eqb domain_outcome "domain_risk_escalation" then
    "Domain Leader review found unresolved domain risk. Escalate through " +:+
    "project governance to CWO before further execution."
  else if String.eqb domain_outcome "needs_rework" then
    "Domain Leader review requires rework before execution continues. " +:+
    "Update the task output and resubmit within the current project scope."
  else
    "Domain Leader review completed. The issue is resolved within project scope " +:+ "and execution may continue.".

Definition escalate_question (question project_id trace_id : string) : M E string :=
  let! response := handle_escalation (mk_DomainLeaderRequest project_id question "project_manager" trace_id None) in
  ret (escalation_text (dr_domain_outcome response)).
End domain_leader.

(** [TaskDispatchService.escalate_to_domain_leader]. *)
Definition escalate_to_domain_leader {E C} `{!Oracle E} (leader : option ((LlmGatewayRequest -> M E LlmGatewayResponse) * leader_prompts))
    (question project_id trace_id : string) (looped : bool) : M (world E C) string :=
  (if looped then on_loop (check_and_increment_pair "project_manager" "domain_leader" default_pair_limit) else ret tt) ;!
  match leader with
  | None => raise (DispatchTargetError "domain_leader escalation requires domain_leader_agent to be configured")
  | Some (gateway, prompts) => on_ext (escalate_question gateway prompts question project_id trace_id)
  end.
