(* ===== verification/ProjectManager.v ===== *)
(** The project manager and its artifact writer.

    Models [agents/project_manager/agent.py] and [artifact_writer.py], over the
    office and the task service. *)

From Stdlib Require Import Ascii.
From S2P Require Import Prelude PyStr PyData LlmSchemas PyFloat Task Budget LoopControl Policy Runtime Dispatch.
From S2P Require Import ProjectModel ProjectRows ProjectRepo Artifacts Conversation AgentBase Grammar Secretary Executive Team.

(** * The artifact writer *)

Definition CONDITIONAL_WRITE_TYPES : list string := ["scope_statement"; "budget_plan"; "success_metrics"].
Definition PROHIBITED_TYPES : list string := ["project_charter"; "workforce_plan"].

(** A value given as evidence; an absent key counts as [None]. *)
Definition _has_non_empty_approval_evidence (evidence : option json) : bool :=
  match evidence with
  | None | Some JNull => false
  | Some (JBool b) => b
  | Some (JStr s) => truthy (strip s)
  | Some (JObj o) => match o with [] => false | _ => true end
  | Some (JArr l) => match l with [] => false | _ => true end
  | Some _ => true
  end.

Section evidence.
Context (str_float : spec_float -> string).

(** [sorted(str(role).strip().lower() for role in roles if str(role).strip())]. *)
Definition role_names (roles : list json) : list string :=
  sorted str_leb (map (fun r => norm (json_str str_float r)) (List.filter (fun r => truthy (strip (json_str str_float r))) roles)).

Definition field_truthy (o : list (string * json)) (k : string) : bool :=
  match jfield o k with Some v => json_truthy v | None => false end.

(** The roles a mapping marks as approving. *)
Definition marked_roles (o : list (string * json)) : list string :=
  List.filter (fun role => field_truthy o role || field_truthy o (role +:+ "_approval")) ["ceo"; "cwo"].

(** The roles of a mapping: its list, or its marks. *)
Definition mapping_roles (o : list (string * json)) : list string :=
  match jfield o "approval_roles" with
  | Some (JArr roles) => role_names roles
  | _ => marked_roles o
  end.

Definition _approval_roles_from_evidence (evidence : option json) : list string :=
  match evidence with Some (JObj o) => mapping_roles o | _ => [] end.

Definition _normalize_approval_roles (evidence : option json) : list string :=
  match evidence with
  | Some (JBool b) => if b then ["ceo"; "cwo"] else []
  | Some (JObj o) => mapping_roles o
  | Some (JArr roles) => role_names roles
  | _ => []
  end.
End evidence.

Section writer.
Context {E : Type} `{!Oracle E}.
Context (cfg : artifact_config) (str_float : spec_float -> string).
#[local] Abbreviation O := (office E).

(** A repository error becomes a denial. *)
Definition as_denial {A} (m : M O A) : M O A :=
  try m (fun e => match e with
                  | ProjectArtifactRepositoryError _ message => Some (raise (PMWriteNotAllowedError message))
                  | _ => None
                  end).

Definition pm_write (project_id artifact_type content_md trace_id project_state : string) (evidence : option json)
    : M O ProjectArtifactPointer :=
  let normalized_type := norm artifact_type in
  let normalized_state := norm project_state in
  if mem normalized_type PROHIBITED_TYPES then
    raise (PMWriteNotAllowedError ("Project Manager cannot write prohibited artifact type: " +:+ normalized_type))
  else if negb (String.eqb normalized_state "active") then
    raise (PMWriteNotAllowedError ("Project Manager artifact writes require active project state, got: " +:+ normalized_state))
  else if mem normalized_type CONDITIONAL_WRITE_TYPES && negb (_has_non_empty_approval_evidence evidence) then
    raise (PMWriteNotAllowedError ("Controlled artifact writes require approval evidence: " +:+ normalized_type))
  else
    as_denial (write_artifact cfg project_id normalized_type content_md
      (mk_ProjectArtifactWriteContext "project_manager" normalized_state (_approval_roles_from_evidence str_float evidence))).

Definition write_completion_report (project_id content_md trace_id project_state : string) : M O ProjectArtifactPointer :=
  let normalized_state := norm project_state in
  if negb (mem normalized_state ["active"; "paused"]) then
    raise (PMWriteNotAllowedError "Completion report requires project state active or paused")
  else
    as_denial (write_artifact cfg project_id "completion_report" content_md
      (mk_ProjectArtifactWriteContext "project_manager" normalized_state [])).
End writer.

(** * The office with its task service *)

Record backoffice (E C : Type) : Type := mk_backoffice {
  bo_ext : E;
  bo_budget : BudgetReservationService C;
  bo_loop : LoopState;
  bo_dispatch : gmap string TaskDispatchOutcome
}.
Arguments mk_backoffice {E C}.
Arguments bo_ext {E C}.
Arguments bo_budget {E C}.
Arguments bo_loop {E C}.
Arguments bo_dispatch {E C}.

Definition bo_on_ext {E C A} (m : M E A) : M (backoffice E C) A :=
  zoom bo_ext (fun e b => mk_backoffice e (bo_budget b) (bo_loop b) (bo_dispatch b)) m.

#[export] Instance backoffice_oracle {E C} `{!Oracle E} : Oracle (backoffice E C) := {
  uuid4 := fun b => let '(u, e) := uuid4 (bo_ext b) in (u, mk_backoffice e (bo_budget b) (bo_loop b) (bo_dispatch b));
  utcnow := fun b => let '(t, e) := utcnow (bo_ext b) in (t, mk_backoffice e (bo_budget b) (bo_loop b) (bo_dispatch b))
}.

(** A call of the task service, which shares the task table. *)
Definition of_on_world {E C A} (m : M (world E C) A) : M (office (backoffice E C)) A :=
  zoom (fun s => mk_world (bo_ext (of_ext s)) (of_tasks s) (bo_budget (of_ext s)) (bo_loop (of_ext s)) (bo_dispatch (of_ext s)))
       (fun w s => mk_office (mk_backoffice (w_ext w) (w_budget w) (w_loop w) (w_dispatch w)) (w_tasks w)
                     (of_projects s) (of_artifacts s) (of_agents s)) m.

(** * The agent *)

Record ProjectManagerRequest : Type := mk_ProjectManagerRequest {
  gq_message : string;
  gq_intent : string;
  gq_project_id : string;
  gq_context : list (string * json);
  gq_trace_id : string
}.

Record ProjectManagerResponse : Type := mk_ProjectManagerResponse {
  gr_advisory_text : string;
  gr_action_taken : option string;
  gr_routing_hint : option string;
  gr_artifact_updated : bool;
  gr_trace_id : string
}.

Definition _artifact_summary_of (document : option ProjectArtifactDocument) : string :=
  match document with
  | None => "none"
  | Some d => "v" +:+ str_int (pt_revision_no (ad_pointer d)) +:+ ": " +:+ first_line (ad_content d)
  end.

Definition _milestone_posture (snapshot : option ProjectSnapshot)
    (execution_plan progress_report : option ProjectArtifactDocument) : string :=
  let blocked := match snapshot with Some s => ps_blocked_task_count s | None => 0%Z end in
  if (0 <? blocked)%Z then "blocked:" +:+ str_int blocked
  else
    match progress_report, execution_plan with
    | Some d, _ => "tracked_by_progress_report_v" +:+ str_int (pt_revision_no (ad_pointer d))
    | None, Some d => "tracked_by_execution_plan_v" +:+ str_int (pt_revision_no (ad_pointer d))
    | None, None => "not_reported"
    end.

Definition directive_markers : list string :=
  ["i suggest"; "you might consider"; "consider "; "recommend "; "i recommend"].

Definition _ensure_directive_language (prefix text : string) : string :=
  let stripped := strip text in
  let lowered := lower stripped in
  if any_keyword lowered directive_markers then
    prefix +:+ ": " +:+ replace_all [("I suggest", "Proceed with"); ("I recommend", "Proceed with")] stripped
  else if existsb (startswith lowered) ["status:"; "decision:"; "assignment:"; "blocked:"; "escalate:"] then stripped
  else prefix +:+ ": " +:+ stripped.

Definition pm_llm : llm_profile :=
  mk_llm_profile "project_manager" (absolute_budget 512)
    (mk_LlmPolicyContext "v2" "project-manager-v1" ["AUTH-001"; "AUTH-002"; "ORCH-001"; "ORCH-002"]).

(** The prompts of [project_manager/prompts.py]. *)
Record pm_prompts : Type := mk_pm_prompts {
  pp_system : string;
  pp_status : ProjectManagerRequest -> option ProjectSnapshot -> list string -> string;
  pp_mutation : ProjectManagerRequest -> list string -> string;
  pp_admin : ProjectManagerRequest -> list string -> string
}.

Section pm.
Context {E C : Type} `{!Oracle E} `{!AuditWriter E} `{!MetricRecorder E} `{!BudgetClient C}.
Context `{!DispatchAdapters E C} `{!SandboxProfiles E}.
Context (gateway : LlmGatewayRequest -> M E LlmGatewayResponse) (has_metrics : bool).
Context (cfg : artifact_config) (codec : json_codec) (str_float : spec_float -> string).
Context (create_task : string -> string -> string -> M (world E C) string).
Context (leader_texts : leader_prompts) (prompts : pm_prompts).
#[local] Abbreviation O := (office (backoffice E C)).
#[local] Abbreviation nl := (String (ascii_of_nat 10) "").
#[local] Abbreviation text context k := (context_text str_float context k).

Definition _FALLBACK_STATUS_TEXT : string :=
  "Status: project context is incomplete. Halt further mutation, refresh governed " +:+
  "artifacts, and resolve blockers before proceeding.".
Definition _FALLBACK_MUTATION_TEXT : string :=
  "Decision: execution stays project-bound. Dispatch the required specialist and " +:+
  "record governed changes before continuing.".
Definition _FALLBACK_ADMIN_TEXT : string :=
  "Decision: controlled document update denied until both CEO and CWO approval " +:+ "evidence are present.".

Definition pm_complete (project_id trace_id skill_id prompt fallback : string) : M O string :=
  of_on_ext (bo_on_ext
    (let! answer := _complete_llm gateway pm_llm skill_id 512 (f_lit 2 1) (Some project_id) trace_id
       (pp_system prompts +:+ nl +:+ nl +:+ prompt) fallback in
     (if has_metrics then modify (increment_counter "llm_calls_total" [("purpose", "pm_response")]) else ret tt) ;!
     ret answer)).

(** [str(context.get(k, absent))]. *)
Definition context_str (context : list (string * json)) (k absent : string) : string :=
  match jfield context k with Some v => json_str str_float v | None => absent end.

Definition _resolve_project_state (request : ProjectManagerRequest) : M O string :=
  match text (gq_context request) "project_state" with
  | Some state => ret state
  | None =>
      let! snapshot := get_project_snapshot (gq_project_id request) in
      ret (match snapshot with Some s => ps_status s | None => "unknown" end)
  end.

Definition _project_state_from_snapshot (snapshot : option ProjectSnapshot) (context : list (string * json)) : string :=
  match text context "project_state" with
  | Some state => state
  | None => match snapshot with Some s => ps_status s | None => "unknown" end
  end.

(** The repository has no [write_escalation_event]: a decision log is written
    when the project is active. *)
Definition _emit_budget_risk_escalation (project_id reason trace_id : string) : M O unit :=
  let! snapshot := get_project_snapshot project_id in
  let project_state := match snapshot with Some s => ps_status s | None => "unknown" end in
  if negb (String.eqb project_state "active") then ret tt
  else
    let! _ := write_artifact cfg project_id "decision_log"
      (dumps_sorted codec (JObj
         [("trace_id", JStr trace_id); ("incident_type", JStr "budget_risk"); ("severity", JStr "warning");
          ("current_owner_role", JStr "project_manager"); ("next_owner_role", JStr "cwo");
          ("path_reference", JStr "project_manager -> cwo"); ("rule_ids", JArr [JStr "ESC-004"; JStr "AUTH-002"]);
          ("message", JStr reason); ("escalation_type", JStr "budget_risk"); ("source", JStr "project_manager");
          ("target", JStr "cwo")]))
      (mk_ProjectArtifactWriteContext "project_manager" project_state []) in
    ret tt.

(** The runtime context of the data access has no project, so the task itself is read. *)
Definition _load_task_record (task_id : string) : M O (option TaskRecord) :=
  let! _ := get_task_runtime_context task_id in
  of_on_tasks (get_task_by_id task_id).

(** The task service has [create_specialist_task]. *)
Definition dispatch_to_specialist (task_id project_id trace_id : string) : M O string :=
  let! source_task := _load_task_record task_id in
  let scoped := match source_task with
                | Some t => bool_decide (_normalize_optional_text (Task.project_id t) = Some project_id)
                | None => false
                end in
  if negb scoped then
    raise (PMProjectContextError
             "AUTH-001 violated: Project Manager specialist dispatch must stay within project scope")
  else of_on_world (create_task task_id project_id trace_id).

Definition pm_escalate_to_domain_leader (question project_id trace_id : string) : M O string :=
  of_on_ext (bo_on_ext (escalate_question gateway leader_texts question project_id trace_id)).

Definition pm_latest (project_id artifact_type : string) : M O (option ProjectArtifactDocument) :=
  of_on_artifacts (read_latest_artifact project_id artifact_type).

Definition _handle_status_or_decision (request : ProjectManagerRequest) : M O ProjectManagerResponse :=
  let pid := gq_project_id request in
  let! snapshot := get_project_snapshot pid in
  let! execution_plan := pm_latest pid "execution_plan" in
  let! progress_report := pm_latest pid "progress_report" in
  let! advisory_text := pm_complete pid (gq_trace_id request) "status_or_decision"
    (pp_status prompts request snapshot
       [_project_state_from_snapshot snapshot (gq_context request);
        _milestone_posture snapshot execution_plan progress_report;
        context_str (gq_context request) "budget_state" "unknown";
        _artifact_summary_of execution_plan; _artifact_summary_of progress_report])
    _FALLBACK_STATUS_TEXT in
  ret (mk_ProjectManagerResponse (_ensure_directive_language "Status" advisory_text)
         (Some (if String.eqb (upper (strip (gq_intent request))) "QUERY" then "project_decision_issued" else "status_reported"))
         None false (gq_trace_id request)).

Definition _handle_task_mutation (request : ProjectManagerRequest) : M O ProjectManagerResponse :=
  let pid := gq_project_id request in
  let context := gq_context request in
  let trace_id := gq_trace_id request in
  let! project_state := _resolve_project_state request in
  let budget_state := norm (context_str context "budget_state" "unknown") in
  (if mem budget_state ["risk"; "at_risk"; "warning"] then
     _emit_budget_risk_escalation pid (context_str context "budget_reason" (gq_message request)) trace_id
   else ret tt) ;!
  let artifact_type := text context "artifact_type" in
  let content_md := text context "content_md" in
  let! written :=
    match artifact_type, content_md with
    | Some t, Some c =>
        let! _ := pm_write cfg str_float pid t c trace_id project_state (jfield context "approval_evidence") in ret true
    | _, _ => ret false
    end in
  let task_id := text context "task_id" in
  (match task_id with Some t => let! _ := dispatch_to_specialist t pid trace_id in ret tt | None => ret tt end) ;!
  let! advisory_text := pm_complete pid trace_id "task_mutation"
    (pp_mutation prompts request
       [project_state; opt_or artifact_type "none"; opt_or task_id "none"; if truthy budget_state then budget_state else "unknown"])
    _FALLBACK_MUTATION_TEXT in
  ret (mk_ProjectManagerResponse (_ensure_directive_language "Decision" advisory_text)
         (match task_id with
          | Some _ => Some "specialist_dispatched"
          | None => if written : bool then Some "artifact_written" else None
          end)
         (match task_id with Some _ => Some "specialist" | None => None end) written trace_id).

(** The repository has no [get_controlled_edit_approval_evidence]. *)
Definition _resolve_approval_evidence (request : ProjectManagerRequest) : option json :=
  match jfield (gq_context request) "approval_evidence" with Some e => Some e | None => Some (JObj []) end.

Definition _handle_document_admin (request : ProjectManagerRequest) : M O ProjectManagerResponse :=
  let pid := gq_project_id request in
  let context := gq_context request in
  let evidence := _resolve_approval_evidence request in
  let approval_roles := _normalize_approval_roles str_float evidence in
  let missing_roles := List.filter (fun r => negb (mem r approval_roles)) ["ceo"; "cwo"] in
  match missing_roles with
  | _ :: _ =>
      raise (PMWriteNotAllowedError
               ("Controlled document update denied without CEO+CWO approval evidence: " +:+ join ", " missing_roles))
  | [] =>
      match text context "artifact_type", text context "content_md" with
      | Some artifact_type, Some content_md =>
          if negb (mem artifact_type CONDITIONAL_WRITE_TYPES) then
            raise (PMWriteNotAllowedError ("ADMIN path only permits controlled artifact types, got: " +:+ artifact_type))
          else
            let! state := _resolve_project_state request in
            let! _ := pm_write cfg str_float pid artifact_type content_md (gq_trace_id request) state evidence in
            let! state' := _resolve_project_state request in
            let! advisory_text := pm_complete pid (gq_trace_id request) "document_admin"
              (pp_admin prompts request
                 [state'; artifact_type; str_bool_lower (mem "ceo" approval_roles); str_bool_lower (mem "cwo" approval_roles)])
              _FALLBACK_ADMIN_TEXT in
            ret (mk_ProjectManagerResponse (_ensure_directive_language "Decision" advisory_text) (Some "artifact_written")
                   None true (gq_trace_id request))
      | _, _ => raise (PMWriteNotAllowedError "Controlled document update requires artifact_type and content_md")
      end
  end.

Definition pm_handle (request : ProjectManagerRequest) : M O ProjectManagerResponse :=
  if negb (truthy (gq_project_id request) && truthy (strip (gq_project_id request))) then
    raise (PMProjectContextError "Project Manager requires a non-empty project_id")
  else
    let intent := upper (strip (gq_intent request)) in
    if mem intent ["DISCUSSION"; "QUERY"] then _handle_status_or_decision request
    else if String.eqb intent "MUTATION" then _handle_task_mutation request
    else if String.eqb intent "ADMIN" then _handle_document_admin request
    else raise (PMProjectContextError ("Unsupported Project Manager intent: " +:+ py_repr (gq_intent request))).
End pm.
