(* ===== verification/TeamFacts.v ===== *)
(** Theorems about the secretary and the project team. *)

From S2P Require Import Prelude PyStr PyData LlmSchemas PyFloat Task Budget LoopControl Policy Runtime Dispatch.
From S2P Require Import ProjectModel ProjectRows ProjectRepo Artifacts ArtifactFacts Conversation AgentBase Grammar.
From S2P Require Import GrammarFacts Secretary Executive Workforce OfficeFacts ExecutiveFacts Team ProjectManager.

(** * The read-only view *)

Section view.
Context {E : Type} `{!Oracle E}.
#[local] Abbreviation O := (office E).

Lemma task_query {A} (m : M task_table A) : pure_query m -> tracks same_office (of_on_tasks (E:=E) m).
Proof.
  intros H s. unfold of_on_tasks, zoom. specialize (H (of_tasks s)).
  destruct (m (of_tasks s)) as [o t]; simpl in *. by subst.
Qed.

Lemma snapshot_quiet p : tracks same_office (get_project_snapshot (E:=E) p).
Proof.
  apply quiet_try; [| intros e k [= <-]; apply tracks_ret; typeclasses eauto].
  apply tracks_bind; [typeclasses eauto | apply project_query, project_read_pure | intros [q |]].
  - apply tracks_bind; [typeclasses eauto | by apply task_query | intros; apply tracks_ret; typeclasses eauto].
  - apply tracks_ret; typeclasses eauto.
Qed.

Lemma runtime_context_quiet tid : tracks same_office (get_task_runtime_context (E:=E) tid).
Proof.
  apply quiet_try; [| intros e k [= <-]; apply tracks_ret; typeclasses eauto].
  apply tracks_bind; [typeclasses eauto | by apply task_query | intros; apply tracks_ret; typeclasses eauto].
Qed.

Lemma query_unchanged {A} (m : M O A) s : tracks same_office m -> post m s (fun _ => same_office s) (fun _ => same_office s).
Proof. intros H. specialize (H s). unfold post. by destruct (m s) as [[]]. Qed.
End view.

(** * Secretary *)

Section secretary.
Context {E : Type} `{!Oracle E} `{!ConversationStore E} `{!MetricRecorder E}.
Context (gateway : LlmGatewayRequest -> M E LlmGatewayResponse) (prompts : secretary_prompts).
Context (has_data_access has_store has_metrics : bool).
#[local] Abbreviation O := (office E).

Lemma secretary_advisory_quiet request :
  tracks same_office (secretary_advisory gateway prompts has_data_access has_store has_metrics request).
Proof.
  unfold secretary_advisory. cbv zeta.
  repeat (apply tracks_bind; [typeclasses eauto | | intros ?]);
    repeat match goal with |- context [match ?x with _ => _ end] => destruct x end;
    first [apply snapshot_quiet | apply ext_office | apply tracks_ret; typeclasses eauto].
Qed.

Lemma secretary_quiet request :
  tracks same_office (secretary_handle gateway prompts has_data_access has_store has_metrics request).
Proof.
  unfold secretary_handle. destruct (intent_in _ _); [apply tracks_raise; typeclasses eauto |].
  apply tracks_bind; [typeclasses eauto | apply secretary_advisory_quiet | intros; apply tracks_ret; typeclasses eauto].
Qed.

(** C26: the secretary only advises.  A request classified as a mutation or an
    administration is refused before the model, the conversation store or any
    table is touched; any other is answered for its own intent, and whatever the
    model and the store do, no task, project, record or agent changes. *)
Theorem secretary_only_advises (request : SecretaryRequest) (s : O) :
  post (secretary_handle gateway prompts has_data_access has_store has_metrics request) s
    (fun response s' => ~ In (sq_intent request) [MUTATION; ADMIN] /\ sr_intent_confirmed response = sq_intent request /\
       same_office s s')
    (fun _ s' => same_office s s' /\ (In (sq_intent request) [MUTATION; ADMIN] -> s' = s)).
Proof.
  unfold secretary_handle. destruct (intent_in (sq_intent request) _DENIED_INTENTS) eqn:Ei.
  { by apply post_raise. }
  assert (~ In (sq_intent request) [MUTATION; ADMIN]) as Hn by (destruct (sq_intent request); simpl in *; intuition congruence).
  apply post_bind. eapply post_mono; [apply query_unchanged, secretary_advisory_quiet | |].
  - intros text s' H. by apply post_ret.
  - intros e s' H. by split.
Qed.
End secretary.

(** * Specialist *)

Section specialist.
Context {E : Type} `{!Oracle E} `{!AuditWriter E} `{!TaskResults E}.

Lemma execute_cases description approved requested :
  match execute description approved requested with
  | Ret _ => forall tool, In tool requested -> mem tool approved = true
  | Raise e => exists tool, e = ToolNotAuthorizedError tool ("tool not authorized: " +:+ py_repr tool) /\
      In tool requested /\ mem tool approved = false
  end.
Proof.
  unfold execute. destruct (List.find _ requested) as [tool |] eqn:Ef.
  - apply find_some in Ef as [Hin Hn]. exists tool. by apply negb_true_iff in Hn.
  - intros tool Hin. pose proof (find_none _ _ Ef tool Hin) as Hn. by apply negb_false_iff in Hn.
Qed.

(** The result a completed request records, and its audit event. *)
Definition completed_result (request : SpecialistRequest) (id text : string) (now : datetime) : TaskExecutionResult :=
  mk_TaskExecutionResult id (strip (tq_task_id request)) "specialist" text (_extract_tools_requested request) "completed"
    (tq_trace_id request) now.

Definition completed_event (request : SpecialistRequest) : audit_event :=
  specialist_event "specialist_task_completed" "completed" (tq_trace_id request) (strip (tq_task_id request))
    "task_executed" ("task execution completed for task_id=" +:+ strip (tq_task_id request))
    [("task_id", JStr (strip (tq_task_id request))); ("project_id", JStr (tq_project_id request))].

(** The run of an accepted request from [e], call by call: an identifier, the
    time, the result and its event; it ends with the first of the two writes that
    raises. *)
Inductive records (request : SpecialistRequest) (text : string) (e : E) : outcome SpecialistResponse -> E -> Prop :=
  | records_both id e1 now e2 result e3 e4 :
      uuid4 e = (id, e1) -> utcnow e1 = (now, e2) ->
      write_result (completed_result request id text now) e2 = (Ret result, e3) ->
      write_event (completed_event request) e3 = (Ret tt, e4) ->
      records request text e
        (Ret (mk_SpecialistResponse "completed" text (Some (xr_result_id result)) None (tq_trace_id request))) e4
  | records_nothing id e1 now e2 x e3 :
      uuid4 e = (id, e1) -> utcnow e1 = (now, e2) ->
      write_result (completed_result request id text now) e2 = (Raise x, e3) ->
      records request text e (Raise x) e3
  | records_no_event id e1 now e2 result e3 x e4 :
      uuid4 e = (id, e1) -> utcnow e1 = (now, e2) ->
      write_result (completed_result request id text now) e2 = (Ret result, e3) ->
      write_event (completed_event request) e3 = (Raise x, e4) ->
      records request text e (Raise x) e4.

(** C25: a specialist uses approved tools only, and records what it did.  A
    request that the project manager did not send, or that names no task, is
    refused; one that asks for a clarification is paused; one that names a tool
    that is not approved is blocked; and these three touch nothing.  Every other
    request, all of whose tools are approved, writes exactly one result, of that
    task and those tools, and then exactly one audit event, and is answered as
    completed with the result's identifier.  When a write raises, the exception
    escapes: no event is written after a failed result, and a result stays when its
    event fails. *)
Theorem specialist_uses_approved_tools (request : SpecialistRequest) (e : E) :
  let '(o, e') := specialist_handle request e in
  if String.eqb (norm (tq_dispatch_source_role request)) "project_manager" && truthy (strip (tq_task_id request)) then
    match _check_clarification_needed request with
    | Some question =>
        e' = e /\ exists text, o = Ret (mk_SpecialistResponse "clarification_needed" text None
                                         (Some ("clarification_needed: " +:+ question)) (tq_trace_id request))
    | None =>
        if forallb (fun tool => mem tool (tq_approved_tools request)) (_extract_tools_requested request)
        then exists text, execute (tq_task_description request) (tq_approved_tools request)
                            (_extract_tools_requested request) = Ret text /\ records request text e o e'
        else e' = e /\ exists tool text,
               In tool (_extract_tools_requested request) /\ mem tool (tq_approved_tools request) = false /\
               o = Ret (mk_SpecialistResponse "blocked" text None (Some ("tool_not_authorized: " +:+ tool)) (tq_trace_id request))
    end
  else e' = e /\ exists message, o = Raise (SpecialistDispatchAuthError message).
Proof.
  unfold specialist_handle.
  destruct (String.eqb _ "project_manager"); cbn [negb andb]; [| by split; [| eexists]].
  destruct (truthy (strip (tq_task_id request))); cbn [negb]; [| by split; [| eexists]].
  destruct (_check_clarification_needed request) as [q |]; [by split; [| eexists] |].
  pose proof (execute_cases (tq_task_description request) (tq_approved_tools request) (_extract_tools_requested request)) as He.
  destruct (execute _ _ _) as [text | x].
  - rewrite (proj2 (forallb_forall _ _) He).
    unfold bind, fresh, clock. destruct (uuid4 e) as [id e1] eqn:Eu. destruct (utcnow e1) as [now e2] eqn:En.
    fold (completed_result request id text now). fold (completed_event request).
    destruct (write_result _ e2) as [[result | x] e3] eqn:Ew; [| exists text; split; [done | by eapply records_nothing]].
    destruct (write_event _ e3) as [[[] | x] e4] eqn:Ev; (exists text; split; [done |]);
      [by eapply records_both | by eapply records_no_event].
  - destruct He as (tool & -> & Hin & Hm).
    destruct (forallb _ _) eqn:Ef; [rewrite forallb_forall in Ef; specialize (Ef tool Hin); congruence |].
    split; [done |]. by eexists tool, _.
Qed.
End specialist.

(** * Project manager *)

Section pm.
Context {E C : Type} `{!Oracle E} `{!MetricRecorder E}.
Context (gateway : LlmGatewayRequest -> M E LlmGatewayResponse) (has_metrics : bool).
Context (cfg : artifact_config) (codec : json_codec) (str_float : spec_float -> string).
Context (create_task : string -> string -> string -> M (world E C) string) (prompts : pm_prompts).
#[local] Abbreviation O := (office (backoffice E C)).
#[local] Abbreviation text context k := (context_text str_float context k).
#[local] Abbreviation handle := (pm_handle gateway has_metrics cfg codec str_float create_task prompts).

(** The request names a task of its own project. *)
Definition in_scope (q : ProjectManagerRequest) (s : O) : Prop :=
  exists tid row, text (gq_context q) "task_id" = Some tid /\ of_tasks s !! tid = Some row /\
    _normalize_optional_text (Task.project_id (_task_from_row row)) = Some (gq_project_id q).

(** What a request did: it filed [l]; tasks changed only in its scope. *)
Record pm_step (q : ProjectManagerRequest) (l : list filing) (s s' : O) : Prop := {
  pm_projects : of_projects s' = of_projects s;
  pm_agents : of_agents s' = of_agents s;
  pm_rows : filed l (rows_in s) (rows_in s');
  pm_ok : table_ok (rows_in s');
  pm_tasks : of_tasks s' = of_tasks s \/ in_scope q s
}.

Lemma pm_step_app q l l' a b c : pm_step q l a b -> pm_step q l' b c -> pm_step q (l ++ l') a c.
Proof.
  intros [] []. split; try congruence; eauto using records_filed_app.
  destruct pm_tasks0 as [Ht |]; [| by right]. destruct pm_tasks1 as [| Hs]; [left; congruence | right].
  unfold in_scope in *. by rewrite Ht in Hs.
Qed.

Lemma pm_step_filed q l s s' : filed_in l s s' -> pm_step q l s s'.
Proof. intros []. split; try done. by left. Qed.

(** [does q Q X m]: a run files records [l] with [Q], or [X] when it fails. *)
Definition does {A} (q : ProjectManagerRequest) (Q : A -> list filing -> Prop) (X : list filing -> Prop) (m : M O A) : Prop :=
  forall s, table_ok (rows_in s) ->
  post m s (fun a s' => exists l, Q a l /\ pm_step q l s s') (fun _ s' => exists l, X l /\ pm_step q l s s').

Lemma does_bind {A B} q (Q1 : A -> list filing -> Prop) (Q : B -> list filing -> Prop) X (m : M O A) (k : A -> M O B) :
  does q Q1 X m -> (forall a l, Q1 a l -> does q (fun b l' => Q b (l ++ l')) (fun l' => X (l ++ l')) (k a)) ->
  does q Q X (bind m k).
Proof.
  intros Hm Hk s Hok. apply post_bind. eapply post_mono; [by apply Hm | | done].
  intros a s1 (l & Hl & H1). eapply post_mono; [eapply Hk; [exact Hl | apply H1] | |].
  - intros b s2 (l' & Hl' & H2). exists (l ++ l'). split; [done | by eapply pm_step_app].
  - intros e s2 (l' & Hl' & H2). exists (l ++ l'). split; [done | by eapply pm_step_app].
Qed.

Lemma does_mono {A} q (Q Q' : A -> list filing -> Prop) (X X' : list filing -> Prop) (m : M O A) :
  does q Q X m -> (forall a l, Q a l -> Q' a l) -> (forall l, X l -> X' l) -> does q Q' X' m.
Proof. intros H HQ HX s Hok. eapply post_mono; [by apply H | |]; intros ? s' (l & Hl & Hs); exists l; eauto. Qed.

Lemma does_ret {A} q Q X (a : A) : Q a [] -> does q Q X (ret a).
Proof. intros H s Hok. exists []. split; [done |]. by apply pm_step_filed, filed_in_nil. Qed.

Lemma does_raise {A} q Q (X : list filing -> Prop) e : X [] -> does q Q X (@raise O A e).
Proof. intros H s Hok. exists []. split; [done |]. by apply pm_step_filed, filed_in_nil. Qed.

(** A step that files nothing. *)
Lemma does_quiet {A B} q Q (X : list filing -> Prop) (m : M O A) (k : A -> M O B) :
  tracks same_office m -> X [] -> (forall a, does q Q X (k a)) -> does q Q X (bind m k).
Proof.
  intros Hm HX Hk. apply (does_bind q (fun _ l => l = [])); [| intros a l ->; apply Hk].
  intros s Hok. eapply post_mono; [by apply query_unchanged | |]; intros ? s' H; exists []; (split; [done |]);
    by apply pm_step_filed, filed_in_nil.
Qed.

Lemma complete_quiet pid trace skill prompt fallback :
  tracks same_office (pm_complete (C:=C) gateway has_metrics prompts pid trace skill prompt fallback).
Proof. apply ext_office. Qed.

Lemma state_quiet q : tracks same_office (_resolve_project_state (E:=E) (C:=C) str_float q).
Proof.
  unfold _resolve_project_state. destruct (text _ _); [apply tracks_ret; typeclasses eauto |].
  apply tracks_bind; [typeclasses eauto | apply snapshot_quiet | intros; apply tracks_ret; typeclasses eauto].
Qed.

Lemma latest_quiet p t : tracks same_office (pm_latest (E:=E) (C:=C) p t).
Proof.
  apply artifact_query. intros s. unfold read_latest_artifact, bind, of_outcome.
  destruct (_validate_project_id p); [| done]. by destruct (_validate_artifact_type t).
Qed.

(** What the manager may write on evidence. *)
Definition may_write (t : string) (evidence : option json) : Prop :=
  ~ In t PROHIBITED_TYPES /\ (In t CONDITIONAL_WRITE_TYPES -> _has_non_empty_approval_evidence evidence = true).

Lemma pm_write_does q t c trace state evidence :
  does q (fun _ l => l = [mk_filing (strip (gq_project_id q)) (norm t) c] /\ may_write (norm t) evidence) (fun l => l = [])
    (pm_write (E:=backoffice E C) cfg str_float (gq_project_id q) t c trace state evidence).
Proof.
  unfold pm_write. cbv zeta. destruct (mem (norm t) PROHIBITED_TYPES) eqn:Ep; [by apply does_raise |].
  destruct (String.eqb (norm state) "active"); [| by apply does_raise]. cbn [negb].
  destruct (mem (norm t) CONDITIONAL_WRITE_TYPES && negb (_has_non_empty_approval_evidence evidence)) eqn:Ec; [by apply does_raise |].
  assert (may_write (norm t) evidence) as Hmay.
  { split; [rewrite <- mem_In; congruence |]. rewrite <- mem_In. intros H. rewrite H in Ec. by apply negb_false_iff in Ec. }
  intros s Hok. match goal with |- context [as_denial (write_artifact cfg ?p ?t ?x ?ctx)] =>
    pose proof (write_artifact_post cfg p t x ctx s Hok) as H end.
  unfold post, as_denial, try in *. destruct (write_artifact _ _ _ _ _ s) as [[ptr | e] s'].
  - destruct H as (H & _). rewrite norm_idem in H. eexists. split; [by split | by apply pm_step_filed].
  - assert (exists l, l = [] /\ pm_step q l s s') as Hl by (exists []; split; [done | by apply pm_step_filed, filed_in_nil]).
    by destruct e.
Qed.

(** The record of a budget risk. *)
Definition risk_record (q : ProjectManagerRequest) (l : list filing) : Prop :=
  l = [] \/ exists t, l = [mk_filing (strip (gq_project_id q)) "decision_log" t].

Lemma escalation_does q reason trace :
  does q (fun _ => risk_record q) (risk_record q) (_emit_budget_risk_escalation cfg codec (gq_project_id q) reason trace).
Proof.
  apply does_quiet; [apply snapshot_quiet | by left | intros snapshot]. cbv zeta.
  destruct (negb _); [by apply does_ret; left |]. intros s Hok. apply post_bind.
  eapply post_mono; [by apply write_artifact_post | |].
  - intros ptr s' (H & _). apply post_ret. eexists. split; [right; by eexists | by apply pm_step_filed].
  - intros e s' H. exists []. split; [by left | by apply pm_step_filed, filed_in_nil].
Qed.

Lemma dispatch_does q tid trace :
  text (gq_context q) "task_id" = Some tid ->
  does q (fun _ l => l = []) (fun l => l = []) (dispatch_to_specialist create_task tid (gq_project_id q) trace).
Proof.
  intros Htid s Hok. unfold dispatch_to_specialist, _load_task_record. apply post_bind, post_bind.
  eapply post_mono; [apply query_unchanged, runtime_context_quiet | |]; cycle 1.
  { intros e s' H. exists []. split; [done |]. by apply pm_step_filed, filed_in_nil. }
  intros tr s1 H1. unfold of_on_tasks, zoom, get_task_by_id, gets, post at 1. cbv iota beta.
  set (s2 := mk_office (of_ext s1) (of_tasks s1) (of_projects s1) (of_artifacts s1) (of_agents s1)).
  assert (same_office s s2) as H2 by (destruct H1; by split). clearbody s2.
  assert (pm_step q [] s s2) as Hq by (by apply pm_step_filed, filed_in_nil).
  rewrite (so_tasks _ _ H1). destruct (of_tasks s !! tid) as [row |] eqn:Erow; simpl; [| by apply post_raise; exists []].
  case_bool_decide as Ep; simpl; [| by apply post_raise; exists []].
  assert (in_scope q s) as Hscope by (by exists tid, row).
  unfold post, of_on_world, zoom. destruct (create_task _ _ _ _) as [[r | e] w]; exists []; (split; [done |]);
    (destruct H2 as [? ? Hr ?]; split; cbn; try done; [| | by right]; unfold rows_in in *; cbn; rewrite Hr; [constructor | done]).
Qed.

#[local] Abbreviation intent q := (upper (strip (gq_intent q))).

(** The document a request wrote, if any. *)
Definition document_of (q : ProjectManagerRequest) (l : list filing) : Prop :=
  l = [] \/ exists t c,
    text (gq_context q) "artifact_type" = Some t /\ text (gq_context q) "content_md" = Some c /\
    l = [mk_filing (strip (gq_project_id q)) (norm t) c] /\
    ((intent q = "MUTATION" /\ may_write (norm t) (jfield (gq_context q) "approval_evidence")) \/
     (intent q = "ADMIN" /\ In (norm t) CONDITIONAL_WRITE_TYPES /\
      let roles := _normalize_approval_roles str_float (_resolve_approval_evidence q) in
      In "ceo" roles /\ In "cwo" roles)).

(** What a request may have filed: for a mutation the note of a budget risk, then
    for a mutation or an administration the document. *)
Definition mandate (q : ProjectManagerRequest) (risk documents : list filing) : Prop :=
  (risk = [] \/ intent q = "MUTATION" /\ risk_record q risk) /\ document_of q documents.

Definition reported (q : ProjectManagerRequest) (r : ProjectManagerResponse) (l : list filing) : Prop :=
  exists risk documents, l = risk ++ documents /\ mandate q risk documents /\
    gr_artifact_updated r = negb (bool_decide (documents = [])).

Definition attempted (q : ProjectManagerRequest) (l : list filing) : Prop :=
  exists risk documents, l = risk ++ documents /\ mandate q risk documents.

Lemma attempted_nil q : attempted q [].
Proof. exists [], []. repeat split; by left. Qed.

Lemma status_does q : does q (reported q) (attempted q) (_handle_status_or_decision gateway has_metrics str_float prompts q).
Proof.
  unfold _handle_status_or_decision. cbv zeta.
  apply does_quiet; [apply snapshot_quiet | apply attempted_nil | intros ?].
  do 2 (apply does_quiet; [apply latest_quiet | apply attempted_nil | intros ?]).
  apply does_quiet; [apply complete_quiet | apply attempted_nil | intros ?].
  apply does_ret. exists [], []. repeat split; by left.
Qed.

Lemma mutation_does q :
  intent q = "MUTATION" ->
  does q (reported q) (attempted q) (_handle_task_mutation gateway has_metrics cfg codec str_float create_task prompts q).
Proof.
  intros Hi. unfold _handle_task_mutation. cbv zeta.
  apply does_quiet; [apply state_quiet | apply attempted_nil | intros state].
  assert (forall l, risk_record q l -> attempted q l) as Hrisk.
  { intros l H. exists l, []. rewrite app_nil_r. repeat split; [by right | by left]. }
  apply (does_bind q (fun _ => risk_record q)).
  { destruct (mem _ _); [| by apply does_ret; left].
    eapply does_mono; [apply escalation_does | done | exact Hrisk]. }
  intros _ risk Hr.
  apply (does_bind q (fun (b : bool) l => document_of q l /\ b = negb (bool_decide (l = [])))).
  { assert (does q (fun (b : bool) l => document_of q l /\ b = negb (bool_decide (l = [])))
      (fun l => attempted q (risk ++ l)) (ret false)) as Hno.
    { apply does_ret. split; [by left | done]. }
    destruct (text (gq_context q) "artifact_type") as [t |] eqn:Et; [| exact Hno].
    destruct (text (gq_context q) "content_md") as [c |] eqn:Ec; [| exact Hno].
    eapply does_bind; [eapply does_mono; [apply pm_write_does | intros a l H; exact H | ] |].
    - intros l ->. rewrite app_nil_r. by apply Hrisk.
    - intros _ l [-> Hmay]. apply does_ret. split; [| by rewrite bool_decide_false].
      right. exists t, c. split_and!; try done. by left. }
  intros written documents [Hd ->].
  assert (attempted q (risk ++ documents)) as Hall by (exists risk, documents; repeat split; auto).
  apply (does_bind q (fun _ l => l = [])).
  { destruct (text (gq_context q) "task_id") as [tid |] eqn:Et; [| by apply does_ret].
    eapply does_bind; [eapply does_mono; [by apply dispatch_does | intros a l H; exact H |] |].
    - intros l ->. by rewrite app_nil_r.
    - intros _ l ->. by apply does_ret. }
  intros _ l ->. apply does_quiet; [apply complete_quiet | by rewrite !app_nil_r | intros answer].
  apply does_ret. rewrite !app_nil_r. exists risk, documents. repeat split; auto.
Qed.

Lemma missing_roles_nil roles :
  List.filter (fun r => negb (mem r roles)) ["ceo"; "cwo"] = [] -> In "ceo" roles /\ In "cwo" roles.
Proof.
  simpl. rewrite <- !mem_In. destruct (mem "ceo" roles); simpl; [| done]. by destruct (mem "cwo" roles).
Qed.

Lemma context_text_strip o k t : text o k = Some t -> strip t = t.
Proof.
  unfold context_text, _optional_str. destruct (jfield o k) as [v |]; [| done].
  assert (forall u, or_none (strip u) = Some t -> strip t = t) as H.
  { intros u. unfold or_none. destruct (truthy (strip u)); [| done]. intros [= <-]. apply strip_idem. }
  destruct v; try apply H. done.
Qed.

Lemma admin_does q :
  intent q = "ADMIN" ->
  does q (reported q) (attempted q) (_handle_document_admin gateway has_metrics cfg str_float prompts q).
Proof.
  intros Hi. unfold _handle_document_admin. cbv zeta.
  destruct (List.filter _ _) as [| r l0] eqn:Em; [| apply does_raise, attempted_nil]. apply missing_roles_nil in Em.
  destruct (text (gq_context q) "artifact_type") as [t |] eqn:Et; [| apply does_raise, attempted_nil].
  destruct (text (gq_context q) "content_md") as [c |] eqn:Ec; [| apply does_raise, attempted_nil].
  destruct (mem t CONDITIONAL_WRITE_TYPES) eqn:Ecw; [| apply does_raise, attempted_nil]. cbn [negb].
  apply does_quiet; [apply state_quiet | apply attempted_nil | intros state].
  apply mem_In in Ecw. assert (norm t = t) as Hn by (simpl in Ecw; intuition subst; reflexivity).
  eapply does_bind; [eapply does_mono; [apply pm_write_does | intros a l H; exact H | intros l ->; apply attempted_nil] |].
  intros _ l [-> Hmay].
  assert (mandate q [] [mk_filing (strip (gq_project_id q)) (norm t) c]) as Hall.
  { split; [by left | right; exists t, c]. split_and!; try done. right. rewrite Hn. by split_and!. }
  assert (attempted q ([mk_filing (strip (gq_project_id q)) (norm t) c] ++ [])) as Hatt by (exists [], [mk_filing (strip (gq_project_id q)) (norm t) c]; by split).
  apply does_quiet; [apply state_quiet | exact Hatt | intros state'].
  apply does_quiet; [apply complete_quiet | exact Hatt | intros answer].
  apply does_ret. eexists [], _. split; [reflexivity |]. by split.
Qed.

Lemma handle_does q : does q (reported q) (attempted q) (handle q).
Proof.
  unfold pm_handle. destruct (negb _); [apply does_raise, attempted_nil |]. cbv zeta.
  destruct (mem _ _); [apply status_does |].
  destruct (String.eqb_spec (upper (strip (gq_intent q))) "MUTATION"); [by apply mutation_does |].
  destruct (String.eqb_spec (upper (strip (gq_intent q))) "ADMIN"); [by apply admin_does | apply does_raise, attempted_nil].
Qed.

(** C24: the project manager writes within its mandate.  Whatever a request
    asks and however it ends, the records it files are, in order and all in its
    own project, at most the note of a budget risk, for a mutation, and at most
    the one document it names: for a mutation never a charter or a workforce plan,
    and a controlled document only with some approval evidence; for an
    administration a controlled document only, with the CEO and the CWO among
    the roles of the evidence.  A discussion or a query files nothing.  The
    answer says truly whether a document was written, and no project or agent
    changes. *)
Theorem pm_writes_within_mandate q (s : O) :
  table_ok (rows_in s) ->
  post (handle q) s
    (fun response s' => exists risk documents, filed (risk ++ documents) (rows_in s) (rows_in s') /\ mandate q risk documents /\
       gr_artifact_updated response = negb (bool_decide (documents = [])) /\
       of_projects s' = of_projects s /\ of_agents s' = of_agents s)
    (fun _ s' => exists risk documents, filed (risk ++ documents) (rows_in s) (rows_in s') /\ mandate q risk documents /\
       of_projects s' = of_projects s /\ of_agents s' = of_agents s).
Proof.
  intros Hok. eapply post_mono; [by apply handle_does | |].
  - intros r s' (l & (risk & documents & -> & Hm & Hr) & []). by exists risk, documents.
  - intros e s' (l & (risk & documents & -> & Hm) & []). by exists risk, documents.
Qed.

(** The project manager dispatches within its project.  A request changes
    the tasks table, or has the task service change it, only when the task it
    names is a task of the request's own project. *)
Theorem pm_dispatches_in_project q (s : O) :
  table_ok (rows_in s) -> of_tasks (handle q s).2 <> of_tasks s ->
  exists tid row, text (gq_context q) "task_id" = Some tid /\ of_tasks s !! tid = Some row /\
    _normalize_optional_text (Task.project_id row) = Some (gq_project_id q).
Proof.
  intros Hok Hne. pose proof (handle_does q s Hok) as H. unfold post in H.
  assert (in_scope q s) as (tid & row & Ht & Hrow & Hp).
  { destruct (handle q s) as [[r | e] s']; destruct H as (l & _ & Hs); simpl in Hne; by destruct (pm_tasks _ _ _ _ Hs). }
  exists tid, row. split_and!; try done. revert Hp. unfold _task_from_row. cbn.
  destruct (Task.project_id row) as [p |]; [| done]. unfold text_column, or_none. simpl. by destruct (truthy p).
Qed.
End pm.

(** * Departures *)

(** Evidence that names no approving role lets a mutation write a controlled
    document, which an administration refuses. *)
Lemma empty_evidence_is_evidence (str_float : spec_float -> string) :
  let evidence := Some (JObj [("ceo", JBool false); ("cwo", JBool false)]) in
  may_write "budget_plan" evidence /\ _normalize_approval_roles str_float evidence = [].
Proof. split; [split; [simpl; intuition discriminate | done] | reflexivity]. Qed.

(** The manager may write the records that stand for the decisions of others. *)
Lemma decisions_are_writable t :
  In t ["cso_review"; "ceo_proposal_decision"; "ceo_coapproval"; "cwo_coapproval"; "completion_report"] -> may_write t None.
Proof. intros H. simpl in H. intuition subst; (split; [simpl; intuition discriminate | simpl; intuition discriminate]). Qed.

(** The record of a specialist's violation is not in the task's project. *)
Lemma violation_filed_under_system {E} `{!Oracle E} `{!AuditWriter E} cfg codec tid pid description trace (s : office E) :
  table_ok (rows_in s) ->
  post (report_behavioral_violation cfg codec tid pid description trace) s
    (fun _ s' => exists t, filed_in [mk_filing "system" "auditor_finding" t] s s') (fun _ s' => same_office s s').
Proof.
  intros Hok. unfold report_behavioral_violation. apply post_bind.
  eapply post_mono; [apply query_unchanged; destruct (truthy trace); [apply tracks_ret; typeclasses eauto | apply ext_office] | | done].
  intros trace' s1 H1. cbv zeta. apply post_bind.
  eapply post_mono; [apply query_unchanged, ext_office | | intros e s2 H2; by transitivity s1]. intros u s2 H2.
  assert (same_office s s2) as H12 by (by transitivity s1). apply post_bind.
  eapply post_mono; [apply write_artifact_post; by rewrite (so_rows _ _ H12) | | intros e s3 H3; by transitivity s2].
  intros ptr s3 (H & _). apply post_ret. eexists. change [?x] with ([] ++ [x]).
  eapply filed_in_app; [by apply filed_in_nil | exact H].
Qed.

(** A result whose audit event cannot be written stays. *)
Example result_without_event :
  let broken : AuditWriter (list TaskExecutionResult) :=
    {| write_event := fun _ => raise (DatabaseError "audit_events") |} in
  let oracle : Oracle (list TaskExecutionResult) :=
    {| uuid4 := fun l => ("r-1", l); utcnow := fun l => (mk_datetime 2026 1 1 0 0 0 0, l) |} in
  let request := mk_SpecialistRequest "t-1" "p-1" "write the summary [tools: search]" ["search"] "project_manager" "tr-1" in
  let '(o, results) := specialist_handle request [] in
  o = Raise (DatabaseError "audit_events") /\ map xr_task_id results = ["t-1"].
Proof. vm_compute. done. Qed.

(** * Witnesses *)

#[local] Instance no_metrics : MetricRecorder N := { increment_counter := fun _ _ n => n }.

Definition demo_pm_prompts : pm_prompts := mk_pm_prompts "" (fun _ _ _ => "") (fun _ _ => "") (fun _ _ => "").

(** An active project manager's office: one project, one task of it. *)
Definition demo_team (tasks : task_table) : office (backoffice N Z) :=
  mk_office (mk_backoffice 0%N {| brs_client := 0%Z; brs_task_outcomes := ∅ |} fresh_LoopState ∅) tasks ∅
    (mk_artifact_store ∅ ∅) [].

Definition demo_team_request (context : list (string * json)) : ProjectManagerRequest :=
  mk_ProjectManagerRequest "go on" " mutation " "p" (("project_state", JStr "Active") :: context) "tr-1".

Definition run_team (context : list (string * json)) : M (office (backoffice N Z)) ProjectManagerResponse :=
  pm_handle (says "Go on.") true demo_config demo_codec no_float create_specialist_task demo_pm_prompts
    (demo_team_request context).

Lemma pm_writes_within_mandate_witness :
  exists risk documents response,
    mandate no_float (demo_team_request [("artifact_type", JStr "Scope_Statement"); ("content_md", JStr "# Scope");
       ("approval_evidence", JStr "yes")]) risk documents /\
    gr_artifact_updated response = true /\ gr_artifact_updated response = negb (bool_decide (documents = [])).
Proof.
  set (context := [_; _; _]).
  pose proof (pm_writes_within_mandate (says "Go on.") true demo_config demo_codec no_float create_specialist_task
    demo_pm_prompts (demo_team_request context) (demo_team ∅) table_ok_empty) as H.
  assert (exists x, (run_team context (demo_team ∅)).1 = Ret x /\ gr_artifact_updated x = true) as (x & Hx & Hu)
    by (vm_compute; eexists; split; reflexivity).
  unfold run_team in Hx. unfold post in H. destruct (pm_handle _ _ _ _ _ _ _ _ _) as [o s']. cbn [fst] in Hx. subst o.
  destruct H as (risk & documents & _ & Hm & Hr & _). exists risk, documents, x. split_and!; [exact Hm | exact Hu | exact Hr].
Defined.

(** The request writes its document, then its dispatch raises: the subtask is
    created as queued and cannot be marked dispatched. *)
Lemma dispatching_request_fails :
  let context := [("artifact_type", JStr "execution_plan"); ("content_md", JStr "# Plan"); ("task_id", JStr "t1")] in
  let '(o, s') := run_team context (demo_team {["t1" := sample_row "authorized"]}) in
  o = Raise (InvalidStateTransitionError "queued" "dispatched") /\
  size (rows_in s') = 1%nat /\ size (of_tasks s') = 2%nat.
Proof. vm_compute. repeat split. Qed.

Lemma pm_dispatches_in_project_witness :
  let request := demo_team_request [("task_id", JStr "t1")] in
  let office := demo_team {["t1" := sample_row "authorized"]} in
  exists tid row, context_text no_float (gq_context request) "task_id" = Some tid /\ of_tasks office !! tid = Some row /\
    _normalize_optional_text (Task.project_id row) = Some (gq_project_id request).
Proof.
  apply (pm_dispatches_in_project (says "Go on.") true demo_config demo_codec no_float create_specialist_task demo_pm_prompts
    (demo_team_request [("task_id", JStr "t1")]) (demo_team {["t1" := sample_row "authorized"]}) table_ok_empty).
  intros H. apply (f_equal (fun t : task_table => size t)) in H. vm_compute in H. discriminate H.
Defined.
