(* ===== verification/Advisors.v ===== *)
(** The agents as the control plane builds them.

    Models the construction of the agents in [control_plane/api/dependencies.py]:
    each agent's prompts, filled from [Prompts], and its [handle_free_text], which
    is the shared [AgentBase.handle_free_text] with the agent's own constants. *)

From Stdlib Require Import Ascii.
From S2P Require Import Prelude PyStr PyData LlmSchemas PyFloat Task Budget LoopControl Policy Runtime Dispatch.
From S2P Require Import ProjectModel ProjectRows ProjectRepo Artifacts Conversation AgentBase Grammar.
From S2P Require Import Secretary Executive Workforce Oversight Team ProjectManager Prompts.

#[local] Abbreviation nl := (String (ascii_of_nat 10) EmptyString).

(** * Prompts *)

Definition secretary_texts : secretary_prompts :=
  mk_secretary_prompts secretary_ADVISORY_SYSTEM_PROMPT secretary_QUERY_ADVISORY_TEMPLATE
    secretary_INTENT_DISAMBIGUATION_TEMPLATE.

Definition cso_review_text (proposal_id message portfolio_context : string) : string :=
  cso_STRATEGIC_SYSTEM_PROMPT +:+ nl +:+ nl +:+ cso_PROPOSAL_REVIEW_TEMPLATE proposal_id message portfolio_context.

Definition cso_advisory_text (chat_class message : string) : string :=
  cso_STRATEGIC_SYSTEM_PROMPT +:+ nl +:+ nl +:+ cso_CROSS_PROJECT_ADVISORY_TEMPLATE chat_class message.

Definition ceo_texts : ceo_prompts :=
  mk_ceo_prompts CEO_SYSTEM_PROMPT
    (fun q context_summary =>
       ceo_STRATEGIC_DIRECTIVE_TEMPLATE (eq_intent q) (String.substring 0 1000 (eq_message q)) context_summary)
    (fun q outcome advisory count scope =>
       ceo_PROPOSAL_REVIEW_TEMPLATE (default "" (eq_proposal_id q)) scope (str_int count) outcome advisory
         (String.substring 0 1500 (eq_message q)))
    ceo_CONTROLLED_DOC_TEMPLATE.

Definition cwo_status_text (q : CwoRequest) (snapshot : option ProjectSnapshot) (workforce_plan project_charter : string)
    : string :=
  cwo_WORKFORCE_STATUS_TEMPLATE (opt_or (wq_project_id q) "system")
    (opt_or (s ← snapshot; ps_title s) "unknown")
    (match snapshot with Some s => ps_status s | None => "unknown" end)
    (str_int (match snapshot with Some s => ps_active_task_count s | None => 0%Z end))
    (str_int (match snapshot with Some s => ps_blocked_task_count s | None => 0%Z end))
    workforce_plan project_charter (String.substring 0 1000 (wq_message q)).

Definition cwo_texts : cwo_prompts :=
  mk_cwo_prompts CWO_SYSTEM_PROMPT cwo_status_text cwo_PROPOSAL_DRAFT_TEMPLATE cwo_INITIALIZATION_COMPLETE_TEMPLATE.

Definition domain_leader_texts : leader_prompts :=
  mk_leader_prompts
    (fun q => domain_leader_DOMAIN_SYSTEM_PROMPT +:+ nl +:+ nl +:+
       domain_leader_ESCALATION_ADVISORY_TEMPLATE (dq_project_id q) (dq_requesting_agent q) (opt_or (dq_task_id q) "N/A")
         (String.substring 0 1000 (dq_message q)))
    (fun q => domain_leader_DOMAIN_SYSTEM_PROMPT +:+ nl +:+ nl +:+
       domain_leader_SPECIALIST_REVIEW_TEMPLATE (vq_project_id q) (vq_task_id q)
         (String.substring 0 2000 (vq_specialist_output q)))
    (fun project_id specialist_id task_id question => domain_leader_DOMAIN_SYSTEM_PROMPT +:+ nl +:+ nl +:+
       domain_leader_CLARIFICATION_TEMPLATE project_id specialist_id task_id question).

(** The fields of the status template arrive as the list that [pp_status] is given. *)
Definition pm_status_text (q : ProjectManagerRequest) (snapshot : option ProjectSnapshot) (fields : list string) : string :=
  pm_DISCUSSION_QUERY_TEMPLATE (gq_project_id q) (nth 0 fields "")
    (str_int (match snapshot with Some s => ps_active_task_count s | None => 0%Z end))
    (str_int (match snapshot with Some s => ps_blocked_task_count s | None => 0%Z end))
    (nth 1 fields "") (nth 2 fields "") (nth 3 fields "") (nth 4 fields "") (String.substring 0 1000 (gq_message q)).

Definition pm_texts : pm_prompts :=
  mk_pm_prompts PM_SYSTEM_PROMPT pm_status_text
    (fun q fields => pm_MUTATION_DISPATCH_TEMPLATE (gq_project_id q) (nth 0 fields "") (nth 1 fields "") (nth 2 fields "")
       (nth 3 fields "") (String.substring 0 1000 (gq_message q)))
    (fun q fields => pm_ADMIN_DOCUMENT_TEMPLATE (gq_project_id q) (nth 0 fields "") (nth 1 fields "") (nth 2 fields "")
       (nth 3 fields "") (String.substring 0 1000 (gq_message q))).

(** * Free text *)

Definition ceo_advisory : advisory_profile :=
  mk_advisory_profile ceo_llm ceo_CONVERSATIONAL_SYSTEM_PROMPT
    ("I'm the CEO agent. I handle strategic directives, executive approvals, and co-approval of projects with the CWO. " +:+
     "Use `/oq ask ceo <topic>` to direct a query to me.") "ceo_response".

Definition cwo_advisory : advisory_profile :=
  mk_advisory_profile cwo_llm cwo_CONVERSATIONAL_SYSTEM_PROMPT
    ("I'm the CWO agent. I handle project charter drafting, workforce initialization, and governed role activation. " +:+
     "Use `/oq ask cwo <topic>` to direct a query to me.") "cwo_response".

Definition cso_advisory : advisory_profile :=
  mk_advisory_profile cso_llm cso_CONVERSATIONAL_SYSTEM_PROMPT
    ("I'm the CSO agent. I handle strategic review, portfolio alignment, and cross-project risk analysis. " +:+
     "Use `/oq ask cso <topic>` to direct a query to me.") "cso_response".

Definition pm_advisory : advisory_profile :=
  mk_advisory_profile pm_llm pm_CONVERSATIONAL_SYSTEM_PROMPT
    ("I'm the Project Manager agent. I handle active-project execution, status reporting, and specialist dispatch. " +:+
     "Use `/oq ask project_manager <project> <question>` to direct a query to me.") "pm_response".

Section free_text.
Context {E : Type} `{!Oracle E} `{!ConversationStore E} `{!MetricRecorder E}.
Context (gateway : LlmGatewayRequest -> M E LlmGatewayResponse) (default_routing_profile : string).

Definition agent_free_text (profile : advisory_profile) (request : FreeTextAdvisoryRequest) : M E FreeTextAdvisoryResponse :=
  handle_free_text (Some gateway) true true default_routing_profile profile request.

Definition ceo_handle_free_text := agent_free_text ceo_advisory.
Definition cwo_handle_free_text := agent_free_text cwo_advisory.
Definition auditor_handle_free_text := agent_free_text (auditor_profile auditor_CONVERSATIONAL_SYSTEM_PROMPT).
Definition administrator_handle_free_text :=
  agent_free_text (administrator_profile administrator_CONVERSATIONAL_SYSTEM_PROMPT).
Definition cso_handle_free_text := agent_free_text cso_advisory.
Definition project_manager_handle_free_text := agent_free_text pm_advisory.
End free_text.
