(* ===== verification/DiscordIngress.v ===== *)
(** The Discord endpoint: POST /v1/connectors/discord/messages.

    Models [control_plane/routers/discord_ingress.py] and
    [control_plane/schemas/discord_ingress.py]: a message is resolved to its
    project's channel, read as a command or classified as free text, and then
    answered by an advisory agent or handed to the owner-command endpoint of
    [OwnerCommands].

    The agents and the topic router are those the control plane builds, so the
    tests for their absence are left out.  FastAPI's parsing has checked
    [discord_request_ok]; the owner command that is built is checked again. *)

From Stdlib Require Import Ascii.
From S2P Require Import Prelude PyStr PyData LlmSchemas PyFloat Task Budget LoopControl Policy Runtime Dispatch.
From S2P Require Import ProjectModel ProjectRows ProjectRepo Ingress Admission OwnerCommands.
From S2P Require Import Artifacts Conversation ProjectSpaces AgentBase Grammar Secretary Advisors.

(** * The request *)

Record DiscordIngressRequest : Type := mk_DiscordIngressRequest {
  di_trace_id : string;
  di_external_message_id : string;
  di_actor_external_id : string;
  di_actor_role : string;
  di_idempotency_key : string;
  di_raw_payload_hash : string;
  di_timestamp : datetime;
  di_content : string;
  di_action : string;
  di_target : option string;
  di_args : list string;
  di_recipients : list OwnerCommandRecipient;
  di_project_id : option string;
  di_priority : string;
  di_guild_id : string;
  di_channel_id : string;
  di_channel_type : string;
  di_chat_class : string;
  di_bot_role : option string;
  di_bot_id : option string;
  di_bot_user_id : option string;
  di_is_everyone_mention : bool
}.

Definition discord_request_ok (q : DiscordIngressRequest) : bool :=
  len_ok 1 128 (di_trace_id q) && len_ok 1 256 (di_external_message_id q) && len_ok 1 256 (di_actor_external_id q) &&
  len_ok 1 64 (di_actor_role q) && len_ok 8 128 (di_idempotency_key q) && len_ok 64 128 (di_raw_payload_hash q) &&
  len_ok 1 4000 (di_content q) && len_ok 1 128 (di_action q) && opt_len_ok 1 128 (di_target q) &&
  Nat.leb (length (di_args q)) 32 &&
  Nat.leb 1 (length (di_recipients q)) && Nat.leb (length (di_recipients q)) 32 &&
  forallb (fun r => len_ok 1 128 (recipient_id r) && len_ok 1 64 (recipient_type r)) (di_recipients q) &&
  opt_len_ok 1 128 (di_project_id q) && mem (di_priority q) ["low"; "normal"; "high"; "critical"] &&
  len_ok 1 128 (di_guild_id q) && len_ok 1 128 (di_channel_id q) &&
  mem (di_channel_type q) ["dm"; "group"; "text"; "thread"] &&
  mem (di_chat_class q) ["direct"; "leadership_council"; "governance"; "executive"; "project"] &&
  opt_len_ok 1 64 (di_bot_role q) && opt_len_ok 1 128 (di_bot_id q) && opt_len_ok 1 128 (di_bot_user_id q).

Definition _ADVISORY_AGENT_ROLES : list string := ["ceo"; "cwo"; "auditor"; "administrator"; "cso"; "project_manager"].

(** [payload.bot_role in _ADVISORY_AGENT_ROLES]. *)
Definition advisory_bot (q : DiscordIngressRequest) : option string :=
  match di_bot_role q with Some role => if mem role _ADVISORY_AGENT_ROLES then Some role else None | None => None end.

Definition _resolve_target (action : string) (explicit_target : option string) : string :=
  if opt_truthy (strip <$> explicit_target) then strip (default "" explicit_target)
  else if startswith (norm action) "llm_" then "llm"
  else if startswith (norm action) "msg_" then "communication"
  else "sandbox".

(** * Texts *)

(** [word] without regard to case, then the rest. *)
Definition eat_word (word s : string) : option string :=
  if startswith (lower s) word then Some (drop_chars (String.length word) s) else None.

(** [\s+]. *)
Definition eat_spaces (s : string) : option string :=
  match s with String c _ => if is_space c then Some (lstrip s) else None | EmptyString => None end.

Definition is_channel_char (c : ascii) : bool :=
  let n := nat_of_ascii (lower_char c) in
  (((97 <=? n) && (n <=? 122)) || ((48 <=? n) && (n <=? 57)) || (n =? 95) || (n =? 45))%nat.

(** [([a-z0-9_-]+)] and what follows. *)
Fixpoint eat_channel (s : string) : string * string :=
  match s with
  | String c s' => if is_channel_char c then let '(n, r) := eat_channel s' in (String c n, r) else ("", s)
  | EmptyString => ("", "")
  end.

(** [_CONTEXT_FROM_PATTERN.match(content)], and its group. *)
Definition context_channel (text : string) : option string :=
  rest ← eat_word "/oq" text; rest ← eat_spaces rest; rest ← eat_word "context" rest; rest ← eat_spaces rest;
  rest ← eat_word "from:#" rest;
  let '(name, tail) := eat_channel rest in
  if truthy name && negb (truthy (strip tail)) then Some name else None.

(** [str.title] on ASCII letters. *)
Fixpoint title_from (in_word : bool) (s : string) : string :=
  match s with
  | EmptyString => ""
  | String c s' =>
      let n := nat_of_ascii (lower_char c) in
      let letter := ((97 <=? n) && (n <=? 122))%nat in
      (if in_word then lower (String c "") else upper (String c "")) +:+ title_from letter s'
  end.

Definition role_label (role : string) : string := title_from false (str_replace role "_" " ").

Definition unable_text (role : string) : string :=
  "I'm the " +:+ role_label role +:+ " agent. I'm unable to respond right now — please try again.".

Definition scope_of (q : DiscordIngressRequest) : string :=
  "guild::" +:+ di_guild_id q +:+ "::channel::" +:+ di_channel_id q.

Definition advisory_request_of (q : DiscordIngressRequest) (text role : string) : FreeTextAdvisoryRequest :=
  mk_FreeTextAdvisoryRequest text (scope_of q) (di_guild_id q) (di_channel_id q) (Some role).

(** * Responses *)

Definition _grammar_error_response (q : DiscordIngressRequest) (code message : string) (details : list (string * string))
    : OwnerCommandResponse :=
  _denied_response 400 (di_trace_id q) code "validation_error" message "grammar_layer" details None None [].

Definition secretary_denied (q : DiscordIngressRequest) (code message : string) : OwnerCommandResponse :=
  _denied_response 403 (di_trace_id q) code "authorization_error" message "secretary_agent" [] None None [].

(** An accepted response that no task stands behind. *)
Definition advisory_data (q : DiscordIngressRequest) (task_id request_id command dispatch_target : string)
    (llm_execution : list (string * json)) : OwnerCommandResponse :=
  mk_OwnerCommandResponse 202 "accepted" (di_trace_id q) None None []
    (Some (mk_OwnerCommandAcceptedData task_id "dispatched" false request_id (di_actor_external_id q) "discord" command []
             (Some dispatch_target) None (Some llm_execution))) None.

(** * The endpoint *)

Record discord_plane (E : Type) : Type := mk_discord_plane {
  dp_control : control_plane (E:=E);
  dp_bindings : list binding_row;
  dp_cache : intent_cache;
  dp_artifacts : artifact_store;
  dp_agents : list AgentRecord
}.
Arguments mk_discord_plane {E}.
Arguments dp_control {E}.
Arguments dp_bindings {E}.
Arguments dp_cache {E}.
Arguments dp_artifacts {E}.
Arguments dp_agents {E}.

Section endpoint.
Context {E : Type} `{!Oracle E} `{!AuditWriter E} `{!MetricRecorder E} `{!ConversationStore E}.
Context `{!DbFaults E} `{!MonotonicClock E} `{!BotRegistry E}.
Context (hmac_sha256_hex : string -> string -> string) (connector_shared_secret : string).
Context (str_float : pyfloat -> string) (json_text : json -> string) (sha256 : string -> string).
Context (scan : list binding_row -> list binding_row).
Context (gateway : LlmGatewayRequest -> M E LlmGatewayResponse) (default_routing_profile : string).
#[local] Abbreviation D := (discord_plane E).

Definition set_outside (e : E) (c : control_plane (E:=E)) : control_plane (E:=E) :=
  mk_control_plane e (cp_identity c) (cp_projects c) (cp_admission c).

Definition di_on_control {A} (m : M (control_plane (E:=E)) A) : M D A :=
  zoom dp_control (fun c s => mk_discord_plane c (dp_bindings s) (dp_cache s) (dp_artifacts s) (dp_agents s)) m.

Definition di_on_ext {A} (m : M E A) : M D A := di_on_control (on_outside m).

Definition di_on_spaces {A} (m : M (spaces E) A) : M D A :=
  zoom (fun s => mk_spaces (cp_ext (dp_control s)) (dp_bindings s))
       (fun t s => mk_discord_plane (set_outside (sp_ext t) (dp_control s)) (sp_rows t) (dp_cache s) (dp_artifacts s)
                     (dp_agents s)) m.

Definition di_on_classifier {A} (m : M (classifier_state E) A) : M D A :=
  zoom (fun s => mk_classifier_state (cp_ext (dp_control s)) (dp_cache s))
       (fun t s => mk_discord_plane (set_outside (cl_ext t) (dp_control s)) (dp_bindings s) (cl_cache t) (dp_artifacts s)
                     (dp_agents s)) m.

(** The secretary reads the tasks and the projects of the control plane. *)
Definition di_on_office {A} (m : M (office E) A) : M D A :=
  zoom (fun s => mk_office (cp_ext (dp_control s)) (ad_tasks (cp_admission (dp_control s))) (cp_projects (dp_control s))
                   (dp_artifacts s) (dp_agents s))
       (fun (o : office E) (s : D) => mk_discord_plane
          (mk_control_plane (of_ext o) (cp_identity (dp_control s)) (of_projects o)
             (mk_admission (ad_claims (cp_admission (dp_control s))) (of_tasks o)))
          (dp_bindings s) (dp_cache s) (of_artifacts o) (of_agents o)) m.

Definition di_uuid : M D string := di_on_ext (fun e => let '(u, e') := uuid4 e in (Ret u, e')).

Definition _discord_advisory_response (q : DiscordIngressRequest) (command message : string) : M D OwnerCommandResponse :=
  let! request_id := di_uuid in
  ret (advisory_data q ("discord-context-" +:+ di_external_message_id q) request_id command "context_injection"
         [("advisory_response", JStr message)]).

(** [_validate_discord_connector_request]: the refusal, if any. *)
Definition _validate_discord_connector_request (q : DiscordIngressRequest) (signature_header : option string)
    : outcome (option OwnerCommandResponse) :=
  match validate_connector_auth hmac_sha256_hex connector_shared_secret (Some "discord") (Some (di_actor_external_id q))
          (Some (di_idempotency_key q)) signature_header "discord" (di_actor_external_id q) (di_idempotency_key q)
          (di_raw_payload_hash q) with
  | Ret _ => Ret None
  | Raise (ConnectorSecurityError code message) =>
      Ret (Some (_error_response 400 (di_trace_id q) code "authorization_error" message "connector_security" []))
  | Raise e => Raise e
  end.

(** What follows the connector check. *)
Definition authentic (q : DiscordIngressRequest) (signature : option string) (k : M D OwnerCommandResponse)
    : M D OwnerCommandResponse :=
  let! auth_error := of_outcome (_validate_discord_connector_request q signature) in
  match auth_error with Some response => ret response | None => k end.

(** The free-text handler of a role: the last branch is the project manager's. *)
Definition advise (role : string) (request : FreeTextAdvisoryRequest) : M E FreeTextAdvisoryResponse :=
  if String.eqb role "ceo" then ceo_handle_free_text gateway default_routing_profile request
  else if String.eqb role "cwo" then cwo_handle_free_text gateway default_routing_profile request
  else if String.eqb role "auditor" then auditor_handle_free_text gateway default_routing_profile request
  else if String.eqb role "administrator" then administrator_handle_free_text gateway default_routing_profile request
  else if String.eqb role "cso" then cso_handle_free_text gateway default_routing_profile request
  else project_manager_handle_free_text gateway default_routing_profile request.

(** The branches without the administrator, who has no answer. *)
Definition advise_some (role : string) (request : FreeTextAdvisoryRequest) : M E (option FreeTextAdvisoryResponse) :=
  if mem role ["ceo"; "cwo"; "auditor"; "cso"; "project_manager"]
  then let! response := advise role request in ret (Some response)
  else ret None.

(** An agent's text, or the apology. *)
Definition advisory_or_apology (q : DiscordIngressRequest) (text role : string) : M D string :=
  try (let! response := di_on_ext (advise role (advisory_request_of q text role)) in ret (fr_advisory_text response))
    (fun _ => Some (ret (unable_text role))).

(** An agent's answer as a response; on a failure, or without an answer, [otherwise]. *)
Definition advisory_or_else (q : DiscordIngressRequest) (text role : string) (otherwise : M D OwnerCommandResponse)
    : M D OwnerCommandResponse :=
  let! response := try (di_on_ext (advise_some role (advisory_request_of q text role))) (fun _ => Some (ret None)) in
  match response with
  | Some r => _discord_advisory_response q "ask" (fr_advisory_text r)
  | None => otherwise
  end.

Definition secretary_request_of (q : DiscordIngressRequest) (text : string) (intent : IntentClass) (context : ChatContext)
    (addressed_agent : string) : SecretaryRequest :=
  mk_SecretaryRequest text intent context (di_trace_id q) (di_channel_id q) (di_guild_id q) (di_actor_external_id q)
    addressed_agent.

Definition ask_secretary (request : SecretaryRequest) : M D SecretaryResponse :=
  di_on_office (secretary_handle gateway secretary_texts true true true request).

(** ** Commands *)

(** [/oq context from:#name]. *)
Definition context_command (q : DiscordIngressRequest) (signature : option string) (name : string)
    : M D OwnerCommandResponse :=
  authentic q signature
    (let channel_name := lower name in
     let! projects := gets (fun s => cp_projects (dp_control s)) in
     let! binding := di_on_spaces (get_binding_by_name scan (fun p => row_name <$> projects !! p) channel_name (di_guild_id q)) in
     _discord_advisory_response q "context"
       (match binding with
        | None => "No project channel named #" +:+ channel_name +:+ " found."
        | Some _ => "Context from #" +:+ channel_name +:+ " noted. It will be included in your next message."
        end)).

(** [/oq ask role text]: the secretary's class is that of the text, or of a stock question. *)
Definition ask_command (q : DiscordIngressRequest) (signature : option string) (text : string) (context : ChatContext)
    (role : string) (args : list string) : M D OwnerCommandResponse :=
  authentic q signature
    (let asked := strip (join " " args) in
     let ask_text := match args with [] => text | _ => if truthy asked then asked else text end in
     if String.eqb role "secretary" then
       let! intent := try (di_on_classifier (classify gateway true ask_text context))
                        (fun e => match e with
                                  | GrammarParseError _ _ _ =>
                                      Some (di_on_classifier (classify gateway true "tell me about your role" context))
                                  | _ => None
                                  end) in
       let! answer := try (let! response := ask_secretary (secretary_request_of q ask_text intent context "") in
                           ret (inl (sr_advisory_text response)))
                        (fun e => match e with
                                  | SecretaryPolicyError code message => Some (ret (inr (secretary_denied q code message)))
                                  | _ => Some (ret (inl (unable_text "secretary")))
                                  end) in
       match answer with
       | inl advisory => _discord_advisory_response q "ask" advisory
       | inr denied => ret denied
       end
     else
       let! advisory := advisory_or_apology q ask_text role in
       _discord_advisory_response q "ask" advisory).

(** ** The owner command *)

Definition owner_payload_of (q : DiscordIngressRequest) (project_id : option string) (action target : string)
    (args : list string) : OwnerCommandRequest :=
  mk_OwnerCommandRequest (di_external_message_id q) (di_trace_id q)
    (mk_OwnerCommandSender (di_actor_external_id q) (di_actor_role q)) (di_recipients q) "command" (di_priority q)
    (di_timestamp q) (di_content q) project_id
    (mk_OwnerCommandConnectorMetadata "discord" (di_external_message_id q) (di_actor_external_id q) (di_idempotency_key q)
       (di_raw_payload_hash q)
       (Some (mk_OwnerCommandDiscordContext (di_guild_id q) (di_channel_id q) (di_channel_type q) (di_chat_class q)
                (di_bot_role q) (di_bot_id q) (di_bot_user_id q))))
    (mk_OwnerCommandResolution action target [("args", JArr (map JStr args))]).

Definition headers_of (q : DiscordIngressRequest) (signature : option string) : ingress_headers :=
  mk_ingress_headers (Some (di_trace_id q)) (Some "discord") (Some (di_actor_external_id q)) None
    (Some (di_idempotency_key q)) signature.

(** The request is built, which checks its schema, and handed on. *)
Definition hand_over (q : DiscordIngressRequest) (signature : option string) (project_id : option string)
    (action target : string) (args : list string) : M D OwnerCommandResponse :=
  let payload := owner_payload_of q project_id action target args in
  if owner_command_request_ok payload then
    di_on_control (submit_owner_command hmac_sha256_hex connector_shared_secret str_float json_text sha256 payload
                     (headers_of q signature))
  else raise (OtherError "ValidationError: OwnerCommandRequest").

(** ** Free text *)

(** The recipient a message is addressed to, other than the runtime and the secretary. *)
Definition addressed_agent_of (recipients : list OwnerCommandRecipient) : string :=
  default "" (List.find (fun t => truthy t && negb (mem t ["runtime"; "secretary"]))
                (map (fun r => norm (recipient_type r)) recipients)).

Definition secretary_answer (q : DiscordIngressRequest) (text : string) (intent : IntentClass) (context : ChatContext)
    : M D OwnerCommandResponse :=
  let! answer := try (let! response := ask_secretary (secretary_request_of q text intent context
                                                        (addressed_agent_of (di_recipients q))) in
                      ret (inl response))
                   (fun e => match e with
                             | SecretaryPolicyError code message => Some (ret (inr (secretary_denied q code message)))
                             | _ => None
                             end) in
  match answer with
  | inr denied => ret denied
  | inl response =>
      let! request_id := di_uuid in
      ret (advisory_data q ("secretary-" +:+ di_external_message_id q) request_id (intent_str intent) "secretary"
             [("advisory_response", JStr (sr_advisory_text response));
              ("routing_suggestion", opt_json (sr_routing_suggestion response))])
  end.

Definition referral_text (role : string) (mention : option string) : string :=
  "The " +:+ role_label role +:+ " agent" +:+
  (match mention with Some m => if truthy m then " " +:+ m else "" | None => "" end) +:+
  " is not available in project channels. Use `/oq ask " +:+ role +:+ " <your question>` in a general channel.".

(** The secretary's messages, by topic first. *)
Definition tier1_answer (q : DiscordIngressRequest) (text : string) (intent : IntentClass) (context : ChatContext)
    (is_project_channel : bool) : M D OwnerCommandResponse :=
  match classify_topic text with
  | None => secretary_answer q text intent context
  | Some decision =>
      let role := rd_agent_role decision in
      if is_role_available_in_channel role is_project_channel then
        advisory_or_else q text role (secretary_answer q text intent context)
      else
        let! mention := di_on_ext (get_mention role) in
        _discord_advisory_response q "ask" (referral_text role mention)
  end.

(** The answer of the bot the message was sent to. *)
Definition bot_answer (q : DiscordIngressRequest) (text role : string) (intent : IntentClass) : M D OwnerCommandResponse :=
  let! advisory := advisory_or_apology q text role in
  let! request_id := di_uuid in
  ret (advisory_data q (role +:+ "-" +:+ di_external_message_id q) request_id (intent_str intent) role
         [("advisory_response", JStr advisory); ("routing_suggestion", JNull)]).

(** What remains after the broadcast and the forwarded message. *)
Definition route_free_text (q : DiscordIngressRequest) (signature : option string) (text : string) (intent : IntentClass)
    (context : ChatContext) (target : string) (is_project_channel : bool) : M D OwnerCommandResponse :=
  match advisory_bot q with
  | None =>
      if String.eqb target "secretary" then authentic q signature (tier1_answer q text intent context is_project_channel)
      else hand_over q signature (cx_project_id context) (intent_str intent) target (di_args q)
  | Some role => authentic q signature (bot_answer q text role intent)
  end.

(** A message that a bot other than the secretary's forwarded. *)
Definition forwarded (q : DiscordIngressRequest) (signature : option string) (text : string) (intent : IntentClass)
    (context : ChatContext) (target : string) (is_project_channel : bool) : M D OwnerCommandResponse :=
  let rest := route_free_text q signature text intent context target is_project_channel in
  match advisory_bot q with
  | Some role =>
      if negb (di_is_everyone_mention q) && String.eqb target "secretary"
      then authentic q signature (advisory_or_else q text role rest) else rest
  | None => rest
  end.

Definition free_text (q : DiscordIngressRequest) (signature : option string) (text : string) (context : ChatContext)
    (is_project_channel : bool) : M D OwnerCommandResponse :=
  let! class := try (let! intent := di_on_classifier (classify gateway true text context) in ret (inl intent))
                  (fun e => match e with
                            | GrammarParseError code message details =>
                                Some (ret (inr (_grammar_error_response q code message details)))
                            | _ => None
                            end) in
  match class with
  | inr response => ret response
  | inl intent =>
      let target := rh_target_role (resolve_free_text intent context) in
      let rest := forwarded q signature text intent context target is_project_channel in
      if di_is_everyone_mention q then
        authentic q signature
          (match advisory_bot q with
           | Some role => let! advisory := advisory_or_apology q text role in
                          _discord_advisory_response q "everyone_broadcast" advisory
           | None => rest
           end)
      else rest
  end.

(** ** The handler *)

Definition command_text (q : DiscordIngressRequest) (signature : option string) (text : string) (context : ChatContext)
    : M D OwnerCommandResponse :=
  match context_channel text with
  | Some name => context_command q signature name
  | None =>
      match parse text with
      | Raise (GrammarParseError code message details) => ret (_grammar_error_response q code message details)
      | Raise e => raise e
      | Ret envelope =>
          let target := if opt_truthy (ce_target envelope) then default "" (ce_target envelope)
                        else _resolve_target (di_action q) (di_target q) in
          let args := match ce_args envelope with [] => di_args q | l => l end in
          if String.eqb (ce_verb envelope) "ask" && mem (lower target) ("secretary" :: _ADVISORY_AGENT_ROLES)
          then ask_command q signature text context (lower target) args
          else hand_over q signature (cx_project_id context) (ce_verb envelope) target args
      end
  end.

Definition submit_discord_message (q : DiscordIngressRequest) (signature : option string) : M D OwnerCommandResponse :=
  let! routing_context := di_on_spaces (resolve scan (di_guild_id q) (di_channel_id q)) in
  let project_id := match routing_context with Some r => Some (rc_project_id r) | None => di_project_id q end in
  let context := mk_ChatContext (di_chat_class q) (di_channel_id q) project_id in
  let text := strip (di_content q) in
  if startswith text _COMMAND_PREFIX then command_text q signature text context
  else free_text q signature text context (bool_decide (is_Some routing_context)).
End endpoint.
