(* ===== verification/DiscordFacts.v ===== *)
(** Theorems about the Discord endpoint: what a message may do, and that the
    owner command built from it satisfies the owner-command schema. *)

From Stdlib Require Import Ascii.
From S2P Require Import Prelude PyStr PyData LlmSchemas PyFloat Task Budget LoopControl Policy Runtime Dispatch.
From S2P Require Import ProjectModel ProjectRows ProjectRepo Ingress Admission AdmissionFacts OwnerCommands.
From S2P Require Import Artifacts ArtifactFacts Conversation ProjectSpaces SpaceFacts AgentBase OfficeFacts Grammar GrammarFacts.
From S2P Require Import Secretary Team ProjectManager TeamFacts Advisors DiscordIngress.

(** * What was said *)

(** The command and target that a task of a message may carry: those the owner
    typed, or the class of a free text and the agent it is routed to. *)
Definition spoken (q : DiscordIngressRequest) (project : option string) (command target : string) : Prop :=
  let text := strip (di_content q) in
  if startswith text _COMMAND_PREFIX then
    exists envelope, parse text = Ret envelope /\ command = ce_verb envelope /\
      target = strip (if opt_truthy (ce_target envelope) then default "" (ce_target envelope)
                      else _resolve_target (di_action q) (di_target q))
  else
    exists intent, intent <> MUTATION /\ command = intent_str intent /\ target <> "secretary" /\
      target = rh_target_role (resolve_free_text intent (mk_ChatContext (di_chat_class q) (di_channel_id q) project)).

Lemma parse_verb text envelope : parse text = Ret envelope -> In (ce_verb envelope) _KNOWN_VERBS.
Proof.
  unfold parse. cbv zeta. destruct (negb _); [done |]. destruct (shlex_split _) as [[| w [| verb words]] |]; try done.
  destruct (negb (mem _ _)) eqn:Hv; [done |]. intros [= <-]. apply negb_false_iff in Hv. by apply mem_In.
Qed.

Lemma known_verb_strip verb : In verb _KNOWN_VERBS -> strip verb = verb.
Proof. intros H. repeat destruct H as [<- | H]; done. Qed.

Lemma intent_strip intent : strip (intent_str intent) = intent_str intent.
Proof. by destruct intent. Qed.

Lemma routed_role intent context :
  In (rh_target_role (resolve_free_text intent context)) ["project_manager"; "cso"; "secretary"].
Proof.
  unfold resolve_free_text. cbv zeta. repeat match goal with |- context [if ?b then _ else _] => destruct b end; cbn; tauto.
Qed.

Lemma routed_strip intent context :
  strip (rh_target_role (resolve_free_text intent context)) = rh_target_role (resolve_free_text intent context).
Proof. destruct (routed_role intent context) as [<- | [<- | [<- | []]]]; done. Qed.

Section discord.
Context {E : Type} `{!Oracle E} `{!AuditWriter E} `{!MetricRecorder E} `{!ConversationStore E}.
Context `{!DbFaults E} `{!MonotonicClock E} `{!BotRegistry E}.
Context (hmac_sha256_hex : string -> string -> string) (connector_shared_secret : string).
Context (str_float : pyfloat -> string) (json_text : json -> string) (sha256 : string -> string).
Context (scan : list binding_row -> list binding_row) (scan_perm : forall rows, scan rows ≡ₚ rows).
Context (gateway : LlmGatewayRequest -> M E LlmGatewayResponse) (default_routing_profile : string).
#[local] Abbreviation D := (discord_plane E).
#[local] Abbreviation di_signed signature q := (signed hmac_sha256_hex connector_shared_secret signature (di_raw_payload_hash q)).

(** * What a message leaves alone *)

(** No mutation was ever remembered. *)
Definition plane_ok (s : D) : Prop := forall k i t, dp_cache s !! k = Some (i, t) -> i <> MUTATION.

(** Only the outside world and the classifier's cache may have changed. *)
Record same_plane (s s' : D) : Prop := {
  sp_identity : cp_identity (dp_control s') = cp_identity (dp_control s);
  sp_projects : cp_projects (dp_control s') = cp_projects (dp_control s);
  sp_admission : cp_admission (dp_control s') = cp_admission (dp_control s);
  sp_bindings : dp_bindings s' = dp_bindings s;
  sp_artifacts : as_rows (dp_artifacts s') = as_rows (dp_artifacts s);
  sp_agents : dp_agents s' = dp_agents s;
  sp_cache : plane_ok s -> plane_ok s'
}.

#[local] Instance same_plane_preorder : PreOrder same_plane.
Proof. split; [by intros s | intros a b c [] []; split; try congruence; auto]. Qed.

Lemma plane_ext {A} (m : M E A) : tracks same_plane (di_on_ext m).
Proof. intros s. unfold di_on_ext, di_on_control, on_outside, zoom. by destruct (m _). Qed.

Lemma plane_spaces {A} (m : M (spaces E) A) : tracks same_rows m -> tracks same_plane (di_on_spaces m).
Proof.
  intros H s. unfold di_on_spaces, zoom. specialize (H (mk_spaces (cp_ext (dp_control s)) (dp_bindings s))).
  destruct (m _) as [o t]. by split.
Qed.

Lemma plane_office {A} (m : M (office E) A) : tracks same_office m -> tracks same_plane (di_on_office m).
Proof.
  intros H s. unfold di_on_office, zoom. specialize (H (mk_office (cp_ext (dp_control s)) (ad_tasks (cp_admission (dp_control s)))
    (cp_projects (dp_control s)) (dp_artifacts s) (dp_agents s))).
  destruct (m _) as [o t]. destruct H. split; try done. simpl in *. rewrite so_tasks. by destruct (cp_admission (dp_control s)).
Qed.

Lemma classify_plane message context s :
  plane_ok s ->
  post (di_on_classifier (classify gateway true message context)) s
    (fun i s' => (startswith (strip message) _COMMAND_PREFIX = false -> i <> MUTATION) /\ same_plane s s')
    (fun _ s' => same_plane s s').
Proof.
  intros Hok. pose proof (classify_post gateway true message context (mk_classifier_state (cp_ext (dp_control s)) (dp_cache s)) Hok) as H.
  unfold post, di_on_classifier, zoom in *. destruct (classify _ _ _ _ _) as [[i | x] t]; [destruct H as [Hi H]; split; [done |] |];
    by split.
Qed.

Lemma classify_tracks message context : tracks same_plane (di_on_classifier (classify gateway true message context)).
Proof.
  intros s. assert (plane_ok s -> plane_ok (di_on_classifier (classify gateway true message context) s).2) as Hc.
  { intros Hok. pose proof (classify_plane message context s Hok) as H. unfold post in H.
    destruct (di_on_classifier _ s) as [[i | x] s']; [destruct H as [_ []] | destruct H]; auto. }
  unfold di_on_classifier, zoom in *. destruct (classify _ _ _ _ _) as [o t]. by split.
Qed.

(** * What a message may do *)

(** What holds of every task that a message leaves. *)
Record discord_task (q : DiscordIngressRequest) (signature project : option string) (identities : identity_table)
    (e : AdmissionEnvelope) : Prop := {
  dt_principal : ae_principal_id e = di_actor_external_id q;
  dt_connector : ae_connector e = "discord";
  dt_project : ae_project_id e = project;
  dt_signed : di_signed signature q;
  dt_verified : exists mapping, get_by_connector_actor "discord" (di_actor_external_id q) identities = Some mapping /\
    im_status mapping = "verified" /\ ae_principal_role e = role_or_owner (im_principal_role mapping);
  dt_member : exists members, _MEMBERSHIP_BY_CHAT_CLASS (di_chat_class q) = Some members /\ In (norm (ae_principal_role e)) members
}.

(** At most one task was stored, with a command and target in [P], and no
    binding, document or agent changed. *)
Record settles (P : string -> string -> Prop) (q : DiscordIngressRequest) (signature project : option string) (s s' : D) : Prop := {
  st_bindings : dp_bindings s' = dp_bindings s;
  st_artifacts : as_rows (dp_artifacts s') = as_rows (dp_artifacts s);
  st_agents : dp_agents s' = dp_agents s;
  st_cache : plane_ok s';
  st_tasks : admits (fun e => P (ae_command e) (ae_target e) /\
      discord_task q signature project (cp_identity (dp_control s)) e) (dp_control s) (dp_control s')
}.

Lemma settles_same P q signature project s s' : plane_ok s -> same_plane s s' -> settles P q signature project s s'.
Proof. intros Hok []. split; try done; [by auto |]. left. by rewrite sp_admission0. Qed.

Lemma settles_after P q signature project s s1 s' :
  same_plane s s1 -> settles P q signature project s1 s' -> settles P q signature project s s'.
Proof.
  intros [] []. split; try done; try congruence. apply (admits_after _ _ (dp_control s1)); [by rewrite sp_admission0 |].
  by rewrite <- sp_identity0.
Qed.

(** A handler that settles, and is signed when it accepts. *)
Definition answers (P : string -> string -> Prop) (q : DiscordIngressRequest) (signature project : option string)
    (m : M D OwnerCommandResponse) : Prop :=
  forall s, plane_ok s ->
  post m s (fun r s' => (rp_status r = "accepted" -> di_signed signature q) /\ settles P q signature project s s')
    (fun _ s' => settles P q signature project s s').

Section handler.
Context (P : string -> string -> Prop) (q : DiscordIngressRequest) (signature project : option string).
#[local] Abbreviation answers := (answers P q signature project).
#[local] Abbreviation settles := (settles P q signature project).

Lemma settles_bind_post {A} (Q : A -> Prop) (m : M D A) k :
  (forall s, plane_ok s -> post m s (fun a s' => Q a /\ same_plane s s') (fun _ s' => same_plane s s')) ->
  (forall a, Q a -> answers (k a)) -> answers (bind m k).
Proof.
  intros Hm Hk s Hok. apply post_bind. eapply post_mono; [by apply Hm | |].
  - intros a s1 [Ha H1]. eapply post_mono; [apply (Hk a Ha s1); by apply H1 | |].
    + intros r s2 [Hr H2]. split; [done | by eapply settles_after].
    + intros x s2 H2. by eapply settles_after.
  - intros x s1 H1. by apply settles_same.
Qed.

Lemma settles_bind {A} (m : M D A) k : tracks same_plane m -> (forall a, answers (k a)) -> answers (bind m k).
Proof.
  intros Hm Hk. apply (settles_bind_post (fun _ => True)); [| auto]. intros s Hok.
  specialize (Hm s). unfold post. by destruct (m s) as [[]].
Qed.

Lemma settles_ret r : (rp_status r = "accepted" -> di_signed signature q) -> answers (ret r).
Proof. intros Hr s Hok. apply post_ret. split; [done |]. by apply settles_same. Qed.

Lemma settles_raise x : answers (raise x).
Proof. intros s Hok. apply post_raise. by apply settles_same. Qed.

(** What follows the connector check is signed. *)
Lemma answers_authentic k : (di_signed signature q -> answers k) ->
  answers (authentic hmac_sha256_hex connector_shared_secret q signature k).
Proof.
  intros Hk. unfold authentic.
  apply (settles_bind_post (fun a => match a with Some r => rp_status r <> "accepted" | None => di_signed signature q end)).
  - intros s Hok. apply post_of_outcome. unfold _validate_discord_connector_request.
    destruct (validate_connector_auth _ _ _ _ _ _ _ _ _ _) as [c | x] eqn:Ha; [| by destruct x].
    split; [| done]. apply connector_auth_ret in Ha as (header & -> & _ & Hc & _). by exists header.
  - intros [response |] Ha; [| auto]. by apply settles_ret.
Qed.

(** ** The advisory branches change nothing *)

Lemma advisory_answers command message : di_signed signature q -> answers (_discord_advisory_response q command message).
Proof. intros Hs. apply settles_bind; [apply plane_ext | intros id]. by apply settles_ret. Qed.

Lemma apology_quiet text role : tracks same_plane (advisory_or_apology gateway default_routing_profile q text role).
Proof.
  apply tracks_try; [typeclasses eauto | | intros x k [= <-]; apply tracks_ret; typeclasses eauto].
  apply tracks_bind; [typeclasses eauto | apply plane_ext | intros; apply tracks_ret; typeclasses eauto].
Qed.

Lemma secretary_plane request : tracks same_plane (ask_secretary gateway request).
Proof. apply plane_office, secretary_quiet. Qed.

Lemma or_else_answers text role otherwise :
  di_signed signature q -> answers otherwise ->
  answers (advisory_or_else gateway default_routing_profile q text role otherwise).
Proof.
  intros Hs Ho. apply settles_bind; [| intros [r |]; [by apply advisory_answers | done]].
  apply tracks_try; [typeclasses eauto | apply plane_ext | intros x k [= <-]; apply tracks_ret; typeclasses eauto].
Qed.

(** The secretary's answer or refusal, whatever becomes of it. *)
Lemma secretary_try {A} (m : M D SecretaryResponse) (f : SecretaryResponse -> A) h :
  tracks same_plane m -> (forall x k, h x = Some k -> exists a, k = ret a) ->
  tracks same_plane (try (let! response := m in ret (f response)) h).
Proof.
  intros Hm Hh. apply tracks_try; [typeclasses eauto | | intros x k [a ->]%Hh; apply tracks_ret; typeclasses eauto].
  apply tracks_bind; [typeclasses eauto | done | intros; apply tracks_ret; typeclasses eauto].
Qed.

Lemma secretary_answers text intent context :
  di_signed signature q -> answers (secretary_answer gateway q text intent context).
Proof.
  intros Hs. apply settles_bind; [apply secretary_try; [apply secretary_plane |] |].
  - intros x k. destruct x; intros [= <-]; by eexists.
  - intros [response | denied]; [| by apply settles_ret].
    apply settles_bind; [apply plane_ext | intros id]. by apply settles_ret.
Qed.

Lemma tier1_answers text intent context in_project :
  di_signed signature q -> answers (tier1_answer gateway default_routing_profile q text intent context in_project).
Proof.
  intros Hs. unfold tier1_answer. destruct (classify_topic text) as [decision |]; [| by apply secretary_answers].
  cbv zeta. destruct (is_role_available_in_channel _ _); [by apply or_else_answers, secretary_answers |].
  apply settles_bind; [apply plane_ext | intros mention]. by apply advisory_answers.
Qed.

Lemma bot_answers text role intent :
  di_signed signature q -> answers (bot_answer gateway default_routing_profile q text role intent).
Proof.
  intros Hs. apply settles_bind; [apply apology_quiet | intros advisory].
  apply settles_bind; [apply plane_ext | intros id]. by apply settles_ret.
Qed.

(** ** The command that is handed over *)

Lemma hand_over_answers action target args :
  P (strip action) (strip target) ->
  answers (hand_over hmac_sha256_hex connector_shared_secret str_float json_text sha256 q signature project action target args).
Proof.
  intros HP. unfold hand_over. cbv zeta. destruct (owner_command_request_ok _); [| apply settles_raise].
  intros s Hok. unfold post, di_on_control, zoom.
  pose proof (submit_admits hmac_sha256_hex connector_shared_secret str_float json_text sha256
    (owner_payload_of q project action target args) (headers_of q signature) (dp_control s)) as Ha.
  pose proof (submit_accepts hmac_sha256_hex connector_shared_secret str_float json_text sha256
    (owner_payload_of q project action target args) (headers_of q signature) (dp_control s)) as Hs. unfold post in Hs.
  destruct (submit_owner_command _ _ _ _ _ _ _ _) as [o c].
  assert (settles s (mk_discord_plane c (dp_bindings s) (dp_cache s) (dp_artifacts s) (dp_agents s))) as Hst.
  { split; try done. simpl. eapply admits_weaken; [| exact Ha]. intros e []. simpl in *.
    split; [by rewrite gv_command, gv_target |]. split; try done; [by apply gv_mapping |].
    destruct (gv_chat eq_refl) as (context & members & [= <-] & Hm & Hin). by exists members. }
  by destruct o as [r | x].
Qed.

(** ** Commands *)

Lemma context_answers names :
  answers (context_command hmac_sha256_hex connector_shared_secret scan q signature names).
Proof.
  apply answers_authentic. intros Hs. apply settles_bind; [apply tracks_gets; typeclasses eauto | intros projects].
  apply settles_bind; [apply plane_spaces, lookup_same_rows | intros binding]. by apply advisory_answers.
Qed.

Lemma ask_answers text context role args :
  answers (ask_command hmac_sha256_hex connector_shared_secret gateway default_routing_profile q signature text context role args).
Proof.
  apply answers_authentic. intros Hs. cbv zeta. destruct (String.eqb role "secretary").
  - apply settles_bind.
    { apply tracks_try; [typeclasses eauto | apply classify_tracks |].
      intros x k. destruct x; try done. intros [= <-]. apply classify_tracks. }
    intros intent. apply settles_bind.
    { apply (secretary_try _ (fun response => inl (sr_advisory_text response))); [apply secretary_plane |].
      intros x k. destruct x; intros [= <-]; by eexists. }
    intros [advisory | denied]; [by apply advisory_answers | by apply settles_ret].
  - apply settles_bind; [apply apology_quiet | intros advisory]. by apply advisory_answers.
Qed.
End handler.

(** * The whole handler *)

Section routes.
Context (q : DiscordIngressRequest) (signature project : option string).
#[local] Abbreviation context := (mk_ChatContext (di_chat_class q) (di_channel_id q) project).
#[local] Abbreviation text := (strip (di_content q)).
#[local] Abbreviation answers := (answers (spoken q project) q signature project).

Lemma command_answers : startswith text _COMMAND_PREFIX = true ->
  answers (command_text hmac_sha256_hex connector_shared_secret str_float json_text sha256 scan gateway
    default_routing_profile q signature text context).
Proof.
  intros Hp. unfold command_text. destruct (context_channel text) as [name |]; [apply context_answers |].
  destruct (parse text) as [envelope | x] eqn:Hparse; [| destruct x; first [by apply settles_ret | apply settles_raise]].
  cbv zeta. destruct (String.eqb _ "ask" && _); [apply ask_answers |].
  apply hand_over_answers. unfold spoken. cbv zeta. rewrite Hp. exists envelope. split; [done |].
  by rewrite (known_verb_strip _ (parse_verb _ _ Hparse)).
Qed.

Lemma route_answers intent in_project : startswith text _COMMAND_PREFIX = false -> intent <> MUTATION ->
  answers (route_free_text hmac_sha256_hex connector_shared_secret str_float json_text sha256 gateway
    default_routing_profile q signature text intent context (rh_target_role (resolve_free_text intent context)) in_project).
Proof.
  intros Hp Hi. unfold route_free_text. destruct (advisory_bot q) as [role |].
  { apply answers_authentic. intros Hs. by apply bot_answers. }
  destruct (String.eqb_spec (rh_target_role (resolve_free_text intent context)) "secretary") as [Hsec | Hsec].
  { apply answers_authentic. intros Hs. by apply tier1_answers. }
  apply hand_over_answers. rewrite intent_strip, routed_strip. unfold spoken. cbv zeta. rewrite Hp. by exists intent.
Qed.

Lemma forwarded_answers intent in_project : startswith text _COMMAND_PREFIX = false -> intent <> MUTATION ->
  answers (forwarded hmac_sha256_hex connector_shared_secret str_float json_text sha256 gateway default_routing_profile
    q signature text intent context (rh_target_role (resolve_free_text intent context)) in_project).
Proof.
  intros Hp Hi. unfold forwarded. cbv zeta. destruct (advisory_bot q) as [role |]; [| by apply route_answers].
  destruct (_ && _); [| by apply route_answers]. apply answers_authentic. intros Hs.
  by apply or_else_answers, route_answers.
Qed.

Lemma free_text_answers in_project : startswith text _COMMAND_PREFIX = false ->
  answers (free_text hmac_sha256_hex connector_shared_secret str_float json_text sha256 gateway default_routing_profile
    q signature text context in_project).
Proof.
  intros Hp. unfold free_text.
  apply (settles_bind_post _ _ _ _ (fun c => match c with inl i => i <> MUTATION | inr r => rp_status r <> "accepted" end)).
  - intros s Hok. pose proof (classify_plane text context s Hok) as H. rewrite strip_idem in H.
    unfold post, try, bind in *. destruct (di_on_classifier _ s) as [[i | x] s']; [destruct H as [Hi H]; split; auto |].
    destruct x; done.
  - intros [intent | response] Hc; [| by apply settles_ret]. cbv zeta.
    destruct (di_is_everyone_mention q); [| by apply forwarded_answers]. apply answers_authentic. intros Hs.
    destruct (advisory_bot q) as [role |]; [| by apply forwarded_answers].
    apply settles_bind; [apply apology_quiet | intros advisory]. by apply advisory_answers.
Qed.
End routes.

(** C5: a Discord message acts only through a governed task.  Whatever the
    endpoint answers or raises, and whatever Discord, the model and the stores
    do, the message leaves every channel binding, document and agent unchanged
    and at most one new task.  That task belongs to the project of the channel's
    active binding, or, where there is none, to the project the message names;
    it carries the command that was typed, or the class of the free text, never a
    mutation, and an agent other than the secretary; it is signed, its actor is
    verified and may speak in the chat class of the message.  An accepted answer
    is always signed. *)
Theorem discord_message_governed q signature s :
  plane_ok s -> NoDup (map channel_key (dp_bindings s)) ->
  let project := match channel_project (dp_bindings s) (di_guild_id q) (di_channel_id q) with
                 | Some p => Some p | None => di_project_id q end in
  post (submit_discord_message hmac_sha256_hex connector_shared_secret str_float json_text sha256 scan gateway
          default_routing_profile q signature) s
    (fun r s' => (rp_status r = "accepted" -> di_signed signature q) /\ settles (spoken q project) q signature project s s')
    (fun _ s' => settles (spoken q project) q signature project s s').
Proof.
  intros Hok Hnd project. unfold submit_discord_message. apply post_bind.
  pose proof (resolve_exact scan scan_perm (di_guild_id q) (di_channel_id q)
    (mk_spaces (cp_ext (dp_control s)) (dp_bindings s)) Hnd) as Hr.
  pose proof (plane_spaces _ (resolve_same_rows scan (di_guild_id q) (di_channel_id q)) s) as Hs.
  unfold post at 1. unfold post in Hr. unfold di_on_spaces, zoom in *.
  destruct (resolve _ _ _ _) as [[found | x] t]; [| by apply settles_same]. destruct Hr as [_ Hf]. simpl in Hs.
  cbn [sp_rows] in Hf. cbv zeta.
  assert (match found with Some r => Some (rc_project_id r) | None => di_project_id q end = project) as ->.
  { unfold project. rewrite <- Hf. by destruct found. }
  eapply post_mono.
  - destruct (startswith (strip (di_content q)) _COMMAND_PREFIX) eqn:Hp;
      [apply command_answers; [done | by apply Hs] | apply free_text_answers; [done | by apply Hs]].
  - intros r s2 [Hsig H2]. split; [done | by eapply settles_after].
  - intros x s2 H2. by eapply settles_after.
Qed.
End discord.

(** * The command that is built *)

Lemma length_strip s : (String.length (strip s) <= String.length s)%nat.
Proof. unfold strip. pose proof (length_rstrip (lstrip s)). pose proof (length_lstrip s). lia. Qed.

Lemma length_truthy s : truthy s = true -> (1 <= String.length s)%nat.
Proof. destruct s; [done | simpl; lia]. Qed.

Lemma len_ok_spec lo hi s : len_ok lo hi s = true <-> (lo <= String.length s <= hi)%nat.
Proof. unfold len_ok. by rewrite andb_true_iff, !Nat.leb_le. Qed.

Lemma resolved_target_ok action target : opt_len_ok 1 128 target = true -> len_ok 1 128 (_resolve_target action target) = true.
Proof.
  intros H. unfold _resolve_target. destruct (opt_truthy (strip <$> target)) eqn:Ht; [| by repeat case_match].
  destruct target as [t |]; [| done]. simpl in *. apply len_ok_spec in H. apply len_ok_spec.
  pose proof (length_truthy _ Ht). pose proof (length_strip t). lia.
Qed.

(** C27: the command built from a valid message is well typed.  It satisfies the
    owner-command schema exactly when the actor's identifier, which Discord's
    schema bounds by 256 characters, has at most 128, and the project, the action
    and the target have at most 128 too.  The class and the agent of a free text,
    the verb of a command and a target that the command does not name always do. *)
Theorem discord_command_well_typed q :
  discord_request_ok q = true ->
  (forall project action target args,
     owner_command_request_ok (owner_payload_of q project action target args) =
       len_ok 1 128 (di_actor_external_id q) && opt_len_ok 1 128 project && len_ok 1 128 action && len_ok 1 128 target) /\
  (forall intent context, len_ok 1 128 (intent_str intent) = true /\
     len_ok 1 128 (rh_target_role (resolve_free_text intent context)) = true) /\
  (forall text envelope, parse text = Ret envelope -> len_ok 1 128 (ce_verb envelope) = true) /\
  len_ok 1 128 (_resolve_target (di_action q) (di_target q)) = true.
Proof.
  intros Hq. unfold discord_request_ok in Hq. repeat (rewrite andb_true_iff in Hq; destruct Hq as [Hq ?]). split_and!.
  - intros project action target args.
    unfold owner_command_request_ok, owner_payload_of, connector_metadata_ok, discord_context_ok. cbn -[len_ok opt_len_ok mem Nat.leb].
    repeat match goal with H : ?b = true |- context [?b] => rewrite H end. rewrite ?Hq.
    destruct (len_ok 1 128 (di_actor_external_id q)), (opt_len_ok 1 128 project), (len_ok 1 128 action); reflexivity.
  - intros intent context. split; [by destruct intent |]. by destruct (routed_role intent context) as [<- | [<- | [<- | []]]].
  - intros text envelope Hv%parse_verb. by repeat destruct Hv as [<- | Hv].
  - by apply resolved_target_ok.
Qed.

(** * Witnesses *)

#[local] Instance count_oracle : Oracle N := {
  uuid4 := fun n => ("id-" +:+ pretty n, N.succ n);
  utcnow := fun n => (sample_now, N.succ n)
}.
#[local] Instance quiet_audit : AuditWriter N := { write_event := fun _ => ret tt }.
#[local] Instance quiet_metrics : MetricRecorder N := { increment_counter := fun _ _ e => e }.
#[local] Instance no_faults : DbFaults N := { db_fault := fun e => (None, e) }.
#[local] Instance tick_clock : MonotonicClock N := { monotonic := fun n => (f_of_Z (Z.of_N n), N.succ n) }.
#[local] Instance no_bots : BotRegistry N := {
  redis_hget := fun _ _ => ret None;
  redis_hgetall := fun _ => ret []
}.
#[local] Instance no_memory : ConversationStore N := {
  list_turns := fun _ => ret [];
  append_turns := fun _ _ _ _ => ret tt;
  list_windows := fun _ => ret [];
  fetch_window := fun _ _ => ret [];
  find_relevant_windows := fun _ _ _ _ => ret [];
  fetch_channel_summary := fun _ => ret None
}.

(** A model that answers every question with the same text, and is seen to be asked. *)
Definition heard_model (answer : string) : LlmGatewayRequest -> M N LlmGatewayResponse := fun q =>
  modify (fun n => (n + 1000)%N) ;!
  ret (mk_LlmGatewayResponse (lq_request_id q) (lq_trace_id q) "served" None None None None None "none" 0%Z
         (lq_policy_context q) [] None None false (Some answer)).

Definition sample_message (actor content chat_class : string) : DiscordIngressRequest :=
  mk_DiscordIngressRequest "tr-1" "ext-1" actor "owner" "key-00001"
    "0123456789012345678901234567890123456789012345678901234567890123" sample_now content "run_task" None []
    [mk_OwnerCommandRecipient "runtime" "runtime"] None "normal" "g" "c" "text" chat_class None None None false.

Definition sample_signature : string := "sha256=s0123456789012345678901234567890123456789012345678901234567890123".

Definition sample_discord (role : string) : discord_plane N :=
  mk_discord_plane (mk_control_plane 0%N (sample_identities role) ∅ fresh_process) [] ∅ (mk_artifact_store ∅ ∅) [].

#[local] Abbreviation sample_run answer message signature :=
  (submit_discord_message (E:=N) (fun secret text => secret +:+ text) "s" (fun _ => "") (fun _ => "doc") (fun s => s)
     (fun rows => rows) (heard_model answer) "dev_gemini_free" message signature (sample_discord "ceo")).

Lemma discord_message_governed_witness :
  let q := sample_message "user-1" "/oq status project-1" "executive" in
  let s := sample_discord "ceo" in
  map (fun t => (principal_role t, command t, target t)) (map snd (map_to_list (ad_tasks (cp_admission
    (dp_control (sample_run "query" q (Some sample_signature)).2))))) = [("ceo", "status", "project-1")] /\
  settles (fun secret text => secret +:+ text) "s" (spoken q None) q (Some sample_signature) None s
    (sample_run "query" q (Some sample_signature)).2.
Proof.
  intros q s. split; [vm_compute; reflexivity |].
  pose proof (discord_message_governed (fun secret text => secret +:+ text) "s" (fun _ => "") (fun _ => "doc") (fun s => s)
    (fun rows => rows) (fun rows => reflexivity rows) (heard_model "query") "dev_gemini_free" q (Some sample_signature) s) as H.
  unfold post in H. destruct (submit_discord_message _ _ _ _ _ _ _ _ _ _ _) as [[r | x] s'];
    [apply H | apply H]; first [done | apply NoDup_nil_2].
Defined.

Lemma discord_command_well_typed_witness :
  let q := sample_message "user-1" "/oq status project-1" "executive" in
  discord_request_ok q = true /\
  owner_command_request_ok (owner_payload_of q (Some "project-1") "status" "project-1" []) = true.
Proof.
  intros q. assert (discord_request_ok q = true) as Hq by (vm_compute; reflexivity). split; [exact Hq |].
  destruct (discord_command_well_typed q Hq) as [H _]. rewrite H. vm_compute. reflexivity.
Defined.

(** * Departures *)

(** A free text without a signature is refused only after the model has read it. *)
Lemma unsigned_text_is_classified :
  let run := sample_run "discussion" (sample_message "user-1" "good morning" "executive") None in
  match run.1 with Ret r => rp_http_status r = 400%Z | Raise _ => False end /\ (1000 <=? cp_ext (dp_control run.2))%N = true.
Proof. vm_compute. split; reflexivity. Qed.

Fixpoint repeat_text (n : nat) (s : string) : string := match n with O => "" | S n' => s +:+ repeat_text n' s end.

(** A valid message of an actor with a long identifier is not answered: the
    command that is built from it fails its own schema. *)
Lemma long_actor_is_not_answered :
  let q := sample_message (repeat_text 129 "7") "/oq status project-1" "executive" in
  discord_request_ok q = true /\
  (sample_run "query" q (Some sample_signature)).1 = Raise (OtherError "ValidationError: OwnerCommandRequest").
Proof. vm_compute. split; reflexivity. Qed.

(** An advisory answer asks for the signature only: an actor the store does not
    know, who may command nothing, is answered by the secretary. *)
Lemma unknown_actor_is_advised :
  let run q := (sample_run "discussion" q (Some sample_signature)).1 in
  match run (sample_message "stranger" "good morning" "executive") with Ret r => rp_status r = "accepted" | Raise _ => False end /\
  match run (sample_message "stranger" "/oq status project-1" "executive") with
  | Ret r => rp_status r = "error" | Raise _ => False end.
Proof. vm_compute. split; reflexivity. Qed.
