(* ===== verification/GovernanceApi.v ===== *)
(** The governance endpoints: proposals, initialization, workforce, completion
    and lifecycle actions of a project over HTTP.

    Models [control_plane/routers/governance.py],
    [control_plane/routers/owner_discussions.py] and the request and response
    bodies of [control_plane/schemas/governance.py].  Every endpoint checks the
    connector headers, resolves the principal, calls its handler of [Governance],
    maps a refusal to a status code, and otherwise writes one audit event; three
    of them also move the project's Discord channel.

    FastAPI's parsing has checked the [_ok] predicate of a body.  Log calls are
    left out.  Identifiers and clock readings are drawn before the handler runs. *)

From Stdlib Require Import Ascii.
From S2P Require Import Prelude PyStr PyData PyFloat LlmSchemas Task Budget LoopControl Policy Runtime LlmProviders.
From S2P Require Import ProjectModel ProjectRows ProjectRepo Governance Ingress Admission AdmissionFacts OwnerCommands ProjectSpaces.

(** * Bodies *)

Record ProposalDiscussionRequest : Type := mk_ProposalDiscussionRequest {
  pd_trace_id : string;
  pd_content : string
}.

Definition discussion_ok (q : ProposalDiscussionRequest) : bool :=
  len_ok 1 128 (pd_trace_id q) && len_ok 1 4000 (pd_content q).

Record ProjectCreateRequest : Type := mk_ProjectCreateRequest {
  cq_trace_id : string;
  cq_name : string;
  cq_objective : string;
  cq_project_id : option string;
  cq_metadata : list (string * string)
}.

Definition create_ok (q : ProjectCreateRequest) : bool :=
  len_ok 1 128 (cq_trace_id q) && len_ok 1 256 (cq_name q) && len_ok 1 4000 (cq_objective q) &&
  opt_len_ok 1 128 (cq_project_id q).

Record ProjectCompletionReportRequest : Type := mk_ProjectCompletionReportRequest {
  rq_trace_id : string;
  rq_summary : string;
  rq_metric_results : list (string * string)
}.

Definition report_ok (q : ProjectCompletionReportRequest) : bool :=
  len_ok 1 128 (rq_trace_id q) && len_ok 1 8000 (rq_summary q).

(** The bodies of the finalization and of the lifecycle actions: a trace and a
    reason, whose default the parsing has filled in. *)
Record ProjectLifecycleActionRequest : Type := mk_ProjectLifecycleActionRequest {
  la_trace_id : string;
  la_reason_code : string
}.

Definition lifecycle_ok (q : ProjectLifecycleActionRequest) : bool :=
  len_ok 1 128 (la_trace_id q) && len_ok 1 128 (la_reason_code q).

Record ProjectInitializationRequest : Type := mk_ProjectInitializationRequest {
  iq_trace_id : string;
  iq_objective : string;
  iq_budget_currency_total : pyfloat;
  iq_budget_quota_total : pyfloat;
  iq_metric_plan : list (string * string);
  iq_workforce_plan : list (string * string);
  iq_guild_id : option string
}.

Definition initialization_ok (q : ProjectInitializationRequest) : bool :=
  len_ok 1 128 (iq_trace_id q) && len_ok 1 4000 (iq_objective q) &&
  f_leb f_zero (iq_budget_currency_total q) && f_leb f_zero (iq_budget_quota_total q) && opt_len_ok 0 32 (iq_guild_id q).

Record WorkforceTemplateBindingRequest : Type := mk_WorkforceTemplateBindingRequest {
  wt_trace_id : string;
  wt_role : string;
  wt_template_id : string;
  wt_llm_routing_profile : string;
  wt_system_prompt : string
}.

Definition workforce_ok (q : WorkforceTemplateBindingRequest) : bool :=
  len_ok 1 128 (wt_trace_id q) && mem (wt_role q) ["project_manager"; "domain_leader"] &&
  len_ok 1 128 (wt_template_id q) && len_ok 1 128 (wt_llm_routing_profile q) && len_ok 1 20000 (wt_system_prompt q).

(** * Responses *)

Record GovernanceApiError : Type := mk_GovernanceApiError {
  ge_code : string;
  ge_message : string;
  ge_retryable : bool;
  ge_source_component : string;
  ge_details : list (string * string)
}.

Record GovernanceApiResponse : Type := mk_GovernanceApiResponse {
  ga_http_status : Z;
  ga_trace_id : string;
  ga_status : string;
  ga_data : option (list (string * json));
  ga_error : option GovernanceApiError
}.

Definition ok_response (status_code : Z) (trace : string) (data : list (string * json)) : GovernanceApiResponse :=
  mk_GovernanceApiResponse status_code trace "ok" (Some data) None.

Definition failure_response (status_code : Z) (trace status_value : string) (error : GovernanceApiError)
    : GovernanceApiResponse :=
  mk_GovernanceApiResponse status_code trace status_value None (Some error).

(** * Headers *)

Record governance_headers : Type := mk_governance_headers {
  gh_external_channel : option string;
  gh_external_actor_id : option string;
  gh_actor_external_id : option string;
  gh_actor_role : option string;
  gh_idempotency_key : option string;
  gh_signature : option string;
  gh_raw_payload_hash : option string
}.

(** The principal's identifier and role, or the refusal. *)
Definition _resolve_principal (h : governance_headers) : outcome (GovernanceApiError + (string * string)) :=
  let headers := [("x-external-channel", default "" (gh_external_channel h));
                  ("x-external-actor-id", default "" (gh_external_actor_id h));
                  ("x-openqilin-actor-external-id", default "" (gh_actor_external_id h))] ++
                 (match gh_actor_role h with Some role => [("x-openqilin-actor-role", role)] | None => [] end) in
  match resolve_principal headers NoIdentityRepo with
  | Ret principal => Ret (inr (pl_principal_id principal, pl_principal_role principal))
  | Raise (PrincipalResolutionError code message) => Ret (inl (mk_GovernanceApiError code message false "identity" []))
  | Raise e => Raise e
  end.

Definition header_error (code message header : string) : GovernanceApiError :=
  mk_GovernanceApiError code message false "connector_security" [("required_header", header)].

(** [character in string.hexdigits]. *)
Definition is_hexdigit (c : ascii) : bool :=
  let n := nat_of_ascii c in
  (((48 <=? n) && (n <=? 57)) || ((97 <=? n) && (n <=? 102)) || ((65 <=? n) && (n <=? 70)))%nat.

Fixpoint all_hex (s : string) : bool :=
  match s with EmptyString => true | String c s' => is_hexdigit c && all_hex s' end.

Section headers.
Context (hmac_sha256_hex : string -> string -> string) (connector_shared_secret : string).

(** The refusal, if any. *)
Definition _validate_connector_headers (h : governance_headers) : outcome (option GovernanceApiError) :=
  if blank (gh_external_channel h) then
    Ret (Some (header_error "connector_missing_header" "missing required header: X-External-Channel" "X-External-Channel"))
  else if blank (gh_external_actor_id h) then
    Ret (Some (header_error "connector_missing_header" "missing required header: X-External-Actor-Id" "X-External-Actor-Id"))
  else if blank (gh_idempotency_key h) then
    Ret (Some (header_error "idempotency_missing_header" "missing required header: X-Idempotency-Key" "X-Idempotency-Key"))
  else if blank (gh_raw_payload_hash h) then
    Ret (Some (header_error "connector_missing_header" "missing required header: X-OpenQilin-Raw-Payload-Hash"
                 "X-OpenQilin-Raw-Payload-Hash"))
  else
    let normalized_hash := norm (default "" (gh_raw_payload_hash h)) in
    if negb (len_ok 64 128 normalized_hash) || negb (all_hex normalized_hash) then
      Ret (Some (header_error "connector_payload_hash_invalid" "invalid raw payload hash header format"
                   "X-OpenQilin-Raw-Payload-Hash"))
    else if blank (gh_signature h) then
      Ret (Some (header_error "connector_signature_missing" "missing required header: X-OpenQilin-Signature"
                   "X-OpenQilin-Signature"))
    else
      let payload_actor_external_id :=
        if blank (gh_actor_external_id h) then strip (default "" (gh_external_actor_id h))
        else strip (default "" (gh_actor_external_id h)) in
      match validate_connector_auth hmac_sha256_hex connector_shared_secret (gh_external_channel h)
              (gh_external_actor_id h) (gh_idempotency_key h) (gh_signature h)
              (strip (default "" (gh_external_channel h))) payload_actor_external_id
              (strip (default "" (gh_idempotency_key h))) normalized_hash with
      | Ret _ => Ret None
      | Raise (ConnectorSecurityError code message) =>
          Ret (Some (mk_GovernanceApiError code message false "connector_security" []))
      | Raise e => Raise e
      end.
End headers.

(** * Refusals of the handlers *)

Definition _CONFLICT_CODES : list string :=
  ["governance_project_not_proposed"; "governance_project_not_approved"; "governance_project_not_active";
   "governance_project_already_initialized"; "governance_approval_role_conflict";
   "governance_project_manager_binding_exists"; "governance_workforce_role_invalid";
   "governance_project_invalid_budget"; "governance_project_artifact_persistence_failed";
   "governance_project_artifact_integrity_failed"; "governance_project_artifact_policy_denied";
   "governance_project_manager_template_invalid"; "governance_project_manager_template_missing_operations";
   "governance_project_exists"; "governance_project_invalid_create_state";
   "governance_project_completion_report_exists"; "governance_completion_approval_role_conflict";
   "governance_project_completion_report_missing"; "governance_project_completion_approval_missing";
   "governance_project_completion_owner_notification_missing"; "project_invalid_transition"; "project_invalid_status"].

(** [_map_handler_error] of the governance router: status code, component and status. *)
Definition _map_handler_error (code : string) : Z * string * string :=
  if mem code ["governance_approval_role_forbidden"; "governance_role_forbidden"] || endswith code "_role_forbidden"
  then (403%Z, "governance", "denied")
  else if String.eqb code "governance_project_missing" then (404%Z, "governance_repository", "denied")
  else if mem code _CONFLICT_CODES then (409%Z, "governance_repository", "denied")
  else (400%Z, "governance", "error").

(** [_map_handler_error] of the discussion router. *)
Definition discussion_error (code : string) : Z * string * string :=
  if String.eqb code "governance_role_forbidden" then (403%Z, "governance", "denied")
  else if String.eqb code "governance_project_missing" then (404%Z, "governance_repository", "denied")
  else if String.eqb code "governance_project_not_proposed" then (409%Z, "governance_repository", "denied")
  else (400%Z, "governance", "error").

Definition refusal (mapped : Z * string * string) (trace code message : string) : GovernanceApiResponse :=
  let '(status_code, component, status_value) := mapped in
  failure_response status_code trace status_value (mk_GovernanceApiError code message false component []).

(** * The endpoints *)

Record api_plane (E : Type) : Type := mk_api_plane {
  ap_ext : E;
  ap_governance : governance;
  ap_bindings : list binding_row
}.
Arguments mk_api_plane {E}.
Arguments ap_ext {E}.
Arguments ap_governance {E}.
Arguments ap_bindings {E}.

Definition bool_text (b : bool) : string := if b then "true" else "false".

Definition dict_json (d : list (string * string)) : json := JObj (map (fun p => (p.1, JStr p.2)) d).

Definition status_json (p : ProjectRecord) : json := JStr (status_str (p_status p)).

(** The fields of the initialization that the response repeats. *)
Definition initialization_data (i : option ProjectInitializationSnapshot) : list (string * json) :=
  let uri (f : ProjectInitializationSnapshot -> option string) := opt_json (x ← i; f x) in
  [("budget_currency_total", match i with Some x => JFloat (budget_currency_total x) | None => JNull end);
   ("budget_quota_total", match i with Some x => JFloat (budget_quota_total x) | None => JNull end);
   ("metric_plan", match i with Some x => dict_json (metric_plan x) | None => JObj [] end);
   ("workforce_plan", match i with Some x => dict_json (workforce_plan x) | None => JObj [] end);
   ("charter_storage_uri", uri charter_storage_uri); ("charter_content_hash", uri charter_content_hash);
   ("scope_statement_storage_uri", uri scope_statement_storage_uri);
   ("scope_statement_content_hash", uri scope_statement_content_hash);
   ("budget_plan_storage_uri", uri budget_plan_storage_uri);
   ("budget_plan_content_hash", uri budget_plan_content_hash);
   ("metric_plan_storage_uri", uri metric_plan_storage_uri);
   ("metric_plan_content_hash", uri metric_plan_content_hash);
   ("workforce_plan_storage_uri", uri workforce_plan_storage_uri);
   ("workforce_plan_content_hash", uri workforce_plan_content_hash);
   ("execution_plan_storage_uri", uri execution_plan_storage_uri);
   ("execution_plan_content_hash", uri execution_plan_content_hash)].

Section endpoints.
Context {E : Type} `{!Oracle E} `{!AuditWriter E} `{!DbFaults E} `{!DiscordApi E}.
Context (hmac_sha256_hex : string -> string -> string) (connector_shared_secret : string).
Context (system_root_path : string) (json_text : json -> string) (sha256 : string -> string).
Context (scan : list binding_row -> list binding_row) (bot_token : string).
#[local] Abbreviation P := (api_plane E).

Definition ap_on_ext {A} (m : M E A) : M P A :=
  zoom ap_ext (fun e s => mk_api_plane e (ap_governance s) (ap_bindings s)) m.

Definition ap_on_governance {A} (m : M governance A) : M P A :=
  zoom ap_governance (fun g s => mk_api_plane (ap_ext s) g (ap_bindings s)) m.

Definition ap_on_spaces {A} (m : M (spaces E) A) : M P A :=
  zoom (fun s => mk_spaces (ap_ext s) (ap_bindings s))
       (fun t s => mk_api_plane (sp_ext t) (ap_governance s) (sp_rows t)) m.

Definition ap_uuid : M P string := ap_on_ext (fun e => let '(u, e') := uuid4 e in (Ret u, e')).
Definition ap_now : M P datetime := ap_on_ext (fun e => let '(t, e') := utcnow e in (Ret t, e')).

(** Identifier and clock readings of a handler. *)
Definition with_draws {A} (k : string -> datetime -> datetime -> M governance A) : M P A :=
  let! uuid := ap_uuid in
  let! now := ap_now in
  let! later := ap_now in
  ap_on_governance (k uuid now later).

(** The connector check, the principal, the handler with its refusal, and what
    the endpoint does with the handler's outcome. *)
Definition governed_endpoint {A} (map_error : string -> Z * string * string) (h : governance_headers) (trace : string)
    (handler : string -> string -> M P A) (finish : string -> string -> A -> M P GovernanceApiResponse)
    : M P GovernanceApiResponse :=
  let! connector_error := of_outcome (_validate_connector_headers hmac_sha256_hex connector_shared_secret h) in
  match connector_error with
  | Some error => ret (failure_response 400 trace "error" error)
  | None =>
      let! resolved := of_outcome (_resolve_principal h) in
      match resolved with
      | inl error => ret (failure_response 400 trace "error" error)
      | inr (principal_id, principal_role) =>
          let! outcome := try (let! a := handler principal_id principal_role in ret (inl a))
                            (fun e => match e with
                                      | GovernanceHandlerError code message =>
                                          Some (ret (inr (refusal (map_error code) trace code message)))
                                      | _ => None
                                      end) in
          match outcome with
          | inl a => finish principal_id principal_role a
          | inr response => ret response
          end
      end
  end.

Definition api_event (event_type trace principal_id principal_role : string) (reason : option string) (message : string)
    (payload : list (string * json)) : audit_event :=
  {| ae_event_type := event_type; ae_outcome := "ok"; ae_event_trace_id := trace; ae_event_request_id := None;
     ae_event_task_id := None; ae_event_principal_id := Some principal_id; ae_event_principal_role := Some principal_role;
     ae_source := "governance"; ae_reason_code := reason; ae_message := message; ae_policy_version := None;
     ae_policy_hash := None; ae_rule_ids := []; ae_payload := JObj payload; ae_attributes := JNull |}.

(** The audit event, then the response. *)
Definition audited (event : audit_event) (response : GovernanceApiResponse) : M P GovernanceApiResponse :=
  ap_on_ext (write_event event) ;! ret response.

(** A call of the binding service whose failure is logged only. *)
Definition non_fatal {A} (m : M (spaces E) A) : M P unit :=
  try (ap_on_spaces m ;! ret tt) (fun _ => Some (ret tt)).

(** ** Proposals *)

Definition post_proposal_discussion_message (h : governance_headers) (project_id : string) (q : ProposalDiscussionRequest)
    : M P GovernanceApiResponse :=
  governed_endpoint discussion_error h (pd_trace_id q)
    (fun actor role => with_draws (fun uuid now _ =>
       submit_proposal_message uuid now project_id actor role (pd_content q) (pd_trace_id q)))
    (fun actor role message => audited
       (api_event "proposal.message" (pd_trace_id q) actor role None "proposal discussion message recorded"
          [("project_id", JStr project_id); ("message_id", JStr (message_id message)); ("actor_role", JStr role)])
       (ok_response 201 (pd_trace_id q)
          [("project_id", JStr project_id); ("message_id", JStr (message_id message));
           ("actor_id", JStr (pm_actor_id message)); ("actor_role", JStr (pm_actor_role message));
           ("status", JStr "proposed")])).

Definition create_project_endpoint (h : governance_headers) (q : ProjectCreateRequest) : M P GovernanceApiResponse :=
  governed_endpoint _map_handler_error h (cq_trace_id q)
    (fun actor role => with_draws (fun uuid now _ =>
       create_project_proposal uuid now actor role (cq_trace_id q) (cq_name q) (cq_objective q) (cq_project_id q)
         (Some (cq_metadata q))))
    (fun actor role project => audited
       (api_event "project.created" (cq_trace_id q) actor role None "proposal-stage project created"
          [("project_id", JStr (p_id project)); ("status", status_json project); ("creator_role", JStr role)])
       (ok_response 201 (cq_trace_id q)
          [("project_id", JStr (p_id project)); ("name", JStr (p_name project)); ("objective", JStr (p_objective project));
           ("status", status_json project); ("metadata", dict_json (p_metadata project))])).

Definition approve_proposal (h : governance_headers) (project_id trace : string) : M P GovernanceApiResponse :=
  governed_endpoint _map_handler_error h trace
    (fun actor role => with_draws (fun uuid now later => approve_project_proposal uuid now later project_id actor role trace))
    (fun actor role o => audited
       (api_event "proposal.approval" trace actor role None "proposal approval recorded"
          [("project_id", JStr project_id); ("approval_recorded", JStr (bool_text (pa_approval_recorded o)));
           ("approval_roles", JStr (join "," (pa_approval_roles o))); ("status", status_json (pa_project o))])
       (ok_response 200 trace
          [("project_id", JStr project_id); ("status", status_json (pa_project o));
           ("approval_recorded", JBool (pa_approval_recorded o));
           ("approval_roles", JArr (map JStr (pa_approval_roles o)))])).

(** ** Initialization and workforce *)

Definition initialize_project (h : governance_headers) (project_id : string) (q : ProjectInitializationRequest)
    : M P GovernanceApiResponse :=
  governed_endpoint _map_handler_error h (iq_trace_id q)
    (fun actor role => with_draws (fun _ now later =>
       initialize_project_by_cwo system_root_path json_text sha256 now later project_id actor role (iq_trace_id q)
         (iq_objective q) (iq_budget_currency_total q) (iq_budget_quota_total q) (Some (iq_metric_plan q))
         (Some (iq_workforce_plan q))))
    (fun actor role project =>
       (if opt_truthy (iq_guild_id q)
        then non_fatal (create_and_bind bot_token project_id (default "" (iq_guild_id q)) (p_name project) "project_manager")
        else ret tt) ;!
       audited
         (api_event "project.initialized" (iq_trace_id q) actor role None "cwo project initialization completed"
            [("project_id", JStr project_id); ("status", status_json project);
             ("budget_currency_total", JFloat (iq_budget_currency_total q));
             ("budget_quota_total", JFloat (iq_budget_quota_total q))])
         (ok_response 200 (iq_trace_id q)
            ([("project_id", JStr project_id); ("status", status_json project); ("objective", JStr (p_objective project))] ++
             initialization_data (p_initialization project)))).

Definition bind_workforce_template (h : governance_headers) (project_id : string) (q : WorkforceTemplateBindingRequest)
    : M P GovernanceApiResponse :=
  governed_endpoint _map_handler_error h (wt_trace_id q)
    (fun actor role => with_draws (fun uuid now later =>
       bind_workforce_template_by_cwo sha256 uuid now later project_id actor role (wt_trace_id q) (wt_role q)
         (wt_template_id q) (wt_llm_routing_profile q) (wt_system_prompt q)))
    (fun actor role o => audited
       (api_event "workforce.binding" (wt_trace_id q) actor role None "workforce template binding recorded"
          [("project_id", JStr project_id); ("role", JStr (wo_role o)); ("binding_status", JStr (wo_binding_status o));
           ("template_id", JStr (wo_template_id o)); ("llm_routing_profile", JStr (wo_llm_routing_profile o));
           ("mandatory_operations", JStr (join "," (wo_mandatory_operations o)))])
       (ok_response 200 (wt_trace_id q)
          [("project_id", JStr project_id); ("status", status_json (wo_project o)); ("role", JStr (wo_role o));
           ("binding_status", JStr (wo_binding_status o)); ("template_id", JStr (wo_template_id o));
           ("llm_routing_profile", JStr (wo_llm_routing_profile o));
           ("system_prompt_hash", JStr (wo_system_prompt_hash o));
           ("mandatory_operations", JArr (map JStr (wo_mandatory_operations o)))])).

(** ** Completion *)

Definition submit_completion_report_endpoint (h : governance_headers) (project_id : string)
    (q : ProjectCompletionReportRequest) : M P GovernanceApiResponse :=
  governed_endpoint _map_handler_error h (rq_trace_id q)
    (fun actor role => with_draws (fun uuid now _ =>
       submit_completion_report_by_project_manager uuid now project_id actor role (rq_trace_id q) (rq_summary q)
         (Some (rq_metric_results q))))
    (fun actor role o =>
       let report := pc_report o in
       audited
         (api_event "project.completion_report" (rq_trace_id q) actor role None "project completion report submitted"
            [("project_id", JStr project_id); ("report_id", JStr (report_id report)); ("status", status_json (pc_project o))])
         (ok_response 201 (rq_trace_id q)
            [("project_id", JStr project_id); ("status", status_json (pc_project o));
             ("report_id", JStr (report_id report)); ("summary", JStr (summary report));
             ("completion_report_storage_uri", opt_json (completion_report_storage_uri report));
             ("completion_report_content_hash", opt_json (completion_report_content_hash report))])).

Definition approve_completion (h : governance_headers) (project_id trace : string) : M P GovernanceApiResponse :=
  governed_endpoint _map_handler_error h trace
    (fun actor role => with_draws (fun uuid now _ => record_completion_approval_by_c_suite uuid now project_id actor role trace))
    (fun actor role o => audited
       (api_event "project.completion_approval" trace actor role None "project completion approval recorded"
          [("project_id", JStr project_id); ("approval_recorded", JStr (bool_text (ca_approval_recorded o)));
           ("approval_roles", JStr (join "," (ca_approval_roles o)));
           ("owner_notified", JStr (bool_text (ca_owner_notified o)))])
       (ok_response 200 trace
          [("project_id", JStr project_id); ("status", status_json (ca_project o));
           ("approval_recorded", JBool (ca_approval_recorded o));
           ("approval_roles", JArr (map JStr (ca_approval_roles o))); ("owner_notified", JBool (ca_owner_notified o))])).

Definition finalize_completion (h : governance_headers) (project_id : string) (q : ProjectLifecycleActionRequest)
    : M P GovernanceApiResponse :=
  governed_endpoint _map_handler_error h (la_trace_id q)
    (fun actor role => with_draws (fun _ now later =>
       finalize_project_completion_by_c_suite now later project_id role (la_trace_id q) (la_reason_code q)))
    (fun actor role project =>
       non_fatal (transition scan bot_token project_id "archive" (p_name project)) ;!
       audited
         (api_event "project.completed" (la_trace_id q) actor role (Some (la_reason_code q)) "project completion finalized"
            [("project_id", JStr project_id); ("status", status_json project)])
         (ok_response 200 (la_trace_id q) [("project_id", JStr project_id); ("status", status_json project)])).

(** ** Lifecycle actions *)

(** The event and the response that the four actions share. *)
Definition lifecycle_answer (event_type message project_id actor role : string) (q : ProjectLifecycleActionRequest)
    (o : ProjectLifecycleTransitionOutcome) : M P GovernanceApiResponse :=
  audited
    (api_event event_type (la_trace_id q) actor role (Some (la_reason_code q)) message
       [("project_id", JStr project_id); ("previous_status", JStr (status_str (lt_previous_status o)));
        ("status", status_json (lt_project o))])
    (ok_response 200 (la_trace_id q)
       [("project_id", JStr project_id); ("previous_status", JStr (status_str (lt_previous_status o)));
        ("status", status_json (lt_project o)); ("reason_code", JStr (la_reason_code q))]).

Definition pause_project (h : governance_headers) (project_id : string) (q : ProjectLifecycleActionRequest)
    : M P GovernanceApiResponse :=
  governed_endpoint _map_handler_error h (la_trace_id q)
    (fun actor role => with_draws (fun _ now _ =>
       pause_project_by_governance now project_id role (la_trace_id q) (la_reason_code q)))
    (fun actor role => lifecycle_answer "project.paused" "project paused through governed lifecycle API" project_id actor role q).

Definition resume_project (h : governance_headers) (project_id : string) (q : ProjectLifecycleActionRequest)
    : M P GovernanceApiResponse :=
  governed_endpoint _map_handler_error h (la_trace_id q)
    (fun actor role => with_draws (fun _ now _ =>
       resume_project_by_governance now project_id role (la_trace_id q) (la_reason_code q)))
    (fun actor role => lifecycle_answer "project.resumed" "project resumed through governed lifecycle API" project_id actor role q).

Definition terminate_project (h : governance_headers) (project_id : string) (q : ProjectLifecycleActionRequest)
    : M P GovernanceApiResponse :=
  governed_endpoint _map_handler_error h (la_trace_id q)
    (fun actor role => with_draws (fun _ now _ =>
       terminate_project_by_governance now project_id role (la_trace_id q) (la_reason_code q)))
    (fun actor role o =>
       non_fatal (transition scan bot_token project_id "lock" (p_name (lt_project o))) ;!
       lifecycle_answer "project.terminated" "project terminated through governed lifecycle API" project_id actor role q o).

Definition archive_project (h : governance_headers) (project_id : string) (q : ProjectLifecycleActionRequest)
    : M P GovernanceApiResponse :=
  governed_endpoint _map_handler_error h (la_trace_id q)
    (fun actor role => with_draws (fun _ now _ =>
       archive_project_by_governance now project_id role (la_trace_id q) (la_reason_code q)))
    (fun actor role => lifecycle_answer "project.archived" "project archived through governed lifecycle API" project_id actor role q).

(** ** Any request *)

Inductive api_request : Type :=
  | RequestMessage (project_id : string) (q : ProposalDiscussionRequest)
  | RequestCreate (q : ProjectCreateRequest)
  | RequestApproveProposal (project_id trace : string)
  | RequestInitialize (project_id : string) (q : ProjectInitializationRequest)
  | RequestBind (project_id : string) (q : WorkforceTemplateBindingRequest)
  | RequestReport (project_id : string) (q : ProjectCompletionReportRequest)
  | RequestApproveCompletion (project_id trace : string)
  | RequestFinalize (project_id : string) (q : ProjectLifecycleActionRequest)
  | RequestPause (project_id : string) (q : ProjectLifecycleActionRequest)
  | RequestResume (project_id : string) (q : ProjectLifecycleActionRequest)
  | RequestTerminate (project_id : string) (q : ProjectLifecycleActionRequest)
  | RequestArchive (project_id : string) (q : ProjectLifecycleActionRequest).

Definition api_handle (h : governance_headers) (r : api_request) : M P GovernanceApiResponse :=
  match r with
  | RequestMessage p q => post_proposal_discussion_message h p q
  | RequestCreate q => create_project_endpoint h q
  | RequestApproveProposal p t => approve_proposal h p t
  | RequestInitialize p q => initialize_project h p q
  | RequestBind p q => bind_workforce_template h p q
  | RequestReport p q => submit_completion_report_endpoint h p q
  | RequestApproveCompletion p t => approve_completion h p t
  | RequestFinalize p q => finalize_completion h p q
  | RequestPause p q => pause_project h p q
  | RequestResume p q => resume_project h p q
  | RequestTerminate p q => terminate_project h p q
  | RequestArchive p q => archive_project h p q
  end.
End endpoints.
