(* ===== verification/ApiFacts.v ===== *)
(** Theorems about the governance endpoints. *)

From Stdlib Require Import Ascii.
From S2P Require Import Prelude PyStr PyData PyFloat LlmSchemas Task Budget LoopControl Policy Runtime LlmProviders.
From S2P Require Import ProjectModel ProjectRows ProjectRepo Governance GovernanceFacts Ingress Admission AdmissionFacts.
From S2P Require Import OwnerCommands ProjectSpaces SpaceFacts GovernanceApi.

(** * Who a request speaks for *)

(** The headers that the resolver is handed. *)
Definition resolver_headers (h : governance_headers) : list (string * string) :=
  [("x-external-channel", default "" (gh_external_channel h));
   ("x-external-actor-id", default "" (gh_external_actor_id h));
   ("x-openqilin-actor-external-id", default "" (gh_actor_external_id h))] ++
  (match gh_actor_role h with Some role => [("x-openqilin-actor-role", role)] | None => [] end).

Lemma resolve_without_store headers p :
  resolve_principal headers NoIdentityRepo = Ret p ->
  pl_principal_role p = header_role headers /\
  first_header headers ["x-openqilin-actor-external-id"; "x-external-actor-id"; "x-openqilin-user-id"] = Some (pl_principal_id p).
Proof.
  unfold resolve_principal. destruct (first_header headers ["x-external-channel"; _]) as [con |]; [| done].
  destruct (mem con _); [| done]. cbn [negb].
  destruct (first_header headers ["x-openqilin-actor-external-id"; _; _]) as [a |]; [| done].
  destruct (String.eqb con "internal"); cbn [obind]; by intros [= <-].
Qed.

Lemma claimed_role h : header_role (resolver_headers h) = opt_or (strip <$> gh_actor_role h) "owner".
Proof.
  unfold header_role, _optional_header, resolver_headers. destruct (gh_actor_role h) as [r |]; simpl; [| done].
  unfold or_none. by destruct (truthy (strip r)).
Qed.

Lemma claimed_channel h :
  first_header (resolver_headers h) ["x-external-channel"; "x-openqilin-connector"] =
  or_none (strip (default "" (gh_external_channel h))).
Proof.
  unfold first_header, _optional_header, resolver_headers, or_none. destruct (gh_actor_role h) as [r |]; simpl;
    by destruct (truthy (strip _)).
Qed.

(** The actor's own header goes before the connector's. *)
Lemma claimed_actor h :
  first_header (resolver_headers h) ["x-openqilin-actor-external-id"; "x-external-actor-id"; "x-openqilin-user-id"] =
  if blank (gh_actor_external_id h) then or_none (strip (default "" (gh_external_actor_id h)))
  else Some (strip (default "" (gh_actor_external_id h))).
Proof.
  unfold first_header, _optional_header, resolver_headers, blank, or_none.
  destruct (gh_actor_external_id h) as [a |]; destruct (gh_actor_role h) as [r |]; simpl;
    repeat (destruct (truthy (strip _)) || done); simpl; by destruct (truthy _).
Qed.

Section accepted.
Context (hmac_sha256_hex : string -> string -> string) (connector_shared_secret : string).

(** The checks let the request through as this principal. *)
Definition accepted (h : governance_headers) (actor role : string) : Prop :=
  _validate_connector_headers hmac_sha256_hex connector_shared_secret h = Ret None /\
  _resolve_principal h = Ret (inr (actor, role)).

(** What passing them means: a valid signature of the claimed payload hash, an
    actor equal to the external actor header, and the role the caller claims. *)
Record spoken_for (h : governance_headers) (actor role : string) : Prop := {
  sf_signed : signed hmac_sha256_hex connector_shared_secret (gh_signature h) (norm (default "" (gh_raw_payload_hash h)));
  sf_actor : actor = strip (default "" (gh_external_actor_id h));
  sf_role : role = opt_or (strip <$> gh_actor_role h) "owner"
}.

Lemma blank_false x : blank x = false -> exists s, x = Some s /\ truthy (strip s) = true.
Proof. unfold blank. destruct x as [s |]; [| done]. intros H%negb_false_iff. by exists s. Qed.

Lemma accepted_spoken h actor role : accepted h actor role -> spoken_for h actor role.
Proof.
  unfold accepted, _validate_connector_headers. intros [Hv Hp].
  destruct (blank (gh_external_channel h)) eqn:B1; [done |]. destruct (blank (gh_external_actor_id h)) eqn:B2; [done |].
  destruct (blank (gh_idempotency_key h)); [done |]. destruct (blank (gh_raw_payload_hash h)); [done |].
  cbv zeta in Hv. destruct (_ || _); [done |]. destruct (blank (gh_signature h)); [done |].
  destruct (validate_connector_auth _ _ _ _ _ _ _ _ _ _) as [c | x] eqn:Ha; [| by destruct x].
  apply connector_auth_ret in Ha as (header & Hs & _ & Hc & _ & Hact).
  apply blank_false in B2 as (ext & Hext & Ht). rewrite Hext in Hact. apply check_header_ret in Hact.
  unfold _resolve_principal in Hp. fold (resolver_headers h) in Hp.
  destruct (resolve_principal _ _) as [p | x] eqn:Hr; [| by destruct x]. injection Hp as <- <-.
  apply resolve_without_store in Hr as [Hrole Hactor]. rewrite claimed_actor, Hext in Hactor. rewrite claimed_role in Hrole.
  split; [by exists header | | done]. rewrite Hext. simpl in *.
  destruct (blank (gh_actor_external_id h)); [unfold or_none in Hactor; rewrite Ht in Hactor |]; congruence.
Qed.
End accepted.

(** * One request, one handler call *)

(** The handler call that a request stands for. *)
Definition call_of (r : api_request) (uuid : string) (now later : datetime) (actor role : string) : gov_call :=
  match r with
  | RequestMessage p q => CallMessage uuid now p actor role (pd_content q) (pd_trace_id q)
  | RequestCreate q => CallCreate uuid now actor role (cq_trace_id q) (cq_name q) (cq_objective q) (cq_project_id q)
                         (Some (cq_metadata q))
  | RequestApproveProposal p t => CallApprove uuid now later p actor role t
  | RequestInitialize p q => CallInitialize now later p actor role (iq_trace_id q) (iq_objective q)
                               (iq_budget_currency_total q) (iq_budget_quota_total q) (Some (iq_metric_plan q))
                               (Some (iq_workforce_plan q))
  | RequestBind p q => CallBind uuid now later p actor role (wt_trace_id q) (wt_role q) (wt_template_id q)
                         (wt_llm_routing_profile q) (wt_system_prompt q)
  | RequestReport p q => CallReport uuid now p actor role (rq_trace_id q) (rq_summary q) (Some (rq_metric_results q))
  | RequestApproveCompletion p t => CallCompletionApproval uuid now p actor role t
  | RequestFinalize p q => CallFinalize now later p role (la_trace_id q) (la_reason_code q)
  | RequestPause p q => CallPause now p role (la_trace_id q) (la_reason_code q)
  | RequestResume p q => CallResume now p role (la_trace_id q) (la_reason_code q)
  | RequestTerminate p q => CallTerminate now p role (la_trace_id q) (la_reason_code q)
  | RequestArchive p q => CallArchive now p role (la_trace_id q) (la_reason_code q)
  end.

Section endpoints.
Context {E : Type} `{!Oracle E} `{!AuditWriter E} `{!DbFaults E} `{!DiscordApi E}.
Context (hmac_sha256_hex : string -> string -> string) (connector_shared_secret : string).
Context (system_root_path : string) (json_text : json -> string) (sha256 : string -> string).
Context (scan : list binding_row -> list binding_row) (bot_token : string).
Context (clock_valid : forall e : E, valid_datetime (utcnow e).1).
#[local] Abbreviation P := (api_plane E).
#[local] Abbreviation accepted := (accepted hmac_sha256_hex connector_shared_secret).
#[local] Abbreviation spoken_for := (spoken_for hmac_sha256_hex connector_shared_secret).
#[local] Abbreviation endpoint := (governed_endpoint hmac_sha256_hex connector_shared_secret).
#[local] Abbreviation handle := (api_handle hmac_sha256_hex connector_shared_secret system_root_path json_text sha256 scan bot_token).

Lemma run_draws {A} (k : string -> datetime -> datetime -> M governance A) (s : P) :
  exists uuid now later e, valid_datetime now /\ valid_datetime later /\
    with_draws k s = let '(o, g) := k uuid now later (ap_governance s) in (o, mk_api_plane e g (ap_bindings s)).
Proof.
  unfold with_draws, ap_uuid, ap_now, ap_on_ext, ap_on_governance, bind, zoom.
  destruct (uuid4 (ap_ext s)) as [u e1]. cbn [ap_ext ap_governance ap_bindings].
  pose proof (clock_valid e1) as H1. destruct (utcnow e1) as [now e2]. cbn [ap_ext ap_governance ap_bindings].
  pose proof (clock_valid e2) as H2. destruct (utcnow e2) as [later e3]. cbn [ap_ext ap_governance ap_bindings].
  exists u, now, later, e3. split; [done |]. split; [done |]. by destruct (k u now later _).
Qed.

(** What a request does: the checks refuse it and nothing happens; or they let
    it through, the handler runs, and its outcome is finished, refused or raised. *)
Lemma run_endpoint {A} map_error h trace (k : string -> string -> string -> datetime -> datetime -> M governance A) finish (s : P) :
  let run := endpoint map_error h trace (fun actor role => with_draws (k actor role)) finish s in
  (run.2 = s /\ (forall a, run.1 = Ret a -> ga_http_status a = 400%Z /\ ga_status a = "error") /\
   forall actor role, ~ accepted h actor role) \/
  exists actor role uuid now later e,
    accepted h actor role /\ valid_datetime now /\ valid_datetime later /\
    let '(o, g) := k actor role uuid now later (ap_governance s) in
    let s1 := mk_api_plane e g (ap_bindings s) in
    run = match o with
          | Ret a => finish actor role a s1
          | Raise (GovernanceHandlerError code message) => (Ret (refusal (map_error code) trace code message), s1)
          | Raise x => (Raise x, s1)
          end.
Proof.
  cbv zeta. unfold governed_endpoint. unfold bind at 1 2, of_outcome.
  destruct (_validate_connector_headers _ _ h) as [[error |] | x] eqn:Hv.
  - left. split_and!; [done | by intros a [= <-] | by intros ? ? [? _]; congruence].
  - destruct (_resolve_principal h) as [[error | [actor role]] | x] eqn:Hp.
    + left. split_and!; [done | by intros a [= <-] | by intros ? ? [_ ?]; congruence].
    + right. destruct (run_draws (k actor role) s) as (uuid & now & later & e & H1 & H2 & Hrun).
      exists actor, role, uuid, now, later, e. split; [done |]. split; [done |]. split; [done |].
      unfold bind at 1, try, bind. rewrite Hrun. destruct (k actor role uuid now later (ap_governance s)) as [o g].
      destruct o as [a | x]; [done |]. by destruct x.
    + left. split_and!; [done | done | by intros ? ? [_ ?]; congruence].
  - left. split_and!; [done | done | by intros ? ? [? _]; congruence].
Qed.

(** What follows the handler keeps projects and files. *)
Definition same_governance (s s' : P) : Prop := ap_governance s' = ap_governance s.

#[local] Instance same_governance_preorder : PreOrder same_governance.
Proof. split; unfold same_governance; [done | congruence]. Qed.

Lemma keeps_ext {A} (m : M E A) : tracks same_governance (ap_on_ext m).
Proof. intros s. unfold ap_on_ext, zoom. by destruct (m _). Qed.

Lemma keeps_spaces {A} (m : M (spaces E) A) : tracks same_governance (ap_on_spaces m).
Proof. intros s. unfold ap_on_spaces, zoom. by destruct (m _). Qed.

Lemma keeps_audited event response : tracks same_governance (audited event response).
Proof. apply tracks_bind; [typeclasses eauto | apply keeps_ext | intros; apply tracks_ret; typeclasses eauto]. Qed.

Lemma keeps_non_fatal {A} (m : M (spaces E) A) : tracks same_governance (non_fatal m).
Proof.
  apply tracks_try; [typeclasses eauto | | intros x k [= <-]; apply tracks_ret; typeclasses eauto].
  apply tracks_bind; [typeclasses eauto | apply keeps_spaces | intros; apply tracks_ret; typeclasses eauto].
Qed.

#[local] Hint Resolve keeps_audited keeps_non_fatal : tracks.

(** A request leaves projects and files alone, or does what its handler call does. *)
Definition effect_of (h : governance_headers) (r : api_request) (s s' : P) : Prop :=
  ap_governance s' = ap_governance s \/
  exists actor role uuid now later, spoken_for h actor role /\ valid_datetime now /\ valid_datetime later /\
    ap_governance s' =
      run_gov_call system_root_path json_text sha256 (call_of r uuid now later actor role) (ap_governance s).

Lemma endpoint_effect {A} map_error h trace (k : string -> string -> string -> datetime -> datetime -> M governance A)
    finish r (s : P) :
  (forall actor role a, tracks same_governance (finish actor role a)) ->
  (forall actor role uuid now later g,
     (k actor role uuid now later g).2 = run_gov_call system_root_path json_text sha256 (call_of r uuid now later actor role) g) ->
  effect_of h r s (endpoint map_error h trace (fun actor role => with_draws (k actor role)) finish s).2.
Proof.
  intros Hf Hk. destruct (run_endpoint map_error h trace k finish s) as [[-> _] | H]; [by left | right].
  destruct H as (actor & role & uuid & now & later & e & Hacc & H1 & H2 & H).
  exists actor, role, uuid, now, later. split; [by apply accepted_spoken |]. split; [done |]. split; [done |].
  rewrite <- Hk. destruct (k actor role uuid now later (ap_governance s)) as [o g]. cbn [snd]. cbv zeta in H. rewrite H.
  destruct o as [a | x]; [rewrite (Hf actor role a _); done |]. by destruct x.
Qed.

Lemma handle_effect h r s : effect_of h r s (handle h r s).2.
Proof.
  destruct r; cbn [api_handle]; apply endpoint_effect; intros;
    first [reflexivity | cbv zeta; unfold lifecycle_answer; tracks_auto].
Qed.

Definition run_api (requests : list (governance_headers * api_request)) (s : P) : P :=
  fold_left (fun s hr => (handle hr.1 hr.2 s).2) requests s.

(** The call of a request, for a principal its headers speak for. *)
Definition stands_for (hr : governance_headers * api_request) (c : gov_call) : Prop :=
  exists actor role uuid now later, spoken_for hr.1 actor role /\ c = call_of hr.2 uuid now later actor role.

Lemma call_of_clock r uuid now later actor role :
  valid_datetime now -> valid_datetime later -> Forall valid_datetime (call_clock (call_of r uuid now later actor role)).
Proof. intros H1 H2. destruct r; cbn [call_of call_clock]; repeat first [apply Forall_nil_2 | apply Forall_cons_2; [done |]]. Qed.

(** C13: the governance API refines the handlers.  Whatever requests it receives,
    in any order and with any answers of the audit store, the database and
    Discord, projects and files end as after the handler calls of some of the
    requests, in the same order: one call for each of them, with the request's
    own arguments, for the actor of the connector header and the claimed role, and
    only for requests whose signature is valid.  So a sound projects table stays
    sound, and every project in it only extends its histories. *)
Theorem governance_api_refines_handlers requests (s : P) :
  exists served calls,
    sublist served requests /\ Forall2 stands_for served calls /\
    ap_governance (run_api requests s) = run_gov system_root_path json_text sha256 calls (ap_governance s) /\
    sound_step (g_projects (ap_governance s)) (g_projects (ap_governance (run_api requests s))).
Proof.
  enough (exists served calls, sublist served requests /\ Forall2 stands_for served calls /\
    ap_governance (run_api requests s) = run_gov system_root_path json_text sha256 calls (ap_governance s) /\
    Forall (fun c => Forall valid_datetime (call_clock c)) calls) as (served & calls & H1 & H2 & H3 & H4).
  { exists served, calls. split_and!; try done. rewrite H3. by apply run_gov_sound. }
  revert s. induction requests as [| [h r] requests IH]; intros s.
  { exists [], []. by split_and!; try constructor. }
  destruct (IH (handle h r s).2) as (served & calls & Hsub & Hst & Hrun & Hclock). cbn [run_api fold_left fst snd].
  fold (run_api requests (handle h r s).2).
  destruct (handle_effect h r s) as [Hsame | (actor & role & uuid & now & later & Hsp & V1 & V2 & Hg)].
  - exists served, calls. rewrite Hrun, Hsame. split_and!; [by constructor | done | done | done].
  - exists ((h, r) :: served), (call_of r uuid now later actor role :: calls). split_and!.
    + by constructor.
    + constructor; [| done]. by exists actor, role, uuid, now, later.
    + rewrite Hrun, Hg. done.
    + constructor; [by apply call_of_clock | done].
Qed.

(** ** Lifecycle actions *)

Definition request_of (action : lifecycle_action) (pid : string) (q : ProjectLifecycleActionRequest) : api_request :=
  match action with
  | Pause => RequestPause pid q
  | Resume => RequestResume pid q
  | Terminate => RequestTerminate pid q
  | Archive => RequestArchive pid q
  end.

(** The project as an action leaves it. *)
Definition acted (action : lifecycle_action) (role trace reason : string) (now : datetime) (p : ProjectRecord) : ProjectRecord :=
  replace_status (action_target action) now
    (mk_Transition (p_id p) (status_str (p_status p)) (status_str (action_target action)) (strip reason) (strip (norm role))
       (strip trace) now []) p.

(** What the endpoint does after a handler that succeeded. *)
Definition acts_finish (action : lifecycle_action) (pid : string) (q : ProjectLifecycleActionRequest) (actor role : string)
    (o : ProjectLifecycleTransitionOutcome) : M P GovernanceApiResponse :=
  match action with
  | Pause => lifecycle_answer "project.paused" "project paused through governed lifecycle API" pid actor role q o
  | Resume => lifecycle_answer "project.resumed" "project resumed through governed lifecycle API" pid actor role q o
  | Terminate => non_fatal (transition scan bot_token pid "lock" (p_name (lt_project o))) ;!
                 lifecycle_answer "project.terminated" "project terminated through governed lifecycle API" pid actor role q o
  | Archive => lifecycle_answer "project.archived" "project archived through governed lifecycle API" pid actor role q o
  end.

Lemma handle_action action h pid q s :
  handle h (request_of action pid q) s =
  endpoint _map_handler_error h (la_trace_id q)
    (fun actor role => with_draws (fun _ now _ => run_action action now pid role (la_trace_id q) (la_reason_code q)))
    (acts_finish action pid q) s.
Proof. by destruct action. Qed.

Lemma finish_post {A} (m : M P A) (s : P) :
  tracks same_governance m -> post m s (fun _ => same_governance s) (fun _ => same_governance s).
Proof. intros H. specialize (H s). unfold post. by destruct (m s) as [[]]. Qed.

Lemma answer_post event_type message pid actor role q o (s : P) :
  post (lifecycle_answer event_type message pid actor role q o) s
    (fun a s' => ga_http_status a = 200%Z /\ ga_status a = "ok" /\ same_governance s s') (fun _ s' => same_governance s s').
Proof.
  unfold lifecycle_answer, audited. apply post_bind. eapply post_mono; [apply finish_post, keeps_ext | | done].
  intros u s1 H. by apply post_ret.
Qed.

Lemma acts_finish_post action pid q actor role o (s : P) :
  post (acts_finish action pid q actor role o) s
    (fun a s' => ga_http_status a = 200%Z /\ ga_status a = "ok" /\ same_governance s s') (fun _ s' => same_governance s s').
Proof.
  destruct action; cbn [acts_finish]; try apply answer_post. apply post_bind.
  eapply post_mono; [apply finish_post, keeps_non_fatal | | done]. intros u s1 H1.
  eapply post_mono; [apply answer_post | | intros x s2 H2; unfold same_governance in *; congruence].
  intros a s2 (Ha & Hb & H2). unfold same_governance in *. split_and!; congruence.
Qed.

(** A lifecycle action answers by role and status.  A request of an accepted
    principal on a readable project is answered 403 when the claimed role is not
    in the action's matrix, 409 when the project's status does not allow the
    target, both without any change, and otherwise 200, with the project stored
    under the new status and one more transition naming the role; it raises only
    then, when the audit store refuses the event, with the project already
    changed. *)
Theorem lifecycle_action_answers action h pid q actor role p (s : P) :
  accepted h actor role -> reads (g_projects (ap_governance s)) pid p ->
  let g := ap_governance s in
  let permitted := mem (norm role) (action_roles action) && bool_decide (In (action_target action) (_ALLOWED_TRANSITIONS (p_status p))) in
  let stored s' := exists now, ap_governance s' =
    mk_governance (<[p_id p := _project_to_row (acted action role (la_trace_id q) (la_reason_code q) now p)]> (g_projects g)) (g_files g) in
  post (handle h (request_of action pid q)) s
    (fun a s' =>
       if permitted then ga_http_status a = 200%Z /\ ga_status a = "ok" /\ stored s'
       else ga_http_status a = (if mem (norm role) (action_roles action) then 409 else 403)%Z /\
            ga_status a = "denied" /\ ap_governance s' = g /\ ap_bindings s' = ap_bindings s)
    (fun _ s' => permitted = true /\ stored s').
Proof.
  intros Hacc Hp. cbv zeta. unfold post. rewrite handle_action.
  destruct (run_endpoint _map_handler_error h (la_trace_id q)
    (fun _ role _ now _ => run_action action now pid role (la_trace_id q) (la_reason_code q)) (acts_finish action pid q) s)
    as [(_ & _ & Hno) | (actor' & role' & uuid & now & later & e & Hacc' & _ & _ & Hrun)]; [by destruct (Hno actor role) |].
  assert (actor' = actor /\ role' = role) as [-> ->] by (destruct Hacc as [_ H1], Hacc' as [_ H2]; rewrite H1 in H2; by injection H2).
  rewrite (lifecycle_action_exact action now pid role _ _ _ p Hp) in Hrun.
  destruct (mem (norm role) (action_roles action)); cbn [negb andb] in *; [| by rewrite Hrun].
  case_bool_decide as Ht; [| by rewrite Hrun]. cbv zeta in Hrun. rewrite Hrun.
  pose proof (acts_finish_post action pid q actor role (mk_ProjectLifecycleTransitionOutcome
    (acted action role (la_trace_id q) (la_reason_code q) now p) (p_status p) (la_reason_code q))
    (mk_api_plane e (mk_governance (<[p_id p := _project_to_row (acted action role (la_trace_id q) (la_reason_code q) now p)]>
       (g_projects (ap_governance s))) (g_files (ap_governance s))) (ap_bindings s))) as Hf.
  unfold post, same_governance in Hf. fold (acted action role (la_trace_id q) (la_reason_code q) now p).
  destruct (acts_finish _ _ _ _ _ _ _) as [[a | x] s'].
  - destruct Hf as (Ha & Hb & Hg). split_and!; [done | done |]. by exists now.
  - split; [done |]. by exists now.
Qed.
End endpoints.

(** * Departures *)

(** The role is what the caller says: with a valid signature of any hash, the
    same headers pass as any role, and as the owner when they claim none. *)
Definition claiming (h : governance_headers) (role : option string) : governance_headers :=
  mk_governance_headers (gh_external_channel h) (gh_external_actor_id h) (gh_actor_external_id h) role (gh_idempotency_key h)
    (gh_signature h) (gh_raw_payload_hash h).

Lemma any_role_is_accepted hmac secret h actor role claimed :
  accepted hmac secret h actor role ->
  accepted hmac secret (claiming h claimed) actor (opt_or (strip <$> claimed) "owner").
Proof.
  intros [Hv Hp]. split; [exact Hv |]. unfold _resolve_principal in *. fold (resolver_headers h) in Hp.
  fold (resolver_headers (claiming h claimed)). revert Hp. unfold resolve_principal.
  rewrite !claimed_actor, !claimed_channel. cbn [claiming gh_external_channel gh_external_actor_id gh_actor_external_id].
  destruct (or_none (strip (default "" (gh_external_channel h)))) as [con |]; [| done].
  destruct (mem con _); [| done]. cbn [negb].
  destruct (if blank (gh_actor_external_id h) then _ else _) as [a |]; [| done].
  destruct (String.eqb con "internal"); cbn [obind pl_principal_id pl_principal_role]; rewrite !claimed_role;
    cbn [claiming gh_actor_role]; by intros [= <- _].
Qed.

(** * Witnesses *)

#[local] Instance count_oracle : Oracle N := {
  uuid4 := fun n => ("id-" +:+ pretty n, N.succ n);
  utcnow := fun n => (sample_instant, N.succ n)
}.
#[local] Instance quiet_audit : AuditWriter N := { write_event := fun _ => ret tt }.
#[local] Instance no_faults : DbFaults N := { db_fault := fun e => (None, e) }.
#[local] Instance no_discord : DiscordApi N := { discord_send := fun _ _ _ _ => raise (TransportError "unreachable") }.

Definition sample_hash : string := "0123456789abcdef0123456789abcdef0123456789abcdef0123456789abcdef".

Definition sample_caller (role : option string) : governance_headers :=
  mk_governance_headers (Some "discord") (Some "user-1") None role (Some "key-00001")
    (Some ("sha256=s" +:+ sample_hash)) (Some sample_hash).

Definition sample_api (status : ProjectStatus) : api_plane N := mk_api_plane 0%N (sample_governance status) [].

Definition sample_action : ProjectLifecycleActionRequest := mk_ProjectLifecycleActionRequest "tr-1" "why".

#[local] Abbreviation sample_handle :=
  (api_handle (E:=N) (fun secret text => secret +:+ text) "s" "/srv" (fun _ => "doc") (fun s => s) (fun rows => rows) "token").

Lemma sample_clock : forall e : N, valid_datetime (utcnow e).1.
Proof. intros e. vm_compute. intuition discriminate. Qed.

Lemma governance_api_refines_handlers_witness :
  exists served calls,
    sublist served [(sample_caller (Some "ceo"), RequestPause "p1" sample_action)] /\
    ap_governance (run_api (E:=N) (fun secret text => secret +:+ text) "s" "/srv" (fun _ => "doc") (fun s => s) (fun rows => rows)
      "token" [(sample_caller (Some "ceo"), RequestPause "p1" sample_action)] (sample_api Active)) =
    run_gov "/srv" (fun _ => "doc") (fun s => s) calls (sample_governance Active).
Proof.
  destruct (governance_api_refines_handlers (E:=N) (fun secret text => secret +:+ text) "s" "/srv" (fun _ => "doc") (fun s => s)
    (fun rows => rows) "token" sample_clock [(sample_caller (Some "ceo"), RequestPause "p1" sample_action)] (sample_api Active))
    as (served & calls & Hs & _ & Hg & _).
  exists served, calls. split; [exact Hs | exact Hg].
Defined.

Lemma lifecycle_action_answers_witness :
  post (sample_handle (sample_caller (Some "CEO")) (request_of Terminate "p1" sample_action)) (sample_api Active)
    (fun a _ => ga_http_status a = 200%Z) (fun _ _ => True) /\
  post (sample_handle (sample_caller (Some "auditor")) (request_of Terminate "p1" sample_action)) (sample_api Active)
    (fun a s' => ga_http_status a = 403%Z /\ ap_governance s' = sample_governance Active) (fun _ _ => False).
Proof.
  assert (forall role, accepted (fun secret text => secret +:+ text) "s" (sample_caller (Some role)) "user-1"
    (opt_or (strip <$> Some role) "owner")) as Hacc.
  { intros role. apply (any_role_is_accepted _ _ (sample_caller None) "user-1" "owner" (Some role)). split; vm_compute; reflexivity. }
  pose proof (fun role => lifecycle_action_answers (E:=N) (fun secret text => secret +:+ text) "s" "/srv" (fun _ => "doc")
    (fun s => s) (fun rows => rows) "token" sample_clock Terminate _ "p1" sample_action _ _ _ (sample_api Active) (Hacc role)
    (sample_reads Active)) as H. split.
  - specialize (H "CEO"). cbv zeta in H. replace (_ && _) with true in H by (vm_compute; reflexivity).
    eapply post_mono; [exact H | | done]. by intros a s' [Ha _].
  - specialize (H "auditor"). cbv zeta in H. replace (_ && _) with false in H by (vm_compute; reflexivity).
    replace (mem _ _) with false in H by (vm_compute; reflexivity).
    eapply post_mono; [exact H | |].
    + intros a s' (Ha & _ & Hg & _). split; [exact Ha | exact Hg].
    + intros x s' [Hf _]. discriminate Hf.
Defined.

(** A termination whose channel could not be locked is answered as done. *)
Lemma unlocked_channel_is_answered_ok :
  let row := mk_binding_row "b1" "p1" "g" "c" "active" "project_manager" sample_instant sample_instant in
  let s := mk_api_plane 0%N (sample_governance Active) [row] in
  let run := sample_handle (sample_caller (Some "ceo")) (RequestTerminate "p1" sample_action) s in
  match run.1 with Ret a => ga_http_status a = 200%Z | Raise _ => False end /\
  map bw_binding_state (ap_bindings run.2) = ["locked"] /\
  (transition (fun rows => rows) "token" "p1" "lock" "n" (mk_spaces 0%N (ap_bindings run.2))).1 =
    Raise (ValueError "Illegal transition for project_id='p1': 'locked' --[lock]--> (no target)").
Proof. vm_compute. split_and!; reflexivity. Qed.
