(* ===== verification/QueryApi.v ===== *)
(** The query endpoints: artifact search and task status.

    Models [control_plane/routers/queries.py],
    [control_plane/handlers/query_handler.py] and
    [control_plane/schemas/queries.py].  The search asks the policy runtime
    through the interface [PolicyRuntimeClient] and the retrieval service of
    [ReadTools]; the task status reads the tasks table and the dispatch service's
    memory of outcomes.  FastAPI's parsing has checked [search_ok]. *)

From Stdlib Require Import Ascii.
From S2P Require Import Prelude PyStr PyData PyFloat LlmSchemas Task Budget LoopControl Policy Runtime Dispatch.
From S2P Require Import ProjectModel ProjectRows ProjectRepo Governance Ingress CommStore Artifacts Tools AuditTrail Conversation ReadTools.

(** * Bodies *)

Record ArtifactSearchRequest : Type := mk_ArtifactSearchRequest {
  aq_query : string;
  aq_limit : Z;
  aq_artifact_type : option string
}.

Definition search_ok (q : ArtifactSearchRequest) : bool :=
  len_ok 1 1000 (aq_query q) && (1 <=? aq_limit q)%Z && (aq_limit q <=? 20)%Z && opt_len_ok 1 64 (aq_artifact_type q).

Record QueryContractError : Type := mk_QueryContractError {
  qe_code : string;
  qe_message : string;
  qe_retryable : bool;
  qe_source_component : string;
  qe_project_id : string
}.

Record QueryContractResponse : Type := mk_QueryContractResponse {
  qc_http_status : Z;
  qc_trace_id : string;
  qc_status : string;
  qc_policy_version : option string;
  qc_policy_hash : option string;
  qc_rule_ids : list string;
  qc_data : option (list (string * json));
  qc_error : option QueryContractError
}.

Record query_headers : Type := mk_query_headers {
  qh_trace_id : option string;
  qh_external_channel : option string;
  qh_external_actor_id : option string;
  qh_actor_external_id : option string;
  qh_actor_role : option string;
  qh_project_scope : option string
}.

(** * Handler *)

Record ArtifactSearchHandledResult : Type := mk_ArtifactSearchHandledResult {
  sh_status : string;
  sh_hits : list RetrievalArtifactHit;
  sh_error_code : option string;
  sh_message : string;
  sh_retryable : bool
}.

Definition map_retrieval_result (result : RetrievalQueryResult) : ArtifactSearchHandledResult :=
  if String.eqb (rr_decision result) "ok"
  then mk_ArtifactSearchHandledResult "ok" (rr_hits result) None (rr_message result) false
  else mk_ArtifactSearchHandledResult "denied" [] (Some (opt_or (rr_error_code result) "retrieval_query_denied"))
         (rr_message result) (rr_retryable result).

(** * Artifact search *)

Definition _parse_project_scope (header_value : option string) : list string :=
  match header_value with None => [] | Some text => comma_set text end.

Definition query_denied (trace code message : string) (retryable : bool) (component project_id : string)
    (version hash : option string) (rules : list string) : QueryContractResponse :=
  mk_QueryContractResponse 403 trace "denied" version hash rules None
    (Some (mk_QueryContractError code message retryable component project_id)).

Definition principal_headers_of (h : query_headers) : list (string * string) :=
  [("x-external-channel", default "" (qh_external_channel h));
   ("x-external-actor-id", default "" (qh_external_actor_id h));
   ("x-openqilin-actor-external-id", default "" (qh_actor_external_id h))] ++
  (match qh_actor_role h with Some role => [("x-openqilin-actor-role", role)] | None => [] end).

Definition search_policy_input (task_id request_id trace project_id : string) (principal : Principal)
    (q : ArtifactSearchRequest) : PolicyEvaluationInput :=
  mk_PolicyEvaluationInput task_id request_id trace (pl_principal_id principal) (pl_principal_role principal)
    (pl_trust_domain principal) (pl_connector principal) "query_search_project_artifacts" "artifact_search" [] []
    [aq_query q; opt_or (aq_artifact_type q) ""] (Some project_id).

Section queries.
Context {E : Type} `{!Oracle E} `{!PolicyRuntimeClient E}.
Context (search : RetrievalQueryRequest -> outcome (list RetrievalArtifactHit)).

Definition query_uuid : M E string := fun e => let '(u, e') := uuid4 e in (Ret u, e').

(** The answer of the retrieval service, under the policy that allowed it. *)
Definition search_answer (trace project_id : string) (q : ArtifactSearchRequest) (version hash : string) (rules : list string)
    : QueryContractResponse :=
  let handled := map_retrieval_result (search_project_artifacts search
        (mk_RetrievalQueryRequest project_id (aq_query q) (aq_limit q) (aq_artifact_type q))) in
  if String.eqb (sh_status handled) "ok" then
    mk_QueryContractResponse 200 trace "ok" (Some version) (Some hash) rules
      (Some [("project_id", JStr project_id); ("result_count", JInt (Z.of_nat (length (sh_hits handled))));
             ("results", JArr (map hit_entry (sh_hits handled)))]) None
  else query_denied trace (opt_or (sh_error_code handled) "retrieval_query_denied") (sh_message handled)
         (sh_retryable handled) "retrieval_runtime" project_id (Some version) (Some hash) rules.

(** The policy decision on an in-scope query, then the search. *)
Definition governed_search (trace project_id : string) (q : ArtifactSearchRequest) (principal : Principal)
    : M E QueryContractResponse :=
  let! u1 := query_uuid in
  let! u2 := query_uuid in
  let! o := evaluate_with_fail_closed
              (search_policy_input ("query-task-" +:+ u1) ("query-request-" +:+ u2) trace project_id principal q) in
  let version := match po_policy_result o with Some r => pr_policy_version r | None => "policy-version-unknown" end in
  let hash := match po_policy_result o with Some r => pr_policy_hash r | None => "policy-hash-unknown" end in
  let rules := match po_policy_result o with Some r => pr_rule_ids r | None => [] end in
  ret (if negb (po_allowed o)
       then query_denied trace (opt_or (po_error_code o) "query_policy_denied") (po_message o) false "policy_runtime"
              project_id (Some version) (Some hash) rules
       else search_answer trace project_id q version hash rules).

Definition search_project_artifacts_endpoint (h : query_headers) (project_id : string) (q : ArtifactSearchRequest)
    : M E QueryContractResponse :=
  let! trace := if opt_truthy (qh_trace_id h) then ret (default "" (qh_trace_id h))
                else let! u := query_uuid in ret ("trace-query-" +:+ u) in
  let denied code message component := query_denied trace code message false component project_id None None [] in
  match resolve_principal (principal_headers_of h) NoIdentityRepo with
  | Raise (PrincipalResolutionError code message) => ret (denied code message "identity")
  | Raise e => raise e
  | Ret principal =>
      let allowed_scopes := _parse_project_scope (qh_project_scope h) in
      match allowed_scopes with
      | [] => ret (denied "query_scope_missing" "missing required header: X-OpenQilin-Project-Scope" "identity")
      | _ =>
          if negb (mem project_id allowed_scopes) && negb (mem "*" allowed_scopes)
          then ret (denied "query_scope_denied" "project is outside caller scope" "policy_runtime")
          else governed_search trace project_id q principal
      end
  end.
End queries.

(** * Task status *)

Definition opt_float (x : option pyfloat) : json := match x with Some f => JFloat f | None => JNull end.

Definition llm_execution_of (meta : TaskDispatchLlmMetadata) : json :=
  JObj [("decision", JStr (lm_decision meta)); ("model_selected", JStr (lm_model_selected meta));
        ("routing_profile", JStr (lm_routing_profile meta));
        ("quota_limit_source", JStr (lm_quota_limit_source meta));
        ("usage", JObj [("input_tokens", JInt (lm_input_tokens meta)); ("output_tokens", JInt (lm_output_tokens meta));
                        ("total_tokens", JInt (lm_total_tokens meta)); ("request_units", JInt (lm_request_units meta))]);
        ("cost", JObj [("estimated_cost_usd", JFloat (lm_estimated_cost_usd meta));
                       ("actual_cost_usd", opt_float (lm_actual_cost_usd meta));
                       ("cost_source", JStr (lm_cost_source meta))]);
        ("budget_usage", JObj [("currency_delta_usd", JFloat (lm_currency_delta_usd meta));
                               ("quota_token_units", JInt (lm_quota_token_units meta))]);
        ("generated_text", opt_json (lm_generated_text meta)); ("recipient_role", JStr (lm_recipient_role meta));
        ("recipient_id", opt_json (lm_recipient_id meta));
        ("grounding_sources", JArr (map JStr (lm_grounding_source_ids meta)))].

Definition task_report (tid : string) (t : TaskRecord) (outcome : option TaskDispatchOutcome) : list (string * json) :=
  let details := default [] (outcome_details t) in
  [("task_id", JStr tid); ("trace_id", JStr (trace_id t)); ("status", JStr (status t));
   ("principal_id", JStr (principal_id t)); ("principal_role", JStr (principal_role t)); ("command", JStr (command t));
   ("dispatch_target", opt_json (dispatch_target t)); ("dispatch_id", opt_json (dispatch_id t));
   ("error_code", opt_json (outcome_error_code t)); ("error_message", opt_json (outcome_message t));
   ("outcome_source", opt_json (outcome_source t));
   ("policy_version", opt_json (dict_get details "policy_version"));
   ("policy_hash", opt_json (dict_get details "policy_hash"));
   ("rule_ids", if opt_truthy (dict_get details "rule_ids")
                then JArr (map JStr (split_on ","%char (default "" (dict_get details "rule_ids")))) else JArr []);
   ("llm_execution", match (o ← outcome; do_llm_metadata o) with Some meta => llm_execution_of meta | None => JNull end)].

(** The status code and the body. *)
Definition get_task_status {E C} (tid : string) : M (world E C) (Z * list (string * json)) :=
  let! task := on_tasks (get_task_by_id tid) in
  match task with
  | None => ret (404%Z, [("status", JStr "not_found"); ("task_id", JStr tid)])
  | Some t =>
      let! outcome := gets (fun w => w_dispatch w !! tid) in
      ret (200%Z, task_report tid t outcome)
  end.

(** * Lemmas *)

Lemma on_tasks_gets {E C A} (f : task_table -> A) (w : world E C) : (on_tasks (gets f) w).1 = Ret (f (w_tasks w)).
Proof. unfold on_tasks, zoom, gets. by destruct w. Qed.

(** The policy client is asked once, after two identifiers are drawn. *)
Section facts.
Context {E : Type} `{!Oracle E} `{!PolicyRuntimeClient E}.
Context (search : RetrievalQueryRequest -> outcome (list RetrievalArtifactHit)).

Lemma governed_search_post trace project_id q principal (e : E) :
  post (governed_search search trace project_id q principal) e
    (fun a _ =>
       (qc_http_status a = 403%Z /\ qc_data a = None) \/
       exists u1 u2 e1 e2 r,
         evaluate (search_policy_input u1 u2 trace project_id principal q) e1 = (Ret r, e2) /\
         In (pr_decision r) [JStr "allow"; JStr "allow_with_obligations"] /\
         a = search_answer search trace project_id q (pr_policy_version r) (pr_policy_hash r) (pr_rule_ids r))
    (fun x _ => x = unhashable_error).
Proof.
  unfold governed_search, query_uuid, post. unfold bind at 1 2 3. destruct (uuid4 e) as [u1 e1]. destruct (uuid4 e1) as [u2 e2].
  rewrite fail_closed_step. destruct (evaluate _ e2) as [[r | x] e3] eqn:Hev; cbn [ret]; [| by left].
  destruct (outcome_of_decision r) as [o | x] eqn:Ho; cbn [ret]; [| by apply outcome_of_decision_exn in Ho as [-> _]].
  rewrite (outcome_of_decision_result r o Ho). destruct (po_allowed o) eqn:Ha; cbn [negb]; [right | by left].
  apply (outcome_of_decision_allowed r o Ho) in Ha. do 2 eexists. exists e2, e3, r. done.
Qed.

(** The scope that the caller claims covers the project. *)
Definition in_claimed_scope (h : query_headers) (project_id : string) : Prop :=
  let scopes := _parse_project_scope (qh_project_scope h) in In project_id scopes \/ In "*" scopes.

(** Artifact search answers within the claimed scope and the policy.
    Whatever the policy client and the search model do, the endpoint answers, unless
    the client's decision is a list or an object, with 403 and no data or, when the headers name a principal and a scope that covers
    the project, and the policy client allowed exactly this query on this project
    to that principal, what the retrieval service finds in the project. *)
Theorem search_answers_within_scope h project_id q (e : E) :
  post (search_project_artifacts_endpoint search h project_id q) e
    (fun a _ =>
       (qc_http_status a = 403%Z /\ qc_data a = None) \/
       (exists principal u1 u2 trace e1 e2 r,
          resolve_principal (principal_headers_of h) NoIdentityRepo = Ret principal /\ in_claimed_scope h project_id /\
          evaluate (search_policy_input u1 u2 trace project_id principal q) e1 = (Ret r, e2) /\
          In (pr_decision r) [JStr "allow"; JStr "allow_with_obligations"] /\
          a = search_answer search trace project_id q (pr_policy_version r) (pr_policy_hash r) (pr_rule_ids r)))
    (fun x _ => x = unhashable_error).
Proof.
  unfold search_project_artifacts_endpoint. apply post_bind.
  assert (forall (Q : string -> E -> Prop) X, (forall t e', Q t e') ->
    post (if opt_truthy (qh_trace_id h) then ret (default "" (qh_trace_id h))
          else let! u := query_uuid in ret ("trace-query-" +:+ u)) e Q X) as Htrace.
  { intros Q X HQ. destruct (opt_truthy _); [by apply post_ret |]. unfold post, bind, query_uuid. destruct (uuid4 e). apply HQ. }
  apply Htrace. clear Htrace e. intros trace e. cbv zeta.
  destruct (resolve_principal _ _) as [principal | x] eqn:Hp.
  - destruct (_parse_project_scope (qh_project_scope h)) as [| s l] eqn:Hs; [by left |].
    destruct (negb (mem project_id (s :: l)) && negb (mem "*" (s :: l))) eqn:Hscope; [by left |].
    eapply post_mono; [apply governed_search_post | | done]. intros a e' [Ha | (u1 & u2 & e1 & e2 & r & H1 & H2 & H3)]; [by left |].
    right. exists principal, u1, u2, trace, e1, e2, r. split_and!; try done. unfold in_claimed_scope. cbv zeta. rewrite Hs.
    apply andb_false_iff in Hscope as [Hm | Hm]; apply negb_false_iff, mem_In in Hm; [by left | by right].
  - unfold resolve_principal in Hp. destruct (first_header _ ["x-external-channel"; _]) as [con |]; [| simplify_eq; by left].
    destruct (mem con _); cbn [negb] in Hp; [| simplify_eq; by left].
    destruct (first_header _ _) as [a |]; [| simplify_eq; by left].
    by destruct (String.eqb con "internal").
Qed.
End facts.
