(* ===== verification/DiscordBridge.v ===== *)
(** The Discord bots, first part: commands, signed payloads, identities.

    Models [discord_runtime/bridge.py] (what a message means, the payload the
    control plane receives, the text of its answer) and
    [discord_runtime/role_bot_registry.py] (which bot speaks for which role).

    The JSON library is the [json_codec] of [AgentBase]; SHA-256, HMAC and the
    reading of a file are parameters. *)

From Stdlib Require Import Ascii.
From S2P Require Import Prelude PyStr PyData LlmSchemas PyFloat Ingress AgentBase Grammar.

(** * Commands *)

Record ParsedDiscordCommand : Type := mk_ParsedDiscordCommand {
  pd_action : string;
  pd_target : option string;
  pd_args : list string;
  pd_recipients : list (string * string);
  pd_project_id : option string;
  pd_priority : string
}.

(** The recipients of a message that names none. *)
Definition runtime_recipients : list (string * string) := [("runtime", "runtime")].

Definition infer_command_target (action : string) (explicit_target : option string) : string :=
  match explicit_target with
  | Some t => if truthy (strip t) then strip t
              else if startswith (norm action) "llm_" then "llm"
              else if startswith (norm action) "msg_" then "communication" else "sandbox"
  | None => if startswith (norm action) "llm_" then "llm"
            else if startswith (norm action) "msg_" then "communication" else "sandbox"
  end.

(** [d.get(key, default)]. *)
Definition get_or (o : list (string * json)) (key : string) (default : json) : json :=
  match jfield o key with Some v => v | None => default end.

(** [d.get(key)], with [null] and a missing key both [None]. *)
Definition get_value (o : list (string * json)) (key : string) : option json :=
  match jfield o key with Some JNull | None => None | Some v => Some v end.

Section bridge.
Context (codec : json_codec) (str_float : pyfloat -> string).
Notation str := (json_str str_float).

Fixpoint parse_recipients (entries : list json) : outcome (list (string * string)) :=
  match entries with
  | [] => Ret []
  | JObj r :: entries' =>
      let recipient_id := strip (str (get_or r "recipient_id" (JStr ""))) in
      let recipient_type := strip (str (get_or r "recipient_type" (JStr ""))) in
      if negb (truthy recipient_id) || negb (truthy recipient_type) then
        Raise (DiscordCommandParseError "JSON recipient entries require recipient_id and recipient_type")
      else let? l := parse_recipients entries' in Ret ((recipient_id, recipient_type) :: l)
  | _ :: _ => Raise (DiscordCommandParseError "JSON recipient entries must be objects")
  end.

Definition json_recipients (data : list (string * json)) : outcome (list (string * string)) :=
  match get_value data "recipients" with
  | None => Ret runtime_recipients
  | Some (JArr (e :: l)) => parse_recipients (e :: l)
  | Some _ => Raise (DiscordCommandParseError "JSON recipients must be a non-empty list")
  end.

(** The body of a command given as a JSON object. *)
Definition parse_json_command (data : list (string * json)) : outcome ParsedDiscordCommand :=
  let action := strip (str (get_or data "action" (JStr ""))) in
  if negb (truthy action) then Raise (DiscordCommandParseError "JSON command body requires action")
  else
    match get_or data "args" (JArr []) with
    | JArr raw_args =>
        let? recipients := json_recipients data in
        Ret (mk_ParsedDiscordCommand action ((fun v => strip (str v)) <$> get_value data "target")
               (map str raw_args) recipients
               (v ← get_value data "project_id"; or_none (strip (str v)))
               (let p := norm (str (get_or data "priority" (JStr "normal"))) in if truthy p then p else "normal"))
    | _ => Raise (DiscordCommandParseError "JSON args must be a list")
    end.

(** A body of words: [shlex.split] may raise [ValueError]. *)
Definition parse_words (body : string) : outcome ParsedDiscordCommand :=
  let? tokens := shlex_split body in
  match tokens with
  | [] => Raise (DiscordCommandParseError "command body is empty")
  | first :: rest =>
      if negb (truthy (strip first)) then Raise (DiscordCommandParseError "action token is empty")
      else Ret (mk_ParsedDiscordCommand (strip first) None (List.filter truthy (map strip rest)) runtime_recipients
                  None "normal")
  end.

Definition parse_discord_command (content command_prefix : string) : outcome (option ParsedDiscordCommand) :=
  let stripped := strip content in
  if negb (startswith stripped command_prefix) then Ret None
  else
    let body := strip (drop_chars (String.length command_prefix) stripped) in
    if negb (truthy body) then Raise (DiscordCommandParseError "command body is empty")
    else if startswith body "{" then
      match loads codec body with
      | Some (JObj data) => let? c := parse_json_command data in Ret (Some c)
      | Some _ => Raise (DiscordCommandParseError "JSON command body must be an object")
      | None => Raise (DiscordCommandParseError "invalid JSON command body")
      end
    else let? c := parse_words body in Ret (Some c).

(** * The answer *)

Definition newline : string := String (ascii_of_nat 10) "".

(** The text that stands for an accepted command. *)
Definition accepted_text (trace_id : string) (data : list (string * json)) : string :=
  let field k d := str (get_or data k (JStr d)) in
  let summary := "[accepted] trace=" +:+ trace_id +:+ " task=" +:+ field "task_id" "task-unknown" +:+
                 " command=" +:+ field "command" "command-unknown" +:+ " replayed=" +:+ field "replayed" "false" in
  match jfield data "llm_execution" with
  | Some (JObj x) =>
      let generated := get_or x "generated_text" JNull in
      let chosen := if json_truthy generated then generated else get_or x "advisory_response" JNull in
      match chosen with
      | JStr text => if truthy (strip text) then strip text else summary
      | _ => summary
      end
  | _ => summary
  end.

Definition format_governed_response (status_code : Z) (body : list (string * json)) : string :=
  let trace_id := str (get_or body "trace_id" (JStr "trace-unknown")) in
  let status_value := str (get_or body "status" (JStr "unknown")) in
  if String.eqb status_value "accepted" then
    match jfield body "data" with
    | Some (JObj data) => accepted_text trace_id data
    | _ => "[accepted] trace=" +:+ trace_id
    end
  else if mem status_value ["denied"; "error"] then
    match jfield body "error" with
    | Some (JObj error) =>
        let code := str (get_or error "code" (JStr "unknown_error")) in
        let message := strip (str_replace (str (get_or error "message" (JStr "request denied"))) newline " ") in
        let message := if Nat.ltb 180 (String.length message) then String.substring 0 177 message +:+ "..." else message in
        "[" +:+ status_value +:+ "] trace=" +:+ trace_id +:+ " code=" +:+ code +:+ " message=" +:+ message
    | _ => "[" +:+ status_value +:+ "] trace=" +:+ trace_id
    end
  else "[http_" +:+ str_int status_code +:+ "] trace=" +:+ trace_id +:+ " status=" +:+ status_value.

Definition parse_actor_role_map (raw_json : string) : gmap string string :=
  let normalized := strip raw_json in
  if negb (truthy normalized) then ∅
  else
    match loads codec normalized with
    | Some (JObj decoded) =>
        foldl (fun result kv =>
                 let user_id := strip kv.1 in
                 let role := norm (str kv.2) in
                 if truthy user_id && truthy role then <[user_id := role]> result else result)
              ∅ decoded
    | _ => ∅
    end.
End bridge.

(** * The signed payload *)

Section payload.
Context (json_text : json -> string) (sha256 : string -> string).
Context (hmac_sha256_hex : string -> string -> string).

Definition recipient_json (r : string * string) : json :=
  JObj [("recipient_id", JStr r.1); ("recipient_type", JStr r.2)].

(** [payload_without_hash]; [timestamp] is the message's, which every caller gives. *)
Definition payload_fields (c : ParsedDiscordCommand)
    (message_id actor_external_id actor_role content guild_id channel_id channel_type chat_class : string)
    (project_id : option string) (timestamp : datetime) (bot_role bot_id bot_user_id : option string)
    (is_everyone_mention : bool) : list (string * json) :=
  let effective_project_id := if opt_truthy project_id then project_id else pd_project_id c in
  [("trace_id", JStr ("trace-discord-" +:+ message_id));
   ("external_message_id", JStr message_id);
   ("actor_external_id", JStr actor_external_id);
   ("actor_role", JStr actor_role);
   ("idempotency_key", JStr ("idem-discord-" +:+ message_id));
   ("timestamp", JStr (isoformat timestamp));
   ("content", JStr content);
   ("action", JStr (pd_action c));
   ("target", JStr (infer_command_target (pd_action c) (pd_target c)));
   ("args", JArr (map JStr (pd_args c)));
   ("recipients", JArr (map recipient_json (pd_recipients c)));
   ("project_id", opt_json effective_project_id);
   ("priority", JStr (pd_priority c));
   ("guild_id", JStr guild_id);
   ("channel_id", JStr channel_id);
   ("channel_type", JStr channel_type);
   ("chat_class", JStr chat_class);
   ("bot_role", opt_json bot_role);
   ("bot_id", opt_json bot_id);
   ("bot_user_id", opt_json bot_user_id);
   ("is_everyone_mention", JBool is_everyone_mention)].

(** The payload with its hash, and the header of its signature. *)
Definition sign_payload (connector_shared_secret : string) (fields : list (string * json))
    : list (string * json) * string :=
  let raw_payload_hash := sha256 (json_text (JObj fields)) in
  (fields ++ [("raw_payload_hash", JStr raw_payload_hash)],
   "sha256=" +:+ sign_payload_hash hmac_sha256_hex raw_payload_hash connector_shared_secret).
End payload.

(** * Role bots *)

(** The fields of [shared_kernel/config.py] the bots read. *)
Record RuntimeSettings : Type := mk_RuntimeSettings {
  st_discord_bot_token : option string;
  st_discord_multi_bot_enabled : bool;
  st_discord_worker_role : string;
  st_discord_role_bot_tokens_file : option string;
  st_discord_role_bot_tokens_json : string;
  st_discord_required_role_bots_csv : string;
  st_discord_control_plane_base_url : string;
  st_connector_shared_secret : string;
  st_discord_command_prefix : string;
  st_discord_actor_role_default : string;
  st_discord_actor_role_map_json : string;
  st_discord_allowed_guild_ids_csv : string;
  st_discord_allowed_channel_ids_csv : string;
  st_discord_request_timeout_seconds : pyfloat;
  st_discord_response_chunk_size_chars : Z;
  st_discord_response_retry_attempts : Z;
  st_discord_response_retry_base_delay_seconds : pyfloat;
  st_grafana_public_url : string
}.

Record RoleBotIdentity : Type := mk_RoleBotIdentity {
  rb_role : string;
  rb_bot_id : string;
  rb_token : string;
  rb_guild_allowlist : list string;
  rb_status : string
}.

Record RoleBotRegistry : Type := mk_RoleBotRegistry {
  rr_identities_by_role : list (string * RoleBotIdentity);
  rr_required_roles : list string
}.

Definition _DEFAULT_REQUIRED_ROLE_BOTS : list string := ["administrator"; "auditor"; "ceo"; "cwo"; "project_manager"].

Definition comma : ascii := ascii_of_nat 44.

(** [tuple(item.strip() for item in raw.split(",") if item.strip())]. *)
Definition csv_items (raw_value : string) : list string := List.filter truthy (map strip (split_on comma raw_value)).

Definition _parse_required_roles (raw_value : string) : list string :=
  match map lower (csv_items raw_value) with [] => _DEFAULT_REQUIRED_ROLE_BOTS | values => values end.

(** [d[k] = v] on a dictionary in insertion order, and [d.get(k)]. *)
Fixpoint dict_set {V} (d : list (string * V)) (k : string) (v : V) : list (string * V) :=
  match d with
  | [] => [(k, v)]
  | (k', v') :: d' => if String.eqb k' k then (k', v) :: d' else (k', v') :: dict_set d' k v
  end.

Fixpoint dict_find {V} (d : list (string * V)) (k : string) : option V :=
  match d with
  | [] => None
  | (k', v) :: d' => if String.eqb k' k then Some v else dict_find d' k
  end.

Section registry.
Context (codec : json_codec) (str_float : pyfloat -> string).
Context (expanduser : string -> string) (read_text : string -> option string).
Notation str := (json_str str_float).

Definition _parse_guild_allowlist (raw_value : option json) : outcome (list string) :=
  match raw_value with
  | None => Ret []
  | Some (JStr s) => Ret (csv_items s)
  | Some (JArr l) => Ret (List.filter truthy (map (fun item => strip (str item)) l))
  | Some _ => Raise (RoleBotRegistryError "discord_role_bot_guild_allowlist_invalid"
                       "role-bot guild_allowlist must be list or comma-separated string")
  end.

Definition _parse_role_identity (role : string) (raw_identity : json) : outcome RoleBotIdentity :=
  match raw_identity with
  | JStr raw =>
      if negb (truthy (strip raw)) then
        Raise (RoleBotRegistryError "discord_role_bot_token_missing" ("role-bot token missing for role: " +:+ role))
      else Ret (mk_RoleBotIdentity role role (strip raw) [] "active")
  | JObj o =>
      let status := let s := norm (str (get_or o "status" (JStr "active"))) in if truthy s then s else "active" in
      if negb (mem status ["active"; "disabled"]) then
        Raise (RoleBotRegistryError "discord_role_bot_status_invalid"
                 ("role-bot status must be active|disabled for role: " +:+ role))
      else
        let token := strip (str (get_or o "token" (JStr ""))) in
        if String.eqb status "active" && negb (truthy token) then
          Raise (RoleBotRegistryError "discord_role_bot_token_missing" ("role-bot token missing for role: " +:+ role))
        else
          let bot_id := norm (str (get_or o "bot_id" (JStr role))) in
          if negb (truthy bot_id) then
            Raise (RoleBotRegistryError "discord_role_bot_id_invalid"
                     ("role-bot bot_id must be non-empty for role: " +:+ role))
          else
            let? guild_allowlist := _parse_guild_allowlist (get_value o "guild_allowlist") in
            Ret (mk_RoleBotIdentity role bot_id token guild_allowlist status)
  | _ => Raise (RoleBotRegistryError "discord_role_bot_json_invalid"
                  ("role-bot entry for role " +:+ role +:+ " must be string or object"))
  end.

(** The loop over the decoded object. *)
Fixpoint parse_identities (items : list (string * json)) (result : list (string * RoleBotIdentity))
    : outcome (list (string * RoleBotIdentity)) :=
  match items with
  | [] => Ret result
  | (raw_role, raw_identity) :: items' =>
      let role := norm raw_role in
      if negb (truthy role) then
        Raise (RoleBotRegistryError "discord_role_bot_role_invalid" "role-bot role keys must be non-empty")
      else
        let? identity := _parse_role_identity role raw_identity in
        parse_identities items' (dict_set result role identity)
  end.

Definition _parse_role_identity_map (raw_value : string) : outcome (list (string * RoleBotIdentity)) :=
  let normalized := strip raw_value in
  if negb (truthy normalized) then Ret []
  else
    match loads codec normalized with
    | Some (JObj decoded) => parse_identities decoded []
    | Some _ => Raise (RoleBotRegistryError "discord_role_bot_json_invalid"
                         ("role-bot token payload must be a JSON object " +:+
                          "(OPENQILIN_DISCORD_ROLE_BOT_TOKENS_JSON or OPENQILIN_DISCORD_ROLE_BOT_TOKENS_FILE)"))
    | None => Raise (RoleBotRegistryError "discord_role_bot_json_invalid"
                       ("role-bot token payload must be valid JSON object " +:+
                        "(OPENQILIN_DISCORD_ROLE_BOT_TOKENS_JSON or OPENQILIN_DISCORD_ROLE_BOT_TOKENS_FILE)"))
    end.

Definition _resolve_role_bot_payload (settings : RuntimeSettings) : outcome string :=
  let tokens_file := strip (default "" (st_discord_role_bot_tokens_file settings)) in
  if negb (truthy tokens_file) then Ret (st_discord_role_bot_tokens_json settings)
  else
    match read_text (expanduser tokens_file) with
    | Some text => Ret text
    | None => Raise (RoleBotRegistryError "discord_role_bot_file_unreadable"
                       ("OPENQILIN_DISCORD_ROLE_BOT_TOKENS_FILE could not be read: " +:+ expanduser tokens_file))
    end.

(** The walk of [_assert_unique_tokens]. *)
Fixpoint _assert_unique_tokens (identities : list (string * RoleBotIdentity)) (owners_by_token : gmap string string)
    : outcome unit :=
  match identities with
  | [] => Ret tt
  | (role, identity) :: identities' =>
      let token := strip (rb_token identity) in
      if negb (truthy token) then _assert_unique_tokens identities' owners_by_token
      else
        match owners_by_token !! token with
        | Some existing_role =>
            if negb (String.eqb existing_role role) then
              Raise (RoleBotRegistryError "discord_role_bot_token_duplicate"
                       ("discord role-bot tokens must be unique across roles; duplicate token for roles " +:+
                        existing_role +:+ " and " +:+ role))
            else _assert_unique_tokens identities' (<[token := role]> owners_by_token)
        | None => _assert_unique_tokens identities' (<[token := role]> owners_by_token)
        end
  end.

Fixpoint _assert_unique_bot_ids (identities : list (string * RoleBotIdentity)) (owners_by_bot_id : gmap string string)
    : outcome unit :=
  match identities with
  | [] => Ret tt
  | (role, identity) :: identities' =>
      match owners_by_bot_id !! rb_bot_id identity with
      | Some existing_role =>
          if negb (String.eqb existing_role role) then
            Raise (RoleBotRegistryError "discord_role_bot_id_duplicate"
                     ("discord role-bot ids must be unique across roles; duplicate bot_id for roles " +:+
                      existing_role +:+ " and " +:+ role))
          else _assert_unique_bot_ids identities' (<[rb_bot_id identity := role]> owners_by_bot_id)
      | None => _assert_unique_bot_ids identities' (<[rb_bot_id identity := role]> owners_by_bot_id)
      end
  end.

(** A required role without an active identity. *)
Definition role_missing (configured : list (string * RoleBotIdentity)) (role : string) : bool :=
  match dict_find configured role with
  | Some identity => negb (String.eqb (rb_status identity) "active")
  | None => true
  end.

(** The single bot of the old setting, when no role bot is configured. *)
Definition with_fallback (settings : RuntimeSettings) (configured : list (string * RoleBotIdentity))
    : list (string * RoleBotIdentity) :=
  match configured with
  | [] =>
      if st_discord_multi_bot_enabled settings then []
      else
        let fallback_token := strip (default "" (st_discord_bot_token settings)) in
        if truthy fallback_token
        then [("runtime_agent", mk_RoleBotIdentity "runtime_agent" "runtime_agent" fallback_token [] "active")]
        else []
  | _ => configured
  end.

Definition build_role_bot_registry (settings : RuntimeSettings) : outcome RoleBotRegistry :=
  let? payload := _resolve_role_bot_payload settings in
  let? parsed := _parse_role_identity_map payload in
  let configured := with_fallback settings parsed in
  match configured with
  | [] => Raise (RoleBotRegistryError "discord_role_bot_registry_empty" "discord role-bot token map is empty")
  | _ =>
      let? _ := _assert_unique_tokens configured ∅ in
      let? _ := _assert_unique_bot_ids configured ∅ in
      let required_roles := _parse_required_roles (st_discord_required_role_bots_csv settings) in
      let missing := List.filter (role_missing configured) required_roles in
      if st_discord_multi_bot_enabled settings && negb (Nat.eqb (length missing) 0) then
        Raise (RoleBotRegistryError "discord_role_bot_required_missing"
                 ("missing required role-bot tokens: " +:+ join ", " missing))
      else Ret (mk_RoleBotRegistry (sorted (fun a b => str_leb a.1 b.1) configured) required_roles)
  end.
End registry.
