(* ===== verification/DiscordWorker.v ===== *)
(** The Discord bots, second part: who answers a message, and how.

    Models [apps/discord_bot_worker.py] but for the order of several bots'
    answers, which is in [DiscordOrder], and [apps/discord_automator.py].

    Discord, the control plane's HTTP interface, the clock's [sleep] and the
    Redis hash of the bots are interfaces.  Every path through [on_message]
    reads the readiness of the bots at most once, so it is an argument there.
    Writing the marker file succeeds. *)

From Stdlib Require Import Ascii.
From S2P Require Import Prelude PyStr PyData LlmSchemas PyFloat Ingress AgentBase Grammar DiscordIngress DiscordBridge.

(** * The outside world *)

Inductive send_result : Type :=
  | Sent
  | SendFailed (status : option Z) (message : string).

(** The answer to a POST: a response with its JSON body, if it has one, or the
    two kinds of [httpx] errors the worker tells apart. *)
Inductive post_result : Type :=
  | Posted (status_code : Z) (body : option json)
  | PostTransportError
  | PostHTTPError.

Class BotWorld (E : Type) : Type := {
  channel_send : string -> string -> E -> send_result * E;
  ingress_post : string -> string -> list (string * json) -> E -> post_result * E;
  bot_sleep : pyfloat -> E -> E;
  redis_hset : string -> string -> string -> M E unit;
  guild_text_channels : E -> list (list (string * string))
}.

(** * Discord messages *)

Inductive channel_kind : Type := DMChannel | GroupChannel | Thread | OtherChannel.

#[export] Instance channel_kind_eq_dec : EqDecision channel_kind.
Proof. solve_decision. Defined.

(** [ch_name] is [str(getattr(channel, "name", ""))]. *)
Record discord_channel : Type := mk_discord_channel {
  ch_id : string;
  ch_kind : channel_kind;
  ch_name : string
}.

Record discord_user : Type := mk_discord_user {
  du_id : string;
  du_bot : bool;
  du_name : string;
  du_display_name : string
}.

Record discord_message : Type := mk_discord_message {
  ms_id : string;
  ms_author : discord_user;
  ms_guild : option string;
  ms_channel : discord_channel;
  ms_content : string;
  ms_mentions : list discord_user;
  ms_mention_everyone : bool;
  ms_created_at : datetime
}.

Definition _channel_type_name (c : discord_channel) : string :=
  match ch_kind c with DMChannel => "dm" | GroupChannel => "group" | Thread => "thread" | OtherChannel => "text" end.

(** [n == name or n.startswith(name + "_")]. *)
Definition named (n name : string) : bool := String.eqb n name || startswith n (name +:+ "_").

Definition _resolve_chat_class (c : discord_channel) : string :=
  match ch_kind c with
  | DMChannel | GroupChannel => "direct"
  | _ =>
      let normalized := str_replace (norm (ch_name c)) "-" "_" in
      if named normalized "leadership_council" then "leadership_council"
      else if named normalized "governance" then "governance"
      else if named normalized "executive" then "executive"
      else "project"
  end.

(** [s.strip("_")]. *)
Fixpoint lstrip_bar (s : string) : string :=
  match s with String c s' => if Ascii.eqb c (ascii_of_nat 95) then lstrip_bar s' else s | EmptyString => "" end.

Definition rev_string (s : string) : string :=
  String.string_of_list_ascii (rev (String.list_ascii_of_string s)).

Definition strip_bar (s : string) : string := rev_string (lstrip_bar (rev_string (lstrip_bar s))).

(** A character that [isalnum()], or [_], or [-], stays; another becomes [_]. *)
Definition project_char (c : ascii) : ascii :=
  if is_word_char c || Ascii.eqb c (ascii_of_nat 45) then c else ascii_of_nat 95.

Definition _derive_project_id (c : discord_channel) : option string :=
  let channel_name := norm (ch_name c) in
  if negb (truthy channel_name) then None
  else
    let base := if startswith channel_name "project-" || startswith channel_name "project_"
                then drop_chars 8 channel_name else channel_name in
    or_none (strip_bar (str_replace (concat_map_str (fun x => String (project_char x) "") base) "-" "_")).

(** * Configuration *)

Record DiscordBotWorkerConfig : Type := mk_DiscordBotWorkerConfig {
  bw_bot_role : string;
  bw_bot_id : string;
  bw_token : string;
  bw_control_plane_base_url : string;
  bw_connector_shared_secret : string;
  bw_command_prefix : string;
  bw_actor_role_default : string;
  bw_actor_role_map : gmap string string;
  bw_allowed_guild_ids : list string;
  bw_allowed_channel_ids : list string;
  bw_request_timeout_seconds : pyfloat;
  bw_response_chunk_size_chars : Z;
  bw_response_retry_attempts : Z;
  bw_response_retry_base_delay_seconds : pyfloat;
  bw_grafana_public_url : string
}.

Record DiscordWorkerLaunchPlan : Type := mk_DiscordWorkerLaunchPlan {
  lp_configs : list DiscordBotWorkerConfig;
  lp_required_roles : list string
}.

(** A [frozenset], as the list of its elements. *)
Definition _parse_id_allowlist (raw_value : string) : list string := dedup (csv_items raw_value).

Definition _resolve_worker_role (raw_value : string) : outcome string :=
  let normalized := norm raw_value in
  if truthy normalized then Ret normalized
  else Raise (RuntimeError "discord worker role is required for discord_bot_worker").

Definition _merge_guild_allowlists (worker_allowlist env_allowlist : list string) : outcome (list string) :=
  if Nat.eqb (length worker_allowlist) 0 then Ret env_allowlist
  else if Nat.eqb (length env_allowlist) 0 then Ret worker_allowlist
  else
    let merged := List.filter (fun g => mem g env_allowlist) worker_allowlist in
    if Nat.eqb (length merged) 0 then
      Raise (RuntimeError "discord allowed guild allowlist intersection is empty for configured worker role")
    else Ret merged.

Section configuration.
Context (codec : json_codec) (str_float : pyfloat -> string).
Context (expanduser : string -> string) (read_text : string -> option string).

(** [build_role_bot_registry] with its error turned into a [RuntimeError]. *)
Definition registry_or_error (settings : RuntimeSettings) : outcome RoleBotRegistry :=
  match build_role_bot_registry codec str_float expanduser read_text settings with
  | Raise (RoleBotRegistryError code message) =>
      Raise (RuntimeError ("invalid Discord role-bot registry: " +:+ code +:+ " " +:+ message))
  | o => o
  end.

Definition _resolve_worker_identity (settings : RuntimeSettings)
    : outcome (string * string * string * list string) :=
  let? worker_role := _resolve_worker_role (st_discord_worker_role settings) in
  let? registry := registry_or_error settings in
  match dict_find (rr_identities_by_role registry) worker_role with
  | None => Raise (RuntimeError ("discord role-bot identity missing for worker role '" +:+ worker_role +:+ "'"))
  | Some identity =>
      if negb (String.eqb (rb_status identity) "active") then
        Raise (RuntimeError ("discord role-bot identity for worker role '" +:+ worker_role +:+ "' is not active"))
      else if negb (truthy (strip (rb_token identity))) then
        Raise (RuntimeError ("discord role-bot identity for worker role '" +:+ worker_role +:+ "' has no token"))
      else Ret (worker_role, rb_bot_id identity, strip (rb_token identity), dedup (rb_guild_allowlist identity))
  end.

Definition _build_worker_config_from_identity (settings : RuntimeSettings)
    (worker_role worker_bot_id token : string) (worker_allowlist : list string) : outcome DiscordBotWorkerConfig :=
  let env_allowlist := _parse_id_allowlist (st_discord_allowed_guild_ids_csv settings) in
  let? guilds := _merge_guild_allowlists worker_allowlist env_allowlist in
  Ret (mk_DiscordBotWorkerConfig worker_role worker_bot_id (strip token)
         (st_discord_control_plane_base_url settings) (st_connector_shared_secret settings)
         (st_discord_command_prefix settings) (st_discord_actor_role_default settings)
         (parse_actor_role_map codec str_float (st_discord_actor_role_map_json settings)) guilds
         (_parse_id_allowlist (st_discord_allowed_channel_ids_csv settings))
         (st_discord_request_timeout_seconds settings)
         (Z.max 200 (st_discord_response_chunk_size_chars settings))
         (Z.max 0 (st_discord_response_retry_attempts settings))
         (f_max (f_lit 1 1) (st_discord_response_retry_base_delay_seconds settings))
         (st_grafana_public_url settings)).

Fixpoint configs_of (settings : RuntimeSettings) (identities : list (string * RoleBotIdentity))
    : outcome (list DiscordBotWorkerConfig) :=
  match identities with
  | [] => Ret []
  | (role, identity) :: identities' =>
      if negb (String.eqb (rb_status identity) "active") then configs_of settings identities'
      else if negb (truthy (strip (rb_token identity))) then
        Raise (RuntimeError ("discord role-bot identity for worker role '" +:+ role +:+ "' has no token"))
      else
        let? config := _build_worker_config_from_identity settings role (rb_bot_id identity)
                         (strip (rb_token identity)) (dedup (rb_guild_allowlist identity)) in
        let? configs := configs_of settings identities' in
        Ret (config :: configs)
  end.

Definition build_multi_worker_configs (settings : RuntimeSettings) : outcome (list DiscordBotWorkerConfig) :=
  let? registry := registry_or_error settings in
  let? configs := configs_of settings (rr_identities_by_role registry) in
  match configs with
  | [] => Raise (RuntimeError "discord multi-bot mode requires at least one active role-bot config")
  | _ => Ret configs
  end.

Definition build_worker_config (settings : RuntimeSettings) : outcome DiscordBotWorkerConfig :=
  let? identity := _resolve_worker_identity settings in
  let '(worker_role, worker_bot_id, token, worker_allowlist) := identity in
  _build_worker_config_from_identity settings worker_role worker_bot_id token worker_allowlist.

Definition build_worker_launch_plan (settings : RuntimeSettings) : outcome DiscordWorkerLaunchPlan :=
  if st_discord_multi_bot_enabled settings then
    let? configs := build_multi_worker_configs settings in
    let required_roles := dedup (map lower (csv_items (st_discord_required_role_bots_csv settings))) in
    Ret (mk_DiscordWorkerLaunchPlan configs
           (match required_roles with [] => dedup (map bw_bot_role configs) | _ => required_roles end))
  else
    let? config := build_worker_config settings in
    Ret (mk_DiscordWorkerLaunchPlan [config] [bw_bot_role config]).
End configuration.

(** * Readiness *)

(** [rd_ids] is [_ready_user_ids_by_role] in insertion order; [rd_marker] says
    that the marker file exists. *)
Record readiness : Type := mk_readiness {
  rd_ids : list (string * string);
  rd_marker : bool
}.

Definition ready_roles (r : readiness) : list string := map fst (rd_ids r).

Section readiness.
Context (required_roles : list string) (bot_id_by_role : gmap string string).

Definition is_healthy (r : readiness) : bool := forallb (fun role => mem role (ready_roles r)) required_roles.

Definition get_user_id (r : readiness) (role : string) : option string := dict_find (rd_ids r) role.

Definition _sync_ready_marker (r : readiness) : readiness := mk_readiness (rd_ids r) (is_healthy r).

Definition mark_ready (role user_id : string) (r : readiness) : readiness :=
  _sync_ready_marker (mk_readiness (dict_set (rd_ids r) role user_id) (rd_marker r)).

Definition mark_offline (role : string) (r : readiness) : readiness :=
  _sync_ready_marker (mk_readiness (List.filter (fun p => negb (String.eqb p.1 role)) (rd_ids r)) (rd_marker r)).

(** The generator's items; [KeyError] for a role without bot id. *)
Fixpoint mentioned_bots (ids : list (string * string)) (mentioned : list string) : outcome (list (string * string)) :=
  match ids with
  | [] => Ret []
  | (role, user_id) :: ids' =>
      if mem user_id mentioned then
        match bot_id_by_role !! role with
        | Some bot_id => let? l := mentioned_bots ids' mentioned in Ret ((bot_id, role) :: l)
        | None => Raise (OtherError ("KeyError: " +:+ py_repr role))
        end
      else mentioned_bots ids' mentioned
  end.

Definition resolve_mentioned_recipients (mentioned_bot_user_ids : list string) (r : readiness)
    : outcome (list (string * string) * list string) :=
  let? items := mentioned_bots (rd_ids r) mentioned_bot_user_ids in
  Ret (sorted (fun a b => pair_leb (a.2, a.1) (b.2, b.1)) items,
       List.filter (fun user_id => negb (mem user_id (map snd (rd_ids r)))) mentioned_bot_user_ids).
End readiness.

(** * Recipients *)

Definition is_recipient (r : string * string) (l : list (string * string)) : bool := bool_decide (r ∈ l).

Definition _recipients_equal (left right : list (string * string)) : bool :=
  Nat.eqb (length left) (length right) && forallb (fun r => is_recipient r right) left &&
  forallb (fun r => is_recipient r left) right.

Definition _is_runtime_placeholder_recipients (recipients : list (string * string)) : bool :=
  bool_decide (recipients = runtime_recipients).

Definition resolve_discord_recipients (parsed_recipients : list (string * string))
    (chat_class target_bot_role target_bot_id : string) (mentioned_bot_user_ids : list string)
    (mention_recipients : list (string * string)) (unresolved_mentions : list string)
    : outcome (list (string * string)) :=
  let placeholder := _is_runtime_placeholder_recipients parsed_recipients in
  let expected_dm_recipients := [(target_bot_id, target_bot_role)] in
  if String.eqb chat_class "direct" then
    if negb placeholder && negb (_recipients_equal parsed_recipients expected_dm_recipients) then
      Raise (DiscordRecipientResolutionError "recipient_mismatch"
               ("direct message recipient mismatch; recipient must match target role bot " +:+ target_bot_role))
    else Ret expected_dm_recipients
  else if Nat.eqb (length mentioned_bot_user_ids) 0 then
    if placeholder then Ret runtime_recipients
    else Raise (DiscordRecipientResolutionError "recipient_mentions_required"
                  "group chat command requires explicit role-bot mention(s)")
  else if negb (Nat.eqb (length unresolved_mentions) 0) then
    Raise (DiscordRecipientResolutionError "recipient_mention_unresolved"
             ("one or more mentioned role bots are not online/registered: " +:+
              join ", " (sorted str_leb unresolved_mentions)))
  else if Nat.eqb (length mention_recipients) 0 then
    Raise (DiscordRecipientResolutionError "recipient_mentions_required"
             "group chat command did not resolve any governed role recipient")
  else if negb placeholder && negb (_recipients_equal parsed_recipients mention_recipients) then
    Raise (DiscordRecipientResolutionError "recipient_mismatch"
             "recipient list does not match explicitly mentioned role bots")
  else Ret mention_recipients.

(** The role in a display name ["OpenQilin <Role>"]. *)
Definition role_of_display (u : discord_user) : option string :=
  let display := norm (if truthy (du_display_name u) then du_display_name u else du_name u) in
  if startswith display "openqilin " || startswith display "openqilin_" then
    let role := str_replace (str_replace (drop_chars 10 display) " " "_") "-" "_" in
    if truthy role && negb (String.eqb role "runtime") then Some role else None
  else None.

Definition _infer_recipients_from_mentions (m : discord_message) : list (string * string) :=
  let roles := omap (fun u => if du_bot u then (fun role => (du_id u, role)) <$> role_of_display u else None)
                 (ms_mentions m) in
  match roles with [] => runtime_recipients | _ => roles end.

(** * The text of a message *)

Definition is_digit (c : ascii) : bool := let n := nat_of_ascii c in ((48 <=? n) && (n <=? 57))%nat.

(** [\d*], and what follows. *)
Fixpoint eat_digits (s : string) : string * string :=
  match s with
  | String c s' => if is_digit c then let '(d, r) := eat_digits s' in (String c d, r) else ("", s)
  | EmptyString => ("", "")
  end.

(** [<@!?\d+>\s*] at the start of the text. *)
Definition eat_mention (s : string) : option string :=
  if startswith s "<@" then
    let rest := drop_chars 2 s in
    let rest := if startswith rest "!" then drop_chars 1 rest else rest in
    let '(d, rest) := eat_digits rest in
    if truthy d && startswith rest ">" then Some (lstrip (drop_chars 1 rest)) else None
  else None.

(** Every mention shortens the text. *)
Fixpoint eat_mentions (fuel : nat) (s : string) : string :=
  match fuel with
  | O => s
  | S fuel' => match eat_mention s with Some rest => eat_mentions fuel' rest | None => s end
  end.

Definition _strip_leading_mentions (content : string) : string := strip (eat_mentions (String.length content) content).

Definition _coerce_free_text_to_ask_command (parsed : option ParsedDiscordCommand) (message_content : string)
    : option ParsedDiscordCommand :=
  match parsed with
  | Some c => Some c
  | None =>
      let stripped_content := strip message_content in
      if truthy stripped_content
      then Some (mk_ParsedDiscordCommand "ask" None [stripped_content] runtime_recipients None "normal")
      else None
  end.

(** * A message arrives *)

Definition _ASK_ADDRESSABLE_ROLES : list string :=
  ["ceo"; "cwo"; "cso"; "auditor"; "administrator"; "project_manager"; "secretary"].

Record DiscordInboundEvent : Type := mk_DiscordInboundEvent {
  ie_bot_role : string;
  ie_bot_id : string;
  ie_bot_user_id : string;
  ie_parsed_command : ParsedDiscordCommand;
  ie_message_id : string;
  ie_actor_external_id : string;
  ie_actor_role : string;
  ie_content : string;
  ie_guild_id : string;
  ie_channel_id : string;
  ie_channel_type : string;
  ie_chat_class : string;
  ie_project_id : option string;
  ie_timestamp : datetime;
  ie_is_everyone_mention : bool
}.

Definition guild_id_of (m : discord_message) : string := default "dm" (ms_guild m).

Definition allowlisted (cfg : DiscordBotWorkerConfig) (m : discord_message) : bool :=
  (Nat.eqb (length (bw_allowed_guild_ids cfg)) 0 || mem (guild_id_of m) (bw_allowed_guild_ids cfg)) &&
  (Nat.eqb (length (bw_allowed_channel_ids cfg)) 0 || mem (ch_id (ms_channel m)) (bw_allowed_channel_ids cfg)).

Definition all_mentioned_ids (m : discord_message) : list string := dedup (map du_id (ms_mentions m)).

Definition mentioned_bot_ids_by_attr (m : discord_message) : list string :=
  dedup (map du_id (List.filter du_bot (ms_mentions m))).

(** Tier 1: the role whose topic the text is about. *)
Definition tier1_role (m : discord_message) : option string :=
  if ms_mention_everyone m then None else rd_agent_role <$> classify_topic (ms_content m).

Definition tier1_restricted (chat_class : string) (role : string) : bool :=
  String.eqb chat_class "project" && mem role ["auditor"; "administrator"].

(** The role that alone forwards the text, when a topic decides it. *)
Definition tier1_target (chat_class : string) (m : discord_message) : option string :=
  role ← tier1_role m;
  if String.eqb role "secretary" || tier1_restricted chat_class role then None else Some role.

Section client.
Context {E : Type} `{!BotWorld E} `{!BotRegistry E}.
Context (codec : json_codec) (str_float : pyfloat -> string).
Context (cfg : DiscordBotWorkerConfig) (bot_id_by_role : gmap string string) (has_redis : bool).
(** [self.user.id]; [None] before the client is connected. *)
Context (user : option string).

Definition send (channel_id text : string) : M E unit := fun e =>
  match channel_send channel_id text e with
  | (Sent, e') => (Ret tt, e')
  | (SendFailed _ message, e') => (Raise (DiscordChannelError message), e')
  end.

(** The command a message is; [None] after an answer, or for a blank text. *)
Definition read_command (m : discord_message) : M E (option ParsedDiscordCommand) :=
  match parse_discord_command codec str_float (_strip_leading_mentions (ms_content m)) (bw_command_prefix cfg) with
  | Ret parsed => ret (_coerce_free_text_to_ask_command parsed (ms_content m))
  | Raise (DiscordCommandParseError message) =>
      send (ch_id (ms_channel m)) ("[error] code=discord_command_parse_error message=" +:+ message) ;! ret None
  | Raise e => raise e
  end.

Definition is_explicit_command (m : discord_message) : bool :=
  startswith (_strip_leading_mentions (ms_content m)) (bw_command_prefix cfg).

(** The registered bots among the mentioned users. *)
Definition mentioned_bot_ids (m : discord_message) : M E (list string) :=
  let! registry_ids :=
    if has_redis && negb (Nat.eqb (length (all_mentioned_ids m)) 0)
    then try (let! reg := redis_hgetall BOT_REGISTRY_REDIS_KEY in ret (map snd reg)) (fun _ => Some (ret []))
    else ret [] in
  ret (dedup (mentioned_bot_ids_by_attr m ++ List.filter (fun i => mem i registry_ids) (all_mentioned_ids m))).

(** The user id of a role's bot, from this process or from Redis. *)
Definition registered_user (r : readiness) (role : string) : M E (option string) :=
  match get_user_id r role with
  | Some u => ret (Some u)
  | None =>
      if has_redis then try (redis_hget BOT_REGISTRY_REDIS_KEY role) (fun _ => Some (ret None)) else ret None
  end.

Definition referral (role : string) : string :=
  "The **" +:+ role_label role +:+ "** agent handles that topic but isn't available in this channel. Try `/oq ask " +:+
  role +:+ " <question>` in a channel where they're active.".

(** The gate of free text in a group channel: does this bot go on? *)
Definition free_text_gate (r : readiness) (chat_class : string) (m : discord_message) : M E bool :=
  let! mentioned := mentioned_bot_ids m in
  let my_user_id := default "" user in
  let i_am_mentioned := (truthy my_user_id && mem my_user_id mentioned) || ms_mention_everyone m in
  match tier1_target chat_class m with
  | Some target =>
      if String.eqb (bw_bot_role cfg) target then ret true
      else if String.eqb (bw_bot_role cfg) "secretary" then
        let! matched_user_id := registered_user r target in
        match matched_user_id with
        | Some _ => ret false
        | None => send (ch_id (ms_channel m)) (referral target) ;! ret false
        end
      else ret false
  | None =>
      if String.eqb (bw_bot_role cfg) "secretary" then
        let others := List.filter (fun i => negb (truthy my_user_id && String.eqb i my_user_id)) mentioned in
        ret (Nat.eqb (length others) 0 || ms_mention_everyone m)
      else ret i_am_mentioned
  end.

Definition _resolve_recipients (r : readiness) (parsed : ParsedDiscordCommand) (chat_class : string)
    (m : discord_message) : outcome (list (string * string)) :=
  let mentioned := mentioned_bot_ids_by_attr m in
  let? (mention_recipients, unresolved) := resolve_mentioned_recipients bot_id_by_role mentioned r in
  resolve_discord_recipients (pd_recipients parsed) chat_class (bw_bot_role cfg) (bw_bot_id cfg) mentioned
    mention_recipients unresolved.

(** The recipients, or the refusal that is sent. *)
Definition recipients_or_refusal (r : readiness) (parsed : ParsedDiscordCommand) (chat_class : string)
    (m : discord_message) : M E (option (list (string * string))) :=
  match _resolve_recipients r parsed chat_class m with
  | Ret recipients => ret (Some recipients)
  | Raise (DiscordRecipientResolutionError code message) =>
      if negb (is_explicit_command m) && String.eqb (bw_bot_role cfg) "secretary" &&
         String.eqb code "recipient_mention_unresolved"
      then ret (Some (_infer_recipients_from_mentions m))
      else send (ch_id (ms_channel m)) ("[denied] code=" +:+ code +:+ " message=" +:+ message) ;! ret None
  | Raise e => raise e
  end.

(** The agent that an explicit [ask] names. *)
Definition ask_target (parsed : ParsedDiscordCommand) : option string :=
  match pd_args parsed with
  | a :: _ => if String.eqb (pd_action parsed) "ask" && mem (lower a) _ASK_ADDRESSABLE_ROLES then Some (lower a) else None
  | [] => None
  end.

(** The last gate in a group channel. *)
Definition single_bot_gate (parsed : ParsedDiscordCommand) (tier1 : option string)
    (resolved : list (string * string)) (m : discord_message) : bool :=
  let this_bot_is_target :=
    existsb (fun x => String.eqb x.1 (bw_bot_id cfg) || String.eqb x.2 (bw_bot_role cfg)) resolved in
  let secretary := String.eqb (bw_bot_role cfg) "secretary" in
  if negb (is_explicit_command m) then
    secretary || this_bot_is_target || bool_decide (tier1 = Some (bw_bot_role cfg))
  else
    match ask_target parsed with
    | Some target => String.eqb target (bw_bot_role cfg)
    | None => this_bot_is_target || (_is_runtime_placeholder_recipients resolved && secretary)
    end.

Definition event_of (m : discord_message) (parsed : ParsedDiscordCommand) (chat_class : string)
    (resolved : list (string * string)) : DiscordInboundEvent :=
  let actor_id := du_id (ms_author m) in
  let project_id := match pd_project_id parsed with
                    | Some p => Some p
                    | None => if String.eqb chat_class "project" then _derive_project_id (ms_channel m) else None
                    end in
  mk_DiscordInboundEvent (bw_bot_role cfg) (bw_bot_id cfg) (default (bw_bot_id cfg) user)
    (mk_ParsedDiscordCommand (pd_action parsed) (pd_target parsed) (pd_args parsed) resolved (pd_project_id parsed)
       (pd_priority parsed))
    (ms_id m) actor_id (default (bw_actor_role_default cfg) (bw_actor_role_map cfg !! actor_id)) (ms_content m)
    (guild_id_of m) (ch_id (ms_channel m)) (_channel_type_name (ms_channel m)) chat_class project_id (ms_created_at m)
    (ms_mention_everyone m).

(** Up to the call of [process_event]: the event to process, if any. *)
Definition on_message (r : readiness) (m : discord_message) : M E (option DiscordInboundEvent) :=
  if du_bot (ms_author m) || negb (allowlisted cfg m) then ret None
  else
    let! command := read_command m in
    match command with
    | None => ret None
    | Some parsed =>
        let chat_class := _resolve_chat_class (ms_channel m) in
        let group := negb (String.eqb chat_class "direct") in
        let free := group && negb (is_explicit_command m) in
        let! goes_on := if free then free_text_gate r chat_class m else ret true in
        if negb goes_on then ret None
        else
          let! resolved := recipients_or_refusal r parsed chat_class m in
          match resolved with
          | None => ret None
          | Some recipients =>
              let tier1 := if free then tier1_role m else None in
              if group && negb (single_bot_gate parsed tier1 recipients m) then ret None
              else ret (Some (event_of m parsed chat_class recipients))
          end
    end.

(** * A client connects and disconnects *)

Definition LEADERSHIP_COUNCIL_CHANNEL_NAME : string := "leadership_council".

Definition _find_leadership_council_channel (e : E) : option string :=
  fst <$> List.find (fun c => String.eqb (str_replace (norm c.2) "-" "_") LEADERSHIP_COUNCIL_CHANNEL_NAME)
            (List.concat (guild_text_channels e)).

Definition announce_grafana_dashboard_url (grafana_public_url : string) : M E unit :=
  if negb (truthy grafana_public_url) then ret tt
  else
    let! target_channel := gets _find_leadership_council_channel in
    match target_channel with
    | None => ret tt
    | Some channel =>
        try (send channel ("🔗 Grafana Operator Dashboard: " +:+ grafana_public_url)) (fun _ => Some (ret tt))
    end.

Definition on_ready (required_roles : list string) : M (E * readiness) unit :=
  let bot_user_id := default "unknown" user in
  on_snd (modify (mark_ready required_roles (bw_bot_role cfg) bot_user_id)) ;!
  (if has_redis && negb (String.eqb bot_user_id "unknown")
   then on_fst (try (redis_hset BOT_REGISTRY_REDIS_KEY (bw_bot_role cfg) bot_user_id) (fun _ => Some (ret tt)))
   else ret tt) ;!
  (if String.eqb (bw_bot_role cfg) "runtime_agent" && truthy (bw_grafana_public_url cfg)
   then on_fst (announce_grafana_dashboard_url (bw_grafana_public_url cfg))
   else ret tt).

Definition on_disconnect (required_roles : list string) : M (E * readiness) unit :=
  on_snd (modify (mark_offline required_roles (bw_bot_role cfg))).
End client.

(** * The control plane's answer *)

Record DiscordIngressFanIn : Type := mk_DiscordIngressFanIn {
  fi_ingress_url : string;
  fi_connector_shared_secret : string;
  fi_response_chunk_size_chars : Z;
  fi_response_retry_attempts : Z;
  fi_response_retry_base_delay_seconds : pyfloat
}.

(** [s.rstrip("/")]. *)
Fixpoint lstrip_slash (s : string) : string :=
  match s with String c s' => if Ascii.eqb c (ascii_of_nat 47) then lstrip_slash s' else s | EmptyString => "" end.

Definition make_fan_in (cfg : DiscordBotWorkerConfig) : DiscordIngressFanIn :=
  mk_DiscordIngressFanIn
    (rev_string (lstrip_slash (rev_string (bw_control_plane_base_url cfg))) +:+ "/v1/connectors/discord/messages")
    (bw_connector_shared_secret cfg) (Z.max 200 (bw_response_chunk_size_chars cfg))
    (Z.max 0 (bw_response_retry_attempts cfg)) (f_max (f_lit 1 1) (bw_response_retry_base_delay_seconds cfg)).

(** ** Chunks *)

(** [s.rfind(c, 0, hi)], [-1] when there is none. *)
Fixpoint rfind (c : ascii) (s : string) (hi : nat) : Z :=
  match hi, s with
  | S hi', String x s' =>
      let later := rfind c s' hi' in
      if (0 <=? later)%Z then (later + 1)%Z else if Ascii.eqb x c then 0%Z else (-1)%Z
  | _, _ => (-1)%Z
  end.

Definition chunk_cut (max_chunk_chars : nat) (remaining : string) : nat :=
  let cut := rfind (ascii_of_nat 10) remaining (max_chunk_chars + 1) in
  let cut := if (cut <? Z.of_nat (max_chunk_chars / 2))%Z
             then rfind (ascii_of_nat 32) remaining (max_chunk_chars + 1) else cut in
  if (cut <=? 0)%Z then max_chunk_chars else Z.to_nat cut.

(** [s[:n]]. *)
Definition take_chars (n : nat) (s : string) : string := String.substring 0 n s.

(** The loop, [None] when the fuel is spent with text left. *)
Fixpoint chunk_loop (fuel : nat) (max_chunk_chars : nat) (remaining : string) : option (list string) :=
  if negb (truthy remaining) then Some []
  else if Nat.leb (String.length remaining) max_chunk_chars then Some [remaining]
  else
    match fuel with
    | O => None
    | S fuel' =>
        let cut := chunk_cut max_chunk_chars remaining in
        let chunk := rstrip (take_chars cut remaining) in
        let '(chunk, cut) := if truthy chunk then (chunk, cut)
                             else (take_chars max_chunk_chars remaining, max_chunk_chars) in
        rest ← chunk_loop fuel' max_chunk_chars (lstrip (drop_chars cut remaining));
        Some (chunk :: rest)
    end.

(** [max_chunk_chars] is at least 200 wherever it is called. *)
Definition _chunk_discord_message (text : string) (max_chunk_chars : nat) : option (list string) :=
  let normalized := strip text in
  if negb (truthy normalized) then Some ["[no content]"]
  else chunk_loop (String.length normalized) max_chunk_chars normalized.

(** The messages that are sent for a text. *)
Definition outbound (bot_role : string) (chunks : list string) : list string :=
  let total_chunks := length chunks in
  if Nat.ltb 1 total_chunks
  then imap (fun i chunk => "[" +:+ bot_role +:+ " " +:+ str_int (Z.of_nat (S i)) +:+ "/" +:+
                            str_int (Z.of_nat total_chunks) +:+ "] " +:+ chunk) chunks
  else chunks.

Section fan_in.
Context {E : Type} `{!BotWorld E}.
Context (json_text : json -> string) (sha256 : string -> string) (hmac_sha256_hex : string -> string -> string).
Context (str_float : pyfloat -> string) (fan : DiscordIngressFanIn).

Definition event_fields (ev : DiscordInboundEvent) : list (string * json) :=
  payload_fields (ie_parsed_command ev) (ie_message_id ev) (ie_actor_external_id ev) (ie_actor_role ev)
    (ie_content ev) (ie_guild_id ev) (ie_channel_id ev) (ie_channel_type ev) (ie_chat_class ev) (ie_project_id ev)
    (ie_timestamp ev) (Some (ie_bot_role ev)) (Some (ie_bot_id ev)) (Some (ie_bot_user_id ev))
    (ie_is_everyone_mention ev).

Definition build_discord_ingress_payload (ev : DiscordInboundEvent) : list (string * json) * string :=
  sign_payload json_text sha256 hmac_sha256_hex (fi_connector_shared_secret fan) (event_fields ev).

Definition unreachable_text : string :=
  "[error] code=connector_http_error message=failed to reach OpenQilin control plane".

(** The attempts that are left; [None] when the error has been told or is to be told. *)
Fixpoint post_attempts (left : nat) (payload : list (string * json)) (signature : string)
    : M E (option (Z * option json)) := fun e =>
  match left with
  | O => (Ret None, e)
  | S left' =>
      match ingress_post (fi_ingress_url fan) signature payload e with
      | (Posted status_code body, e') => (Ret (Some (status_code, body)), e')
      | (PostTransportError, e') =>
          post_attempts left' payload signature (if Nat.ltb 0 left' then bot_sleep (f_of_Z 1) e' else e')
      | (PostHTTPError, e') => (Ret None, e')
      end
  end.

Definition _max_attempts : nat := 3.

Definition invalid_json_body (trace_id : json) : list (string * json) :=
  [("status", JStr "error"); ("trace_id", trace_id);
   ("error", JObj [("code", JStr "connector_response_invalid_json");
                   ("message", JStr "control plane returned invalid JSON")])].

(** [process_event] up to [_deliver_response]: the text to deliver, or [None]
    after the error was sent. *)
Definition obtain_response (ev : DiscordInboundEvent) : M E (option string) :=
  let '(payload, signature) := build_discord_ingress_payload ev in
  let! response := post_attempts _max_attempts payload signature in
  match response with
  | None => send (ie_channel_id ev) unreachable_text ;! ret None
  | Some (status_code, body) =>
      match body with
      | Some (JObj o) => ret (Some (format_governed_response str_float status_code o))
      | None => ret (Some (format_governed_response str_float status_code
                             (invalid_json_body (get_or payload "trace_id" JNull))))
      | Some _ => raise (OtherError "AttributeError: object has no attribute 'get'")
      end
  end.

Definition _is_transient_delivery_error (status : option Z) : bool :=
  match status with Some z => bool_decide (z ∈ [429; 500; 502; 503; 504]%Z) | None => false end.

(** [attempt] counts from 0; [left] attempts remain. *)
Fixpoint send_attempts (left attempt : nat) (channel message : string) : M E unit := fun e =>
  match left with
  | O => (Ret tt, e)
  | S left' =>
      match channel_send channel message e with
      | (Sent, e') => (Ret tt, e')
      | (SendFailed status text, e') =>
          if Nat.eqb left' 0 || negb (_is_transient_delivery_error status)
          then (Raise (DiscordChannelError text), e')
          else
            match float_of_int (2 ^ Z.of_nat attempt) with
            | Raise x => (Raise x, e')
            | Ret factor =>
                send_attempts left' (S attempt) channel message
                  (bot_sleep (f_mul (fi_response_retry_base_delay_seconds fan) factor) e')
            end
      end
  end.

Definition _send_with_retry (channel message : string) : M E unit :=
  send_attempts (Z.to_nat (fi_response_retry_attempts fan + 1)) 0 channel message.

Fixpoint send_all (channel : string) (messages : list string) : M E unit :=
  match messages with
  | [] => ret tt
  | m :: messages' => _send_with_retry channel m ;! send_all channel messages'
  end.

(** The messages that answer an event with a text. *)
Definition response_messages (ev : DiscordInboundEvent) (response_text : string) : list string :=
  outbound (ie_bot_role ev)
    (default [] (_chunk_discord_message response_text (Z.to_nat (fi_response_chunk_size_chars fan)))).
End fan_in.

(** [run_worker_launch_plan]: what the clients share. *)
Definition plan_bot_ids (plan : DiscordWorkerLaunchPlan) : gmap string string :=
  foldl (fun d c => <[bw_bot_role c := bw_bot_id c]> d) ∅ (lp_configs plan).

Definition plan_fan_in (plan : DiscordWorkerLaunchPlan) : option DiscordIngressFanIn :=
  make_fan_in <$> head (lp_configs plan).
