(* ===== verification/DiscordOrder.v ===== *)
(** The Discord bots, third part: the order of several bots' answers.

    Models the ordered delivery of [DiscordIngressFanIn] in
    [apps/discord_bot_worker.py] ([_deliver_response], [_enter_response_order],
    [_exit_response_order]): one coroutine per event, all in one event loop.
    Between two [await]s a coroutine runs alone, so each constructor of [step]
    is one such stretch; a message is sent in one step with its retries.

    The ordering states are mutable objects shared by the coroutines of one
    source message: they live in a heap, and [_ordering_by_message_key] maps
    keys to their addresses. *)

From S2P Require Import Prelude PyStr PyData LlmSchemas PyFloat Ingress AgentBase Grammar DiscordBridge DiscordWorker.

(** * Ordered roles *)

Definition _role_priority (role : string) : nat :=
  let r := norm role in
  if String.eqb r "administrator" then 0
  else if String.eqb r "auditor" then 1
  else if String.eqb r "ceo" then 2
  else if String.eqb r "cwo" then 3
  else if String.eqb r "project_manager" then 4
  else if String.eqb r "runtime_agent" then 5
  else 50.

(** The key [(priority, role)]. *)
Definition role_leb (a b : string) : bool :=
  Nat.ltb (_role_priority a) (_role_priority b) ||
  (Nat.eqb (_role_priority a) (_role_priority b) && str_leb a b).

Definition _ordered_recipient_roles (recipients : list (string * string)) (fallback_role : string) : list string :=
  let roles := List.filter truthy (map (fun r => norm r.2) recipients) in
  let roles := if truthy (strip fallback_role) then norm fallback_role :: roles else roles in
  match roles with
  | [] => [let f := norm fallback_role in if truthy f then f else "runtime_agent"]
  | _ => sorted role_leb (dedup roles)
  end.

(** * Ordering states *)

Record ordering : Type := mk_ordering {
  or_ordered_roles : list string;
  or_completed_roles : list string;
  or_next_index : nat
}.

Definition message_key : Type := string * string * string.

Definition key_of (ev : DiscordInboundEvent) : message_key := (ie_guild_id ev, ie_channel_id ev, ie_message_id ev).

(** The condition of the [while] that waits. *)
Definition must_wait (role : string) (o : ordering) : bool :=
  match or_ordered_roles o !! or_next_index o with
  | Some next => negb (String.eqb next role)
  | None => false
  end.

(** The [while] that moves [next_index]: [left] roles remain. *)
Fixpoint advance (completed : list string) (left : list string) (next_index : nat) : nat :=
  match left with
  | r :: left' => if mem r completed then advance completed left' (S next_index) else next_index
  | [] => next_index
  end.

Definition complete (role : string) (o : ordering) : ordering :=
  let completed := if mem role (or_completed_roles o) then or_completed_roles o else role :: or_completed_roles o in
  mk_ordering (or_ordered_roles o) completed
    (advance completed (drop (or_next_index o) (or_ordered_roles o)) (or_next_index o)).

Definition is_finished (o : ordering) : bool := Nat.leb (length (or_ordered_roles o)) (length (or_completed_roles o)).

(** * The coroutines *)

(** Where the coroutine of an event stands.  [timed_out]: it stopped waiting
    after six seconds, not for its turn.  [messages] are still to be sent. *)
Inductive phase : Type :=
  | Posting
  | Answered (response_text : string)
  | Waiting (sid : nat) (response_text : string)
  | Sending (sid : nat) (timed_out : bool) (messages : list string)
  | Leaving (sid : nat) (timed_out finished : bool)
  | Done (turn : option (nat * bool)).

Record coroutine : Type := mk_coroutine {
  co_event : DiscordInboundEvent;
  co_phase : phase
}.

(** [sy_log]: what was sent, the newest last. *)
Record system (E : Type) : Type := mk_system {
  sy_ext : E;
  sy_heap : gmap nat ordering;
  sy_keys : gmap message_key nat;
  sy_coroutines : gmap nat coroutine;
  sy_log : list (nat * string)
}.
Arguments mk_system {E}.
Arguments sy_ext {E}.
Arguments sy_heap {E}.
Arguments sy_keys {E}.
Arguments sy_coroutines {E}.
Arguments sy_log {E}.

Section order.
Context {E : Type} `{!BotWorld E}.
Context (json_text : json -> string) (sha256 : string -> string) (hmac_sha256_hex : string -> string -> string).
Context (str_float : pyfloat -> string) (fan : DiscordIngressFanIn).

Definition goes_to (i : nat) (c : coroutine) (p : phase) (s : system E) : gmap nat coroutine :=
  <[i := mk_coroutine (co_event c) p]> (sy_coroutines s).

(** The first locked block of [_enter_response_order]. *)
Definition register (ev : DiscordInboundEvent) (sid_fresh : nat) (s : system E)
    : nat * gmap nat ordering * gmap message_key nat :=
  match sy_keys s !! key_of ev with
  | Some sid => (sid, sy_heap s, sy_keys s)
  | None =>
      let o := mk_ordering (_ordered_recipient_roles (pd_recipients (ie_parsed_command ev)) (ie_bot_role ev)) [] 0 in
      (sid_fresh, <[sid_fresh := o]> (sy_heap s), <[key_of ev := sid_fresh]> (sy_keys s))
  end.

(** The last locked block of [_exit_response_order]. *)
Definition pop_finished (ev : DiscordInboundEvent) (sid : nat) (finished : bool) (s : system E)
    : gmap message_key nat :=
  if finished && bool_decide (sy_keys s !! key_of ev = Some sid) then delete (key_of ev) (sy_keys s) else sy_keys s.

Inductive step : system E -> system E -> Prop :=
  | step_post_answered s i c text e' :
      sy_coroutines s !! i = Some c -> co_phase c = Posting ->
      obtain_response json_text sha256 hmac_sha256_hex str_float fan (co_event c) (sy_ext s) = (Ret (Some text), e') ->
      step s (mk_system e' (sy_heap s) (sy_keys s) (goes_to i c (Answered text) s) (sy_log s))
  | step_post_failed s i c o e' :
      sy_coroutines s !! i = Some c -> co_phase c = Posting ->
      obtain_response json_text sha256 hmac_sha256_hex str_float fan (co_event c) (sy_ext s) = (o, e') ->
      (forall text, o <> Ret (Some text)) ->
      step s (mk_system e' (sy_heap s) (sy_keys s) (goes_to i c (Done None) s) (sy_log s))
  | step_register s i c text sid_fresh sid heap keys :
      sy_coroutines s !! i = Some c -> co_phase c = Answered text ->
      sy_heap s !! sid_fresh = None ->
      register (co_event c) sid_fresh s = (sid, heap, keys) ->
      step s (mk_system (sy_ext s) heap keys (goes_to i c (Waiting sid text) s) (sy_log s))
  | step_turn s i c sid text o :
      sy_coroutines s !! i = Some c -> co_phase c = Waiting sid text -> sy_heap s !! sid = Some o ->
      must_wait (ie_bot_role (co_event c)) o = false ->
      step s (mk_system (sy_ext s) (sy_heap s) (sy_keys s)
                (goes_to i c (Sending sid false (response_messages fan (co_event c) text)) s) (sy_log s))
  | step_timeout s i c sid text :
      (* the turn may have come while the timeout was on its way *)
      sy_coroutines s !! i = Some c -> co_phase c = Waiting sid text ->
      step s (mk_system (sy_ext s) (sy_heap s) (sy_keys s)
                (goes_to i c (Sending sid true (response_messages fan (co_event c) text)) s) (sy_log s))
  | step_send s i c sid timed_out m messages e' :
      sy_coroutines s !! i = Some c -> co_phase c = Sending sid timed_out (m :: messages) ->
      _send_with_retry fan (ie_channel_id (co_event c)) m (sy_ext s) = (Ret tt, e') ->
      step s (mk_system e' (sy_heap s) (sy_keys s) (goes_to i c (Sending sid timed_out messages) s)
                (sy_log s ++ [(i, m)]))
  | step_leave s i c sid timed_out messages o e' :
      sy_coroutines s !! i = Some c -> co_phase c = Sending sid timed_out messages -> sy_heap s !! sid = Some o ->
      (* nothing is left to send, or a message could not be sent *)
      (messages = [] /\ e' = sy_ext s \/
       exists m rest e, messages = m :: rest /\
         _send_with_retry fan (ie_channel_id (co_event c)) m (sy_ext s) = (Raise e, e')) ->
      let o' := complete (ie_bot_role (co_event c)) o in
      step s (mk_system e' (<[sid := o']> (sy_heap s)) (sy_keys s)
                (goes_to i c (Leaving sid timed_out (is_finished o')) s) (sy_log s))
  | step_done s i c sid timed_out finished :
      sy_coroutines s !! i = Some c -> co_phase c = Leaving sid timed_out finished ->
      step s (mk_system (sy_ext s) (sy_heap s) (pop_finished (co_event c) sid finished s)
                (goes_to i c (Done (Some (sid, timed_out))) s) (sy_log s)).

(** The same steps, computed: coroutine [i] runs until its next [await], or
    stops waiting.  [fresh] is the address of a new ordering state. *)
Inductive move : Type := Run (i fresh : nat) | TimesOut (i : nat).

Definition leaves (i : nat) (c : coroutine) (sid : nat) (timed_out : bool) (o : ordering) (e' : E) (s : system E)
    : system E :=
  let o' := complete (ie_bot_role (co_event c)) o in
  mk_system e' (<[sid := o']> (sy_heap s)) (sy_keys s) (goes_to i c (Leaving sid timed_out (is_finished o')) s) (sy_log s).

Definition perform (mv : move) (s : system E) : option (system E) :=
  match mv with
  | TimesOut i =>
      c ← sy_coroutines s !! i;
      match co_phase c with
      | Waiting sid text =>
          Some (mk_system (sy_ext s) (sy_heap s) (sy_keys s)
                  (goes_to i c (Sending sid true (response_messages fan (co_event c) text)) s) (sy_log s))
      | _ => None
      end
  | Run i fresh =>
      c ← sy_coroutines s !! i;
      match co_phase c with
      | Posting =>
          let '(o, e') := obtain_response json_text sha256 hmac_sha256_hex str_float fan (co_event c) (sy_ext s) in
          let p := match o with Ret (Some text) => Answered text | _ => Done None end in
          Some (mk_system e' (sy_heap s) (sy_keys s) (goes_to i c p s) (sy_log s))
      | Answered text =>
          match sy_heap s !! fresh with
          | Some _ => None
          | None =>
              let '(sid, heap, keys) := register (co_event c) fresh s in
              Some (mk_system (sy_ext s) heap keys (goes_to i c (Waiting sid text) s) (sy_log s))
          end
      | Waiting sid text =>
          o ← sy_heap s !! sid;
          if must_wait (ie_bot_role (co_event c)) o then None
          else Some (mk_system (sy_ext s) (sy_heap s) (sy_keys s)
                       (goes_to i c (Sending sid false (response_messages fan (co_event c) text)) s) (sy_log s))
      | Sending sid timed_out [] => o ← sy_heap s !! sid; Some (leaves i c sid timed_out o (sy_ext s) s)
      | Sending sid timed_out (m :: messages) =>
          match _send_with_retry fan (ie_channel_id (co_event c)) m (sy_ext s) with
          | (Ret _, e') => Some (mk_system e' (sy_heap s) (sy_keys s) (goes_to i c (Sending sid timed_out messages) s)
                                   (sy_log s ++ [(i, m)]))
          | (Raise _, e') => o ← sy_heap s !! sid; Some (leaves i c sid timed_out o e' s)
          end
      | Leaving sid timed_out finished =>
          Some (mk_system (sy_ext s) (sy_heap s) (pop_finished (co_event c) sid finished s)
                  (goes_to i c (Done (Some (sid, timed_out))) s) (sy_log s))
      | Done _ => None
      end
  end.

Fixpoint perform_all (moves : list move) (s : system E) : option (system E) :=
  match moves with
  | [] => Some s
  | mv :: moves' => s' ← perform mv s; perform_all moves' s'
  end.

(** Coroutines at their start, nothing registered. *)
Definition initial (s : system E) : Prop :=
  sy_heap s = ∅ /\ sy_keys s = ∅ /\ sy_log s = [] /\
  forall i c, sy_coroutines s !! i = Some c -> co_phase c = Posting.
End order.
