(* ===== verification/WorkerFacts.v ===== *)
(** What the Discord bots guarantee: chunks, recipients, who answers, what the
    control plane receives. *)

From Stdlib Require Import Ascii.
From S2P Require Import Prelude PyStr PyData LlmSchemas PyFloat Ingress AgentBase Grammar DiscordIngress.
From S2P Require Import DiscordBridge DiscordWorker DiscordOrder.

(** * Chunks *)

(** The characters of a text that are not blank, in order. *)
Fixpoint ink (s : string) : string :=
  match s with
  | EmptyString => ""
  | String c s' => if is_space c then ink s' else String c (ink s')
  end.

Lemma ink_app a b : ink (a +:+ b) = ink a +:+ ink b.
Proof.
  induction a as [| c a IH]; [done |].
  change (ink (String c (a +:+ b)) = ink (String c a) +:+ ink b). cbn [ink].
  destruct (is_space c); rewrite IH; done.
Qed.

Lemma ink_lstrip s : ink (lstrip s) = ink s.
Proof. induction s as [| c s IH]; cbn; [done |]. destruct (is_space c) eqn:Ec; cbn; by rewrite ?Ec. Qed.

Lemma ink_rstrip s : ink (rstrip s) = ink s.
Proof.
  induction s as [| c s IH]; [done |]. cbn [rstrip ink].
  destruct (rstrip s) as [| d r] eqn:Er; cbn [ink] in IH |- *;
    destruct (is_space c) eqn:Ec; cbn [ink]; rewrite ?Ec; congruence.
Qed.

Lemma take_drop n s : take_chars n s +:+ drop_chars n s = s.
Proof.
  revert s. induction n as [| n IH]; intros [| c s]; [done .. |].
  cbn [drop_chars take_chars]. change (String c (take_chars n s +:+ drop_chars n s) = String c s). by rewrite IH.
Qed.

Lemma length_take n s : String.length (take_chars n s) = Nat.min n (String.length s).
Proof.
  revert s. induction n as [| n IH]; intros [| c s]; [done .. |].
  change (S (String.length (take_chars n s)) = S (Nat.min n (String.length s))). by rewrite IH.
Qed.

Lemma length_drop n s : String.length (drop_chars n s) = (String.length s - n)%nat.
Proof. revert s. induction n as [| n IH]; intros [| c s]; cbn; [done .. |]. by rewrite IH. Qed.

(** Nothing blank at the end is inherited by what remains of a text. *)
Lemma rstrip_drop n s : rstrip s = s -> rstrip (drop_chars n s) = drop_chars n s.
Proof.
  revert s. induction n as [| n IH]; intros [| c s]; [done .. |]. cbn [drop_chars]. intros H. apply IH.
  cbn [rstrip] in H. destruct (rstrip s) as [| d r] eqn:Er; [destruct (is_space c) |]; congruence.
Qed.

Lemma lstrip_as_drop s : exists n, lstrip s = drop_chars n s.
Proof.
  induction s as [| c s [n IH]]; [by exists O |]. cbn [lstrip]. destruct (is_space c); [by exists (S n) | by exists O].
Qed.

Lemma rstrip_lstrip_drop n s : rstrip s = s -> rstrip (lstrip (drop_chars n s)) = lstrip (drop_chars n s).
Proof. intros H. destruct (lstrip_as_drop (drop_chars n s)) as [k ->]. by apply rstrip_drop, rstrip_drop. Qed.

Lemma rfind_lt c s hi : (rfind c s hi < Z.of_nat hi)%Z.
Proof.
  revert s. induction hi as [| hi IH]; intros [| x s]; cbn [rfind]; [lia .. |].
  specialize (IH s). destruct (0 <=? rfind c s hi)%Z eqn:E1; [lia |]. destruct (Ascii.eqb x c); lia.
Qed.

Lemma chunk_cut_range max remaining : (1 <= max)%nat -> (1 <= chunk_cut max remaining <= max)%nat.
Proof.
  intros Hm. unfold chunk_cut.
  assert (H10 := rfind_lt (ascii_of_nat 10) remaining (max + 1)).
  assert (H32 := rfind_lt (ascii_of_nat 32) remaining (max + 1)).
  destruct (_ <? _)%Z.
  - destruct (rfind (ascii_of_nat 32) _ _ <=? 0)%Z eqn:Ec; [lia |]. apply Z.leb_gt in Ec. lia.
  - destruct (rfind (ascii_of_nat 10) _ _ <=? 0)%Z eqn:Ec; [lia |]. apply Z.leb_gt in Ec. lia.
Qed.

(** The start of a text that does not begin with a blank. *)
Lemma take_lclean n s : (1 <= n)%nat -> lclean s -> truthy s = true ->
  lclean (rstrip (take_chars n s)) /\ truthy (rstrip (take_chars n s)) = true.
Proof.
  intros Hn Hl Ht. destruct s as [| c s]; [done |]. destruct n as [| n]; [lia |]. cbn [lclean] in Hl.
  change (take_chars (S n) (String c s)) with (String c (take_chars n s)). cbn [rstrip].
  destruct (rstrip (take_chars n s)); rewrite ?Hl; done.
Qed.

(** A chunk: not empty, no longer than allowed, no blanks around it. *)
Definition good_chunk (max : nat) (c : string) : Prop := (1 <= String.length c <= max)%nat /\ strip c = c.

Lemma good_chunk_intro max c :
  truthy c = true -> (String.length c <= max)%nat -> lclean c -> rstrip c = c -> good_chunk max c.
Proof.
  intros Ht Hlen Hl Hr. split.
  - destruct c; [done | cbn in *; lia].
  - unfold strip. by rewrite (lstrip_id c Hl).
Qed.

Lemma chunk_loop_spec max fuel remaining :
  (1 <= max)%nat -> (String.length remaining <= fuel)%nat -> lclean remaining -> rstrip remaining = remaining ->
  exists chunks, chunk_loop fuel max remaining = Some chunks /\ Forall (good_chunk max) chunks /\
    ink (foldr String.append "" chunks) = ink remaining.
Proof.
  intros Hm. revert remaining. induction fuel as [| fuel IH]; intros remaining Hlen Hl Hr; cbn [chunk_loop].
  { destruct remaining; [| cbn in Hlen; lia]. by exists []. }
  destruct (truthy remaining) eqn:Ht; cbn [negb];
    [| apply truthy_false in Ht as ->; by exists []].
  destruct (Nat.leb _ _) eqn:Hle.
  - apply Nat.leb_le in Hle. exists [remaining]. repeat split.
    + constructor; [by apply good_chunk_intro | done].
    + cbn. by rewrite string_app_empty_r.
  - pose proof (chunk_cut_range max remaining Hm) as Hcut. set (cut := chunk_cut max remaining) in *.
    destruct (take_lclean cut remaining ltac:(lia) Hl Ht) as [Hcl Hct]. rewrite Hct.
    destruct (IH (lstrip (drop_chars cut remaining))) as (chunks & -> & Hall & Hink).
    + pose proof (length_lstrip (drop_chars cut remaining)). rewrite length_drop in H.
      destruct remaining; [done | cbn [String.length] in *; lia].
    + apply lstrip_lclean.
    + by apply rstrip_lstrip_drop.
    + eexists. split; [reflexivity |]. split.
      * constructor; [| done]. apply good_chunk_intro; [done | | done | apply rstrip_idem].
        pose proof (length_rstrip (take_chars cut remaining)). rewrite length_take in H. lia.
      * cbn [foldr]. rewrite ink_app, Hink, ink_lstrip, ink_rstrip, <- ink_app. by rewrite take_drop.
Qed.

(** C30: Splitting a response for Discord always ends, whatever the text: every
    chunk is non-empty, no longer than the limit and has no blanks around it,
    and together they have the text's non-blank characters in order; a blank
    text becomes one placeholder. *)
Theorem response_chunks_bounded text max :
  (1 <= max)%nat ->
  exists chunks, _chunk_discord_message text max = Some chunks /\
    (strip text = "" -> chunks = ["[no content]"]) /\
    (strip text <> "" -> Forall (good_chunk max) chunks /\ ink (foldr String.append "" chunks) = ink text).
Proof.
  intros Hm. unfold _chunk_discord_message. destruct (truthy (strip text)) eqn:Ht; cbn [negb].
  - destruct (chunk_loop_spec max (String.length (strip text)) (strip text) Hm (le_n _)) as (chunks & -> & Hall & Hink).
    + unfold strip. apply rstrip_lclean, lstrip_lclean.
    + unfold strip. apply rstrip_idem.
    + exists chunks. apply truthy_true in Ht. repeat split; [done | done |].
      rewrite Hink. unfold strip. by rewrite ink_rstrip, ink_lstrip.
  - apply truthy_false in Ht. eexists. repeat split; intros; congruence.
Qed.

Lemma response_chunks_bounded_witness :
  exists chunks, _chunk_discord_message "alpha beta gamma" 11 = Some chunks /\
    (strip "alpha beta gamma" = "" -> chunks = ["[no content]"]) /\
    (strip "alpha beta gamma" <> "" ->
     Forall (good_chunk 11) chunks /\ ink (foldr String.append "" chunks) = ink "alpha beta gamma").
Proof. apply (response_chunks_bounded "alpha beta gamma" 11). lia. Defined.

Example chunks_sample : _chunk_discord_message "alpha beta gamma" 11 = Some ["alpha beta"; "gamma"].
Proof. vm_compute. reflexivity. Qed.

(** * Who answers *)

Section client.
Context {E : Type} `{!BotWorld E} `{!BotRegistry E}.
Context (codec : json_codec) (str_float : pyfloat -> string).
Context (cfg : DiscordBotWorkerConfig) (bot_id_by_role : gmap string string) (has_redis : bool).
Context (user : option string).

#[local] Abbreviation gate := (free_text_gate cfg has_redis user).
#[local] Abbreviation recipients := (recipients_or_refusal (E:=E) cfg bot_id_by_role).
#[local] Abbreviation on_message := (on_message (E:=E) codec str_float cfg bot_id_by_role has_redis user).

Definition is_secretary : bool := String.eqb (bw_bot_role cfg) "secretary".

Definition chat_class_of (m : discord_message) : string := _resolve_chat_class (ms_channel m).

(** Free text in a channel of several bots. *)
Definition free_group_text (m : discord_message) : bool :=
  negb (String.eqb (chat_class_of m) "direct") && negb (is_explicit_command cfg m).

Lemma post_send channel text e (Q : unit -> E -> Prop) (X : exn -> E -> Prop) :
  (forall e', Q tt e') -> (forall x e', X x e') -> post (send channel text) e Q X.
Proof. intros HQ HX. unfold post, send. by destruct (channel_send _ _ _) as [[] e']. Qed.

Lemma post_true {A} (m : M E A) e : post m e (fun _ _ => True) (fun _ _ => True).
Proof. unfold post. by destruct (m e) as [[]]. Qed.

(** The free-text command a message that is no explicit command becomes. *)
Definition ask_of (m : discord_message) : ParsedDiscordCommand :=
  mk_ParsedDiscordCommand "ask" None [strip (ms_content m)] runtime_recipients None "normal".

Lemma read_free_text m e :
  is_explicit_command cfg m = false ->
  read_command codec str_float cfg m e =
  (Ret (if truthy (strip (ms_content m)) then Some (ask_of m) else None), e).
Proof.
  unfold is_explicit_command, read_command, parse_discord_command. intros Hx.
  assert (Hs : strip (_strip_leading_mentions (ms_content m)) = _strip_leading_mentions (ms_content m))
    by (unfold _strip_leading_mentions; apply strip_idem).
  rewrite Hs, Hx. cbn [negb _coerce_free_text_to_ask_command]. unfold ret. by destruct (truthy _).
Qed.

(** No bot is mentioned: the mentions gate sees nobody, and Redis is not read. *)
Lemma nobody_mentioned m e : ms_mentions m = [] -> mentioned_bot_ids has_redis m e = (Ret [], e).
Proof.
  intros Hm. unfold mentioned_bot_ids, all_mentioned_ids, mentioned_bot_ids_by_attr. rewrite Hm. cbn [map dedup].
  rewrite andb_false_r. done.
Qed.

Lemma mentioned_bots_nobody ids : mentioned_bots bot_id_by_role ids [] = Ret [].
Proof. induction ids as [| [role u] ids IH]; cbn; [done |]. apply IH. Qed.

Lemma recipients_nobody r m parsed chat_class e :
  ms_mentions m = [] -> chat_class <> "direct" -> pd_recipients parsed = runtime_recipients ->
  recipients r parsed chat_class m e = (Ret (Some runtime_recipients), e).
Proof.
  intros Hm Hc Hp. unfold recipients_or_refusal, _resolve_recipients, resolve_mentioned_recipients.
  unfold mentioned_bot_ids_by_attr. rewrite Hm. cbn [List.filter map dedup]. rewrite mentioned_bots_nobody. cbn [obind].
  unfold resolve_discord_recipients. apply String.eqb_neq in Hc. by rewrite Hc, Hp.
Qed.

(** The bot that answers free text which mentions nobody. *)
Definition responder (m : discord_message) : string := default "secretary" (tier1_target (chat_class_of m) m).

Lemma tier1_target_Some c m target :
  tier1_target c m = Some target -> tier1_role m = Some target /\ target <> "secretary".
Proof.
  unfold tier1_target. destruct (tier1_role m) as [role |]; cbn; [| done].
  destruct (String.eqb role "secretary") eqn:E1; cbn; [done |]. destruct (tier1_restricted _ _); [done |].
  intros [= ->]. by apply String.eqb_neq in E1.
Qed.

(** What remains of [on_message] for free text in a group channel. *)
Definition free_text_path (r : readiness) (m : discord_message) : M E (option DiscordInboundEvent) :=
  let! goes_on := gate r (chat_class_of m) m in
  if negb goes_on then ret None
  else
    let! resolved := recipients r (ask_of m) (chat_class_of m) m in
    match resolved with
    | None => ret None
    | Some l =>
        if negb (single_bot_gate cfg (ask_of m) (tier1_role m) l m) then ret None
        else ret (Some (event_of cfg user m (ask_of m) (chat_class_of m) l))
    end.

Lemma on_message_free_text r m e :
  du_bot (ms_author m) = false -> allowlisted cfg m = true -> free_group_text m = true ->
  on_message r m e = if truthy (strip (ms_content m)) then free_text_path r m e else (Ret None, e).
Proof.
  intros Hb Ha Hf. unfold on_message. rewrite Hb, Ha. cbn [orb negb].
  pose proof Hf as Hf'. apply andb_prop in Hf as [Hg Hx]. apply negb_true_iff in Hx.
  unfold bind at 1. rewrite (read_free_text m e Hx). destruct (truthy _); [| done].
  fold (chat_class_of m). fold (free_group_text m). rewrite Hf'. unfold free_text_path.
  unfold bind. destruct (gate r _ m e) as [[[] | x] e1]; cbn [negb]; [| done ..].
  destruct (recipients _ _ _ _ _) as [[[l |] | x] e2]; [| done ..]. by rewrite Hg.
Qed.

(** C7: A message of free text in an allowlisted group channel that mentions
    nobody is forwarded by exactly one role: the topic's role, unless the
    channel restricts it, otherwise the secretary.  That bot asks the control
    plane to choose the recipient; the secretary refers to the topic's bot only
    when that one is not registered; every other bot does nothing at all. *)
Theorem unaddressed_text_has_one_responder r m e :
  du_bot (ms_author m) = false -> allowlisted cfg m = true -> free_group_text m = true ->
  ms_mentions m = [] -> ms_mention_everyone m = false -> strip (ms_content m) <> "" ->
  if String.eqb (bw_bot_role cfg) (responder m)
  then on_message r m e = (Ret (Some (event_of cfg user m (ask_of m) (chat_class_of m) runtime_recipients)), e)
  else if is_secretary
  then on_message r m e =
       (let! found := registered_user has_redis r (responder m) in
        match found with
        | Some _ => ret None
        | None => send (ch_id (ms_channel m)) (referral (responder m)) ;! ret None
        end) e
  else on_message r m e = (Ret None, e).
Proof.
  intros Hb Ha Hf Hm Hev Hc. rewrite (on_message_free_text r m e Hb Ha Hf).
  apply truthy_true in Hc. rewrite Hc. apply andb_prop in Hf as [Hg Hx].
  apply negb_true_iff in Hx. apply negb_true_iff, String.eqb_neq in Hg.
  assert (Hrest : forall t, t = Some (bw_bot_role cfg) \/ bw_bot_role cfg = "secretary" ->
    single_bot_gate cfg (ask_of m) t runtime_recipients m = true).
  { intros t Ht. unfold single_bot_gate. rewrite Hx. cbn [negb]. destruct Ht as [-> | ->]; [| done].
    rewrite bool_decide_eq_true_2 by done. apply orb_true_r. }
  unfold free_text_path, free_text_gate, bind. rewrite (nobody_mentioned m _ Hm), Hev. cbn [mem existsb List.filter length].
  rewrite andb_false_r. unfold responder, is_secretary.
  destruct (tier1_target (chat_class_of m) m) as [target |] eqn:Et; cbn [from_option id].
  - apply tier1_target_Some in Et as [Ht Hns]. rewrite Ht.
    destruct (String.eqb (bw_bot_role cfg) target) eqn:Er.
    + apply String.eqb_eq in Er. subst target. unfold ret. cbn [negb].
      rewrite (recipients_nobody r m (ask_of m) _ e Hm Hg eq_refl), Hrest by (by left). done.
    + destruct (String.eqb (bw_bot_role cfg) "secretary"); [| done].
      unfold bind. destruct (registered_user _ _ _ _) as [[[u |] |] e1]; [done | | done].
      unfold send. by destruct (channel_send _ _ _) as [[] ?].
  - destruct (String.eqb (bw_bot_role cfg) "secretary") eqn:Er; [| done].
    apply String.eqb_eq in Er. unfold ret. cbn [Nat.eqb orb negb].
    rewrite (recipients_nobody r m (ask_of m) _ e Hm Hg eq_refl), Hrest by (by right). done.
Qed.
(** ** What may be forwarded *)

Lemma mentioned_bot_ids_post m e :
  post (mentioned_bot_ids has_redis m) e
    (fun l _ => forall i, In i l -> In i (map du_id (ms_mentions m))) (fun _ _ => False) /\
  post (mentioned_bot_ids has_redis m) e
    (fun l _ => forall u, In u (ms_mentions m) -> du_bot u = true -> In (du_id u) l) (fun _ _ => False).
Proof.
  assert (H : post (mentioned_bot_ids has_redis m) e (fun l _ => exists reg, l =
    dedup (mentioned_bot_ids_by_attr m ++ List.filter (fun i => mem i reg) (all_mentioned_ids m))) (fun _ _ => False)).
  { unfold mentioned_bot_ids. apply post_bind. destruct (has_redis && _); [| by exists []].
    unfold try, bind, post. destruct (redis_hgetall _ e) as [[reg |] e1]; [by exists (map snd reg) | by exists []]. }
  split; eapply post_mono; [exact H | | done | exact H | | done].
  - intros l _ [reg ->] i Hi. apply dedup_In, in_app_or in Hi as [Hi | Hi].
    + apply dedup_In, in_map_iff in Hi as (u & <- & Hu). apply filter_In in Hu as [Hu _]. by apply in_map.
    + apply filter_In in Hi as [Hi _]. unfold all_mentioned_ids in Hi. by rewrite dedup_In in Hi.
  - intros l _ [reg ->] u Hu Hb. apply dedup_In, in_or_app. left. apply dedup_In, in_map, filter_In. auto.
Qed.

(** Why a bot goes on with free text. *)
Definition elected (m : discord_message) : Prop :=
  match tier1_target (chat_class_of m) m with
  | Some target => bw_bot_role cfg = target
  | None =>
      ms_mention_everyone m = true \/
      if is_secretary then forall u, In u (ms_mentions m) -> du_bot u = true -> user = Some (du_id u)
      else exists i, user = Some i /\ In i (map du_id (ms_mentions m))
  end.

Lemma user_is i : truthy (default "" user) && String.eqb i (default "" user) = true -> user = Some i.
Proof.
  intros H. apply andb_prop in H as [Ht Hi]. apply String.eqb_eq in Hi. destruct user; cbn in *; congruence.
Qed.

Lemma gate_elects r m e :
  post (gate r (chat_class_of m) m) e
    (fun b _ => b = true -> elected m) (fun _ _ => True).
Proof.
  unfold free_text_gate, elected. apply post_bind.
  destruct (mentioned_bot_ids_post m e) as [H1 H2]. unfold post in H1, H2 |- *.
  destruct (mentioned_bot_ids has_redis m e) as [[l | x] e1]; [| done].
  destruct (tier1_target _ m) as [target |].
  - destruct (String.eqb (bw_bot_role cfg) target) eqn:Er; [intros _; by apply String.eqb_eq in Er |].
    destruct (String.eqb (bw_bot_role cfg) "secretary"); [| by cbn].
    unfold bind. destruct (registered_user _ _ _ e1) as [[[u |] |] e2]; cbn; [done | | done].
    unfold send. by destruct (channel_send _ _ e2) as [[] e3].
  - unfold is_secretary.
    destruct (String.eqb (bw_bot_role cfg) "secretary"); cbn; intros Hb;
      (destruct (ms_mention_everyone m); [by left | right]).
    + intros u Hu Hbot. rewrite orb_false_r in Hb. apply user_is.
      destruct (truthy _ && _) eqn:Et; [done |].
      assert (Hin : In (du_id u) (List.filter (fun i => negb (truthy (default "" user) && String.eqb i (default "" user))) l))
        by (apply filter_In; split; [by apply H2 | by rewrite Et]).
      destruct (List.filter _ l); [done | by cbn in Hb].
    + rewrite orb_false_r in Hb. apply andb_prop in Hb as [Ht Hi]. apply mem_In in Hi.
      destruct user as [i |]; cbn in *; [| done]. exists i. auto.
Qed.

Lemma mentioned_bots_error ids mentioned x :
  mentioned_bots bot_id_by_role ids mentioned = Raise x -> exists text, x = OtherError text.
Proof.
  induction ids as [| [role u] ids IH]; cbn; [done |]. destruct (mem u mentioned); [| exact IH].
  destruct (bot_id_by_role !! role); [| intros [= <-]; by eexists].
  destruct (mentioned_bots _ _ _); cbn; [done |]. intros [= ->]. by apply IH.
Qed.

(** Whom a forwarded message is for: this bot in a direct message; in a group
    nobody in particular, when no bot is mentioned, or the mentioned bots, all
    online; for free text with a bot that is not online, which only the secretary
    forwards, the roles in the names of the mentioned bots. *)
Definition addressed (r : readiness) (m : discord_message) (l : list (string * string)) : Prop :=
  if String.eqb (chat_class_of m) "direct" then l = [(bw_bot_id cfg, bw_bot_role cfg)]
  else
    (l = runtime_recipients /\ mentioned_bot_ids_by_attr m = []) \/
    (l <> [] /\ resolve_mentioned_recipients bot_id_by_role (mentioned_bot_ids_by_attr m) r = Ret (l, [])) \/
    (is_secretary = true /\ is_explicit_command cfg m = false /\ l = _infer_recipients_from_mentions m /\
     exists online offline, offline <> [] /\
       resolve_mentioned_recipients bot_id_by_role (mentioned_bot_ids_by_attr m) r = Ret (online, offline)).

Lemma unresolved_mention r m parsed code text :
  _resolve_recipients cfg bot_id_by_role r parsed (chat_class_of m) m = Raise (DiscordRecipientResolutionError code text) ->
  code = "recipient_mention_unresolved" ->
  String.eqb (chat_class_of m) "direct" = false /\ exists online offline,
    resolve_mentioned_recipients bot_id_by_role (mentioned_bot_ids_by_attr m) r = Ret (online, offline) /\ offline <> [].
Proof.
  intros H ->. unfold _resolve_recipients in H.
  destruct (resolve_mentioned_recipients _ _ _) as [[online offline] | x] eqn:Er; cbn [obind] in H.
  - unfold resolve_discord_recipients in H. destruct (String.eqb (chat_class_of m) "direct"); [by destruct (negb _ && _) |].
    split; [done |]. exists online, offline. split; [done |]. intros ->.
    cbn [length Nat.eqb negb] in H. repeat case_match; simplify_eq.
  - unfold resolve_mentioned_recipients in Er. destruct (mentioned_bots _ _ _) eqn:Em; cbn in Er; [done |].
    apply mentioned_bots_error in Em as [k ->]. congruence.
Qed.

Lemma recipients_addressed r m parsed e :
  post (recipients r parsed (chat_class_of m) m) e
    (fun o _ => forall l, o = Some l -> addressed r m l) (fun _ _ => True).
Proof.
  unfold recipients_or_refusal. destruct (_resolve_recipients _ _ _ _ _ _) as [l | x] eqn:Er.
  - apply post_ret. intros ? [= <-]. unfold _resolve_recipients in Er.
    destruct (resolve_mentioned_recipients _ _ _) as [[ment unres] | x] eqn:Em; [| done]. cbn [obind] in Er.
    unfold resolve_discord_recipients in Er. unfold addressed.
    destruct (String.eqb (chat_class_of m) "direct"); [by destruct (negb _ && _); simplify_eq |].
    destruct (Nat.eqb (length (mentioned_bot_ids_by_attr m)) 0) eqn:E0.
    + left. destruct (mentioned_bot_ids_by_attr m); [| done]. by destruct (_is_runtime_placeholder_recipients _); simplify_eq.
    + destruct (Nat.eqb (length unres) 0) eqn:E1; cbn [negb] in Er; [| done].
      destruct (Nat.eqb (length ment) 0) eqn:E2; [done |]. destruct (negb _ && _); simplify_eq.
      right; left. destruct unres; [| done]. split; [by intros -> | done].
  - destruct x; try done.
    destruct (negb _ && _ && _) eqn:Eb.
    + apply post_ret. intros ? [= <-]. apply andb_prop in Eb as [Eb1 Ec]. apply andb_prop in Eb1 as [Ex Es].
      apply negb_true_iff in Ex. unfold addressed.
      apply String.eqb_eq in Ec. apply unresolved_mention in Er as (Ed & online & offline & Hr & Hne); [| done].
      rewrite Ed. right; right. split_and!; try done. by exists online, offline.
    + apply post_bind, post_send; done.
Qed.
(** What a message says. *)
Definition reads (m : discord_message) (parsed : ParsedDiscordCommand) : Prop :=
  let o := parse_discord_command codec str_float (_strip_leading_mentions (ms_content m)) (bw_command_prefix cfg) in
  o = Ret (Some parsed) \/ o = Ret None /\ parsed = ask_of m.

Lemma read_command_post m e :
  post (read_command codec str_float cfg m) e (fun o _ => forall parsed, o = Some parsed -> reads m parsed)
    (fun _ _ => True).
Proof.
  unfold read_command, reads. destruct (parse_discord_command _ _ _ _) as [[c |] | x].
  - apply post_ret. intros ? [= <-]. by left.
  - apply post_ret. unfold _coerce_free_text_to_ask_command. destruct (truthy _); [| done]. intros ? [= <-]. by right.
  - destruct x; try done. by apply post_bind, post_send.
Qed.

(** This bot is among the recipients. *)
Definition named (l : list (string * string)) : Prop :=
  exists x, In x l /\ (x.1 = bw_bot_id cfg \/ x.2 = bw_bot_role cfg).

Lemma named_spec l :
  existsb (fun x => String.eqb x.1 (bw_bot_id cfg) || String.eqb x.2 (bw_bot_role cfg)) l = true -> named l.
Proof.
  intros (x & Hx1 & Hx2)%existsb_exists. exists x. split; [done |].
  apply orb_prop in Hx2 as [H | H]; apply String.eqb_eq in H; auto.
Qed.

(** Who forwards free text in a group channel besides: the secretary, a recipient,
    or the bot whose topic the channel restricts. *)
Definition answers_free_text (m : discord_message) (l : list (string * string)) : Prop :=
  is_secretary = true \/ named l \/ tier1_role m = Some (bw_bot_role cfg).

(** Whom an explicit command in a group channel is answered by. *)
Definition answers_command (parsed : ParsedDiscordCommand) (l : list (string * string)) : Prop :=
  match ask_target parsed with
  | Some target => bw_bot_role cfg = target
  | None => named l \/ (is_secretary = true /\ l = runtime_recipients)
  end.

Lemma single_bot_gate_explicit m parsed tier1 l :
  is_explicit_command cfg m = true -> single_bot_gate cfg parsed tier1 l m = true -> answers_command parsed l.
Proof.
  intros Hx. unfold single_bot_gate, answers_command. rewrite Hx. cbn [negb].
  destruct (ask_target parsed) as [target |].
  - intros H. apply String.eqb_eq in H. done.
  - intros H. apply orb_prop in H as [H | H].
    + left. by apply named_spec.
    + right. apply andb_prop in H as [H1 H2]. by apply bool_decide_eq_true in H1.
Qed.

Lemma single_bot_gate_free m parsed l :
  is_explicit_command cfg m = false -> single_bot_gate cfg parsed (tier1_role m) l m = true -> answers_free_text m l.
Proof.
  intros Hx. unfold single_bot_gate, answers_free_text, is_secretary. rewrite Hx. cbn [negb]. intros H.
  apply orb_prop in H as [H | H]; [apply orb_prop in H as [H | H] |]; [by left | right; left; by apply named_spec |].
  right; right. by apply bool_decide_eq_true in H.
Qed.

(** C6: A message a bot forwards to the control plane comes from a person in
    an allowlisted channel, carries this message's author, text, channel and
    time and a role from the configuration, and is addressed to this bot in a
    direct message.  In a group it is addressed to nobody in particular, when no
    bot is mentioned, or to the mentioned bots, all online; only when one of them
    is not online may the secretary forward free text, to the roles in the bots'
    names.  In a group free text is forwarded by the topic's bot or, where no
    topic decides, by a bot that is mentioned, or the secretary when no other bot
    is, or either when everyone is mentioned; unless it is the secretary or the
    topic is its own, that bot is a recipient.  A command is forwarded by the
    agent it asks, a bot it names, or the secretary when it names none. *)
Theorem forwarded_message_is_legitimate r m e ev e' :
  on_message r m e = (Ret (Some ev), e') ->
  du_bot (ms_author m) = false /\ allowlisted cfg m = true /\
  exists parsed l, reads m parsed /\ ev = event_of cfg user m parsed (chat_class_of m) l /\ addressed r m l /\
    (free_group_text m = true -> elected m /\ answers_free_text m l) /\
    (chat_class_of m <> "direct" -> is_explicit_command cfg m = true -> answers_command parsed l).
Proof.
  unfold on_message. destruct (du_bot (ms_author m)); [done |]. destruct (allowlisted cfg m); [| done].
  cbn [orb negb]. unfold bind at 1.
  pose proof (read_command_post m e) as Hread. unfold post in Hread.
  destruct (read_command _ _ _ _ _) as [[[parsed |] | x] e1]; [| done ..]. specialize (Hread parsed eq_refl).
  fold (chat_class_of m). fold (free_group_text m). unfold bind at 1.
  assert (Hgate : post (if free_group_text m then gate r (chat_class_of m) m else ret true) e1
    (fun b _ => b = true -> free_group_text m = true -> elected m) (fun _ _ => True)).
  { destruct (free_group_text m); [| done]. eapply post_mono; [apply gate_elects | auto | done]. }
  unfold post in Hgate. destruct ((if free_group_text m then gate r (chat_class_of m) m else ret true) e1) as [[[] | x] e2]; cbn [negb]; [| done ..].
  specialize (Hgate eq_refl). unfold bind.
  pose proof (recipients_addressed r m parsed e2) as Hadd. unfold post in Hadd.
  destruct (recipients _ _ _ _ _) as [[[l |] | x] e3]; [| done ..]. specialize (Hadd l eq_refl).
  destruct (negb (String.eqb (chat_class_of m) "direct") && negb _) eqn:Hs; [done |]. intros [= <- <-].
  split; [done |]. split; [done |]. exists parsed, l. repeat (split; [done |]). split.
  - intros Hf. split; [by apply Hgate |]. rewrite Hf in Hs. apply andb_prop in Hf as [Hd Hx]. rewrite Hd in Hs.
    apply negb_true_iff in Hx. apply negb_false_iff in Hs. by eapply single_bot_gate_free.
  - intros Hd Hx. apply String.eqb_neq in Hd. rewrite Hd in Hs. apply negb_false_iff in Hs.
    by eapply single_bot_gate_explicit.
Qed.

Lemma mentioned_bots_nonempty ids mentioned items u :
  mentioned_bots bot_id_by_role ids mentioned = Ret items -> In u (map snd ids) -> In u mentioned -> items <> [].
Proof.
  revert items. induction ids as [| [role v] ids IH]; intros items; cbn; [done |].
  destruct (mem v mentioned) eqn:Ev.
  - destruct (bot_id_by_role !! role); [| done]. by destruct (mentioned_bots _ _ _); cbn; intros; simplify_eq.
  - intros H [-> | Hu] Hm; [by apply mem_In in Hm; congruence | by eapply IH].
Qed.

(** The secretary's guidance for a mention it cannot resolve, the role in the
    display name, is never used for free text to somebody: where the secretary
    goes on, only its own bot may be mentioned, and that resolves once it is
    registered. *)
Lemma guidance_needs_everyone r m e e' i code text :
  gate r (chat_class_of m) m e = (Ret true, e') -> ms_mention_everyone m = false -> chat_class_of m <> "direct" ->
  is_secretary = true -> user = Some i -> In i (map snd (rd_ids r)) ->
  _resolve_recipients cfg bot_id_by_role r (ask_of m) (chat_class_of m) m <>
    Raise (DiscordRecipientResolutionError code text).
Proof.
  intros Hg Hev Hd Hs Hu Hi. pose proof (gate_elects r m e) as He. unfold post in He. rewrite Hg in He.
  specialize (He eq_refl). unfold elected in He.
  destruct (tier1_target (chat_class_of m) m) as [target |] eqn:Et.
  { apply tier1_target_Some in Et as [_ Hns]. unfold is_secretary in Hs. apply String.eqb_eq in Hs. congruence. }
  destruct He as [He | He]; [congruence |]. rewrite Hs in He.
  assert (Hm : forall j, In j (mentioned_bot_ids_by_attr m) -> j = i).
  { intros j Hj. apply dedup_In, in_map_iff in Hj as (u & <- & Hj). apply filter_In in Hj as [Hj Hb].
    specialize (He u Hj Hb). congruence. }
  unfold _resolve_recipients, resolve_mentioned_recipients.
  destruct (mentioned_bots _ _ _) as [items | x] eqn:Eb; cbn [obind].
  - unfold resolve_discord_recipients. apply String.eqb_neq in Hd. rewrite Hd.
    replace (List.filter _ (mentioned_bot_ids_by_attr m)) with (@nil string).
    + destruct (mentioned_bot_ids_by_attr m) as [| j l]; [done |]. cbn [length Nat.eqb negb].
      specialize (Hm j (or_introl eq_refl)) as ->.
      assert (Hne := mentioned_bots_nonempty _ _ _ i Eb Hi (or_introl eq_refl)).
      destruct (Nat.eqb _ 0) eqn:E0; [| done]. apply Nat.eqb_eq in E0. rewrite sorted_perm in E0.
      by destruct items.
    + symmetry. apply filter_none. intros j Hj. apply negb_false_iff, mem_In. by rewrite (Hm j Hj).
  - apply mentioned_bots_error in Eb as [k ->]. done.
Qed.
(** The topic decides before the mention: a bot that is mentioned by name does
    not forward a text about another role's topic. *)
Lemma topic_overrides_mention r m e ev e' target :
  free_group_text m = true -> tier1_target (chat_class_of m) m = Some target -> bw_bot_role cfg <> target ->
  on_message r m e <> (Ret (Some ev), e').
Proof.
  intros Hf Ht Hne. unfold on_message.
  destruct (du_bot (ms_author m)); [done |]. destruct (allowlisted cfg m); [| done]. cbn [orb negb]. unfold bind at 1.
  destruct (read_command _ _ _ _ _) as [[[parsed |] | x] e1]; [| done ..].
  fold (chat_class_of m). fold (free_group_text m). rewrite Hf. unfold bind at 1.
  unfold free_text_gate. unfold bind at 1. destruct (mentioned_bot_ids has_redis m e1) as [[l | x] e2]; [| done].
  rewrite Ht. apply String.eqb_neq in Hne. rewrite Hne. destruct (String.eqb _ "secretary"); [| done].
  unfold bind at 1. destruct (registered_user _ _ _ _) as [[[u |] | x] e3]; [done | | done].
  unfold bind at 1, send. by destruct (channel_send _ _ _) as [[] e4].
Qed.

(** A body that [shlex] cannot split raises [ValueError] out of [on_message]:
    nothing is sent. *)
Lemma unsplit_command_is_not_answered r m e text :
  du_bot (ms_author m) = false -> allowlisted cfg m = true ->
  parse_discord_command codec str_float (_strip_leading_mentions (ms_content m)) (bw_command_prefix cfg) =
    Raise (ValueError text) ->
  on_message r m e = (Raise (ValueError text), e).
Proof.
  intros Hb Ha Hp. unfold on_message. rewrite Hb, Ha. cbn [orb negb]. unfold bind at 1, read_command. by rewrite Hp.
Qed.
End client.

(** * What the control plane receives *)

(** The request a JSON body is, by the pydantic schema [DiscordIngressRequest]:
    its fields and their types, no other field, and the bounds and literals of
    [discord_request_ok]; [None] is FastAPI's 422.  How pydantic reads a date-time
    and a boolean from JSON are parameters; text is only read from text. *)

Definition str_field (o : list (string * json)) (k : string) : option string :=
  match jfield o k with Some (JStr s) => Some s | _ => None end.

Definition opt_str_field (o : list (string * json)) (k : string) : option (option string) :=
  match jfield o k with
  | None | Some JNull => Some None
  | Some (JStr s) => Some (Some s)
  | Some _ => None
  end.

(** A field with a default. *)
Definition default_field {A} (read : json -> option A) (default : A) (o : list (string * json)) (k : string) : option A :=
  match jfield o k with Some j => read j | None => Some default end.

Definition json_string (j : json) : option string := match j with JStr s => Some s | _ => None end.

Definition json_list {A} (read : json -> option A) (j : json) : option (list A) :=
  match j with JArr l => mapM read l | _ => None end.

(** [ConfigDict(extra="forbid")]. *)
Definition only_fields (names : list string) (o : list (string * json)) : bool := forallb (fun kv => mem kv.1 names) o.

Definition json_recipient (j : json) : option OwnerCommandRecipient :=
  match j with
  | JObj r =>
      if only_fields ["recipient_id"; "recipient_type"] r
      then i ← str_field r "recipient_id"; t ← str_field r "recipient_type"; Some (mk_OwnerCommandRecipient i t)
      else None
  | _ => None
  end.

Definition ingress_fields : list string :=
  ["trace_id"; "external_message_id"; "actor_external_id"; "actor_role"; "idempotency_key"; "raw_payload_hash";
   "timestamp"; "content"; "action"; "target"; "args"; "recipients"; "project_id"; "priority"; "guild_id";
   "channel_id"; "channel_type"; "chat_class"; "bot_role"; "bot_id"; "bot_user_id"; "is_everyone_mention"].

Section schema.
Context (read_datetime : json -> option datetime) (read_bool : json -> option bool).

(** The fields, each of its type. *)
Definition ingress_types (o : list (string * json)) : option DiscordIngressRequest :=
  trace_id ← str_field o "trace_id";
  external_message_id ← str_field o "external_message_id";
  actor_external_id ← str_field o "actor_external_id";
  actor_role ← str_field o "actor_role";
  idempotency_key ← str_field o "idempotency_key";
  raw_payload_hash ← str_field o "raw_payload_hash";
  timestamp ← (j ← jfield o "timestamp"; read_datetime j);
  content ← str_field o "content";
  action ← str_field o "action";
  target ← opt_str_field o "target";
  args ← default_field (json_list json_string) [] o "args";
  recipients ← (j ← jfield o "recipients"; json_list json_recipient j);
  project_id ← opt_str_field o "project_id";
  priority ← default_field json_string "normal" o "priority";
  guild_id ← str_field o "guild_id";
  channel_id ← str_field o "channel_id";
  channel_type ← str_field o "channel_type";
  chat_class ← str_field o "chat_class";
  bot_role ← opt_str_field o "bot_role";
  bot_id ← opt_str_field o "bot_id";
  bot_user_id ← opt_str_field o "bot_user_id";
  is_everyone_mention ← default_field read_bool false o "is_everyone_mention";
  Some (mk_DiscordIngressRequest trace_id external_message_id actor_external_id actor_role idempotency_key
          raw_payload_hash timestamp content action target args recipients project_id priority guild_id channel_id
          channel_type chat_class bot_role bot_id bot_user_id is_everyone_mention).

Definition ingress_request (o : list (string * json)) : option DiscordIngressRequest :=
  if only_fields ingress_fields o then
    q ← ingress_types o;
    if discord_request_ok q then Some q else None
  else None.
End schema.

(** The request an event stands for. *)
Definition request_of_event (hash : string) (ev : DiscordInboundEvent) : DiscordIngressRequest :=
  let c := ie_parsed_command ev in
  mk_DiscordIngressRequest ("trace-discord-" +:+ ie_message_id ev) (ie_message_id ev) (ie_actor_external_id ev)
    (ie_actor_role ev) ("idem-discord-" +:+ ie_message_id ev) hash (ie_timestamp ev) (ie_content ev) (pd_action c)
    (Some (infer_command_target (pd_action c) (pd_target c))) (pd_args c)
    (map (fun r => mk_OwnerCommandRecipient r.1 r.2) (pd_recipients c))
    (if opt_truthy (ie_project_id ev) then ie_project_id ev else pd_project_id c) (pd_priority c) (ie_guild_id ev)
    (ie_channel_id ev) (ie_channel_type ev) (ie_chat_class ev) (Some (ie_bot_role ev)) (Some (ie_bot_id ev))
    (Some (ie_bot_user_id ev)) (ie_is_everyone_mention ev).

Lemma mapM_strings l : mapM json_string (map JStr l) = Some l.
Proof. induction l as [| s l IH]; [done |]. cbn. by rewrite IH. Qed.

Lemma mapM_recipients l :
  mapM json_recipient (map recipient_json l) = Some (map (fun r => mk_OwnerCommandRecipient r.1 r.2) l).
Proof. induction l as [| r l IH]; [done |]. cbn. by rewrite IH. Qed.

(** Both ends infer the same target. *)
Lemma resolve_inferred_target action explicit :
  _resolve_target action (Some (infer_command_target action explicit)) = infer_command_target action explicit.
Proof.
  set (word := if startswith (norm action) "llm_" then "llm"
               else if startswith (norm action) "msg_" then "communication" else "sandbox").
  assert (Hw : _resolve_target action (Some word) = word).
  { unfold _resolve_target, word. destruct (startswith _ "llm_"); [done |]. by destruct (startswith _ "msg_"). }
  unfold infer_command_target. destruct explicit as [t |]; [| exact Hw].
  destruct (truthy (strip t)) eqn:Et; [| exact Hw].
  unfold _resolve_target. change (strip <$> Some (strip t)) with (Some (strip (strip t))).
  cbn [opt_truthy from_option id]. by rewrite strip_idem, Et.
Qed.

Section authentic.
Context (read_datetime : json -> option datetime) (read_bool : json -> option bool).
(** Pydantic reads the ISO text of a date-time, and a boolean, as what it stands for. *)
Context (reads_isoformat : forall t, valid_datetime t -> read_datetime (JStr (isoformat t)) = Some t).
Context (reads_bool : forall b, read_bool (JBool b) = Some b).
Context (json_text : json -> string) (sha256 : string -> string) (hmac_sha256_hex : string -> string -> string).
(** A hexadecimal digest: ASCII, not empty, without blanks. *)
Context (hmac_hex : forall key text, let d := hmac_sha256_hex key text in
  is_ascii d = true /\ truthy d = true /\ strip d = d).

Lemma rstrip_prefixed p d : truthy d = true -> rstrip d = d -> rstrip (p +:+ d) = p +:+ d.
Proof.
  intros Ht Hr. induction p as [| c p IH]; [done |].
  change (rstrip (String c (p +:+ d)) = String c (p +:+ d)). cbn [rstrip]. rewrite IH.
  by destruct p, d.
Qed.

(** An identifier as Discord gives it: not empty, without blanks around it. *)
Definition clean_id (s : string) : Prop := truthy s = true /\ strip s = s.

Lemma prefixed_clean p s : lclean p -> truthy p = true -> clean_id s -> strip (p +:+ s) = p +:+ s.
Proof.
  intros Hl Hp [Ht Hs]. unfold strip. rewrite lstrip_id by (by destruct p).
  apply rstrip_prefixed; [done |]. rewrite <- Hs. unfold strip. apply rstrip_idem.
Qed.

Lemma signature_normalized d : truthy d = true -> strip d = d ->
  truthy (strip ("sha256=" +:+ d)) = true /\ _normalize_signature ("sha256=" +:+ d) = d.
Proof.
  intros Ht Hs.
  assert (Hp := prefixed_clean "sha256=" d ltac:(done) ltac:(done) (conj Ht Hs)).
  unfold _normalize_signature. rewrite Hp. split; [done |]. rewrite startswith_refl_app. cbn. exact Hs.
Qed.

(** What a bot posts has every field of the schema, no other, and of its type. *)
Lemma payload_types hash ev :
  valid_datetime (ie_timestamp ev) ->
  only_fields ingress_fields (event_fields ev ++ [("raw_payload_hash", JStr hash)]) = true /\
  ingress_types read_datetime read_bool (event_fields ev ++ [("raw_payload_hash", JStr hash)]) =
    Some (request_of_event hash ev).
Proof.
  intros Hv. split; [done |].
  unfold ingress_types, str_field, opt_str_field, default_field, event_fields, payload_fields.
  cbn -[isoformat mapM opt_json infer_command_target String.append opt_truthy].
  rewrite reads_isoformat by done. cbn -[mapM opt_json infer_command_target String.append opt_truthy].
  rewrite mapM_strings. cbn -[mapM opt_json infer_command_target String.append opt_truthy].
  rewrite mapM_recipients. cbn -[opt_json infer_command_target String.append opt_truthy].
  rewrite reads_bool. unfold request_of_event.
  by destruct (if opt_truthy (ie_project_id ev) then ie_project_id ev else pd_project_id (ie_parsed_command ev)).
Qed.

(** C8: What a bot posts for an event is read by the Discord endpoint as that
    event, under the idempotency key of the message, exactly when every field is
    within the bounds of the endpoint's schema, and is refused otherwise; no field
    is missing, of another type or unknown.  The endpoint infers the same target,
    and the connector's signature check passes when the two share the secret. *)
Theorem bridged_event_is_authentic fan ev :
  valid_datetime (ie_timestamp ev) -> clean_id (ie_actor_external_id ev) -> clean_id (ie_message_id ev) ->
  let '(payload, signature) := build_discord_ingress_payload json_text sha256 hmac_sha256_hex fan ev in
  let q := request_of_event (sha256 (json_text (JObj (event_fields ev)))) ev in
  ingress_request read_datetime read_bool payload = (if discord_request_ok q then Some q else None) /\
  _resolve_target (di_action q) (di_target q) =
    infer_command_target (pd_action (ie_parsed_command ev)) (pd_target (ie_parsed_command ev)) /\
  _validate_discord_connector_request hmac_sha256_hex (fi_connector_shared_secret fan) q (Some signature) = Ret None.
Proof.
  intros Hv [_ Hactor] Hid. unfold build_discord_ingress_payload, sign_payload. split; [| split].
  - destruct (payload_types (sha256 (json_text (JObj (event_fields ev)))) ev Hv) as [Hf Ht].
    unfold ingress_request. by rewrite Hf, Ht.
  - apply resolve_inferred_target.
  - destruct (hmac_hex (fi_connector_shared_secret fan) (sha256 (json_text (JObj (event_fields ev))))) as (Ha & Ht & Hs).
    set (d := hmac_sha256_hex _ _) in Ha, Ht, Hs. destruct (signature_normalized d Ht Hs) as [Hsig Hn].
    unfold _validate_discord_connector_request, validate_connector_auth, sign_payload_hash.
    cbn [request_of_event di_raw_payload_hash di_actor_external_id di_idempotency_key]. fold d. rewrite Hsig, Hn.
    unfold check_header. rewrite (prefixed_clean "idem-discord-" _ ltac:(done) ltac:(done) Hid), Hactor, !String.eqb_refl. cbn [negb strip lstrip rstrip].
    unfold compare_digest. rewrite Ha, String.eqb_refl. done.
Qed.
End authentic.

Example apostrophe_is_not_split codec str_float :
  parse_discord_command codec str_float "/oq ask ceo what's up" "/oq" = Raise (ValueError "No closing quotation").
Proof. reflexivity. Qed.

(** * Samples *)

Definition quiet_world : BotWorld unit := {|
  channel_send := fun _ _ e => (Sent, e);
  ingress_post := fun _ _ _ e => (PostTransportError, e);
  bot_sleep := fun _ e => e;
  redis_hset := fun _ _ _ => ret tt;
  guild_text_channels := fun _ => []
|}.

Definition quiet_registry : BotRegistry unit := {|
  redis_hget := fun _ _ => ret None;
  redis_hgetall := fun _ => ret []
|}.

Definition sample_config (role : string) : DiscordBotWorkerConfig :=
  mk_DiscordBotWorkerConfig role role "t" "http://cp" "secret" "/oq" "owner" ∅ [] [] (f_of_Z 20) 1900 2 (f_lit 5 1) "".

Definition sample_user (id : string) (bot : bool) : discord_user := mk_discord_user id bot "someone" "".

Definition group_message (content : string) (mentions : list discord_user) : discord_message :=
  mk_discord_message "42" (sample_user "7" false) (Some "1") (mk_discord_channel "2" OtherChannel "executive") content
    mentions false (mk_datetime 2026 3 24 12 0 0 0).

Definition no_codec : json_codec := mk_json_codec (fun _ => "") (fun _ => "") (fun _ => "") (fun _ => None).

#[local] Abbreviation receives role user m :=
  (on_message (BotWorld0 := quiet_world) (BotRegistry0 := quiet_registry) no_codec (fun _ => "") (sample_config role)
     {["auditor" := "auditor"; "ceo" := "ceo"]} false (Some user) (mk_readiness [("auditor", "100"); ("ceo", "101")] false)
     m tt).

(** A question about money goes to the auditor's bot, although it is put to the
    chief executive's. *)
Example budget_question_for_the_ceo :
  let m := group_message "<@101> what does the budget say?" [sample_user "101" true] in
  (receives "ceo" "101" m).1 = Ret None /\
  (fun o => pd_recipients (ie_parsed_command o)) <$> match (receives "auditor" "100" m).1 with Ret o => o | _ => None end
    = Some [("ceo", "ceo")].
Proof. vm_compute. done. Qed.

Lemma unaddressed_text_has_one_responder_witness :
  receives "auditor" "100" (group_message "what does the budget say?" []) =
  (Ret (Some (event_of (sample_config "auditor") (Some "100") (group_message "what does the budget say?" [])
     (ask_of (group_message "what does the budget say?" [])) "executive" runtime_recipients)), tt).
Proof.
  apply (unaddressed_text_has_one_responder (BotWorld0 := quiet_world) (BotRegistry0 := quiet_registry) no_codec
    (fun _ => "") (sample_config "auditor") {["auditor" := "auditor"; "ceo" := "ceo"]} false (Some "100")
    (mk_readiness [("auditor", "100"); ("ceo", "101")] false) (group_message "what does the budget say?" []) tt);
    try reflexivity. discriminate.
Defined.

Lemma forwarded_message_is_legitimate_witness :
  let m := group_message "<@101> please help" [sample_user "101" true] in
  let cfg := sample_config "ceo" in
  exists ev, receives "ceo" "101" m = (Ret (Some ev), tt) /\
    (du_bot (ms_author m) = false /\ allowlisted cfg m = true /\
     exists parsed l, reads no_codec (fun _ => "") cfg m parsed /\
       ev = event_of cfg (Some "101") m parsed (chat_class_of m) l /\
       addressed cfg {["auditor" := "auditor"; "ceo" := "ceo"]} (mk_readiness [("auditor", "100"); ("ceo", "101")] false) m l /\
       (free_group_text cfg m = true -> elected cfg (Some "101") m /\ answers_free_text cfg m l) /\
       (chat_class_of m <> "direct" -> is_explicit_command cfg m = true -> answers_command cfg parsed l)).
Proof.
  intros m cfg.
  exists (event_of cfg (Some "101") m (ask_of m) "executive" [("ceo", "ceo")]).
  assert (H : receives "ceo" "101" m =
    (Ret (Some (event_of cfg (Some "101") m (ask_of m) "executive" [("ceo", "ceo")])), tt)) by (vm_compute; reflexivity).
  split; [exact H |].
  exact (forwarded_message_is_legitimate (BotWorld0 := quiet_world) (BotRegistry0 := quiet_registry) no_codec
    (fun _ => "") cfg {["auditor" := "auditor"; "ceo" := "ceo"]} false (Some "101")
    (mk_readiness [("auditor", "100"); ("ceo", "101")] false) m tt _ tt H).
Defined.

Definition sample_inbound : DiscordInboundEvent :=
  event_of (sample_config "ceo") (Some "101") (group_message "please help" []) (ask_of (group_message "please help" []))
    "executive" [("ceo", "ceo")].

(** Readers of scalars and a digest of 64 characters. *)
Definition sample_datetime (j : json) : option datetime := match j with JStr t => fromisoformat t | _ => None end.
Definition sample_bool (j : json) : option bool := match j with JBool b => Some b | _ => None end.
Definition sample_digest (text : string) : string := "0123456789abcdef0123456789abcdef0123456789abcdef0123456789abcdef".

Lemma bridged_event_is_authentic_witness :
  let fan := make_fan_in (sample_config "ceo") in
  let '(payload, signature) :=
    build_discord_ingress_payload (fun _ => "") sample_digest (fun _ => sample_digest) fan sample_inbound in
  let q := request_of_event (sample_digest "") sample_inbound in
  ingress_request sample_datetime sample_bool payload = Some q /\
  _resolve_target (di_action q) (di_target q) = infer_command_target "ask" None /\
  _validate_discord_connector_request (fun _ => sample_digest) "secret" q (Some signature) = Ret None.
Proof.
  apply (bridged_event_is_authentic sample_datetime sample_bool isoformat_roundtrip (fun _ => eq_refl) (fun _ => "")
    sample_digest (fun _ => sample_digest) (fun _ _ => conj eq_refl (conj eq_refl eq_refl))
    (make_fan_in (sample_config "ceo")) sample_inbound).
  - unfold valid_datetime. cbn. lia.
  - by split.
  - by split.
Defined.

(** A typed command whose JSON gives another priority, or more than 32
    arguments, is sent by the bot and refused by the endpoint. *)
Example out_of_bounds_is_refused :
  let post c := (build_discord_ingress_payload (fun _ => "") sample_digest (fun _ => sample_digest)
    (make_fan_in (sample_config "ceo"))
    (event_of (sample_config "ceo") (Some "101") (group_message "/oq {}" []) c "executive" [("ceo", "ceo")])).1 in
  let reads c := ingress_request sample_datetime sample_bool (post c) in
  reads (mk_ParsedDiscordCommand "status" None [] runtime_recipients None "urgent") = None /\
  reads (mk_ParsedDiscordCommand "status" None (replicate 33 "x") runtime_recipients None "normal") = None /\
  is_Some (reads (mk_ParsedDiscordCommand "status" None (replicate 32 "x") runtime_recipients None "high")).
Proof. vm_compute. repeat split. eexists. reflexivity. Qed.
