(* ===== verification/OrderFacts.v ===== *)
(** What the ordered delivery of the Discord bots' answers guarantees. *)

From S2P Require Import Prelude PyStr PyData LlmSchemas PyFloat Ingress AgentBase Grammar DiscordBridge DiscordWorker.
From S2P Require Import DiscordOrder.

(** * Roles *)

Lemma dedup_NoDup l : List.NoDup (dedup l).
Proof.
  induction l as [| x l IH]; cbn; [constructor |]. destruct (mem x l) eqn:Ex; [done |].
  constructor; [| done]. rewrite dedup_In. by apply mem_not_In.
Qed.

Lemma ordered_roles_NoDup recipients role : NoDup (_ordered_recipient_roles recipients role).
Proof.
  unfold _ordered_recipient_roles. destruct (if truthy _ then _ else _) as [| r l]; [apply NoDup_singleton |].
  rewrite sorted_perm. apply NoDup_ListNoDup, dedup_NoDup.
Qed.

(** * Ordering states *)

(** The roles before [next_index] have been delivered. *)
Definition ordering_ok (o : ordering) : Prop :=
  NoDup (or_ordered_roles o) /\
  forall k r, (k < or_next_index o)%nat -> or_ordered_roles o !! k = Some r -> In r (or_completed_roles o).

(** Every role before [role] in the order has been delivered. *)
Definition turn_of (role : string) (o : ordering) : Prop :=
  forall n k r, or_ordered_roles o !! n = Some role -> (k < n)%nat -> or_ordered_roles o !! k = Some r ->
    In r (or_completed_roles o).

Lemma advance_spec completed roles next k r :
  (k < advance completed (drop next roles) next)%nat -> (next <= k)%nat -> roles !! k = Some r -> In r completed.
Proof.
  remember (drop next roles) as left eqn:Hl. revert next Hl.
  induction left as [| x left IH]; intros next Hl; cbn [advance]; [lia |].
  destruct (mem x completed) eqn:Ex; [| lia]. intros Hk Hn Hr.
  assert (Hx : roles !! next = Some x).
  { pose proof (lookup_drop roles next 0) as Hd. rewrite <- Hl in Hd. cbn in Hd. by rewrite Nat.add_0_r in Hd. }
  destruct (decide (k = next)) as [-> |]; [rewrite Hx in Hr; simplify_eq; by apply mem_In |].
  apply (IH (S next)); [| done | lia | done].
  change left with (drop 1 (x :: left)). rewrite Hl, drop_drop. f_equal. lia.
Qed.

Lemma complete_roles role o : or_ordered_roles (complete role o) = or_ordered_roles o.
Proof. done. Qed.

Lemma complete_In role o r :
  In r (or_completed_roles (complete role o)) <-> r = role \/ In r (or_completed_roles o).
Proof.
  unfold complete. cbn. destruct (mem role _) eqn:Em; cbn; [| split; intros [->|]; auto].
  apply mem_In in Em. split; [auto | intros [-> |]; done].
Qed.

Lemma complete_ok role o : ordering_ok o -> ordering_ok (complete role o).
Proof.
  intros [Hnd Ho]. split; [done |]. rewrite complete_roles. intros k r Hk Hr.
  destruct (decide (k < or_next_index o)%nat) as [Hlt |].
  - apply complete_In. right. eauto.
  - unfold complete in Hk |- *. cbn [or_next_index or_completed_roles] in *. eapply advance_spec; [exact Hk | lia | done].
Qed.

Lemma turn_complete role r o : turn_of r o -> turn_of r (complete role o).
Proof. unfold turn_of. rewrite complete_roles. intros H n k x Hn Hk Hx. apply complete_In. right. eauto. Qed.

(** The condition for going on is the turn. *)
Lemma no_wait_is_turn role o : ordering_ok o -> must_wait role o = false -> turn_of role o.
Proof.
  intros [Hnd Ho] Hw n k r Hn Hk Hr. unfold must_wait in Hw.
  destruct (or_ordered_roles o !! or_next_index o) as [x |] eqn:Ex.
  - apply negb_false_iff, String.eqb_eq in Hw. subst x.
    rewrite (NoDup_lookup _ _ _ _ Hnd Hn Ex) in Hk. eauto.
  - apply lookup_ge_None in Ex. apply lookup_lt_Some in Hn. apply (Ho k); [lia | done].
Qed.

(** * Runs *)

Section runs.
Context {E : Type} `{!BotWorld E}.
Context (json_text : json -> string) (sha256 : string -> string) (hmac_sha256_hex : string -> string -> string).
Context (str_float : pyfloat -> string) (fan : DiscordIngressFanIn).
#[local] Abbreviation step := (step (E:=E) json_text sha256 hmac_sha256_hex str_float fan).

(** The ordering state a coroutine has to do with, and whether it is past its
    turn, and past it without a timeout. *)
Definition sid_of (p : phase) : option nat :=
  match p with
  | Waiting sid _ | Sending sid _ _ | Leaving sid _ _ | Done (Some (sid, _)) => Some sid
  | _ => None
  end.

Definition in_turn (p : phase) : bool :=
  match p with Sending _ t _ | Leaving _ t _ | Done (Some (_, t)) => negb t | _ => false end.

(** Everything of the coroutine has been sent. *)
Definition finished (p : phase) : bool := match p with Leaving _ _ _ | Done _ => true | _ => false end.

(** A coroutine with a role is through with its message. *)
Definition delivered (s : system E) (sid : nat) (role : string) : Prop :=
  exists i c, sy_coroutines s !! i = Some c /\ ie_bot_role (co_event c) = role /\
    sid_of (co_phase c) = Some sid /\ finished (co_phase c) = true.

Record orderly (s : system E) : Prop := {
  ord_heap : forall sid o, sy_heap s !! sid = Some o -> ordering_ok o;
  ord_keys : forall key sid, sy_keys s !! key = Some sid -> is_Some (sy_heap s !! sid);
  ord_sids : forall i c sid, sy_coroutines s !! i = Some c -> sid_of (co_phase c) = Some sid ->
    exists o, sy_heap s !! sid = Some o /\
      (in_turn (co_phase c) = true -> turn_of (ie_bot_role (co_event c)) o);
  ord_done : forall sid o r, sy_heap s !! sid = Some o -> In r (or_completed_roles o) -> delivered s sid r
}.

Lemma initial_orderly (s : system E) : initial s -> orderly s.
Proof.
  intros (Hh & Hk & _ & Hp). split.
  - rewrite Hh. intros sid o Ho. by rewrite lookup_empty in Ho.
  - rewrite Hk. intros key sid Ho. by rewrite lookup_empty in Ho.
  - intros i c sid Hc. by rewrite (Hp i c Hc).
  - rewrite Hh. intros sid o r Ho. by rewrite lookup_empty in Ho.
Qed.

(** A coroutine that is through stays so. *)
Lemma delivered_goes s s' i c p sid role :
  sy_coroutines s !! i = Some c -> sy_coroutines s' = <[i := mk_coroutine (co_event c) p]> (sy_coroutines s) ->
  (finished (co_phase c) = true -> finished p = true /\ sid_of p = sid_of (co_phase c)) ->
  delivered s sid role -> delivered s' sid role.
Proof.
  intros Hc Hs Hp (j & d & Hd & Hr & Hsid & Hf). destruct (decide (i = j)) as [-> | Hne].
  - rewrite Hc in Hd. injection Hd as <-. destruct (Hp Hf) as [Hf' Hs']. exists j, (mk_coroutine (co_event c) p).
    rewrite Hs, lookup_insert_eq. cbn. by rewrite Hs'.
  - exists j, d. rewrite Hs, lookup_insert_ne by done. auto.
Qed.

(** Steps that leave the ordering states alone. *)
Lemma orderly_goes s i c p e' keys log :
  orderly s -> sy_coroutines s !! i = Some c ->
  (forall key sid, keys !! key = Some sid -> is_Some (sy_heap s !! sid)) ->
  (finished (co_phase c) = true -> finished p = true /\ sid_of p = sid_of (co_phase c)) ->
  (forall sid, sid_of p = Some sid -> exists o, sy_heap s !! sid = Some o /\
     (in_turn p = true -> turn_of (ie_bot_role (co_event c)) o)) ->
  orderly (mk_system e' (sy_heap s) keys (goes_to i c p s) log).
Proof.
  intros [H1 H2 H3 H4] Hc Hk Hf Hp. split; cbn; [done | done | |].
  - intros j d sid Hd. unfold goes_to in Hd. destruct (decide (i = j)) as [-> | Hne].
    + rewrite lookup_insert_eq in Hd. injection Hd as <-. apply Hp.
    + rewrite lookup_insert_ne in Hd by done. exact (H3 j d sid Hd).
  - intros sid o r Ho Hr. eapply delivered_goes; [exact Hc | reflexivity | exact Hf | eauto].
Qed.

(** The state of a new message is added. *)
Lemma orderly_new s sid key o :
  orderly s -> sy_heap s !! sid = None -> ordering_ok o -> or_completed_roles o = [] ->
  orderly (mk_system (sy_ext s) (<[sid := o]> (sy_heap s)) (<[key := sid]> (sy_keys s)) (sy_coroutines s) (sy_log s)).
Proof.
  intros [H1 H2 H3 H4] Hf Hok Hnil. split; cbn.
  - intros sid' o' [[-> <-] | [Hne Ho]]%lookup_insert_Some; eauto.
  - intros key' sid' [[-> <-] | [Hne Hk]]%lookup_insert_Some; [by rewrite lookup_insert_eq |].
    apply H2 in Hk as [o' Ho]. rewrite lookup_insert_ne by congruence. by exists o'.
  - intros i c sid' Hc Hs. destruct (H3 i c sid' Hc Hs) as (o' & Ho & Ht). exists o'.
    by rewrite lookup_insert_ne by congruence.
  - intros sid' o' r [[-> <-] | [Hne Ho]]%lookup_insert_Some Hr; [by rewrite Hnil in Hr | by eapply H4].
Qed.

Lemma orderly_register s ev sid_fresh sid heap keys :
  orderly s -> sy_heap s !! sid_fresh = None -> register ev sid_fresh s = (sid, heap, keys) ->
  orderly (mk_system (sy_ext s) heap keys (sy_coroutines s) (sy_log s)) /\ is_Some (heap !! sid).
Proof.
  intros Ho Hf. unfold register. destruct (sy_keys s !! key_of ev) as [sid' |] eqn:Ek; intros [= <- <- <-].
  - split; [by destruct s | by eapply ord_keys].
  - split; [| by rewrite lookup_insert_eq]. apply orderly_new; [done | done | | done].
    split; [apply ordered_roles_NoDup | cbn; lia].
Qed.

(** A coroutine leaves: its role is delivered. *)
Lemma orderly_leave s i c sid t messages o e' log :
  orderly s -> sy_coroutines s !! i = Some c -> co_phase c = Sending sid t messages -> sy_heap s !! sid = Some o ->
  let o' := complete (ie_bot_role (co_event c)) o in
  orderly (mk_system e' (<[sid := o']> (sy_heap s)) (sy_keys s) (goes_to i c (Leaving sid t (is_finished o')) s) log).
Proof.
  intros [H1 H2 H3 H4] Hc Hp Hh o'. unfold goes_to. split; cbn.
  - intros sid' x [[-> <-] | [_ Hx]]%lookup_insert_Some; [by apply complete_ok; eapply H1 | by eapply H1].
  - intros key sid' Hk. apply lookup_insert_is_Some'. right. by eapply H2.
  - intros j d sid' [[-> <-] | [Hne Hd]]%lookup_insert_Some Hs.
    + cbn in Hs. injection Hs as <-. exists o'. rewrite lookup_insert_eq. split; [done |]. cbn. intros Ht.
      destruct (H3 j c sid Hc) as (x & Hx & Hturn); [by rewrite Hp |]. rewrite Hh in Hx. injection Hx as <-.
      apply turn_complete, Hturn. by rewrite Hp.
    + destruct (H3 j d sid' Hd Hs) as (x & Hx & Hturn). destruct (decide (sid = sid')) as [<- | Hns].
      * rewrite Hh in Hx. injection Hx as <-. exists o'. rewrite lookup_insert_eq.
        split; [done |]. intros Ht. by apply turn_complete, Hturn.
      * exists x. by rewrite lookup_insert_ne.
  - assert (Hkeep : forall sid' r, delivered s sid' r -> delivered (mk_system e' (<[sid := o']> (sy_heap s)) (sy_keys s)
      (<[i := mk_coroutine (co_event c) (Leaving sid t (is_finished o'))]> (sy_coroutines s)) log) sid' r).
    { intros sid' r. eapply delivered_goes; [exact Hc | reflexivity | by rewrite Hp]. }
    intros sid' x r [[-> <-] | [_ Hx]]%lookup_insert_Some Hr; [| eauto].
    apply complete_In in Hr as [-> | Hr]; [| eauto].
    exists i, (mk_coroutine (co_event c) (Leaving sid' t (is_finished o'))). cbn. by rewrite lookup_insert_eq.
Qed.

Lemma orderly_step s s' : orderly s -> step s s' -> orderly s'.
Proof.
  intros Ho Hstep. pose proof Ho as [H1 H2 H3 H4].
  destruct Hstep as [s i c text e' Hc Hp _ | s i c out e' Hc Hp _ _ | s i c text fresh sid heap keys Hc Hp Hfr Hreg
    | s i c sid text o Hc Hp Hh Hw | s i c sid text Hc Hp | s i c sid t m ms e' Hc Hp _
    | s i c sid t ms o e' Hc Hp Hh _ o' | s i c sid t f Hc Hp].
  - apply (orderly_goes s); rewrite ?Hp; done.
  - apply (orderly_goes s); rewrite ?Hp; done.
  - destruct (orderly_register _ _ _ _ _ _ Ho Hfr Hreg) as [Ho2 [o Hso]].
    apply (orderly_goes (mk_system (sy_ext s) heap keys (sy_coroutines s) (sy_log s)) i c); rewrite ?Hp; try done.
    + apply Ho2.
    + intros sid' [= <-]. exists o. done.
  - apply (orderly_goes s); rewrite ?Hp; try done. intros sid' [= <-]. exists o. split; [done |]. intros _.
    apply no_wait_is_turn; [by eapply H1 | done].
  - apply (orderly_goes s); rewrite ?Hp; try done. intros sid' [= <-].
    destruct (H3 i c sid Hc) as (o & Hso & _); [by rewrite Hp |]. exists o. done.
  - apply (orderly_goes s); rewrite ?Hp; try done. intros sid' [= <-].
    destruct (H3 i c sid Hc) as (o & Hso & Ht); [by rewrite Hp |]. rewrite Hp in Ht. by exists o.
  - eapply orderly_leave; done.
  - apply (orderly_goes s); rewrite ?Hp; try done.
    + intros key sid' Hk. unfold pop_finished in Hk. destruct (f && _); [| by eapply H2].
      apply lookup_delete_Some in Hk as [_ Hk]. by eapply H2.
    + intros sid' [= <-]. destruct (H3 i c sid Hc) as (o & Hso & Ht); [by rewrite Hp |]. rewrite Hp in Ht. by exists o.
Qed.

(** What a coroutine sent. *)
Definition said (i : nat) (s : system E) : list string := map snd (List.filter (fun p => Nat.eqb p.1 i) (sy_log s)).

Lemma finished_step s s' i c :
  step s s' -> sy_coroutines s !! i = Some c -> finished (co_phase c) = true ->
  said i s' = said i s /\ exists c', sy_coroutines s' !! i = Some c' /\ finished (co_phase c') = true.
Proof.
  intros Hstep Hc Hf.
  assert (Hgo : forall j d p, sy_coroutines s !! j = Some d -> (finished (co_phase d) = true -> finished p = true) ->
    exists c', goes_to j d p s !! i = Some c' /\ finished (co_phase c') = true).
  { intros j d p Hd Hp. unfold goes_to. destruct (decide (j = i)) as [-> | Hne].
    - rewrite Hc in Hd. injection Hd as <-. eexists. rewrite lookup_insert_eq. split; [done |]. by apply Hp.
    - exists c. by rewrite lookup_insert_ne. }
  destruct Hstep as [s j d text e' Hd Hp _ | s j d out e' Hd Hp _ _ | s j d text fresh sid heap keys Hd Hp Hfr Hreg
    | s j d sid text o Hd Hp Hh Hw | s j d sid text Hd Hp | s j d sid t m ms e' Hd Hp _
    | s j d sid t ms o e' Hd Hp Hh _ o' | s j d sid t f Hd Hp];
    (split; [| by eapply Hgo; [exact Hd | rewrite Hp]]); try done.
  unfold said. cbn. rewrite List.filter_app. cbn. destruct (Nat.eqb j i) eqn:Eji; [| by rewrite app_nil_r].
  apply Nat.eqb_eq in Eji as ->. rewrite Hc in Hd. injection Hd as <-. by rewrite Hp in Hf.
Qed.

Lemma finished_star s s' i c :
  star step s s' -> sy_coroutines s !! i = Some c -> finished (co_phase c) = true -> said i s' = said i s.
Proof.
  intros Hs. revert c. induction Hs as [s | s1 s2 s3 Hstep _ IH]; [done |]. intros c Hc Hf.
  destruct (finished_step _ _ _ _ Hstep Hc Hf) as [H1 (c' & Hc' & Hf')]. by rewrite (IH c' Hc' Hf').
Qed.

(** C9: The answers of several bots to one message are delivered in the order
    of their roles: whenever a bot that did not give up waiting is sending, or
    has sent, every role before its own in the order has a bot that is through,
    and that bot never says anything more, whatever happens later. *)
Theorem answers_keep_role_order s0 s j c sid o n k role :
  initial s0 -> star step s0 s ->
  sy_coroutines s !! j = Some c -> sid_of (co_phase c) = Some sid -> in_turn (co_phase c) = true ->
  sy_heap s !! sid = Some o ->
  or_ordered_roles o !! n = Some (ie_bot_role (co_event c)) -> (k < n)%nat -> or_ordered_roles o !! k = Some role ->
  exists i d, sy_coroutines s !! i = Some d /\ ie_bot_role (co_event d) = role /\ sid_of (co_phase d) = Some sid /\
    finished (co_phase d) = true /\ forall s', star step s s' -> said i s' = said i s.
Proof.
  intros Hi Hs Hc Hsid Ht Hh Hn Hk Hr.
  assert (Ho : orderly s) by (eapply star_invariant; [exact orderly_step | exact Hs | by apply initial_orderly]).
  destruct (ord_sids s Ho j c sid Hc Hsid) as (o' & Ho' & Hturn). rewrite Hh in Ho'. injection Ho' as <-.
  destruct (ord_done s Ho sid o role Hh (Hturn Ht n k role Hn Hk Hr)) as (i & d & Hd & Hrole & Hds & Hf).
  exists i, d. repeat split; try done. intros s' Hss. by eapply finished_star.
Qed.

(** The computed steps are steps, and every step is computed. *)
Lemma perform_step mv s s' :
  perform json_text sha256 hmac_sha256_hex str_float fan mv s = Some s' -> step s s'.
Proof.
  destruct mv as [i fresh | i]; cbn [perform]; destruct (sy_coroutines s !! i) as [c |] eqn:Hc;
    cbn [mbind option_bind]; [| discriminate | | discriminate].
  - destruct (co_phase c) as [| text | sid text | sid t ms | sid t f | turn] eqn:Hp.
    + destruct (obtain_response _ _ _ _ _ _ _) as [o e'] eqn:Ho. intros [= <-].
      destruct o as [[text |] | x]; [by eapply step_post_answered | |]; by eapply step_post_failed.
    + destruct (sy_heap s !! fresh) eqn:Hf; [done |]. destruct (register _ _ _) as [[sid heap] keys] eqn:Hr.
      intros [= <-]. by eapply step_register.
    + destruct (sy_heap s !! sid) as [o |] eqn:Hh; cbn [mbind option_bind]; [| discriminate]. destruct (must_wait _ _) eqn:Hw; [done |].
      intros [= <-]. by eapply step_turn.
    + destruct ms as [| m ms].
      * destruct (sy_heap s !! sid) as [o |] eqn:Hh; cbn [mbind option_bind]; [| discriminate]. intros [= <-]. eapply step_leave; [done .. |]. by left.
      * destruct (_send_with_retry _ _ _ _) as [[[] | x] e'] eqn:Hs; [intros [= <-]; by eapply step_send |].
        destruct (sy_heap s !! sid) as [o |] eqn:Hh; cbn [mbind option_bind]; [| discriminate]. intros [= <-].
        eapply step_leave; [done .. |]. right. by exists m, ms, x.
    + intros [= <-]. by eapply step_done.
    + done.
  - destruct (co_phase c) eqn:Hp; try done. intros [= <-]. by eapply step_timeout.
Qed.

Lemma step_performed s s' :
  step s s' -> exists mv, perform json_text sha256 hmac_sha256_hex str_float fan mv s = Some s'.
Proof.
  destruct 1 as [s i c text e' Hc Hp Ho | s i c out e' Hc Hp Ho Hn | s i c text fresh sid heap keys Hc Hp Hfr Hreg
    | s i c sid text o Hc Hp Hh Hw | s i c sid text Hc Hp | s i c sid t m ms e' Hc Hp Hs
    | s i c sid t ms o e' Hc Hp Hh Hl o' | s i c sid t f Hc Hp].
  - exists (Run i 0). cbn [perform]. rewrite Hc. cbn [mbind option_bind]. by rewrite Hp, Ho.
  - exists (Run i 0). cbn [perform]. rewrite Hc. cbn [mbind option_bind]. rewrite Hp, Ho. destruct out as [[text |] |]; [by destruct (Hn text) | done ..].
  - exists (Run i fresh). cbn [perform]. rewrite Hc. cbn [mbind option_bind]. by rewrite Hp, Hfr, Hreg.
  - exists (Run i 0). cbn [perform]. rewrite Hc. cbn [mbind option_bind]. rewrite Hp, Hh. cbn [mbind option_bind]. by rewrite Hw.
  - exists (TimesOut i). cbn [perform]. rewrite Hc. cbn [mbind option_bind]. by rewrite Hp.
  - exists (Run i 0). cbn [perform]. rewrite Hc. cbn [mbind option_bind]. by rewrite Hp, Hs.
  - exists (Run i 0). cbn [perform]. rewrite Hc. cbn [mbind option_bind]. rewrite Hp. destruct Hl as [[-> ->] | (m & rest & x & -> & Hs)].
    + by rewrite Hh.
    + by rewrite Hs, Hh.
  - exists (Run i 0). cbn [perform]. rewrite Hc. cbn [mbind option_bind]. by rewrite Hp.
Qed.

Lemma perform_all_star moves s s' :
  perform_all json_text sha256 hmac_sha256_hex str_float fan moves s = Some s' -> star step s s'.
Proof.
  revert s. induction moves as [| mv moves IH]; intros s; cbn [perform_all]; [intros [= ->]; constructor |].
  destruct (perform _ _ _ _ _ mv s) as [s1 |] eqn:Hs; cbn [mbind option_bind]; [| discriminate]. intros H.
  eapply star_step; [by eapply perform_step | by apply IH].
Qed.

(** ** Unaddressed text *)

(** The ordering of a message the secretary forwards for nobody in particular:
    it waits for a bot named [runtime], which does not exist. *)
Definition waits_for_runtime (o : ordering) : Prop :=
  or_ordered_roles o = ["runtime"; "secretary"] /\ or_next_index o = 0%nat /\
  (or_completed_roles o = [] \/ or_completed_roles o = ["secretary"]).

Definition unaddressed (c : coroutine) : Prop :=
  ie_bot_role (co_event c) = "secretary" /\ pd_recipients (ie_parsed_command (co_event c)) = runtime_recipients.

Record stuck (s : system E) : Prop := {
  stk_heap : forall sid o, sy_heap s !! sid = Some o -> waits_for_runtime o;
  stk_events : forall i c, sy_coroutines s !! i = Some c -> unaddressed c;
  stk_phases : forall i c, sy_coroutines s !! i = Some c -> in_turn (co_phase c) = false /\
    (forall sid t, co_phase c <> Leaving sid t true) /\
    forall sid, sid_of (co_phase c) = Some sid -> sy_keys s !! key_of (co_event c) = Some sid
}.

Lemma complete_waits o : waits_for_runtime o ->
  waits_for_runtime (complete "secretary" o) /\ is_finished (complete "secretary" o) = false.
Proof. destruct o as [roles completed next]. intros (Hr & Hn & [Hc | Hc]); cbn in *; subst; split; try done; repeat split; by right. Qed.

Lemma stuck_goes s i c p e' heap keys log :
  stuck s -> sy_coroutines s !! i = Some c ->
  (forall sid o, heap !! sid = Some o -> waits_for_runtime o) ->
  (forall key sid, sy_keys s !! key = Some sid -> keys !! key = Some sid) ->
  in_turn p = false -> (forall sid t, p <> Leaving sid t true) ->
  (forall sid, sid_of p = Some sid -> keys !! key_of (co_event c) = Some sid) ->
  stuck (mk_system e' heap keys (goes_to i c p s) log).
Proof.
  intros [H1 H2 H3] Hc Hh Hk Ht Hl Hs. unfold goes_to. split; cbn; [done | |].
  - intros j d [[-> <-] | [_ Hd]]%lookup_insert_Some; [exact (H2 j c Hc) | eauto].
  - intros j d [[-> <-] | [_ Hd]]%lookup_insert_Some; [done |]. destruct (H3 j d Hd) as (Ha & Hb & Hd'). eauto.
Qed.

Lemma stuck_step s s' : stuck s -> step s s' -> stuck s'.
Proof.
  intros Ho Hstep. pose proof Ho as [H1 H2 H3].
  destruct Hstep as [s i c text e' Hc Hp _ | s i c out e' Hc Hp _ _ | s i c text fresh sid heap keys Hc Hp Hfr Hreg
    | s i c sid text o Hc Hp Hh Hw | s i c sid text Hc Hp | s i c sid t m ms e' Hc Hp _
    | s i c sid t ms o e' Hc Hp Hh _ o' | s i c sid t f Hc Hp];
    destruct (H3 i c Hc) as (Ht & Hl & Hk); rewrite Hp in Ht, Hl, Hk; destruct (H2 i c Hc) as [Hrole Hrec].
  - by apply (stuck_goes s).
  - by apply (stuck_goes s).
  - unfold register in Hreg. destruct (sy_keys s !! key_of (co_event c)) as [sid' |] eqn:Ek; injection Hreg as <- <- <-.
    + apply (stuck_goes s); try done. by intros sid [= <-].
    + rewrite Hrole, Hrec. apply (stuck_goes s); try done.
      * intros sid o [[_ <-] | [_ Hx]]%lookup_insert_Some; [| by eapply H1].
        split; [vm_compute; reflexivity |]. split; [done | by left].
      * intros key sid Hx. rewrite lookup_insert_ne by congruence. done.
      * intros sid [= <-]. apply lookup_insert_eq.
  - exfalso. destruct (H1 sid o Hh) as (Hr & Hn & _). unfold must_wait in Hw. by rewrite Hr, Hn, Hrole in Hw.
  - by apply (stuck_goes s).
  - by apply (stuck_goes s).
  - destruct (complete_waits o (H1 sid o Hh)) as [Hw Hf]. subst o'. rewrite Hrole, Hf.
    apply (stuck_goes s); try done. intros sid' x [[_ <-] | [_ Hx]]%lookup_insert_Some; [done | by eapply H1].
  - unfold pop_finished. destruct f; [by destruct (Hl sid t) |]. by apply (stuck_goes s).
Qed.

(** When the secretary's bot forwards text that addresses nobody, its answer
    never gets its turn: it is sent only after the wait has timed out, and the
    entry of the message stays in the table of orderings for ever. *)
Theorem unaddressed_answer_times_out s0 s i c :
  initial s0 -> (forall j d, sy_coroutines s0 !! j = Some d -> unaddressed d) -> star step s0 s ->
  sy_coroutines s !! i = Some c ->
  in_turn (co_phase c) = false /\
  forall sid, sid_of (co_phase c) = Some sid -> sy_keys s !! key_of (co_event c) = Some sid.
Proof.
  intros (Hh & Hk & _ & Hp) Hu Hs Hc.
  assert (H0 : stuck s0).
  { split; [| done |].
    - rewrite Hh. intros sid o Ho. by rewrite lookup_empty in Ho.
    - intros j d Hd. by rewrite (Hp j d Hd). }
  assert (Hst : stuck s) by (eapply star_invariant; [exact stuck_step | exact Hs | exact H0]).
  destruct (stk_phases s Hst i c Hc) as (H1 & _ & H2). done.
Qed.
End runs.

(** * Samples *)

Definition sample_bot_world : BotWorld unit := {|
  channel_send := fun _ _ e => (Sent, e);
  ingress_post := fun _ _ _ e => (Posted 202 (Some (JObj [("status", JStr "accepted"); ("trace_id", JStr "t-1")])), e);
  bot_sleep := fun _ e => e;
  redis_hset := fun _ _ _ => ret tt;
  guild_text_channels := fun _ => []
|}.

Definition sample_fan_in : DiscordIngressFanIn := mk_DiscordIngressFanIn "http://cp" "secret" 1900 2 (f_lit 5 1).

Definition sample_event (role : string) (recipients : list (string * string)) : DiscordInboundEvent :=
  mk_DiscordInboundEvent role role "100" (mk_ParsedDiscordCommand "ask" None ["status"] recipients None "normal")
    "42" "7" "owner" "status" "1" "2" "text" "executive" None (mk_datetime 2026 3 24 12 0 0 0) false.

Definition sample_system (events : list DiscordInboundEvent) : system unit :=
  mk_system tt ∅ ∅ (list_to_map (imap (fun i ev => (i, mk_coroutine ev Posting)) events)) [].

#[local] Abbreviation sample_run :=
  (perform_all (BotWorld0 := sample_bot_world) (fun _ => "") (fun x => x) (fun _ x => x) (fun _ => "") sample_fan_in).

Lemma sample_system_initial events : initial (sample_system events).
Proof.
  repeat split. intros i c Hc. cbn in Hc. apply elem_of_list_to_map_2, elem_of_lookup_imap in Hc as (j & ev & Hx & _).
  by injection Hx as -> ->.
Qed.

(** The auditor's bot is through; the chief executive's is sending. *)
Definition sample_pair : list DiscordInboundEvent :=
  map (fun r => sample_event r [("c", "ceo"); ("a", "auditor")]) ["auditor"; "ceo"].

Definition sample_ordered : system unit :=
  default (sample_system [])
    (sample_run (replicate 6 (Run 0 0) ++ replicate 3 (Run 1 1)) (sample_system sample_pair)).

Lemma sample_ordered_reached : star (step (BotWorld0 := sample_bot_world) (fun _ => "") (fun x => x) (fun _ x => x)
  (fun _ => "") sample_fan_in) (sample_system sample_pair) sample_ordered.
Proof. apply (perform_all_star (BotWorld0 := sample_bot_world)) with (replicate 6 (Run 0 0) ++ replicate 3 (Run 1 1)). vm_compute. reflexivity. Qed.

Lemma answers_keep_role_order_witness :
  exists i d, sy_coroutines sample_ordered !! i = Some d /\ ie_bot_role (co_event d) = "auditor" /\
    sid_of (co_phase d) = Some 0%nat /\ finished (co_phase d) = true /\
    forall s', star (step (BotWorld0 := sample_bot_world) (fun _ => "") (fun x => x) (fun _ x => x) (fun _ => "")
      sample_fan_in) sample_ordered s' -> said i s' = said i sample_ordered.
Proof.
  eapply (answers_keep_role_order (BotWorld0 := sample_bot_world) (fun _ => "") (fun x => x) (fun _ x => x) (fun _ => "")
    sample_fan_in (sample_system sample_pair) sample_ordered 1
    (mk_coroutine (sample_event "ceo" [("c", "ceo"); ("a", "auditor")]) (Sending 0 false ["[accepted] trace=t-1"]))
    0 (mk_ordering ["auditor"; "ceo"] ["auditor"] 1) 1 0 "auditor").
  - apply sample_system_initial.
  - apply sample_ordered_reached.
  - vm_compute. reflexivity.
  - reflexivity.
  - reflexivity.
  - vm_compute. reflexivity.
  - reflexivity.
  - lia.
  - reflexivity.
Defined.

(** The secretary forwards one unaddressed text, gives up waiting and is through. *)
Definition sample_secretary : list DiscordInboundEvent := [sample_event "secretary" runtime_recipients].

Definition sample_waited : system unit :=
  default (sample_system [])
    (sample_run ([Run 0 0; Run 0 0; TimesOut 0] ++ replicate 3 (Run 0 0)) (sample_system sample_secretary)).

Lemma sample_waited_reached : star (step (BotWorld0 := sample_bot_world) (fun _ => "") (fun x => x) (fun _ x => x)
  (fun _ => "") sample_fan_in) (sample_system sample_secretary) sample_waited.
Proof. apply (perform_all_star (BotWorld0 := sample_bot_world)) with ([Run 0 0; Run 0 0; TimesOut 0] ++ replicate 3 (Run 0 0)). vm_compute. reflexivity. Qed.

Lemma sample_secretary_unaddressed j d :
  sy_coroutines (sample_system sample_secretary) !! j = Some d -> unaddressed d.
Proof.
  cbn. intros H. apply lookup_insert_Some in H as [[_ <-] | [_ Hd]]; [done | by rewrite lookup_empty in Hd].
Qed.

Lemma unaddressed_answer_times_out_witness :
  in_turn (Done (Some (0%nat, true))) = false /\
  forall sid, sid_of (Done (Some (0%nat, true))) = Some sid ->
    sy_keys sample_waited !! key_of (sample_event "secretary" runtime_recipients) = Some sid.
Proof.
  apply (unaddressed_answer_times_out (BotWorld0 := sample_bot_world) (fun _ => "") (fun x => x) (fun _ x => x)
    (fun _ => "") sample_fan_in (sample_system sample_secretary) sample_waited 0
    (mk_coroutine (sample_event "secretary" runtime_recipients) (Done (Some (0%nat, true))))).
  - apply sample_system_initial.
  - apply sample_secretary_unaddressed.
  - apply sample_waited_reached.
  - vm_compute. reflexivity.
Defined.
