(* ===== verification/RegistryFacts.v ===== *)
(** What the registry of role bots and the launch plan guarantee. *)

From Stdlib Require Import Ascii.
From S2P Require Import Prelude PyStr PyData LlmSchemas PyFloat Ingress AgentBase Grammar DiscordBridge DiscordWorker.

(** * Dictionaries *)

Lemma dict_set_keys {V} (d : list (string * V)) k v :
  map fst (dict_set d k v) = if mem k (map fst d) then map fst d else map fst d ++ [k].
Proof.
  induction d as [| [k' v'] d IH]; cbn; [done |].
  rewrite (String.eqb_sym k k'). destruct (String.eqb k' k) eqn:Ek; cbn; [done |]. rewrite IH. unfold mem. by destruct (existsb _ _).
Qed.

Lemma dict_set_NoDup {V} (d : list (string * V)) k v : NoDup (map fst d) -> NoDup (map fst (dict_set d k v)).
Proof.
  intros H. rewrite dict_set_keys. destruct (mem k _) eqn:Em; [done |]. apply NoDup_app. repeat split; [done | |].
  - intros x Hx ->%list_elem_of_singleton. apply mem_not_In in Em. by apply Em, list_elem_of_In.
  - apply NoDup_singleton.
Qed.

Lemma dict_set_Forall {V} (P : string * V -> Prop) d k v : Forall P d -> P (k, v) -> Forall P (dict_set d k v).
Proof.
  intros H Hk. induction H as [| [k' v'] d Hx Hd IH]; cbn; [by constructor |].
  destruct (String.eqb k' k) eqn:Ek; constructor; try done. apply String.eqb_eq in Ek. by subst.
Qed.

Lemma dict_find_In {V} (d : list (string * V)) k v : dict_find d k = Some v -> In (k, v) d.
Proof.
  induction d as [| [k' v'] d IH]; cbn; [done |]. destruct (String.eqb k' k) eqn:Ek; [| auto].
  apply String.eqb_eq in Ek. intros [= ->]. subst. by left.
Qed.

(** * Identities *)

Section registry.
Context (codec : json_codec) (str_float : pyfloat -> string).
Context (expanduser : string -> string) (read_text : string -> option string).

(** An entry of the registry: its role is its key, normalized; an active bot
    has a token. *)
Definition identity_ok (p : string * RoleBotIdentity) : Prop :=
  rb_role p.2 = p.1 /\ truthy p.1 = true /\ norm p.1 = p.1 /\ strip (rb_token p.2) = rb_token p.2 /\
  (rb_status p.2 = "active" -> truthy (rb_token p.2) = true).

Definition is_active (p : string * RoleBotIdentity) : bool := String.eqb (rb_status p.2) "active".

Lemma parse_identity_ok role raw i :
  truthy role = true -> norm role = role -> _parse_role_identity str_float role raw = Ret i -> identity_ok (role, i).
Proof.
  intros Ht Hn. unfold _parse_role_identity, identity_ok. destruct raw; try done.
  - destruct (negb (truthy (strip s))) eqn:Es; [done |]. intros [= <-]. cbn [rb_role rb_token rb_status fst snd]. rewrite strip_idem.
    apply negb_false_iff in Es. done.
  - destruct (negb (mem _ _)); [done |]. destruct (String.eqb _ "active" && _) eqn:Ea; [done |].
    destruct (negb (truthy (norm _))); [done |]. destruct (_parse_guild_allowlist _ _); cbn; [| done].
    intros [= <-]. cbn [rb_role rb_token rb_status fst snd]. rewrite strip_idem. repeat split; try done.
    intros Hs. rewrite Hs in Ea. cbn in Ea. by apply negb_false_iff in Ea.
Qed.

Definition registry_ok (d : list (string * RoleBotIdentity)) : Prop := NoDup (map fst d) /\ Forall identity_ok d.

Lemma parse_identities_ok items d d' :
  registry_ok d -> parse_identities str_float items d = Ret d' -> registry_ok d'.
Proof.
  revert d. induction items as [| [k v] items IH]; intros d Hd; cbn [parse_identities]; [by intros [= <-] |].
  destruct (negb (truthy (norm k))) eqn:Ek; [done |]. apply negb_false_iff in Ek.
  destruct (_parse_role_identity _ _ _) as [i |] eqn:Ei; cbn [obind]; [| done]. apply IH. destruct Hd as [H1 H2].
  split; [by apply dict_set_NoDup |]. apply dict_set_Forall; [done |].
  eapply parse_identity_ok; [done | apply norm_idem | exact Ei].
Qed.

Lemma configured_ok settings raw parsed :
  _parse_role_identity_map codec str_float raw = Ret parsed -> registry_ok (with_fallback settings parsed).
Proof.
  intros Hp. assert (Hok : registry_ok parsed).
  { unfold _parse_role_identity_map in Hp. destruct (negb _); [by injection Hp as <-; split; constructor |].
    destruct (loads codec _) as [[] |]; try done. eapply parse_identities_ok; [| exact Hp]. split; constructor. }
  unfold with_fallback. destruct parsed; [| done]. destruct (st_discord_multi_bot_enabled settings); [done |].
  destruct (truthy (strip _)) eqn:Et; [| done]. split; [apply NoDup_singleton |].
  constructor; [| done]. unfold identity_ok. cbn [rb_role rb_token rb_status fst snd]. by rewrite strip_idem.
Qed.

Lemma unique_tokens_spec l owners :
  NoDup (map fst l) -> (forall t r, owners !! t = Some r -> ~ In r (map fst l)) ->
  _assert_unique_tokens l owners = Ret tt ->
  NoDup (List.filter truthy (map (fun p => strip (rb_token p.2)) l)) /\
  forall p, In p l -> truthy (strip (rb_token p.2)) = true -> owners !! strip (rb_token p.2) = None.
Proof.
  revert owners. induction l as [| [role i] l IH]; intros owners Hnd Hown; cbn [_assert_unique_tokens map fst snd].
  { intros _. split; [constructor | done]. }
  apply NoDup_cons in Hnd as [Hrole Hnd]. cbn [fst snd List.filter] in *.
  destruct (truthy (strip (rb_token i))) eqn:Et; cbn [negb].
  - destruct (owners !! strip (rb_token i)) as [r |] eqn:Eo.
    { destruct (String.eqb r role) eqn:Er; cbn [negb]; [| done]. apply String.eqb_eq in Er as ->.
      destruct (Hown _ _ Eo). by left. }
    intros Hrest. destruct (IH (<[strip (rb_token i) := role]> owners)) as [H1 H2]; [done | | done |].
    + intros t r [[_ <-] | [_ Ho]]%lookup_insert_Some; [by rewrite <- list_elem_of_In |].
      intros Hin. eapply Hown; [exact Ho | by right].
    + split.
      * constructor; [| done]. rewrite list_elem_of_In, filter_In, in_map_iff. intros [(p & Hp & Hin) _].
        specialize (H2 p Hin). rewrite Hp, lookup_insert_eq in H2. by specialize (H2 Et).
      * intros p [<- | Hin] Hpt; [done |]. specialize (H2 p Hin Hpt).
        by apply lookup_insert_None in H2 as [H2 _].
  - intros Hrest. destruct (IH owners) as [H1 H2]; [done | | done |].
    + intros t r Ho Hin. eapply Hown; [exact Ho | by right].
    + split; [done |]. intros p [<- | Hin] Hpt; [cbn in Hpt; congruence | by apply H2].
Qed.

Lemma unique_ids_spec l owners :
  NoDup (map fst l) -> (forall t r, owners !! t = Some r -> ~ In r (map fst l)) ->
  _assert_unique_bot_ids l owners = Ret tt ->
  NoDup (map (fun p => rb_bot_id p.2) l) /\ forall p, In p l -> owners !! rb_bot_id p.2 = None.
Proof.
  revert owners. induction l as [| [role i] l IH]; intros owners Hnd Hown; cbn [_assert_unique_bot_ids map fst snd].
  { intros _. split; [constructor | done]. }
  apply NoDup_cons in Hnd as [Hrole Hnd]. cbn [fst snd] in *.
  destruct (owners !! rb_bot_id i) as [r |] eqn:Eo.
  { destruct (String.eqb r role) eqn:Er; cbn [negb]; [| done]. apply String.eqb_eq in Er as ->.
    destruct (Hown _ _ Eo). by left. }
  intros Hrest. destruct (IH (<[rb_bot_id i := role]> owners)) as [H1 H2]; [done | | done |].
  - intros t r [[_ <-] | [_ Ho]]%lookup_insert_Some; [by rewrite <- list_elem_of_In |].
    intros Hin. eapply Hown; [exact Ho | by right].
  - split.
    + constructor; [| done]. rewrite list_elem_of_In, in_map_iff. intros (p & Hp & Hin).
      specialize (H2 p Hin). by rewrite Hp, lookup_insert_eq in H2.
    + intros p [<- | Hin]; [done |]. specialize (H2 p Hin). by apply lookup_insert_None in H2 as [H2 _].
Qed.

(** The identities of an accepted registry. *)
Record registry_sound (settings : RuntimeSettings) (r : RoleBotRegistry) : Prop := {
  rs_ok : registry_ok (rr_identities_by_role r);
  rs_tokens : NoDup (List.filter truthy (map (fun p => strip (rb_token p.2)) (rr_identities_by_role r)));
  rs_ids : NoDup (map (fun p => rb_bot_id p.2) (rr_identities_by_role r));
  rs_required : rr_required_roles r = _parse_required_roles (st_discord_required_role_bots_csv settings);
  rs_present : st_discord_multi_bot_enabled settings = true -> forall role, In role (rr_required_roles r) ->
    exists p, In p (rr_identities_by_role r) /\ is_active p = true /\ p.1 = role
}.

Lemma build_registry_sound settings r :
  build_role_bot_registry codec str_float expanduser read_text settings = Ret r -> registry_sound settings r.
Proof.
  unfold build_role_bot_registry. destruct (_resolve_role_bot_payload _ _ _) as [raw |]; cbn [obind]; [| done].
  destruct (_parse_role_identity_map _ _ _) as [parsed |] eqn:Ep; cbn [obind]; [| done].
  pose proof (configured_ok settings _ _ Ep) as Hok. destruct (with_fallback settings parsed) as [| p0 l0] eqn:Ew; [done |].
  rewrite <- Ew in *. set (d := with_fallback settings parsed) in *. clearbody d. clear Ew.
  destruct (_assert_unique_tokens d ∅) as [[] |] eqn:Et; cbn [obind]; [| done].
  destruct (_assert_unique_bot_ids d ∅) as [[] |] eqn:Ei; cbn [obind]; [| done].
  assert (Hempty : forall t r, (∅ : gmap string string) !! t = Some r -> ~ In r (map fst d))
    by (intros t x H; by rewrite lookup_empty in H).
  apply unique_tokens_spec in Et as [Et _]; [| apply Hok | done].
  apply unique_ids_spec in Ei as [Ei _]; [| apply Hok | done].
  destruct (st_discord_multi_bot_enabled settings && _) eqn:Em; [done |]. intros [= <-].
  pose proof (sorted_perm (fun a b : string * RoleBotIdentity => str_leb a.1 b.1) d) as Hperm.
  split; cbn [rr_identities_by_role rr_required_roles]; [| | | done |].
  - destruct Hok as [H1 H2]. split; [| by rewrite Hperm]. by rewrite (Permutation_map fst Hperm).
  - by rewrite (filter_perm truthy _ _ (Permutation_map _ Hperm)).
  - by rewrite (Permutation_map _ Hperm).
  - intros Hm role Hr. rewrite Hm in Em. cbn [andb] in Em.
    apply negb_false_iff, Nat.eqb_eq, length_zero_iff_nil in Em.
    assert (Hx : role_missing d role = false).
    { destruct (role_missing d role) eqn:Ex; [| done].
      assert (Hin : In role (List.filter (role_missing d) (_parse_required_roles (st_discord_required_role_bots_csv settings))))
        by (by apply filter_In). by rewrite Em in Hin. }
    unfold role_missing in Hx. destruct (dict_find d role) as [i |] eqn:Ed; [| done]. apply dict_find_In in Ed.
    exists (role, i). apply negb_false_iff in Hx. split; [| done].
    apply list_elem_of_In. rewrite Hperm. by apply list_elem_of_In.
Qed.

(** * Configurations *)

Lemma merge_guilds_spec w env g : _merge_guild_allowlists w env = Ret g ->
  (w <> [] -> g <> [] /\ incl g w) /\ (env <> [] -> g <> [] /\ incl g env).
Proof.
  unfold _merge_guild_allowlists. destruct w as [| x w]; cbn [length Nat.eqb].
  { intros [= <-]. split; [done |]. intros H. by split; [| apply incl_refl]. }
  destruct env as [| y env]; cbn [length Nat.eqb].
  { intros [= <-]. split; [| done]. intros H. by split; [| apply incl_refl]. }
  destruct (List.filter _ _) as [| z l] eqn:Ef; cbn [length Nat.eqb]; [done |]. intros [= <-]. rewrite <- Ef.
  assert (Hne : List.filter (fun g => mem g (y :: env)) (x :: w) <> []) by (by rewrite Ef).
  split; (split; [done |]); intros g Hg; apply filter_In in Hg as [Hg1 Hg2]; [done | by apply mem_In].
Qed.

(** The configuration of one active identity. *)
Definition config_for (settings : RuntimeSettings) (p : string * RoleBotIdentity) (c : DiscordBotWorkerConfig) : Prop :=
  bw_bot_role c = p.1 /\ bw_bot_id c = rb_bot_id p.2 /\ bw_token c = strip (rb_token p.2) /\
  truthy (strip (rb_token p.2)) = true /\
  _merge_guild_allowlists (dedup (rb_guild_allowlist p.2)) (_parse_id_allowlist (st_discord_allowed_guild_ids_csv settings))
    = Ret (bw_allowed_guild_ids c) /\
  (200 <= bw_response_chunk_size_chars c)%Z /\ (0 <= bw_response_retry_attempts c)%Z.

Lemma build_config_for settings role i c :
  truthy (strip (rb_token i)) = true ->
  _build_worker_config_from_identity codec str_float settings role (rb_bot_id i) (strip (rb_token i))
    (dedup (rb_guild_allowlist i)) = Ret c ->
  config_for settings (role, i) c.
Proof.
  intros Ht. unfold _build_worker_config_from_identity. destruct (_merge_guild_allowlists _ _) as [g |] eqn:Eg; cbn [obind]; [| done].
  intros [= <-]. unfold config_for. cbn [fst snd bw_bot_role bw_bot_id bw_token bw_allowed_guild_ids
    bw_response_chunk_size_chars bw_response_retry_attempts]. rewrite strip_idem, Eg. repeat split; try done; lia.
Qed.

Lemma configs_of_spec settings l configs :
  configs_of codec str_float settings l = Ret configs ->
  Forall2 (config_for settings) (List.filter is_active l) configs.
Proof.
  revert configs. induction l as [| [role i] l IH]; intros configs; cbn [configs_of List.filter]; [intros [= <-]; constructor |].
  unfold is_active at 1. cbn [snd]. destruct (String.eqb (rb_status i) "active"); cbn [negb]; [| exact (IH configs)].
  destruct (truthy (strip (rb_token i))) eqn:Et; cbn [negb]; [| done].
  destruct (_build_worker_config_from_identity _ _ _ _ _ _ _) as [c |] eqn:Ec; cbn [obind]; [| done].
  destruct (configs_of _ _ _ l) as [cs |]; cbn [obind]; [| done]. intros [= <-].
  constructor; [by apply build_config_for | by apply IH].
Qed.

Lemma registry_or_error_ok settings r :
  registry_or_error codec str_float expanduser read_text settings = Ret r -> registry_sound settings r.
Proof.
  unfold registry_or_error. destruct (build_role_bot_registry _ _ _ _ _) as [r' | x] eqn:Eb.
  - intros [= ->]. by apply build_registry_sound.
  - by destruct x.
Qed.

(** The identities a plan was made from. *)
Lemma plan_identities settings plan :
  build_worker_launch_plan codec str_float expanduser read_text settings = Ret plan ->
  exists r l, registry_sound settings r /\ l ⊆+ List.filter is_active (rr_identities_by_role r) /\ l <> [] /\
    Forall2 (config_for settings) l (lp_configs plan) /\
    (if st_discord_multi_bot_enabled settings
     then l = List.filter is_active (rr_identities_by_role r) /\
       lp_required_roles plan =
         match dedup (map lower (csv_items (st_discord_required_role_bots_csv settings))) with
         | [] => dedup (map bw_bot_role (lp_configs plan))
         | _ => dedup (map lower (csv_items (st_discord_required_role_bots_csv settings)))
         end
     else lp_required_roles plan = map bw_bot_role (lp_configs plan)).
Proof.
  unfold build_worker_launch_plan. destruct (st_discord_multi_bot_enabled settings).
  - unfold build_multi_worker_configs. destruct (registry_or_error _ _ _ _ _) as [r |] eqn:Er; cbn [obind]; [| done].
    destruct (configs_of _ _ _ _) as [cs |] eqn:Ec; cbn [obind]; [| done].
    destruct cs as [| c cs]; cbn [obind]; [done |]. intros [= <-]. apply configs_of_spec in Ec.
    eexists r, _. split; [by apply registry_or_error_ok |]. split; [reflexivity |]. split; [| split; [exact Ec | by split]].
    intros El. rewrite El in Ec. by apply Forall2_nil_inv_l in Ec.
  - unfold build_worker_config, _resolve_worker_identity. destruct (_resolve_worker_role _) as [role |]; cbn [obind]; [| done].
    destruct (registry_or_error _ _ _ _ _) as [r |] eqn:Er; cbn [obind]; [| done].
    destruct (dict_find _ role) as [i |] eqn:Ed; [| done].
    destruct (String.eqb (rb_status i) "active") eqn:Ea; cbn [negb]; [| done].
    destruct (truthy (strip (rb_token i))) eqn:Et; cbn [negb obind]; [| done].
    destruct (_build_worker_config_from_identity _ _ _ _ _ _ _) as [c |] eqn:Ec; cbn [obind]; [| done].
    intros [= <-]. exists r, [(role, i)]. split; [by apply registry_or_error_ok |]. repeat split; [| done |].
    + apply singleton_submseteq_l, list_elem_of_In, filter_In. split; [by apply dict_find_In | done].
    + constructor; [by apply build_config_for | constructor].
Qed.

Lemma Forall2_map_fst {A B C} (R : A -> B -> Prop) (f : A -> C) (g : B -> C) l l' :
  (forall a b, R a b -> g b = f a) -> Forall2 R l l' -> map g l' = map f l.
Proof. intros H. induction 1 as [| a b l l' Hab _ IH]; cbn; [done |]. by rewrite (H a b Hab), IH. Qed.

Lemma submseteq_NoDup {A} (l k : list A) : l ⊆+ k -> NoDup k -> NoDup l.
Proof.
  intros [k' Hp]%submseteq_Permutation Hk. rewrite Hp in Hk. by apply NoDup_app in Hk as (? & _ & _).
Qed.

Lemma filter_submseteq {A} (f : A -> bool) l : List.filter f l ⊆+ l.
Proof. induction l as [| x l IH]; cbn; [done |]. destruct (f x); [by constructor | by apply submseteq_cons]. Qed.

Lemma map_submseteq {A B} (f : A -> B) l k : l ⊆+ k -> map f l ⊆+ map f k.
Proof.
  intros [k' Hp]%submseteq_Permutation. rewrite (Permutation_map f Hp), map_app. by apply submseteq_inserts_r.
Qed.

Lemma filter_submseteq_mono {A} (f : A -> bool) l k : l ⊆+ k -> List.filter f l ⊆+ List.filter f k.
Proof.
  intros [k' Hp]%submseteq_Permutation. rewrite (filter_perm f _ _ Hp), List.filter_app. by apply submseteq_inserts_r.
Qed.

(** Every role the readiness waits for has a bot. *)
Lemma required_have_bots settings r l plan :
  registry_sound settings r -> map bw_bot_role (lp_configs plan) = map fst l ->
  l = List.filter is_active (rr_identities_by_role r) -> st_discord_multi_bot_enabled settings = true ->
  lp_required_roles plan =
    match dedup (map lower (csv_items (st_discord_required_role_bots_csv settings))) with
    | [] => dedup (map bw_bot_role (lp_configs plan))
    | _ => dedup (map lower (csv_items (st_discord_required_role_bots_csv settings)))
    end ->
  incl (lp_required_roles plan) (map bw_bot_role (lp_configs plan)).
Proof.
  intros Hr Hroles -> Hm Hreq role Hin. rewrite Hreq in Hin.
  destruct (dedup (map lower _)) as [| x rest] eqn:Ed; [by apply dedup_In |]. rewrite <- Ed in Hin.
  rewrite dedup_In in Hin. rewrite Hroles.
  assert (Hq : In role (rr_required_roles r)).
  { rewrite (rs_required _ _ Hr). unfold _parse_required_roles. by destruct (map lower _). }
  destruct (rs_present _ _ Hr Hm role Hq) as (p & Hp & Ha & <-). apply in_map, filter_In. done.
Qed.

(** C29: A launch plan that is accepted starts at least one bot; no two bots
    share a role, a bot id or a token, roles are normalized and tokens not
    empty; where the settings list allowed guilds, every bot has some and serves no
    other; and every role the readiness waits for has a bot, so the worker can
    become healthy. *)
Theorem launch_plan_is_sound settings plan :
  build_worker_launch_plan codec str_float expanduser read_text settings = Ret plan ->
  let configs := lp_configs plan in
  configs <> [] /\ NoDup (map bw_bot_role configs) /\ NoDup (map bw_bot_id configs) /\ NoDup (map bw_token configs) /\
  Forall (fun c => norm (bw_bot_role c) = bw_bot_role c /\ truthy (bw_bot_role c) = true /\
    truthy (bw_token c) = true /\
    (_parse_id_allowlist (st_discord_allowed_guild_ids_csv settings) <> [] ->
     bw_allowed_guild_ids c <> [] /\
     incl (bw_allowed_guild_ids c) (_parse_id_allowlist (st_discord_allowed_guild_ids_csv settings)))) configs /\
  incl (lp_required_roles plan) (map bw_bot_role configs).
Proof.
  intros Hp configs. destruct (plan_identities settings plan Hp) as (r & l & Hr & Hsub & Hne & Hall & Hmulti).
  assert (Hl : l ⊆+ rr_identities_by_role r) by (etransitivity; [exact Hsub | apply filter_submseteq]).
  assert (Hin : forall p, In p l -> identity_ok p).
  { intros p Hpin. destruct (rs_ok _ _ Hr) as [_ Hok]. rewrite Forall_forall in Hok. apply Hok.
    eapply elem_of_submseteq; [| exact Hl]. by apply list_elem_of_In. }
  assert (Hroles : map bw_bot_role configs = map fst l) by (apply (Forall2_map_fst (config_for settings)); [by intros ? ? (H & _) | exact Hall]).
  assert (Hids : map bw_bot_id configs = map (fun p => rb_bot_id p.2) l)
    by (apply (Forall2_map_fst (config_for settings)); [by intros ? ? (_ & H & _) | exact Hall]).
  assert (Htok : map bw_token configs = map (fun p => strip (rb_token p.2)) l)
    by (apply (Forall2_map_fst (config_for settings)); [by intros ? ? (_ & _ & H & _) | exact Hall]).
  rewrite Hroles, Hids, Htok. split; [| split; [| split; [| split; [| split]]]].
  - intros E0. apply (f_equal (map bw_bot_role)) in E0. rewrite Hroles in E0. by destruct l.
  - eapply submseteq_NoDup; [by apply map_submseteq | apply (rs_ok _ _ Hr)].
  - eapply submseteq_NoDup; [by apply map_submseteq | apply (rs_ids _ _ Hr)].
  - assert (Hall_tok : List.filter truthy (map (fun p => strip (rb_token p.2)) l) = map (fun p => strip (rb_token p.2)) l).
    { apply filter_all. intros t (p & <- & Hpin)%in_map_iff. apply list_elem_of_In, list_elem_of_lookup in Hpin as [n Hn].
      by destruct (Forall2_lookup_l _ _ _ _ _ Hall Hn) as (c & _ & _ & _ & _ & H4 & _). }
    rewrite <- Hall_tok. eapply submseteq_NoDup; [| apply (rs_tokens _ _ Hr)].
    by apply filter_submseteq_mono, map_submseteq.
  - apply Forall_forall. intros c Hc. apply list_elem_of_lookup in Hc as [n Hc].
    destruct (Forall2_lookup_r _ _ _ _ _ Hall Hc) as (p & Hpl & H1 & _ & H3 & H4 & H5 & _).
    apply list_elem_of_lookup_2, list_elem_of_In in Hpl. destruct (Hin p Hpl) as (_ & Ht & Hn & _).
    rewrite H1, H3. repeat split; try done; apply merge_guilds_spec in H5 as [_ H5]; by apply H5.
  - rewrite <- Hroles. destruct (st_discord_multi_bot_enabled settings) eqn:Em.
    + destruct Hmulti as [Hl' Hreq]. by eapply required_have_bots.
    + rewrite Hmulti. apply incl_refl.
Qed.
End registry.

(** * A sample *)

Definition sample_settings : RuntimeSettings :=
  mk_RuntimeSettings None true "runtime_agent" None "tokens" "auditor,ceo" "http://127.0.0.1:8000" "secret" "/oq" "owner"
    "" "g1,g2" "" (f_of_Z 20) 1900 2 (f_lit 5 1) "".

(** A JSON library that reads one text. *)
Definition sample_codec : json_codec :=
  mk_json_codec (fun _ => "") (fun _ => "") (fun _ => "")
    (fun text => if String.eqb text "tokens"
                 then Some (JObj [("Auditor", JStr "t1");
                                  ("ceo", JObj [("token", JStr "t2"); ("guild_allowlist", JStr "g2,g3")])])
                 else None).

Definition sample_plan : DiscordWorkerLaunchPlan :=
  match build_worker_launch_plan sample_codec (fun _ => "") (fun x => x) (fun _ => None) sample_settings with
  | Ret plan => plan
  | Raise _ => mk_DiscordWorkerLaunchPlan [] []
  end.

Lemma launch_plan_is_sound_witness :
  let configs := lp_configs sample_plan in
  configs <> [] /\ NoDup (map bw_bot_role configs) /\ NoDup (map bw_bot_id configs) /\ NoDup (map bw_token configs) /\
  Forall (fun c => norm (bw_bot_role c) = bw_bot_role c /\ truthy (bw_bot_role c) = true /\
    truthy (bw_token c) = true /\
    (_parse_id_allowlist (st_discord_allowed_guild_ids_csv sample_settings) <> [] ->
     bw_allowed_guild_ids c <> [] /\
     incl (bw_allowed_guild_ids c) (_parse_id_allowlist (st_discord_allowed_guild_ids_csv sample_settings)))) configs /\
  incl (lp_required_roles sample_plan) (map bw_bot_role configs).
Proof.
  apply (launch_plan_is_sound sample_codec (fun _ => "") (fun x => x) (fun _ => None) sample_settings sample_plan).
  vm_compute. reflexivity.
Defined.

Example sample_plan_guilds : map bw_allowed_guild_ids (lp_configs sample_plan) = [["g1"; "g2"]; ["g2"]].
Proof. vm_compute. reflexivity. Qed.
