(* ===== verification/RedisStore.v ===== *)
(** The Redis idempotency store.

    Models [data_access/repositories/postgres/idempotency_cache_store.py]: one
    record per key, claimed by an atomic SET NX EX and updated with KEEPTTL.

    Redis is the interface [RedisClient]; [RedisLaws] states what the commands
    are documented to do, with time: an entry is gone from its deadline on, and
    any time may pass in a command. *)

From Stdlib Require Import Ascii.
From S2P Require Import Prelude PyStr PyData LlmSchemas PyFloat Runtime CommStore AgentBase.

(** * Redis *)

(** The options of SET the store uses. *)
Record set_options : Type := mk_set_options {
  so_nx : bool;
  so_ex : option Z;
  so_keepttl : bool
}.

Class RedisClient (E : Type) : Type := {
  redis_get : string -> E -> option string * E;
  redis_set : string -> string -> set_options -> E -> bool * E;
  (** SCAN MATCH, to its end, and the pipeline of GETs. *)
  redis_scan : string -> E -> list string * E;
  redis_mget : list string -> E -> list (option string) * E
}.

(** Whether a value with that deadline, if any, is still there. *)
Definition alive (t : Z) (x : string * option Z) : bool :=
  match x.2 with Some deadline => (t <? deadline)%Z | None => true end.

Definition at_time (t : Z) (m : gmap string (string * option Z)) : gmap string (string * option Z) := filter (fun kx => alive t kx.2 = true) m.

Definition new_deadline (o : set_options) (t : Z) (old : option (string * option Z)) : option Z :=
  match so_ex o with
  | Some seconds => Some (t + seconds)%Z
  | None => if so_keepttl o then old ≫= snd else None
  end.

Class RedisLaws (E : Type) `{!Oracle E} `{!RedisClient E} : Type := {
  redis_now : E -> Z;
  redis_view : E -> gmap string (string * option Z);
  redis_get_spec : forall k e, let e' := (redis_get k e).2 in
    (redis_now e <= redis_now e')%Z /\ redis_view e' = at_time (redis_now e') (redis_view e) /\
    (redis_get k e).1 = fst <$> redis_view e' !! k;
  redis_set_spec : forall k v o e, let e' := (redis_set k v o e).2 in
    let m := at_time (redis_now e') (redis_view e) in
    (redis_now e <= redis_now e')%Z /\
    if so_nx o && bool_decide (is_Some (m !! k))
    then (redis_set k v o e).1 = false /\ redis_view e' = m
    else (redis_set k v o e).1 = true /\ redis_view e' = <[k := (v, new_deadline o (redis_now e') (m !! k))]> m;
  redis_utcnow : forall e, redis_now (utcnow e).2 = redis_now e /\ redis_view (utcnow e).2 = redis_view e
}.

(** * Records as JSON *)

Definition record_json (r : CacheIdempotencyRecord) : json :=
  JObj [("namespace", JStr (ci_namespace r)); ("key", JStr (ci_key r)); ("payload_hash", JStr (ci_payload_hash r));
        ("status", JStr (ci_status r)); ("attempt_count", JInt (ci_attempt_count r));
        ("result", jpairs (default [] (ci_result r)));
        ("created_at", JStr (isoformat (ci_created_at r))); ("updated_at", JStr (isoformat (ci_updated_at r)))].

(** [int(x)] of a JSON value. *)
Definition json_int (j : json) : outcome Z :=
  match j with
  | JInt z => Ret z
  | JBool b => Ret (if b then 1 else 0)%Z
  | JStr s => match py_int s with Some z => Ret z | None => Raise (ValueError "invalid literal for int()") end
  | JFloat f =>
      match f_trunc f with
      | Some z => Ret z
      | None =>
          Raise (match f with
                 | S754_nan => ValueError "cannot convert float NaN to integer"
                 | _ => OtherError "OverflowError: cannot convert float infinity to integer"
                 end)
      end
  | _ => Raise (OtherError "TypeError: int() argument must be a string or a number")
  end.

Section store.
Context {E : Type} `{!Oracle E} `{!RedisClient E}.
Context (codec : json_codec) (str_float : pyfloat -> string).
Context (namespace : string) (ttl_seconds : Z).

Definition _redis_key (key : string) : string := "idempotency:" +:+ namespace +:+ ":" +:+ key.

Definition _record_to_json (r : CacheIdempotencyRecord) : string := dumps codec (record_json r).

(** [data[k]], as a string. *)
Definition required (data : list (string * json)) (k : string) : outcome string :=
  match jfield data k with
  | Some v => Ret (json_str str_float v)
  | None => Raise (OtherError ("KeyError: " +:+ py_repr k))
  end.

Definition instant_field (data : list (string * json)) (k : string) : outcome datetime :=
  let? text := required data k in
  match fromisoformat text with
  | Some t => Ret t
  | None => Raise (ValueError ("Invalid isoformat string: " +:+ py_repr text))
  end.

(** The pairs of the stored result: items that are no pairs are dropped, and
    only a list, a string or an object can be iterated. *)
Definition parsed_result (data : list (string * json)) : outcome (list (string * string)) :=
  match jfield data "result" with
  | Some (JArr l) =>
      Ret (flat_map (fun item => match item with
                                 | JArr [a; b] => [(json_str str_float a, json_str str_float b)]
                                 | _ => []
                                 end) l)
  | None | Some (JStr _) | Some (JObj _) => Ret []
  | Some _ => Raise (OtherError "TypeError: object is not iterable")
  end.

Definition _record_from_json (raw : string) : outcome (option CacheIdempotencyRecord) :=
  match loads codec raw with
  | None => Ret None
  | Some (JObj data) =>
      let? result := parsed_result data in
      let status := norm (match jfield data "status" with Some v => json_str str_float v | None => "in_progress" end) in
      let status := if mem status ["in_progress"; "completed"] then status else "in_progress" in
      let? ns := required data "namespace" in
      let? key := required data "key" in
      let? payload_hash := required data "payload_hash" in
      let? attempt_count := json_int (match jfield data "attempt_count" with Some v => v | None => JInt 0 end) in
      let? created_at := instant_field data "created_at" in
      let? updated_at := instant_field data "updated_at" in
      Ret (Some (mk_CacheIdempotencyRecord ns key payload_hash status attempt_count
                   (match result with [] => None | _ => Some result end) created_at updated_at))
  | Some _ => Raise (OtherError "AttributeError: object has no attribute 'get'")
  end.

(** * The store *)

Definition rget (k : string) : M E (option string) := fun e => let '(v, e') := redis_get k e in (Ret v, e').

Definition rset (k v : string) (o : set_options) : M E bool := fun e =>
  let '(ok, e') := redis_set k v o e in (Ret ok, e').

Definition now_utc : M E datetime := fun e => let '(t, e') := utcnow e in (Ret t, e').

Definition _get_record (redis_key : string) : M E (option CacheIdempotencyRecord) :=
  let! raw := rget redis_key in
  match raw with
  | None => ret None
  | Some text => of_outcome (_record_from_json text)
  end.

Definition new_record (key payload_hash : string) (now : datetime) : CacheIdempotencyRecord :=
  mk_CacheIdempotencyRecord namespace key payload_hash "in_progress" 0 None now now.

Definition redis_claim (key payload_hash : string) : M E (string * CacheIdempotencyRecord) :=
  let redis_key := _redis_key key in
  let! now := now_utc in
  let record := new_record key payload_hash now in
  let! was_set := rset redis_key (_record_to_json record) (mk_set_options true (Some ttl_seconds) false) in
  if was_set then ret ("new", record)
  else
    let! existing := _get_record redis_key in
    match existing with
    | None =>
        rset redis_key (_record_to_json record) (mk_set_options false (Some ttl_seconds) false) ;! ret ("new", record)
    | Some r =>
        if negb (String.eqb (ci_payload_hash r) payload_hash) then ret ("conflict", r)
        else if String.eqb (ci_status r) "completed" then ret ("replay", r)
        else ret ("in_progress", r)
    end.

Definition keep_ttl : set_options := mk_set_options false None true.

(** The load and the SET that both updates make. *)
Definition redis_update (key : string) (f : datetime -> CacheIdempotencyRecord -> CacheIdempotencyRecord)
    : M E (option CacheIdempotencyRecord) :=
  let redis_key := _redis_key key in
  let! existing := _get_record redis_key in
  match existing with
  | None => ret None
  | Some r =>
      let! now := now_utc in
      let updated := f now r in
      rset redis_key (_record_to_json updated) keep_ttl ;! ret (Some updated)
  end.

Definition redis_increment_attempt (key : string) : M E (option CacheIdempotencyRecord) :=
  redis_update key (fun now r =>
    mk_CacheIdempotencyRecord (ci_namespace r) (ci_key r) (ci_payload_hash r) (ci_status r)
      (ci_attempt_count r + 1) (ci_result r) (ci_created_at r) now).

Definition redis_complete (key : string) (result : list (string * string)) : M E (option CacheIdempotencyRecord) :=
  redis_update key (fun now r =>
    mk_CacheIdempotencyRecord (ci_namespace r) (ci_key r) (ci_payload_hash r) "completed" (ci_attempt_count r)
      (Some (sorted pair_leb result)) (ci_created_at r) now).

Definition redis_get_record (key : string) : M E (option CacheIdempotencyRecord) := _get_record (_redis_key key).

Fixpoint read_records (raw_values : list (option string)) : outcome (list CacheIdempotencyRecord) :=
  match raw_values with
  | [] => Ret []
  | None :: rest => read_records rest
  | Some raw :: rest =>
      let? record := _record_from_json raw in
      let? records := read_records rest in
      Ret (match record with Some r => r :: records | None => records end)
  end.

Definition list_namespace : M E (list CacheIdempotencyRecord) := fun e =>
  let '(keys, e1) := redis_scan ("idempotency:" +:+ namespace +:+ ":*") e in
  match keys with
  | [] => (Ret [], e1)
  | _ => let '(raw_values, e2) := redis_mget keys e1 in (read_records raw_values, e2)
  end.
End store.

(** * What the store guarantees *)

Section facts.
Context {E : Type} `{!Oracle E} `{!RedisClient E} `{!RedisLaws E}.
Context (codec : json_codec) (str_float : pyfloat -> string) (namespace : string) (ttl_seconds : Z).
(** The JSON library reads back a document it wrote, and the clock's instants
    have a four-digit year. *)
Context (codec_ok : forall r, loads codec (dumps codec (record_json r)) = Some (record_json r)).
Context (clock_ok : forall e, valid_datetime (utcnow e).1).

#[local] Abbreviation key_of := (_redis_key namespace).
#[local] Abbreviation text_of := (_record_to_json codec).
#[local] Abbreviation claim := (redis_claim codec str_float namespace ttl_seconds).

Definition storable (r : CacheIdempotencyRecord) : Prop :=
  valid_datetime (ci_created_at r) /\ valid_datetime (ci_updated_at r) /\
  In (ci_status r) ["in_progress"; "completed"].

(** What reading makes of an empty result. *)
Definition reread (r : CacheIdempotencyRecord) : CacheIdempotencyRecord :=
  mk_CacheIdempotencyRecord (ci_namespace r) (ci_key r) (ci_payload_hash r) (ci_status r) (ci_attempt_count r)
    (match ci_result r with Some (p :: l) => Some (p :: l) | _ => None end) (ci_created_at r) (ci_updated_at r).

Lemma parsed_pairs l :
  flat_map (fun item => match item with
                        | JArr [a; b] => [(json_str str_float a, json_str str_float b)]
                        | _ => []
                        end) (map (fun p : string * string => JArr [JStr p.1; JStr p.2]) l) = l.
Proof. induction l as [| [a b] l IH]; [done |]. cbn. by rewrite IH. Qed.

(** A record that was stored is read back as it was, except that an empty
    result becomes none. *)
Theorem redis_record_roundtrip r :
  storable r -> _record_from_json codec str_float (text_of r) = Ret (Some (reread r)).
Proof.
  intros (Hc & Hu & Hs). unfold _record_from_json, _record_to_json. rewrite codec_ok.
  unfold record_json, parsed_result, required, instant_field, required. cbn [jfield String.eqb Ascii.eqb Bool.eqb].
  unfold jpairs. rewrite parsed_pairs. cbn [obind json_str].
  rewrite !isoformat_roundtrip by done. cbn [obind json_int].
  assert (Hn : (if mem (norm (ci_status r)) ["in_progress"; "completed"] then norm (ci_status r) else "in_progress")
               = ci_status r) by (destruct Hs as [<- | [<- | []]]; reflexivity).
  rewrite Hn. unfold reread. by destruct (ci_result r) as [[|] |].
Qed.

Lemma reread_storable r : storable r -> storable (reread r).
Proof. done. Qed.

(** ** Entries survive until their deadline *)

Lemma at_time_alive t m k x : m !! k = Some x -> alive t x = true -> at_time t m !! k = Some x.
Proof. intros Hm Ha. apply map_lookup_filter_Some. done. Qed.

Lemma alive_before t v d : (t < d)%Z -> alive t (v, Some d) = true.
Proof. intros H. unfold alive. by apply Z.ltb_lt. Qed.

Lemma get_alive k k' v d e :
  redis_view e !! k = Some (v, Some d) -> (redis_now (redis_get k' e).2 < d)%Z ->
  redis_view (redis_get k' e).2 !! k = Some (v, Some d).
Proof.
  intros Hv Hd. destruct (redis_get_spec k' e) as (_ & -> & _). apply at_time_alive; [done | by apply alive_before].
Qed.

Lemma get_answer k v d e :
  redis_view e !! k = Some (v, Some d) -> (redis_now (redis_get k e).2 < d)%Z -> (redis_get k e).1 = Some v.
Proof. intros Hv Hd. destruct (redis_get_spec k e) as (_ & _ & ->). by rewrite (get_alive k k v d e). Qed.

Lemma set_other k k' v d x o e :
  k <> k' -> redis_view e !! k = Some (v, Some d) -> (redis_now (redis_set k' x o e).2 < d)%Z ->
  redis_view (redis_set k' x o e).2 !! k = Some (v, Some d).
Proof.
  intros Hne Hv Hd. destruct (redis_set_spec k' x o e) as [_ Hs].
  destruct (so_nx o && _); destruct Hs as [_ ->]; rewrite ?lookup_insert_ne by congruence;
    (apply at_time_alive; [done | by apply alive_before]).
Qed.

Lemma set_nx_refused k v d x s e :
  let o := mk_set_options true s false in
  redis_view e !! k = Some (v, Some d) -> (redis_now (redis_set k x o e).2 < d)%Z ->
  (redis_set k x o e).1 = false /\ redis_view (redis_set k x o e).2 !! k = Some (v, Some d).
Proof.
  intros o Hv Hd. destruct (redis_set_spec k x o e) as [_ Hs].
  assert (Ha := at_time_alive _ _ _ _ Hv (alive_before _ v _ Hd)). cbn [so_nx o andb] in Hs.
  rewrite bool_decide_eq_true_2 in Hs by (by rewrite Ha). destruct Hs as [-> ->]. done.
Qed.

Lemma set_kept k v d x e :
  redis_view e !! k = Some (v, Some d) -> (redis_now (redis_set k x keep_ttl e).2 < d)%Z ->
  redis_view (redis_set k x keep_ttl e).2 !! k = Some (x, Some d).
Proof.
  intros Hv Hd. destruct (redis_set_spec k x keep_ttl e) as [_ Hs].
  assert (Ha := at_time_alive _ _ _ _ Hv (alive_before _ v _ Hd)). cbn [so_nx keep_ttl andb] in Hs.
  destruct Hs as [_ ->]. rewrite lookup_insert_eq. by rewrite Ha.
Qed.

Lemma key_of_inj k k' : key_of k = key_of k' -> k = k'.
Proof. unfold _redis_key. intros H. by do 3 apply string_app_inj_l in H. Qed.

(** ** A claim holds *)

Section claim_holds.
Context (key payload_hash : string) (until : Z).

(** The key is claimed with that hash, until a deadline or later. *)
Definition claimed (e : E) : Prop :=
  exists r d, redis_view e !! key_of key = Some (text_of r, Some d) /\ storable r /\ ci_payload_hash r = payload_hash /\
    (until <= d)%Z.

(** Time goes on, and until the deadline the claim stays. *)
Definition keeps (e e' : E) : Prop :=
  (redis_now e <= redis_now e')%Z /\ ((redis_now e' < until)%Z -> claimed e -> claimed e').

#[local] Instance keeps_preorder : PreOrder keeps.
Proof.
  split; [by intros e; split | intros a b c [H1 H2] [H3 H4]]. split; [lia |].
  intros Hc Ha. apply H4, H2; [done | lia | done].
Qed.

Lemma keeps_get k e : keeps e (redis_get k e).2.
Proof.
  destruct (redis_get_spec k e) as (Ht & _). split; [done |]. intros Hu (r & d & Hv & Hr). exists r, d.
  split; [apply get_alive; [done | lia] | done].
Qed.

Lemma keeps_now e : keeps e (utcnow e).2.
Proof. destruct (redis_utcnow e) as [H1 H2]. unfold keeps, claimed. rewrite H1, H2. done. Qed.

Lemma keeps_set_other k x o e : k <> key -> keeps e (redis_set (key_of k) x o e).2.
Proof.
  intros Hne. destruct (redis_set_spec (key_of k) x o e) as [Ht _]. split; [done |]. intros Hu (r & d & Hv & Hr).
  exists r, d. split; [| done]. apply set_other; [| done | lia]. intros H. by apply Hne, key_of_inj.
Qed.

Lemma keeps_set_nx k x s e : keeps e (redis_set (key_of k) x (mk_set_options true s false) e).2.
Proof.
  destruct (decide (k = key)) as [-> | Hne]; [| by apply keeps_set_other].
  destruct (redis_set_spec (key_of key) x (mk_set_options true s false) e) as [Ht _].
  split; [done |]. intros Hu (r & d & Hv & Hs & Hh & Hd). exists r, d. split; [| done].
  by apply (set_nx_refused (key_of key) (text_of r) d x s e Hv); lia.
Qed.

Lemma keeps_set_claimed x r e :
  storable r -> ci_payload_hash r = payload_hash -> x = text_of r -> keeps e (redis_set (key_of key) x keep_ttl e).2.
Proof.
  intros Hr Hh ->. destruct (redis_set_spec (key_of key) (text_of r) keep_ttl e) as [Ht _]. split; [done |].
  intros Hu (r0 & d & Hv & _ & _ & Hd). exists r, d. split; [| done]. apply (set_kept _ (text_of r0)); [done | lia].
Qed.

Lemma get_record_state k e : (_get_record codec str_float k e).2 = (redis_get k e).2.
Proof. unfold _get_record, bind, rget. destruct (redis_get k e) as [[text |] e1]; done. Qed.

(** While the claim holds, reading the key gives a record with its hash. *)
Lemma get_record_claimed e : claimed e -> (redis_now (redis_get (key_of key) e).2 < until)%Z ->
  exists r, (_get_record codec str_float (key_of key) e).1 = Ret (Some r) /\ storable r /\ ci_payload_hash r = payload_hash.
Proof.
  intros (r & d & Hv & Hs & Hh & Hd) Ht. assert (Hg := get_answer _ _ _ _ Hv ltac:(lia)).
  unfold _get_record, bind, rget. destruct (redis_get (key_of key) e) as [o e1]. cbn in Hg. subst o.
  exists (reread r). unfold of_outcome. cbn [fst]. by rewrite redis_record_roundtrip.
Qed.

Lemma keeps_update k f e :
  (forall now r, valid_datetime now -> storable r -> storable (f now r) /\ ci_payload_hash (f now r) = ci_payload_hash r) ->
  keeps e (redis_update codec str_float namespace k f e).2.
Proof.
  intros Hf. unfold redis_update, bind at 1. pose proof (get_record_state (key_of k) e) as Hst.
  pose proof (keeps_get (key_of k) e) as Hk1. pose proof (get_record_claimed e) as Hcl.
  destruct (_get_record codec str_float (key_of k) e) as [[[r |] | x] e1] eqn:Eg; cbn [snd] in Hst; subst e1; try done.
  unfold bind, now_utc, rset. pose proof (clock_ok (redis_get (key_of k) e).2) as Hnow.
  pose proof (keeps_now (redis_get (key_of k) e).2) as Hk2.
  destruct (utcnow (redis_get (key_of k) e).2) as [now e2]. cbn [fst snd] in Hnow, Hk2.
  assert (Hgoal : keeps e (redis_set (key_of k) (text_of (f now r)) keep_ttl e2).2);
    [| destruct (redis_set _ _ _ e2); exact Hgoal].
  destruct (decide (k = key)) as [-> | Hne].
  - destruct (redis_set_spec (key_of key) (text_of (f now r)) keep_ttl e2) as [Ht _].
    assert (Hk12 : keeps e e2) by (etransitivity; eassumption).
    split; [destruct Hk12; lia |]. intros Hu Hc.
    assert (Hu1 : (redis_now (redis_get (key_of key) e).2 < until)%Z) by (destruct Hk2; lia).
    destruct (Hcl Hc Hu1) as (r' & Hr' & Hs' & Hh'). rewrite Eg in Hr'. injection Hr' as <-.
    destruct (Hf now r Hnow Hs') as [Hs2 Hh2].
    apply (keeps_set_claimed _ (f now r) e2 Hs2 ltac:(congruence) eq_refl); [done |].
    apply Hk12; [lia | done].
  - etransitivity; [exact Hk1 |]. etransitivity; [exact Hk2 |]. by apply keeps_set_other.
Qed.

(** A call of the store. *)
Inductive store_call : Type :=
  | CallClaim (k hash : string)
  | CallIncrement (k : string)
  | CallComplete (k : string) (result : list (string * string))
  | CallGet (k : string).

Definition after_call (e : E) (c : store_call) : E :=
  match c with
  | CallClaim k hash => (claim k hash e).2
  | CallIncrement k => (redis_increment_attempt codec str_float namespace k e).2
  | CallComplete k result => (redis_complete codec str_float namespace k result e).2
  | CallGet k => (redis_get_record codec str_float namespace k e).2
  end.

Lemma keeps_claim k hash e : keeps e (claim k hash e).2.
Proof.
  unfold redis_claim, bind, now_utc. pose proof (keeps_now e) as Hk0. destruct (utcnow e) as [now e0].
  cbn [snd] in Hk0. unfold rset at 1. set (x := text_of (new_record namespace k hash now)).
  pose proof (keeps_set_nx k x (Some ttl_seconds) e0) as Hk1.
  destruct (redis_set (key_of k) x (mk_set_options true (Some ttl_seconds) false) e0) as [[] e1]; cbn [snd] in Hk1.
  { etransitivity; eassumption. }
  assert (Hk01 : keeps e e1) by (etransitivity; eassumption). clear Hk0 Hk1.
  pose proof (get_record_state (key_of k) e1) as Hst. pose proof (keeps_get (key_of k) e1) as Hk2.
  pose proof (get_record_claimed e1) as Hcl.
  destruct (_get_record codec str_float (key_of k) e1) as [[[r |] | y] e2] eqn:Eg; cbn [snd] in Hst; subst e2.
  - assert (Hk12 : keeps e (redis_get (key_of k) e1).2) by (etransitivity; eassumption).
    destruct (negb _); [done |]. by destruct (String.eqb _ _).
  - set (e2 := (redis_get (key_of k) e1).2) in *. unfold rset.
    assert (Hgoal : keeps e (redis_set (key_of k) x (mk_set_options false (Some ttl_seconds) false) e2).2);
      [| destruct (redis_set (key_of k) x _ e2); exact Hgoal].
    destruct (decide (k = key)) as [-> | Hne]; [| etransitivity; [exact Hk01 |]; etransitivity; [exact Hk2 |]; by apply keeps_set_other].
    destruct (redis_set_spec (key_of key) x (mk_set_options false (Some ttl_seconds) false) e2) as [Ht _].
    assert (Hk12 : keeps e e2) by (etransitivity; eassumption).
    split; [destruct Hk12; lia |]. intros Hu Hc. exfalso.
    assert (Hc1 : claimed e1) by (apply Hk01; [destruct Hk2; lia | done]).
    destruct (Hcl Hc1 ltac:(fold e2; lia)) as (r & Hr & _). by rewrite Eg in Hr.
  - etransitivity; eassumption.
Qed.

Lemma keeps_call e c : keeps e (after_call e c).
Proof.
  destruct c as [k hash | k | k result | k]; cbn [after_call].
  - apply keeps_claim.
  - apply keeps_update. intros now r Hn (H1 & H2 & H3). done.
  - apply keeps_update. intros now r Hn (H1 & H2 & H3). split; [| done]. split; [done |]. split; [done |]. right. by left.
  - unfold redis_get_record. rewrite get_record_state. apply keeps_get.
Qed.

Lemma keeps_calls e calls : keeps e (foldl after_call e calls).
Proof.
  revert e. induction calls as [| c calls IH]; intros e; [reflexivity |]. cbn [foldl].
  etransitivity; [apply keeps_call | apply IH].
Qed.
End claim_holds.

(** A claim that is answered new has stored its record for the lifetime. *)
Lemma new_claim_holds key hash e r e1 :
  claim key hash e = (Ret ("new", r), e1) -> claimed key hash (redis_now e1 + ttl_seconds) e1.
Proof.
  unfold redis_claim, bind, now_utc. pose proof (clock_ok e) as Hnow. destruct (utcnow e) as [now e0]. cbn [fst] in Hnow.
  set (rec := new_record namespace key hash now).
  assert (Hrec : storable rec) by (split; [done |]; split; [done |]; by left).
  assert (Hset : forall nx e0 e2, redis_set (key_of key) (text_of rec) (mk_set_options nx (Some ttl_seconds) false) e0 = (true, e2) ->
    claimed key hash (redis_now e2 + ttl_seconds) e2).
  { intros nx a b Hs. destruct (redis_set_spec (key_of key) (text_of rec) (mk_set_options nx (Some ttl_seconds) false) a) as [_ H].
    rewrite Hs in H. cbn [fst snd] in H. destruct (so_nx _ && _); destruct H as [H Hv]; [done |].
    exists rec, (redis_now b + ttl_seconds)%Z. rewrite Hv, lookup_insert_eq. done. }
  unfold rset at 1. destruct (redis_set _ _ _ e0) as [[] a] eqn:Es; [intros [= <- <-]; by eapply Hset |].
  destruct (_get_record _ _ _ a) as [[[x |] | x] b]; [| | done].
  - destruct (negb _); [done |]. by destruct (String.eqb _ _).
  - unfold rset. destruct (redis_set (key_of key) (text_of rec) (mk_set_options false (Some ttl_seconds) false) b) as [ok c] eqn:Es2.
    intros [= <- <-].
    destruct (redis_set_spec (key_of key) (text_of rec) (mk_set_options false (Some ttl_seconds) false) b) as [_ H].
    cbn in H. destruct H as [H _]. rewrite Es2 in H. cbn in H. subst ok. by eapply Hset.
Qed.

(** Once a key is claimed as new, no other claim of it is answered new
    before its lifetime is over, whatever claims, attempts, completions and
    lookups happen on it and on other keys in between, and however much time
    each command takes: a claim with the same payload is answered in progress
    or replay, one with another payload conflict. *)
Theorem redis_claim_holds_for_ttl key hash e r e1 calls hash2 o e2 :
  claim key hash e = (Ret ("new", r), e1) ->
  claim key hash2 (foldl after_call e1 calls) = (o, e2) ->
  (redis_now e2 < redis_now e1 + ttl_seconds)%Z ->
  exists answer r2, o = Ret (answer, r2) /\ ci_payload_hash r2 = hash /\
    (hash2 = hash -> answer = "replay" \/ answer = "in_progress") /\ (hash2 <> hash -> answer = "conflict").
Proof.
  intros Hnew H2 Ht. set (until := (redis_now e1 + ttl_seconds)%Z) in *.
  assert (Hc : claimed key hash until e1) by (by eapply new_claim_holds).
  set (ea := foldl after_call e1 calls) in *.
  destruct (keeps_calls key hash until e1 calls) as [Hm1 Hk1]. fold ea in Hm1, Hk1.
  destruct (keeps_claim key hash until key hash2 ea) as [Hm2 _]. rewrite H2 in Hm2. cbn [snd] in Hm2.
  assert (Hca : claimed key hash until ea) by (apply Hk1; [lia | done]). clear Hk1.
  revert H2. unfold redis_claim, bind, now_utc.
  destruct (keeps_now key hash until ea) as [Hm3 Hk3]. destruct (utcnow ea) as [now e0]. cbn [snd] in Hm3, Hk3.
  unfold rset at 1. set (x := text_of (new_record namespace key hash2 now)).
  destruct (keeps_set_nx key hash until key x (Some ttl_seconds) e0) as [Hm4 Hk4].
  pose proof (fun r d Hv => set_nx_refused (key_of key) (text_of r) d x (Some ttl_seconds) e0 Hv) as Hnx. cbn zeta in Hnx.
  destruct (redis_set (key_of key) x (mk_set_options true (Some ttl_seconds) false) e0) as [ok e3].
  cbn [fst snd] in Hm4, Hk4, Hnx.
  assert (Hok : (redis_now e3 < until)%Z -> ok = false /\ claimed key hash until e3).
  { intros H3. assert (Hc0 : claimed key hash until e0) by (apply Hk3; [lia | done]).
    split; [| by apply Hk4]. destruct Hc0 as (r0 & d0 & Hv0 & _ & _ & Hd0). by apply (Hnx r0 d0 Hv0); lia. }
  destruct ok.
  { intros [= <- <-]. by destruct (Hok Ht). }
  pose proof (get_record_state (key_of key) e3) as Hst. destruct (redis_get_spec (key_of key) e3) as (Hm5 & _).
  pose proof (get_record_claimed key hash until e3) as Hcl. rewrite <- Hst in Hm5, Hcl.
  destruct (_get_record codec str_float (key_of key) e3) as [[[r2 |] | y] e4]; cbn [fst snd] in Hm5, Hcl.
  - intros H2. assert (He : e4 = e2) by (destruct (negb _); [| destruct (String.eqb (ci_status r2) _)]; by injection H2).
    subst e4. destruct (Hok ltac:(lia)) as [_ Hc3]. destruct (Hcl Hc3 Ht) as (r3 & [= <-] & _ & Hh).
    destruct (String.eqb (ci_payload_hash r2) hash2) eqn:Eh; cbn [negb] in H2.
    + apply String.eqb_eq in Eh. destruct (String.eqb (ci_status r2) "completed"); injection H2 as <-;
        (eexists _, r2; repeat split; [done | auto | congruence]).
    + apply String.eqb_neq in Eh. injection H2 as <-. exists "conflict", r2. repeat split; [done | congruence].
  - unfold rset. destruct (redis_set_spec (key_of key) x (mk_set_options false (Some ttl_seconds) false) e4) as [Hm6 _].
    destruct (redis_set (key_of key) x _ e4) as [ok e5]. intros [= <- <-]. cbn [snd] in Hm6.
    destruct (Hok ltac:(lia)) as [_ Hc3]. by destruct (Hcl Hc3 ltac:(lia)) as (r3 & ? & _).
  - intros [= <- <-]. destruct (Hok ltac:(lia)) as [_ Hc3]. by destruct (Hcl Hc3 Ht) as (r3 & ? & _).
Qed.
End facts.

(** * Samples *)

(** A Redis of one process: every command takes the next delay. *)
Record toy_redis : Type := mk_toy_redis {
  ty_now : Z;
  ty_data : gmap string (string * option Z);
  ty_delays : list nat
}.

Definition ty_tick (t : toy_redis) : Z :=
  (ty_now t + Z.of_nat (match ty_delays t with [] => 0 | d :: _ => d end))%Z.

#[local] Instance toy_oracle : Oracle toy_redis := {
  uuid4 := fun t => ("u", t);
  utcnow := fun t => (mk_datetime 2026 3 24 12 0 0 0, t)
}.

#[local] Instance toy_client : RedisClient toy_redis := {
  redis_get := fun k t =>
    let m := at_time (ty_tick t) (ty_data t) in (fst <$> m !! k, mk_toy_redis (ty_tick t) m (tail (ty_delays t)));
  redis_set := fun k v o t =>
    let m := at_time (ty_tick t) (ty_data t) in
    if so_nx o && bool_decide (is_Some (m !! k)) then (false, mk_toy_redis (ty_tick t) m (tail (ty_delays t)))
    else (true, mk_toy_redis (ty_tick t) (<[k := (v, new_deadline o (ty_tick t) (m !! k))]> m) (tail (ty_delays t)));
  redis_scan := fun _ t => ([], t);
  redis_mget := fun keys t => (map (fun k => fst <$> ty_data t !! k) keys, t)
}.

#[local] Instance toy_laws : RedisLaws toy_redis.
Proof.
  refine {| redis_now := ty_now; redis_view := ty_data |}.
  - intros k e. cbn. unfold ty_tick. repeat split; lia.
  - intros k v o e. unfold redis_set, toy_client. cbn zeta.
    destruct (so_nx o && bool_decide _) eqn:Ex; cbn [snd fst ty_now ty_data]; rewrite Ex; (split; [unfold ty_tick; lia | done]).
  - done.
Defined.

(** A JSON library for the store's documents: a text is a row of bits. *)
Fixpoint bits (p : positive) : string :=
  match p with
  | xH => ""
  | xO p' => String "0"%char (bits p')
  | xI p' => String "1"%char (bits p')
  end.

Fixpoint unbits (s : string) : positive :=
  match s with
  | EmptyString => xH
  | String c s' => if Ascii.eqb c "0"%char then xO (unbits s') else xI (unbits s')
  end.

Lemma unbits_bits p : unbits (bits p) = p.
Proof. induction p as [p IH | p IH |]; cbn; by rewrite ?IH. Qed.

Definition row : Type :=
  string * string * string * string * Z * list (string * string) * string * string.

Definition row_of (j : json) : option row :=
  match j with
  | JObj [(_, JStr a); (_, JStr b); (_, JStr c); (_, JStr d); (_, JInt z); (_, l); (_, JStr f); (_, JStr g)] =>
      Some (a, b, c, d, z, jpairs_read l, f, g)
  | _ => None
  end.

Definition json_of_row (r : row) : json :=
  let '(a, b, c, d, z, l, f, g) := r in
  JObj [("namespace", JStr a); ("key", JStr b); ("payload_hash", JStr c); ("status", JStr d); ("attempt_count", JInt z);
        ("result", jpairs l); ("created_at", JStr f); ("updated_at", JStr g)].

Definition bit_codec : json_codec :=
  let write j := match row_of j with Some r => bits (encode r) | None => "" end in
  mk_json_codec write write write (fun text => json_of_row <$> decode (A := row) (unbits text)).

Lemma bit_codec_ok r : loads bit_codec (dumps bit_codec (record_json r)) = Some (record_json r).
Proof.
  unfold bit_codec, record_json. cbn [loads dumps row_of]. rewrite unbits_bits, jpairs_roundtrip, decode_encode. done.
Qed.

Lemma toy_clock_ok (e : toy_redis) : valid_datetime (utcnow e).1.
Proof. unfold valid_datetime. cbn. lia. Qed.

#[local] Abbreviation sample_claim := (redis_claim (E := toy_redis) bit_codec (fun _ => "") "ingress" 100).

Definition sample_redis : toy_redis := mk_toy_redis 0 ∅ [].

Definition sample_first : outcome (string * CacheIdempotencyRecord) * toy_redis := sample_claim "k" "h" sample_redis.

Definition sample_record : CacheIdempotencyRecord := new_record "ingress" "k" "h" (mk_datetime 2026 3 24 12 0 0 0).

Definition sample_later : toy_redis :=
  foldl (after_call bit_codec (fun _ => "") "ingress" 100) sample_first.2
    [CallIncrement "k"; CallClaim "other" "h"; CallComplete "k" [("status", "ok")]].

Lemma redis_claim_holds_for_ttl_witness :
  exists answer r2, (sample_claim "k" "h" sample_later).1 = Ret (answer, r2) /\ ci_payload_hash r2 = "h" /\
    ("h" = "h" -> answer = "replay" \/ answer = "in_progress") /\ ("h" <> "h" -> answer = "conflict").
Proof.
  eapply (redis_claim_holds_for_ttl bit_codec (fun _ => "") "ingress" 100 bit_codec_ok toy_clock_ok "k" "h" sample_redis
    sample_record sample_first.2 [CallIncrement "k"; CallClaim "other" "h"; CallComplete "k" [("status", "ok")]] "h"
    _ (sample_claim "k" "h" sample_later).2).
  - vm_compute. reflexivity.
  - apply surjective_pairing.
  - vm_compute. reflexivity.
Defined.

Lemma redis_record_roundtrip_witness :
  _record_from_json bit_codec (fun _ => "") (_record_to_json bit_codec sample_record) = Ret (Some (reread sample_record)).
Proof.
  apply (redis_record_roundtrip bit_codec (fun _ => "") bit_codec_ok). split; [| split].
  - unfold valid_datetime. cbn. lia.
  - unfold valid_datetime. cbn. lia.
  - by left.
Defined.

(** An update that loses the race with the expiry stores the record anew, and
    without a deadline: KEEPTTL has nothing to keep. *)
Example late_update_never_expires :
  let start := mk_toy_redis 0 ∅ [0; 0; 200]%nat in
  let claimed := (sample_claim "k" "h" start).2 in
  let updated := (redis_increment_attempt bit_codec (fun _ => "") "ingress" "k" claimed).2 in
  ty_now updated = 200%Z /\ snd <$> ty_data updated !! "idempotency:ingress:k" = Some None.
Proof. vm_compute. done. Qed.
