(* ===== verification/CommRepo.v ===== *)
(** The message repository in PostgreSQL.

    Models [data_access/repositories/postgres/communication_repository.py]: the
    [messages] and [dead_letters] tables, whose primary keys are [ledger_id] and
    [dead_letter_id].  The governed read tools list its dead letters.

    [transitions] is JSONB: the column holds the document.  Every statement and
    every commit fails when the outside world says so ([DbFaults]).  [ORDER BY
    created_at] leaves equal times open: the orderings are parameters.  A stored
    [retryable] that is neither null nor a boolean, which the code never writes,
    is an error here. *)

From S2P Require Import Prelude PyStr PyData LlmSchemas Task Budget LoopControl Policy Runtime CommStore AgentBase RedisStore.

(** A row of [messages]. *)
Record ledger_row : Type := mk_ledger_row {
  lr_ledger_id : string;
  lr_task_id : string;
  lr_trace_id : string;
  lr_message_id : string;
  lr_external_message_id : string;
  lr_connector : string;
  lr_command : string;
  lr_target : string;
  lr_route_key : string;
  lr_endpoint : string;
  lr_attempt : Z;
  lr_state : string;
  lr_dispatch_id : option string;
  lr_delivery_id : option string;
  lr_retryable : option bool;
  lr_error_code : option string;
  lr_error_message : option string;
  lr_transitions : json;
  lr_created_at : datetime;
  lr_updated_at : datetime
}.

(** The process's outside world and the two tables in insertion order. *)
Record comm_db (E : Type) : Type := mk_comm_db {
  cd_ext : E;
  cd_messages : list ledger_row;
  cd_dead_letters : list CommunicationDeadLetterRecord
}.
Arguments mk_comm_db {E}.
Arguments cd_ext {E}.
Arguments cd_messages {E}.
Arguments cd_dead_letters {E}.

(** What [create_record] and [create_dead_letter_record] are told. *)
Record dispatch_fields : Type := mk_dispatch_fields {
  df_task_id : string;
  df_trace_id : string;
  df_message_id : string;
  df_external_message_id : string;
  df_connector : string;
  df_command : string;
  df_target : string;
  df_route_key : string;
  df_endpoint : string
}.

(** The arguments of [append_transition]. *)
Record transition_update : Type := mk_transition_update {
  tu_state : string;
  tu_reason_code : string;
  tu_message : string;
  tu_retryable : option bool;
  tu_dispatch_id : option string;
  tu_delivery_id : option string;
  tu_error_code : option string;
  tu_error_message : option string
}.

(** * Rows *)

Definition _transition_to_dict (t : CommunicationStateTransition) : json :=
  JObj [("state", JStr (ct_state t)); ("changed_at", JStr (isoformat (ct_changed_at t)));
        ("reason_code", JStr (ct_reason_code t)); ("message", JStr (ct_message t));
        ("retryable", match ct_retryable t with Some b => JBool b | None => JNull end)].

Definition transitions_json (l : list CommunicationStateTransition) : json := JArr (map _transition_to_dict l).

Definition _record_to_params (r : CommunicationMessageRecord) : ledger_row :=
  mk_ledger_row (cm_ledger_id r) (cm_task_id r) (cm_trace_id r) (cm_message_id r) (cm_external_message_id r)
    (cm_connector r) (cm_command r) (cm_target r) (cm_route_key r) (cm_endpoint r) (cm_attempt r) (cm_state r)
    (cm_dispatch_id r) (cm_delivery_id r) (cm_retryable r) (cm_error_code r) (cm_error_message r)
    (transitions_json (cm_transitions r)) (cm_created_at r) (cm_updated_at r).

Section repository.
Context {E : Type} `{!Oracle E} `{!DbFaults E}.
Context (codec : json_codec) (str_float : pyfloat -> string).
Context (messages_by_time : list ledger_row -> list ledger_row).
Context (dead_letters_by_time : list CommunicationDeadLetterRecord -> list CommunicationDeadLetterRecord).

#[local] Abbreviation S := (comm_db E).

Definition cd_on_ext {A} (f : E -> A * E) : M S A := fun s =>
  let '(a, e) := f (cd_ext s) in (Ret a, mk_comm_db e (cd_messages s) (cd_dead_letters s)).

(** [row.get("transitions") or "[]"], parsed when it is a text. *)
Definition stored_transitions (raw : json) : outcome (list json) :=
  if negb (json_truthy raw) then Ret []
  else match raw with
       | JArr l => Ret l
       | JStr text =>
           match loads codec text with
           | Some (JArr l) => Ret l
           | Some _ => Ret []
           | None => Raise (ValueError "JSONDecodeError")
           end
       | _ => Ret []
       end.

Definition stored_retryable (d : list (string * json)) : outcome (option bool) :=
  match jfield d "retryable" with
  | None | Some JNull => Ret None
  | Some (JBool b) => Ret (Some b)
  | Some _ => Raise (OtherError "TypeError: retryable is not a boolean")
  end.

(** A transition without a written time gets the present one. *)
Definition _transition_from_dict (j : json) : M S CommunicationStateTransition :=
  match j with
  | JObj d =>
      let! changed_at :=
        match jfield d "changed_at" with
        | Some (JStr _) => of_outcome (instant_field str_float d "changed_at")
        | _ => cd_on_ext utcnow
        end in
      let! state := of_outcome (required str_float d "state") in
      let! reason_code := of_outcome (required str_float d "reason_code") in
      let! message := of_outcome (required str_float d "message") in
      let! retryable := of_outcome (stored_retryable d) in
      ret (mk_CommunicationStateTransition state changed_at reason_code message retryable)
  | _ => raise (OtherError "AttributeError: object has no attribute 'get'")
  end.

Fixpoint transitions_from (l : list json) : M S (list CommunicationStateTransition) :=
  match l with
  | [] => ret []
  | j :: l' =>
      let! t := _transition_from_dict j in
      let! ts := transitions_from l' in
      ret (t :: ts)
  end.

Definition _record_from_row (row : ledger_row) : M S CommunicationMessageRecord :=
  let! raw := of_outcome (stored_transitions (lr_transitions row)) in
  let! transitions := transitions_from raw in
  ret (mk_CommunicationMessageRecord (lr_ledger_id row) (lr_task_id row) (lr_trace_id row) (lr_message_id row)
         (lr_external_message_id row) (lr_connector row) (lr_command row) (lr_target row) (lr_route_key row)
         (lr_endpoint row) (lr_attempt row) (lr_state row) (text_or_none (lr_dispatch_id row))
         (text_or_none (lr_delivery_id row)) (lr_retryable row) (text_or_none (lr_error_code row))
         (text_or_none (lr_error_message row)) transitions (lr_created_at row) (lr_updated_at row)).

Fixpoint records_from (rows : list ledger_row) : M S (list CommunicationMessageRecord) :=
  match rows with
  | [] => ret []
  | row :: rows' =>
      let! r := _record_from_row row in
      let! rs := records_from rows' in
      ret (r :: rs)
  end.

Definition _dead_letter_from_row (r : CommunicationDeadLetterRecord) : CommunicationDeadLetterRecord :=
  mk_CommunicationDeadLetterRecord (dl_dead_letter_id r) (dl_task_id r) (dl_trace_id r) (dl_principal_id r)
    (dl_idempotency_key r) (dl_message_id r) (dl_external_message_id r) (dl_connector r) (dl_command r) (dl_target r)
    (dl_route_key r) (dl_endpoint r) (dl_error_code r) (dl_error_message r) (dl_attempts r)
    (text_or_none (dl_ledger_id r)) (dl_created_at r).

(** * Statements *)

(** One answer of the database: it may refuse. *)
Definition statement {A} (m : M S A) : M S A :=
  let! fault := cd_on_ext db_fault in
  match fault with Some x => raise x | None => m end.

(** [session.execute(..)] and [session.commit()]: nothing is stored before the
    commit. *)
Definition in_transaction (check : S -> outcome unit) (change : S -> S) : M S unit :=
  statement (let! s := get in of_outcome (check s)) ;! statement (modify change).

Definition set_messages (f : list ledger_row -> list ledger_row) (s : S) : S :=
  mk_comm_db (cd_ext s) (f (cd_messages s)) (cd_dead_letters s).

Definition duplicate : outcome unit := Raise (DatabaseError "duplicate key value violates unique constraint").

Definition has_id (id : string) (row : ledger_row) : bool := String.eqb (lr_ledger_id row) id.

Definition insert_message (row : ledger_row) : M S unit :=
  in_transaction (fun s => if existsb (has_id (lr_ledger_id row)) (cd_messages s) then duplicate else Ret tt)
    (set_messages (fun rows => rows ++ [row])).

(** * Messages *)

Definition new_message (f : dispatch_fields) (attempt : Z) (now : datetime) (ledger_id : string) : CommunicationMessageRecord :=
  mk_CommunicationMessageRecord ledger_id (df_task_id f) (df_trace_id f) (df_message_id f) (df_external_message_id f)
    (df_connector f) (df_command f) (df_target f) (df_route_key f) (df_endpoint f) attempt "prepared" None None None None
    None
    [mk_CommunicationStateTransition "prepared" now "dispatch_prepared" "communication dispatch prepared" None] now now.

Definition create_record (f : dispatch_fields) (attempt : Z) : M S CommunicationMessageRecord :=
  let! now := cd_on_ext utcnow in
  let! ledger_id := cd_on_ext uuid4 in
  let record := new_message f attempt now ledger_id in
  insert_message (_record_to_params record) ;! ret record.

Definition get_record (ledger_id : string) : M S (option CommunicationMessageRecord) :=
  let! row := statement (gets (fun s => List.find (has_id ledger_id) (cd_messages s))) in
  match row with
  | None => ret None
  | Some row => let! r := _record_from_row row in ret (Some r)
  end.

(** [replace(current, ..)]. *)
Definition replaced (current : CommunicationMessageRecord) (u : transition_update) (now : datetime)
    : CommunicationMessageRecord :=
  let transition := mk_CommunicationStateTransition (tu_state u) now (tu_reason_code u) (tu_message u) (tu_retryable u) in
  mk_CommunicationMessageRecord (cm_ledger_id current) (cm_task_id current) (cm_trace_id current) (cm_message_id current)
    (cm_external_message_id current) (cm_connector current) (cm_command current) (cm_target current)
    (cm_route_key current) (cm_endpoint current) (cm_attempt current) (tu_state u)
    (coalesce (tu_dispatch_id u) (cm_dispatch_id current)) (coalesce (tu_delivery_id u) (cm_delivery_id current))
    (tu_retryable u) (tu_error_code u) (tu_error_message u) (cm_transitions current ++ [transition])
    (cm_created_at current) now.

(** The [UPDATE], on one row. *)
Definition update_row (u : transition_update) (updated : CommunicationMessageRecord) (row : ledger_row) : ledger_row :=
  mk_ledger_row (lr_ledger_id row) (lr_task_id row) (lr_trace_id row) (lr_message_id row) (lr_external_message_id row)
    (lr_connector row) (lr_command row) (lr_target row) (lr_route_key row) (lr_endpoint row) (lr_attempt row)
    (cm_state updated) (coalesce (tu_dispatch_id u) (lr_dispatch_id row)) (coalesce (tu_delivery_id u) (lr_delivery_id row))
    (tu_retryable u) (tu_error_code u) (tu_error_message u) (transitions_json (cm_transitions updated))
    (lr_created_at row) (cm_updated_at updated).

(** [append_transition] after its read, which is a transaction of its own. *)
Definition append_store (ledger_id : string) (u : transition_update) (current : CommunicationMessageRecord)
    : M S CommunicationMessageRecord :=
  let! now := cd_on_ext utcnow in
  let updated := replaced current u now in
  in_transaction (fun _ => Ret tt)
    (set_messages (map (fun row => if has_id ledger_id row then update_row u updated row else row))) ;!
  ret updated.

Definition append_transition (ledger_id : string) (u : transition_update) : M S (option CommunicationMessageRecord) :=
  let! current := get_record ledger_id in
  match current with
  | None => ret None
  | Some current => let! updated := append_store ledger_id u current in ret (Some updated)
  end.

Definition list_records_for_task (task_id : string) : M S (list CommunicationMessageRecord) :=
  let! rows := statement (gets (fun s =>
    messages_by_time (List.filter (fun row => String.eqb (lr_task_id row) task_id) (cd_messages s)))) in
  records_from rows.

Definition list_records : M S (list CommunicationMessageRecord) :=
  let! rows := statement (gets (fun s => messages_by_time (cd_messages s))) in
  records_from rows.

(** * Dead letters *)

Definition create_dead_letter_record (f : dispatch_fields) (principal_id idempotency_key error_code error_message : string)
    (attempts : Z) (ledger_id : option string) : M S CommunicationDeadLetterRecord :=
  let! dead_letter_id := cd_on_ext uuid4 in
  let! created_at := cd_on_ext utcnow in
  let record := mk_CommunicationDeadLetterRecord dead_letter_id (df_task_id f) (df_trace_id f) principal_id
    idempotency_key (df_message_id f) (df_external_message_id f) (df_connector f) (df_command f) (df_target f)
    (df_route_key f) (df_endpoint f) error_code error_message attempts ledger_id created_at in
  in_transaction
    (fun s => if existsb (fun r => String.eqb (dl_dead_letter_id r) dead_letter_id) (cd_dead_letters s)
              then duplicate else Ret tt)
    (fun s => mk_comm_db (cd_ext s) (cd_messages s) (cd_dead_letters s ++ [record])) ;!
  ret record.

Definition get_dead_letter_record (dead_letter_id : string) : M S (option CommunicationDeadLetterRecord) :=
  statement (gets (fun s =>
    _dead_letter_from_row <$> List.find (fun r => String.eqb (dl_dead_letter_id r) dead_letter_id) (cd_dead_letters s))).

Definition list_dead_letter_records : M S (list CommunicationDeadLetterRecord) :=
  statement (gets (fun s => map _dead_letter_from_row (dead_letters_by_time (cd_dead_letters s)))).
End repository.

(** * What the repository guarantees *)

Section facts.
Context {E : Type} `{!Oracle E} `{!DbFaults E}.
Context (codec : json_codec) (str_float : pyfloat -> string).
Context (messages_by_time : list ledger_row -> list ledger_row).
Context (dead_letters_by_time : list CommunicationDeadLetterRecord -> list CommunicationDeadLetterRecord).
(** The clock's instants have a four-digit year. *)
Context (clock_ok : forall e, valid_datetime (utcnow e).1).

#[local] Abbreviation S := (comm_db E).
#[local] Abbreviation read := (_record_from_row codec str_float).

(** ** Rows read back *)

Definition dated (t : CommunicationStateTransition) : Prop := valid_datetime (ct_changed_at t).

(** The record a row with these transitions is read as. *)
Definition row_record (row : ledger_row) (ts : list CommunicationStateTransition) : CommunicationMessageRecord :=
  mk_CommunicationMessageRecord (lr_ledger_id row) (lr_task_id row) (lr_trace_id row) (lr_message_id row)
    (lr_external_message_id row) (lr_connector row) (lr_command row) (lr_target row) (lr_route_key row)
    (lr_endpoint row) (lr_attempt row) (lr_state row) (text_or_none (lr_dispatch_id row))
    (text_or_none (lr_delivery_id row)) (lr_retryable row) (text_or_none (lr_error_code row))
    (text_or_none (lr_error_message row)) ts (lr_created_at row) (lr_updated_at row).

(** Reading makes optional texts that are empty none. *)
Definition unblanked (r : CommunicationMessageRecord) : CommunicationMessageRecord :=
  row_record (_record_to_params r) (cm_transitions r).

Lemma transition_read t (s : S) :
  dated t -> _transition_from_dict str_float (_transition_to_dict t) s = (Ret t, s).
Proof.
  intros Ht. unfold _transition_from_dict, _transition_to_dict, bind, of_outcome, instant_field, required, stored_retryable.
  cbn -[isoformat fromisoformat]. rewrite isoformat_roundtrip by done. destruct t as [a b c d [[] |]]; done.
Qed.

Lemma transitions_read ts (s : S) :
  Forall dated ts -> transitions_from str_float (map _transition_to_dict ts) s = (Ret ts, s).
Proof.
  induction 1 as [| t ts Ht _ IH]; [done |]. cbn -[_transition_from_dict _transition_to_dict].
  unfold bind. by rewrite transition_read, IH.
Qed.

Lemma row_read row ts (s : S) :
  lr_transitions row = transitions_json ts -> Forall dated ts -> read row s = (Ret (row_record row ts), s).
Proof.
  intros Hrow Hts. unfold _record_from_row, bind, of_outcome. rewrite Hrow.
  assert (Hs : stored_transitions codec (transitions_json ts) = Ret (map _transition_to_dict ts)).
  { unfold stored_transitions, transitions_json. by destruct ts. }
  rewrite Hs, transitions_read by done. done.
Qed.

(** A stored record is read back as it was, but for empty optional texts. *)
Theorem ledger_row_roundtrip r (s : S) :
  Forall dated (cm_transitions r) -> read (_record_to_params r) s = (Ret (unblanked r), s).
Proof. intros H. by apply row_read. Qed.

(** ** Histories *)

(** The row's history starts prepared and ends in the row's state. *)
Definition history (row : ledger_row) (ts : list CommunicationStateTransition) : Prop :=
  lr_transitions row = transitions_json ts /\ Forall dated ts /\
  (ct_state <$> head ts) = Some "prepared" /\ (ct_state <$> last ts) = Some (lr_state row).

Definition message_ids (s : S) : list string := map lr_ledger_id (cd_messages s).

Definition sound (s : S) : Prop :=
  NoDup (message_ids s) /\ Forall (fun row => exists ts, history row ts) (cd_messages s).

(** The same message, with nothing removed from its history. *)
Definition extends (row row' : ledger_row) : Prop :=
  lr_ledger_id row' = lr_ledger_id row /\ lr_task_id row' = lr_task_id row /\ lr_created_at row' = lr_created_at row /\
  exists l more, lr_transitions row = JArr l /\ lr_transitions row' = JArr (l ++ more).

Definition grows (s s' : S) : Prop :=
  (exists kept new, cd_messages s' = kept ++ new /\ Forall2 extends (cd_messages s) kept) /\
  (exists more, cd_dead_letters s' = cd_dead_letters s ++ more).

Definition repo_step (s s' : S) : Prop := sound s -> sound s' /\ grows s s'.

Lemma extends_refl row ts : history row ts -> extends row row.
Proof. intros (H & _). repeat split. exists (map _transition_to_dict ts), []. by rewrite app_nil_r. Qed.

Lemma extends_trans a b c : extends a b -> extends b c -> extends a c.
Proof.
  intros (H1 & H2 & H3 & l & more & H4 & H5) (G1 & G2 & G3 & l' & more' & G4 & G5).
  repeat split; [congruence.. |]. rewrite H5 in G4. injection G4 as <-. exists l, (more ++ more').
  by rewrite app_assoc.
Qed.

Lemma same_extends rows : Forall (fun row => exists ts, history row ts) rows -> Forall2 extends rows rows.
Proof. induction 1 as [| row rows [ts Hts] _ IH]; constructor; [by eapply extends_refl | done]. Qed.

Lemma grows_refl s : sound s -> grows s s.
Proof.
  intros [_ Hs]. split; [| by exists []; rewrite app_nil_r].
  exists (cd_messages s), []. split; [by rewrite app_nil_r | by apply same_extends].
Qed.

Lemma grows_trans a b c : grows a b -> grows b c -> grows a c.
Proof.
  intros [(k1 & n1 & E1 & F1) (d1 & D1)] [(k2 & n2 & E2 & F2) (d2 & D2)]. split.
  - rewrite E1 in F2. apply Forall2_app_inv_l in F2 as (k3 & k4 & F3 & _ & ->).
    exists k3, (k4 ++ n2). split; [by rewrite E2, app_assoc |].
    eapply Forall2_trans; [| done..]. intros. by eapply extends_trans.
  - exists (d1 ++ d2). by rewrite D2, D1, app_assoc.
Qed.

#[local] Instance repo_step_preorder : PreOrder repo_step.
Proof.
  split; [intros s Hs; split; [done | by apply grows_refl] |]. intros a b c H1 H2 Ha.
  destruct (H1 Ha) as [Hb Hab]. destruct (H2 Hb) as [Hc Hbc]. split; [done | by eapply grows_trans].
Qed.

(** A change of the outside world only. *)
Definition same_tables (s s' : S) : Prop := cd_messages s' = cd_messages s /\ cd_dead_letters s' = cd_dead_letters s.

#[local] Instance same_tables_preorder : PreOrder same_tables.
Proof. split; [done |]. intros a b c [H1 H2] [H3 H4]. by split; congruence. Qed.

Lemma same_step s s' : same_tables s s' -> repo_step s s'.
Proof.
  intros [Hm Hd] Hs. assert (Hs' : sound s') by (unfold sound, message_ids; rewrite Hm; exact Hs).
  split; [done |]. pose proof (grows_refl s' Hs') as Hg. unfold grows in *. by rewrite Hm, Hd in Hg |- *.
Qed.

Lemma same_ext {A} (f : E -> A * E) : tracks same_tables (cd_on_ext f).
Proof. intros s. unfold cd_on_ext. by destruct (f (cd_ext s)). Qed.

Lemma tracks_statement {A} (R : S -> S -> Prop) `{!PreOrder R} (m : M S A) :
  (forall s s', same_tables s s' -> R s s') -> tracks R m -> tracks R (statement m).
Proof.
  intros Hsame Hm. apply tracks_bind; [done | intros s; apply Hsame, same_ext |].
  intros [x |]; [apply tracks_raise | exact Hm]. done.
Qed.

Lemma same_transition j : tracks same_tables (_transition_from_dict str_float j).
Proof.
  destruct j; try apply tracks_raise; try apply _. unfold _transition_from_dict.
  apply tracks_bind; [apply _ | | intros]; [case_match; [case_match |]; try apply same_ext; apply tracks_of_outcome; apply _ |].
  repeat (apply tracks_bind; [apply _ | apply tracks_of_outcome; apply _ | intros]). apply tracks_ret; apply _.
Qed.

Lemma same_transitions l : tracks same_tables (transitions_from str_float l).
Proof.
  induction l as [| j l IH]; [apply tracks_ret; apply _ |]. apply tracks_bind; [apply _ | apply same_transition | intros].
  apply tracks_bind; [apply _ | exact IH | intros]. apply tracks_ret; apply _.
Qed.

Lemma same_row_read row : tracks same_tables (read row).
Proof.
  apply tracks_bind; [apply _ | apply tracks_of_outcome; apply _ | intros].
  apply tracks_bind; [apply _ | apply same_transitions | intros]. apply tracks_ret; apply _.
Qed.

Lemma same_reads rows : tracks same_tables (records_from codec str_float rows).
Proof.
  induction rows as [| row rows IH]; [apply tracks_ret; apply _ |]. apply tracks_bind; [apply _ | apply same_row_read | intros].
  apply tracks_bind; [apply _ | exact IH | intros]. apply tracks_ret; apply _.
Qed.

Lemma same_gets {A} (f : S -> A) : tracks same_tables (statement (gets f)).
Proof. apply tracks_statement; [apply _ | done |]. apply tracks_gets; apply _. Qed.

(** A transaction leaves the tables, or makes its change when it was allowed. *)
Lemma transaction_cases check change s :
  match in_transaction check change s with
  | (Ret _, s') => exists s1, same_tables s s1 /\ s' = change s1 /\ exists s2, same_tables s s2 /\ check s2 = Ret tt
  | (Raise _, s') => same_tables s s'
  end.
Proof.
  unfold in_transaction, statement, bind, get, of_outcome, modify, raise.
  pose proof (same_ext db_fault s) as H1. destruct (cd_on_ext db_fault s) as [[[x |] | x] s1]; [done | | done].
  cbn [snd] in H1. destruct (check s1) as [[] | x] eqn:Hc; [| done].
  pose proof (same_ext db_fault s1) as H2. destruct (cd_on_ext db_fault s1) as [[[x |] | x] s2]; cbn [snd] in H2.
  - by etransitivity.
  - exists s2. split; [by etransitivity |]. split; [done |]. by exists s1.
  - by etransitivity.
Qed.

(** ** The writing operations *)

Lemma history_of_new f attempt now id :
  valid_datetime now -> exists ts, history (_record_to_params (new_message f attempt now id)) ts.
Proof.
  intros Hn. exists (cm_transitions (new_message f attempt now id)).
  split; [reflexivity |]. split; [by apply Forall_singleton | done].
Qed.

Lemma existsb_ids id s : existsb (has_id id) (cd_messages s) = false -> ~ In id (message_ids s).
Proof.
  intros H Hin. apply in_map_iff in Hin as (r & <- & Hr). apply not_true_iff_false in H. apply H.
  apply existsb_exists. exists r. split; [done |]. unfold has_id. by rewrite String.eqb_refl.
Qed.

Lemma insert_step row ts : history row ts -> tracks repo_step (insert_message row).
Proof.
  intros Hrow s. unfold insert_message. pose proof (transaction_cases
    (fun s => if existsb (has_id (lr_ledger_id row)) (cd_messages s) then duplicate else Ret tt)
    (set_messages (fun rows => rows ++ [row])) s) as Hc.
  destruct (in_transaction _ _ s) as [[[] | x] s']; [| by apply same_step].
  destruct Hc as (s1 & H1 & -> & s2 & H2 & Hnew). destruct (existsb _ _) eqn:Hid; [done |]. apply existsb_ids in Hid.
  transitivity s1; [by apply same_step |]. intros [Hnd Hall]. unfold message_ids in *.
  rewrite (proj1 H2), <- (proj1 H1) in Hid. cbn [snd]. unfold set_messages. split; [split; cbn [cd_messages] |].
  - unfold message_ids. cbn [cd_messages]. rewrite map_app. apply NoDup_app. split; [done |].
    split; [| apply NoDup_singleton]. intros x Hx Hin%list_elem_of_singleton. subst. by apply Hid, list_elem_of_In.
  - apply Forall_app. split; [done |]. constructor; [by exists ts | constructor].
  - split; [| by exists []; rewrite app_nil_r]. exists (cd_messages s1), [row]. split; [done | by apply same_extends].
Qed.

Lemma create_record_step f attempt : tracks repo_step (create_record f attempt).
Proof.
  intros s. unfold create_record, bind at 1, cd_on_ext. pose proof (clock_ok (cd_ext s)) as Hnow.
  destruct (utcnow (cd_ext s)) as [now e1]. cbn [fst] in Hnow.
  set (s1 := mk_comm_db e1 _ _). transitivity s1; [by apply same_step |].
  unfold bind at 1. destruct (uuid4 (cd_ext s1)) as [id e2].
  set (s2 := mk_comm_db e2 _ _). transitivity s2; [by apply same_step |]. revert s2.
  generalize (mk_comm_db e2 (cd_messages s1) (cd_dead_letters s1)). clear s1. intros s2.
  destruct (history_of_new f attempt now id Hnow) as [ts Hts]. revert s2.
  apply tracks_bind; [apply _ | by eapply insert_step | intros]. apply tracks_ret; apply _.
Qed.

Lemma find_unique id rows row row' :
  NoDup (map lr_ledger_id rows) -> List.find (has_id id) rows = Some row -> In row' rows -> has_id id row' = true ->
  row' = row.
Proof.
  induction rows as [| r rows IH]; [done |]. intros [Hr Hnd]%NoDup_cons Hfind [-> | Hin] Hid; cbn in Hfind.
  - rewrite Hid in Hfind. by injection Hfind.
  - destruct (has_id id r) eqn:Er; [| by apply IH]. destruct Hr. apply String.eqb_eq in Er, Hid.
    rewrite Er, <- Hid. apply list_elem_of_In. by apply in_map.
Qed.

Lemma get_record_cases id s : sound s ->
  match get_record codec str_float id s with
  | (Ret (Some c), s') => same_tables s s' /\ exists row ts,
      List.find (has_id id) (cd_messages s) = Some row /\ history row ts /\ c = row_record row ts
  | (Ret None, s') => same_tables s s' /\ List.find (has_id id) (cd_messages s) = None
  | (Raise _, s') => same_tables s s'
  end.
Proof.
  intros [_ Hs]. unfold get_record, statement, bind, gets, raise.
  pose proof (same_ext db_fault s) as H1. destruct (cd_on_ext db_fault s) as [[[x |] | x] s1]; [done | | done].
  cbn [snd] in H1. rewrite (proj1 H1). destruct (List.find (has_id id) (cd_messages s)) as [row |] eqn:Hf; [| done].
  apply List.find_some in Hf as Hin. rewrite Forall_forall in Hs.
  destruct (Hs row) as (ts & Hts); [apply list_elem_of_In, Hin |]. rewrite (row_read row ts) by apply Hts.
  split; [done |]. by exists row, ts.
Qed.

(** What the [UPDATE] makes of the row that was read. *)
Lemma update_row_history row ts u now :
  history row ts -> valid_datetime now ->
  let row' := update_row u (replaced (row_record row ts) u now) row in
  history row' (cm_transitions (replaced (row_record row ts) u now)) /\ extends row row'.
Proof.
  intros (Hj & Hd & Hh & Hl) Hn. split; [split; [done | split; [| split]] |].
  - apply Forall_app. by split; [| apply Forall_singleton].
  - cbn. by destruct ts.
  - cbn. by rewrite last_snoc.
  - repeat split. eexists (map _transition_to_dict ts), _. split; [done |]. cbn.
    unfold transitions_json. by rewrite map_app.
Qed.

Lemma find_map id (f : ledger_row -> ledger_row) rows row :
  (forall r, lr_ledger_id (f r) = lr_ledger_id r) -> List.find (has_id id) rows = Some row ->
  List.find (has_id id) (map f rows) = Some (f row).
Proof.
  intros Hf. induction rows as [| r rows IH]; [done |]. cbn. unfold has_id at 1 3. rewrite Hf.
  destruct (String.eqb _ _); [by intros [= ->] | exact IH].
Qed.

Lemma set_rows_step id row ts u now (s : S) :
  List.find (has_id id) (cd_messages s) = Some row -> history row ts -> valid_datetime now ->
  let updated := replaced (row_record row ts) u now in
  repo_step s (set_messages (map (fun r => if has_id id r then update_row u updated r else r)) s).
Proof.
  intros Hf Hts Hn updated [Hnd Hs]. destruct (update_row_history row ts u now Hts Hn) as [Hh He].
  set (f := fun r => if has_id id r then update_row u updated r else r).
  assert (Hrows : Forall2 (fun r r' => extends r r' /\ exists ts', history r' ts') (cd_messages s) (map f (cd_messages s))).
  { assert (Hone : forall r, r ∈ cd_messages s -> extends r (f r) /\ exists ts', history (f r) ts').
    { intros r Hr. rewrite Forall_forall in Hs. unfold f.
      destruct (has_id id r) eqn:Hid; [| destruct (Hs r Hr) as [ts' Hts']; by split; [eapply extends_refl | exists ts']].
      assert (r = row) as -> by (eapply find_unique; [exact Hnd | done | by apply list_elem_of_In | done]).
      by split; [| eexists]. }
    apply Forall2_fmap_r, Forall_Forall2_diag, Forall_forall. exact Hone. }
  split; [split |].
  - unfold message_ids. cbn. rewrite map_map. erewrite map_ext; [exact Hnd |]. intros r. subst f. cbv beta. by destruct (has_id id r).
  - cbn. eapply Forall2_Forall_r; [exact Hrows |]. apply Forall_true. by intros r r' [_ ?].
  - split; [| by exists []; rewrite app_nil_r]. cbn.
    exists (map f (cd_messages s)), []. split; [by rewrite app_nil_r |]. eapply Forall2_impl; [exact Hrows |]. by intros r r' [].
Qed.

Lemma append_store_cases id row ts u (s : S) :
  sound s -> List.find (has_id id) (cd_messages s) = Some row -> history row ts ->
  let '(o, s') := append_store id u (row_record row ts) s in
  repo_step s s' /\ forall r, o = Ret r -> exists row' now,
    List.find (has_id id) (cd_messages s') = Some row' /\ history row' (cm_transitions r) /\
    r = replaced (row_record row ts) u now /\ row' = update_row u r row.
Proof.
  intros Hs Hf Hts. unfold append_store, bind at 1, cd_on_ext. pose proof (clock_ok (cd_ext s)) as Hnow.
  destruct (utcnow (cd_ext s)) as [now e1]. cbn [fst] in Hnow. set (s1 := mk_comm_db e1 _ _).
  set (updated := replaced _ _ _). unfold bind.
  set (f := fun row : ledger_row => if has_id id row then update_row u updated row else row).
  pose proof (transaction_cases (fun _ => Ret tt) (set_messages (map f)) s1) as Hc.
  destruct (in_transaction _ _ s1) as [[[] | x] s']; [| by split; [apply same_step |]].
  destruct Hc as (s2 & Hsame & -> & _). assert (H02 : same_tables s s2) by (by destruct Hsame; split).
  rewrite <- (proj1 H02) in Hf. split.
  - transitivity s2; [by apply same_step |]. by apply (set_rows_step id row ts).
  - intros r [= <-]. exists (f row), now. cbn [set_messages cd_messages].
    assert (Hid : has_id id row = true) by (by apply List.find_some in Hf as [_ ?]).
    assert (Hrow : f row = update_row u updated row) by (unfold f; by rewrite Hid).
    split; [apply find_map; [| done]; intros r; unfold f; by destruct (has_id id r) |]. rewrite Hrow.
    split; [by apply (update_row_history row ts u now) | done].
Qed.

Lemma append_transition_step id u : tracks repo_step (append_transition codec str_float id u).
Proof.
  intros s. destruct (append_transition codec str_float id u s) as [o s'] eqn:Ha. intros Hs. revert Ha. cbn [snd].
  unfold append_transition, bind. pose proof (get_record_cases id s Hs) as Hg.
  destruct (get_record codec str_float id s) as [[[c |] | x] s1].
  - destruct Hg as (Hsame & row & ts & Hf & Hts & ->). destruct (same_step _ _ Hsame Hs) as [Hs1 H01].
    rewrite <- (proj1 Hsame) in Hf. pose proof (append_store_cases id row ts u s1 Hs1 Hf Hts) as Hst.
    destruct (append_store id u _ s1) as [[r | x] s2]; intros [= <- <-];
      (destruct (proj1 Hst Hs1) as [? ?]; split; [done | by eapply grows_trans]).
  - intros [= <- <-]. by apply (same_step s s1 (proj1 Hg)).
  - intros [= <- <-]. by apply (same_step s s1 Hg).
Qed.

(** A transition that was appended is what the next read answers: the new state,
    the old history followed by one entry, and the given error; a dispatch or
    delivery identifier that was not given stays. *)
Theorem appended_transition_is_read id u (s s' : S) r :
  sound s -> append_transition codec str_float id u s = (Ret (Some r), s') ->
  exists row old now, List.find (has_id id) (cd_messages s) = Some row /\ history row old /\
    r = replaced (row_record row old) u now /\
    cm_transitions r = old ++ [mk_CommunicationStateTransition (tu_state u) now (tu_reason_code u) (tu_message u) (tu_retryable u)] /\
    forall s2 o s3, cd_messages s2 = cd_messages s' -> get_record codec str_float id s2 = (Ret o, s3) ->
      o = Some (unblanked r).
Proof.
  intros Hs. unfold append_transition, bind at 1. pose proof (get_record_cases id s Hs) as Hg.
  destruct (get_record codec str_float id s) as [[[c |] | x] s1]; [| done..].
  destruct Hg as (Hsame & row & ts & Hf & Hts & ->). destruct (same_step _ _ Hsame Hs) as [Hs1 _].
  assert (Hf1 := Hf). rewrite <- (proj1 Hsame) in Hf1. pose proof (append_store_cases id row ts u s1 Hs1 Hf1 Hts) as Hst.
  unfold bind. destruct (append_store id u _ s1) as [[r0 | x] s2]; [| done]. intros [= -> ->].
  destruct Hst as [Hstep Hr]. destruct (Hr r eq_refl) as (row' & now & Hf' & Hh & Hrep & Hup).
  exists row, ts, now. split; [done |]. split; [done |]. split; [done |]. split; [by rewrite Hrep |].
  intros sa o sb Hsa Hget. assert (Hsound : sound sa) by (unfold sound, message_ids; rewrite Hsa; apply (Hstep Hs1)).
  pose proof (get_record_cases id sa Hsound) as Hga. rewrite Hget, Hsa, Hf' in Hga.
  destruct o as [c |]; [| by destruct Hga]. destruct Hga as (_ & row2 & ts2 & [= <-] & Hh2 & ->). f_equal.
  assert (Hts2 : ts2 = cm_transitions r).
  { pose proof (row_read row' ts2 sa (proj1 Hh2) (proj1 (proj2 Hh2))) as R1.
    rewrite (row_read row' (cm_transitions r) sa (proj1 Hh) (proj1 (proj2 Hh))) in R1. by injection R1. }
  rewrite Hts2. unfold unblanked. rewrite Hup, Hrep. unfold row_record. cbn. f_equal.
  - destruct (tu_dispatch_id u); [done |]. cbn. by rewrite text_or_none_idem.
  - destruct (tu_delivery_id u); [done |]. cbn. by rewrite text_or_none_idem.
Qed.

Lemma dead_letter_step f principal key code text attempts ledger_id :
  tracks repo_step (create_dead_letter_record (E := E) f principal key code text attempts ledger_id).
Proof.
  intros s. unfold create_dead_letter_record. unfold bind at 1 2, cd_on_ext. destruct (uuid4 (cd_ext s)) as [id e1].
  cbn [cd_ext cd_messages cd_dead_letters]. destruct (utcnow e1) as [now e2].
  set (s1 := mk_comm_db e2 _ _). transitivity s1; [by apply same_step |]. unfold bind.
  match goal with |- context [in_transaction ?c ?g s1] => pose proof (transaction_cases c g s1) as Hc;
    destruct (in_transaction c g s1) as [[[] | x] s']; [| by apply same_step] end.
  destruct Hc as (s2 & Hsame & -> & _). transitivity s2; [by apply same_step |]. intros [Hnd Hs]. split; [done |].
  split; [| by eexists]. exists (cd_messages s2), []. split; [by rewrite app_nil_r | by apply same_extends].
Qed.

(** Any call of the repository. *)
Inductive repo_call : S -> S -> Prop :=
  | call_create f attempt s : repo_call s (create_record f attempt s).2
  | call_append id u s : repo_call s (append_transition codec str_float id u s).2
  | call_get id s : repo_call s (get_record codec str_float id s).2
  | call_list_task task s : repo_call s (CommRepo.list_records_for_task codec str_float messages_by_time task s).2
  | call_list s : repo_call s (list_records codec str_float messages_by_time s).2
  | call_dead_letter f principal key code text attempts ledger_id s :
      repo_call s (create_dead_letter_record f principal key code text attempts ledger_id s).2
  | call_get_dead_letter id s : repo_call s (get_dead_letter_record id s).2
  | call_list_dead_letters s : repo_call s (list_dead_letter_records dead_letters_by_time s).2.

Lemma same_get_record id : tracks same_tables (get_record codec str_float id).
Proof.
  apply tracks_bind; [apply _ | apply same_gets | intros [row |]; [| by apply tracks_ret, _]].
  apply tracks_bind; [apply _ | apply same_row_read | intros]. apply tracks_ret; apply _.
Qed.

Lemma same_row_list (f : S -> list ledger_row) :
  tracks same_tables (bind (statement (gets f)) (records_from codec str_float)).
Proof. apply tracks_bind; [apply _ | apply same_gets | apply same_reads]. Qed.

Lemma repo_call_step s s' : repo_call s s' -> repo_step s s'.
Proof.
  intros []; [apply create_record_step | apply append_transition_step | apply same_step, same_get_record
             | apply same_step, same_row_list | apply same_step, same_row_list | apply dead_letter_step
             | apply same_step, same_gets | apply same_step, same_gets].
Qed.

(** Whatever calls are made and whatever statements the database refuses: no
    message and no dead letter disappears, every message's history starts with
    prepared, ends with its state and is only ever extended, and identifiers
    stay unique. *)
Theorem message_ledger_append_only s s' :
  sound s -> star repo_call s s' -> sound s' /\ grows s s'.
Proof.
  intros Hs Hstar. revert Hs. change (repo_step s s').
  induction Hstar as [s | a b c Hab _ IH]; [done |]. etransitivity; [by apply repo_call_step | exact IH].
Qed.

Lemma empty_is_sound e : sound (mk_comm_db e [] []).
Proof. split; constructor. Qed.
End facts.

(** * Samples *)

Record toy_db_world : Type := mk_toy_db_world { tw_ids : nat; tw_faults : list (option exn) }.

#[local] Instance toy_db_oracle : Oracle toy_db_world := {
  uuid4 := fun t => (pretty (tw_ids t), mk_toy_db_world (Nat.succ (tw_ids t)) (tw_faults t));
  utcnow := fun t => (mk_datetime 2026 3 24 12 0 0 0, t)
}.

#[local] Instance toy_db_faults : DbFaults toy_db_world := {
  db_fault := fun t => (match tw_faults t with x :: _ => x | [] => None end, mk_toy_db_world (tw_ids t) (tail (tw_faults t)))
}.

Definition no_codec : json_codec := mk_json_codec (fun _ => "") (fun _ => "") (fun _ => "") (fun _ => None).

Definition sample_fields : dispatch_fields := mk_dispatch_fields "t1" "tr1" "m1" "x1" "internal" "run" "cwo" "r1" "acp://cwo".

Definition sample_db : comm_db toy_db_world := (create_record sample_fields 1 (mk_comm_db (mk_toy_db_world 0 []) [] [])).2.

Definition move (state : string) : transition_update := mk_transition_update state "reason" "text" None None None None None.

Definition states_of (s : comm_db toy_db_world) : list (string * list string) :=
  map (fun row => (lr_state row, match (_record_from_row no_codec (fun _ => "") row s).1 with
                                 | Ret r => map ct_state (cm_transitions r)
                                 | Raise _ => ["?"]
                                 end)) (cd_messages s).

#[local] Abbreviation append := (append_transition no_codec (fun _ => "") (E := toy_db_world)).

(** The ledger of the gateway allows nothing after acked; this repository does. *)
Example acked_message_reopens :
  states_of ((append "0" (move "prepared") ∘ snd ∘ append "0" (move "acked") ∘ snd ∘ append "0" (move "sent")) sample_db).2 =
  [("prepared", ["prepared"; "sent"; "acked"; "prepared"])].
Proof. vm_compute. done. Qed.

(** Two writers that read before either stores: one transition is lost. *)
Example concurrent_appends_lose_one :
  match (get_record no_codec (fun _ => "") "0" sample_db).1 with
  | Ret (Some current) =>
      states_of (append_store "0" (move "nacked") current (append_store "0" (move "sent") current sample_db).2).2 =
      [("nacked", ["prepared"; "nacked"])]
  | _ => False
  end.
Proof. vm_compute. done. Qed.

(** A refused commit leaves nothing. *)
Example refused_commit_leaves_nothing :
  cd_messages (create_record sample_fields 1
                 (mk_comm_db (mk_toy_db_world 0 [None; Some (DatabaseError "commit")]) [] [])).2 = [].
Proof. vm_compute. done. Qed.
