(* ===== verification/Startup.v ===== *)
(** How a process starts: the guards, the doctor and the service container.

    Models [shared_kernel/startup_validation.py], [shared_kernel/doctor.py],
    [control_plane/api/app.py], [build_runtime_services] of
    [control_plane/api/dependencies.py], the start of the workers' [main] and the
    verdict of [apps/oq_doctor.py].

    Connecting to PostgreSQL and Redis, HTTP requests and the OpenTelemetry
    exporters are the interface [Infrastructure]; each may raise.  Closing a
    connection has no effect.  Constructors that only store their arguments are
    left out; [StartupRecoveryReport] counts the fresh communication stores. *)

From S2P Require Import Prelude PyStr PyData LlmSchemas Task Budget LoopControl Runtime CommStore Ingress Admission AgentBase AgentRegistry DiscordBridge Policy AdmissionFacts PyFloat RedisStore.

Class Infrastructure (E : Type) : Type := {
  (** [create_engine(url)] and [connect()]. *)
  pg_connect : string -> M E unit;
  (** The scalar of a counting query, and the column of a query, on that database. *)
  pg_scalar : string -> string -> M E (option Z);
  pg_column : string -> string -> M E (list (option string));
  (** [create_engine(url)] alone, and [Redis.from_url(url)] alone. *)
  pg_engine : string -> M E unit;
  redis_client : string -> M E unit;
  redis_ping : string -> M E unit;
  http_get : string -> M E http_response;
  configure_otel : string -> M E unit
}.

(** The settings that decide about a start, with those of the bots. *)
Record AppSettings : Type := mk_AppSettings {
  ap_env : string;
  ap_database_url : string;
  ap_redis_url : string;
  ap_opa_url : string;
  ap_otlp_endpoint : string;
  ap_runtime_persistence_enabled : bool;
  ap_runtime : RuntimeSettings
}.

(** * Guards *)

Definition _LOCAL_ENV_VALUES : list string := ["local"; "local_dev"; "development"; "test"; "ci"].
Definition _UNSAFE_CONNECTOR_SECRETS : list string := [""; "dev-openqilin-secret"].

Definition is_local (settings : AppSettings) : bool := mem (norm (ap_env settings)) _LOCAL_ENV_VALUES.

Definition enforce_connector_secret_hardening (settings : AppSettings) : outcome unit :=
  if is_local settings then Ret tt
  else if mem (strip (st_connector_shared_secret (ap_runtime settings))) _UNSAFE_CONNECTOR_SECRETS then
    Raise (RuntimeError "non-local runtime requires non-default OPENQILIN_CONNECTOR_SHARED_SECRET")
  else Ret tt.

Section bots.
Context (codec : json_codec) (str_float : pyfloat -> string).
Context (expanduser : string -> string) (read_text : string -> option string).

Definition enforce_discord_role_bot_registry (settings : AppSettings) : outcome unit :=
  if negb (st_discord_multi_bot_enabled (ap_runtime settings)) then Ret tt
  else
    match build_role_bot_registry codec str_float expanduser read_text (ap_runtime settings) with
    | Ret _ => Ret tt
    | Raise (RoleBotRegistryError code message) =>
        Raise (RuntimeError ("invalid Discord role-bot registry: " +:+ code +:+ " " +:+ message))
    | Raise x => Raise x
    end.

(** The token of the channel manager's bot. *)
Definition channel_manager_token (settings : AppSettings) : string :=
  let fallback := default "" (st_discord_bot_token (ap_runtime settings)) in
  match build_role_bot_registry codec str_float expanduser read_text (ap_runtime settings) with
  | Ret registry =>
      match dict_find (rr_identities_by_role registry) "administrator" with
      | Some found => rb_token found
      | None => fallback
      end
  | Raise _ => fallback
  end.
End bots.

(** * The doctor *)

Record DoctorCheck : Type := mk_DoctorCheck {
  dc_name : string;
  dc_status : string;
  dc_detail : string
}.

Definition status_is (status : string) (c : DoctorCheck) : bool := String.eqb (dc_status c) status.
Definition all_passed (checks : list DoctorCheck) : bool := forallb (status_is "pass") checks.
Definition has_failures (checks : list DoctorCheck) : bool := existsb (status_is "fail") checks.

Definition _INFRA_HINT : string := "Run: docker compose --profile core up -d".
Definition _MIGRATION_HINT : string := "Run: uv run alembic upgrade head".

Section doctor.
Context {E : Type} `{!Infrastructure E}.
Context (str_float : pyfloat -> string).

(** [try: .. except Exception as error: return handler(error)]. *)
Definition caught {A} (m : M E A) (handler : exn -> A) : M E A := try m (fun x => Some (ret (handler x))).

Definition _check_postgres (settings : AppSettings) : M E DoctorCheck :=
  let database_url := strip (ap_database_url settings) in
  if negb (truthy database_url) then
    ret (mk_DoctorCheck "postgresql" "fail" ("OPENQILIN_DATABASE_URL not set. " +:+ _INFRA_HINT))
  else
    caught
      (pg_connect database_url ;!
       pg_scalar database_url "SELECT 1" ;!
       let! table_count := pg_scalar database_url
         "SELECT COUNT(*) FROM information_schema.tables WHERE table_schema='public' AND table_name='alembic_version'" in
       if (default 0 table_count =? 0)%Z then
         ret (mk_DoctorCheck "postgresql" "fail" ("Migrations not applied. " +:+ _MIGRATION_HINT))
       else
         let! versions := pg_column database_url "SELECT version_num FROM alembic_version" in
         let versions := omap (fun x => x) versions in
         let version_detail := match versions with [] => "unknown" | _ => join "," versions end in
         ret (mk_DoctorCheck "postgresql" "pass" ("connected; migration_version=" +:+ version_detail)))
      (fun error => mk_DoctorCheck "postgresql" "fail" (exn_str error +:+ ". " +:+ _INFRA_HINT)).

Definition _check_redis (settings : AppSettings) : M E DoctorCheck :=
  let redis_url := strip (ap_redis_url settings) in
  if negb (truthy redis_url) then
    ret (mk_DoctorCheck "redis" "fail" ("OPENQILIN_REDIS_URL not set. " +:+ _INFRA_HINT))
  else
    caught
      (redis_client redis_url ;! redis_ping redis_url ;! ret (mk_DoctorCheck "redis" "pass" "reachable"))
      (fun error => mk_DoctorCheck "redis" "fail" (exn_str error +:+ ". " +:+ _INFRA_HINT)).

(** [OPAPolicyRuntimeClient.health_check]. *)
Definition health_check (opa_url : string) : M E bool :=
  caught (let! response := http_get (rstrip_slash opa_url +:+ "/health") in ret (status_code response =? 200)%Z)
    (fun _ => false).

(** [str(data.get("result", "unknown"))]. *)
Definition version_of (data : json) : outcome string :=
  match data with
  | JObj o =>
      Ret (match List.find (fun kv => String.eqb kv.1 "result") o with
           | Some (_, v) => json_str str_float v
           | None => _POLICY_VERSION_FALLBACK
           end)
  | _ => Raise (OtherError "AttributeError: object has no attribute 'get'")
  end.

Definition get_active_policy_version (opa_url : string) : M E string :=
  caught
    (let! response := http_get (rstrip_slash opa_url +:+ "/v1/data/openqilin/policy/version") in
     if (status_code response =? 200)%Z then
       let! data := of_outcome (response_json response) in of_outcome (version_of data)
     else ret _POLICY_VERSION_FALLBACK)
    (fun _ => _POLICY_VERSION_FALLBACK).

Definition _check_opa (settings : AppSettings) : M E DoctorCheck :=
  let opa_url := strip (ap_opa_url settings) in
  if negb (truthy opa_url) then
    ret (mk_DoctorCheck "opa" "fail" ("OPENQILIN_OPA_URL not set. " +:+ _INFRA_HINT))
  else
    caught
      (let! healthy := health_check opa_url in
       if negb healthy then
         ret (mk_DoctorCheck "opa" "fail" ("OPA unreachable at " +:+ opa_url +:+ ". " +:+ _INFRA_HINT))
       else
         let! active_version := get_active_policy_version opa_url in
         ret (mk_DoctorCheck "opa" "pass" ("reachable; policy_version=" +:+ active_version)))
      (fun error => mk_DoctorCheck "opa" "fail" (exn_str error +:+ ". " +:+ _INFRA_HINT)).

Definition _check_otel (settings : AppSettings) : M E DoctorCheck :=
  let endpoint := strip (ap_otlp_endpoint settings) in
  if negb (truthy endpoint) then
    ret (mk_DoctorCheck "otel" "warn" "OPENQILIN_OTLP_ENDPOINT not set (observability disabled)")
  else
    caught
      (let! response := http_get endpoint in
       let code := status_code response in
       if (code =? 200)%Z || (code =? 400)%Z then
         ret (mk_DoctorCheck "otel" "pass" ("collector reachable (status=" +:+ str_int code +:+ ")"))
       else ret (mk_DoctorCheck "otel" "warn" ("collector returned status=" +:+ str_int code)))
      (fun error => mk_DoctorCheck "otel" "warn" (exn_str error +:+ ". OTel export will be silently dropped")).

Definition _check_grafana (settings : AppSettings) : M E DoctorCheck :=
  let grafana_url := strip (st_grafana_public_url (ap_runtime settings)) in
  if negb (truthy grafana_url) then
    ret (mk_DoctorCheck "grafana" "warn" "OPENQILIN_GRAFANA_PUBLIC_URL not set (dashboard URL not announced)")
  else
    caught
      (let! response := http_get (rstrip_slash grafana_url +:+ "/api/health") in
       ret (mk_DoctorCheck "grafana" "pass" ("reachable (status=" +:+ str_int (status_code response) +:+ ")")))
      (fun error => mk_DoctorCheck "grafana" "warn" (exn_str error)).

Definition _check_discord (settings : AppSettings) : DoctorCheck :=
  if truthy (strip (default "" (st_discord_bot_token (ap_runtime settings))))
  then mk_DoctorCheck "discord" "pass" "token configured"
  else mk_DoctorCheck "discord" "warn" "OPENQILIN_DISCORD_BOT_TOKEN not set (Discord integration disabled)".

Definition _check_agent_registry (settings : AppSettings) : M E DoctorCheck :=
  let database_url := strip (ap_database_url settings) in
  if negb (truthy database_url) then
    ret (mk_DoctorCheck "agent_registry" "warn" "skipped — postgresql not configured")
  else
    caught
      (pg_connect database_url ;!
       let! result := pg_scalar database_url
         "SELECT COUNT(*) FROM agent_registry WHERE agent_type = 'institutional'" in
       let count := default 0%Z result in
       if (0 <? count)%Z then
         ret (mk_DoctorCheck "agent_registry" "pass" (str_int count +:+ " institutional agents registered"))
       else ret (mk_DoctorCheck "agent_registry" "warn" "agent registry empty — run bootstrap or restart app"))
      (fun error => mk_DoctorCheck "agent_registry" "warn" (exn_str error)).

(** [SystemDoctor.run]. *)
Definition doctor_run (settings : AppSettings) : M E (list DoctorCheck) :=
  let! postgres_check := _check_postgres settings in
  let! redis_check := _check_redis settings in
  let! opa_check := _check_opa settings in
  let! otel_check := _check_otel settings in
  let! grafana_check := _check_grafana settings in
  let! registry_check :=
    if status_is "fail" postgres_check
    then ret (mk_DoctorCheck "agent_registry" "warn" "skipped — postgresql check failed")
    else _check_agent_registry settings in
  ret [postgres_check; redis_check; opa_check; otel_check; grafana_check; _check_discord settings; registry_check].

Definition blocking_names : list string := ["postgresql"; "redis"; "opa"].

Definition blocking_failures (checks : list DoctorCheck) : list DoctorCheck :=
  List.filter (fun c => mem (dc_name c) blocking_names && status_is "fail" c) checks.

Definition run_blocking_startup_checks (settings : AppSettings) : M E unit :=
  if is_local settings then ret tt
  else
    let! checks := doctor_run settings in
    match blocking_failures checks with
    | [] => ret tt
    | failures =>
        raise (RuntimeError ("Startup blocked — infrastructure check failed: " +:+
          join "; " (map (fun c => dc_name c +:+ ": " +:+ dc_detail c) failures) +:+ ". " +:+
          "Run: docker compose --profile core up -d"))
    end.

(** [verify_opa_bundle_loaded]. *)
Definition verify_opa_bundle_loaded (opa_url : string) : M E unit :=
  let! healthy := health_check opa_url in
  if healthy then ret tt
  else raise (RuntimeError ("OPA startup validation failed: OPA unreachable at " +:+ opa_url +:+ ". " +:+
                            "Application cannot start without policy enforcement (fail-closed).")).

(** The exit code of [apps/oq_doctor.py]. *)
Definition oq_doctor (settings : AppSettings) : M E Z :=
  let! checks := doctor_run settings in
  ret (if has_failures checks then 1 else 0)%Z.
End doctor.

(** * The service container *)

Definition _TERMINAL_STATUSES : list string := ["completed"; "failed"; "cancelled"; "blocked"].

Record StartupRecoveryReport : Type := mk_StartupRecoveryReport {
  sr_restored_task_count : Z;
  sr_restored_terminal_task_count : Z;
  sr_reconstructed_ingress_claims : Z;
  sr_restored_communication_records : Z;
  sr_restored_dead_letter_count : Z;
  sr_restored_communication_idempotency_count : Z;
  sr_institutional_agent_count : Z
}.

(** What the container holds beside services that only keep their arguments. *)
Record RuntimeServices : Type := mk_RuntimeServices {
  sv_remembers_conversations : bool;
  sv_exports_metrics : bool;
  sv_channel_manager_token : string;
  sv_startup_recovery_report : StartupRecoveryReport
}.

(** The databases a process starts on, and the claims it keeps in memory. *)
Record process (E : Type) : Type := mk_process {
  ps_ext : E;
  ps_ledger : ledger;
  ps_admission : admission;
  ps_agents : agents
}.
Arguments mk_process {E}.
Arguments ps_ext {E}.
Arguments ps_ledger {E}.
Arguments ps_admission {E}.
Arguments ps_agents {E}.

Section services.
Context {E : Type} `{!Oracle E} `{!Infrastructure E}.
Context (codec : json_codec) (str_float : pyfloat -> string).
Context (expanduser : string -> string) (read_text : string -> option string).
Context (json_text : json -> string) (sha256 : string -> string).

#[local] Abbreviation P := (process E).

Definition ps_on_ext {A} (m : M E A) : M P A :=
  zoom ps_ext (fun e s => mk_process e (ps_ledger s) (ps_admission s) (ps_agents s)) m.
Definition ps_on_ledger {A} (m : M ledger A) : M P A :=
  zoom ps_ledger (fun l s => mk_process (ps_ext s) l (ps_admission s) (ps_agents s)) m.
Definition ps_on_admission {A} (m : M admission A) : M P A :=
  zoom ps_admission (fun a s => mk_process (ps_ext s) (ps_ledger s) a (ps_agents s)) m.
Definition ps_on_agents {A} (m : M agents A) : M P A :=
  zoom ps_agents (fun a s => mk_process (ps_ext s) (ps_ledger s) (ps_admission s) a) m.

Definition require_url (name value : string) : outcome unit :=
  if truthy value then Ret tt
  else Raise (RuntimeError (name +:+ " is required. Run: docker compose --profile core up -d")).

Definition count {A} (l : list A) : Z := Z.of_nat (length l).

(** The stores of a dispatch service that was just built. *)
Definition fresh_gateway (e : E) : gateway E := mk_gateway e ∅ ∅ ∅ [].

Definition build_runtime_services (settings : AppSettings) : M P RuntimeServices :=
  of_outcome (require_url "OPENQILIN_DATABASE_URL" (ap_database_url settings)) ;!
  of_outcome (require_url "OPENQILIN_REDIS_URL" (ap_redis_url settings)) ;!
  of_outcome (require_url "OPENQILIN_OPA_URL" (ap_opa_url settings)) ;!
  ps_on_ext (pg_engine (ap_database_url settings)) ;!
  ps_on_ext (redis_client (ap_redis_url settings)) ;!
  ps_on_ledger seed_default_allocation ;!
  let! reconstructed := ps_on_admission (restart json_text sha256) in
  let! now := ps_on_ext (fun e => let '(t, e') := utcnow e in (Ret t, e')) in
  let! institutional := ps_on_agents (bootstrap_institutional_agents now) in
  let! tasks := ps_on_admission (on_table list_tasks) in
  let! fresh := gets (fun s => fresh_gateway (ps_ext s)) in
  ret (mk_RuntimeServices (ap_runtime_persistence_enabled settings) (truthy (ap_otlp_endpoint settings))
         (channel_manager_token codec str_float expanduser read_text settings)
         (mk_StartupRecoveryReport (count tasks)
            (count (List.filter (fun t => mem (status t) _TERMINAL_STATUSES) tasks)) reconstructed
            (count (map_to_list (gw_ledger fresh))) (count (gw_dead_letters fresh)) (count (map_to_list (gw_store fresh)))
            (count institutional))).

(** [create_control_plane_app], up to the routers: the services it serves with. *)
Definition create_control_plane_app (settings : AppSettings) : M P RuntimeServices :=
  of_outcome (enforce_connector_secret_hardening settings) ;!
  ps_on_ext (run_blocking_startup_checks str_float settings) ;!
  (if truthy (ap_otlp_endpoint settings) then ps_on_ext (configure_otel (ap_otlp_endpoint settings)) else ret tt) ;!
  build_runtime_services settings.

(** The orchestrator worker, up to its first pass; [None] with [run_once]. *)
Definition orchestrator_worker_start (settings : AppSettings) (run_once : bool) : M P (option RuntimeServices) :=
  of_outcome (enforce_connector_secret_hardening settings) ;!
  if run_once then ret None
  else let! services := build_runtime_services settings in ret (Some services).

Definition communication_worker_start (settings : AppSettings) : outcome unit :=
  enforce_connector_secret_hardening settings.

Definition discord_bot_worker_start (settings : AppSettings) : outcome unit :=
  let? _ := enforce_connector_secret_hardening settings in
  enforce_discord_role_bot_registry codec str_float expanduser read_text settings.

Definition get_runtime_services (state : option RuntimeServices) : outcome RuntimeServices :=
  match state with
  | Some services => Ret services
  | None => Raise (RuntimeError ("RuntimeServices not initialized. " +:+
                                 "build_runtime_services() must be called before accepting requests."))
  end.
End services.

(** * What a start guarantees *)

Section facts.
Context {E : Type} `{!Oracle E} `{!Infrastructure E}.
Context (codec : json_codec) (str_float : pyfloat -> string).
Context (expanduser : string -> string) (read_text : string -> option string).
Context (json_text : json -> string) (sha256 : string -> string).

#[local] Abbreviation P := (process E).
#[local] Abbreviation create := (create_control_plane_app codec str_float expanduser read_text json_text sha256).
#[local] Abbreviation build := (build_runtime_services codec str_float expanduser read_text json_text sha256).

(** ** The doctor *)

Lemma caught_post (m : M E DoctorCheck) h e (Q : DoctorCheck -> E -> Prop) :
  (forall x e', Q (h x) e') -> post m e Q (fun _ _ => True) ->
  exists c e', caught m h e = (Ret c, e') /\ Q c e'.
Proof.
  intros Hh Hm. unfold caught, try. unfold post in Hm. destruct (m e) as [[c | x] e']; [by exists c, e' |].
  exists (h x), e'. by split; [| apply Hh].
Qed.

(** A check never raises, has its name, and only a blocking one may fail. *)
Definition check_ok (name : string) (blocking : bool) (c : DoctorCheck) (e : E) : Prop :=
  dc_name c = name /\ (blocking = false -> status_is "fail" c = false).

Lemma step_any {A} (m : M E A) (k : A -> M E DoctorCheck) e Q :
  (forall a e', post (k a) e' Q (fun _ _ => True)) -> post (bind m k) e Q (fun _ _ => True).
Proof. intros H. apply post_bind. unfold post. destruct (m e) as [[a | x] e']; [apply H | done]. Qed.

#[local] Ltac check_tac :=
  intros; cbv zeta; try (destruct (negb _); [by eexists _, _ |]);
  apply caught_post; [done | repeat (apply step_any; intros); repeat case_match; done].

Lemma postgres_check settings e :
  exists c e', _check_postgres settings e = (Ret c, e') /\ check_ok "postgresql" true c e'.
Proof.
  unfold _check_postgres. cbv zeta. destruct (negb _); [by eexists _, _ |].
  apply caught_post; [done |]. do 3 (apply step_any; intros). case_match; [done |]. by apply step_any.
Qed.

Lemma redis_check settings e :
  exists c e', _check_redis settings e = (Ret c, e') /\ check_ok "redis" true c e'.
Proof. unfold _check_redis. check_tac. Qed.

Lemma opa_check settings e :
  exists c e', _check_opa str_float settings e = (Ret c, e') /\ check_ok "opa" true c e'.
Proof.
  unfold _check_opa. cbv zeta. destruct (negb _); [by eexists _, _ |]. apply caught_post; [done |].
  apply step_any. intros. case_match; [done |]. by apply step_any.
Qed.

Lemma otel_check settings e :
  exists c e', _check_otel settings e = (Ret c, e') /\ check_ok "otel" false c e'.
Proof. unfold _check_otel. check_tac. Qed.

Lemma grafana_check settings e :
  exists c e', _check_grafana settings e = (Ret c, e') /\ check_ok "grafana" false c e'.
Proof. unfold _check_grafana. check_tac. Qed.

Lemma agent_registry_check settings e :
  exists c e', _check_agent_registry settings e = (Ret c, e') /\ check_ok "agent_registry" false c e'.
Proof. unfold _check_agent_registry. check_tac. Qed.

(** The doctor always reports seven checks, the first three in the order in
    which they were run; only these may fail. *)
Lemma doctor_report settings e :
  exists c1 e1 c2 e2 c3 e3 rest e',
    _check_postgres settings e = (Ret c1, e1) /\ _check_redis settings e1 = (Ret c2, e2) /\
    _check_opa str_float settings e2 = (Ret c3, e3) /\
    doctor_run str_float settings e = (Ret (c1 :: c2 :: c3 :: rest), e') /\
    map dc_name (c1 :: c2 :: c3 :: rest) =
      ["postgresql"; "redis"; "opa"; "otel"; "grafana"; "discord"; "agent_registry"] /\
    Forall (fun c => status_is "fail" c = false) rest.
Proof.
  destruct (postgres_check settings e) as (c1 & e1 & H1 & N1 & _).
  destruct (redis_check settings e1) as (c2 & e2 & H2 & N2 & _).
  destruct (opa_check settings e2) as (c3 & e3 & H3 & N3 & _).
  destruct (otel_check settings e3) as (c4 & e4 & H4 & N4 & F4).
  destruct (grafana_check settings e4) as (c5 & e5 & H5 & N5 & F5).
  assert (Hlast : exists c7 e7, (if status_is "fail" c1
            then ret (mk_DoctorCheck "agent_registry" "warn" "skipped — postgresql check failed")
            else _check_agent_registry settings) e5 = (Ret c7, e7) /\ check_ok "agent_registry" false c7 e7).
  { destruct (status_is "fail" c1); [by eexists _, _ | apply agent_registry_check]. }
  destruct Hlast as (c7 & e7 & H7 & N7 & F7).
  exists c1, e1, c2, e2, c3, e3, [c4; c5; _check_discord settings; c7], e7.
  split; [done |]. split; [done |]. split; [done |]. split.
  { unfold doctor_run, bind. rewrite H1, H2, H3, H4, H5, H7. done. }
  assert (ND : dc_name (_check_discord settings) = "discord" /\ status_is "fail" (_check_discord settings) = false)
    by (unfold _check_discord; by destruct (truthy _)).
  split; [cbn; by rewrite N1, N2, N3, N4, N5, (proj1 ND), N7 |].
  repeat constructor; [by apply F4 | by apply F5 | apply ND | by apply F7].
Qed.

Lemma no_failures l : Forall (fun c => status_is "fail" c = false) l -> has_failures l = false /\ blocking_failures l = [].
Proof.
  unfold has_failures, blocking_failures. induction 1 as [| c l Hc _ [IH1 IH2]]; [done |]. cbn. by rewrite Hc, andb_false_r.
Qed.

(** The doctor's exit code and the guard of a non-local start agree on every
    environment: the code is 0 exactly when the start is not blocked. *)
Theorem doctor_agrees_with_startup settings e :
  is_local settings = false ->
  exists code e', oq_doctor str_float settings e = (Ret code, e') /\
    (code = 0%Z <-> (run_blocking_startup_checks str_float settings e).1 = Ret tt).
Proof.
  intros Hl. destruct (doctor_report settings e) as (c1 & e1 & c2 & e2 & c3 & e3 & rest & e' & _ & _ & _ & Hrun & Hn & Hf).
  apply no_failures in Hf as [Hf1 Hf2]. injection Hn as N1 N2 N3 _.
  unfold oq_doctor, run_blocking_startup_checks. rewrite Hl. unfold bind. rewrite Hrun. eexists _, _. split; [done |].
  unfold has_failures, blocking_failures in *. cbn [existsb List.filter]. rewrite Hf1, Hf2, N1, N2, N3.
  change (mem _ blocking_names) with true. cbn [andb].
  by destruct (status_is "fail" c1), (status_is "fail" c2), (status_is "fail" c3).
Qed.

(** ** What a blocking check that passes has seen *)

Definition postgres_ready (settings : AppSettings) (e : E) : Prop :=
  let url := strip (ap_database_url settings) in
  truthy url = true /\ exists e1 one e2 tables e3,
    pg_connect url e = (Ret tt, e1) /\ pg_scalar url "SELECT 1" e1 = (Ret one, e2) /\
    pg_scalar url
      "SELECT COUNT(*) FROM information_schema.tables WHERE table_schema='public' AND table_name='alembic_version'" e2 =
      (Ret (Some tables), e3) /\ tables <> 0%Z.

Definition redis_ready (settings : AppSettings) (e : E) : Prop :=
  let url := strip (ap_redis_url settings) in
  truthy url = true /\ exists e1 e2, redis_client url e = (Ret tt, e1) /\ redis_ping url e1 = (Ret tt, e2).

Definition opa_ready (settings : AppSettings) (e : E) : Prop :=
  let url := strip (ap_opa_url settings) in
  truthy url = true /\ exists response e1,
    http_get (rstrip_slash url +:+ "/health") e = (Ret response, e1) /\ status_code response = 200%Z.

Lemma postgres_passed settings e c e' :
  _check_postgres settings e = (Ret c, e') -> status_is "fail" c = false -> postgres_ready settings e.
Proof.
  unfold _check_postgres, postgres_ready. cbv zeta. destruct (truthy _); [| by intros [= <- <-]].
  cbn [negb]. unfold caught, try, bind. destruct (pg_connect _ e) as [[[] | x] e1] eqn:H1; [| by intros [= <- <-]].
  destruct (pg_scalar _ "SELECT 1" e1) as [[one | x] e2] eqn:H2; [| by intros [= <- <-]].
  destruct (pg_scalar _ _ e2) as [[[n |] | x] e3] eqn:Hn; [| by intros [= <- <-]..]. cbn [default from_option id].
  destruct (n =? 0)%Z eqn:Hz; [by intros [= <- <-] |]. apply Z.eqb_neq in Hz. intros _ _. split; [done |].
  by exists e1, one, e2, n, e3.
Qed.

Lemma redis_passed settings e c e' :
  _check_redis settings e = (Ret c, e') -> status_is "fail" c = false -> redis_ready settings e.
Proof.
  unfold _check_redis, redis_ready. cbv zeta. destruct (truthy _); [| by intros [= <- <-]].
  cbn [negb]. unfold caught, try, bind. destruct (redis_client _ e) as [[[] | x] e1] eqn:H1; [| by intros [= <- <-]].
  destruct (redis_ping _ e1) as [[[] | x] e2] eqn:Hp; [| by intros [= <- <-]]. intros _ _. split; [done |]. by exists e1, e2.
Qed.

Lemma opa_passed settings e c e' :
  _check_opa str_float settings e = (Ret c, e') -> status_is "fail" c = false -> opa_ready settings e.
Proof.
  unfold _check_opa, opa_ready, health_check. cbv zeta. destruct (truthy _); [| by intros [= <- <-]].
  cbn [negb]. unfold caught at 1, try at 1, bind at 1. unfold caught at 1, try at 1, bind at 1.
  destruct (http_get _ e) as [[r | x] e1] eqn:Hr; [| by intros [= <- <-]]. unfold ret at 1.
  destruct (status_code r =? 200)%Z eqn:Hz; [| by intros [= <- <-]]. apply Z.eqb_eq in Hz. intros _ _.
  split; [done |]. by exists r, e1.
Qed.

Lemma non_local_ready settings e u e' :
  run_blocking_startup_checks str_float settings e = (Ret u, e') -> is_local settings = false ->
  let e1 := (_check_postgres settings e).2 in
  let e2 := (_check_redis settings e1).2 in
  postgres_ready settings e /\ redis_ready settings e1 /\ opa_ready settings e2.
Proof.
  intros Hrun Hl. destruct (doctor_report settings e) as (c1 & e1 & c2 & e2 & c3 & e3 & rest & e4 & H1 & H2 & H3 & Hd & Hn & Hf).
  rewrite H1. cbn [snd]. rewrite H2. cbn [snd]. revert Hrun. unfold run_blocking_startup_checks. rewrite Hl. unfold bind. rewrite Hd.
  apply no_failures in Hf as [_ Hf]. injection Hn as N1 N2 N3 _. unfold blocking_failures in *. cbn [List.filter].
  rewrite Hf, N1, N2, N3. change (mem _ blocking_names) with true. cbn [andb].
  destruct (status_is "fail" c1) eqn:F1; [done |]. destruct (status_is "fail" c2) eqn:F2; [done |].
  destruct (status_is "fail" c3) eqn:F3; [done |]. intros _.
  split; [by eapply postgres_passed |]. split; [by eapply redis_passed | by eapply opa_passed].
Qed.

(** ** What the container is built on *)

Definition urls_given (settings : AppSettings) : Prop :=
  truthy (ap_database_url settings) = true /\ truthy (ap_redis_url settings) = true /\ truthy (ap_opa_url settings) = true.

(** Only the default allocation may be new. *)
Definition seeded (l l' : ledger) : Prop :=
  is_Some (allocations l' !! DEFAULT_BUDGET_PROJECT_ID) /\ reservations l' = reservations l /\ events l' = events l /\
  forall project, project <> DEFAULT_BUDGET_PROJECT_ID \/ is_Some (allocations l !! project) ->
    allocations l' !! project = allocations l !! project.

Definition claims_restored (a : admission) : Prop :=
  forall tid r, ad_tasks a !! tid = Some r -> mem (status r) _ACTIVE_STATUSES = true ->
    is_Some (ad_claims a !! (principal_id r, idempotency_key r)).

Definition institutional_present (l : agents) : Prop :=
  forall role, In role _INSTITUTIONAL_ROLES -> exists a, In a l /\ ag_role a = role.

Lemma seed_seeded l u l' : seed_default_allocation l = (Ret u, l') -> seeded l l'.
Proof.
  unfold seed_default_allocation, get_allocation, session, bind, get, gets, ret, raise, modify.
  destruct (db_up l) eqn:Hup; [| done].
  destruct (allocations l !! DEFAULT_BUDGET_PROJECT_ID) as [al |] eqn:Hd; [intros [= <- <-]; by split |].
  rewrite Hup. intros [= <- <-]. split; [by cbn; rewrite lookup_insert_eq |]. split; [done |]. split; [done |].
  intros project [Hne | Hs]; cbn; [by rewrite lookup_insert_ne |]. rewrite lookup_insert_ne; [done |]. intros <-.
  rewrite Hd in Hs. by destruct Hs.
Qed.

Lemma zoom_cases {S T A} (prj : S -> T) (upd : T -> S -> S) (m : M T A) s :
  zoom prj upd m s = ((m (prj s)).1, upd (m (prj s)).2 s).
Proof. unfold zoom. by destruct (m (prj s)). Qed.

Lemma restart_tasks a : ad_tasks (restart json_text sha256 a).2 = ad_tasks a.
Proof. by rewrite run_restart. Qed.

(** The three databases as a served process finds them. *)
Definition prepared (s s' : P) : Prop :=
  ad_tasks (ps_admission s') = ad_tasks (ps_admission s) /\ claims_restored (ps_admission s') /\
  seeded (ps_ledger s) (ps_ledger s') /\ institutional_present (ps_agents s').

Lemma build_prepares settings s sv s' :
  build settings s = (Ret sv, s') -> urls_given settings /\ prepared s s'.
Proof.
  unfold build_runtime_services, require_url. unfold bind, of_outcome. intros Hrun.
  destruct (truthy (ap_database_url settings)) eqn:U1; [| done]. destruct (truthy (ap_redis_url settings)) eqn:U2; [| done].
  destruct (truthy (ap_opa_url settings)) eqn:U3; [| done]. split; [done |]. revert Hrun.
  unfold ps_on_ext at 1. rewrite zoom_cases. destruct (pg_engine _ _) as [[[] | x] e1]; [| done].
  cbn [fst snd]. unfold ps_on_ext at 1. rewrite zoom_cases. destruct (redis_client _ _) as [[[] | x] e2]; [| done].
  cbn [fst snd ps_ledger ps_admission ps_agents]. unfold ps_on_ledger. rewrite zoom_cases. cbn [ps_ledger].
  destruct (seed_default_allocation (ps_ledger s)) as [[[] | x] l1] eqn:Hseed; [| done].
  cbn [fst snd ps_ledger ps_admission ps_agents]. unfold ps_on_admission at 1. rewrite zoom_cases. cbn [ps_admission].
  pose proof (restart_tasks (ps_admission s)) as Ht. pose proof (restart_covers json_text sha256 (ps_admission s)) as Hc.
  destruct (restart json_text sha256 (ps_admission s)) as [[n | x] a1]; [| done]. cbn [fst snd] in *.
  unfold ps_on_ext at 1. rewrite zoom_cases. destruct (let '(t, e') := utcnow _ in _) as [[now | x] e3]; [| done].
  cbn [fst snd ps_ledger ps_admission ps_agents]. unfold ps_on_agents at 1. rewrite zoom_cases. cbn [ps_agents].
  destruct (bootstrap_institutional_agents now (ps_agents s)) as [[found | x] l2] eqn:Hboot; [| done].
  unfold ps_on_admission, on_table, list_tasks, gets. rewrite zoom_cases. intros [= <- <-].
  split; [exact Ht |]. split; [| split; [by eapply seed_seeded |]]; cbn [ps_admission ps_agents fst snd].
  - intros tid r Hr Hact. apply Hc with tid; [| done]. by rewrite <- Ht.
  - exact (bootstrap_complete now (ps_agents s) found l2 Hboot).
Qed.

Definition same_databases (s s' : P) : Prop :=
  ps_ledger s' = ps_ledger s /\ ps_admission s' = ps_admission s /\ ps_agents s' = ps_agents s.

Definition guards_hold (settings : AppSettings) (e : E) : Prop :=
  let e1 := (_check_postgres settings e).2 in
  let e2 := (_check_redis settings e1).2 in
  ~ In (strip (st_connector_shared_secret (ap_runtime settings))) _UNSAFE_CONNECTOR_SECRETS /\
  postgres_ready settings e /\ redis_ready settings e1 /\ opa_ready settings e2.

Lemma create_cases settings s :
  let '(o, s') := create settings s in
  ((exists x, o = Raise x) /\ same_databases s s') \/
  (exists s1, same_databases s s1 /\ build settings s1 = (o, s') /\
     (is_local settings = true \/ guards_hold settings (ps_ext s))).
Proof.
  unfold create_control_plane_app. unfold bind at 1, of_outcome at 1.
  destruct (enforce_connector_secret_hardening settings) as [[] | x] eqn:Hsec; [| by left; split; [eexists |]].
  unfold bind at 1, ps_on_ext at 1. rewrite zoom_cases.
  pose proof (non_local_ready settings (ps_ext s)) as Hready.
  destruct (run_blocking_startup_checks _ _ _) as [[[] | x] e1]; cbn [fst snd]; [| by left; split; [eexists |]].
  assert (Hok : is_local settings = true \/ guards_hold settings (ps_ext s)).
  { destruct (is_local settings) eqn:Hl; [by left | right]. specialize (Hready tt e1 eq_refl eq_refl).
    split; [| exact Hready]. revert Hsec. unfold enforce_connector_secret_hardening. rewrite Hl.
    destruct (mem _ _) eqn:Hm; [done |]. intros _ Hin. by rewrite (proj2 (mem_In _ _) Hin) in Hm. }
  unfold bind at 1. destruct (truthy (ap_otlp_endpoint settings)).
  - unfold ps_on_ext at 1. rewrite zoom_cases. cbn [ps_ext ps_ledger ps_admission ps_agents].
    destruct (configure_otel _ e1) as [[[] | x] e2]; cbn [fst snd]; [| by left; split; [eexists |]].
    destruct (build settings _) as [o s'] eqn:Hb. right. eexists. by refine (conj _ (conj Hb Hok)).
  - unfold ret at 1. destruct (build settings _) as [o s'] eqn:Hb. right. eexists. by refine (conj _ (conj Hb Hok)).
Qed.

(** C15: The API serves only from a sound start.  When the application is created
    the three URLs were given and, outside local environments, the connector
    secret is not a default one and in this very run PostgreSQL answered and had
    migrations, Redis answered the ping and OPA its health request; every active
    task's idempotency key is claimed again, no task changed, the default budget
    exists and no other allocation, reservation or event changed, and every
    institutional role has an agent.  When a guard of a non-local start does not
    hold, the creation raises and no database has changed. *)
Theorem application_starts_fail_closed settings s o s' :
  create settings s = (o, s') ->
  (forall services, o = Ret services ->
     urls_given settings /\ prepared s s' /\ (is_local settings = true \/ guards_hold settings (ps_ext s))) /\
  (is_local settings = false -> ~ guards_hold settings (ps_ext s) -> (exists x, o = Raise x) /\ same_databases s s').
Proof.
  intros Hrun. pose proof (create_cases settings s) as Hc. rewrite Hrun in Hc. split.
  - intros sv ->. destruct Hc as [[[x Hx] _] | (s1 & (H1 & H2 & H3) & Hb & Hg)]; [done |].
    apply build_prepares in Hb as [Hu Hp]. unfold prepared in *. rewrite H1, H2 in Hp. done.
  - intros Hl Hg. destruct Hc as [Hc | (s1 & _ & _ & [Hl' | Hg'])]; [exact Hc | congruence | done].
Qed.
End facts.

(** * Samples *)

(** A world whose services answer or not. *)
Record toy_infra : Type := mk_toy_infra { ti_up : bool; ti_opa_status : Z }.

#[local] Instance toy_infra_oracle : Oracle toy_infra := {
  uuid4 := fun t => ("u", t);
  utcnow := fun t => (mk_datetime 2026 3 24 12 0 0 0, t)
}.

Definition toy_answer {A} (a : A) : M toy_infra A := fun t =>
  (if ti_up t then Ret a else Raise (OtherError "connection refused"), t).

#[local] Instance toy_infrastructure : Infrastructure toy_infra := {
  pg_connect := fun _ => toy_answer tt;
  pg_scalar := fun _ _ => toy_answer (Some 1%Z);
  pg_column := fun _ _ => toy_answer [Some "0017"];
  pg_engine := fun _ => ret tt;
  redis_client := fun _ => ret tt;
  redis_ping := fun _ => toy_answer tt;
  http_get := fun _ t => (Ret (mk_http_response (ti_opa_status t) (Ret (JObj []))), t);
  configure_otel := fun _ => ret tt
}.

Definition sample_runtime (secret : string) : RuntimeSettings :=
  mk_RuntimeSettings (Some "token") false "runtime_agent" None "{}" "" "http://api" secret "/oq" "owner" "{}" "" ""
    (f_of_Z 20) 1900 2 (f_lit 5 1) "".

Definition sample_settings (secret : string) : AppSettings :=
  mk_AppSettings "production" "postgresql://db" "redis://redis" "http://opa/" "" true (sample_runtime secret).

Definition sample_process (t : toy_infra) : process toy_infra :=
  mk_process t (mk_ledger true ∅ [] []) (mk_admission ∅ ∅) [].

#[local] Abbreviation toy_create :=
  (create_control_plane_app (E := toy_infra) bit_codec (fun _ => "") (fun x => x) (fun _ => None) (fun _ => "") (fun x => x)).

Lemma application_starts_fail_closed_witness :
  let served := toy_create (sample_settings "s3cret") (sample_process (mk_toy_infra true 200)) in
  (exists services, served.1 = Ret services) /\
  (urls_given (sample_settings "s3cret") /\ prepared (sample_process (mk_toy_infra true 200)) served.2 /\
   (is_local (sample_settings "s3cret") = true \/ guards_hold (sample_settings "s3cret") (mk_toy_infra true 200))).
Proof.
  cbv zeta. split; [by eexists |].
  destruct (application_starts_fail_closed bit_codec (fun _ => "") (fun x => x) (fun _ => None) (fun _ => "") (fun x => x)
    (sample_settings "s3cret") (sample_process (mk_toy_infra true 200)) _ _ (surjective_pairing _)) as [H _].
  eapply H. vm_compute. reflexivity.
Defined.

(** Without OPA the API does not start, but the orchestrator worker does. *)
Example worker_starts_without_opa :
  let s := sample_process (mk_toy_infra true 503) in
  let settings := sample_settings "s3cret" in
  (exists x, (toy_create settings s).1 = Raise x) /\
  match (orchestrator_worker_start bit_codec (fun _ => "") (fun x => x) (fun _ => None) (fun _ => "") (fun x => x)
           settings false s).1 with Ret (Some _) => True | _ => False end.
Proof. split; [eexists; vm_compute; reflexivity | vm_compute; exact I]. Qed.
