(* ===== verification/Release.v ===== *)
(** Release readiness: what must hold before a release candidate is promoted.

    Models [release_readiness/gate_matrix.py], [release_readiness/artifact_packaging.py],
    the catalogs of [observability/alerts/release_readiness.py] and the alert
    emitter of [observability/testing/stubs.py]. *)

From S2P Require Import Prelude PyStr PyData LlmSchemas Task Budget LoopControl Policy PyFloat Runtime.

(** A check of a validator: nothing, or its failure. *)
Definition unless (ok : bool) (failure : string) : list string := if ok then [] else [failure].

Definition filled (s : string) : bool := truthy (strip s).

(** [sorted({x for x in l if l.count(x) > 1})]. *)
Definition duplicates (l : list string) : list string :=
  sorted_set (List.filter (fun x => (1 <? length (List.filter (String.eqb x) l))%nat) l).

(** * The gate matrix *)

Inductive ReleaseGateCategory : Type := STATIC | TEST | SMOKE | CONFORMANCE.

#[export] Instance gate_category_eq_dec : EqDecision ReleaseGateCategory.
Proof. solve_decision. Defined.

Record ReleaseGateStep : Type := mk_ReleaseGateStep {
  gs_step_id : string;
  gs_category : ReleaseGateCategory;
  gs_command : string;
  gs_success_criteria : string;
  gs_required_for_promotion : bool;
  gs_runs_in_ci : bool
}.

Definition build_release_gate_matrix : list ReleaseGateStep :=
  [mk_ReleaseGateStep "lint_ruff_check" STATIC "uv run ruff check ." "exit code 0 and no lint violations" true true;
   mk_ReleaseGateStep "format_ruff_check" STATIC "uv run ruff format --check ." "exit code 0 and no format drift" true true;
   mk_ReleaseGateStep "type_mypy" STATIC "uv run mypy ." "exit code 0 and no type errors" true true;
   mk_ReleaseGateStep "spec_integrity" STATIC "uv run python ops/scripts/check_spec_integrity.py" "exit code 0 and no spec/doc drift violations" true true;
   mk_ReleaseGateStep "migration_rollback_readiness" STATIC "uv run python ops/scripts/check_migration_rollback_readiness.py" "exit code 0 and rollback-readiness policy checks pass" true true;
   mk_ReleaseGateStep "release_gate_matrix_integrity" STATIC "uv run python ops/scripts/check_release_gate_matrix.py" "exit code 0 and matrix/workflow/compose contracts align" true true;
   mk_ReleaseGateStep "pytest_unit" TEST "uv run pytest tests/unit" "all unit tests pass" true true;
   mk_ReleaseGateStep "pytest_component" TEST "uv run pytest tests/component" "all component tests pass (requires live OPA)" true true;
   mk_ReleaseGateStep "pytest_contract_integration" TEST "uv run pytest tests/contract tests/integration" "all contract/integration tests pass" true true;
   mk_ReleaseGateStep "pytest_conformance" CONFORMANCE "uv run pytest tests/conformance" "all conformance tests pass" true true;
   mk_ReleaseGateStep "full_profile_bootstrap_smoke" SMOKE "docker compose --profile full run --rm admin bootstrap --smoke-in-process" "admin bootstrap exits 0 under full profile with in-process smoke" true false].

(** [matrix or build_release_gate_matrix()]: an empty matrix is replaced too. *)
Definition given_matrix (matrix : option (list ReleaseGateStep)) : list ReleaseGateStep :=
  match matrix with Some (step :: steps) => step :: steps | _ => build_release_gate_matrix end.

Definition ci_gate_steps (matrix : option (list ReleaseGateStep)) : list ReleaseGateStep :=
  List.filter gs_runs_in_ci (given_matrix matrix).

Definition release_candidate_gate_steps (matrix : option (list ReleaseGateStep)) : list ReleaseGateStep :=
  List.filter gs_required_for_promotion (given_matrix matrix).

Definition of_category (c : ReleaseGateCategory) (step : ReleaseGateStep) : bool := bool_decide (gs_category step = c).

Definition duplicate_failure (what : string) (l : list string) : list string :=
  match duplicates l with
  | [] => []
  | d => ["duplicate " +:+ what +:+ " values: " +:+ join ", " d]
  end.

Definition step_failures (step : ReleaseGateStep) : list string :=
  unless (filled (gs_step_id step)) "step_id must be non-empty" ++
  unless (filled (gs_command step)) (gs_step_id step +:+ ": command must be non-empty") ++
  unless (filled (gs_success_criteria step)) (gs_step_id step +:+ ": success_criteria must be non-empty").

Definition validate_release_gate_matrix (matrix : option (list ReleaseGateStep)) : list string :=
  let source := given_matrix matrix in
  match source with
  | [] => ["release gate matrix must not be empty"]
  | _ =>
      let required_steps := List.filter gs_required_for_promotion source in
      let ci_steps := List.filter gs_runs_in_ci source in
      duplicate_failure "step_id" (map gs_step_id source) ++
      unless (negb (Nat.eqb (length required_steps) 0)) "matrix must contain required_for_promotion steps" ++
      unless (existsb (of_category SMOKE) required_steps) "matrix must contain at least one promotion-required smoke step" ++
      unless (existsb (of_category CONFORMANCE) required_steps)
        "matrix must contain at least one promotion-required conformance step" ++
      unless (negb (Nat.eqb (length ci_steps) 0)) "matrix must contain CI steps" ++
      unless (existsb (of_category CONFORMANCE) ci_steps) "CI steps must include at least one conformance gate" ++
      flat_map step_failures source
  end.

(** * The artifact bundle *)

Record ReleaseArtifactItem : Type := mk_ReleaseArtifactItem {
  ri_artifact_id : string;
  ri_description : string;
  ri_source_path : string;
  ri_evidence_ref : string;
  ri_required : bool
}.

Record PromotionDecisionPoint : Type := mk_PromotionDecisionPoint {
  dp_decision_id : string;
  dp_owner_role : string;
  dp_decision_prompt : string;
  dp_pass_criteria : string;
  dp_fail_action : string;
  dp_rollback_hook : string
}.

Record ReleaseArtifactBundle : Type := mk_ReleaseArtifactBundle {
  rb_bundle_schema_version : string;
  rb_release_version : string;
  rb_git_commit : string;
  rb_generated_at_utc : string;
  rb_artifacts : list ReleaseArtifactItem;
  rb_decision_points : list PromotionDecisionPoint;
  rb_artifact_index_ref : string;
  rb_promotion_checklist_ref : string
}.

Definition build_release_artifact_index_items : list ReleaseArtifactItem :=
  [mk_ReleaseArtifactItem "compose_full_profile" "Full-profile runtime topology and dependency startup order." "compose.yml" "M2-WP4 pgvector + M4-WP3 smoke gate alignment" true;
   mk_ReleaseArtifactItem "dependency_lock" "Reproducible dependency lock for release candidate." "uv.lock" "CI frozen sync contract" true;
   mk_ReleaseArtifactItem "migration_contract" "Schema and pgvector baseline migration contract." "migrations/versions/20260311_0001_pgvector_baseline_contract.py" "M2-WP4 migration baseline" true;
   mk_ReleaseArtifactItem "rollback_drill_contract" "Rollback drill modes and evidence output contract." "implementation/v1/quality/ReleaseVersioningAndRollback-v1.md" "M4-WP2" true;
   mk_ReleaseArtifactItem "release_gate_matrix_contract" "Deterministic CI/release-candidate gate matrix contract." "src/openqilin/release_readiness/gate_matrix.py" "M4-WP3" true;
   mk_ReleaseArtifactItem "observability_alert_contract" "Release-readiness dashboard and alert threshold baseline." "src/openqilin/observability/alerts/release_readiness.py" "M4-WP1" true;
   mk_ReleaseArtifactItem "artifact_index" "Operator-facing artifact index with traceability links." "implementation/v1/planning/ReleaseArtifactIndex-v1.md" "M4-WP4" true;
   mk_ReleaseArtifactItem "promotion_checklist" "Operator-facing promotion and rollback decision checklist." "implementation/v1/quality/ReleasePromotionChecklist-v1.md" "M4-WP4" true].

Definition build_promotion_decision_points : list PromotionDecisionPoint :=
  [mk_PromotionDecisionPoint "D1_ci_and_quality_gates" "administrator" "Are CI and mandatory quality gates green on the release candidate commit?" "All CI jobs pass, including release-gate/migration/spec integrity checks." "Block promotion and remediate failing gate before retry." "No rollback execution required; keep current production version unchanged because promotion is blocked.";
   mk_PromotionDecisionPoint "D2_release_candidate_gate_matrix" "auditor" "Do release-candidate gate matrix outputs confirm smoke + conformance readiness?" "release-candidate matrix command sequence is complete with no failed steps." "Declare release candidate non-promotable and open remediation work item." "If deployment already started, execute application rollback to last compatible version.";
   mk_PromotionDecisionPoint "D3_migration_and_rollback_readiness" "owner" "Are migration forward-apply and rollback drill records complete for this release?" "Migration contract checks pass and rollback drill evidence contains operator/reason/version." "Block promotion until migration/rollback evidence is complete and validated." "Execute restore-mode rollback using recorded backup/snapshot reference.";
   mk_PromotionDecisionPoint "D4_manual_go_no_go" "ceo" "Final go/no-go: should this release candidate be promoted?" "Owner, auditor, and administrator approvals are explicitly recorded." "Reject release candidate and retain current production baseline." "If post-promotion incidents occur, trigger incident rollback protocol and record audit metadata."].

(** [generated_at_utc or datetime.now(tz=UTC).isoformat()], at [now]. *)
Definition build_release_artifact_bundle (release_version git_commit : string) (generated_at_utc : option string)
    (now : datetime) : ReleaseArtifactBundle :=
  mk_ReleaseArtifactBundle "v1" release_version git_commit (default (isoformat now) (text_or_none generated_at_utc))
    build_release_artifact_index_items build_promotion_decision_points
    "implementation/v1/planning/ReleaseArtifactIndex-v1.md" "implementation/v1/quality/ReleasePromotionChecklist-v1.md".

(** [asdict(bundle)]. *)
Definition serialize_release_artifact_bundle (b : ReleaseArtifactBundle) : json :=
  JObj [("bundle_schema_version", JStr (rb_bundle_schema_version b)); ("release_version", JStr (rb_release_version b));
        ("git_commit", JStr (rb_git_commit b)); ("generated_at_utc", JStr (rb_generated_at_utc b));
        ("artifacts", JArr (map (fun a =>
           JObj [("artifact_id", JStr (ri_artifact_id a)); ("description", JStr (ri_description a));
                 ("source_path", JStr (ri_source_path a)); ("evidence_ref", JStr (ri_evidence_ref a));
                 ("required", JBool (ri_required a))]) (rb_artifacts b)));
        ("decision_points", JArr (map (fun d =>
           JObj [("decision_id", JStr (dp_decision_id d)); ("owner_role", JStr (dp_owner_role d));
                 ("decision_prompt", JStr (dp_decision_prompt d)); ("pass_criteria", JStr (dp_pass_criteria d));
                 ("fail_action", JStr (dp_fail_action d)); ("rollback_hook", JStr (dp_rollback_hook d))])
           (rb_decision_points b)));
        ("artifact_index_ref", JStr (rb_artifact_index_ref b));
        ("promotion_checklist_ref", JStr (rb_promotion_checklist_ref b))].

Definition newline : string := String (Ascii.ascii_of_nat 10) "".
Definition code (s : string) : string := "`" +:+ s +:+ "`".

Definition render_release_promotion_checklist_markdown (b : ReleaseArtifactBundle) : string :=
  join newline
    (["# Release Candidate Promotion Checklist (" +:+ rb_release_version b +:+ ")"; "";
      "- Git commit: " +:+ code (rb_git_commit b); "- Generated at UTC: " +:+ code (rb_generated_at_utc b);
      "- Artifact index: " +:+ code (rb_artifact_index_ref b); ""; "## Decision Points"] ++
     flat_map (fun d =>
       ["### " +:+ dp_decision_id d; "- Owner role: " +:+ code (dp_owner_role d); "- Decision: " +:+ dp_decision_prompt d;
        "- Pass criteria: " +:+ dp_pass_criteria d; "- Fail action: " +:+ dp_fail_action d;
        "- Rollback hook: " +:+ dp_rollback_hook d; ""]) (rb_decision_points b) ++
     ["## Required Artifacts"; ""] ++
     map (fun a =>
       "- " +:+ code (ri_artifact_id a) +:+ " (" +:+ (if ri_required a then "required" else "optional") +:+ "): " +:+
       code (ri_source_path a) +:+ " - " +:+ ri_description a +:+ " (evidence: " +:+ ri_evidence_ref a +:+ ")") (rb_artifacts b) ++
     [""]).

Definition artifact_failures (a : ReleaseArtifactItem) : list string :=
  unless (filled (ri_source_path a)) (ri_artifact_id a +:+ ": source_path must be non-empty") ++
  unless (filled (ri_evidence_ref a)) (ri_artifact_id a +:+ ": evidence_ref must be non-empty").

Definition decision_failures (d : PromotionDecisionPoint) : list string :=
  unless (contains (lower (dp_rollback_hook d)) "rollback") (dp_decision_id d +:+ ": rollback_hook must mention rollback behavior") ++
  unless (filled (dp_fail_action d)) (dp_decision_id d +:+ ": fail_action must be non-empty").

Definition validate_release_artifact_bundle (b : ReleaseArtifactBundle) : list string :=
  unless (filled (rb_release_version b)) "release_version must be non-empty" ++
  unless (filled (rb_git_commit b)) "git_commit must be non-empty" ++
  unless (negb (Nat.eqb (length (rb_artifacts b)) 0)) "artifact list must be non-empty" ++
  unless (negb (Nat.eqb (length (rb_decision_points b)) 0)) "decision_points must be non-empty" ++
  duplicate_failure "artifact_id" (map ri_artifact_id (rb_artifacts b)) ++
  duplicate_failure "decision_id" (map dp_decision_id (rb_decision_points b)) ++
  flat_map artifact_failures (rb_artifacts b) ++ flat_map decision_failures (rb_decision_points b).

(** * Dashboards and alerts *)

Record DashboardPanelDefinition : Type := mk_DashboardPanelDefinition {
  pd_panel_id : string;
  pd_title : string;
  pd_metric_name : string;
  pd_aggregation : string;
  pd_unit : string
}.

Record DashboardDefinition : Type := mk_DashboardDefinition {
  dd_dashboard_id : string;
  dd_title : string;
  dd_owner_role : string;
  dd_panels : list DashboardPanelDefinition
}.

Record AlertThresholdDefinition : Type := mk_AlertThresholdDefinition {
  th_metric_name : string;
  th_comparator : string;
  th_value : pyfloat;
  th_window_minutes : Z
}.

Record AlertRouteDefinition : Type := mk_AlertRouteDefinition {
  al_source_owner_role : string;
  al_primary_escalation_role : string;
  al_fallback_role : string
}.

Record ReleaseAlertDefinition : Type := mk_ReleaseAlertDefinition {
  rd_alert_type : string;
  rd_severity : string;
  rd_threshold : AlertThresholdDefinition;
  rd_route : AlertRouteDefinition;
  rd_runbook_ref : string
}.

Definition build_release_dashboard_catalog : list DashboardDefinition :=
  [mk_DashboardDefinition "governance_gate_health" "Governance Gate Health" "auditor" [mk_DashboardPanelDefinition "policy_deny_rate" "Policy Deny Rate" "owner_command_admission_outcomes_total" "rate_by_outcome" "ratio";
   mk_DashboardPanelDefinition "policy_eval_errors" "Policy Evaluation Errors" "owner_command_admission_outcomes_total" "rate_by_reason_code" "ratio"];
   mk_DashboardDefinition "task_orchestration_health" "Task Orchestration Health" "cwo" [mk_DashboardPanelDefinition "task_blocked_rate" "Task Blocked Rate" "owner_command_admission_outcomes_total" "rate_by_outcome" "ratio";
   mk_DashboardPanelDefinition "dispatch_latency" "Dispatch Latency" "owner_command_dispatch_latency_seconds" "p95" "seconds"];
   mk_DashboardDefinition "communication_reliability" "Communication Reliability" "administrator" [mk_DashboardPanelDefinition "callback_replay_rate" "Callback Replay Rate" "communication_callback_events_total" "rate_by_replayed" "ratio";
   mk_DashboardPanelDefinition "dead_letter_rate" "Dead-letter Rate" "communication_dead_letter_total" "rate" "ratio"];
   mk_DashboardDefinition "budget_and_escalation" "Budget and Escalation" "auditor" [mk_DashboardPanelDefinition "budget_hard_breach_count" "Budget Hard Breach Count" "budget_hard_breach_total" "sum" "count";
   mk_DashboardPanelDefinition "containment_latency" "Containment Latency" "governance_containment_latency_seconds" "p95" "seconds"];
   mk_DashboardDefinition "runtime_platform" "Runtime Platform" "administrator" [mk_DashboardPanelDefinition "collector_ingest_failures" "Collector Ingest Failures" "otel_collector_ingest_failures_total" "rate" "count";
   mk_DashboardPanelDefinition "error_budget_burn" "Error Budget Burn" "runtime_error_budget_burn_ratio" "latest" "ratio"]].

Definition build_release_alert_catalog : list ReleaseAlertDefinition :=
  [mk_ReleaseAlertDefinition "policy_eval_error_spike" "critical" (mk_AlertThresholdDefinition "owner_command_admission_outcomes_total" "gt" (f_lit 2 2) 5) (mk_AlertRouteDefinition "auditor" "owner" "ceo") "spec/infrastructure/operations/FailureAndRecoveryModel.md#2-recovery-posture-by-class";
   mk_ReleaseAlertDefinition "budget_hard_breach_detected" "critical" (mk_AlertThresholdDefinition "budget_hard_breach_total" "gte" (f_of_Z 1) 1) (mk_AlertRouteDefinition "auditor" "owner" "ceo") "spec/governance/architecture/EscalationModel.md#5-v1-operational-escalation-paths";
   mk_ReleaseAlertDefinition "safety_critical_incident" "critical" (mk_AlertThresholdDefinition "safety_critical_incident_total" "gte" (f_of_Z 1) 1) (mk_AlertRouteDefinition "auditor" "owner" "ceo") "spec/infrastructure/operations/FailureAndRecoveryModel.md#2-recovery-posture-by-class";
   mk_ReleaseAlertDefinition "orchestration_deadlock" "critical" (mk_AlertThresholdDefinition "task_orchestrator_no_progress_minutes" "gt" (f_of_Z 10) 10) (mk_AlertRouteDefinition "project_manager" "cwo" "ceo") "spec/infrastructure/operations/FailureAndRecoveryModel.md#3-restart-policy-boundaries";
   mk_ReleaseAlertDefinition "acp_dead_letter_spike" "critical" (mk_AlertThresholdDefinition "communication_dead_letter_total" "gt" (f_lit 1 2) 10) (mk_AlertRouteDefinition "administrator" "cwo" "ceo") "spec/infrastructure/operations/FailureAndRecoveryModel.md#2-recovery-posture-by-class";
   mk_ReleaseAlertDefinition "collector_ingest_failure" "critical" (mk_AlertThresholdDefinition "otel_collector_ingest_failures_total" "gt" f_zero 5) (mk_AlertRouteDefinition "administrator" "owner" "ceo") "spec/infrastructure/operations/DeploymentTopologyAndOps.md#5-deployment-pattern-phasing"].

(** A later definition of a type replaces an earlier one. *)
Definition release_alert_definitions_by_type : gmap string ReleaseAlertDefinition :=
  foldl (fun m d => <[rd_alert_type d := d]> m) ∅ build_release_alert_catalog.

Record AlertEmissionRequest : Type := mk_AlertEmissionRequest {
  aq_trace_id : string;
  aq_alert_type : string;
  aq_severity : string;
  aq_source_owner_role : option string;
  aq_rule_ids : list string;
  aq_message : string;
  aq_observed_value : option pyfloat
}.

Record AlertEvent : Type := mk_AlertEvent {
  al_event_id : string;
  al_trace_id : string;
  al_alert_type : string;
  al_severity : string;
  al_owner_role : string;
  al_next_owner_role : string;
  al_rule_ids : list string;
  al_timestamp : string;
  al_message : string;
  al_runbook_ref : string
}.

(** The emitter's events and its world. *)
Record emitter (E : Type) : Type := mk_emitter { em_ext : E; em_events : list AlertEvent }.
Arguments mk_emitter {E}.
Arguments em_ext {E}.
Arguments em_events {E}.

Section alerts.
Context {E : Type} `{!Oracle E} `{!AuditWriter E} `{!MetricRecorder E}.

#[local] Abbreviation S := (emitter E).

Definition em_on_ext {A} (m : M E A) : M S A := zoom em_ext (fun e s => mk_emitter e (em_events s)) m.

Definition alert_audit (event_type outcome : string) (event : AlertEvent) (role reason message : string)
    (payload : list (string * json)) : audit_event :=
  {| ae_event_type := event_type; ae_outcome := outcome; ae_event_trace_id := al_trace_id event;
     ae_event_request_id := None; ae_event_task_id := None; ae_event_principal_id := Some ("role:" +:+ role);
     ae_event_principal_role := Some role; ae_source := "observability_alert_emitter"; ae_reason_code := Some reason;
     ae_message := message; ae_policy_version := None; ae_policy_hash := None; ae_rule_ids := al_rule_ids event;
     ae_payload := JObj payload; ae_attributes := JNull |}.

(** [InMemoryAlertEmitter.emit]: the event and whether its owner was unresolved. *)
Definition emit (definitions : gmap string ReleaseAlertDefinition) (request : AlertEmissionRequest)
    : M S (AlertEvent * bool) :=
  match definitions !! aq_alert_type request with
  | None => raise (ValueError ("unsupported release alert type: " +:+ aq_alert_type request))
  | Some definition =>
      let owner := strip (default "" (aq_source_owner_role request)) in
      let fallback := mem owner [""; "unknown"; "ambiguous"] in
      let next_owner_role := if fallback then "ceo" else al_primary_escalation_role (rd_route definition) in
      let source_owner_role := if fallback then "unknown" else owner in
      let! event_id := em_on_ext (fun e => let '(u, e') := uuid4 e in (Ret u, e')) in
      let! now := em_on_ext (fun e => let '(t, e') := utcnow e in (Ret t, e')) in
      let event := mk_AlertEvent event_id (aq_trace_id request) (aq_alert_type request) (aq_severity request)
        source_owner_role next_owner_role (sorted str_leb (aq_rule_ids request)) (isoformat now) (aq_message request)
        (rd_runbook_ref definition) in
      modify (fun s => mk_emitter (em_ext s) (em_events s ++ [event])) ;!
      em_on_ext (modify (increment_counter "governance_alerts_total"
        [("alert_type", al_alert_type event); ("severity", al_severity event);
         ("next_owner_role", al_next_owner_role event)])) ;!
      em_on_ext (write_event (alert_audit "observability.alert.emitted" "alert_emitted" event source_owner_role
        (al_alert_type event) (al_message event)
        [("event_id", JStr (al_event_id event)); ("alert_type", JStr (al_alert_type event));
         ("severity", JStr (al_severity event)); ("source_owner_role", JStr (al_owner_role event));
         ("catalog_source_owner_role", JStr (al_source_owner_role (rd_route definition)));
         ("next_owner_role", JStr (al_next_owner_role event)); ("timestamp", JStr (al_timestamp event));
         ("runbook_ref", JStr (al_runbook_ref event));
         ("observed_value", match aq_observed_value request with Some f => JFloat f | None => JStr "" end)])) ;!
      (if fallback then
         em_on_ext (write_event (alert_audit "observability.alert.owner_resolution" "owner_resolution_fallback" event "ceo"
           "alert_owner_ambiguous" "alert source owner unresolved; fallback route to ceo"
           [("event_id", JStr (al_event_id event)); ("alert_type", JStr (al_alert_type event));
            ("resolved_owner_role", JStr "ceo")]))
       else ret tt) ;!
      ret (event, fallback)
  end.
End alerts.

(** * What the validators accept *)

Lemma unless_nil ok failure : unless ok failure = [] <-> ok = true.
Proof. by destruct ok. Qed.

Lemma flat_map_nil {A B} (f : A -> list B) l : flat_map f l = [] <-> Forall (fun x => f x = []) l.
Proof.
  induction l as [| x l IH]; [by split |]. cbn. rewrite app_nil, IH, Forall_cons. done.
Qed.

Lemma sorted_nil {A} (leb : A -> A -> bool) l : sorted leb l = [] -> l = [].
Proof.
  destruct l as [| x l]; [done |]. cbn. destruct (foldr (insert_sorted leb) [] l); cbn; [done |]. by destruct (leb x a).
Qed.

Lemma count_one x l : (length (List.filter (String.eqb x) l) <= 1)%nat -> forall l1 l2, l = l1 ++ x :: l2 -> ~ In x l1 /\ ~ In x l2.
Proof.
  intros Hl l1 l2 ->. rewrite List.filter_app, length_app in Hl. cbn in Hl. rewrite String.eqb_refl in Hl. cbn in Hl.
  assert (Hin : forall k, In x k -> (1 <= length (List.filter (String.eqb x) k))%nat).
  { intros k Hk. destruct (List.filter (String.eqb x) k) eqn:Hf; [| cbn; lia].
    assert (In x (List.filter (String.eqb x) k)) as Hx by (apply filter_In; split; [done | apply String.eqb_refl]).
    rewrite Hf in Hx. by destruct Hx. }
  split; intros Hx; apply Hin in Hx; lia.
Qed.

Lemma duplicates_none l : duplicates l = [] <-> NoDup l.
Proof.
  assert (Hd : forall k, sorted_set k = [] <-> k = []).
  { intros k. split; [| by intros ->]. intros Hs. apply sorted_nil in Hs. destruct k as [| x k]; [done |].
    assert (Hin : In x (dedup (x :: k))) by (apply dedup_In; by left). rewrite Hs in Hin. by destruct Hin. }
  unfold duplicates. rewrite Hd. split.
  - intros Hf. assert (Hall : forall x, In x l -> (length (List.filter (String.eqb x) l) <= 1)%nat).
    { intros x Hx. destruct (1 <? length (List.filter (String.eqb x) l))%nat eqn:E; [| by apply Nat.ltb_ge in E].
      assert (Hin : In x (List.filter (fun x => (1 <? length (List.filter (String.eqb x) l))%nat) l)) by by apply filter_In.
      rewrite Hf in Hin. by destruct Hin. }
    clear Hf. assert (H : forall l1 l2, l = l1 ++ l2 -> NoDup l2).
    { intros l1 l2. revert l1. induction l2 as [| x l2 IH]; intros l1 ->; [constructor |]. constructor.
      - rewrite list_elem_of_In. eapply count_one; [apply Hall, in_app_iff; right; by left | done].
      - apply (IH (l1 ++ [x])). by rewrite <- app_assoc. }
    by apply (H []).
  - intros Hnd. destruct (List.filter _ l) as [| x k] eqn:Hf; [done |].
    assert (Hx : In x (List.filter (fun x => (1 <? length (List.filter (String.eqb x) l))%nat) l)) by (rewrite Hf; by left).
    apply filter_In in Hx as [Hx Hc]. apply Nat.ltb_lt in Hc. exfalso. clear Hf k.
    assert (Hle : (length (List.filter (String.eqb x) l) <= 1)%nat); [| lia]. clear Hc Hx.
    induction Hnd as [| y l Hy Hnd IH]; cbn; [lia |]. destruct (String.eqb x y) eqn:E; [| exact IH].
    apply String.eqb_eq in E as <-. cbn. rewrite filter_none; [cbn; lia |]. intros z Hz. apply String.eqb_neq.
    intros <-. by apply Hy, list_elem_of_In.
Qed.

Lemma duplicate_failure_nil what l : duplicate_failure what l = [] <-> NoDup l.
Proof. unfold duplicate_failure. rewrite <- duplicates_none. by destruct (duplicates l). Qed.

Lemma length_pos {A} (l : list A) : negb (Nat.eqb (length l) 0) = true <-> l <> [].
Proof. by destruct l. Qed.

Lemma step_failures_nil step :
  step_failures step = [] <->
  filled (gs_step_id step) = true /\ filled (gs_command step) = true /\ filled (gs_success_criteria step) = true.
Proof. unfold step_failures. by rewrite !app_nil, !unless_nil. Qed.

Definition has_step (p : ReleaseGateStep -> bool) (c : ReleaseGateCategory) (m : list ReleaseGateStep) : Prop :=
  exists step, In step m /\ p step = true /\ gs_category step = c.

Lemma has_step_iff p c m : existsb (of_category c) (List.filter p m) = true <-> has_step p c m.
Proof.
  rewrite existsb_exists. unfold of_category, has_step. split; intros (step & H1 & H2); exists step.
  - apply filter_In in H1 as [? ?]. by apply bool_decide_eq_true in H2.
  - rewrite filter_In, bool_decide_eq_true. naive_solver.
Qed.

(** The validator of the gate matrix accepts a non-empty matrix exactly when its
    identifiers are unique, no text is blank, a smoke and a conformance step block
    the promotion and a conformance step runs in CI. *)
Theorem gate_matrix_valid_iff m :
  m <> [] ->
  (validate_release_gate_matrix (Some m) = [] <->
   NoDup (map gs_step_id m) /\ has_step gs_required_for_promotion SMOKE m /\
   has_step gs_required_for_promotion CONFORMANCE m /\ has_step gs_runs_in_ci CONFORMANCE m /\
   Forall (fun step => filled (gs_step_id step) = true /\ filled (gs_command step) = true /\
                       filled (gs_success_criteria step) = true) m).
Proof.
  intros Hm. unfold validate_release_gate_matrix. destruct m as [| step steps]; [done |]. cbn [given_matrix].
  set (m := step :: steps) in *. rewrite !app_nil, duplicate_failure_nil, !unless_nil, !length_pos, !has_step_iff, flat_map_nil.
  assert (Hf : forall p c, has_step p c m -> List.filter p m <> []).
  { intros p c (x & Hx & Hp & _) He. assert (Hin : In x (List.filter p m)) by by apply filter_In. by rewrite He in Hin. }
  setoid_rewrite step_failures_nil. split; [tauto |]. intros (H1 & H2 & H3 & H4 & H5). pose proof (Hf _ _ H2). pose proof (Hf _ _ H4). tauto.
Qed.

(** The same for the artifact bundle. *)
Theorem artifact_bundle_valid_iff b :
  validate_release_artifact_bundle b = [] <->
  filled (rb_release_version b) = true /\ filled (rb_git_commit b) = true /\
  rb_artifacts b <> [] /\ rb_decision_points b <> [] /\
  NoDup (map ri_artifact_id (rb_artifacts b)) /\ NoDup (map dp_decision_id (rb_decision_points b)) /\
  Forall (fun a => filled (ri_source_path a) = true /\ filled (ri_evidence_ref a) = true) (rb_artifacts b) /\
  Forall (fun d => contains (lower (dp_rollback_hook d)) "rollback" = true /\ filled (dp_fail_action d) = true)
    (rb_decision_points b).
Proof.
  unfold validate_release_artifact_bundle. rewrite !app_nil, !duplicate_failure_nil, !unless_nil, !length_pos, !flat_map_nil.
  assert (Ha : forall a, artifact_failures a = [] <-> filled (ri_source_path a) = true /\ filled (ri_evidence_ref a) = true).
  { intros a. unfold artifact_failures. by rewrite app_nil, !unless_nil. }
  assert (Hd : forall d, decision_failures d = [] <->
            contains (lower (dp_rollback_hook d)) "rollback" = true /\ filled (dp_fail_action d) = true).
  { intros d. unfold decision_failures. by rewrite app_nil, !unless_nil. }
  by setoid_rewrite Ha; setoid_rewrite Hd.
Qed.

(** The matrix and a bundle with a version and a commit that the code builds are
    valid. *)
Theorem shipped_release_is_valid version commit generated now :
  filled version = true -> filled commit = true ->
  validate_release_gate_matrix None = [] /\
  validate_release_artifact_bundle (build_release_artifact_bundle version commit generated now) = [].
Proof.
  intros Hv Hc. split; [vm_compute; done |]. unfold validate_release_artifact_bundle. cbn [rb_release_version rb_git_commit
    build_release_artifact_bundle rb_artifacts rb_decision_points]. rewrite Hv, Hc. vm_compute. done.
Qed.

(** The validator never sees an empty matrix: the default one is checked. *)
Example empty_matrix_is_accepted : validate_release_gate_matrix (Some []) = [].
Proof. vm_compute. done. Qed.

(** ** Alerts *)

(** Every catalogued alert has an owner to go to, and the source's own words
    decide: an unresolved source goes to the CEO. *)
Theorem alert_next_owner {E : Type} `{!Oracle E} `{!AuditWriter E} `{!MetricRecorder E} request (s : emitter E) event fallback s' :
  emit release_alert_definitions_by_type request s = (Ret (event, fallback), s') ->
  In event (em_events s') /\ al_alert_type event = aq_alert_type request /\
  fallback = mem (strip (default "" (aq_source_owner_role request))) [""; "unknown"; "ambiguous"] /\
  al_next_owner_role event =
    (if fallback then "ceo"
     else default "" ((fun d => al_primary_escalation_role (rd_route d)) <$> release_alert_definitions_by_type !! aq_alert_type request)).
Proof.
  unfold emit. destruct (release_alert_definitions_by_type !! _) as [d |]; [| done]. cbv zeta.
  unfold bind at 1, em_on_ext at 1, zoom. destruct (uuid4 _) as [id e1]. cbn [em_ext em_events].
  unfold bind at 1, em_on_ext at 1, zoom. cbn [em_ext em_events]. destruct (utcnow e1) as [now e2].
  set (event' := mk_AlertEvent _ _ _ _ _ _ _ _ _ _). unfold bind, modify, em_on_ext, zoom. cbn [em_ext em_events].
  destruct (write_event _ _) as [[u | x] e3]; [| done]. destruct (mem _ _) eqn:Hf.
  - destruct (write_event _ _) as [[u' | x] e4]; [| done]. intros [= <- <- <-]. cbn [em_events].
    split; [apply in_app_iff; right; by left | done].
  - intros [= <- <- <-]. cbn [em_events]. split; [apply in_app_iff; right; by left | done].
Qed.
