(* ===== verification/Sandbox.v ===== *)
(** Sandbox profiles: the enforcer behind the [enforce_sandbox_profile] obligation.

    Models [execution_sandbox/profiles/enforcement.py].  The profile directory is
    the parameter [profile_text]: the text of a file, if it exists.  The enforcer
    is an instance of the interface [SandboxProfiles] the obligations use. *)

From S2P Require Import Prelude PyStr PyData LlmSchemas Task Budget LoopControl Policy AgentBase Runtime Obligations.

Record BoundProfile : Type := mk_BoundProfile {
  bp_dispatch_target : string;
  bp_profile_name : string;
  bp_profile : json
}.

Section enforcer.
Context {E : Type} (codec : json_codec) (str_float : spec_float -> string).
Context (profile_dir : string) (profile_text : string -> E -> option string).

Definition profile_path (profile_name : string) : string := profile_dir +:+ "/" +:+ profile_name +:+ ".json".

(** The text of [SandboxProfileNotFoundError]. *)
Definition profile_not_found (dispatch_target profile_name : string) : string :=
  "Seccomp profile '" +:+ profile_name +:+ "' not found for dispatch target '" +:+ dispatch_target +:+ "' (expected: " +:+
  profile_path profile_name +:+ ")".

(** [SandboxProfileEnforcer.bind]; the error is the missing file's, or the one
    [json.loads] raises. *)
Inductive bind_result : Type :=
  | Bound (profile : BoundProfile)
  | ProfileNotFound (message : string)
  | ProfileUnreadable.

Definition bind (dispatch_target profile_name : string) (e : E) : bind_result :=
  match profile_text (profile_path profile_name) e with
  | None => ProfileNotFound (profile_not_found dispatch_target profile_name)
  | Some text =>
      match loads codec text with
      | Some profile => Bound (mk_BoundProfile dispatch_target profile_name profile)
      | None => ProfileUnreadable
      end
  end.

(** The line the hook writes: no filter is installed. *)
Definition _apply_seccomp_filter (profile : json) : outcome string :=
  match profile with
  | JObj o =>
      let comment := match List.find (fun kv => String.eqb kv.1 "_comment") o with
                     | Some (_, v) => json_str str_float v
                     | None => "default"
                     end in
      Ret ("[sandbox] seccomp hook activated (profile='" +:+ comment +:+
           "'). Full BPF filter enforcement deferred to post-MVP-v2." +:+ String (Ascii.ascii_of_nat 10) "")
  | _ => Raise (OtherError "AttributeError: object has no attribute 'get'")
  end.

(** The [preexec_fn] a process gets, on that platform. *)
Definition as_popen_kwargs (platform : string) (b : BoundProfile) : option (outcome string) :=
  if String.eqb platform "Linux" then Some (_apply_seccomp_filter (bp_profile b)) else None.

(** The obligations' view: whether the profile is missing.  Reading a file that
    is no JSON raises, which the interface leaves out. *)
#[export] Instance SandboxProfileEnforcer : SandboxProfiles E := {
  bind_profile := fun target name e => match bind target name e with ProfileNotFound message => Some message | _ => None end
}.

(** ** Facts *)

(** A bound profile is the parsed file of that name for that target. *)
Lemma bind_exact target name e b :
  bind target name e = Bound b ->
  bp_dispatch_target b = target /\ bp_profile_name b = name /\
  exists text, profile_text (profile_path name) e = Some text /\ loads codec text = Some (bp_profile b).
Proof.
  unfold bind. destruct (profile_text _ e) as [text |] eqn:Ht; [| done].
  destruct (loads codec text) as [p |] eqn:Hp; [| done]. intros [= <-]. split; [done |]. split; [done |]. by exists text.
Qed.
End enforcer.

(** When the default profile's file, if there is one, is JSON: the obligation is
    satisfied exactly when it exists; it never blocks, and the profile bound for it is used by no process. *)
Theorem sandbox_obligation_follows_file {E C : Type} `{!BudgetRuntimeClient C} `{!Oracle E} `{!AuditWriter E}
    (codec : json_codec) (profile_dir : string) (profile_text : string -> E -> option string) context (w : world E C) :
  bind codec profile_dir profile_text (oc_target context) "default" (w_ext w) <> ProfileUnreadable ->
  let missing := profile_text (profile_path profile_dir "default") (w_ext w) = None in
  exists o, _handle_enforce_sandbox_profile (SandboxProfiles0 := SandboxProfileEnforcer codec profile_dir profile_text) context w
              = (Ret o, w) /\
    ob_blocking o = false /\ (ob_satisfied o = false <-> missing) /\
    (missing -> ob_reason o = profile_not_found profile_dir (oc_target context) "default").
Proof.
  cbv zeta. intros Hreadable. unfold _handle_enforce_sandbox_profile, Prelude.bind, gets. cbn [bind_profile SandboxProfileEnforcer].
  unfold bind in *. destruct (profile_text _ _) as [text |].
  - destruct (loads codec text); [| done]. eexists. split; [done |]. split; [done |]. by split.
  - eexists. split; [done |]. split; [done |]. by split.
Qed.
